(* ===== verification/_CoqProject ===== *)
-Q . S2P
Prelude.v
Memory.v
Bitmap.v
Pmm.v
Paging.v
PagingSpace.v
PagingLife.v
PagingInit.v
PagingProps.v
Heap.v
HeapInv.v
HeapOps.v
HeapProps.v
Scheduler.v
Timer.v
Ring.v
Ports.v
Keyboard.v
Mouse.v
Rtc.v
Input.v
Runtime.v
Pci.v
Serial.v
Vga.v
Graphics.v
GraphicsPaint.v
GraphicsBlit.v
GraphicsProps.v
Display.v
DiskCache.v
Ata.v
Diskfs.v
DiskfsAlloc.v
DiskfsInv.v
DiskfsPath.v
DiskfsData.v
DiskfsOps.v
DiskfsFiles.v
DiskfsChange.v
DiskfsFsck.v
DiskfsProps.v
Process.v
ProcessProps.v
ProcessFiles.v
Usermode.v
UsermodeLoad.v
UsermodeSpace.v
UsermodeImage.v
UsermodeRun.v
UsermodeDemo.v
Syscall.v
SyscallProps.v
SyscallSafe.v
SyscallDemo.v
Gdt.v
Idt.v
IdtProps.v
Windows.v
GuiKernel.v
Notepad.v
Terminal.v
UtilityApps.v
Assets.v
GuiState.v
AssetsLoad.v
GuiApps.v
GuiOverlay.v
GuiDraw.v
GuiSafe.v
GuiSafeApps.v
GuiSafeCommands.v
Gui.v
GuiProps.v
GuiDrawSafe.v
GuiRun.v
GuiRunProps.v
GuiDemo.v
Shell.v
ShellProps.v
