(* ===== verification/Prelude.v ===== *)
(** * MyOS: a verification library for the kernel under src/

    MyOS is a 32-bit x86 kernel in C with a desktop in C++. Its parts, and how
    they interact:

    - the physical page allocator (kernel/mm/pmm.c) is set up from the firmware's
      memory map and hands out pages to the heap and to paging;
    - paging (kernel/mm/paging.c) keeps the page directories and tables in memory,
      makes and destroys the address spaces of programs, and tells the processor;
    - the heap (kernel/mm/heap.c) carves pages into blocks with headers in memory;
    - user processes (kernel/core/usermode.c) are loaded from an ELF or MYOS image
      into an address space of their own, run, and are torn down; their system
      calls (kernel/core/syscall.c) go to the file system, the console and the
      desktop after a test of the pointers they pass;
    - the interrupt dispatcher (arch/x86/interrupts/idt.c) sends every vector to its
      driver, to the system calls or to the exception diagnostics, over the descriptor
      tables that it and arch/x86/gdt.c fill;
    - the timer interrupt counts a tick
      (kernel/drivers/platform/timer.c), which charges the running task
      (kernel/sched/scheduler.c), acknowledges the interrupt and may switch to
      another task's saved frame;
    - keyboard and mouse interrupts (kernel/drivers/input) decode bytes of the
      PS/2 controller into ring buffers and a cursor; the event queue
      (kernel/input/input.c) polls them for the desktop;
    - the file system (kernel/fs/diskfs/diskfs.c) keeps superblock, bitmap and
      inodes in memory, and goes to the disk driver (kernel/drivers/storage/ata.c)
      through a write-back cache of eight sectors;
    - graphics (kernel/graphics/graphics.c) writes pixels, rectangles, bitmaps and
      text into surfaces of 8, 16, 24 and 32 bits per pixel;
    - the text terminal (kernel/drivers/video/vga.c) draws characters on a surface
      of the graphics component; the wall clock (kernel/drivers/platform/rtc.c)
      is read through two ports; the PCI scan (kernel/drivers/platform/pci.c) lists
      the devices;
    - the desktop (kernel/gui) takes the events of the queue one after the other: a
      window manager, five applications (terminal, editor, file explorer, system
      monitor, about box), the task bar with its menu, and the mouse cursor drawn over
      the screen from an image (kernel/assets/assets.c); it starts programs, which
      come back to it through the system call that opens an application;
    - without a desktop the shell (kernel/shell/shell.c) reads lines from the keyboard
      and runs commands on the files, the processes and the memory; it falls back on
      files built into the kernel (kernel/fs/initrd.c);
    - the runtime library (lib/libk/runtime.c, user/libc/string.c) has the
      strings and number formatting that the other parts use.

    ** How the code is modelled

    A C function is a function in the monad [M S] over the record [S] of the
    static variables of its file: explicit state, and [None] where C would index
    out of an array, overflow a signed integer or run out of the fuel of a loop.
    A theorem [wp m Q s] (or [m s = Some ..]) therefore also says that none of
    this happens. Unsigned integers are [Z] with the wrap-around of their width
    written out ([u8], [u32], [+%], [-%], [*%]); signed arithmetic is checked.
    C loops are [for_], [for_exit], [for_state] (counted loops, with early exit
    and local variables) or fixpoints with fuel, whose bound is the length of
    the array they walk or the size they count down; the theorems show that the
    fuel is enough. Pointers into arrays are arrays with an index; where the code
    computes with addresses (paging, graphics) memory is a finite map from
    addresses to bytes, and an access outside it is stuck.
    Devices are parameters: classes of operations ([PortIO], [WordIO], [LongIO],
    [Console], [BlockDevice]) with classes of laws ([I8042], [TotalPorts], [Cmos],
    [Pic8259], [AtaDrive], [PciBus], [Disk]), each with a concrete instance that keeps
    the laws. The ATA driver over an [AtaDrive] is an instance of [Disk], so that the
    file system is proved down to the ports; what the standard leaves open, a flush
    command sent while the drive is still busy, is a law of its own ([AtaFlush]), used
    for the write only. Where one component uses
    another its theorems are proved against a class ([PageAllocator] with
    [PageAllocatorLaws], [Canvas] with [CanvasLaws]) of which the other
    component is an instance. The desktop is written against the class [GuiKernel]
    of the C functions it calls, with the laws [GuiKernelLaws]: [GuiDeviceLaws] (the
    counters and devices return and keep the kernel in order) and [GuiFileLaws] (a file
    written is read back), the second of which are proved of the file system at the end
    of GuiKernel. power_shutdown and power_restart end in a loop that never ends; the
    model has what they do before it, and goes on, so that statements about what follows
    are not about the program. The programs that the desktop starts
    are the parameter usermode_run_program, of which the theorems assume
    [programs_end]: a program ends, and has called nothing but what system calls
    offer. The loader of the images has the class [AssetFiles] and a heap with the laws
    [loader_laws]. The shell is written against [GuiKernel] and [ShellKernel], with the
    laws [ShellLaws] (what it calls returns, and memory it was given can be accessed)
    and [ShellKeysLaws] (the keys are read in the order they were typed).

    ** Files

    - Prelude: integers, the monad, loops, their weakest-precondition rules, the
      tactics [wp_step], [u32_simp], [bool_to_prop].
    - Memory: byte-addressed memory, little-endian loads and stores, and the
      relation [changes] that says which addresses a run may have changed.
    - Bitmap: arrays of words as sets of bits; the C idioms to set, clear and test
      a bit. Used by Pmm and by the file system.
    - Pmm: pmm.c. The allocator is first fit and complete, counts exactly, frees
      what was allocated, and starts with the usable pages of the memory map. At its
      end the interface of the page allocator, with pmm.c as its instance.
    - Paging: the translation of paging.c. PagingSpace (walks, mapping, unmapping),
      PagingLife (creation and destruction of address spaces) and PagingInit
      (initialization) are its lemmas, PagingProps its properties: what is mapped
      is found, mapping in one address space leaves the others alone, destruction
      returns the pages of creation, the processor holds no stale translation.
    - Heap: the translation of heap.c. HeapInv (the chain of blocks in memory) and
      HeapOps are its lemmas, HeapProps its properties: allocations are disjoint,
      writable and lose nothing on release.
    - Scheduler: scheduler.c. The reachable states as a step relation; exactly one
      task runs, its frame is never lost, exited tasks never return.
    - Timer: timer.c, pic_send_eoi and the timer branch of interrupt_dispatch. No
      run gets stuck, and no runnable task starves.
    - Ring: circular buffers and the bounded queue they represent.
    - Ports: the port and console classes.
    - Keyboard: keyboard.c refines an abstract keyboard of two bounded queues and
      modifier flags; what is typed is read.
    - Mouse: mouse.c. Safe on every byte stream, the cursor stays on the screen,
      what a packet means, and that the initialization terminates.
    - Rtc: rtc.c. Reading returns the time the chip shows, in each of its formats.
    - Input: input.c over Keyboard and Mouse. Polling drains the queue, and reports
      no event exactly when there is none.
    - Runtime: runtime.c, string.c and the shell's parse_u32. kstrcmp is the
      lexicographic order; formatting and parsing are inverse.
    - Pci: pci.c. The table lists the functions that answer, in the order of the buses.
    - Serial: serial.c. The text written arrives on the line.
    - Vga: vga.c. The terminal shows the last 24 lines of the text written to it.
    - Graphics: the translation of graphics.c. GraphicsPaint (pixels, rectangles,
      lines, text) and GraphicsBlit (copies, format conversion) are its lemmas,
      GraphicsProps its properties: every operation changes the pixels it names.
    - Display: graphics.c as the canvas of the terminal; the text of the terminal
      in the pixels of the framebuffer, in the colours of glyph and background.
    - DiskCache: the sector cache of diskfs.c refines an array of sectors, failures
      of the device included; a successful flush makes it durable.
    - Ata: ata.c. Over the protocol of a drive the driver reads and writes the sectors
      of a disk, and reports failures: it keeps the contract of DiskCache.
    - Diskfs: the translation of the rest of diskfs.c.
    - DiskfsAlloc, DiskfsInv, DiskfsPath, DiskfsData, DiskfsOps, DiskfsFiles,
      DiskfsChange, DiskfsFsck: its lemmas, from the bitmap and the consistency of
      the metadata ([meta_inv], [fs_inv]) over paths and sectors to the operations
      and fsck.
    - DiskfsProps: the properties of the file system, for absolute paths and for relative
      ones of up to 62 characters, and a small formatted disk.
    - Process, ProcessProps, ProcessFiles: the process table of usermode.c and its
      file descriptors, over the class [FileSource] that the file system implements.
    - Usermode: the loaders and the life of a program. UsermodeLoad (the images
      accepted agree with a declarative reading of the format), UsermodeSpace,
      UsermodeImage and UsermodeRun (a run gives back every page it took and
      leaves the kernel's memory alone) and UsermodeDemo (a program that runs).
    - Syscall: syscall.c over the classes [FilesSafe] and [GuiSafe]. SyscallProps
      (what a pointer test admits, what read delivers), SyscallSafe (no system call
      gets stuck or leaves the process table inconsistent), SyscallDemo (instances).
    - Gdt: gdt.c. The selectors name flat segments of the right rings.
    - Idt: the translation of idt.c. IdtProps: every vector ends at its entry, and every
      interrupt is handled, acknowledged and returns to a frame in memory.
    - GuiKernel: the classes of what the desktop uses of the kernel, and the file system
      as an instance of the laws about files.
    - Windows: window_manager.cpp and the window structure. A dragged or resized
      window stays on the desktop.
    - Notepad: notepad.cpp. The editor refines a string with a cursor at its end, and
      what is saved on the disk of diskfs.c is what is opened again.
    - Terminal: the text, command line and history of terminal.cpp. The screen refines
      a list of lines; the history recalls what was entered.
    - UtilityApps: the windows of utility_apps.cpp and the rows of the file explorer.
    - Assets: the wallpaper and the cursor of assets.c, drawn on surfaces.
    - AssetsLoad: the loader of the image files. What is loaded lies in memory with the
      size that its header says, or the image is not used.
    - GuiState, GuiApps, GuiOverlay, Gui: gui.cpp. Its state, hit testing and dirty
      regions; the applications and the commands of the terminal; the pixels saved
      under the cursor; the events.
    - GuiDraw: what desktop.cpp, the applications and gui.cpp draw. GuiDrawSafe: drawing
      changes nothing but the pixels of the back buffer.
    - GuiRun: painting, initialization and the loop of gui.cpp. GuiRunProps: the screen
      shows what was drawn; from the compiled-in state the desktop starts and every
      round of its loop handles the events in their order, paints, and keeps it in order.
    - GuiSafe, GuiSafeApps, GuiSafeCommands: the invariant of the desktop, a judgement
      [triple] for runs that keep it, and its rules for every operation. GuiProps: the
      properties, on every sequence of events. GuiDemo: a desktop over a small
      kernel, booted and run.
    - Shell: shell.c and initrd.c. ShellProps: reading is editing a line of at most 79
      characters; a round of the shell is exactly what the line asks for, by a table of
      words and the arguments as strings; where what it calls returns, it returns within
      its fuel (the keys before the enter key; 4096 things listed) and its arrays. At its
      end an instance over the small kernel.

    ** What is not modelled

    Null pointers, except where the code tests for them (surfaces, address
    spaces), and interrupts that arrive inside a C function: interrupts are
    separate steps between operations, which is how the code uses cli and sti. The
    assembly is left out: the entry into a program (usermode_enter) is a parameter
    of the run of a program, about which the theorems assume only what the
    processor enforces (a program writes where its address space lets it). The
    power driver is a parameter: after its port writes nothing runs. So are, for the
    start of the desktop, the heap and the initialization of the mouse and of the event
    queue, with what the desktop relies on. The sequence of calls of kernel_main, the
    user programs and their system call stubs, and the host tools are left out. *)

From Stdlib Require Import ZArith Lia Bool.
From stdpp Require Import base numbers list list_numbers gmap sets.

#[global] Open Scope Z_scope.

(** ** Machine integers

    An unsigned w-bit C object is a [Z] in [0, 2^w); arithmetic on it is
    arithmetic on [Z] followed by the wrap-around of its width. *)

Definition u8 (z : Z) : Z := z mod 2 ^ 8.
Definition u16 (z : Z) : Z := z mod 2 ^ 16.
Definition u32 (z : Z) : Z := z mod 2 ^ 32.
Definition u64 (z : Z) : Z := z mod 2 ^ 64.

(** Reinterpretation of the low bits as a two's complement number. *)
Definition i8 (z : Z) : Z := (z + 2 ^ 7) mod 2 ^ 8 - 2 ^ 7.
Definition i32 (z : Z) : Z := (z + 2 ^ 31) mod 2 ^ 32 - 2 ^ 31.

Declare Scope u32_scope.
Delimit Scope u32_scope with u32.
Notation "a +% b" := (u32 (a + b)) (at level 50, left associativity) : u32_scope.
Notation "a -% b" := (u32 (a - b)) (at level 50, left associativity) : u32_scope.
Notation "a *% b" := (u32 (a * b)) (at level 40, left associativity) : u32_scope.
#[global] Open Scope u32_scope.

(** Ranges of the C types, as decidable predicates. *)
Definition is_u8 (z : Z) : Prop := 0 ≤ z < 256.
Definition is_u32 (z : Z) : Prop := 0 ≤ z < 4294967296.
Definition is_i32 (z : Z) : Prop := -2147483648 ≤ z < 2147483648.

#[export] Instance is_u8_dec z : Decision (is_u8 z) := _.
#[export] Instance is_u32_dec z : Decision (is_u32 z) := _.
#[export] Instance is_i32_dec z : Decision (is_i32 z) := _.

(** ** The execution monad

    C code is a state transformer that can get stuck: [None] stands for an
    access outside an array (undefined behaviour) or for a loop that has used
    up its fuel. A total-correctness statement [wp m Q s] therefore includes
    that neither happens. *)

Definition M (S A : Type) : Type := S → option (A * S).

#[export] Instance M_ret S : MRet (M S) := λ A a s, Some (a, s).
#[export] Instance M_bind S : MBind (M S) := λ A B f m s,
  match m s with Some (a, s') => f a s' | None => None end.

Definition gets {S A} (f : S → A) : M S A := λ s, Some (f s, s).
Definition modify {S} (f : S → S) : M S unit := λ s, Some (tt, f s).
Definition stuck {S A} : M S A := λ _, None.
Definition lift {S A} (o : option A) : M S A := λ s, a ← o; Some (a, s).
Definition when {S} (b : bool) (m : M S unit) : M S unit := if b then m else mret tt.

(** A component's operation run on the part of a larger state that it owns. *)
Definition zoom {S T A} (get : S → T) (put : T → S → S) (m : M T A) : M S A := λ s,
  match m (get s) with Some (a, t) => Some (a, put t s) | None => None end.

(** Array accesses, stuck out of range. *)
Definition aread {A} (l : list A) (i : Z) : option A :=
  if 0 <=? i then l !! Z.to_nat i else None.
Definition awrite {A} (l : list A) (i : Z) (x : A) : option (list A) :=
  if (0 <=? i) && (i <? Z.of_nat (length l)) then Some (<[Z.to_nat i := x]> l) else None.

(** Signed 32-bit arithmetic is undefined when its result does not fit. *)
Definition checked (z : Z) : option Z := if bool_decide (is_i32 z) then Some z else None.

(** [for (i = lo; i < hi; i++) body], where [Some r] is an early exit. *)
Fixpoint for_steps {S R} (n : nat) (i : Z) (body : Z → M S (option R)) : M S (option R) :=
  match n with
  | O => mret None
  | Datatypes.S n' =>
      r ← body i;
      match r with Some x => mret (Some x) | None => for_steps n' (i + 1) body end
  end.
Definition for_exit {S R} (lo hi : Z) (body : Z → M S (option R)) : M S (option R) :=
  for_steps (Z.to_nat (hi - lo)) lo body.

(** The same loop when its body never leaves it early. *)
Definition for_ {S} (lo hi : Z) (body : Z → M S unit) : M S unit :=
  _ ← for_exit (R := Empty_set) lo hi (λ i, _ ← body i; mret None);
  mret tt.

(** A counting loop with local variables: [inl] goes on, [inr] leaves. *)
Fixpoint for_state_steps {S L R} (n : nat) (i : Z) (body : Z → L → M S (L + R)) (l : L) : M S (L + R) :=
  match n with
  | O => mret (inl l)
  | Datatypes.S n' =>
      r ← body i l;
      match r with inl l' => for_state_steps n' (i + 1) body l' | inr x => mret (inr x) end
  end.
Definition for_state {S L R} (lo hi : Z) (body : Z → L → M S (L + R)) (l : L) : M S (L + R) :=
  for_state_steps (Z.to_nat (hi - lo)) lo body l.

(** A general loop with local variables [L]: [inl] continues, [inr] leaves. *)
Fixpoint iterate {S L R} (fuel : nat) (step : L → M S (L + R)) (l : L) : M S R :=
  match fuel with
  | O => stuck
  | Datatypes.S fuel' =>
      r ← step l;
      match r with inl l' => iterate fuel' step l' | inr x => mret x end
  end.

(** A C [while] loop, followed for [2 ^ 32] rounds: a bound that no list of
    distinct addresses reaches. The count is binary, so that the bound costs nothing
    when the loop is evaluated. *)
Fixpoint while_rounds {S L R} (p : positive) (step : L → M S (L + R)) (l : L) : M S (L + R) :=
  match p with
  | xH => step l
  | xO p => r ← while_rounds p step l; match r with inl l' => while_rounds p step l' | inr x => mret (inr x) end
  | xI p =>
      r ← step l;
      match r with
      | inl l' => r ← while_rounds p step l'; match r with inl l' => while_rounds p step l' | inr x => mret (inr x) end
      | inr x => mret (inr x)
      end
  end.
Definition while_ {S L R} (step : L → M S (L + R)) (l : L) : M S R :=
  r ← while_rounds 4294967296 step l;
  match r with inl _ => stuck | inr x => mret x end.

(** ** Weakest preconditions (total correctness) *)

Definition wp {S A} (m : M S A) (Q : A → S → Prop) (s : S) : Prop :=
  ∃ a s', m s = Some (a, s') ∧ Q a s'.

Section wp_rules.
Context {S : Type}.
Implicit Types s : S.

Lemma wp_ret {A} (a : A) (Q : A → S → Prop) s : Q a s → wp (mret a) Q s.
Proof. intros. exists a, s. done. Qed.

Lemma wp_bind {A B} (m : M S A) (f : A → M S B) Q s :
  wp m (λ a, wp (f a) Q) s → wp (mbind f m) Q s.
Proof.
  intros (a & s1 & Hm & b & s2 & Hf & HQ). exists b, s2. split; [|done].
  unfold mbind, M_bind. by rewrite Hm.
Qed.

Lemma wp_gets {A} (f : S → A) (Q : A → S → Prop) s : Q (f s) s → wp (gets f) Q s.
Proof. intros. eexists _, _. split; [reflexivity|done]. Qed.

Lemma wp_modify (f : S → S) (Q : unit → S → Prop) s : Q tt (f s) → wp (modify f) Q s.
Proof. intros. eexists _, _. split; [reflexivity|done]. Qed.

Lemma wp_lift {A} (o : option A) (a : A) (Q : A → S → Prop) s :
  o = Some a → Q a s → wp (lift o) Q s.
Proof. intros -> ?. eexists _, _. split; [reflexivity|done]. Qed.

Lemma wp_checked z (Q : Z → S → Prop) s : is_i32 z → Q z s → wp (lift (checked z)) Q s.
Proof. intros Hz HQ. eapply wp_lift; [|done]. unfold checked. by rewrite bool_decide_eq_true_2. Qed.

Lemma wp_when (b : bool) (m : M S unit) (Q : unit → S → Prop) s :
  (b = true → wp m Q s) → (b = false → Q tt s) → wp (when b m) Q s.
Proof. destruct b; cbn; intros H1 H2; [auto|]. apply wp_ret. auto. Qed.

Lemma wp_when_modify (b : bool) (f : S → S) (Q : unit → S → Prop) s :
  Q tt (if b then f s else s) → wp (when b (modify f)) Q s.
Proof. intros HQ. apply wp_when; intros ->; [by apply wp_modify|done]. Qed.

Lemma wp_mono {A} (m : M S A) (Q Q' : A → S → Prop) s :
  wp m Q s → (∀ a s', Q a s' → Q' a s') → wp m Q' s.
Proof. intros (a & s' & Hm & HQ) H. exists a, s'. auto. Qed.

Lemma wp_zoom {T A} (get : S → T) (put : T → S → S) (m : M T A) (Q : A → S → Prop) s :
  wp m (λ a t, Q a (put t s)) (get s) → wp (zoom get put m) Q s.
Proof. intros (a & t & Hm & HQ). exists a, (put t s). unfold zoom. by rewrite Hm. Qed.

Lemma wp_and {A} (m : M S A) (Q1 Q2 : A → S → Prop) s :
  wp m Q1 s → wp m Q2 s → wp m (λ a s', Q1 a s' ∧ Q2 a s') s.
Proof.
  intros (a & s' & Hm & H1) (b & s2 & Hm' & H2). exists a, s'.
  rewrite Hm in Hm'. naive_solver.
Qed.

Lemma wp_run {A} (m : M S A) (Q : A → S → Prop) s a s' :
  m s = Some (a, s') → wp m Q s → Q a s'.
Proof. intros Hm (b & s2 & Hm' & HQ). rewrite Hm in Hm'. naive_solver. Qed.

Lemma wp_for_steps {R} n lo (body : Z → M S (option R)) (I : Z → S → Prop) Q s :
  I lo s →
  (∀ i s, lo ≤ i < lo + Z.of_nat n → I i s →
     wp (body i) (λ r s', match r with None => I (i + 1) s' | Some x => Q (Some x) s' end) s) →
  (∀ s, I (lo + Z.of_nat n) s → Q None s) →
  wp (for_steps n lo body) Q s.
Proof.
  revert lo s. induction n as [|n IH]; intros lo s HI Hbody Hend; cbn [for_steps].
  - apply wp_ret, Hend. by rewrite Z.add_0_r.
  - apply wp_bind. eapply wp_mono; [apply Hbody; [lia|done]|].
    intros [x|] s' H; [by apply wp_ret|]. cbn in H. apply IH; [done| |].
    + intros i s'' Hi. apply Hbody. lia.
    + intros s'' H'. apply Hend. replace (lo + Z.of_nat (Datatypes.S n)) with (lo + 1 + Z.of_nat n) by lia. done.
Qed.

(** The loop invariant [I i] holds at the head of the iteration [i]. *)
Lemma wp_for_exit {R} lo hi (body : Z → M S (option R)) (I : Z → S → Prop) Q s :
  lo ≤ hi →
  I lo s →
  (∀ i s, lo ≤ i < hi → I i s →
     wp (body i) (λ r s', match r with None => I (i + 1) s' | Some x => Q (Some x) s' end) s) →
  (∀ s, I hi s → Q None s) →
  wp (for_exit lo hi body) Q s.
Proof.
  intros Hle HI Hbody Hend. unfold for_exit.
  apply (wp_for_steps _ _ _ I); [done| |].
  - intros i s' Hi. apply Hbody. lia.
  - intros s' H. apply Hend. replace hi with (lo + Z.of_nat (Z.to_nat (hi - lo))) by lia. done.
Qed.

Lemma wp_for lo hi (body : Z → M S unit) (I : Z → S → Prop) (Q : unit → S → Prop) s :
  lo ≤ hi →
  I lo s →
  (∀ i s, lo ≤ i < hi → I i s → wp (body i) (λ _, I (i + 1)) s) →
  (∀ s, I hi s → Q tt s) →
  wp (for_ lo hi body) Q s.
Proof.
  intros Hle HI Hbody Hend. apply wp_bind, (wp_for_exit _ _ _ I); [done|done| |].
  - intros i s' Hi HI'. apply wp_bind. eapply wp_mono; [by apply Hbody|].
    intros [] s'' ?. by apply wp_ret.
  - intros s' H. apply wp_ret. auto.
Qed.

Lemma wp_for_state_steps {L R} n lo (body : Z → L → M S (L + R)) (I : Z → L → S → Prop) Q l s :
  I lo l s →
  (∀ i l s, lo ≤ i < lo + Z.of_nat n → I i l s →
     wp (body i l) (λ r s', match r with inl l' => I (i + 1) l' s' | inr x => Q (inr x) s' end) s) →
  (∀ l s, I (lo + Z.of_nat n) l s → Q (inl l) s) →
  wp (for_state_steps n lo body l) Q s.
Proof.
  revert lo l s. induction n as [|n IH]; intros lo l s HI Hbody Hend; cbn [for_state_steps].
  - apply wp_ret, Hend. by rewrite Z.add_0_r.
  - apply wp_bind. eapply wp_mono; [apply Hbody; [lia|done]|].
    intros [l'|x] s' H; [|by apply wp_ret]. cbn in H. apply IH; [done| |].
    + intros i l2 s'' Hi. apply Hbody. lia.
    + intros l2 s'' H'. apply Hend. replace (lo + Z.of_nat (Datatypes.S n)) with (lo + 1 + Z.of_nat n) by lia. done.
Qed.

Lemma wp_for_state {L R} lo hi (body : Z → L → M S (L + R)) (I : Z → L → S → Prop) Q l s :
  lo ≤ hi →
  I lo l s →
  (∀ i l s, lo ≤ i < hi → I i l s →
     wp (body i l) (λ r s', match r with inl l' => I (i + 1) l' s' | inr x => Q (inr x) s' end) s) →
  (∀ l s, I hi l s → Q (inl l) s) →
  wp (for_state lo hi body l) Q s.
Proof.
  intros Hle HI Hbody Hend. unfold for_state.
  apply (wp_for_state_steps _ _ _ I); [done| |].
  - intros i l' s' Hi. apply Hbody. lia.
  - intros l' s' H. apply Hend. replace hi with (lo + Z.of_nat (Z.to_nat (hi - lo))) by lia. done.
Qed.

(** A loop terminates when a measure bounded by the fuel decreases. *)
Lemma wp_iterate {L R} fuel (step : L → M S (L + R)) (I : L → S → Prop) (μ : L → nat) Q l s :
  (μ l < fuel)%nat →
  I l s →
  (∀ l s, I l s →
     wp (step l) (λ r s', match r with
                          | inl l' => I l' s' ∧ (μ l' < μ l)%nat
                          | inr x => Q x s' end) s) →
  wp (iterate fuel step l) Q s.
Proof.
  intros Hf HI Hstep. revert l s Hf HI.
  induction fuel as [|fuel IH]; intros l s Hf HI; [lia|]. cbn [iterate].
  apply wp_bind. eapply wp_mono; [by apply Hstep|].
  intros [l'|x] s' H; [|by apply wp_ret]. destruct H as [H Hm]. apply IH; [lia|done].
Qed.

(** The same when the measure is one of the state. *)
Lemma wp_iterate_state {L R} fuel (step : L → M S (L + R)) (μ : S → nat) (Q : R → S → Prop) l s :
  (μ s < fuel)%nat →
  (∀ l s, wp (step l) (λ r s', match r with inl _ => (μ s' < μ s)%nat | inr x => Q x s' end) s) →
  wp (iterate fuel step l) Q s.
Proof.
  intros Hf Hstep. revert l s Hf.
  induction fuel as [|fuel IH]; intros l s Hf; [lia|]. cbn [iterate].
  apply wp_bind. eapply wp_mono; [by apply Hstep|].
  intros [l'|x] s' H; [|by apply wp_ret]. apply IH. cbn in H. lia.
Qed.

(** A loop whose invariant [I n] counts down in [n] ends within [n] rounds. *)
Lemma wp_while_rounds {L R} p (step : L → M S (L + R)) (I : Z → L → S → Prop) (Q : R → S → Prop) n l s :
  (∀ n l s, I n l s → wp (step l) (λ r s', match r with inl l' => ∃ n', n' < n ∧ I n' l' s' | inr x => Q x s' end) s) →
  I n l s →
  wp (while_rounds p step l) (λ r s', match r with inl l' => ∃ n', n' + Zpos p ≤ n ∧ I n' l' s' | inr x => Q x s' end) s.
Proof.
  intros Hstep. revert n l s. induction p as [p IH|p IH|]; intros n l s HI; cbn [while_rounds].
  - apply wp_bind. eapply wp_mono; [by apply Hstep|]. intros [l1|x] s1 H1; [|by apply wp_ret]. destruct H1 as (n1 & Hn1 & H1).
    apply wp_bind. eapply wp_mono; [by apply IH|]. intros [l2|x] s2 H2; [|by apply wp_ret]. destruct H2 as (n2 & Hn2 & H2).
    eapply wp_mono; [by apply IH|]. intros [l3|x] s3 H3; [|done]. destruct H3 as (n3 & ? & ?). exists n3. split; [lia|done].
  - apply wp_bind. eapply wp_mono; [by apply IH|]. intros [l2|x] s2 H2; [|by apply wp_ret]. destruct H2 as (n2 & Hn2 & H2).
    eapply wp_mono; [by apply IH|]. intros [l3|x] s3 H3; [|done]. destruct H3 as (n3 & ? & ?). exists n3. split; [lia|done].
  - eapply wp_mono; [by apply Hstep|]. intros [l1|x] s1 H1; [|done]. destruct H1 as (n1 & ? & ?). exists n1. split; [lia|done].
Qed.

Lemma wp_while {L R} (step : L → M S (L + R)) (I : Z → L → S → Prop) (Q : R → S → Prop) n l s :
  I n l s →
  (∀ n l s, I n l s → 0 ≤ n < 4294967296 ∧
     wp (step l) (λ r s', match r with inl l' => ∃ n', n' < n ∧ I n' l' s' | inr x => Q x s' end) s) →
  wp (while_ step l) Q s.
Proof.
  intros HI Hstep. apply wp_bind. eapply wp_mono; [apply (wp_while_rounds _ _ I Q n); [intros; by apply Hstep|done]|].
  intros [l'|x] s' H; [|by apply wp_ret]. destruct H as (n' & Hn & HI'). apply Hstep in HI as [? _]. apply Hstep in HI' as [? _]. lia.
Qed.
End wp_rules.

(** One symbolic step; the lemmas about a component's own operations are
    added to the database [wp]. *)
Create HintDb wp discriminated.
Ltac wp_step :=
  lazymatch goal with
  | |- wp (mbind _ _) _ _ => apply wp_bind
  | |- wp (mret _) _ _ => apply wp_ret
  | |- wp (gets _) _ _ => apply wp_gets
  | |- wp (modify _) _ _ => apply wp_modify
  | |- wp (lift _) _ _ => eapply wp_lift; [first [eassumption | reflexivity]|]
  | |- wp (when _ _) _ _ => apply wp_when; intros ?
  | |- wp (zoom _ _ _) _ _ => apply wp_zoom
  | |- wp (if ?b then _ else _) _ _ => destruct b eqn:?
  | |- wp (match ?x with _ => _ end) _ _ => destruct x eqn:?
  end; cbn beta.
Ltac wp_steps := repeat wp_step.

(** Turns a goal about the outcome of a run [H : m s = Some (a, s')] into the
    weakest precondition of [m]. *)
Ltac by_run H :=
  lazymatch type of H with
  | _ = Some (?a, ?s') =>
      first [ is_var a; pattern a, s';
              lazymatch goal with |- ?P a s' => refine (wp_run _ P _ _ _ H _) end
            | pattern s'; lazymatch goal with |- ?P s' => refine (wp_run _ (λ _, P) _ _ _ H _) end ];
      clear H; cbn beta
  end.

(** ** Integer facts *)

Lemma u32_small z : is_u32 z → u32 z = z.
Proof. intros. apply Z.mod_small. done. Qed.
Lemma u32_range z : is_u32 (u32 z).
Proof. unfold is_u32, u32. pose proof (Z.mod_pos_bound z (2 ^ 32)). lia. Qed.
Lemma u32_add_l a b : u32 (u32 a + b) = u32 (a + b).
Proof. unfold u32. by rewrite Zplus_mod_idemp_l. Qed.
Lemma u8_small z : is_u8 z → u8 z = z.
Proof. intros. apply Z.mod_small. done. Qed.
Lemma u8_range z : is_u8 (u8 z).
Proof. unfold is_u8, u8. pose proof (Z.mod_pos_bound z (2 ^ 8)). lia. Qed.
Lemma i8_range z : -128 ≤ i8 z < 128.
Proof. unfold i8. pose proof (Z.mod_pos_bound (z + 2 ^ 7) (2 ^ 8)). lia. Qed.
Lemma u64_small z : 0 ≤ z < 2 ^ 64 → u64 z = z.
Proof. intros. by apply Z.mod_small. Qed.

Create HintDb width discriminated.
#[export] Hint Resolve u32_range u8_range : width.

(** Rewrites [u32 e] to [e] wherever the context bounds [e]. *)
Ltac u32_simp :=
  repeat match goal with
         | |- context [u32 ?e] => rewrite (u32_small e) by (unfold is_u32 in *; lia)
         | H : context [u32 ?e] |- _ => rewrite (u32_small e) in H by (unfold is_u32 in *; lia)
         end.

(** Turns boolean comparisons in the context into propositions. *)
Ltac bool_to_prop :=
  repeat match goal with
         | H : (_ && _) = true |- _ => apply andb_true_iff in H as [? ?]
         | H : (_ || _) = false |- _ => apply orb_false_iff in H as [? ?]
         | H : (_ && _) = false |- _ => apply andb_false_iff in H
         | H : (_ || _) = true |- _ => apply orb_true_iff in H
         | H : negb _ = true |- _ => apply negb_true_iff in H
         | H : negb _ = false |- _ => apply negb_false_iff in H
         | H : (_ =? _) = true |- _ => apply Z.eqb_eq in H
         | H : (_ =? _) = false |- _ => apply Z.eqb_neq in H
         | H : (_ <? _) = true |- _ => apply Z.ltb_lt in H
         | H : (_ <? _) = false |- _ => apply Z.ltb_ge in H
         | H : (_ <=? _) = true |- _ => apply Z.leb_le in H
         | H : (_ <=? _) = false |- _ => apply Z.leb_gt in H
         end.

(** ** Arrays *)

Lemma aread_Some {A} (l : list A) i x : aread l i = Some x ↔ 0 ≤ i ∧ l !! Z.to_nat i = Some x.
Proof. unfold aread. destruct (Z.leb_spec 0 i); split; intros; [done|tauto|done|lia]. Qed.

Lemma aread_is_Some {A} (l : list A) i : 0 ≤ i < Z.of_nat (length l) → ∃ x, aread l i = Some x.
Proof.
  intros H. destruct (lookup_lt_is_Some_2 l (Z.to_nat i)) as [x Hx]; [lia|].
  exists x. apply aread_Some. split; [lia|done].
Qed.

Lemma aread_range {A} (l : list A) i x : aread l i = Some x → 0 ≤ i < Z.of_nat (length l).
Proof. intros [? H%lookup_lt_Some]%aread_Some. lia. Qed.

Lemma awrite_eq {A} (l : list A) i x :
  0 ≤ i < Z.of_nat (length l) → awrite l i x = Some (<[Z.to_nat i := x]> l).
Proof.
  intros H. unfold awrite.
  rewrite (proj2 (Z.leb_le 0 i)), (proj2 (Z.ltb_lt i _)) by lia. done.
Qed.

Lemma aread_insert_eq {A} (l : list A) i x :
  0 ≤ i < Z.of_nat (length l) → aread (<[Z.to_nat i := x]> l) i = Some x.
Proof. intros H. apply aread_Some. split; [lia|]. apply list_lookup_insert_eq. lia. Qed.

Lemma aread_insert_ne {A} (l : list A) i j x :
  0 ≤ i → i ≠ j → aread (<[Z.to_nat i := x]> l) j = aread l j.
Proof.
  intros H Hne. unfold aread. destruct (Z.leb_spec 0 j); [|done].
  apply list_lookup_insert_ne. lia.
Qed.

Lemma aread_nat {A} (b : list A) i : 0 ≤ i → aread b i = b !! Z.to_nat i.
Proof. intros H. unfold aread. by rewrite (proj2 (Z.leb_le 0 i)). Qed.

(** The first [i] places of [b] filled from [a]. *)
Lemma filled_insert {A} (a b : list A) i c : a !! i = Some c → (i < length b)%nat →
  <[i := c]> (take i a ++ drop i b) = take (S i) a ++ drop (S i) b.
Proof.
  intros Ha Hb. pose proof (lookup_lt_Some _ _ _ Ha). rewrite insert_app_r_alt by (rewrite length_take; lia). rewrite length_take, Nat.min_l, Nat.sub_diag by lia.
  destruct (lookup_lt_is_Some_2 b i Hb) as [d Hd]. rewrite (drop_S b d i Hd). cbn. by rewrite (take_S_r a i c Ha), <- app_assoc.
Qed.
Lemma filled_end {A} (a b : list A) i x : (i ≤ length a)%nat → (i < length b)%nat → <[i := x]> (take i a ++ drop i b) = take i a ++ x :: drop (S i) b.
Proof.
  intros Ha Hb. rewrite insert_app_r_alt by (rewrite length_take; lia). rewrite length_take, Nat.min_l, Nat.sub_diag by lia.
  destruct (lookup_lt_is_Some_2 b i Hb) as [d Hd]. by rewrite (drop_S b d i Hd).
Qed.

(** ** Masks *)

Lemma land_u32_r e x : is_u32 e → Z.land e (u32 x) = Z.land e x.
Proof.
  intros He. unfold u32. rewrite <- Z.land_ones by lia.
  rewrite (Z.land_comm x), Z.land_assoc, (Z.land_ones e) by lia.
  rewrite Z.mod_small; [done|]. exact He.
Qed.

(** Masking the low [k] bits away rounds down to a multiple of [2 ^ k]. *)
Lemma land_not_ones e k : is_u32 e → 0 ≤ k →
  Z.land e (u32 (Z.lnot (2 ^ k - 1))) = e / 2 ^ k * 2 ^ k.
Proof.
  intros He Hk. rewrite land_u32_r by done.
  replace (2 ^ k - 1) with (Z.ones k) by (rewrite Z.ones_equiv; lia).
  rewrite <- Z.ldiff_land, Z.ldiff_ones_r by done.
  by rewrite Z.shiftr_div_pow2, Z.shiftl_mul_pow2 by done.
Qed.

(** Joining bit fields that do not overlap is addition. *)
Lemma lor_add a b : Z.land a b = 0 → Z.lor a b = a + b.
Proof. intros H. pose proof (Z.add_lor_land a b). lia. Qed.

Lemma land_low_high a b k : 0 ≤ k → 0 ≤ a < 2 ^ k → Z.land a (b * 2 ^ k) = 0.
Proof.
  intros Hk Ha. apply Z.bits_inj'. intros i Hi. rewrite Z.land_spec, Z.bits_0. destruct (Z.lt_ge_cases i k) as [Hlt|Hge].
  - rewrite Z.mul_pow2_bits_low by done. apply andb_false_r.
  - rewrite <- (Z.mod_small a (2 ^ k)) by done. by rewrite Z.mod_pow2_bits_high by lia.
Qed.

Lemma lor_shiftl_add a b k : 0 ≤ k → 0 ≤ a < 2 ^ k → Z.lor a (Z.shiftl b k) = a + b * 2 ^ k.
Proof. intros Hk Ha. rewrite Z.shiftl_mul_pow2 by done. by apply lor_add, land_low_high. Qed.
