(* ===== verification/Memory.v ===== *)
(** * Byte memory

    The memory that the kernel reaches through pointers: a finite map from the
    accessible addresses to bytes. An access of one, two or four bytes is
    little-endian, and stuck when one of its bytes is not accessible. Used by the
    components that write through raw pointers: graphics, paging and the heap. *)

From Stdlib Require Import ZArith Lia Bool.
From stdpp Require Import base numbers list gmap sets.
From S2P Require Import Prelude.

Abbreviation mem := (gmap Z Z).

Fixpoint load (n : nat) (m : mem) (a : Z) : option Z :=
  match n with
  | O => Some 0
  | S n' => b ← m !! a; r ← load n' m (a + 1); Some (b + 256 * r)
  end.

Fixpoint store (n : nat) (m : mem) (a v : Z) : option mem :=
  match n with
  | O => Some m
  | S n' => _ ← m !! a; store n' (<[a := v mod 256]> m) (a + 1) (v / 256)
  end.

(** The [n] bytes from [a] on are accessible. *)
Definition mapped (m : mem) (a n : Z) : Prop := ∀ b, a ≤ b < a + n → is_Some (m !! b).

Definition bytes_ok (m : mem) : Prop := ∀ a b, m !! a = Some b → is_u8 b.

(** [m'] differs from [m] at most in the [n] bytes from [a] on. *)
Record changes (m m' : mem) (a n : Z) : Prop := {
  ch_same : ∀ b, ¬ (a ≤ b < a + n) → m' !! b = m !! b;
  ch_mapped : ∀ b, is_Some (m' !! b) ↔ is_Some (m !! b);
  ch_bytes : bytes_ok m → bytes_ok m' }.

Lemma mapped_sub m a n a' n' : mapped m a n → a ≤ a' → a' + n' ≤ a + n → mapped m a' n'.
Proof. intros Hm H1 H2 b Hb. apply Hm. lia. Qed.

Lemma changes_refl m a n : changes m m a n.
Proof. by split. Qed.

Lemma changes_trans m m1 m2 a n : changes m m1 a n → changes m1 m2 a n → changes m m2 a n.
Proof.
  intros [S1 M1 B1] [S2 M2 B2]. split; [|intros b; by rewrite M2, M1|auto]. intros b Hb. by rewrite S2, S1.
Qed.

Lemma changes_sub m m' a n a' n' : changes m m' a n → (0 < n → a' ≤ a ∧ a + n ≤ a' + n') → changes m m' a' n'.
Proof. intros [S M B] H. split; [|done|done]. intros b Hb. apply S. lia. Qed.

Lemma changes_mapped m m' a n a' n' : changes m m' a n → mapped m a' n' → mapped m' a' n'.
Proof. intros [_ M _] Hm b Hb. by apply M, Hm. Qed.

Lemma insert_is_Some (m : mem) a v b : is_Some (<[a := v]> m !! b) ↔ a = b ∨ is_Some (m !! b).
Proof.
  destruct (decide (a = b)) as [->|Hne]; [rewrite lookup_insert_eq|rewrite lookup_insert_ne by done]; [|tauto].
  split; [by left|by eexists].
Qed.

(** ** Loads *)

Lemma load_ext n m m' a : (∀ b, a ≤ b < a + Z.of_nat n → m' !! b = m !! b) → load n m' a = load n m a.
Proof.
  revert a. induction n as [|n IH]; intros a Hb; [done|]. cbn [load].
  rewrite Hb by lia. destruct (m !! a); [|done]. cbn. rewrite IH; [done|]. intros b ?. apply Hb. lia.
Qed.

Lemma load_is_Some n m a : mapped m a (Z.of_nat n) → ∃ v, load n m a = Some v.
Proof.
  revert a. induction n as [|n IH]; intros a Hm; [by exists 0|]. cbn [load].
  destruct (Hm a) as [b ->]; [lia|]. cbn. destruct (IH (a + 1)) as [r ->]; [|by eexists]. intros c Hc. apply Hm. lia.
Qed.

Lemma load_mapped n m a v : load n m a = Some v → mapped m a (Z.of_nat n).
Proof.
  revert a v. induction n as [|n IH]; intros a v E b Hb; [lia|]. cbn in E.
  destruct (m !! a) eqn:Ea; [|done]. cbn in E. destruct (load n m (a + 1)) eqn:El; [|done].
  destruct (decide (b = a)) as [->|]; [by rewrite Ea|]. apply (IH _ _ El). lia.
Qed.

(** A load of bytes is in the range of its width. *)
Lemma load_range n m a v : bytes_ok m → load n m a = Some v → 0 ≤ v < 256 ^ Z.of_nat n.
Proof.
  intros Hm. revert a v. induction n as [|n IH]; intros a v; cbn [load]; [intros [= <-]; cbn; lia|].
  destruct (m !! a) as [b|] eqn:Ea; [|done]. cbn. destruct (load n m (a + 1)) as [r|] eqn:El; [|done].
  intros [= <-]. apply Hm in Ea. apply IH in El. unfold is_u8 in Ea.
  rewrite Nat2Z.inj_succ, Z.pow_succ_r by lia. lia.
Qed.

(** ** Stores *)

Lemma store_is_Some n m a v : mapped m a (Z.of_nat n) → ∃ m', store n m a v = Some m'.
Proof.
  revert m a v. induction n as [|n IH]; intros m a v Hm; [by exists m|]. cbn [store].
  destruct (Hm a) as [b ->]; [lia|]. cbn. apply IH. intros c Hc. rewrite insert_is_Some. right. apply Hm. lia.
Qed.

Lemma store_changes n m a v m' : store n m a v = Some m' → changes m m' a (Z.of_nat n).
Proof.
  revert m a v. induction n as [|n IH]; intros m a v E; [injection E as <-; apply changes_refl|]. cbn [store] in E.
  destruct (m !! a) as [b|] eqn:Ea; [|done]. cbn in E. apply IH in E as [Es Em Eb]. split.
  - intros c Hc. rewrite Es by lia. by rewrite lookup_insert_ne by lia.
  - intros c. rewrite Em, insert_is_Some. split; [intros [<-|]; [by rewrite Ea|done]|by right].
  - intros Hm. apply Eb. intros c x. rewrite lookup_insert_Some. intros [[_ <-]|[_ Hc]]; [|by eapply Hm].
    unfold is_u8. apply Z.mod_pos_bound. lia.
Qed.

Lemma store_bytes_ok n m a v m' : bytes_ok m → store n m a v = Some m' → bytes_ok m'.
Proof. intros Hm E. by apply (ch_bytes _ _ _ _ (store_changes _ _ _ _ _ E)). Qed.

Lemma store_mapped n m a v m' : store n m a v = Some m' → mapped m a (Z.of_nat n).
Proof.
  revert m a v. induction n as [|n IH]; intros m a v E b Hb; [lia|]. cbn [store] in E.
  destruct (m !! a) as [x|] eqn:Ea; [|done]. cbn in E. destruct (decide (b = a)) as [->|]; [by rewrite Ea|].
  specialize (IH _ _ _ E b). rewrite insert_is_Some in IH. destruct IH; [lia|lia|done].
Qed.

Lemma load_store_eq n m a v m' : store n m a v = Some m' → load n m' a = Some (v mod 256 ^ Z.of_nat n).
Proof.
  revert m a v. induction n as [|n IH]; intros m a v E; [cbn; by rewrite Z.mod_1_r|].
  assert (Ea : m' !! a = Some (v mod 256)).
  { cbn [store] in E. destruct (m !! a); [|done]. cbn in E. rewrite (ch_same _ _ _ _ (store_changes _ _ _ _ _ E)) by lia.
    by rewrite lookup_insert_eq. }
  cbn [load store] in *. rewrite Ea. destruct (m !! a); [|done]. cbn in *. rewrite (IH _ _ _ E). cbn. f_equal.
  rewrite Nat2Z.inj_succ, Z.pow_succ_r, Z.rem_mul_r by lia. lia.
Qed.

Lemma load_store_ne n k m a b v m' : store n m a v = Some m' →
  b + Z.of_nat k ≤ a ∨ a + Z.of_nat n ≤ b → load k m' b = load k m b.
Proof.
  intros E Hd. apply load_ext. intros c Hc. eapply ch_same; [by eapply store_changes|lia].
Qed.

Lemma load_changes n m m' a l k : changes m m' a l → k + Z.of_nat n ≤ a ∨ a + l ≤ k → load n m' k = load n m k.
Proof. intros [S _] Hd. apply load_ext. intros b Hb. apply S. lia. Qed.

(** Storing the bytes of a value one by one. *)
Lemma store_snoc n m a v : store (S n) m a v = (m1 ← store n m a v; store 1 m1 (a + Z.of_nat n) (v / 256 ^ Z.of_nat n)).
Proof.
  revert m a v. induction n as [|n IH]; intros m a v.
  - cbn. by rewrite Z.add_0_r, Z.div_1_r.
  - change (store (S (S n)) m a v) with (_ ← m !! a; store (S n) (<[a := v mod 256]> m) (a + 1) (v / 256)).
    change (store (S n) m a v) with (_ ← m !! a; store n (<[a := v mod 256]> m) (a + 1) (v / 256)).
    destruct (m !! a); [|done]. cbn [mbind option_bind]. rewrite IH.
    replace (a + 1 + Z.of_nat n) with (a + Z.of_nat (S n)) by lia.
    rewrite Nat2Z.inj_succ, Z.pow_succ_r, Z.div_div by lia. done.
Qed.

Lemma store_mod n m a v : store n m a (v mod 256 ^ Z.of_nat n) = store n m a v.
Proof.
  revert m a v. induction n as [|n IH]; intros m a v; [done|]. cbn [store]. destruct (m !! a); [|done]. cbn.
  rewrite Nat2Z.inj_succ, Z.pow_succ_r by lia. set (p := 256 ^ Z.of_nat n). assert (0 < p) by (apply Z.pow_pos_nonneg; lia).
  rewrite Z.rem_mul_r by lia. rewrite (Z.mul_comm 256 (_ mod _)), Z.mod_add, Z.mod_mod, Z.div_add by lia.
  rewrite (Z.div_small (v mod 256)), Z.add_0_l by (apply Z.mod_pos_bound; lia). apply IH.
Qed.

(** ** Memory made of blocks, for concrete states *)

Definition mem_block (a : Z) (n : nat) : mem := list_to_map ((λ i, (a + Z.of_nat i, 0)) <$> seq 0 n).

Lemma mem_block_lookup a n b : mem_block a n !! b = if decide (a ≤ b < a + Z.of_nat n) then Some 0 else None.
Proof.
  unfold mem_block. set (l := (λ i : nat, (a + Z.of_nat i, 0)) <$> seq 0 n).
  assert (Hl : ∀ c x, (c, x) ∈ l ↔ x = 0 ∧ a ≤ c < a + Z.of_nat n).
  { intros c x. unfold l. rewrite list_elem_of_fmap. setoid_rewrite elem_of_seq. split.
    - intros (i & [= -> ->] & Hi). lia.
    - intros [-> Hc]. exists (Z.to_nat (c - a)). split; [f_equal; lia|lia]. }
  case_decide as Hb.
  - apply elem_of_list_to_map_1'; [|by apply Hl]. intros y Hy. apply Hl in Hy. symmetry. apply Hy.
  - apply not_elem_of_list_to_map_1. rewrite list_elem_of_fmap. intros ([c x] & -> & Hc). apply Hl in Hc. cbn in *. tauto.
Qed.

Lemma mem_block_mapped a n : mapped (mem_block a n) a (Z.of_nat n).
Proof. intros b Hb. rewrite mem_block_lookup. by rewrite decide_True. Qed.

Lemma mem_block_bytes a n : bytes_ok (mem_block a n).
Proof. intros c b. rewrite mem_block_lookup. case_decide; [|done]. intros [= <-]. unfold is_u8. lia. Qed.
