(* ===== verification/Bitmap.v ===== *)
(** * Bitmaps stored in arrays of w-bit words

    kernel/mm/pmm.c keeps one bit per page in 32-bit words, and
    kernel/fs/diskfs/diskfs.c one bit per sector in bytes. This file holds what
    the two share: the bit [p] of an array of [w]-bit words, the relation
    between an array and the boolean function it represents, and what the C
    idioms for setting, clearing and testing a bit do to that function. *)

From Stdlib Require Import ZArith Lia Bool.
From stdpp Require Import base numbers list list_numbers.
From S2P Require Import Prelude.

(** The bit [p] of the array, [None] out of range. *)
Definition bit_at (w : Z) (bm : list Z) (p : Z) : option bool :=
  x ← aread bm (p / w); Some (Z.testbit x (p mod w)).

(** The array [bm] of [w]-bit words holds the [n] bits of [f]. *)
Definition bitmap_is (w n : Z) (bm : list Z) (f : Z → bool) : Prop :=
  0 < w ∧ n = w * Z.of_nat (length bm) ∧ Forall (λ x, 0 ≤ x < 2 ^ w) bm ∧
  ∀ p, 0 ≤ p < n → bit_at w bm p = Some (f p).

(** [f] with the bit [p] set to [b]. *)
Definition upd_bit (f : Z → bool) (p : Z) (b : bool) : Z → bool :=
  λ q, if q =? p then b else f q.

(** ** The C idioms on one word *)

Lemma testbit_set x k j : 0 ≤ k → 0 ≤ j →
  Z.testbit (Z.lor x (Z.shiftl 1 k)) j = if j =? k then true else Z.testbit x j.
Proof.
  intros Hk Hj. rewrite Z.lor_spec, Z.shiftl_spec by lia.
  destruct (Z.eqb_spec j k) as [->|Hne].
  - rewrite Z.sub_diag. cbn. apply orb_true_r.
  - replace (Z.testbit 1 (j - k)) with false; [apply orb_false_r|].
    symmetry. destruct (Z.lt_ge_cases (j - k) 0); [by apply Z.testbit_neg_r|].
    apply (Z.bits_above_log2 1); [lia|]. change (Z.log2 1) with 0. lia.
Qed.

Lemma testbit_clear w x k j : 0 ≤ k → 0 ≤ j < w →
  Z.testbit (Z.land x (Z.lnot (Z.shiftl 1 k) mod 2 ^ w)) j = if j =? k then false else Z.testbit x j.
Proof.
  intros Hk Hj. rewrite Z.land_spec, Z.mod_pow2_bits_low, Z.lnot_spec by lia.
  pose proof (testbit_set 0 k j Hk ltac:(lia)) as H. rewrite Z.lor_0_l, Z.bits_0 in H. rewrite H.
  destruct (j =? k); cbn; [apply andb_false_r|apply andb_true_r].
Qed.

Lemma testbit_land_shiftl x k : 0 ≤ k →
  negb (Z.land x (Z.shiftl 1 k) =? 0) = Z.testbit x k.
Proof.
  intros Hk. destruct (Z.testbit x k) eqn:E.
  - apply negb_true_iff, Z.eqb_neq. intros H0.
    assert (Hb : Z.testbit (Z.land x (Z.shiftl 1 k)) k = true).
    { rewrite Z.land_spec, E, Z.shiftl_spec, Z.sub_diag by lia. done. }
    rewrite H0, Z.bits_0 in Hb. done.
  - apply negb_false_iff, Z.eqb_eq, Z.bits_inj'. intros j Hj.
    rewrite Z.land_spec, Z.bits_0.
    pose proof (testbit_set 0 k j Hk Hj) as H. rewrite Z.lor_0_l, Z.bits_0 in H. rewrite H.
    destruct (Z.eqb_spec j k) as [->|]; [by rewrite E|apply andb_false_r].
Qed.

Lemma shiftl_1_range w k : 0 ≤ k < w → 0 ≤ Z.shiftl 1 k < 2 ^ w.
Proof.
  intros H. rewrite Z.shiftl_mul_pow2, Z.mul_1_l by lia.
  split; [lia|]. apply Z.pow_lt_mono_r; lia.
Qed.

Lemma bounded_bits w x : 0 ≤ w → 0 ≤ x → (∀ j, w ≤ j → Z.testbit x j = false) → x < 2 ^ w.
Proof.
  intros Hw Hx H. destruct (Z.eq_dec x 0) as [->|Hne]; [lia|].
  apply Z.log2_lt_pow2; [lia|]. destruct (Z.lt_ge_cases (Z.log2 x) w); [done|].
  pose proof (Z.bit_log2 x ltac:(lia)) as Hb. rewrite H in Hb by lia. done.
Qed.

Lemma testbit_high w x j : 0 ≤ x < 2 ^ w → w ≤ j → Z.testbit x j = false.
Proof.
  intros Hx Hj. destruct (Z.lt_ge_cases w 0) as [|Hw].
  { rewrite Z.pow_neg_r in Hx by done. lia. }
  rewrite <- (Z.mod_small x (2 ^ w)) by lia. by apply Z.mod_pow2_bits_high.
Qed.

Lemma lor_range w x y : 0 ≤ w → 0 ≤ x < 2 ^ w → 0 ≤ y < 2 ^ w → 0 ≤ Z.lor x y < 2 ^ w.
Proof.
  intros Hw Hx Hy. split; [apply Z.lor_nonneg; lia|].
  apply bounded_bits; [done|apply Z.lor_nonneg; lia|].
  intros j Hj. rewrite Z.lor_spec, !(testbit_high w) by lia. done.
Qed.

Lemma land_range w x y : 0 ≤ w → 0 ≤ x < 2 ^ w → 0 ≤ Z.land x y < 2 ^ w.
Proof.
  intros Hw Hx. split; [apply Z.land_nonneg; lia|].
  apply bounded_bits; [done|apply Z.land_nonneg; lia|].
  intros j Hj. rewrite Z.land_spec, (testbit_high w x) by lia. done.
Qed.

(** ** Whole arrays *)

Section bitmap.
Context (w n : Z).
Implicit Types (bm : list Z) (f : Z → bool).

Lemma bitmap_word bm f p : bitmap_is w n bm f → 0 ≤ p < n →
  0 ≤ p / w < Z.of_nat (length bm) ∧ 0 ≤ p mod w < w ∧
  ∃ x, aread bm (p / w) = Some x ∧ 0 ≤ x < 2 ^ w ∧ Z.testbit x (p mod w) = f p.
Proof.
  intros (Hw & Hn & Hall & Hbits) Hp.
  assert (Hq : 0 ≤ p / w < Z.of_nat (length bm)).
  { split; [apply Z.div_pos; lia|]. apply Z.div_lt_upper_bound; lia. }
  split; [done|]. split; [apply Z.mod_pos_bound; lia|].
  destruct (aread_is_Some bm (p / w) Hq) as [x Hx]. exists x. split; [done|].
  specialize (Hbits p Hp). unfold bit_at in Hbits. rewrite Hx in Hbits. cbn in Hbits.
  split; [|congruence].
  apply aread_Some in Hx as [_ Hx]. by eapply Forall_lookup_1 in Hall.
Qed.

Lemma bitmap_ext bm f g :
  bitmap_is w n bm f → (∀ p, 0 ≤ p < n → f p = g p) → bitmap_is w n bm g.
Proof.
  intros (Hw & Hn & Hall & Hbits) Hfg. do 3 (split; [done|]).
  intros p Hp. rewrite Hbits, Hfg; done.
Qed.

(** Replacing the word of [p] by one that differs from it in that bit only. *)
Lemma bitmap_write bm f p b x' :
  bitmap_is w n bm f → 0 ≤ p < n → 0 ≤ x' < 2 ^ w →
  (∀ x j, aread bm (p / w) = Some x → 0 ≤ j < w →
     Z.testbit x' j = if j =? p mod w then b else Z.testbit x j) →
  bitmap_is w n (<[Z.to_nat (p / w) := x']> bm) (upd_bit f p b).
Proof.
  intros Hbm Hp Hx' Hj. destruct (bitmap_word bm f p Hbm Hp) as (Hq & Hm & x & Hx & _ & _).
  destruct Hbm as (Hw & Hn & Hall & Hbits). split; [done|].
  split; [by rewrite length_insert|]. split; [by apply Forall_insert|].
  intros r Hr. unfold bit_at, upd_bit. destruct (Z.eq_dec (r / w) (p / w)) as [E|E].
  - rewrite E, aread_insert_eq by lia. cbn. f_equal.
    rewrite (Hj x) by (done || apply Z.mod_pos_bound; lia).
    assert (Hb := Hbits r Hr). unfold bit_at in Hb. rewrite E, Hx in Hb. cbn in Hb.
    injection Hb as Hb. rewrite Hb.
    replace (r =? p) with (r mod w =? p mod w); [done|].
    pose proof (Z.div_mod r w ltac:(lia)). pose proof (Z.div_mod p w ltac:(lia)).
    destruct (Z.eqb_spec (r mod w) (p mod w)), (Z.eqb_spec r p); congruence.
  - rewrite aread_insert_ne by lia. fold (bit_at w bm r). rewrite Hbits by done.
    destruct (Z.eqb_spec r p); [congruence|done].
Qed.

Lemma bitmap_set_word bm f p x :
  bitmap_is w n bm f → 0 ≤ p < n → aread bm (p / w) = Some x →
  bitmap_is w n (<[Z.to_nat (p / w) := Z.lor x (Z.shiftl 1 (p mod w))]> bm) (upd_bit f p true).
Proof.
  intros Hbm Hp Hx. destruct (bitmap_word bm f p Hbm Hp) as (Hq & Hm & y & Hy & Hr & _).
  simplify_eq. eapply bitmap_write; try done.
  - apply lor_range; [lia|done|]. by apply shiftl_1_range.
  - intros z j Hz Hj. simplify_eq. apply testbit_set; lia.
Qed.

Lemma bitmap_clear_word bm f p x :
  bitmap_is w n bm f → 0 ≤ p < n → aread bm (p / w) = Some x →
  bitmap_is w n
    (<[Z.to_nat (p / w) := Z.land x (Z.lnot (Z.shiftl 1 (p mod w)) mod 2 ^ w)]> bm)
    (upd_bit f p false).
Proof.
  intros Hbm Hp Hx. destruct (bitmap_word bm f p Hbm Hp) as (Hq & Hm & y & Hy & Hr & _).
  simplify_eq. eapply bitmap_write; try done.
  - apply land_range; [lia|done].
  - intros z j Hz Hj. simplify_eq. apply testbit_clear; lia.
Qed.

(** An array of full words has all its bits set. *)
Lemma bitmap_ones k : 0 < w → n = w * Z.of_nat k →
  bitmap_is w n (replicate k (Z.ones w)) (λ _, true).
Proof.
  intros Hw Hn. split; [done|]. split; [by rewrite length_replicate|]. split.
  - apply Forall_replicate. rewrite Z.ones_equiv. lia.
  - intros p Hp. unfold bit_at. assert (Hq : 0 ≤ p / w < Z.of_nat k).
    { split; [apply Z.div_pos; lia|]. apply Z.div_lt_upper_bound; lia. }
    unfold aread. rewrite (proj2 (Z.leb_le 0 _)), lookup_replicate_2 by lia. cbn. f_equal.
    apply Z.ones_spec_low, Z.mod_pos_bound. lia.
Qed.

(** Two representations of the same bits are the same array. *)
Lemma bitmap_is_inj bm1 bm2 f :
  bitmap_is w n bm1 f → bitmap_is w n bm2 f → bm1 = bm2.
Proof.
  intros (Hw & Hn1 & Ha1 & Hb1) (_ & Hn2 & Ha2 & Hb2).
  assert (Hlen : length bm1 = length bm2) by nia.
  apply list_eq_same_length with (n := length bm1); [done|done|].
  intros i x y Hi Hx Hy.
  assert (Hrx : 0 ≤ x < 2 ^ w) by (by eapply Forall_lookup_1 in Ha1).
  assert (Hry : 0 ≤ y < 2 ^ w) by (by eapply Forall_lookup_1 in Ha2).
  apply Z.bits_inj'. intros j Hj. destruct (Z.lt_ge_cases j w) as [Hjw|Hjw];
    [|by rewrite !(testbit_high w)].
  set (p := w * Z.of_nat i + j).
  assert (Hp : 0 ≤ p < n) by (subst p; nia).
  assert (Hd : p / w = Z.of_nat i).
  { subst p. symmetry. apply (Z.div_unique _ _ _ j); lia. }
  assert (Hm : p mod w = j).
  { subst p. symmetry. apply (Z.mod_unique _ _ (Z.of_nat i)); lia. }
  specialize (Hb1 p Hp). specialize (Hb2 p Hp). unfold bit_at, aread in *.
  rewrite Hd, Hm, Nat2Z.id in *. rewrite (proj2 (Z.leb_le 0 _)) in * by lia.
  rewrite Hx in Hb1. rewrite Hy in Hb2. cbn in *. congruence.
Qed.
End bitmap.
