(* ===== verification/Pmm.v ===== *)
(** * The physical page allocator, kernel/mm/pmm.c

    One bit per 4 KiB page below 128 MiB, set when the page is in use or not
    usable. [Pmm] holds the operations; the rest of the file relates a state to
    the set of usable pages and the set of allocated ones ([pmm_rep]) and
    proves the operations against these two sets. *)

From Stdlib Require Import ZArith Lia Bool.
From stdpp Require Import base numbers list list_numbers gmap sets.
From S2P Require Import Prelude Bitmap.

(** ** Constants: include/myos/pmm.h, include/myos/paging.h *)

Definition PMM_PAGE_SIZE : Z := 4096.
Definition E820_MEMORY_USABLE : Z := 1.
Definition E820_MAX_ENTRIES : Z := 32.
Definition PMM_MANAGED_LIMIT : Z := 0x08000000.
Definition PMM_MAX_PAGES : Z := PMM_MANAGED_LIMIT / PMM_PAGE_SIZE.

(** ** State *)

Record e820_entry := E820Entry {
  e820_base : Z;
  e820_length : Z;
  e820_type : Z;
  e820_acpi : Z }.

(** The file's static variables. *)
Record pmm := Pmm {
  page_bitmap : list Z;
  managed_start : Z;
  managed_end : Z;
  total_pages_count : Z;
  used_pages_count : Z;
  e820_entry_count : Z }.

Definition set_page_bitmap (v : list Z) (s : pmm) : pmm :=
  Pmm v (managed_start s) (managed_end s) (total_pages_count s) (used_pages_count s) (e820_entry_count s).
Definition set_managed_end (v : Z) (s : pmm) : pmm :=
  Pmm (page_bitmap s) (managed_start s) v (total_pages_count s) (used_pages_count s) (e820_entry_count s).
Definition set_total_pages_count (v : Z) (s : pmm) : pmm :=
  Pmm (page_bitmap s) (managed_start s) (managed_end s) v (used_pages_count s) (e820_entry_count s).
Definition set_used_pages_count (v : Z) (s : pmm) : pmm :=
  Pmm (page_bitmap s) (managed_start s) (managed_end s) (total_pages_count s) v (e820_entry_count s).

(** ** Operations *)

Definition align_up (value alignment : Z) : Z :=
  Z.land (value +% alignment -% 1) (u32 (Z.lnot (alignment -% 1))).

Definition bitmap_set (page_index : Z) : M pmm unit :=
  bm ← gets page_bitmap;
  x ← lift (aread bm (page_index / 32));
  bm' ← lift (awrite bm (page_index / 32) (Z.lor x (u32 (Z.shiftl 1 (page_index mod 32)))));
  modify (set_page_bitmap bm').

Definition bitmap_clear (page_index : Z) : M pmm unit :=
  bm ← gets page_bitmap;
  x ← lift (aread bm (page_index / 32));
  bm' ← lift (awrite bm (page_index / 32)
                (Z.land x (u32 (Z.lnot (u32 (Z.shiftl 1 (page_index mod 32)))))));
  modify (set_page_bitmap bm').

Definition bitmap_test (page_index : Z) : M pmm bool :=
  bm ← gets page_bitmap;
  x ← lift (aread bm (page_index / 32));
  mret (negb (Z.land x (u32 (Z.shiftl 1 (page_index mod 32))) =? 0)).

Definition mark_usable_region (start end_ : Z) : M pmm unit :=
  ms ← gets managed_start;
  let start := align_up start PMM_PAGE_SIZE in
  let end_ := Z.land end_ (u32 (Z.lnot (PMM_PAGE_SIZE - 1))) in
  let start := if start <? ms then ms else start in
  let end_ := if PMM_MANAGED_LIMIT <? end_ then PMM_MANAGED_LIMIT else end_ in
  if end_ <=? start then mret tt
  else
    me ← gets managed_end;
    _ ← when (me <? end_) (modify (set_managed_end end_));
    let first_page := start / PMM_PAGE_SIZE in
    let last_page := end_ / PMM_PAGE_SIZE in
    for_ first_page last_page (λ page,
      set ← bitmap_test page;
      when set (
        _ ← bitmap_clear page;
        modify (λ s, set_total_pages_count (total_pages_count s +% 1) s))).

(** The address of the linker symbol [_kernel_end] is an argument. *)
Definition pmm_initialize (kernel_end : Z) (entries : list e820_entry) (entry_count : Z) : M pmm unit :=
  let start := align_up kernel_end PMM_PAGE_SIZE in
  _ ← modify (λ _, Pmm (replicate (Z.to_nat (PMM_MAX_PAGES / 32)) 0xFFFFFFFF)
                       start start 0 0 entry_count);
  _ ← for_ 0 (Z.min entry_count E820_MAX_ENTRIES) (λ i,
    e ← lift (aread entries i);
    if negb (e820_type e =? E820_MEMORY_USABLE) || (e820_length e =? 0) then mret tt
    else if PMM_MANAGED_LIMIT <=? e820_base e then mret tt
    else
      let end64 := u64 (e820_base e + e820_length e) in
      let start := u32 (e820_base e) in
      let end_ := if PMM_MANAGED_LIMIT <? end64 then PMM_MANAGED_LIMIT else u32 end64 in
      mark_usable_region start end_);
  total ← gets total_pages_count;
  when (total =? 0) (
    ms ← gets managed_start;
    mark_usable_region ms 0x00400000).

Definition pmm_e820_entries : M pmm Z := gets e820_entry_count.

(** [while (page + run < last_page && !bitmap_test(page + run) && run < count) run++;] *)
Definition free_run (page last_page count : Z) : M pmm Z :=
  iterate (Z.to_nat count + 1) (λ run,
    if page +% run <? last_page then
      set ← bitmap_test (page +% run);
      if negb set && (run <? count) then mret (inl (run +% 1)) else mret (inr run)
    else mret (inr run)) 0.

Definition pmm_alloc_pages (count : Z) : M pmm Z :=
  ms ← gets managed_start;
  me ← gets managed_end;
  total ← gets total_pages_count;
  let first_page := ms / PMM_PAGE_SIZE in
  let last_page := me / PMM_PAGE_SIZE in
  if (count =? 0) || (total <? count) then mret 0
  else
    iterate (Z.to_nat (last_page - first_page) + 1) (λ page,
      if page <? last_page then
        run ← free_run page last_page count;
        if run =? count then
          _ ← for_ 0 count (λ i, bitmap_set (page +% i));
          _ ← modify (λ s, set_used_pages_count (used_pages_count s +% count) s);
          mret (inr (page *% PMM_PAGE_SIZE))
        else
          let page := if 0 <? run then page +% run else page in
          mret (inl (page +% 1))
      else mret (inr 0)) first_page.

Definition pmm_alloc_page : M pmm Z := pmm_alloc_pages 1.

Definition pmm_free_pages_block (page count : Z) : M pmm unit :=
  ms ← gets managed_start;
  me ← gets managed_end;
  let address := page in
  if (count =? 0) || (address <? ms) || (me <=? address) || negb (address mod PMM_PAGE_SIZE =? 0)
  then mret tt
  else if me <? (address +% (count *% PMM_PAGE_SIZE)) then mret tt
  else
    let first_page := address / PMM_PAGE_SIZE in
    for_ 0 count (λ i,
      let page_index := first_page +% i in
      set ← bitmap_test page_index;
      when set (
        _ ← bitmap_clear page_index;
        modify (λ s, set_used_pages_count (used_pages_count s -% 1) s))).

Definition pmm_free_page (page : Z) : M pmm unit := pmm_free_pages_block page 1.

Definition pmm_total_pages : M pmm Z := gets total_pages_count.
Definition pmm_used_pages : M pmm Z := gets used_pages_count.
Definition pmm_free_pages : M pmm Z := gets (λ s, total_pages_count s -% used_pages_count s).
Definition pmm_managed_start : M pmm Z := gets managed_start.
Definition pmm_managed_end : M pmm Z := gets managed_end.

(** ** Abstract state *)

(** The pages [p, p + count). *)
Definition block (p count : Z) : gset Z := list_to_set (seqZ p count).

(** [s] manages the pages [U], of which [A] are handed out. *)
Record pmm_rep (s : pmm) (U A : gset Z) : Prop := {
  rep_bits : bitmap_is 32 PMM_MAX_PAGES (page_bitmap s) (λ p, negb (bool_decide (p ∈ U ∖ A)));
  rep_sub : A ⊆ U;
  rep_managed : ∀ p, p ∈ U → managed_start s / PMM_PAGE_SIZE ≤ p < managed_end s / PMM_PAGE_SIZE;
  rep_start : managed_start s mod PMM_PAGE_SIZE = 0 ∧ 0 < managed_start s;
  rep_end : managed_end s mod PMM_PAGE_SIZE = 0 ∧
            managed_start s ≤ managed_end s ≤ PMM_MANAGED_LIMIT;
  rep_total : total_pages_count s = Z.of_nat (size U);
  rep_used : used_pages_count s = Z.of_nat (size A) }.

(** ** Blocks and rounding *)

Lemma elem_of_block p c x : x ∈ block p c ↔ p ≤ x < p + c.
Proof. unfold block. rewrite elem_of_list_to_set, elem_of_seqZ. done. Qed.

Lemma size_block p c : 0 ≤ c → Z.of_nat (size (block p c)) = c.
Proof.
  intros. unfold block. rewrite size_list_to_set by apply NoDup_seqZ.
  rewrite length_seqZ. lia.
Qed.

Lemma block_mem p c q : (p <=? q) && (q <? p + c) = bool_decide (q ∈ block p c).
Proof.
  apply eq_bool_prop_intro. rewrite bool_decide_spec, elem_of_block, andb_True, !Is_true_true,
    Z.leb_le, Z.ltb_lt. done.
Qed.

Lemma block_step p c : 0 ≤ c → block p (c + 1) = block p c ∪ {[p + c]}.
Proof.
  intros. apply set_eq. intros x.
  rewrite elem_of_union, elem_of_singleton, !elem_of_block. lia.
Qed.

Lemma difference_block_step (A : gset Z) p c : 0 ≤ c →
  A ∖ block p (c + 1) = A ∖ block p c ∖ {[p + c]}.
Proof. intros. rewrite block_step by done. set_solver +. Qed.

Lemma align_up_page v : 0 ≤ v ≤ 2 ^ 32 - 4096 →
  align_up v PMM_PAGE_SIZE = (v + 4095) / 4096 * 4096.
Proof.
  intros Hv. unfold align_up, PMM_PAGE_SIZE. destruct (Z.eq_dec v (2 ^ 32 - 4096)) as [->|Hne].
  { vm_compute. done. }
  u32_simp. change (4096 - 1) with (2 ^ 12 - 1).
  rewrite land_not_ones by (unfold is_u32; lia). f_equal. f_equal. lia.
Qed.

Lemma round_down_page e : is_u32 e → Z.land e (u32 (Z.lnot (PMM_PAGE_SIZE - 1))) = e / 4096 * 4096.
Proof. intros. change (PMM_PAGE_SIZE - 1) with (2 ^ 12 - 1). by apply land_not_ones. Qed.

(** Evaluates the page count in the goal and the context. *)
Ltac pages := change PMM_MAX_PAGES with 32768 in *.

(** ** Single bits *)

Section bits.
Context (s : pmm) (f : Z → bool) (p : Z).
Hypothesis Hbm : bitmap_is 32 PMM_MAX_PAGES (page_bitmap s) f.
Hypothesis Hp : 0 ≤ p < PMM_MAX_PAGES.

Lemma shiftl_u32 : u32 (Z.shiftl 1 (p mod 32)) = Z.shiftl 1 (p mod 32).
Proof.
  apply Z.mod_small, shiftl_1_range. apply Z.mod_pos_bound. lia.
Qed.

Lemma wp_bitmap_test (Q : bool → pmm → Prop) : Q (f p) s → wp (bitmap_test p) Q s.
Proof.
  intros HQ. destruct (bitmap_word _ _ _ _ _ Hbm Hp) as (Hq & Hm & x & Hx & _ & Hb).
  unfold bitmap_test. wp_steps. rewrite shiftl_u32, testbit_land_shiftl, Hb by lia. done.
Qed.

Lemma wp_bitmap_set (Q : unit → pmm → Prop) :
  (∀ bm, bitmap_is 32 PMM_MAX_PAGES bm (upd_bit f p true) → Q tt (set_page_bitmap bm s)) →
  wp (bitmap_set p) Q s.
Proof.
  intros HQ. destruct (bitmap_word _ _ _ _ _ Hbm Hp) as (Hq & Hm & x & Hx & _ & _).
  unfold bitmap_set. wp_steps. eapply wp_lift; [by apply awrite_eq|]. wp_steps.
  apply HQ. rewrite shiftl_u32. by apply bitmap_set_word.
Qed.

Lemma wp_bitmap_clear (Q : unit → pmm → Prop) :
  (∀ bm, bitmap_is 32 PMM_MAX_PAGES bm (upd_bit f p false) → Q tt (set_page_bitmap bm s)) →
  wp (bitmap_clear p) Q s.
Proof.
  intros HQ. destruct (bitmap_word _ _ _ _ _ Hbm Hp) as (Hq & Hm & x & Hx & _ & _).
  unfold bitmap_clear. wp_steps. eapply wp_lift; [by apply awrite_eq|]. wp_steps.
  apply HQ. rewrite shiftl_u32. by apply bitmap_clear_word.
Qed.
End bits.

(** Case analysis on the boolean tests a goal about bits is made of. *)
Ltac solve_bits :=
  unfold upd_bit in *;
  repeat (case_bool_decide || (match goal with
     | |- context [?a =? ?b] => destruct (Z.eqb_spec a b)
     | |- context [?a <? ?b] => destruct (Z.ltb_spec a b)
     | |- context [?a <=? ?b] => destruct (Z.leb_spec a b) end));
  cbn [negb andb orb] in *; try done; exfalso;
  rewrite ?elem_of_difference, ?elem_of_union, ?elem_of_block, ?elem_of_singleton in *.

(** ** Allocation *)

Section alloc.
Context (s : pmm) (f : Z → bool) (last count : Z).
Hypothesis Hbm : bitmap_is 32 PMM_MAX_PAGES (page_bitmap s) f.
Hypothesis Hlast : last ≤ PMM_MAX_PAGES.
Hypothesis Hcount : 0 ≤ count ≤ PMM_MAX_PAGES.

Lemma free_run_spec page : 0 ≤ page ≤ last →
  wp (free_run page last count) (λ run s', s' = s ∧ 0 ≤ run ≤ count ∧
    (∀ i, 0 ≤ i < run → page + i < last ∧ f (page + i) = false) ∧
    (run < count → last ≤ page + run ∨ f (page + run) = true)) s.
Proof.
  intros Hpage. pages.
  unfold free_run. apply (wp_iterate _ _
    (λ run s', s' = s ∧ 0 ≤ run ≤ count ∧
       ∀ i, 0 ≤ i < run → page + i < last ∧ f (page + i) = false)
    (λ run, Z.to_nat (count - run))); [lia|repeat split; lia|].
  intros run s' (-> & Hr & Hfree). u32_simp.
  destruct (Z.ltb_spec (page + run) last) as [Hlt|Hge].
  - wp_step. apply (wp_bitmap_test s f); [done|pages; lia|].
    destruct (negb (f (page + run)) && (run <? count)) eqn:E; wp_steps; bool_to_prop.
    + repeat split; try lia; intros; destruct (Z.eq_dec i run) as [->|]; try lia; try done;
        apply Hfree; lia.
    + repeat split; try lia; try (by apply Hfree). intros Hlt'.
      destruct E as [E|E]; bool_to_prop; [by right|lia].
  - wp_steps. repeat split; try lia; by apply Hfree.
Qed.

Lemma set_run_spec page (Q : unit → pmm → Prop) : 0 ≤ page → page + count ≤ PMM_MAX_PAGES →
  (∀ bm, bitmap_is 32 PMM_MAX_PAGES bm (λ q, f q || ((page <=? q) && (q <? page + count))) →
     Q tt (set_page_bitmap bm s)) →
  wp (for_ 0 count (λ i, bitmap_set (page +% i))) Q s.
Proof.
  intros Hpage Hend HQ. pages.
  apply (wp_for _ _ _ (λ i s', ∃ bm, s' = set_page_bitmap bm s ∧
    bitmap_is 32 32768 bm (λ q, f q || ((page <=? q) && (q <? page + i))))); [lia| | |].
  - exists (page_bitmap s). split; [by destruct s|].
    eapply bitmap_ext; [exact Hbm|]. intros q _. destruct (f q); [done|]. solve_bits. lia.
  - intros i s' Hi (bm & -> & Hbm'). u32_simp.
    eapply wp_bitmap_set; [exact Hbm'|pages; lia|].
    intros bm' Hbm''. exists bm'. split; [done|].
    eapply bitmap_ext; [exact Hbm''|]. intros q _. cbn beta. unfold upd_bit.
    destruct (f q), (Z.eqb_spec q (page + i)); try done; solve_bits; lia.
  - intros s' (bm & -> & Hbm'). by apply HQ.
Qed.
End alloc.

(** Some page of [q, q + count) is not free below [last]. *)
Definition blocked (f : Z → bool) (last count q : Z) : Prop :=
  ∃ i, 0 ≤ i < count ∧ (last ≤ q + i ∨ f (q + i) = true).

(** The outcome of the first-fit search over the bits [f]. *)
Lemma alloc_search s f count :
  let first := managed_start s / PMM_PAGE_SIZE in
  let last := managed_end s / PMM_PAGE_SIZE in
  bitmap_is 32 PMM_MAX_PAGES (page_bitmap s) f →
  0 ≤ first ≤ last → last ≤ PMM_MAX_PAGES →
  0 < count ≤ total_pages_count s → total_pages_count s ≤ PMM_MAX_PAGES →
  wp (pmm_alloc_pages count) (λ r s',
    (r = 0 ∧ s' = s ∧ ∀ q, first ≤ q → blocked f last count q) ∨
    (∃ p bm, first ≤ p ∧ p + count ≤ last ∧ (∀ i, 0 ≤ i < count → f (p + i) = false) ∧
       (∀ q, first ≤ q < p → blocked f last count q) ∧ r = p * PMM_PAGE_SIZE ∧
       s' = set_used_pages_count (used_pages_count s +% count) (set_page_bitmap bm s) ∧
       bitmap_is 32 PMM_MAX_PAGES bm (λ q, f q || ((p <=? q) && (q <? p + count))))) s.
Proof.
  intros first last Hbm Hfl Hlast Hcount Htot. pages.
  unfold pmm_alloc_pages. do 6 wp_step.
  rewrite (proj2 (Z.eqb_neq count 0)), (proj2 (Z.ltb_ge _ count)) by lia. cbn [orb].
  fold first last.
  apply (wp_iterate _ _ (λ page s', s' = s ∧ first ≤ page ≤ last + 1 ∧
     ∀ q, first ≤ q < page → blocked f last count q) (λ page, Z.to_nat (last - page))).
  { lia. } { repeat split; try lia. }
  intros page s' (-> & Hpage & Hno). destruct (Z.ltb_spec page last) as [Hlt|Hge]; cycle 1.
  { wp_step. left. repeat split; [].
    intros q Hq. destruct (Z.lt_ge_cases q page); [by apply Hno|]. exists 0. split; [lia|]. left. lia. }
  wp_step. eapply wp_mono; [apply (free_run_spec s f); try done; pages; lia|].
  intros run s' (-> & Hr & Hfree & Hstop). destruct (Z.eqb_spec run count) as [->|Hne].
  - wp_step. destruct (Hfree (count - 1)) as [Hin _]; [lia|].
    apply (set_run_spec s f); try done; try (pages; lia). intros bm Hbm'. wp_step. wp_step.
    wp_step. right. exists page, bm. unfold PMM_PAGE_SIZE. u32_simp.
    split_and!; try lia; try done. intros i Hi. by apply Hfree.
  - assert (Hb : last ≤ page + run ∨ f (page + run) = true) by (apply Hstop; lia).
    replace (if 0 <? run then page +% run else page) with (page + run)
      by (destruct (Z.ltb_spec 0 run); u32_simp; lia).
    assert (page + run ≤ last).
    { destruct (Z.eq_dec run 0); [lia|]. destruct (Hfree (run - 1)) as [? _]; lia. }
    u32_simp. wp_step. repeat split; try lia.
    intros q Hq. destruct (Z.lt_ge_cases q page); [apply Hno; lia|].
    exists (page + run - q). replace (q + (page + run - q)) with (page + run) by lia. split; [lia|done].
Qed.

(** The bounds a represented state satisfies. *)
Lemma rep_bounds s U A : pmm_rep s U A →
  0 < managed_start s / PMM_PAGE_SIZE ≤ managed_end s / PMM_PAGE_SIZE ∧
  managed_end s / PMM_PAGE_SIZE ≤ PMM_MAX_PAGES ∧
  managed_start s = managed_start s / PMM_PAGE_SIZE * PMM_PAGE_SIZE ∧
  managed_end s = managed_end s / PMM_PAGE_SIZE * PMM_PAGE_SIZE.
Proof.
  intros [_ _ _ [H1 H2] [H3 H4] _ _]. unfold PMM_PAGE_SIZE, PMM_MANAGED_LIMIT in *. pages.
  pose proof (Z.div_mod (managed_start s) 4096 ltac:(lia)).
  pose proof (Z.div_mod (managed_end s) 4096 ltac:(lia)). lia.
Qed.

Lemma rep_sizes s U A : pmm_rep s U A →
  0 ≤ Z.of_nat (size A) ≤ Z.of_nat (size U) ∧ Z.of_nat (size U) ≤ PMM_MAX_PAGES.
Proof.
  intros H. pose proof (rep_bounds s U A H) as (Hb1 & Hb2 & _). destruct H as [_ Hsub Hm _ _ _ _].
  set (a := managed_start s / PMM_PAGE_SIZE) in *. set (b := managed_end s / PMM_PAGE_SIZE) in *.
  assert (HU : U ⊆ block a (b - a)).
  { intros x Hx. apply elem_of_block. specialize (Hm x Hx). lia. }
  apply subseteq_size in HU, Hsub. pose proof (size_block a (b - a) ltac:(lia)). lia.
Qed.

Lemma rep_free s U A p : pmm_rep s U A →
  negb (bool_decide (p ∈ U ∖ A)) = false ↔ p ∈ U ∖ A.
Proof. intros _. rewrite negb_false_iff. apply bool_decide_eq_true. Qed.

(** A free run of the bitmap is a free block of the abstract state. *)
Lemma free_block_iff (U A : gset Z) q count :
  block q count ⊆ U ∖ A ↔ ∀ i, 0 ≤ i < count → negb (bool_decide (q + i ∈ U ∖ A)) = false.
Proof.
  split.
  - intros H i Hi. apply negb_false_iff, bool_decide_eq_true, H, elem_of_block. lia.
  - intros H x [Hx1 Hx2]%elem_of_block. specialize (H (x - q) ltac:(lia)).
    apply negb_false_iff, bool_decide_eq_true in H. by replace (q + (x - q)) with x in H by lia.
Qed.

Lemma blocked_not_free s U A count q : pmm_rep s U A →
  blocked (λ p, negb (bool_decide (p ∈ U ∖ A))) (managed_end s / PMM_PAGE_SIZE) count q →
  ¬ block q count ⊆ U ∖ A.
Proof.
  intros Hrep (i & Hi & Hb) Hsub. pose proof (proj1 (free_block_iff U A q count) Hsub i Hi) as Hf.
  cbn beta in Hb. destruct Hb as [Hb|Hb]; [|congruence].
  apply negb_false_iff, bool_decide_eq_true in Hf.
  apply elem_of_difference in Hf as [Hf _]. apply (rep_managed _ _ _ Hrep) in Hf. lia.
Qed.

Lemma first_page_below s U A count q : pmm_rep s U A → 0 < count → block q count ⊆ U ∖ A →
  managed_start s / PMM_PAGE_SIZE ≤ q.
Proof.
  intros Hrep Hc H. assert (Hq : q ∈ U ∖ A) by (apply H, elem_of_block; lia).
  apply elem_of_difference in Hq as [Hq _]. apply (rep_managed _ _ _ Hrep) in Hq. lia.
Qed.

(** The abstract effect of taking a free block. *)
Lemma rep_take s U A p count bm :
  pmm_rep s U A → 0 < count → block p count ⊆ U ∖ A →
  bitmap_is 32 PMM_MAX_PAGES bm
    (λ q, negb (bool_decide (q ∈ U ∖ A)) || ((p <=? q) && (q <? p + count))) →
  pmm_rep (set_used_pages_count (used_pages_count s +% count) (set_page_bitmap bm s))
          U (A ∪ block p count).
Proof.
  intros Hrep Hc Hsub Hbm. pose proof (rep_sizes s U A Hrep) as [Hs1 Hs2].
  assert (HAU : A ∪ block p count ⊆ U) by (pose proof (rep_sub _ _ _ Hrep); set_solver).
  pose proof (subseteq_size _ _ HAU) as Hsz.
  rewrite size_union in Hsz by set_solver. pose proof (size_block p count ltac:(lia)).
  destruct Hrep as [_ Hs Hm Hst He Ht Hu]. pages. split; cbn; try done.
  - eapply bitmap_ext; [exact Hbm|]. intros q _. cbn beta.
    rewrite block_mem. apply eq_bool_prop_intro.
    rewrite orb_True, !negb_True, !bool_decide_spec, !elem_of_difference, elem_of_union.
    destruct (decide (q ∈ block p count)); naive_solver.
  - rewrite size_union by set_solver. rewrite Hu. u32_simp. lia.
Qed.

(** The fields no allocation or release touches. *)
Definition same_layout (s s' : pmm) : Prop :=
  managed_start s' = managed_start s ∧ managed_end s' = managed_end s ∧
  total_pages_count s' = total_pages_count s ∧ e820_entry_count s' = e820_entry_count s.

Lemma alloc_pages_wp s U A count : pmm_rep s U A → is_u32 count →
  wp (pmm_alloc_pages count) (λ r s',
    (r = 0 ∧ s' = s ∧ (count = 0 ∨ ∀ p, ¬ block p count ⊆ U ∖ A)) ∨
    (∃ p, r = p * PMM_PAGE_SIZE ∧ r ≠ 0 ∧ 0 < count ∧ block p count ⊆ U ∖ A ∧
       (∀ q, block q count ⊆ U ∖ A → p ≤ q) ∧ pmm_rep s' U (A ∪ block p count) ∧
       same_layout s s')) s.
Proof.
  intros Hrep Hc. pose proof (rep_sizes s U A Hrep) as [Hs1 Hs2].
  destruct (rep_bounds s U A Hrep) as (Hb1 & Hb2 & _).
  pose proof (rep_total _ _ _ Hrep) as Ht.
  destruct (decide (0 < count ≤ total_pages_count s)) as [Hok|Hno]; cycle 1.
  { unfold pmm_alloc_pages. do 6 wp_step.
    replace ((count =? 0) || (total_pages_count s <? count)) with true.
    - wp_step. left. split_and!; try done. destruct (Z.eq_dec count 0) as [->|]; [by left|right].
      intros p Hsub. pose proof (size_block p count ltac:(unfold is_u32 in *; lia)).
      apply subseteq_size in Hsub. pose proof (subseteq_size (U ∖ A) U ltac:(set_solver)).
      unfold is_u32 in *. lia.
    - symmetry. apply orb_true_iff. rewrite Z.eqb_eq, Z.ltb_lt. unfold is_u32 in *. lia. }
  eapply wp_mono; [apply (alloc_search s _ count (rep_bits _ _ _ Hrep)); lia|].
  intros r s' [(-> & -> & Hall)|(p & bm & Hp & Hpe & Hfree & Hlow & -> & -> & Hbm)].
  - left. split_and!; try done. right. intros q Hsub.
    eapply blocked_not_free; [exact Hrep| |exact Hsub]. apply Hall.
    apply (first_page_below s U A count q); [done|lia|done].
  - right. exists p. assert (Hsub : block p count ⊆ U ∖ A) by (by apply free_block_iff).
    unfold PMM_PAGE_SIZE in *. split_and!; try done; try lia.
    + intros q Hq. destruct (Z.lt_ge_cases q p) as [Hqp|]; [|done]. exfalso.
      eapply blocked_not_free; [exact Hrep| |exact Hq]. apply Hlow. split; [|done].
      apply (first_page_below s U A count q); [done|lia|done].
    + apply rep_take; done || lia.
Qed.

(** C10. For every state that represents the usable pages [U] of which [A] are
    allocated and every 32-bit count, pmm_alloc_pages terminates inside its
    array and either returns null, leaves the state alone, and no block of
    [count] free pages exists (or count is 0), or returns the address of the
    lowest block of [count] free pages and the new state represents [U] with
    exactly that block added to the allocated pages. *)
Theorem pmm_alloc_pages_spec s U A count : pmm_rep s U A → is_u32 count →
  wp (pmm_alloc_pages count) (λ r s',
    (r = 0 ∧ s' = s ∧ (count = 0 ∨ ∀ p, ¬ block p count ⊆ U ∖ A)) ∨
    (∃ p, r = p * PMM_PAGE_SIZE ∧ r ≠ 0 ∧ 0 < count ∧ block p count ⊆ U ∖ A ∧
       (∀ q, block q count ⊆ U ∖ A → p ≤ q) ∧ pmm_rep s' U (A ∪ block p count))) s.
Proof.
  intros Hrep Hc. eapply wp_mono; [by apply (alloc_pages_wp s U A)|].
  intros r s' [?|(p & ?)]; [by left|right]. exists p. tauto.
Qed.

(** ** Release *)

Lemma free_loop_spec s U A p count : pmm_rep s U A → 0 ≤ count → block p count ⊆ U →
  wp (for_ 0 count (λ i,
        set ← bitmap_test (p +% i);
        when set (
          _ ← bitmap_clear (p +% i);
          modify (λ s, set_used_pages_count (used_pages_count s -% 1) s))))
    (λ _ s', pmm_rep s' U (A ∖ block p count) ∧ same_layout s s') s.
Proof.
  intros Hrep Hc Hsub. destruct (rep_bounds s U A Hrep) as (Hb1 & Hb2 & _). pages.
  apply (wp_for _ _ _ (λ i s', pmm_rep s' U (A ∖ block p i) ∧ same_layout s s'));
    [done| | |by eauto].
  { split; [|by split_and!]. by replace (A ∖ block p 0) with A by (apply set_eq; intros x;
      rewrite elem_of_difference, elem_of_block; intuition lia). }
  intros i s' Hi (Hrep' & Hlay). destruct Hlay as (Hms & Hme & Htot & He).
  assert (Hin : p + i ∈ U) by (apply Hsub, elem_of_block; lia).
  pose proof (rep_managed _ _ _ Hrep' _ Hin) as Hrange. rewrite Hms, Hme in Hrange.
  pose proof (rep_sizes _ _ _ Hrep') as [Hs1 Hs2]. pages.
  u32_simp. wp_step. eapply wp_bitmap_test; [apply (rep_bits _ _ _ Hrep')|pages; lia|].
  rewrite difference_block_step by lia.
  case_bool_decide as Hfree; cbn [negb when].
  { wp_step. split; [|by split_and!].
    by replace (A ∖ block p i ∖ {[p + i]}) with (A ∖ block p i) by set_solver + Hfree. }
  assert (HinA : p + i ∈ A ∖ block p i).
  { destruct (decide (p + i ∈ A ∖ block p i)); [done|]. exfalso. apply Hfree.
    by apply elem_of_difference. }
  wp_step. eapply wp_bitmap_clear; [apply (rep_bits _ _ _ Hrep')|pages; lia|].
  intros bm Hbm. wp_step. split; [|by cbn].
  assert (Hsz : size (A ∖ block p i) = S (size (A ∖ block p i ∖ {[p + i]}))).
  { rewrite (union_difference_L {[p + i]} (A ∖ block p i)) at 1 by set_solver + HinA.
    rewrite size_union, size_singleton by set_solver +. done. }
  destruct Hrep' as [_ HsubA Hm Hst Hend Ht Hu]. split; cbn; try done; [|set_solver + HsubA|].
  - eapply bitmap_ext; [exact Hbm|]. intros q _. cbn beta. unfold upd_bit.
    destruct (Z.eqb_spec q (p + i)) as [->|Hne].
    + symmetry. apply negb_false_iff, bool_decide_eq_true. set_solver + Hin HinA.
    + f_equal. apply bool_decide_ext. set_solver + Hne.
  - rewrite Hu. u32_simp. lia.
Qed.

Lemma free_pages_wp s U A p count : pmm_rep s U A → 0 < count → block p count ⊆ U →
  wp (pmm_free_pages_block (p * PMM_PAGE_SIZE) count)
    (λ _ s', pmm_rep s' U (A ∖ block p count) ∧ same_layout s s') s.
Proof.
  intros Hrep Hpos Hsub. destruct (rep_bounds s U A Hrep) as (Hb1 & Hb2 & Hms & Hme).
  unfold pmm_free_pages_block, PMM_PAGE_SIZE in *. pages. do 4 wp_step.
  assert (Hp : managed_start s / 4096 ≤ p).
  { apply (rep_managed _ _ _ Hrep), Hsub, elem_of_block. lia. }
  assert (Hq : p + count - 1 < managed_end s / 4096).
  { apply (rep_managed _ _ _ Hrep), Hsub, elem_of_block. lia. }
  rewrite Z.mod_mul by lia.
  rewrite (proj2 (Z.eqb_neq count 0)), (proj2 (Z.ltb_ge (p * 4096) _)),
    (proj2 (Z.leb_gt _ (p * 4096))) by lia. cbn [orb negb Z.eqb].
  u32_simp. rewrite (proj2 (Z.ltb_ge (managed_end s) _)) by lia.
  rewrite Z.div_mul by lia. apply free_loop_spec; [done|lia|done].
Qed.

(** Freeing a block of usable pages, with whatever part of it allocated,
    leaves exactly its pages unallocated (a page that was free already is
    skipped, so a double release changes nothing), while a null count, an
    address that is not page aligned or lies outside the managed range is
    ignored. *)
Theorem pmm_free_pages_block_spec s U A p count : pmm_rep s U A → is_u32 count →
  (0 < count → block p count ⊆ U →
     wp (pmm_free_pages_block (p * PMM_PAGE_SIZE) count)
       (λ _ s', pmm_rep s' U (A ∖ block p count)) s) ∧
  (∀ address, count = 0 ∨ address < managed_start s ∨ managed_end s ≤ address ∨
              address mod PMM_PAGE_SIZE ≠ 0 →
     wp (pmm_free_pages_block address count) (λ _ s', s' = s) s).
Proof.
  intros Hrep Hc. split.
  - intros Hpos Hsub. eapply wp_mono; [by apply free_pages_wp|]. by intros ? ? [? _].
  - intros address Hguard. unfold pmm_free_pages_block. do 4 wp_step.
    replace ((count =? 0) || (address <? managed_start s) || (managed_end s <=? address)
             || negb (address mod PMM_PAGE_SIZE =? 0)) with true; [by wp_step|].
    symmetry. rewrite !orb_true_iff, Z.eqb_eq, Z.ltb_lt, Z.leb_le, negb_true_iff, Z.eqb_neq. tauto.
Qed.

(** Two states that represent the same sets and agree on the other fields. *)
Lemma rep_inj s1 s2 U A : pmm_rep s1 U A → pmm_rep s2 U A →
  managed_start s1 = managed_start s2 → managed_end s1 = managed_end s2 →
  e820_entry_count s1 = e820_entry_count s2 → s1 = s2.
Proof.
  intros [B1 _ _ _ _ T1 U1] [B2 _ _ _ _ T2 U2] ? ? ?.
  pose proof (bitmap_is_inj _ _ _ _ _ B1 B2). destruct s1, s2; cbn in *. by subst.
Qed.

(** Allocating a block and releasing it restores the allocator's state
    exactly, bit for bit, counters included. *)
Theorem pmm_alloc_free_roundtrip s U A count r s1 : pmm_rep s U A → is_u32 count →
  pmm_alloc_pages count s = Some (r, s1) → r ≠ 0 →
  pmm_free_pages_block r count s1 = Some (tt, s).
Proof.
  intros Hrep Hc Hrun Hr. pose proof (alloc_pages_wp s U A count Hrep Hc) as Hwp.
  apply (wp_run _ _ _ _ _ Hrun) in Hwp.
  destruct Hwp as [[? _]|(p & -> & _ & Hpos & Hsub & _ & Hrep1 & Hlay1)]; [done|].
  destruct (free_pages_wp s1 U (A ∪ block p count) p count) as ([] & s2 & Hrun2 & Hrep2 & Hlay2);
    [done|done|set_solver + Hsub|].
  rewrite Hrun2. do 2 f_equal. unfold same_layout in *.
  replace ((A ∪ block p count) ∖ block p count) with A in Hrep2 by set_solver + Hsub.
  apply (rep_inj s2 s U A); try done; intuition congruence.
Qed.

(** ** Initialisation *)

(** The pages [mark_usable_region start end_] adds. *)
Definition region_pages (s : pmm) (start end_ : Z) : gset Z :=
  let a := Z.max ((start + 4095) / 4096) (managed_start s / 4096) in
  let b := Z.min (end_ / 4096) PMM_MAX_PAGES in
  block a (b - a).

Lemma elem_of_region s start end_ p : managed_start s mod 4096 = 0 →
  p ∈ region_pages s start end_ ↔
  start ≤ p * 4096 ∧ (p + 1) * 4096 ≤ end_ ∧ managed_start s ≤ p * 4096 ∧ p < PMM_MAX_PAGES.
Proof.
  intros H. unfold region_pages. rewrite elem_of_block. pages.
  pose proof (Z.div_mod (managed_start s) 4096 ltac:(lia)).
  pose proof (Z.div_mod (start + 4095) 4096 ltac:(lia)).
  pose proof (Z.mod_pos_bound (start + 4095) 4096 ltac:(lia)).
  pose proof (Z.div_mod end_ 4096 ltac:(lia)). pose proof (Z.mod_pos_bound end_ 4096 ltac:(lia)).
  lia.
Qed.

(** Marking one page that lies in the managed range. *)
Lemma mark_page_spec s U page : pmm_rep s U ∅ →
  managed_start s / PMM_PAGE_SIZE ≤ page < managed_end s / PMM_PAGE_SIZE →
  wp (set ← bitmap_test page;
      when set (
        _ ← bitmap_clear page;
        modify (λ s, set_total_pages_count (total_pages_count s +% 1) s)))
    (λ _ s', pmm_rep s' (U ∪ {[page]}) ∅ ∧ managed_start s' = managed_start s ∧
             managed_end s' = managed_end s) s.
Proof.
  intros Hrep Hp. destruct (rep_bounds s U ∅ Hrep) as (Hb1 & Hb2 & _).
  pose proof (rep_sizes _ _ _ Hrep) as [_ Hs]. pages.
  wp_step. eapply wp_bitmap_test; [apply (rep_bits _ _ _ Hrep)|pages; lia|].
  cbn beta. case_bool_decide as Hin; cbn [negb when].
  { wp_step. split_and!; try done. by replace (U ∪ {[page]}) with U by set_solver + Hin. }
  wp_step. eapply wp_bitmap_clear; [apply (rep_bits _ _ _ Hrep)|pages; lia|].
  intros bm Hbm. wp_step. split; [|done].
  assert (Hnew : page ∉ U) by set_solver + Hin.
  destruct Hrep as [_ _ Hm Hst Hend Ht Hu]. split; cbn; try done.
  - eapply bitmap_ext; [exact Hbm|]. intros q _. cbn beta. unfold upd_bit.
    destruct (Z.eqb_spec q page) as [->|Hne].
    + symmetry. apply negb_false_iff, bool_decide_eq_true. set_solver +.
    + f_equal. apply bool_decide_ext. set_solver + Hne.
  - intros q [Hq|Hq%elem_of_singleton]%elem_of_union; [by apply Hm|by subst].
  - rewrite size_union, size_singleton by set_solver + Hnew. rewrite Ht. u32_simp. lia.
Qed.

Lemma rep_grow s U e : pmm_rep s U ∅ → managed_end s ≤ e ≤ PMM_MANAGED_LIMIT → e mod 4096 = 0 →
  pmm_rep (set_managed_end e s) U ∅.
Proof.
  intros [B Hs Hm Hst [He1 He2] Ht Hu] He Hmod. split; cbn; try done; [|split; [done|lia]].
  intros p Hp. specialize (Hm p Hp).
  pose proof (Z.div_le_mono (managed_end s) e PMM_PAGE_SIZE ltac:(done) ltac:(lia)). lia.
Qed.

Lemma mark_usable_region_spec s U start end_ : pmm_rep s U ∅ →
  0 ≤ start ≤ 2 ^ 32 - 4096 → is_u32 end_ →
  wp (mark_usable_region start end_) (λ _ s',
    pmm_rep s' (U ∪ region_pages s start end_) ∅ ∧ managed_start s' = managed_start s) s.
Proof.
  intros Hrep Hstart Hend. destruct (rep_bounds s U ∅ Hrep) as (Hb1 & Hb2 & Hms & Hme).
  unfold mark_usable_region. do 2 wp_step. rewrite align_up_page, round_down_page by done.
  unfold region_pages. unfold PMM_PAGE_SIZE, PMM_MANAGED_LIMIT in *. pages.
  set (a := Z.max _ _). set (b := Z.min _ _). cbv zeta.
  replace (if _ <? managed_start s then managed_start s else _) with (a * 4096)
    by (subst a; destruct (Z.ltb_spec ((start + 4095) / 4096 * 4096) (managed_start s)); lia).
  replace (if 134217728 <? _ then 134217728 else _) with (b * 4096)
    by (subst b; destruct (Z.ltb_spec 134217728 (end_ / 4096 * 4096)); lia).
  destruct (Z.leb_spec (b * 4096) (a * 4096)) as [Hle|Hlt].
  { wp_step. split; [|done]. replace (U ∪ block a (b - a)) with U; [done|].
    apply set_eq. intros x. rewrite elem_of_union, elem_of_block. intuition lia. }
  do 3 wp_step. apply (wp_mono _ (λ _ s', pmm_rep s' U ∅ ∧ managed_start s' = managed_start s ∧
                                   b * 4096 ≤ managed_end s')).
  { apply wp_when; intros Hc; apply Z.ltb_lt in Hc || apply Z.ltb_ge in Hc; [|by split_and!].
    wp_step. split_and!; try done. apply rep_grow; unfold PMM_MANAGED_LIMIT; try done; try lia.
    by apply Z.mod_mul. }
  intros _ s1 (Hrep1 & Hms1 & Hme1). rewrite !Z.div_mul by lia.
  apply (wp_for _ _ _ (λ i s', pmm_rep s' (U ∪ block a (i - a)) ∅ ∧
           managed_start s' = managed_start s ∧ b * 4096 ≤ managed_end s')); [lia| | |].
  - rewrite Z.sub_diag. split_and!; try done.
    replace (U ∪ block a 0) with U; [done|]. apply set_eq. intros x.
    rewrite elem_of_union, elem_of_block. intuition lia.
  - intros i s' Hi (Hrep' & Hms' & Hme'). eapply wp_mono; [apply (mark_page_spec _ _ i Hrep')|].
    + rewrite Hms'. unfold PMM_PAGE_SIZE. split; [lia|].
      apply Z.lt_le_trans with b; [lia|]. apply Z.div_le_lower_bound; lia.
    + intros _ s2 (Hrep2 & Hms2 & Hme2). split_and!; [|congruence|congruence].
      replace (i + 1 - a) with (i - a + 1) by lia. rewrite block_step by lia.
      replace (a + (i - a)) with i by lia. by rewrite union_assoc_L.
  - intros s' (? & ? & _). by split.
Qed.

(** A firmware entry that does not wrap around the 64-bit address space. *)
Definition entry_ok (e : e820_entry) : Prop :=
  0 ≤ e820_base e ∧ 0 ≤ e820_length e ∧ e820_base e + e820_length e < 2 ^ 64.

(** The page [p] lies inside the usable entry [e]. *)
Definition page_in_entry (p : Z) (e : e820_entry) : Prop :=
  e820_type e = E820_MEMORY_USABLE ∧
  e820_base e ≤ p * PMM_PAGE_SIZE ∧ (p + 1) * PMM_PAGE_SIZE ≤ e820_base e + e820_length e.

(** The pages of the first 32 entries that lie between the kernel's end and
    the managed limit. *)
Definition described (ms : Z) (entries : list e820_entry) (n p : Z) : Prop :=
  ms ≤ p * PMM_PAGE_SIZE ∧ p < PMM_MAX_PAGES ∧
  ∃ i e, 0 ≤ i < n ∧ aread entries i = Some e ∧ page_in_entry p e.

Lemma entry_step_spec s U e : pmm_rep s U ∅ → entry_ok e →
  wp (if negb (e820_type e =? E820_MEMORY_USABLE) || (e820_length e =? 0) then mret tt
      else if PMM_MANAGED_LIMIT <=? e820_base e then mret tt
      else
        let end64 := u64 (e820_base e + e820_length e) in
        let start := u32 (e820_base e) in
        let end_ := if PMM_MANAGED_LIMIT <? end64 then PMM_MANAGED_LIMIT else u32 end64 in
        mark_usable_region start end_)
    (λ _ s', managed_start s' = managed_start s ∧ ∃ U', pmm_rep s' U' ∅ ∧
       ∀ p, p ∈ U' ↔ p ∈ U ∨ (managed_start s ≤ p * PMM_PAGE_SIZE ∧ p < PMM_MAX_PAGES ∧
                              page_in_entry p e)) s.
Proof.
  intros Hrep (H1 & H2 & H3). pose proof (rep_bounds s U ∅ Hrep) as (Hb1 & _).
  destruct (rep_start _ _ _ Hrep) as [Hmod Hpos].
  unfold page_in_entry, PMM_PAGE_SIZE, PMM_MANAGED_LIMIT in *. pages.
  destruct (negb _ || _) eqn:E1; bool_to_prop.
  { wp_step. split; [done|]. exists U. split; [done|]. intros p. split; [by left|].
    intros [?|(? & ? & ? & ? & ?)]; [done|]. destruct E1 as [E1|E1]; bool_to_prop; lia. }
  destruct (Z.leb_spec 134217728 (e820_base e)).
  { wp_step. split; [done|]. exists U. split; [done|]. intros p. split; [by left|].
    intros [?|(? & ? & ? & ? & ?)]; [done|]. lia. }
  cbv zeta. rewrite u64_small by lia. rewrite (u32_small (e820_base e)) by (unfold is_u32; lia).
  eapply wp_mono; [apply (mark_usable_region_spec s U); [done|lia|]|].
  { destruct (Z.ltb_spec 134217728 (e820_base e + e820_length e)); [done|]. apply u32_range. }
  intros _ s' (Hrep' & Hms). split; [done|]. eexists. split; [exact Hrep'|].
  intros p. rewrite elem_of_union, elem_of_region by done. pages. f_equiv.
  destruct (Z.ltb_spec 134217728 (e820_base e + e820_length e)); [|u32_simp]; lia.
Qed.

(** The state before the first entry is looked at. *)
Lemma initial_rep ms count : 0 < ms ≤ PMM_MANAGED_LIMIT → ms mod 4096 = 0 →
  pmm_rep (Pmm (replicate (Z.to_nat (PMM_MAX_PAGES / 32)) 0xFFFFFFFF) ms ms 0 0 count) ∅ ∅.
Proof.
  intros Hms Hmod. split; cbn [page_bitmap managed_start managed_end total_pages_count used_pages_count];
    try done; try (split; [done|lia]).
  eapply bitmap_ext; [apply (bitmap_ones 32 PMM_MAX_PAGES (Z.to_nat (PMM_MAX_PAGES / 32))); done|].
  intros p _. cbn beta. by rewrite bool_decide_eq_false_2 by set_solver +.
Qed.

(** When no entry described a page, the fallback region is added. *)
Lemma fallback_spec s U (Q : unit → pmm → Prop) : pmm_rep s U ∅ →
  (U ≠ ∅ → Q tt s) →
  (U = ∅ → ∀ s', pmm_rep s' (block (managed_start s / 4096) (1024 - managed_start s / 4096)) ∅ →
     managed_start s' = managed_start s → Q tt s') →
  wp (when (total_pages_count s =? 0) (
        ms ← gets managed_start;
        mark_usable_region ms 0x00400000)) Q s.
Proof.
  intros Hrep Hne He. pose proof (rep_bounds s U ∅ Hrep) as (Hb1 & Hb2 & Hms & _).
  destruct (rep_start _ _ _ Hrep) as [Hmod _]. destruct (rep_end _ _ _ Hrep) as [_ Hend].
  unfold PMM_PAGE_SIZE, PMM_MANAGED_LIMIT in *.
  rewrite (rep_total _ _ _ Hrep). apply wp_when; intros Hz.
  - assert (HU : U = ∅) by (apply Z.eqb_eq in Hz; apply leibniz_equiv, size_empty_inv; lia).
    do 2 wp_step. eapply wp_mono; [apply (mark_usable_region_spec s U); [done|lia|done]|].
    intros [] s' (Hrep' & Hms'). apply He; [done| |done].
    replace (block _ _) with (U ∪ region_pages s (managed_start s) 4194304); [done|].
    apply set_eq. intros x. rewrite HU, elem_of_union, elem_of_region, elem_of_block by done.
    pages. split; [intros [?%elem_of_empty|?]; [done|]|right]; lia.
  - apply Hne. intros ->. rewrite size_empty in Hz. done.
Qed.

(** From any firmware map whose entries do not wrap, pmm_initialize stays
    inside its arrays and ends in a state with nothing allocated that manages
    exactly the pages lying wholly inside a usable entry (of the first 32),
    above the kernel's end and below 128 MiB; when there is no such page it
    manages the pages from the kernel's end to 4 MiB. *)
Theorem pmm_initialize_spec s kernel_end entries entry_count :
  0 < kernel_end ≤ PMM_MANAGED_LIMIT → is_u32 entry_count →
  Z.min entry_count E820_MAX_ENTRIES ≤ Z.of_nat (length entries) → Forall entry_ok entries →
  wp (pmm_initialize kernel_end entries entry_count) (λ _ s', ∃ U,
    let n := Z.min entry_count E820_MAX_ENTRIES in
    let ms := (kernel_end + 4095) / 4096 * 4096 in
    pmm_rep s' U ∅ ∧ managed_start s' = ms ∧
    ((∃ p, described ms entries n p) → ∀ p, p ∈ U ↔ described ms entries n p) ∧
    ((∀ p, ¬ described ms entries n p) → U = block (ms / 4096) (1024 - ms / 4096))) s.
Proof.
  intros Hke Hec Hlen Hall. unfold PMM_MANAGED_LIMIT in Hke.
  set (n := Z.min entry_count E820_MAX_ENTRIES) in *.
  set (ms := (kernel_end + 4095) / 4096 * 4096).
  assert (Hms : 0 < ms ≤ 134217728 ∧ ms mod 4096 = 0).
  { subst ms. split; [|by apply Z.mod_mul].
    pose proof (Z.div_mod (kernel_end + 4095) 4096 ltac:(lia)).
    pose proof (Z.mod_pos_bound (kernel_end + 4095) 4096 ltac:(lia)). lia. }
  unfold pmm_initialize. wp_step. wp_step. rewrite align_up_page by lia. fold ms n. wp_step.
  apply (wp_for _ _ _ (λ i s', managed_start s' = ms ∧ ∃ U, pmm_rep s' U ∅ ∧
    ∀ p, p ∈ U ↔ described ms entries i p)).
  { subst n. unfold is_u32, E820_MAX_ENTRIES in *. lia. }
  - split; [done|]. exists ∅. split.
    + apply initial_rep; tauto.
    + intros p. split; [set_solver +|]. intros (_ & _ & i & e & ? & _). lia.
  - intros i s' Hi (Hms' & U & Hrep & HU). wp_step.
    destruct (aread_is_Some entries i ltac:(lia)) as [e He]. wp_step.
    eapply wp_mono; [apply (entry_step_spec s' U e Hrep)|].
    { apply aread_Some in He as [_ He]. by eapply Forall_lookup_1. }
    intros _ s2 (Hms2 & U2 & Hrep2 & HU2). split; [congruence|]. exists U2. split; [done|].
    intros p. rewrite HU2, HU, Hms'. unfold described. split.
    + intros [(? & ? & j & e' & ? & ? & ?)|(? & ? & ?)]; (split_and!; [done|done|]).
      * exists j, e'. split_and!; try done; lia.
      * exists i, e. split_and!; try done; lia.
    + intros (? & ? & j & e' & ? & Hj & ?). destruct (Z.eq_dec j i) as [->|].
      * right. rewrite He in Hj. by simplify_eq.
      * left. split_and!; try done. exists j, e'. split_and!; try done; lia.
  - intros s' (Hms' & U & Hrep & HU). wp_step. wp_step.
    apply (fallback_spec s' U); [done|intros Hne|intros -> s2 Hrep2 Hms2].
    + exists U. split_and!; try done. intros Hno. destruct (set_choose_L U Hne) as [p Hp].
      by apply HU, Hno in Hp.
    + rewrite Hms' in *. eexists. split_and!; [exact Hrep2|done| |done].
      intros [p Hp%HU]. by apply elem_of_empty in Hp.
Qed.

(** ** Concrete runs *)

(** A machine with 2 MiB of memory whose kernel ends at 0x180000. *)
Definition demo_boot : pmm :=
  Pmm (replicate (Z.to_nat (PMM_MAX_PAGES / 32)) 0xFFFFFFFF) 0x180000 0x180000 0 0 1.
Definition demo_pmm : pmm :=
  match mark_usable_region 0x100000 0x200000 demo_boot with Some (_, s) => s | None => demo_boot end.
Definition demo_usable : gset Z := region_pages demo_boot 0x100000 0x200000.

Lemma demo_run : mark_usable_region 0x100000 0x200000 demo_boot = Some (tt, demo_pmm).
Proof. vm_compute. reflexivity. Qed.

Lemma demo_rep : pmm_rep demo_pmm demo_usable ∅.
Proof.
  pose proof (mark_usable_region_spec demo_boot ∅ 0x100000 0x200000) as H.
  apply (wp_run _ _ _ _ _ demo_run) in H; [|by apply initial_rep|lia|done].
  destruct H as [H _]. by rewrite union_empty_l_L in H.
Qed.

Lemma demo_usable_range p : p ∈ demo_usable ↔ 0x180 ≤ p < 0x200.
Proof.
  unfold demo_usable. rewrite elem_of_region by done. change (managed_start demo_boot) with 1572864. change PMM_MAX_PAGES with 32768. lia.
Qed.

Lemma pmm_alloc_pages_witness :
  wp (pmm_alloc_pages 3) (λ r s',
    (r = 0 ∧ s' = demo_pmm ∧ (3 = 0 ∨ ∀ p, ¬ block p 3 ⊆ demo_usable ∖ ∅)) ∨
    (∃ p, r = p * PMM_PAGE_SIZE ∧ r ≠ 0 ∧ 0 < 3 ∧ block p 3 ⊆ demo_usable ∖ ∅ ∧
       (∀ q, block q 3 ⊆ demo_usable ∖ ∅ → p ≤ q) ∧ pmm_rep s' demo_usable (∅ ∪ block p 3)))
    demo_pmm.
Proof. apply (pmm_alloc_pages_spec demo_pmm demo_usable ∅ 3); [exact demo_rep|by vm_compute]. Defined.

Lemma pmm_free_pages_block_witness :
  wp (pmm_free_pages_block 0x180000 2) (λ _ s', pmm_rep s' demo_usable (∅ ∖ block 0x180 2)) demo_pmm ∧
  wp (pmm_free_pages_block 0x180004 2) (λ _ s', s' = demo_pmm) demo_pmm.
Proof.
  destruct (pmm_free_pages_block_spec demo_pmm demo_usable ∅ 0x180 2) as [H1 H2];
    [exact demo_rep|by vm_compute|]. split.
  - apply H1; [lia|]. intros x Hx. apply elem_of_block in Hx. apply elem_of_region; [done|].
    change (managed_start demo_boot) with 1572864. change PMM_MAX_PAGES with 32768. lia.
  - apply H2. right. right. right. by vm_compute.
Defined.

Lemma pmm_alloc_free_roundtrip_witness :
  ∃ s1, pmm_alloc_pages 3 demo_pmm = Some (0x180000, s1) ∧
        pmm_free_pages_block 0x180000 3 s1 = Some (tt, demo_pmm).
Proof.
  eexists. split; [vm_compute; reflexivity|].
  apply (pmm_alloc_free_roundtrip demo_pmm demo_usable ∅ 3);
    [exact demo_rep|by vm_compute|vm_compute; reflexivity|done].
Defined.

(** A map with a reserved hole between two usable entries. *)
Definition demo_entries : list e820_entry :=
  [E820Entry 0x100000 0x100000 1 0; E820Entry 0x200000 0x10000 2 0; E820Entry 0x210000 0x1F0000 1 0].

Lemma pmm_initialize_witness :
  wp (pmm_initialize 0x180000 demo_entries 3) (λ _ s', ∃ U,
    pmm_rep s' U ∅ ∧ managed_start s' = 0x180000 ∧
    ((∃ p, described 0x180000 demo_entries 3 p) → ∀ p, p ∈ U ↔ described 0x180000 demo_entries 3 p) ∧
    ((∀ p, ¬ described 0x180000 demo_entries 3 p) → U = block 0x180 (1024 - 0x180))) demo_boot.
Proof.
  apply (pmm_initialize_spec demo_boot 0x180000 demo_entries 3); [by vm_compute|by vm_compute|by vm_compute|].
  repeat constructor; by vm_compute.
Defined.

(** A page of a reserved hole is not refused by pmm_free_page: it becomes
    allocatable and the counter of used pages wraps around. *)
Example free_reserved_page :
  fst <$> (_ ← pmm_initialize 0x180000 demo_entries 3;
           before ← bitmap_test 0x200;
           _ ← pmm_free_page 0x200000;
           after ← bitmap_test 0x200;
           used ← gets used_pages_count;
           mret (before, after, used)) demo_boot
  = Some (true, false, 0xFFFFFFFF).
Proof. vm_compute. reflexivity. Qed.

(** The end of the block wraps for a count of 2^20 pages, so the range check
    passes and the loop leaves the bitmap. *)
Example free_count_wraps :
  pmm_free_pages_block 0x7FFF000 0x100000 (set_managed_end 0x8000000 demo_pmm) = None.
Proof. vm_compute. reflexivity. Qed.

(** ** The interface of the page allocator

    What paging and the heap use of pmm.c: allocate and free blocks of pages. The
    laws speak of the set [U] of the managed pages and the set [A] of those handed
    out; pmm.c keeps them. *)

Class PageAllocator (P : Type) := {
  alloc_pages : Z → M P Z;
  free_pages_block : Z → Z → M P unit }.

Class PageAllocatorLaws (P : Type) `{PageAllocator P} := {
  pages_rep : P → gset Z → gset Z → Prop;
  pages_bounds s U A : pages_rep s U A → A ⊆ U ∧ ∀ p, p ∈ U → 0 < p < 32768;
  alloc_law s U A n : pages_rep s U A → is_u32 n → wp (alloc_pages n) (λ r s',
    (r = 0 ∧ s' = s ∧ (n = 0 ∨ ∀ p, ¬ block p n ⊆ U ∖ A)) ∨
    (∃ p, r = p * 4096 ∧ 0 < n ∧ block p n ⊆ U ∖ A ∧ (∀ q, block q n ⊆ U ∖ A → p ≤ q) ∧ pages_rep s' U (A ∪ block p n))) s;
  free_law s U A p n : pages_rep s U A → 0 < n → block p n ⊆ U →
    wp (free_pages_block (p * 4096) n) (λ _ s', pages_rep s' U (A ∖ block p n)) s;
  free_ignores s U A a n : pages_rep s U A → a mod 4096 ≠ 0 → wp (free_pages_block a n) (λ _ s', s' = s) s }.

#[export] Instance pmm_allocator : PageAllocator pmm := {|
  alloc_pages := pmm_alloc_pages; free_pages_block := pmm_free_pages_block |}.

#[export, program] Instance pmm_allocator_laws : PageAllocatorLaws pmm := {| pages_rep := pmm_rep |}.
Next Obligation.
  intros s U A Hrep. split; [apply Hrep|]. intros p Hp. apply (rep_managed _ _ _ Hrep) in Hp.
  destruct (rep_bounds s U A Hrep) as (Hb & He & _). pages. lia.
Qed.
Next Obligation.
  intros s U A n Hrep Hn. eapply wp_mono; [by apply (alloc_pages_wp s U A)|].
  intros r s' [?|(p & ? & ? & ? & ? & ? & ? & ?)]; [by left|]. right. by exists p.
Qed.
Next Obligation. intros s U A p n Hrep Hn Hsub. eapply wp_mono; [by apply free_pages_wp|]. by intros ? ? [? _]. Qed.
Next Obligation.
  intros s U A a n Hrep Ha. cbn. unfold pmm_free_pages_block. do 4 wp_step.
  replace (_ || negb (a mod PMM_PAGE_SIZE =? 0)) with true; [by wp_step|].
  symmetry. apply orb_true_iff. right. by apply negb_true_iff, Z.eqb_neq.
Qed.
