(* ===== verification/Paging.v ===== *)
(** * Page tables and address spaces, kernel/mm/paging.c

    The two-level page tables of the x86 in byte memory. An address space is a
    structure with a page directory and the tables that belong to it alone; tables
    of the kernel are shared until a space maps a page in them, which then gets a
    copy of its own. This file is the translation; PagingSpace.v relates a space
    to the map from virtual pages to entries that it stands for. *)

From Stdlib Require Import ZArith Lia Bool.
From stdpp Require Import base numbers list gmap sets.
From S2P Require Import Prelude Memory Pmm.

Definition PAGING_IDENTITY_LIMIT : Z := 0x08000000.
Definition PAGE_SIZE : Z := 4096.
Definition PAGE_PRESENT : Z := 0x1.
Definition PAGE_WRITABLE : Z := 0x2.
Definition PAGE_USER : Z := 0x4.
Definition PAGE_ENTRIES : Z := 1024.
Definition PAGE_TABLE_COUNT : Z := PAGING_IDENTITY_LIMIT / (PAGE_SIZE * PAGE_ENTRIES).
Definition FRAMEBUFFER_PAGE_TABLES : Z := 8.

Section paging.
Context {P : Type} `{PageAllocator P}.

(** The addresses of the static arrays and of the kernel's address space. *)
Context (kernel_page_directory identity_page_tables framebuffer_page_tables kernel_space : Z).

(** The static variables, the memory, the page allocator, the control registers,
    and the translations the processor has cached: virtual page to entry. *)
Record vm := Vm {
  vmem : mem; pager : P; current_space : Z;
  boot_framebuffer_physical : Z; boot_framebuffer_size : Z;
  cr0 : Z; cr3 : Z; tlb : gmap Z Z }.

Definition set_vmem m s := Vm m (pager s) (current_space s) (boot_framebuffer_physical s) (boot_framebuffer_size s) (cr0 s) (cr3 s) (tlb s).
Definition set_pager p s := Vm (vmem s) p (current_space s) (boot_framebuffer_physical s) (boot_framebuffer_size s) (cr0 s) (cr3 s) (tlb s).
Definition set_current v s := Vm (vmem s) (pager s) v (boot_framebuffer_physical s) (boot_framebuffer_size s) (cr0 s) (cr3 s) (tlb s).
Definition set_boot_framebuffer p n s := Vm (vmem s) (pager s) (current_space s) p n (cr0 s) (cr3 s) (tlb s).
Definition set_cr0 v s := Vm (vmem s) (pager s) (current_space s) (boot_framebuffer_physical s) (boot_framebuffer_size s) v (cr3 s) (tlb s).
Definition set_cr3 v s := Vm (vmem s) (pager s) (current_space s) (boot_framebuffer_physical s) (boot_framebuffer_size s) (cr0 s) v (tlb s).
Definition set_tlb v s := Vm (vmem s) (pager s) (current_space s) (boot_framebuffer_physical s) (boot_framebuffer_size s) (cr0 s) (cr3 s) v.

(** A [uint32_t] through a pointer. *)
Definition rd (a : Z) : M vm Z := m ← gets vmem; lift (load 4 m a).
Definition wr (a v : Z) : M vm unit := m ← gets vmem; m' ← lift (store 4 m a v); modify (set_vmem m').

Definition pmm_alloc_page : M vm Z := zoom pager set_pager (alloc_pages 1).
Definition pmm_free_page (page : Z) : M vm unit := zoom pager set_pager (free_pages_block page 1).

(** [struct address_space]: the directory, then the owned tables. *)
Definition page_directory_at (space : Z) : Z := space.
Definition owned_table_at (space i : Z) : Z := space + 4 + i * 4.
Definition entry_at (table i : Z) : Z := table + i * 4.

(** [e & ~(PAGE_SIZE - 1)] *)
Definition frame_of (e : Z) : Z := Z.land e (u32 (Z.lnot (PAGE_SIZE - 1))).
Definition is_present (e : Z) : bool := negb (Z.land e PAGE_PRESENT =? 0).

(** ** Tables *)

Definition zero_page_table (table : Z) : M vm unit :=
  for_ 0 PAGE_ENTRIES (λ i, wr (entry_at table i) 0).

Definition copy_page_table (dst src : Z) : M vm unit :=
  for_ 0 PAGE_ENTRIES (λ i, v ← rd (entry_at src i); wr (entry_at dst i) v).

(** The instruction [invlpg], and the write of CR3, which drops every cached
    translation. *)
Definition invalidate_page (virtual_address : Z) : M vm unit :=
  modify (λ s, set_tlb (delete (virtual_address / 4096) (tlb s)) s).

Definition load_cr3 (page_directory : Z) : M vm unit :=
  modify (λ s, set_tlb ∅ (set_cr3 page_directory s)).

(** ** Initialization *)

(** The inner loop over the entries of one table. *)
Definition map_framebuffer_table (table table_index address end_ : Z) : M vm Z :=
  iterate (S (Z.to_nat PAGE_ENTRIES)) (λ '(table_index, address),
    if (table_index <? PAGE_ENTRIES) && (address <? end_) then
      _ ← wr (entry_at table table_index) (Z.lor (Z.lor address PAGE_PRESENT) PAGE_WRITABLE);
      mret (inl (table_index +% 1, address +% PAGE_SIZE))
    else mret (inr address)) (table_index, address).

Definition map_framebuffer (start end_ : Z) : M vm unit :=
  iterate (S (Z.to_nat PAGE_ENTRIES)) (λ '(address, table_slots_used),
    if negb (address <? end_) then mret (inr tt)
    else
      let directory_index := Z.shiftr address 22 in
      let table_index := Z.land (Z.shiftr address 12) 0x3FF in
      pde ← rd (entry_at kernel_page_directory directory_index);
      if negb (is_present pde) && (FRAMEBUFFER_PAGE_TABLES <=? table_slots_used) then mret (inr tt)
      else
        slots ←
          (if negb (is_present pde) then
             let slot := framebuffer_page_tables + table_slots_used * 4096 in
             _ ← zero_page_table slot;
             _ ← wr (entry_at kernel_page_directory directory_index) (Z.lor (Z.lor slot PAGE_PRESENT) PAGE_WRITABLE);
             mret (table_slots_used +% 1)
           else mret table_slots_used);
        pde ← rd (entry_at kernel_page_directory directory_index);
        address ← map_framebuffer_table (frame_of pde) table_index address end_;
        mret (inl (address, slots))) (start, 0).

Definition paging_initialize : M vm unit :=
  _ ← for_ 0 PAGE_ENTRIES (λ i,
        _ ← wr (entry_at kernel_page_directory i) PAGE_WRITABLE;
        wr (owned_table_at kernel_space i) 0);
  _ ← for_ 0 PAGE_TABLE_COUNT (λ table,
        _ ← for_ 0 PAGE_ENTRIES (λ entry,
              let address := (table *% PAGE_ENTRIES +% entry) *% PAGE_SIZE in
              wr (entry_at (identity_page_tables + table * 4096) entry) (Z.lor (Z.lor address PAGE_PRESENT) PAGE_WRITABLE));
        wr (entry_at kernel_page_directory table) (Z.lor (Z.lor (identity_page_tables + table * 4096) PAGE_PRESENT) PAGE_WRITABLE));
  physical ← gets boot_framebuffer_physical; size ← gets boot_framebuffer_size;
  _ ← when (negb (physical =? 0) && negb (size =? 0))
        (map_framebuffer (frame_of physical) (frame_of (physical +% size +% PAGE_SIZE -% 1)));
  _ ← wr (page_directory_at kernel_space) kernel_page_directory;
  _ ← modify (set_current kernel_space);
  _ ← load_cr3 kernel_page_directory;
  modify (λ s, set_cr0 (Z.lor (cr0 s) 0x80000000) s).

Definition paging_set_boot_framebuffer (physical_address size : Z) : M vm unit :=
  modify (set_boot_framebuffer physical_address size).

Definition paging_is_enabled : M vm bool := gets (λ s, negb (Z.land (cr0 s) 0x80000000 =? 0)).

Definition paging_kernel_address_space : M vm Z := mret kernel_space.
Definition paging_current_address_space : M vm Z := gets current_space.

(** ** Address spaces *)

Definition paging_switch_address_space (space : Z) : M vm unit :=
  if space =? 0 then mret tt
  else
    directory ← rd (page_directory_at space);
    if directory =? 0 then mret tt
    else _ ← modify (set_current space); load_cr3 directory.

Definition paging_create_address_space : M vm Z :=
  space ← pmm_alloc_page;
  if space =? 0 then mret 0
  else
    _ ← for_ 0 PAGE_ENTRIES (λ i, wr (owned_table_at space i) 0);
    directory ← pmm_alloc_page;
    if directory =? 0 then _ ← pmm_free_page space; mret 0
    else
      _ ← copy_page_table directory kernel_page_directory;
      _ ← wr (page_directory_at space) directory;
      mret space.

Definition paging_destroy_address_space (space : Z) : M vm unit :=
  if (space =? 0) || (space =? kernel_space) then mret tt
  else
    c ← gets current_space;
    _ ← when (c =? space) (paging_switch_address_space kernel_space);
    _ ← for_ 0 PAGE_ENTRIES (λ i,
          owned ← rd (owned_table_at space i);
          when (negb (owned =? 0)) (_ ← pmm_free_page owned; wr (owned_table_at space i) 0));
    directory ← rd (page_directory_at space);
    _ ← when (negb (directory =? 0)) (pmm_free_page directory);
    pmm_free_page space.

(** ** Mapping *)

Definition ensure_table (space directory_index flags : Z) : M vm Z :=
  directory ← rd (page_directory_at space);
  pde ← rd (entry_at directory directory_index);
  let new_entry table := Z.lor (Z.lor (Z.lor table PAGE_PRESENT) PAGE_WRITABLE) (Z.land flags PAGE_USER) in
  if negb (is_present pde) then
    table ← pmm_alloc_page;
    if table =? 0 then mret 0
    else
      _ ← zero_page_table table;
      _ ← wr (owned_table_at space directory_index) table;
      _ ← wr (entry_at directory directory_index) (new_entry table);
      mret table
  else
    let table := frame_of pde in
    shared ← (if space =? kernel_space then mret false
              else owned ← rd (owned_table_at space directory_index); mret (owned =? 0));
    if (shared : bool) then
      private_table ← pmm_alloc_page;
      if private_table =? 0 then mret 0
      else
        _ ← copy_page_table private_table table;
        _ ← wr (owned_table_at space directory_index) private_table;
        _ ← wr (entry_at directory directory_index) (new_entry private_table);
        mret private_table
    else
      _ ← wr (entry_at directory directory_index) (Z.lor pde (Z.land flags (Z.lor PAGE_WRITABLE PAGE_USER)));
      mret table.

Definition paging_map_page_in_space (space virtual_address physical_address flags : Z) : M vm bool :=
  if space =? 0 then mret false
  else
    directory ← rd (page_directory_at space);
    if directory =? 0 then mret false
    else
      let virtual_address := frame_of virtual_address in
      let physical_address := frame_of physical_address in
      let directory_index := Z.shiftr virtual_address 22 in
      let table_index := Z.land (Z.shiftr virtual_address 12) 0x3FF in
      table ← ensure_table space directory_index flags;
      if table =? 0 then mret false
      else
        _ ← wr (entry_at table table_index) (Z.lor (Z.lor physical_address PAGE_PRESENT) flags);
        c ← gets current_space;
        _ ← when (space =? c) (invalidate_page virtual_address);
        mret true.

Definition paging_map_page (virtual_address physical_address flags : Z) : M vm bool :=
  c ← gets current_space; paging_map_page_in_space c virtual_address physical_address flags.

Definition paging_unmap_page_in_space (space virtual_address : Z) : M vm unit :=
  if space =? 0 then mret tt
  else
    directory ← rd (page_directory_at space);
    if directory =? 0 then mret tt
    else
      let directory_index := Z.shiftr virtual_address 22 in
      let table_index := Z.land (Z.shiftr virtual_address 12) 0x3FF in
      pde ← rd (entry_at directory directory_index);
      if negb (is_present pde) then mret tt
      else
        let table := frame_of pde in
        _ ← wr (entry_at table table_index) 0;
        c ← gets current_space;
        when (space =? c) (invalidate_page virtual_address).

Definition paging_unmap_page (virtual_address : Z) : M vm unit :=
  c ← gets current_space; paging_unmap_page_in_space c virtual_address.

Definition paging_get_physical_in_space (space virtual_address : Z) : M vm Z :=
  if space =? 0 then mret 0
  else
    directory ← rd (page_directory_at space);
    if directory =? 0 then mret 0
    else
      let directory_index := Z.shiftr virtual_address 22 in
      let table_index := Z.land (Z.shiftr virtual_address 12) 0x3FF in
      pde ← rd (entry_at directory directory_index);
      if negb (is_present pde) then mret 0
      else
        let table := frame_of pde in
        pte ← rd (entry_at table table_index);
        if negb (is_present pte) then mret 0
        else mret (Z.lor (frame_of pte) (Z.land virtual_address (PAGE_SIZE - 1))).

Definition paging_get_physical (virtual_address : Z) : M vm Z :=
  c ← gets current_space; paging_get_physical_in_space c virtual_address.
End paging.
Arguments vm P : clear implicits.
