(* ===== verification/PagingSpace.v ===== *)
(** * What an address space means

    A page table is a function from its 1024 entries to words; an address space is
    a directory and the tables it points to, which stand for a map from virtual
    pages to entries ([trans]). Every operation of paging.c is related to that
    map, together with the memory it may touch. *)

From Stdlib Require Import ZArith Lia Bool.
From stdpp Require Import base numbers list gmap sets.
From S2P Require Import Prelude Memory Bitmap Pmm Paging.

(** ** Entries *)

Lemma frame_of_eq e : is_u32 e → frame_of e = e / 4096 * 4096.
Proof. intros He. unfold frame_of, PAGE_SIZE. change (4096 - 1) with (2 ^ 12 - 1). by apply land_not_ones. Qed.

Lemma frame_of_range e : is_u32 e → is_u32 (frame_of e) ∧ frame_of e mod 4096 = 0 ∧ frame_of e + 4096 ≤ 2 ^ 32.
Proof. intros He. rewrite frame_of_eq by done. unfold is_u32 in *. split_and!; [Z.to_euclidean_division_equations; lia..|by apply Z.mod_mul|Z.to_euclidean_division_equations; lia]. Qed.

Lemma frame_aligned t : is_u32 t → t mod 4096 = 0 → frame_of t = t.
Proof. intros Ht Hm. rewrite frame_of_eq by done. Z.to_euclidean_division_equations; lia. Qed.

(** Flags in the low twelve bits leave the frame. *)
Lemma lor_small_div e x : is_u32 e → 0 ≤ x < 4096 → is_u32 (Z.lor e x) ∧ Z.lor e x / 4096 = e / 4096.
Proof.
  intros He Hx. split.
  - change 4294967296 with (2 ^ 32). apply (lor_range 32); [lia|exact He|lia].
  - change 4096 with (2 ^ 12). rewrite <- !Z.shiftr_div_pow2, Z.shiftr_lor by lia. rewrite (Z.shiftr_div_pow2 x), (Z.div_small x) by lia. apply Z.lor_0_r.
Qed.

Lemma frame_lor e x : is_u32 e → 0 ≤ x < 4096 → frame_of (Z.lor e x) = frame_of e.
Proof. intros He Hx. destruct (lor_small_div e x He Hx) as [Hu Hd]. by rewrite !frame_of_eq, Hd. Qed.

Lemma is_present_testbit e : is_present e = Z.testbit e 0.
Proof.
  unfold is_present, PAGE_PRESENT. change 1 with (Z.ones 1). rewrite Z.land_ones, <- Z.bit0_mod by lia.
  by destruct (Z.testbit e 0).
Qed.

Lemma present_lor e x : is_present (Z.lor e x) = is_present e || is_present x.
Proof. by rewrite !is_present_testbit, Z.lor_spec. Qed.

Lemma land_small f k : 0 ≤ k < 4096 → 0 ≤ Z.land f k < 4096.
Proof.
  intros Hk. rewrite <- (Z.mod_small k (2 ^ 12)) by lia. rewrite <- Z.land_ones, Z.land_assoc, Z.land_ones by lia.
  apply Z.mod_pos_bound. lia.
Qed.

Lemma lor_small x y : 0 ≤ x < 4096 → 0 ≤ y < 4096 → 0 ≤ Z.lor x y < 4096.
Proof. intros. change 4096 with (2 ^ 12). apply lor_range; lia. Qed.

(** ** Tables *)

Definition table (m : mem) (t : Z) (f : Z → Z) : Prop := ∀ i, 0 ≤ i < 1024 → load 4 m (entry_at t i) = Some (f i).

Definition upd {A} (f : Z → A) (i : Z) (v : A) : Z → A := λ j, if j =? i then v else f j.

Definition page_ok (t : Z) : Prop := 0 < t ∧ t mod 4096 = 0 ∧ t + 4096 ≤ 2 ^ 32.

(** Two ranges of memory without a common byte. *)
Definition apart (a n b k : Z) : Prop := a + n ≤ b ∨ b + k ≤ a.

Lemma pages_apart t t' : t mod 4096 = 0 → t' mod 4096 = 0 → t ≠ t' → apart t 4096 t' 4096.
Proof. intros H1 H2 Hne. unfold apart. Z.to_euclidean_division_equations; lia. Qed.

Lemma table_changes m m' t f a n : table m t f → changes m m' a n → apart t 4096 a n → table m' t f.
Proof. intros Ht Hc Ha i Hi. rewrite (load_changes _ _ _ _ _ _ Hc); [by apply Ht|]. unfold apart, entry_at in *. lia. Qed.

Lemma table_store m m' t f i v : table m t f → 0 ≤ i < 1024 → is_u32 v → store 4 m (entry_at t i) v = Some m' → table m' t (upd f i v).
Proof.
  intros Ht Hi Hv E j Hj. unfold upd. destruct (Z.eqb_spec j i) as [->|Hne].
  - rewrite (load_store_eq _ _ _ _ _ E). f_equal. apply Z.mod_small. exact Hv.
  - rewrite (load_store_ne _ _ _ _ _ _ _ E); [by apply Ht|]. unfold entry_at. lia.
Qed.

Lemma table_mapped m t f : table m t f → mapped m t 4096.
Proof.
  intros Ht b Hb. set (i := (b - t) / 4). assert (Hi : 0 ≤ i < 1024) by (unfold i; Z.to_euclidean_division_equations; lia).
  apply (load_mapped _ _ _ _ (Ht i Hi)). unfold entry_at. change (Z.of_nat 4) with 4. unfold i. Z.to_euclidean_division_equations; lia.
Qed.

Lemma table_u32 m t f i : bytes_ok m → table m t f → 0 ≤ i < 1024 → is_u32 (f i).
Proof. intros Hb Ht Hi. exact (load_range _ _ _ _ Hb (Ht i Hi)). Qed.

Section tables.
Context {P : Type} `{PageAllocator P}.
Implicit Types s : vm P.

Lemma rd_wp a v s (Q : Z → vm P → Prop) : load 4 (vmem s) a = Some v → Q v s → wp (rd a) Q s.
Proof. intros E HQ. unfold rd. do 2 wp_step. by eapply wp_lift. Qed.

Lemma wr_wp a v s (Q : unit → vm P → Prop) : mapped (vmem s) a 4 →
  (∀ m', store 4 (vmem s) a v = Some m' → Q tt (set_vmem m' s)) → wp (wr a v) Q s.
Proof.
  intros Hm HQ. unfold wr. do 2 wp_step. destruct (store_is_Some 4 (vmem s) a v Hm) as [m' E].
  wp_step. eapply wp_lift; [exact E|]. wp_step. by apply HQ.
Qed.

(** Only the memory has changed. *)
Definition only_mem s s' : Prop := s' = set_vmem (vmem s') s.

Lemma only_mem_refl s : only_mem s s.
Proof. by destruct s. Qed.
Lemma only_mem_set s m : only_mem s (set_vmem m s).
Proof. done. Qed.
Lemma only_mem_trans s s1 s2 : only_mem s s1 → only_mem s1 s2 → only_mem s s2.
Proof. unfold only_mem. intros E1 E2. rewrite E2, E1. done. Qed.

(** A loop that writes the words [f 0], [f 1], .. of a block. *)
Lemma fill_words_wp n t (f : Z → Z) body s (Q : unit → vm P → Prop) : 0 ≤ n → (∀ i, 0 ≤ i < n → is_u32 (f i)) → mapped (vmem s) t (n * 4) →
  (∀ i s1, 0 ≤ i < n → only_mem s s1 → changes (vmem s) (vmem s1) t (n * 4) →
     (∀ Q', wp (wr (t + i * 4) (f i)) Q' s1 → wp (body i) Q' s1)) →
  (∀ s', only_mem s s' → changes (vmem s) (vmem s') t (n * 4) → (∀ i, 0 ≤ i < n → load 4 (vmem s') (t + i * 4) = Some (f i)) → Q tt s') →
  wp (for_ 0 n body) Q s.
Proof.
  intros Hn Hf Hm Hb HQ.
  apply (wp_for _ _ _ (λ i s', only_mem s s' ∧ changes (vmem s) (vmem s') t (n * 4) ∧ ∀ j, 0 ≤ j < i → load 4 (vmem s') (t + j * 4) = Some (f j))); [done| | |].
  - split_and!; [apply only_mem_refl|apply changes_refl|lia].
  - intros i s1 Hi (Ho & Hc & Hl). apply Hb; [done|done|done|]. apply wr_wp.
    { eapply changes_mapped; [exact Hc|]. eapply mapped_sub; [exact Hm|lia|lia]. }
    intros m' E. split_and!.
    + eapply only_mem_trans; [exact Ho|done].
    + eapply changes_trans; [exact Hc|]. eapply changes_sub; [by eapply store_changes|lia].
    + intros j Hj. cbn [vmem set_vmem]. destruct (decide (j = i)) as [->|].
      * rewrite (load_store_eq _ _ _ _ _ E). f_equal. apply Z.mod_small, (Hf i Hi).
      * rewrite (load_store_ne _ _ _ _ _ _ _ E) by lia. apply Hl. lia.
  - intros s' (Ho & Hc & Hl). by apply HQ.
Qed.

Lemma zero_page_table_wp t s (Q : unit → vm P → Prop) : mapped (vmem s) t 4096 →
  (∀ s', only_mem s s' → changes (vmem s) (vmem s') t 4096 → table (vmem s') t (λ _, 0) → Q tt s') →
  wp (zero_page_table t) Q s.
Proof. intros Hm HQ. unfold zero_page_table. apply (fill_words_wp _ t (λ _, 0)); [done|done|exact Hm|done|exact HQ]. Qed.

Lemma copy_page_table_wp dst src f s (Q : unit → vm P → Prop) : bytes_ok (vmem s) → mapped (vmem s) dst 4096 → table (vmem s) src f → apart src 4096 dst 4096 →
  (∀ s', only_mem s s' → changes (vmem s) (vmem s') dst 4096 → table (vmem s') dst f → Q tt s') →
  wp (copy_page_table dst src) Q s.
Proof.
  intros Hb Hm Ht Ha HQ. unfold copy_page_table. apply (fill_words_wp _ dst f); [done|intros i Hi; by eapply table_u32|exact Hm| |exact HQ].
  intros i s1 Hi Ho Hc Q' HQ'. wp_step. eapply rd_wp; [|exact HQ']. by apply (table_changes _ _ _ _ _ _ Ht Hc Ha).
Qed.
End tables.

(** ** Address spaces *)

(** The entry of the virtual page with the directory index [i] and the table index
    [k]; 0 where there is no table. *)
Definition trans (D : Z → Z) (F : Z → Z → Z) (i k : Z) : Z := if is_present (D i) then F i k else 0.

Section space.
Context {P : Type} `{PageAllocatorLaws P} (kernel_space : Z).
Implicit Types s : vm P.

(** The table of the index [i] belongs to the space alone. *)
Definition private (sp : Z) (O : Z → Z) (i : Z) : Prop := sp = kernel_space ∨ O i ≠ 0.

(** The structure at [sp] holds the directory [d] with the entries [D], the owned
    tables [O] and tables with the entries [F]. The structure has 4100 bytes; of its
    last field, which a page of 4096 has no room for, nothing is said. *)
Record space_rep (m : mem) (sp d : Z) (D O : Z → Z) (F : Z → Z → Z) : Prop := {
  sr_sp : 0 < sp;
  sr_ptr : load 4 m sp = Some d;
  sr_page : page_ok d;
  sr_dir : table m d D;
  sr_owned : ∀ i, 0 ≤ i < 1023 → load 4 m (owned_table_at sp i) = Some (O i);
  sr_tables : ∀ i, 0 ≤ i < 1024 → is_present (D i) = true → 0 < frame_of (D i) ∧ table m (frame_of (D i)) (F i);
  sr_own : ∀ i, 0 ≤ i < 1023 → O i ≠ 0 → is_present (D i) = true ∧ frame_of (D i) = O i;
  sr_dir_apart : apart sp 4096 d 4096;
  sr_table_apart : ∀ i, 0 ≤ i < 1024 → is_present (D i) = true → apart sp 4096 (frame_of (D i)) 4096 ∧ frame_of (D i) ≠ d;
  sr_private : ∀ i j, 0 ≤ i < 1023 → 0 ≤ j < 1024 → i ≠ j → is_present (D i) = true → is_present (D j) = true →
    private sp O i → frame_of (D i) ≠ frame_of (D j) }.

(** The bytes of the space: structure, directory, tables; and those of it that no
    other space uses. *)
Definition in_space (sp d : Z) (D : Z → Z) (a : Z) : Prop :=
  sp ≤ a < sp + 4096 ∨ d ≤ a < d + 4096 ∨ ∃ i, 0 ≤ i < 1024 ∧ is_present (D i) = true ∧ frame_of (D i) ≤ a < frame_of (D i) + 4096.
Definition in_private (sp d : Z) (D O : Z → Z) (a : Z) : Prop :=
  sp ≤ a < sp + 4096 ∨ d ≤ a < d + 4096 ∨
  ∃ i, 0 ≤ i < 1023 ∧ is_present (D i) = true ∧ private sp O i ∧ frame_of (D i) ≤ a < frame_of (D i) + 4096.

(** A state of the machine with such a space, none of whose bytes is in a free page. *)
Record vm_ok s (U A : gset Z) (sp d : Z) (D O : Z → Z) (F : Z → Z → Z) : Prop := {
  vo_pages : pages_rep (pager s) U A;
  vo_bytes : bytes_ok (vmem s);
  vo_mapped : ∀ p, p ∈ U → mapped (vmem s) (p * 4096) 4096;
  vo_space : space_rep (vmem s) sp d D O F;
  vo_busy : ∀ a, in_space sp d D a → a / 4096 ∉ U ∖ A }.

Lemma dir_u32 s U A sp d D O F i : vm_ok s U A sp d D O F → 0 ≤ i < 1024 → is_u32 (D i).
Proof. intros [_ Hb _ Hs _] Hi. eapply table_u32; [exact Hb|apply Hs|done]. Qed.

(** ** Reading *)

Lemma get_physical_wp s U A sp d D O F v (Q : Z → vm P → Prop) : vm_ok s U A sp d D O F → is_u32 v →
  Q (let e := trans D F (v / 4194304) (v / 4096 mod 1024) in if is_present e then frame_of e + v mod 4096 else 0) s →
  wp (paging_get_physical_in_space sp v) Q s.
Proof.
  intros Hok Hv HQ. destruct Hok as [Hp Hb Hm Hs Hbusy]. pose proof (sr_sp _ _ _ _ _ _ Hs). destruct (sr_page _ _ _ _ _ _ Hs) as (Hd0 & _).
  unfold paging_get_physical_in_space, page_directory_at. rewrite (proj2 (Z.eqb_neq sp 0)) by lia.
  wp_step. eapply rd_wp; [apply Hs|]. rewrite (proj2 (Z.eqb_neq d 0)) by lia.
  assert (Ei : Z.shiftr v 22 = v / 4194304) by (by rewrite Z.shiftr_div_pow2 by lia).
  assert (Ek : Z.land (Z.shiftr v 12) 0x3FF = v / 4096 mod 1024) by (change 0x3FF with (Z.ones 10); by rewrite Z.land_ones, Z.shiftr_div_pow2 by lia).
  rewrite Ei, Ek. set (i := v / 4194304) in *. set (k := v / 4096 mod 1024) in *.
  assert (Hi : 0 ≤ i < 1024) by (unfold i, is_u32 in *; Z.to_euclidean_division_equations; lia).
  assert (Hk : 0 ≤ k < 1024) by (unfold k; apply Z.mod_pos_bound; lia).
  wp_step. eapply rd_wp; [by apply Hs|]. unfold trans in HQ. destruct (is_present (D i)) eqn:E; cbn [negb].
  - destruct (sr_tables _ _ _ _ _ _ Hs i Hi E) as [_ Ht]. wp_step. eapply rd_wp; [by apply Ht|].
    destruct (is_present (F i k)) eqn:E2; cbn [negb]; wp_step; [|done].
    pose proof (table_u32 _ _ _ k Hb Ht Hk) as Hu. destruct (frame_of_range _ Hu) as (_ & Hal & _).
    unfold PAGE_SIZE. change (4096 - 1) with (Z.ones 12). rewrite Z.land_ones by lia. change (2 ^ 12) with 4096.
    rewrite Z.lor_comm, lor_add; [by rewrite Z.add_comm|].
    replace (frame_of (F i k)) with (frame_of (F i k) / 4096 * 2 ^ 12) by (change (2 ^ 12) with 4096; Z.to_euclidean_division_equations; lia).
    apply land_low_high; [lia|]. apply Z.mod_pos_bound. lia.
  - wp_step. done.
Qed.

(** ** Growing a space *)

(** A page of memory that lies outside the space. *)
Definition outside (sp d : Z) (D : Z → Z) (t : Z) : Prop :=
  page_ok t ∧ ∀ a, t ≤ a < t + 4096 → ¬ in_space sp d D a.

Lemma fresh_outside s U A sp d D O F p : vm_ok s U A sp d D O F → p ∈ U ∖ A → outside sp d D (p * 4096).
Proof.
  intros Hok Hp. destruct (pages_bounds _ _ _ (vo_pages _ _ _ _ _ _ _ _ Hok)) as [_ Hb].
  assert (0 < p < 32768) by (apply Hb; set_solver). split.
  - split_and!; [lia|by apply Z.mod_mul|lia].
  - intros a Ha Hin. apply (vo_busy _ _ _ _ _ _ _ _ Hok) in Hin. apply Hin. replace (a / 4096) with p; [done|]. Z.to_euclidean_division_equations; lia.
Qed.

Lemma outside_apart sp d D O F m t : space_rep m sp d D O F → outside sp d D t →
  apart sp 4096 t 4096 ∧ t ≠ d ∧ apart d 4096 t 4096 ∧
  ∀ i, 0 ≤ i < 1024 → is_present (D i) = true → t ≠ frame_of (D i) ∧ apart (frame_of (D i)) 4096 t 4096.
Proof.
  intros Hs [_ Ho].
  assert (Hd : ∀ b, (∀ a, b ≤ a < b + 4096 → in_space sp d D a) → t ≠ b ∧ apart b 4096 t 4096).
  { intros b Hin. unfold apart. split.
    - intros ->. apply (Ho b); [lia|]. apply Hin. lia.
    - destruct (decide (b + 4096 ≤ t ∨ t + 4096 ≤ b)); [done|]. exfalso. apply (Ho (Z.max b t)); [lia|]. apply Hin. lia. }
  split_and!.
  - apply Hd. intros a Ha. by left.
  - apply Hd. intros a Ha. right. by left.
  - apply Hd. intros a Ha. right. by left.
  - intros i Hi Hp. apply Hd. intros a Ha. right. right. by exists i.
Qed.

(** A space depends on its own bytes only. *)
Lemma space_rep_same m m' sp d D O F : space_rep m sp d D O F → (∀ a, in_space sp d D a → m' !! a = m !! a) → space_rep m' sp d D O F.
Proof.
  intros [S1 S2 S3 S4 S5 S6 S7 S8 S9 S10] Ho.
  assert (Hl : ∀ b, (∀ c, b ≤ c < b + 4 → in_space sp d D c) → load 4 m' b = load 4 m b).
  { intros b Hin. apply load_ext. intros c Hc'. apply Ho. by apply Hin. }
  split; try done.
  - rewrite Hl; [done|]. intros c Hc'. left. lia.
  - intros i Hi. rewrite Hl; [by apply S4|]. intros c Hc'. right. left. unfold entry_at in Hc'. lia.
  - intros i Hi. rewrite Hl; [by apply S5|]. intros c Hc'. left. unfold owned_table_at in Hc'. lia.
  - intros i Hi E. destruct (S6 i Hi E) as [Hf Ht]. split; [done|]. intros k Hk. rewrite Hl; [by apply Ht|].
    intros c Hc'. right. right. exists i. split_and!; try done; unfold entry_at in Hc'; lia.
Qed.

Lemma space_rep_changes m m' sp d D O F a n : space_rep m sp d D O F → changes m m' a n →
  (∀ b, a ≤ b < a + n → ¬ in_space sp d D b) → space_rep m' sp d D O F.
Proof.
  intros Hs Hc Ho. eapply space_rep_same; [exact Hs|]. intros b Hb. apply (ch_same _ _ _ _ Hc). intros Hin. by apply (Ho b).
Qed.

(** Installing a new table [t], with the entries [f] and the flags [x], at the index [i]. *)
Lemma space_rep_install m m1 m2 sp d D O F i t f x : bytes_ok m → space_rep m sp d D O F → table m t f → outside sp d D t →
  0 ≤ i < 1023 → 0 ≤ x < 4096 → is_present x = true →
  store 4 m (owned_table_at sp i) t = Some m1 → store 4 m1 (entry_at d i) (Z.lor t x) = Some m2 →
  space_rep m2 sp d (upd D i (Z.lor t x)) (upd O i t) (upd F i f).
Proof.
  intros Hb Hs Ht Hout Hi Hx Hpx E1 E2. destruct (outside_apart _ _ _ _ _ _ _ Hs Hout) as (A1 & A2 & A3 & A4).
  destruct Hout as [(T0 & Tm & Te) _]. assert (Tu : is_u32 t) by (unfold is_u32; lia).
  assert (Efr : frame_of (Z.lor t x) = t) by (rewrite frame_lor by done; by apply frame_aligned).
  assert (Epr : is_present (Z.lor t x) = true) by (by rewrite present_lor, Hpx, orb_true_r).
  destruct (lor_small_div t x Tu Hx) as [Eu _].
  destruct Hs as [S1 S2 S3 S4 S5 S6 S7 S8 S9 S10]. pose proof S8 as Sd. unfold apart in *.
  assert (C1 := store_changes _ _ _ _ _ E1). assert (C2 := store_changes _ _ _ _ _ E2). change (Z.of_nat 4) with 4 in *.
  assert (Hmove : ∀ t' f', apart t' 4096 sp 4096 → apart t' 4096 d 4096 → table m t' f' → table m2 t' f').
  { intros t' f' B1 B2 Ht'. eapply table_changes; [eapply table_changes; [exact Ht'|exact C1|]|exact C2|]; unfold apart, owned_table_at, entry_at in *; lia. }
  split; unfold upd.
  - done.
  - rewrite (load_changes _ _ _ _ _ _ C2), (load_changes _ _ _ _ _ _ C1); [done|unfold owned_table_at; lia|unfold entry_at; change (Z.of_nat 4) with 4; lia].
  - done.
  - eapply table_store; [|lia|done|exact E2]. eapply table_changes; [exact S4|exact C1|]. unfold apart, owned_table_at. lia.
  - intros j Hj. rewrite (load_changes _ _ _ _ _ _ C2) by (unfold entry_at, owned_table_at; change (Z.of_nat 4) with 4; lia).
    destruct (Z.eqb_spec j i) as [->|Hne].
    + rewrite (load_store_eq _ _ _ _ _ E1). f_equal. apply Z.mod_small. exact Tu.
    + rewrite (load_store_ne _ _ _ _ _ _ _ E1); [by apply S5|]. unfold owned_table_at. lia.
  - intros j Hj. destruct (Z.eqb_spec j i) as [->|Hne].
    + intros _. rewrite Efr. split; [done|]. apply Hmove; [unfold apart; lia|unfold apart; lia|done].
    + intros Hp. destruct (S6 j Hj Hp) as [Hf0 Htj]. destruct (S9 j Hj Hp) as [B1 B2]. split; [done|].
      destruct (S3) as (_ & Dm & _). apply Hmove; [unfold apart in *; lia| |done].
      apply pages_apart; [|done|done]. apply frame_of_range. by eapply table_u32.
  - intros j Hj. destruct (Z.eqb_spec j i) as [->|Hne]; [intros _; by rewrite Efr|by apply S7].
  - done.
  - intros j Hj. destruct (Z.eqb_spec j i) as [->|Hne]; [intros _; rewrite Efr; unfold apart; lia|by apply S9].
  - intros j k Hj Hk Hjk. unfold private. destruct (Z.eqb_spec j i) as [->|Hj1], (Z.eqb_spec k i) as [->|Hk1]; try done.
    + intros _ Hpk _. rewrite Efr. by apply A4.
    + intros Hpj _ _. rewrite Efr. intros E. symmetry in E. revert E. apply A4; [lia|done].
    + intros Hpj Hpk Hpr. by apply S10.
Qed.

(** Setting flags in a directory entry. *)
Lemma space_rep_flags m m1 sp d D O F i x : bytes_ok m → space_rep m sp d D O F → 0 ≤ i < 1024 → 0 ≤ x < 4096 → is_present (D i) = true →
  store 4 m (entry_at d i) (Z.lor (D i) x) = Some m1 → space_rep m1 sp d (upd D i (Z.lor (D i) x)) O F.
Proof.
  intros Hb Hs Hi Hx Hp E. assert (Hu : is_u32 (D i)) by (eapply table_u32; [exact Hb|apply Hs|done]).
  assert (Efr : ∀ j, frame_of (upd D i (Z.lor (D i) x) j) = frame_of (D j)).
  { intros j. unfold upd. destruct (Z.eqb_spec j i) as [->|]; [by apply frame_lor|done]. }
  assert (Epr : ∀ j, is_present (upd D i (Z.lor (D i) x) j) = is_present (D j)).
  { intros j. unfold upd. destruct (Z.eqb_spec j i) as [->|]; [by rewrite present_lor, Hp|done]. }
  destruct (lor_small_div (D i) x Hu Hx) as [Eu _]. assert (C := store_changes _ _ _ _ _ E). change (Z.of_nat 4) with 4 in *.
  destruct Hs as [S1 S2 S3 S4 S5 S6 S7 S8 S9 S10]. pose proof S3 as (_ & Dm & _).
  split; try done; try (setoid_rewrite Efr); try (setoid_rewrite Epr); try done.
  - rewrite (load_changes _ _ _ _ _ _ C); [done|]. unfold entry_at, apart in *. change (Z.of_nat 4) with 4. lia.
  - by eapply table_store.
  - intros j Hj. rewrite (load_changes _ _ _ _ _ _ C); [by apply S5|]. unfold entry_at, owned_table_at, apart in *. change (Z.of_nat 4) with 4. lia.
  - intros j Hj Hpj. destruct (S6 j Hj Hpj) as [Hf0 Ht]. split; [done|]. eapply table_changes; [exact Ht|exact C|].
    assert (Ha : apart (frame_of (D j)) 4096 d 4096).
    { apply pages_apart; [|done|by apply S9]. apply frame_of_range. by eapply table_u32. }
    unfold apart, entry_at in *. lia.
Qed.

(** ** Finding the table of an index *)

(** The space after a table for the index [i] has been made sure of: the same map,
    with a table of its own at [i], and at most one more page. *)
Record grown s s' (U A : gset Z) (sp d : Z) (D O : Z → Z) (F : Z → Z → Z) (i : Z) (A' : gset Z) (D' O' : Z → Z) (F' : Z → Z → Z) : Prop := {
  gr_ok : vm_ok s' U A' sp d D' O' F';
  gr_present : is_present (D' i) = true;
  gr_private : private sp O' i;
  gr_trans : ∀ j k, trans D' F' j k = trans D F j k;
  gr_frame : ∀ a, ¬ in_private sp d D' O' a → vmem s' !! a = vmem s !! a;
  gr_pages : (A' = A ∧ ∀ j, O' j = O j) ∨ (∃ p, p ∈ U ∖ A ∧ A' = A ∪ {[p]} ∧ O i = 0 ∧ ∀ j, O' j = upd O i (p * 4096) j);
  gr_rest : s' = set_pager (pager s') (set_vmem (vmem s') s);
  gr_dir : ∀ j, j ≠ i → D' j = D j }.

Lemma alloc_page_wp s U A sp d D O F (Q : Z → vm P → Prop) : vm_ok s U A sp d D O F →
  (U ∖ A = ∅ → Q 0 s) →
  (∀ p pg, p ∈ U ∖ A → 0 < p → outside sp d D (p * 4096) → mapped (vmem s) (p * 4096) 4096 →
     vm_ok (set_pager pg s) U (A ∪ {[p]}) sp d D O F → Q (p * 4096) (set_pager pg s)) →
  wp pmm_alloc_page Q s.
Proof.
  intros Hok Hnone Hsome. unfold pmm_alloc_page. wp_step. destruct (pages_bounds _ _ _ (vo_pages _ _ _ _ _ _ _ _ Hok)) as [_ Hbd].
  eapply wp_mono; [apply (alloc_law _ U A 1); [apply Hok|done]|].
  intros r pg [(-> & -> & [E|Hno])|(p & -> & _ & Hsub & _ & Hrep)]; [done| |].
  - replace (set_pager (pager s) s) with s by (by destruct s). apply Hnone. apply set_eq. intros q. split; [|set_solver]. intros Hq.
    exfalso. apply (Hno q). intros y Hy%elem_of_block. by replace y with q by lia.
  - assert (Hp : p ∈ U ∖ A) by (apply Hsub, elem_of_block; lia).
    replace (block p 1) with ({[p]} : gset Z) in Hrep by (apply set_eq; intros q; rewrite elem_of_block, elem_of_singleton; lia).
    pose proof (fresh_outside _ _ _ _ _ _ _ _ p Hok Hp) as Hout. destruct Hok as [V1 V2 V3 V4 V5].
    apply Hsome; [done|apply Hbd; set_solver|done|apply V3; set_solver|]. split; try done. intros a Ha. pose proof (V5 a Ha). set_solver.
Qed.

Lemma new_entry_eq t flags : Z.lor (Z.lor (Z.lor t PAGE_PRESENT) PAGE_WRITABLE) (Z.land flags PAGE_USER) = Z.lor t (Z.lor 3 (Z.land flags 4)).
Proof. unfold PAGE_PRESENT, PAGE_WRITABLE, PAGE_USER. change 3 with (Z.lor 1 2). by rewrite !Z.lor_assoc. Qed.

Lemma vm_ok_only_mem s s' U A sp d D O F a n : vm_ok s U A sp d D O F → only_mem s s' → changes (vmem s) (vmem s') a n →
  (∀ b, a ≤ b < a + n → ¬ in_space sp d D b) → vm_ok s' U A sp d D O F.
Proof.
  intros [V1 V2 V3 V4 V5] Ho Hc Hout. split; try done.
  - rewrite Ho. done.
  - by apply Hc.
  - intros p Hp. eapply changes_mapped; [exact Hc|by apply V3].
  - by eapply space_rep_changes.
Qed.

(** A table for a user page is reachable in user mode. *)
Definition user_kept (flags e : Z) : Prop := Z.testbit flags 2 = true → Z.testbit e 2 = true.

(** The two writes that install a new table of its own. *)
Lemma install_wp s U A sp d D O F i t f flags (Q : Z → vm P → Prop) : vm_ok s U A sp d D O F → table (vmem s) t f → outside sp d D t →
  t / 4096 ∉ U ∖ A → 0 ≤ i < 1023 →
  (∀ s' D', only_mem s s' → vm_ok s' U A sp d D' (upd O i t) (upd F i f) → is_present (D' i) = true → frame_of (D' i) = t →
     (∀ j, j ≠ i → D' j = D j) → (∀ a, ¬ in_private sp d D' (upd O i t) a → vmem s' !! a = vmem s !! a) → user_kept flags (D' i) → Q t s') →
  wp (_ ← wr (owned_table_at sp i) t;
      _ ← wr (entry_at d i) (Z.lor (Z.lor (Z.lor t PAGE_PRESENT) PAGE_WRITABLE) (Z.land flags PAGE_USER)); mret t) Q s.
Proof.
  intros Hok Ht Hout Hbusy Hi HQ. rewrite new_entry_eq. set (x := Z.lor 3 (Z.land flags 4)).
  assert (Hx : 0 ≤ x < 4096) by (apply lor_small; [lia|by apply land_small]). assert (Hpx : is_present x = true) by (unfold x; by rewrite present_lor).
  pose proof (vo_space _ _ _ _ _ _ _ _ Hok) as Hs. destruct Hout as [(T0 & Tm & Te) Hout].
  assert (Tu : is_u32 t) by (unfold is_u32; lia).
  wp_step. apply wr_wp; [apply (load_mapped 4 _ _ (O i)), Hs; done|]. intros m1 E1. wp_step. apply wr_wp.
  { eapply changes_mapped; [by eapply store_changes|]. eapply mapped_sub; [eapply table_mapped, Hs|unfold entry_at; lia|unfold entry_at; lia]. }
  intros m2 E2. wp_step. cbn [vmem set_vmem] in *. assert (C1 := store_changes _ _ _ _ _ E1). assert (C2 := store_changes _ _ _ _ _ E2). change (Z.of_nat 4) with 4 in *.
  pose proof (space_rep_install _ _ _ _ _ _ _ _ _ _ _ x (vo_bytes _ _ _ _ _ _ _ _ Hok) Hs Ht (conj (conj T0 (conj Tm Te)) Hout) Hi Hx Hpx E1 E2) as Hs2.
  assert (Efr : frame_of (Z.lor t x) = t) by (rewrite frame_lor by done; by apply frame_aligned).
  apply (HQ _ (upd D i (Z.lor t x))).
  - by destruct s.
  - destruct Hok as [V1 V2 V3 V4 V5]. split.
    + done.
    + by apply C2, C1.
    + intros p Hp. eapply changes_mapped; [exact C2|]. eapply changes_mapped; [exact C1|by apply V3].
    + exact Hs2.
    + intros a [Ha|[Ha|(j & Hj & Hpj & Ha)]]; [apply V5; by left|apply V5; right; by left|]. unfold upd in Hpj, Ha.
      destruct (Z.eqb_spec j i) as [->|]; [|apply V5; right; right; by exists j]. rewrite Efr in Ha.
      replace (a / 4096) with (t / 4096); [done|]. Z.to_euclidean_division_equations; lia.
  - unfold upd. rewrite Z.eqb_refl. by rewrite present_lor, Hpx, orb_true_r.
  - unfold upd. by rewrite Z.eqb_refl.
  - intros j Hj. unfold upd. by rewrite (proj2 (Z.eqb_neq j i)).
  - intros a Ha. cbn [vmem set_vmem]. rewrite (ch_same _ _ _ _ C2), (ch_same _ _ _ _ C1); [done|..]; intros Hin; apply Ha; unfold owned_table_at, entry_at in Hin; [left; lia|right; left; lia].
  - intros Hf. unfold upd. rewrite Z.eqb_refl. unfold x. by rewrite !Z.lor_spec, Z.land_spec, Hf, !orb_true_r.
Qed.

Lemma trans_install D D' F i f j k : is_present (D' i) = true → (∀ j, j ≠ i → D' j = D j) → (∀ k, f k = trans D F i k) →
  trans D' (upd F i f) j k = trans D F j k.
Proof.
  intros Hp Hd Hf. unfold trans at 1, upd. destruct (Z.eqb_spec j i) as [->|Hne]; [by rewrite Hp|]. by rewrite Hd.
Qed.

(** Filling a fresh page and installing it; [fill] is one of the two table loops. *)
Lemma grow_wp s U A sp d D O F i f flags (fill : Z → M (vm P) unit) (Q : Z → vm P → Prop) : vm_ok s U A sp d D O F → 0 ≤ i < 1023 →
  (∀ k, f k = trans D F i k) → O i = 0 →
  (∀ t s1 (Q' : unit → vm P → Prop), vm_ok s1 U (A ∪ {[t / 4096]}) sp d D O F → outside sp d D t → mapped (vmem s1) t 4096 →
     (∀ s2, only_mem s1 s2 → changes (vmem s1) (vmem s2) t 4096 → table (vmem s2) t f → Q' tt s2) → wp (fill t) Q' s1) →
  (U ∖ A = ∅ → Q 0 s) →
  (∀ s' A' D' O' F', grown s s' U A sp d D O F i A' D' O' F' → user_kept flags (D' i) → Q (frame_of (D' i)) s') →
  wp (t ← pmm_alloc_page;
      if t =? 0 then mret 0
      else _ ← fill t; _ ← wr (owned_table_at sp i) t;
           _ ← wr (entry_at d i) (Z.lor (Z.lor (Z.lor t PAGE_PRESENT) PAGE_WRITABLE) (Z.land flags PAGE_USER)); mret t) Q s.
Proof.
  intros Hok Hi Hf HO Hfill Hnone HQ. wp_step. apply (alloc_page_wp s U A sp d D O F); [done|intros E; cbn [Z.eqb]; wp_step; by apply Hnone|].
  intros p pg Hp Hp0 Hout Hmap Hok1. rewrite (proj2 (Z.eqb_neq (p * 4096) 0)) by lia. wp_step.
  apply Hfill; [by rewrite Z.div_mul|done|done|]. intros s2 Ho2 Hc2 Ht2.
  assert (Hok2 : vm_ok s2 U (A ∪ {[p]}) sp d D O F).
  { eapply vm_ok_only_mem; [exact Hok1|exact Ho2|exact Hc2|apply Hout]. }
  eapply install_wp; [exact Hok2|exact Ht2|done|rewrite Z.div_mul by done; set_solver|done|].
  intros s' D' Ho' Hok' Hp' Hfr HD Hframe Huser. rewrite <- Hfr. apply (HQ s' (A ∪ {[p]}) D' (upd O i (p * 4096)) (upd F i f)); [|exact Huser]. split; try done.
  - right. unfold upd. rewrite Z.eqb_refl. lia.
  - intros j k. by apply trans_install.
  - intros a Ha. rewrite (Hframe a Ha), (ch_same _ _ _ _ Hc2); [done|]. intros Hin. apply Ha. right. right. exists i. rewrite Hfr. split_and!; try done; try lia.
    right. unfold upd. rewrite Z.eqb_refl. lia.
  - right. by exists p.
  - rewrite Ho', Ho2. done.
Qed.

Lemma ensure_table_wp s U A sp d D O F i flags (Q : Z → vm P → Prop) : vm_ok s U A sp d D O F → 0 ≤ i < 1023 →
  (O i = 0 → U ∖ A = ∅ → Q 0 s) →
  (∀ s' A' D' O' F', grown s s' U A sp d D O F i A' D' O' F' → user_kept flags (D' i) → Q (frame_of (D' i)) s') →
  wp (ensure_table kernel_space sp i flags) Q s.
Proof.
  intros Hok Hi Hnone HQ. pose proof (vo_space _ _ _ _ _ _ _ _ Hok) as Hs. unfold ensure_table, page_directory_at.
  wp_step. eapply rd_wp; [apply Hs|]. wp_step. eapply rd_wp; [apply Hs; lia|]. destruct (is_present (D i)) eqn:Hp; cbn [negb].
  - destruct (sr_tables _ _ _ _ _ _ Hs i ltac:(lia) Hp) as [Hf0 Ht].
    assert (Hcase : wp (if sp =? kernel_space then mret false else owned ← rd (owned_table_at sp i); mret (owned =? 0))
      (λ (b : bool) s', s' = s ∧ (if b then O i = 0 ∧ sp ≠ kernel_space else private sp O i)) s).
    { destruct (Z.eqb_spec sp kernel_space) as [E|E]; [wp_step; split; [done|by left]|].
      wp_step. eapply rd_wp; [by apply Hs|]. wp_step. split; [done|]. destruct (Z.eqb_spec (O i) 0); [done|by right]. }
    wp_step. eapply wp_mono; [exact Hcase|]. intros [] s0 [-> Hpr].
    + destruct Hpr as [HO Hk]. eapply (grow_wp _ U A sp d D O F i (F i) flags (λ t, copy_page_table t (frame_of (D i)))); try done.
      * intros k. unfold trans. by rewrite Hp.
      * intros t s1 Q' Hok1 Hout Hm1 HQ1. destruct (outside_apart _ _ _ _ _ _ _ (vo_space _ _ _ _ _ _ _ _ Hok1) Hout) as (_ & _ & _ & A4).
        eapply copy_page_table_wp; [apply Hok1|done| |by apply (A4 i ltac:(lia) Hp)|done].
        by apply (sr_tables _ _ _ _ _ _ (vo_space _ _ _ _ _ _ _ _ Hok1) i ltac:(lia) Hp).
      * by apply Hnone.
    + change (Z.lor PAGE_WRITABLE PAGE_USER) with 6. set (x := Z.land flags 6). assert (Hx : 0 ≤ x < 4096) by (by apply land_small).
      assert (Hu : is_u32 (D i)) by (eapply dir_u32; [exact Hok|lia]).
      wp_step. apply wr_wp; [eapply mapped_sub; [eapply table_mapped, Hs|unfold entry_at; lia|unfold entry_at; lia]|]. intros m1 E1. wp_step.
      assert (C1 := store_changes _ _ _ _ _ E1). change (Z.of_nat 4) with 4 in *.
      replace (frame_of (D i)) with (frame_of (upd D i (Z.lor (D i) x) i)) by (unfold upd; rewrite Z.eqb_refl; by apply frame_lor).
      assert (Epr : ∀ j, is_present (upd D i (Z.lor (D i) x) j) = is_present (D j)).
      { intros j. unfold upd. destruct (Z.eqb_spec j i) as [->|]; [by rewrite present_lor, Hp|done]. }
      assert (Efr : ∀ j, frame_of (upd D i (Z.lor (D i) x) j) = frame_of (D j)).
      { intros j. unfold upd. destruct (Z.eqb_spec j i) as [->|]; [by apply frame_lor|done]. }
      apply (HQ _ A _ O F).
      2: { intros Hf. unfold upd. rewrite Z.eqb_refl. unfold x. by rewrite Z.lor_spec, Z.land_spec, Hf, orb_true_r. }
      split.
      * destruct Hok as [V1 V2 V3 V4 V5]. split; try done.
        -- by apply C1.
        -- intros p Hp'. eapply changes_mapped; [exact C1|by apply V3].
        -- apply (space_rep_flags (vmem s)); (done || lia).
        -- intros a Ha. apply V5. destruct Ha as [Ha|[Ha|(j & Hj & Hpj & Ha)]]; [by left|right; by left|right; right].
           exists j. rewrite Epr in Hpj. rewrite Efr in Ha. done.
      * by rewrite Epr.
      * done.
      * intros j k. unfold trans. by rewrite Epr.
      * intros a Ha. cbn [vmem set_vmem]. apply (ch_same _ _ _ _ C1). intros Hin. apply Ha. right. left. unfold entry_at in Hin. lia.
      * by left.
      * by destruct s.
      * intros j Hj. unfold upd. by rewrite (proj2 (Z.eqb_neq j i)).
  - assert (HO : O i = 0).
    { destruct (decide (O i = 0)) as [E|E]; [done|]. destruct (sr_own _ _ _ _ _ _ Hs i Hi E) as [Hp' _]. congruence. }
    eapply (grow_wp _ U A sp d D O F i (λ _, 0) flags zero_page_table); try done.
    + intros k. unfold trans. by rewrite Hp.
    + intros t s1 Q' Hok1 Hout Hm1 HQ1. by eapply zero_page_table_wp.
    + by apply Hnone.
Qed.

(** ** Writing an entry *)

Definition upd2 (F : Z → Z → Z) (i k v : Z) : Z → Z → Z := upd F i (upd (F i) k v).

Lemma space_rep_entry m m1 sp d D O F i k v : bytes_ok m → space_rep m sp d D O F → 0 ≤ i < 1023 → 0 ≤ k < 1024 → is_present (D i) = true → private sp O i →
  is_u32 v → store 4 m (entry_at (frame_of (D i)) k) v = Some m1 → space_rep m1 sp d D O (upd2 F i k v).
Proof.
  intros Hb Hs Hi Hk Hp Hpr Hv E. assert (C := store_changes _ _ _ _ _ E). change (Z.of_nat 4) with 4 in C.
  assert (Hal : ∀ j, 0 ≤ j < 1024 → frame_of (D j) mod 4096 = 0).
  { intros j Hj. apply frame_of_range. eapply table_u32; [exact Hb|apply Hs|done]. }
  destruct Hs as [S1 S2 S3 S4 S5 S6 S7 S8 S9 S10]. destruct (S9 i ltac:(lia) Hp) as [B1 B2]. pose proof S3 as (_ & Dm & _).
  assert (B3 : apart d 4096 (frame_of (D i)) 4096) by (apply pages_apart; [done|by apply Hal; lia|done]). unfold apart in *.
  split; try done.
  - rewrite (load_changes _ _ _ _ _ _ C); [done|]. unfold entry_at. change (Z.of_nat 4) with 4. lia.
  - eapply table_changes; [exact S4|exact C|]. unfold apart, entry_at. lia.
  - intros j Hj. rewrite (load_changes _ _ _ _ _ _ C); [by apply S5|]. unfold entry_at, owned_table_at. change (Z.of_nat 4) with 4. lia.
  - intros j Hj Hpj. destruct (S6 j Hj Hpj) as [Hf0 Ht]. split; [done|]. unfold upd2, upd at 1.
    destruct (Z.eqb_spec j i) as [->|Hne]; [by eapply table_store|].
    eapply table_changes; [exact Ht|exact C|]. assert (Ha : apart (frame_of (D j)) 4096 (frame_of (D i)) 4096).
    { apply pages_apart; [by apply Hal|by apply Hal; lia|]. intros E'. symmetry in E'. revert E'. by apply S10. }
    unfold apart, entry_at in *. lia.
Qed.

Lemma trans_upd2 D F i k v j k' : is_present (D i) = true →
  trans D (upd2 F i k v) j k' = if (j =? i) && (k' =? k) then v else trans D F j k'.
Proof.
  intros Hp. unfold trans, upd2, upd. destruct (Z.eqb_spec j i) as [->|]; cbn [andb]; [rewrite Hp; by destruct (k' =? k)|done].
Qed.

Lemma write_entry_wp s U A sp d D O F i k v (Q : unit → vm P → Prop) : vm_ok s U A sp d D O F → 0 ≤ i < 1023 → 0 ≤ k < 1024 →
  is_present (D i) = true → private sp O i → is_u32 v →
  (∀ s', only_mem s s' → vm_ok s' U A sp d D O (upd2 F i k v) → (∀ a, ¬ in_private sp d D O a → vmem s' !! a = vmem s !! a) → Q tt s') →
  wp (wr (entry_at (frame_of (D i)) k) v) Q s.
Proof.
  intros Hok Hi Hk Hp Hpr Hv HQ. pose proof (vo_space _ _ _ _ _ _ _ _ Hok) as Hs. destruct (sr_tables _ _ _ _ _ _ Hs i ltac:(lia) Hp) as [_ Ht].
  apply wr_wp; [eapply mapped_sub; [by eapply table_mapped|unfold entry_at; lia|unfold entry_at; lia]|]. intros m1 E1.
  assert (C1 := store_changes _ _ _ _ _ E1). change (Z.of_nat 4) with 4 in *. apply HQ; [by destruct s| |].
  - destruct Hok as [V1 V2 V3 V4 V5]. split; try done.
    + by apply C1.
    + intros p Hp'. eapply changes_mapped; [exact C1|by apply V3].
    + by eapply space_rep_entry.
  - intros a Ha. apply (ch_same _ _ _ _ C1). intros Hin. apply Ha. right. right. exists i. unfold entry_at in Hin. split_and!; (done || lia).
Qed.

(** The virtual page of an address. *)
Definition dir_index (v : Z) : Z := v / 4194304.
Definition table_index (v : Z) : Z := v / 4096 mod 1024.

Lemma index_eq v : is_u32 v → Z.shiftr v 22 = dir_index v ∧ Z.land (Z.shiftr v 12) 0x3FF = table_index v ∧
  0 ≤ dir_index v < 1024 ∧ 0 ≤ table_index v < 1024.
Proof.
  intros Hv. unfold dir_index, table_index. split_and!.
  - by rewrite Z.shiftr_div_pow2 by lia.
  - change 0x3FF with (Z.ones 10). by rewrite Z.land_ones, Z.shiftr_div_pow2 by lia.
  - unfold is_u32 in *. Z.to_euclidean_division_equations; lia.
  - unfold is_u32 in *. Z.to_euclidean_division_equations; lia.
  - by apply Z.mod_pos_bound.
  - by apply Z.mod_pos_bound.
Qed.

Lemma index_frame v : is_u32 v → dir_index (frame_of v) = dir_index v ∧ table_index (frame_of v) = table_index v ∧ frame_of v / 4096 = v / 4096.
Proof.
  intros Hv. rewrite frame_of_eq by done. unfold dir_index, table_index. split_and!; [|by rewrite Z.div_mul|by rewrite Z.div_mul].
  unfold is_u32 in *. Z.to_euclidean_division_equations; lia.
Qed.

(** The translation that the processor may have cached for the page of [v] is gone
    when the space is the current one. *)
Definition flushed s (sp v : Z) : gmap Z Z := if sp =? current_space s then delete (v / 4096) (tlb s) else tlb s.

(** The state after the entry of the page of [v] has become [e]. *)
Record remapped s s' (U A : gset Z) (sp d : Z) (D O : Z → Z) (F : Z → Z → Z) (v e : Z) (A' : gset Z) (D' O' : Z → Z) (F' : Z → Z → Z) : Prop := {
  rm_ok : vm_ok s' U A' sp d D' O' F';
  rm_private : private sp O' (dir_index v);
  rm_trans : ∀ j k, trans D' F' j k = if (j =? dir_index v) && (k =? table_index v) then e else trans D F j k;
  rm_frame : ∀ a, ¬ in_private sp d D' O' a → vmem s' !! a = vmem s !! a;
  rm_pages : (A' = A ∧ ∀ j, O' j = O j) ∨ (∃ p, p ∈ U ∖ A ∧ A' = A ∪ {[p]} ∧ O (dir_index v) = 0 ∧ ∀ j, O' j = upd O (dir_index v) (p * 4096) j);
  rm_rest : current_space s' = current_space s ∧ cr3 s' = cr3 s ∧ tlb s' = flushed s sp v;
  rm_dir : ∀ j, j ≠ dir_index v → D' j = D j }.

Lemma map_page_wp s U A sp d D O F v p flags (Q : bool → vm P → Prop) : vm_ok s U A sp d D O F → is_u32 v → dir_index v < 1023 → is_u32 p → 0 ≤ flags < 4096 →
  (O (dir_index v) = 0 → U ∖ A = ∅ → Q false s) →
  (∀ s' A' D' O' F', remapped s s' U A sp d D O F v (Z.lor (frame_of p) (Z.lor 1 flags)) A' D' O' F' → user_kept flags (D' (dir_index v)) → Q true s') →
  wp (paging_map_page_in_space kernel_space sp v p flags) Q s.
Proof.
  intros Hok Hv Hv1 Hp Hfl Hnone HQ. pose proof (vo_space _ _ _ _ _ _ _ _ Hok) as Hs. destruct (sr_page _ _ _ _ _ _ Hs) as (Hd0 & _). pose proof (sr_sp _ _ _ _ _ _ Hs).
  unfold paging_map_page_in_space, page_directory_at. rewrite (proj2 (Z.eqb_neq sp 0)) by lia. wp_step. eapply rd_wp; [apply Hs|].
  rewrite (proj2 (Z.eqb_neq d 0)) by lia. destruct (frame_of_range v Hv) as (Hvf & _). destruct (index_eq _ Hvf) as (E1 & E2 & _ & Hk). rewrite E1, E2.
  destruct (index_frame v Hv) as (F1 & F2 & F3). rewrite F1, F2. rewrite F2 in Hk. destruct (index_eq _ Hv) as (_ & _ & Hi & _).
  wp_step. eapply ensure_table_wp; [exact Hok|lia|intros HO E; cbn [Z.eqb]; wp_step; by apply Hnone|]. intros s1 A1 D1 O1 F1' [G1 G2 G3 G4 G5 G6 G7 G8] Huser.
  destruct (sr_tables _ _ _ _ _ _ (vo_space _ _ _ _ _ _ _ _ G1) (dir_index v) ltac:(lia) G2) as [Hf0 _]. rewrite (proj2 (Z.eqb_neq (frame_of (D1 _)) 0)) by lia.
  unfold PAGE_PRESENT. rewrite <- Z.lor_assoc. destruct (frame_of_range p Hp) as (Hpf & _).
  wp_step. eapply write_entry_wp; [exact G1|lia|done|done|done|apply lor_small_div; [done|by apply lor_small]|]. intros s2 Ho2 Hok2 Hfr2.
  do 3 wp_step. apply (wp_mono _ (λ _ s3, s3 = set_tlb (flushed s sp v) s2)).
  - rewrite Ho2, G7. unfold invalidate_page, flushed. cbn [current_space set_vmem set_pager]. rewrite F3. destruct (Z.eqb_spec sp (current_space s)); cbn [when]; wp_step; [done|by destruct s].
  - intros [] s3 ->. wp_step. apply (HQ _ A1 D1 O1 (upd2 F1' (dir_index v) (table_index v) (Z.lor (frame_of p) (Z.lor 1 flags)))); [|exact Huser]. split; try done.
    + by destruct Hok2.
    + intros j k. rewrite trans_upd2 by done. by rewrite G4.
    + intros a Ha. cbn [vmem set_tlb]. by rewrite Hfr2, G5.
    + cbn [current_space cr3 tlb set_tlb]. rewrite Ho2, G7. done.
Qed.

(** Unmapping clears the entry, in a table that belongs to the space. *)
Lemma unmap_page_wp s U A sp d D O F v (Q : unit → vm P → Prop) : vm_ok s U A sp d D O F → is_u32 v → dir_index v < 1023 →
  (is_present (D (dir_index v)) = true → private sp O (dir_index v)) →
  (is_present (D (dir_index v)) = false → Q tt s) →
  (∀ s' F', remapped s s' U A sp d D O F v 0 A D O F' → Q tt s') →
  wp (paging_unmap_page_in_space sp v) Q s.
Proof.
  intros Hok Hv Hv1 Hpr Habs HQ. pose proof (vo_space _ _ _ _ _ _ _ _ Hok) as Hs. destruct (sr_page _ _ _ _ _ _ Hs) as (Hd0 & _). pose proof (sr_sp _ _ _ _ _ _ Hs).
  unfold paging_unmap_page_in_space, page_directory_at. rewrite (proj2 (Z.eqb_neq sp 0)) by lia. wp_step. eapply rd_wp; [apply Hs|].
  rewrite (proj2 (Z.eqb_neq d 0)) by lia. destruct (index_eq _ Hv) as (E1 & E2 & Hi & Hk). rewrite E1, E2.
  wp_step. eapply rd_wp; [by apply Hs|]. destruct (is_present (D (dir_index v))) eqn:Hp; cbn [negb]; [|wp_step; by apply Habs].
  wp_step. eapply write_entry_wp; [exact Hok|lia|done|done|by apply Hpr|done|]. intros s2 Ho2 Hok2 Hfr2. do 2 wp_step.
  apply (wp_mono _ (λ _ s3, s3 = set_tlb (flushed s sp v) s2)).
  - rewrite Ho2. unfold invalidate_page, flushed. cbn [current_space set_vmem set_pager]. destruct (Z.eqb_spec sp (current_space s)); cbn [when]; wp_step; [done|by destruct s].
  - intros [] s3 ->. eapply HQ. split; try done.
    + destruct Hok2. by split.
    + by apply Hpr.
    + intros j k. by rewrite trans_upd2.
    + by left.
    + cbn [current_space cr3 tlb set_tlb]. rewrite Ho2. done.
Qed.
End space.
