(* ===== verification/PagingLife.v ===== *)
(** * Creating, switching and destroying address spaces *)

From Stdlib Require Import ZArith Lia Bool.
From stdpp Require Import base numbers list list_numbers gmap sets.
From S2P Require Import Prelude Memory Bitmap Pmm Paging PagingSpace.

Section life.
Context {P : Type} `{PageAllocatorLaws P} (kernel_page_directory kernel_space : Z).
Implicit Types s : vm P.

(** ** Pages as sets *)

Lemma block_one p : block p 1 = {[p]}.
Proof. apply set_eq. intros q. rewrite elem_of_block, elem_of_singleton. lia. Qed.

Lemma alloc_one_wp s U A (Q : Z → vm P → Prop) : pages_rep (pager s) U A →
  (U ∖ A = ∅ → Q 0 s) →
  (∀ p pg, p ∈ U ∖ A → 0 < p < 32768 → (∀ q, q ∈ U ∖ A → p ≤ q) → pages_rep pg U (A ∪ {[p]}) → Q (p * 4096) (set_pager pg s)) → wp pmm_alloc_page Q s.
Proof.
  intros Hrep Hnone Hsome. unfold pmm_alloc_page. wp_step. destruct (pages_bounds _ _ _ Hrep) as [_ Hbd].
  eapply wp_mono; [apply (alloc_law _ U A 1); [done|done]|]. intros r pg [(-> & -> & [E|Hno])|(p & -> & _ & Hsub & Hmin & Hrep')]; [done| |].
  - replace (set_pager (pager s) s) with s by (by destruct s). apply Hnone. apply set_eq. intros q. split; [|set_solver]. intros Hq.
    exfalso. apply (Hno q). rewrite block_one. set_solver.
  - rewrite block_one in *. apply Hsome; [set_solver|apply Hbd; set_solver| |done]. intros q Hq. apply Hmin. rewrite block_one. set_solver.
Qed.

Lemma free_one_wp s U A p (Q : unit → vm P → Prop) : pages_rep (pager s) U A → p ∈ U →
  (∀ pg, pages_rep pg U (A ∖ {[p]}) → Q tt (set_pager pg s)) → wp (pmm_free_page (p * 4096)) Q s.
Proof.
  intros Hrep Hp HQ. unfold pmm_free_page. wp_step. eapply wp_mono; [apply (free_law _ U A p 1); [done|done|rewrite block_one; set_solver]|].
  intros [] pg Hpg. rewrite block_one in Hpg. by apply HQ.
Qed.

(** ** Creation *)

(** The first word after every free page is accessible and not part of the space:
    the last field of a new structure lands there. *)
Definition room_after s (U A : gset Z) (sp d : Z) (D : Z → Z) : Prop :=
  ∀ p, p ∈ U ∖ A → ∀ b, (p + 1) * 4096 ≤ b < (p + 1) * 4096 + 4 → is_Some (vmem s !! b) ∧ ¬ in_space sp d D b.

(** A new space: two fresh pages, the kernel's directory, no table of its own. *)
Record created s s' (U A : gset Z) (Dk Ok : Z → Z) (Fk : Z → Z → Z) (p q : Z) : Prop := {
  cr_fresh : p ∈ U ∖ A ∧ q ∈ U ∖ A ∧ p ≠ q;
  cr_ok : vm_ok kernel_space s' U (A ∪ {[p]} ∪ {[q]}) (p * 4096) (q * 4096) Dk (λ _, 0) Fk;
  cr_kernel : vm_ok kernel_space s' U (A ∪ {[p]} ∪ {[q]}) kernel_space kernel_page_directory Dk Ok Fk;
  cr_spill : load 4 (vmem s') (p * 4096 + 4096) = Some (if q =? p + 1 then Dk 0 else 0);
  cr_frame : ∀ a, ¬ (p * 4096 ≤ a < p * 4096 + 4100) → ¬ (q * 4096 ≤ a < q * 4096 + 4096) → vmem s' !! a = vmem s !! a;
  cr_rest : s' = set_pager (pager s') (set_vmem (vmem s') s);
  cr_first : ∀ x, x ∈ U ∖ A → p ≤ x ∧ (x ≠ p → q ≤ x) }.

Lemma vm_ok_pager s U A A' sp d D O F pg : vm_ok kernel_space s U A sp d D O F → pages_rep pg U A' → A ⊆ A' →
  vm_ok kernel_space (set_pager pg s) U A' sp d D O F.
Proof. intros [V1 V2 V3 V4 V5] Hpg Hsub. split; try done. intros a Ha. pose proof (V5 a Ha). set_solver. Qed.

(** The directory and the structure are filled: a space like the kernel's. *)
Lemma created_space s U A Dk Ok Fk p q : vm_ok kernel_space s U (A ∪ {[p]} ∪ {[q]}) kernel_space kernel_page_directory Dk Ok Fk →
  p ∈ U ∖ A → q ∈ U ∖ A → p ≠ q → 0 < p < 32768 → 0 < q < 32768 →
  outside kernel_space kernel_page_directory Dk (p * 4096) → outside kernel_space kernel_page_directory Dk (q * 4096) →
  load 4 (vmem s) (p * 4096) = Some (q * 4096) → table (vmem s) (q * 4096) Dk →
  (∀ i, 0 ≤ i < 1023 → load 4 (vmem s) (owned_table_at (p * 4096) i) = Some 0) →
  vm_ok kernel_space s U (A ∪ {[p]} ∪ {[q]}) (p * 4096) (q * 4096) Dk (λ _, 0) Fk.
Proof.
  intros [V1 V2 V3 V4 V5] Hp Hq Hne Hp0 Hq0 Op Oq Hl Ht Ho.
  destruct (outside_apart _ _ _ _ _ _ _ _ V4 Op) as (P1 & P2 & P3 & P4). destruct (outside_apart _ _ _ _ _ _ _ _ V4 Oq) as (Q1 & Q2 & Q3 & Q4).
  assert (Hks : p * 4096 ≠ kernel_space) by (intros E; unfold apart in P1; lia).
  assert (Hpq : apart (p * 4096) 4096 (q * 4096) 4096) by (unfold apart; lia).
  split; try done.
  - split; try done; try lia.
    + split_and!; [lia|by apply Z.mod_mul|lia].
    + by apply V4.
    + intros i Hi E. destruct (P4 i Hi E) as [P5 P6]. destruct (Q4 i Hi E) as [Q5 Q6]. split; [unfold apart in *; lia|done].
    + intros i j _ _ _ _ _ [E|E]; done.
  - intros a [Ha|[Ha|(i & Hi & E & Ha)]].
    + replace (a / 4096) with p by (Z.to_euclidean_division_equations; lia). set_solver +.
    + replace (a / 4096) with q by (Z.to_euclidean_division_equations; lia). set_solver +.
    + apply V5. right. right. by exists i.
Qed.

Lemma create_wp s U A Dk Ok Fk (Q : Z → vm P → Prop) : vm_ok kernel_space s U A kernel_space kernel_page_directory Dk Ok Fk →
  room_after s U A kernel_space kernel_page_directory Dk →
  (∀ s', (size (U ∖ A) < 2)%nat → vm_ok kernel_space s' U A kernel_space kernel_page_directory Dk Ok Fk →
     s' = set_pager (pager s') (set_vmem (vmem s') s) ∧ (∀ a, in_space kernel_space kernel_page_directory Dk a → vmem s' !! a = vmem s !! a) ∧
       (∀ a, is_Some (vmem s !! a) → is_Some (vmem s' !! a)) → Q 0 s') →
  (∀ s' p q, created s s' U A Dk Ok Fk p q → Q (p * 4096) s') →
  wp (paging_create_address_space kernel_page_directory) Q s.
Proof.
  intros Hok Hroom Hnone HQ. unfold paging_create_address_space, page_directory_at. wp_step.
  apply (alloc_one_wp s U A); [apply Hok| |].
  { intros E. cbn [Z.eqb]. wp_step. apply Hnone; [rewrite E, size_empty; lia|done|]. split_and!; [by destruct s|done|done]. }
  intros p pg Hp Hp0 Hmin0 Hpg. rewrite (proj2 (Z.eqb_neq (p * 4096) 0)) by lia. wp_step.
  pose proof (fresh_outside _ _ _ _ _ _ _ _ _ p Hok Hp) as Op.
  assert (Hmp : mapped (vmem s) (p * 4096 + 4) 4096).
  { intros b Hb. destruct (decide (b < (p + 1) * 4096)); [|apply (Hroom p Hp b); lia].
    apply (vo_mapped _ _ _ _ _ _ _ _ _ Hok p); [set_solver + Hp|lia]. }
  assert (Hout1 : ∀ b, p * 4096 + 4 ≤ b < p * 4096 + 4 + 4096 → ¬ in_space kernel_space kernel_page_directory Dk b).
  { intros b Hb. destruct (decide (b < (p + 1) * 4096)); [apply Op; lia|apply (Hroom p Hp b); lia]. }
  apply (fill_words_wp 1024 (p * 4096 + 4) (λ _, 0)); [done|done|exact Hmp|done|]. intros s1 Ho1 Hc1 Hl1. change (1024 * 4) with 4096 in Hc1.
  assert (Hok1 : vm_ok kernel_space s1 U (A ∪ {[p]}) kernel_space kernel_page_directory Dk Ok Fk).
  { eapply vm_ok_only_mem; [eapply (vm_ok_pager s U A (A ∪ {[p]})); [exact Hok|exact Hpg|set_solver +]|exact Ho1|exact Hc1|exact Hout1]. }
  wp_step. apply (alloc_one_wp s1 U (A ∪ {[p]})); [apply Hok1| |].
  - intros E. cbn [Z.eqb]. wp_step. apply (free_one_wp s1 U (A ∪ {[p]}) p); [apply Hok1|set_solver + Hp|]. intros pg2 Hpg2. wp_step. apply Hnone.
    + assert (U ∖ A ⊆ {[p]}) as Hsub.
      { intros x Hx. destruct (decide (x = p)) as [->|]; [set_solver +|]. exfalso. apply (not_elem_of_empty (C := gset Z) x). rewrite <- E. set_solver. }
      apply subseteq_size in Hsub. rewrite size_singleton in Hsub. lia.
    + replace ((A ∪ {[p]}) ∖ {[p]}) with A in Hpg2 by (set_solver + Hp). destruct Hok1 as [V1 V2 V3 V4 V5]. split; try done. apply Hok.
    + split_and!; [rewrite Ho1; by destruct s| |intros a Ha; by apply Hc1]. intros a Ha. apply (ch_same _ _ _ _ Hc1). intros Hb. by apply (Hout1 a Hb).
  - intros q pg2 Hq Hq0 Hmin Hpg2. rewrite (proj2 (Z.eqb_neq (q * 4096) 0)) by lia.
    assert (Hqp : q ≠ p ∧ q ∈ U ∖ A) by (set_solver + Hq). destruct Hqp as [Hqp Hq'].
    pose proof (fresh_outside _ _ _ _ _ _ _ _ _ q Hok Hq') as Oq.
    assert (Hok2 : vm_ok kernel_space (set_pager pg2 s1) U (A ∪ {[p]} ∪ {[q]}) kernel_space kernel_page_directory Dk Ok Fk).
    { eapply vm_ok_pager; [exact Hok1|exact Hpg2|set_solver +]. }
    destruct (outside_apart _ _ _ _ _ _ _ _ (vo_space _ _ _ _ _ _ _ _ _ Hok2) Oq) as (_ & _ & Q3 & _).
    wp_step. eapply copy_page_table_wp; [apply Hok2|apply (vo_mapped _ _ _ _ _ _ _ _ _ Hok2); set_solver + Hq|apply Hok2|exact Q3|]. intros s2 Ho2 Hc2 Ht2.
    assert (Hok3 : vm_ok kernel_space s2 U (A ∪ {[p]} ∪ {[q]}) kernel_space kernel_page_directory Dk Ok Fk).
    { eapply vm_ok_only_mem; [exact Hok2|exact Ho2|exact Hc2|apply Oq]. }
    wp_step. apply wr_wp; [eapply mapped_sub; [apply (vo_mapped _ _ _ _ _ _ _ _ _ Hok3 p); set_solver + Hp|lia|lia]|]. intros m3 E3. wp_step.
    assert (C3 := store_changes _ _ _ _ _ E3). change (Z.of_nat 4) with 4 in C3. cbn [vmem set_pager] in *.
    assert (Hok4 : vm_ok kernel_space (set_vmem m3 s2) U (A ∪ {[p]} ∪ {[q]}) kernel_space kernel_page_directory Dk Ok Fk).
    { eapply vm_ok_only_mem; [exact Hok3|done|exact C3|]. intros b Hb. apply Op. lia. }
    assert (Hzero : ∀ i, 0 ≤ i < 1024 → (i = 1023 → q ≠ p + 1) → load 4 m3 (owned_table_at (p * 4096) i) = Some 0).
    { intros i Hi Hs. unfold owned_table_at. rewrite (load_changes _ _ _ _ _ _ C3) by (change (Z.of_nat 4) with 4; lia).
      rewrite (load_changes _ _ _ _ _ _ Hc2) by (change (Z.of_nat 4) with 4; lia). by apply Hl1. }
    assert (Ht3 : table m3 (q * 4096) Dk) by (eapply table_changes; [exact Ht2|exact C3|unfold apart; lia]).
    apply HQ with q. split.
    + split_and!; [exact Hp|exact Hq'|done].
    + apply (created_space _ U A Dk Ok Fk p q); try done.
      * cbn [vmem set_vmem]. rewrite (load_store_eq _ _ _ _ _ E3). f_equal. apply Z.mod_small. lia.
      * intros i Hi. apply Hzero; lia.
    + exact Hok4.
    + cbn [vmem set_vmem]. destruct (Z.eqb_spec q (p + 1)) as [->|Hne].
      * replace (p * 4096 + 4096) with (entry_at ((p + 1) * 4096) 0) by (unfold entry_at; lia). by apply Ht3.
      * replace (p * 4096 + 4096) with (owned_table_at (p * 4096) 1023) by (unfold owned_table_at; lia). by apply Hzero.
    + intros a Ha1 Ha2. cbn [vmem set_vmem]. rewrite (ch_same _ _ _ _ C3), (ch_same _ _ _ _ Hc2), (ch_same _ _ _ _ Hc1) by lia. done.
    + rewrite Ho2, Ho1. by destruct s.
    + intros x Hx. split; [by apply Hmin0|]. intros Hxp. apply Hmin. set_solver + Hx Hxp.
Qed.

(** ** Switching *)

Lemma switch_wp s sp d (Q : unit → vm P → Prop) : load 4 (vmem s) sp = Some d → 0 < sp → 0 < d →
  Q tt (set_tlb ∅ (set_cr3 d (set_current sp s))) → wp (paging_switch_address_space sp) Q s.
Proof.
  intros Hl Hsp Hd HQ. unfold paging_switch_address_space, page_directory_at. rewrite (proj2 (Z.eqb_neq sp 0)) by lia.
  wp_step. eapply rd_wp; [exact Hl|]. rewrite (proj2 (Z.eqb_neq d 0)) by lia. unfold load_cr3. do 3 wp_step. exact HQ.
Qed.

(** ** Destruction *)

(** The pages of the first [n] owned tables. *)
Definition owned_pages (O : Z → Z) (n : Z) : gset Z :=
  list_to_set ((λ j, O j / 4096) <$> filter (λ j, O j ≠ 0) (seqZ 0 n)).

Lemma elem_of_owned O n x : x ∈ owned_pages O n ↔ ∃ j, 0 ≤ j < n ∧ O j ≠ 0 ∧ x = O j / 4096.
Proof.
  unfold owned_pages. rewrite elem_of_list_to_set, list_elem_of_fmap. split.
  - intros (j & -> & Hj). apply list_elem_of_filter in Hj as [Ho Hj%elem_of_seqZ]. exists j. split_and!; (done || lia).
  - intros (j & Hj & Ho & ->). exists j. split; [done|]. apply list_elem_of_filter. split; [done|]. apply elem_of_seqZ. lia.
Qed.

Lemma owned_step (A : gset Z) O n : 0 ≤ n →
  A ∖ owned_pages O (n + 1) = if O n =? 0 then A ∖ owned_pages O n else A ∖ owned_pages O n ∖ {[O n / 4096]}.
Proof.
  intros Hn. apply set_eq. intros x. destruct (Z.eqb_spec (O n) 0) as [E|E]; rewrite !elem_of_difference, !elem_of_owned, ?elem_of_singleton; split.
  - intros [HA Hno]. split; [done|]. intros (j & Hj & Ho & ->). apply Hno. exists j. split_and!; (done || lia).
  - intros [HA Hno]. split; [done|]. intros (j & Hj & Ho & ->). apply Hno. exists j. split_and!; try done; [lia|]. destruct (decide (j = n)) as [->|]; [done|lia].
  - intros [HA Hno]. split_and!; [done| |].
    + intros (j & Hj & Ho & ->). apply Hno. exists j. split_and!; (done || lia).
    + intros ->. apply Hno. exists n. split_and!; (done || lia).
  - intros [[HA Hno] Hne]. split; [done|]. intros (j & Hj & Ho & ->). destruct (decide (j = n)) as [->|]; [done|]. apply Hno. exists j. split_and!; (done || lia).
Qed.

(** The pages of the space are allocated, and the word that follows the structure's
    page would not be taken for a table. *)
Record disposable s (U A : gset Z) (p d : Z) (O : Z → Z) : Prop := {
  dp_struct : p ∈ A;
  dp_dir : d / 4096 ∈ A;
  dp_owned : ∀ i, 0 ≤ i < 1023 → O i ≠ 0 → O i / 4096 ∈ A;
  dp_spill : ∃ w, load 4 (vmem s) (p * 4096 + 4096) = Some w ∧ (w = 0 ∨ w mod 4096 ≠ 0) }.

(** The loop over the owned tables. *)
Lemma free_owned_wp s U A p d D O F (Q : unit → vm P → Prop) : vm_ok kernel_space s U A (p * 4096) d D O F → disposable s U A p d O →
  (∀ s', pages_rep (pager s') U (A ∖ owned_pages O 1023) → changes (vmem s) (vmem s') (p * 4096 + 4) 4096 →
     s' = set_pager (pager s') (set_vmem (vmem s') s) → Q tt s') →
  wp (for_ 0 PAGE_ENTRIES (λ i, owned ← rd (owned_table_at (p * 4096) i);
        when (negb (owned =? 0)) (_ ← pmm_free_page owned; wr (owned_table_at (p * 4096) i) 0))) Q s.
Proof.
  intros Hok [Dp Dd Do (w & Hw & Hw0)] HQ. pose proof (vo_space _ _ _ _ _ _ _ _ _ Hok) as Hs. unfold PAGE_ENTRIES.
  destruct (pages_bounds _ _ _ (vo_pages _ _ _ _ _ _ _ _ _ Hok)) as [HAU _].
  set (word := λ j, if j =? 1023 then w else O j).
  assert (Hword : ∀ j, 0 ≤ j < 1024 → load 4 (vmem s) (owned_table_at (p * 4096) j) = Some (word j)).
  { intros j Hj. unfold word. destruct (Z.eqb_spec j 1023) as [->|]; [|apply Hs; lia].
    replace (owned_table_at (p * 4096) 1023) with (p * 4096 + 4096) by (unfold owned_table_at; lia). exact Hw. }
  apply (wp_for _ _ _ (λ i s', pages_rep (pager s') U (A ∖ owned_pages O (Z.min i 1023)) ∧ changes (vmem s) (vmem s') (p * 4096 + 4) 4096 ∧
    (∀ j, i ≤ j < 1024 → load 4 (vmem s') (owned_table_at (p * 4096) j) = Some (word j)) ∧ s' = set_pager (pager s') (set_vmem (vmem s') s))); [lia| | |].
  - split_and!; [|apply changes_refl|intros j Hj; by apply Hword|by destruct s]. replace (A ∖ owned_pages O (Z.min 0 1023)) with A; [apply Hok|].
    apply set_eq. intros x. rewrite elem_of_difference, elem_of_owned. split; [|by intros [? _]]. intros Hx. split; [done|]. intros (j & Hj & _). lia.
  - intros i s1 Hi (Hpg & Hc & Hl & Hr). wp_step. eapply rd_wp; [apply Hl; lia|].
    assert (Hwr : ∀ s2, vmem s2 = vmem s1 → pages_rep (pager s2) U (A ∖ owned_pages O (Z.min (i + 1) 1023)) → s2 = set_pager (pager s2) (set_vmem (vmem s2) s) →
      wp (wr (owned_table_at (p * 4096) i) 0) (λ _ s', pages_rep (pager s') U (A ∖ owned_pages O (Z.min (i + 1) 1023)) ∧ changes (vmem s) (vmem s') (p * 4096 + 4) 4096 ∧
        (∀ j, i + 1 ≤ j < 1024 → load 4 (vmem s') (owned_table_at (p * 4096) j) = Some (word j)) ∧ s' = set_pager (pager s') (set_vmem (vmem s') s)) s2).
    { intros s2 Em Hpg2 Hr2. apply wr_wp; rewrite Em; [apply (load_mapped 4 _ _ (word i)), Hl; lia|]. intros m' E. assert (C := store_changes _ _ _ _ _ E). split_and!.
      - done.
      - cbn [vmem set_vmem]. eapply changes_trans; [exact Hc|]. eapply changes_sub; [exact C|]. unfold owned_table_at. change (Z.of_nat 4) with 4. lia.
      - intros j Hj. cbn [vmem set_vmem]. rewrite (load_store_ne _ _ _ _ _ _ _ E); [apply Hl; lia|]. unfold owned_table_at. lia.
      - rewrite Hr2. by destruct s. }
    apply wp_when; intros Ez; bool_to_prop.
    + wp_step. destruct (decide (i = 1023)) as [->|Hne].
      * unfold word in Ez |- *. cbn [Z.eqb Pos.eqb] in Ez |- *. destruct Hw0 as [|Hw0]; [done|]. unfold pmm_free_page. wp_step.
        eapply wp_mono; [eapply free_ignores; [exact Hpg|exact Hw0]|]. intros [] pg ->. apply Hwr; [done|done|rewrite Hr; by destruct s].
      * unfold word in Ez |- *. rewrite (proj2 (Z.eqb_neq i 1023)) in Ez |- * by done. destruct (sr_own _ _ _ _ _ _ _ Hs i ltac:(lia) Ez) as [Hpr Hfr].
        assert (Hu : is_u32 (D i)) by (eapply dir_u32; [exact Hok|lia]). destruct (frame_of_range _ Hu) as (_ & Hal & _). rewrite Hfr in Hal.
        replace (O i) with (O i / 4096 * 4096) by (Z.to_euclidean_division_equations; lia).
        eapply free_one_wp; [exact Hpg|apply HAU, Do; [lia|done]|]. intros pg Hpg'. apply Hwr; [done| |rewrite Hr; by destruct s]. cbn [pager set_pager].
        replace (Z.min (i + 1) 1023) with (i + 1) by lia. rewrite owned_step, (proj2 (Z.eqb_neq (O i) 0)) by (done || lia). by replace (Z.min i 1023) with i in Hpg' by lia.
    + split_and!; [|done|intros j Hj; apply Hl; lia|done]. destruct (decide (i = 1023)) as [->|Hne]; [exact Hpg|].
      unfold word in Ez. rewrite (proj2 (Z.eqb_neq i 1023)) in Ez by done. replace (Z.min (i + 1) 1023) with (i + 1) by lia.
      rewrite owned_step, Ez by lia. by replace (Z.min i 1023) with i in Hpg by lia.
  - intros s' (Hpg & Hc & _ & Hr). by apply HQ.
Qed.

Lemma destroy_wp s U A p d D O F kd (Q : unit → vm P → Prop) : vm_ok kernel_space s U A (p * 4096) d D O F → disposable s U A p d O →
  p * 4096 ≠ kernel_space → load 4 (vmem s) kernel_space = Some kd → 0 < kernel_space → 0 < kd →
  (∀ s', pages_rep (pager s') U (A ∖ owned_pages O 1023 ∖ {[d / 4096]} ∖ {[p]}) → changes (vmem s) (vmem s') (p * 4096 + 4) 4096 →
     current_space s' = (if current_space s =? p * 4096 then kernel_space else current_space s) →
     cr3 s' = (if current_space s =? p * 4096 then kd else cr3 s) → tlb s' = (if current_space s =? p * 4096 then ∅ else tlb s) → Q tt s') →
  wp (paging_destroy_address_space kernel_space (p * 4096)) Q s.
Proof.
  intros Hok Hd Hks Hkd Hk0 Hkd0 HQ. pose proof (vo_space _ _ _ _ _ _ _ _ _ Hok) as Hs. pose proof (sr_sp _ _ _ _ _ _ _ Hs). destruct (sr_page _ _ _ _ _ _ _ Hs) as (Hd0 & Hdm & _).
  destruct (pages_bounds _ _ _ (vo_pages _ _ _ _ _ _ _ _ _ Hok)) as [HAU _].
  unfold paging_destroy_address_space. rewrite (proj2 (Z.eqb_neq (p * 4096) 0)), (proj2 (Z.eqb_neq (p * 4096) kernel_space)) by lia. cbn [orb]. do 3 wp_step.
  set (s0 := if current_space s =? p * 4096 then set_tlb ∅ (set_cr3 kd (set_current kernel_space s)) else s).
  apply (wp_mono _ (λ _ s', s' = s0)).
  { unfold s0. apply wp_when; intros ->; [|done]. by eapply switch_wp. }
  intros [] s1 ->. assert (E0 : vmem s0 = vmem s ∧ pager s0 = pager s) by (unfold s0; by destruct (_ =? _)). destruct E0 as [Em Ep].
  assert (Hok0 : vm_ok kernel_space s0 U A (p * 4096) d D O F) by (destruct Hok as [V1 V2 V3 V4 V5]; split; rewrite ?Em, ?Ep; done).
  assert (Hd1 : disposable s0 U A p d O) by (destruct Hd as [D1 D2 D3 D4]; split; rewrite ?Em; done).
  wp_step. eapply free_owned_wp; [exact Hok0|exact Hd1|]. intros s2 Hpg Hc Hr. rewrite Em in Hc. unfold page_directory_at.
  wp_step. eapply rd_wp; [rewrite (load_changes _ _ _ _ _ _ Hc); [apply Hs|change (Z.of_nat 4) with 4; lia]|].
  rewrite (proj2 (Z.eqb_neq d 0)) by lia. cbn [negb when]. wp_step. destruct Hd as [D1 D2 D3 D4].
  replace d with (d / 4096 * 4096) at 1 by (Z.to_euclidean_division_equations; lia).
  eapply free_one_wp; [exact Hpg|by apply HAU|]. intros pg3 Hpg3. eapply free_one_wp; [exact Hpg3|by apply HAU|]. intros pg4 Hpg4.
  apply HQ; [done|exact Hc|..]; cbn [current_space cr3 tlb set_pager]; rewrite Hr; cbn [current_space cr3 tlb set_pager set_vmem]; unfold s0; by destruct (_ =? _).
Qed.
End life.
