(* ===== verification/PagingInit.v ===== *)
(** * paging_initialize

    The kernel's own tables after initialization: every page below 128 MiB and
    every page of the boot framebuffer, as far as eight tables reach, maps to
    itself, and nothing else is mapped. *)

From Stdlib Require Import ZArith Lia Bool.
From stdpp Require Import base numbers list gmap sets.
From S2P Require Import Prelude Memory Bitmap Pmm Paging PagingSpace.

(** The word of the page [n] mapped to itself, present and writable. *)
Definition self_entry (n : Z) : Z := Z.lor (n * 4096) 3.

Lemma self_entry_eq a : a mod 4096 = 0 → Z.lor (Z.lor a PAGE_PRESENT) PAGE_WRITABLE = self_entry (a / 4096).
Proof.
  intros Ha. unfold PAGE_PRESENT, PAGE_WRITABLE, self_entry. rewrite <- Z.lor_assoc. change (Z.lor 1 2) with 3. f_equal. Z.to_euclidean_division_equations; lia.
Qed.

Lemma self_entry_ok n : 0 ≤ n < 1048576 → is_u32 (self_entry n) ∧ is_present (self_entry n) = true ∧ frame_of (self_entry n) = n * 4096.
Proof.
  intros Hn. unfold self_entry. assert (Hu : is_u32 (n * 4096)) by (unfold is_u32; lia).
  split_and!; [by apply lor_small_div| |rewrite frame_lor by (done || lia); apply frame_aligned; [done|by apply Z.mod_mul]].
  rewrite present_lor. apply orb_true_r.
Qed.

Section init.
Context {P : Type} `{PageAllocatorLaws P}.
Context (kernel_page_directory identity_page_tables framebuffer_page_tables kernel_space : Z).
Implicit Types s : vm P.

(** The static arrays: page aligned, apart from each other, in the address space. *)
Record layout : Prop := {
  ly_dir : page_ok kernel_page_directory;
  ly_id : 0 < identity_page_tables ∧ identity_page_tables mod 4096 = 0 ∧ identity_page_tables + 131072 ≤ 2 ^ 32;
  ly_fb : 0 < framebuffer_page_tables ∧ framebuffer_page_tables mod 4096 = 0 ∧ framebuffer_page_tables + 32768 ≤ 2 ^ 32;
  ly_sp : 0 < kernel_space ∧ kernel_space + 4100 ≤ 2 ^ 32;
  ly_dir_id : apart kernel_page_directory 4096 identity_page_tables 131072;
  ly_dir_fb : apart kernel_page_directory 4096 framebuffer_page_tables 32768;
  ly_dir_sp : apart kernel_page_directory 4096 kernel_space 4100;
  ly_id_fb : apart identity_page_tables 131072 framebuffer_page_tables 32768;
  ly_id_sp : apart identity_page_tables 131072 kernel_space 4100;
  ly_fb_sp : apart framebuffer_page_tables 32768 kernel_space 4100 }.

(** Their bytes. *)
Definition static (a : Z) : Prop :=
  kernel_page_directory ≤ a < kernel_page_directory + 4096 ∨ identity_page_tables ≤ a < identity_page_tables + 131072 ∨
  framebuffer_page_tables ≤ a < framebuffer_page_tables + 32768 ∨ kernel_space ≤ a < kernel_space + 4100.

(** The arrays hold [D], [O], [I] and [B]; since [s0] nothing else has changed. *)
Record statics s0 s (D O : Z → Z) (I B : Z → Z → Z) : Prop := {
  st_only : only_mem s0 s;
  st_frame : ∀ a, ¬ static a → vmem s !! a = vmem s0 !! a;
  st_map : ∀ a, is_Some (vmem s !! a) ↔ is_Some (vmem s0 !! a);
  st_bytes : bytes_ok (vmem s0) → bytes_ok (vmem s);
  st_dir : table (vmem s) kernel_page_directory D;
  st_owned : ∀ i, 0 ≤ i < 1024 → load 4 (vmem s) (owned_table_at kernel_space i) = Some (O i);
  st_id : ∀ t, 0 ≤ t < 32 → table (vmem s) (identity_page_tables + t * 4096) (I t);
  st_fb : ∀ t, 0 ≤ t < 8 → table (vmem s) (framebuffer_page_tables + t * 4096) (B t) }.

Hypothesis Hlay : layout.

Lemma statics_start s : (∀ a, static a → is_Some (vmem s !! a)) →
  ∃ D O I B, statics s s D O I B.
Proof.
  intros Hm. assert (Hl : ∀ a, (∀ b, a ≤ b < a + 4 → static b) → load 4 (vmem s) a = Some (default 0 (load 4 (vmem s) a))).
  { intros a Ha. destruct (load_is_Some 4 (vmem s) a) as [v ->]; [|done]. intros b Hb. by apply Hm, Ha. }
  exists (λ i, default 0 (load 4 (vmem s) (entry_at kernel_page_directory i))), (λ i, default 0 (load 4 (vmem s) (owned_table_at kernel_space i))),
    (λ t i, default 0 (load 4 (vmem s) (entry_at (identity_page_tables + t * 4096) i))), (λ t i, default 0 (load 4 (vmem s) (entry_at (framebuffer_page_tables + t * 4096) i))).
  split; try done; [apply only_mem_refl|..]; intros; try intros i ?; apply Hl; intros b Hb; unfold static, entry_at, owned_table_at in *; lia.
Qed.

(** A store in the arrays. *)
Lemma statics_store s0 s D O I B a v m' : statics s0 s D O I B → store 4 (vmem s) a v = Some m' → (∀ b, a ≤ b < a + 4 → static b) →
  only_mem s0 (set_vmem m' s) ∧ (∀ a, ¬ static a → m' !! a = vmem s0 !! a) ∧ (∀ a, is_Some (m' !! a) ↔ is_Some (vmem s0 !! a)) ∧ (bytes_ok (vmem s0) → bytes_ok m').
Proof.
  intros [T1 T2 T3 T4 _ _ _ _] E Ha. assert (C := store_changes _ _ _ _ _ E). change (Z.of_nat 4) with 4 in C. split_and!.
  - eapply only_mem_trans; [exact T1|done].
  - intros b Hb. rewrite (ch_same _ _ _ _ C); [by apply T2|]. intros Hin. by apply Hb, Ha.
  - intros b. rewrite (ch_mapped _ _ _ _ C). apply T3.
  - intros Hb. by apply C, T4.
Qed.

Lemma static_mapped s0 s D O I B a v : statics s0 s D O I B → load 4 (vmem s) a = Some v → mapped (vmem s) a 4.
Proof. intros _ E. exact (load_mapped 4 _ _ _ E). Qed.

Lemma wr_dir_wp s0 s D O I B i v (Q : unit → vm P → Prop) : statics s0 s D O I B → 0 ≤ i < 1024 → is_u32 v →
  (∀ s', statics s0 s' (upd D i v) O I B → Q tt s') → wp (wr (entry_at kernel_page_directory i) v) Q s.
Proof.
  intros Hst Hi Hv HQ. apply wr_wp; [eapply static_mapped; [exact Hst|by apply Hst]|]. intros m' E. apply HQ.
  destruct (statics_store _ _ _ _ _ _ _ _ _ Hst E ltac:(intros b Hb; left; unfold entry_at in Hb; lia)) as (R1 & R2 & R3 & R4).
  assert (C := store_changes _ _ _ _ _ E). change (Z.of_nat 4) with 4 in C. destruct Hst as [_ _ _ _ T5 T6 T7 T8].
  destruct Hlay as [_ _ _ _ L1 L2 L3 _ _ _]. unfold apart in *. split; try done; cbn [vmem set_vmem].
  - by eapply table_store.
  - intros j Hj. rewrite (load_changes _ _ _ _ _ _ C); [by apply T6|]. unfold owned_table_at, entry_at. change (Z.of_nat 4) with 4. lia.
  - intros t Ht. eapply table_changes; [by apply T7|exact C|]. unfold apart, entry_at. lia.
  - intros t Ht. eapply table_changes; [by apply T8|exact C|]. unfold apart, entry_at. lia.
Qed.

Lemma wr_owned_wp s0 s D O I B i v (Q : unit → vm P → Prop) : statics s0 s D O I B → 0 ≤ i < 1024 → is_u32 v →
  (∀ s', statics s0 s' D (upd O i v) I B → Q tt s') → wp (wr (owned_table_at kernel_space i) v) Q s.
Proof.
  intros Hst Hi Hv HQ. apply wr_wp; [eapply static_mapped; [exact Hst|by apply Hst]|]. intros m' E. apply HQ.
  destruct (statics_store _ _ _ _ _ _ _ _ _ Hst E ltac:(intros b Hb; right; right; right; unfold owned_table_at in Hb; lia)) as (R1 & R2 & R3 & R4).
  assert (C := store_changes _ _ _ _ _ E). change (Z.of_nat 4) with 4 in C. destruct Hst as [_ _ _ _ T5 T6 T7 T8].
  destruct Hlay as [_ _ _ _ _ _ L3 _ L5 L6]. unfold apart in *. split; try done; cbn [vmem set_vmem].
  - eapply table_changes; [exact T5|exact C|]. unfold apart, owned_table_at. lia.
  - intros j Hj. unfold upd. destruct (Z.eqb_spec j i) as [->|]; [rewrite (load_store_eq _ _ _ _ _ E); f_equal; by apply Z.mod_small|].
    rewrite (load_store_ne _ _ _ _ _ _ _ E); [by apply T6|]. unfold owned_table_at. lia.
  - intros t Ht. eapply table_changes; [by apply T7|exact C|]. unfold apart, owned_table_at. lia.
  - intros t Ht. eapply table_changes; [by apply T8|exact C|]. unfold apart, owned_table_at. lia.
Qed.

Lemma wr_id_wp s0 s D O I B t i v (Q : unit → vm P → Prop) : statics s0 s D O I B → 0 ≤ t < 32 → 0 ≤ i < 1024 → is_u32 v →
  (∀ s', statics s0 s' D O (upd2 I t i v) B → Q tt s') → wp (wr (entry_at (identity_page_tables + t * 4096) i) v) Q s.
Proof.
  intros Hst Ht Hi Hv HQ. apply wr_wp; [eapply static_mapped; [exact Hst|by apply Hst]|]. intros m' E. apply HQ.
  destruct (statics_store _ _ _ _ _ _ _ _ _ Hst E ltac:(intros b Hb; right; left; unfold entry_at in Hb; lia)) as (R1 & R2 & R3 & R4).
  assert (C := store_changes _ _ _ _ _ E). change (Z.of_nat 4) with 4 in C. destruct Hst as [_ _ _ _ T5 T6 T7 T8].
  destruct Hlay as [_ _ _ _ L1 _ _ L4 L5 _]. unfold apart in *. split; try done; cbn [vmem set_vmem].
  - eapply table_changes; [exact T5|exact C|]. unfold apart, entry_at. lia.
  - intros j Hj. rewrite (load_changes _ _ _ _ _ _ C); [by apply T6|]. unfold owned_table_at, entry_at. change (Z.of_nat 4) with 4. lia.
  - intros t' Ht'. unfold upd2, upd at 1. destruct (Z.eqb_spec t' t) as [->|]; [by eapply table_store; [apply T7|..]|].
    eapply table_changes; [by apply T7|exact C|]. unfold apart, entry_at. lia.
  - intros t' Ht'. eapply table_changes; [by apply T8|exact C|]. unfold apart, entry_at. lia.
Qed.

Lemma wr_fb_wp s0 s D O I B t i v (Q : unit → vm P → Prop) : statics s0 s D O I B → 0 ≤ t < 8 → 0 ≤ i < 1024 → is_u32 v →
  (∀ s', statics s0 s' D O I (upd2 B t i v) → Q tt s') → wp (wr (entry_at (framebuffer_page_tables + t * 4096) i) v) Q s.
Proof.
  intros Hst Ht Hi Hv HQ. apply wr_wp; [eapply static_mapped; [exact Hst|by apply Hst]|]. intros m' E. apply HQ.
  destruct (statics_store _ _ _ _ _ _ _ _ _ Hst E ltac:(intros b Hb; right; right; left; unfold entry_at in Hb; lia)) as (R1 & R2 & R3 & R4).
  assert (C := store_changes _ _ _ _ _ E). change (Z.of_nat 4) with 4 in C. destruct Hst as [_ _ _ _ T5 T6 T7 T8].
  destruct Hlay as [_ _ _ _ _ L2 _ L4 _ L6]. unfold apart in *. split; try done; cbn [vmem set_vmem].
  - eapply table_changes; [exact T5|exact C|]. unfold apart, entry_at. lia.
  - intros j Hj. rewrite (load_changes _ _ _ _ _ _ C); [by apply T6|]. unfold owned_table_at, entry_at. change (Z.of_nat 4) with 4. lia.
  - intros t' Ht'. eapply table_changes; [by apply T7|exact C|]. unfold apart, entry_at. lia.
  - intros t' Ht'. unfold upd2, upd at 1. destruct (Z.eqb_spec t' t) as [->|]; [by eapply table_store; [apply T8|..]|].
    eapply table_changes; [by apply T8|exact C|]. unfold apart, entry_at. lia.
Qed.

(** ** The directory and the identity tables *)

Definition id_dir (t : Z) : Z := self_entry ((identity_page_tables + t * 4096) / 4096).
Definition fb_dir (t : Z) : Z := self_entry ((framebuffer_page_tables + t * 4096) / 4096).

Lemma table_entry_ok a : 0 ≤ a → a mod 4096 = 0 → a + 4096 ≤ 2 ^ 32 →
  is_u32 (self_entry (a / 4096)) ∧ is_present (self_entry (a / 4096)) = true ∧ frame_of (self_entry (a / 4096)) = a ∧
  Z.lor (Z.lor a PAGE_PRESENT) PAGE_WRITABLE = self_entry (a / 4096).
Proof.
  intros Ha Hm He. assert (Hd : 0 ≤ a / 4096 < 1048576) by (Z.to_euclidean_division_equations; lia). destruct (self_entry_ok _ Hd) as (S1 & S2 & S3).
  split; [done|]. split; [done|]. split; [|by apply self_entry_eq]. rewrite S3. Z.to_euclidean_division_equations; lia.
Qed.

Lemma id_dir_ok t : 0 ≤ t < 32 → is_u32 (id_dir t) ∧ is_present (id_dir t) = true ∧ frame_of (id_dir t) = identity_page_tables + t * 4096 ∧
  Z.lor (Z.lor (identity_page_tables + t * 4096) PAGE_PRESENT) PAGE_WRITABLE = id_dir t.
Proof. intros Ht. destruct (ly_id Hlay) as (L1 & L2 & L3). apply table_entry_ok; [lia|by rewrite Z.mod_add|lia]. Qed.

Lemma fb_dir_ok t : 0 ≤ t < 8 → is_u32 (fb_dir t) ∧ is_present (fb_dir t) = true ∧ frame_of (fb_dir t) = framebuffer_page_tables + t * 4096 ∧
  Z.lor (Z.lor (framebuffer_page_tables + t * 4096) PAGE_PRESENT) PAGE_WRITABLE = fb_dir t.
Proof. intros Ht. destruct (ly_fb Hlay) as (L1 & L2 & L3). apply table_entry_ok; [lia|by rewrite Z.mod_add|lia]. Qed.

Lemma clear_dir_wp s0 s D O I B (Q : unit → vm P → Prop) : statics s0 s D O I B →
  (∀ s' D' O', statics s0 s' D' O' I B → (∀ i, 0 ≤ i < 1024 → D' i = 2 ∧ O' i = 0) → Q tt s') →
  wp (for_ 0 PAGE_ENTRIES (λ i, _ ← wr (entry_at kernel_page_directory i) PAGE_WRITABLE; wr (owned_table_at kernel_space i) 0)) Q s.
Proof.
  intros Hst HQ. apply (wp_for _ _ _ (λ n s', ∃ D' O', statics s0 s' D' O' I B ∧ ∀ i, 0 ≤ i < n → D' i = 2 ∧ O' i = 0)); [done| | |].
  - exists D, O. split; [done|lia].
  - intros n s1 Hn (D1 & O1 & H1 & E1). wp_step. eapply wr_dir_wp; [exact H1|exact Hn|done|]. intros s2 H2. eapply wr_owned_wp; [exact H2|exact Hn|done|]. intros s3 H3.
    eexists _, _. split; [exact H3|]. intros i Hi. unfold upd. destruct (Z.eqb_spec i n); [done|]. apply E1. lia.
  - intros s' (D1 & O1 & H1 & E1). by eapply HQ.
Qed.

Lemma identity_wp s0 s D O I B (Q : unit → vm P → Prop) : statics s0 s D O I B → (∀ i, 0 ≤ i < 1024 → D i = 2) →
  (∀ s' D' I', statics s0 s' D' O I' B → (∀ i, 0 ≤ i < 1024 → D' i = if i <? 32 then id_dir i else 2) →
     (∀ t k, 0 ≤ t < 32 → 0 ≤ k < 1024 → I' t k = self_entry (t * 1024 + k)) → Q tt s') →
  wp (for_ 0 PAGE_TABLE_COUNT (λ t,
        _ ← for_ 0 PAGE_ENTRIES (λ entry,
              let address := (t *% PAGE_ENTRIES +% entry) *% PAGE_SIZE in
              wr (entry_at (identity_page_tables + t * 4096) entry) (Z.lor (Z.lor address PAGE_PRESENT) PAGE_WRITABLE));
        wr (entry_at kernel_page_directory t) (Z.lor (Z.lor (identity_page_tables + t * 4096) PAGE_PRESENT) PAGE_WRITABLE))) Q s.
Proof.
  intros Hst HD HQ. change PAGE_TABLE_COUNT with 32. unfold PAGE_ENTRIES, PAGE_SIZE.
  apply (wp_for _ _ _ (λ n s', ∃ D' I', statics s0 s' D' O I' B ∧ (∀ i, 0 ≤ i < 1024 → D' i = if i <? n then id_dir i else 2) ∧
    ∀ t k, 0 ≤ t < n → 0 ≤ k < 1024 → I' t k = self_entry (t * 1024 + k))); [lia| | |].
  - exists D, I. split_and!; [done| |lia]. intros i Hi. destruct (Z.ltb_spec i 0); [lia|by apply HD].
  - intros n s1 Hn (D1 & I1 & H1 & E1 & F1). wp_step.
    apply (wp_for _ _ _ (λ e s', ∃ I', statics s0 s' D1 O I' B ∧ (∀ t k, 0 ≤ t < n → 0 ≤ k < 1024 → I' t k = self_entry (t * 1024 + k)) ∧
      ∀ k, 0 ≤ k < e → I' n k = self_entry (n * 1024 + k))); [lia| | |].
    + exists I1. split_and!; [done|done|lia].
    + intros e s2 He (I2 & H2 & F2 & G2). rewrite (u32_small (n * 1024)), (u32_small (n * 1024 + e)), (u32_small ((n * 1024 + e) * 4096)) by (unfold is_u32; lia).
      rewrite self_entry_eq, Z.div_mul by (done || by apply Z.mod_mul).
      eapply wr_id_wp; [exact H2|lia|done|apply self_entry_ok; lia|]. intros s3 H3. eexists. split; [exact H3|]. unfold upd2, upd. split.
      * intros t k Ht Hk. destruct (Z.eqb_spec t n); [lia|]. by apply F2.
      * intros k Hk. rewrite Z.eqb_refl. destruct (Z.eqb_spec k e) as [->|]; [done|]. apply G2. lia.
    + intros s2 (I2 & H2 & F2 & G2). destruct (id_dir_ok n ltac:(lia)) as (U1 & _ & _ & ->). eapply wr_dir_wp; [exact H2|lia|done|]. intros s3 H3.
      eexists _, I2. split_and!; [exact H3| |].
      * intros i Hi. unfold upd. rewrite (E1 i Hi). destruct (Z.eqb_spec i n) as [E|E], (Z.ltb_spec i n), (Z.ltb_spec i (n + 1)); try lia; congruence.
      * intros t k Ht Hk. destruct (decide (t = n)) as [->|]; [by apply G2|]. apply F2; [lia|done].
  - intros s' (D1 & I1 & H1 & E1 & F1). by eapply HQ.
Qed.

(** ** The framebuffer *)

Section framebuffer.
Context (start end_ : Z).
Hypothesis Hstart : 0 ≤ start ∧ start mod 4096 = 0.
Hypothesis Hend : end_ mod 4096 = 0 ∧ end_ < 2 ^ 32.

(** The first index of the directory that gets a new table. *)
Definition fb_base : Z := Z.max 32 (start / 4194304).

(** The directory when [u] of the eight tables are in use. *)
Definition dirs (u i : Z) : Z :=
  if i <? 32 then id_dir i else if (fb_base <=? i) && (i <? fb_base + u) then fb_dir (i - fb_base) else 2.

(** The framebuffer is mapped from its start to [a]. *)
Record fb_inv s0 s (a u : Z) (D O : Z → Z) (I B : Z → Z → Z) : Prop := {
  fi_st : statics s0 s D O I B;
  fi_dir : ∀ i, 0 ≤ i < 1024 → D i = dirs u i;
  fi_owned : ∀ i, 0 ≤ i < 1024 → O i = 0;
  fi_id : ∀ t k, 0 ≤ t < 32 → 0 ≤ k < 1024 → I t k = self_entry (t * 1024 + k);
  fi_fb : ∀ t k, 0 ≤ t < u → 0 ≤ k < 1024 → B t k =
    let n := (fb_base + t) * 1024 + k in if (start <=? n * 4096) && (n * 4096 <? a) then self_entry n else 0;
  fi_used : 0 ≤ u ≤ 8 }.

Lemma dirs_ok u i : 0 ≤ u ≤ 8 → 0 ≤ i < 1024 → i < 32 ∨ fb_base ≤ i < fb_base + u → is_present (dirs u i) = true ∧
  frame_of (dirs u i) = if i <? 32 then identity_page_tables + i * 4096 else framebuffer_page_tables + (i - fb_base) * 4096.
Proof.
  intros Hu Hi Hc. unfold dirs. destruct (Z.ltb_spec i 32); [destruct (id_dir_ok i) as (_ & ? & ? & _); [lia|done]|].
  destruct (Z.leb_spec fb_base i), (Z.ltb_spec i (fb_base + u)); cbn [andb]; try lia. destruct (fb_dir_ok (i - fb_base)) as (_ & ? & ? & _); [lia|done].
Qed.

(** One entry. *)
Lemma fb_entry_wp s0 s a u D O I B i k (Q : unit → vm P → Prop) : fb_inv s0 s a u D O I B → 0 ≤ k < 1024 → a = i * 4194304 + k * 4096 → start ≤ a → a < end_ →
  i < 32 ∨ fb_base ≤ i < fb_base + u →
  (∀ s' I' B', fb_inv s0 s' (a + 4096) u D O I' B' → Q tt s') →
  wp (wr (entry_at (frame_of (dirs u i)) k) (Z.lor (Z.lor a PAGE_PRESENT) PAGE_WRITABLE)) Q s.
Proof.
  intros [F1 F2 F3 F4 F5 F6] Hk Ea Hs He Hi HQ. assert (Hi0 : 0 ≤ i < 1024) by lia.
  assert (Ha : a = (i * 1024 + k) * 4096) by lia. rewrite self_entry_eq by (rewrite Ha; by apply Z.mod_mul). rewrite Ha, Z.div_mul by done.
  assert (Hv : is_u32 (self_entry (i * 1024 + k))) by (apply self_entry_ok; lia).
  destruct (dirs_ok u i F6 Hi0 Hi) as [_ ->]. destruct (Z.ltb_spec i 32).
  - eapply wr_id_wp; [exact F1|lia|done|exact Hv|]. intros s' H'. eapply HQ. split; [exact H'|done|done| | |done].
    + intros t j Ht Hj. unfold upd2, upd. destruct (Z.eqb_spec t i) as [->|]; [destruct (Z.eqb_spec j k) as [->|]; [done|]|]; apply F4; lia.
    + intros t j Ht Hj. rewrite (F5 t j Ht Hj). cbv zeta. set (n := (fb_base + t) * 1024 + j). assert (n * 4096 ≠ a) by (unfold n, fb_base in *; lia).
      destruct (Z.ltb_spec (n * 4096) a), (Z.ltb_spec (n * 4096) (a + 4096)); try done; exfalso; unfold n in *; lia.
  - eapply wr_fb_wp; [exact F1|lia|done|exact Hv|]. intros s' H'. eapply HQ. split; [exact H'|done|done|done| |done].
    intros t j Ht Hj. unfold upd2, upd. cbv zeta. destruct (Z.eqb_spec t (i - fb_base)) as [->|Hne].
    + replace ((fb_base + (i - fb_base)) * 1024 + j) with (i * 1024 + j) by lia. destruct (Z.eqb_spec j k) as [->|Hj'].
      * rewrite <- Ha. destruct (Z.leb_spec start a), (Z.ltb_spec a (a + 4096)); try lia. done.
      * rewrite (F5 (i - fb_base) j ltac:(lia) Hj). cbv zeta. replace ((fb_base + (i - fb_base)) * 1024 + j) with (i * 1024 + j) by lia.
        destruct (Z.ltb_spec ((i * 1024 + j) * 4096) a), (Z.ltb_spec ((i * 1024 + j) * 4096) (a + 4096)); try done; exfalso; lia.
    + rewrite (F5 t j Ht Hj). cbv zeta. set (n := (fb_base + t) * 1024 + j). assert (n * 4096 ≠ a) by (unfold n; lia).
      destruct (Z.ltb_spec (n * 4096) a), (Z.ltb_spec (n * 4096) (a + 4096)); try done; exfalso; unfold n in *; lia.
Qed.

(** One table. *)
Lemma fb_table_wp s0 s a u D O I B i k (Q : Z → vm P → Prop) : fb_inv s0 s a u D O I B → 0 ≤ k < 1024 → a = i * 4194304 + k * 4096 → start ≤ a → a < end_ →
  i < 32 ∨ fb_base ≤ i < fb_base + u →
  (∀ s' I' B', fb_inv s0 s' (Z.min end_ ((i + 1) * 4194304)) u D O I' B' → Q (Z.min end_ ((i + 1) * 4194304)) s') →
  wp (map_framebuffer_table (frame_of (dirs u i)) k a end_) Q s.
Proof.
  intros Hf Hk Ea Hs He Hi HQ. unfold map_framebuffer_table, PAGE_ENTRIES, PAGE_SIZE.
  apply (wp_iterate _ _ (λ l s', let '(k, a) := l in (∃ I' B', fb_inv s0 s' a u D O I' B') ∧ 0 ≤ k ≤ 1024 ∧ a = i * 4194304 + k * 4096 ∧ start ≤ a ≤ end_)
    (λ l, Z.to_nat (1024 - l.1))).
  - cbn [fst]. lia.
  - split_and!; [by eexists _, _|lia..].
  - intros [k1 a1] s1 ((I1 & B1 & H1) & Hk1 & E1 & Hs1). wp_step.
    + bool_to_prop. wp_step. eapply fb_entry_wp; [exact H1|lia|exact E1|lia|lia|done|]. intros s2 I2 B2 J2. wp_step.
      assert (Hnext : a1 + 4096 ≤ end_) by (destruct Hend as [He1 _]; rewrite E1; Z.to_euclidean_division_equations; lia). destruct Hend as [_ He2].
      rewrite (u32_small (a1 + 4096)), (u32_small (k1 + 1)) by (unfold is_u32; lia). cbn [fst]. split_and!; [by eexists _, _|lia..].
    + wp_step. assert (Emin : a1 = Z.min end_ ((i + 1) * 4194304)).
      { bool_to_prop. destruct Heqb as [E|E]; bool_to_prop; lia. }
      rewrite Emin in *. by eapply HQ.
Qed.

(** A new table for the index [fb_base + u]. *)
Lemma fb_slot_wp s0 s a u i D O I B (Q : unit → vm P → Prop) : fb_inv s0 s a u D O I B → u < 8 → fb_base + u = i → i < 1024 → a = start ∨ a ≤ (fb_base + u) * 4194304 →
  (∀ s' D' B', fb_inv s0 s' a (u + 1) D' O I B' → Q tt s') →
  wp (zero_page_table (framebuffer_page_tables + u * 4096)) (λ _,
    wp (wr (entry_at kernel_page_directory i) (Z.lor (Z.lor (framebuffer_page_tables + u * 4096) PAGE_PRESENT) PAGE_WRITABLE)) Q) s.
Proof.
  intros [F1 F2 F3 F4 F5 F6] Hu <- Hb Ha HQ. unfold zero_page_table, PAGE_ENTRIES.
  apply (wp_for _ _ _ (λ n s', ∃ B', statics s0 s' D O I B' ∧ (∀ t k, t ≠ u → B' t k = B t k) ∧ ∀ k, 0 ≤ k < n → B' u k = 0)); [lia| | |].
  - exists B. split_and!; [done|done|lia].
  - intros n s1 Hn (B1 & J1 & E1 & G1). eapply wr_fb_wp; [exact J1|lia|exact Hn|done|]. intros s2 J2. eexists. split; [exact J2|]. unfold upd2, upd. split.
    + intros t k Ht. rewrite (proj2 (Z.eqb_neq t u)) by done. by apply E1.
    + intros k Hk. rewrite Z.eqb_refl. destruct (Z.eqb_spec k n); [done|]. apply G1. lia.
  - intros s1 (B1 & J1 & E1 & G1). destruct (fb_dir_ok u ltac:(lia)) as (U1 & _ & _ & ->).
    assert (Hbase : 32 ≤ fb_base) by (unfold fb_base; lia).
    eapply wr_dir_wp; [exact J1|lia|done|]. intros s2 J2. eapply HQ. split; [exact J2| |done|done| |lia].
    + intros i Hi. unfold upd. rewrite (F2 i Hi). unfold dirs. destruct (Z.eqb_spec i (fb_base + u)) as [->|Hne].
      * destruct (Z.ltb_spec (fb_base + u) 32); [lia|]. destruct (Z.leb_spec fb_base (fb_base + u)), (Z.ltb_spec (fb_base + u) (fb_base + (u + 1))); try lia.
        cbn [andb]. f_equal. lia.
      * destruct (i <? 32); [done|]. destruct (Z.leb_spec fb_base i), (Z.ltb_spec i (fb_base + u)), (Z.ltb_spec i (fb_base + (u + 1))); try done; lia.
    + intros t k Ht Hk. cbv zeta. destruct (decide (t = u)) as [->|Hne]; [|rewrite E1 by done; apply F5; [lia|done]]. rewrite G1 by lia.
      set (n := (fb_base + u) * 1024 + k). destruct (Z.leb_spec start (n * 4096)), (Z.ltb_spec (n * 4096) a); cbn [andb]; try done. exfalso. unfold n in *. lia.
Qed.

Definition fb_limit : Z := Z.min end_ ((fb_base + 8) * 4194304).

Lemma map_framebuffer_wp s0 s D O I B (Q : unit → vm P → Prop) : start < end_ → fb_inv s0 s start 0 D O I B →
  (∀ s' u D' I' B', fb_inv s0 s' fb_limit u D' O I' B' → fb_limit ≤ (fb_base + u) * 4194304 → Q tt s') →
  wp (map_framebuffer kernel_page_directory framebuffer_page_tables start end_) Q s.
Proof.
  intros Hse Hf HQ. unfold map_framebuffer, PAGE_ENTRIES, FRAMEBUFFER_PAGE_TABLES. destruct Hstart as [Hs0 Hsm]. destruct Hend as [Hem He2].
  assert (Hbase : 32 ≤ fb_base ∧ start / 4194304 ≤ fb_base) by (unfold fb_base; lia).
  apply (wp_iterate _ _ (λ l s', let '(a, u) := l in (∃ D' I' B', fb_inv s0 s' a u D' O I' B') ∧ start ≤ a ≤ end_ ∧ a mod 4096 = 0 ∧
      (a = start ∧ u = 0 ∨ a ≤ (fb_base + u) * 4194304) ∧
      (a < end_ → a / 4194304 < 32 ∧ u = 0 ∧ fb_base = Z.max 32 (a / 4194304) ∨ 32 ≤ a / 4194304 ∧ fb_base + u = a / 4194304))
    (λ l, if l.1 <? end_ then Z.to_nat (1024 - l.1 / 4194304) else 0%nat)).
  - cbn [fst]. destruct (start <? end_); [|lia]. assert (0 ≤ start / 4194304) by (by apply Z.div_pos). lia.
  - split_and!; [by eexists _, _, _|lia|lia|done|by left|]. intros _. unfold fb_base. lia.
  - intros [a u] s1 ((D1 & I1 & B1 & J1) & Ha & Ham & Hau & Hai). cbn [fst]. destruct (Z.ltb_spec a end_) as [Hlt|Hge]; cbn [negb].
    + specialize (Hai Hlt). rewrite (Z.shiftr_div_pow2 a 22), (Z.shiftr_div_pow2 a 12) by lia. change (2 ^ 22) with 4194304. change (2 ^ 12) with 4096.
      change 0x3FF with (Z.ones 10). rewrite Z.land_ones by lia. change (2 ^ 10) with 1024. set (i := a / 4194304) in *. set (k := a / 4096 mod 1024).
      assert (Hi : 0 ≤ i < 1024) by (unfold i; Z.to_euclidean_division_equations; lia).
      assert (Hk : 0 ≤ k < 1024) by (apply Z.mod_pos_bound; lia).
      assert (Ea : a = i * 4194304 + k * 4096) by (unfold i, k; Z.to_euclidean_division_equations; lia).
      pose proof (fi_used _ _ _ _ _ _ _ _ J1) as Hu8.
      assert (Hfin : ∀ s2 u2, i < 32 ∧ u2 = u ∧ u = 0 ∨ 32 ≤ i ∧ u2 = u + 1 ∧ fb_base + u = i → (∃ D' I' B', fb_inv s0 s2 a u2 D' O I' B') →
        wp (pde ← rd (entry_at kernel_page_directory i); a' ← map_framebuffer_table (frame_of pde) k a end_; mret (inl (a', u2) : Z * Z + unit))
          (λ r s', match r with inl l => (let '(a, u) := l in (∃ D' I' B', fb_inv s0 s' a u D' O I' B') ∧ start ≤ a ≤ end_ ∧ a mod 4096 = 0 ∧
             (a = start ∧ u = 0 ∨ a ≤ (fb_base + u) * 4194304) ∧
             (a < end_ → a / 4194304 < 32 ∧ u = 0 ∧ fb_base = Z.max 32 (a / 4194304) ∨ 32 ≤ a / 4194304 ∧ fb_base + u = a / 4194304)) ∧
             Nat.lt (if l.1 <? end_ then Z.to_nat (1024 - l.1 / 4194304) else 0%nat) (Z.to_nat (1024 - i)) | inr x => Q x s' end) s2).
      { intros s2 u2 Hu2 (D2 & I2 & B2 & J2). wp_step. eapply rd_wp; [by apply J2|]. rewrite (fi_dir _ _ _ _ _ _ _ _ J2 i Hi).
        wp_step. eapply fb_table_wp; [exact J2|exact Hk|exact Ea|lia|lia|lia|]. intros s3 I3 B3 J3. wp_step. set (a' := Z.min end_ ((i + 1) * 4194304)) in *.
        assert (Ha' : a < a' ≤ end_ ∧ a' ≤ (i + 1) * 4194304) by (unfold a'; lia).
        assert (Hmod : a' mod 4096 = 0) by (unfold a'; destruct (Z.min_spec end_ ((i + 1) * 4194304)) as [[_ ->]|[_ ->]]; [done|]; Z.to_euclidean_division_equations; lia).
        assert (Hnext : a' < end_ → a' / 4194304 = i + 1).
        { intros Hl. replace a' with ((i + 1) * 4194304) by (unfold a' in *; lia). by rewrite Z.div_mul. }
        cbn [fst]. split; [split_and!; [by eexists _, _, _|lia|lia|done|right; lia|]|].
        - intros Hl. rewrite (Hnext Hl). lia.
        - destruct (Z.ltb_spec a' end_) as [Hl|]; [rewrite (Hnext Hl)|]; lia. }
      wp_step. eapply rd_wp; [by apply J1|]. rewrite (fi_dir _ _ _ _ _ _ _ _ J1 i Hi).
      destruct Hai as [(Hi32 & -> & Hb)|(Hi32 & Hb)].
      * destruct (dirs_ok 0 i ltac:(lia) Hi ltac:(lia)) as [-> _]. cbn [negb andb]. do 2 wp_step. apply Hfin; [lia|by eexists _, _, _].
      * assert (E2 : dirs u i = 2) by (unfold dirs; destruct (Z.ltb_spec i 32), (Z.leb_spec fb_base i), (Z.ltb_spec i (fb_base + u)); try lia; done).
        rewrite E2. change (is_present 2) with false. cbn [negb andb]. destruct (Z.leb_spec 8 u) as [H8|H8].
        -- wp_step. assert (El : a = fb_limit) by (unfold fb_limit; lia). rewrite El in *. eapply HQ; [exact J1|lia].
        -- do 2 wp_step. eapply wp_mono; [eapply (fb_slot_wp s0 s1 a u i); [exact J1|lia|exact Hb|lia|lia|]|].
           2: { intros [] s2 W. wp_step. exact W. }
           intros s2 D2 B2 J2. cbn beta. wp_step. rewrite (u32_small (u + 1)) by (unfold is_u32; lia). apply Hfin; [lia|by eexists _, _, _].
    + wp_step. pose proof (fi_used _ _ _ _ _ _ _ _ J1) as Hu8. assert (El : a = fb_limit) by (unfold fb_limit; lia). rewrite El in *. eapply HQ; [exact J1|lia].
Qed.
End framebuffer.

(** ** The whole *)

(** The kernel's space when the arrays are filled. *)
Lemma statics_space start s0 s a u D O I B : fb_inv start s0 s a u D O I B → load 4 (vmem s) kernel_space = Some kernel_page_directory →
  space_rep kernel_space (vmem s) kernel_space kernel_page_directory D O (λ i, if i <? 32 then I i else B (i - fb_base start)) ∧
  ∀ b, in_space kernel_space kernel_page_directory D b → static b.
Proof.
  intros [F1 F2 F3 F4 F5 F6] Hptr. set (base := fb_base start) in *. assert (Hbase : 32 ≤ base) by (unfold base, fb_base; lia).
  assert (Hcase : ∀ i, 0 ≤ i < 1024 → is_present (D i) = true → (i < 32 ∨ base ≤ i < base + u) ∧
    frame_of (D i) = if i <? 32 then identity_page_tables + i * 4096 else framebuffer_page_tables + (i - base) * 4096).
  { intros i Hi Hp. rewrite (F2 i Hi) in Hp |- *. assert (Hr : i < 32 ∨ base ≤ i < base + u).
    { unfold dirs in Hp. fold base in Hp. destruct (Z.ltb_spec i 32); [lia|]. destruct (Z.leb_spec base i), (Z.ltb_spec i (base + u)); cbn [andb] in Hp; try done; lia. }
    split; [done|]. by apply dirs_ok. }
  destruct F1 as [_ _ _ _ T5 T6 T7 T8]. destruct Hlay as [L1 (I1 & I2 & I3) (B1 & B2 & B3) L4 L5 L6 L7 L8 L9 L10]. unfold apart in *. split.
  - split; try done; try (unfold apart; lia).
    + intros i Hi. apply T6. lia.
    + intros i Hi Hp. destruct (Hcase i Hi Hp) as [Hr ->]. destruct (Z.ltb_spec i 32); (split; [lia|]); [apply T7|apply T8]; lia.
    + intros i Hi Ho. exfalso. apply Ho, F3. lia.
    + intros i Hi Hp. destruct (Hcase i Hi Hp) as [Hr ->]. destruct (Z.ltb_spec i 32); unfold apart; lia.
    + intros i j Hi Hj Hij Hpi Hpj _. destruct (Hcase i ltac:(lia) Hpi) as [Hri ->]. destruct (Hcase j Hj Hpj) as [Hrj ->].
      destruct (Z.ltb_spec i 32), (Z.ltb_spec j 32); lia.
  - intros b [Hb|[Hb|(i & Hi & Hp & Hb)]]; unfold static; [lia|lia|]. destruct (Hcase i Hi Hp) as [Hr Hf]. rewrite Hf in Hb. destruct (Z.ltb_spec i 32); lia.
Qed.

(** The map they stand for. *)
Lemma statics_trans start s0 s a u D O I B i k : fb_inv start s0 s a u D O I B → 0 ≤ start → a ≤ start ∧ u = 0 ∨ a ≤ (fb_base start + u) * 4194304 → 0 ≤ i < 1024 → 0 ≤ k < 1024 →
  trans D (λ i, if i <? 32 then I i else B (i - fb_base start)) i k =
    let n := i * 1024 + k in if (n <? 32768) || ((start <=? n * 4096) && (n * 4096 <? a)) then self_entry n else 0.
Proof.
  intros [F1 F2 F3 F4 F5 F6] Hs0 Ha Hi Hk. unfold trans. rewrite (F2 i Hi). set (base := fb_base start) in *. assert (Hbase : 32 ≤ base) by (unfold base, fb_base; lia).
  assert (Hlow : base * 4194304 ≤ start ∨ base = 32) by (unfold base, fb_base; Z.to_euclidean_division_equations; lia). cbv zeta.
  destruct (decide (i < 32 ∨ base ≤ i < base + u)) as [Hr|Hr].
  - destruct (dirs_ok start u i F6 Hi Hr) as [-> _]. destruct (Z.ltb_spec i 32).
    + rewrite F4 by lia. by destruct (Z.ltb_spec (i * 1024 + k) 32768); [|lia].
    + rewrite (F5 (i - base) k) by lia. cbv zeta. replace (base + (i - base)) with i by lia. by destruct (Z.ltb_spec (i * 1024 + k) 32768); [lia|].
  - replace (is_present (dirs start u i)) with false.
    + destruct (Z.ltb_spec (i * 1024 + k) 32768), (Z.leb_spec start ((i * 1024 + k) * 4096)), (Z.ltb_spec ((i * 1024 + k) * 4096) a); cbn [orb andb]; try done; lia.
    + symmetry. unfold dirs. fold base. destruct (Z.ltb_spec i 32), (Z.leb_spec base i), (Z.ltb_spec i (base + u)); cbn [andb]; try done; lia.
Qed.

(** The pages that the boot framebuffer adds: from its first page to its end, or
    to the end of the eighth table. *)
Definition fb_start s : Z := frame_of (boot_framebuffer_physical s).
Definition fb_end s : Z := frame_of (boot_framebuffer_physical s +% boot_framebuffer_size s +% PAGE_SIZE -% 1).
Definition boot_page s (n : Z) : bool :=
  (n <? 32768) ||
  (negb (boot_framebuffer_physical s =? 0) && negb (boot_framebuffer_size s =? 0) && (fb_start s <=? n * 4096) && (n * 4096 <? fb_limit (fb_start s) (fb_end s))).

(** What the boot has to provide: accessible arrays in pages that the allocator does
    not hand out. *)
Record boot_ok s (U A : gset Z) : Prop := {
  bo_pages : pages_rep (pager s) U A;
  bo_bytes : bytes_ok (vmem s);
  bo_mapped : ∀ p, p ∈ U → mapped (vmem s) (p * 4096) 4096;
  bo_static : ∀ a, static a → is_Some (vmem s !! a) ∧ a / 4096 ∉ U;
  bo_fb : is_u32 (boot_framebuffer_physical s) }.

Lemma finish_wp start s0 s a u D O I B U A (Q : unit → vm P → Prop) : boot_ok s0 U A → fb_inv start s0 s a u D O I B → 0 ≤ start →
  a ≤ start ∧ u = 0 ∨ a ≤ (fb_base start + u) * 4194304 →
  (∀ s' D' F', vm_ok kernel_space s' U A kernel_space kernel_page_directory D' O F' →
     (∀ i k, 0 ≤ i < 1024 → 0 ≤ k < 1024 → trans D' F' i k =
        let n := i * 1024 + k in if (n <? 32768) || ((start <=? n * 4096) && (n * 4096 <? a)) then self_entry n else 0) →
     (∀ b, in_space kernel_space kernel_page_directory D' b → static b) →
     (∀ b, is_Some (vmem s' !! b) ↔ is_Some (vmem s0 !! b)) →
     current_space s' = kernel_space → cr3 s' = kernel_page_directory → tlb s' = ∅ → cr0 s' = Z.lor (cr0 s0) 0x80000000 → Q tt s') →
  wp (_ ← wr (page_directory_at kernel_space) kernel_page_directory;
      _ ← modify (set_current kernel_space);
      _ ← load_cr3 kernel_page_directory;
      modify (λ s, set_cr0 (Z.lor (cr0 s) 0x80000000) s)) Q s.
Proof.
  intros Hb Hf Hs0 Ha HQ. pose proof (fi_st _ _ _ _ _ _ _ _ _ Hf) as Hst. unfold page_directory_at.
  assert (Hsm : mapped (vmem s) kernel_space 4).
  { intros b Hb'. apply (st_map _ _ _ _ _ _ Hst). apply (bo_static _ _ _ Hb). right. right. right. lia. }
  wp_step. apply wr_wp; [exact Hsm|]. intros m' E.
  assert (Hf' : fb_inv start s0 (set_vmem m' s) a u D O I B).
  { destruct (statics_store _ _ _ _ _ _ _ _ _ Hst E) as (R1 & R2 & R3 & R4); [intros b Hb'; right; right; right; lia|].
    assert (C := store_changes _ _ _ _ _ E). change (Z.of_nat 4) with 4 in C. destruct Hf as [F1 F2 F3 F4 F5 F6]. split; try done.
    destruct F1 as [_ _ _ _ T5 T6 T7 T8]. destruct Hlay as [_ _ _ _ _ _ L3 _ L5 L6]. unfold apart in *. split; try done; cbn [vmem set_vmem].
    - eapply table_changes; [exact T5|exact C|unfold apart; lia].
    - intros i Hi. rewrite (load_changes _ _ _ _ _ _ C); [by apply T6|]. unfold owned_table_at. change (Z.of_nat 4) with 4. lia.
    - intros t Ht. eapply table_changes; [by apply T7|exact C|unfold apart; lia].
    - intros t Ht. eapply table_changes; [by apply T8|exact C|unfold apart; lia]. }
  destruct (statics_space _ _ _ _ _ _ _ _ _ Hf') as [Hrep Hin].
  { cbn [vmem set_vmem]. rewrite (load_store_eq _ _ _ _ _ E). f_equal. apply Z.mod_small. destruct (ly_dir Hlay) as (? & ? & ?). lia. }
  pose proof (fi_st _ _ _ _ _ _ _ _ _ Hf') as [T1 T2 T3 T4 _ _ _ _]. destruct Hb as [P1 P2 P3 P4 P5]. unfold load_cr3. do 4 wp_step. wp_step. eapply HQ; try done.
  - split; cbn [vmem pager set_vmem set_current set_tlb set_cr3 set_cr0].
    + rewrite (st_only _ _ _ _ _ _ Hst). done.
    + by apply T4.
    + intros p Hp b Hb'. apply T3. by apply (P3 p Hp).
    + exact Hrep.
    + intros b Hb'%Hin. destruct (P4 b Hb') as [_ Hn]. set_solver + Hn.
  - intros i k Hi Hk. by eapply statics_trans.
  - cbn. rewrite (st_only _ _ _ _ _ _ Hst). done.
Qed.

Lemma paging_initialize_wp s U A (Q : unit → vm P → Prop) : boot_ok s U A →
  (∀ s' D O F, vm_ok kernel_space s' U A kernel_space kernel_page_directory D O F → (∀ i, 0 ≤ i < 1024 → O i = 0) →
     (∀ i k, 0 ≤ i < 1024 → 0 ≤ k < 1024 → trans D F i k = if boot_page s (i * 1024 + k) then self_entry (i * 1024 + k) else 0) →
     (∀ b, in_space kernel_space kernel_page_directory D b → static b) →
     (∀ b, is_Some (vmem s' !! b) ↔ is_Some (vmem s !! b)) →
     current_space s' = kernel_space → cr3 s' = kernel_page_directory → tlb s' = ∅ → cr0 s' = Z.lor (cr0 s) 0x80000000 → Q tt s') →
  wp (paging_initialize kernel_page_directory identity_page_tables framebuffer_page_tables kernel_space) Q s.
Proof.
  intros Hb HQ. unfold paging_initialize. destruct (statics_start s (λ a Ha, proj1 (bo_static _ _ _ Hb a Ha))) as (D0 & O0 & I0 & B0 & J0).
  wp_step. eapply clear_dir_wp; [exact J0|]. intros s1 D1 O1 J1 E1. wp_step. eapply identity_wp; [exact J1|intros i Hi; by apply E1|]. intros s2 D2 I2 J2 E2 G2.
  do 4 wp_step. assert (Ephys : boot_framebuffer_physical s2 = boot_framebuffer_physical s ∧ boot_framebuffer_size s2 = boot_framebuffer_size s)
    by (rewrite (st_only _ _ _ _ _ _ J2); done). destruct Ephys as [-> ->]. fold (fb_start s) (fb_end s).
  assert (Hst0 : 0 ≤ fb_start s ∧ fb_start s mod 4096 = 0) by (unfold fb_start; destruct (frame_of_range _ (bo_fb _ _ _ Hb)) as ((? & ?) & ? & ?); lia).
  assert (Hen0 : fb_end s mod 4096 = 0 ∧ fb_end s < 2 ^ 32).
  { unfold fb_end. destruct (frame_of_range (boot_framebuffer_physical s +% boot_framebuffer_size s +% PAGE_SIZE -% 1) (u32_range _)) as ((? & ?) & ? & ?). lia. }
  assert (J3 : fb_inv (fb_start s) s s2 (fb_start s) 0 D2 O1 I2 B0).
  { split; [exact J2| |intros i Hi; by apply E1|exact G2|lia|lia]. intros i Hi. rewrite (E2 i Hi). unfold dirs. destruct (i <? 32); [done|].
    destruct (Z.leb_spec (fb_base (fb_start s)) i), (Z.ltb_spec i (fb_base (fb_start s) + 0)); try done; lia. }
  assert (Hnone : ∀ s3, fb_inv (fb_start s) s s3 (fb_start s) 0 D2 O1 I2 B0 →
    (negb (boot_framebuffer_physical s =? 0) && negb (boot_framebuffer_size s =? 0) = true → fb_end s ≤ fb_start s) →
    wp (_ ← wr (page_directory_at kernel_space) kernel_page_directory; _ ← modify (set_current kernel_space); _ ← load_cr3 kernel_page_directory;
        modify (λ s, set_cr0 (Z.lor (cr0 s) 0x80000000) s)) Q s3).
  { intros s3 J4 Hle. eapply finish_wp; [exact Hb|exact J4|lia|left; lia|]. intros s' D' F' V T Vs Vm C1 C2 C3 C4. eapply HQ; try done; [intros i Hi; by apply E1|].
    intros i k Hi Hk. rewrite (T i k Hi Hk). unfold boot_page. cbv zeta. set (n := i * 1024 + k). destruct (negb _ && negb _) eqn:Ec; cbn [andb].
    - specialize (Hle eq_refl). unfold fb_limit.
      destruct (Z.leb_spec (fb_start s) (n * 4096)), (Z.ltb_spec (n * 4096) (fb_start s)), (Z.ltb_spec (n * 4096) (Z.min (fb_end s) ((fb_base (fb_start s) + 8) * 4194304))); try done; lia.
    - destruct (Z.leb_spec (fb_start s) (n * 4096)), (Z.ltb_spec (n * 4096) (fb_start s)); try done; lia. }
  wp_step. apply wp_when; intros Hc; [|apply Hnone; [done|by rewrite Hc]]. destruct (decide (fb_start s < fb_end s)) as [Hlt|Hge].
  - eapply map_framebuffer_wp; [exact Hst0|exact Hen0|exact Hlt|exact J3|]. intros s3 u D3 I3 B3 J4 Hlim.
    eapply finish_wp; [exact Hb|exact J4|lia|by right|]. intros s' D' F' V T Vs Vm C1 C2 C3 C4. eapply HQ; try done; [intros i Hi; by apply E1|].
    intros i k Hi Hk. rewrite (T i k Hi Hk). unfold boot_page. by rewrite Hc.
  - unfold map_framebuffer. cbn [iterate]. rewrite (proj2 (Z.ltb_ge _ _)) by lia. cbn [negb]. do 3 wp_step. apply Hnone; [done|lia].
Qed.
End init.
