(* ===== verification/PagingProps.v ===== *)
(** * The properties of paging.c

    Mapping and translation, isolation of address spaces, their life cycle, the
    initial map, and that the processor never uses a stale translation; with a
    small machine on which the statements are instantiated. *)

From Stdlib Require Import ZArith Lia Bool.
From stdpp Require Import base numbers list gmap sets.
From S2P Require Import Prelude Memory Bitmap Pmm Paging PagingSpace PagingLife PagingInit.

Section properties.
Context {P : Type} `{PageAllocatorLaws P} (kernel_page_directory identity_page_tables framebuffer_page_tables kernel_space : Z).
Implicit Types s : vm P.

(** What paging_get_physical_in_space returns. *)
Definition physical (e w : Z) : Z := if is_present e then frame_of e + w mod 4096 else 0.

Lemma get_physical_run s U A sp d D O F w : vm_ok kernel_space s U A sp d D O F → is_u32 w →
  paging_get_physical_in_space sp w s = Some (physical (trans D F (dir_index w) (table_index w)) w, s).
Proof.
  intros Hok Hw. destruct (get_physical_wp kernel_space s U A sp d D O F w (λ a s', a = physical (trans D F (dir_index w) (table_index w)) w ∧ s' = s) Hok Hw)
    as (a & s' & E & -> & ->); [done|exact E].
Qed.

Lemma same_page w v : is_u32 w → is_u32 v → (dir_index w = dir_index v ∧ table_index w = table_index v) ↔ w / 4096 = v / 4096.
Proof. intros Hw Hv. unfold dir_index, table_index, is_u32 in *. Z.to_euclidean_division_equations; lia. Qed.

Lemma page_eqb w v : is_u32 w → is_u32 v → (dir_index w =? dir_index v) && (table_index w =? table_index v) = (w / 4096 =? v / 4096).
Proof.
  intros Hw Hv. apply eq_bool_prop_intro. rewrite andb_True, !Is_true_true, !Z.eqb_eq. by apply same_page.
Qed.

(** Mapping and translating are inverse: while a free page is left,
    paging_map_page_in_space succeeds, every address of the mapped page then
    translates to the same offset of the physical page, and the translation of
    every other address of the space is what it was, also when a table of the
    kernel had to be copied or a new table made. *)
Theorem paging_map_get s U A sp d D O F v p flags : vm_ok kernel_space s U A sp d D O F → is_u32 v → dir_index v < 1023 → is_u32 p → 0 ≤ flags < 4096 →
  U ∖ A ≠ ∅ →
  ∃ s', paging_map_page_in_space kernel_space sp v p flags s = Some (true, s') ∧
    ∀ w, is_u32 w → fst <$> paging_get_physical_in_space sp w s' =
      if w / 4096 =? v / 4096 then Some (frame_of p + w mod 4096) else fst <$> paging_get_physical_in_space sp w s.
Proof.
  intros Hok Hv Hv1 Hp Hfl Hfree.
  assert (W : wp (paging_map_page_in_space kernel_space sp v p flags) (λ r s', r = true ∧ ∃ A' D' O' F',
    remapped kernel_space s s' U A sp d D O F v (Z.lor (frame_of p) (Z.lor 1 flags)) A' D' O' F') s).
  { eapply map_page_wp; try done. intros s' A' D' O' F' R _. eauto 10. }
  destruct W as (r & s' & E & -> & A' & D' & O' & F' & R). exists s'. split; [exact E|]. intros w Hw.
  rewrite (get_physical_run _ _ _ _ _ _ _ _ w (rm_ok _ _ _ _ _ _ _ _ _ _ _ _ _ _ _ _ R) Hw), (get_physical_run _ _ _ _ _ _ _ _ w Hok Hw).
  rewrite (rm_trans _ _ _ _ _ _ _ _ _ _ _ _ _ _ _ _ R), page_eqb by done. destruct (w / 4096 =? v / 4096); [|done].
  cbn [fmap option_fmap option_map fst]. f_equal. unfold physical. destruct (frame_of_range p Hp) as (Hpf & Hal & _).
  rewrite present_lor, present_lor, orb_true_l, orb_true_r, frame_lor, frame_aligned by (done || by apply lor_small). done.
Qed.

(** A second space that uses none of the private bytes of the first. *)
Definition separate (sp d : Z) (D O : Z → Z) (sp2 d2 : Z) (D2 : Z → Z) : Prop :=
  ∀ a, in_private kernel_space sp d D O a → ¬ in_space sp2 d2 D2 a.

Lemma remapped_private s s' U A sp d D O F v e A' D' O' F' a : sp ≠ kernel_space → vm_ok kernel_space s U A sp d D O F →
  remapped kernel_space s s' U A sp d D O F v e A' D' O' F' → in_private kernel_space sp d D' O' a → in_private kernel_space sp d D O a ∨ a / 4096 ∈ U ∖ A.
Proof.
  intros Hks Hok R [Ha|[Ha|(j & Hj & Hp & [E|Ho] & Ha)]]; [left; by left|left; right; by left|done|].
  pose proof (vo_space _ _ _ _ _ _ _ _ _ Hok) as Hs. pose proof (vo_space _ _ _ _ _ _ _ _ _ (rm_ok _ _ _ _ _ _ _ _ _ _ _ _ _ _ _ _ R)) as Hs'.
  destruct (sr_own _ _ _ _ _ _ _ Hs' j Hj Ho) as [_ Ef']. rewrite Ef' in Ha.
  assert (Hold : O' j = O j → in_private kernel_space sp d D O a).
  { intros E. rewrite E in *. destruct (sr_own _ _ _ _ _ _ _ Hs j Hj Ho) as [Hpj Ef]. right. right. exists j. rewrite Ef. split_and!; try done; [lia..|by right|lia|lia]. }
  destruct (rm_pages _ _ _ _ _ _ _ _ _ _ _ _ _ _ _ _ R) as [[_ EO]|(q & Hq & _ & _ & EO)]; [left; by apply Hold|].
  pose proof (EO j) as Ej. unfold upd in Ej. destruct (j =? dir_index v); [|left; by apply Hold]. right. rewrite Ej in Ha.
  replace (a / 4096) with q; [done|]. Z.to_euclidean_division_equations; lia.
Qed.

(** What changes the table of a page in one space changes no byte of a space that is
    separate from it. *)
Lemma remapped_other s s' U A sp d D O F sp2 d2 D2 O2 F2 v e A' D' O' F' : vm_ok kernel_space s U A sp d D O F → vm_ok kernel_space s U A sp2 d2 D2 O2 F2 →
  sp ≠ kernel_space → separate sp d D O sp2 d2 D2 → remapped kernel_space s s' U A sp d D O F v e A' D' O' F' → vm_ok kernel_space s' U A' sp2 d2 D2 O2 F2.
Proof.
  intros Hok Hok2 Hks Hsep R.
  assert (Hsame : ∀ a, in_space sp2 d2 D2 a → vmem s' !! a = vmem s !! a).
  { intros a Ha. apply (rm_frame _ _ _ _ _ _ _ _ _ _ _ _ _ _ _ _ R). intros Hin. destruct (remapped_private _ _ _ _ _ _ _ _ _ _ _ _ _ _ _ a Hks Hok R Hin) as [Hin'|Hin'].
    - by apply (Hsep a Hin').
    - by apply (vo_busy _ _ _ _ _ _ _ _ _ Hok2 a Ha). }
  destruct (rm_ok _ _ _ _ _ _ _ _ _ _ _ _ _ _ _ _ R) as [V1 V2 V3 _ _]. destruct Hok2 as [_ B2 _ S2 W2]. split; try done.
  - by apply (space_rep_same kernel_space (vmem s)).
  - intros a Ha. pose proof (W2 a Ha). destruct (rm_pages _ _ _ _ _ _ _ _ _ _ _ _ _ _ _ _ R) as [[-> _]|(q & _ & -> & _)]; set_solver.
Qed.

(** C29. Address spaces are isolated: mapping a page in the space of a process changes no
    translation of another space, since the table it writes is the process's own
    copy. The page lies below the last 4 MiB of the address space, because the record
    of the table for those, owned_tables[1023], lies behind the page that holds the
    structure; both spaces are in order ([vm_ok]), the first one is not the kernel's,
    and no byte of the structure, the directory and the owned tables of the first is
    part of the second ([separate]), as for spaces that have only tables of the
    kernel in common. *)
Theorem paging_map_isolated s U A sp d D O F sp2 d2 D2 O2 F2 v p flags r s' : vm_ok kernel_space s U A sp d D O F → vm_ok kernel_space s U A sp2 d2 D2 O2 F2 →
  sp ≠ kernel_space → separate sp d D O sp2 d2 D2 → is_u32 v → dir_index v < 1023 → is_u32 p → 0 ≤ flags < 4096 →
  paging_map_page_in_space kernel_space sp v p flags s = Some (r, s') →
  ∀ w, is_u32 w → fst <$> paging_get_physical_in_space sp2 w s' = fst <$> paging_get_physical_in_space sp2 w s.
Proof.
  intros Hok Hok2 Hks Hsep Hv Hv1 Hp Hfl Hrun w Hw. by_run Hrun. eapply map_page_wp; try done. intros s1 A' D' O' F' R _.
  pose proof (remapped_other _ _ _ _ _ _ _ _ _ _ _ _ _ _ _ _ _ _ _ _ Hok Hok2 Hks Hsep R) as Hok3.
  by rewrite (get_physical_run _ _ _ _ _ _ _ _ w Hok3 Hw), (get_physical_run _ _ _ _ _ _ _ _ w Hok2 Hw).
Qed.

(** paging_unmap_page_in_space on a page in a table that belongs to the space
    makes the page translate to 0 and leaves every other translation; a page
    without a table is ignored. *)
Theorem paging_unmap_spec s U A sp d D O F v : vm_ok kernel_space s U A sp d D O F → is_u32 v → dir_index v < 1023 →
  (is_present (D (dir_index v)) = true → private kernel_space sp O (dir_index v)) →
  ∃ s', paging_unmap_page_in_space sp v s = Some (tt, s') ∧
    ∀ w, is_u32 w → fst <$> paging_get_physical_in_space sp w s' =
      if w / 4096 =? v / 4096 then Some 0 else fst <$> paging_get_physical_in_space sp w s.
Proof.
  intros Hok Hv Hv1 Hpr.
  assert (W : wp (paging_unmap_page_in_space sp v) (λ _ s', ∃ F', vm_ok kernel_space s' U A sp d D O F' ∧
    ∀ i k, trans D F' i k = if (i =? dir_index v) && (k =? table_index v) then 0 else trans D F i k) s).
  { eapply (unmap_page_wp kernel_space); try done.
    - intros Habs. exists F. split; [done|]. intros i k. destruct (Z.eqb_spec i (dir_index v)) as [->|]; [|done]. unfold trans. rewrite Habs. by destruct (_ && _).
    - intros s' F' R. exists F'. split; [apply R|apply R]. }
  destruct W as ([] & s' & E & F' & Hok' & T). exists s'. split; [exact E|]. intros w Hw.
  rewrite (get_physical_run _ _ _ _ _ _ _ _ w Hok' Hw), (get_physical_run _ _ _ _ _ _ _ _ w Hok Hw), T, page_eqb by done. by destruct (_ =? _).
Qed.

(** ** Life cycle *)

(** paging_create_address_space either returns null, and then fewer than two
    pages were free and the allocator is as before, or returns a space that
    translates every address as the kernel does, made of two pages that were
    free; the kernel's own translations stay in both cases. *)
Theorem paging_create_spec s U A D O F : vm_ok kernel_space s U A kernel_space kernel_page_directory D O F → room_after s U A kernel_space kernel_page_directory D →
  ∃ r s', paging_create_address_space kernel_page_directory s = Some (r, s') ∧
    (r = 0 ∧ (size (U ∖ A) < 2)%nat ∧ pages_rep (pager s') U A ∨
     r ≠ 0 ∧ (∃ p q, p ∈ U ∖ A ∧ q ∈ U ∖ A ∧ p ≠ q ∧ pages_rep (pager s') U (A ∪ {[p]} ∪ {[q]})) ∧
       ∀ w, is_u32 w → fst <$> paging_get_physical_in_space r w s' = fst <$> paging_get_physical_in_space kernel_space w s') ∧
    ∀ w, is_u32 w → fst <$> paging_get_physical_in_space kernel_space w s' = fst <$> paging_get_physical_in_space kernel_space w s.
Proof.
  intros Hok Hroom. set (Q := λ r s', (r = 0 ∧ (size (U ∖ A) < 2)%nat ∧ vm_ok kernel_space s' U A kernel_space kernel_page_directory D O F) ∨
    (∃ p q, r = p * 4096 ∧ created kernel_page_directory kernel_space s s' U A D O F p q)).
  assert (W : wp (paging_create_address_space kernel_page_directory) Q s).
  { eapply (create_wp _ kernel_space); [exact Hok|done| |]; [intros s' Hsz Hok' _; by left|intros s' p q C; right; by exists p, q]. }
  destruct W as (r & s' & E & HQ). exists r, s'. split; [exact E|].
  assert (Hk : vm_ok kernel_space s' U A kernel_space kernel_page_directory D O F ∨ ∃ A', vm_ok kernel_space s' U A' kernel_space kernel_page_directory D O F).
  { destruct HQ as [(_ & _ & Hok')|(p & q & _ & C)]; [by left|right; eexists; apply C]. }
  assert (Hkw : ∀ w, is_u32 w → fst <$> paging_get_physical_in_space kernel_space w s' = Some (physical (trans D F (dir_index w) (table_index w)) w)).
  { intros w Hw. destruct Hk as [Hk|[A' Hk]]; by rewrite (get_physical_run _ _ _ _ _ _ _ _ w Hk Hw). }
  split; [|intros w Hw; by rewrite Hkw, (get_physical_run _ _ _ _ _ _ _ _ w Hok Hw)].
  destruct HQ as [(-> & Hsz & Hok')|(p & q & -> & C)]; [left; split_and!; [done|done|apply Hok']|right].
  destruct (cr_fresh _ _ _ _ _ _ _ _ _ _ _ C) as (Hp & Hq & Hne). pose proof (cr_ok _ _ _ _ _ _ _ _ _ _ _ C) as Hnew. pose proof (sr_sp _ _ _ _ _ _ _ (vo_space _ _ _ _ _ _ _ _ _ Hnew)).
  split_and!; [lia|exists p, q; split_and!; try done; apply Hnew|]. intros w Hw. by rewrite Hkw, (get_physical_run _ _ _ _ _ _ _ _ w Hnew Hw).
Qed.

(** C32. Destroying a new space gives back exactly what creating it took: the page
    allocator is as before, and so is every translation of the kernel. This holds
    where the first word behind every free page is memory that is no part of the
    kernel's structure, directory and tables ([room_after]): the structure of 4100
    bytes is put into one page of 4096, so that creating a space clears that word,
    and in a state where a table of the kernel follows a free page it changes a
    translation. *)
Theorem paging_create_destroy s U A D O F r s1 : vm_ok kernel_space s U A kernel_space kernel_page_directory D O F → room_after s U A kernel_space kernel_page_directory D →
  is_present (D 0) = true → paging_create_address_space kernel_page_directory s = Some (r, s1) → r ≠ 0 →
  ∃ s2, paging_destroy_address_space kernel_space r s1 = Some (tt, s2) ∧ pages_rep (pager s2) U A ∧
    ∀ w, is_u32 w → fst <$> paging_get_physical_in_space kernel_space w s2 = fst <$> paging_get_physical_in_space kernel_space w s.
Proof.
  intros Hok Hroom HD0 Hrun Hr. revert Hr. by_run Hrun. eapply (create_wp _ kernel_space); [exact Hok|done|intros; exfalso; congruence|]. intros s1' p q C _.
  destruct (cr_fresh _ _ _ _ _ _ _ _ _ _ _ C) as (Hp & Hq & Hne). pose proof (cr_ok _ _ _ _ _ _ _ _ _ _ _ C) as Hnew. pose proof (cr_kernel _ _ _ _ _ _ _ _ _ _ _ C) as Hk.
  pose proof (vo_space _ _ _ _ _ _ _ _ _ Hk) as Hks. destruct (pages_bounds _ _ _ (vo_pages _ _ _ _ _ _ _ _ _ Hok)) as [_ Hbd].
  assert (Hout : outside kernel_space kernel_page_directory D (p * 4096)) by (eapply fresh_outside; [exact Hok|exact Hp]).
  destruct (outside_apart _ _ _ _ _ _ _ _ Hks Hout) as (A1 & _).
  set (Q := λ (_ : unit) s2, pages_rep (pager s2) U A ∧ ∀ w, is_u32 w → fst <$> paging_get_physical_in_space kernel_space w s2 = fst <$> paging_get_physical_in_space kernel_space w s).
  assert (W : wp (paging_destroy_address_space kernel_space (p * 4096)) Q s1'); [|destruct W as ([] & s2 & E & W1 & W2); by exists s2].
  eapply destroy_wp; [exact Hnew| | |apply Hks|apply Hks|apply (sr_page _ _ _ _ _ _ _ Hks)|].
  - split; [set_solver +|rewrite Z.div_mul by done; set_solver +|done|]. eexists. split; [apply (cr_spill _ _ _ _ _ _ _ _ _ _ _ C)|].
    destruct (q =? p + 1); [right|by left]. intros E0. rewrite is_present_testbit in HD0. rewrite <- (Z.mod_pow2_bits_low (D 0) 12 0) in HD0 by lia.
    change (2 ^ 12) with 4096 in HD0. rewrite E0 in HD0. done.
  - intros E0. unfold apart in A1. lia.
  - intros s2 Hpg Hc _ _ _. replace (owned_pages (λ _, 0) 1023) with (∅ : gset Z) in Hpg.
    2: { apply set_eq. intros x. rewrite elem_of_owned. split; [set_solver +|]. by intros (j & _ & Hj & _). }
    rewrite Z.div_mul in Hpg by done. replace ((A ∪ {[p]} ∪ {[q]}) ∖ ∅ ∖ {[q]} ∖ {[p]}) with A in Hpg by (set_solver + Hp Hq). split; [exact Hpg|].
    intros w Hw. assert (Hk2 : vm_ok kernel_space s2 U A kernel_space kernel_page_directory D O F).
    { destruct Hk as [V1 V2 V3 V4 V5]. split; [exact Hpg|by apply Hc|intros x Hx; eapply changes_mapped; [exact Hc|by apply V3]| |].
      - eapply space_rep_changes; [exact V4|exact Hc|]. intros b Hb. destruct (decide (b < (p + 1) * 4096)); [apply Hout; lia|apply (Hroom p Hp b); lia].
      - apply Hok. }
    by rewrite (get_physical_run _ _ _ _ _ _ _ _ w Hk2 Hw), (get_physical_run _ _ _ _ _ _ _ _ w Hok Hw).
Qed.

(** C31. After paging_initialize paging is on in the kernel's space, and an address
    translates to itself when it lies below 128 MiB or on a page of the boot
    framebuffer (as far as its eight tables reach), and to 0 otherwise. *)
Theorem paging_initialize_spec s U A : layout kernel_page_directory identity_page_tables framebuffer_page_tables kernel_space →
  boot_ok kernel_page_directory identity_page_tables framebuffer_page_tables kernel_space s U A →
  ∃ s', paging_initialize kernel_page_directory identity_page_tables framebuffer_page_tables kernel_space s = Some (tt, s') ∧
    current_space s' = kernel_space ∧ fst <$> paging_is_enabled s' = Some true ∧
    ∀ w, is_u32 w → fst <$> paging_get_physical w s' = Some (if boot_page s (w / 4096) then w else 0).
Proof.
  intros Hlay Hb. set (Q := λ (_ : unit) s', current_space s' = kernel_space ∧ fst <$> paging_is_enabled s' = Some true ∧
    ∀ w, is_u32 w → fst <$> paging_get_physical w s' = Some (if boot_page s (w / 4096) then w else 0)).
  assert (W : wp (paging_initialize kernel_page_directory identity_page_tables framebuffer_page_tables kernel_space) Q s);
    [|destruct W as ([] & s' & E & W1 & W2 & W3); exists s'; by split_and!].
  eapply paging_initialize_wp; [exact Hlay|exact Hb|]. intros s' D O F Hok _ T _ _ Hc _ _ H0'. split_and!; [done| |].
  - unfold paging_is_enabled, gets. cbn [fmap option_fmap option_map fst]. rewrite H0'. f_equal. apply negb_true_iff, Z.eqb_neq.
    rewrite Z.land_lor_distr_l, Z.land_diag. intros E. apply Z.lor_eq_0_iff in E. lia.
  - intros w Hw. destruct (index_eq _ Hw) as (_ & _ & Hi & Hk). unfold paging_get_physical, gets, mbind, M_bind. cbn beta iota.
    rewrite Hc, (get_physical_run _ _ _ _ _ _ _ _ w Hok Hw). cbn [fmap option_fmap option_map fst]. f_equal.
    rewrite (T _ _ Hi Hk). replace (dir_index w * 1024 + table_index w) with (w / 4096) by (unfold dir_index, table_index; Z.to_euclidean_division_equations; lia).
    unfold physical. destruct (boot_page s (w / 4096)); [|done].
    destruct (self_entry_ok (w / 4096)) as (_ & -> & ->); [unfold is_u32 in *; Z.to_euclidean_division_equations; lia|]. Z.to_euclidean_division_equations; lia.
Qed.

(** ** The translation cache *)

(** The walk of the processor through the tables at CR3. *)
Definition mmu_walk (m : mem) (cr3 v : Z) : option Z :=
  pde ← load 4 m (entry_at cr3 (dir_index v));
  if is_present pde then
    pte ← load 4 m (entry_at (frame_of pde) (table_index v));
    if is_present pte then Some pte else None
  else None.

Lemma mmu_walk_eq s U A sp d D O F v : vm_ok kernel_space s U A sp d D O F → is_u32 v →
  mmu_walk (vmem s) d v = let e := trans D F (dir_index v) (table_index v) in if is_present e then Some e else None.
Proof.
  intros Hok Hv. destruct (index_eq _ Hv) as (_ & _ & Hi & Hk). pose proof (vo_space _ _ _ _ _ _ _ _ _ Hok) as Hs. unfold mmu_walk, trans.
  rewrite (sr_dir _ _ _ _ _ _ _ Hs _ Hi). cbn [mbind option_bind]. destruct (is_present (D (dir_index v))) eqn:E; [|done].
  destruct (sr_tables _ _ _ _ _ _ _ Hs _ Hi E) as [_ Ht]. by rewrite (Ht _ Hk).
Qed.

(** What happens while a space is current: the processor caches a translation, the
    kernel maps or unmaps a page in the current space, or in the space of a process
    that is separate from the current one, or it switches to another space. *)
Inductive mmu_step : vm P → vm P → Prop :=
| mmu_fill s v e : is_u32 v → mmu_walk (vmem s) (cr3 s) v = Some e → mmu_step s (set_tlb (<[v / 4096 := e]> (tlb s)) s)
| mmu_map s v p flags r s' : is_u32 v → dir_index v < 1023 → is_u32 p → 0 ≤ flags < 4096 →
    paging_map_page kernel_space v p flags s = Some (r, s') → mmu_step s s'
| mmu_unmap s v s' : is_u32 v → dir_index v < 1023 →
    (current_space s = kernel_space ∨ load 4 (vmem s) (owned_table_at (current_space s) (dir_index v)) ≠ Some 0) →
    paging_unmap_page v s = Some (tt, s') → mmu_step s s'
| mmu_map_other s U A sp d D O F Dc Oc Fc v p flags r s' : vm_ok kernel_space s U A sp d D O F → vm_ok kernel_space s U A (current_space s) (cr3 s) Dc Oc Fc →
    sp ≠ kernel_space → separate sp d D O (current_space s) (cr3 s) Dc → is_u32 v → dir_index v < 1023 → is_u32 p → 0 ≤ flags < 4096 →
    paging_map_page_in_space kernel_space sp v p flags s = Some (r, s') → mmu_step s s'
| mmu_unmap_other s U A sp d D O F Dc Oc Fc v s' : vm_ok kernel_space s U A sp d D O F → vm_ok kernel_space s U A (current_space s) (cr3 s) Dc Oc Fc →
    sp ≠ kernel_space → separate sp d D O (current_space s) (cr3 s) Dc → is_u32 v → dir_index v < 1023 → O (dir_index v) ≠ 0 →
    paging_unmap_page_in_space sp v s = Some (tt, s') → mmu_step s s'
| mmu_switch s U A sp d D O F s' : vm_ok kernel_space s U A sp d D O F → paging_switch_address_space sp s = Some (tt, s') → mmu_step s s'.

(** The cache agrees with the tables of the current space. *)
Definition mmu_ok s : Prop := ∃ U A D O F, vm_ok kernel_space s U A (current_space s) (cr3 s) D O F ∧
  ∀ v e, is_u32 v → tlb s !! (v / 4096) = Some e → mmu_walk (vmem s) (cr3 s) v = Some e.

Lemma mmu_remapped s s' U A D O F v e A' D' O' F' : is_u32 v → vm_ok kernel_space s U A (current_space s) (cr3 s) D O F →
  (∀ v e, is_u32 v → tlb s !! (v / 4096) = Some e → mmu_walk (vmem s) (cr3 s) v = Some e) →
  remapped kernel_space s s' U A (current_space s) (cr3 s) D O F v e A' D' O' F' → mmu_ok s'.
Proof.
  intros Hv Hok Hco R. destruct (rm_rest _ _ _ _ _ _ _ _ _ _ _ _ _ _ _ _ R) as (Ec & E3 & Et). exists U, A', D', O', F'. rewrite Ec, E3.
  pose proof (rm_ok _ _ _ _ _ _ _ _ _ _ _ _ _ _ _ _ R) as Hok'. split; [exact Hok'|]. intros w x Hw Hx. rewrite Et in Hx. unfold flushed in Hx. rewrite Z.eqb_refl in Hx.
  apply lookup_delete_Some in Hx as [Hne Hx]. specialize (Hco w x Hw Hx). rewrite (mmu_walk_eq _ _ _ _ _ _ _ _ w Hok Hw) in Hco.
  rewrite (mmu_walk_eq _ _ _ _ _ _ _ _ w Hok' Hw), (rm_trans _ _ _ _ _ _ _ _ _ _ _ _ _ _ _ _ R), page_eqb by done.
  by rewrite (proj2 (Z.eqb_neq (w / 4096) (v / 4096))).
Qed.

Lemma mmu_remapped_other s s' U A sp d D O F Dc Oc Fc v e A' D' O' F' : vm_ok kernel_space s U A sp d D O F → vm_ok kernel_space s U A (current_space s) (cr3 s) Dc Oc Fc →
  sp ≠ kernel_space → separate sp d D O (current_space s) (cr3 s) Dc → remapped kernel_space s s' U A sp d D O F v e A' D' O' F' →
  (∀ v e, is_u32 v → tlb s !! (v / 4096) = Some e → mmu_walk (vmem s) (cr3 s) v = Some e) → mmu_ok s'.
Proof.
  intros Hok Hok2 Hks Hsep R Hco. pose proof (remapped_other _ _ _ _ _ _ _ _ _ _ _ _ _ _ _ _ _ _ _ _ Hok Hok2 Hks Hsep R) as Hok3.
  destruct (rm_rest _ _ _ _ _ _ _ _ _ _ _ _ _ _ _ _ R) as (Ec & E3 & Et). exists U, A', Dc, Oc, Fc. rewrite Ec, E3. split; [exact Hok3|]. intros w x Hw Hx.
  rewrite (mmu_walk_eq _ _ _ _ _ _ _ _ w Hok3 Hw), <- (mmu_walk_eq _ _ _ _ _ _ _ _ w Hok2 Hw). apply Hco; [done|].
  rewrite Et in Hx. unfold flushed in Hx. destruct (sp =? current_space s); [|done]. by apply lookup_delete_Some in Hx as [_ Hx].
Qed.

Lemma mmu_step_ok s s' : mmu_ok s → mmu_step s s' → mmu_ok s'.
Proof.
  intros (U & A & D & O & F & Hok & Hco) Hst. destruct Hst as [s v e Hv Hw|s v p flags r s' Hv Hv1 Hp Hfl Hrun|s v s' Hv Hv1 Hpr Hrun|s U2 A2 sp d D2 O2 F2 Dc Oc Fc v p flags r s' Hok2 Hokc Hks Hsep Hv Hv1 Hp Hfl Hrun|s U2 A2 sp d D2 O2 F2 Dc Oc Fc v s' Hok2 Hokc Hks Hsep Hv Hv1 Hpr Hrun|s U2 A2 sp d D2 O2 F2 s' Hok2 Hrun].
  - exists U, A, D, O, F. split; [by destruct Hok|]. intros w x Hw' Hx. cbn [tlb set_tlb vmem cr3] in *.
    apply lookup_insert_Some in Hx as [[E <-]|[Hne Hx]]; [|by apply Hco]. rewrite (mmu_walk_eq _ _ _ _ _ _ _ _ w Hok Hw').
    rewrite (mmu_walk_eq _ _ _ _ _ _ _ _ v Hok Hv) in Hw. apply same_page in E as [E1 E2]; [|done|done]. by rewrite E1, E2 in Hw.
  - unfold paging_map_page, gets, mbind, M_bind in Hrun. by_run Hrun. eapply map_page_wp; [exact Hok|done..| |].
    + intros _. by exists U, A, D, O, F.
    + intros s1 A' D' O' F' R _. exact (mmu_remapped _ _ _ _ _ _ _ _ _ _ _ _ _ Hv Hok Hco R).
  - unfold paging_unmap_page, gets, mbind, M_bind in Hrun. by_run Hrun. pose proof (vo_space _ _ _ _ _ _ _ _ _ Hok) as Hs. eapply (unmap_page_wp kernel_space); [exact Hok|done|done| | |].
    + intros _. destruct Hpr as [Hpr|Hpr]; [by left|right]. destruct (index_eq _ Hv) as (_ & _ & Hi & _).
      intros E. apply Hpr. rewrite (sr_owned _ _ _ _ _ _ _ Hs) by lia. by rewrite E.
    + intros _. by exists U, A, D, O, F.
    + intros s1 F' R. exact (mmu_remapped _ _ _ _ _ _ _ _ _ _ _ _ _ Hv Hok Hco R).
  - by_run Hrun. eapply map_page_wp; [exact Hok2|done..| |].
    + intros _. by exists U, A, D, O, F.
    + intros s1 A' D' O' F' R _. exact (mmu_remapped_other _ _ _ _ _ _ _ _ _ _ _ _ _ _ _ _ _ _ Hok2 Hokc Hks Hsep R Hco).
  - by_run Hrun. eapply (unmap_page_wp kernel_space); [exact Hok2|done|done|by right| |].
    + intros _. by exists U, A, D, O, F.
    + intros s1 F' R. exact (mmu_remapped_other _ _ _ _ _ _ _ _ _ _ _ _ _ _ _ _ _ _ Hok2 Hokc Hks Hsep R Hco).
  - by_run Hrun. pose proof (vo_space _ _ _ _ _ _ _ _ _ Hok2) as Hs. eapply switch_wp; [apply Hs|apply Hs|apply (sr_page _ _ _ _ _ _ _ Hs)|].
    exists U2, A2, D2, O2, F2. split; [by destruct Hok2|]. intros w x Hw Hx. cbn [tlb set_tlb] in Hx. by rewrite lookup_empty in Hx.
Qed.

(** C30. The processor never uses a stale translation: after any sequence of the steps of
    [mmu_step], every cached translation is what the tables of the current space say
    at that moment. The steps are: the processor caches a translation that the tables
    give; a page is mapped in the current space; a page is unmapped in the current
    space, when that is the kernel's or the table is the space's own; a page is mapped
    in the space of a process that is separate from the current one (no byte of its
    structure, directory and owned tables is part of the current space), or unmapped
    from a table of its own; the kernel switches to a space that is in order. The
    pages that are mapped and unmapped lie below the last 4 MiB of the address space.
    Not among the steps are the changes of one space that write into a table which the
    current space uses too, as an unmapping in a table that is still shared does. *)
Theorem paging_no_stale_translation s s' : mmu_ok s → rtc mmu_step s s' →
  ∀ v e, is_u32 v → tlb s' !! (v / 4096) = Some e → mmu_walk (vmem s') (cr3 s') v = Some e.
Proof.
  intros Hok Hsteps. assert (Hok' : mmu_ok s') by (induction Hsteps as [|s1 s2 s3 Hst _ IH]; [done|]; apply IH; by eapply mmu_step_ok).
  destruct Hok' as (U & A & D & O & F & _ & Hco). exact Hco.
Qed.
End properties.

(** ** A small machine *)

(** One MiB of memory from 0x100000 on, with the static arrays at its start and the
    pages of [demo_pmm] in its upper half, and a framebuffer of 3 MiB. *)
Definition demo_memory : mem := mem_block 0x100000 (Z.to_nat 0x101000).
Definition demo_vm : vm pmm := Vm demo_memory demo_pmm 0 0xE0000000 0x300000 0x11 0 ∅.

Lemma demo_memory_mapped a : 0x100000 ≤ a < 0x201000 → is_Some (demo_memory !! a).
Proof. intros Ha. unfold demo_memory. apply (mem_block_mapped 0x100000 (Z.to_nat 0x101000)). rewrite Z2Nat.id by done. lia. Qed.

Lemma demo_layout : layout 0x100000 0x101000 0x121000 0x129000.
Proof. split; unfold page_ok, apart; split_and?; try done; lia. Qed.

Lemma demo_boot_ok : boot_ok 0x100000 0x101000 0x121000 0x129000 demo_vm demo_usable ∅.
Proof.
  split.
  - exact demo_rep.
  - apply mem_block_bytes.
  - intros p Hp%demo_usable_range a Ha. apply demo_memory_mapped. lia.
  - intros a Ha. unfold static in Ha. split; [apply demo_memory_mapped; lia|]. rewrite demo_usable_range. Z.to_euclidean_division_equations; lia.
  - unfold is_u32. cbn. lia.
Qed.

Lemma paging_initialize_spec_witness : ∃ s', paging_initialize 0x100000 0x101000 0x121000 0x129000 demo_vm = Some (tt, s') ∧
  fst <$> paging_get_physical 0x123456 s' = Some 0x123456 ∧ fst <$> paging_get_physical 0xE0012345 s' = Some 0xE0012345 ∧ fst <$> paging_get_physical 0xC0000000 s' = Some 0.
Proof.
  destruct (paging_initialize_spec 0x100000 0x101000 0x121000 0x129000 demo_vm demo_usable ∅ demo_layout demo_boot_ok) as (s' & E & _ & _ & G).
  exists s'. exact (conj E (conj (G 0x123456 ltac:(clear; done)) (conj (G 0xE0012345 ltac:(clear; done)) (G 0xC0000000 ltac:(clear; done))))).
Defined.

(** The machine after initialization, as the other statements need it. *)
Definition demo_ready (s : vm pmm) : Prop := paging_initialize 0x100000 0x101000 0x121000 0x129000 demo_vm = Some (tt, s).

Lemma demo_kernel : ∃ s D O F, demo_ready s ∧ vm_ok 0x129000 s demo_usable ∅ 0x129000 0x100000 D O F ∧ room_after s demo_usable ∅ 0x129000 0x100000 D ∧
  is_present (D 0) = true ∧ (∀ i k, 0 ≤ i < 1024 → 0 ≤ k < 1024 → trans D F i k = 0 ∨ trans D F i k = self_entry (i * 1024 + k)) ∧ trans D F 0 1 = self_entry 1 ∧ current_space s = 0x129000 ∧ cr3 s = 0x100000 ∧ tlb s = ∅.
Proof.
  pose proof (paging_initialize_wp 0x100000 0x101000 0x121000 0x129000 demo_layout demo_vm demo_usable ∅ (λ _ s, ∃ D O F, vm_ok 0x129000 s demo_usable ∅ 0x129000 0x100000 D O F ∧
    room_after s demo_usable ∅ 0x129000 0x100000 D ∧ is_present (D 0) = true ∧ (∀ i k, 0 ≤ i < 1024 → 0 ≤ k < 1024 → trans D F i k = 0 ∨ trans D F i k = self_entry (i * 1024 + k)) ∧ trans D F 0 1 = self_entry 1 ∧ current_space s = 0x129000 ∧ cr3 s = 0x100000 ∧ tlb s = ∅) demo_boot_ok) as W.
  destruct W as ([] & s & E & D & O & F & R); [|exists s, D, O, F; exact (conj E R)].
  intros s D O F Hok _ T Hin Hmap C1 C2 C3 _. exists D, O, F. split; [exact Hok|]. split; [|split; [|split; [intros i k Hi Hk; rewrite (T i k Hi Hk); destruct (boot_page _ _); [by right|by left]|split; [exact (T 0 1 ltac:(lia) ltac:(lia))|by split_and!]]]].
  - intros p Hp b Hb. assert (Hp' : 0x180 ≤ p < 0x200) by (apply demo_usable_range; set_solver + Hp). split.
    + apply Hmap, demo_memory_mapped. lia.
    + intros Hb'%Hin. unfold static in Hb'. lia.
  - specialize (T 0 0 ltac:(lia) ltac:(lia)). unfold trans in T. by destruct (is_present (D 0)).
Qed.

Lemma demo_free : demo_usable ∖ ∅ ≠ ∅.
Proof. assert (H : 0x180 ∈ demo_usable ∖ ∅) by (rewrite elem_of_difference, demo_usable_range; set_solver by lia). intros E. rewrite E in H. set_solver + H. Qed.

Lemma paging_map_get_witness : ∃ s s', demo_ready s ∧ paging_map_page_in_space 0x129000 0x129000 0xC0000000 0x1A0000 2 s = Some (true, s') ∧
  fst <$> paging_get_physical_in_space 0x129000 0xC0000123 s' = Some 0x1A0123.
Proof.
  destruct demo_kernel as (s & D & O & F & Hr & Hok & _). exists s.
  destruct (paging_map_get 0x129000 s demo_usable ∅ 0x129000 0x100000 D O F 0xC0000000 0x1A0000 2 Hok ltac:(clear; done) ltac:(clear; done) ltac:(clear; done) ltac:(lia) demo_free) as (s' & E & G).
  exists s'. exact (conj Hr (conj E (G 0xC0000123 ltac:(clear; done)))).
Defined.

Lemma paging_unmap_spec_witness : ∃ s s', demo_ready s ∧ paging_unmap_page_in_space 0x129000 0x180000 s = Some (tt, s') ∧
  fst <$> paging_get_physical_in_space 0x129000 0x180004 s' = Some 0.
Proof.
  destruct demo_kernel as (s & D & O & F & Hr & Hok & _). exists s.
  destruct (paging_unmap_spec 0x129000 s demo_usable ∅ 0x129000 0x100000 D O F 0x180000 Hok ltac:(clear; done) ltac:(clear; done) (λ _, or_introl eq_refl)) as (s' & E & G).
  exists s'. exact (conj Hr (conj E (G 0x180004 ltac:(clear; done)))).
Defined.

Lemma paging_create_spec_witness : ∃ s r s', demo_ready s ∧ paging_create_address_space 0x100000 s = Some (r, s') ∧
  fst <$> paging_get_physical_in_space 0x129000 0x1000 s' = fst <$> paging_get_physical_in_space 0x129000 0x1000 s.
Proof.
  destruct demo_kernel as (s & D & O & F & Hr & Hok & Hroom & _). exists s.
  destruct (paging_create_spec 0x100000 0x129000 s demo_usable ∅ D O F Hok Hroom) as (r & s' & E & _ & G).
  exists r, s'. exact (conj Hr (conj E (G 0x1000 ltac:(clear; done)))).
Defined.

(** A process's space beside the kernel's. *)
Lemma demo_space : ∃ s s1 D O F p q, demo_ready s ∧ vm_ok 0x129000 s demo_usable ∅ 0x129000 0x100000 D O F ∧ room_after s demo_usable ∅ 0x129000 0x100000 D ∧
  is_present (D 0) = true ∧ paging_create_address_space 0x100000 s = Some (p * 4096, s1) ∧ created 0x100000 0x129000 s s1 demo_usable ∅ D O F p q.
Proof.
  destruct demo_kernel as (s & D & O & F & Hr & Hok & Hroom & Hp0 & _).
  assert (W : wp (paging_create_address_space 0x100000) (λ r s1, ∃ p q, r = p * 4096 ∧ created 0x100000 0x129000 s s1 demo_usable ∅ D O F p q) s).
  { apply (create_wp 0x100000 0x129000 s demo_usable ∅ D O F); [exact Hok|exact Hroom| |intros s1 p q C; exists p, q; exact (conj eq_refl C)].
    intros s1 Hsz _ _. exfalso. assert (Hsub : ({[0x180; 0x181]} : gset Z) ⊆ demo_usable ∖ ∅).
    { intros x Hx. rewrite elem_of_difference, demo_usable_range. rewrite elem_of_union, !elem_of_singleton in Hx. split; [lia|set_solver +]. }
    apply subseteq_size in Hsub. rewrite size_union, !size_singleton in Hsub by (clear; set_solver). lia. }
  destruct W as (r & s1 & E & p & q & -> & C). exists s, s1, D, O, F, p, q. exact (conj Hr (conj Hok (conj Hroom (conj Hp0 (conj E C))))).
Qed.

Lemma paging_create_destroy_witness : ∃ s r s1 s2, demo_ready s ∧ paging_create_address_space 0x100000 s = Some (r, s1) ∧
  paging_destroy_address_space 0x129000 r s1 = Some (tt, s2) ∧ pmm_rep (pager s2) demo_usable ∅.
Proof.
  destruct demo_space as (s & s1 & D & O & F & p & q & Hr & Hok & Hroom & Hp0 & E & C). exists s, (p * 4096), s1.
  assert (Hne : p * 4096 ≠ 0).
  { pose proof (sr_sp _ _ _ _ _ _ _ (vo_space _ _ _ _ _ _ _ _ _ (cr_ok _ _ _ _ _ _ _ _ _ _ _ C))) as Hpos. intros E0. clear -Hpos E0. lia. }
  destruct (paging_create_destroy 0x100000 0x129000 s demo_usable ∅ D O F (p * 4096) s1 Hok Hroom Hp0 E Hne) as (s2 & E2 & Hpg & _).
  exists s2. exact (conj Hr (conj E (conj E2 Hpg))).
Defined.

Lemma paging_map_isolated_witness : ∃ sp s r s', paging_map_page_in_space 0x129000 sp 0x400000 0x1A0000 7 s = Some (r, s') ∧
  fst <$> paging_get_physical_in_space 0x129000 0x400010 s' = fst <$> paging_get_physical_in_space 0x129000 0x400010 s.
Proof.
  destruct demo_space as (s & s1 & D & O & F & p & q & _ & Hok0 & _ & _ & _ & C). destruct C as [(Hp & Hq & _) Hok Hk _ _ _].
  pose proof (fresh_outside _ _ _ _ _ _ _ _ _ p Hok0 Hp) as [_ Op]. pose proof (fresh_outside _ _ _ _ _ _ _ _ _ q Hok0 Hq) as [_ Oq].
  assert (Hks : p * 4096 ≠ 0x129000).
  { intros E0. apply (Op (p * 4096)); [clear; lia|]. left. clear -E0. lia. }
  assert (Hrun : ∃ r s', paging_map_page_in_space 0x129000 (p * 4096) 0x400000 0x1A0000 7 s1 = Some (r, s')).
  { assert (W : wp (paging_map_page_in_space 0x129000 (p * 4096) 0x400000 0x1A0000 7) (λ _ _, True) s1).
    { eapply map_page_wp; [exact Hok|clear; done|clear; done|clear; done|clear; lia|intros _ _; exact I|intros; exact I]. }
    destruct W as (r & s' & E & _). exists r, s'. exact E. }
  destruct Hrun as (r & s' & E). exists (p * 4096), s1, r, s'. refine (conj E _).
  refine (paging_map_isolated 0x129000 s1 demo_usable _ (p * 4096) (q * 4096) D (λ _, 0) F 0x129000 0x100000 D O F 0x400000 0x1A0000 7 r s' Hok Hk Hks _ ltac:(clear; done) ltac:(clear; done) ltac:(clear; done) ltac:(clear; lia) E 0x400010 ltac:(clear; done)).
  intros a [Ha|[Ha|(i & _ & _ & [E0|E0] & _)]]; [by apply Op|by apply Oq|by destruct (Hks E0)|by destruct E0].
Defined.

Lemma paging_no_stale_translation_witness : ∃ s s', demo_ready s ∧ rtc (mmu_step 0x129000) s s' ∧
  tlb s' !! 1 = Some (self_entry 1) ∧ mmu_walk (vmem s') (cr3 s') 0x1234 = Some (self_entry 1).
Proof.
  destruct demo_kernel as (s & D & O & F & Hr & Hok & _ & _ & _ & T & Ec & E3 & Et). exists s.
  assert (Hw : mmu_walk (vmem s) (cr3 s) 0x1234 = Some (self_entry 1)).
  { rewrite E3, (mmu_walk_eq 0x129000 _ _ _ _ _ _ _ _ 0x1234 Hok ltac:(clear; done)). change (dir_index 0x1234) with 0. change (table_index 0x1234) with 1. rewrite T. reflexivity. }
  assert (Hst : rtc (mmu_step 0x129000) s (set_tlb (<[1 := self_entry 1]> (tlb s)) s)) by (apply rtc_once; exact (mmu_fill 0x129000 s 0x1234 _ ltac:(clear; done) Hw)).
  assert (Hm : mmu_ok 0x129000 s).
  { exists demo_usable, ∅, D, O, F. rewrite Ec, E3, Et. split; [exact Hok|]. intros v e _ Hv. rewrite lookup_empty in Hv. discriminate Hv. }
  eexists. refine (conj Hr (conj Hst (conj (lookup_insert_eq _ _ _) _))).
  apply (paging_no_stale_translation 0x129000 s _ Hm Hst 0x1234 (self_entry 1) ltac:(clear; done)). apply lookup_insert_eq.
Defined.

(** ** Where the code does less than it means to *)

(** [struct address_space] has 4100 bytes, but one page is allocated for it: creating
    a space clears the first word of the page that follows, also when that page is
    in use by another owner. *)
Lemma create_overruns_its_page kernel_page_directory kernel_space (s : vm pmm) U A D O F : vm_ok kernel_space s U A kernel_space kernel_page_directory D O F →
  room_after s U A kernel_space kernel_page_directory D →
  wp (paging_create_address_space kernel_page_directory) (λ r s', r ≠ 0 → r / 4096 + 1 ∈ A → load 4 (vmem s') (r + 4096) = Some 0) s.
Proof.
  intros Hok Hroom. eapply create_wp; [exact Hok|exact Hroom|done|]. intros s' p q C _. rewrite Z.div_mul by done. intros Hp.
  rewrite (cr_spill _ _ _ _ _ _ _ _ _ _ _ C). destruct (cr_fresh _ _ _ _ _ _ _ _ _ _ _ C) as (_ & Hq & _).
  rewrite (proj2 (Z.eqb_neq q (p + 1))); [done|]. set_solver + Hp Hq.
Qed.

(** Unmapping does not look whether the table belongs to the space: in a space (at
    0x130000, its directory at 0x131000) that shares the kernel's first table, as a
    new space does, it clears the kernel's entry. *)
Definition tiny_memory : mem := mem_block 0x100000 4 ∪ mem_block 0x101014 4 ∪ mem_block 0x129000 4 ∪ mem_block 0x130000 4 ∪ mem_block 0x131000 4.
Definition tiny_vm : vm pmm := Vm tiny_memory demo_pmm 0x129000 0 0 0 0x100000 ∅.

Example unmap_reaches_the_kernel :
  fst <$> (_ ← wr 0x129000 0x100000; _ ← wr 0x100000 0x101003; _ ← wr (0x101000 + 5 * 4) 0x5003; _ ← wr 0x130000 0x131000; _ ← wr 0x131000 0x101003;
           before ← paging_get_physical_in_space 0x129000 0x5000;
           _ ← paging_unmap_page_in_space 0x130000 0x5000;
           after ← paging_get_physical_in_space 0x129000 0x5000; mret (before, after)) tiny_vm = Some (0x5000, 0).
Proof. vm_compute. reflexivity. Qed.
