(* ===== verification/Heap.v ===== *)
(** * The kernel heap: translation of kernel/mm/heap.c

    Blocks of whole pages of the page allocator, each behind a header in memory;
    the headers form a doubly linked list. Memory is the byte memory of Memory, the
    page allocator is the class of Pmm. *)

From Stdlib Require Import ZArith Lia Bool.
From stdpp Require Import base numbers list gmap sets.
From S2P Require Import Prelude Memory Bitmap Pmm.

Definition HEAP_MAGIC : Z := 0xC0DEF00D.
Definition HEAP_ALIGN_MAGIC : Z := 0xA11A11A1.
Definition HEAP_MIN_SPLIT : Z := 32.

(** The offsets of the fields of [struct heap_block] (24 bytes) and of
    [struct aligned_header] (8 bytes). *)
Definition sizeof_heap_block : Z := 24.
Definition block_magic (b : Z) : Z := b.
Definition block_size (b : Z) : Z := b + 4.
Definition block_page_count (b : Z) : Z := b + 8.
Definition block_free (b : Z) : Z := b + 12.
Definition block_next (b : Z) : Z := b + 16.
Definition block_prev (b : Z) : Z := b + 20.

Definition sizeof_aligned_header : Z := 8.
Definition aligned_magic (h : Z) : Z := h.
Definition aligned_raw (h : Z) : Z := h + 4.

Definition sizeof_pointer : Z := 4.

Section heap.
Context {P : Type} `{PageAllocator P}.

Record heap := Heap {
  hmem : mem; hpager : P;
  heap_head : Z; heap_total : Z; heap_used : Z;
  invalid_free_count : Z; double_free_count : Z }.

Definition set_hmem v (s : heap) : heap :=
  Heap v (hpager s) (heap_head s) (heap_total s) (heap_used s) (invalid_free_count s) (double_free_count s).
Definition set_hpager v (s : heap) : heap :=
  Heap (hmem s) v (heap_head s) (heap_total s) (heap_used s) (invalid_free_count s) (double_free_count s).
Definition set_heap_head v (s : heap) : heap :=
  Heap (hmem s) (hpager s) v (heap_total s) (heap_used s) (invalid_free_count s) (double_free_count s).
Definition set_heap_total v (s : heap) : heap :=
  Heap (hmem s) (hpager s) (heap_head s) v (heap_used s) (invalid_free_count s) (double_free_count s).
Definition set_heap_used v (s : heap) : heap :=
  Heap (hmem s) (hpager s) (heap_head s) (heap_total s) v (invalid_free_count s) (double_free_count s).
Definition set_invalid_free_count v (s : heap) : heap :=
  Heap (hmem s) (hpager s) (heap_head s) (heap_total s) (heap_used s) v (double_free_count s).
Definition set_double_free_count v (s : heap) : heap :=
  Heap (hmem s) (hpager s) (heap_head s) (heap_total s) (heap_used s) (invalid_free_count s) v.

(** Words and booleans in memory. *)
Definition get (a : Z) : M heap Z := m ← gets hmem; lift (load 4 m a).
Definition put (a v : Z) : M heap unit := m ← gets hmem; m' ← lift (store 4 m a v); modify (set_hmem m').
Definition get_bool (a : Z) : M heap bool := m ← gets hmem; v ← lift (load 1 m a); mret (negb (v =? 0)).
Definition put_bool (a : Z) (v : bool) : M heap unit :=
  m ← gets hmem; m' ← lift (store 1 m a (if v then 1 else 0)); modify (set_hmem m').

Definition add_total (n : Z) : M heap unit := modify (λ s, set_heap_total (heap_total s +% n) s).
Definition sub_total (n : Z) : M heap unit := modify (λ s, set_heap_total (heap_total s -% n) s).

Definition heap_alloc_pages (n : Z) : M heap Z := zoom hpager set_hpager (alloc_pages n).
Definition heap_free_pages_block (a n : Z) : M heap unit := zoom hpager set_hpager (free_pages_block a n).

Definition align_up_size (value alignment : Z) : Z := Z.land (value +% alignment -% 1) (u32 (Z.lnot (alignment -% 1))).

(** ** The list of blocks *)

(** [while (tail->next != 0) tail = tail->next], from the head. *)
Definition tail_block (head : Z) : M heap Z :=
  while_ (λ tail,
    next ← get (block_next tail);
    mret (if next =? 0 then inr tail else inl next)) head.

Definition block_from_pages (page page_count : Z) : M heap unit :=
  let region_size := page_count *% PMM_PAGE_SIZE in
  _ ← put (block_magic page) HEAP_MAGIC;
  _ ← put (block_size page) (region_size -% sizeof_heap_block);
  _ ← put (block_page_count page) page_count;
  _ ← put_bool (block_free page) true;
  _ ← put (block_next page) 0;
  _ ← put (block_prev page) 0;
  head ← gets heap_head;
  _ ← (if head =? 0 then modify (set_heap_head page)
       else
         tail ← tail_block head;
         _ ← put (block_next tail) page;
         put (block_prev page) tail);
  size ← get (block_size page);
  add_total size.

Definition find_free_block (size : Z) : M heap Z :=
  head ← gets heap_head;
  while_ (λ block,
    if block =? 0 then mret (inr 0)
    else
      free ← get_bool (block_free block);
      fits ← (if free : bool then bsize ← get (block_size block); mret (size <=? bsize) else mret false);
      if fits : bool then mret (inr block)
      else next ← get (block_next block); mret (inl next)) head.

Definition split_block (block size : Z) : M heap unit :=
  bsize ← get (block_size block);
  if bsize <? size +% sizeof_heap_block +% HEAP_MIN_SPLIT then mret tt
  else
    let next := block + sizeof_heap_block + size in
    _ ← put (block_magic next) HEAP_MAGIC;
    bsize ← get (block_size block);
    _ ← put (block_size next) (bsize -% size -% sizeof_heap_block);
    _ ← put_bool (block_free next) true;
    bnext ← get (block_next block);
    _ ← put (block_next next) bnext;
    _ ← put (block_prev next) block;
    nnext ← get (block_next next);
    _ ← when (negb (nnext =? 0)) (put (block_prev nnext) next);
    _ ← put (block_next block) next;
    _ ← put (block_size block) size;
    sub_total sizeof_heap_block.

Definition coalesce_next (block : Z) : M heap unit :=
  next ← get (block_next block);
  next_free ← (if next =? 0 then mret false else get_bool (block_free next));
  if negb next_free then mret tt
  else
    bsize ← get (block_size block);
    if negb (block + sizeof_heap_block + bsize =? next) then mret tt
    else
      nsize ← get (block_size next);
      _ ← put (block_size block) (bsize +% (sizeof_heap_block +% nsize));
      nnext ← get (block_next next);
      _ ← put (block_next block) nnext;
      bnext ← get (block_next block);
      _ ← when (negb (bnext =? 0)) (put (block_prev bnext) block);
      add_total sizeof_heap_block.

Definition unlink_block (block : Z) : M heap unit :=
  prev ← get (block_prev block);
  next ← get (block_next block);
  _ ← (if negb (prev =? 0) then put (block_next prev) next else modify (set_heap_head next));
  next ← get (block_next block);
  if negb (next =? 0) then prev ← get (block_prev block); put (block_prev next) prev else mret tt.

Definition release_whole_region_if_possible (block : Z) : M heap unit :=
  free ← get_bool (block_free block);
  page_count ← get (block_page_count block);
  if negb free || (page_count =? 0) then mret tt
  else
    let region_payload := page_count *% PMM_PAGE_SIZE -% sizeof_heap_block in
    size ← get (block_size block);
    if negb (size =? region_payload) then mret tt
    else
      _ ← unlink_block block;
      size ← get (block_size block);
      _ ← sub_total size;
      page_count ← get (block_page_count block);
      heap_free_pages_block block page_count.

(** ** Allocation *)

Definition heap_initialize : M heap unit :=
  _ ← modify (set_heap_head 0); _ ← modify (set_heap_total 0); _ ← modify (set_heap_used 0);
  _ ← modify (set_invalid_free_count 0); _ ← modify (set_double_free_count 0);
  page ← heap_alloc_pages 1;
  if negb (page =? 0) then block_from_pages page 1 else mret tt.

(** The end of kmalloc, with the block it has found. *)
Definition take_block (block size : Z) : M heap Z :=
  _ ← split_block block size;
  _ ← put_bool (block_free block) false;
  bsize ← get (block_size block);
  _ ← modify (λ s, set_heap_used (heap_used s +% bsize) s);
  mret (block + sizeof_heap_block).

Definition kmalloc (size : Z) : M heap Z :=
  if size =? 0 then mret 0
  else
    let size := align_up_size size 8 in
    block ← find_free_block size;
    block ← while_ (λ block,
      if negb (block =? 0) then mret (inr block)
      else
        let pages_needed := (size +% sizeof_heap_block +% PMM_PAGE_SIZE -% 1) / PMM_PAGE_SIZE in
        pages ← heap_alloc_pages pages_needed;
        if pages =? 0 then mret (inr 0)
        else
          _ ← block_from_pages pages pages_needed;
          block ← find_free_block size;
          mret (inl block)) block;
    if block =? 0 then mret 0 else take_block block size.

Definition kmalloc_aligned (size alignment : Z) : M heap Z :=
  let alignment := if alignment <? sizeof_pointer then sizeof_pointer else alignment in
  let total := size +% alignment +% sizeof_aligned_header in
  raw ← kmalloc total;
  if raw =? 0 then mret 0
  else
    let aligned := Z.land (raw +% sizeof_aligned_header +% alignment -% 1) (u32 (Z.lnot (alignment -% 1))) in
    let header := aligned - sizeof_aligned_header in
    _ ← put (aligned_magic header) HEAP_ALIGN_MAGIC;
    _ ← put (aligned_raw header) raw;
    mret aligned.

(** kfree of a pointer that is not behind an aligned header. *)
Definition kfree_block (ptr : Z) : M heap unit :=
  let block := ptr - sizeof_heap_block in
  magic ← get (block_magic block);
  if negb (magic =? HEAP_MAGIC) then modify (λ s, set_invalid_free_count (invalid_free_count s +% 1) s)
  else
    free ← get_bool (block_free block);
    if free : bool then modify (λ s, set_double_free_count (double_free_count s +% 1) s)
    else
      _ ← put_bool (block_free block) true;
      size ← get (block_size block);
      _ ← modify (λ s, set_heap_used (heap_used s -% size) s);
      _ ← coalesce_next block;
      prev ← get (block_prev block);
      prev_free ← (if negb (prev =? 0) then get_bool (block_free prev) else mret false);
      block ← (if prev_free : bool then _ ← coalesce_next prev; mret prev else mret block);
      release_whole_region_if_possible block.

(** One call of kfree; [inl] is the argument of the recursive call. *)
Definition kfree_call (ptr : Z) : M heap (Z + unit) :=
  if ptr =? 0 then mret (inr tt)
  else
    let aligned := ptr - sizeof_aligned_header in
    magic ← get (aligned_magic aligned);
    if magic =? HEAP_ALIGN_MAGIC then
      _ ← put (aligned_magic aligned) 0;
      raw ← get (aligned_raw aligned);
      mret (inl raw)
    else _ ← kfree_block ptr; mret (inr tt).

(** The recursive call of kfree is its last step: a loop. *)
Definition kfree (ptr : Z) : M heap unit := while_ kfree_call ptr.

Definition heap_total_bytes : M heap Z := gets heap_total.
Definition heap_used_bytes : M heap Z := gets heap_used.
Definition heap_free_bytes : M heap Z := gets (λ s, heap_total s -% heap_used s).
Definition heap_invalid_free_count : M heap Z := gets invalid_free_count.
Definition heap_double_free_count : M heap Z := gets double_free_count.
End heap.
Arguments heap P : clear implicits.
