(* ===== verification/HeapInv.v ===== *)
(** * The heap as a list of blocks

    The abstract blocks, the headers and links that represent them in memory, the
    invariant [heap_ok] of the heap, and the rules for reading and writing the
    fields of a header. *)

From Stdlib Require Import ZArith Lia Bool.
From stdpp Require Import base numbers list gmap sets.
From S2P Require Import Prelude Memory Bitmap Pmm Heap.

(** ** Blocks *)

Record blk := Blk { bat : Z; blen : Z; bpages : Z; bfree : bool }.

Definition bend (b : blk) : Z := bat b + 24 + blen b.
Definition apart (b c : blk) : Prop := bend b ≤ bat c ∨ bend c ≤ bat b.

Definition with_len v b := Blk (bat b) v (bpages b) (bfree b).
Definition with_free v b := Blk (bat b) (blen b) (bpages b) v.

Fixpoint separate (bs : list blk) : Prop :=
  match bs with [] => True | b :: bs => Forall (apart b) bs ∧ separate bs end.

(** A block of the heap, whose pages are [W]. *)
Record blk_ok (W : gset Z) (b : blk) : Prop := {
  bo_at : 0 < bat b ∧ bat b mod 8 = 0;
  bo_len : 0 ≤ blen b ∧ blen b mod 8 = 0;
  bo_pages : ∀ a, bat b ≤ a < bend b → a / 4096 ∈ W }.

Definition wf (W : gset Z) (bs : list blk) : Prop := Forall (blk_ok W) bs ∧ separate bs.

Definition used (bs : list blk) : list blk := filter (λ b, bfree b = false) bs.
Fixpoint sum_len (bs : list blk) : Z := match bs with [] => 0 | b :: bs => blen b + sum_len bs end.

(** What the heap's operations may write: headers, and the space of free blocks. *)
Definition touched (bs : list blk) (a : Z) : Prop :=
  ∃ b, b ∈ bs ∧ bat b ≤ a < (if bfree b then bend b else bat b + 24).

Lemma apart_sym b c : apart b c → apart c b.
Proof. unfold apart. tauto. Qed.

Lemma separate_app l k : separate (l ++ k) ↔ separate l ∧ separate k ∧ Forall (λ b, Forall (apart b) k) l.
Proof.
  induction l as [|b l IH]; cbn; [rewrite Forall_nil; tauto|]. rewrite Forall_app, IH, Forall_cons. tauto.
Qed.

Lemma separate_middle l b k : separate (l ++ b :: k) ↔ Forall (apart b) (l ++ k) ∧ separate (l ++ k).
Proof.
  rewrite !separate_app. cbn. rewrite Forall_app.
  assert (E : Forall (λ c, Forall (apart c) (b :: k)) l ↔ Forall (apart b) l ∧ Forall (λ c, Forall (apart c) k) l).
  { rewrite <-Forall_and. apply Forall_iff. intros c. rewrite Forall_cons. split; intros [? ?]; split; auto using apart_sym. }
  rewrite E. tauto.
Qed.

Lemma wf_middle W l b k : wf W (l ++ b :: k) ↔ blk_ok W b ∧ Forall (apart b) (l ++ k) ∧ wf W (l ++ k).
Proof. unfold wf. rewrite separate_middle, !Forall_app, Forall_cons. tauto. Qed.

Lemma wf_app W l k : wf W (l ++ k) → wf W l ∧ wf W k.
Proof. unfold wf. rewrite Forall_app, separate_app. tauto. Qed.

(** Whatever lies inside [b] is as far from the others as [b] is. *)
Lemma apart_inside b c ks : bat b ≤ bat c → bend c ≤ bend b → Forall (apart b) ks → Forall (apart c) ks.
Proof. intros H1 H2 Hb. eapply Forall_impl; [exact Hb|]. intros x. unfold apart. lia. Qed.

Lemma sum_len_app l k : sum_len (l ++ k) = sum_len l + sum_len k.
Proof. induction l as [|b l IH]; cbn; lia. Qed.

Lemma used_app l k : used (l ++ k) = used l ++ used k.
Proof. apply filter_app. Qed.

Lemma used_cons b l : used (b :: l) = if bfree b then used l else b :: used l.
Proof. unfold used. rewrite filter_cons. destruct (bfree b); [by rewrite decide_False|by rewrite decide_True]. Qed.

Lemma touched_sub W bs b a : blk_ok W b → b ∈ bs → bat b ≤ a < bat b + 24 → touched bs a.
Proof. intros [_ Hl _] Hb Ha. exists b. split; [done|]. destruct (bfree b); unfold bend; lia. Qed.

(** ** Memory that changes in places *)

Record edits (m m' : mem) (X : Z → Prop) : Prop := {
  ed_same : ∀ c, ¬ X c → m' !! c = m !! c;
  ed_mapped : ∀ c, is_Some (m' !! c) ↔ is_Some (m !! c);
  ed_bytes : bytes_ok m → bytes_ok m' }.

Lemma edits_refl m X : edits m m X.
Proof. by split. Qed.

Lemma edits_trans m m1 m2 X : edits m m1 X → edits m1 m2 X → edits m m2 X.
Proof. intros [S1 M1 B1] [S2 M2 B2]. split; [|intros b; by rewrite M2, M1|auto]. intros b Hb. by rewrite S2, S1. Qed.

Lemma edits_mono m m' (X Y : Z → Prop) : (∀ c, X c → Y c) → edits m m' X → edits m m' Y.
Proof. intros HXY [S M B]. split; [|done|done]. intros c Hc. apply S. by intros Hx%HXY. Qed.

Lemma changes_edits m m' a n (X : Z → Prop) : changes m m' a n → (∀ c, a ≤ c < a + n → X c) → edits m m' X.
Proof. intros [S M B] HX. split; [|done|done]. intros c Hc. apply S. intros Hr. by apply Hc, HX. Qed.

(** ** Headers and links *)

Record header (m : mem) (b : blk) (p n : Z) : Prop := {
  hd_magic : load 4 m (block_magic (bat b)) = Some HEAP_MAGIC;
  hd_size : load 4 m (block_size (bat b)) = Some (blen b);
  hd_pages : load 4 m (block_page_count (bat b)) = Some (bpages b);
  hd_free : load 1 m (block_free (bat b)) = Some (if bfree b then 1 else 0);
  hd_next : load 4 m (block_next (bat b)) = Some n;
  hd_prev : load 4 m (block_prev (bat b)) = Some p }.

(** The first block's address, or [n]; the last block's address, or [p]. *)
Definition first (bs : list blk) (n : Z) : Z := match bs with [] => n | b :: _ => bat b end.
Fixpoint last_at (bs : list blk) (p : Z) : Z := match bs with [] => p | b :: bs => last_at bs (bat b) end.

Fixpoint chain (m : mem) (p : Z) (bs : list blk) (n : Z) : Prop :=
  match bs with [] => True | b :: bs => header m b p (first bs n) ∧ chain m (bat b) bs n end.

Ltac fields := unfold block_magic, block_size, block_page_count, block_free, block_next, block_prev in *.

Lemma header_same m m' b p n : (∀ c, bat b ≤ c < bat b + 24 → m' !! c = m !! c) → header m b p n → header m' b p n.
Proof.
  intros Hs [H1 H2 H3 H4 H5 H6]. fields. split; fields; (rewrite (load_ext _ m) by (intros c Hc; apply Hs; lia)); done.
Qed.

Lemma chain_same m m' p bs n : (∀ b c, b ∈ bs → bat b ≤ c < bat b + 24 → m' !! c = m !! c) → chain m p bs n → chain m' p bs n.
Proof.
  revert p. induction bs as [|b bs IH]; intros p Hs; [done|]. intros [Hh Hc]. split.
  - eapply header_same; [|exact Hh]. intros c Hb. apply (Hs b); [apply list_elem_of_here|done].
  - apply IH; [|done]. intros x c Hx. apply Hs. by apply list_elem_of_further.
Qed.

(** Writing inside [x] leaves the chains of the blocks apart from it. *)
Lemma chain_frame W m m' x a k p bs n : changes m m' a k → bat x ≤ a → a + k ≤ bend x →
  Forall (apart x) bs → Forall (blk_ok W) bs → chain m p bs n → chain m' p bs n.
Proof.
  intros [Hs _ _] H1 H2 Hap Hok. apply chain_same. intros b c Hb Hc. apply Hs.
  rewrite Forall_forall in Hap, Hok. pose proof (Hap b Hb) as Ha. destruct (Hok b Hb) as [_ Hl _]. unfold apart, bend in *. lia.
Qed.

Lemma header_frame m m' x a k b p n W : changes m m' a k → bat x ≤ a → a + k ≤ bend x → apart x b → blk_ok W b →
  header m b p n → header m' b p n.
Proof.
  intros [Hs _ _] H1 H2 Hap [_ Hl _]. apply header_same. intros c Hc. apply Hs. unfold apart, bend in *. lia.
Qed.

Lemma last_at_app l k p : last_at (l ++ k) p = last_at k (last_at l p).
Proof. revert p. induction l as [|b l IH]; intros p; cbn; [done|]. apply IH. Qed.

Lemma first_app l k n : first (l ++ k) n = first l (first k n).
Proof. by destruct l. Qed.

Lemma chain_app m l k p n : chain m p (l ++ k) n ↔ chain m p l (first k n) ∧ chain m (last_at l p) k n.
Proof.
  revert p. induction l as [|b l IH]; intros p; cbn; [tauto|]. rewrite IH, first_app. tauto.
Qed.

Lemma chain_middle m l b k p n : chain m p (l ++ b :: k) n ↔
  chain m p l (bat b) ∧ header m b (last_at l p) (first k n) ∧ chain m (bat b) k n.
Proof. by rewrite chain_app. Qed.

Lemma first_zero W bs : Forall (blk_ok W) bs → first bs 0 = 0 ↔ bs = [].
Proof. destruct bs as [|b bs]; [done|]. intros [[Ha _ _] _]%Forall_cons. cbn. split; [lia|done]. Qed.

Lemma first_aligned W bs : Forall (blk_ok W) bs → first bs 0 mod 8 = 0.
Proof. destruct bs as [|b bs]; [done|]. intros [[Ha _ _] _]%Forall_cons. apply Ha. Qed.

Lemma last_at_snoc l b p : last_at (l ++ [b]) p = bat b.
Proof. by rewrite last_at_app. Qed.

(** ** The invariant *)

Section invariant.
Context {P : Type} `{PageAllocatorLaws P}.
Implicit Types s : heap P.

(** [U] are the managed pages, [A] those handed out, [W] those of the heap. *)
Record heap_ok s (U A W : gset Z) (bs : list blk) : Prop := {
  ho_pages : pages_rep (hpager s) U A;
  ho_owned : W ⊆ A;
  ho_mapped : ∀ p, p ∈ U → mapped (hmem s) (p * 4096) 4096;
  ho_bytes : bytes_ok (hmem s);
  ho_wf : wf W bs;
  ho_chain : chain (hmem s) 0 bs 0;
  ho_head : heap_head s = first bs 0;
  ho_total : heap_total s = u32 (sum_len bs);
  ho_used : heap_used s = u32 (sum_len (used bs)) }.

(** What every operation on the list leaves alone. *)
Record evolves (X : Z → Prop) s s' : Prop := {
  ev_mem : edits (hmem s) (hmem s') X;
  ev_invalid : invalid_free_count s' = invalid_free_count s;
  ev_double : double_free_count s' = double_free_count s }.

Lemma evolves_refl X s : evolves X s s.
Proof. split; [apply edits_refl|done|done]. Qed.

Lemma evolves_trans X s s1 s2 : evolves X s s1 → evolves X s1 s2 → evolves X s s2.
Proof. intros [M1 I1 D1] [M2 I2 D2]. split; [by eapply edits_trans|congruence|congruence]. Qed.

Lemma evolves_mono (X Y : Z → Prop) s s' : (∀ c, X c → Y c) → evolves X s s' → evolves Y s s'.
Proof. intros HXY [M I D]. split; [by eapply edits_mono|done|done]. Qed.

(** The addresses of the heap are small. *)
Lemma heap_bounds s U A W bs a : heap_ok s U A W bs → a / 4096 ∈ W → 4096 ≤ a < 134217728.
Proof.
  intros Hok Ha. destruct (pages_bounds _ _ _ (ho_pages _ _ _ _ _ Hok)) as [HAU HU].
  assert (HaU : a / 4096 ∈ U) by (apply HAU; by apply (ho_owned _ _ _ _ _ Hok)).
  apply HU in HaU. Z.to_euclidean_division_equations; lia.
Qed.

Lemma blk_bounds s U A W bs b : heap_ok s U A W bs → blk_ok W b → 4096 ≤ bat b ∧ bend b ≤ 134217728 ∧ 0 ≤ blen b.
Proof.
  intros Hok [Ha Hl Hp]. unfold bend in *.
  assert (H1 : bat b / 4096 ∈ W) by (apply Hp; lia). assert (H2 : (bat b + 24 + blen b - 1) / 4096 ∈ W) by (apply Hp; lia).
  apply (heap_bounds _ _ _ _ _ _ Hok) in H1, H2. lia.
Qed.

Lemma blk_bounds_in s U A W bs b : heap_ok s U A W bs → b ∈ bs → 4096 ≤ bat b ∧ bend b ≤ 134217728 ∧ 0 ≤ blen b.
Proof.
  intros Hok Hb. eapply blk_bounds; [done|]. destruct (ho_wf _ _ _ _ _ Hok) as [Hf _]. rewrite Forall_forall in Hf. by apply Hf.
Qed.

Lemma heap_mapped s U A W bs a n : heap_ok s U A W bs → (∀ c, a ≤ c < a + n → c / 4096 ∈ W) → mapped (hmem s) a n.
Proof.
  intros Hok Ha c Hc. destruct (pages_bounds _ _ _ (ho_pages _ _ _ _ _ Hok)) as [HAU _].
  apply (ho_mapped _ _ _ _ _ Hok (c / 4096)); [apply HAU, (ho_owned _ _ _ _ _ Hok); by apply Ha|].
  Z.to_euclidean_division_equations; lia.
Qed.

(** Distinct numbers below [n] are at most [n] many; so the list of blocks is
    shorter than the bound of the loops that walk it. *)
Lemma nodup_bound (l : list Z) n : NoDup l → 0 ≤ n → (∀ x, x ∈ l → 0 ≤ x < n) → Z.of_nat (length l) ≤ n.
Proof.
  intros Hnd Hn Hl. assert (Hsub : l ⊆+ seqZ 0 n).
  { apply NoDup_submseteq; [done|]. intros x Hx%Hl. apply elem_of_seqZ. lia. }
  apply submseteq_length in Hsub. rewrite length_seqZ in Hsub. lia.
Qed.

Lemma separate_nodup W bs : wf W bs → NoDup (bat <$> bs).
Proof.
  induction bs as [|b bs IH]; [constructor|]. intros [[Hb Hf]%Forall_cons [Hap Hs]]. cbn. constructor; [|by apply IH].
  rewrite list_elem_of_fmap. intros (c & E & Hc). rewrite Forall_forall in Hap, Hf. pose proof (Hap c Hc) as Ha.
  destruct (Hf c Hc) as [_ Hlc _]. destruct Hb as [_ Hlb _]. unfold apart, bend in Ha. lia.
Qed.

Lemma heap_length s U A W bs : heap_ok s U A W bs → Z.of_nat (length bs) < 4294967296.
Proof.
  intros Hok. pose proof (separate_nodup _ _ (ho_wf _ _ _ _ _ Hok)) as Hnd.
  apply (nodup_bound _ 134217728) in Hnd; [rewrite length_fmap in Hnd; lia|done|].
  intros x (b & -> & Hb)%list_elem_of_fmap. pose proof (blk_bounds_in _ _ _ _ _ b Hok Hb) as (? & ? & ?). unfold bend in *. lia.
Qed.

(** Writing headers and free space of some blocks leaves the others. *)
Lemma header_edits W m m' k b p n : edits m m' (touched k) → Forall (blk_ok W) k → Forall (apart b) k → 0 ≤ blen b →
  header m b p n → header m' b p n.
Proof.
  intros [Es _ _] Hk Hap Hl. apply header_same. intros c Hc. apply Es. intros (y & Hy & Hr).
  rewrite Forall_forall in Hk, Hap. destruct (Hk y Hy) as [_ Hly _]. pose proof (Hap y Hy) as Ha. unfold apart, bend in *. destruct (bfree y); lia.
Qed.

Lemma chain_edits W m m' k bs p n : edits m m' (touched k) → wf W (bs ++ k) → chain m p bs n → chain m' p bs n.
Proof.
  intros [Es _ _] [Hf Hs]. apply Forall_app in Hf as [Hb Hk]. apply separate_app in Hs as (_ & _ & Hap). apply chain_same.
  intros b c Hbb Hc. apply Es. intros (y & Hy & Hr). rewrite Forall_forall in Hb, Hk, Hap. destruct (Hb b Hbb) as [_ Hl _]. destruct (Hk y Hy) as [_ Hly _].
  pose proof (Hap b Hbb) as Ha. rewrite Forall_forall in Ha. specialize (Ha y Hy). unfold apart, bend in *. destruct (bfree y); lia.
Qed.

Lemma touched_app l k c : touched (l ++ k) c ↔ touched l c ∨ touched k c.
Proof. unfold touched. setoid_rewrite elem_of_app. naive_solver. Qed.

Lemma touched_cons b k c : touched (b :: k) c ↔ bat b ≤ c < (if bfree b then bend b else bat b + 24) ∨ touched k c.
Proof. unfold touched. setoid_rewrite elem_of_cons. naive_solver. Qed.

(** ** Fields *)

Lemma get_wp s a v (Q : Z → heap P → Prop) : load 4 (hmem s) a = Some v → Q v s → wp (get a) Q s.
Proof. intros E HQ. unfold get. do 2 wp_step. eapply wp_lift; [exact E|done]. Qed.

Lemma get_bool_wp s a (v : bool) (Q : bool → heap P → Prop) : load 1 (hmem s) a = Some (if v then 1 else 0) → Q v s → wp (get_bool a) Q s.
Proof. intros E HQ. unfold get_bool. do 3 wp_step. eapply wp_lift; [exact E|]. wp_step. by destruct v. Qed.

Lemma put_wp s a v (Q : unit → heap P → Prop) : mapped (hmem s) a 4 →
  (∀ m', store 4 (hmem s) a v = Some m' → changes (hmem s) m' a 4 → Q tt (set_hmem m' s)) → wp (put a v) Q s.
Proof.
  intros Hm HQ. unfold put. do 3 wp_step. destruct (store_is_Some 4 (hmem s) a v Hm) as [m' E].
  eapply wp_lift; [exact E|]. wp_step. apply HQ; [done|]. by apply store_changes in E.
Qed.

(** A write inside a header. *)
Lemma put_in_wp s x a v (Q : unit → heap P → Prop) : mapped (hmem s) x 24 → x ≤ a ≤ x + 20 →
  (∀ m', store 4 (hmem s) a v = Some m' → changes (hmem s) m' x 24 → Q tt (set_hmem m' s)) → wp (put a v) Q s.
Proof.
  intros Hm Ha HQ. apply put_wp; [eapply mapped_sub; [exact Hm|lia..]|]. intros m' E C. apply HQ; [done|].
  eapply changes_sub; [exact C|lia].
Qed.

Lemma put_bool_wp s a (v : bool) (Q : unit → heap P → Prop) : mapped (hmem s) a 1 →
  (∀ m', store 1 (hmem s) a (if v then 1 else 0) = Some m' → changes (hmem s) m' a 1 → Q tt (set_hmem m' s)) → wp (put_bool a v) Q s.
Proof.
  intros Hm HQ. unfold put_bool. do 3 wp_step. destruct (store_is_Some 1 (hmem s) a (if v then 1 else 0) Hm) as [m' E].
  eapply wp_lift; [exact E|]. wp_step. apply HQ; [done|]. by apply store_changes in E.
Qed.

Lemma load_store4 (m m' : mem) a v : store 4 m a v = Some m' → is_u32 v → load 4 m' a = Some v.
Proof. intros E Hv. rewrite (load_store_eq _ _ _ _ _ E). f_equal. apply Z.mod_small. unfold is_u32 in Hv. cbn. lia. Qed.

Lemma load_store1 (m m' : mem) a (v : bool) : store 1 m a (if v then 1 else 0) = Some m' → load 1 m' a = Some (if v then 1 else 0).
Proof. intros E. rewrite (load_store_eq _ _ _ _ _ E). by destruct v. Qed.

(** Proves a load after the store [E]. *)
Ltac after_store E :=
  fields; first [ apply (load_store4 _ _ _ _ E); assumption
                | apply (load_store1 _ _ _ _ E)
                | rewrite (load_store_ne _ _ _ _ _ _ _ E) by lia; assumption ].

Lemma put_size_wp s b p n v (Q : unit → heap P → Prop) : header (hmem s) b p n → is_u32 v →
  (∀ m', changes (hmem s) m' (bat b) 24 → header m' (with_len v b) p n → Q tt (set_hmem m' s)) → wp (put (block_size (bat b)) v) Q s.
Proof.
  intros [H1 H2 H3 H4 H5 H6] Hv HQ. apply put_wp; [apply (load_mapped 4 _ _ _ H2)|]. intros m' E C. apply HQ.
  - eapply changes_sub; [exact C|]. fields. lia.
  - split; cbn [bat blen bpages bfree with_len]; after_store E.
Qed.

Lemma put_free_wp s b p n v (Q : unit → heap P → Prop) : header (hmem s) b p n →
  (∀ m', changes (hmem s) m' (bat b) 24 → header m' (with_free v b) p n → Q tt (set_hmem m' s)) → wp (put_bool (block_free (bat b)) v) Q s.
Proof.
  intros [H1 H2 H3 H4 H5 H6] HQ. apply put_bool_wp; [apply (load_mapped 1 _ _ _ H4)|]. intros m' E C. apply HQ.
  - eapply changes_sub; [exact C|]. fields. lia.
  - split; cbn [bat blen bpages bfree with_free]; after_store E.
Qed.

Lemma put_next_wp s b p n v (Q : unit → heap P → Prop) : header (hmem s) b p n → is_u32 v →
  (∀ m', changes (hmem s) m' (bat b) 24 → header m' b p v → Q tt (set_hmem m' s)) → wp (put (block_next (bat b)) v) Q s.
Proof.
  intros [H1 H2 H3 H4 H5 H6] Hv HQ. apply put_wp; [apply (load_mapped 4 _ _ _ H5)|]. intros m' E C. apply HQ.
  - eapply changes_sub; [exact C|]. fields. lia.
  - split; after_store E.
Qed.

Lemma put_prev_wp s b p n v (Q : unit → heap P → Prop) : header (hmem s) b p n → is_u32 v →
  (∀ m', changes (hmem s) m' (bat b) 24 → header m' b v n → Q tt (set_hmem m' s)) → wp (put (block_prev (bat b)) v) Q s.
Proof.
  intros [H1 H2 H3 H4 H5 H6] Hv HQ. apply put_wp; [apply (load_mapped 4 _ _ _ H6)|]. intros m' E C. apply HQ.
  - eapply changes_sub; [exact C|]. fields. lia.
  - split; after_store E.
Qed.
End invariant.

(** Proves a load after the stores of the context. *)
Ltac after_stores :=
  fields;
  repeat match goal with
         | E : store _ _ _ _ = Some ?m |- load _ ?m _ = _ =>
             first [ rewrite (load_store_ne _ _ _ _ _ _ _ E) by lia | apply (load_store4 _ _ _ _ E) | exact (load_store1 _ _ _ true E) | exact (load_store1 _ _ _ false E) ]
         end.
