(* ===== verification/HeapOps.v ===== *)
(** * The operations on the list of blocks

    Each function of heap.c keeps the invariant [heap_ok], with the list of blocks
    changed as its name says. *)

From Stdlib Require Import ZArith Lia Bool.
From stdpp Require Import base numbers list gmap sets.
From S2P Require Import Prelude Memory Bitmap Pmm Heap HeapInv.

Section ops.
Context {P : Type} `{PageAllocatorLaws P}.
Implicit Types s : heap P.

Lemma set_hmem_id s : set_hmem (hmem s) s = s.
Proof. by destruct s. Qed.

(** The parts of the invariant that only depend on what is mapped. *)
Lemma heap_ok_new s s' U A W W' bs bs' X : heap_ok s U A W bs → edits (hmem s) (hmem s') X → hpager s' = hpager s → W' ⊆ A →
  wf W' bs' → chain (hmem s') 0 bs' 0 → heap_head s' = first bs' 0 → heap_total s' = u32 (sum_len bs') →
  heap_used s' = u32 (sum_len (used bs')) → heap_ok s' U A W' bs'.
Proof.
  intros [H1 H2 H3 H4 _ _ _ _ _] [E1 E2 E3] Hpg ?????. split; try done; [by rewrite Hpg| |by apply E3].
  intros p Hp c Hc. by apply E2, (H3 p).
Qed.

Lemma u32_sub_l a b : u32 (u32 a - b) = u32 (a - b).
Proof. unfold u32. by rewrite Zminus_mod_idemp_l. Qed.

Lemma first_is_u32 s U A W bs l : heap_ok s U A W bs → Forall (blk_ok W) l → is_u32 (first l 0).
Proof.
  intros Hok Hl. destruct l as [|b l]; [done|]. apply Forall_cons in Hl as [Hb _].
  destruct (blk_bounds _ _ _ _ _ _ Hok Hb) as (? & ? & ?). unfold is_u32, bend in *. cbn. lia.
Qed.

(** ** Walking the list *)

Definition no_fit (size : Z) (b : blk) : Prop := bfree b = true → blen b < size.

Lemma find_free_wp s U A W bs size (Q : Z → heap P → Prop) : heap_ok s U A W bs →
  (Forall (no_fit size) bs → Q 0 s) →
  (∀ l b k, bs = l ++ b :: k → bfree b = true → size ≤ blen b → Q (bat b) s) →
  wp (find_free_block size) Q s.
Proof.
  intros Hok Hnone Hsome. unfold find_free_block. do 2 wp_step. rewrite (ho_head _ _ _ _ _ Hok).
  apply (wp_while _ (λ n a s', s' = s ∧ ∃ l k, bs = l ++ k ∧ a = first k 0 ∧ n = Z.of_nat (length k) ∧ Forall (no_fit size) l) _ (Z.of_nat (length bs))).
  { split; [done|]. exists [], bs. by rewrite Forall_nil. }
  intros n a s' (-> & l & k & E & -> & -> & Hl). pose proof (heap_length _ _ _ _ _ Hok) as Hlen. rewrite E, length_app in Hlen.
  split; [lia|]. destruct (ho_wf _ _ _ _ _ Hok) as [Hf _]. pose proof (ho_chain _ _ _ _ _ Hok) as Hc. rewrite E in Hf, Hc.
  destruct k as [|b k].
  - cbn. wp_step. apply Hnone. by rewrite E, app_nil_r.
  - apply Forall_app in Hf as [_ [Hb _]%Forall_cons]. destruct (bo_at _ _ Hb) as [Hpos _].
    apply chain_middle in Hc as (_ & Hh & _). cbn [first]. rewrite (proj2 (Z.eqb_neq (bat b) 0)) by lia.
    wp_step. eapply get_bool_wp; [apply (hd_free _ _ _ _ Hh)|]. wp_step.
    assert (Hnext : no_fit size b → wp (next ← get (block_next (bat b)); mret (inl next)) (λ r s', match r with
      | inl a' => ∃ n', n' < Z.of_nat (length (b :: k)) ∧ s' = s ∧ ∃ l k, bs = l ++ k ∧ a' = first k 0 ∧ n' = Z.of_nat (length k) ∧ Forall (no_fit size) l
      | inr x => Q x s' end) s).
    { intros Hnf. wp_step. eapply get_wp; [apply (hd_next _ _ _ _ Hh)|]. wp_step. exists (Z.of_nat (length k)). split; [cbn; lia|]. split; [done|].
      exists (l ++ [b]), k. split_and!; [by rewrite <-app_assoc|done|done|]. apply Forall_app; split; [done|by apply Forall_singleton]. }
    destruct (bfree b) eqn:Ef.
    + wp_step. eapply get_wp; [apply (hd_size _ _ _ _ Hh)|]. wp_step. destruct (size <=? blen b) eqn:Es.
      * wp_step. by apply (Hsome l b k); [..|apply Z.leb_le].
      * apply Hnext. intros _. by apply Z.leb_gt.
    + wp_step. apply Hnext. intros Ht. by rewrite Ef in Ht.
Qed.

Lemma tail_wp s W l b (Q : Z → heap P → Prop) : chain (hmem s) 0 (l ++ [b]) 0 → Forall (blk_ok W) (l ++ [b]) →
  Z.of_nat (length (l ++ [b])) < 4294967296 → Q (bat b) s → wp (tail_block (first (l ++ [b]) 0)) Q s.
Proof.
  intros Hc Hf Hlen HQ. unfold tail_block.
  apply (wp_while _ (λ n a s', s' = s ∧ ∃ i k, l ++ [b] = i ++ k ∧ k ≠ [] ∧ a = first k 0 ∧ n = Z.of_nat (length k)) _ (Z.of_nat (length (l ++ [b])))).
  { split; [done|]. exists [], (l ++ [b]). split_and!; try done. by destruct l. }
  intros n a s' (-> & i & k & E & Hk & -> & ->). rewrite E, length_app in Hlen. split; [lia|].
  destruct k as [|c k]; [done|]. clear Hk. pose proof Hc as Hc'. rewrite E in Hc', Hf. apply chain_middle in Hc' as (_ & Hh & _).
  cbn [first]. wp_step. eapply get_wp; [apply (hd_next _ _ _ _ Hh)|]. wp_step.
  apply Forall_app in Hf as [_ [_ Hk]%Forall_cons]. destruct k as [|d k].
  - cbn. apply app_inj_tail in E as [_ ->]. done.
  - apply Forall_cons in Hk as [[[Hd _] _ _] _]. cbn [first]. rewrite (proj2 (Z.eqb_neq (bat d) 0)) by lia.
    exists (Z.of_nat (length (d :: k))). split; [cbn; lia|]. split; [done|]. exists (i ++ [c]), (d :: k). by rewrite <-app_assoc.
Qed.

(** ** New regions *)

Definition region (p k : Z) : blk := Blk (p * 4096) (k * 4096 - 24) k true.

Lemma region_ok W p k : 0 < p → 0 < k → block p k ⊆ W → blk_ok W (region p k).
Proof.
  intros Hp Hk Hsub. split; unfold bend; cbn.
  - split; [lia|]. replace (p * 4096) with (p * 512 * 8) by lia. apply Z.mod_mul. lia.
  - split; [lia|]. replace (k * 4096 - 24) with ((k * 512 - 3) * 8) by lia. apply Z.mod_mul. lia.
  - intros a Ha. apply Hsub, elem_of_block. Z.to_euclidean_division_equations; lia.
Qed.

Lemma region_apart W b p k : blk_ok W b → 0 < k → block p k ## W → apart (region p k) b.
Proof.
  intros [Hb Hl Hp] Hk Hd. unfold apart, bend in *. cbn in *.
  destruct (decide (bat b + 24 + blen b ≤ p * 4096)) as [|H1]; [by right|].
  destruct (decide ((p + k) * 4096 ≤ bat b)) as [|H2]; [left; lia|]. exfalso.
  set (a := Z.max (bat b) (p * 4096)). apply (Hd (a / 4096)).
  - apply elem_of_block. unfold a in *. Z.to_euclidean_division_equations; lia.
  - apply Hp. unfold a. lia.
Qed.

(** The writes that make the header of a region. *)
Lemma region_header_wp s p k (c : M (heap P) unit) Q : 0 < k < 1048576 → mapped (hmem s) (p * 4096) 24 →
  (∀ m', header m' (region p k) 0 0 → changes (hmem s) m' (p * 4096) 24 → wp c Q (set_hmem m' s)) →
  wp (_ ← put (block_magic (p * 4096)) HEAP_MAGIC; _ ← put (block_size (p * 4096)) (k *% PMM_PAGE_SIZE -% sizeof_heap_block);
      _ ← put (block_page_count (p * 4096)) k; _ ← put_bool (block_free (p * 4096)) true;
      _ ← put (block_next (p * 4096)) 0; _ ← put (block_prev (p * 4096)) 0; c) Q s.
Proof.
  intros Hk Hm HQ. unfold PMM_PAGE_SIZE, sizeof_heap_block. u32_simp.
  wp_step. apply (put_in_wp _ (p * 4096)); [done|fields; lia|]. intros m1 E1 C1. wp_step.
  apply (put_in_wp _ (p * 4096)); [by eapply changes_mapped|fields; lia|]. intros m2 E2 C2. cbn [hmem set_hmem] in *. assert (C12 := changes_trans _ _ _ _ _ C1 C2). wp_step.
  apply (put_in_wp _ (p * 4096)); [by eapply changes_mapped|fields; lia|]. intros m3 E3 C3. cbn [hmem set_hmem] in *. assert (C13 := changes_trans _ _ _ _ _ C12 C3).
  wp_step. apply put_bool_wp; [eapply mapped_sub; [eapply changes_mapped; [exact C13|done]|fields; lia..]|]. intros m4 E4 C4. cbn [hmem set_hmem] in *.
  assert (C14 : changes (hmem s) m4 (p * 4096) 24) by (eapply changes_trans; [exact C13|eapply changes_sub; [exact C4|fields; lia]]). wp_step.
  apply (put_in_wp _ (p * 4096)); [by eapply changes_mapped|fields; lia|]. intros m5 E5 C5. cbn [hmem set_hmem] in *. assert (C15 := changes_trans _ _ _ _ _ C14 C5). wp_step.
  apply (put_in_wp _ (p * 4096)); [by eapply changes_mapped|fields; lia|]. intros m6 E6 C6. cbn [hmem set_hmem] in *. assert (C16 := changes_trans _ _ _ _ _ C15 C6).
  apply (HQ m6); [|exact C16]. clear -Hk E1 E2 E3 E4 E5 E6. unfold is_u32 in *. split; cbn [bat blen bpages bfree region]; after_stores; unfold is_u32, HEAP_MAGIC; try lia.
Qed.

(** Setting the back link of the block after the current one, when there is one. *)
Lemma back_link_wp s W l n p (Q : unit → heap P → Prop) : wf W l → chain (hmem s) n l 0 → is_u32 p →
  (∀ m', chain m' p l 0 → edits (hmem s) m' (touched l) → Q tt (set_hmem m' s)) →
  wp (when (negb (first l 0 =? 0)) (put (block_prev (first l 0)) p)) Q s.
Proof.
  intros [Hf Hs] Hc Hp HQ. destruct l as [|b l].
  - cbn. wp_step. rewrite <-(set_hmem_id s). apply HQ; [done|apply edits_refl].
  - apply Forall_cons in Hf as [Hb Hf]. destruct (bo_at _ _ Hb) as [Hpos _]. destruct Hc as [Hh Hc]. destruct Hs as [Hap Hs].
    cbn [first]. rewrite (proj2 (Z.eqb_neq (bat b) 0)) by lia. cbn [negb].
    eapply put_prev_wp; [exact Hh|done|]. intros m' C Hh'. destruct (bo_len _ _ Hb) as [Hl _]. apply HQ.
    + split; [done|]. eapply chain_frame; [exact C|reflexivity|unfold bend; lia|exact Hap|exact Hf|exact Hc].
    + eapply changes_edits; [exact C|]. intros c Hx. eapply touched_sub; [exact Hb|apply list_elem_of_here|done].
Qed.

Lemma block_from_pages_wp s U A W bs p k (Q : unit → heap P → Prop) : heap_ok s U A W bs → 0 < k → block p k ⊆ A ∖ W →
  (∀ s', heap_ok s' U A (W ∪ block p k) (bs ++ [region p k]) →
     evolves (λ c, touched bs c ∨ c / 4096 ∈ block p k) s s' → Q tt s') →
  wp (block_from_pages (p * 4096) k) Q s.
Proof.
  intros Hok Hk Hsub HQ. destruct (pages_bounds _ _ _ (ho_pages _ _ _ _ _ Hok)) as [HAU HU].
  assert (Hin : ∀ q, p ≤ q < p + k → q ∈ U) by (intros q Hq; apply HAU; apply elem_of_block, Hsub in Hq; set_solver + Hq).
  assert (Hp : 0 < p < 32768) by (apply HU, Hin; lia). assert (Hpk : p + k - 1 < 32768) by (apply HU, Hin; lia).
  assert (Hwf : wf (W ∪ block p k) (bs ++ [region p k])).
  { apply wf_middle. rewrite app_nil_r. destruct (ho_wf _ _ _ _ _ Hok) as [Hf Hs]. split; [apply region_ok; [lia|lia|set_solver +]|]. split.
    - eapply Forall_impl; [exact Hf|]. intros b Hb. apply (region_apart W); [done|lia|set_solver + Hsub].
    - split; [|done]. eapply Forall_impl; [exact Hf|]. intros b [? ? Hb]. split; [done|done|]. intros a Ha. apply Hb in Ha. set_solver + Ha. }
  unfold block_from_pages. apply region_header_wp; [lia| |].
  { eapply mapped_sub; [apply (ho_mapped _ _ _ _ _ Hok p), Hin; lia|lia|lia]. }
  intros m1 Hh1 C1. pose proof Hwf as [Hb [Hap Hwf0]]%wf_middle. rewrite app_nil_r in *.
  assert (Hc1 : chain m1 0 bs 0) by (eapply (chain_frame _ _ _ (region p k)); [exact C1|cbn; lia|unfold bend; cbn; lia|exact Hap|apply Hwf0|apply Hok]).
  assert (Ed1 : edits (hmem s) m1 (λ c, touched bs c ∨ c / 4096 ∈ block p k)).
  { eapply changes_edits; [exact C1|]. intros c Hc. right. apply elem_of_block. Z.to_euclidean_division_equations; lia. }
  assert (Hfin : ∀ m h, edits (hmem s) m (λ c, touched bs c ∨ c / 4096 ∈ block p k) → chain m 0 (bs ++ [region p k]) 0 → h = first (bs ++ [region p k]) 0 →
    Q tt (set_heap_total (heap_total s +% (k * 4096 - 24)) (set_heap_head h (set_hmem m s)))).
  { intros m h Ed Hc ->. apply HQ; [|by split]. eapply heap_ok_new; [exact Hok|exact Ed|done|pose proof (ho_owned _ _ _ _ _ Hok) as HWA; set_solver + HWA Hsub|exact Hwf|exact Hc|done| |].
    - cbn. rewrite (ho_total _ _ _ _ _ Hok), u32_add_l, sum_len_app. f_equal. cbn. lia.
    - cbn. rewrite (ho_used _ _ _ _ _ Hok), used_app. cbn. by rewrite app_nil_r. }
  wp_step. wp_step. cbn [heap_head set_hmem]. rewrite (ho_head _ _ _ _ _ Hok). wp_step.
  destruct bs as [|b bs _] using rev_ind.
  - cbn. wp_step. wp_step. eapply get_wp; [apply (hd_size _ _ _ _ Hh1)|]. unfold add_total. wp_step. by apply (Hfin m1 (p * 4096)).
  - rewrite (proj2 (Z.eqb_neq (first (bs ++ [b]) 0) 0)) by (rewrite first_zero by apply Hwf0; by destruct bs). wp_step.
    eapply tail_wp; [exact Hc1|apply Hwf0|by eapply heap_length|]. wp_step.
    apply wf_middle in Hwf0 as (Hbk & Hapb & Hwfl). rewrite app_nil_r in *. destruct (bo_len _ _ Hbk) as [Hlb _].
    apply Forall_app in Hap as [Hapl [Habr _]%Forall_cons]. apply chain_middle in Hc1 as (Hcl & Hhb & _). pose proof (blk_bounds_in _ _ _ _ _ b Hok) as Hbb.
    eapply put_next_wp; [exact Hhb|unfold is_u32; lia|]. intros m2 C2 Hhb2.
    assert (Hh2 : header m2 (region p k) 0 0) by (eapply (header_frame _ _ b); [exact C2|lia|unfold bend; lia|by apply apart_sym|exact Hb|exact Hh1]).
    apply (put_prev_wp _ (region p k) 0 0); [exact Hh2|destruct Hbb as (? & ? & ?); [set_solver +|unfold is_u32, bend in *; lia]|]. intros m3 C3 Hh3. cbn [hmem set_hmem] in *.
    wp_step. eapply get_wp; [apply (hd_size _ _ _ _ Hh3)|]. unfold add_total. wp_step.
    replace (set_hmem m3 _) with (set_heap_head (first (bs ++ [b]) 0) (set_hmem m3 s)) by (unfold set_heap_head, set_hmem; cbn; by rewrite <-(ho_head _ _ _ _ _ Hok)).
    apply Hfin; [| |by destruct bs].
    + eapply edits_trans; [exact Ed1|]. eapply edits_trans; [eapply changes_edits; [exact C2|]|eapply changes_edits; [exact C3|]].
      * intros c Hc. left. eapply touched_sub; [exact Hbk|set_solver +|exact Hc].
      * intros c Hc. right. cbn in Hc. apply elem_of_block. Z.to_euclidean_division_equations; lia.
    + apply chain_middle. rewrite last_at_snoc. split; [|done]. apply chain_middle. split_and!; [|eapply (header_frame _ _ (region p k)); [exact C3|cbn; lia|unfold bend; cbn; lia|done|exact Hbk|exact Hhb2]|done].
      eapply (chain_frame _ _ _ (region p k)); [exact C3|cbn; lia|unfold bend; cbn; lia|done|apply Hwfl|].
      eapply (chain_frame _ _ _ b); [exact C2|lia|unfold bend; lia|done|apply Hwfl|done].
Qed.

(** ** Splitting and joining *)

(** A free block [b] becomes [b'] of at least [size] bytes and a rest. *)
Definition split_into (size : Z) (b b' : blk) (r : list blk) : Prop :=
  (b' = b ∧ r = [] ∧ blen b < size + 56) ∨
  (b' = with_len size b ∧ size + 56 ≤ blen b ∧ ∃ g, r = [Blk (bat b + 24 + size) (blen b - size - 24) g true]).

Lemma split_wf W l b k size b' r : split_into size b b' r → 0 ≤ size → size mod 8 = 0 → wf W (l ++ b :: k) → wf W (l ++ b' :: r ++ k).
Proof.
  intros [(-> & -> & _)|(-> & Hl & g & ->)] H0' H8 Hwf; [done|]. apply wf_middle in Hwf as (Hb & Hap & Hwf). destruct Hb as [Ha Hlen Hp].
  unfold bend in Hp. apply wf_middle. split_and!.
  - split; [done|done|]. unfold bend. cbn. intros a Hr. apply Hp. lia.
  - rewrite !Forall_app, Forall_singleton. apply Forall_app in Hap as [H1 H2].
    split_and!; [|left; unfold bend; cbn; lia|]; (eapply apart_inside; [| |eassumption]); unfold bend; cbn; lia.
  - apply wf_middle. split_and!; [split; unfold bend; cbn| |done].
    + split; [lia|]. Z.to_euclidean_division_equations; lia.
    + split; [lia|]. Z.to_euclidean_division_equations; lia.
    + intros a Hr. apply Hp. lia.
    + eapply apart_inside; [| |exact Hap]; unfold bend; cbn; lia.
Qed.

Lemma split_touched size b b' r l k c : split_into size b b' r → 0 ≤ size → bfree b = true → touched (l ++ b' :: r ++ k) c → touched (l ++ b :: k) c.
Proof.
  intros [(-> & -> & _)|(-> & Hl & g & ->)] H0' Hf; [done|]. rewrite !touched_app, touched_cons, touched_app, !touched_cons. cbn.
  rewrite Hf. unfold bend. cbn. intros [?|[?|[[?|(? & ?%not_elem_of_nil & _)]|?]]]; [by left|right; left; lia|right; left; lia|done|by right; right].
Qed.

(** The writes that make the header of the rest. *)
Lemma rest_header_wp s b a g p n sz (c : M (heap P) unit) Q : header (hmem s) b p n → bat b + 24 ≤ a → mapped (hmem s) a 24 →
  load 4 (hmem s) (a + 8) = Some g → is_u32 n → is_u32 (bat b) → is_u32 (blen b -% sz -% 24) →
  (∀ m', header m' (Blk a (blen b -% sz -% 24) g true) (bat b) n → header m' b p n → changes (hmem s) m' a 24 → wp c Q (set_hmem m' s)) →
  wp (_ ← put (block_magic a) HEAP_MAGIC;
      bsize ← get (block_size (bat b)); _ ← put (block_size a) (bsize -% sz -% sizeof_heap_block);
      _ ← put_bool (block_free a) true;
      bnext ← get (block_next (bat b)); _ ← put (block_next a) bnext;
      _ ← put (block_prev a) (bat b); c) Q s.
Proof.
  intros Hh Ha Hm Hg Hn Hb Hsz HQ. unfold sizeof_heap_block.
  assert (Keep : ∀ m', changes (hmem s) m' a 24 → header m' b p n).
  { intros m' [Cs _ _]. eapply header_same; [|exact Hh]. intros x Hx. apply Cs. lia. }
  wp_step. apply (put_in_wp _ a); [done|fields; lia|]. intros m1 E1 C1. wp_step. eapply get_wp; [apply (hd_size _ _ _ _ (Keep _ C1))|]. wp_step.
  apply (put_in_wp _ a); [by eapply changes_mapped|fields; lia|]. intros m2 E2 C2. cbn [hmem set_hmem] in *. assert (C12 := changes_trans _ _ _ _ _ C1 C2).
  wp_step. apply put_bool_wp; [eapply mapped_sub; [eapply changes_mapped; [exact C12|done]|fields; lia..]|]. intros m3 E3 C3. cbn [hmem set_hmem] in *.
  assert (C13 : changes (hmem s) m3 a 24) by (eapply changes_trans; [exact C12|eapply changes_sub; [exact C3|fields; lia]]).
  wp_step. eapply get_wp; [apply (hd_next _ _ _ _ (Keep _ C13))|]. wp_step.
  apply (put_in_wp _ a); [by eapply changes_mapped|fields; lia|]. intros m4 E4 C4. cbn [hmem set_hmem] in *. assert (C14 := changes_trans _ _ _ _ _ C13 C4). wp_step.
  apply (put_in_wp _ a); [by eapply changes_mapped|fields; lia|]. intros m5 E5 C5. cbn [hmem set_hmem] in *. assert (C15 := changes_trans _ _ _ _ _ C14 C5).
  apply (HQ m5); [|by apply Keep|exact C15]. clear Keep HQ. split; cbn [bat blen bpages bfree]; after_stores; done.
Qed.

Lemma split_wp s U A W l b k size (Q : unit → heap P → Prop) : heap_ok s U A W (l ++ b :: k) → bfree b = true → size mod 8 = 0 → 0 ≤ size ≤ blen b →
  (∀ s' b' r, split_into size b b' r → heap_ok s' U A W (l ++ b' :: r ++ k) → evolves (touched (l ++ b :: k)) s s' → Q tt s') →
  wp (split_block (bat b) size) Q s.
Proof.
  intros Hok Hf H8 Hsz HQ. pose proof (ho_wf _ _ _ _ _ Hok) as Hwf. pose proof Hwf as (Hb & Hap & Hlk)%wf_middle.
  pose proof (blk_bounds _ _ _ _ _ _ Hok Hb) as (Hb1 & Hb2 & Hb3). unfold bend in Hb2.
  pose proof (ho_chain _ _ _ _ _ Hok) as (Hcl & Hh & Hck)%chain_middle.
  unfold split_block. wp_step. eapply get_wp; [apply (hd_size _ _ _ _ Hh)|]. unfold HEAP_MIN_SPLIT, sizeof_heap_block at 1. u32_simp. wp_step.
  { bool_to_prop. wp_step. eapply (HQ s b []); [left; split_and!; [done|done|lia]|exact Hok|apply evolves_refl]. }
  bool_to_prop. change (bat b + sizeof_heap_block + size) with (bat b + 24 + size). remember (bat b + 24 + size) as a eqn:Ha.
  assert (Hmp : mapped (hmem s) a 24) by (apply (heap_mapped _ _ _ _ _ _ _ Hok); intros c Hc; apply (bo_pages _ _ Hb); unfold bend; lia).
  destruct (load_is_Some 4 (hmem s) (a + 8)) as [g Hg]; [eapply mapped_sub; [exact Hmp|lia|lia]|].
  assert (Hsp : split_into size b (with_len size b) [Blk a (blen b - size - 24) g true]) by (right; split_and!; [done|lia|exists g; by rewrite Ha]).
  pose proof (split_wf W l b k size _ _ Hsp ltac:(lia) H8 Hwf) as Hwf'. pose proof Hwf' as (Hb' & Hap' & Hlxk)%wf_middle. pose proof Hlxk as (Hx & Hapx & _)%wf_middle.
  apply wf_app in Hlk as [Hwl Hwk]. apply Forall_app in Hap as [Hapl Hapk]. apply Forall_app in Hapx as [Hapxl Hapxk].
  pose proof (first_is_u32 _ _ _ _ _ _ Hok (proj1 Hwk)) as Hn.
  apply (rest_header_wp s b a g (last_at l 0) (first k 0)); try done; [lia|unfold is_u32; lia|apply u32_range|]. u32_simp.
  intros m5 Hhx Hhb C5. wp_step. eapply get_wp; [apply (hd_next _ _ _ _ Hhx)|]. wp_step.
  apply (back_link_wp _ W k (bat b)); [done| |unfold is_u32; lia|].
  { eapply (chain_frame _ _ _ b); [exact C5|lia|unfold bend; lia|exact Hapk|apply Hwk|exact Hck]. }
  intros m6 Hck6 Ed6. cbn [hmem set_hmem] in *.
  assert (Hcl6 : chain m6 0 l (bat b)).
  { eapply (chain_edits W _ _ k); [exact Ed6|by apply wf_middle in Hwf as (_ & _ & ?)|].
    eapply (chain_frame _ _ _ b); [exact C5|lia|unfold bend; lia|exact Hapl|apply Hwl|exact Hcl]. }
  assert (Hhx6 := header_edits W _ _ k _ _ _ Ed6 (proj1 Hwk) Hapxk ltac:(cbn; lia) Hhx).
  assert (Hhb6 := header_edits W _ _ k _ _ _ Ed6 (proj1 Hwk) Hapk ltac:(cbn; lia) Hhb).
  wp_step. eapply put_next_wp; [exact Hhb6|unfold is_u32; lia|]. intros m7 C7 Hhb7. wp_step.
  eapply put_size_wp; [exact Hhb7|unfold is_u32; lia|]. intros m8 C8 Hhb8. cbn [hmem set_hmem] in *. assert (C78 := changes_trans _ _ _ _ _ C7 C8).
  unfold sub_total, sizeof_heap_block. wp_step.
  assert (Ed : edits (hmem s) m8 (touched (l ++ b :: k))).
  { eapply edits_trans; [eapply changes_edits; [exact C5|]|eapply edits_trans; [eapply edits_mono; [|exact Ed6]|eapply changes_edits; [exact C78|]]].
    - intros c Hc. rewrite touched_app, touched_cons, Hf. unfold bend. right; left. lia.
    - intros c Hc. rewrite touched_app, touched_cons. tauto.
    - intros c Hc. rewrite touched_app, touched_cons, Hf. unfold bend. right; left. lia. }
  eapply (HQ _ _ _ Hsp); [|by split]. eapply heap_ok_new; [exact Hok|exact Ed|done|apply Hok|exact Hwf'| | | |].
  - apply chain_middle. apply Forall_app in Hap' as [Hap1 Hap2]. cbn [hmem set_hmem set_heap_total app first bat with_len]. split_and!; [|exact Hhb8|].
    + eapply (chain_frame _ _ _ (with_len size b)); [exact C78|cbn; lia|unfold bend; cbn; lia|exact Hap1|apply Hwl|exact Hcl6].
    + apply Forall_app in Hap2 as [[Hapbx _]%Forall_cons Hapbk]. split.
      * eapply (header_frame _ _ (with_len size b)); [exact C78|cbn; lia|unfold bend; cbn; lia|exact Hapbx|exact Hx|exact Hhx6].
      * eapply (chain_frame _ _ _ (with_len size b)); [exact C78|cbn; lia|unfold bend; cbn; lia|exact Hapbk|apply Hwk|exact Hck6].
  - cbn. rewrite (ho_head _ _ _ _ _ Hok). by destruct l.
  - cbn. rewrite (ho_total _ _ _ _ _ Hok), u32_sub_l, !sum_len_app. f_equal. cbn. lia.
  - cbn. rewrite (ho_used _ _ _ _ _ Hok), !used_app, !used_cons. cbn. by rewrite Hf.
Qed.

(** A free block takes in the block that follows it in the list, when that one is
    free and begins where it ends. *)
Definition joins (b : blk) (k : list blk) (b' : blk) (k' : list blk) : Prop :=
  (b' = b ∧ k' = k) ∨
  ∃ x, k = x :: k' ∧ bfree x = true ∧ bend b = bat x ∧ b' = with_len (blen b + 24 + blen x) b.

Lemma joins_wf W l b k b' k' : joins b k b' k' → wf W (l ++ b :: k) → wf W (l ++ b' :: k').
Proof.
  intros [[-> ->]|(x & -> & _ & E & ->)]; [done|]. rewrite !wf_middle. intros (Hb & Hap & (Hx & Hapx & Hwf)). split_and!; [| |done].
  - destruct Hb as [Ha Hl Hp]. destruct Hx as [Hxa Hxl Hxp]. unfold bend in *. split; unfold bend; cbn; [done| |].
    + split; [lia|]. Z.to_euclidean_division_equations; lia.
    + intros a Hr. destruct (decide (a < bat x)); [apply Hp; lia|apply Hxp; lia].
  - destruct Hb as [_ [Hl _] _]. destruct Hx as [_ [Hxl _] _].
    rewrite !Forall_app, Forall_cons in Hap. rewrite Forall_app in Hapx |- *. destruct Hap as (H1 & _ & H2), Hapx as [H3 H4].
    destruct Hwf as [[Fl Fk]%Forall_app _]. rewrite Forall_forall in H1, H2, H3, H4, Fl, Fk. split; apply Forall_forall; intros y Hy;
      [specialize (H1 y Hy); specialize (H3 y Hy); destruct (Fl y Hy) as [_ [Hly _] _]|specialize (H2 y Hy); specialize (H4 y Hy); destruct (Fk y Hy) as [_ [Hly _] _]];
      unfold apart, bend in *; cbn; lia.
Qed.

Lemma joins_touched l b k b' k' c : joins b k b' k' → bfree b = true → touched (l ++ b' :: k') c → touched (l ++ b :: k) c.
Proof.
  intros [[-> ->]|(x & -> & Hx & E & ->)] Hf; [done|]. rewrite !touched_app, !touched_cons. cbn. rewrite Hf, Hx. unfold bend in *. cbn.
  intros [?|[?|?]]; [by left| |by right; right; right]. right. destruct (decide (c < bat x)); [left; lia|right; left; lia].
Qed.

Lemma coalesce_wp s U A W l b k (Q : unit → heap P → Prop) : heap_ok s U A W (l ++ b :: k) → bfree b = true →
  (∀ s' b' k', joins b k b' k' → heap_ok s' U A W (l ++ b' :: k') → evolves (touched (l ++ b :: k)) s s' → Q tt s') →
  wp (coalesce_next (bat b)) Q s.
Proof.
  intros Hok Hf HQ. pose proof (ho_wf _ _ _ _ _ Hok) as Hwf. pose proof Hwf as (Hb & Hap & Hlk)%wf_middle.
  pose proof (blk_bounds _ _ _ _ _ _ Hok Hb) as (Hb1 & Hb2 & Hb3).
  pose proof (ho_chain _ _ _ _ _ Hok) as (Hcl & Hh & Hck)%chain_middle.
  assert (Hstay : Q tt s) by (eapply (HQ s b k); [by left|exact Hok|apply evolves_refl]).
  unfold coalesce_next. wp_step. eapply get_wp; [apply (hd_next _ _ _ _ Hh)|]. destruct k as [|x k]; [cbn [first Z.eqb]; do 2 wp_step; cbn [negb]; by wp_step|].
  pose proof Hlk as (Hx & Hapx & Hlk')%wf_middle. pose proof (blk_bounds _ _ _ _ _ _ Hok Hx) as (Hx1 & Hx2 & Hx3). destruct Hck as [Hhx Hck].
  cbn [first]. rewrite (proj2 (Z.eqb_neq (bat x) 0)) by lia. wp_step. eapply get_bool_wp; [apply (hd_free _ _ _ _ Hhx)|].
  destruct (bfree x) eqn:Hfx; cbn [negb]; [|by wp_step]. wp_step. eapply get_wp; [apply (hd_size _ _ _ _ Hh)|]. unfold sizeof_heap_block at 1.
  destruct (bat b + 24 + blen b =? bat x) eqn:E; cbn [negb]; [|by wp_step]. apply Z.eqb_eq in E.
  assert (Hj : joins b (x :: k) (with_len (blen b + 24 + blen x) b) k) by (right; exists x; split_and!; [done|done|by unfold bend|done]).
  pose proof (joins_wf W l _ _ _ _ Hj Hwf) as Hwf'. pose proof Hwf' as (Hb' & Hap' & _)%wf_middle.
  apply wf_app in Hlk' as [Hwl Hwk]. apply Forall_app in Hap' as [Hap1 Hap2]. apply Forall_app in Hap as [Hapl [Hapbx Hapk]%Forall_cons].
  wp_step. eapply get_wp; [apply (hd_size _ _ _ _ Hhx)|]. unfold sizeof_heap_block, bend in *. u32_simp. wp_step.
  eapply put_size_wp; [exact Hh|unfold is_u32; lia|]. replace (blen b + (24 + blen x)) with (blen b + 24 + blen x) by lia. intros m1 C1 Hh1. wp_step.
  eapply get_wp; [apply hd_next with (b := x) (p := bat b); eapply (header_frame _ _ b); [exact C1|lia|unfold bend; lia|exact Hapbx|exact Hx|exact Hhx]|]. wp_step.
  apply (put_next_wp _ (with_len (blen b + 24 + blen x) b) (last_at l 0) (bat x)); [exact Hh1|by apply (first_is_u32 _ _ _ _ _ _ Hok), Hwk|]. intros m2 C2 Hh2. wp_step.
  eapply (get_wp _ (block_next (bat b))); [apply (hd_next _ _ _ _ Hh2)|]. wp_step. cbn [hmem set_hmem] in *. assert (C12 := changes_trans _ _ _ _ _ C1 C2).
  apply (back_link_wp _ W k (bat x)); [done| |unfold is_u32; lia|].
  { eapply (chain_frame _ _ _ b); [exact C12|lia|unfold bend; lia|exact Hapk|apply Hwk|exact Hck]. }
  intros m3 Hck3 Ed3. cbn [hmem set_hmem] in *. unfold add_total. wp_step.
  assert (Ed : edits (hmem s) m3 (touched (l ++ b :: x :: k))).
  { eapply edits_trans; [eapply changes_edits; [exact C12|]|eapply edits_mono; [|exact Ed3]]; intros c Hc; rewrite touched_app, !touched_cons; [|tauto].
    rewrite Hf. unfold bend. right; left. lia. }
  eapply (HQ _ _ _ Hj); [|by split]. eapply heap_ok_new; [exact Hok|exact Ed|done|apply Hok|exact Hwf'| | | |].
  - apply chain_middle. cbn [hmem set_hmem set_heap_total bat with_len]. split_and!; [| |exact Hck3].
    + eapply (chain_edits W _ _ k); [exact Ed3|by apply wf_middle in Hlk as (_ & _ & ?)|].
      eapply (chain_frame _ _ _ b); [exact C12|lia|unfold bend; lia|exact Hapl|apply Hwl|exact Hcl].
    + eapply (header_edits W _ _ k); [exact Ed3|apply Hwk|exact Hap2|cbn; lia|exact Hh2].
  - cbn. rewrite (ho_head _ _ _ _ _ Hok). by destruct l.
  - cbn. rewrite (ho_total _ _ _ _ _ Hok), u32_add_l, !sum_len_app. f_equal. cbn. lia.
  - cbn. rewrite (ho_used _ _ _ _ _ Hok), !used_app, !used_cons. cbn. by rewrite Hf, Hfx.
Qed.

(** ** Giving regions back *)

Lemma unlink_wp s U A W l b k (Q : unit → heap P → Prop) : heap_ok s U A W (l ++ b :: k) →
  (∀ m', chain m' 0 (l ++ k) 0 → header m' b (last_at l 0) (first k 0) → edits (hmem s) m' (touched (l ++ k)) →
     Q tt (set_heap_head (first (l ++ k) 0) (set_hmem m' s))) →
  wp (unlink_block (bat b)) Q s.
Proof.
  intros Hok HQ. pose proof (ho_wf _ _ _ _ _ Hok) as (Hb & Hap & Hlk)%wf_middle. pose proof Hlk as [Hwl Hwk]%wf_app.
  pose proof (blk_bounds _ _ _ _ _ _ Hok Hb) as (Hb1 & Hb2 & Hb3). pose proof (ho_chain _ _ _ _ _ Hok) as (Hcl & Hh & Hck)%chain_middle.
  apply Forall_app in Hap as [Hapl Hapk]. pose proof (first_is_u32 _ _ _ _ _ _ Hok (proj1 Hwk)) as Hn.
  assert (Hback : ∀ m1, chain m1 0 l (first k 0) → header m1 b (last_at l 0) (first k 0) → chain m1 (bat b) k 0 → edits (hmem s) m1 (touched (l ++ k)) →
    is_u32 (last_at l 0) →
    wp (next ← get (block_next (bat b)); if negb (next =? 0) then prev ← get (block_prev (bat b)); put (block_prev next) prev else mret tt) Q
       (set_heap_head (first (l ++ k) 0) (set_hmem m1 s))).
  { intros m1 Hcl1 Hh1 Hck1 Ed1 Hp. wp_step. eapply get_wp; [apply (hd_next _ _ _ _ Hh1)|].
    pose proof (back_link_wp (set_heap_head (first (l ++ k) 0) (set_hmem m1 s)) W k (bat b) (last_at l 0) Q Hwk Hck1 Hp) as Hbl.
    assert (HQ' : ∀ m', chain m' (last_at l 0) k 0 → edits m1 m' (touched k) → Q tt (set_hmem m' (set_heap_head (first (l ++ k) 0) (set_hmem m1 s)))).
    { intros m' Hck' Ed'. apply (HQ m').
      - apply chain_app. split; [|done]. eapply chain_edits; [exact Ed'|exact Hlk|exact Hcl1].
      - eapply (header_edits W _ _ k); [exact Ed'|apply Hwk|done|done|exact Hh1].
      - eapply edits_trans; [exact Ed1|]. eapply edits_mono; [|exact Ed']. intros c Hc. rewrite touched_app. by right. }
    specialize (Hbl HQ'). destruct (negb (first k 0 =? 0)); [|exact Hbl].
    wp_step. eapply get_wp; [apply (hd_prev _ _ _ _ Hh1)|]. exact Hbl. }
  unfold unlink_block. wp_step. eapply get_wp; [apply (hd_prev _ _ _ _ Hh)|]. wp_step. eapply get_wp; [apply (hd_next _ _ _ _ Hh)|]. wp_step.
  destruct l as [|a l _] using rev_ind.
  - cbn. wp_step. rewrite <-(set_hmem_id s) at 1. apply Hback; [done|exact Hh|exact Hck|apply edits_refl|done].
  - rewrite last_at_snoc in *. pose proof Hwl as (Ha & Hapa & Hwl')%wf_middle. pose proof (blk_bounds _ _ _ _ _ _ Hok Ha) as (Ha1 & Ha2 & Ha3).
    rewrite app_nil_r in *. apply Forall_app in Hapl as [Hapl [Hapba _]%Forall_cons]. apply chain_middle in Hcl as (Hcl & Hha & _).
    rewrite (proj2 (Z.eqb_neq (bat a) 0)) by lia. cbn [negb]. eapply put_next_wp; [exact Hha|exact Hn|]. intros m1 C1 Hha1.
    replace (set_hmem m1 s) with (set_heap_head (first ((l ++ [a]) ++ k) 0) (set_hmem m1 s))
      by (unfold set_heap_head, set_hmem; cbn; rewrite (ho_head _ _ _ _ _ Hok); by destruct l).
    apply Hback.
    + apply chain_middle. split_and!; [|exact Hha1|done]. eapply (chain_frame _ _ _ a); [exact C1|lia|unfold bend; lia|done|apply Hwl'|exact Hcl].
    + eapply (header_frame _ _ a); [exact C1|lia|unfold bend; lia|by apply apart_sym|exact Hb|exact Hh].
    + eapply (chain_frame _ _ _ a); [exact C1|lia|unfold bend; lia| |apply Hwk|exact Hck].
      rewrite <-app_assoc in Hlk. apply wf_middle in Hlk as (_ & [_ ?]%Forall_app & _). done.
    + eapply changes_edits; [exact C1|]. intros c Hc. eapply touched_sub; [exact Ha|set_solver +|done].
    + unfold is_u32, bend in *. lia.
Qed.

(** A block that is a run of whole pages is apart from the pages of the others. *)
Lemma whole_pages W b p n y : bat b = p * 4096 → bend b = (p + n) * 4096 → apart b y → blk_ok W y → blk_ok (W ∖ block p n) y.
Proof.
  intros Ea Ee Hap [Hya Hyl Hyp]. split; [done|done|]. intros a Hr. apply elem_of_difference. split; [by apply Hyp|].
  rewrite elem_of_block. unfold apart, bend in *. Z.to_euclidean_division_equations; lia.
Qed.

Lemma release_wp s U A W l b k (Q : unit → heap P → Prop) : heap_ok s U A W (l ++ b :: k) → bpages b < 1048576 →
  Q tt s →
  (∀ s' X, X ⊆ W → bfree b = true → heap_ok s' U (A ∖ X) (W ∖ X) (l ++ k) → evolves (touched (l ++ b :: k)) s s' → Q tt s') →
  wp (release_whole_region_if_possible (bat b)) Q s.
Proof.
  intros Hok Hcnt Hstay HQ. pose proof (ho_wf _ _ _ _ _ Hok) as (Hb & Hap & Hlk)%wf_middle.
  pose proof (ho_chain _ _ _ _ _ Hok) as (_ & Hh & _)%chain_middle. pose proof (load_range 4 _ _ _ (ho_bytes _ _ _ _ _ Hok) (hd_pages _ _ _ _ Hh)) as [Hp0 _].
  unfold release_whole_region_if_possible. wp_step. eapply get_bool_wp; [apply (hd_free _ _ _ _ Hh)|]. wp_step.
  eapply get_wp; [apply (hd_pages _ _ _ _ Hh)|]. destruct (bfree b) eqn:Hf; cbn [negb orb]; [|by wp_step].
  destruct (bpages b =? 0) eqn:E0; [by wp_step|]. apply Z.eqb_neq in E0. wp_step. eapply get_wp; [apply (hd_size _ _ _ _ Hh)|].
  unfold PMM_PAGE_SIZE, sizeof_heap_block. u32_simp. destruct (blen b =? bpages b * 4096 - 24) eqn:E; cbn [negb]; [|by wp_step]. apply Z.eqb_eq in E.
  wp_step. apply (unlink_wp _ _ _ _ _ _ _ _ Hok). intros m' Hc' Hh' Ed. wp_step. eapply (get_wp _ (block_size (bat b))); [apply (hd_size _ _ _ _ Hh')|].
  wp_step. unfold sub_total. wp_step. wp_step. eapply (get_wp _ (block_page_count (bat b))); [apply (hd_pages _ _ _ _ Hh')|].
  unfold heap_free_pages_block. wp_step. cbn [hpager set_heap_total set_heap_head set_hmem].
  assert (Hfin : ∀ pg X, X ⊆ W → pages_rep pg U (A ∖ X) → wf (W ∖ X) (l ++ k) →
    Q tt (set_hpager pg (set_heap_total (heap_total s -% blen b) (set_heap_head (first (l ++ k) 0) (set_hmem m' s))))).
  { intros pg X HX Hpg Hwf. apply (HQ _ X HX eq_refl).
    - split; cbn; [exact Hpg|pose proof (ho_owned _ _ _ _ _ Hok) as HWA; set_solver + HWA| |by apply (ed_bytes _ _ _ Ed), Hok|exact Hwf|exact Hc'|done| |].
      + intros q Hq c Hc. apply (ed_mapped _ _ _ Ed). by apply (ho_mapped _ _ _ _ _ Hok q).
      + rewrite (ho_total _ _ _ _ _ Hok), u32_sub_l, !sum_len_app. f_equal. cbn. lia.
      + by rewrite (ho_used _ _ _ _ _ Hok), !used_app, used_cons, Hf.
    - split; cbn; [|done|done]. eapply edits_mono; [|exact Ed]. intros c. rewrite !touched_app, touched_cons. tauto. }
  destruct (decide (bat b mod 4096 = 0)) as [Hal|Hal].
  - set (p := bat b / 4096). assert (Ep : bat b = p * 4096) by (unfold p; Z.to_euclidean_division_equations; lia).
    assert (HX : block p (bpages b) ⊆ W).
    { intros q Hq%elem_of_block. replace q with (q * 4096 / 4096) by (by rewrite Z.div_mul). apply (bo_pages _ _ Hb). unfold bend. lia. }
    destruct (pages_bounds _ _ _ (ho_pages _ _ _ _ _ Hok)) as [HAU _]. pose proof (ho_owned _ _ _ _ _ Hok) as HWA.
    rewrite Ep. eapply wp_mono; [apply (free_law _ U A); [apply Hok|lia|set_solver + HX HWA HAU]|]. intros [] pg Hpg. apply (Hfin _ _ HX Hpg).
    destruct Hlk as [Hfl Hs]. split; [|done]. rewrite Forall_forall in Hfl, Hap |- *. intros y Hy.
    apply (whole_pages _ b); [done|unfold bend; lia|by apply Hap|by apply Hfl].
  - eapply wp_mono; [apply (free_ignores _ U A); [apply Hok|done]|]. intros [] pg ->. apply (Hfin _ ∅); [set_solver +| |].
    + rewrite difference_empty_L. apply Hok.
    + by rewrite difference_empty_L.
Qed.

(** Marking a block. *)
Lemma mark_wp s U A W l b k v (Q : unit → heap P → Prop) : heap_ok s U A W (l ++ b :: k) →
  (∀ m', chain m' 0 (l ++ with_free v b :: k) 0 → edits (hmem s) m' (touched (l ++ with_free v b :: k)) →
     load 4 m' (block_size (bat b)) = Some (blen b) → Q tt (set_hmem m' s)) →
  wp (put_bool (block_free (bat b)) v) Q s.
Proof.
  intros Hok HQ. pose proof (ho_wf _ _ _ _ _ Hok) as (Hb & Hap & Hlk)%wf_middle. destruct (bo_len _ _ Hb) as [Hl _].
  pose proof (ho_chain _ _ _ _ _ Hok) as (Hcl & Hh & Hck)%chain_middle. apply wf_app in Hlk as [Hwl Hwk]. apply Forall_app in Hap as [Hapl Hapk].
  eapply put_free_wp; [exact Hh|]. intros m' C Hh'. apply HQ.
  - apply chain_middle. split_and!; [| exact Hh' |]; eapply (chain_frame _ _ _ b); try exact C; try done; try apply Hwl; try apply Hwk; unfold bend; lia.
  - eapply changes_edits; [exact C|]. intros c Hc. rewrite touched_app, touched_cons. right; left. unfold bend. destruct v; cbn; lia.
  - apply (hd_size _ _ _ _ Hh').
Qed.

Lemma mark_wf W l b k v : wf W (l ++ b :: k) ↔ wf W (l ++ with_free v b :: k).
Proof. rewrite !wf_middle. split; intros ([? ? ?] & ? & ?); split_and!; done. Qed.
End ops.
