(* ===== verification/HeapProps.v ===== *)
(** * The properties of heap.c

    What kmalloc, kmalloc_aligned and kfree promise to their callers: allocated
    blocks do not overlap and keep their contents, the counters are exact, and
    wrong calls of kfree are counted and change nothing else. *)

From Stdlib Require Import ZArith Lia Bool.
From stdpp Require Import base numbers list gmap sets.
From S2P Require Import Prelude Memory Bitmap Pmm Heap HeapInv HeapOps.

(** The bytes that belong to others: allocated pages outside the heap, and the
    contents of the blocks in use. *)
Definition kept (A W : gset Z) (bs : list blk) (c : Z) : Prop :=
  c / 4096 ∈ A ∖ W ∨ ∃ b, b ∈ used bs ∧ bat b + 24 ≤ c < bend b.

Section properties.
Context {P : Type} `{PageAllocatorLaws P}.
Implicit Types s : heap P.

Lemma elem_of_used b bs : b ∈ used bs ↔ b ∈ bs ∧ bfree b = false.
Proof. unfold used. rewrite list_elem_of_filter. tauto. Qed.

Lemma wf_pair W bs b c : wf W bs → b ∈ bs → c ∈ bs → b = c ∨ apart b c.
Proof.
  intros [_ Hs] Hb Hc. apply list_elem_of_split in Hb as (l & k & ->). apply separate_middle in Hs as [Hap _].
  rewrite Forall_forall in Hap. rewrite elem_of_app, elem_of_cons in Hc. destruct Hc as [Hc|[->|Hc]]; [right|by left|right]; apply Hap; set_solver.
Qed.

Lemma kept_not_touched A W bs c : wf W bs → kept A W bs c → ¬ touched bs c.
Proof.
  intros Hwf Hk (y & Hy & Hr). assert (Hok : Forall (blk_ok W) bs) by apply Hwf. rewrite Forall_forall in Hok. destruct (Hok y Hy) as [_ [Hly _] Hp].
  assert (Hry : bat y ≤ c < bend y) by (destruct (bfree y); unfold bend in *; lia).
  destruct Hk as [Hk|(b & [Hb Hf]%elem_of_used & Hc)]; [apply Hp in Hry; set_solver|].
  destruct (wf_pair W bs b y Hwf Hb Hy) as [<-|Hap]; [rewrite Hf in Hr; lia|]. destruct (Hok b Hb) as [_ [Hlb _] _]. unfold apart, bend in *. lia.
Qed.

(** ** kmalloc *)

Lemma align_up_8 n : 0 ≤ n ≤ 0xFFFFFFF0 → align_up_size n 8 = (n + 7) / 8 * 8.
Proof.
  intros Hn. unfold align_up_size. u32_simp. replace (n + 8 - 1) with (n + 7) by lia.
  change (8 - 1) with (2 ^ 3 - 1). rewrite land_not_ones by (unfold is_u32; lia). done.
Qed.

(** kmalloc has found the free block at [a], in pages [X] taken for it if need be. *)
Definition found s s' (U A W : gset Z) (bs : list blk) (size a : Z) : Prop :=
  ∃ X l b k, a = bat b ∧ bfree b = true ∧ size ≤ blen b ∧ X ## A ∧ heap_ok s' U (A ∪ X) (W ∪ X) (l ++ b :: k) ∧
    used (l ++ b :: k) = used bs ∧ evolves (λ c, touched bs c ∨ c / 4096 ∈ X) s s' ∧
    (∀ c, touched (l ++ b :: k) c → touched bs c ∨ c / 4096 ∈ X).

Definition pages_for (size : Z) : Z := (size + 24 + 4095) / 4096.

Lemma heap_alloc_pages_wp s U A W bs n (Q : Z → heap P → Prop) : heap_ok s U A W bs → is_u32 n →
  ((n = 0 ∨ ∀ p, ¬ block p n ⊆ U ∖ A) → Q 0 s) →
  (∀ p s', 0 < p → 0 < n → block p n ⊆ U ∖ A → heap_ok s' U (A ∪ block p n) W bs → hmem s' = hmem s → evolves (λ _, False) s s' → Q (p * 4096) s') →
  wp (heap_alloc_pages n) Q s.
Proof.
  intros Hok Hn H0' HQ. unfold heap_alloc_pages. wp_step. eapply wp_mono; [apply (alloc_law _ U A); [apply Hok|done]|].
  destruct (pages_bounds _ _ _ (ho_pages _ _ _ _ _ Hok)) as [HAU HU].
  intros r pg [(-> & -> & Hno)|(p & -> & Hpos & Hsub & _ & Hpg)].
  - replace (set_hpager (hpager s) s) with s by (by destruct s). by apply H0'.
  - assert (Hp : p ∈ U) by (assert (p ∈ U ∖ A) by (apply Hsub, elem_of_block; lia); set_solver).
    apply HU in Hp. apply HQ; [lia|done|done| |done|split; [apply edits_refl|done|done]].
    destruct Hok as [H1 H2 H3 H4 H5 H6 H7 H8 H9]. split; try done. set_solver + H2.
Qed.

Lemma found_here s U A W bs size l b k : heap_ok s U A W bs → bs = l ++ b :: k → bfree b = true → size ≤ blen b → found s s U A W bs size (bat b).
Proof.
  intros Hok E Hf Hl. exists ∅, l, b, k. rewrite !union_empty_r_L, <-E. split_and!; [done|done|done|set_solver +|done|done|apply evolves_refl|by left].
Qed.

(** One more region is enough: the search after it succeeds. *)
Lemma heap_grow_wp {B} s s1 U A W bs size p (c : Z → M (heap P) B) Q : 0 ≤ size → size + 24 + 4095 < 4294967296 → Forall (no_fit size) bs →
  block p (pages_for size) ⊆ U ∖ A → 0 < p → heap_ok s1 U (A ∪ block p (pages_for size)) W bs → heap_ok s U A W bs → evolves (λ _, False) s s1 →
  (∀ a s', found s s' U A W bs size a → a ≠ 0 → wp (c a) Q s') →
  wp (_ ← block_from_pages (p * 4096) (pages_for size); a ← find_free_block size; c a) Q s1.
Proof.
  intros Hsz Hsz2 Hnf Hsub Hp Hok1 Hok Ev1 HQ. assert (Hn : 0 < pages_for size ∧ size + 24 ≤ pages_for size * 4096) by (unfold pages_for; Z.to_euclidean_division_equations; lia).
  set (n := pages_for size) in *. wp_step. pose proof (ho_owned _ _ _ _ _ Hok) as HWA.
  apply (block_from_pages_wp s1 U (A ∪ block p n) W bs); [exact Hok1|lia|set_solver + Hsub HWA|]. intros s2 Hok2 Ev2. wp_step.
  apply (find_free_wp _ _ _ _ _ _ _ Hok2).
  { rewrite Forall_app, Forall_singleton. intros [_ Hr]. specialize (Hr eq_refl). cbn in Hr. lia. }
  intros l b k E Hf Hl. apply HQ.
  - exists (block p n), l, b, k. rewrite <-E. split_and!; try done.
    + set_solver + Hsub.
    + rewrite used_app. cbn. by rewrite app_nil_r.
    + eapply evolves_trans; [eapply evolves_mono; [|exact Ev1]; done|exact Ev2].
    + intros y. rewrite touched_app, touched_cons. intros [?|[Hy|(? & ?%not_elem_of_nil & _)]]; [by left| |done]. right. apply elem_of_block.
      unfold bend in Hy. cbn in Hy. Z.to_euclidean_division_equations; lia.
  - pose proof (blk_bounds_in _ _ _ _ _ b Hok2) as Hb. rewrite E in Hb. destruct Hb as (? & _); [set_solver +|lia].
Qed.

Lemma take_wp s U A W l b k size (Q : Z → heap P → Prop) : heap_ok s U A W (l ++ b :: k) → bfree b = true → size mod 8 = 0 → 0 ≤ size ≤ blen b →
  (∀ s' bs' x, heap_ok s' U A W bs' → used bs' ≡ₚ x :: used (l ++ b :: k) → bat x = bat b → size ≤ blen x → evolves (touched (l ++ b :: k)) s s' →
     Q (bat b + 24) s') →
  wp (take_block (bat b) size) Q s.
Proof.
  intros Hok Hf H8 Hsz HQ. unfold take_block. wp_step. apply (split_wp _ U A W l b k size); try done. intros s1 b' r Hsp Hok1 Ev1.
  assert (Hb' : bat b' = bat b ∧ bfree b' = true ∧ size ≤ blen b' ∧ used r = []).
  { destruct Hsp as [(-> & -> & _)|(-> & _ & g & ->)]; split_and!; try done; cbn; lia. }
  destruct Hb' as (Ea & Hf' & Hl' & Hr). wp_step. rewrite <-Ea. apply (mark_wp _ _ _ _ _ _ _ _ _ Hok1). intros m' Hc Ed Hld. wp_step.
  eapply get_wp; [exact Hld|]. do 2 wp_step. wp_step. rewrite Ea.
  assert (Hsub : ∀ c, touched (l ++ with_free false b' :: r ++ k) c → touched (l ++ b :: k) c).
  { intros c Hc'. apply (split_touched size b b' r); [done|lia|done|]. revert Hc'. rewrite !touched_app, !touched_cons, Hf'. cbn.
    assert (0 ≤ blen b') by lia. unfold bend. intros [?|[?|?]]; [by left|right; left; lia|by right; right]. }
  apply (HQ _ (l ++ with_free false b' :: r ++ k) (with_free false b')).
  - eapply heap_ok_new; [exact Hok1|exact Ed|done|apply Hok1|apply mark_wf, Hok1|exact Hc| | |].
    + cbn. rewrite (ho_head _ _ _ _ _ Hok1). by destruct l.
    + cbn. rewrite (ho_total _ _ _ _ _ Hok1), !sum_len_app. by f_equal.
    + cbn. rewrite (ho_used _ _ _ _ _ Hok1), u32_add_l, !used_app, !used_cons, Hf'. cbn. rewrite !sum_len_app. cbn. f_equal. lia.
  - rewrite !used_app, !used_cons, used_app, Hr, Hf. cbn. by rewrite <-Permutation_middle.
  - done.
  - done.
  - eapply evolves_trans; [exact Ev1|]. split; [eapply edits_mono; [exact Hsub|exact Ed]|done|done].
Qed.

(** What kmalloc gives: a block [x] in use, of at least [n] bytes at a multiple of
    eight, in a heap that is otherwise as before; nothing of others has changed. *)
Record allocates s s' (U A W : gset Z) (bs bs' : list blk) (X : gset Z) (x : blk) (n : Z) : Prop := {
  al_ok : heap_ok s' U (A ∪ X) (W ∪ X) bs';
  al_new : X ## A;
  al_used : used bs' ≡ₚ x :: used bs;
  al_size : n ≤ blen x;
  al_kept : ∀ c, kept A W bs c → hmem s' !! c = hmem s !! c;
  al_counts : invalid_free_count s' = invalid_free_count s ∧ double_free_count s' = double_free_count s }.

Lemma kmalloc_wp s U A W bs n (Q : Z → heap P → Prop) : heap_ok s U A W bs → 0 < n ≤ 0xFFFFEFE0 →
  (Forall (no_fit ((n + 7) / 8 * 8)) bs → (∀ p, ¬ block p (pages_for ((n + 7) / 8 * 8)) ⊆ U ∖ A) → Q 0 s) →
  (∀ s' bs' X x, allocates s s' U A W bs bs' X x n → Q (bat x + 24) s') →
  wp (kmalloc n) Q s.
Proof.
  intros Hok Hn H0' HQ. unfold kmalloc. rewrite (proj2 (Z.eqb_neq n 0)) by lia. rewrite align_up_8 by lia.
  assert (Hsz : 0 < (n + 7) / 8 * 8 ≤ 0xFFFFEFE0 ∧ n ≤ (n + 7) / 8 * 8) by (Z.to_euclidean_division_equations; lia).
  assert (H8 : (n + 7) / 8 * 8 mod 8 = 0) by (apply Z.mod_mul; lia). set (size := (n + 7) / 8 * 8) in *.
  assert (Epg : (size +% sizeof_heap_block +% PMM_PAGE_SIZE -% 1) / PMM_PAGE_SIZE = pages_for size).
  { unfold sizeof_heap_block, PMM_PAGE_SIZE, pages_for. u32_simp. f_equal. lia. }
  assert (Hpg : is_u32 (pages_for size) ∧ 0 < pages_for size) by (unfold pages_for, is_u32; Z.to_euclidean_division_equations; lia).
  wp_step. eapply (wp_mono _ (λ a s', (a = 0 ∧ s' = s ∧ Forall (no_fit size) bs) ∨ (a ≠ 0 ∧ s' = s ∧ found s s U A W bs size a))).
  { apply (find_free_wp _ _ _ _ _ _ _ Hok); [by left|]. intros l b k E Hf Hl. right. split; [|split; [done|by eapply found_here]].
    pose proof (blk_bounds_in _ _ _ _ _ b Hok) as Hb. rewrite E in Hb. destruct Hb as (? & _); [set_solver +|lia]. }
  intros a0 s0 Ha0. wp_step.
  eapply (wp_mono _ (λ a s', (a = 0 ∧ s' = s ∧ Forall (no_fit size) bs ∧ ∀ p, ¬ block p (pages_for size) ⊆ U ∖ A) ∨ (a ≠ 0 ∧ found s s' U A W bs size a))).
  { apply (wp_while _ (λ m a s', (m = 1 ∧ a = 0 ∧ s' = s ∧ Forall (no_fit size) bs) ∨ (m = 0 ∧ a ≠ 0 ∧ found s s' U A W bs size a)) _ (if a0 =? 0 then 1 else 0)).
    { destruct Ha0 as [(-> & -> & Hnf)|(Ha & -> & Hf)]; [by left|right]. by rewrite (proj2 (Z.eqb_neq a0 0)). }
    intros m a s1 [(-> & -> & -> & Hnf)|(-> & Ha & Hfd)]; (split; [lia|]).
    - cbn [Z.eqb negb]. wp_step. rewrite Epg. apply (heap_alloc_pages_wp _ _ _ _ _ _ _ Hok); [apply Hpg| |].
      + intros [E|Hno]; [lia|]. cbn [Z.eqb]. wp_step. left. by split_and!.
      + intros p s1 Hp _ Hsub Hok1 _ Ev1. rewrite (proj2 (Z.eqb_neq (p * 4096) 0)) by lia.
        apply (heap_grow_wp s s1 U A W bs size p); try done; [lia|lia|]. intros a s2 Hfd Ha. wp_step. exists 0. split; [lia|]. by right.
    - rewrite (proj2 (Z.eqb_neq a 0)) by done. cbn [negb]. wp_step. by right. }
  intros a s1 [(-> & -> & Hnf & Hno)|(Ha & X & l & b & k & -> & Hf & Hl & HX & Hok1 & Hus & Ev & Hto)].
  - cbn [Z.eqb]. wp_step. by apply H0'.
  - rewrite (proj2 (Z.eqb_neq _ 0)) by done. apply (take_wp _ _ _ _ _ _ _ _ _ Hok1); [done|done|lia|].
    intros s2 bs' x Hok2 Hu Hx Hlx Ev2. rewrite <-Hx. apply (HQ s2 bs' X x). split; [done|done|by rewrite Hu, Hus|lia| |].
    + intros c Hk. assert (Ev12 : evolves (λ c, touched bs c ∨ c / 4096 ∈ X) s s2) by (eapply evolves_trans; [exact Ev|by eapply evolves_mono]).
      apply (ed_same _ _ _ (ev_mem _ _ _ Ev12)). intros [Ht|HcX]; [by eapply kept_not_touched; [apply Hok|..]|].
      pose proof (ho_owned _ _ _ _ _ Hok) as HWA. destruct Hk as [Hk|(y & [Hy _]%elem_of_used & Hc)]; [set_solver + Hk HcX HX|].
      destruct (ho_wf _ _ _ _ _ Hok) as [Hw _]. rewrite Forall_forall in Hw. assert (HcW : c / 4096 ∈ W) by (apply (bo_pages _ _ (Hw y Hy)); lia).
      set_solver + HcW HWA HcX HX.
    + destruct Ev as [_ ? ?], Ev2 as [_ ? ?]. split; congruence.
Qed.

(** ** kfree *)

(** The page counts that kfree multiplies do not wrap around. Blocks that were split
    off carry what was in memory as their count. *)
Definition counts_small (bs : list blk) : Prop := Forall (λ b, bpages b < 1048576) bs.

Lemma joins_used l b k b' k' : joins b k b' k' → bfree b = true → used (l ++ b' :: k') = used (l ++ b :: k).
Proof.
  intros [[-> ->]|(x & -> & Hx & _ & ->)] Hf; [done|]. rewrite !used_app, !used_cons. cbn. by rewrite Hf, Hx.
Qed.

Lemma joins_first b k b' k' : joins b k b' k' → bat b' = bat b ∧ bpages b' = bpages b ∧ bfree b' = bfree b.
Proof. by intros [[-> ->]|(x & -> & Hx & _ & ->)]. Qed.

(** The end of kfree: the block at hand is released if it is a whole region. *)
Lemma settle_wp s U A W l b k us Y (Q : unit → heap P → Prop) : heap_ok s U A W (l ++ b :: k) → bpages b < 1048576 → used (l ++ b :: k) = us →
  (∀ c, touched (l ++ b :: k) c → Y c) →
  (∀ s' X bs', X ⊆ W → heap_ok s' U (A ∖ X) (W ∖ X) bs' → used bs' = us → evolves Y s s' → Q tt s') →
  wp (release_whole_region_if_possible (bat b)) Q s.
Proof.
  intros Hok Hb Hu HY HQ. apply (release_wp _ _ _ _ _ _ _ _ Hok Hb).
  - apply (HQ s ∅ (l ++ b :: k)); [set_solver +|by rewrite !difference_empty_L|done|apply evolves_refl].
  - intros s' X HX Hf Hok' Ev. apply (HQ s' X (l ++ k)); [done|done| |by eapply evolves_mono]. rewrite <-Hu, !used_app, used_cons, Hf. done.
Qed.

(** From the point where the block is marked free. *)
Lemma merge_wp s U A W l b k (Q : unit → heap P → Prop) : heap_ok s U A W (l ++ b :: k) → bfree b = true → counts_small (l ++ b :: k) →
  (∀ s' X bs', X ⊆ W → heap_ok s' U (A ∖ X) (W ∖ X) bs' → used bs' = used (l ++ b :: k) → evolves (touched (l ++ b :: k)) s s' → Q tt s') →
  wp (_ ← coalesce_next (bat b); prev ← get (block_prev (bat b));
      prev_free ← (if negb (prev =? 0) then get_bool (block_free prev) else mret false);
      block ← (if prev_free : bool then _ ← coalesce_next prev; mret prev else mret (bat b));
      release_whole_region_if_possible block) Q s.
Proof.
  intros Hok Hf Hcnt HQ. wp_step. apply (coalesce_wp _ _ _ _ _ _ _ _ Hok Hf). intros s1 b1 k1 J1 Hok1 Ev1.
  destruct (joins_first _ _ _ _ J1) as (Ea & Ep & Ef). rewrite Hf in Ef. pose proof (ho_chain _ _ _ _ _ Hok1) as (Hc & Hh & _)%chain_middle.
  apply Forall_app in Hcnt as [Hcl [Hcb _]%Forall_cons].
  assert (Hb1 : wp (release_whole_region_if_possible (bat b)) Q s1).
  { rewrite <-Ea. apply (settle_wp _ _ _ _ _ _ _ (used (l ++ b :: k)) (touched (l ++ b :: k)) _ Hok1); [lia|by apply joins_used| |].
    - intros c. by apply joins_touched.
    - intros s2 X bs' HX Hok2 Hu Ev2. apply (HQ s2 X bs'); [done|done|done|by eapply evolves_trans]. }
  wp_step. rewrite <-Ea at 1. eapply get_wp; [apply (hd_prev _ _ _ _ Hh)|]. destruct l as [|a l _] using rev_ind.
  { cbn [last_at Z.eqb negb]. do 2 wp_step. cbv iota. by do 2 wp_step. }
  rewrite last_at_snoc in *. pose proof (blk_bounds_in _ _ _ _ _ a Hok1 ltac:(set_solver +)) as (Ha1 & _). rewrite (proj2 (Z.eqb_neq (bat a) 0)) by lia. cbn [negb].
  apply chain_middle in Hc as (_ & Hha & _). wp_step. eapply get_bool_wp; [apply (hd_free _ _ _ _ Hha)|].
  destruct (bfree a) eqn:Hfa; [|by do 2 wp_step]. wp_step. wp_step. rewrite <-app_assoc in Hok1. apply (coalesce_wp _ _ _ _ _ _ _ _ Hok1 Hfa). intros s2 a2 k2 J2 Hok2 Ev2. wp_step.
  destruct (joins_first _ _ _ _ J2) as (Ea2 & Ep2 & _). apply Forall_app in Hcl as [_ [Hca _]%Forall_cons]. rewrite <-Ea2.
  assert (Ht : ∀ c, touched (l ++ a :: b1 :: k1) c → touched ((l ++ [a]) ++ b :: k) c).
  { intros c Hc. change (a :: b1 :: k1) with ([a] ++ b1 :: k1) in Hc. rewrite app_assoc in Hc. by apply (joins_touched (l ++ [a]) b k b1 k1). }
  apply (settle_wp _ _ _ _ _ _ _ (used ((l ++ [a]) ++ b :: k)) (touched ((l ++ [a]) ++ b :: k)) _ Hok2); [lia| | |].
  - rewrite (joins_used l _ _ _ _ J2 Hfa), <-(joins_used (l ++ [a]) _ _ _ _ J1 Hf). by rewrite <-app_assoc.
  - intros c Hc'. by apply Ht, (joins_touched l a (b1 :: k1) a2 k2).
  - intros s3 X bs' HX Hok3 Hu Ev3. apply (HQ s3 X bs'); [done|done|done|]. eapply evolves_trans; [exact Ev1|eapply evolves_trans; [by eapply evolves_mono|exact Ev3]].
Qed.

(** What kfree does: the block [b] is no longer in use, the other blocks and their
    contents are as before; pages [X] may have gone back. *)
Record frees s s' (U A W : gset Z) (l : list blk) (b : blk) (k bs' : list blk) (X : gset Z) : Prop := {
  fr_ok : heap_ok s' U (A ∖ X) (W ∖ X) bs';
  fr_pages : X ⊆ W;
  fr_used : used (l ++ b :: k) ≡ₚ b :: used bs';
  fr_kept : ∀ c, kept A W (l ++ k) c → hmem s' !! c = hmem s !! c;
  fr_counts : invalid_free_count s' = invalid_free_count s ∧ double_free_count s' = double_free_count s }.

Lemma kfree_block_wp s U A W l b k (Q : unit → heap P → Prop) : heap_ok s U A W (l ++ b :: k) → bfree b = false → counts_small (l ++ b :: k) →
  (∀ s' bs' X, frees s s' U A W l b k bs' X → Q tt s') → wp (kfree_block (bat b + 24)) Q s.
Proof.
  intros Hok Hf Hcnt HQ. pose proof (ho_chain _ _ _ _ _ Hok) as (_ & Hh & _)%chain_middle.
  unfold kfree_block. replace (bat b + 24 - sizeof_heap_block) with (bat b) by (unfold sizeof_heap_block; lia).
  wp_step. eapply get_wp; [apply (hd_magic _ _ _ _ Hh)|]. rewrite Z.eqb_refl. cbn [negb]. wp_step. eapply get_bool_wp; [apply (hd_free _ _ _ _ Hh)|]. rewrite Hf.
  wp_step. apply (mark_wp _ _ _ _ _ _ _ _ _ Hok). intros m' Hc Ed Hld. wp_step. eapply get_wp; [exact Hld|]. wp_step. wp_step.
  set (s1 := set_heap_used _ _).
  assert (Hok1 : heap_ok s1 U A W (l ++ with_free true b :: k)).
  { eapply heap_ok_new; [exact Hok|exact Ed|done|apply Hok|apply mark_wf, Hok|exact Hc| | |].
    - cbn. rewrite (ho_head _ _ _ _ _ Hok). by destruct l.
    - cbn. rewrite (ho_total _ _ _ _ _ Hok), !sum_len_app. by f_equal.
    - cbn. rewrite (ho_used _ _ _ _ _ Hok), u32_sub_l, !used_app, !used_cons, Hf. cbn. rewrite !sum_len_app. cbn. f_equal. lia. }
  apply (merge_wp s1 U A W l (with_free true b) k); [exact Hok1|done| |].
  { unfold counts_small in *. rewrite Forall_app, Forall_cons in Hcnt |- *. exact Hcnt. }
  intros s' X bs' HX Hok' Hu Ev. apply (HQ s' bs' X). split; [done|done| | |by destruct Ev].
  - rewrite Hu, !used_app, !used_cons, Hf. cbn. by rewrite <-Permutation_middle.
  - intros c Hk. assert (Hk' : kept A W (l ++ with_free true b :: k) c) by (revert Hk; unfold kept; by rewrite !used_app, used_cons).
    pose proof (kept_not_touched _ _ _ _ (ho_wf _ _ _ _ _ Hok1) Hk') as Hnt. rewrite (ed_same _ _ _ (ev_mem _ _ _ Ev) c Hnt). cbn. apply (ed_same _ _ _ Ed c Hnt).
Qed.

Lemma kfree_call_wp s U A W l b k (Q : Z + unit → heap P → Prop) : heap_ok s U A W (l ++ b :: k) → bfree b = false → counts_small (l ++ b :: k) →
  (∀ s' bs' X, frees s s' U A W l b k bs' X → Q (inr tt) s') → wp (kfree_call (bat b + 24)) Q s.
Proof.
  intros Hok Hf Hcnt HQ. pose proof (ho_chain _ _ _ _ _ Hok) as (_ & Hh & _)%chain_middle. pose proof (ho_wf _ _ _ _ _ Hok) as (Hb & _ & [_ [Hk _]]%wf_app)%wf_middle.
  pose proof (blk_bounds _ _ _ _ _ _ Hok Hb) as (Hb1 & _). unfold kfree_call. rewrite (proj2 (Z.eqb_neq (bat b + 24) 0)) by lia.
  wp_step. eapply (get_wp _ _ (first k 0)); [rewrite <-(hd_next _ _ _ _ Hh); f_equal; unfold aligned_magic, sizeof_aligned_header, block_next; lia|].
  rewrite (proj2 (Z.eqb_neq (first k 0) HEAP_ALIGN_MAGIC)).
  - wp_step. apply (kfree_block_wp _ _ _ _ _ _ _ _ Hok Hf Hcnt). intros s' bs' X Hfr. wp_step. by eapply HQ.
  - pose proof (first_aligned _ _ Hk) as H8. intros E. by rewrite E in H8.
Qed.

(** A pointer that kmalloc or kmalloc_aligned has given for the block [b]. *)
Definition behind_header (m : mem) (b : blk) (q : Z) : Prop :=
  bat b + 32 ≤ q ≤ bend b ∧ load 4 m (aligned_magic (q - 8)) = Some HEAP_ALIGN_MAGIC ∧ load 4 m (aligned_raw (q - 8)) = Some (bat b + 24).
Definition pointer_to (m : mem) (b : blk) (q : Z) : Prop := q = bat b + 24 ∨ behind_header m b q.

(** Writing inside a block in use is the caller's right. *)
Lemma heap_ok_payload s U A W l b k m' a n : heap_ok s U A W (l ++ b :: k) → changes (hmem s) m' a n → bat b + 24 ≤ a → a + n ≤ bend b →
  heap_ok (set_hmem m' s) U A W (l ++ b :: k).
Proof.
  intros Hok C H1 H2. pose proof (ho_wf _ _ _ _ _ Hok) as (Hb & Hap & Hlk)%wf_middle. pose proof (ho_chain _ _ _ _ _ Hok) as (Hcl & Hh & Hck)%chain_middle.
  apply wf_app in Hlk as [Hwl Hwk]. apply Forall_app in Hap as [Hapl Hapk].
  eapply heap_ok_new; [exact Hok|eapply (changes_edits _ _ _ _ (λ c, a ≤ c < a + n)); [exact C|done]|done|apply Hok|apply Hok| |apply Hok|apply Hok|apply Hok].
  apply chain_middle. cbn. split_and!.
  - eapply (chain_frame _ _ _ b); [exact C|lia|lia|exact Hapl|apply Hwl|exact Hcl].
  - eapply header_same; [|exact Hh]. intros c Hc. apply (ch_same _ _ _ _ C). lia.
  - eapply (chain_frame _ _ _ b); [exact C|lia|lia|exact Hapk|apply Hwk|exact Hck].
Qed.

Lemma kfree_wp s U A W l b k q (Q : unit → heap P → Prop) : heap_ok s U A W (l ++ b :: k) → bfree b = false → counts_small (l ++ b :: k) →
  pointer_to (hmem s) b q → (∀ s' bs' X, frees s s' U A W l b k bs' X → Q tt s') → wp (kfree q) Q s.
Proof.
  intros Hok Hf Hcnt Hq HQ. unfold kfree.
  apply (wp_while _ (λ n q s1, 0 ≤ n ≤ 1 ∧ heap_ok s1 U A W (l ++ b :: k) ∧ (n = 0 → q = bat b + 24) ∧ pointer_to (hmem s1) b q ∧
    (∀ s' bs' X, frees s1 s' U A W l b k bs' X → Q tt s')) _ 1); [split_and!; try done; lia|].
  clear s q Hok Hq HQ. intros n q s (Hn & Hok & Hn0 & Hq & HQ). split; [lia|].
  destruct Hq as [->|(Hr & Hm & Hraw)].
  - apply (kfree_call_wp _ _ _ _ _ _ _ _ Hok Hf Hcnt). exact HQ.
  - pose proof (ho_wf _ _ _ _ _ Hok) as (Hb & Hap & _)%wf_middle. pose proof (blk_bounds _ _ _ _ _ _ Hok Hb) as (Hb1 & Hb2 & Hb3).
    unfold kfree_call. rewrite (proj2 (Z.eqb_neq q 0)) by lia. unfold sizeof_aligned_header. wp_step. eapply get_wp; [exact Hm|]. rewrite Z.eqb_refl.
    wp_step. apply put_wp; [by apply load_mapped in Hm|]. intros m' E C. unfold aligned_magic, aligned_raw in *. wp_step.
    eapply get_wp; [cbn [hmem set_hmem]; rewrite (load_store_ne _ _ _ _ _ _ _ E) by lia; exact Hraw|]. wp_step. exists 0.
    split; [destruct (decide (n = 0)) as [E0|]; [specialize (Hn0 E0); lia|lia]|]. split_and!; [lia|lia| |done|by left|].
    { eapply heap_ok_payload; [exact Hok|exact C|lia|lia]. }
    intros s' bs' X [F1 F2 F3 F4 F5]. apply (HQ s' bs' X). split; [done|done|done| |done]. intros c Hk. rewrite (F4 c Hk). cbn. apply (ch_same _ _ _ _ C). intros Hc.
    apply (kept_not_touched A W (l ++ with_free true b :: k) c); [by apply mark_wf, Hok|revert Hk; unfold kept; by rewrite !used_app, used_cons|].
    rewrite touched_app, touched_cons. right; left. cbn. unfold bend in *. cbn. lia.
Qed.

(** ** The properties *)

Lemma allocates_apart s s' U A W bs bs' X x n : allocates s s' U A W bs bs' X x n → bat x mod 8 = 0 ∧ Forall (apart x) (used bs).
Proof.
  intros [Hok _ Hu _ _ _]. pose proof (ho_wf _ _ _ _ _ Hok) as Hwf. pose proof (separate_nodup _ _ Hwf) as Hnd. apply (NoDup_fmap_1 bat) in Hnd.
  apply (NoDup_filter (λ b, bfree b = false)) in Hnd. fold (used bs') in Hnd. rewrite Hu, NoDup_cons in Hnd. destruct Hnd as [Hx _].
  assert (Hin : ∀ y, y ∈ x :: used bs → y ∈ bs') by (intros y Hy; rewrite <-Hu, elem_of_used in Hy; apply Hy).
  assert (Hxb : x ∈ bs') by (apply Hin; set_solver +). split.
  - destruct Hwf as [Hf _]. rewrite Forall_forall in Hf. apply (bo_at _ _ (Hf x Hxb)).
  - apply Forall_forall. intros y Hy. destruct (wf_pair _ _ x y Hwf Hxb) as [<-|?]; [apply Hin; set_solver + Hy|done|done].
Qed.

(** C33. kmalloc of any size that does not wrap around returns: either null, with
    nothing changed, when no free block is large enough and the page allocator has
    no run of pages for a new one; or a pointer at a multiple of eight to a block of
    at least that size, apart from all blocks in use, which keep their contents. *)
Theorem kmalloc_spec s U A W bs n : heap_ok s U A W bs → 0 < n ≤ 0xFFFFEFE0 →
  wp (kmalloc n) (λ r s',
    (r = 0 ∧ s' = s ∧ Forall (no_fit ((n + 7) / 8 * 8)) bs ∧ ∀ p, ¬ block p (pages_for ((n + 7) / 8 * 8)) ⊆ U ∖ A) ∨
    (∃ bs' X x, r = bat x + 24 ∧ r mod 8 = 0 ∧ Forall (apart x) (used bs) ∧ allocates s s' U A W bs bs' X x n)) s.
Proof.
  intros Hok Hn. apply (kmalloc_wp _ _ _ _ _ _ _ Hok Hn); [by left|]. intros s' bs' X x Hal. right.
  pose proof (allocates_apart _ _ _ _ _ _ _ _ _ _ Hal) as [H8 Hap]. exists bs', X, x. split_and!; try done.
  rewrite <-Z.add_mod_idemp_l, H8 by done. done.
Qed.

(** C34. kfree of a pointer from kmalloc or kmalloc_aligned returns; exactly the
    pointer's block is no longer in use, all others keep their contents, the
    counters stay exact, and pages may have gone back to the page allocator, while
    the page counts in the headers are below 2^20. *)
Theorem kfree_spec s U A W l b k q : heap_ok s U A W (l ++ b :: k) → bfree b = false → pointer_to (hmem s) b q → counts_small (l ++ b :: k) →
  wp (kfree q) (λ _ s', ∃ bs' X, frees s s' U A W l b k bs' X ∧ heap_used s' = heap_used s -% blen b) s.
Proof.
  intros Hok Hf Hq Hcnt. apply (kfree_wp _ _ _ _ _ _ _ _ _ Hok Hf Hcnt Hq). intros s' bs' X Hfr. exists bs', X. split; [done|]. destruct Hfr as [Hok' _ Hu _ _].
  rewrite (ho_used _ _ _ _ _ Hok'), (ho_used _ _ _ _ _ Hok), u32_sub_l. f_equal.
  assert (E : ∀ x y, x ≡ₚ y → sum_len x = sum_len y) by (induction 1; cbn; lia). rewrite (E _ _ Hu). cbn. lia.
Qed.

(** The pointer of kmalloc_aligned is inside the block that kmalloc has given. *)
Lemma aligned_inside raw n e : 0 ≤ e ≤ 26 → 0 < raw < 134217728 → 0 ≤ n →
  let a := (raw + 8 + 2 ^ e - 1) / 2 ^ e * 2 ^ e in raw + 8 ≤ a ∧ a + n < raw + (n + 2 ^ e + 8).
Proof.
  intros He Hr Hn a. assert (Hp : 0 < 2 ^ e) by (apply Z.pow_pos_nonneg; lia). unfold a. clear a. revert Hp. generalize (2 ^ e). intros d Hd.
  pose proof (Z.div_mod (raw + 8 + d - 1) d ltac:(lia)). pose proof (Z.mod_pos_bound (raw + 8 + d - 1) d Hd). nia.
Qed.

(** The header before the aligned pointer only changes the new block. *)
Lemma allocates_payload s s' U A W bs bs' X x n m a len : allocates s s' U A W bs bs' X x n → bfree x = false → changes (hmem s') m a len → bat x + 24 ≤ a → a + len ≤ bend x →
  allocates s (set_hmem m s') U A W bs bs' X x n.
Proof.
  intros Hal Hf C H1 H2. pose proof (allocates_apart _ _ _ _ _ _ _ _ _ _ Hal) as [_ Hap]. destruct Hal as [Hok Hnew Hu Hn Hk Hc].
  assert (Hx : x ∈ bs') by (assert (Hxu : x ∈ used bs') by (rewrite Hu; set_solver +); by apply elem_of_used in Hxu as [? _]).
  assert (Hxp : ∀ c, bat x ≤ c < bend x → c / 4096 ∈ W ∪ X) by (destruct (ho_wf _ _ _ _ _ Hok) as [Hw _]; rewrite Forall_forall in Hw; apply (bo_pages _ _ (Hw x Hx))).
  apply list_elem_of_split in Hx as (l & k & ->). split; [by eapply heap_ok_payload|done|done|done| |done].
  intros c Hkc. cbn. rewrite (ch_same _ _ _ _ C); [by apply Hk|]. intros Hr. destruct Hkc as [Hkc|(y & Hy & Hc')].
  - assert (HcX : c / 4096 ∈ W ∪ X) by (apply Hxp; lia). set_solver + HcX Hkc Hnew.
  - rewrite Forall_forall in Hap. specialize (Hap y Hy). unfold apart in Hap. lia.
Qed.

Lemma new_is_used s s' U A W bs bs' X x n : allocates s s' U A W bs bs' X x n → x ∈ bs' ∧ bfree x = false.
Proof. intros [_ _ Hu _ _ _]. apply elem_of_used. rewrite Hu. set_solver +. Qed.

(** kmalloc_aligned with a power of two as alignment returns null, or a multiple
    of it, with room for the size behind it in a new block, and the header before it
    through which kfree finds the block. *)
Theorem kmalloc_aligned_spec s U A W bs n e : heap_ok s U A W bs → 0 ≤ e ≤ 26 → 0 ≤ n ≤ 0x7FFFFFFF →
  wp (kmalloc_aligned n (2 ^ e)) (λ r s',
    (r = 0 ∧ s' = s) ∨
    (∃ bs' X x, r mod 2 ^ e = 0 ∧ r + n ≤ bend x ∧ behind_header (hmem s') x r ∧ Forall (apart x) (used bs) ∧ allocates s s' U A W bs bs' X x n)) s.
Proof.
  intros Hok He Hn. set (e' := Z.max e 2). unfold kmalloc_aligned.
  assert (Ea : (if 2 ^ e <? sizeof_pointer then sizeof_pointer else 2 ^ e) = 2 ^ e').
  { unfold sizeof_pointer, e'. destruct (2 ^ e <? 4) eqn:E; bool_to_prop.
    - assert (e < 2) by (apply (Z.pow_lt_mono_r_iff 2); [lia|lia|exact E]). by rewrite Z.max_r by lia.
    - assert (2 ≤ e) by (apply (Z.pow_le_mono_r_iff 2); [lia|lia|exact E]). by rewrite Z.max_l by lia. }
  rewrite Ea. assert (He' : 2 ≤ e' ≤ 26) by (unfold e'; lia). assert (Hd : 4 ≤ 2 ^ e' ≤ 67108864).
  { split; [apply (Z.pow_le_mono_r 2 2); lia|apply (Z.pow_le_mono_r 2 e' 26); lia]. }
  unfold sizeof_aligned_header. u32_simp. wp_step. apply (kmalloc_wp _ _ _ _ _ _ _ Hok); [lia|intros; cbn [Z.eqb]; wp_step; by left|].
  intros s1 bs' X x Hal. destruct (new_is_used _ _ _ _ _ _ _ _ _ _ Hal) as [Hx Hf]. pose proof (allocates_apart _ _ _ _ _ _ _ _ _ _ Hal) as [_ Hap].
  pose proof (blk_bounds_in _ _ _ _ _ x (al_ok _ _ _ _ _ _ _ _ _ _ Hal) Hx) as (Hx1 & Hx2 & Hx3). pose proof (al_size _ _ _ _ _ _ _ _ _ _ Hal) as Hlen. unfold bend in Hx2.
  rewrite (proj2 (Z.eqb_neq (bat x + 24) 0)) by lia. u32_simp. rewrite land_not_ones by (unfold is_u32; lia).
  destruct (aligned_inside (bat x + 24) n e' ltac:(lia) ltac:(lia) ltac:(lia)) as [Hi1 Hi2].
  remember ((bat x + 24 + 8 + 2 ^ e' - 1) / 2 ^ e' * 2 ^ e') as q eqn:Eq. unfold aligned_magic, aligned_raw.
  assert (Hmp : mapped (hmem s1) (q - 8) 8).
  { apply (heap_mapped _ _ _ _ _ _ _ (al_ok _ _ _ _ _ _ _ _ _ _ Hal)). intros c Hc. destruct (ho_wf _ _ _ _ _ (al_ok _ _ _ _ _ _ _ _ _ _ Hal)) as [Hw _].
    rewrite Forall_forall in Hw. apply (bo_pages _ _ (Hw x Hx)). unfold bend. lia. }
  wp_step. apply put_wp; [eapply mapped_sub; [exact Hmp|lia|lia]|]. intros m1 E1 C1. wp_step. cbn [hmem set_hmem].
  assert (C1' : changes (hmem s1) m1 (q - 8) 8) by (eapply changes_sub; [exact C1|lia]).
  apply put_wp; [eapply mapped_sub; [eapply changes_mapped; [exact C1'|exact Hmp]|lia|lia]|]. intros m2 E2 C2. cbn [hmem set_hmem] in *. wp_step. right.
  assert (C2' : changes (hmem s1) m2 (q - 8) 8) by (eapply changes_trans; [exact C1'|eapply changes_sub; [exact C2|lia]]).
  exists bs', X, x. split_and!; [|unfold bend; lia| |done|].
  - rewrite Eq. assert (Em : 2 ^ e' = 2 ^ (e' - e) * 2 ^ e) by (rewrite <-Z.pow_add_r by (unfold e'; lia); f_equal; lia).
    rewrite Em at 3. rewrite Z.mul_assoc. apply Z.mod_mul. apply Z.pow_nonzero; lia.
  - split; [unfold bend; lia|]. unfold aligned_magic, aligned_raw. cbn [hmem set_hmem]. split.
    + rewrite (load_store_ne _ _ _ _ _ _ _ E2) by lia. by apply (load_store4 _ _ _ _ E1).
    + apply (load_store4 _ _ _ _ E2). unfold is_u32. lia.
  - change (set_hmem m2 (set_hmem m1 s1)) with (set_hmem m2 s1). eapply allocates_payload; [|exact Hf|exact C2'|lia|unfold bend; lia].
    destruct Hal as [Ao An Au As Ak Ac]. split; [done|done|done|lia|done|done].
Qed.

(** A wrong argument of kfree changes nothing but the counter of its kind: null
    nothing at all, a free block the counter of double frees, a pointer without a
    header the counter of invalid frees. *)
Theorem kfree_rejects s U A W bs : heap_ok s U A W bs →
  kfree 0 s = Some (tt, s) ∧
  (∀ b, b ∈ bs → bfree b = true → kfree (bat b + 24) s = Some (tt, set_double_free_count (double_free_count s +% 1) s)) ∧
  (∀ q v w, q ≠ 0 → load 4 (hmem s) (q - 8) = Some v → v ≠ HEAP_ALIGN_MAGIC → load 4 (hmem s) (q - 24) = Some w → w ≠ HEAP_MAGIC →
     kfree q s = Some (tt, set_invalid_free_count (invalid_free_count s +% 1) s)).
Proof.
  intros Hok.
  assert (One : ∀ q s', wp (kfree_call q) (λ r s1, r = inr tt ∧ s1 = s') s → kfree q s = Some (tt, s')).
  { intros q s' Hw. assert (W1 : wp (kfree q) (λ _ s1, s1 = s') s).
    { unfold kfree. apply (wp_while _ (λ n a s1, n = 0 ∧ a = q ∧ s1 = s) _ 0); [done|]. intros n a s1 (-> & -> & ->). split; [lia|].
      eapply wp_mono; [exact Hw|]. by intros r s1 [-> ->]. }
    destruct W1 as ([] & s1 & E & ->). exact E. }
  split_and!.
  - apply One. unfold kfree_call. cbn [Z.eqb]. by wp_step.
  - intros b Hb Hf. apply One. pose proof (blk_bounds_in _ _ _ _ _ b Hok Hb) as (Hb1 & _). apply list_elem_of_split in Hb as (l & k & ->).
    pose proof (ho_chain _ _ _ _ _ Hok) as (_ & Hh & _)%chain_middle. pose proof (ho_wf _ _ _ _ _ Hok) as (_ & _ & [_ [Hk _]]%wf_app)%wf_middle.
    unfold kfree_call. rewrite (proj2 (Z.eqb_neq (bat b + 24) 0)) by lia. wp_step.
    eapply (get_wp _ _ (first k 0)); [rewrite <-(hd_next _ _ _ _ Hh); f_equal; unfold aligned_magic, sizeof_aligned_header, block_next; lia|].
    rewrite (proj2 (Z.eqb_neq (first k 0) HEAP_ALIGN_MAGIC)) by (pose proof (first_aligned _ _ Hk) as H8; intros E; by rewrite E in H8).
    unfold kfree_block. replace (bat b + 24 - sizeof_heap_block) with (bat b) by (unfold sizeof_heap_block; lia). wp_step. wp_step.
    eapply get_wp; [apply (hd_magic _ _ _ _ Hh)|]. rewrite Z.eqb_refl. cbn [negb]. wp_step. eapply get_bool_wp; [apply (hd_free _ _ _ _ Hh)|]. rewrite Hf. by do 2 wp_step.
  - intros q v w Hq Hv Hne Hw Hnw. apply One. unfold kfree_call. rewrite (proj2 (Z.eqb_neq q 0)) by done. wp_step.
    eapply get_wp; [exact Hv|]. rewrite (proj2 (Z.eqb_neq _ _) Hne). unfold kfree_block. wp_step. wp_step. eapply get_wp; [exact Hw|].
    rewrite (proj2 (Z.eqb_neq _ _) Hnw). cbn [negb]. by do 2 wp_step.
Qed.

Definition started (U A : gset Z) s : Prop :=
  (U ∖ A = ∅ ∧ heap_ok s U A ∅ []) ∨
  (∃ p, p ∈ U ∖ A ∧ heap_ok s U (A ∪ block p 1) (block p 1) [region p 1] ∧ heap_total s = 4072 ∧ heap_used s = 0).

Lemma heap_initialize_wp s U A : pages_rep (hpager s) U A → (∀ p, p ∈ U → mapped (hmem s) (p * 4096) 4096) → bytes_ok (hmem s) →
  wp heap_initialize (λ _ s', started U A s' ∧ invalid_free_count s' = 0 ∧ double_free_count s' = 0) s.
Proof.
  intros Hpg Hmap Hby. unfold heap_initialize. do 10 wp_step. set (s0 := set_double_free_count 0 _).
  assert (Hok : heap_ok s0 U A ∅ []) by (split; done).
  wp_step. apply (heap_alloc_pages_wp _ _ _ _ _ _ _ Hok); [done| |].
  - intros [?|Hno]; [lia|]. cbn [Z.eqb negb]. wp_step. split; [|done]. left. split; [|done]. apply set_eq. intros p. split; [|set_solver +]. intros Hp. exfalso. apply (Hno p).
    intros q Hq%elem_of_block. by replace q with p by lia.
  - intros p s1 Hp _ Hsub Hok1 _ [_ I1 D1]. rewrite (proj2 (Z.eqb_neq (p * 4096) 0)) by lia. cbn [negb].
    apply (block_from_pages_wp _ _ _ _ _ _ _ _ Hok1); [lia|set_solver +|]. intros s2 Hok2 [_ I2 D2]. rewrite I2, D2, I1, D1. split; [right|done]. exists p. rewrite union_empty_l_L in Hok2.
    split_and!; [apply Hsub, elem_of_block; lia|exact Hok2|by rewrite (ho_total _ _ _ _ _ Hok2)|by rewrite (ho_used _ _ _ _ _ Hok2)].
Qed.

(** heap_initialize makes an empty heap, with one page as its first block when
    the page allocator has one, whatever the memory holds. *)
Theorem heap_initialize_spec s U A : pages_rep (hpager s) U A → (∀ p, p ∈ U → mapped (hmem s) (p * 4096) 4096) → bytes_ok (hmem s) →
  wp heap_initialize (λ _ s', started U A s' ∧ invalid_free_count s' = 0 ∧ double_free_count s' = 0) s.
Proof. intros Hpg Hmap Hby. by apply heap_initialize_wp. Qed.
End properties.

(** ** A heap on the demonstration's pages *)

Definition demo_heap_memory : mem := mem_block 0x180000 (Z.to_nat 0x80000).
Definition demo_heap : heap pmm := Heap demo_heap_memory demo_pmm 1 2 3 4 5.

Lemma demo_heap_mapped p : p ∈ demo_usable → mapped demo_heap_memory (p * 4096) 4096.
Proof.
  rewrite demo_usable_range. intros Hp a Ha.
  unfold demo_heap_memory. apply (mem_block_mapped 0x180000 (Z.to_nat 0x80000)). rewrite Z2Nat.id by done. lia.
Qed.

Lemma demo_heap_rep : pages_rep (hpager demo_heap) demo_usable ∅.
Proof. exact demo_rep. Qed.

Lemma heap_initialize_spec_witness : ∃ s', heap_initialize demo_heap = Some (tt, s') ∧
  (demo_usable ∖ ∅ = ∅ ∨ heap_total s' = 4072).
Proof.
  destruct (heap_initialize_spec demo_heap demo_usable ∅ demo_heap_rep demo_heap_mapped (mem_block_bytes _ _)) as ([] & s' & E & HQ).
  exists s'. refine (conj E _). destruct HQ as [[[HQ _]|(p & _ & _ & HQ & _)] _]; [left; exact HQ|right; exact HQ].
Defined.

Lemma demo_heap_ok : ∃ s p, heap_ok s demo_usable (∅ ∪ block p 1) (block p 1) [region p 1].
Proof.
  assert (W : wp heap_initialize (λ _ s, ∃ p, heap_ok s demo_usable (∅ ∪ block p 1) (block p 1) [region p 1]) demo_heap).
  { eapply wp_mono; [apply (heap_initialize_wp demo_heap demo_usable ∅ demo_heap_rep demo_heap_mapped (mem_block_bytes _ _))|].
    intros _ s [[[E _]|(p & _ & Hok & _)] _]; [exfalso|by exists p].
    assert (H : 0x180 ∈ demo_usable ∖ ∅) by (apply elem_of_difference; split; [apply demo_usable_range; lia|apply not_elem_of_empty]). rewrite E in H. set_solver + H. }
  destruct W as (_ & s & _ & p & Hok). exists s, p. exact Hok.
Qed.

Lemma kmalloc_spec_witness : ∃ s r s', kmalloc 100 s = Some (r, s') ∧ r ≠ 0 ∧ r mod 8 = 0.
Proof.
  destruct demo_heap_ok as (s & p & Hok). destruct (kmalloc_spec s _ _ _ _ 100 Hok ltac:(lia)) as (r & s' & E & [(_ & _ & Hnf & _)|(bs' & X & x & Er & H8 & _ & Hal)]).
  - exfalso. apply Forall_cons in Hnf as [Hnf _]. specialize (Hnf eq_refl). change (4072 < 104) in Hnf. lia.
  - exists s, r, s'. refine (conj E (conj _ H8)). pose proof (blk_bounds_in _ _ _ _ _ x (al_ok _ _ _ _ _ _ _ _ _ _ Hal)) as Hb.
    destruct (new_is_used _ _ _ _ _ _ _ _ _ _ Hal) as [Hx _]. destruct (Hb Hx) as [Hb1 _]. clear -Er Hb1. lia.
Defined.

Lemma kmalloc_aligned_spec_witness : ∃ s r s', kmalloc_aligned 100 64 s = Some (r, s') ∧ (r = 0 ∨ r mod 64 = 0).
Proof.
  destruct demo_heap_ok as (s & p & Hok). destruct (kmalloc_aligned_spec s _ _ _ _ 100 6 Hok ltac:(lia) ltac:(lia)) as (r & s' & E & HQ).
  exists s, r, s'. refine (conj E _). destruct HQ as [[HQ _]|(bs' & X & x & HQ & _)]; [left; exact HQ|right; exact HQ].
Defined.

Lemma kfree_rejects_witness : ∃ (s : heap pmm) p, kfree 0 s = Some (tt, s) ∧ kfree (p * 4096 + 24) s = Some (tt, set_double_free_count (double_free_count s +% 1) s).
Proof.
  destruct demo_heap_ok as (s & p & Hok). destruct (kfree_rejects s _ _ _ _ Hok) as (H1 & H2 & _).
  exists s, p. exact (conj H1 (H2 (region p 1) (list_elem_of_here _ _) eq_refl)).
Defined.

(** The demonstration's heap with its only block in use. *)
Lemma demo_full : ∃ (s : heap pmm) p, heap_ok s demo_usable (∅ ∪ block p 1) (block p 1) [with_free false (region p 1)].
Proof.
  destruct demo_heap_ok as (s & p & Hok).
  assert (W : wp (take_block (p * 4096) 4072) (λ _ s', ∃ p, heap_ok s' demo_usable (∅ ∪ block p 1) (block p 1) [with_free false (region p 1)]) s).
  { unfold take_block. wp_step. apply (split_wp s demo_usable _ _ [] (region p 1) [] 4072 _ Hok); [done|done|cbn; lia|].
    intros s1 b' r [(-> & -> & _)|(_ & Hl & _)] Hok1 _; [|cbn in Hl; lia]. wp_step.
    apply (mark_wp s1 demo_usable _ _ [] (region p 1) [] false _ Hok1). intros m' Hc Ed Hld. wp_step. eapply get_wp; [exact Hld|]. do 2 wp_step. wp_step. exists p.
    eapply heap_ok_new; [exact Hok1|exact Ed|done|apply Hok1|apply (mark_wf _ [] (region p 1) []), Hok1|exact Hc|apply Hok1|apply Hok1|].
    cbn. by rewrite (ho_used _ _ _ _ _ Hok1). }
  destruct W as (_ & s' & _ & q & Hok'). exists s', q. exact Hok'.
Qed.

Lemma kfree_spec_witness : ∃ (s : heap pmm) p s', kfree (p * 4096 + 24) s = Some (tt, s') ∧ heap_used s' = heap_used s -% 4072.
Proof.
  destruct demo_full as (s & p & Hok).
  destruct (kfree_spec s _ _ _ [] (with_free false (region p 1)) [] (p * 4096 + 24) Hok eq_refl (or_introl eq_refl)) as ([] & s' & E & bs' & X & _ & Hu).
  - apply Forall_singleton. cbn. lia.
  - exists s, p, s'. exact (conj E Hu).
Defined.

(** ** Where the code does less than it means to *)

Definition tiny_heap : heap pmm :=
  Heap (mem_block 0x180000 56 ∪ mem_block 0x181020 56) demo_pmm 0 0 0 0 0.

(** The round-up of the size wraps around: a request for 4 GiB - 1 bytes succeeds,
    with a block of no bytes. *)
Example kmalloc_wraps :
  fst <$> (_ ← block_from_pages 0x180000 1; r ← kmalloc 0xFFFFFFFF; n ← get (block_size 0x180000); mret (r, n)) tiny_heap = Some (0x180018, 0).
Proof. vm_compute. reflexivity. Qed.

(** split_block does not set the page count of the rest. When an earlier owner of the
    memory has left a one there, a block of 4072 bytes in the middle of a region is
    taken for a whole region when it is freed: it leaves the list, and the page
    allocator ignores its address, so that it is lost. *)
Example stale_count_loses_block :
  fst <$> (_ ← block_from_pages 0x180000 3; _ ← put 0x180028 1;
           _ ← kmalloc 8; b ← kmalloc 4072; _ ← kmalloc 8;
           t ← heap_total_bytes; u ← heap_used_bytes; pages ← gets (λ s, used_pages_count (hpager s));
           _ ← kfree b;
           t' ← heap_total_bytes; u' ← heap_used_bytes; pages' ← gets (λ s, used_pages_count (hpager s));
           next ← get (block_next 0x180000); mret ([t; u; next], [t - t'; u - u'; pages' - pages])) tiny_heap
  = Some ([12192; 4088; 0x181020], [4072; 4072; 0]).
Proof. vm_compute. reflexivity. Qed.
