(* ===== verification/Scheduler.v ===== *)
(** * The preemptive round-robin scheduler, kernel/sched/scheduler.c

    The operations on the task table, the invariant of its reachable states,
    and what the interrupt-driven switch guarantees: the running task is the
    only one marked running, an exited task is never resumed, and the next
    task is the first one in cyclic order that can run. *)

From Stdlib Require Import ZArith Lia Bool String.
From stdpp Require Import base numbers list gmap strings.
From S2P Require Import Prelude.

(** ** Constants and data *)

Definition MAX_TASKS : Z := 4.
Definition TASK_STACK_SIZE : Z := 4096.
Definition TASK_QUANTUM_TICKS : Z := 20.

Inductive task_state :=
  | TASK_UNUSED | TASK_RUNNABLE | TASK_RUNNING | TASK_SLEEPING | TASK_EXITED.

#[export] Instance task_state_eq_dec : EqDecision task_state.
Proof. solve_decision. Defined.

(** A pointer is the address it holds, 0 the null pointer. *)
Record task := Task {
  t_name : string;
  t_frame : Z;
  t_entry : Z;
  t_ticks : Z;
  t_runs : Z;
  t_state : task_state }.

(** include/myos/idt.h: what the interrupt stubs push. *)
Record interrupt_frame := InterruptFrame {
  f_gs : Z; f_fs : Z; f_es : Z; f_ds : Z;
  f_edi : Z; f_esi : Z; f_ebp : Z; f_esp : Z; f_ebx : Z; f_edx : Z; f_ecx : Z; f_eax : Z;
  f_int_no : Z; f_err_code : Z;
  f_eip : Z; f_cs : Z; f_eflags : Z; f_useresp : Z; f_userss : Z }.

Definition sizeof_interrupt_frame : Z := 76.

(** The file's static variables; [frames] is the part of memory that holds
    the frames [create_initial_frame] builds on the task stacks. *)
Record sched := Sched {
  tasks : list task;
  task_count : Z;
  current_task : Z;
  current_quantum : Z;
  switches : Z;
  preempt_pending_flag : Z;
  frames : gmap Z interrupt_frame }.

Definition set_tasks (v : list task) (s : sched) : sched :=
  Sched v (task_count s) (current_task s) (current_quantum s) (switches s) (preempt_pending_flag s) (frames s).
Definition set_task_count (v : Z) (s : sched) : sched :=
  Sched (tasks s) v (current_task s) (current_quantum s) (switches s) (preempt_pending_flag s) (frames s).
Definition set_current_task (v : Z) (s : sched) : sched :=
  Sched (tasks s) (task_count s) v (current_quantum s) (switches s) (preempt_pending_flag s) (frames s).
Definition set_current_quantum (v : Z) (s : sched) : sched :=
  Sched (tasks s) (task_count s) (current_task s) v (switches s) (preempt_pending_flag s) (frames s).
Definition set_switches (v : Z) (s : sched) : sched :=
  Sched (tasks s) (task_count s) (current_task s) (current_quantum s) v (preempt_pending_flag s) (frames s).
Definition set_preempt_pending_flag (v : Z) (s : sched) : sched :=
  Sched (tasks s) (task_count s) (current_task s) (current_quantum s) (switches s) v (frames s).
Definition set_frames (v : gmap Z interrupt_frame) (s : sched) : sched :=
  Sched (tasks s) (task_count s) (current_task s) (current_quantum s) (switches s) (preempt_pending_flag s) v.

Definition set_t_frame (v : Z) (t : task) : task :=
  Task (t_name t) v (t_entry t) (t_ticks t) (t_runs t) (t_state t).
Definition set_t_ticks (v : Z) (t : task) : task :=
  Task (t_name t) (t_frame t) (t_entry t) v (t_runs t) (t_state t).
Definition set_t_runs (v : Z) (t : task) : task :=
  Task (t_name t) (t_frame t) (t_entry t) (t_ticks t) v (t_state t).
Definition set_t_state (v : task_state) (t : task) : task :=
  Task (t_name t) (t_frame t) (t_entry t) (t_ticks t) (t_runs t) v.

(** ** Operations *)

(** [tasks[i]], read and updated in place. *)
Definition get_task (i : Z) : M sched task :=
  ts ← gets tasks; lift (aread ts i).
Definition put_task (i : Z) (t : task) : M sched unit :=
  ts ← gets tasks; ts' ← lift (awrite ts i t); modify (set_tasks ts').
Definition upd_task (i : Z) (f : task → task) : M sched unit :=
  t ← get_task i; put_task i (f t).

Section scheduler.
(** Addresses fixed by the linker: the stacks and the three task functions. *)
Context (task_stacks task_exit_trap idle_task io_task : Z).

Definition scheduler_request_reschedule : M sched unit :=
  modify (set_preempt_pending_flag 1).

(** The part of [task_exit_trap] before it halts for good. *)
Definition task_exit_trap_body : M sched unit :=
  cur ← gets current_task;
  _ ← upd_task cur (set_t_state TASK_EXITED);
  scheduler_request_reschedule.

(** One round of the endless loop of [io_task]. *)
Definition io_task_round : M sched unit :=
  cur ← gets current_task;
  upd_task cur (λ t, set_t_runs (t_runs t +% 1) t).

Definition create_initial_frame (task_id entry : Z) : M sched Z :=
  let top := Z.land (task_stacks +% task_id *% TASK_STACK_SIZE +% TASK_STACK_SIZE) (u32 (Z.lnot 0xF)) in
  let frame := top -% sizeof_interrupt_frame in
  _ ← modify (λ s, set_frames (<[frame :=
        InterruptFrame 0x10 0x10 0x10 0x10 0 0 0 0 0 0 0 0 0 0
                       entry 0x08 0x202 task_exit_trap 0x10]> (frames s)) s);
  mret frame.

Definition scheduler_add_task (name : string) (entry : Z) (current : bool) : M sched unit :=
  n ← gets task_count;
  if MAX_TASKS <=? n then mret tt
  else
    t ← get_task n;
    _ ← put_task n (Task name (t_frame t) entry 0 0 (if current then TASK_RUNNING else TASK_RUNNABLE));
    frame ← (if current then mret 0 else create_initial_frame n entry);
    _ ← upd_task n (set_t_frame frame);
    modify (λ s, set_task_count (task_count s +% 1) s).

Definition runnable (st : task_state) : bool :=
  match st with TASK_RUNNABLE | TASK_RUNNING => true | _ => false end.

Definition scheduler_pick_next : M sched Z :=
  n ← gets task_count;
  cur ← gets current_task;
  r ← for_exit 1 (n + 1) (λ i,
        let candidate := (cur +% i) mod n in
        t ← get_task candidate;
        mret (if runnable (t_state t) then Some candidate else None));
  match r with Some c => mret c | None => mret cur end.

Definition scheduler_initialize : M sched unit :=
  _ ← modify (set_task_count 0);
  _ ← modify (set_current_task 0);
  _ ← modify (set_current_quantum 0);
  _ ← modify (set_switches 0);
  _ ← modify (set_preempt_pending_flag 0);
  _ ← scheduler_add_task "shell" 0 true;
  _ ← scheduler_add_task "idle" idle_task false;
  scheduler_add_task "io" io_task false.

Definition scheduler_on_tick : M sched unit :=
  n ← gets task_count;
  if n =? 0 then mret tt
  else
    cur ← gets current_task;
    _ ← upd_task cur (λ t, set_t_ticks (t_ticks t +% 1) t);
    _ ← modify (λ s, set_current_quantum (current_quantum s +% 1) s);
    q ← gets current_quantum;
    when (TASK_QUANTUM_TICKS <=? q) (modify (set_preempt_pending_flag 1)).

Definition scheduler_schedule_from_interrupt (frame : Z) : M sched Z :=
  n ← gets task_count;
  pending ← gets preempt_pending_flag;
  if (n <? 2) || (pending =? 0) then mret frame
  else
    cur ← gets current_task;
    _ ← upd_task cur (set_t_frame frame);
    t ← get_task cur;
    _ ← when (bool_decide (t_state t = TASK_RUNNING)) (upd_task cur (set_t_state TASK_RUNNABLE));
    let previous := cur in
    next ← scheduler_pick_next;
    stay ← (if next =? previous then mret true
            else tn ← get_task next; mret (t_frame tn =? 0));
    if (stay : bool) then
      _ ← upd_task previous (set_t_state TASK_RUNNING);
      _ ← modify (set_preempt_pending_flag 0);
      _ ← modify (set_current_quantum 0);
      mret frame
    else
      _ ← modify (set_current_task next);
      _ ← modify (set_current_quantum 0);
      _ ← modify (set_preempt_pending_flag 0);
      _ ← modify (λ s, set_switches (switches s +% 1) s);
      _ ← upd_task next (λ t, set_t_runs (t_runs t +% 1) t);
      _ ← upd_task next (set_t_state TASK_RUNNING);
      tn ← get_task next;
      mret (t_frame tn).

(** [scheduler_yield] and [scheduler_preempt_if_needed] up to the halt. *)
Definition scheduler_yield : M sched unit := scheduler_request_reschedule.
Definition scheduler_preempt_if_needed : M sched unit :=
  p ← gets preempt_pending_flag; when (negb (p =? 0)) scheduler_yield.

Definition scheduler_task_count : M sched Z := gets task_count.
Definition scheduler_current_task : M sched Z := gets current_task.
Definition scheduler_switch_count : M sched Z := gets switches.
Definition scheduler_preempt_pending : M sched Z := gets preempt_pending_flag.

Definition scheduler_task_run_count (id : Z) : M sched Z :=
  n ← gets task_count; if n <=? id then mret 0 else t ← get_task id; mret (t_runs t).

Definition scheduler_task_name (id : Z) : M sched string :=
  n ← gets task_count; if n <=? id then mret ""%string else t ← get_task id; mret (t_name t).

Definition state_name (st : task_state) : string :=
  match st with
  | TASK_RUNNABLE => "runnable"
  | TASK_RUNNING => "running"
  | TASK_SLEEPING => "sleeping"
  | TASK_EXITED => "exited"
  | TASK_UNUSED => "unused"
  end.

Definition scheduler_task_state (id : Z) : M sched string :=
  n ← gets task_count; if n <=? id then mret ""%string else t ← get_task id; mret (state_name (t_state t)).
End scheduler.

(** ** Invariant *)

Definition task_at (s : sched) (i : Z) : option task := aread (tasks s) i.

(** A task that scheduler_pick_next may choose. *)
Definition can_run (s : sched) (i : Z) : Prop :=
  ∃ t, task_at s i = Some t ∧ runnable (t_state t) = true.
Definition exited (s : sched) (i : Z) : Prop :=
  ∃ t, task_at s i = Some t ∧ t_state t = TASK_EXITED.

(** The idle task has the index 1 and loops for ever. *)
Definition IDLE : Z := 1.

Record sched_inv (s : sched) : Prop := {
  inv_len : length (tasks s) = 4%nat;
  inv_count : 2 ≤ task_count s ≤ MAX_TASKS;
  inv_cur : 0 ≤ current_task s < task_count s;
  inv_cur_state : ∀ t, task_at s (current_task s) = Some t →
    t_state t = TASK_RUNNING ∨ t_state t = TASK_EXITED;
  inv_others : ∀ i t, 0 ≤ i < task_count s → i ≠ current_task s → task_at s i = Some t →
    t_state t ≠ TASK_RUNNING ∧ (t_state t = TASK_RUNNABLE → t_frame t ≠ 0);
  inv_idle : can_run s IDLE }.

(** What a step of the system can do to the table. *)
Inductive sched_step : sched → sched → Prop :=
  | step_tick s s' : scheduler_on_tick s = Some (tt, s') → sched_step s s'
  | step_switch frame r s s' : frame ≠ 0 →
      scheduler_schedule_from_interrupt frame s = Some (r, s') → sched_step s s'
  | step_request s s' : scheduler_request_reschedule s = Some (tt, s') → sched_step s s'
  | step_yield s s' : scheduler_yield s = Some (tt, s') → sched_step s s'
  | step_preempt s s' : scheduler_preempt_if_needed s = Some (tt, s') → sched_step s s'
  | step_exit s s' : current_task s ≠ IDLE → task_exit_trap_body s = Some (tt, s') → sched_step s s'
  | step_io s s' : io_task_round s = Some (tt, s') → sched_step s s'.

(** Static storage starts zeroed. *)
Definition sched_zero : sched :=
  Sched (replicate 4 (Task "" 0 0 0 0 TASK_UNUSED)) 0 0 0 0 0 ∅.

Section reachability.
Context (task_stacks task_exit_trap idle_task io_task : Z).

Inductive sched_reachable : sched → Prop :=
  | reach_init s :
      scheduler_initialize task_stacks task_exit_trap idle_task io_task sched_zero = Some (tt, s) →
      sched_reachable s
  | reach_step s s' : sched_reachable s → sched_step s s' → sched_reachable s'.
End reachability.

(** ** The task table *)

Section table.
Context (s : sched).

Lemma wp_get_task i t (Q : task → sched → Prop) :
  task_at s i = Some t → Q t s → wp (get_task i) Q s.
Proof. intros H HQ. unfold get_task. wp_step. wp_step. eapply wp_lift; [exact H|done]. Qed.

Lemma wp_put_task i t' (Q : unit → sched → Prop) :
  is_Some (task_at s i) →
  Q tt (set_tasks (<[Z.to_nat i := t']> (tasks s)) s) → wp (put_task i t') Q s.
Proof.
  intros [t H] HQ. unfold put_task. wp_step. wp_step. wp_step.
  eapply wp_lift; [|by apply wp_modify]. apply awrite_eq. by eapply aread_range.
Qed.

Lemma wp_upd_task i f t (Q : unit → sched → Prop) :
  task_at s i = Some t →
  Q tt (set_tasks (<[Z.to_nat i := f t]> (tasks s)) s) → wp (upd_task i f) Q s.
Proof.
  intros H HQ. unfold upd_task. wp_step. eapply wp_get_task; [done|]. by apply wp_put_task.
Qed.

Lemma task_at_insert i j t : 0 ≤ i < Z.of_nat (length (tasks s)) →
  task_at (set_tasks (<[Z.to_nat i := t]> (tasks s)) s) j =
  if decide (i = j) then Some t else task_at s j.
Proof.
  intros Hi. unfold task_at. cbn. case_decide as E; [subst|].
  - by apply aread_insert_eq.
  - apply aread_insert_ne; [lia|done].
Qed.
End table.

Lemma inv_task s i : sched_inv s → 0 ≤ i < task_count s → ∃ t, task_at s i = Some t.
Proof.
  intros H Hi. apply aread_is_Some. rewrite (inv_len _ H).
  pose proof (inv_count _ H). unfold MAX_TASKS in *. lia.
Qed.

(** An update of one task that keeps its state, and its frame unless the task
    is the current one, keeps the invariant. *)
Lemma inv_upd s i f t : sched_inv s → 0 ≤ i < task_count s → task_at s i = Some t →
  t_state (f t) = t_state t → (i ≠ current_task s → t_frame (f t) = t_frame t) →
  sched_inv (set_tasks (<[Z.to_nat i := f t]> (tasks s)) s).
Proof.
  intros [Hl Hc Hcur Hcs Ho Hid] Hi Ht Hst Hfr.
  assert (Hi' : 0 ≤ i < Z.of_nat (length (tasks s))) by (unfold MAX_TASKS in *; lia).
  split; cbn; try done.
  - by rewrite length_insert.
  - intros t'. rewrite task_at_insert by done. case_decide; [|by apply Hcs].
    intros [= <-]. rewrite Hst. by apply Hcs; subst.
  - intros j t' Hj Hne. rewrite task_at_insert by done. case_decide; [subst|by apply Ho].
    intros [= <-]. rewrite Hst, (Hfr Hne). by apply (Ho j t).
  - destruct Hid as (t' & Ht' & Hr). exists (if decide (i = IDLE) then f t else t').
    rewrite task_at_insert by done. case_decide; subst; [|done]. split; [done|]. rewrite Hst. congruence.
Qed.

(** Fields the invariant does not mention. *)
Lemma inv_ext s s' : sched_inv s →
  tasks s' = tasks s → task_count s' = task_count s → current_task s' = current_task s → sched_inv s'.
Proof.
  destruct s, s'; cbn. intros [Hl Hc Hcur Hcs Ho Hid] -> -> ->. split; assumption.
Qed.

(** ** The choice of the next task *)

(** [c] is the first task after [cur] in cyclic order that can run. *)
Definition next_in_cycle (s : sched) (cur c : Z) : Prop :=
  ∃ k, 1 ≤ k ≤ task_count s ∧ c = (cur + k) mod task_count s ∧ can_run s c ∧
       ∀ j, 1 ≤ j < k → ¬ can_run s ((cur + j) mod task_count s).

Lemma pick_next_wp s (Q : Z → sched → Prop) :
  length (tasks s) = 4%nat → 0 < task_count s ≤ MAX_TASKS → 0 ≤ current_task s < task_count s →
  (∃ i, 0 ≤ i < task_count s ∧ can_run s i) →
  (∀ c, next_in_cycle s (current_task s) c → Q c s) →
  wp scheduler_pick_next Q s.
Proof.
  intros Hlen Hn Hcur (i & Hi & Hrun) HQ. unfold MAX_TASKS in *.
  set (n := task_count s) in *. set (cur := current_task s) in *.
  unfold scheduler_pick_next. do 5 wp_step. fold n cur.
  apply (wp_for_exit _ _ _ (λ k s', s' = s ∧ ∀ j, 1 ≤ j < k → ¬ can_run s ((cur + j) mod n))); [lia| | |].
  - split; [done|]. lia.
  - intros k s' Hk (-> & Hno). u32_simp.
    pose proof (Z.mod_pos_bound (cur + k) n ltac:(lia)) as Hm.
    destruct (aread_is_Some (tasks s) ((cur + k) mod n)) as [t Ht]; [lia|].
    wp_step. eapply wp_get_task; [exact Ht|]. wp_step.
    destruct (runnable (t_state t)) eqn:Er.
    + wp_step. apply HQ. exists k. split_and!; try lia; try done. by exists t.
    + split; [done|]. intros j Hj. destruct (Z.eq_dec j k) as [->|]; [|apply Hno; lia].
      intros (t' & Ht' & Hr'). unfold task_at in Ht'. congruence.
  - intros s' (-> & Hno). exfalso.
    assert (Hex : ∃ k, 1 ≤ k < n + 1 ∧ (cur + k) mod n = i).
    { destruct (Z.lt_ge_cases cur i).
      - exists (i - cur). split; [lia|]. rewrite Z.mod_small; lia.
      - exists (i - cur + n). split; [lia|].
        replace (cur + (i - cur + n)) with (i + 1 * n) by lia.
        rewrite Z.mod_add, Z.mod_small; lia. }
    destruct Hex as (k & Hk & <-). by apply (Hno k).
Qed.

Lemma next_in_cycle_range s cur c : 0 < task_count s → next_in_cycle s cur c → 0 ≤ c < task_count s.
Proof. intros H (k & _ & -> & _). by apply Z.mod_pos_bound. Qed.

(** ** The switch *)

(** The task table of [s'] is the one of [s] with the task [i] replaced by [t]. *)
Record replaced (s s' : sched) (i : Z) (t : task) : Prop := {
  rp_len : length (tasks s') = length (tasks s);
  rp_at : ∀ j, task_at s' j = if decide (i = j) then Some t else task_at s j;
  rp_count : task_count s' = task_count s }.

Lemma rp_eq s s' i t : replaced s s' i t → task_at s' i = Some t.
Proof. intros R. by rewrite (rp_at _ _ _ _ R), decide_True. Qed.
Lemma rp_ne s s' i t j : replaced s s' i t → i ≠ j → task_at s' j = task_at s j.
Proof. intros R Hne. by rewrite (rp_at _ _ _ _ R), decide_False. Qed.

Lemma replaced_insert s i t t' : task_at s i = Some t' →
  replaced s (set_tasks (<[Z.to_nat i := t]> (tasks s)) s) i t.
Proof.
  intros Hi%aread_range. split; cbn; [by rewrite length_insert| |done].
  intros j. by apply task_at_insert.
Qed.

Lemma replaced_trans s s1 s2 i t1 t2 :
  replaced s s1 i t1 → replaced s1 s2 i t2 → replaced s s2 i t2.
Proof.
  intros [L1 A1 C1] [L2 A2 C2]. split; [congruence| |congruence].
  intros j. rewrite A2, A1. by case_decide.
Qed.

(** The fields other than the table and the quantum. *)
Definition same_control (s s' : sched) : Prop :=
  current_task s' = current_task s ∧ switches s' = switches s.

(** The outgoing task keeps its state unless it was running. *)
Definition suspend (frame : Z) (t : task) : task :=
  set_t_state (if bool_decide (t_state t = TASK_RUNNING) then TASK_RUNNABLE else t_state t)
              (set_t_frame frame t).

Lemma save_current_wp {A} s i t frame (k : M sched A) Q :
  task_at s i = Some t →
  (∀ s', replaced s s' i (suspend frame t) → same_control s s' → wp k Q s') →
  wp (_ ← upd_task i (set_t_frame frame);
      t ← get_task i;
      _ ← when (bool_decide (t_state t = TASK_RUNNING)) (upd_task i (set_t_state TASK_RUNNABLE));
      k) Q s.
Proof.
  intros Ht HQ. wp_step. eapply wp_upd_task; [exact Ht|].
  pose proof (replaced_insert s i (set_t_frame frame t) t Ht) as R1. set (s1 := set_tasks _ s) in *.
  pose proof (rp_eq _ _ _ _ R1) as Ht1.
  wp_step. eapply wp_get_task; [exact Ht1|]. wp_step. unfold suspend in HQ.
  cbn [t_state set_t_frame]. case_bool_decide as Es; cbn [when].
  - eapply wp_upd_task; [exact Ht1|]. apply HQ; [|done]. eapply replaced_trans; [exact R1|].
    by eapply replaced_insert.
  - wp_step. apply HQ; [|done]. replace (set_t_state (t_state t) _) with (set_t_frame frame t); [done|].
    by destruct t.
Qed.

Lemma suspend_can_run s s1 i t frame j : task_at s i = Some t →
  replaced s s1 i (suspend frame t) → can_run s1 j ↔ can_run s j.
Proof.
  intros Ht R. unfold can_run. rewrite (rp_at _ _ _ _ R). case_decide as E; [subst j|done].
  rewrite Ht. split; intros (t' & [= <-] & Hr); eexists; split; try done; revert Hr; cbn;
    case_bool_decide as Es; by rewrite ?Es.
Qed.

(** Keeping the current task. *)
Lemma stay_wp s i t frame (Q : Z → sched → Prop) : task_at s i = Some t →
  (∀ s', replaced s s' i (set_t_state TASK_RUNNING t) → same_control s s' →
     preempt_pending_flag s' = 0 → current_quantum s' = 0 → Q frame s') →
  wp (_ ← upd_task i (set_t_state TASK_RUNNING);
      _ ← modify (set_preempt_pending_flag 0);
      _ ← modify (set_current_quantum 0);
      mret frame) Q s.
Proof.
  intros Ht HQ. wp_step. eapply wp_upd_task; [exact Ht|]. wp_steps. apply HQ; try done.
  destruct (replaced_insert s i (set_t_state TASK_RUNNING t) t Ht) as [L A C]. by split.
Qed.

(** Resuming another one. *)
Lemma go_wp s c t (Q : Z → sched → Prop) : task_at s c = Some t →
  (∀ s', replaced s s' c (set_t_state TASK_RUNNING (set_t_runs (t_runs t +% 1) t)) →
     current_task s' = c → switches s' = switches s +% 1 →
     preempt_pending_flag s' = 0 → current_quantum s' = 0 → Q (t_frame t) s') →
  wp (_ ← modify (set_current_task c);
      _ ← modify (set_current_quantum 0);
      _ ← modify (set_preempt_pending_flag 0);
      _ ← modify (λ s, set_switches (switches s +% 1) s);
      _ ← upd_task c (λ t, set_t_runs (t_runs t +% 1) t);
      _ ← upd_task c (set_t_state TASK_RUNNING);
      tn ← get_task c;
      mret (t_frame tn)) Q s.
Proof.
  intros Ht HQ. do 8 wp_step. set (s2 := set_switches _ _).
  assert (Ht2 : task_at s2 c = Some t) by exact Ht.
  wp_step. eapply wp_upd_task; [exact Ht2|].
  pose proof (replaced_insert s2 c (set_t_runs (t_runs t +% 1) t) t Ht2) as R3.
  set (s3 := set_tasks _ s2) in *. pose proof (rp_eq _ _ _ _ R3) as Ht3.
  wp_step. eapply wp_upd_task; [exact Ht3|].
  pose proof (replaced_insert s3 c (set_t_state TASK_RUNNING (set_t_runs (t_runs t +% 1) t)) _ Ht3) as R4.
  set (s4 := set_tasks _ s3) in *.
  wp_step. eapply wp_get_task; [apply (rp_eq _ _ _ _ R4)|]. wp_step.
  apply HQ; try done. destruct (replaced_trans _ _ _ _ _ _ R3 R4) as [L A C]. by split.
Qed.

(** The whole effect of a switch that a pending request triggers. *)
Record switched (s : sched) (frame c r : Z) (s' : sched) : Prop := {
  sw_next : next_in_cycle s (current_task s) c;
  sw_current : current_task s' = c;
  sw_clear : preempt_pending_flag s' = 0 ∧ current_quantum s' = 0;
  sw_count : task_count s' = task_count s ∧ length (tasks s') = length (tasks s);
  sw_stay : c = current_task s → r = frame ∧ switches s' = switches s;
  sw_go : c ≠ current_task s → switches s' = switches s +% 1 ∧ r ≠ 0 ∧
    ∃ t, task_at s c = Some t ∧ r = t_frame t;
  sw_old : c ≠ current_task s → ∀ t, task_at s (current_task s) = Some t →
    task_at s' (current_task s) = Some (suspend frame t);
  sw_new : ∃ t, task_at s' c = Some t ∧ t_state t = TASK_RUNNING;
  sw_others : ∀ j, j ≠ current_task s → j ≠ c → task_at s' j = task_at s j }.

(** A task other than the current one that can run has a saved frame. *)
Lemma inv_frame s c t : sched_inv s → can_run s c → 0 ≤ c < task_count s → c ≠ current_task s →
  task_at s c = Some t → t_frame t ≠ 0.
Proof.
  intros Hinv (t' & Ht' & Hr) Hc Hne Ht. destruct (inv_others _ Hinv c t Hc Hne Ht) as [Hnr Hfr].
  apply Hfr. rewrite Ht in Ht'. injection Ht' as <-. by destruct (t_state t).
Qed.

Lemma schedule_wp s frame : sched_inv s → preempt_pending_flag s ≠ 0 →
  wp (scheduler_schedule_from_interrupt frame) (λ r s', ∃ c, switched s frame c r s') s.
Proof.
  intros Hinv Hp. pose proof (inv_count _ Hinv) as Hn. pose proof (inv_cur _ Hinv) as Hcur.
  destruct (inv_task _ _ Hinv Hcur) as [t Ht].
  unfold scheduler_schedule_from_interrupt. do 4 wp_step.
  rewrite (proj2 (Z.ltb_ge _ 2)), (proj2 (Z.eqb_neq _ 0)) by lia. cbn [orb].
  wp_step. wp_step. set (cur := current_task s) in *.
  eapply save_current_wp; [exact Ht|]. intros s1 R [Rc Rs].
  pose proof (rp_len _ _ _ _ R) as Rl. pose proof (rp_count _ _ _ _ R) as Rn.
  assert (Hrun1 : ∀ j, can_run s1 j ↔ can_run s j) by (intros; by eapply suspend_can_run).
  wp_step. apply pick_next_wp; rewrite ?Rl, ?Rn, ?Rc; try done; try (apply (inv_len _ Hinv)); try lia.
  { exists IDLE. split; [unfold IDLE; lia|]. apply Hrun1, (inv_idle _ Hinv). }
  intros c (k & Hk & Hck & Hcr & Hno). rewrite Rn in *. apply Hrun1 in Hcr.
  assert (Hc : next_in_cycle s cur c).
  { exists k. split; [done|]. split; [done|]. split; [done|]. intros j Hj. rewrite <- Hrun1. by apply Hno. }
  pose proof (next_in_cycle_range s cur c ltac:(lia) Hc) as Hcrange.
  destruct (Z.eqb_spec c cur) as [->|Hne].
  - wp_step. wp_step. eapply stay_wp; [apply (rp_eq _ _ _ _ R)|]. intros s2 R2 [Rc2 Rs2] Hp2 Hq2.
    exists cur. pose proof (replaced_trans _ _ _ _ _ _ R R2) as R02. split; try done.
    + by rewrite Rc2.
    + split; [apply (rp_count _ _ _ _ R02)|apply (rp_len _ _ _ _ R02)].
    + intros _. split; [done|congruence].
    + eexists. split; [apply (rp_eq _ _ _ _ R02)|done].
    + intros j Hj _. by apply (rp_ne _ _ _ _ j R02).
  - destruct (inv_task _ _ Hinv Hcrange) as [tc Htc].
    assert (Htc1 : task_at s1 c = Some tc) by (rewrite (rp_ne _ _ _ _ c R); done).
    assert (Hf : t_frame tc ≠ 0) by (by eapply inv_frame).
    wp_step. wp_step. eapply wp_get_task; [exact Htc1|]. wp_step.
    rewrite (proj2 (Z.eqb_neq (t_frame tc) 0)) by done.
    eapply go_wp; [exact Htc1|]. intros s2 R2 Rc2 Rs2 Hp2 Hq2. exists c. split; try done.
    + split; [rewrite (rp_count _ _ _ _ R2); done|rewrite (rp_len _ _ _ _ R2); done].
    + intros _. split; [by rewrite Rs2, Rs|]. split; [done|]. by exists tc.
    + intros _ t' Ht'. fold cur in Ht' |- *. rewrite (rp_ne _ _ _ _ _ R2), (rp_eq _ _ _ _ R) by done.
      by assert (t' = t) as -> by congruence.
    + eexists. split; [apply (rp_eq _ _ _ _ R2)|done].
    + intros j Hj1 Hj2. rewrite (rp_ne _ _ _ _ _ R2), (rp_ne _ _ _ _ _ R) by done. done.
Qed.

(** ** Preservation of the invariant *)

Lemma switched_inv s frame c r s' : frame ≠ 0 → sched_inv s → switched s frame c r s' → sched_inv s'.
Proof.
  intros Hf Hinv [Hnext Hcur _ [Hn Hl] Hstay Hgo Hold Hnew Hoth].
  pose proof (inv_count _ Hinv) as Hc. pose proof (inv_cur _ Hinv) as Hc0.
  pose proof (next_in_cycle_range s _ c ltac:(lia) Hnext) as Hcr.
  destruct Hnew as (tn & Htn & Hrn).
  split; rewrite ?Hn, ?Hl, ?Hcur; try done.
  - apply (inv_len _ Hinv).
  - intros t Ht. left. congruence.
  - intros i t Hi Hne Ht. destruct (Z.eq_dec i (current_task s)) as [->|Hic].
    + destruct (inv_task _ _ Hinv Hc0) as [t0 Ht0]. rewrite (Hold ltac:(done) t0 Ht0) in Ht.
      injection Ht as <-. cbn. destruct (inv_cur_state _ Hinv _ Ht0) as [E|E]; rewrite E;
        [rewrite bool_decide_eq_true_2 by done|rewrite bool_decide_eq_false_2 by done]; done.
    + rewrite Hoth in Ht by done. by eapply inv_others.
  - destruct (inv_idle _ Hinv) as (ti & Hti & Hri). destruct (Z.eq_dec IDLE c) as [->|Hic].
    + exists tn. rewrite Hrn. done.
    + destruct (Z.eq_dec IDLE (current_task s)) as [E|E].
      * exists (suspend frame ti). split; [rewrite E in *; by apply Hold|].
        cbn. case_bool_decide; done.
      * exists ti. rewrite Hoth by done. done.
Qed.

Lemma tick_wp s (Q : unit → sched → Prop) : sched_inv s →
  (∀ s', sched_inv s' → current_task s' = current_task s → task_count s' = task_count s →
     switches s' = switches s → current_quantum s' = current_quantum s +% 1 →
     preempt_pending_flag s' = (if TASK_QUANTUM_TICKS <=? current_quantum s +% 1 then 1
                                else preempt_pending_flag s) →
     (∀ i, t_state <$> task_at s' i = t_state <$> task_at s i) → Q tt s') →
  wp scheduler_on_tick Q s.
Proof.
  intros Hinv HQ. pose proof (inv_count _ Hinv) as Hn. pose proof (inv_cur _ Hinv) as Hcur.
  destruct (inv_task _ _ Hinv Hcur) as [t Ht].
  unfold scheduler_on_tick. wp_step. wp_step. rewrite (proj2 (Z.eqb_neq _ 0)) by lia.
  wp_step. wp_step. wp_step. eapply wp_upd_task; [exact Ht|].
  pose proof (inv_upd s _ (λ t, set_t_ticks (t_ticks t +% 1) t) t Hinv Hcur Ht eq_refl
                (λ _, eq_refl)) as Hinv1.
  pose proof (replaced_insert s _ (set_t_ticks (t_ticks t +% 1) t) t Ht) as R.
  set (s1 := set_tasks _ s) in *.
  assert (Hst : ∀ i, t_state <$> task_at s1 i = t_state <$> task_at s i).
  { intros i. rewrite (rp_at _ _ _ _ R). case_decide; [subst; by rewrite Ht|done]. }
  do 4 wp_step. apply wp_when; intros Hq; [apply wp_modify|]; apply HQ; try done;
    try (by eapply inv_ext); change (current_quantum _) with (current_quantum s +% 1) in Hq; by rewrite Hq.
Qed.

Lemma exit_wp s (Q : unit → sched → Prop) : sched_inv s → current_task s ≠ IDLE →
  (∀ s' t, sched_inv s' → replaced s s' (current_task s) (set_t_state TASK_EXITED t) →
     current_task s' = current_task s → current_quantum s' = current_quantum s → Q tt s') →
  wp task_exit_trap_body Q s.
Proof.
  intros Hinv Hne HQ. pose proof (inv_count _ Hinv) as Hn. pose proof (inv_cur _ Hinv) as Hcur.
  destruct (inv_task _ _ Hinv Hcur) as [t Ht].
  unfold task_exit_trap_body, scheduler_request_reschedule. do 3 wp_step. eapply wp_upd_task; [exact Ht|].
  pose proof (replaced_insert s _ (set_t_state TASK_EXITED t) t Ht) as [RL RA RC].
  set (s1 := set_tasks _ s) in *. wp_step. apply (HQ _ t); [|by split|done|done].
  destruct Hinv as [Hl Hc _ Hcs Ho (ti & Hti & Hri)]. split; cbn; try done.
  - by rewrite length_insert.
  - intros t'. change (task_at s1 (current_task s) = Some t' → t_state t' = TASK_RUNNING ∨ t_state t' = TASK_EXITED).
    rewrite RA, decide_True by done. intros [= <-]. by right.
  - intros i t' Hi Hi2. change (task_at s1 i = Some t' → t_state t' ≠ TASK_RUNNING ∧ (t_state t' = TASK_RUNNABLE → t_frame t' ≠ 0)).
    rewrite RA, decide_False by done. by apply Ho.
  - exists ti. split; [|done]. change (task_at s1 IDLE = Some ti). by rewrite RA, decide_False.
Qed.

Lemma io_wp s (Q : unit → sched → Prop) : sched_inv s →
  (∀ s', sched_inv s' → (∀ i, t_state <$> task_at s' i = t_state <$> task_at s i) →
     current_task s' = current_task s → current_quantum s' = current_quantum s →
     task_count s' = task_count s → Q tt s') →
  wp io_task_round Q s.
Proof.
  intros Hinv HQ. pose proof (inv_cur _ Hinv) as Hcur. destruct (inv_task _ _ Hinv Hcur) as [t Ht].
  unfold io_task_round. wp_step. wp_step. eapply wp_upd_task; [exact Ht|].
  pose proof (replaced_insert s _ (set_t_runs (t_runs t +% 1) t) t Ht) as R.
  apply HQ; [by apply inv_upd| |done|done|done].
  intros i. rewrite (rp_at _ _ _ _ R). case_decide; [subst; by rewrite Ht|done].
Qed.

(** Without a pending request an interrupt returns to where it came from. *)
Lemma schedule_idle_wp s frame (Q : Z → sched → Prop) : preempt_pending_flag s = 0 →
  Q frame s → wp (scheduler_schedule_from_interrupt frame) Q s.
Proof.
  intros Hp HQ. unfold scheduler_schedule_from_interrupt. do 4 wp_step.
  rewrite Hp, orb_true_r. by wp_step.
Qed.

(** One step of the system: it keeps the invariant and never revives a task. *)
Lemma step_preserves s s' : sched_inv s → sched_step s s' →
  sched_inv s' ∧ ∀ i, exited s i → exited s' i.
Proof.
  intros Hinv Hstep.
  assert (Hsame : ∀ s', (∀ i, t_state <$> task_at s' i = t_state <$> task_at s i) →
                        ∀ i, exited s i → exited s' i).
  { intros s2 Hst i (t & Ht & Ex). specialize (Hst i). rewrite Ht in Hst.
    apply fmap_Some in Hst as (t2 & Ht2 & E2). exists t2. split; [done|]. congruence. }
  assert (Hctl : ∀ v, sched_inv (set_preempt_pending_flag v s) ∧
                      ∀ i, exited s i → exited (set_preempt_pending_flag v s) i).
  { intros v. split; [by eapply inv_ext|done]. }
  destruct Hstep as [s s' Hr|frame r s s' Hf Hr|s s' Hr|s s' Hr|s s' Hr|s s' Hne Hr|s s' Hr].
  - by_run Hr. apply tick_wp; [done|]. intros s2 Hi2 _ _ _ _ _ Hst.
    split; [done|by apply Hsame].
  - destruct (Z.eq_dec (preempt_pending_flag s) 0) as [E|E].
    { by_run Hr. apply schedule_idle_wp; [done|]. done. }
    by_run Hr. eapply wp_mono; [by apply schedule_wp|]. intros r' s2 [c Hsw].
    split; [by eapply (switched_inv s frame c r')|]. intros i (t & Ht & Ex). destruct Hsw.
    assert (Hic : i ≠ c).
    { intros ->. destruct sw_next0 as (k & _ & _ & (t' & Ht' & Hrun) & _).
      rewrite Ht in Ht'. injection Ht' as <-. by rewrite Ex in Hrun. }
    destruct (Z.eq_dec i (current_task s)) as [->|Hne].
    + eexists. split; [by apply sw_old0|]. cbn. by rewrite Ex.
    + exists t. by rewrite sw_others0.
  - injection Hr as <-. apply Hctl.
  - injection Hr as <-. apply Hctl.
  - unfold scheduler_preempt_if_needed in Hr.
    by_run Hr. wp_step. wp_step. apply wp_when; intros _; [apply wp_modify, Hctl|done].
  - by_run Hr. apply exit_wp; [done|done|]. intros s2 t Hi2 R _ _.
    split; [done|]. intros i (t' & Ht' & Ex). destruct (Z.eq_dec (current_task s) i) as [<-|Hd].
    + eexists. split; [apply (rp_eq _ _ _ _ R)|done].
    + exists t'. by rewrite (rp_ne _ _ _ _ _ R).
  - by_run Hr. apply io_wp; [done|]. intros s2 Hi2 Hst _ _ _. split; [done|by apply Hsame].
Qed.

(** ** Initial state *)

(** The stack tops are multiples of 16 and the frame is 76 bytes long, so no
    initial frame is the null pointer. *)
Lemma initial_frame_nonnull a : Z.land a (u32 (Z.lnot 0xF)) -% sizeof_interrupt_frame ≠ 0.
Proof.
  intros H. assert (E : Z.land a (u32 (Z.lnot 0xF)) mod 16 = 0).
  { change 16 with (2 ^ 4). rewrite <- Z.land_ones, <- Z.land_assoc by lia.
    change (Z.land _ (Z.ones 4)) with 0. apply Z.land_0_r. }
  unfold u32 at 1, sizeof_interrupt_frame in H. revert H E.
  generalize (Z.land a (u32 (Z.lnot 0xF))). clear a. intros x H E.
  pose proof (Z.div_mod (x - 76) (2 ^ 32) ltac:(lia)). pose proof (Z.div_mod x 16 ltac:(lia)). lia.
Qed.

Section main.
Context (task_stacks task_exit_trap idle_task io_task : Z).
Let init := scheduler_initialize task_stacks task_exit_trap idle_task io_task.
Let reachable := sched_reachable task_stacks task_exit_trap idle_task io_task.

Lemma add_task_wp name entry (current : bool) s (Q : unit → sched → Prop) :
  length (tasks s) = 4%nat → 0 ≤ task_count s < MAX_TASKS →
  (∀ s' t, length (tasks s') = 4%nat → task_count s' = task_count s + 1 →
     (∀ j, task_at s' j = if decide (task_count s = j) then Some t else task_at s j) →
     current_task s' = current_task s →
     preempt_pending_flag s' = preempt_pending_flag s → current_quantum s' = current_quantum s →
     t_state t = (if current then TASK_RUNNING else TASK_RUNNABLE) →
     (current = false → t_frame t ≠ 0) → Q tt s') →
  wp (scheduler_add_task task_stacks task_exit_trap name entry current) Q s.
Proof.
  intros Hl Hn HQ. unfold scheduler_add_task, MAX_TASKS in *. do 2 wp_step.
  rewrite (proj2 (Z.leb_gt _ _)) by lia.
  destruct (aread_is_Some (tasks s) (task_count s)) as [t0 Ht0]; [lia|].
  wp_step. eapply wp_get_task; [exact Ht0|]. wp_step. apply wp_put_task; [by eexists|].
  set (t1 := Task _ _ _ _ _ _). pose proof (replaced_insert s (task_count s) t1 t0 Ht0) as R1.
  set (s1 := set_tasks _ s) in *.
  assert (HF : wp (if current then mret 0 else
                     create_initial_frame task_stacks task_exit_trap (task_count s) entry)
                  (λ f s2, tasks s2 = tasks s1 ∧ task_count s2 = task_count s ∧
                           current_task s2 = current_task s ∧
                           preempt_pending_flag s2 = preempt_pending_flag s ∧
                           current_quantum s2 = current_quantum s ∧ (current = false → f ≠ 0)) s1).
  { destruct current; [by wp_step|]. unfold create_initial_frame. wp_steps.
    split_and!; try done. intros _. apply initial_frame_nonnull. }
  wp_step. eapply wp_mono; [exact HF|]. intros f s2 (E2 & N2 & C2 & P2 & K2 & Hf). clear HF.
  assert (Ht2 : task_at s2 (task_count s) = Some t1)
    by (unfold task_at; rewrite E2; apply (rp_eq _ _ _ _ R1)).
  wp_step. eapply wp_upd_task; [exact Ht2|].
  pose proof (replaced_insert s2 (task_count s) (set_t_frame f t1) t1 Ht2) as [L3 A3 C3].
  wp_step. apply (HQ _ (set_t_frame f t1)); cbn.
  - by rewrite length_insert, E2, (rp_len _ _ _ _ R1).
  - rewrite N2. apply u32_small. unfold is_u32. lia.
  - intros j. etrans; [apply A3|]. case_decide; [done|]. unfold task_at. rewrite E2.
    by apply (rp_ne _ _ _ _ _ R1).
  - done.
  - done.
  - done.
  - done.
  - done.
Qed.

(** After initialization: three tasks, the shell current. *)
Lemma initialize_wp : wp init (λ _ s, sched_inv s ∧ task_count s = 3 ∧ current_task s = 0 ∧
  preempt_pending_flag s = 0 ∧ current_quantum s = 0 ∧ ∀ i, 0 ≤ i < 3 → can_run s i) sched_zero.
Proof.
  unfold init, scheduler_initialize. do 10 wp_step.
  set (s0 := set_preempt_pending_flag 0 _). wp_step.
  apply add_task_wp; [done|done|]. intros s1 t1 L1 N1 A1 C1 P1 K1 S1 _.
  change (task_count s0) with 0 in *. change (current_task s0) with 0 in C1.
  change (preempt_pending_flag s0) with 0 in P1. change (current_quantum s0) with 0 in K1. wp_step.
  apply add_task_wp; [done|rewrite N1; done|]. intros s2 t2 L2 N2 A2 C2 P2 K2 S2 F2.
  apply add_task_wp; [done|rewrite N2, N1; done|]. intros s3 t3 L3 N3 A3 C3 P3 K3 S3 F3.
  rewrite N2, N1 in *. change (0 + 1) with 1 in *. change (1 + 1) with 2 in *.
  assert (T : ∀ i t, 0 ≤ i < 3 → task_at s3 i = Some t →
              runnable (t_state t) = true ∧ (i = 0 ∧ t_state t = TASK_RUNNING ∨
              t_state t = TASK_RUNNABLE ∧ t_frame t ≠ 0)).
  { intros i t Hi. rewrite A3, A2, A1. repeat case_decide; try lia; intros [= <-].
    - rewrite S3. auto.
    - rewrite S2. auto.
    - rewrite S1. auto. }
  assert (Hrun : ∀ i, 0 ≤ i < 3 → can_run s3 i).
  { intros i Hi. destruct (aread_is_Some (tasks s3) i) as [t Ht]; [lia|]. exists t.
    split; [done|]. by eapply T. }
  assert (Ecur : current_task s3 = 0) by congruence.
  split_and!; try congruence; try done. split; rewrite ?N3, ?Ecur; try done.
  - intros t Ht. edestruct (T 0 t) as [_ [[_ ?]|[Hr _]]]; [lia|done|by left|].
    rewrite A3, A2, A1 in Ht. cbn in Ht. injection Ht as <-. by rewrite S1 in Hr.
  - intros i t Hi Hne Ht. edestruct (T i t) as [_ [[? _]|[Hr ?]]]; [done|done|done|].
    by rewrite Hr.
  - by apply Hrun.
Qed.

Lemma reachable_inv s : reachable s → sched_inv s.
Proof.
  induction 1 as [s H|s s' _ IH Hstep]; [by_run H; eapply wp_mono; [apply initialize_wp|by intros ? ? []]|]. by eapply step_preserves.
Qed.

Lemma steps_exited s s' i : sched_inv s → rtc sched_step s s' → exited s i →
  sched_inv s' ∧ exited s' i.
Proof.
  intros Hinv Hsteps. induction Hsteps as [s|s s1 s' H1 _ IH]; [done|]. intros Hex.
  destruct (step_preserves _ _ Hinv H1) as [Hinv1 Hkeep]. apply IH; [done|by apply Hkeep].
Qed.

(** The operations the interrupt handlers and the tasks call return on every
    state that satisfies the invariant. *)
Lemma inv_progress s : sched_inv s →
  is_Some (scheduler_on_tick s) ∧ (∀ frame, is_Some (scheduler_schedule_from_interrupt frame s)) ∧
  is_Some (io_task_round s) ∧ (current_task s ≠ IDLE → is_Some (task_exit_trap_body s)).
Proof.
  assert (R : ∀ {A} (m : M sched A) Q, wp m Q s → is_Some (m s))
    by (intros A m Q (a & s' & E & _); by eexists).
  intros Hinv. split_and!.
  - by apply (R _ _ (λ _ _, True)), tick_wp.
  - intros frame. destruct (Z.eq_dec (preempt_pending_flag s) 0) as [E|E].
    + by apply (R _ _ (λ _ _, True)), schedule_idle_wp.
    + by eapply R, schedule_wp.
  - by apply (R _ _ (λ _ _, True)), io_wp.
  - intros Hne. by apply (R _ _ (λ _ _, True)), exit_wp.
Qed.
End main.

(** ** Properties *)

(** C2. In every state the kernel can reach from scheduler_initialize by timer
    ticks, interrupt-driven switches, reschedule requests, task exits and task
    work, exactly the current task may be marked running: it is running or has
    exited, no other task is marked running, every other runnable task has a
    saved frame, the idle task can run, and no operation accesses the task
    table out of bounds. *)
Theorem scheduler_reachable_safe task_stacks task_exit_trap idle_task io_task s :
  sched_reachable task_stacks task_exit_trap idle_task io_task s →
  sched_inv s ∧
  is_Some (scheduler_on_tick s) ∧ (∀ frame, is_Some (scheduler_schedule_from_interrupt frame s)) ∧
  is_Some (io_task_round s) ∧ (current_task s ≠ IDLE → is_Some (task_exit_trap_body s)).
Proof. intros H%reachable_inv. split; [done|by apply inv_progress]. Qed.

(** A reschedule request is honoured by the next timer interrupt: it
    returns the frame of the first task after the current one, in cyclic
    order, that is runnable (the current one itself last), saves the
    interrupted frame in the old task, makes the old task runnable unless it
    exited, marks only the new one running, counts the switch, and clears the
    request and the quantum; the other tasks are untouched. *)
Theorem scheduler_switch_spec task_stacks task_exit_trap idle_task io_task s frame :
  sched_reachable task_stacks task_exit_trap idle_task io_task s →
  preempt_pending_flag s ≠ 0 →
  ∃ c r s', scheduler_schedule_from_interrupt frame s = Some (r, s') ∧ switched s frame c r s'.
Proof.
  intros H%reachable_inv Hp. destruct (schedule_wp s frame H Hp) as (r & s' & E & c & Hsw).
  by exists c, r, s'.
Qed.

(** A task that has exited is never resumed: whatever sequence of steps
    follows, it stays exited, and no interrupt makes it the current task
    again. *)
Theorem scheduler_exited_forever task_stacks task_exit_trap idle_task io_task s s' i frame r s'' :
  sched_reachable task_stacks task_exit_trap idle_task io_task s →
  exited s i → rtc sched_step s s' → preempt_pending_flag s' ≠ 0 →
  scheduler_schedule_from_interrupt frame s' = Some (r, s'') →
  exited s' i ∧ current_task s'' ≠ i.
Proof.
  intros H%reachable_inv Hex Hsteps Hp Hr.
  destruct (steps_exited _ _ _ H Hsteps Hex) as [Hinv Hex']. split; [done|].
  destruct (schedule_wp s' frame Hinv Hp) as (r2 & s2 & E & c & Hsw).
  rewrite Hr in E. injection E as <- <-. rewrite (sw_current _ _ _ _ _ Hsw).
  destruct (sw_next _ _ _ _ _ Hsw) as (k & _ & _ & (t & Ht & Hrun) & _). intros ->.
  destruct Hex' as (t' & Ht' & Ex). rewrite Ht in Ht'. injection Ht' as <-. by rewrite Ex in Hrun.
Qed.

(** ** Concrete runs *)

Definition demo_init : M sched unit := scheduler_initialize 0x200000 0x101000 0x101100 0x101200.
Definition state_after {A} (m : M sched A) (s : sched) : sched :=
  match m s with Some (_, s') => s' | None => s end.
Definition demo0 : sched := state_after demo_init sched_zero.
Definition demo_requested : sched := state_after scheduler_request_reschedule demo0.
(** The shell exits, and the next interrupt runs the idle task. *)
Definition demo_exited : sched := state_after task_exit_trap_body demo0.
Definition demo_resumed : sched := state_after (scheduler_schedule_from_interrupt 0x300000) demo_exited.
Definition demo_again : sched := state_after scheduler_request_reschedule demo_resumed.

Lemma demo0_reachable : sched_reachable 0x200000 0x101000 0x101100 0x101200 demo0.
Proof. apply reach_init. vm_compute. reflexivity. Defined.

Lemma scheduler_reachable_safe_witness : sched_inv demo0.
Proof. apply (scheduler_reachable_safe _ _ _ _ _ demo0_reachable). Defined.

Lemma scheduler_switch_spec_witness : ∃ c r s',
  scheduler_schedule_from_interrupt 0x300000 demo_requested = Some (r, s') ∧
  switched demo_requested 0x300000 c r s'.
Proof.
  apply (scheduler_switch_spec 0x200000 0x101000 0x101100 0x101200); [|vm_compute; discriminate].
  eapply reach_step; [apply demo0_reachable|]. apply step_request. vm_compute. reflexivity.
Defined.

Lemma scheduler_exited_forever_witness :
  exited demo_again 0 ∧
  current_task (state_after (scheduler_schedule_from_interrupt 0x300100) demo_again) ≠ 0.
Proof.
  eapply (scheduler_exited_forever 0x200000 0x101000 0x101100 0x101200 demo_exited _ 0 0x300100).
  - eapply reach_step; [apply demo0_reachable|]. apply step_exit; [vm_compute; discriminate|].
    vm_compute. reflexivity.
  - eexists. split; vm_compute; reflexivity.
  - eapply rtc_l; [|eapply rtc_l; [|apply rtc_refl]].
    + apply (step_switch 0x300000 (t_frame (default (Task "" 0 0 0 0 TASK_UNUSED) (task_at demo0 1))));
        [lia|]. vm_compute. reflexivity.
    + apply step_request. vm_compute. reflexivity.
  - vm_compute. discriminate.
  - vm_compute. reflexivity.
Defined.

(** After the exit of the shell two switches alternate idle and io. *)
Example exited_shell_skipped :
  fst <$> (_ ← scheduler_schedule_from_interrupt 0x300000;
           _ ← scheduler_request_reschedule; _ ← scheduler_schedule_from_interrupt 0x300100;
           _ ← scheduler_request_reschedule; _ ← scheduler_schedule_from_interrupt 0x300200;
           scheduler_current_task) demo_exited = Some 1.
Proof. vm_compute. reflexivity. Qed.
