(* ===== verification/Timer.v ===== *)
(** * The timer, kernel/drivers/platform/timer.c, and the timer interrupt

    The PIT driver with the part of interrupt_dispatch that serves IRQ 0, and
    the fairness of the preemption it drives: whatever the tasks do, a task
    that can run becomes the current one within a bounded number of timer
    interrupts. *)

From Stdlib Require Import ZArith Lia Bool String Ascii.
From stdpp Require Import base numbers list gmap strings.
From S2P Require Import Prelude Scheduler.

(** ** The driver *)

Definition PIT_COMMAND_PORT : Z := 0x43.
Definition PIT_CHANNEL0_PORT : Z := 0x40.
Definition PIT_BASE_FREQUENCY : Z := 1193182.
Definition PIC1_COMMAND : Z := 0x20.
Definition PIC2_COMMAND : Z := 0xA0.
Definition PIC_EOI : Z := 0x20.

(** What the driver sends to the outside, in order. *)
Inductive output := Outb (port value : Z) | SerialText (text : string).

Record timer := Timer {
  ticks : Z;
  configured_frequency : Z;
  outputs : list output;
  scheduler : sched }.

Definition set_ticks v t := Timer v (configured_frequency t) (outputs t) (scheduler t).
Definition set_frequency v t := Timer (ticks t) v (outputs t) (scheduler t).
Definition emit o t := Timer (ticks t) (configured_frequency t) (outputs t ++ [o]) (scheduler t).
Definition set_scheduler v t := Timer (ticks t) (configured_frequency t) (outputs t) v.

Definition outb (port value : Z) : M timer unit := modify (emit (Outb port value)).
Definition on_sched {A} (m : M sched A) : M timer A := zoom scheduler set_scheduler m.

Definition timer_initialize (frequency_hz : Z) : M timer unit :=
  let frequency_hz := if frequency_hz =? 0 then 100 else frequency_hz in
  _ ← modify (set_frequency frequency_hz);
  _ ← modify (set_ticks 0);
  let divisor := PIT_BASE_FREQUENCY / frequency_hz in
  let divisor := if divisor =? 0 then 1 else divisor in
  let divisor := if 0xFFFF <? divisor then 0xFFFF else divisor in
  _ ← outb PIT_COMMAND_PORT 0x36;
  _ ← outb PIT_CHANNEL0_PORT (u8 (Z.land divisor 0xFF));
  _ ← outb PIT_CHANNEL0_PORT (u8 (Z.land (Z.shiftr divisor 8) 0xFF));
  modify (emit (SerialText ("MyOS timer: PIT initialized at 100 Hz." +:+ String "010"%char ""))).

Definition timer_handle_interrupt : M timer unit :=
  _ ← modify (λ t, set_ticks (ticks t +% 1) t);
  on_sched scheduler_on_tick.

Definition timer_ticks : M timer Z := gets ticks.
Definition timer_frequency : M timer Z := gets configured_frequency.
Definition timer_uptime_seconds : M timer Z :=
  f ← gets configured_frequency;
  if f =? 0 then mret 0 else n ← timer_ticks; mret (n / f).

Definition pic_send_eoi (int_no : Z) : M timer unit :=
  _ ← when (40 <=? int_no) (outb PIC2_COMMAND PIC_EOI);
  when (32 <=? int_no) (outb PIC1_COMMAND PIC_EOI).

(** The branch of interrupt_dispatch for the vector 32. *)
Definition timer_irq (frame : Z) : M timer Z :=
  _ ← timer_handle_interrupt;
  _ ← pic_send_eoi 32;
  on_sched (scheduler_schedule_from_interrupt frame).

(** ** Runs of the system *)

(** What happens between two observations of the scheduler: a timer interrupt
    with the frame it pushed, or an action of the current task. *)
Inductive event := Irq0 (frame : Z) | Request | Yield | PreemptIfNeeded | IoRound | Exit.

Definition exec (e : event) : M timer unit :=
  match e with
  | Irq0 frame => _ ← timer_irq frame; mret tt
  | Request => on_sched scheduler_request_reschedule
  | Yield => on_sched scheduler_yield
  | PreemptIfNeeded => on_sched scheduler_preempt_if_needed
  | IoRound => on_sched io_task_round
  | Exit => on_sched task_exit_trap_body
  end.

(** The stack of an interrupted task is not at the address 0, and the idle
    task never returns. *)
Definition possible (e : event) (t : timer) : Prop :=
  match e with
  | Irq0 frame => frame ≠ 0
  | Exit => current_task (scheduler t) ≠ IDLE
  | _ => True
  end.

Inductive run : list event → timer → timer → Prop :=
  | run_nil t : run [] t t
  | run_cons e es t t1 t2 : possible e t → exec e t = Some (tt, t1) → run es t1 t2 →
      run (e :: es) t t2.

Definition is_irq0 (e : event) : bool := match e with Irq0 _ => true | _ => false end.
Fixpoint irqs (es : list event) : Z :=
  match es with [] => 0 | e :: es => (if is_irq0 e then 1 else 0) + irqs es end.

(** ** Invariant of the runs *)

Record timer_inv (t : timer) : Prop := {
  ti_sched : sched_inv (scheduler t);
  ti_quantum : 0 ≤ current_quantum (scheduler t) < TASK_QUANTUM_TICKS }.

(** Cyclic distance from the current task to [i]. *)
Definition distance (s : sched) (i : Z) : Z := (i - current_task s) mod task_count s.
Definition waiting (s : sched) (i : Z) : Z :=
  TASK_QUANTUM_TICKS * distance s i - current_quantum s.

Lemma distance_pos s i : sched_inv s → 0 ≤ i < task_count s → i ≠ current_task s →
  0 < distance s i < task_count s.
Proof.
  intros Hinv Hi Hne. pose proof (inv_cur _ Hinv). unfold distance.
  pose proof (Z.mod_pos_bound (i - current_task s) (task_count s) ltac:(lia)).
  destruct (Z.eq_dec ((i - current_task s) mod task_count s) 0) as [E|]; [|lia].
  apply Z.mod_divide in E as [k Hk]; [|lia].
  destruct (Z.lt_trichotomy k 0) as [?|[?|?]]; nia.
Qed.

(** The choice of the scheduler never passes over a task that can run. *)
Lemma next_distance s s' c i : sched_inv s → 0 ≤ i < task_count s → i ≠ current_task s →
  can_run s i → next_in_cycle s (current_task s) c →
  task_count s' = task_count s → current_task s' = c →
  distance s' i < distance s i.
Proof.
  intros Hinv Hi Hne Hrun (k & Hk & -> & _ & Hno) Hn Hc.
  pose proof (distance_pos s i Hinv Hi Hne) as Hd.
  set (d := distance s i) in *. set (n := task_count s) in *. set (cur := current_task s) in *.
  assert (Hid : i = (cur + d) mod n).
  { unfold d, distance. fold cur n. rewrite Zplus_mod_idemp_r.
    replace (cur + (i - cur)) with i by lia. by rewrite Z.mod_small. }
  assert (Hkd : k ≤ d).
  { destruct (Z.le_gt_cases k d) as [|Hgt]; [done|]. exfalso. apply (Hno d); [lia|]. by rewrite <- Hid. }
  unfold distance. rewrite Hn, Hc. rewrite Hid at 1. rewrite <- Zminus_mod.
  replace (cur + d - (cur + k)) with (d - k) by lia. rewrite Z.mod_small; lia.
Qed.

(** ** The steps *)

Lemma same_states_can_run s s' : (∀ i, t_state <$> task_at s' i = t_state <$> task_at s i) →
  ∀ i, can_run s i → can_run s' i.
Proof.
  intros St i (u & Hu & Hr). specialize (St i). rewrite Hu in St.
  apply fmap_Some in St as (u' & Hu' & E). exists u'. split; [done|]. by rewrite <- E.
Qed.

Lemma switched_can_run s frame c r s' i : switched s frame c r s' → i ≠ current_task s →
  can_run s i → can_run s' i.
Proof.
  intros Hsw Hne (u & Hu & Hr). destruct (Z.eq_dec i c) as [->|Hic].
  - destruct (sw_new _ _ _ _ _ Hsw) as (v & Hv & Ev). exists v. by rewrite Ev.
  - exists u. by rewrite (sw_others _ _ _ _ _ Hsw).
Qed.

Lemma tick_irq_wp t frame (Q : Z → timer → Prop) : timer_inv t → frame ≠ 0 →
  (∀ r t', timer_inv t' → ticks t' = ticks t +% 1 → task_count (scheduler t') = task_count (scheduler t) →
     outputs t' = outputs t ++ [Outb PIC1_COMMAND PIC_EOI] →
     (∀ i, 0 ≤ i < task_count (scheduler t) → i ≠ current_task (scheduler t) → can_run (scheduler t) i →
        can_run (scheduler t') i ∧
        (i = current_task (scheduler t') ∨ waiting (scheduler t') i < waiting (scheduler t) i)) → Q r t') →
  wp (timer_irq frame) Q t.
Proof.
  intros [Hinv Hq] Hf HQ. unfold timer_irq, timer_handle_interrupt, on_sched. do 4 wp_step.
  apply tick_wp; [done|]. cbn [scheduler set_ticks]. set (s := scheduler t) in *.
  intros s1 Hinv1 C1 N1 _ Q1 P1 St1. unfold TASK_QUANTUM_TICKS in *. u32_simp.
  assert (R1 : ∀ i, can_run s i → can_run s1 i).
  { by apply same_states_can_run. }
  wp_step. unfold pic_send_eoi. change (40 <=? 32) with false. change (32 <=? 32) with true.
  cbn [when]. unfold outb. do 3 wp_step. wp_step. cbn [scheduler set_scheduler emit].
  destruct (Z.eq_dec (preempt_pending_flag s1) 0) as [E|E].
  - apply schedule_idle_wp; [done|]. destruct (Z.leb_spec 20 (current_quantum s + 1)); [lia|].
    apply HQ; cbn; try done; [split; cbn; unfold TASK_QUANTUM_TICKS; [done|lia]|].
    intros i Hi Hne Hcan. split; [by apply R1|]. right. unfold waiting, distance.
    rewrite C1, N1, Q1. lia.
  - eapply wp_mono; [by apply schedule_wp|]. intros r s2 [c Hsw].
    pose proof (switched_inv _ _ _ _ _ Hf Hinv1 Hsw) as Hinv2.
    destruct (sw_clear _ _ _ _ _ Hsw) as [_ Q2]. destruct (sw_count _ _ _ _ _ Hsw) as [N2 _].
    apply HQ; cbn; try done; [split; cbn; unfold TASK_QUANTUM_TICKS; [done|lia]|by rewrite N2|].
    intros i Hi Hne Hcan. split; [by eapply switched_can_run; [exact Hsw| |apply R1]; rewrite ?C1|].
    right. pose proof (next_distance s1 s2 c i Hinv1 ltac:(by rewrite N1) ltac:(by rewrite C1) (R1 _ Hcan)
      (sw_next _ _ _ _ _ Hsw) N2 (sw_current _ _ _ _ _ Hsw)) as Hd.
    unfold waiting, TASK_QUANTUM_TICKS. assert (distance s1 i = distance s i) by (unfold distance; congruence).
    rewrite Q2. lia.
Qed.

(** A step that leaves the current task and its quantum alone. *)
Lemma quiet_step t s' : timer_inv t → sched_inv s' → task_count s' = task_count (scheduler t) →
  current_task s' = current_task (scheduler t) → current_quantum s' = current_quantum (scheduler t) →
  (∀ i, i ≠ current_task (scheduler t) → can_run (scheduler t) i → can_run s' i) →
  let t' := set_scheduler s' t in
  timer_inv t' ∧ task_count (scheduler t') = task_count (scheduler t) ∧
  ∀ i, 0 ≤ i < task_count (scheduler t) → i ≠ current_task (scheduler t) → can_run (scheduler t) i →
      can_run (scheduler t') i ∧
      (i = current_task (scheduler t') ∨ waiting (scheduler t') i + 0 ≤ waiting (scheduler t) i).
Proof.
  intros [_ Hq] Hs Hn Hc Hqq Hcan. cbn. split; [split; cbn; [done|by rewrite Hqq]|].
  split; [done|]. intros i Hi Hne Hr. split; [by apply Hcan|]. right.
  unfold waiting, distance. rewrite Hn, Hc, Hqq. lia.
Qed.

Lemma exec_wp e t : timer_inv t → possible e t →
  wp (exec e) (λ _ t', timer_inv t' ∧ task_count (scheduler t') = task_count (scheduler t) ∧
    ∀ i, 0 ≤ i < task_count (scheduler t) → i ≠ current_task (scheduler t) → can_run (scheduler t) i →
      can_run (scheduler t') i ∧
      (i = current_task (scheduler t') ∨
       waiting (scheduler t') i + (if is_irq0 e then 1 else 0) ≤ waiting (scheduler t) i)) t.
Proof.
  intros Hinv Hpos. pose proof (ti_sched _ Hinv) as Hs. destruct e; unfold exec, on_sched.
  - wp_step. apply tick_irq_wp; [done|done|]. intros r t' Hinv' _ Hn _ Hstep. wp_step.
    split_and!; [done|done|]. intros i Hi Hne Hcan. destruct (Hstep i Hi Hne Hcan) as [? [?|?]]; [tauto|].
    cbn. split; [done|]. right. lia.
  - wp_step. apply wp_modify. apply quiet_step; try done. by eapply inv_ext.
  - wp_step. apply wp_modify. apply quiet_step; try done. by eapply inv_ext.
  - wp_step. unfold scheduler_preempt_if_needed. do 2 wp_step. apply wp_when; intros _; [apply wp_modify|];
      apply quiet_step; try done; by eapply inv_ext.
  - wp_step. apply io_wp; [done|]. intros s' Hs' Hst Hc Hq Hn. apply quiet_step; try done.
    intros i _. by apply same_states_can_run.
  - wp_step. apply exit_wp; [done|done|]. intros s' u Hs' R Hc Hq. apply quiet_step; try done.
    + apply (rp_count _ _ _ _ R).
    + intros i Hne (v & Hv & Hr). exists v. by rewrite (rp_ne _ _ _ _ _ R).
Qed.

Lemma run_reaches i es t t' : timer_inv t → run es t t' →
  0 ≤ i < task_count (scheduler t) → can_run (scheduler t) i →
  waiting (scheduler t) i ≤ irqs es →
  ∃ es1 es2 tm, es = es1 ++ es2 ∧ run es1 t tm ∧ current_task (scheduler tm) = i.
Proof.
  intros Hinv Hrun. revert Hinv. induction Hrun as [t|e es t t1 t2 Hpos Hex Hrun IH];
    intros Hinv Hi Hcan Hw.
  - destruct (Z.eq_dec i (current_task (scheduler t))) as [->|Hne].
    { eexists [], [], t. split_and!; [done|constructor|done]. }
    pose proof (distance_pos _ i (ti_sched _ Hinv) Hi Hne). pose proof (ti_quantum _ Hinv).
    unfold waiting, TASK_QUANTUM_TICKS in *. change (irqs []) with 0 in Hw. lia.
  - destruct (Z.eq_dec i (current_task (scheduler t))) as [->|Hne].
    { eexists [], (e :: es), t. split_and!; [done|constructor|done]. }
    destruct (wp_run _ _ _ _ _ Hex (exec_wp e t Hinv Hpos)) as (Hinv1 & Hn & Hstep).
    destruct (Hstep i Hi Hne Hcan) as (Hcan1 & Hw1).
    assert (∃ es1 es2 tm, es = es1 ++ es2 ∧ run es1 t1 tm ∧ current_task (scheduler tm) = i)
      as (es1 & es2 & tm & -> & Hr & Hc).
    { destruct Hw1 as [->|Hw1]; [by eexists [], es, t1; split_and!; [done|constructor|done]|].
      apply IH; [done|by rewrite Hn|done|].
      cbn in Hw. lia. }
    exists (e :: es1), es2, tm. split_and!; [done|by econstructor|done].
Qed.

(** kernel_main initializes the scheduler, then the timer; a reachable state
    follows that and any run. *)
Section properties.
Context (task_stacks task_exit_trap idle_task io_task : Z).

Definition boot (frequency_hz : Z) : M timer unit :=
  _ ← on_sched (scheduler_initialize task_stacks task_exit_trap idle_task io_task);
  timer_initialize frequency_hz.
Definition timer_zero : timer := Timer 0 0 [] sched_zero.

Definition reachable (t : timer) : Prop :=
  ∃ f t0 es, boot f timer_zero = Some (tt, t0) ∧ run es t0 t.

Lemma run_inv es t t' : timer_inv t → run es t t' → timer_inv t' ∧ task_count (scheduler t') = task_count (scheduler t).
Proof.
  intros Hinv Hrun. revert Hinv. induction Hrun as [t|e es t t1 t2 Hpos Hex Hrun IH]; intros Hinv; [done|].
  destruct (wp_run _ _ _ _ _ Hex (exec_wp e t Hinv Hpos)) as (Hinv1 & Hn & _).
  destruct (IH Hinv1). split; [done|congruence].
Qed.

Lemma boot_wp f : wp (boot f) (λ _ t, timer_inv t ∧ task_count (scheduler t) = 3) timer_zero.
Proof.
  unfold boot, timer_initialize, outb, on_sched. do 2 wp_step.
  eapply wp_mono; [apply initialize_wp|]. intros _ s (? & ? & _ & _ & Hq & _). wp_steps.
  split; [split; cbn; [done|rewrite Hq; done]|done].
Qed.

Lemma reachable_timer_inv t : reachable t → timer_inv t ∧ task_count (scheduler t) = 3.
Proof.
  intros (f & t0 & es & Hb & Hr). destruct (wp_run _ _ _ _ _ Hb (boot_wp f)) as [H Hn].
  destruct (run_inv _ _ _ H Hr). split; [done|congruence].
Qed.
End properties.

(** C18. No task starves: from every state reachable from boot, along every run
    (timer interrupts interleaved in any way with yields, reschedule requests,
    task work and exits of other tasks) that contains 40 timer interrupts,
    each task that can run becomes the current task. *)
Theorem scheduler_no_starvation task_stacks task_exit_trap idle_task io_task t t' es i :
  reachable task_stacks task_exit_trap idle_task io_task t →
  0 ≤ i < task_count (scheduler t) → can_run (scheduler t) i →
  run es t t' → 40 ≤ irqs es →
  ∃ es1 es2 tm, es = es1 ++ es2 ∧ run es1 t tm ∧ current_task (scheduler tm) = i.
Proof.
  intros [Hinv Hn]%reachable_timer_inv Hi Hcan Hrun Hirqs. eapply run_reaches; [done|done|done|done|].
  pose proof (ti_quantum _ Hinv) as Hq. unfold waiting, distance, TASK_QUANTUM_TICKS in *.
  pose proof (Z.mod_pos_bound (i - current_task (scheduler t)) (task_count (scheduler t)) ltac:(lia)). lia.
Qed.

(** No run of the system gets stuck: every possible event executes (no
    access outside the task table), a timer interrupt counts exactly one tick
    and acknowledges exactly the master PIC. *)
Theorem timer_irq_safe task_stacks task_exit_trap idle_task io_task t :
  reachable task_stacks task_exit_trap idle_task io_task t →
  (∀ e, possible e t → ∃ t', exec e t = Some (tt, t')) ∧
  (∀ frame r t', frame ≠ 0 → timer_irq frame t = Some (r, t') →
     ticks t' = ticks t +% 1 ∧ outputs t' = outputs t ++ [Outb PIC1_COMMAND PIC_EOI]).
Proof.
  intros [Hinv _]%reachable_timer_inv. split.
  - intros e Hpos. destruct (exec_wp e t Hinv Hpos) as ([] & t' & E & _). by exists t'.
  - intros frame r t' Hf Hr. by_run Hr. by apply tick_irq_wp.
Qed.

(** timer_initialize programs the PIT with a divisor between 1 and 65535,
    low byte first: the divisor is 1193182 / frequency when that fits, the
    frequency 0 means 100 Hz, and the tick count restarts at 0. *)
Theorem timer_initialize_spec f t : is_u32 f →
  ∃ t' d, timer_initialize f t = Some (tt, t') ∧
  configured_frequency t' = (if f =? 0 then 100 else f) ∧ ticks t' = 0 ∧ scheduler t' = scheduler t ∧
  1 ≤ d ≤ 65535 ∧ d = Z.max 1 (Z.min 65535 (PIT_BASE_FREQUENCY / configured_frequency t')) ∧
  ∃ lo hi m, is_u8 lo ∧ is_u8 hi ∧ d = lo + 256 * hi ∧
    outputs t' = outputs t ++ [Outb PIT_COMMAND_PORT 0x36; Outb PIT_CHANNEL0_PORT lo;
                               Outb PIT_CHANNEL0_PORT hi; m].
Proof.
  intros Hf. set (f' := if f =? 0 then 100 else f).
  assert (Hf' : 0 < f') by (unfold f', is_u32 in *; destruct (Z.eqb_spec f 0); lia).
  set (d := Z.max 1 (Z.min 65535 (PIT_BASE_FREQUENCY / f'))).
  pose proof (Z.div_pos PIT_BASE_FREQUENCY f' ltac:(done) Hf') as Hq.
  assert (Hd : (let a := PIT_BASE_FREQUENCY / f' in let b := if a =? 0 then 1 else a in
                if 0xFFFF <? b then 0xFFFF else b) = d).
  { cbn zeta. unfold d. revert Hq. generalize (PIT_BASE_FREQUENCY / f'). intros q Hq.
    destruct (Z.eqb_spec q 0); [subst; done|]. destruct (Z.ltb_spec 65535 q); lia. }
  unfold timer_initialize. fold f'. cbn zeta in Hd |- *. rewrite Hd.
  eexists _, d. split; [reflexivity|]. cbn. split_and!; try done; try lia.
  exists (u8 (Z.land d 255)), (u8 (Z.land (Z.shiftr d 8) 255)), 
    (SerialText ("MyOS timer: PIT initialized at 100 Hz." +:+ String "010"%char "")).
  split_and!; try apply u8_range.
  - change 255 with (Z.ones 8). rewrite !Z.land_ones, Z.shiftr_div_pow2 by lia. unfold u8.
    rewrite !Z.mod_mod by lia. rewrite (Z.mod_small (d / 2 ^ 8)) by (split; [apply Z.div_pos|apply Z.div_lt_upper_bound]; lia).
    pose proof (Z.div_mod d (2 ^ 8)). lia.
  - by rewrite <- !app_assoc.
Qed.

(** ** Concrete runs *)

Definition demo_boot : M timer unit := boot 0x200000 0x101000 0x101100 0x101200 100.
Definition after_run {A} (m : M timer A) (t : timer) : timer :=
  match m t with Some (_, t') => t' | None => t end.
Definition demo_timer : timer := after_run demo_boot timer_zero.
Definition forty_irqs : list event := replicate 40 (Irq0 0x300000).
Fixpoint exec_all (es : list event) : M timer unit :=
  match es with [] => mret tt | e :: es => _ ← exec e; exec_all es end.

Lemma exec_all_run es t t' : Forall (λ e, is_irq0 e = true ∧ ∀ t, possible e t) es →
  exec_all es t = Some (tt, t') → run es t t'.
Proof.
  revert t. induction es as [|e es IH]; intros t HF H; cbn in H; [injection H as <-; constructor|].
  inversion HF as [|? ? [_ Hp] HF']; subst. unfold mbind, M_bind in H.
  destruct (exec e t) as [[[] t1]|] eqn:E; [|done]. econstructor; [done|done|by apply IH].
Qed.

Lemma demo_timer_reachable : reachable 0x200000 0x101000 0x101100 0x101200 demo_timer.
Proof.
  exists 100, demo_timer, []. split; [vm_compute; reflexivity|constructor].
Defined.

Lemma scheduler_no_starvation_witness :
  ∃ es1 es2 tm, forty_irqs = es1 ++ es2 ∧ run es1 demo_timer tm ∧ current_task (scheduler tm) = 2.
Proof.
  apply (scheduler_no_starvation 0x200000 0x101000 0x101100 0x101200 demo_timer
           (after_run (exec_all forty_irqs) demo_timer)).
  - apply demo_timer_reachable.
  - vm_compute. intuition discriminate.
  - eexists. split; vm_compute; reflexivity.
  - apply exec_all_run; [|vm_compute; reflexivity].
    apply Forall_replicate. split; [done|]. intros t. cbn. lia.
  - vm_compute. discriminate.
Defined.

Lemma timer_irq_safe_witness : ∃ t', exec (Irq0 0x300000) demo_timer = Some (tt, t').
Proof.
  apply (timer_irq_safe _ _ _ _ _ demo_timer_reachable). cbn. lia.
Defined.

Lemma timer_initialize_witness : ∃ t' d, timer_initialize 100 timer_zero = Some (tt, t') ∧
  d = 11931 ∧ ticks t' = 0.
Proof.
  destruct (timer_initialize_spec 100 timer_zero ltac:(by unfold is_u32)) as (t' & d & E & F & T & _ & _ & Hd & _).
  exists t', d. split; [done|]. split; [|done]. rewrite Hd, F. vm_compute. reflexivity.
Defined.

(** 20 interrupts are one quantum: after the 20th the idle task runs. *)
Example quantum_is_twenty :
  (fst <$> (_ ← exec_all (replicate 19 (Irq0 0x300000)); on_sched scheduler_current_task) demo_timer,
   fst <$> (_ ← exec_all (replicate 20 (Irq0 0x300000)); on_sched scheduler_current_task) demo_timer)
  = (Some 0, Some 1).
Proof. vm_compute. reflexivity. Qed.

(** Below 19 Hz the divisor saturates while the configured frequency does not:
    at 1 Hz the chip still interrupts 18 times per second, and each of them
    counts as a second of uptime. *)
Example slow_timer_uptime :
  (fst <$> (_ ← timer_initialize 1; _ ← exec_all (replicate 18 (Irq0 0x300000)); timer_uptime_seconds) demo_timer,
   outputs <$> (snd <$> timer_initialize 1 timer_zero)) =
  (Some 18, Some [Outb PIT_COMMAND_PORT 0x36; Outb PIT_CHANNEL0_PORT 255; Outb PIT_CHANNEL0_PORT 255;
                  SerialText ("MyOS timer: PIT initialized at 100 Hz." +:+ String "010"%char "")]).
Proof. vm_compute. reflexivity. Qed.
