(* ===== verification/Ring.v ===== *)
(** * Ring buffers

    The circular arrays of the input drivers: [head] is where the next element
    is written, [tail] where the next one is read, one slot stays free. A ring
    of [N] slots represents a queue of fewer than [N] elements. *)

From Stdlib Require Import ZArith Lia Bool.
From stdpp Require Import base numbers list.
From S2P Require Import Prelude.

Section ring.
Context {A : Type} (N : Z).

Record ring_repr (buf : list A) (head tail : Z) (q : list A) : Prop := {
  ring_len : Z.of_nat (length buf) = N;
  ring_tail : 0 ≤ tail < N;
  ring_size : Z.of_nat (length q) < N;
  ring_head : head = (tail + Z.of_nat (length q)) mod N;
  ring_elt : ∀ k x, q !! k = Some x → aread buf ((tail + Z.of_nat k) mod N) = Some x }.

Lemma ring_head_range buf head tail q : ring_repr buf head tail q → 0 ≤ head < N.
Proof. intros [? ? ? -> ?]. apply Z.mod_pos_bound. lia. Qed.

(** Two offsets below [N] name the same slot only if they are equal. *)
Lemma mod_offset_inj t a b : 0 ≤ a < N → 0 ≤ b < N → (t + a) mod N = (t + b) mod N → a = b.
Proof.
  intros Ha Hb E. assert (N ≠ 0) by lia.
  pose proof (Z.div_mod (t + a) N ltac:(done)) as D1. pose proof (Z.div_mod (t + b) N ltac:(done)) as D2.
  rewrite E in D1. assert (a - b = N * ((t + a) / N - (t + b) / N)) as D by lia.
  destruct (Z.lt_trichotomy ((t + a) / N - (t + b) / N) 0) as [?|[?|?]]; nia.
Qed.

Lemma ring_empty buf head tail q : ring_repr buf head tail q → (head = tail ↔ q = []).
Proof.
  intros [Hl Ht Hs Hh He]. split.
  - intros E. destruct q as [|x q]; [done|]. exfalso. rewrite E in Hh.
    rewrite <- (Z.mod_small tail N) in Hh at 1 by lia. rewrite <- (Z.add_0_r tail) in Hh at 1.
    apply mod_offset_inj in Hh; cbn in *; lia.
  - intros ->. rewrite Hh. cbn. rewrite Z.add_0_r. by apply Z.mod_small.
Qed.

Lemma ring_full buf head tail q : ring_repr buf head tail q →
  ((head + 1) mod N = tail ↔ Z.of_nat (length q) = N - 1).
Proof.
  intros [Hl Ht Hs Hh He]. rewrite Hh, Zplus_mod_idemp_l, <- Z.add_assoc. split.
  - intros E. rewrite <- (Z.mod_small tail N) in E at 2 by lia.
    rewrite <- (Z.add_0_r tail) in E at 2.
    destruct (Z.eq_dec (Z.of_nat (length q)) (N - 1)) as [|Hne]; [done|]. apply mod_offset_inj in E; lia.
  - intros ->. replace (tail + (N - 1 + 1)) with (tail + 1 * N) by lia.
    rewrite Z.mod_add by lia. by apply Z.mod_small.
Qed.

Lemma ring_push buf head tail q x : ring_repr buf head tail q → (head + 1) mod N ≠ tail →
  ring_repr (<[Z.to_nat head := x]> buf) ((head + 1) mod N) tail (q ++ [x]).
Proof.
  intros R Hnf. pose proof (ring_head_range _ _ _ _ R) as Hhr.
  pose proof (ring_full _ _ _ _ R) as Hfull. destruct R as [Hl Ht Hs Hh He].
  assert (Hs' : Z.of_nat (length q) < N - 1) by (destruct (Z.eq_dec (Z.of_nat (length q)) (N - 1)); [tauto|lia]).
  split; rewrite ?length_insert, ?length_app; cbn [length]; try done; [lia| |].
  - rewrite Hh, Zplus_mod_idemp_l. f_equal. lia.
  - intros k y Hk. apply lookup_app_Some in Hk as [Hk|[Hk Hy]].
    + pose proof (lookup_lt_Some _ _ _ Hk) as Hlt. rewrite aread_insert_ne; [by apply He|lia|].
      rewrite Hh. intros E. apply mod_offset_inj in E; lia.
    + apply list_lookup_singleton_Some in Hy as [Hk0 <-].
      replace (Z.of_nat k) with (Z.of_nat (length q)) by lia. rewrite <- Hh.
      apply aread_insert_eq. lia.
Qed.

Lemma ring_pop buf head tail x q : ring_repr buf head tail (x :: q) →
  aread buf tail = Some x ∧ ring_repr buf head ((tail + 1) mod N) q.
Proof.
  intros [Hl Ht Hs Hh He]. cbn [length] in *. split.
  - specialize (He 0%nat x eq_refl). by rewrite Z.add_0_r, Z.mod_small in He.
  - split; [done|apply Z.mod_pos_bound; lia|lia| |].
    + rewrite Zplus_mod_idemp_l, Hh. f_equal. lia.
    + intros k y Hk. rewrite Zplus_mod_idemp_l, <- Z.add_assoc.
      replace (1 + Z.of_nat k) with (Z.of_nat (S k)) by lia. by apply He.
Qed.

Lemma ring_new buf : Z.of_nat (length buf) = N → 0 < N → ring_repr buf 0 0 [].
Proof. intros Hl HN. split; [done|lia|done|by rewrite Z.mod_small|done]. Qed.
End ring.

(** The abstract queue: elements beyond the capacity [N - 1] are dropped. *)
Definition enqueue {A} (N : Z) (q : list A) (x : A) : list A :=
  if Z.of_nat (length q) <? N - 1 then q ++ [x] else q.
