(* ===== verification/Ports.v ===== *)
(** * The machine the drivers talk to

    Port input and output as an interface: the drivers are translated against
    it, a theorem that depends on how a device answers names the law it needs,
    and a concrete device discharges it. *)

From Stdlib Require Import ZArith Lia Bool String.
From stdpp Require Import base numbers list strings.
From S2P Require Import Prelude.

(** arch/x86 io.h: the two instructions, on the state [D] of the outside. *)
Class PortIO (D : Type) := {
  inb : Z → M D Z;
  outb : Z → Z → M D unit }.

(** The text consoles a driver reports to. *)
Class Console (D : Type) := {
  terminal_writestring : string → M D unit;
  serial_writestring : string → M D unit }.

Definition newline : string := String (Ascii.ascii_of_nat 10) EmptyString.

(** The 8042 controller: bit 0 of the status port says that a byte waits,
    bit 1 that the controller is still busy; reading the data port takes the
    byte. *)
Class I8042 (D : Type) `{PortIO D} := {
  waiting_bytes : D → list Z;
  status_law d : wp (inb 0x64) (λ v d',
    is_u8 v ∧ (Z.land v 0x01 ≠ 0 ↔ waiting_bytes d ≠ []) ∧ waiting_bytes d' = waiting_bytes d) d;
  data_law d : wp (inb 0x60) (λ v d',
    is_u8 v ∧ ∀ b bs, waiting_bytes d = b :: bs → v = b ∧ waiting_bytes d' = bs) d }.

Class QuietConsole (D : Type) `{I8042 D} `{Console D} := {
  terminal_law t d : wp (terminal_writestring t) (λ _ d', waiting_bytes d' = waiting_bytes d) d;
  serial_law t d : wp (serial_writestring t) (λ _ d', waiting_bytes d' = waiting_bytes d) d }.

(** ** A concrete device

    A queue of bytes that never reports busy, with a log of what was written. *)
Record pc := Pc { pc_bytes : list Z; pc_log : list (Z * Z); pc_text : list string }.

#[export] Instance pc_ports : PortIO pc := {|
  inb p := λ d,
    if p =? 0x64 then Some (if bool_decide (pc_bytes d = []) then 0 else 1, d)
    else if p =? 0x60 then
      match pc_bytes d with
      | [] => Some (0, d)
      | b :: bs => Some (u8 b, Pc bs (pc_log d) (pc_text d))
      end
    else Some (0xFF, d);
  outb p v := modify (λ d, Pc (pc_bytes d) (pc_log d ++ [(p, v)]) (pc_text d)) |}.

#[export] Instance pc_console : Console pc := {|
  terminal_writestring t := modify (λ d, Pc (pc_bytes d) (pc_log d) (pc_text d ++ [t]));
  serial_writestring t := modify (λ d, Pc (pc_bytes d) (pc_log d) (pc_text d ++ [t])) |}.

(** The bytes on the wire. *)
#[export, program] Instance pc_8042 : I8042 pc := {| waiting_bytes d := u8 <$> pc_bytes d |}.
Next Obligation.
  intros d. eexists _, d. split; [reflexivity|]. case_bool_decide as E.
  - rewrite E. split; [done|]. split; [|done]. by split.
  - split; [done|]. split; [|done]. split; [|done]. intros _ F. by apply fmap_nil_inv in F.
Qed.
Next Obligation.
  intros d. unfold inb. cbn. unfold wp. destruct (pc_bytes d) as [|b bs] eqn:E.
  - eexists _, d. split; [reflexivity|]. split; [done|]. intros b' bs' F. done.
  - eexists _, _. split; [reflexivity|]. split; [apply u8_range|]. intros b' bs' [= <- <-]. done.
Qed.

#[export] Instance pc_quiet : QuietConsole pc.
Proof. split; intros t d; by apply wp_modify. Qed.

(** A device that answers every access. *)
Class TotalPorts (D : Type) `{PortIO D, Console D} := {
  inb_total p d : wp (inb p) (λ v _, is_u8 v) d;
  outb_total p v d : wp (outb p v) (λ _ _, True) d;
  terminal_total t d : wp (terminal_writestring t) (λ _ _, True) d;
  serial_total t d : wp (serial_writestring t) (λ _ _, True) d }.

#[export] Instance pc_total : TotalPorts pc.
Proof.
  split; intros; try by apply wp_modify.
  unfold inb, wp. cbn. destruct (p =? 0x64); [eexists _, _; split; [reflexivity|]; by case_bool_decide|].
  destruct (p =? 0x60); [destruct (pc_bytes d)|]; (eexists _, _; split; [reflexivity|]); try done. apply u8_range.
Qed.
