(* ===== verification/Keyboard.v ===== *)
(** * The PS/2 keyboard driver, kernel/drivers/input/keyboard.c

    The scancode decoder with its modifier state and the two ring buffers it
    fills, and its refinement to an abstract keyboard: two bounded queues and
    a decoding function. *)

From Stdlib Require Import ZArith Lia Bool String Ascii.
From stdpp Require Import base numbers list strings.
From S2P Require Import Prelude Ring Ports.

(** ** Constants and data *)

Definition KEYBOARD_DATA_PORT : Z := 0x60.
Definition KEYBOARD_STATUS_PORT : Z := 0x64.
Definition KEYBOARD_BUFFER_SIZE : Z := 128.
Definition KEYBOARD_EVENT_BUFFER_SIZE : Z := 128.

Definition KEYBOARD_MOD_SHIFT : Z := 0x01.
Definition KEYBOARD_MOD_CTRL : Z := 0x02.
Definition KEYBOARD_MOD_ALT : Z := 0x04.
Definition KEYBOARD_MOD_CAPS : Z := 0x08.

Definition GUI_KEY_F1 : Z := 16.
Definition GUI_KEY_F2 : Z := 17.
Definition GUI_KEY_F3 : Z := 18.
Definition GUI_KEY_F4 : Z := 19.
Definition GUI_KEY_F5 : Z := 20.
Definition GUI_KEY_CTRL_S : Z := 21.
Definition GUI_KEY_PAGE_UP : Z := 22.
Definition GUI_KEY_PAGE_DOWN : Z := 23.
Definition GUI_KEY_ARROW_UP : Z := 24.
Definition GUI_KEY_ARROW_DOWN : Z := 25.

(** The character codes of a string literal. *)
Definition codes (s : string) : list Z := (λ c, Z.of_N (N_of_ascii c)) <$> list_ascii_of_string s.

Definition scancode_ascii : list Z :=
  [0; 27] ++ codes "1234567890-=" ++ [8; 9] ++ codes "qwertyuiop[]" ++ [10; 0] ++
  codes "asdfghjkl;'`" ++ [0; 92] ++ codes "zxcvbnm,./" ++ [0] ++ codes "*" ++ [0; 32] ++ replicate 70 0.

Definition scancode_ascii_shift : list Z :=
  [0; 27] ++ codes "!@#$%^&*()_+" ++ [8; 9] ++ codes "QWERTYUIOP{}" ++ [10; 0] ++
  codes "ASDFGHJKL:" ++ [34] ++ codes "~" ++ [0] ++ codes "|ZXCVBNM<>?" ++ [0] ++ codes "*" ++ [0; 32] ++ replicate 70 0.

Record keyboard_event := KeyboardEvent {
  keycode : Z; ascii : Z; pressed : bool; modifiers : Z }.

Record kbd := Kbd {
  key_buffer : list Z; key_head : Z; key_tail : Z;
  event_buffer : list keyboard_event; event_head : Z; event_tail : Z;
  shift_down : bool; ctrl_down : bool; alt_down : bool; caps_lock : bool;
  extended_scancode : bool }.

Definition set_keys b h k := Kbd b h (key_tail k) (event_buffer k) (event_head k) (event_tail k)
  (shift_down k) (ctrl_down k) (alt_down k) (caps_lock k) (extended_scancode k).
Definition set_key_tail v k := Kbd (key_buffer k) (key_head k) v (event_buffer k) (event_head k) (event_tail k)
  (shift_down k) (ctrl_down k) (alt_down k) (caps_lock k) (extended_scancode k).
Definition set_events b h k := Kbd (key_buffer k) (key_head k) (key_tail k) b h (event_tail k)
  (shift_down k) (ctrl_down k) (alt_down k) (caps_lock k) (extended_scancode k).
Definition set_event_tail v k := Kbd (key_buffer k) (key_head k) (key_tail k) (event_buffer k) (event_head k) v
  (shift_down k) (ctrl_down k) (alt_down k) (caps_lock k) (extended_scancode k).
Definition set_shift_down v k := Kbd (key_buffer k) (key_head k) (key_tail k) (event_buffer k) (event_head k)
  (event_tail k) v (ctrl_down k) (alt_down k) (caps_lock k) (extended_scancode k).
Definition set_ctrl_down v k := Kbd (key_buffer k) (key_head k) (key_tail k) (event_buffer k) (event_head k)
  (event_tail k) (shift_down k) v (alt_down k) (caps_lock k) (extended_scancode k).
Definition set_alt_down v k := Kbd (key_buffer k) (key_head k) (key_tail k) (event_buffer k) (event_head k)
  (event_tail k) (shift_down k) (ctrl_down k) v (caps_lock k) (extended_scancode k).
Definition set_caps_lock v k := Kbd (key_buffer k) (key_head k) (key_tail k) (event_buffer k) (event_head k)
  (event_tail k) (shift_down k) (ctrl_down k) (alt_down k) v (extended_scancode k).
Definition set_extended_scancode v k := Kbd (key_buffer k) (key_head k) (key_tail k) (event_buffer k)
  (event_head k) (event_tail k) (shift_down k) (ctrl_down k) (alt_down k) (caps_lock k) v.

(** ** Operations *)

Definition is_letter (c : Z) : bool := (97 <=? c) && (c <=? 122).

Definition keyboard_buffer_push (c : Z) : M kbd unit :=
  h ← gets key_head; t ← gets key_tail;
  let next_head := (h +% 1) mod KEYBOARD_BUFFER_SIZE in
  if next_head =? t then mret tt
  else
    b ← gets key_buffer;
    b' ← lift (awrite b h c);
    modify (set_keys b' next_head).

Definition current_modifiers : M kbd Z :=
  s ← gets shift_down; c ← gets ctrl_down; a ← gets alt_down; l ← gets caps_lock;
  let mods := 0 in
  let mods := if (s : bool) then Z.lor mods KEYBOARD_MOD_SHIFT else mods in
  let mods := if (c : bool) then Z.lor mods KEYBOARD_MOD_CTRL else mods in
  let mods := if (a : bool) then Z.lor mods KEYBOARD_MOD_ALT else mods in
  mret (if (l : bool) then Z.lor mods KEYBOARD_MOD_CAPS else mods).

Definition keyboard_event_push (keycode ascii : Z) (pressed : bool) : M kbd unit :=
  h ← gets event_head; t ← gets event_tail;
  let next_head := (h +% 1) mod KEYBOARD_EVENT_BUFFER_SIZE in
  if next_head =? t then mret tt
  else
    m ← current_modifiers;
    b ← gets event_buffer;
    b' ← lift (awrite b h (KeyboardEvent keycode ascii pressed m));
    modify (set_events b' next_head).

(** [None] is the return value false; [*out] is not written then. *)
Definition keyboard_event_pop : M kbd (option keyboard_event) :=
  h ← gets event_head; t ← gets event_tail;
  if h =? t then mret None
  else
    b ← gets event_buffer; e ← lift (aread b t);
    _ ← modify (set_event_tail ((t +% 1) mod KEYBOARD_EVENT_BUFFER_SIZE));
    mret (Some e).

Definition keyboard_buffer_pop : M kbd (option Z) :=
  h ← gets key_head; t ← gets key_tail;
  if h =? t then mret None
  else
    b ← gets key_buffer; c ← lift (aread b t);
    _ ← modify (set_key_tail ((t +% 1) mod KEYBOARD_BUFFER_SIZE));
    mret (Some c).

(** Both run with interrupts off; [out] is a valid pointer. *)
Definition keyboard_try_read_event : M kbd (option keyboard_event) := keyboard_event_pop.
Definition keyboard_try_read_char : M kbd (option Z) := keyboard_buffer_pop.

(** One round of the loop of [keyboard_read_char], up to the halt. *)
Definition keyboard_read_char_round : M kbd (option Z) := keyboard_buffer_pop.

(** The keys that put both a character and an event into the buffers. *)
Definition push_both (keycode c : Z) : M kbd unit :=
  _ ← keyboard_buffer_push c; keyboard_event_push keycode c true.

(** [scancode] is the byte that [inb(KEYBOARD_DATA_PORT)] returned. *)
Definition keyboard_handle_scancode (scancode : Z) : M kbd unit :=
  if scancode =? 0xE0 then modify (set_extended_scancode true)
  else
    let release := negb (Z.land scancode 0x80 =? 0) in
    let code := Z.land scancode 0x7F in
    ext ← gets extended_scancode;
    let keycode := if (ext : bool) then Z.lor 0xE000 code else code in
    _ ← modify (set_extended_scancode false);
    if (code =? 0x2A) || (code =? 0x36) then
      _ ← modify (set_shift_down (negb release)); keyboard_event_push keycode 0 (negb release)
    else if code =? 0x1D then
      _ ← modify (set_ctrl_down (negb release)); keyboard_event_push keycode 0 (negb release)
    else if code =? 0x38 then
      _ ← modify (set_alt_down (negb release)); keyboard_event_push keycode 0 (negb release)
    else if release then keyboard_event_push keycode 0 false
    else if code =? 0x3A then
      _ ← modify (λ k, set_caps_lock (negb (caps_lock k)) k); keyboard_event_push keycode 0 true
    else if code =? 0x49 then push_both keycode GUI_KEY_PAGE_UP
    else if code =? 0x51 then push_both keycode GUI_KEY_PAGE_DOWN
    else if code =? 0x48 then push_both keycode GUI_KEY_ARROW_UP
    else if code =? 0x50 then push_both keycode GUI_KEY_ARROW_DOWN
    else if code =? 0x3B then push_both keycode GUI_KEY_F1
    else if code =? 0x3C then push_both keycode GUI_KEY_F2
    else if code =? 0x3D then push_both keycode GUI_KEY_F3
    else if code =? 0x3E then push_both keycode GUI_KEY_F4
    else if code =? 0x3F then push_both keycode GUI_KEY_F5
    else
      ctrl ← gets ctrl_down;
      if (ctrl : bool) && (code =? 0x1F) then push_both keycode GUI_KEY_CTRL_S
      else
        shift ← gets shift_down;
        lower ← lift (aread scancode_ascii code);
        c ← (if (shift : bool) then lift (aread scancode_ascii_shift code) else mret lower);
        if c =? 0 then keyboard_event_push keycode 0 true
        else
          caps ← gets caps_lock;
          let c := if is_letter lower && negb (eqb caps shift) then lower - 97 + 65 else c in
          push_both keycode c.

Section device.
Context {D : Type} `{PortIO D, Console D}.

(** The loop that empties the controller, then the two messages. *)
Definition drain_step (_ : unit) : M D (unit + unit) :=
  st ← inb KEYBOARD_STATUS_PORT;
  if Z.land st 0x01 =? 0 then mret (inr tt)
  else _ ← inb KEYBOARD_DATA_PORT; mret (inl tt).

Definition keyboard_initialize (fuel : nat) : M D unit :=
  _ ← iterate fuel drain_step tt;
  _ ← terminal_writestring ("Keyboard IRQ1 enabled." +:+ newline);
  serial_writestring ("MyOS keyboard: IRQ1 enabled." +:+ newline).

Definition keyboard_handle_interrupt : M (kbd * D) unit :=
  scancode ← zoom snd (λ d s, (fst s, d)) (inb KEYBOARD_DATA_PORT);
  zoom fst (λ k s, (k, snd s)) (keyboard_handle_scancode scancode).
End device.

Definition kbd_zero : kbd :=
  Kbd (replicate 128 0) 0 0 (replicate 128 (KeyboardEvent 0 0 false 0)) 0 0
      false false false false false.

Example table_lengths : (length scancode_ascii, length scancode_ascii_shift) = (128%nat, 128%nat).
Proof. vm_compute. reflexivity. Qed.

(** ** The abstract keyboard *)

(** Which modifiers are held, which toggle is on, and what waits to be read. *)
Record akbd := AKbd {
  a_shift : bool; a_ctrl : bool; a_alt : bool; a_caps : bool; a_extended : bool;
  a_keys : list Z; a_events : list keyboard_event }.

Definition akbd_zero : akbd := AKbd false false false false false [] [].

Definition code_of (sc : Z) : Z := Z.land sc 0x7F.
Definition is_release (sc : Z) : bool := negb (Z.land sc 0x80 =? 0).
Definition shift_code (c : Z) : bool := (c =? 0x2A) || (c =? 0x36).

Definition function_keys : list (Z * Z) :=
  [(0x49, GUI_KEY_PAGE_UP); (0x51, GUI_KEY_PAGE_DOWN); (0x48, GUI_KEY_ARROW_UP);
   (0x50, GUI_KEY_ARROW_DOWN); (0x3B, GUI_KEY_F1); (0x3C, GUI_KEY_F2); (0x3D, GUI_KEY_F3);
   (0x3E, GUI_KEY_F4); (0x3F, GUI_KEY_F5)].

Fixpoint assoc (c : Z) (l : list (Z * Z)) : option Z :=
  match l with [] => None | (k, v) :: l => if c =? k then Some v else assoc c l end.

(** The character of a key of the main block: a letter is upper case when
    shift is held or caps lock is on, any other key has the symbol of its
    shift level. *)
Definition typed (shift caps : bool) (code : Z) : Z :=
  let base := default 0 (aread scancode_ascii code) in
  if is_letter base then (if shift || caps then base - 32 else base)
  else if shift then default 0 (aread scancode_ascii_shift code) else base.

(** The character a press produces, 0 for none. *)
Definition char_of (a : akbd) (code : Z) : Z :=
  if shift_code code || (code =? 0x1D) || (code =? 0x38) || (code =? 0x3A) then 0
  else match assoc code function_keys with
       | Some v => v
       | None => if a_ctrl a && (code =? 0x1F) then GUI_KEY_CTRL_S else typed (a_shift a) (a_caps a) code
       end.

Definition mods_byte (a : akbd) : Z :=
  Z.b2z (a_shift a) + 2 * Z.b2z (a_ctrl a) + 4 * Z.b2z (a_alt a) + 8 * Z.b2z (a_caps a).

(** The modifiers after a scancode. *)
Definition update_mods (sc : Z) (a : akbd) : akbd :=
  let c := code_of sc in
  let down := negb (is_release sc) in
  AKbd (if shift_code c then down else a_shift a)
       (if c =? 0x1D then down else a_ctrl a)
       (if c =? 0x38 then down else a_alt a)
       (if (c =? 0x3A) && down then negb (a_caps a) else a_caps a)
       false (a_keys a) (a_events a).

(** One event with the current modifiers, and a character unless it is 0; full
    queues drop. *)
Definition accept (kc ch : Z) (down : bool) (a : akbd) : akbd :=
  AKbd (a_shift a) (a_ctrl a) (a_alt a) (a_caps a) (a_extended a)
       (if ch =? 0 then a_keys a else enqueue KEYBOARD_BUFFER_SIZE (a_keys a) ch)
       (enqueue KEYBOARD_EVENT_BUFFER_SIZE (a_events a) (KeyboardEvent kc ch down (mods_byte a))).

(** Every scancode but the prefix is one event; a press of a key with a
    character is also that character. *)
Definition spec_scancode (sc : Z) (a : akbd) : akbd :=
  if sc =? 0xE0 then AKbd (a_shift a) (a_ctrl a) (a_alt a) (a_caps a) true (a_keys a) (a_events a)
  else
    let a' := update_mods sc a in
    let kc := if a_extended a then 0xE000 + code_of sc else code_of sc in
    accept kc (if is_release sc then 0 else char_of a' (code_of sc)) (negb (is_release sc)) a'.

(** What a client sees. *)
Inductive kop := OpScancode (sc : Z) | OpReadChar | OpReadEvent.
Inductive kobs := ObsNone | ObsChar (c : option Z) | ObsEvent (e : option keyboard_event).

Definition kexec (op : kop) : M kbd kobs :=
  match op with
  | OpScancode sc => _ ← keyboard_handle_scancode sc; mret ObsNone
  | OpReadChar => c ← keyboard_try_read_char; mret (ObsChar c)
  | OpReadEvent => e ← keyboard_try_read_event; mret (ObsEvent e)
  end.

Definition aexec (op : kop) (a : akbd) : kobs * akbd :=
  match op with
  | OpScancode sc => (ObsNone, spec_scancode sc a)
  | OpReadChar => (ObsChar (head (a_keys a)),
      AKbd (a_shift a) (a_ctrl a) (a_alt a) (a_caps a) (a_extended a) (tail (a_keys a)) (a_events a))
  | OpReadEvent => (ObsEvent (head (a_events a)),
      AKbd (a_shift a) (a_ctrl a) (a_alt a) (a_caps a) (a_extended a) (a_keys a) (tail (a_events a)))
  end.

Fixpoint kexec_all (ops : list kop) : M kbd (list kobs) :=
  match ops with
  | [] => mret []
  | op :: ops => o ← kexec op; os ← kexec_all ops; mret (o :: os)
  end.
Fixpoint aexec_all (ops : list kop) (a : akbd) : list kobs * akbd :=
  match ops with
  | [] => ([], a)
  | op :: ops => let '(o, a1) := aexec op a in let '(os, a2) := aexec_all ops a1 in (o :: os, a2)
  end.

(** ** Simulation relation *)

Record kbd_rel (k : kbd) (a : akbd) : Prop := {
  kr_flags : (shift_down k, ctrl_down k, alt_down k, caps_lock k, extended_scancode k) =
             (a_shift a, a_ctrl a, a_alt a, a_caps a, a_extended a);
  kr_keys : ring_repr KEYBOARD_BUFFER_SIZE (key_buffer k) (key_head k) (key_tail k) (a_keys a);
  kr_events : ring_repr KEYBOARD_EVENT_BUFFER_SIZE (event_buffer k) (event_head k) (event_tail k) (a_events a) }.

Lemma kbd_rel_zero : kbd_rel kbd_zero akbd_zero.
Proof. split; [done| |]; by apply ring_new. Qed.

Definition with_keys q a :=
  AKbd (a_shift a) (a_ctrl a) (a_alt a) (a_caps a) (a_extended a) q (a_events a).
Definition with_events q a :=
  AKbd (a_shift a) (a_ctrl a) (a_alt a) (a_caps a) (a_extended a) (a_keys a) q.

Lemma next_slot N buf h t (q : list N) : ring_repr 128 buf h t q → u32 (h + 1) mod 128 = (h + 1) mod 128.
Proof. intros R%ring_head_range. by u32_simp. Qed.

Lemma key_push_wp k a c : kbd_rel k a →
  wp (keyboard_buffer_push c) (λ _ k', kbd_rel k' (with_keys (enqueue KEYBOARD_BUFFER_SIZE (a_keys a) c) a)) k.
Proof.
  intros [Hf Hk He]. pose proof (ring_full _ _ _ _ _ Hk) as Hfull. pose proof (ring_size _ _ _ _ _ Hk).
  pose proof (ring_head_range _ _ _ _ _ Hk) as Hh. pose proof (ring_len _ _ _ _ _ Hk) as Hl.
  unfold keyboard_buffer_push, enqueue, KEYBOARD_BUFFER_SIZE in *. do 4 wp_step.
  rewrite (next_slot _ _ _ _ _ Hk). destruct (Z.eqb_spec ((key_head k + 1) mod 128) (key_tail k)) as [E|E].
  - wp_step. rewrite (proj2 (Z.ltb_ge _ _)) by lia. by split.
  - rewrite (proj2 (Z.ltb_lt _ _)) by lia. do 3 wp_step.
    eapply wp_lift; [apply awrite_eq; lia|]. wp_step. split; [done| |done]. by apply ring_push.
Qed.

Lemma current_modifiers_wp k a : kbd_rel k a → wp current_modifiers (λ m k', k' = k ∧ m = mods_byte a) k.
Proof.
  intros [Hf _ _]. injection Hf as E1 E2 E3 E4 _. unfold current_modifiers, mods_byte. wp_steps; split; try done;
    rewrite <- E1, <- E2, <- E3, <- E4; destruct (shift_down k), (ctrl_down k), (alt_down k), (caps_lock k); done.
Qed.

Lemma event_push_wp k a kc ch p : kbd_rel k a →
  wp (keyboard_event_push kc ch p) (λ _ k', kbd_rel k'
    (with_events (enqueue KEYBOARD_EVENT_BUFFER_SIZE (a_events a) (KeyboardEvent kc ch p (mods_byte a))) a)) k.
Proof.
  intros Hrel. pose proof Hrel as [Hf Hk He].
  pose proof (ring_full _ _ _ _ _ He) as Hfull. pose proof (ring_size _ _ _ _ _ He).
  pose proof (ring_head_range _ _ _ _ _ He) as Hh. pose proof (ring_len _ _ _ _ _ He) as Hl.
  unfold keyboard_event_push, enqueue, KEYBOARD_EVENT_BUFFER_SIZE in *. do 4 wp_step.
  rewrite (next_slot _ _ _ _ _ He). destruct (Z.eqb_spec ((event_head k + 1) mod 128) (event_tail k)) as [E|E].
  - wp_step. rewrite (proj2 (Z.ltb_ge _ _)) by lia. by split.
  - rewrite (proj2 (Z.ltb_lt _ _)) by lia. wp_step. eapply wp_mono; [by apply current_modifiers_wp|].
    intros m k' [-> ->]. do 3 wp_step.
    eapply wp_lift; [apply awrite_eq; lia|]. wp_step. split; [done|done|]. by apply ring_push.
Qed.

Lemma event_only_wp k a kc p : kbd_rel k a →
  wp (keyboard_event_push kc 0 p) (λ _ k', kbd_rel k' (accept kc 0 p a)) k.
Proof. apply event_push_wp. Qed.

Lemma push_both_wp k a kc c : kbd_rel k a → c ≠ 0 →
  wp (push_both kc c) (λ _ k', kbd_rel k' (accept kc c true a)) k.
Proof.
  intros Hrel Hc. unfold push_both. wp_step. eapply wp_mono; [by apply key_push_wp|].
  intros [] k' Hrel'. unfold accept. rewrite (proj2 (Z.eqb_neq c 0)) by done.
  apply (event_push_wp _ _ kc c true Hrel').
Qed.

(** The tables agree with [typed]. *)
Lemma typed_table code : 0 ≤ code < 128 → ∃ lo hi,
  aread scancode_ascii code = Some lo ∧ aread scancode_ascii_shift code = Some hi ∧
  ∀ shift caps : bool, let c := if shift then hi else lo in
    typed shift caps code = (if c =? 0 then 0 else if is_letter lo && negb (eqb caps shift) then lo - 97 + 65 else c).
Proof.
  intros H. destruct (aread_is_Some scancode_ascii code) as [lo Hlo]; [by rewrite (eq_refl : length scancode_ascii = 128%nat)|].
  destruct (aread_is_Some scancode_ascii_shift code) as [hi Hhi];
    [by rewrite (eq_refl : length scancode_ascii_shift = 128%nat)|].
  exists lo, hi. split; [done|]. split; [done|].
  assert (Hall : forallb (λ p : Z * Z,
    implb (is_letter (fst p)) ((snd p =? fst p - 32) && negb (snd p =? 0))) (zip scancode_ascii scancode_ascii_shift) = true) by (vm_compute; reflexivity).
  rewrite forallb_forall in Hall. specialize (Hall (lo, hi)). cbn [fst snd] in Hall.
  assert (Hin : (lo, hi) ∈ zip scancode_ascii scancode_ascii_shift).
  { apply list_elem_of_lookup. exists (Z.to_nat code). apply lookup_zip_with_Some.
    apply aread_Some in Hlo as [_ Hlo], Hhi as [_ Hhi]. by exists lo, hi. }
  apply list_elem_of_In, Hall in Hin as Hl.
  intros shift caps. unfold typed. rewrite Hlo, Hhi. cbn [default from_option id].
  destruct (is_letter lo) eqn:El; cbn [implb andb] in *.
  - bool_to_prop. unfold is_letter in El. bool_to_prop. subst hi.
    destruct shift, caps; cbn; try (destruct (Z.eqb_spec lo 0); lia); destruct (Z.eqb_spec (lo - 32) 0); lia.
  - destruct shift; [destruct (Z.eqb_spec hi 0)|destruct (Z.eqb_spec lo 0)]; done.
Qed.

Lemma code_range sc : 0 ≤ code_of sc < 128.
Proof. unfold code_of. change 0x7F with (Z.ones 7). rewrite Z.land_ones by lia. apply Z.mod_pos_bound. lia. Qed.

Lemma extended_keycode sc : Z.lor 0xE000 (code_of sc) = 0xE000 + code_of sc.
Proof.
  unfold code_of. assert (E : Z.land 0xE000 (Z.land sc 0x7F) = 0).
  { rewrite (Z.land_comm sc), Z.land_assoc. done. }
  by rewrite Z.add_nocarry_lxor, Z.lxor_lor.
Qed.

(** A key with a fixed role: the constants decide every test. *)
Ltac fixed_key sc :=
  cbn [orb andb negb Z.eqb Pos.eqb assoc function_keys];
  destruct (is_release sc); cbn [orb andb negb Z.eqb Pos.eqb];
  repeat first [apply event_only_wp | apply push_both_wp; [|done] | wp_step];
  split; cbn; congruence || done.

(** The handler implements the abstract step. *)
Lemma scancode_wp k a sc : kbd_rel k a →
  wp (keyboard_handle_scancode sc) (λ _ k', kbd_rel k' (spec_scancode sc a)) k.
Proof.
  intros Hrel. pose proof Hrel as [Hf Hk He]. injection Hf as E1 E2 E3 E4 E5.
  unfold keyboard_handle_scancode, spec_scancode. destruct (sc =? 0xE0) eqn:Epre.
  { wp_step. split; [cbn; congruence|done|done]. }
  fold (code_of sc) (is_release sc). do 4 wp_step. rewrite E5.
  replace (Z.lor 0xE000 (code_of sc)) with (0xE000 + code_of sc) by (by rewrite extended_keycode).
  set (kc := if a_extended a then _ else _). clearbody kc.
  pose proof (code_range sc) as Hcode. unfold char_of, update_mods. cbn zeta. unfold shift_code.
  cbn [a_shift a_ctrl a_alt a_caps a_extended a_keys a_events assoc function_keys].
  generalize dependent (code_of sc). intros code Hcode.
  repeat match goal with
  | |- context [code =? ?c] =>
      lazymatch c with 31 => fail | _ => idtac end;
      destruct (Z.eqb_spec code c) as [->|?]; [fixed_key sc|]
  end.
  cbn [orb andb].
  assert (Hrel' : kbd_rel (set_extended_scancode false k)
    (AKbd (a_shift a) (a_ctrl a) (a_alt a) (a_caps a) false (a_keys a) (a_events a))) by (split; cbn; congruence || done).
  destruct (is_release sc); [by apply event_only_wp|]. cbn [negb].
  do 2 wp_step. cbn [ctrl_down set_extended_scancode]. rewrite E2.
  destruct (a_ctrl a && (code =? 0x1F)); [by apply push_both_wp|].
  destruct (typed_table code Hcode) as (lo & hi & Hlo & Hhi & Ht).
  do 3 wp_step. eapply wp_lift; [exact Hlo|]. wp_step. cbn [shift_down set_extended_scancode]. rewrite E1.
  eapply (wp_mono _ (λ c k', k' = set_extended_scancode false k ∧ c = if a_shift a then hi else lo)).
  { destruct (a_shift a); [eapply wp_lift; [exact Hhi|]|wp_step]; done. }
  intros c k' [-> ->]. rewrite Ht. destruct (Z.eqb_spec (if a_shift a then hi else lo) 0) as [E|E].
  { by apply event_only_wp. }
  do 2 wp_step. cbn [caps_lock set_extended_scancode]. rewrite E4. apply push_both_wp; [done|].
  destruct (is_letter lo) eqn:El; [|done]. unfold is_letter in El. bool_to_prop. cbn [andb].
  destruct (negb _); [lia|done].
Qed.

Lemma read_char_wp k a : kbd_rel k a → wp keyboard_try_read_char (λ c k',
  c = head (a_keys a) ∧ kbd_rel k' (with_keys (tail (a_keys a)) a)) k.
Proof.
  intros [Hf Hk He]. pose proof (ring_empty _ _ _ _ _ Hk) as Hemp.
  pose proof (ring_tail _ _ _ _ _ Hk) as Ht. unfold keyboard_try_read_char, keyboard_buffer_pop. do 4 wp_step.
  destruct (Z.eqb_spec (key_head k) (key_tail k)) as [E|E].
  - wp_step. apply Hemp in E. rewrite E in *. split; [done|]. by split.
  - destruct (a_keys a) as [|c q] eqn:Eq; [tauto|]. apply ring_pop in Hk as [Hr Hk].
    do 3 wp_step. eapply wp_lift; [exact Hr|]. wp_steps. split; [done|]. split; [done| |done].
    cbn. unfold KEYBOARD_BUFFER_SIZE in *. by u32_simp.
Qed.

Lemma read_event_wp k a : kbd_rel k a → wp keyboard_try_read_event (λ e k',
  e = head (a_events a) ∧ kbd_rel k' (with_events (tail (a_events a)) a)) k.
Proof.
  intros [Hf Hk He]. pose proof (ring_empty _ _ _ _ _ He) as Hemp.
  pose proof (ring_tail _ _ _ _ _ He) as Ht. unfold keyboard_try_read_event, keyboard_event_pop. do 4 wp_step.
  destruct (Z.eqb_spec (event_head k) (event_tail k)) as [E|E].
  - wp_step. apply Hemp in E. rewrite E in *. split; [done|]. by split.
  - destruct (a_events a) as [|c q] eqn:Eq; [tauto|]. apply ring_pop in He as [Hr He].
    do 3 wp_step. eapply wp_lift; [exact Hr|]. wp_steps. split; [done|]. split; [done|done|].
    cbn. unfold KEYBOARD_EVENT_BUFFER_SIZE in *. by u32_simp.
Qed.

Lemma kexec_wp k a op : kbd_rel k a →
  wp (kexec op) (λ o k', o = fst (aexec op a) ∧ kbd_rel k' (snd (aexec op a))) k.
Proof.
  intros Hrel. destruct op; cbn [kexec aexec fst snd]; wp_step.
  - eapply wp_mono; [by apply scancode_wp|]. intros [] k' Hrel'. by wp_step.
  - eapply wp_mono; [by apply read_char_wp|]. intros c k' [-> Hrel']. by wp_step.
  - eapply wp_mono; [by apply read_event_wp|]. intros e k' [-> Hrel']. by wp_step.
Qed.

Lemma kexec_all_wp ops : ∀ k a, kbd_rel k a →
  wp (kexec_all ops) (λ os k', os = fst (aexec_all ops a) ∧ kbd_rel k' (snd (aexec_all ops a))) k.
Proof.
  induction ops as [|op ops IH]; intros k a Hrel; cbn [kexec_all aexec_all]; wp_step; [done|].
  eapply wp_mono; [by apply kexec_wp|]. intros o k1 [-> Hrel1]. wp_step.
  eapply wp_mono; [by apply IH|]. intros os k2 [-> Hrel2]. wp_step.
  destruct (aexec op a) as [o1 a1]. cbn [fst snd] in *. by destruct (aexec_all ops a1).
Qed.

(** ** Facts about the abstract keyboard *)

Definition scancodes (scs : list Z) : list kop := OpScancode <$> scs.

(** A key of the group [f] is held after [scs]: its last scancode is a press. *)
Definition held (f : Z → bool) (scs : list Z) : Prop :=
  ∃ pre sc post, scs = pre ++ sc :: post ∧ f (code_of sc) = true ∧ is_release sc = false ∧
    Forall (λ sc', f (code_of sc') = false) post.

Lemma held_snoc f scs sc : held f (scs ++ [sc]) ↔
  if f (code_of sc) then is_release sc = false else held f scs.
Proof.
  destruct (f (code_of sc)) eqn:Ef; split.
  - intros (pre & x & post & E & Hf & Hr & Hpost). destruct post as [|y post _] using rev_ind.
    + apply app_inj_tail in E as [_ ->]. done.
    + rewrite app_comm_cons, app_assoc in E. apply app_inj_tail in E as [_ ->].
      apply Forall_app in Hpost as [_ Hy]. inversion Hy. congruence.
  - intros Hr. by exists scs, sc, [].
  - intros (pre & x & post & E & Hf & Hr & Hpost). destruct post as [|y post _] using rev_ind.
    + apply app_inj_tail in E as [_ ->]. congruence.
    + rewrite app_comm_cons, app_assoc in E. apply app_inj_tail in E as [-> _].
      apply Forall_app in Hpost as [Hpost _]. by exists pre, x, post.
  - intros (pre & x & post & -> & Hf & Hr & Hpost). exists pre, x, (post ++ [sc]).
    rewrite <- app_assoc. split_and!; [done|done|done|]. apply Forall_app. split; [done|]. by constructor.
Qed.

Definition is_caps_press (sc : Z) : bool := (code_of sc =? 0x3A) && negb (is_release sc).

Lemma aexec_all_app ops1 ops2 a :
  snd (aexec_all (ops1 ++ ops2) a) = snd (aexec_all ops2 (snd (aexec_all ops1 a))).
Proof.
  revert a. induction ops1 as [|op ops IH]; intros a; [done|]. cbn [aexec_all app].
  destruct (aexec op a) as [o a1]. specialize (IH a1).
  destruct (aexec_all ops a1) as [os a2], (aexec_all (ops ++ ops2) a1) as [os' a3]. exact IH.
Qed.

Lemma mods_after scs : let a := snd (aexec_all (scancodes scs) akbd_zero) in
  (a_shift a = true ↔ held shift_code scs) ∧ (a_ctrl a = true ↔ held (λ c, c =? 0x1D) scs) ∧
  (a_alt a = true ↔ held (λ c, c =? 0x38) scs) ∧
  a_caps a = Nat.odd (length (filter (λ sc, is_caps_press sc = true) scs)).
Proof.
  induction scs as [|sc scs IH] using rev_ind; cbn zeta in *.
  { cbn. split_and!; try done; (split; [done|]); intros (pre & x & post & E & _); by destruct pre. }
  unfold scancodes in *. rewrite fmap_app, aexec_all_app, filter_app, length_app, Nat.odd_add.
  set (a := snd (aexec_all (OpScancode <$> scs) akbd_zero)) in *.
  destruct IH as (H1 & H2 & H3 & H4). rewrite !held_snoc, <- H4.
  cbn. unfold spec_scancode. destruct (Z.eqb_spec sc 0xE0) as [->|Hne].
  { cbn. rewrite xorb_false_r. done. }
  unfold update_mods. cbn.
  split_and!; [destruct (shift_code _)|destruct (_ =? 0x1D)|destruct (_ =? 0x38)|]; try done;
    try (by destruct (is_release sc)).
  change (filter _ [sc]) with (if decide (is_caps_press sc = true) then [sc] else []).
  unfold is_caps_press. case_decide as Ed; cbn.
  - by rewrite Ed, xorb_true_r.
  - apply not_true_is_false in Ed. by rewrite Ed, xorb_false_r.
Qed.

(** ** Properties *)

(** C19. The driver implements the abstract keyboard: for every interleaving of
    scancode interrupts with reads of characters and of events, no access
    leaves a buffer, each read returns what the abstract keyboard returns (two
    first-in first-out queues of capacity 127 that drop what does not fit, one
    event per scancode with the modifiers in force, a character per press of a
    character key), and the buffers represent the abstract queues. *)
Theorem keyboard_refinement ops :
  ∃ k', kexec_all ops kbd_zero = Some (fst (aexec_all ops akbd_zero), k') ∧
        kbd_rel k' (snd (aexec_all ops akbd_zero)).
Proof.
  destruct (kexec_all_wp ops _ _ kbd_rel_zero) as (os & k' & E & -> & Hrel). by exists k'.
Qed.

(** The modifier flags tell the truth about the keys: after any sequence of
    scancodes shift, ctrl and alt are down exactly when the last scancode of
    such a key was a press, and caps lock is on exactly when its key was
    pressed an odd number of times. *)
Theorem keyboard_modifiers scs :
  ∃ os k', kexec_all (scancodes scs) kbd_zero = Some (os, k') ∧
  (shift_down k' = true ↔ held shift_code scs) ∧ (ctrl_down k' = true ↔ held (λ c, c =? 0x1D) scs) ∧
  (alt_down k' = true ↔ held (λ c, c =? 0x38) scs) ∧
  caps_lock k' = Nat.odd (length (filter (λ sc, is_caps_press sc = true) scs)).
Proof.
  destruct (kexec_all_wp (scancodes scs) _ _ kbd_rel_zero) as (os & k' & E & _ & [Hf _ _]).
  injection Hf as E1 E2 E3 E4 _. exists os, k'.
  rewrite E1, E2, E3, E4. split; [done|]. apply mods_after.
Qed.

(** The scancodes of a text typed without modifiers: each is the press of a
    key that has a character. *)
Definition plain_press (sc : Z) : Prop :=
  is_release sc = false ∧ sc ≠ 0xE0 ∧ code_of sc = sc ∧ char_of akbd_zero sc ≠ 0.

#[export] Instance plain_press_dec sc : Decision (plain_press sc) := _.

Lemma plain_press_spec sc a : plain_press sc →
  a_shift a = false → a_ctrl a = false → a_caps a = false → a_alt a = false → a_extended a = false →
  spec_scancode sc a = accept sc (char_of akbd_zero sc) true a.
Proof.
  intros (Hr & Hne & Hc & Hch) E1 E2 E3 E4 E5. unfold spec_scancode.
  rewrite (proj2 (Z.eqb_neq _ _)) by done. rewrite Hr, Hc, E5. cbn [negb].
  assert (Hu : update_mods sc a = a).
  { unfold char_of in Hch. unfold update_mods. rewrite Hc.
    destruct (shift_code sc), (sc =? 0x1D), (sc =? 0x38), (sc =? 0x3A); cbn in Hch |- *; try done.
    destruct a; cbn in *; by subst. }
  rewrite Hu. unfold char_of. by rewrite E1, E2, E3.
Qed.

Lemma type_spec scs : Forall plain_press scs → ∀ a,
  a_shift a = false → a_ctrl a = false → a_caps a = false → a_alt a = false → a_extended a = false →
  Z.of_nat (length (a_keys a)) + Z.of_nat (length scs) ≤ 127 →
  a_keys (snd (aexec_all (scancodes scs) a)) = a_keys a ++ (char_of akbd_zero <$> scs).
Proof.
  induction 1 as [|sc scs Hp _ IH]; intros a E1 E2 E3 E4 E5 Hlen; [by rewrite app_nil_r|].
  cbn [scancodes fmap list_fmap aexec_all aexec]. rewrite (plain_press_spec sc a) by done.
  set (a1 := accept _ _ _ a). specialize (IH a1 E1 E2 E3 E4 E5).
  assert (Hk : a_keys a1 = a_keys a ++ [char_of akbd_zero sc]).
  { cbn. destruct Hp as (_ & _ & _ & Hch). rewrite (proj2 (Z.eqb_neq _ 0)) by done.
    unfold enqueue. cbn [length] in Hlen. by rewrite (proj2 (Z.ltb_lt _ _)) by (unfold KEYBOARD_BUFFER_SIZE; lia). }
  rewrite Hk, length_app in IH. cbn [length] in *. specialize (IH ltac:(lia)).
  fold (scancodes scs). destruct (aexec_all (scancodes scs) a1) as [os a2]. cbn [snd] in *.
  rewrite IH, <- app_assoc. done.
Qed.

Lemma read_all_spec a : fst (aexec_all (replicate (length (a_keys a)) OpReadChar) a) =
  (λ c, ObsChar (Some c)) <$> a_keys a.
Proof.
  destruct a as [s c al cp e q ev]. cbn. revert s c al cp e ev. induction q as [|x q IH]; intros; [done|].
  cbn. specialize (IH s c al cp e ev). destruct (aexec_all _ _) as [os a2]. cbn in *. by rewrite IH.
Qed.

Lemma kexec_all_app ops1 ops2 : ∀ k os1 k1 os2 k2,
  kexec_all ops1 k = Some (os1, k1) → kexec_all ops2 k1 = Some (os2, k2) →
  kexec_all (ops1 ++ ops2) k = Some (os1 ++ os2, k2).
Proof.
  induction ops1 as [|op ops IH]; intros k os1 k1 os2 k2 H1 H2; cbn [kexec_all app] in *.
  - by injection H1 as <- <-.
  - unfold mbind, M_bind in *. destruct (kexec op k) as [[o k']|]; [|done].
    destruct (kexec_all ops k') as [[os k'']|] eqn:E; [|done]. injection H1 as <- <-.
    by rewrite (IH _ _ _ _ _ E H2).
Qed.

(** What is typed is what is read: after the presses of up to 127 keys with
    characters, as many reads return exactly the characters of the keys, in
    the order they were pressed. *)
Theorem keyboard_type_read_roundtrip scs : Forall plain_press scs → Z.of_nat (length scs) ≤ 127 →
  ∃ k' os, kexec_all (scancodes scs ++ replicate (length scs) OpReadChar) kbd_zero =
    Some (os ++ ((λ sc, ObsChar (Some (char_of akbd_zero sc))) <$> scs), k').
Proof.
  intros Hp Hlen. pose proof (type_spec scs Hp akbd_zero eq_refl eq_refl eq_refl eq_refl eq_refl Hlen) as Hk.
  destruct (kexec_all_wp (scancodes scs) _ _ kbd_rel_zero) as (os1 & k1 & E1 & _ & Hrel).
  set (a1 := snd (aexec_all (scancodes scs) akbd_zero)) in *. cbn in Hk.
  destruct (kexec_all_wp (replicate (length scs) OpReadChar) _ _ Hrel) as (os2 & k2 & E2 & Hos & _).
  exists k2, os1. rewrite (kexec_all_app _ _ _ _ _ _ _ E1 E2). do 3 f_equal. rewrite Hos.
  pose proof (read_all_spec a1) as Hra. rewrite Hk, length_fmap in Hra. rewrite Hra, <- list_fmap_compose. done.
Qed.

Section initialize.
Context {D : Type} `{QuietConsole D}.

(** keyboard_initialize terminates and leaves no byte in the controller,
    whatever was pending. *)
Theorem keyboard_initialize_drains d fuel : (length (waiting_bytes d) < fuel)%nat →
  wp (keyboard_initialize fuel) (λ _ d', waiting_bytes d' = []) d.
Proof.
  intros Hfuel. unfold keyboard_initialize. wp_step.
  apply (wp_iterate_state _ _ (λ d, length (waiting_bytes d))); [done|]. clear d Hfuel.
  intros [] d. unfold drain_step. wp_step. eapply wp_mono; [apply status_law|].
  intros st d1 (_ & Hst & Hw). destruct (Z.eqb_spec (Z.land st 1) 0) as [E|E].
  - wp_step. wp_step. eapply wp_mono; [apply terminal_law|]. intros [] d2 Hw2.
    eapply wp_mono; [apply serial_law|]. intros [] d3 Hw3.
    rewrite Hw3, Hw2, Hw. destruct (waiting_bytes d) eqn:Eb; [done|]. exfalso. by apply Hst in E.
  - wp_step. eapply wp_mono; [apply data_law|]. intros b d2 (_ & Hd). wp_step.
    destruct (waiting_bytes d) as [|b' bs] eqn:Eb; [tauto|].
    destruct (Hd b' bs ltac:(congruence)) as [_ ->]. cbn. lia.
Qed.
End initialize.

(** ** Concrete runs *)

(** The keys h, i, enter. *)
Lemma keyboard_type_read_witness : ∃ k' os,
  kexec_all (scancodes [0x23; 0x17; 0x1C] ++ replicate 3 OpReadChar) kbd_zero =
  Some (os ++ [ObsChar (Some 104); ObsChar (Some 105); ObsChar (Some 10)], k').
Proof.
  apply (keyboard_type_read_roundtrip [0x23; 0x17; 0x1C]).
  - repeat (constructor; [split_and!; vm_compute; (reflexivity || discriminate)|]). constructor.
  - vm_compute. discriminate.
Defined.

Lemma keyboard_initialize_witness :
  wp (keyboard_initialize 4) (λ _ d', waiting_bytes d' = []) (Pc [0xFA; 0xAA; 0x1C] [] []).
Proof. apply (keyboard_initialize_drains (D := pc)). vm_compute. lia. Defined.

(** The shift test comes after the table lookup: with caps lock on and shift
    held a letter stays upper case. *)
Example caps_and_shift_letter :
  fst <$> kexec_all [OpScancode 0x3A; OpScancode 0x2A; OpScancode 0x1E; OpReadChar] kbd_zero =
  Some [ObsNone; ObsNone; ObsNone; ObsChar (Some 65)].
Proof. vm_compute. reflexivity. Qed.

(** An extended key: the right arrow key has a keycode and no character. *)
Example extended_arrow :
  fst <$> kexec_all [OpScancode 0xE0; OpScancode 0x4D; OpReadChar; OpReadEvent] kbd_zero =
  Some [ObsNone; ObsNone; ObsChar None; ObsEvent (Some (KeyboardEvent 0xE04D 0 true 0))].
Proof. vm_compute. reflexivity. Qed.
