(* ===== verification/Mouse.v ===== *)
(** * The PS/2 mouse driver, kernel/drivers/input/mouse.c

    The packet assembler and decoder of the interrupt handler, the bounded
    cursor, the wheel and click state the input layer consumes, and the
    initialization dialogue with the controller. *)

From Stdlib Require Import ZArith Lia Bool String.
From stdpp Require Import base numbers list strings.
From S2P Require Import Prelude Ports.

(** ** Data *)

Definition PS2_DATA : Z := 0x60.
Definition PS2_STATUS : Z := 0x64.
Definition PS2_COMMAND : Z := 0x64.

Record mouse := Mouse {
  cursor_x : Z; cursor_y : Z; bound_width : Z; bound_height : Z;
  left_down_flag : bool; right_down_flag : bool; middle_down_flag : bool;
  click_pending : bool; click_x : Z; click_y : Z;
  wheel_delta : Z; movement_generation : Z;
  packet : list Z; packet_index : Z; packet_size : Z }.

Definition set_cursor_x v (s : mouse) : mouse :=
  Mouse v (cursor_y s) (bound_width s) (bound_height s) (left_down_flag s) (right_down_flag s) (middle_down_flag s) (click_pending s) (click_x s) (click_y s) (wheel_delta s) (movement_generation s) (packet s) (packet_index s) (packet_size s).
Definition set_cursor_y v (s : mouse) : mouse :=
  Mouse (cursor_x s) v (bound_width s) (bound_height s) (left_down_flag s) (right_down_flag s) (middle_down_flag s) (click_pending s) (click_x s) (click_y s) (wheel_delta s) (movement_generation s) (packet s) (packet_index s) (packet_size s).
Definition set_bound_width v (s : mouse) : mouse :=
  Mouse (cursor_x s) (cursor_y s) v (bound_height s) (left_down_flag s) (right_down_flag s) (middle_down_flag s) (click_pending s) (click_x s) (click_y s) (wheel_delta s) (movement_generation s) (packet s) (packet_index s) (packet_size s).
Definition set_bound_height v (s : mouse) : mouse :=
  Mouse (cursor_x s) (cursor_y s) (bound_width s) v (left_down_flag s) (right_down_flag s) (middle_down_flag s) (click_pending s) (click_x s) (click_y s) (wheel_delta s) (movement_generation s) (packet s) (packet_index s) (packet_size s).
Definition set_left_down_flag v (s : mouse) : mouse :=
  Mouse (cursor_x s) (cursor_y s) (bound_width s) (bound_height s) v (right_down_flag s) (middle_down_flag s) (click_pending s) (click_x s) (click_y s) (wheel_delta s) (movement_generation s) (packet s) (packet_index s) (packet_size s).
Definition set_right_down_flag v (s : mouse) : mouse :=
  Mouse (cursor_x s) (cursor_y s) (bound_width s) (bound_height s) (left_down_flag s) v (middle_down_flag s) (click_pending s) (click_x s) (click_y s) (wheel_delta s) (movement_generation s) (packet s) (packet_index s) (packet_size s).
Definition set_middle_down_flag v (s : mouse) : mouse :=
  Mouse (cursor_x s) (cursor_y s) (bound_width s) (bound_height s) (left_down_flag s) (right_down_flag s) v (click_pending s) (click_x s) (click_y s) (wheel_delta s) (movement_generation s) (packet s) (packet_index s) (packet_size s).
Definition set_click_pending v (s : mouse) : mouse :=
  Mouse (cursor_x s) (cursor_y s) (bound_width s) (bound_height s) (left_down_flag s) (right_down_flag s) (middle_down_flag s) v (click_x s) (click_y s) (wheel_delta s) (movement_generation s) (packet s) (packet_index s) (packet_size s).
Definition set_click_x v (s : mouse) : mouse :=
  Mouse (cursor_x s) (cursor_y s) (bound_width s) (bound_height s) (left_down_flag s) (right_down_flag s) (middle_down_flag s) (click_pending s) v (click_y s) (wheel_delta s) (movement_generation s) (packet s) (packet_index s) (packet_size s).
Definition set_click_y v (s : mouse) : mouse :=
  Mouse (cursor_x s) (cursor_y s) (bound_width s) (bound_height s) (left_down_flag s) (right_down_flag s) (middle_down_flag s) (click_pending s) (click_x s) v (wheel_delta s) (movement_generation s) (packet s) (packet_index s) (packet_size s).
Definition set_wheel_delta v (s : mouse) : mouse :=
  Mouse (cursor_x s) (cursor_y s) (bound_width s) (bound_height s) (left_down_flag s) (right_down_flag s) (middle_down_flag s) (click_pending s) (click_x s) (click_y s) v (movement_generation s) (packet s) (packet_index s) (packet_size s).
Definition set_movement_generation v (s : mouse) : mouse :=
  Mouse (cursor_x s) (cursor_y s) (bound_width s) (bound_height s) (left_down_flag s) (right_down_flag s) (middle_down_flag s) (click_pending s) (click_x s) (click_y s) (wheel_delta s) v (packet s) (packet_index s) (packet_size s).
Definition set_packet v (s : mouse) : mouse :=
  Mouse (cursor_x s) (cursor_y s) (bound_width s) (bound_height s) (left_down_flag s) (right_down_flag s) (middle_down_flag s) (click_pending s) (click_x s) (click_y s) (wheel_delta s) (movement_generation s) v (packet_index s) (packet_size s).
Definition set_packet_index v (s : mouse) : mouse :=
  Mouse (cursor_x s) (cursor_y s) (bound_width s) (bound_height s) (left_down_flag s) (right_down_flag s) (middle_down_flag s) (click_pending s) (click_x s) (click_y s) (wheel_delta s) (movement_generation s) (packet s) v (packet_size s).
Definition set_packet_size v (s : mouse) : mouse :=
  Mouse (cursor_x s) (cursor_y s) (bound_width s) (bound_height s) (left_down_flag s) (right_down_flag s) (middle_down_flag s) (click_pending s) (click_x s) (click_y s) (wheel_delta s) (movement_generation s) (packet s) (packet_index s) v.

(** The values of the static initializers. *)
Definition mouse_zero : mouse :=
  Mouse 160 100 320 200 false false false false 0 0 0 0 [0; 0; 0; 0] 0 3.

(** ** The interrupt handler *)

Definition bump_generation : M mouse unit :=
  modify (λ m, set_movement_generation (movement_generation m +% 1) m).

(** Lines 130-147: move the cursor and keep it on the screen. *)
Definition mouse_move (p1 p2 : Z) : M mouse unit :=
  let dx := i8 p1 in
  let dy := i8 p2 in
  x ← gets cursor_x; x ← lift (checked (x + dx)); _ ← modify (set_cursor_x x);
  y ← gets cursor_y; y ← lift (checked (y - dy)); _ ← modify (set_cursor_y y);
  x ← gets cursor_x; _ ← when (x <? 0) (modify (set_cursor_x 0));
  y ← gets cursor_y; _ ← when (y <? 0) (modify (set_cursor_y 0));
  x ← gets cursor_x; w ← gets bound_width; _ ← when (w <=? x) (modify (set_cursor_x (w - 1)));
  y ← gets cursor_y; h ← gets bound_height; _ ← when (h <=? y) (modify (set_cursor_y (h - 1)));
  bump_generation.

(** Lines 149-158: the signed nibble of the fourth byte. *)
Definition wheel_of (p3 : Z) : Z :=
  let wheel := i8 (Z.land p3 0x0F) in
  if Z.land wheel 0x08 =? 0 then wheel else i8 (Z.lor wheel (i8 0xF0)).

Definition mouse_wheel (p3 : Z) : M mouse unit :=
  let wheel := wheel_of p3 in
  when (negb (wheel =? 0))
    (d ← gets wheel_delta; d ← lift (checked (d + wheel)); _ ← modify (set_wheel_delta d);
     bump_generation).

(** [data] is the byte that [inb(PS2_DATA)] returned. *)
Definition mouse_handle_byte (data : Z) : M mouse unit :=
  i ← gets packet_index;
  if (i =? 0) && (Z.land data 0x08 =? 0) then mret tt
  else
    p ← gets packet;
    p ← lift (awrite p i data);
    _ ← modify (set_packet p);
    _ ← modify (set_packet_index (u8 (i + 1)));
    i ← gets packet_index;
    size ← gets packet_size;
    if i <? size then mret tt
    else
      _ ← modify (set_packet_index 0);
      was_left ← gets left_down_flag;
      p0 ← lift (aread p 0);
      p1 ← lift (aread p 1);
      p2 ← lift (aread p 2);
      _ ← modify (set_left_down_flag (negb (Z.land p0 0x01 =? 0)));
      _ ← modify (set_right_down_flag (negb (Z.land p0 0x02 =? 0)));
      _ ← modify (set_middle_down_flag (negb (Z.land p0 0x04 =? 0)));
      _ ← mouse_move p1 p2;
      _ ← when (size =? 4) (p3 ← lift (aread p 3); mouse_wheel p3);
      left ← gets left_down_flag;
      when (was_left && negb left)
        (_ ← modify (set_click_pending true);
         x ← gets cursor_x; _ ← modify (set_click_x x);
         y ← gets cursor_y; _ ← modify (set_click_y y);
         bump_generation).

(** ** The other operations *)

Definition mouse_set_bounds (width height : Z) : M mouse unit :=
  if (width <=? 0) || (height <=? 0) then mret tt
  else
    _ ← modify (set_bound_width width);
    _ ← modify (set_bound_height height);
    _ ← modify (set_cursor_x (Z.quot width 2));
    _ ← modify (set_cursor_y (Z.quot height 2));
    bump_generation.

Definition mouse_x : M mouse Z := gets cursor_x.
Definition mouse_y : M mouse Z := gets cursor_y.
Definition mouse_left_down : M mouse bool := gets left_down_flag.
Definition mouse_right_down : M mouse bool := gets right_down_flag.
Definition mouse_middle_down : M mouse bool := gets middle_down_flag.

Definition mouse_consume_wheel_delta : M mouse Z :=
  delta ← gets wheel_delta;
  _ ← modify (set_wheel_delta 0);
  mret delta.

Definition mouse_generation : M mouse Z := gets movement_generation.

(** [None] is the return value false; the pointers are valid. *)
Definition mouse_consume_click : M mouse (option (Z * Z)) :=
  pending ← gets click_pending;
  if negb pending then mret None
  else
    _ ← modify (set_click_pending false);
    x ← gets click_x; y ← gets click_y;
    mret (Some (x, y)).

(** ** Initialization *)

Section device.
Context {D : Type} `{PortIO D, Console D}.

Definition mouse_wait_input : M D unit :=
  _ ← for_exit 0 100000 (λ _, st ← inb PS2_STATUS;
        mret (if Z.land st 0x02 =? 0 then Some tt else None));
  mret tt.

Definition mouse_wait_output : M D unit :=
  _ ← for_exit 0 100000 (λ _, st ← inb PS2_STATUS;
        mret (if Z.land st 0x01 =? 0 then None else Some tt));
  mret tt.

Definition mouse_write (value : Z) : M D unit :=
  _ ← mouse_wait_input;
  _ ← outb PS2_COMMAND 0xD4;
  _ ← mouse_wait_input;
  outb PS2_DATA value.

Definition mouse_read_response : M D Z :=
  _ ← mouse_wait_output;
  inb PS2_DATA.

Definition mouse_set_sample_rate (rate : Z) : M D unit :=
  _ ← mouse_write 0xF3; _ ← mouse_read_response;
  _ ← mouse_write rate; _ ← mouse_read_response;
  mret tt.

Definition on_device {A} (m : M D A) : M (mouse * D) A := zoom snd (λ d s, (fst s, d)) m.
Definition on_mouse {A} (m : M mouse A) : M (mouse * D) A := zoom fst (λ m s, (m, snd s)) m.

(** Enable the port and its interrupt, lines 69-79. *)
Definition enable_port : M D unit :=
  _ ← mouse_wait_input; _ ← outb PS2_COMMAND 0xA8;
  _ ← mouse_wait_input; _ ← outb PS2_COMMAND 0x20;
  _ ← mouse_wait_output; st ← inb PS2_DATA;
  let status := Z.lor st 0x02 in
  _ ← mouse_wait_input; _ ← outb PS2_COMMAND 0x60;
  _ ← mouse_wait_input; outb PS2_DATA status.

(** Ask for the wheel protocol and read the device id, lines 81-88. *)
Definition identify : M D Z :=
  _ ← mouse_write 0xF6; _ ← mouse_read_response;
  _ ← mouse_set_sample_rate 200;
  _ ← mouse_set_sample_rate 100;
  _ ← mouse_set_sample_rate 80;
  _ ← mouse_write 0xF2; _ ← mouse_read_response;
  mouse_read_response.

Definition mouse_initialize : M (mouse * D) unit :=
  _ ← on_device enable_port;
  id ← on_device identify;
  _ ← when ((id =? 3) || (id =? 4))
        (_ ← on_mouse (modify (set_packet_size 4));
         on_device (serial_writestring ("MyOS mouse: IntelliMouse wheel packets enabled." +:+ newline)));
  _ ← on_device (_ ← mouse_write 0xF4; mouse_read_response);
  on_device (serial_writestring ("MyOS mouse: PS/2 mouse enabled." +:+ newline)).

Definition mouse_handle_interrupt : M (mouse * D) unit :=
  data ← on_device (inb PS2_DATA);
  on_mouse (mouse_handle_byte data).
End device.

(** ** What a packet means *)

Definition clamp (v n : Z) : Z := Z.max 0 (Z.min v (n - 1)).

(** The wheel nibble in two's complement. *)
Definition signed_nibble (b : Z) : Z := let n := b mod 16 in if n <? 8 then n else n - 16.

(** The state after the complete packet [p]: relative motion in two's
    complement with the y axis upwards, buttons in the low bits of the first
    byte, a click where the left button goes up. *)
Definition packet_effect (p : list Z) (m : mouse) : mouse :=
  let b i := default 0 (aread p i) in
  let x := clamp (cursor_x m + i8 (b 1)) (bound_width m) in
  let y := clamp (cursor_y m - i8 (b 2)) (bound_height m) in
  let wheel := if packet_size m =? 4 then signed_nibble (b 3) else 0 in
  let click := left_down_flag m && negb (Z.testbit (b 0) 0) in
  Mouse x y (bound_width m) (bound_height m)
    (Z.testbit (b 0) 0) (Z.testbit (b 0) 1) (Z.testbit (b 0) 2)
    (click || click_pending m) (if click then x else click_x m) (if click then y else click_y m)
    (wheel_delta m + wheel)
    (u32 (movement_generation m + 1 + (if wheel =? 0 then 0 else 1) + (if click then 1 else 0)))
    p 0 (packet_size m).

(** A byte: dropped while the stream is out of step, stored, or the last one
    of a packet. *)
Definition mouse_step (m : mouse) (data : Z) : mouse :=
  if (packet_index m =? 0) && negb (Z.testbit data 3) then m
  else
    let p := <[Z.to_nat (packet_index m) := data]> (packet m) in
    if packet_index m + 1 <? packet_size m
    then set_packet_index (packet_index m + 1) (set_packet p m)
    else packet_effect p m.

(** ** Invariant *)

(** The largest screen for which the cursor arithmetic cannot overflow. *)
Definition MAX_BOUND : Z := 2147483647 - 127.

Record mouse_inv (m : mouse) : Prop := {
  mi_w : 1 ≤ bound_width m ≤ MAX_BOUND;
  mi_h : 1 ≤ bound_height m ≤ MAX_BOUND;
  mi_x : 0 ≤ cursor_x m < bound_width m;
  mi_y : 0 ≤ cursor_y m < bound_height m;
  mi_gen : is_u32 (movement_generation m);
  mi_packet : length (packet m) = 4%nat;
  mi_bytes : Forall is_u8 (packet m);
  mi_size : packet_size m = 3 ∨ packet_size m = 4;
  mi_index : 0 ≤ packet_index m < packet_size m }.

Lemma mouse_zero_inv : mouse_inv mouse_zero.
Proof. split; unfold MAX_BOUND, is_u32; cbn; try lia; by repeat constructor. Qed.

(** A bit of a byte, tested with a mask. *)
Lemma mask_testbit b k : 0 ≤ k → negb (Z.land b (2 ^ k) =? 0) = Z.testbit b k.
Proof.
  intros Hk. apply eq_true_iff_eq. rewrite negb_true_iff, Z.eqb_neq. split.
  - intros H. destruct (Z.testbit b k) eqn:E; [done|]. exfalso. apply H. apply Z.bits_inj'. intros j Hj.
    rewrite Z.land_spec, Z.bits_0. destruct (Z.eq_dec j k) as [->|Hne]; [by rewrite E|].
    rewrite Z.pow2_bits_false by lia. apply andb_false_r.
  - intros E H. pose proof (Z.land_spec b (2 ^ k) k) as Hl. rewrite H, Z.bits_0, E, Z.pow2_bits_true in Hl by done. done.
Qed.

Lemma wheel_of_nibble p3 : is_u8 p3 → wheel_of p3 = signed_nibble p3.
Proof.
  intros H. unfold wheel_of, signed_nibble. change 0x0F with (Z.ones 4). rewrite Z.land_ones by lia.
  change (2 ^ 4) with 16. pose proof (Z.mod_pos_bound p3 16 ltac:(lia)) as Hm.
  generalize dependent (p3 mod 16). intros n Hn.
  assert (Hall : forallb (λ n, (if Z.land (i8 n) 8 =? 0 then i8 n else i8 (Z.lor (i8 n) (i8 0xF0))) =?
                               (if n <? 8 then n else n - 16)) (seqZ 0 16) = true) by (vm_compute; reflexivity).
  rewrite forallb_forall in Hall. apply Z.eqb_eq, Hall, list_elem_of_In, elem_of_seqZ. lia.
Qed.

Lemma signed_nibble_range b : -8 ≤ signed_nibble b ≤ 7.
Proof. unfold signed_nibble. pose proof (Z.mod_pos_bound b 16). destruct (Z.ltb_spec (b mod 16) 8); lia. Qed.

Lemma clamp_range v n : 1 ≤ n → 0 ≤ clamp v n < n.
Proof. unfold clamp. lia. Qed.

(** ** The handler is the step *)

(** The cursor at ([x], [y]), all else as in [m]. *)
Definition at_xy (x y : Z) (m : mouse) : mouse := set_cursor_y y (set_cursor_x x m).

Lemma at_xy_x (b : bool) v x y m :
  (if b then set_cursor_x v (at_xy x y m) else at_xy x y m) = at_xy (if b then v else x) y m.
Proof. by destruct b. Qed.
Lemma at_xy_y (b : bool) v x y m :
  (if b then set_cursor_y v (at_xy x y m) else at_xy x y m) = at_xy x (if b then v else y) m.
Proof. by destruct b. Qed.

Lemma mouse_move_wp m p1 p2 (Q : unit → mouse → Prop) : mouse_inv m →
  Q tt (set_movement_generation (movement_generation m +% 1)
          (at_xy (clamp (cursor_x m + i8 p1) (bound_width m)) (clamp (cursor_y m - i8 p2) (bound_height m)) m)) →
  wp (mouse_move p1 p2) Q m.
Proof.
  intros [[W1 W2] [H1 H2] Hx Hy _ _ _ _ _] HQ. unfold MAX_BOUND in *. pose proof (i8_range p1). pose proof (i8_range p2).
  unfold mouse_move, bump_generation. do 3 wp_step. apply wp_checked; [unfold is_i32; lia|].
  do 5 wp_step. apply wp_checked; [unfold is_i32; cbn; lia|]. do 2 wp_step.
  change (cursor_y (set_cursor_x _ m)) with (cursor_y m). fold (at_xy (cursor_x m + i8 p1) (cursor_y m - i8 p2) m).
  do 3 wp_step. apply wp_when_modify. rewrite at_xy_x. change (cursor_x (at_xy ?x _ _)) with x.
  do 3 wp_step. apply wp_when_modify. rewrite at_xy_y. change (cursor_y (at_xy _ ?y _)) with y.
  do 5 wp_step. apply wp_when_modify. rewrite at_xy_x. change (cursor_x (at_xy ?x _ _)) with x.
  change (bound_width (at_xy _ _ m)) with (bound_width m).
  do 5 wp_step. apply wp_when_modify. rewrite at_xy_y. change (cursor_y (at_xy _ ?y _)) with y.
  change (bound_height (at_xy _ _ m)) with (bound_height m). wp_step.
  change (movement_generation (at_xy _ _ m)) with (movement_generation m).
  match goal with |- Q tt (_ (at_xy ?x ?y m)) =>
    replace x with (clamp (cursor_x m + i8 p1) (bound_width m));
    [replace y with (clamp (cursor_y m - i8 p2) (bound_height m)); [done|]|] end; clear HQ; unfold clamp;
  repeat match goal with |- context [if ?a <? ?b then _ else _] => destruct (Z.ltb_spec a b)
                       | |- context [if ?a <=? ?b then _ else _] => destruct (Z.leb_spec a b) end; lia.
Qed.

Lemma mouse_wheel_wp m p3 (Q : unit → mouse → Prop) : is_u8 p3 → is_i32 (wheel_delta m + signed_nibble p3) →
  Q tt (if signed_nibble p3 =? 0 then m
        else set_movement_generation (movement_generation m +% 1)
               (set_wheel_delta (wheel_delta m + signed_nibble p3) m)) →
  wp (mouse_wheel p3) Q m.
Proof.
  intros Hp Hr HQ. unfold mouse_wheel, bump_generation. rewrite wheel_of_nibble by done.
  apply wp_when; intros E; bool_to_prop.
  - do 3 wp_step. apply wp_checked; [done|]. do 3 wp_step. by rewrite (proj2 (Z.eqb_neq _ _)) in HQ.
  - by rewrite (proj2 (Z.eqb_eq _ _)) in HQ.
Qed.

(** Computes with the fields. *)
Ltac mouse_cbv :=
  cbv beta iota delta [at_xy
    set_cursor_x set_cursor_y set_bound_width set_bound_height set_left_down_flag set_right_down_flag set_middle_down_flag
    set_click_pending set_click_x set_click_y set_wheel_delta set_movement_generation set_packet set_packet_index set_packet_size
    cursor_x cursor_y bound_width bound_height left_down_flag right_down_flag middle_down_flag click_pending click_x click_y wheel_delta movement_generation packet packet_index packet_size].

(** The last byte of a packet. *)
Lemma complete_wp m p p0 p1 p2 (Q : unit → mouse → Prop) : mouse_inv m →
  is_i32 (wheel_delta m - 8) → is_i32 (wheel_delta m + 7) → Forall is_u8 p → length p = 4%nat →
  aread p 0 = Some p0 → aread p 1 = Some p1 → aread p 2 = Some p2 →
  Q tt (packet_effect p m) →
  wp (_ ← modify (set_left_down_flag (negb (Z.land p0 0x01 =? 0)));
      _ ← modify (set_right_down_flag (negb (Z.land p0 0x02 =? 0)));
      _ ← modify (set_middle_down_flag (negb (Z.land p0 0x04 =? 0)));
      _ ← mouse_move p1 p2;
      _ ← when (packet_size m =? 4) (p3 ← lift (aread p 3); mouse_wheel p3);
      left ← gets left_down_flag;
      when (left_down_flag m && negb left)
        (_ ← modify (set_click_pending true);
         x ← gets cursor_x; _ ← modify (set_click_x x);
         y ← gets cursor_y; _ ← modify (set_click_y y);
         bump_generation)) Q (set_packet_index 0 (set_packet_index (packet_size m) (set_packet p m))).
Proof.
  intros Hinv Hw1 Hw2 Hu8 Hlen Hp0 Hp1 Hp2 HQ.
  destruct (aread_is_Some p 3) as [p3 Hp3]; [lia|].
  assert (Hu3 : is_u8 p3).
  { apply aread_Some in Hp3 as [_ Hp3]. by eapply Forall_lookup_1 in Hp3. }
  change (Z.land p0 1) with (Z.land p0 (2 ^ 0)). change (Z.land p0 2) with (Z.land p0 (2 ^ 1)).
  change (Z.land p0 4) with (Z.land p0 (2 ^ 2)). rewrite !mask_testbit by lia.
  do 7 wp_step. set (m1 := set_middle_down_flag _ _).
  assert (Hinv1 : mouse_inv m1) by (destruct Hinv; split; cbn; try done; destruct mi_size0; lia).
  apply mouse_move_wp; [done|]. unfold packet_effect in HQ. rewrite Hp0, Hp1, Hp2, Hp3 in HQ.
  cbn [default from_option id] in HQ. wp_step.
  pose proof (signed_nibble_range p3) as Hn. unfold is_i32 in Hw1, Hw2.
  set (m2 := set_movement_generation _ _).
  set (w := if packet_size m =? 4 then signed_nibble p3 else 0) in HQ.
  apply (wp_mono _ (λ _ m', m' = if w =? 0 then m2 else
    set_movement_generation (movement_generation m2 +% 1) (set_wheel_delta (wheel_delta m2 + w) m2))).
  { unfold w. destruct (packet_size m =? 4); cbn [when]; [|by wp_step].
    wp_step. eapply wp_lift; [exact Hp3|]. apply mouse_wheel_wp; [done| |done].
    unfold is_i32. cbn. lia. }
  intros [] m' ->. do 2 wp_step.
  assert (Hl : left_down_flag (if w =? 0 then m2 else set_movement_generation (movement_generation m2 +% 1)
     (set_wheel_delta (wheel_delta m2 + w) m2)) = Z.testbit p0 0) by (by destruct (w =? 0)).
  rewrite Hl. apply wp_when; intros Hclick; unfold bump_generation; rewrite Hclick in HQ.
  - do 11 wp_step. match goal with HQ : Q tt ?a |- Q tt ?b => replace b with a; [done|] end. clear HQ.
    destruct (Z.eqb_spec w 0) as [Ew|Ew]; [rewrite Ew, !Z.add_0_r|]; unfold m2, m1; destruct m; mouse_cbv;
      rewrite ?u32_add_l, <- ?Z.add_assoc, ?u32_add_l, ?Z.add_assoc; done.
  - match goal with HQ : Q tt ?a |- Q tt ?b => replace b with a; [done|] end. clear HQ.
    destruct (Z.eqb_spec w 0) as [Ew|Ew]; [rewrite Ew, !Z.add_0_r|]; unfold m2, m1; destruct m; mouse_cbv;
      rewrite ?u32_add_l, ?Z.add_0_r, <- ?Z.add_assoc, ?u32_add_l, ?Z.add_assoc; done.
Qed.

Definition wheel_room (m : mouse) (n : Z) : Prop :=
  -2147483648 + 8 * n ≤ wheel_delta m < 2147483648 - 8 * n.

Lemma handle_byte_wp m data : mouse_inv m → is_u8 data → wheel_room m 1 →
  wp (mouse_handle_byte data) (λ _ m', m' = mouse_step m data) m.
Proof.
  intros Hinv Hd Hroom. unfold mouse_handle_byte, mouse_step.
  pose proof (mi_index _ Hinv) as Hi. pose proof (mi_packet _ Hinv) as Hl.
  assert (Hs4 : packet_size m ≤ 4) by (destruct (mi_size _ Hinv); lia).
  rewrite <- mask_testbit by lia. change (2 ^ 3) with 8. rewrite negb_involutive. do 2 wp_step.
  destruct ((packet_index m =? 0) && (Z.land data 8 =? 0)); [by wp_step|].
  do 3 wp_step. eapply wp_lift; [apply awrite_eq; lia|]. set (p := <[_ := data]> (packet m)).
  do 8 wp_step. cbn [packet_index packet_size set_packet_index set_packet].
  rewrite (u8_small (packet_index m + 1)) by (unfold is_u8; lia).
  destruct (Z.ltb_spec (packet_index m + 1) (packet_size m)) as [Hlt|Hge]; [by wp_step|].
  assert (Hlen : length p = 4%nat) by (unfold p; by rewrite length_insert).
  assert (Hu8 : Forall is_u8 p) by (apply Forall_insert; [apply (mi_bytes _ Hinv)|done]).
  destruct (aread_is_Some p 0) as [p0 Hp0]; [lia|]. destruct (aread_is_Some p 1) as [p1 Hp1]; [lia|].
  destruct (aread_is_Some p 2) as [p2 Hp2]; [lia|].
  do 5 wp_step. eapply wp_lift; [exact Hp0|]. wp_step. eapply wp_lift; [exact Hp1|].
  wp_step. eapply wp_lift; [exact Hp2|]. replace (packet_index m + 1) with (packet_size m) by lia.
  unfold wheel_room in Hroom.
  eapply (complete_wp m p p0 p1 p2); try done; unfold is_i32; lia.
Qed.

(** ** The step keeps the invariant *)

Lemma mouse_step_inv m data : mouse_inv m → is_u8 data → mouse_inv (mouse_step m data).
Proof.
  intros Hinv Hd. unfold mouse_step. destruct (_ && _); [done|].
  assert (Hu8 : Forall is_u8 (<[Z.to_nat (packet_index m) := data]> (packet m)))
    by (apply Forall_insert; [apply (mi_bytes _ Hinv)|done]).
  destruct Hinv as [W H X Y G L B S I].
  destruct (Z.ltb_spec (packet_index m + 1) (packet_size m)).
  - split; cbn; try done; [by rewrite length_insert|lia].
  - unfold packet_effect. split; cbn - [u32]; try done.
    + apply clamp_range. lia.
    + apply clamp_range. lia.
    + apply u32_range.
    + by rewrite length_insert.
    + destruct S; lia.
Qed.

Lemma mouse_step_room m data n : 0 ≤ n → wheel_room m (n + 1) → wheel_room (mouse_step m data) n.
Proof.
  unfold wheel_room. intros Hn Hr. unfold mouse_step. destruct (_ && _); [lia|].
  destruct (_ <? _); cbn; [lia|].
  destruct (packet_size m =? 4); [|lia].
  match goal with |- context [signed_nibble ?b] => pose proof (signed_nibble_range b) end. lia.
Qed.

(** ** Streams of bytes *)

Fixpoint mouse_handle_bytes (bytes : list Z) : M mouse unit :=
  match bytes with [] => mret tt | b :: bs => _ ← mouse_handle_byte b; mouse_handle_bytes bs end.

Lemma handle_bytes_wp bytes : ∀ m, mouse_inv m → Forall is_u8 bytes → wheel_room m (Z.of_nat (length bytes)) →
  wp (mouse_handle_bytes bytes) (λ _ m', m' = foldl mouse_step m bytes ∧ mouse_inv m') m.
Proof.
  induction bytes as [|b bs IH]; intros m Hinv Hb Hroom; cbn [mouse_handle_bytes foldl]; wp_step; [done|].
  apply Forall_cons_1 in Hb as [Hb Hbs]. cbn [length] in Hroom.
  eapply wp_mono; [apply handle_byte_wp; [done|done|unfold wheel_room in *; lia]|].
  intros [] m' ->. apply IH; [by apply mouse_step_inv|done|].
  apply mouse_step_room; [lia|]. unfold wheel_room in *. lia.
Qed.

(** ** Properties *)

(** The interrupt handler is safe on every stream of bytes: no write leaves
    the packet buffer, no signed addition overflows (while the wheel counter
    has room), the stream is consumed as [mouse_step] says, and the cursor is
    inside the screen after every byte. *)
Theorem mouse_stream_safe m bytes : mouse_inv m → Forall is_u8 bytes →
  wheel_room m (Z.of_nat (length bytes)) →
  ∃ m', mouse_handle_bytes bytes m = Some (tt, m') ∧ m' = foldl mouse_step m bytes ∧ mouse_inv m' ∧
        0 ≤ cursor_x m' < bound_width m' ∧ 0 ≤ cursor_y m' < bound_height m'.
Proof.
  intros Hinv Hb Hr. destruct (handle_bytes_wp bytes m Hinv Hb Hr) as ([] & m' & E & Em & Hinv').
  exists m'. split_and!; try done; apply Hinv'.
Qed.

Lemma packet3 m b0 b1 b2 : length (packet m) = 4%nat → packet_index m = 0 → packet_size m = 3 →
  Z.testbit b0 3 = true →
  foldl mouse_step m [b0; b1; b2] = packet_effect ([b0; b1; b2] ++ drop 3 (packet m)) m.
Proof.
  intros Hl Hi Hs Hb. cbn [foldl]. destruct m; cbn in Hl, Hi, Hs. subst.
  destruct packet0 as [|q0 [|q1 [|q2 [|q3 [|]]]]]; try done.
  unfold mouse_step at 3. mouse_cbv. rewrite Hb. done.
Qed.

Lemma packet4 m b0 b1 b2 b3 : length (packet m) = 4%nat → packet_index m = 0 → packet_size m = 4 →
  Z.testbit b0 3 = true →
  foldl mouse_step m [b0; b1; b2; b3] = packet_effect [b0; b1; b2; b3] m.
Proof.
  intros Hl Hi Hs Hb. cbn [foldl]. destruct m; cbn in Hl, Hi, Hs. subst.
  destruct packet0 as [|q0 [|q1 [|q2 [|q3 [|]]]]]; try done.
  unfold mouse_step at 4. mouse_cbv. rewrite Hb. done.
Qed.

(** A complete wheel packet moves the cursor by its two signed bytes (y
    upwards) clamped to the screen, sets the buttons from the low bits of the
    first byte, adds the signed nibble to the wheel, and records a click
    exactly when the left button goes from down to up. *)
Theorem mouse_wheel_packet m b0 b1 b2 b3 : mouse_inv m → packet_index m = 0 → packet_size m = 4 →
  Forall is_u8 [b0; b1; b2; b3] → Z.testbit b0 3 = true → wheel_room m 4 →
  ∃ m', mouse_handle_bytes [b0; b1; b2; b3] m = Some (tt, m') ∧
    cursor_x m' = clamp (cursor_x m + i8 b1) (bound_width m) ∧
    cursor_y m' = clamp (cursor_y m - i8 b2) (bound_height m) ∧
    left_down_flag m' = Z.testbit b0 0 ∧ right_down_flag m' = Z.testbit b0 1 ∧
    middle_down_flag m' = Z.testbit b0 2 ∧
    wheel_delta m' = wheel_delta m + signed_nibble b3 ∧ packet_index m' = 0 ∧
    (if left_down_flag m && negb (Z.testbit b0 0)
     then click_pending m' = true ∧ click_x m' = cursor_x m' ∧ click_y m' = cursor_y m'
     else click_pending m' = click_pending m ∧ click_x m' = click_x m ∧ click_y m' = click_y m).
Proof.
  intros Hinv Hi Hs Hb H3 Hr. destruct (handle_bytes_wp _ m Hinv Hb Hr) as ([] & m' & E & Em & _).
  exists m'. split; [done|]. rewrite packet4 in Em by (done || apply (mi_packet _ Hinv)). subst m'.
  unfold packet_effect. rewrite Hs. cbn - [u32 Z.testbit]. split_and!; try done.
  change (default 0 ([b0; b1; b2; b3] !! Z.to_nat 0)) with b0.
  by destruct (left_down_flag m && negb (Z.testbit b0 0)).
Qed.

(** Without the wheel protocol a packet is three bytes: the same motion,
    buttons and clicks, and the wheel never moves. *)
Theorem mouse_plain_packet m b0 b1 b2 : mouse_inv m → packet_index m = 0 → packet_size m = 3 →
  Forall is_u8 [b0; b1; b2] → Z.testbit b0 3 = true → wheel_room m 3 →
  ∃ m', mouse_handle_bytes [b0; b1; b2] m = Some (tt, m') ∧
    cursor_x m' = clamp (cursor_x m + i8 b1) (bound_width m) ∧
    cursor_y m' = clamp (cursor_y m - i8 b2) (bound_height m) ∧
    left_down_flag m' = Z.testbit b0 0 ∧ wheel_delta m' = wheel_delta m ∧ packet_index m' = 0 ∧
    click_pending m' = left_down_flag m && negb (Z.testbit b0 0) || click_pending m.
Proof.
  intros Hinv Hi Hs Hb H3 Hr. destruct (handle_bytes_wp _ m Hinv Hb Hr) as ([] & m' & E & Em & _).
  exists m'. split; [done|]. rewrite packet3 in Em by (done || apply (mi_packet _ Hinv)). subst m'.
  unfold packet_effect. rewrite Hs. cbn - [u32 Z.testbit]. split_and!; try done. lia.
Qed.

(** mouse_set_bounds with a positive size puts the cursor into the middle of
    the new screen and keeps the invariant; a size that is not positive
    changes nothing. *)
Theorem mouse_set_bounds_spec m w h : mouse_inv m → w ≤ MAX_BOUND → h ≤ MAX_BOUND →
  ∃ m', mouse_set_bounds w h m = Some (tt, m') ∧ mouse_inv m' ∧
    (if (0 <? w) && (0 <? h)
     then cursor_x m' = w / 2 ∧ cursor_y m' = h / 2 ∧ bound_width m' = w ∧ bound_height m' = h
     else m' = m).
Proof.
  intros Hinv Hw Hh. unfold mouse_set_bounds.
  destruct (Z.leb_spec w 0), (Z.leb_spec h 0), (Z.ltb_spec 0 w), (Z.ltb_spec 0 h); try lia; cbn [orb andb];
    try (by exists m).
  eexists. split; [reflexivity|]. rewrite !Z.quot_div_nonneg by lia.
  pose proof (Z.div_pos w 2). pose proof (Z.div_lt w 2). pose proof (Z.div_pos h 2). pose proof (Z.div_lt h 2).
  split; [|done]. destruct Hinv as [W H' X Y G L B S I]. split; cbn - [u32]; try done; try lia. apply u32_range.
Qed.

(** ** Initialization *)

Section initialize.
Context {D : Type} `{TotalPorts D}.

Lemma wait_wp (f : Z → option unit) d :
  wp (_ ← for_exit 0 100000 (λ _, st ← inb PS2_STATUS; mret (f st)); mret tt) (λ _ _, True) d.
Proof.
  wp_step. apply (wp_for_exit _ _ _ (λ _ _, True)); [lia|done| |].
  - intros i d' _ _. wp_step. eapply wp_mono; [apply inb_total|]. intros st d2 _. wp_step.
    destruct (f st); [by wp_step|done].
  - intros d' _. by wp_step.
Qed.

Lemma wait_input_wp d : wp mouse_wait_input (λ _ _, True) d.
Proof. apply wait_wp. Qed.
Lemma wait_output_wp d : wp mouse_wait_output (λ _ _, True) d.
Proof. apply wait_wp. Qed.

Lemma write_wp v d : wp (mouse_write v) (λ _ _, True) d.
Proof.
  unfold mouse_write. wp_step. eapply wp_mono; [apply wait_input_wp|]. intros _ d1 _.
  wp_step. eapply wp_mono; [apply outb_total|]. intros _ d2 _.
  wp_step. eapply wp_mono; [apply wait_input_wp|]. intros _ d3 _. apply outb_total.
Qed.

Lemma response_wp d : wp mouse_read_response (λ v _, is_u8 v) d.
Proof. unfold mouse_read_response. wp_step. eapply wp_mono; [apply wait_output_wp|]. intros _ d1 _. apply inb_total. Qed.

(** One step of the dialogue, whatever the device answered before. *)
Ltac talk := wp_step; eapply wp_mono;
  [lazymatch goal with
   | |- wp mouse_wait_input _ _ => apply wait_input_wp
   | |- wp mouse_wait_output _ _ => apply wait_output_wp
   | |- wp (mouse_write _) _ _ => apply write_wp
   | |- wp mouse_read_response _ _ => apply response_wp
   | |- wp (outb _ _) _ _ => apply outb_total
   | |- wp (inb _) _ _ => apply inb_total
   end
  |intros ? ? _].

Lemma rate_wp r d : wp (mouse_set_sample_rate r) (λ _ _, True) d.
Proof. unfold mouse_set_sample_rate. do 4 talk. by wp_step. Qed.

Lemma enable_port_wp d : wp enable_port (λ _ _, True) d.
Proof. unfold enable_port. do 9 talk. apply outb_total. Qed.

Lemma identify_wp d : wp identify (λ v _, is_u8 v) d.
Proof.
  unfold identify. do 2 talk. do 3 (wp_step; eapply wp_mono; [apply rate_wp|]; intros _ ? _).
  do 2 talk. apply response_wp.
Qed.

(** mouse_initialize terminates whatever the device answers (every wait is
    bounded), and leaves the driver unchanged except that it may have switched
    to four-byte packets; the invariant holds afterwards. *)
Theorem mouse_initialize_total m (d : D) : mouse_inv m →
  ∃ m' d', mouse_initialize (m, d) = Some (tt, (m', d')) ∧ mouse_inv m' ∧ (m' = m ∨ m' = set_packet_size 4 m).
Proof.
  intros Hinv.
  assert (H4 : mouse_inv (set_packet_size 4 m)).
  { destruct Hinv. split; cbn; try done; [auto|]. destruct mi_size0; lia. }
  assert (Hwp : wp mouse_initialize (λ _ s, mouse_inv (fst s) ∧ (fst s = m ∨ fst s = set_packet_size 4 m)) (m, d)).
  { unfold mouse_initialize, on_device, on_mouse. do 2 wp_step. eapply wp_mono; [apply enable_port_wp|]. intros [] d1 _.
    do 2 wp_step. eapply wp_mono; [apply identify_wp|]. intros id d2 _. wp_step.
    apply (wp_mono _ (λ _ s, mouse_inv (fst s) ∧ (fst s = m ∨ fst s = set_packet_size 4 m))).
    { apply wp_when; intros _; [|cbn; auto]. do 3 wp_step. wp_step. eapply wp_mono; [apply serial_total|].
      intros [] d3 _. cbn. auto. }
    intros [] [m1 d3] Hm. do 3 wp_step. eapply wp_mono; [apply write_wp|]. intros [] d4 _.
    eapply wp_mono; [apply response_wp|]. intros v d5 _. wp_step. eapply wp_mono; [apply serial_total|].
    by intros [] d6 _. }
  destruct Hwp as ([] & [m' d'] & E & HQ). by exists m', d'.
Qed.
End initialize.

(** ** Concrete runs *)

Lemma mouse_stream_safe_witness : ∃ m', mouse_handle_bytes [0x00; 0x09; 0x7F; 0x80; 0x08; 0xFF; 0x01] mouse_zero = Some (tt, m') ∧
  m' = foldl mouse_step mouse_zero [0x00; 0x09; 0x7F; 0x80; 0x08; 0xFF; 0x01] ∧ mouse_inv m' ∧
  0 ≤ cursor_x m' < bound_width m' ∧ 0 ≤ cursor_y m' < bound_height m'.
Proof.
  apply (mouse_stream_safe mouse_zero [0x00; 0x09; 0x7F; 0x80; 0x08; 0xFF; 0x01]).
  - apply mouse_zero_inv.
  - repeat constructor; vm_compute; (reflexivity || discriminate).
  - unfold wheel_room. cbn. lia.
Defined.

Definition wheel_mouse : mouse := set_left_down_flag true (set_packet_size 4 mouse_zero).

Lemma wheel_mouse_inv : mouse_inv wheel_mouse.
Proof. split; unfold MAX_BOUND, is_u32; cbn; try lia; by repeat constructor. Defined.

Lemma mouse_wheel_packet_witness : ∃ m', mouse_handle_bytes [0x08; 0x0A; 0xF6; 0x0F] wheel_mouse = Some (tt, m') ∧
  cursor_x m' = 170 ∧ cursor_y m' = 110 ∧ wheel_delta m' = -1.
Proof.
  destruct (mouse_wheel_packet wheel_mouse 0x08 0x0A 0xF6 0x0F wheel_mouse_inv eq_refl eq_refl) as (m' & E & X & Y & _ & _ & _ & W & _).
  - repeat constructor; vm_compute; (reflexivity || discriminate).
  - reflexivity.
  - unfold wheel_room. cbn. lia.
  - exists m'. rewrite X, Y, W. vm_compute. split; [exact E|]. auto.
Defined.

Lemma mouse_plain_packet_witness : ∃ m', mouse_handle_bytes [0x09; 0x80; 0x00] mouse_zero = Some (tt, m') ∧
  cursor_x m' = 32 ∧ left_down_flag m' = true.
Proof.
  destruct (mouse_plain_packet mouse_zero 0x09 0x80 0x00 mouse_zero_inv eq_refl eq_refl) as (m' & E & X & _ & L & _).
  - repeat constructor; vm_compute; (reflexivity || discriminate).
  - reflexivity.
  - unfold wheel_room. cbn. lia.
  - exists m'. rewrite X, L. vm_compute. split; [exact E|]. auto.
Defined.

Lemma mouse_set_bounds_witness : ∃ m', mouse_set_bounds 1024 768 mouse_zero = Some (tt, m') ∧ mouse_inv m' ∧
  cursor_x m' = 512 ∧ cursor_y m' = 384 ∧ bound_width m' = 1024 ∧ bound_height m' = 768.
Proof. apply (mouse_set_bounds_spec mouse_zero 1024 768 mouse_zero_inv); unfold MAX_BOUND; lia. Defined.

Lemma mouse_initialize_witness : ∃ m' d', mouse_initialize (mouse_zero, Pc [0xFA; 0xFA; 0xFA] [] []) = Some (tt, (m', d')) ∧
  mouse_inv m' ∧ (m' = mouse_zero ∨ m' = set_packet_size 4 mouse_zero).
Proof. apply (mouse_initialize_total (D := pc)). apply mouse_zero_inv. Defined.
