(* ===== verification/Rtc.v ===== *)
(** * The wall clock, kernel/drivers/platform/rtc.c

    Reading the CMOS clock through its index and data ports, and turning its four
    register formats (BCD or binary, 12 or 24 hours) into a date and a time. *)

From Stdlib Require Import ZArith Lia Bool String.
From stdpp Require Import base numbers list strings list_numbers.
From S2P Require Import Prelude Ports.

Definition CMOS_INDEX : Z := 0x70.
Definition CMOS_DATA : Z := 0x71.

Record rtc_datetime := RtcDatetime { year : Z; month : Z; day : Z; hour : Z; minute : Z; second : Z }.

(** ** Operations; the state is [rtc_ready] and the machine *)

Definition bcd_to_bin (value : Z) : Z := u8 (Z.land value 0x0F + Z.shiftr value 4 * 10).

Section rtc.
Context {D : Type} `{PortIO D, Console D}.

Definition on_ports {A} (m : M D A) : M (bool * D) A := zoom snd (λ d s, (fst s, d)) m.

Definition cmos_read (reg : Z) : M D Z := _ ← outb CMOS_INDEX (u8 (Z.lor 0x80 reg)); inb CMOS_DATA.

Definition rtc_update_in_progress : M D bool := v ← cmos_read 0x0A; mret (negb (Z.land v 0x80 =? 0)).

Definition rtc_initialize : M (bool * D) unit :=
  _ ← modify (λ s, (true, snd s));
  on_ports (serial_writestring ("MyOS RTC: CMOS wall clock enabled." +:+ newline)).

(** The loop that waits for an update to end, at most 100000 rounds. *)
Definition wait_update : M D unit :=
  _ ← for_exit 0 100000 (λ _, b ← rtc_update_in_progress; mret (if (b : bool) then None else Some tt)); mret tt.

(** Lines 49-66, from the registers to the fields of [*out]. *)
Definition convert (second minute hour day month year status_b : Z) : rtc_datetime :=
  let bcd := Z.land status_b 0x04 =? 0 in
  let second := if bcd then bcd_to_bin second else second in
  let minute := if bcd then bcd_to_bin minute else minute in
  let hour := if bcd then u8 (Z.lor (Z.land hour 0x80) (bcd_to_bin (u8 (Z.land hour 0x7F)))) else hour in
  let day := if bcd then bcd_to_bin day else day in
  let month := if bcd then bcd_to_bin month else month in
  let year := if bcd then bcd_to_bin year else year in
  let hour := if (Z.land status_b 0x02 =? 0) && negb (Z.land hour 0x80 =? 0)
              then u8 ((Z.land hour 0x7F + 12) mod 24) else hour in
  RtcDatetime (u16 (2000 + year)) month day hour minute second.

(** [None] is the return value false; [out] is a valid pointer. *)
Definition rtc_read_datetime : M (bool * D) (option rtc_datetime) :=
  ready ← gets fst;
  if negb ready then mret None
  else
    _ ← on_ports wait_update;
    s ← on_ports (cmos_read 0x00); mi ← on_ports (cmos_read 0x02); h ← on_ports (cmos_read 0x04);
    d ← on_ports (cmos_read 0x07); mo ← on_ports (cmos_read 0x08); y ← on_ports (cmos_read 0x09);
    b ← on_ports (cmos_read 0x0B);
    mret (Some (convert s mi h d mo y b)).
End rtc.

(** ** The clock *)

(** The chip between two updates: the register selected through the index port
    (its bit 7 masks the non-maskable interrupt) is what the data port returns,
    and reading changes nothing; status register A may change at any time. *)
Class Cmos (D : Type) `{PortIO D} := {
  cmos_register : D → Z → Z;
  cmos_law reg d : 0 ≤ reg < 128 → wp (_ ← outb 0x70 (u8 (Z.lor 0x80 reg)); inb 0x71)
    (λ v d', v = cmos_register d reg ∧ ∀ r, r ≠ 0x0A → cmos_register d' r = cmos_register d r) d }.

(** How a chip shows the time [t] with the mode bits of status register B. *)
Definition bcd (x : Z) : Z := 16 * (x / 10) + x mod 10.
Definition encode (binary : bool) (x : Z) : Z := if binary then x else bcd x.
Definition encode_hour (binary h24 : bool) (h : Z) : Z :=
  if h24 then encode binary h
  else let h12 := if h mod 12 =? 0 then 12 else h mod 12 in
       Z.lor (encode binary h12) (if 12 <=? h then 0x80 else 0).

Record valid_time (t : rtc_datetime) : Prop := {
  vt_year : 2000 ≤ year t < 2100; vt_month : 1 ≤ month t ≤ 12; vt_day : 1 ≤ day t ≤ 31;
  vt_hour : 0 ≤ hour t < 24; vt_minute : 0 ≤ minute t < 60; vt_second : 0 ≤ second t < 60 }.

Definition shows_time {D} `{Cmos D} (d : D) (t : rtc_datetime) : Prop :=
  let b := cmos_register d 0x0B in
  let binary := negb (Z.land b 0x04 =? 0) in
  let h24 := negb (Z.land b 0x02 =? 0) in
  cmos_register d 0x00 = encode binary (second t) ∧ cmos_register d 0x02 = encode binary (minute t) ∧
  cmos_register d 0x04 = encode_hour binary h24 (hour t) ∧ cmos_register d 0x07 = encode binary (day t) ∧
  cmos_register d 0x08 = encode binary (month t) ∧ cmos_register d 0x09 = encode binary (year t - 2000).

(** The mode in which the driver is right: 24 hours, or an hour that is not
    twelve on the dial. *)
Definition dial_ok {D} `{Cmos D} (d : D) (t : rtc_datetime) : Prop :=
  Z.land (cmos_register d 0x0B) 0x02 ≠ 0 ∨ hour t mod 12 ≠ 0.

(** ** Conversions, by evaluation of all values *)

Lemma range_check (P : Z → bool) n : forallb P (seqZ 0 n) = true → ∀ x, 0 ≤ x < n → P x = true.
Proof. rewrite forallb_forall. intros Hall x Hx. apply Hall. apply list_elem_of_In, elem_of_seqZ. lia. Qed.

Lemma bcd_roundtrip x : 0 ≤ x < 100 → bcd_to_bin (bcd x) = x.
Proof. intros Hx. apply Z.eqb_eq. by apply (range_check (λ x, bcd_to_bin (bcd x) =? x) 100). Qed.

(** The hour of [convert] alone. *)
Definition convert_hour (binary h24 : bool) (h : Z) : Z :=
  let h := if negb binary then u8 (Z.lor (Z.land h 0x80) (bcd_to_bin (u8 (Z.land h 0x7F)))) else h in
  if negb h24 && negb (Z.land h 0x80 =? 0) then u8 ((Z.land h 0x7F + 12) mod 24) else h.

Lemma hour_roundtrip binary h24 h : 0 ≤ h < 24 → h24 = true ∨ h mod 12 ≠ 0 →
  convert_hour binary h24 (encode_hour binary h24 h) = h.
Proof.
  intros Hh Hd. apply Z.eqb_eq.
  assert (Hall : ∀ binary h24, forallb (λ h, negb h24 && (h mod 12 =? 0) || (convert_hour binary h24 (encode_hour binary h24 h) =? h)) (seqZ 0 24) = true)
    by (intros [] []; vm_compute; reflexivity).
  pose proof (range_check _ _ (Hall binary h24) h Hh) as E. apply orb_true_iff in E as [E|E]; [|done]. exfalso.
  bool_to_prop. destruct Hd; [congruence|done].
Qed.

Lemma decode_encode binary x : 0 ≤ x < 100 → (if negb binary then bcd_to_bin (encode binary x) else encode binary x) = x.
Proof. intros Hx. destruct binary; cbn; [done|by apply bcd_roundtrip]. Qed.

Section clock.
Context {D : Type} `{PortIO D} `{Console D} `{Cmos D}.

Definition same_clock (d d' : D) : Prop := ∀ r, r ≠ 0x0A → cmos_register d' r = cmos_register d r.

Lemma cmos_read_wp (d : D) reg (Q : Z → D → Prop) : 0 ≤ reg < 128 →
  (∀ d', same_clock d d' → Q (cmos_register d reg) d') → wp (cmos_read reg) Q d.
Proof. intros Hr HQ. unfold cmos_read. eapply wp_mono; [by apply (cmos_law reg d)|]. intros v d' [-> Hs]. by apply HQ. Qed.

Lemma wait_update_wp (d : D) : wp wait_update (λ _ d', same_clock d d') d.
Proof.
  unfold wait_update. wp_step. apply (wp_for_exit _ _ _ (λ _ d', same_clock d d')); [lia|by intros r Hr| |].
  - intros i d1 _ S1. unfold rtc_update_in_progress. do 2 wp_step. apply cmos_read_wp; [lia|]. intros d2 S2. do 2 wp_step.
    destruct (negb _); [|wp_step]; intros r Hr; rewrite (S2 r Hr); by apply S1.
  - intros d1 S1. by wp_step.
Qed.

(** One register through the pair of [rtc_ready] and the machine. *)
Lemma port_read_wp (d0 d : D) b reg (Q : Z → bool * D → Prop) : 0 ≤ reg < 128 → reg ≠ 0x0A → same_clock d0 d →
  (∀ d', same_clock d0 d' → Q (cmos_register d0 reg) (b, d')) → wp (on_ports (cmos_read reg)) Q (b, d).
Proof.
  intros Hr Hne Hs HQ. unfold on_ports. wp_step. cbn [snd fst]. apply cmos_read_wp; [done|]. intros d' Hs'. rewrite (Hs reg Hne). apply HQ.
  intros r Hn. rewrite (Hs' r Hn). by apply Hs.
Qed.

Lemma convert_time (d : D) t : valid_time t → shows_time d t → dial_ok d t →
  convert (cmos_register d 0) (cmos_register d 2) (cmos_register d 4) (cmos_register d 7) (cmos_register d 8) (cmos_register d 9)
    (cmos_register d 0x0B) = t.
Proof.
  intros [V1 V2 V3 V4 V5 V6] (E1 & E2 & E3 & E4 & E5 & E6) Hd. unfold convert. rewrite E1, E2, E3, E4, E5, E6.
  set (binary := negb (Z.land (cmos_register d 0x0B) 0x04 =? 0)) in *. set (h24 := negb (Z.land (cmos_register d 0x0B) 0x02 =? 0)) in *.
  replace (Z.land (cmos_register d 0x0B) 0x04 =? 0) with (negb binary) by (unfold binary; by rewrite negb_involutive).
  replace (Z.land (cmos_register d 0x0B) 0x02 =? 0) with (negb h24) by (unfold h24; by rewrite negb_involutive).
  rewrite !decode_encode by lia. pose proof (hour_roundtrip binary h24 (hour t) V4) as Hh. unfold convert_hour in Hh. rewrite Hh.
  - replace (u16 (2000 + (year t - 2000))) with (year t); [by destruct t|]. unfold u16. rewrite Z.mod_small; lia.
  - destruct Hd as [Hd|Hd]; [left|by right]. unfold h24. by apply negb_true_iff, Z.eqb_neq.
Qed.

(** rtc_read_datetime returns the time the clock shows, in each of the
    formats a chip may be set to (BCD or binary, 24 or 12 hours), for every valid
    date of this century; in 12-hour mode for the hours that are not twelve on
    the dial. *)
Theorem rtc_reads_time (d : D) t : valid_time t → shows_time d t → dial_ok d t →
  ∃ d', rtc_read_datetime (true, d) = Some (Some t, (true, d')) ∧ same_clock d d'.
Proof.
  intros V S O.
  assert (Hw : wp rtc_read_datetime (λ r s', r = Some t ∧ ∃ d', s' = (true, d') ∧ same_clock d d') (true, d)).
  { unfold rtc_read_datetime. do 2 wp_step. cbn [fst negb]. wp_step. unfold on_ports at 1. apply wp_zoom. cbn [fst snd].
    eapply wp_mono; [apply wait_update_wp|]. intros [] d0 S0.
    do 7 (wp_step; apply (port_read_wp d); [lia|lia|assumption|]; intros ? ?). wp_step. rewrite (convert_time d t V S O). eauto. }
  destruct Hw as (r & s' & E & -> & d' & -> & Hs). by exists d'.
Qed.
End clock.

(** ** A concrete chip *)

(** The registers, the selected index, and a console that is not looked at. *)
Record chip := Chip { ch_index : Z; ch_regs : list (Z * Z) }.
Definition ch_reg (d : chip) (r : Z) : Z := default 0 (snd <$> head (filter (λ p, p.1 = r) (ch_regs d))).

#[export] Instance chip_ports : PortIO chip := {|
  inb p := λ d, Some (if p =? 0x71 then ch_reg d (ch_index d) else 0xFF, d);
  outb p v := modify (λ d, if p =? 0x70 then Chip (Z.land v 0x7F) (ch_regs d) else d) |}.
#[export] Instance chip_console : Console chip := {| terminal_writestring _ := mret tt; serial_writestring _ := mret tt |}.

Lemma index_bits reg : 0 ≤ reg < 128 → Z.land (u8 (Z.lor 0x80 reg)) 0x7F = reg.
Proof. intros Hr. apply Z.eqb_eq. by apply (range_check (λ reg, Z.land (u8 (Z.lor 0x80 reg)) 0x7F =? reg) 128). Qed.

#[export, program] Instance chip_cmos : Cmos chip := {| cmos_register := ch_reg |}.
Next Obligation.
  intros reg d Hr. wp_step. apply wp_modify. cbn. eexists _, _. split; [reflexivity|]. cbn. rewrite index_bits by done. done.
Qed.

(** 2026-07-14 21:05:09 on a chip in 12-hour BCD mode. *)
Definition demo_chip : chip := Chip 0 [(0x00, 0x09); (0x02, 0x05); (0x04, 0x89); (0x07, 0x14); (0x08, 0x07); (0x09, 0x26); (0x0B, 0)].
Definition demo_time : rtc_datetime := RtcDatetime 2026 7 14 21 5 9.

Lemma rtc_reads_time_witness : ∃ d', rtc_read_datetime (true, demo_chip) = Some (Some demo_time, (true, d')).
Proof.
  destruct (rtc_reads_time demo_chip demo_time) as (d' & E & _).
  - split; cbn; lia.
  - repeat split; reflexivity.
  - right. discriminate.
  - exists d'. exact E.
Defined.

(** Noon and midnight of a 12-hour clock are exchanged with 0 and 12. *)
Definition twelve_chip (pm : bool) : chip :=
  Chip 0 [(0x00, 0); (0x02, 0); (0x04, if pm then 0x92 else 0x12); (0x07, 1); (0x08, 1); (0x09, 0x26); (0x0B, 0)].
Definition read_hour (d : chip) : option Z :=
  match rtc_read_datetime (true, d) with Some (Some t, _) => Some (hour t) | _ => None end.
Example noon_reads_as_midnight : read_hour (twelve_chip true) = Some 0.
Proof. vm_compute. reflexivity. Qed.
Example midnight_reads_as_noon : read_hour (twelve_chip false) = Some 12.
Proof. vm_compute. reflexivity. Qed.
