(* ===== verification/Input.v ===== *)
(** * The input layer, kernel/input/input.c

    One stream of GUI events out of the keyboard queue and the mouse state,
    and what a client that polls it can rely on: polling terminates, keys come
    first and in order, no wheel motion is lost. *)

From Stdlib Require Import ZArith Lia Bool String.
From stdpp Require Import base numbers list.
From S2P Require Import Prelude Ring Ports Keyboard Mouse.

(** ** Data *)

Inductive gui_event_type :=
  | GUI_EVENT_NONE | GUI_EVENT_KEY | GUI_EVENT_MOUSE_MOVE | GUI_EVENT_MOUSE_BUTTON
  | GUI_EVENT_MOUSE_SCROLL | GUI_EVENT_TIMER_TICK.

#[export] Instance gui_event_type_eq_dec : EqDecision gui_event_type.
Proof. solve_decision. Defined.

Record gui_event := GuiEvent {
  ev_type : gui_event_type;
  ev_x : Z; ev_y : Z; ev_dx : Z; ev_dy : Z; ev_wheel_delta : Z;
  ev_key : Z; ev_keycode : Z; ev_modifiers : Z; ev_pressed : bool; ev_ticks : Z }.

(** The statics of input.c and the drivers below it. *)
Record input := Input {
  last_left_down : bool;
  last_mouse_x : Z; last_mouse_y : Z; last_mouse_generation : Z;
  keyboard : kbd; the_mouse : mouse }.

Definition set_last_left_down v (s : input) : input :=
  Input v (last_mouse_x s) (last_mouse_y s) (last_mouse_generation s) (keyboard s) (the_mouse s).
Definition set_last_mouse_x v (s : input) : input :=
  Input (last_left_down s) v (last_mouse_y s) (last_mouse_generation s) (keyboard s) (the_mouse s).
Definition set_last_mouse_y v (s : input) : input :=
  Input (last_left_down s) (last_mouse_x s) v (last_mouse_generation s) (keyboard s) (the_mouse s).
Definition set_last_mouse_generation v (s : input) : input :=
  Input (last_left_down s) (last_mouse_x s) (last_mouse_y s) v (keyboard s) (the_mouse s).
Definition set_keyboard v (s : input) : input :=
  Input (last_left_down s) (last_mouse_x s) (last_mouse_y s) (last_mouse_generation s) v (the_mouse s).
Definition set_the_mouse v (s : input) : input :=
  Input (last_left_down s) (last_mouse_x s) (last_mouse_y s) (last_mouse_generation s) (keyboard s) v.

Definition on_kbd {A} (m : M kbd A) : M input A := zoom keyboard set_keyboard m.
Definition on_ms {A} (m : M mouse A) : M input A := zoom the_mouse set_the_mouse m.

(** ** Operations *)

Definition input_initialize : M input unit :=
  l ← on_ms mouse_left_down; _ ← modify (set_last_left_down l);
  x ← on_ms mouse_x; _ ← modify (set_last_mouse_x x);
  y ← on_ms mouse_y; _ ← modify (set_last_mouse_y y);
  g ← on_ms mouse_generation; modify (set_last_mouse_generation g).

(** The differences [x - last_mouse_x] and [y - last_mouse_y]. *)
Definition motion (x y : Z) : M input (Z * Z) :=
  lx ← gets last_mouse_x; dx ← lift (checked (x - lx));
  ly ← gets last_mouse_y; dy ← lift (checked (y - ly));
  mret (dx, dy).

(** [event] is the object behind the (valid) pointer; the result is what the
    function returns and the object afterwards. *)
Definition input_poll_event (event : gui_event) : M input (bool * gui_event) :=
  key ← on_kbd keyboard_try_read_event;
  match key with
  | Some k =>
      x ← gets last_mouse_x; y ← gets last_mouse_y;
      mret (true, GuiEvent GUI_EVENT_KEY x y 0 0 0 (ascii k) (keycode k) (modifiers k) (pressed k) 0)
  | None =>
      generation ← on_ms mouse_generation;
      left_down ← on_ms mouse_left_down;
      x ← on_ms mouse_x;
      y ← on_ms mouse_y;
      wheel ← on_ms mouse_consume_wheel_delta;
      if negb (wheel =? 0) then
        _ ← modify (set_last_mouse_generation generation);
        mret (true, GuiEvent GUI_EVENT_MOUSE_SCROLL x y 0 0 wheel 0 0 0 left_down 0)
      else
        last ← gets last_left_down;
        if negb (eqb left_down last) then
          _ ← modify (set_last_left_down left_down);
          _ ← modify (set_last_mouse_generation generation);
          _ ← when (negb left_down) (_ ← on_ms mouse_consume_click; mret tt);
          d ← motion x y;
          _ ← modify (set_last_mouse_x x);
          _ ← modify (set_last_mouse_y y);
          mret (true, GuiEvent GUI_EVENT_MOUSE_BUTTON x y (fst d) (snd d) 0 0 0 0 left_down 0)
        else
          click ← on_ms mouse_consume_click;
          match click with
          | Some (x, y) =>
              d ← motion x y;
              _ ← modify (set_last_left_down false);
              _ ← modify (set_last_mouse_x x);
              _ ← modify (set_last_mouse_y y);
              _ ← modify (set_last_mouse_generation generation);
              mret (true, GuiEvent GUI_EVENT_MOUSE_BUTTON x y (fst d) (snd d) 0 0 0 0 false 0)
          | None =>
              lg ← gets last_mouse_generation; lx ← gets last_mouse_x; ly ← gets last_mouse_y;
              if negb (generation =? lg) || negb (x =? lx) || negb (y =? ly) then
                d ← motion x y;
                _ ← modify (set_last_mouse_x x);
                _ ← modify (set_last_mouse_y y);
                _ ← modify (set_last_mouse_generation generation);
                mret (true, GuiEvent GUI_EVENT_MOUSE_MOVE x y (fst d) (snd d) 0 0 0 0 left_down 0)
              else
                mret (false, GuiEvent GUI_EVENT_NONE (ev_x event) (ev_y event) (ev_dx event) (ev_dy event)
                               (ev_wheel_delta event) (ev_key event) (ev_keycode event) (ev_modifiers event)
                               (ev_pressed event) (ev_ticks event))
          end
  end.

(** Polling until nothing is left, the events in the order they came. *)
Fixpoint poll_all (fuel : nat) (event : gui_event) : M input (list gui_event) :=
  match fuel with
  | O => stuck
  | S fuel' =>
      r ← input_poll_event event;
      if (fst r : bool) then es ← poll_all fuel' (snd r); mret (snd r :: es) else mret []
  end.

(** ** Invariant and measure *)

Definition coord (z : Z) : Prop := 0 ≤ z < 2147483648.

(** [q] is the queue of keyboard events. *)
Record input_inv (i : input) (a : akbd) : Prop := {
  ii_kbd : kbd_rel (keyboard i) a;
  ii_last : coord (last_mouse_x i) ∧ coord (last_mouse_y i);
  ii_cursor : coord (cursor_x (the_mouse i)) ∧ coord (cursor_y (the_mouse i));
  ii_click : coord (click_x (the_mouse i)) ∧ coord (click_y (the_mouse i)) }.

Definition moved (i : input) : bool :=
  negb (movement_generation (the_mouse i) =? last_mouse_generation i)
  || negb (cursor_x (the_mouse i) =? last_mouse_x i) || negb (cursor_y (the_mouse i) =? last_mouse_y i).

(** How many more mouse events a client can get when nothing happens: a
    pending click counts three times, for it can make the position and the
    button differ again. *)
Definition mouse_pending (i : input) : nat :=
  Nat.b2n (negb (wheel_delta (the_mouse i) =? 0)) + 3 * Nat.b2n (click_pending (the_mouse i)) +
  Nat.b2n (negb (eqb (left_down_flag (the_mouse i)) (last_left_down i))) + Nat.b2n (moved i).

(** Nothing to report. *)
Definition quiet (i : input) : Prop :=
  wheel_delta (the_mouse i) = 0 ∧ click_pending (the_mouse i) = false ∧
  last_left_down i = left_down_flag (the_mouse i) ∧
  last_mouse_x i = cursor_x (the_mouse i) ∧ last_mouse_y i = cursor_y (the_mouse i).

Definition key_event (x y : Z) (k : keyboard_event) : gui_event :=
  GuiEvent GUI_EVENT_KEY x y 0 0 0 (ascii k) (keycode k) (modifiers k) (pressed k) 0.

Lemma motion_wp x y i (Q : Z * Z → input → Prop) : coord x → coord y →
  coord (last_mouse_x i) → coord (last_mouse_y i) →
  Q (x - last_mouse_x i, y - last_mouse_y i) i → wp (motion x y) Q i.
Proof.
  unfold coord. intros. unfold motion. do 3 wp_step. apply wp_checked; [unfold is_i32; lia|].
  do 3 wp_step. apply wp_checked; [unfold is_i32; lia|]. by wp_step.
Qed.

(** Computes with the fields. *)
Ltac input_cbv := cbv beta iota delta [
    set_last_left_down set_last_mouse_x set_last_mouse_y set_last_mouse_generation set_keyboard set_the_mouse
    last_left_down last_mouse_x last_mouse_y last_mouse_generation keyboard the_mouse
    set_wheel_delta set_click_pending
    cursor_x cursor_y bound_width bound_height left_down_flag right_down_flag middle_down_flag click_pending
    click_x click_y wheel_delta movement_generation packet packet_index packet_size].

(** Runs up to the next branch. *)
Ltac run_straight :=
  repeat (lazymatch goal with
          | |- wp (if _ then _ else _) _ _ => fail
          | |- wp (when _ _) _ _ => fail
          | _ => wp_step; input_cbv
          end).

(** A waiting key is reported first and touches nothing else. *)
Lemma poll_key_wp ev i a k q : input_inv i a → a_events a = k :: q →
  wp (input_poll_event ev) (λ r i', r = (true, key_event (last_mouse_x i) (last_mouse_y i) k) ∧
    ∃ kb, i' = set_keyboard kb i ∧ input_inv i' (with_events q a)) i.
Proof.
  intros [Hk Hl Hc Hcl] Hq. unfold input_poll_event, on_kbd. do 2 wp_step.
  eapply wp_mono; [by apply read_event_wp|]. intros e kb [-> Hrel]. rewrite Hq in *. cbn [head tail] in *.
  wp_steps. split; [done|]. exists kb. by split; [|split].
Qed.

Definition no_event (ev : gui_event) : gui_event :=
  GuiEvent GUI_EVENT_NONE (ev_x ev) (ev_y ev) (ev_dx ev) (ev_dy ev) (ev_wheel_delta ev) (ev_key ev)
           (ev_keycode ev) (ev_modifiers ev) (ev_pressed ev) (ev_ticks ev).

(** Without a waiting key: one mouse event that makes progress, or silence. *)
Lemma poll_mouse_wp ev i a : input_inv i a → a_events a = [] →
  wp (input_poll_event ev) (λ r i', input_inv i' a ∧
    if (fst r : bool) then
      (mouse_pending i' < mouse_pending i)%nat ∧
      ev_type (snd r) ≠ GUI_EVENT_KEY ∧ ev_type (snd r) ≠ GUI_EVENT_NONE ∧
      wheel_delta (the_mouse i) = ev_wheel_delta (snd r) + wheel_delta (the_mouse i') ∧
      (ev_type (snd r) ≠ GUI_EVENT_MOUSE_SCROLL → ev_dx (snd r) = last_mouse_x i' - last_mouse_x i ∧
                                                  ev_dy (snd r) = last_mouse_y i' - last_mouse_y i) ∧
      (ev_type (snd r) = GUI_EVENT_MOUSE_SCROLL → ev_dx (snd r) = 0 ∧ ev_dy (snd r) = 0 ∧
          last_mouse_x i' = last_mouse_x i ∧ last_mouse_y i' = last_mouse_y i)
    else snd r = no_event ev ∧ quiet i ∧ moved i = false ∧ i' = set_the_mouse (set_wheel_delta 0 (the_mouse i)) (set_keyboard (keyboard i') i)) i.
Proof.
  intros [Hk [Hl1 Hl2] [Hc1 Hc2] [Hcl1 Hcl2]] Hq. unfold input_poll_event, on_kbd, on_ms. do 2 wp_step.
  eapply wp_mono; [by apply read_event_wp|]. intros e kb [-> Hrel]. rewrite Hq in *. cbn [head tail] in *.
  replace (with_events [] a) with a in Hrel by (destruct a; cbn in Hq; by subst).
  unfold mouse_generation, mouse_left_down, mouse_x, mouse_y, mouse_consume_wheel_delta, mouse_consume_click.
  destruct i as [ll lx ly lg k m]. destruct m as [cx cy bw bh lf rf mf cp clx cly wd mg pk pi ps].
  cbn [last_mouse_x last_mouse_y cursor_x cursor_y click_x click_y the_mouse] in *.
  unfold mouse_pending, moved, quiet. input_cbv.
  run_straight.
  destruct (Z.eqb_spec wd 0) as [->|Hw]; cbn [negb].
  2:{ repeat (wp_step; input_cbv). split; [by split|]. cbn [fst snd ev_type ev_wheel_delta ev_dx ev_dy].
      rewrite !Z.eqb_refl. split_and!; try done; [|lia].
      cbn. destruct cp, lf, ll, (cx =? lx), (cy =? ly), (mg =? lg); cbn; lia. }
  run_straight. destruct (eqb lf ll) eqn:El; cbn [negb].
  2:{ run_straight.
      apply (wp_mono _ (λ _ i', i' = Input lf lx ly mg kb (Mouse cx cy bw bh lf rf mf (lf && cp) clx cly 0 mg pk pi ps))).
      { destruct lf; cbn [negb when andb]; [by wp_step|]. destruct cp; repeat (wp_step; input_cbv); try done. }
      intros [] i' ->. wp_step. apply motion_wp; try done. repeat (wp_step; input_cbv). split; [by split|].
      cbn [fst snd ev_type ev_wheel_delta ev_dx ev_dy]. rewrite !Z.eqb_refl, eqb_reflx.
      split_and!; try done. cbn. destruct lf, cp, (cx =? lx), (cy =? ly), (mg =? lg); cbn; lia. }
  apply eqb_prop in El. subst ll. run_straight. destruct cp; cbn [negb].
  - repeat (wp_step; input_cbv). apply motion_wp; try done. repeat (wp_step; input_cbv). split; [by split|].
    cbn [fst snd ev_type ev_wheel_delta ev_dx ev_dy]. rewrite !Z.eqb_refl.
    split_and!; try done. cbn.
    destruct lf, (cx =? lx), (cy =? ly), (cx =? clx), (cy =? cly), (mg =? lg); cbn; lia.
  - run_straight.
    destruct (negb (mg =? lg) || negb (cx =? lx) || negb (cy =? ly)) eqn:Em.
    + wp_step. apply motion_wp; try done. repeat (wp_step; input_cbv). split; [by split|].
      cbn [fst snd ev_type ev_wheel_delta ev_dx ev_dy]. rewrite !Z.eqb_refl. split_and!; try done.
      cbn. destruct lf, (cx =? lx), (cy =? ly), (mg =? lg); cbn in *; (done || lia).
    + wp_step. split; [by split|]. bool_to_prop. cbn [fst snd]. by split_and!.
Qed.

(** ** Draining *)

Definition total (f : gui_event → Z) (es : list gui_event) : Z := foldr (λ e acc, f e + acc) 0 es.

Lemma total_app f es1 es2 : total f (es1 ++ es2) = total f es1 + total f es2.
Proof. unfold total. induction es1; cbn in *; lia. Qed.
Lemma total_keys f x y ks : (∀ k, f (key_event x y k) = 0) → total f (key_event x y <$> ks) = 0.
Proof. intros H. induction ks as [|k ks IH]; [done|]. cbn. by rewrite H. Qed.

Lemma mouse_pending_bound i : (mouse_pending i ≤ 6)%nat.
Proof.
  unfold mouse_pending. pose proof (Nat.b2n_le_1). 
  pose proof (Nat.b2n_le_1 (negb (wheel_delta (the_mouse i) =? 0))).
  pose proof (Nat.b2n_le_1 (click_pending (the_mouse i))).
  pose proof (Nat.b2n_le_1 (negb (eqb (left_down_flag (the_mouse i)) (last_left_down i)))).
  pose proof (Nat.b2n_le_1 (moved i)). lia.
Qed.

(** The mouse part of a drain. *)
Record mouse_drained (i : input) (a : akbd) (es : list gui_event) (i' : input) : Prop := {
  md_types : Forall (λ e, ev_type e ≠ GUI_EVENT_KEY ∧ ev_type e ≠ GUI_EVENT_NONE) es;
  md_length : (length es ≤ mouse_pending i)%nat;
  md_wheel : total ev_wheel_delta es = wheel_delta (the_mouse i);
  md_dx : total ev_dx es = last_mouse_x i' - last_mouse_x i;
  md_dy : total ev_dy es = last_mouse_y i' - last_mouse_y i;
  md_quiet : quiet i';
  md_inv : input_inv i' a }.

Lemma poll_all_mouse_wp fuel : ∀ ev i a, input_inv i a → a_events a = [] → (mouse_pending i < fuel)%nat →
  wp (poll_all fuel ev) (λ es i', mouse_drained i a es i') i.
Proof.
  induction fuel as [|fuel IH]; intros ev i a Hinv Hq Hfuel; [lia|]. cbn [poll_all]. wp_step.
  eapply wp_mono; [by apply poll_mouse_wp|]. intros [[] e] i1 [Hinv1 H]; cbn [fst snd] in *.
  - destruct H as (Hp & Hk & Hn & Hw & Hm & Hs). wp_step.
    eapply wp_mono; [apply (IH e i1 a); [done|done|lia]|]. intros es i2 [T L W X Y Q I]. wp_step.
    split; cbn; try done; [by constructor|lia|unfold total in *; lia| |];
      destruct (decide (ev_type e = GUI_EVENT_MOUSE_SCROLL)) as [E|E].
    + destruct (Hs E) as (-> & _ & El & _). unfold total in X. lia.
    + destruct (Hm E) as [-> _]. unfold total in X. lia.
    + destruct (Hs E) as (_ & -> & _ & El). unfold total in Y. lia.
    + destruct (Hm E) as [_ ->]. unfold total in Y. lia.
  - destruct H as (_ & Hquiet & _ & Hi1). wp_step. destruct Hquiet as (Hw & Hcp & Hl & Hx & Hy).
    split; try done; try (rewrite Hi1; cbn; done || lia); cbn; lia.
Qed.

Lemma poll_all_wp fuel : ∀ ev i a, input_inv i a → (length (a_events a) + mouse_pending i < fuel)%nat →
  wp (poll_all fuel ev) (λ es i', ∃ ms,
    es = (key_event (last_mouse_x i) (last_mouse_y i) <$> a_events a) ++ ms ∧
    mouse_drained i (with_events [] a) ms i') i.
Proof.
  induction fuel as [|fuel IH]; intros ev i a Hinv Hfuel; [lia|].
  destruct (a_events a) as [|k q] eqn:Hq.
  - cbn [length] in Hfuel. eapply wp_mono; [apply (poll_all_mouse_wp _ _ _ _ Hinv Hq); lia|].
    intros es i' Hd. exists es. split; [done|].
    replace (with_events [] a) with a by (destruct a; cbn in Hq; by subst). done.
  - cbn [poll_all]. wp_step. eapply wp_mono; [by apply poll_key_wp|].
    intros r i1 (-> & kb & -> & Hinv1). cbn [fst snd]. wp_step.
    eapply wp_mono; [apply (IH _ _ _ Hinv1)|].
    { cbn [a_events with_events length] in *. change (mouse_pending (set_keyboard kb i)) with (mouse_pending i). lia. }
    intros es i' (ms & -> & Hd). wp_step. exists ms. split; [done|].
    destruct Hd as [T L W X Y Q I]. by split.
Qed.

(** ** Properties *)

(** C40. Polling drains: with no interrupt in between, a client that polls until
    it gets no event gets all waiting keys first, in the order they were
    typed, then at most six mouse events, after which nothing is left to
    report; the wheel motion of the events adds up to the pending wheel
    delta, and their relative motion to the way from the last reported
    position to the cursor. *)
Theorem input_drain ev i a fuel : input_inv i a → (length (a_events a) + 6 < fuel)%nat →
  ∃ ms i', poll_all fuel ev i =
      Some ((key_event (last_mouse_x i) (last_mouse_y i) <$> a_events a) ++ ms, i') ∧
    Forall (λ e, ev_type e ≠ GUI_EVENT_KEY ∧ ev_type e ≠ GUI_EVENT_NONE) ms ∧ (length ms ≤ 6)%nat ∧
    total ev_wheel_delta ms = wheel_delta (the_mouse i) ∧
    last_mouse_x i + total ev_dx ms = cursor_x (the_mouse i') ∧
    last_mouse_y i + total ev_dy ms = cursor_y (the_mouse i') ∧
    quiet i' ∧ input_inv i' (with_events [] a).
Proof.
  intros Hinv Hfuel. pose proof (mouse_pending_bound i) as Hb.
  destruct (poll_all_wp fuel ev i a Hinv ltac:(lia)) as (es & i' & E & ms & -> & [T L W X Y Q I]).
  exists ms, i'. pose proof Q as (_ & _ & _ & Qx & Qy). split_and!; try done; lia.
Qed.

(** input_poll_event reports no event exactly when there is none: the
    keyboard queue is empty and the mouse is where and as it was last
    reported; a silent poll changes nothing but the type of the event. *)
Theorem input_poll_silent ev i a : input_inv i a →
  ∃ b e i', input_poll_event ev i = Some ((b, e), i') ∧
    (b = false ↔ a_events a = [] ∧ quiet i ∧ movement_generation (the_mouse i) = last_mouse_generation i) ∧
    (b = false → e = no_event ev ∧ the_mouse i' = the_mouse i).
Proof.
  intros Hinv. destruct (a_events a) as [|k q] eqn:Hq.
  - destruct (poll_mouse_wp ev i a Hinv Hq) as ([b e] & i' & E & _ & H). exists b, e, i'. split; [done|].
    cbn [fst snd] in H. destruct b.
    + destruct H as (Hp & _). split; [|done]. split; [done|]. intros (_ & (Hw & Hc & Hl & Hx & Hy) & Hg). exfalso.
      unfold mouse_pending at 2, moved in Hp. rewrite Hw, Hc, Hl, Hx, Hy, Hg, !Z.eqb_refl, eqb_reflx in Hp. cbn in Hp. lia.
    + destruct H as (-> & Hquiet & Hm & Hi1). unfold moved in Hm. bool_to_prop. pose proof Hquiet as (Hw & _).
      split; [tauto|]. intros _. split; [done|]. rewrite Hi1. cbn. destruct (the_mouse i); cbn in Hw; by subst.
  - destruct (poll_key_wp ev i a k q Hinv Hq) as (r & i' & E & -> & _). eexists _, _, i'. split; [exact E|].
    split; [|done]. by split; [|intros []].
Qed.

(** ** Concrete runs *)

(** Shift and the letter h were typed, the wheel turned, the left button was
    pressed and released since the last poll. *)
Definition demo_input : option input :=
  '(_, kb) ← (_ ← keyboard_handle_scancode 0x2A; keyboard_handle_scancode 0x23) kbd_zero;
  '(_, m) ← (_ ← modify (set_packet_size 4);
             mouse_handle_bytes [0x09; 0x05; 0x05; 0x01; 0x08; 0x01; 0x00; 0x01]) mouse_zero;
  Some (Input false 160 100 0 kb m).
Definition input0 : input :=
  Input false 160 100 0 kbd_zero mouse_zero.
Definition demo_in : input := default input0 demo_input.
Definition demo_akbd : akbd :=
  snd (aexec_all [OpScancode 0x2A; OpScancode 0x23] akbd_zero).
Definition blank_event : gui_event := GuiEvent GUI_EVENT_NONE 0 0 0 0 0 0 0 0 false 0.

Lemma demo_in_inv : input_inv demo_in demo_akbd.
Proof.
  destruct (kexec_all_wp [OpScancode 0x2A; OpScancode 0x23] _ _ kbd_rel_zero) as (os & k & E & _ & Hrel).
  split; [|split; vm_compute; intuition discriminate ..].
  replace (keyboard demo_in) with k; [exact Hrel|]. vm_compute in E. injection E as _ <-. vm_compute. reflexivity.
Qed.

Lemma input_drain_witness : ∃ ms i', poll_all 9 blank_event demo_in =
  Some ((key_event 160 100 <$> a_events demo_akbd) ++ ms, i') ∧ total ev_wheel_delta ms = 2.
Proof.
  destruct (input_drain blank_event demo_in demo_akbd 9 demo_in_inv) as (ms & i' & E & _ & _ & W & _).
  - vm_compute. lia.
  - exists ms, i'. split; [exact E|]. rewrite W. vm_compute. reflexivity.
Defined.

Lemma input_poll_silent_witness : ∃ b e i', input_poll_event blank_event demo_in = Some ((b, e), i') ∧
  (b = false ↔ a_events demo_akbd = [] ∧ quiet demo_in ∧
               movement_generation (the_mouse demo_in) = last_mouse_generation demo_in).
Proof.
  destruct (input_poll_silent blank_event demo_in demo_akbd demo_in_inv) as (b & e & i' & E & H & _).
  exists b, e, i'. exact (conj E H).
Defined.

(** The shift event and the key, a scroll, the click as a release. *)
Example demo_poll :
  (λ r : list gui_event * input, ev_type <$> fst r) <$> poll_all 9 blank_event demo_in =
  Some [GUI_EVENT_KEY; GUI_EVENT_KEY; GUI_EVENT_MOUSE_SCROLL; GUI_EVENT_MOUSE_BUTTON].
Proof. vm_compute. reflexivity. Qed.
