(* ===== verification/Runtime.v ===== *)
(** * The runtime library, lib/libk/runtime.c (and user/libc/string.c)

    Strings and number formatting. A char array is the list of its bytes; a
    function that reads past its end is stuck. The user-space string.c is the
    same code under the names strlen, strcmp, memcpy, memset and u32_to_dec. *)

From Stdlib Require Import ZArith Lia Bool String Ascii.
From stdpp Require Import base numbers list.
From S2P Require Import Prelude.

(** ** Definitions *)

(** The bytes before the first NUL, if there is one. *)
Fixpoint cstring (buf : list Z) : option (list Z) :=
  match buf with
  | [] => None
  | c :: rest => if c =? 0 then Some [] else s ← cstring rest; Some (c :: s)
  end.

(** [while (value[length] != 0) length++]; the array bounds the loop. *)
Fixpoint kstrlen_loop (fuel : nat) (value : list Z) (length : Z) : option Z :=
  match fuel with
  | O => None
  | S fuel' =>
      c ← aread value length;
      if c =? 0 then Some length else kstrlen_loop fuel' value (length + 1)
  end.
Definition kstrlen (value : list Z) : option Z := kstrlen_loop (S (length value)) value 0.

Fixpoint kstrcmp_loop (fuel : nat) (left right : list Z) (i : Z) : option Z :=
  match fuel with
  | O => None
  | S fuel' =>
      l ← aread left i;
      if l =? 0 then r ← aread right i; Some (u8 l - u8 r)
      else
        r ← aread right i;
        if r =? 0 then Some (u8 l - u8 r)
        else if negb (l =? r) then Some (u8 l - u8 r)
        else kstrcmp_loop fuel' left right (i + 1)
  end.
Definition kstrcmp (left right : list Z) : option Z := kstrcmp_loop (S (length left)) left right 0.

(** The state is the destination array. *)
Definition kmemcpy (src : list Z) (size : Z) : M (list Z) unit :=
  for_ 0 size (λ i, c ← lift (aread src i); out ← gets (λ l, l); out' ← lift (awrite out i c); modify (λ _, out')).

Definition kmemset (value size : Z) : M (list Z) unit :=
  for_ 0 size (λ i, out ← gets (λ l, l); out' ← lift (awrite out i (u8 value)); modify (λ _, out')).

Definition store_char (i c : Z) : M (list Z) unit :=
  out ← gets (λ l, l); out' ← lift (awrite out i c); modify (λ _, out').

Definition bytes_of (s : string) : list Z := (λ c, Z.of_N (N_of_ascii c)) <$> list_ascii_of_string s.

(** A string literal: its characters and the terminator. *)
Definition c_str (s : string) : list Z := bytes_of s ++ [0].
(** The same with a newline at its end. *)
Definition c_line (s : string) : list Z := bytes_of s ++ [10; 0].

Arguments c_str : simpl never.
Arguments c_line : simpl never.

(** Literals without zero bytes, and shorter than 64 KiB. *)
Definition plain (s : string) : bool := forallb (λ c, (0 <? c) && (c <? 256)) (bytes_of s) && (Z.of_nat (length (bytes_of s)) <? 65535).
Lemma bytes_plain s : plain s = true → Forall (λ c, 0 < c < 256) (bytes_of s).
Proof.
  unfold plain. intros [H _]%andb_true_iff. rewrite forallb_forall in H. apply Forall_forall. intros x Hx. apply list_elem_of_In, H in Hx. bool_to_prop. lia.
Qed.

Definition hex_digits : list Z := bytes_of "0123456789ABCDEF".

Definition u32_to_hex (value : Z) : M (list Z) unit :=
  _ ← store_char 0 48;
  _ ← store_char 1 120;
  _ ← for_ 0 8 (λ i,
        let nibble := u8 (Z.land (Z.shiftr value ((7 - i) * 4)) 0xF) in
        d ← lift (aread hex_digits nibble);
        store_char (2 + i) d);
  store_char 10 0.

(** The first loop of u32_to_dec: the digits into [temp], least significant
    first; the loop stops at the latest when [temp] (21 bytes) is full. *)
Fixpoint dec_digits (fuel : nat) (value : Z) (temp : list Z) (length : Z) : option (list Z * Z) :=
  match fuel with
  | O => Some (temp, length)
  | S fuel' =>
      if negb (value =? 0) && (length <? 21) then
        temp' ← awrite temp length (48 + value mod 10);
        dec_digits fuel' (value / 10) temp' (length + 1)
      else Some (temp, length)
  end.

(** The second loop: [temp] backwards into [out]; its result is [i]. *)
Fixpoint dec_copy (fuel : nat) (temp : list Z) (length out_size i : Z) : M (list Z) Z :=
  match fuel with
  | O => mret i
  | S fuel' =>
      if (i + 1 <? out_size) && (0 <? length) then
        d ← lift (aread temp (length - 1));
        _ ← store_char i d;
        dec_copy fuel' temp (length - 1) out_size (i + 1)
      else mret i
  end.

(** Both loops run at most 21 times. *)
Definition u32_to_dec (value out_size : Z) : M (list Z) unit :=
  if out_size =? 0 then mret tt
  else if value =? 0 then
    _ ← store_char 0 48;
    when (1 <? out_size) (store_char 1 0)
  else
    r ← lift (dec_digits 22 value (replicate 21 0) 0);
    i ← dec_copy 22 (fst r) (snd r) out_size 0;
    store_char i 0.

(** user/libc/string.c: line for line the same functions. *)
Definition strlen (value : list Z) : option Z := kstrlen value.
Definition strcmp (left right : list Z) : option Z := kstrcmp left right.
Definition memcpy (src : list Z) (size : Z) : M (list Z) unit := kmemcpy src size.
Definition memset (value size : Z) : M (list Z) unit := kmemset value size.

(** kernel/shell/shell.c. *)
Fixpoint parse_u32_loop (fuel : nat) (text : list Z) (i value : Z) : option Z :=
  match fuel with
  | O => None
  | S fuel' =>
      c ← aread text i;
      if (48 <=? c) && (c <=? 57) then parse_u32_loop fuel' text (i + 1) (value *% 10 +% (c - 48))
      else Some value
  end.
Definition parse_u32 (text : list Z) : option Z := parse_u32_loop (S (length text)) text 0 0.

Example dec_example : (snd <$> u32_to_dec 4294967295 12 (replicate 12 1)) = Some (bytes_of "4294967295" ++ [0; 1]).
Proof. vm_compute. reflexivity. Qed.
Example dec_truncated : (snd <$> u32_to_dec 12345 4 (replicate 4 1)) = Some (bytes_of "123" ++ [0]).
Proof. vm_compute. reflexivity. Qed.
Example hex_example : (snd <$> u32_to_hex 0xDEADBEEF (replicate 11 1)) = Some (bytes_of "0xDEADBEEF" ++ [0]).
Proof. vm_compute. reflexivity. Qed.

(** ** Strings *)

Lemma cstring_spec buf s : cstring buf = Some s ↔ ∃ rest, buf = s ++ 0 :: rest ∧ Forall (λ c, c ≠ 0) s.
Proof.
  revert s. induction buf as [|c buf IH]; intros s; cbn.
  - split; [done|]. intros (rest & E & _). by destruct s.
  - destruct (Z.eqb_spec c 0) as [->|Hc].
    + split; [intros [= <-]; exists buf; split; [done|constructor]|]. intros (rest & E & Hs). destruct s as [|x s]; [done|].
      injection E as E _. apply Forall_cons_1 in Hs as [Hs _]. by subst x.
    + split.
      * destruct (cstring buf) as [s'|] eqn:E; [|done]. intros [= <-].
        destruct (proj1 (IH s') eq_refl) as (rest & -> & Hs). exists rest. split; [done|]. by constructor.
      * intros (rest & E & Hs). destruct s as [|x s]; [by injection E|]. injection E as <- E.
        apply Forall_cons_1 in Hs as [_ Hs]. assert (cstring buf = Some s) as -> by (apply IH; by exists rest). done.
Qed.

Lemma aread_app_end {A} (s : list A) x rest : aread (s ++ x :: rest) (Z.of_nat (length s)) = Some x.
Proof. apply aread_Some. split; [lia|]. rewrite Nat2Z.id. by apply list_lookup_middle. Qed.

Lemma aread_app_l {A} (s t : list A) i : 0 ≤ i < Z.of_nat (length s) → aread (s ++ t) i = aread s i.
Proof. intros H. unfold aread. destruct (Z.leb_spec 0 i); [|lia]. apply lookup_app_l. lia. Qed.

Lemma kstrlen_loop_spec s rest fuel k : Forall (λ c, c ≠ 0) s → (length s - k < fuel)%nat → (k ≤ length s)%nat →
  kstrlen_loop fuel (s ++ 0 :: rest) (Z.of_nat k) = Some (Z.of_nat (length s)).
Proof.
  intros Hs. revert k. induction fuel as [|fuel IH]; intros k Hf Hk; [lia|]. cbn [kstrlen_loop].
  destruct (decide (k = length s)) as [->|Hne].
  - by rewrite aread_app_end.
  - destruct (lookup_lt_is_Some_2 s k ltac:(lia)) as [c Hc].
    rewrite aread_app_l by lia. assert (aread s (Z.of_nat k) = Some c) as ->
      by (apply aread_Some; rewrite Nat2Z.id; split; [lia|done]). cbn.
    rewrite (proj2 (Z.eqb_neq c 0)) by (apply (Forall_lookup_1 _ _ _ _ Hs Hc)).
    replace (Z.of_nat k + 1) with (Z.of_nat (S k)) by lia. apply IH; lia.
Qed.

Lemma kstrlen_ok s rest : Forall (λ c, c ≠ 0) s → kstrlen (s ++ 0 :: rest) = Some (Z.of_nat (length s)).
Proof. intros Hs. apply (kstrlen_loop_spec s rest (S (length (s ++ 0 :: rest))) 0 Hs); [rewrite length_app; cbn|]; lia. Qed.

(** The sign of the comparison of two strings, lexicographic on bytes. *)
Fixpoint lex (l r : list Z) : comparison :=
  match l, r with
  | [], [] => Eq
  | [], _ => Lt
  | _, [] => Gt
  | x :: l, y :: r => match x ?= y with Eq => lex l r | c => c end
  end.

Lemma lex_eq l r : lex l r = Eq ↔ l = r.
Proof.
  revert r. induction l as [|x l IH]; intros [|y r]; cbn; try done.
  destruct (Z.compare_spec x y) as [->|?|?]; [rewrite IH|..]; split; intros E; try done;
    [by rewrite E|by injection E|injection E as ?; lia|injection E as ?; lia].
Qed.

Lemma kstrcmp_loop_spec fuel : ∀ p l r restl restr,
  Forall (λ c, 0 < c < 256) l → Forall (λ c, 0 < c < 256) r → (length l < fuel)%nat →
  ∃ d, kstrcmp_loop fuel (p ++ l ++ 0 :: restl) (p ++ r ++ 0 :: restr) (Z.of_nat (length p)) = Some d ∧
       (d ?= 0) = lex l r.
Proof.
  induction fuel as [|fuel IH]; intros p l r restl restr Hl Hr Hf; [lia|]. cbn [kstrcmp_loop].
  destruct l as [|x l], r as [|y r]; rewrite ?app_nil_l, <- ?app_comm_cons, !aread_app_end; cbn [mbind option_bind].
  - by exists 0.
  - apply Forall_cons_1 in Hr as [Hy _]. rewrite Z.eqb_refl. eexists. split; [done|]. cbn [lex].
    rewrite (u8_small 0), (u8_small y) by (unfold is_u8; lia). apply Z.compare_lt_iff. lia.
  - apply Forall_cons_1 in Hl as [Hx _]. rewrite (proj2 (Z.eqb_neq x 0)), Z.eqb_refl by lia.
    eexists. split; [done|]. cbn [lex].
    rewrite (u8_small 0), (u8_small x) by (unfold is_u8; lia). apply Z.compare_gt_iff. lia.
  - apply Forall_cons_1 in Hl as [Hx Hl], Hr as [Hy Hr]. cbn [length] in Hf.
    rewrite (proj2 (Z.eqb_neq x 0)), (proj2 (Z.eqb_neq y 0)) by lia. cbn [lex].
    rewrite (u8_small x), (u8_small y) by (unfold is_u8; lia).
    destruct (Z.eqb_spec x y) as [->|Hne]; cbn [negb].
    + rewrite Z.compare_refl. specialize (IH (p ++ [y]) l r restl restr Hl Hr ltac:(lia)).
      rewrite <- !app_assoc in IH. cbn [app] in IH. rewrite length_app in IH. cbn [length] in IH.
      replace (Z.of_nat (length p) + 1) with (Z.of_nat (length p + 1)) by lia. exact IH.
    + exists (x - y). split; [done|]. destruct (Z.compare_spec x y) as [?|?|?]; [done| |];
        [apply Z.compare_lt_iff|apply Z.compare_gt_iff]; lia.
Qed.

Lemma kstrcmp_wf l r restl restr : Forall (λ c, 0 < c < 256) l → Forall (λ c, 0 < c < 256) r →
  ∃ d, kstrcmp (l ++ 0 :: restl) (r ++ 0 :: restr) = Some d ∧ (d ?= 0) = lex l r.
Proof.
  intros Hl Hr. apply (kstrcmp_loop_spec _ [] l r restl restr Hl Hr). rewrite length_app. cbn. lia.
Qed.

(** What the callers use: 0 exactly for equal strings. *)
Lemma kstrcmp_eq l r restl restr : Forall (λ c, 0 < c < 256) l → Forall (λ c, 0 < c < 256) r →
  ∃ d, kstrcmp (l ++ 0 :: restl) (r ++ 0 :: restr) = Some d ∧ (d = 0 ↔ l = r).
Proof.
  intros Hl Hr. destruct (kstrcmp_wf l r restl restr Hl Hr) as (d & E & Hd). exists d. split; [done|].
  rewrite <- lex_eq, <- Hd. by rewrite Z.compare_eq_iff.
Qed.

(** ** Decimal numbers *)

(** The number with the digits [ds], least significant first. *)
Definition value_of (ds : list Z) : Z := foldr (λ d acc, d + 10 * acc) 0 ds.
Definition digit (d : Z) : Prop := 0 ≤ d ≤ 9.
Definition glyph (d : Z) : Z := 48 + d.

Lemma dec_digits_spec k : ∀ fuel v pre post, 0 ≤ v < 10 ^ Z.of_nat k → (k < fuel)%nat →
  length (pre ++ post) = 21%nat → (k ≤ length post)%nat →
  ∃ ds post', dec_digits fuel v (pre ++ post) (Z.of_nat (length pre)) =
      Some (pre ++ (glyph <$> ds) ++ post', Z.of_nat (length pre + length ds)) ∧
    value_of ds = v ∧ Forall digit ds ∧ (length ds ≤ k)%nat ∧ (v ≠ 0 → ds ≠ []).
Proof.
  induction k as [|k IH]; intros fuel v pre post Hv Hf Hlen Hk; destruct fuel as [|fuel]; try lia.
  { replace v with 0 by (change (10 ^ Z.of_nat 0) with 1 in Hv; lia). exists [], post. cbn. rewrite Nat.add_0_r.
    by split_and!. }
  cbn [dec_digits]. destruct (Z.eqb_spec v 0) as [->|Hv0]; cbn [negb andb].
  { exists [], post. cbn. rewrite Nat.add_0_r. split_and!; done || lia. }
  rewrite length_app in Hlen. rewrite (proj2 (Z.ltb_lt _ 21)) by lia.
  destruct post as [|x post]; [cbn in Hk; lia|]. cbn [length] in *.
  rewrite awrite_eq by (rewrite length_app; cbn; lia). cbn [mbind option_bind].
  rewrite Nat2Z.id, insert_app_r_alt, Nat.sub_diag by lia. cbn [insert list_insert].
  destruct (IH fuel (v / 10) (pre ++ [48 + v mod 10]) post) as (ds & post' & E & Hval & Hd & Hl & _).
  { rewrite Nat2Z.inj_succ, Z.pow_succ_r in Hv by lia.
    split; [apply Z.div_pos; lia|apply Z.div_lt_upper_bound; lia]. }
  { lia. } { rewrite !length_app. cbn. lia. } { lia. }
  exists (v mod 10 :: ds), post'. rewrite <- app_assoc, length_app in E. cbn [app length] in E.
  replace (Z.of_nat (length pre) + 1) with (Z.of_nat (length pre + 1)) by lia. rewrite E. split_and!.
  - rewrite <- !app_assoc. cbn. do 2 f_equal. lia.
  - cbn. unfold value_of in Hval. rewrite Hval. pose proof (Z.div_mod v 10). lia.
  - constructor; [|done]. unfold digit. pose proof (Z.mod_pos_bound v 10). lia.
  - cbn. lia.
  - done.
Qed.

Lemma store_char_at pre x post c :
  store_char (Z.of_nat (length pre)) c (pre ++ x :: post) = Some (tt, pre ++ c :: post).
Proof.
  unfold store_char, gets, lift, modify, mbind, M_bind.
  rewrite awrite_eq by (rewrite length_app; cbn; lia). cbn [mbind option_bind].
  by rewrite Nat2Z.id, insert_app_r_alt, Nat.sub_diag by lia.
Qed.

Lemma dec_copy_spec ds : ∀ fuel tl pre post out_size, (length ds < fuel)%nat →
  Z.of_nat (length pre + length ds) < out_size → (length ds ≤ length post)%nat →
  ∃ post', dec_copy fuel ((glyph <$> ds) ++ tl) (Z.of_nat (length ds)) out_size (Z.of_nat (length pre)) (pre ++ post) =
    Some (Z.of_nat (length pre + length ds), pre ++ reverse (glyph <$> ds) ++ post') ∧
    length post' = (length post - length ds)%nat.
Proof.
  induction ds as [|d ds IH] using rev_ind; intros fuel tl pre post out_size Hf Hsz Hp;
    destruct fuel as [|fuel]; try lia; cbn [dec_copy].
  { cbn. rewrite andb_false_r. exists post. rewrite Nat.add_0_r. split; [done|lia]. }
  rewrite length_app in *. cbn [length] in *. rewrite (proj2 (Z.ltb_lt _ out_size)), (proj2 (Z.ltb_lt 0 _)) by lia.
  cbn [andb]. destruct post as [|x post]; [cbn in Hp; lia|]. cbn [length] in *.
  unfold mbind at 1, M_bind at 1, lift at 1. rewrite fmap_app, <- app_assoc. cbn [fmap list_fmap app].
  replace (Z.of_nat (length ds + 1) - 1) with (Z.of_nat (length (glyph <$> ds))) by (rewrite length_fmap; lia).
  rewrite aread_app_end. cbn [mbind option_bind]. unfold mbind, M_bind. rewrite store_char_at.
  destruct (IH fuel (glyph d :: tl) (pre ++ [glyph d]) post out_size) as (post' & E & Hl); [lia|rewrite length_app; cbn; lia|lia|].
  exists post'. rewrite length_fmap, <- app_assoc, !length_app in *. cbn [length app] in E.
  replace (Z.of_nat (length pre) + 1) with (Z.of_nat (length pre + 1)) by lia. rewrite E.
  split; [|lia]. do 2 f_equal; [lia|]. by rewrite reverse_app, <- !app_assoc.
Qed.

(** Reading digits, most significant first. *)
Definition horner (acc : Z) (ds : list Z) : Z := foldl (λ a d, 10 * a + d) acc ds.

Lemma value_horner ds : value_of ds = horner 0 (reverse ds).
Proof.
  unfold horner, value_of. induction ds as [|d ds IH]; [done|].
  rewrite reverse_cons, foldl_app, <- IH. cbn. lia.
Qed.

Lemma horner_mono ds acc : 0 ≤ acc → Forall digit ds → acc ≤ horner acc ds.
Proof.
  intros Ha Hd. revert acc Ha. induction Hd as [|d ds [Hd _] _ IH]; intros acc Ha; cbn; [lia|].
  specialize (IH (10 * acc + d) ltac:(lia)). unfold horner in IH. lia.
Qed.

Lemma parse_loop_spec ds : ∀ fuel pre c rest acc, (length ds < fuel)%nat → Forall digit ds → 0 ≤ acc →
  horner acc ds < 2 ^ 32 → (c < 48 ∨ 57 < c) →
  parse_u32_loop fuel (pre ++ (glyph <$> ds) ++ c :: rest) (Z.of_nat (length pre)) acc = Some (horner acc ds).
Proof.
  induction ds as [|d ds IH]; intros fuel pre c rest acc Hf Hd Ha Hb Hc;
    (destruct fuel as [|fuel]; [lia|]); cbn [parse_u32_loop fmap list_fmap app].
  - rewrite aread_app_end. cbn. destruct (Z.leb_spec 48 c), (Z.leb_spec c 57); try done; lia.
  - rewrite aread_app_end. cbn [mbind option_bind]. apply Forall_cons_1 in Hd as [[Hd1 Hd2] Hd].
    assert ((48 <=? glyph d) && (glyph d <=? 57) = true) as -> by (unfold glyph; lia).
    replace (glyph d - 48) with d by (unfold glyph; lia).
    cbn [horner foldl] in Hb. fold (horner (10 * acc + d) ds) in Hb.
    pose proof (horner_mono ds (10 * acc + d) ltac:(lia) Hd) as Hm.
    rewrite (u32_small (acc * 10)), u32_small by (unfold is_u32; lia).
    cbn [length] in Hf. specialize (IH fuel (pre ++ [glyph d]) c rest (10 * acc + d) ltac:(lia) Hd ltac:(lia)).
    replace (acc * 10 + d) with (10 * acc + d) by lia.
    rewrite length_app, <- app_assoc in IH. cbn [length app] in IH.
    replace (Z.of_nat (length pre) + 1) with (Z.of_nat (length pre + 1)) by lia. rewrite IH; done.
Qed.

(** Digits written and the NUL after them. *)
Lemma u32_to_dec_digits v out out_size : 0 < v < 2 ^ 32 → 11 ≤ out_size ≤ Z.of_nat (length out) →
  ∃ ds rest, u32_to_dec v out_size out = Some (tt, (glyph <$> ds) ++ 0 :: rest) ∧
    Forall digit ds ∧ horner 0 ds = v ∧ (1 ≤ length ds ≤ 10)%nat.
Proof.
  intros Hv Hs. unfold u32_to_dec. rewrite (proj2 (Z.eqb_neq out_size 0)), (proj2 (Z.eqb_neq v 0)) by lia.
  destruct (dec_digits_spec 10 22 v [] (replicate 21 0)) as (ds & post & E & Hval & Hd & Hl & Hne);
    [cbn; lia|lia|done|cbn; lia|]. cbn [app length Nat.add] in E. change (Z.of_nat 0) with 0 in E.
  unfold mbind at 1, M_bind at 1, lift at 1. rewrite E. cbn [mbind option_bind fst snd].
  destruct (dec_copy_spec ds 22 post [] out out_size) as (post' & E2 & Hl2); [lia|cbn; lia|lia|].
  cbn [app length Nat.add] in E2. change (Z.of_nat 0) with 0 in E2.
  unfold mbind at 1, M_bind at 1. rewrite E2. destruct post' as [|x rest]; [cbn in *; lia|].
  exists (reverse ds), rest. rewrite <- fmap_reverse. split_and!.
  - replace (length ds) with (length (glyph <$> reverse ds)) by (by rewrite length_fmap, length_reverse).
    apply store_char_at.
  - by apply Forall_reverse.
  - by rewrite <- value_horner.
  - rewrite length_reverse. specialize (Hne ltac:(lia)). destruct ds; [done|]. cbn. lia.
  - rewrite length_reverse. lia.
Qed.

(** ** Properties *)

(** kstrcmp on two NUL-terminated strings terminates inside them and its
    result has the sign of their lexicographic comparison; in particular it
    is 0 exactly when the strings are equal. *)
Theorem kstrcmp_spec l r restl restr : Forall (λ c, 0 < c < 256) l → Forall (λ c, 0 < c < 256) r →
  ∃ d, kstrcmp (l ++ 0 :: restl) (r ++ 0 :: restr) = Some d ∧ (d ?= 0) = lex l r ∧ (d = 0 ↔ l = r).
Proof.
  intros Hl Hr. destruct (kstrcmp_wf l r restl restr Hl Hr) as (d & E & Hd). exists d. split_and!; [done|done|].
  rewrite <- lex_eq, <- Hd. by rewrite Z.compare_eq_iff.
Qed.

(** u32_to_dec and the shell's parse_u32 are inverse: a buffer of at least 11
    bytes holds every 32-bit number, NUL-terminated, and parsing it gives the
    number back. *)
Theorem dec_roundtrip v out out_size : is_u32 v → 11 ≤ out_size ≤ Z.of_nat (length out) →
  ∃ out', u32_to_dec v out_size out = Some (tt, out') ∧ parse_u32 out' = Some v ∧
          ∃ n, kstrlen out' = Some n ∧ 1 ≤ n ≤ 10.
Proof.
  intros Hv Hs. destruct (Z.eq_dec v 0) as [->|Hv0].
  - unfold u32_to_dec. rewrite (proj2 (Z.eqb_neq out_size 0)) by lia. cbn [Z.eqb].
    destruct out as [|a [|b out]]; cbn [length] in Hs; try lia.
    pose proof (store_char_at [] a (b :: out) 48) as E1. pose proof (store_char_at [48] b out 0) as E2.
    cbn [length app] in E1, E2. change (Z.of_nat 0) with 0 in E1. change (Z.of_nat 1) with 1 in E2. unfold mbind, M_bind.
    rewrite E1, (proj2 (Z.ltb_lt 1 out_size)) by lia. cbn [when]. rewrite E2. eexists. split; [reflexivity|]. split; [done|]. by exists 1.
  - destruct (u32_to_dec_digits v out out_size) as (ds & rest & E & Hd & Hh & Hl); [unfold is_u32 in *; lia|done|].
    exists ((glyph <$> ds) ++ 0 :: rest). split; [done|]. split.
    + unfold parse_u32. rewrite <- Hh.
      apply (parse_loop_spec ds _ [] 0 rest 0); [|done|lia|rewrite Hh; apply Hv|lia].
      rewrite length_app, length_fmap. cbn. lia.
    + exists (Z.of_nat (length ds)). split; [|lia].
      unfold kstrlen. pose proof (kstrlen_loop_spec (glyph <$> ds) rest (S (length ((glyph <$> ds) ++ 0 :: rest))) 0) as H.
      rewrite length_fmap in H. apply H; [|rewrite length_app, length_fmap; cbn; lia|lia].
      apply Forall_fmap. eapply Forall_impl; [exact Hd|]. unfold digit, glyph. cbn. lia.
Qed.

Lemma kstrcmp_spec_witness : ∃ d, kstrcmp (bytes_of "abc" ++ 0 :: [7]) (bytes_of "abd" ++ 0 :: []) = Some d ∧
  (d ?= 0) = Lt ∧ (d = 0 ↔ bytes_of "abc" = bytes_of "abd").
Proof.
  apply (kstrcmp_spec (bytes_of "abc") (bytes_of "abd") [7] []); repeat constructor; vm_compute; reflexivity.
Defined.

Lemma dec_roundtrip_witness : ∃ out', u32_to_dec 1234567 12 (replicate 12 0) = Some (tt, out') ∧
  parse_u32 out' = Some 1234567 ∧ ∃ n, kstrlen out' = Some n ∧ 1 ≤ n ≤ 10.
Proof. apply dec_roundtrip; vm_compute; intuition discriminate. Defined.

(** ** Hexadecimal *)

(** The text of u32_to_hex. *)
Definition hex_text (v : Z) : list Z :=
  48 :: 120 :: ((λ i, nth (Z.to_nat (u8 (Z.land (Z.shiftr v ((7 - i) * 4)) 0xF))) hex_digits 0) <$> [0; 1; 2; 3; 4; 5; 6; 7]).

Lemma nibble_range v k : 0 ≤ u8 (Z.land (Z.shiftr v k) 0xF) < 16.
Proof.
  change 0xF with (Z.ones 4). rewrite Z.land_ones by lia. pose proof (Z.mod_pos_bound (Z.shiftr v k) (2 ^ 4)). unfold u8. rewrite Z.mod_small; lia.
Qed.
Lemma hex_digit_at n : 0 ≤ n < 16 → aread hex_digits n = Some (nth (Z.to_nat n) hex_digits 0) ∧ nth (Z.to_nat n) hex_digits 0 ≠ 0.
Proof.
  intros Hn. assert (In n (map Z.of_nat (seq 0 16))) as Hin by (apply in_map_iff; exists (Z.to_nat n); rewrite in_seq; lia).
  cbn in Hin. repeat (destruct Hin as [<-|Hin]; [by vm_compute|]). done.
Qed.

Lemma u32_to_hex_text v : u32_to_hex v (replicate 11 0) = Some (tt, hex_text v ++ [0]).
Proof.
  unfold u32_to_hex, for_, for_exit. change (Z.to_nat (8 - 0)) with 8%nat. cbn [for_steps].
  unfold mbind, M_bind, store_char, lift, gets, modify. cbn [replicate awrite]. 
  repeat (rewrite (proj1 (hex_digit_at _ (nibble_range v _))); cbn).
  done.
Qed.
Lemma hex_text_bytes v : Forall (λ c, 0 < c < 256) (hex_text v).
Proof.
  unfold hex_text. do 2 (constructor; [lia|]). apply Forall_fmap, Forall_forall. intros i _. cbn. pose proof (nibble_range v ((7 - i) * 4)) as Hn. set (n := u8 _) in *. clearbody n.
  assert (In n (map Z.of_nat (seq 0 16))) as Hin by (apply in_map_iff; exists (Z.to_nat n); rewrite in_seq; lia). cbn in Hin. repeat (destruct Hin as [<-|Hin]; [by vm_compute|]). done.
Qed.
