(* ===== verification/Pci.v ===== *)
(** * The PCI scan, kernel/drivers/platform/pci.c

    The table of the devices found on the bus. The scan is equivalent to a list of the
    functions that answer, cut off at the size of the table. *)

From Stdlib Require Import ZArith Lia Bool String.
From stdpp Require Import base numbers list.
From S2P Require Import Prelude Runtime.

Definition PCI_CONFIG_ADDRESS : Z := 0xCF8.
Definition PCI_CONFIG_DATA : Z := 0xCFC.
Definition PCI_MAX_DEVICES : Z := 32.

Record pci_device := PciDevice { pd_bus : Z; pd_slot : Z; pd_function : Z; class_code : Z; subclass : Z; vendor : Z; pd_device : Z }.

(** The 32-bit ports, and the serial line for the message. *)
Class LongIO (D : Type) := {
  inl : Z → M D Z;
  outl : Z → Z → M D unit;
  pci_message : list Z → M D unit }.

Section driver.
Context {D : Type} `{LongIO D}.

Record pci := Pci { devices : list pci_device; device_count : Z; pbus : D }.
Definition set_devices v s := Pci v (device_count s) (pbus s).
Definition set_device_count v s := Pci (devices s) v (pbus s).
Definition set_pbus v s := Pci (devices s) (device_count s) v.
Definition on_bus {A} (m : M D A) : M pci A := zoom pbus set_pbus m.

Definition pci_address (bus slot function offset : Z) : Z :=
  Z.lor (Z.lor (Z.lor (Z.lor 0x80000000 (Z.shiftl bus 16)) (Z.shiftl slot 11)) (Z.shiftl function 8)) (Z.land offset 0xFC).

Definition pci_read32 (bus slot function offset : Z) : M pci Z :=
  _ ← on_bus (outl PCI_CONFIG_ADDRESS (pci_address bus slot function offset)); on_bus (inl PCI_CONFIG_DATA).

Definition add_device (bus slot function : Z) : M pci unit :=
  n ← gets device_count;
  if PCI_MAX_DEVICES <=? n then mret tt
  else
    id ← pci_read32 bus slot function 0x00;
    if Z.land id 0xFFFF =? 0xFFFF then mret tt
    else
      class_reg ← pci_read32 bus slot function 0x08;
      l ← gets devices;
      l ← lift (awrite l n (PciDevice bus slot function (u8 (Z.shiftr class_reg 24)) (u8 (Z.shiftr class_reg 16)) (Z.land id 0xFFFF) (Z.land (Z.shiftr id 16) 0xFFFF)));
      _ ← modify (set_devices l);
      modify (set_device_count (n +% 1)).

(** One slot of the scan. *)
Definition scan_slot (bus slot : Z) : M pci unit :=
  id ← pci_read32 bus slot 0 0x00;
  if Z.land id 0xFFFF =? 0xFFFF then mret tt
  else
    _ ← add_device bus slot 0;
    r ← pci_read32 bus slot 0 0x0C;
    let header := u8 (Z.shiftr r 16) in
    when (negb (Z.land header 0x80 =? 0)) (for_ 1 8 (add_device bus slot)).

Definition pci_initialize : M pci unit :=
  _ ← modify (set_device_count 0);
  _ ← for_ 0 256 (λ bus, for_ 0 32 (λ slot, scan_slot (u8 bus) slot));
  on_bus (pci_message (c_line "MyOS PCI: bus scan complete.")).

Definition pci_device_count : M pci Z := gets device_count.
(** The accessors: a field of the device, or a default beyond the count. *)
Definition pci_field (f : pci_device → Z) (default index : Z) : M pci Z :=
  n ← gets device_count; if index <? n then l ← gets devices; d ← lift (aread l index); mret (f d) else mret default.
Definition pci_device_vendor : Z → M pci Z := pci_field vendor 0xFFFF.
Definition pci_device_id : Z → M pci Z := pci_field pd_device 0xFFFF.
Definition pci_device_bus : Z → M pci Z := pci_field pd_bus 0.
Definition pci_device_slot : Z → M pci Z := pci_field pd_slot 0.
Definition pci_device_function : Z → M pci Z := pci_field pd_function 0.
Definition pci_device_class : Z → M pci Z := pci_field class_code 0.
Definition pci_device_subclass : Z → M pci Z := pci_field subclass 0.
End driver.
Arguments pci D : clear implicits.

(** ** The bus

    Reading the data port gives the register that the address port names. *)
Class PciBus (D : Type) `{LongIO D} := {
  config : D → Z → Z;
  address_law a d : wp (outl PCI_CONFIG_ADDRESS a) (λ _ d', (∀ b, config d' b = config d b) ∧
    wp (inl PCI_CONFIG_DATA) (λ v d2, v = config d a ∧ is_u32 v ∧ ∀ b, config d2 b = config d b) d') d;
  message_law t d : wp (pci_message t) (λ _ d', ∀ b, config d' b = config d b) d }.

(** ** What there is to be found *)

Section found.
Context (cfg : Z → Z).
Definition answers (bus slot function : Z) : bool := negb (Z.land (cfg (pci_address bus slot function 0)) 0xFFFF =? 0xFFFF).
Definition many_functions (bus slot : Z) : bool := negb (Z.land (u8 (Z.shiftr (cfg (pci_address bus slot 0 0x0C)) 16)) 0x80 =? 0).
Definition describe (bus slot function : Z) : pci_device :=
  let id := cfg (pci_address bus slot function 0) in
  let cl := cfg (pci_address bus slot function 0x08) in
  PciDevice bus slot function (u8 (Z.shiftr cl 24)) (u8 (Z.shiftr cl 16)) (Z.land id 0xFFFF) (Z.land (Z.shiftr id 16) 0xFFFF).

Definition found_function (bus slot function : Z) : list pci_device := if answers bus slot function then [describe bus slot function] else [].
(** The functions of a slot: the first one, and the others when it has several. *)
Definition found_slot (bus slot : Z) : list pci_device :=
  if answers bus slot 0 then
    found_function bus slot 0 ++ (if many_functions bus slot then seqZ 1 7 ≫= found_function bus slot else [])
  else [].
Definition found_bus (bus : Z) : list pci_device := seqZ 0 32 ≫= found_slot bus.
Definition found : list pci_device := seqZ 0 256 ≫= found_bus.
End found.

Section scan.
Context {D : Type} `{PciBus D}.
Implicit Types s : pci D.

(** The table holds the first devices of a list. *)
Record holds (cfg : Z → Z) s (l : list pci_device) : Prop := {
  ho_config : ∀ a, config (pbus s) a = cfg a;
  ho_len : length (devices s) = 32%nat;
  ho_count : device_count s = Z.of_nat (length (take 32 l));
  ho_devices : take (Z.to_nat (device_count s)) (devices s) = take 32 l }.

Lemma read32_wp cfg s l bus slot f o (Q : Z → pci D → Prop) : holds cfg s l →
  (∀ s', holds cfg s' l → device_count s' = device_count s → devices s' = devices s → Q (cfg (pci_address bus slot f o)) s') → wp (pci_read32 bus slot f o) Q s.
Proof.
  intros [Hc Hl Hn Hd] HQ. unfold pci_read32, on_bus. do 2 wp_step. eapply wp_mono; [apply address_law|]. intros [] d1 [E1 W]. wp_step. cbn [pbus set_pbus]. eapply wp_mono; [exact W|].
  intros v d2 (-> & _ & E2). rewrite Hc. apply HQ; [|done|done]. split; cbn; [|done..]. intros a. by rewrite E2.
Qed.

Lemma add_device_wp cfg s l bus slot f : holds cfg s l →
  wp (add_device bus slot f) (λ _ s', holds cfg s' (l ++ found_function cfg bus slot f)) s.
Proof.
  intros Hs. unfold add_device, PCI_MAX_DEVICES, found_function. do 2 wp_step. pose proof (ho_count _ _ _ Hs) as Hn. rewrite length_take in Hn. destruct (Z.leb_spec 32 (device_count s)).
  - wp_step. assert (Ht : ∀ k, take 32 (l ++ k) = take 32 l) by (intros k; apply take_app_le; lia). destruct Hs as [Hc Hl Hn' Hd]. by split; rewrite ?Ht.
  - wp_step. eapply read32_wp; [done|]. intros s1 Hs1 En Ed. unfold answers. destruct (_ =? _) eqn:Ev; cbn [negb]; [wp_step; by rewrite app_nil_r|].
    wp_step. eapply read32_wp; [done|]. intros s2 Hs2 En2 Ed2. do 2 wp_step. pose proof (ho_len _ _ _ Hs2) as Hl2. wp_step. eapply wp_lift; [apply awrite_eq; lia|]. do 3 wp_step.
    assert (Hll : device_count s = Z.of_nat (length l)) by lia. destruct Hs2 as [Hc _ _ Hd]. rewrite En2, En in Hd. rewrite (take_ge l) in Hd by lia. u32_simp. split; cbn.
    + done.
    + by rewrite length_insert.
    + rewrite length_take, length_app. cbn [length]. lia.
    + rewrite (take_ge (l ++ _)) by (rewrite length_app; cbn; lia). replace (Z.to_nat (device_count s + 1)) with (S (Z.to_nat (device_count s))) by lia.
      rewrite (take_S_r _ _ (describe cfg bus slot f)) by (apply list_lookup_insert_eq; lia). rewrite take_insert_ge by lia. by rewrite Hd.
Qed.

(** A loop that adds the devices of one index after the other. *)
Lemma scan_loop_wp cfg s l lo n (g : Z → M (pci D) unit) (h : Z → list pci_device) : 0 ≤ n → holds cfg s l →
  (∀ i s0 l0, lo ≤ i < lo + n → holds cfg s0 l0 → wp (g i) (λ _ s', holds cfg s' (l0 ++ h i)) s0) →
  wp (for_ lo (lo + n) g) (λ _ s', holds cfg s' (l ++ (seqZ lo n ≫= h))) s.
Proof.
  intros Hn Hs Hg. apply (wp_for _ _ _ (λ i s', holds cfg s' (l ++ (seqZ lo (i - lo) ≫= h)))); [lia| | |].
  - rewrite Z.sub_diag. cbn. by rewrite app_nil_r.
  - intros i s' Hi Hs'. eapply wp_mono; [by apply Hg|]. intros [] s2 Hs2. rewrite <- app_assoc in Hs2.
    replace (i + 1 - lo) with ((i - lo) + 1) by lia. rewrite seqZ_app by lia. rewrite bind_app.
    assert (seqZ (lo + (i - lo)) 1 = [i]) as -> by (rewrite seqZ_cons by lia; cbn; f_equal; lia). rewrite bind_singleton. done.
  - intros s' Hs'. by replace (lo + n - lo) with n in Hs' by lia.
Qed.

Lemma scan_slot_wp cfg s l bus slot : holds cfg s l → wp (scan_slot bus slot) (λ _ s', holds cfg s' (l ++ found_slot cfg bus slot)) s.
Proof.
  intros Hs. unfold scan_slot, found_slot. wp_step. eapply read32_wp; [done|]. intros s1 Hs1 _ _. unfold answers at 1. destruct (_ =? _); cbn [negb]; [wp_step; by rewrite app_nil_r|].
  wp_step. eapply wp_mono; [by apply add_device_wp|]. intros [] s2 Hs2. wp_step. eapply read32_wp; [done|]. intros s3 Hs3 _ _. fold (many_functions cfg bus slot).
  destruct (many_functions cfg bus slot); cbn [when]; [|wp_step; by rewrite app_nil_r]. rewrite app_assoc. apply (scan_loop_wp cfg s3 _ 1 7); [lia|done|]. intros i s0 l0 _. by apply add_device_wp.
Qed.

(** C38. The scan finds every function on the bus: the table holds, in the order of bus, slot
    and function, each one that answers, the functions 1 to 7 of a slot only where the
    first one says that there are several; with more than 32 of them the first 32. *)
Theorem pci_scan_complete s : length (devices s) = 32%nat →
  ∃ s', pci_initialize s = Some (tt, s') ∧ let l := take 32 (found (config (pbus s))) in
    device_count s' = Z.of_nat (length l) ∧ take (Z.to_nat (device_count s')) (devices s') = l.
Proof.
  intros Hl. set (cfg := config (pbus s)). assert (W : wp pci_initialize (λ _ s', holds cfg s' (found cfg)) s).
  { unfold pci_initialize. do 2 wp_step. wp_step. set (s0 := set_device_count 0 s). assert (Hs0 : holds cfg s0 []) by by split.
    eapply wp_mono; [apply (scan_loop_wp cfg s0 [] 0 256 _ (found_bus cfg)); [lia|done|]|].
    - intros bus s1 l1 Hb Hs1. assert (Eb : u8 bus = bus) by (apply Z.mod_small; lia). rewrite Eb. apply (scan_loop_wp cfg s1 l1 0 32); [lia|done|]. intros slot s2 l2 _. by apply scan_slot_wp.
    - intros [] s1 [Hc Hl1 Hn Hd]. unfold on_bus. wp_step. eapply wp_mono; [apply message_law|]. intros [] d E. split; cbn; [intros a; by rewrite E|done..]. }
  destruct W as ([] & s' & E & Hs'). exists s'. split; [done|]. cbn zeta. split; apply Hs'.
Qed.
End scan.

(** ** A concrete bus: a network card in slot 3, and a bridge with two functions in slot 31. *)

Record bus := Bus { selected_address : Z; present : list (Z * Z) }.
Definition bus_config (b : bus) (a : Z) : Z :=
  match list_find (λ p, fst p = a) (present b) with Some (_, (_, v)) => u32 v | None => 0xFFFFFFFF end.
#[export] Instance bus_ports : LongIO bus := {|
  inl _ := λ b, Some (bus_config b (selected_address b), b);
  outl _ a := modify (λ b, Bus a (present b));
  pci_message _ := mret tt |}.
#[export, program] Instance bus_laws : PciBus bus := {| config := bus_config |}.
Next Obligation.
  intros a d. apply wp_modify. split; [done|]. eexists _, _. split; [reflexivity|]. cbn. split; [done|]. split; [|done].
  unfold bus_config. destruct (list_find _ _) as [[? [? ?]]|]; [apply u32_range|done].
Qed.
Next Obligation. intros t d. by apply wp_ret. Qed.

Definition demo_bus : bus := Bus 0
  [(pci_address 0 3 0 0, 0x100E8086); (pci_address 0 3 0 8, 0x02000003); (pci_address 0 3 0 0x0C, 0);
   (pci_address 0 31 0 0, 0x70008086); (pci_address 0 31 0 8, 0x06010000); (pci_address 0 31 0 0x0C, 0x00800000);
   (pci_address 0 31 1 0, 0x70108086); (pci_address 0 31 1 8, 0x01018000)].
Definition demo_pci : pci bus := Pci (replicate 32 (PciDevice 0 0 0 0 0 0 0)) 7 demo_bus.

Lemma pci_scan_complete_witness : ∃ s', pci_initialize demo_pci = Some (tt, s') ∧ device_count s' = Z.of_nat (length (take 32 (found (config demo_bus)))).
Proof. destruct (pci_scan_complete demo_pci) as (s' & E & En & _); [reflexivity|]. exists s'. exact (conj E En). Defined.

Example demo_scan : (vendor <$> found_bus (config demo_bus) 0, pd_device <$> found_bus (config demo_bus) 0) = ([0x8086; 0x8086; 0x8086], [0x100E; 0x7000; 0x7010]).
Proof. vm_compute. reflexivity. Qed.
