(* ===== verification/Serial.v ===== *)
(** * The serial line, kernel/drivers/platform/serial.c

    The driver of the UART at COM1: what is written arrives on the line, with a
    carriage return before every newline of a string. *)

From Stdlib Require Import ZArith Lia Bool.
From stdpp Require Import base numbers list.
From S2P Require Import Prelude Runtime Ports.

Definition COM1 : Z := 0x3F8.

Section serial.
Context {D : Type} `{PortIO D}.

Definition serial_initialize : M D unit :=
  _ ← outb (COM1 + 1) 0x00;
  _ ← outb (COM1 + 3) 0x80;
  _ ← outb (COM1 + 0) 0x03;
  _ ← outb (COM1 + 1) 0x00;
  _ ← outb (COM1 + 3) 0x03;
  _ ← outb (COM1 + 2) 0xC7;
  outb (COM1 + 4) 0x0B.

(** [while ((inb(COM1 + 5) & 0x20) == 0) { }] *)
Definition serial_wait : M D unit :=
  while_ (λ _ : unit, v ← inb (COM1 + 5); mret (if Z.land v 0x20 =? 0 then inl tt else inr tt)) tt.

Definition serial_write_char (c : Z) : M D unit :=
  _ ← serial_wait; outb COM1 (u8 c).

(** The loop over the string stops at its terminator. *)
Definition serial_writestring (data : list Z) : M D unit :=
  n ← lift (kstrlen data);
  for_ 0 n (λ i,
    c ← lift (aread data i);
    _ ← when (c =? 10) (serial_write_char 13);
    serial_write_char c).
End serial.

(** The UART: the transmitter reports after a while that it is empty, and then takes a
    byte for the line. [pending] bounds the number of times it reports to be busy. *)
Class Uart (D : Type) `{PortIO D} := {
  line : D → list Z;
  empty : D → Prop;
  pending : D → Z;
  pending_range d : 0 ≤ pending d < 4294967296;
  status_uart d : wp (inb 0x3FD) (λ v d', line d' = line d ∧ (Z.land v 0x20 ≠ 0 ∧ empty d' ∨ Z.land v 0x20 = 0 ∧ pending d' < pending d)) d;
  transmit_uart d v : empty d → wp (outb 0x3F8 v) (λ _ d', line d' = line d ++ [v]) d }.

(** The bytes of a string on the line. *)
Definition crlf (str : list Z) : list Z := c ← str; if c =? 10 then [13; 10] else [u8 c].

Section properties.
Context {D : Type} `{Uart D}.
Implicit Types d : D.

Lemma serial_wait_wp d (Q : unit → D → Prop) : (∀ d', line d' = line d → empty d' → Q tt d') → wp serial_wait Q d.
Proof.
  intros HQ. unfold serial_wait. apply (wp_while _ (λ n _ d', n = pending d' ∧ line d' = line d) _ (pending d)); [done|].
  intros n l d1 [-> El]. split; [apply pending_range|]. wp_step. eapply wp_mono; [apply status_uart|]. intros v d2 [E2 Hv]. wp_step.
  destruct (Z.eqb_spec (Z.land v 0x20) 0) as [E|E].
  - destruct Hv as [[? _]|[_ Hlt]]; [done|]. exists (pending d2). split; [done|]. split; [done|congruence].
  - destruct Hv as [[_ He]|[? _]]; [|done]. apply HQ; [congruence|done].
Qed.

Lemma serial_write_char_wp d c (Q : unit → D → Prop) : (∀ d', line d' = line d ++ [u8 c] → Q tt d') → wp (serial_write_char c) Q d.
Proof.
  intros HQ. unfold serial_write_char. wp_step. apply serial_wait_wp. intros d1 E1 He. eapply wp_mono; [by apply transmit_uart|]. intros [] d2 E2. apply HQ. by rewrite E2, E1.
Qed.

(** Every byte of a block arrives on the line. *)
Lemma serial_block_wp d data n (Q : unit → D → Prop) : 0 ≤ n ≤ Z.of_nat (length data) →
  (∀ d', line d' = line d ++ (u8 <$> take (Z.to_nat n) data) → Q tt d') → wp (for_ 0 n (λ i, c ← lift (aread data i); serial_write_char c)) Q d.
Proof.
  intros Hn HQ. apply (wp_for _ _ _ (λ i d', line d' = line d ++ (u8 <$> take (Z.to_nat i) data))); [lia|by rewrite app_nil_r| |exact HQ].
  intros i d1 Hi E1. destruct (aread_is_Some data i) as [c Hc]; [lia|]. wp_step. eapply wp_lift; [exact Hc|]. apply serial_write_char_wp. intros d2 E2.
  apply aread_Some in Hc as [_ Hc]. replace (Z.to_nat (i + 1)) with (S (Z.to_nat i)) by lia. by rewrite E2, E1, (take_S_r _ _ _ Hc), fmap_app, <-app_assoc.
Qed.

(** serial_writestring sends the string, with a carriage return before every newline,
    and returns. *)
Theorem serial_writestring_sends d data str : cstring data = Some str →
  ∃ d', serial_writestring data d = Some (tt, d') ∧ line d' = line d ++ crlf str.
Proof.
  intros Hc. assert (W : wp (serial_writestring data) (λ _ d', line d' = line d ++ crlf str) d); [|by destruct W as ([] & d' & E & W); exists d'].
  apply cstring_spec in Hc as Hs. destruct Hs as (rest & Ed & Hnz). unfold serial_writestring. wp_step. eapply wp_lift; [rewrite Ed; by apply kstrlen_ok|].
  apply (wp_for _ _ _ (λ i d', line d' = line d ++ crlf (take (Z.to_nat i) str))); [lia|by rewrite app_nil_r| |].
  - intros i d1 Hi E1. destruct (lookup_lt_is_Some_2 str (Z.to_nat i)) as [c Hch]; [lia|].
    assert (Ha : aread data i = Some c) by (apply aread_Some; split; [lia|]; rewrite Ed; by apply lookup_app_l_Some).
    wp_step. eapply wp_lift; [exact Ha|]. replace (Z.to_nat (i + 1)) with (S (Z.to_nat i)) by lia. rewrite (take_S_r _ _ _ Hch). unfold crlf. rewrite bind_app. fold (crlf (take (Z.to_nat i) str)).
    wp_step. apply wp_when; intros Ec.
    + apply Z.eqb_eq in Ec. subst c. apply serial_write_char_wp. intros d2 E2. apply serial_write_char_wp. intros d3 E3. rewrite E3, E2, E1. cbn. by rewrite <-!app_assoc.
    + apply serial_write_char_wp. intros d2 E2. rewrite E2, E1. cbn. rewrite Ec. cbn. by rewrite <-!app_assoc.
  - intros d' E. rewrite E. by rewrite take_ge by lia.
Qed.
End properties.

(** ** A line that is busy for one read after every byte *)

Record uart := UartState { u_line : list Z; u_busy : bool }.

#[export] Instance uart_ports : PortIO uart := {|
  inb p := λ d, if p =? 0x3FD then (if u_busy d then Some (0, UartState (u_line d) false) else Some (0x60, d)) else Some (0, d);
  outb p v := λ d, if p =? 0x3F8 then Some (tt, if u_busy d then d else UartState (u_line d ++ [v]) true) else Some (tt, d) |}.

#[export, program] Instance uart_uart : Uart uart := {| line := u_line; empty d := u_busy d = false; pending d := if u_busy d then 1 else 0 |}.
Next Obligation. intros d. cbn. destruct (u_busy d); done. Qed.
Next Obligation.
  intros d. unfold wp. cbn. destruct (u_busy d) eqn:E.
  - eexists _, _. split; [reflexivity|]. split; [done|]. right. cbn. split; [done|lia].
  - eexists _, _. split; [reflexivity|]. split; [done|]. left. by split.
Qed.
Next Obligation. intros d v E. unfold wp. cbn in *. rewrite E. eexists _, _. by split; [reflexivity|]. Qed.

Lemma serial_writestring_witness : ∃ d', serial_writestring [72; 10; 0] (UartState [] false) = Some (tt, d') ∧ u_line d' = [72; 13; 10].
Proof. destruct (serial_writestring_sends (UartState [] false) [72; 10; 0] [72; 10] eq_refl) as (d' & E & L). exists d'. split; [exact E|exact L]. Defined.
