(* ===== verification/Vga.v ===== *)
(** * The text terminal, kernel/drivers/video/vga.c

    A grid of 24 lines of 53 characters with a cursor, drawn cell by cell on the
    primary surface of the graphics component. It refines an endless text of
    which the last 24 lines are visible. *)

From Stdlib Require Import ZArith Lia Bool String.
From stdpp Require Import base numbers list strings.
From S2P Require Import Prelude Runtime.

Definition VGA_WIDTH : Z := 53.
Definition VGA_HEIGHT : Z := 24.

(** What the terminal uses of graphics.c: is there a primary surface, draw a
    character in a foreground and a background colour, clear. *)
Class Canvas (D : Type) := {
  graphics_primary_surface_mut : M D bool;
  graphics_draw_char : Z → Z → Z → Z → Z → M D unit;
  graphics_clear : Z → M D unit }.

(** The contract: a character drawn in a cell is shown there and does not disturb
    the other cells; a cleared cell shows a space. [cell_shows d x y c fg] says that
    the cell of the column [x] and the row [y] shows [c] in the colour [fg]. *)
Class CanvasLaws (D : Type) `{Canvas D} := {
  canvas_ok : D → Prop;
  has_surface : D → bool;
  cell_shows : D → Z → Z → Z → Z → Prop;
  surface_law d : wp graphics_primary_surface_mut (λ b d', b = has_surface d ∧ d' = d) d;
  draw_law x y c fg d : canvas_ok d → has_surface d = true → 0 ≤ x < 53 → 0 ≤ y < 24 → 0 ≤ fg < 16 →
    wp (graphics_draw_char (x * 6) (y * 8) c fg 0) (λ _ d', canvas_ok d' ∧ has_surface d' = true ∧ cell_shows d' x y c fg ∧
      ∀ x' y' c' fg', 0 ≤ x' < 53 → 0 ≤ y' < 24 → x' ≠ x ∨ y' ≠ y → cell_shows d x' y' c' fg' → cell_shows d' x' y' c' fg') d;
  clear_law d : canvas_ok d → has_surface d = true →
    wp (graphics_clear 0) (λ _ d', canvas_ok d' ∧ has_surface d' = true ∧
      ∀ x y fg, 0 ≤ x < 53 → 0 ≤ y < 24 → cell_shows d' x y 32 fg) d }.

Section vga.
Context {D : Type} `{Canvas D}.

(** ** State *)

Record term := Term {
  terminal_row : Z; terminal_column : Z; terminal_color : Z;
  terminal_chars : list (list Z); terminal_colors : list (list Z); surface : D }.

Definition set_row v t := Term v (terminal_column t) (terminal_color t) (terminal_chars t) (terminal_colors t) (surface t).
Definition set_column v t := Term (terminal_row t) v (terminal_color t) (terminal_chars t) (terminal_colors t) (surface t).
Definition set_color v t := Term (terminal_row t) (terminal_column t) v (terminal_chars t) (terminal_colors t) (surface t).
Definition set_chars v t := Term (terminal_row t) (terminal_column t) (terminal_color t) v (terminal_colors t) (surface t).
Definition set_colors v t := Term (terminal_row t) (terminal_column t) (terminal_color t) (terminal_chars t) v (surface t).
Definition set_surface v t := Term (terminal_row t) (terminal_column t) (terminal_color t) (terminal_chars t) (terminal_colors t) v.

Definition on_surface {A} (m : M D A) : M term A := zoom surface set_surface m.

(** [a[y][x]] and [a[y][x] = v]. *)
Definition grid_read (a : list (list Z)) (y x : Z) : option Z := r ← aread a y; aread r x.
Definition grid_write (a : list (list Z)) (y x v : Z) : option (list (list Z)) :=
  r ← aread a y; r' ← awrite r x v; awrite a y r'.

(** ** Operations *)

Definition color_to_graphics (color : Z) : Z :=
  let c := Z.land color 0x0F in if (1 <=? c) && (c <=? 15) then c else 0.

Definition vga_entry_color (fg bg : Z) : Z := u8 (Z.lor fg (Z.shiftl bg 4)).

Definition terminal_draw_cell (x y : Z) : M term unit :=
  s ← on_surface graphics_primary_surface_mut;
  if negb s then mret tt
  else
    chars ← gets terminal_chars; c ← lift (grid_read chars y x);
    colors ← gets terminal_colors; k ← lift (grid_read colors y x);
    on_surface (graphics_draw_char (x *% 6) (y *% 8) c (color_to_graphics k) 0).

Definition put_char (y x c : Z) : M term unit :=
  chars ← gets terminal_chars; chars' ← lift (grid_write chars y x c); modify (set_chars chars').
Definition put_color (y x k : Z) : M term unit :=
  colors ← gets terminal_colors; colors' ← lift (grid_write colors y x k); modify (set_colors colors').

Definition terminal_putentryat (c color x y : Z) : M term unit :=
  if (VGA_WIDTH <=? x) || (VGA_HEIGHT <=? y) then mret tt
  else _ ← put_char y x c; _ ← put_color y x color; terminal_draw_cell x y.

Definition terminal_scroll : M term unit :=
  _ ← for_ 1 VGA_HEIGHT (λ y,
    for_ 0 VGA_WIDTH (λ x,
      chars ← gets terminal_chars; c ← lift (grid_read chars y x); _ ← put_char (y - 1) x c;
      colors ← gets terminal_colors; k ← lift (grid_read colors y x); _ ← put_color (y - 1) x k;
      terminal_draw_cell x (y - 1)));
  _ ← for_ 0 VGA_WIDTH (λ x, k ← gets terminal_color; terminal_putentryat 32 k x (VGA_HEIGHT - 1));
  modify (set_row (VGA_HEIGHT - 1)).

(** [if (++terminal_row == VGA_HEIGHT) terminal_scroll();] *)
Definition next_row : M term unit :=
  _ ← modify (λ t, set_row (terminal_row t +% 1) t);
  r ← gets terminal_row; when (r =? VGA_HEIGHT) terminal_scroll.

Definition terminal_putchar (c : Z) : M term unit :=
  if c =? 8 then
    col ← gets terminal_column;
    when (0 <? col)
      (_ ← modify (λ t, set_column (terminal_column t -% 1) t);
       k ← gets terminal_color; col ← gets terminal_column; row ← gets terminal_row;
       terminal_putentryat 32 k col row)
  else if c =? 10 then
    _ ← modify (set_column 0); next_row
  else
    k ← gets terminal_color; col ← gets terminal_column; row ← gets terminal_row;
    _ ← terminal_putentryat c k col row;
    _ ← modify (λ t, set_column (terminal_column t +% 1) t);
    col ← gets terminal_column;
    when (col =? VGA_WIDTH) (_ ← modify (set_column 0); next_row).

Definition terminal_clear : M term unit :=
  s ← on_surface graphics_primary_surface_mut;
  _ ← when s (on_surface (graphics_clear 0));
  _ ← for_ 0 VGA_HEIGHT (λ y, for_ 0 VGA_WIDTH (λ x,
        _ ← put_char y x 32; k ← gets terminal_color; put_color y x k));
  _ ← modify (set_row 0); modify (set_column 0).

Definition terminal_initialize : M term unit :=
  _ ← modify (set_row 0); _ ← modify (set_column 0);
  _ ← modify (set_color (vga_entry_color 7 0));
  terminal_clear.

Definition terminal_set_color (color : Z) : M term unit := modify (set_color color).

Definition terminal_write (data : list Z) (size : Z) : M term unit :=
  for_ 0 size (λ i, c ← lift (aread data i); terminal_putchar c).

(** The loop over the string is the one of kstrlen. *)
Definition terminal_writestring (data : list Z) : M term unit :=
  size ← lift (kstrlen data); terminal_write data size.
End vga.
Arguments term D : clear implicits.

(** ** Grids as functions *)

(** The 24 lines of 53 cells hold [f y x]. *)
Definition grid_is (g : list (list Z)) (f : Z → Z → Z) : Prop :=
  length g = 24%nat ∧ ∀ y, 0 ≤ y < 24 → ∃ r, aread g y = Some r ∧ length r = 53%nat ∧ ∀ x, 0 ≤ x < 53 → aread r x = Some (f y x).

Definition upd_cell (f : Z → Z → Z) (y x v : Z) : Z → Z → Z := λ y' x', if (y' =? y) && (x' =? x) then v else f y' x'.

Lemma grid_read_eq g f y x : grid_is g f → 0 ≤ y < 24 → 0 ≤ x < 53 → grid_read g y x = Some (f y x).
Proof. intros [_ Hg] Hy Hx. destruct (Hg y Hy) as (r & Hr & _ & Hf). unfold grid_read. rewrite Hr. cbn. by apply Hf. Qed.

Lemma grid_write_eq g f y x v : grid_is g f → 0 ≤ y < 24 → 0 ≤ x < 53 →
  ∃ g', grid_write g y x v = Some g' ∧ grid_is g' (upd_cell f y x v).
Proof.
  intros [Hl Hg] Hy Hx. destruct (Hg y Hy) as (r & Hr & Hlr & Hf). unfold grid_write. rewrite Hr. cbn.
  rewrite awrite_eq by lia. cbn. rewrite awrite_eq by lia. eexists. split; [done|]. split; [by rewrite length_insert|].
  intros y' Hy'. unfold upd_cell. destruct (Z.eqb_spec y' y) as [->|Hne]; cbn.
  - eexists. split; [by apply aread_insert_eq; lia|]. split; [by rewrite length_insert|]. intros x' Hx'.
    destruct (Z.eqb_spec x' x) as [->|Hnx]; [by apply aread_insert_eq; lia|]. rewrite aread_insert_ne by lia. by apply Hf.
  - rewrite aread_insert_ne by lia. by apply Hg.
Qed.

Lemma grid_ext g f f' : grid_is g f → (∀ y x, 0 ≤ y < 24 → 0 ≤ x < 53 → f y x = f' y x) → grid_is g f'.
Proof.
  intros [Hl Hg] Hff. split; [done|]. intros y Hy. destruct (Hg y Hy) as (r & Hr & Hlr & Hf). exists r. split_and!; try done.
  intros x Hx. by rewrite <- Hff, Hf.
Qed.

(** ** What is on the screen *)

(** [lit] says whether there is a surface, which the terminal does not change. *)
Section screen.
Context {D : Type} `{CanvasLaws D} (lit : bool).
Implicit Types t : term D.

Record screen t (f g : Z → Z → Z) : Prop := {
  sc_chars : grid_is (terminal_chars t) f;
  sc_colors : grid_is (terminal_colors t) g;
  sc_ok : canvas_ok (surface t);
  sc_lit : has_surface (surface t) = lit;
  sc_shown : lit = true → ∀ y x, 0 ≤ y < 24 → 0 ≤ x < 53 →
    cell_shows (surface t) x y (f y x) (color_to_graphics (g y x)) }.

Lemma color_range k : 0 ≤ color_to_graphics k < 16.
Proof. unfold color_to_graphics. destruct (_ && _) eqn:E; [|lia]. bool_to_prop. lia. Qed.

Lemma screen_ext t f g f' g' : screen t f g → (∀ y x, 0 ≤ y < 24 → 0 ≤ x < 53 → f y x = f' y x ∧ g y x = g' y x) → screen t f' g'.
Proof.
  intros [Hc Hk Ho Hl Hs] He. split; [eapply grid_ext; [exact Hc|]; intros; by apply He|eapply grid_ext; [exact Hk|]; intros; by apply He|done|done|].
  intros Hh y x Hy Hx. destruct (He y x Hy Hx) as [<- <-]. by apply Hs.
Qed.

(** The cursor and the colour. *)
Definition same_cursor t t' : Prop :=
  terminal_row t' = terminal_row t ∧ terminal_column t' = terminal_column t ∧ terminal_color t' = terminal_color t.

Section cell.
Context t (f g : Z → Z → Z) (y x : Z).
Hypothesis Hy : 0 ≤ y < 24.
Hypothesis Hx : 0 ≤ x < 53.

Lemma put_char_wp c (Q : unit → term D → Prop) : grid_is (terminal_chars t) f →
  (∀ chars', grid_is chars' (upd_cell f y x c) → Q tt (set_chars chars' t)) → wp (put_char y x c) Q t.
Proof.
  intros Hg HQ. destruct (grid_write_eq _ f y x c Hg Hy Hx) as (g' & E & Hg'). unfold put_char. do 3 wp_step. eapply wp_lift; [exact E|].
  wp_step. by apply HQ.
Qed.

Lemma put_color_wp k (Q : unit → term D → Prop) : grid_is (terminal_colors t) g →
  (∀ colors', grid_is colors' (upd_cell g y x k) → Q tt (set_colors colors' t)) → wp (put_color y x k) Q t.
Proof.
  intros Hg HQ. destruct (grid_write_eq _ g y x k Hg Hy Hx) as (g' & E & Hg'). unfold put_color. do 3 wp_step. eapply wp_lift; [exact E|].
  wp_step. by apply HQ.
Qed.

(** What drawing a cell does to the canvas. *)
Definition drawn_cell (d d' : D) (c k : Z) : Prop :=
  canvas_ok d' ∧ has_surface d' = has_surface d ∧ (has_surface d = true → cell_shows d' x y c (color_to_graphics k) ∧
    ∀ x' y' c' fg', 0 ≤ x' < 53 → 0 ≤ y' < 24 → x' ≠ x ∨ y' ≠ y → cell_shows d x' y' c' fg' → cell_shows d' x' y' c' fg').

(** Drawing brings one cell up to date. *)
Lemma draw_cell_wp (Q : unit → term D → Prop) : grid_is (terminal_chars t) f → grid_is (terminal_colors t) g → canvas_ok (surface t) →
  (∀ d', drawn_cell (surface t) d' (f y x) (g y x) → Q tt (set_surface d' t)) →
  wp (terminal_draw_cell x y) Q t.
Proof.
  intros Hc Hk Ho HQ. unfold terminal_draw_cell, on_surface. do 2 wp_step. eapply wp_mono; [apply surface_law|].
  intros b d' [-> ->]. replace (set_surface (surface t) t) with t by (by destruct t).
  destruct (has_surface (surface t)) eqn:Hh; cbn [negb].
  - do 3 wp_step. eapply wp_lift; [by apply grid_read_eq|]. do 3 wp_step. eapply wp_lift; [by apply grid_read_eq|].
    u32_simp. wp_step. eapply wp_mono; [apply draw_law; [done|done|done|done|apply color_range]|].
    intros [] d' (Ho' & Hh' & Hs). apply HQ. split_and!; [done|congruence|done].
  - wp_step. replace t with (set_surface (surface t) t) by (by destruct t). apply HQ. split_and!; [done|done|]. by rewrite Hh.
Qed.

(** All three: the screen with one cell changed. *)
Lemma screen_put c k chars' colors' d' : screen t f g → grid_is chars' (upd_cell f y x c) → grid_is colors' (upd_cell g y x k) →
  drawn_cell (surface t) d' (upd_cell f y x c y x) (upd_cell g y x k y x) →
  let t' := set_surface d' (set_colors colors' (set_chars chars' t)) in
  screen t' (upd_cell f y x c) (upd_cell g y x k) ∧ same_cursor t t'.
Proof.
  intros [_ _ _ Hl Hs] Hc Hk (Ho & Hh & Hd) t'. split; [|done]. split; [done|done|done|by cbn; rewrite Hh|]. intros Hh' y' x' Hy' Hx'. rewrite Hl in Hd.
  cbn [surface set_surface set_colors set_chars t']. destruct (Hd Hh') as [Hd1 Hd2]. unfold upd_cell in *. rewrite !Z.eqb_refl in Hd1. cbn [andb] in *.
  destruct (Z.eqb_spec y' y) as [->|Hy2], (Z.eqb_spec x' x) as [->|Hx2]; cbn [andb]; [done|apply Hd2; auto..].
Qed.
End cell.

Lemma putentryat_wp t f g c k x y (Q : unit → term D → Prop) : screen t f g → 0 ≤ y < 24 → 0 ≤ x < 53 →
  (∀ t', screen t' (upd_cell f y x c) (upd_cell g y x k) → same_cursor t t' → Q tt t') →
  wp (terminal_putentryat c k x y) Q t.
Proof.
  intros Hs Hy Hx HQ. unfold terminal_putentryat, VGA_WIDTH, VGA_HEIGHT.
  rewrite (proj2 (Z.leb_gt 53 x)), (proj2 (Z.leb_gt 24 y)) by lia. cbn [orb].
  wp_step. apply (put_char_wp t f y x Hy Hx); [apply Hs|]. intros chars' Hc. wp_step.
  apply (put_color_wp _ g y x Hy Hx); [apply Hs|]. intros colors' Hk.
  apply (draw_cell_wp _ (upd_cell f y x c) (upd_cell g y x k) y x Hy Hx); [done|done|apply Hs|]. intros d' Hd.
  destruct (screen_put t f g y x c k chars' colors' d') as [S' C']; try done. by apply HQ.
Qed.

(** ** Scrolling *)

(** [f] after the cells before (y, x) have been moved up one line. *)
Definition moved_up (f : Z → Z → Z) (y x : Z) : Z → Z → Z :=
  λ y' x', if (y' <? y - 1) || ((y' =? y - 1) && (x' <? x)) then f (y' + 1) x' else f y' x'.

Lemma moved_up_step f y x y' x' : 0 ≤ x → 0 ≤ x' < 53 →
  upd_cell (moved_up f y x) (y - 1) x (moved_up f y x y x) y' x' = moved_up f y (x + 1) y' x'.
Proof.
  intros Hx Hx'. unfold upd_cell, moved_up. destruct (Z.ltb_spec y (y - 1)); [lia|]. destruct (Z.eqb_spec y (y - 1)); [lia|]. cbn [orb andb].
  destruct (Z.eqb_spec y' (y - 1)) as [->|]; cbn [andb]; [|by destruct (_ || _)].
  replace (y - 1 + 1) with y by lia. destruct (Z.ltb_spec (y - 1) (y - 1)); [lia|]. cbn [orb].
  destruct (Z.eqb_spec x' x) as [E|E], (Z.ltb_spec x' x), (Z.ltb_spec x' (x + 1)); try lia; congruence.
Qed.

Lemma scroll_wp t f g (Q : unit → term D → Prop) : screen t f g →
  (∀ t', screen t' (λ y x, if y =? 23 then 32 else f (y + 1) x) (λ y x, if y =? 23 then terminal_color t else g (y + 1) x) →
     terminal_row t' = 23 → terminal_column t' = terminal_column t → terminal_color t' = terminal_color t → Q tt t') →
  wp terminal_scroll Q t.
Proof.
  intros Hs HQ. unfold terminal_scroll, VGA_HEIGHT, VGA_WIDTH. wp_step.
  apply (wp_for _ _ _ (λ y t', screen t' (moved_up f y 0) (moved_up g y 0) ∧ same_cursor t t')); [lia| | |].
  - split; [|done]. eapply screen_ext; [exact Hs|]. intros y x Hy Hx. unfold moved_up.
    destruct (Z.ltb_spec y (1 - 1)), (Z.ltb_spec x 0); try lia. rewrite andb_false_r. done.
  - intros y t1 Hy [S1 C1].
    apply (wp_for _ _ _ (λ x t', screen t' (moved_up f y x) (moved_up g y x) ∧ same_cursor t t')); [lia|done| |].
    + intros x t2 Hx [S2 C2]. do 2 wp_step. wp_step. eapply wp_lift; [apply (grid_read_eq _ (moved_up f y x)); [apply S2|lia|lia]|].
      wp_step. apply (put_char_wp t2 (moved_up f y x) (y - 1) x); [lia|lia|apply S2|]. intros chars' Hc. do 3 wp_step.
      eapply wp_lift; [apply (grid_read_eq _ (moved_up g y x)); [apply S2|lia|lia]|]. wp_step.
      apply (put_color_wp _ (moved_up g y x) (y - 1) x); [lia|lia|apply S2|]. intros colors' Hk.
      eapply (draw_cell_wp _ _ _ (y - 1) x); [lia|lia|exact Hc|exact Hk|apply S2|]. intros d' Hd.
      destruct (screen_put t2 _ _ (y - 1) x _ _ chars' colors' d' S2 Hc Hk Hd) as [S' (E1 & E2 & E3)].
      split; [|destruct C2 as (? & ? & ?); split_and!; congruence].
      eapply screen_ext; [exact S'|]. intros y' x' Hy' Hx'. by rewrite !moved_up_step by lia.
    + intros t2 [S2 C2]. split; [|done]. eapply screen_ext; [exact S2|]. intros y' x' Hy' Hx'. unfold moved_up.
      destruct (Z.ltb_spec y' (y - 1)), (Z.eqb_spec y' (y - 1)), (Z.ltb_spec x' 53), (Z.ltb_spec y' (y + 1 - 1)),
        (Z.eqb_spec y' (y + 1 - 1)), (Z.ltb_spec x' 0); try lia; done.
  - intros t1 [S1 C1]. wp_step.
    apply (wp_for _ _ _ (λ x t', screen t' (λ y x', if (y =? 23) && (x' <? x) then 32 else moved_up f 24 0 y x')
      (λ y x', if (y =? 23) && (x' <? x) then terminal_color t else moved_up g 24 0 y x') ∧ same_cursor t t')); [lia| | |].
    + split; [|done]. eapply screen_ext; [exact S1|]. intros y x Hy Hx. destruct (Z.ltb_spec x 0); [lia|]. by rewrite andb_false_r.
    + intros x t2 Hx [S2 C2]. do 2 wp_step. destruct C2 as (E1 & E2 & E3). rewrite E3.
      eapply putentryat_wp; [exact S2|lia|lia|]. intros t3 S3 (F1 & F2 & F3). split; [|split_and!; congruence].
      eapply screen_ext; [exact S3|]. intros y' x' Hy' Hx'. unfold upd_cell. change (24 - 1) with 23.
      destruct (Z.eqb_spec y' 23), (Z.eqb_spec x' x), (Z.ltb_spec x' x), (Z.ltb_spec x' (x + 1)); try lia; done.
    + intros t2 [S2 (E1 & E2 & E3)]. wp_step. apply HQ; try done. destruct S2 as [Sc Sk So Sl Ss].
      apply (screen_ext _ (λ y x', if (y =? 23) && (x' <? 53) then 32 else moved_up f 24 0 y x')
        (λ y x', if (y =? 23) && (x' <? 53) then terminal_color t else moved_up g 24 0 y x')); [by split|].
      intros y x Hy Hx. unfold moved_up. destruct (Z.ltb_spec x 53); [|lia]. destruct (Z.eqb_spec y 23); cbn; [done|].
      destruct (Z.ltb_spec y (24 - 1)); [|lia]. done.
Qed.

(** ** The text behind the screen *)

(** The lines that are complete, and the one with the cursor. *)
Record text := Text { done_lines : list (list Z); this_line : list Z }.

(** What a character does to the text: backspace, newline, or a character at the
    end of the line, which is complete at 53. *)
Definition type_char (T : text) (c : Z) : text :=
  if c =? 8 then Text (done_lines T) (removelast (this_line T))
  else if c =? 10 then Text (done_lines T ++ [this_line T]) []
  else let l := this_line T ++ [c] in
       if Z.of_nat (length l) =? 53 then Text (done_lines T ++ [l]) [] else Text (done_lines T) l.

(** The first line that is visible. *)
Definition top (T : text) : Z := Z.max 0 (Z.of_nat (length (done_lines T)) - 23).
Definition line_at (T : text) (i : Z) : list Z :=
  if i =? Z.of_nat (length (done_lines T)) then this_line T else default [] (aread (done_lines T) i).
Definition visible (T : text) (y x : Z) : Z := default 32 (aread (line_at T (top T + y)) x).

(** The screen holds [f], in colours that [ink] allows. *)
Context (ink : Z → Prop).
Definition inked (g : Z → Z → Z) : Prop := ∀ y x, 0 ≤ y < 24 → 0 ≤ x < 53 → ink (g y x).
Definition screen_in t (f : Z → Z → Z) : Prop := ∃ g, screen t f g ∧ inked g.

Lemma screen_in_ext t f f' : screen_in t f → (∀ y x, 0 ≤ y < 24 → 0 ≤ x < 53 → f y x = f' y x) → screen_in t f'.
Proof. intros (g & Hs & Hi) He. exists g. split; [|done]. eapply screen_ext; [exact Hs|]. intros y x Hy Hx. split; [by apply He|done]. Qed.
Lemma inked_upd g y x k : inked g → ink k → inked (upd_cell g y x k).
Proof. intros Hg Hk y' x' Hy Hx. unfold upd_cell. destruct (_ && _); [done|by apply Hg]. Qed.
(** The state without the screen may change. *)
Lemma screen_in_moved t t' f : screen_in t f → terminal_chars t' = terminal_chars t → terminal_colors t' = terminal_colors t → surface t' = surface t → screen_in t' f.
Proof. intros (g & [S1 S2 S3 S4 S5] & Hi) E1 E2 E3. exists g. split; [|done]. split; rewrite ?E1, ?E2, ?E3; done. Qed.

(** The terminal shows the text [T], and writes it, in colours that [ink] allows. *)
Record shows_in t (T : text) : Prop := {
  sh_screen : screen_in t (visible T);
  sh_ink : ink (terminal_color t);
  sh_row : terminal_row t = Z.of_nat (length (done_lines T)) - top T;
  sh_column : terminal_column t = Z.of_nat (length (this_line T));
  sh_width : Z.of_nat (length (this_line T)) < 53 }.

Lemma aread_None {A} (l : list A) i : Z.of_nat (length l) ≤ i → aread l i = None.
Proof. intros Hi. unfold aread. destruct (Z.leb_spec 0 i); [|done]. apply lookup_ge_None. lia. Qed.

Lemma aread_snoc {A} (l : list A) a i : aread (l ++ [a]) i = if i =? Z.of_nat (length l) then Some a else aread l i.
Proof.
  destruct (Z.eqb_spec i (Z.of_nat (length l))) as [->|Hne]; [apply aread_app_end|].
  destruct (Z.lt_ge_cases i (Z.of_nat (length l))) as [Hlt|Hge].
  - unfold aread. destruct (Z.leb_spec 0 i); [|done]. rewrite lookup_app_l by lia. done.
  - by rewrite !aread_None by (rewrite ?length_app; cbn; lia).
Qed.

(** The line of the cursor replaced. *)
Lemma visible_line T l y x v col : 0 ≤ y < 24 → 0 ≤ x < 53 →
  (∀ x, 0 ≤ x < 53 → default 32 (aread l x) = if x =? col then v else default 32 (aread (this_line T) x)) →
  upd_cell (visible T) (Z.of_nat (length (done_lines T)) - top T) col v y x = visible (Text (done_lines T) l) y x.
Proof.
  intros Hy Hx Hl. unfold upd_cell, visible, line_at, top. cbn.
  set (n := Z.of_nat (length (done_lines T))). set (tp := Z.max 0 (n - 23)).
  destruct (Z.eqb_spec y (n - tp)) as [->|Hne]; cbn [andb].
  - replace (tp + (n - tp)) with n by lia. rewrite Z.eqb_refl. by rewrite Hl.
  - rewrite (proj2 (Z.eqb_neq (tp + y) n)) by lia. done.
Qed.

(** The end of a line. *)
Lemma next_row_wp t T l col (Q : unit → term D → Prop) : screen_in t (visible (Text (done_lines T) l)) → ink (terminal_color t) →
  terminal_row t = Z.of_nat (length (done_lines T)) - top T → terminal_column t = col →
  (∀ t', screen_in t' (visible (Text (done_lines T ++ [l]) [])) → terminal_color t' = terminal_color t →
     terminal_row t' = Z.of_nat (length (done_lines T ++ [l])) - top (Text (done_lines T ++ [l]) []) → terminal_column t' = col → Q tt t') →
  wp next_row Q t.
Proof.
  intros (g & Hs & Hi) Hk Hr Hc HQ. unfold next_row. do 4 wp_step. cbn [terminal_row set_row].
  set (n := Z.of_nat (length (done_lines T))) in *. assert (Htop : top T = Z.max 0 (n - 23)) by done.
  assert (En : Z.of_nat (length (done_lines T ++ [l])) = n + 1) by (rewrite length_app; cbn; unfold n; lia).
  assert (Etop : top (Text (done_lines T ++ [l]) []) = Z.max 0 (n + 1 - 23)) by (unfold top; cbn [done_lines]; by rewrite En).
  assert (Hvis : ∀ i, line_at (Text (done_lines T ++ [l]) []) i = line_at (Text (done_lines T) l) i ∨ i = n + 1).
  { intros i. unfold line_at. cbn [done_lines this_line]. rewrite En, aread_snoc. fold n. destruct (Z.eqb_spec i (n + 1)); [by right|]. left.
    destruct (Z.eqb_spec i n); done. }
  assert (Hnew : ∀ x, default 32 (aread (line_at (Text (done_lines T ++ [l]) []) (n + 1)) x) = 32).
  { intros x. unfold line_at. cbn [done_lines this_line]. rewrite En, Z.eqb_refl. unfold aread. by destruct (0 <=? x). }
  assert (Hold : ∀ x, default 32 (aread (line_at (Text (done_lines T) l) (n + 1)) x) = 32).
  { intros x. unfold line_at. cbn [done_lines this_line]. fold n. rewrite (proj2 (Z.eqb_neq (n + 1) n)) by lia.
    rewrite (aread_None (done_lines T)) by lia. cbn. unfold aread. by destruct (0 <=? x). }
  rewrite Hr, u32_small by (unfold is_u32; lia). apply wp_when; intros E; bool_to_prop; unfold VGA_HEIGHT in E.
  - eapply scroll_wp; [destruct Hs as [S1 S2 S3 S4 S5]; by split|]. intros t' Hs' R' C' K'. apply HQ; [|by rewrite K'|rewrite R', En, Etop; lia|by rewrite C'].
    eapply screen_in_ext; [eexists; split; [exact Hs'|]; intros y x Hy Hx; cbn beta; destruct (Z.eqb_spec y 23); [done|apply Hi; lia]|]. intros y x Hy Hx. unfold visible. rewrite Etop. cbn [top].
    change (top (Text (done_lines T) l)) with (top T). rewrite Htop. destruct (Z.eqb_spec y 23) as [->|].
    + replace (Z.max 0 (n + 1 - 23) + 23) with (n + 1) by lia. by rewrite Hnew.
    + replace (Z.max 0 (n - 23) + (y + 1)) with (Z.max 0 (n + 1 - 23) + y) by lia.
      destruct (Hvis (Z.max 0 (n + 1 - 23) + y)) as [->|Ei]; [done|lia].
  - apply HQ; [|done|cbn; rewrite ?En, Etop; lia|done]. apply (screen_in_ext _ (visible (Text (done_lines T) l))).
    { apply (screen_in_moved t); try done. by exists g. }
    intros y x Hy Hx. unfold visible. rewrite Etop. change (top (Text (done_lines T) l)) with (top T). rewrite Htop.
    assert (n - Z.max 0 (n - 23) + 1 ≠ 24) by done. replace (Z.max 0 (n + 1 - 23)) with (Z.max 0 (n - 23)) by lia.
    destruct (Hvis (Z.max 0 (n - 23) + y)) as [->| ->]; [done|]. by rewrite Hnew, Hold.
Qed.

Lemma shows_range t T : shows_in t T → 0 ≤ terminal_row t < 24 ∧ 0 ≤ terminal_column t < 53.
Proof. intros [_ _ Hr Hc Hw]. rewrite Hr, Hc. unfold top. lia. Qed.

Lemma removelast_snoc (l : list Z) a : removelast (l ++ [a]) = l.
Proof. by rewrite removelast_last. Qed.

(** One more character, in the colour of the terminal, which stays. *)
Lemma putchar_wp t T c : shows_in t T → wp (terminal_putchar c) (λ _ t', shows_in t' (type_char T c) ∧ terminal_color t' = terminal_color t) t.
Proof.
  intros Hs. destruct (shows_range t T Hs) as [Hrow Hcol]. destruct Hs as [(g & Hg & Hi) Hk Hr Hc Hw]. unfold terminal_putchar, type_char.
  assert (Etop : ∀ l, top (Text (done_lines T) l) = top T) by done.
  destruct (Z.eqb_spec c 8) as [->|H8]; [|destruct (Z.eqb_spec c 10) as [->|H10]].
  - do 2 wp_step. destruct T as [ls cur]. cbn [done_lines this_line] in *. destruct cur as [|a l0 _] using rev_ind.
    + cbn in Hc. rewrite Hc. wp_step; [done|]. split; [|done]. split; [by exists g|done|done|by cbn|cbn; lia].
    + rewrite length_app in Hc, Hw. cbn in Hc, Hw. rewrite removelast_snoc. wp_step; [|bool_to_prop; lia].
      do 8 wp_step. cbn [terminal_color terminal_column terminal_row set_column]. rewrite u32_small by (unfold is_u32; lia).
      eapply putentryat_wp; [destruct Hg as [S1 S2 S3 S4 S5]; by split|done|lia|]. intros t' S' (C1 & C2 & C3). cbn in C1, C2, C3. split; [|done]. split.
      * eapply screen_in_ext; [exists (upd_cell g (terminal_row t) (terminal_column t - 1) (terminal_color t)); split; [exact S'|by apply inked_upd]|]. intros y x Hy Hx. rewrite Hr. apply (visible_line (Text ls (l0 ++ [a])) l0); [done|done|].
        intros x' Hx'. cbn [this_line]. rewrite aread_snoc, Hc. replace (Z.of_nat (length l0 + 1) - 1) with (Z.of_nat (length l0)) by lia.
        destruct (Z.eqb_spec x' (Z.of_nat (length l0))) as [->|]; [|done]. by rewrite aread_None by lia.
      * by rewrite C3.
      * by rewrite C1, Hr.
      * rewrite C2, Hc. cbn. lia.
      * cbn. lia.
  - do 2 wp_step. eapply (next_row_wp _ T (this_line T) 0); [apply (screen_in_moved t); try done; exists g; by destruct T|done|done|done|].
    intros t' S' K' R' C'. split; [|done]. split; try done. by rewrite K'.
  - do 7 wp_step. eapply putentryat_wp; [exact Hg|lia|lia|]. intros t1 S1 (C1 & C2 & C3).
    assert (V1 : screen_in t1 (visible (Text (done_lines T) (this_line T ++ [c])))).
    { eapply screen_in_ext; [exists (upd_cell g (terminal_row t) (terminal_column t) (terminal_color t)); split; [exact S1|by apply inked_upd]|]. intros y x Hy Hx. rewrite Hr. apply visible_line; [done|done|].
      intros x' Hx'. rewrite aread_snoc, Hc. by destruct (x' =? _). }
    do 4 wp_step. cbn [terminal_column set_column]. rewrite C2, Hc, u32_small by (unfold is_u32; lia).
    assert (Elen : Z.of_nat (length (this_line T ++ [c])) = Z.of_nat (length (this_line T)) + 1) by (rewrite length_app; cbn; lia).
    rewrite Elen. apply wp_when; intros E; unfold VGA_WIDTH in E; rewrite E; bool_to_prop.
    + do 2 wp_step. eapply (next_row_wp _ T (this_line T ++ [c]) 0); [by apply (screen_in_moved t1)|by cbn; rewrite C3|by cbn; rewrite C1, Hr|done|].
      intros t' S' K' R' C'. cbn in K'. split; [|congruence]. split; try done. by rewrite K', C3.
    + split; [|done]. split; [by apply (screen_in_moved t1)|by cbn; rewrite C3|by cbn; rewrite C1, Hr|cbn; lia|cbn; lia].
Qed.

Lemma terminal_write_wp t T str rest : shows_in t T →
  wp (terminal_write (str ++ rest) (Z.of_nat (length str))) (λ _ t', shows_in t' (foldl type_char T str) ∧ terminal_color t' = terminal_color t) t.
Proof.
  intros Hs. unfold terminal_write.
  apply (wp_for _ _ _ (λ i t', shows_in t' (foldl type_char T (take (Z.to_nat i) str)) ∧ terminal_color t' = terminal_color t)); [lia|done| |].
  - intros i t' Hi [Ht Hk]. destruct (lookup_lt_is_Some_2 str (Z.to_nat i)) as [c Hc]; [lia|]. wp_step.
    eapply wp_lift; [apply aread_Some; split; [lia|]; rewrite lookup_app_l by lia; exact Hc|].
    eapply wp_mono; [by apply (putchar_wp t' (foldl type_char T (take (Z.to_nat i) str)))|]. intros [] t2 [H2 K2].
    replace (Z.to_nat (i + 1)) with (S (Z.to_nat i)) by lia. rewrite (take_S_r _ _ c Hc), foldl_app. split; [done|congruence].
  - intros t' Ht. by rewrite Nat2Z.id, take_ge in Ht.
Qed.

Lemma clear_wp t f g : grid_is (terminal_chars t) f → grid_is (terminal_colors t) g → canvas_ok (surface t) → has_surface (surface t) = lit → ink (terminal_color t) →
  wp terminal_clear (λ _ t', shows_in t' (Text [] []) ∧ terminal_color t' = terminal_color t) t.
Proof.
  intros Hc Hk Ho Hl Hink. unfold terminal_clear, on_surface. do 2 wp_step. eapply wp_mono; [apply surface_law|]. intros b d [-> ->].
  replace (set_surface (surface t) t) with t by (by destruct t). wp_step.
  apply (wp_mono _ (λ _ t', (∃ d, t' = set_surface d t ∧ canvas_ok d ∧ has_surface d = lit ∧ (lit = true → ∀ x y fg, 0 ≤ x < 53 → 0 ≤ y < 24 → cell_shows d x y 32 fg)))).
  { apply wp_when; intros Hh.
    - wp_step. eapply wp_mono; [by apply clear_law|]. intros [] d (H1 & H2 & H3). exists d. split_and!; try done. congruence.
    - exists (surface t). split_and!; [by destruct t|done|done|congruence]. }
  intros [] t0 (d & -> & Hod & Hld & Hd). wp_step.
  set (filled := λ (v : Z) (f : Z → Z → Z) (y x y' x' : Z), if (y' <? y) || ((y' =? y) && (x' <? x)) then v else f y' x').
  set (Inv := λ y x (t' : term D), grid_is (terminal_chars t') (filled 32 f y x) ∧ grid_is (terminal_colors t') (filled (terminal_color t) g y x) ∧
    terminal_color t' = terminal_color t ∧ surface t' = d).
  apply (wp_for _ _ _ (λ y, Inv y 0)); [unfold VGA_HEIGHT; lia| | |].
  - split_and!; try done; (eapply grid_ext; [eassumption|]); intros y x Hy Hx; unfold filled;
      destruct (Z.ltb_spec y 0), (Z.ltb_spec x 0); try lia; by rewrite andb_false_r.
  - intros y t1 Hy I1. unfold VGA_HEIGHT in Hy. apply (wp_for _ _ _ (λ x, Inv y x)); [unfold VGA_WIDTH; lia|done| |].
    + intros x t2 Hx (G1 & G2 & G3 & G4). unfold VGA_WIDTH in Hx. wp_step. eapply put_char_wp; [lia|lia|exact G1|]. intros chars' Hc'. do 2 wp_step.
      cbn [terminal_color set_chars]. eapply put_color_wp; [lia|lia|exact G2|]. intros colors' Hk'. rewrite G3 in Hk'.
      split_and!; try done; (eapply grid_ext; [eassumption|]); intros y' x' Hy' Hx'; unfold filled, upd_cell;
        destruct (Z.eqb_spec y' y), (Z.eqb_spec x' x), (Z.ltb_spec y' y), (Z.ltb_spec x' x), (Z.ltb_spec x' (x + 1)); try lia; done.
    + intros t2 (G1 & G2 & G3 & G4). split_and!; try done; (eapply grid_ext; [eassumption|]); intros y' x' Hy' Hx'; unfold filled, VGA_WIDTH;
        destruct (Z.eqb_spec y' y), (Z.ltb_spec y' y), (Z.ltb_spec x' 53), (Z.eqb_spec y' (y + 1)), (Z.ltb_spec y' (y + 1)), (Z.ltb_spec x' 0); try lia; done.
  - intros t1 (G1 & G2 & G3 & G4). do 3 wp_step. split; [|done]. split; [|cbn; by rewrite G3|done|done|cbn; lia]. exists (filled (terminal_color t) g VGA_HEIGHT 0).
    split; [|intros y x Hy Hx; unfold filled, VGA_HEIGHT; by rewrite (proj2 (Z.ltb_lt y 24)) by lia].
    split; cbn [terminal_chars terminal_colors surface set_row set_column].
    + eapply grid_ext; [exact G1|]. intros y x Hy Hx. unfold filled, VGA_HEIGHT. rewrite (proj2 (Z.ltb_lt y 24)) by lia. cbn [orb].
      unfold visible, line_at. cbn. destruct (_ =? _); unfold aread; destruct (0 <=? x); try done; by destruct (0 <=? _).
    + done.
    + by rewrite G4.
    + by rewrite G4.
    + intros Hh y x Hy Hx. rewrite G4.
      replace (visible (Text [] []) y x) with 32; [by apply Hd|]. unfold visible, line_at. cbn.
      destruct (_ =? _); unfold aread; destruct (0 <=? x); try done; by destruct (0 <=? _).
Qed.

Lemma writestring_in t T str rest : shows_in t T → Forall (λ c, c ≠ 0) str →
  ∃ t', terminal_writestring (str ++ 0 :: rest) t = Some (tt, t') ∧ shows_in t' (foldl type_char T str) ∧ terminal_color t' = terminal_color t.
Proof.
  intros Hs Hc. assert (Hk : kstrlen (str ++ 0 :: rest) = Some (Z.of_nat (length str))) by (by apply kstrlen_ok).
  destruct (terminal_write_wp t T str (0 :: rest) Hs) as ([] & t' & E & Hs'). exists t'. split; [|done].
  unfold terminal_writestring, mbind, M_bind, lift. rewrite Hk. exact E.
Qed.
End screen.

(** In whatever colours. *)
Definition shows {D} `{CanvasLaws D} (lit : bool) (t : term D) (T : text) : Prop := shows_in lit (λ _, True) t T.

Section shown.
Context {D : Type} `{CanvasLaws D} (lit : bool).
Lemma writestring_run (t : term D) T str rest : shows lit t T → Forall (λ c, c ≠ 0) str →
  ∃ t', terminal_writestring (str ++ 0 :: rest) t = Some (tt, t') ∧ shows lit t' (foldl type_char T str).
Proof. intros Hs Hc. destruct (writestring_in lit _ t T str rest Hs Hc) as (t' & E & Hs' & _). by exists t'. Qed.
Lemma shows_in_shows (t : term D) ink T : shows_in lit ink t T → shows lit t T.
Proof. intros [(g & Hg & _) _ Hr Hc Hw]. split; try done. by exists g. Qed.
End shown.

(** ** Properties *)

Section properties.
Context {D : Type} `{CanvasLaws D}.

(** The terminal shows the end of an endless text: writing a string to a
    terminal that shows the text [T] leaves it showing [T] with the characters
    typed after it (newlines, backspaces and the break after 53 characters
    included), scrolled so that the last 24 lines are visible; every visible cell
    has been drawn, and the cursor stays on the screen. *)
Theorem terminal_shows_text (t : term D) lit T str rest : shows lit t T → Forall (λ c, c ≠ 0) str →
  ∃ t', terminal_writestring (str ++ 0 :: rest) t = Some (tt, t') ∧ shows lit t' (foldl type_char T str) ∧
    0 ≤ terminal_row t' < 24 ∧ 0 ≤ terminal_column t' < 53.
Proof.
  intros Hs Hc. destruct (writestring_run lit t T str rest Hs Hc) as (t' & E & Hs'). exists t'. split_and!; try done; by eapply shows_range.
Qed.

(** terminal_initialize starts an empty text in light grey, whatever the arrays
    and the surface held before. *)
Theorem terminal_starts_empty (t : term D) f g : grid_is (terminal_chars t) f → grid_is (terminal_colors t) g → canvas_ok (surface t) →
  ∃ t', terminal_initialize t = Some (tt, t') ∧ shows (has_surface (surface t)) t' (Text [] []) ∧ terminal_color t' = 7.
Proof.
  intros Hc Hk Ho.
  destruct (clear_wp (has_surface (surface t)) (λ _, True) (set_color (vga_entry_color 7 0) (set_column 0 (set_row 0 t))) f g Hc Hk Ho eq_refl I) as ([] & t' & E & Hs & Hcol).
  exists t'. split; [exact E|]. split; [done|]. by rewrite Hcol.
Qed.
End properties.

(** ** A concrete surface: the cells drawn last *)

Record cells := Cells { drawn : list (Z * Z * (Z * Z)); present : bool }.
Definition last_drawn (d : cells) (x y : Z) : option (Z * Z) :=
  snd <$> head (filter (λ p, p.1 = (x, y)) (drawn d)).

#[export] Instance cells_canvas : Canvas cells := {|
  graphics_primary_surface_mut := gets present;
  graphics_draw_char x y c fg bg := modify (λ d, Cells ((x, y, (c, fg)) :: drawn d) (present d));
  graphics_clear color := modify (λ d, Cells [] (present d)) |}.

(** A cell shows what was drawn there last, a space when nothing was. *)
#[export, program] Instance cells_laws : CanvasLaws cells := {|
  canvas_ok _ := True; has_surface := present;
  cell_shows d x y c fg := last_drawn d (x * 6) (y * 8) = Some (c, fg) ∨ last_drawn d (x * 6) (y * 8) = None ∧ c = 32 |}.
Next Obligation. intros d. by apply wp_gets. Qed.
Next Obligation.
  intros x y c fg d _ Hp Hx Hy Hfg. apply wp_modify. split_and!; [done|done| |].
  - left. unfold last_drawn. cbn [drawn]. rewrite filter_cons. cbn [fst]. by rewrite decide_True.
  - intros x' y' c' fg' Hx' Hy' Hne. unfold last_drawn. cbn [drawn]. rewrite filter_cons. cbn [fst]. rewrite decide_False; [done|]. intros [=]. lia.
Qed.
Next Obligation. intros d _ Hp. apply wp_modify. split_and!; [done|done|]. intros x y fg _ _. by right. Qed.

Definition demo_grid : list (list Z) := replicate 24 (replicate 53 0).
Definition demo_term : term cells := Term 0 0 0 demo_grid demo_grid (Cells [] true).

Lemma grid_replicate v : grid_is (replicate 24 (replicate 53 v)) (λ _ _, v).
Proof.
  split; [by rewrite length_replicate|]. intros y Hy. exists (replicate 53 v). split; [apply aread_Some; split; [lia|]; apply lookup_replicate_2; lia|].
  split; [by rewrite length_replicate|]. intros x Hx. apply aread_Some. split; [lia|]. apply lookup_replicate_2. lia.
Qed.

Lemma demo_ok : canvas_ok (surface demo_term).
Proof. exact I. Qed.

Lemma terminal_starts_empty_witness : ∃ t', terminal_initialize demo_term = Some (tt, t') ∧ shows true t' (Text [] []).
Proof.
  destruct (terminal_starts_empty demo_term (λ _ _, 0) (λ _ _, 0) (grid_replicate 0) (grid_replicate 0) demo_ok) as (t' & E & Hs & _). exists t'. exact (conj E Hs).
Defined.

Definition blank_term : term cells := Term 0 0 7 (replicate 24 (replicate 53 32)) (replicate 24 (replicate 53 7)) (Cells [] true).

Lemma blank_shows : shows true blank_term (Text [] []).
Proof.
  split; [|done|reflexivity|reflexivity|cbn; lia]. exists (λ _ _, 7). split; [|done].
  assert (Hv : ∀ y x, visible (Text [] []) y x = 32).
  { intros y x. unfold visible, line_at. cbn. destruct (_ =? _); unfold aread; destruct (0 <=? x); try done; by destruct (0 <=? _). }
  split; [eapply grid_ext; [apply grid_replicate|intros; by rewrite Hv]|apply grid_replicate|done|done|]. intros _ y x _ _. right. by rewrite Hv.
Qed.

Lemma terminal_shows_text_witness : ∃ t', terminal_writestring (bytes_of "hello" ++ [0]) blank_term = Some (tt, t') ∧
  shows true t' (Text [] (bytes_of "hello")).
Proof.
  destruct (terminal_shows_text blank_term true (Text [] []) (bytes_of "hello") [] blank_shows) as (t' & E & Hs & _).
  - repeat constructor; discriminate.
  - exists t'. exact (conj E Hs).
Defined.
