(* ===== verification/Graphics.v ===== *)
(** * Drawing on pixel surfaces, kernel/graphics/graphics.c

    A surface is a rectangle of pixels of 8, 16, 24 or 32 bits in the byte memory.
    The operations are translated with their address arithmetic; the theorems say
    which pixels change and to what, and that no other byte of memory does. *)

From Stdlib Require Import ZArith Lia Bool.
From stdpp Require Import base numbers list gmap sets.
From S2P Require Import Prelude Memory.

(** ** Data *)

Definition GRAPHICS_PIXEL_FORMAT_INDEXED8 : Z := 0.
Definition GRAPHICS_PIXEL_FORMAT_RGB565 : Z := 1.
Definition GRAPHICS_PIXEL_FORMAT_RGB888 : Z := 2.
Definition GRAPHICS_PIXEL_FORMAT_XRGB8888 : Z := 3.

Record graphics_surface := Surface {
  pixels : Z; width : Z; height : Z; pitch : Z; bits_per_pixel : Z; format : Z }.

Definition BOOT_GRAPHICS_MAGIC : Z := 0x31465847.

Record boot_graphics_info := BootGraphics {
  magic : Z; framebuffer : Z; bg_pitch : Z; bg_width : Z; bg_height : Z;
  bg_bits_per_pixel : Z; pixel_format : Z; mode : Z }.

(** The static variables of the file, and the memory. *)
Record gfx := Gfx { gmem : mem; primary_surface : graphics_surface; primary_surface_ready : bool }.

Definition set_gmem m g := Gfx m (primary_surface g) (primary_surface_ready g).
Definition set_primary s g := Gfx (gmem g) s (primary_surface_ready g).
Definition set_ready b g := Gfx (gmem g) (primary_surface g) b.

(** [*(uintN_t * ) p] and [*(uintN_t * ) p = v]; a pointer sum wraps at 32 bits. *)
Definition read_mem (n : nat) (a : Z) : M gfx Z := m ← gets gmem; lift (load n m a).
Definition write_mem (n : nat) (a v : Z) : M gfx unit :=
  m ← gets gmem; m' ← lift (store n m a v); modify (set_gmem m').

(** ** Colours *)

Definition palette : list Z :=
  [0x000000; 0x0000AA; 0x00AA00; 0x00AAAA; 0xAA0000; 0xAA00AA; 0xAA5500; 0xAAAAAA;
   0x555555; 0x5555FF; 0x55FF55; 0x55FFFF; 0xFF5555; 0xFF55FF; 0xFFFF55; 0xFFFFFF].

Definition palette_color (color : Z) : Z :=
  if color <? 16 then nth (Z.to_nat color) palette 0 else color.

Definition color_to_rgb565 (color : Z) : Z :=
  let color := palette_color color in
  let r := Z.land (Z.shiftr color 16) 0xFF in
  let g := Z.land (Z.shiftr color 8) 0xFF in
  let b := Z.land color 0xFF in
  u16 (Z.lor (Z.lor (Z.shiftl (Z.shiftr r 3) 11) (Z.shiftl (Z.shiftr g 2) 5)) (Z.shiftr b 3)).

(** ** The primary surface *)

Definition graphics_initialize (boot_graphics : option boot_graphics_info) : M gfx unit :=
  _ ← match boot_graphics with
      | Some b =>
          if (magic b =? BOOT_GRAPHICS_MAGIC) && negb (framebuffer b =? 0) && negb (bg_width b =? 0) &&
             negb (bg_height b =? 0) && negb (bg_pitch b =? 0)
          then modify (set_primary (Surface (framebuffer b) (bg_width b) (bg_height b) (bg_pitch b)
                                      (bg_bits_per_pixel b) (pixel_format b)))
          else modify (set_primary (Surface 0xA0000 320 200 320 8 GRAPHICS_PIXEL_FORMAT_INDEXED8))
      | None => modify (set_primary (Surface 0xA0000 320 200 320 8 GRAPHICS_PIXEL_FORMAT_INDEXED8))
      end;
  modify (set_ready true).

Definition bytes_per_pixel (s : graphics_surface) : Z := (bits_per_pixel s +% 7) / 8.

Definition graphics_surface_is_valid (surface : option graphics_surface) : bool :=
  match surface with
  | None => false
  | Some s =>
      if (pixels s =? 0) || (width s =? 0) || (height s =? 0) then false
      else
        let min_pitch := width s *% bytes_per_pixel s in
        if pitch s <? min_pitch then false
        else (bits_per_pixel s =? 8) || (bits_per_pixel s =? 16) || (bits_per_pixel s =? 24) || (bits_per_pixel s =? 32)
  end.

Definition graphics_primary_available : M gfx bool := gets primary_surface_ready.

Definition graphics_primary_surface : M gfx (option graphics_surface) :=
  gets (λ g, if primary_surface_ready g then Some (primary_surface g) else None).

Definition graphics_primary_surface_mut : M gfx (option graphics_surface) :=
  gets (λ g, if primary_surface_ready g then Some (primary_surface g) else None).

Definition graphics_set_primary_surface (surface : option graphics_surface) : M gfx unit :=
  match surface with
  | Some s =>
      if negb (graphics_surface_is_valid surface) then modify (set_ready false)
      else _ ← modify (set_primary s); modify (set_ready true)
  | None => modify (set_ready false)
  end.

(** ** Pixels *)

(** The body of a function that returns [dflt] unless its surface is valid. *)
Definition if_valid {A} (surface : option graphics_surface) (dflt : A) (k : graphics_surface → M gfx A) : M gfx A :=
  match surface with
  | Some s => if graphics_surface_is_valid surface then k s else mret dflt
  | None => mret dflt
  end.

(** [surface->pixels + y * surface->pitch + x * bytes_per_pixel] *)
Definition pixel_address (s : graphics_surface) (x y : Z) : Z :=
  pixels s +% (y *% pitch s) +% (x *% bytes_per_pixel s).

(** The three bytes of a 24-bit pixel. *)
Definition write_rgb888 (p color : Z) : M gfx unit :=
  _ ← write_mem 1 p (Z.land color 0xFF);
  _ ← write_mem 1 (p +% 1) (Z.land (Z.shiftr color 8) 0xFF);
  write_mem 1 (p +% 2) (Z.land (Z.shiftr color 16) 0xFF).

Definition graphics_put_pixel (surface : option graphics_surface) (x y color : Z) : M gfx unit :=
  if_valid surface tt (λ s,
    if (width s <=? x) || (height s <=? y) then mret tt
    else
      let pixel := pixel_address s x y in
      if bits_per_pixel s =? 32 then write_mem 4 pixel (palette_color color)
      else if bits_per_pixel s =? 24 then write_rgb888 pixel (palette_color color)
      else if bits_per_pixel s =? 16 then write_mem 2 pixel (color_to_rgb565 color)
      else write_mem 1 pixel (u8 color)).

Definition graphics_get_pixel (surface : option graphics_surface) (x y : Z) : M gfx Z :=
  if_valid surface 0 (λ s,
    if (width s <=? x) || (height s <=? y) then mret 0
    else
      let pixel := pixel_address s x y in
      if bits_per_pixel s =? 32 then read_mem 4 pixel
      else if bits_per_pixel s =? 24 then
        b0 ← read_mem 1 pixel; b1 ← read_mem 1 (pixel +% 1); b2 ← read_mem 1 (pixel +% 2);
        mret (Z.lor (Z.lor b0 (Z.shiftl b1 8)) (Z.shiftl b2 16))
      else if bits_per_pixel s =? 16 then read_mem 2 pixel
      else read_mem 1 pixel).

(** ** Rectangles *)

Definition graphics_fill_rect (surface : option graphics_surface) (x y w h color : Z) : M gfx unit :=
  if_valid surface tt (λ s,
    if (width s <=? x) || (height s <=? y) then mret tt
    else
      let w := if width s <? x +% w then width s -% x else w in
      let h := if height s <? y +% h then height s -% y else h in
      let bpp := bytes_per_pixel s in
      let mapped := palette_color color in
      for_ 0 h (λ row,
        let pixel := pixels s +% ((y +% row) *% pitch s) +% (x *% bpp) in
        if bits_per_pixel s =? 32 then for_ 0 w (λ col, write_mem 4 (pixel +% col * 4) mapped)
        else if bits_per_pixel s =? 16 then for_ 0 w (λ col, write_mem 2 (pixel +% col * 2) (color_to_rgb565 color))
        else if bits_per_pixel s =? 8 then for_ 0 w (λ col, write_mem 1 (pixel +% col) (u8 color))
        else for_ 0 w (λ col,
          _ ← write_mem 1 (pixel +% (col *% 3)) (Z.land mapped 0xFF);
          _ ← write_mem 1 (pixel +% (col *% 3 +% 1)) (Z.land (Z.shiftr mapped 8) 0xFF);
          write_mem 1 (pixel +% (col *% 3 +% 2)) (Z.land (Z.shiftr mapped 16) 0xFF)))).

Definition graphics_clear (surface : option graphics_surface) (color : Z) : M gfx unit :=
  if_valid surface tt (λ s, graphics_fill_rect surface 0 0 (width s) (height s) color).

Definition graphics_draw_rect (surface : option graphics_surface) (x y w h color : Z) : M gfx unit :=
  if (w =? 0) || (h =? 0) then mret tt
  else
    _ ← graphics_fill_rect surface x y w 1 color;
    _ ← graphics_fill_rect surface x (y +% h -% 1) w 1 color;
    _ ← graphics_fill_rect surface x y 1 h color;
    graphics_fill_rect surface (x +% w -% 1) y 1 h color.

(** ** Copies *)

(** Whole words while four bytes are left, then the remaining bytes. The first
    loop makes at most [count / 4] turns. *)
Definition graphics_copy_bytes (dst src count : Z) : M gfx unit :=
  i ← iterate (S (Z.to_nat (count / 4))) (λ i,
        if i +% 4 <=? count then
          v ← read_mem 4 (src +% i); _ ← write_mem 4 (dst +% i) v; mret (inl (i +% 4))
        else mret (inr i)) 0;
  for_ i count (λ i, v ← read_mem 1 (src +% i); write_mem 1 (dst +% i) v).

Definition graphics_blit (dst src : option graphics_surface) : M gfx unit :=
  if_valid dst tt (λ d, if_valid src tt (λ s,
    let w := if width d <? width s then width d else width s in
    let h := if height d <? height s then height d else height s in
    let bpp := bytes_per_pixel d in
    if (bits_per_pixel d =? bits_per_pixel s) && (format d =? format s) then
      let row_bytes := w *% bpp in
      for_ 0 h (λ y,
        graphics_copy_bytes (pixels d +% (y *% pitch d)) (pixels s +% (y *% pitch s)) row_bytes)
    else
      for_ 0 h (λ y, for_ 0 w (λ x, c ← graphics_get_pixel src x y; graphics_put_pixel dst x y c)))).

Definition graphics_blit_rect (dst src : option graphics_surface) (x y w h : Z) : M gfx unit :=
  if_valid dst tt (λ d, if_valid src tt (λ s,
    if (width d <=? x) || (height d <=? y) || (width s <=? x) || (height s <=? y) then mret tt
    else
      let max_width := if width d <? width s then width d else width s in
      let max_height := if height d <? height s then height d else height s in
      let w := if max_width <? x +% w then max_width -% x else w in
      let h := if max_height <? y +% h then max_height -% y else h in
      let bpp := bytes_per_pixel d in
      if (bits_per_pixel d =? bits_per_pixel s) && (format d =? format s) then
        let row_bytes := w *% bpp in
        for_ 0 h (λ row,
          graphics_copy_bytes (pixels d +% ((y +% row) *% pitch d) +% (x *% bpp))
                              (pixels s +% ((y +% row) *% pitch s) +% (x *% bpp)) row_bytes)
      else
        for_ 0 h (λ row, for_ 0 w (λ col,
          c ← graphics_get_pixel src (x +% col) (y +% row); graphics_put_pixel dst (x +% col) (y +% row) c)))).

(** ** Characters *)

Definition digits : list (list Z) :=
  [
   [0x0E; 0x11; 0x13; 0x15; 0x19; 0x11; 0x0E];
   [0x04; 0x0C; 0x04; 0x04; 0x04; 0x04; 0x0E];
   [0x0E; 0x11; 0x01; 0x02; 0x04; 0x08; 0x1F];
   [0x1E; 0x01; 0x01; 0x0E; 0x01; 0x01; 0x1E];
   [0x02; 0x06; 0x0A; 0x12; 0x1F; 0x02; 0x02];
   [0x1F; 0x10; 0x10; 0x1E; 0x01; 0x01; 0x1E];
   [0x0E; 0x10; 0x10; 0x1E; 0x11; 0x11; 0x0E];
   [0x1F; 0x01; 0x02; 0x04; 0x08; 0x08; 0x08];
   [0x0E; 0x11; 0x11; 0x0E; 0x11; 0x11; 0x0E];
   [0x0E; 0x11; 0x11; 0x0F; 0x01; 0x01; 0x0E]].

Definition letters : list (list Z) :=
  [
   [0x0E; 0x11; 0x11; 0x1F; 0x11; 0x11; 0x11];
   [0x1E; 0x11; 0x11; 0x1E; 0x11; 0x11; 0x1E];
   [0x0E; 0x11; 0x10; 0x10; 0x10; 0x11; 0x0E];
   [0x1E; 0x11; 0x11; 0x11; 0x11; 0x11; 0x1E];
   [0x1F; 0x10; 0x10; 0x1E; 0x10; 0x10; 0x1F];
   [0x1F; 0x10; 0x10; 0x1E; 0x10; 0x10; 0x10];
   [0x0E; 0x11; 0x10; 0x17; 0x11; 0x11; 0x0F];
   [0x11; 0x11; 0x11; 0x1F; 0x11; 0x11; 0x11];
   [0x0E; 0x04; 0x04; 0x04; 0x04; 0x04; 0x0E];
   [0x07; 0x02; 0x02; 0x02; 0x12; 0x12; 0x0C];
   [0x11; 0x12; 0x14; 0x18; 0x14; 0x12; 0x11];
   [0x10; 0x10; 0x10; 0x10; 0x10; 0x10; 0x1F];
   [0x11; 0x1B; 0x15; 0x15; 0x11; 0x11; 0x11];
   [0x11; 0x19; 0x15; 0x13; 0x11; 0x11; 0x11];
   [0x0E; 0x11; 0x11; 0x11; 0x11; 0x11; 0x0E];
   [0x1E; 0x11; 0x11; 0x1E; 0x10; 0x10; 0x10];
   [0x0E; 0x11; 0x11; 0x11; 0x15; 0x12; 0x0D];
   [0x1E; 0x11; 0x11; 0x1E; 0x14; 0x12; 0x11];
   [0x0F; 0x10; 0x10; 0x0E; 0x01; 0x01; 0x1E];
   [0x1F; 0x04; 0x04; 0x04; 0x04; 0x04; 0x04];
   [0x11; 0x11; 0x11; 0x11; 0x11; 0x11; 0x0E];
   [0x11; 0x11; 0x11; 0x11; 0x11; 0x0A; 0x04];
   [0x11; 0x11; 0x11; 0x15; 0x15; 0x15; 0x0A];
   [0x11; 0x11; 0x0A; 0x04; 0x0A; 0x11; 0x11];
   [0x11; 0x11; 0x0A; 0x04; 0x04; 0x04; 0x04];
   [0x1F; 0x01; 0x02; 0x04; 0x08; 0x10; 0x1F]].

(** [table[i][row]] *)
Definition glyph_bits (table : list (list Z)) (i row : Z) : Z := nth (Z.to_nat row) (nth (Z.to_nat i) table []) 0.

Definition glyph_row (c row : Z) : Z :=
  let c := if (97 <=? c) && (c <=? 122) then c - 97 + 65 else c in
  if 7 <=? row then 0
  else if (48 <=? c) && (c <=? 57) then glyph_bits digits (c - 48) row
  else if (65 <=? c) && (c <=? 90) then glyph_bits letters (c - 65) row
  else if c =? 32 (* space *) then 0x00
  else if c =? 46 (* . *) then if row =? 6 then 0x04 else 0x00
  else if c =? 44 (* , *) then if row =? 5 then 0x04 else if row =? 6 then 0x08 else 0x00
  else if c =? 58 (* : *) then if (row =? 2) || (row =? 5) then 0x04 else 0x00
  else if c =? 59 (* ; *) then if row =? 2 then 0x04 else if row =? 5 then 0x04 else if row =? 6 then 0x08 else 0x00
  else if c =? 45 (* - *) then if row =? 3 then 0x1F else 0x00
  else if c =? 95 (* _ *) then if row =? 6 then 0x1F else 0x00
  else if c =? 47 (* / *) then u8 (Z.shiftl 1 (4 - (if 4 <? row then 4 else row)))
  else if c =? 92 (* backslash *) then u8 (Z.shiftl 1 (if 4 <? row then 4 else row))
  else if c =? 62 (* > *) then
    if row =? 1 then 0x08 else if row =? 2 then 0x04 else if row =? 3 then 0x02
    else if row =? 4 then 0x04 else if row =? 5 then 0x08 else 0x00
  else if c =? 60 (* < *) then
    if row =? 1 then 0x02 else if row =? 2 then 0x04 else if row =? 3 then 0x08
    else if row =? 4 then 0x04 else if row =? 5 then 0x02 else 0x00
  else if c =? 91 (* left bracket *) then if (row =? 0) || (row =? 6) then 0x0E else 0x08
  else if c =? 93 (* right bracket *) then if (row =? 0) || (row =? 6) then 0x0E else 0x02
  else if c =? 40 (* left parenthesis *) then if row =? 0 then 0x02 else if row =? 6 then 0x02 else 0x04
  else if c =? 41 (* right parenthesis *) then if row =? 0 then 0x08 else if row =? 6 then 0x08 else 0x04
  else if c =? 43 (* + *) then if row =? 3 then 0x0E else if (row =? 2) || (row =? 4) then 0x04 else 0x00
  else if c =? 61 (* = *) then if (row =? 2) || (row =? 4) then 0x1F else 0x00
  else if c =? 42 (* asterisk *) then
    if (row =? 1) || (row =? 5) then 0x15 else if (row =? 2) || (row =? 4) then 0x0E
    else if row =? 3 then 0x1F else 0x00
  else if c =? 33 (* ! *) then if row <? 5 then 0x04 else if row =? 6 then 0x04 else 0x00
  else if c =? 63 (* ? *) then
    if row =? 0 then 0x0E else if row =? 1 then 0x11 else if row =? 2 then 0x01
    else if row =? 3 then 0x02 else if row =? 5 then 0x04 else 0x00
  else if c =? 39 (* single quote *) then if row <? 2 then 0x04 else 0x00
  else if c =? 34 (* double quote *) then if row <? 2 then 0x0A else 0x00
  else if (row =? 0) || (row =? 6) then 0x1F else 0x11.

Definition graphics_draw_char (surface : option graphics_surface) (x y c fg bg : Z) : M gfx unit :=
  for_ 0 8 (λ row,
    let bits := glyph_row c row in
    for_ 0 6 (λ col,
      let color := if (col <? 5) && (row <? 7) && negb (Z.land (Z.shiftr bits (4 - col)) 1 =? 0) then fg else bg in
      graphics_put_pixel surface (x +% col) (y +% row) color)).

(** The loop runs to the end of the string, at most the length of its array. *)
Definition graphics_draw_string (surface : option graphics_surface) (x y : Z) (text : list Z) (fg bg : Z) : M gfx unit :=
  iterate (S (length text)) (λ '(i, cursor),
    c ← lift (aread text i);
    if c =? 0 then mret (inr tt)
    else _ ← graphics_draw_char surface cursor y c fg bg; mret (inl (i +% 1, cursor +% 6))) (0, x).

(** ** The self test *)

(** [test_pixels] is the address of the static array. *)
Definition graphics_self_test (test_pixels : Z) : M gfx bool :=
  let surface := Some (Surface test_pixels 64 48 (64 * 4) 32 GRAPHICS_PIXEL_FORMAT_XRGB8888) in
  _ ← graphics_clear surface 0x00102030;
  _ ← graphics_fill_rect surface 4 5 20 10 0x00AA3300;
  _ ← graphics_draw_rect surface 2 3 30 20 0x0000CC66;
  a ← read_mem 4 (test_pixels +% 0 * 4);
  if negb (a =? 0x00102030) then mret false else
  b ← read_mem 4 (test_pixels +% (5 * 64 + 4) * 4);
  if negb (b =? 0x00AA3300) then mret false else
  c ← read_mem 4 (test_pixels +% (3 * 64 + 2) * 4);
  if negb (c =? 0x0000CC66) then mret false else
  d ← read_mem 4 (test_pixels +% (22 * 64 + 31) * 4);
  mret (d =? 0x0000CC66).
