(* ===== verification/GraphicsPaint.v ===== *)
(** * Painting: which pixels an operation changes

    The meaning of the operations of graphics.c as partial maps from pixels to
    values. An operation paints [f] when the pixel (x, y) becomes [v] where
    [f x y] is [Some v] and keeps its value elsewhere, and when no byte outside
    the pixels of the surface changes. *)

From Stdlib Require Import ZArith Lia Bool.
From stdpp Require Import base numbers list gmap sets.
From S2P Require Import Prelude Memory Graphics.

(** ** Surfaces *)

(** A surface whose rows lie one after the other below the end of memory. *)
Record surface_ok (s : graphics_surface) : Prop := {
  so_bpp : bits_per_pixel s = 8 ∨ bits_per_pixel s = 16 ∨ bits_per_pixel s = 24 ∨ bits_per_pixel s = 32;
  so_pixels : 0 < pixels s;
  so_width : 0 < width s;
  so_height : 0 < height s;
  so_pitch : width s * bytes_per_pixel s ≤ pitch s;
  so_end : pixels s + height s * pitch s ≤ 2 ^ 32 }.

Definition surface_mapped (s : graphics_surface) (m : mem) : Prop := mapped m (pixels s) (height s * pitch s).

Definition on (s : graphics_surface) (x y : Z) : Prop := 0 ≤ x < width s ∧ 0 ≤ y < height s.
Definition addr (s : graphics_surface) (x y : Z) : Z := pixels s + y * pitch s + x * bytes_per_pixel s.
Definition pixel_size (s : graphics_surface) : nat := Z.to_nat (bytes_per_pixel s).
Definition pixel (s : graphics_surface) (m : mem) (x y : Z) : option Z := load (pixel_size s) m (addr s x y).

(** What a colour is stored as. *)
Definition pixel_value (s : graphics_surface) (color : Z) : Z :=
  (if (bits_per_pixel s =? 32) || (bits_per_pixel s =? 24) then palette_color color
   else if bits_per_pixel s =? 16 then color_to_rgb565 color else u8 color) mod 256 ^ bytes_per_pixel s.

Record paints (s : graphics_surface) (m m' : mem) (f : Z → Z → option Z) : Prop := {
  pt_pixel : ∀ x y, on s x y → pixel s m' x y = match f x y with Some v => Some v | None => pixel s m x y end;
  pt_outside : ∀ a, (∀ x y, on s x y → ¬ (addr s x y ≤ a < addr s x y + bytes_per_pixel s)) → m' !! a = m !! a;
  pt_mapped : ∀ a, is_Some (m' !! a) ↔ is_Some (m !! a);
  pt_bytes : bytes_ok m → bytes_ok m' }.

Definition nothing : Z → Z → option Z := λ _ _, None.
Definition dot (x y v : Z) : Z → Z → option Z := λ x' y', if (x' =? x) && (y' =? y) then Some v else None.
(** [h] painted over [f]. *)
Definition over (h f : Z → Z → option Z) : Z → Z → option Z :=
  λ x y, match h x y with Some v => Some v | None => f x y end.

Lemma paints_nothing s m : paints s m m nothing.
Proof. by split. Qed.

Lemma paints_over s m m1 m2 f h : paints s m m1 f → paints s m1 m2 h → paints s m m2 (over h f).
Proof.
  intros [P1 O1 M1 B1] [P2 O2 M2 B2]. split.
  - intros x y Hon. rewrite P2, P1 by done. unfold over. by destruct (h x y).
  - intros a Ha. by rewrite O2, O1.
  - intros a. by rewrite M2, M1.
  - auto.
Qed.

Lemma paints_ext s m m' f f' : paints s m m' f → (∀ x y, on s x y → f x y = f' x y) → paints s m m' f'.
Proof. intros [P O M B] E. split; [|done|done|done]. intros x y Hon. by rewrite <- E, P. Qed.

Lemma paints_surface_mapped s s' m m' f : paints s m m' f → surface_mapped s' m → surface_mapped s' m'.
Proof. intros [_ _ M _] Hm a Ha. by apply M, Hm. Qed.

(** ** Addresses *)

Section geometry.
Context (s : graphics_surface).
Hypothesis Hok : surface_ok s.

Lemma bpp_cases : bits_per_pixel s = 8 * bytes_per_pixel s ∧ (bytes_per_pixel s = 1 ∨ bytes_per_pixel s = 2 ∨ bytes_per_pixel s = 3 ∨ bytes_per_pixel s = 4).
Proof. destruct Hok as [H _ _ _ _ _]. unfold bytes_per_pixel. destruct H as [->|[->|[->| ->]]]; cbv; split; auto; lia. Qed.

Lemma on_row x y : on s x y → 0 ≤ y * pitch s ∧ y * pitch s + pitch s ≤ height s * pitch s ∧
  0 ≤ x * bytes_per_pixel s ∧ x * bytes_per_pixel s + bytes_per_pixel s ≤ pitch s.
Proof.
  intros [Hx Hy]. destruct bpp_cases as [_ Hb]. destruct Hok as [_ _ _ _ Hp _].
  assert (0 < pitch s) by nia. split_and!; nia.
Qed.

Lemma addr_bounds x y : on s x y → pixels s ≤ addr s x y ∧ addr s x y + bytes_per_pixel s ≤ pixels s + height s * pitch s.
Proof. intros Hon. destruct (on_row x y Hon) as (? & ? & ? & ?). unfold addr. lia. Qed.

Lemma pixel_address_eq x y : on s x y → pixel_address s x y = addr s x y.
Proof.
  intros Hon. destruct (on_row x y Hon) as (? & ? & ? & ?). destruct bpp_cases as [_ Hb]. pose proof (so_end _ Hok). pose proof (so_pixels _ Hok).
  unfold pixel_address, addr. u32_simp. done.
Qed.

(** Different pixels do not overlap. *)
Lemma addr_disjoint x y x' y' : on s x y → on s x' y' → x' ≠ x ∨ y' ≠ y →
  addr s x' y' + bytes_per_pixel s ≤ addr s x y ∨ addr s x y + bytes_per_pixel s ≤ addr s x' y'.
Proof.
  intros H1 H2 Hne. destruct (on_row x y H1) as (A1 & A2 & A3 & A4). destruct (on_row x' y' H2) as (B1 & B2 & B3 & B4).
  destruct bpp_cases as [_ Hb]. unfold addr. destruct (Z.lt_trichotomy y y') as [Hy|[->|Hy]].
  - right. assert (y * pitch s + pitch s ≤ y' * pitch s) by nia. lia.
  - assert (x * bytes_per_pixel s + bytes_per_pixel s ≤ x' * bytes_per_pixel s ∨ x' * bytes_per_pixel s + bytes_per_pixel s ≤ x * bytes_per_pixel s) by nia. lia.
  - left. assert (y' * pitch s + pitch s ≤ y * pitch s) by nia. lia.
Qed.

Lemma surface_valid : graphics_surface_is_valid (Some s) = true.
Proof.
  destruct bpp_cases as [Hb8 Hb]. destruct Hok as [Hbpp Hp Hw Hh Hpt He]. cbn [graphics_surface_is_valid].
  rewrite (proj2 (Z.eqb_neq (pixels s) 0)), (proj2 (Z.eqb_neq (width s) 0)), (proj2 (Z.eqb_neq (height s) 0)) by lia. cbn [orb].
  rewrite u32_small by (unfold is_u32; nia). rewrite (proj2 (Z.ltb_ge (pitch s) _)) by done.
  destruct Hbpp as [->|[->|[->| ->]]]; done.
Qed.

Lemma pixel_size_eq : Z.of_nat (pixel_size s) = bytes_per_pixel s.
Proof. destruct bpp_cases as [_ Hb]. unfold pixel_size. lia. Qed.

(** One store of a pixel paints a dot. *)
Lemma store_paints m m' x y v : on s x y → store (pixel_size s) m (addr s x y) v = Some m' →
  paints s m m' (dot x y (v mod 256 ^ bytes_per_pixel s)).
Proof.
  intros Hon E. split.
  - intros x' y' Hon'. unfold dot, pixel. destruct (Z.eqb_spec x' x) as [->|Hx], (Z.eqb_spec y' y) as [->|Hy]; cbn [andb];
      [by rewrite <- pixel_size_eq, (load_store_eq _ _ _ _ _ E)|..];
      apply (load_store_ne _ _ _ _ _ _ _ E); rewrite !pixel_size_eq; apply addr_disjoint; auto.
  - intros a Ha. eapply ch_same; [by eapply store_changes|]. rewrite pixel_size_eq. by apply Ha.
  - apply (store_changes _ _ _ _ _ E).
  - intros Hb. by eapply store_bytes_ok.
Qed.

Lemma pixel_mapped m x y : surface_mapped s m → on s x y → mapped m (addr s x y) (Z.of_nat (pixel_size s)).
Proof.
  intros Hm Hon. rewrite pixel_size_eq. destruct (addr_bounds x y Hon). eapply mapped_sub; [exact Hm|lia|lia].
Qed.
End geometry.

(** ** Operations that paint *)

(** The state after painting [f] on the surface. *)
Definition painted (s : graphics_surface) (g g' : gfx) (f : Z → Z → option Z) : Prop :=
  g' = set_gmem (gmem g') g ∧ paints s (gmem g) (gmem g') f.

Lemma painted_nothing s g : painted s g g nothing.
Proof. split; [by destruct g|apply paints_nothing]. Qed.

Lemma painted_over s g g1 g2 f h : painted s g g1 f → painted s g1 g2 h → painted s g g2 (over h f).
Proof. intros [E1 P1] [E2 P2]. split; [rewrite E2, E1; by destruct g|by eapply paints_over]. Qed.

Lemma painted_ext s g g' f f' : painted s g g' f → (∀ x y, on s x y → f x y = f' x y) → painted s g g' f'.
Proof. intros [E P] Hf. split; [done|by eapply paints_ext]. Qed.

Lemma painted_mapped s s' g g' f : painted s g g' f → surface_mapped s' (gmem g) → surface_mapped s' (gmem g').
Proof. intros [_ P] Hm. by eapply paints_surface_mapped. Qed.

Lemma painted_bytes s g g' f : painted s g g' f → bytes_ok (gmem g) → bytes_ok (gmem g').
Proof. intros [_ P]. apply P. Qed.

(** A loop whose iteration [i] paints [step i]; [f i] is painted after [i] of them. *)
Lemma wp_for_paint s lo hi (body : Z → M gfx unit) (f step : Z → Z → Z → option Z) g (Q : unit → gfx → Prop) :
  lo ≤ hi → (∀ x y, on s x y → f lo x y = None) →
  (∀ i g1, lo ≤ i < hi → painted s g g1 (f i) → wp (body i) (λ _ g2, painted s g1 g2 (step i)) g1) →
  (∀ i x y, lo ≤ i < hi → on s x y → over (step i) (f i) x y = f (i + 1) x y) →
  (∀ g', painted s g g' (f hi) → Q tt g') → wp (for_ lo hi body) Q g.
Proof.
  intros Hle H0 Hb Hf HQ. apply (wp_for _ _ _ (λ i g', painted s g g' (f i))); [done| | |done].
  - eapply painted_ext; [apply painted_nothing|]. intros x y Hon. by rewrite H0.
  - intros i g1 Hi P1. eapply wp_mono; [by apply Hb|]. intros [] g2 P2.
    eapply painted_ext; [by eapply painted_over|]. intros x y Hon. by apply Hf.
Qed.

Section writes.
Context (s : graphics_surface).
Hypothesis Hok : surface_ok s.

Lemma write_mem_wp n a v g (Q : unit → gfx → Prop) : mapped (gmem g) a (Z.of_nat n) →
  (∀ m', store n (gmem g) a v = Some m' → Q tt (set_gmem m' g)) → wp (write_mem n a v) Q g.
Proof.
  intros Hm HQ. unfold write_mem. do 2 wp_step. destruct (store_is_Some n (gmem g) a v Hm) as [m' E].
  wp_step. eapply wp_lift; [exact E|]. wp_step. by apply HQ.
Qed.

Lemma read_mem_wp n a v g (Q : Z → gfx → Prop) : load n (gmem g) a = Some v → Q v g → wp (read_mem n a) Q g.
Proof. intros E HQ. unfold read_mem. do 2 wp_step. by eapply wp_lift. Qed.

(** A store of one pixel at its address. *)
Lemma write_pixel_wp n x y v g : surface_mapped s (gmem g) → on s x y → n = pixel_size s →
  wp (write_mem n (addr s x y) v) (λ _ g', painted s g g' (dot x y (v mod 256 ^ bytes_per_pixel s))) g.
Proof.
  intros Hm Hon ->. apply write_mem_wp; [by apply pixel_mapped|]. intros m' E. split; [done|]. by apply store_paints.
Qed.

(** Three bytes stored one after the other. *)
Lemma write_bytes3_wp a v g (Q : unit → gfx → Prop) : mapped (gmem g) a 3 →
  (∀ m', store 3 (gmem g) a v = Some m' → Q tt (set_gmem m' g)) →
  wp (_ ← write_mem 1 a (Z.land v 0xFF); _ ← write_mem 1 (a + 1) (Z.land (Z.shiftr v 8) 0xFF);
      write_mem 1 (a + 2) (Z.land (Z.shiftr v 16) 0xFF)) Q g.
Proof.
  intros Hm HQ. assert (Hb : ∀ w m b, store 1 m b (Z.land w 0xFF) = store 1 m b w).
  { intros w m b. change 0xFF with (Z.ones 8). rewrite Z.land_ones by lia. exact (store_mod 1 m b w). }
  wp_step. apply write_mem_wp; [eapply mapped_sub; [exact Hm|lia|lia]|]. intros m1 E1. rewrite Hb in E1.
  wp_step. apply write_mem_wp; cbn [gmem set_gmem].
  { eapply changes_mapped; [by eapply store_changes|]. eapply mapped_sub; [exact Hm|lia|lia]. }
  intros m2 E2. rewrite Hb in E2. apply write_mem_wp; cbn [gmem set_gmem].
  { eapply changes_mapped; [by eapply store_changes|]. eapply changes_mapped; [by eapply store_changes|]. eapply mapped_sub; [exact Hm|lia|lia]. }
  intros m3 E3. rewrite Hb in E3. destruct g as [m p r]. apply HQ. cbn [gmem set_gmem] in *.
  rewrite store_snoc. rewrite (store_snoc 1 m). rewrite E1. cbn [mbind option_bind].
  change (Z.of_nat 1) with 1. change (Z.of_nat 2) with 2. rewrite Z.shiftr_div_pow2 in E2, E3 by lia.
  change (256 ^ 1) with (2 ^ 8). change (256 ^ 2) with (2 ^ 16). by rewrite E2.
Qed.

Lemma write_pixel3_wp x y v g : surface_mapped s (gmem g) → on s x y → bits_per_pixel s = 24 →
  wp (_ ← write_mem 1 (addr s x y) (Z.land v 0xFF); _ ← write_mem 1 (addr s x y + 1) (Z.land (Z.shiftr v 8) 0xFF);
      write_mem 1 (addr s x y + 2) (Z.land (Z.shiftr v 16) 0xFF))
    (λ _ g', painted s g g' (dot x y (v mod 256 ^ bytes_per_pixel s))) g.
Proof.
  intros Hm Hon Hb. assert (E3 : bytes_per_pixel s = 3) by (unfold bytes_per_pixel; by rewrite Hb).
  assert (En : pixel_size s = 3%nat) by (unfold pixel_size; by rewrite E3).
  apply write_bytes3_wp; [pose proof (pixel_mapped s Hok _ x y Hm Hon) as H; by rewrite En in H|].
  intros m' E. split; [done|]. rewrite <- En in E. by apply store_paints.
Qed.
End writes.

(** ** Pixels and rectangles *)

Definition rect (x y w h v : Z) : Z → Z → option Z :=
  λ x' y', if (x <=? x') && (x' <? x + w) && (y <=? y') && (y' <? y + h) then Some v else None.

(** Equations between painted shapes are case distinctions on coordinates. *)
Ltac shapes :=
  unfold over, rect, dot, nothing in *;
  repeat match goal with
         | |- context [?a <=? ?b] => destruct (Z.leb_spec a b); cbn [andb]
         | |- context [?a <? ?b] => destruct (Z.ltb_spec a b); cbn [andb]
         | |- context [?a =? ?b] => destruct (Z.eqb_spec a b); cbn [andb]
         end; try reflexivity; try lia.

Section operations.
Context (s : graphics_surface).
Hypothesis Hok : surface_ok s.

Lemma bpp_split : (bits_per_pixel s = 32 ∧ pixel_size s = 4%nat ∧ bytes_per_pixel s = 4) ∨ (bits_per_pixel s = 24 ∧ pixel_size s = 3%nat ∧ bytes_per_pixel s = 3) ∨
  (bits_per_pixel s = 16 ∧ pixel_size s = 2%nat ∧ bytes_per_pixel s = 2) ∨ (bits_per_pixel s = 8 ∧ pixel_size s = 1%nat ∧ bytes_per_pixel s = 1).
Proof. destruct (bpp_cases s Hok) as [-> Hb]. unfold pixel_size. destruct Hb as [->|[->|[->| ->]]]; auto 10. Qed.

Lemma if_valid_wp {A} (dflt : A) k g (Q : A → gfx → Prop) : wp (k s) Q g → wp (if_valid (Some s) dflt k) Q g.
Proof. intros Hk. cbn [if_valid]. by rewrite (surface_valid s Hok). Qed.

Lemma off_surface x y : (width s <=? x) || (height s <=? y) = true → ¬ on s x y.
Proof. intros E [Hx Hy]. bool_to_prop. destruct E as [E|E]; apply Z.leb_le in E; lia. Qed.

Lemma addr_small x y k : on s x y → 0 ≤ k < bytes_per_pixel s → addr s x y +% k = addr s x y + k.
Proof.
  intros Hon Hk. destruct (addr_bounds s Hok x y Hon). pose proof (so_end s Hok). pose proof (so_pixels s Hok).
  apply u32_small. unfold is_u32. lia.
Qed.

Lemma write_value_wp x y color g : surface_mapped s (gmem g) → on s x y →
  wp (let pixel := pixel_address s x y in
      if bits_per_pixel s =? 32 then write_mem 4 pixel (palette_color color)
      else if bits_per_pixel s =? 24 then write_rgb888 pixel (palette_color color)
      else if bits_per_pixel s =? 16 then write_mem 2 pixel (color_to_rgb565 color)
      else write_mem 1 pixel (u8 color)) (λ _ g', painted s g g' (dot x y (pixel_value s color))) g.
Proof.
  intros Hm Hon. rewrite (pixel_address_eq s Hok x y Hon). cbv zeta. unfold pixel_value, write_rgb888.
  destruct bpp_split as [(-> & En & E)|[(Eb & En & E)|[(-> & En & E)|(-> & En & E)]]]; cbn [Z.eqb Pos.eqb orb].
  - by apply write_pixel_wp.
  - rewrite Eb. cbn [Z.eqb Pos.eqb orb]. rewrite !addr_small by (auto || lia). by apply write_pixel3_wp.
  - by apply write_pixel_wp.
  - by apply write_pixel_wp.
Qed.

Lemma put_pixel_wp x y color g : surface_mapped s (gmem g) → 0 ≤ x → 0 ≤ y →
  wp (graphics_put_pixel (Some s) x y color) (λ _ g', painted s g g' (dot x y (pixel_value s color))) g.
Proof.
  intros Hm Hx Hy. unfold graphics_put_pixel. apply if_valid_wp. destruct (_ || _) eqn:E.
  - wp_step. eapply painted_ext; [apply painted_nothing|]. intros x' y' Hon. apply off_surface in E. unfold dot, nothing.
    destruct (Z.eqb_spec x' x) as [->|], (Z.eqb_spec y' y) as [->|]; done.
  - apply write_value_wp; [done|]. bool_to_prop. split; lia.
Qed.

Lemma fill_row_wp x y w color g : surface_mapped s (gmem g) → 0 ≤ x → 0 ≤ w → x + w ≤ width s → x < width s → 0 ≤ y < height s →
  wp (let pixel := pixels s +% (y *% pitch s) +% (x *% bytes_per_pixel s) in
      let mapped := palette_color color in
      if bits_per_pixel s =? 32 then for_ 0 w (λ col, write_mem 4 (pixel +% col * 4) mapped)
      else if bits_per_pixel s =? 16 then for_ 0 w (λ col, write_mem 2 (pixel +% col * 2) (color_to_rgb565 color))
      else if bits_per_pixel s =? 8 then for_ 0 w (λ col, write_mem 1 (pixel +% col) (u8 color))
      else for_ 0 w (λ col,
        _ ← write_mem 1 (pixel +% (col *% 3)) (Z.land mapped 0xFF);
        _ ← write_mem 1 (pixel +% (col *% 3 +% 1)) (Z.land (Z.shiftr mapped 8) 0xFF);
        write_mem 1 (pixel +% (col *% 3 +% 2)) (Z.land (Z.shiftr mapped 16) 0xFF)))
    (λ _ g', painted s g g' (rect x y w 1 (pixel_value s color))) g.
Proof.
  intros Hm Hx Hw Hxw Hxs Hy. assert (Hon0 : on s x y) by (split; lia).
  pose proof (pixel_address_eq s Hok x y Hon0) as Ea. unfold pixel_address in Ea. rewrite Ea. cbv zeta. clear Ea.
  assert (Hloop : ∀ body, (∀ col g1, 0 ≤ col < w → painted s g g1 (rect x y col 1 (pixel_value s color)) → surface_mapped s (gmem g1) → on s (x + col) y →
    wp (body col) (λ _ g2, painted s g1 g2 (dot (x + col) y (pixel_value s color))) g1) →
    wp (for_ 0 w body) (λ _ g', painted s g g' (rect x y w 1 (pixel_value s color))) g).
  { intros body Hb. apply (wp_for_paint s _ _ _ (λ col, rect x y col 1 (pixel_value s color)) (λ col, dot (x + col) y (pixel_value s color))); [done| | | |done].
    - intros x' y' _. shapes.
    - intros col g1 Hc P1. apply Hb; [done|done|by eapply painted_mapped|split; lia].
    - intros col x' y' Hc _. shapes. }
  assert (Hadr : ∀ col k, on s (x + col) y → 0 ≤ col → 0 ≤ k < bytes_per_pixel s →
    addr s x y +% (col * bytes_per_pixel s + k) = addr s (x + col) y + k).
  { intros col k Hc Hc0 Hk. rewrite <- (addr_small (x + col) y k Hc Hk). unfold addr. f_equal. lia. }
  unfold pixel_value in *.
  destruct bpp_split as [(Eb & En & E)|[(Eb & En & E)|[(Eb & En & E)|(Eb & En & E)]]]; rewrite Eb in *; cbn [Z.eqb Pos.eqb orb] in *;
    apply Hloop; intros col g1 Hc P1 Hm1 Hon; rewrite E in Hadr.
  - replace (col * 4) with (col * 4 + 0) by lia. rewrite Hadr, Z.add_0_r by (auto; lia). by apply write_pixel_wp.
  - pose proof (so_end s Hok). destruct (on_row s Hok _ _ Hon) as (? & ? & ? & ?). rewrite E in *. pose proof (so_pixels s Hok).
    u32_simp. rewrite !Hadr by (auto; lia). replace (col * 3) with (col * 3 + 0) by lia. rewrite Hadr, Z.add_0_r by (auto; lia).
    rewrite <- E. by apply write_pixel3_wp.
  - replace (col * 2) with (col * 2 + 0) by lia. rewrite Hadr, Z.add_0_r by (auto; lia). by apply write_pixel_wp.
  - replace (addr s x y + col) with (addr s x y + (col * 1 + 0)) by lia. rewrite Hadr, Z.add_0_r by (auto; lia). by apply write_pixel_wp.
Qed.

Lemma surface_extent : 0 < width s < 2 ^ 32 ∧ 0 < height s < 2 ^ 32.
Proof. destruct Hok as [_ Hp W0 H0 Hpt He]. destruct (bpp_cases s Hok) as [_ Hb]. assert (0 < pitch s) by nia. split; nia. Qed.

Lemma fill_rect_wp x y w h color g : surface_mapped s (gmem g) → 0 ≤ x → 0 ≤ y → 0 ≤ w → 0 ≤ h → x + w < 2 ^ 32 → y + h < 2 ^ 32 →
  wp (graphics_fill_rect (Some s) x y w h color) (λ _ g', painted s g g' (rect x y w h (pixel_value s color))) g.
Proof.
  intros Hm Hx Hy Hw Hh Hxw Hyh. unfold graphics_fill_rect. apply if_valid_wp. destruct (_ || _) eqn:E.
  - wp_step. eapply painted_ext; [apply painted_nothing|]. intros x' y' Hon. bool_to_prop. destruct Hon. destruct E as [E|E]; apply Z.leb_le in E; shapes.
  - bool_to_prop. pose proof surface_extent.
    rewrite !(u32_small (x + w)), !(u32_small (y + h)), (u32_small (width s - x)), (u32_small (height s - y)) by (unfold is_u32; lia).
    set (w' := if width s <? x + w then width s - x else w). set (h' := if height s <? y + h then height s - y else h).
    assert (Hw' : 0 ≤ w' ≤ w ∧ x + w' ≤ width s) by (unfold w'; destruct (Z.ltb_spec (width s) (x + w)); lia).
    assert (Hh' : 0 ≤ h' ≤ h ∧ y + h' ≤ height s) by (unfold h'; destruct (Z.ltb_spec (height s) (y + h)); lia).
    set (v := pixel_value s color).
    apply (wp_for_paint s _ _ _ (λ row, rect x y w' row v) (λ row, rect x (y + row) w' 1 v)); [lia| | | |].
    + intros x' y' _. shapes.
    + intros row g1 Hr P1. rewrite (u32_small (y + row)) by (unfold is_u32; lia).
      apply fill_row_wp; [by eapply painted_mapped|lia..].
    + intros row x' y' Hr _. shapes.
    + intros g' P. eapply painted_ext; [exact P|]. intros x' y' [Hx' Hy']. unfold w', h'.
      destruct (Z.ltb_spec (width s) (x + w)), (Z.ltb_spec (height s) (y + h)); shapes.
Qed.

Lemma clear_surface_wp color g : surface_mapped s (gmem g) →
  wp (graphics_clear (Some s) color) (λ _ g', painted s g g' (λ _ _, Some (pixel_value s color))) g.
Proof.
  intros Hm. unfold graphics_clear. apply if_valid_wp.
  pose proof surface_extent. eapply wp_mono; [apply fill_rect_wp; (done || lia)|]. intros [] g' P. eapply painted_ext; [exact P|].
  intros x y [Hx Hy]. shapes.
Qed.
End operations.

(** ** Frames and characters *)

Definition frame (x y w h v : Z) : Z → Z → option Z :=
  λ x' y', if (x <=? x') && (x' <? x + w) && (y <=? y') && (y' <? y + h) &&
              ((x' =? x) || (x' =? x + w - 1) || (y' =? y) || (y' =? y + h - 1)) then Some v else None.

(** The pixels of a glyph: five columns and seven rows in a cell of six by eight. *)
Definition glyph_on (c col row : Z) : bool :=
  (col <? 5) && (row <? 7) && negb (Z.land (Z.shiftr (glyph_row c row) (4 - col)) 1 =? 0).

Definition glyph (x y c fg bg : Z) : Z → Z → option Z :=
  λ x' y', if (x <=? x') && (x' <? x + 6) && (y <=? y') && (y' <? y + 8)
           then Some (if glyph_on c (x' - x) (y' - y) then fg else bg) else None.

Section shapes.
Context (s : graphics_surface).
Hypothesis Hok : surface_ok s.

Lemma draw_rect_wp x y w h color g : surface_mapped s (gmem g) → 0 ≤ x → 0 ≤ y → 0 ≤ w → 0 ≤ h → x + w < 2 ^ 32 → y + h < 2 ^ 32 →
  wp (graphics_draw_rect (Some s) x y w h color) (λ _ g', painted s g g' (frame x y w h (pixel_value s color))) g.
Proof.
  intros Hm Hx Hy Hw Hh Hxw Hyh. unfold graphics_draw_rect. set (v := pixel_value s color). destruct (_ || _) eqn:E.
  - wp_step. eapply painted_ext; [apply painted_nothing|]. intros x' y' _. unfold nothing, frame. bool_to_prop.
    destruct E as [E|E]; apply Z.eqb_eq in E; shapes.
  - bool_to_prop. rewrite (u32_small (y + h)), (u32_small (x + w)), (u32_small (y + h - 1)), (u32_small (x + w - 1)) by (unfold is_u32; lia).
    wp_step. eapply wp_mono; [apply fill_rect_wp; (done || lia)|]. intros [] g1 P1.
    wp_step. eapply wp_mono; [apply fill_rect_wp; [done|by eapply painted_mapped|lia..]|]. intros [] g2 P2. pose proof (painted_over _ _ _ _ _ _ P1 P2) as P12.
    wp_step. eapply wp_mono; [apply fill_rect_wp; [done|by eapply painted_mapped|lia..]|]. intros [] g3 P3. pose proof (painted_over _ _ _ _ _ _ P12 P3) as P13.
    eapply wp_mono; [apply fill_rect_wp; [done|by eapply painted_mapped|lia..]|]. intros [] g4 P4.
    eapply painted_ext; [by eapply painted_over|]. intros x' y' _. fold v. clear -Hw Hh H H0. unfold frame. shapes.
Qed.

Lemma draw_char_wp x y c fg bg g : surface_mapped s (gmem g) → 0 ≤ x → 0 ≤ y → x + 6 < 2 ^ 32 → y + 8 < 2 ^ 32 →
  wp (graphics_draw_char (Some s) x y c fg bg) (λ _ g', painted s g g' (glyph x y c (pixel_value s fg) (pixel_value s bg))) g.
Proof.
  intros Hm Hx Hy Hx6 Hy8. unfold graphics_draw_char. set (fv := pixel_value s fg). set (bv := pixel_value s bg).
  set (part := λ rows cols x' y', if (x <=? x') && (x' <? x + 6) && (y <=? y') && ((y' <? y + rows) || ((y' =? y + rows) && (x' <? x + cols)))
    then Some (if glyph_on c (x' - x) (y' - y) then fv else bv) else None).
  apply (wp_for _ _ _ (λ row g', painted s g g' (part row 0))); [lia| | |].
  - eapply painted_ext; [apply painted_nothing|]. intros x' y' _. unfold part. shapes.
  - intros row g1 Hr P1. apply (wp_for _ _ _ (λ col g', painted s g g' (part row col))); [lia|done| |].
    + intros col g2 Hc P2. rewrite (u32_small (x + col)), (u32_small (y + row)) by (unfold is_u32; lia).
      eapply wp_mono; [apply put_pixel_wp; [done|by eapply painted_mapped|lia..]|]. intros [] g3 P3.
      eapply painted_ext; [by eapply painted_over|]. intros x' y' _. unfold over, dot, part.
      destruct (Z.eqb_spec x' (x + col)) as [->|Hx'], (Z.eqb_spec y' (y + row)) as [->|Hy']; cbn [andb].
      * replace (x + col - x) with col by lia. replace (y + row - y) with row by lia. unfold glyph_on.
        destruct (Z.leb_spec x (x + col)), (Z.ltb_spec (x + col) (x + 6)), (Z.leb_spec y (y + row)), (Z.ltb_spec (x + col) (x + (col + 1))); try lia.
        cbn [andb]. rewrite orb_true_r. by destruct (_ && _).
      * shapes.
      * shapes.
      * shapes.
    + intros g2 P2. eapply painted_ext; [exact P2|]. intros x' y' _. unfold part. shapes.
  - intros g' P. eapply painted_ext; [exact P|]. intros x' y' _. unfold part, glyph. shapes.
Qed.
End shapes.

(** A string is a row of glyphs. *)
Fixpoint glyphs (x y : Z) (str : list Z) (fg bg : Z) : Z → Z → option Z :=
  match str with
  | [] => nothing
  | c :: str' => over (glyphs (x + 6) y str' fg bg) (glyph x y c fg bg)
  end.

Lemma over_nothing_r f x y : over f nothing x y = f x y.
Proof. unfold over, nothing. by destruct (f x y). Qed.

Lemma over_assoc f g h x y : over f (over g h) x y = over (over f g) h x y.
Proof. unfold over. by destruct (f x y). Qed.

Section strings.
Context (s : graphics_surface).
Hypothesis Hok : surface_ok s.

Lemma draw_string_wp y pre str rest fg bg x fuel g : surface_mapped s (gmem g) → 0 ≤ x → 0 ≤ y → y + 8 < 2 ^ 32 →
  x + 6 * Z.of_nat (length str) < 2 ^ 32 → Z.of_nat (length (pre ++ str)) < 2 ^ 32 - 1 → Forall (λ c, c ≠ 0) str → (length str < fuel)%nat →
  wp (iterate fuel (λ '(i, cursor),
    c ← lift (aread (pre ++ str ++ 0 :: rest) i);
    if c =? 0 then mret (inr tt)
    else _ ← graphics_draw_char (Some s) cursor y c fg bg; mret (inl (i +% 1, cursor +% 6))) (Z.of_nat (length pre), x))
    (λ _ g', painted s g g' (glyphs x y str (pixel_value s fg) (pixel_value s bg))) g.
Proof.
  intros Hm Hx Hy Hy8. revert pre x fuel g Hm Hx. induction str as [|c str IH]; intros pre x fuel g Hm Hx Hxw Hl Hc Hf;
    (destruct fuel as [|fuel]; [cbn in Hf; lia|]); cbn [iterate length] in *; wp_step.
  - wp_step. eapply wp_lift; [apply aread_Some; split; [lia|]; rewrite Nat2Z.id; by apply list_lookup_middle|]. cbn [Z.eqb]. do 2 wp_step. apply painted_nothing.
  - wp_step. eapply wp_lift; [apply aread_Some; split; [lia|]; rewrite Nat2Z.id; by apply list_lookup_middle|]. apply Forall_cons in Hc as [Hc0 Hc].
    rewrite (proj2 (Z.eqb_neq c 0)) by done. wp_step.
    destruct (decide (x + 6 < 2 ^ 32)) as [H6|H6]; [|lia].
    eapply wp_mono; [apply draw_char_wp; (done || lia)|]. intros [] g1 P1. wp_step.
    rewrite length_app in Hl. cbn [length] in Hl.
    rewrite (u32_small (x + 6)), (u32_small (Z.of_nat (length pre) + 1)) by (unfold is_u32; lia).
    replace (pre ++ (c :: str) ++ 0 :: rest) with ((pre ++ [c]) ++ str ++ 0 :: rest) by (by rewrite <- app_assoc).
    replace (Z.of_nat (length pre) + 1) with (Z.of_nat (length (pre ++ [c]))) by (rewrite length_app; cbn; lia).
    eapply wp_mono; [apply IH; [by eapply painted_mapped|lia|lia|rewrite !length_app; cbn; lia|done|lia]|]. intros [] g2 P2. by eapply painted_over.
Qed.
End strings.

(** ** Reading and copying *)

Lemma load_shift n m m' a a' : (∀ i, 0 ≤ i < Z.of_nat n → m' !! (a' + i) = m !! (a + i)) → load n m' a' = load n m a.
Proof.
  revert a a'. induction n as [|n IH]; intros a a' Hb; [done|]. cbn [load].
  pose proof (Hb 0 ltac:(lia)) as H0. rewrite !Z.add_0_r in H0. rewrite H0. destruct (m !! a); [|done]. cbn.
  rewrite (IH (a + 1) (a' + 1)); [done|]. intros i Hi. rewrite <- !Z.add_assoc. apply Hb. lia.
Qed.

(** A word that is loaded and stored elsewhere copies its bytes. *)
Lemma store_load_bytes n m m1 m' a b v : bytes_ok m → load n m a = Some v → store n m1 b v = Some m' →
  ∀ i, 0 ≤ i < Z.of_nat n → m' !! (b + i) = m !! (a + i).
Proof.
  intros Hm. revert m1 a b v. induction n as [|n IH]; intros m1 a b v El Es i Hi; [lia|]. cbn [load store] in *.
  destruct (m !! a) as [c|] eqn:Ea; [|done]. cbn in El. destruct (load n m (a + 1)) as [r|] eqn:Er; [|done]. injection El as <-.
  apply Hm in Ea as Hc. unfold is_u8 in Hc. destruct (m1 !! b); [|done]. cbn [mbind option_bind] in Es.
  rewrite (Z.mul_comm 256 r) in Es. rewrite Z.mod_add, Z.div_add, (Z.mod_small c), (Z.div_small c) in Es by lia.
  destruct (decide (i = 0)) as [->|].
  - rewrite !Z.add_0_r, (ch_same _ _ _ _ (store_changes _ _ _ _ _ Es)), lookup_insert_eq by lia. done.
  - replace (b + i) with (b + 1 + (i - 1)) by lia. replace (a + i) with (a + 1 + (i - 1)) by lia. eapply IH; [exact Er|exact Es|lia].
Qed.

(** The first [i] of the bytes have been copied. *)
Definition copied (m m' : mem) (dst src i : Z) : Prop :=
  changes m m' dst i ∧ bytes_ok m' ∧ ∀ k, 0 ≤ k < i → m' !! (dst + k) = m !! (src + k).

Lemma copied_step n m m1 m2 dst src i v : copied m m1 dst src i → 0 ≤ i → 
  src + i + Z.of_nat n ≤ dst ∨ dst + i + Z.of_nat n ≤ src ∨ src = dst →
  load n m1 (src + i) = Some v → store n m1 (dst + i) v = Some m2 → copied m m2 dst src (i + Z.of_nat n).
Proof.
  intros (Hch & Hb & Hk) Hi Hd El Es. pose proof (store_changes _ _ _ _ _ Es) as Hc2. split_and!.
  - eapply changes_trans; (eapply changes_sub; [eassumption|lia]).
  - by eapply store_bytes_ok.
  - intros k Hk'. destruct (decide (k < i)) as [Hlt|Hge].
    + rewrite (ch_same _ _ _ _ Hc2) by lia. apply Hk. lia.
    + replace (dst + k) with (dst + i + (k - i)) by lia. rewrite (store_load_bytes _ _ _ _ _ _ _ Hb El Es) by lia.
      replace (src + i + (k - i)) with (src + k) by lia. apply (ch_same _ _ _ _ Hch). lia.
Qed.

Lemma copy_bytes_wp dst src count g : bytes_ok (gmem g) → 0 ≤ count < 2 ^ 32 - 4 → 0 ≤ dst → dst + count ≤ 2 ^ 32 → 0 ≤ src → src + count ≤ 2 ^ 32 →
  mapped (gmem g) dst count → mapped (gmem g) src count → src + count ≤ dst ∨ dst + count ≤ src ∨ src = dst →
  wp (graphics_copy_bytes dst src count) (λ _ g', g' = set_gmem (gmem g') g ∧ copied (gmem g) (gmem g') dst src count) g.
Proof.
  intros Hb Hc Hd0 Hd Hs0 Hs Md Ms Hdis. unfold graphics_copy_bytes. wp_step.
  set (Inv := λ i g', 0 ≤ i ≤ count ∧ g' = set_gmem (gmem g') g ∧ copied (gmem g) (gmem g') dst src i).
  assert (Hstep : ∀ n i g1, (0 < n)%nat → Inv i g1 → i + Z.of_nat n ≤ count →
    wp (v ← read_mem n (src +% i); write_mem n (dst +% i) v) (λ _, Inv (i + Z.of_nat n)) g1).
  { intros n i g1 Hn (Hi & Eg & Hcp) Hin. rewrite (u32_small (src + i)), (u32_small (dst + i)) by (unfold is_u32; lia).
    destruct (load_is_Some n (gmem g1) (src + i)) as [v Ev].
    { eapply changes_mapped; [apply Hcp|]. eapply mapped_sub; [exact Ms|lia|lia]. }
    wp_step. eapply read_mem_wp; [exact Ev|]. apply write_mem_wp.
    { eapply changes_mapped; [apply Hcp|]. eapply mapped_sub; [exact Md|lia|lia]. }
    intros m' Es. split_and!; [lia|lia|rewrite Eg; by destruct g|]. eapply copied_step; [exact Hcp|lia|lia|exact Ev|exact Es]. }
  apply (wp_iterate _ _ (λ i g', Inv i g' ∧ i mod 4 = 0) (λ i, Z.to_nat ((count - i) / 4))).
  - rewrite Z.sub_0_r. lia.
  - split; [|done]. split_and!; [lia|lia|by destruct g|]. split_and!; [apply changes_refl|done|lia].
  - intros i g1 [Hi Hi4]. destruct (Hi) as (Hi0 & _). rewrite (u32_small (i + 4)) by (unfold is_u32; lia). wp_step.
    + bool_to_prop. assert (E := Hstep 4%nat i g1 ltac:(lia) Hi ltac:(lia)). destruct E as (a & g2 & E & HI).
      unfold mbind, M_bind in E. wp_step. destruct (read_mem 4 (src +% i) g1) as [[v g1']|] eqn:Er; [|done].
      exists v, g1'. split; [exact Er|]. wp_step. exists a, g2. split; [exact E|]. wp_step.
      split_and!; [done|Z.to_euclidean_division_equations; lia|]. change (Z.of_nat 4) with 4 in HI. destruct HI as (HI & _).
      replace ((count - i) / 4) with ((count - (i + 4)) / 4 + 1) by (Z.to_euclidean_division_equations; lia).
      assert (0 ≤ (count - (i + 4)) / 4) by (apply Z.div_pos; lia). lia.
    + wp_step. apply (wp_for _ _ _ Inv); [lia|done| |].
      * intros j g2 Hj HI. apply (Hstep 1%nat j g2); [lia|done|lia].
      * intros g2 (_ & Eg & Hcp). done.
Qed.
