(* ===== verification/GraphicsBlit.v ===== *)
(** * Reading pixels and copying surfaces

    What graphics_get_pixel returns, and that both paths of graphics_blit and
    graphics_blit_rect, the copy of whole rows and the copy pixel by pixel, paint
    the pixels of the source. *)

From Stdlib Require Import ZArith Lia Bool.
From stdpp Require Import base numbers list gmap sets.
From S2P Require Import Prelude Memory Graphics GraphicsPaint.

Section get_pixel.
Context (s : graphics_surface).
Hypothesis Hok : surface_ok s.

Lemma get_pixel_wp x y v g (Q : Z → gfx → Prop) : bytes_ok (gmem g) → on s x y → pixel s (gmem g) x y = Some v → Q v g →
  wp (graphics_get_pixel (Some s) x y) Q g.
Proof.
  intros Hb Hon Hv HQ. unfold graphics_get_pixel. apply (if_valid_wp s Hok). destruct (_ || _) eqn:E; [by apply off_surface in E|].
  rewrite (pixel_address_eq s Hok x y Hon). unfold pixel in Hv.
  destruct (bpp_split s Hok) as [(-> & En & E3)|[(-> & En & E3)|[(-> & En & E3)|(-> & En & E3)]]]; cbn [Z.eqb Pos.eqb];
    rewrite En in Hv; try (by eapply read_mem_wp).
  rewrite !(addr_small s Hok) by (auto; lia). cbn [load] in Hv.
  destruct (gmem g !! addr s x y) as [b0|] eqn:E0; [|done]. cbn [mbind option_bind] in Hv.
  destruct (gmem g !! (addr s x y + 1)) as [b1|] eqn:E1; [|done]. cbn [mbind option_bind] in Hv.
  replace (addr s x y + 1 + 1) with (addr s x y + 2) in Hv by lia.
  destruct (gmem g !! (addr s x y + 2)) as [b2|] eqn:E2; [|done]. injection Hv as <-.
  pose proof (Hb _ _ E0) as B0. pose proof (Hb _ _ E1) as B1. pose proof (Hb _ _ E2) as B2. unfold is_u8 in *.
  assert (Hl : ∀ a c, gmem g !! a = Some c → load 1 (gmem g) a = Some c) by (intros a c Ec; cbn; rewrite Ec; cbn; f_equal; lia).
  wp_step. eapply read_mem_wp; [by apply Hl|]. wp_step. eapply read_mem_wp; [by apply Hl|]. wp_step. eapply read_mem_wp; [by apply Hl|]. wp_step.
  rewrite (lor_shiftl_add b0 b1 8), lor_shiftl_add by lia.
  replace (b0 + b1 * 2 ^ 8 + b2 * 2 ^ 16) with (b0 + 256 * (b1 + 256 * (b2 + 256 * 0))) by lia. done.
Qed.

Lemma get_pixel_outside x y g (Q : Z → gfx → Prop) : 0 ≤ x → 0 ≤ y → ¬ on s x y → Q 0 g → wp (graphics_get_pixel (Some s) x y) Q g.
Proof.
  intros Hx Hy Hon HQ. unfold graphics_get_pixel. apply (if_valid_wp s Hok). destruct (_ || _) eqn:E; [by wp_step|].
  exfalso. apply Hon. bool_to_prop. split; lia.
Qed.

Lemma pixel_is_Some m x y : surface_mapped s m → on s x y → ∃ v, pixel s m x y = Some v.
Proof. intros Hm Hon. apply load_is_Some. by apply pixel_mapped. Qed.
End get_pixel.

(** ** Two surfaces *)

Definition disjoint_surfaces (d s : graphics_surface) : Prop :=
  pixels d + height d * pitch d ≤ pixels s ∨ pixels s + height s * pitch s ≤ pixels d.

Definition same_format (d s : graphics_surface) : bool := (bits_per_pixel d =? bits_per_pixel s) && (format d =? format s).

(** What a pixel of the source becomes. *)
Definition converted (d s : graphics_surface) (v : Z) : Z := if same_format d s then v else pixel_value d v.

(** The pixels of [s] in memory [m], in a rectangle of the destination. *)
Definition image (d s : graphics_surface) (m : mem) (x y w h : Z) : Z → Z → option Z :=
  λ x' y', if (x <=? x') && (x' <? x + w) && (y <=? y') && (y' <? y + h) then converted d s <$> pixel s m x' y' else None.

Section blit.
Context (d s : graphics_surface).
Hypothesis Hd : surface_ok d.
Hypothesis Hs : surface_ok s.
Hypothesis Hds : disjoint_surfaces d s.

(** Painting the destination leaves the source. *)
Lemma source_same g g' f a : painted d g g' f → pixels s ≤ a < pixels s + height s * pitch s → gmem g' !! a = gmem g !! a.
Proof.
  intros [_ P] Ha. apply (pt_outside _ _ _ _ P). intros x y Hon [H1 H2]. destruct (addr_bounds d Hd x y Hon). destruct Hds; lia.
Qed.

Lemma source_pixel g g' f x y : painted d g g' f → on s x y → pixel s (gmem g') x y = pixel s (gmem g) x y.
Proof.
  intros P Hon. apply load_ext. intros a Ha. apply (source_same _ _ _ _ P). rewrite (pixel_size_eq s Hs) in Ha. destruct (addr_bounds s Hs x y Hon). lia.
Qed.

Section area.
Context (x y w h : Z).
Hypothesis Hx : 0 ≤ x.
Hypothesis Hy : 0 ≤ y.
Hypothesis Hw : 0 ≤ w.
Hypothesis Hh : 0 ≤ h.
Hypothesis Hxd : x + w ≤ width d.
Hypothesis Hyd : y + h ≤ height d.
Hypothesis Hxs : x + w ≤ width s.
Hypothesis Hys : y + h ≤ height s.

(** The pixels of a row form one block of bytes. *)
Lemma row_block (t : graphics_surface) row : surface_ok t → x < width t → x + w ≤ width t → y + h ≤ height t → 0 ≤ row < h →
  pixels t ≤ addr t x (y + row) ∧ addr t x (y + row) + w * bytes_per_pixel t ≤ pixels t + height t * pitch t.
Proof.
  intros Ht Hx1 Hxt Hyt Hr. assert (O1 : on t x (y + row)) by (split; lia). destruct (addr_bounds t Ht _ _ O1). destruct (on_row t Ht _ _ O1) as (A1 & A2 & A3 & A4).
  destruct (bpp_cases t Ht) as [_ Hb]. split; [done|]. pose proof (so_pitch t Ht). unfold addr. assert ((x + w) * bytes_per_pixel t ≤ pitch t) by nia. lia.
Qed.

Lemma row_pixel x' row a : 0 < bytes_per_pixel d → addr d x (y + row) ≤ a < addr d x (y + row) + w * bytes_per_pixel d →
  x' = x + (a - addr d x (y + row)) / bytes_per_pixel d → x ≤ x' < x + w ∧ addr d x' (y + row) ≤ a < addr d x' (y + row) + bytes_per_pixel d.
Proof.
  intros Hb Ha ->. set (k := a - addr d x (y + row)) in *. assert (0 ≤ k < w * bytes_per_pixel d) by (unfold k; lia).
  pose proof (Z.div_mod k (bytes_per_pixel d) ltac:(lia)) as Ek. pose proof (Z.mod_pos_bound k (bytes_per_pixel d) Hb) as Hm.
  assert (0 ≤ k / bytes_per_pixel d < w) by (split; [apply Z.div_pos; lia|apply Z.div_lt_upper_bound; lia]).
  split; [lia|]. replace (addr d (x + k / bytes_per_pixel d) (y + row)) with (addr d x (y + row) + bytes_per_pixel d * (k / bytes_per_pixel d)) by (unfold addr; lia).
  unfold k in *. lia.
Qed.

(** A row misses the pixels that are not in it. *)
Lemma row_misses x' y' row a : on d x' y' → 0 ≤ row < h → x' < x ∨ x + w ≤ x' ∨ y' ≠ y + row →
  addr d x' y' ≤ a < addr d x' y' + bytes_per_pixel d → ¬ (addr d x (y + row) ≤ a < addr d x (y + row) + w * bytes_per_pixel d).
Proof.
  intros Hon Hr Hne Ha Hin. destruct (bpp_cases d Hd) as [_ Hb]. destruct (row_pixel _ row a ltac:(lia) Hin eq_refl) as [R1 R2].
  revert R1 R2. generalize (x + (a - addr d x (y + row)) / bytes_per_pixel d). intros x2 R1 R2. destruct (addr_disjoint d Hd x' y' x2 (y + row)); [done|split; lia|lia|lia|lia].
Qed.

(** A row of bytes copied is a row of pixels painted. *)
Lemma copied_paints m m' row : bytes_per_pixel s = bytes_per_pixel d → 0 ≤ row < h → surface_mapped s m →
  copied m m' (addr d x (y + row)) (addr s x (y + row)) (w * bytes_per_pixel d) →
  paints d m m' (λ x' y', if (x <=? x') && (x' <? x + w) && (y' =? y + row) then pixel s m x' y' else None).
Proof.
  intros Eb Hr Hm (Hch & Hbo & Hcp). destruct (bpp_cases d Hd) as [_ Hb]. split.
  - intros x' y' Hon. unfold pixel.
    destruct (Z.leb_spec x x'), (Z.ltb_spec x' (x + w)), (Z.eqb_spec y' (y + row)) as [->|Hne]; cbn [andb];
      try (apply load_ext; intros a Ha; apply (ch_same _ _ _ _ Hch); rewrite (pixel_size_eq d Hd) in Ha; eapply (row_misses x' _ row); [exact Hon|done|lia|exact Ha]).
    + assert (O : on s x' (y + row)) by (split; lia).
      destruct (pixel_is_Some s Hs m x' (y + row) Hm O) as [v Ev]. unfold pixel in Ev. rewrite Ev, <- Ev.
      assert (En : pixel_size d = pixel_size s) by (unfold pixel_size; by rewrite Eb). rewrite En. apply load_shift. intros i Hi.
      assert (Hi' : i < bytes_per_pixel d) by (rewrite <- Eb, <- (pixel_size_eq s Hs); lia).
      replace (addr d x' (y + row) + i) with (addr d x (y + row) + ((x' - x) * bytes_per_pixel d + i)) by (unfold addr; lia).
      replace (addr s x' (y + row) + i) with (addr s x (y + row) + ((x' - x) * bytes_per_pixel d + i)) by (unfold addr; rewrite Eb; lia).
      apply Hcp. nia.
  - intros a Ha. apply (ch_same _ _ _ _ Hch). intros Hin. destruct (row_pixel _ row a ltac:(lia) Hin eq_refl) as [R1 R2].
    eapply Ha; [|exact R2]. split; lia.
  - apply Hch.
  - done.
Qed.
Hypothesis Hx1 : x < width d ∧ x < width s.

Section run.
Context (g : gfx).
Hypothesis Hbytes : bytes_ok (gmem g).
Hypothesis Md : surface_mapped d (gmem g).
Hypothesis Ms : surface_mapped s (gmem g).

(** Whole rows, when the formats agree. *)
Lemma copy_rows_wp body : same_format d s = true →
  (∀ row, 0 ≤ row < h → body row = graphics_copy_bytes (addr d x (y + row)) (addr s x (y + row)) (w * bytes_per_pixel d)) →
  wp (for_ 0 h body) (λ _ g', painted d g g' (image d s (gmem g) x y w h)) g.
Proof.
  intros Hf Hbody. assert (Eb : bytes_per_pixel s = bytes_per_pixel d).
  { unfold same_format in Hf. bool_to_prop. unfold bytes_per_pixel. congruence. }
  apply (wp_for_paint d _ _ _ (λ row, image d s (gmem g) x y w row)
    (λ row x' y', if (x <=? x') && (x' <? x + w) && (y' =? y + row) then pixel s (gmem g) x' y' else None)); [done| | | |done].
  - intros x' y' _. unfold image. shapes.
  - intros row g1 Hr P1. rewrite Hbody by done.
    destruct (row_block d row Hd) as (D1 & D2); try lia. destruct (row_block s row Hs) as (S1 & S2); try lia. rewrite Eb in S2.
    pose proof (so_end d Hd). pose proof (so_pixels d Hd). pose proof (so_end s Hs). pose proof (so_pixels s Hs). destruct (bpp_cases d Hd) as [_ Hb].
    eapply wp_mono; [apply copy_bytes_wp|].
    + by eapply painted_bytes.
    + split; [nia|]. destruct Hds; lia.
    + lia.
    + lia.
    + lia.
    + lia.
    + eapply mapped_sub; [eapply painted_mapped; [exact P1|exact Md]|lia|lia].
    + eapply mapped_sub; [eapply painted_mapped; [exact P1|exact Ms]|lia|lia].
    + destruct Hds; lia.
    + intros [] g2 [E2 Hcp]. split; [done|]. eapply paints_ext; [apply (copied_paints _ _ row Eb Hr); [by eapply painted_mapped|exact Hcp]|].
      intros x' y' Hon. cbn beta. destruct (Z.leb_spec x x'), (Z.ltb_spec x' (x + w)), (Z.eqb_spec y' (y + row)) as [->|]; cbn [andb]; try done.
      apply (source_pixel _ _ _ _ _ P1). split; lia.
  - intros row x' y' Hr Hon. unfold image, over, converted. rewrite Hf.
    destruct (Z.leb_spec x x'), (Z.ltb_spec x' (x + w)), (Z.eqb_spec y' (y + row)) as [->|]; cbn [andb]; try done.
    + destruct (pixel_is_Some s Hs (gmem g) x' (y + row) Ms) as [v Ev]; [split; lia|]. rewrite Ev. cbn. shapes.
    + shapes.
Qed.

(** Pixel by pixel, when they do not. *)
Lemma copy_pixels_wp body : same_format d s = false →
  (∀ row col, 0 ≤ row < h → 0 ≤ col < w → body row col =
     (c ← graphics_get_pixel (Some s) (x + col) (y + row); graphics_put_pixel (Some d) (x + col) (y + row) c)) →
  wp (for_ 0 h (λ row, for_ 0 w (body row))) (λ _ g', painted d g g' (image d s (gmem g) x y w h)) g.
Proof.
  intros Hf Hbody. set (part := λ rows cols x' y', if (x <=? x') && (x' <? x + w) && (y <=? y') && ((y' <? y + rows) || ((y' =? y + rows) && (x' <? x + cols)))
    then pixel_value d <$> pixel s (gmem g) x' y' else None).
  apply (wp_for _ _ _ (λ row g', painted d g g' (part row 0))); [lia| | |].
  - eapply painted_ext; [apply painted_nothing|]. intros x' y' _. unfold part. shapes.
  - intros row g1 Hr P1. apply (wp_for _ _ _ (λ col g', painted d g g' (part row col))); [lia|done| |].
    + intros col g2 Hc P2. rewrite Hbody by done. wp_step. assert (Hon : on s (x + col) (y + row)) by (split; lia).
      destruct (pixel_is_Some s Hs (gmem g) _ _ Ms Hon) as [v Ev].
      eapply (get_pixel_wp s Hs); [by eapply painted_bytes|done|rewrite (source_pixel _ _ _ _ _ P2 Hon); exact Ev|].
      eapply wp_mono; [apply (put_pixel_wp d Hd); [by eapply painted_mapped|lia..]|]. intros [] g3 P3.
      eapply painted_ext; [by eapply painted_over|]. intros x' y' _. unfold over, dot, part.
      destruct (Z.eqb_spec x' (x + col)) as [->|Hx'], (Z.eqb_spec y' (y + row)) as [->|Hy']; cbn [andb].
      * rewrite Ev. cbn. shapes.
      * shapes.
      * shapes.
      * shapes.
    + intros g2 P2. eapply painted_ext; [exact P2|]. intros x' y' _. unfold part. shapes.
  - intros g' P. eapply painted_ext; [exact P|]. intros x' y' _. unfold part, image, converted. rewrite Hf. shapes.
Qed.
End run.
End area.

Lemma row_address (t : graphics_surface) x y : surface_ok t → on t x y →
  pixels t +% (y *% pitch t) +% (x *% bytes_per_pixel t) = addr t x y.
Proof. intros Ht Hon. by apply (pixel_address_eq t Ht). Qed.

Lemma row_bytes_small (t : graphics_surface) w : surface_ok t → 0 ≤ w ≤ width t → w *% bytes_per_pixel t = w * bytes_per_pixel t.
Proof.
  intros Ht Hw. apply u32_small. destruct (bpp_cases t Ht) as [_ Hb]. destruct Ht as [_ Hp H1 H2 Hpt He]. unfold is_u32. nia.
Qed.

Lemma blit_rect_wp x y w h g : bytes_ok (gmem g) → surface_mapped d (gmem g) → surface_mapped s (gmem g) →
  0 ≤ x → 0 ≤ y → 0 ≤ w → 0 ≤ h → x + w < 2 ^ 32 → y + h < 2 ^ 32 →
  wp (graphics_blit_rect (Some d) (Some s) x y w h)
    (λ _ g', painted d g g' (λ x' y', if bool_decide (on s x' y') then image d s (gmem g) x y w h x' y' else None)) g.
Proof.
  intros Hb Md Ms Hx Hy Hw Hh Hxw Hyh. unfold graphics_blit_rect. apply (if_valid_wp d Hd), (if_valid_wp s Hs).
  pose proof (surface_extent d Hd). pose proof (surface_extent s Hs).
  destruct (_ || _) eqn:E.
  - wp_step. eapply painted_ext; [apply painted_nothing|]. intros x' y' Hon. case_bool_decide as Hs'; [|done]. unfold image, nothing.
    destruct Hon, Hs'. bool_to_prop. repeat (destruct E as [E|E]; bool_to_prop); try (apply Z.leb_le in E); shapes.
  - bool_to_prop. set (mw := if width d <? width s then width d else width s). set (mh := if height d <? height s then height d else height s).
    assert (Hmw : mw = Z.min (width d) (width s)) by (unfold mw; destruct (Z.ltb_spec (width d) (width s)); lia).
    assert (Hmh : mh = Z.min (height d) (height s)) by (unfold mh; destruct (Z.ltb_spec (height d) (height s)); lia).
    clearbody mw mh. rewrite (u32_small (x + w)), (u32_small (y + h)), (u32_small (mw - x)), (u32_small (mh - y)) by (unfold is_u32; lia).
    set (w' := if mw <? x + w then mw - x else w). set (h' := if mh <? y + h then mh - y else h).
    assert (Hw' : w' = Z.min w (mw - x)) by (unfold w'; destruct (Z.ltb_spec mw (x + w)); lia).
    assert (Hh' : h' = Z.min h (mh - y)) by (unfold h'; destruct (Z.ltb_spec mh (y + h)); lia). clearbody w' h'.
    assert (Himg : ∀ x' y', on d x' y' → image d s (gmem g) x y w' h' x' y' = if bool_decide (on s x' y') then image d s (gmem g) x y w h x' y' else None).
    { intros x' y' [Hdx Hdy]. unfold image. case_bool_decide as Hs'; [destruct Hs'; shapes|].
      destruct (_ && _ && _ && _) eqn:Ein; [|done]. bool_to_prop. exfalso. apply Hs'. split; lia. }
    fold (same_format d s). rewrite (row_bytes_small d w' Hd) by lia.
    destruct (same_format d s) eqn:Ef; (apply (wp_mono _ (λ _ g', painted d g g' (image d s (gmem g) x y w' h'))); [|intros [] g' P; eapply painted_ext; [exact P|exact Himg]]).
    + assert (Eb : bytes_per_pixel d = bytes_per_pixel s) by (unfold same_format in Ef; bool_to_prop; unfold bytes_per_pixel; congruence).
      apply copy_rows_wp; try done; try lia. intros row Hr. rewrite !(u32_small (y + row)) by (unfold is_u32; lia).
      rewrite (row_address d), Eb, (row_address s) by (done || (split; lia)). done.
    + apply copy_pixels_wp; try done; try lia. intros row col Hr Hc. by rewrite !(u32_small (x + col)), !(u32_small (y + row)) by (unfold is_u32; lia).
Qed.

Lemma blit_wp g : bytes_ok (gmem g) → surface_mapped d (gmem g) → surface_mapped s (gmem g) →
  wp (graphics_blit (Some d) (Some s))
    (λ _ g', painted d g g' (λ x' y', if bool_decide (on s x' y') then converted d s <$> pixel s (gmem g) x' y' else None)) g.
Proof.
  intros Hb Md Ms. unfold graphics_blit. apply (if_valid_wp d Hd), (if_valid_wp s Hs).
  pose proof (surface_extent d Hd). pose proof (surface_extent s Hs).
  set (mw := if width d <? width s then width d else width s). set (mh := if height d <? height s then height d else height s).
  assert (Hmw : mw = Z.min (width d) (width s)) by (unfold mw; destruct (Z.ltb_spec (width d) (width s)); lia).
  assert (Hmh : mh = Z.min (height d) (height s)) by (unfold mh; destruct (Z.ltb_spec (height d) (height s)); lia). clearbody mw mh.
  assert (Himg : ∀ x' y', on d x' y' → image d s (gmem g) 0 0 mw mh x' y' = if bool_decide (on s x' y') then converted d s <$> pixel s (gmem g) x' y' else None).
  { intros x' y' [Hdx Hdy]. unfold image. case_bool_decide as Hs'; [destruct Hs'; shapes|].
    destruct (_ && _ && _ && _) eqn:Ein; [|done]. bool_to_prop. exfalso. apply Hs'. split; lia. }
  fold (same_format d s). rewrite (row_bytes_small d mw Hd) by lia.
  assert (Hrow : ∀ t row, surface_ok t → 0 ≤ row < height t → pixels t +% (row *% pitch t) = addr t 0 (0 + row)).
  { intros t row Ht Hr. pose proof (surface_extent t Ht). rewrite <- (row_address t 0 (0 + row)) by (done || (split; lia)). rewrite Z.add_0_l, Z.mul_0_l.
    change (u32 0) with 0. rewrite Z.add_0_r. by rewrite (u32_small (u32 _)) by apply u32_range. }
  destruct (same_format d s) eqn:Ef; (apply (wp_mono _ (λ _ g', painted d g g' (image d s (gmem g) 0 0 mw mh))); [|intros [] g' P; eapply painted_ext; [exact P|exact Himg]]).
  - apply copy_rows_wp; try done; try lia. intros row Hr. by rewrite (Hrow d), (Hrow s) by (done || lia).
  - by apply copy_pixels_wp; try done; try lia.
Qed.
End blit.

(** ** A surface on itself

    Without memory for a back buffer the desktop draws on the screen, and copies the
    screen to itself. *)

Lemma copy_self_wp a count g : bytes_ok (gmem g) → 0 ≤ count < 2 ^ 32 - 4 → 0 ≤ a → a + count ≤ 2 ^ 32 → mapped (gmem g) a count →
  wp (graphics_copy_bytes a a count) (λ _ g', g' = g) g.
Proof.
  intros Hb Hc Ha He Hm. eapply wp_mono; [apply copy_bytes_wp; auto|]. intros [] g' [Eg (Hch & _ & Hcp)]. rewrite Eg. transitivity (set_gmem (gmem g) g); [f_equal|by destruct g].
  apply map_eq. intros b. destruct (decide (a ≤ b < a + count)) as [Hin|Hout]; [|by apply Hch]. replace b with (a + (b - a)) by lia. apply Hcp. lia.
Qed.

Lemma same_state_for lo hi (body : Z → M gfx unit) g : lo ≤ hi → (∀ i, lo ≤ i < hi → wp (body i) (λ _ g', g' = g) g) → wp (for_ lo hi body) (λ _ g', g' = g) g.
Proof. intros Hle Hb. apply (wp_for _ _ _ (λ _ g', g' = g)); [done|done| |done]. intros i g1 Hi ->. by apply Hb. Qed.

Section self.
Context (s : graphics_surface) (g : gfx).
Hypothesis Hok : surface_ok s.
Hypothesis Hmap : surface_mapped s (gmem g).
Hypothesis Hb : bytes_ok (gmem g).
Hypothesis Hsmall : width s ≤ 65536.

Lemma row_self_wp x y w : on s x y → 0 ≤ w → x + w ≤ width s → wp (graphics_copy_bytes (addr s x y) (addr s x y) (w * bytes_per_pixel s)) (λ _ g', g' = g) g.
Proof.
  intros [Hox Hoy] Hw Hxw. destruct (row_block x y w 1 (proj1 Hox) (proj1 Hoy) Hw s 0 Hok) as [R1 R2]; [lia..|]. rewrite Z.add_0_r in R1, R2.
  destruct (bpp_cases s Hok) as [_ Hbp]. pose proof Hok as [_ ? ? ? ? ?]. apply copy_self_wp; [done|nia|lia|lia|]. eapply mapped_sub; [exact Hmap|lia|lia].
Qed.

Lemma blit_self_wp : wp (graphics_blit (Some s) (Some s)) (λ _ g', g' = g) g.
Proof.
  unfold graphics_blit. do 2 apply (if_valid_wp s Hok). rewrite !Z.ltb_irrefl, !Z.eqb_refl. cbn [andb]. pose proof (surface_extent s Hok). apply same_state_for; [lia|]. intros y Hy. rewrite (row_bytes_small s (width s) Hok) by lia.
  pose proof (row_address s 0 y Hok ltac:(split; lia)) as E. rewrite Z.mul_0_l in E. change (u32 0) with 0 in E. rewrite Z.add_0_r, (u32_small (u32 _)) in E by apply u32_range. rewrite E. apply row_self_wp; [split; lia|lia|lia].
Qed.

Lemma blit_rect_self_wp x y w h : 0 ≤ x → 0 ≤ y → 0 ≤ w → 0 ≤ h → x + w < 2 ^ 32 → y + h < 2 ^ 32 → wp (graphics_blit_rect (Some s) (Some s) x y w h) (λ _ g', g' = g) g.
Proof.
  intros Hx Hy Hw Hh Hxw Hyh. unfold graphics_blit_rect. do 2 apply (if_valid_wp s Hok). rewrite !Z.ltb_irrefl, !Z.eqb_refl. cbn [andb]. pose proof (surface_extent s Hok). destruct (_ || _) eqn:E; [by wp_step|]. bool_to_prop.
  rewrite (u32_small (x + w)), (u32_small (y + h)), (u32_small (width s - x)), (u32_small (height s - y)) by (unfold is_u32; lia).
  set (w' := if width s <? x + w then _ else _). set (h' := if height s <? y + h then _ else _).
  assert (Hw' : 0 ≤ w' ∧ x + w' ≤ width s) by (unfold w'; destruct (Z.ltb_spec (width s) (x + w)); lia). assert (Hh' : 0 ≤ h' ∧ y + h' ≤ height s) by (unfold h'; destruct (Z.ltb_spec (height s) (y + h)); lia). clearbody w' h'.
  apply same_state_for; [lia|]. intros row Hrow. rewrite (u32_small (y + row)) by (unfold is_u32; lia). rewrite (row_bytes_small s w' Hok), (row_address s) by (done || lia || (split; lia)). apply row_self_wp; [split; lia|lia|lia].
Qed.
End self.
