(* ===== verification/GraphicsProps.v ===== *)
(** * The properties of graphics.c

    Pixels, rectangles, characters, copies and the self test, with a small
    surface on which they are evaluated. *)

From Stdlib Require Import ZArith Lia Bool.
From stdpp Require Import base numbers list gmap sets.
From S2P Require Import Prelude Memory Graphics GraphicsPaint GraphicsBlit.

(** ** A paint determines the memory *)

Lemma load_inj n m1 m2 a v : bytes_ok m1 → bytes_ok m2 → load n m1 a = Some v → load n m2 a = Some v →
  ∀ b, a ≤ b < a + Z.of_nat n → m1 !! b = m2 !! b.
Proof.
  intros H1 H2. revert a v. induction n as [|n IH]; intros a v E1 E2 b Hb; [lia|]. cbn [load] in *.
  destruct (m1 !! a) as [c1|] eqn:A1; [|done]. destruct (m2 !! a) as [c2|] eqn:A2; [|done]. cbn in E1, E2.
  destruct (load n m1 (a + 1)) as [r1|] eqn:L1; [|done]. destruct (load n m2 (a + 1)) as [r2|] eqn:L2; [|done].
  injection E1 as E1. injection E2 as E2. pose proof (H1 _ _ A1) as B1. pose proof (H2 _ _ A2) as B2. unfold is_u8 in *.
  assert (c1 = c2 ∧ r1 = r2) as [-> ->] by lia. destruct (decide (b = a)) as [->|]; [congruence|]. eapply IH; [exact L1|exact L2|lia].
Qed.

(** Every address is a byte of one pixel or of none. *)
Lemma pixel_or_not s a : surface_ok s → (∃ x y, on s x y ∧ addr s x y ≤ a < addr s x y + bytes_per_pixel s) ∨
  (∀ x y, on s x y → ¬ (addr s x y ≤ a < addr s x y + bytes_per_pixel s)).
Proof.
  intros Hok. destruct (bpp_cases s Hok) as [_ Hb]. pose proof (surface_extent s Hok). pose proof (so_pitch s Hok).
  set (p := pitch s) in *. set (b := bytes_per_pixel s) in *. assert (Hp : 0 < p) by nia.
  set (k := a - pixels s). pose proof (Z.div_mod k p ltac:(lia)) as Ey. pose proof (Z.mod_pos_bound k p Hp) as Hr.
  pose proof (Z.div_mod (k mod p) b ltac:(lia)) as Ex. pose proof (Z.mod_pos_bound (k mod p) b ltac:(lia)) as Hrx.
  destruct (decide (0 ≤ k / p < height s ∧ (k mod p) / b < width s)) as [[Hy Hx]|Hne].
  - left. assert (0 ≤ (k mod p) / b) by (apply Z.div_pos; lia). exists ((k mod p) / b), (k / p). split; [by split|].
    unfold addr. fold p b. unfold k in *. lia.
  - right. intros x y Hon Ha. apply Hne. destruct (on_row s Hok x y Hon) as (A1 & A2 & A3 & A4). fold p b in A1, A2, A3, A4. unfold addr in Ha. fold p b in Ha.
    assert (Eky : k = p * y + (a - pixels s - p * y)) by (unfold k; lia).
    assert (Hkp : k / p = y) by (symmetry; apply (Z.div_unique k p y (a - pixels s - p * y)); [left; lia|done]).
    assert (Hkm : k mod p = a - pixels s - p * y) by (symmetry; apply (Z.mod_unique k p y); [left; lia|done]).
    destruct Hon as [Hx Hy]. rewrite Hkp. split; [done|]. rewrite Hkm.
    assert ((a - pixels s - p * y) / b = x) by (symmetry; apply (Z.div_unique _ b x (a - pixels s - p * y - b * x)); [left; lia|lia]). lia.
Qed.

Lemma paints_unique s m m1 m2 f : surface_ok s → surface_mapped s m → bytes_ok m → paints s m m1 f → paints s m m2 f → m1 = m2.
Proof.
  intros Hok Hm Hb [P1 O1 M1 B1] [P2 O2 M2 B2]. apply map_eq. intros a. destruct (pixel_or_not s a Hok) as [(x & y & Hon & Ha)|Hout]; [|by rewrite O1, O2].
  destruct (pixel_is_Some s Hok m x y Hm Hon) as [v Ev].
  assert (Hv : ∃ v', pixel s m1 x y = Some v' ∧ pixel s m2 x y = Some v').
  { rewrite P1, P2 by done. destruct (f x y); eauto. }
  destruct Hv as (v' & V1 & V2). eapply load_inj; [by apply B1|by apply B2|exact V1|exact V2|]. by rewrite (pixel_size_eq s Hok).
Qed.

Lemma painted_unique s g g1 g2 f : surface_ok s → surface_mapped s (gmem g) → bytes_ok (gmem g) → painted s g g1 f → painted s g g2 f → g1 = g2.
Proof. intros Hok Hm Hb [E1 P1] [E2 P2]. rewrite E1, E2. by rewrite (paints_unique s _ _ _ f Hok Hm Hb P1 P2). Qed.

(** ** Reference definitions *)

(** Filling pixel by pixel, with no clipping but that of put_pixel. *)
Definition fill_by_pixels (s : graphics_surface) (x y w h color : Z) : M gfx unit :=
  for_ 0 h (λ row, for_ 0 w (λ col, graphics_put_pixel (Some s) (x + col) (y + row) color)).

Lemma fill_by_pixels_wp s x y w h color g : surface_ok s → surface_mapped s (gmem g) → 0 ≤ x → 0 ≤ y → 0 ≤ w → 0 ≤ h →
  wp (fill_by_pixels s x y w h color) (λ _ g', painted s g g' (rect x y w h (pixel_value s color))) g.
Proof.
  intros Hok Hm Hx Hy Hw Hh. set (v := pixel_value s color). unfold fill_by_pixels.
  apply (wp_for_paint s _ _ _ (λ row, rect x y w row v) (λ row, rect x (y + row) w 1 v)); [done| | | |done].
  - intros x' y' _. shapes.
  - intros row g1 Hr P1. apply (wp_for_paint s _ _ _ (λ col, rect x (y + row) col 1 v) (λ col, dot (x + col) (y + row) v)); [done| | | |done].
    + intros x' y' _. shapes.
    + intros col g2 Hc P2. apply put_pixel_wp; [done|eapply painted_mapped; [exact P2|by eapply painted_mapped]|lia|lia].
    + intros col x' y' Hc _. shapes.
  - intros row x' y' Hr _. shapes.
Qed.

(** The glyph that a string puts at a pixel. *)
Lemma glyphs_at x y str fg bg x' y' : glyphs x y str fg bg x' y' =
  match aread str ((x' - x) / 6) with
  | Some c => if (y <=? y') && (y' <? y + 8) then Some (if glyph_on c ((x' - x) mod 6) (y' - y) then fg else bg) else None
  | None => None
  end.
Proof.
  revert x. induction str as [|c str IH]; intros x; cbn [glyphs].
  - unfold aread. by destruct (0 <=? _).
  - unfold over. rewrite IH. replace (x' - (x + 6)) with ((x' - x) + (-1) * 6) by lia. rewrite Z.div_add, Z.mod_add by lia.
    pose proof (Z.div_mod (x' - x) 6 ltac:(lia)) as Ed. pose proof (Z.mod_pos_bound (x' - x) 6 ltac:(lia)) as Hr.
    set (q := (x' - x) / 6) in *. set (r := (x' - x) mod 6) in *. unfold aread, glyph.
    destruct (Z.leb_spec 0 (q + -1)), (Z.leb_spec 0 q); try lia.
    + replace (Z.to_nat q) with (S (Z.to_nat (q + -1))) by lia. cbn [lookup list_lookup].
      destruct (str !! Z.to_nat (q + -1)); [destruct (_ && _); [done|]|]; shapes.
    + assert (q = 0) as E0 by lia. rewrite E0 in *. cbn. replace (x' - x) with r by lia. shapes.
    + shapes.
Qed.

(** ** Properties *)

(** graphics_get_pixel returns what graphics_put_pixel stored, in each of the
    four pixel sizes; every other pixel reads as before, and no byte outside the
    surface's pixels changes. *)
Theorem graphics_put_get s x y color g : surface_ok s → surface_mapped s (gmem g) → bytes_ok (gmem g) → on s x y →
  ∃ g', graphics_put_pixel (Some s) x y color g = Some (tt, g') ∧
    graphics_get_pixel (Some s) x y g' = Some (pixel_value s color, g') ∧
    (∀ x' y', on s x' y' → x' ≠ x ∨ y' ≠ y →
       (fst <$> graphics_get_pixel (Some s) x' y' g') = (fst <$> graphics_get_pixel (Some s) x' y' g)) ∧
    (∀ a, a < pixels s ∨ pixels s + height s * pitch s ≤ a → gmem g' !! a = gmem g !! a).
Proof.
  intros Hok Hm Hb Hon. destruct (put_pixel_wp s Hok x y color g Hm) as ([] & g' & E & P); [apply Hon|apply Hon|].
  assert (Hget : ∀ g0 x' y' v, bytes_ok (gmem g0) → on s x' y' → pixel s (gmem g0) x' y' = Some v → graphics_get_pixel (Some s) x' y' g0 = Some (v, g0)).
  { intros g0 x' y' v Hb0 Hon' Hv. destruct (get_pixel_wp s Hok x' y' v g0 (λ a g1, a = v ∧ g1 = g0) Hb0 Hon' Hv) as (a & g1 & E1 & -> & ->); done. }
  pose proof (painted_bytes _ _ _ _ P Hb) as Hb'. exists g'. split; [done|]. destruct P as [_ P]. split_and!.
  - apply Hget; [done|done|]. rewrite (pt_pixel _ _ _ _ P x y Hon). unfold dot. by rewrite !Z.eqb_refl.
  - intros x' y' Hon' Hne. destruct (pixel_is_Some s Hok _ x' y' Hm Hon') as [v Ev].
    rewrite (Hget g x' y' v Hb Hon' Ev), (Hget g' x' y' v Hb' Hon'); [done|]. rewrite (pt_pixel _ _ _ _ P x' y' Hon'). unfold dot.
    destruct (Z.eqb_spec x' x) as [->|], (Z.eqb_spec y' y) as [->|]; cbn [andb]; try done. lia.
  - intros a Ha. apply (pt_outside _ _ _ _ P). intros x' y' Hon' Hin. destruct (addr_bounds s Hok x' y' Hon'). lia.
Qed.

(** graphics_fill_rect is equivalent to putting every pixel of the rectangle:
    the two leave the same memory, whatever part of the rectangle is off the
    surface, as long as its right and lower edges do not overflow 32 bits. *)
Theorem graphics_fill_rect_equiv s x y w h color g : surface_ok s → surface_mapped s (gmem g) → bytes_ok (gmem g) →
  is_u32 x → is_u32 y → is_u32 w → is_u32 h → x + w < 2 ^ 32 → y + h < 2 ^ 32 →
  ∃ g', graphics_fill_rect (Some s) x y w h color g = Some (tt, g') ∧ fill_by_pixels s x y w h color g = Some (tt, g').
Proof.
  intros Hok Hm Hb [Hx _] [Hy _] [Hw _] [Hh _] Hxw Hyh.
  destruct (fill_rect_wp s Hok x y w h color g) as ([] & g1 & E1 & P1); try done.
  destruct (fill_by_pixels_wp s x y w h color g) as ([] & g2 & E2 & P2); try done.
  exists g1. split; [done|]. by rewrite (painted_unique s g g1 g2 _ Hok Hm Hb P1 P2).
Qed.

(** graphics_blit_rect paints the source's pixels: in the part of the rectangle
    that lies on both surfaces each pixel of the destination becomes the pixel of
    the source (through put_pixel's conversion when the formats differ), every
    other pixel and every byte elsewhere stays. The copy of whole rows in words
    and the copy pixel by pixel are both covered. *)
Theorem graphics_blit_rect_spec d s x y w h g : surface_ok d → surface_ok s → disjoint_surfaces d s →
  bytes_ok (gmem g) → surface_mapped d (gmem g) → surface_mapped s (gmem g) →
  is_u32 x → is_u32 y → is_u32 w → is_u32 h → x + w < 2 ^ 32 → y + h < 2 ^ 32 →
  ∃ g', graphics_blit_rect (Some d) (Some s) x y w h g = Some (tt, g') ∧
    (∀ x' y', on d x' y' → pixel d (gmem g') x' y' =
       if bool_decide (on s x' y' ∧ x ≤ x' < x + w ∧ y ≤ y' < y + h) then converted d s <$> pixel s (gmem g) x' y' else pixel d (gmem g) x' y') ∧
    (∀ a, a < pixels d ∨ pixels d + height d * pitch d ≤ a → gmem g' !! a = gmem g !! a).
Proof.
  intros Hd Hs Hds Hb Md Ms [Hx _] [Hy _] [Hw _] [Hh _] Hxw Hyh.
  destruct (blit_rect_wp d s Hd Hs Hds x y w h g) as ([] & g' & E & _ & P); try done. exists g'. split; [done|]. split.
  - intros x' y' Hon. rewrite (pt_pixel _ _ _ _ P x' y' Hon). unfold image.
    case_bool_decide as H1; case_bool_decide as H2; try tauto.
    + destruct (pixel_is_Some s Hs (gmem g) x' y' Ms H1) as [v Ev]. rewrite Ev. cbn. destruct H2 as (_ & ? & ?). shapes.
    + destruct (_ && _ && _ && _) eqn:Ein; [|done]. bool_to_prop. exfalso. apply H2. split_and!; (done || lia).
  - intros a Ha. apply (pt_outside _ _ _ _ P). intros x' y' Hon' Hin. destruct (addr_bounds d Hd x' y' Hon'). lia.
Qed.

(** graphics_draw_string draws the glyphs of the characters up to the terminator
    side by side, six pixels apart and eight high, clipped to the surface; all
    other pixels stay. *)
Theorem graphics_draw_string_spec s x y str rest fg bg g : surface_ok s → surface_mapped s (gmem g) →
  Forall (λ c, c ≠ 0) str → 0 ≤ x → 0 ≤ y → y + 8 < 2 ^ 32 → x + 6 * Z.of_nat (length str) < 2 ^ 32 →
  ∃ g', graphics_draw_string (Some s) x y (str ++ 0 :: rest) fg bg g = Some (tt, g') ∧
    ∀ x' y', on s x' y' → pixel s (gmem g') x' y' =
      match aread str ((x' - x) / 6) with
      | Some c => if (y <=? y') && (y' <? y + 8)
                  then Some (pixel_value s (if glyph_on c ((x' - x) mod 6) (y' - y) then fg else bg)) else pixel s (gmem g) x' y'
      | None => pixel s (gmem g) x' y'
      end.
Proof.
  intros Hok Hm Hc Hx Hy Hy8 Hxw. assert (Hl : Z.of_nat (length ([] ++ str)) < 2 ^ 32 - 1) by (cbn [app]; lia).
  destruct (draw_string_wp s Hok y [] str rest fg bg x (S (length (str ++ 0 :: rest))) g Hm Hx Hy Hy8 Hxw Hl Hc) as ([] & g' & E & _ & P); [rewrite length_app; lia|].
  exists g'. split; [exact E|]. intros x' y' Hon. rewrite (pt_pixel _ _ _ _ P x' y' Hon), glyphs_at.
  destruct (aread str _); [|done]. destruct (_ && _); [|done]. by destruct (glyph_on _ _ _).
Qed.

(** graphics_self_test passes wherever its array is: clearing, filling and
    framing leave the four sampled pixels with the expected colours. *)
Theorem graphics_self_test_passes g a : 0 < a → a + 64 * 48 * 4 ≤ 2 ^ 32 → mapped (gmem g) a (64 * 48 * 4) →
  ∃ g', graphics_self_test a g = Some (true, g') ∧ ∀ b, b < a ∨ a + 64 * 48 * 4 ≤ b → gmem g' !! b = gmem g !! b.
Proof.
  intros Ha He Hm. set (s := Surface a 64 48 (64 * 4) 32 GRAPHICS_PIXEL_FORMAT_XRGB8888).
  assert (Eb : bytes_per_pixel s = 4) by reflexivity.
  assert (Hok : surface_ok s) by (split; cbn -[Z.pow]; rewrite ?Eb; cbn -[Z.pow]; auto; lia).
  assert (Hms : surface_mapped s (gmem g)) by exact Hm.
  enough (W : wp (graphics_self_test a) (λ r g', r = true ∧ ∃ f, painted s g g' f) g).
  { destruct W as (r & g' & E & -> & f & _ & P). exists g'. split; [done|]. intros b Hb'. apply (pt_outside _ _ _ _ P). intros x y Hon Hin.
    destruct (addr_bounds s Hok x y Hon). cbn in *. lia. }
  unfold graphics_self_test. fold s. wp_step. eapply wp_mono; [by apply (clear_surface_wp s Hok)|]. intros [] g1 P1.
  wp_step. eapply wp_mono; [apply (fill_rect_wp s Hok); [by eapply painted_mapped|lia..]|]. intros [] g2 P2. pose proof (painted_over _ _ _ _ _ _ P1 P2) as P12.
  wp_step. eapply wp_mono; [apply (draw_rect_wp s Hok); [by eapply painted_mapped|lia..]|]. intros [] g3 P3. pose proof (painted_over _ _ _ _ _ _ P12 P3) as P13.
  set (f := over _ _) in P13.
  assert (Hread : ∀ x y k v, on s x y → k = y * 64 + x → f x y = Some v → load 4 (gmem g3) (a +% k * 4) = Some v).
  { intros x y k v Hon -> Hv. destruct P13 as [_ P]. pose proof (pt_pixel _ _ _ _ P x y Hon) as Hp. rewrite Hv in Hp. unfold pixel in Hp.
    destruct (addr_bounds s Hok x y Hon). rewrite u32_small; [|unfold is_u32, addr in *; cbn in *; lia]. rewrite <- Hp. f_equal. unfold addr. cbn. rewrite Eb. lia. }
  wp_step. eapply read_mem_wp; [apply (Hread 0 0 _ 0x00102030); [split; cbn; lia|done|reflexivity]|]. cbn [negb Z.eqb Pos.eqb].
  wp_step. eapply read_mem_wp; [apply (Hread 4 5 _ 0x00AA3300); [split; cbn; lia|done|reflexivity]|].  cbn [negb Z.eqb Pos.eqb].
  wp_step. eapply read_mem_wp; [apply (Hread 2 3 _ 0x0000CC66); [split; cbn; lia|done|reflexivity]|].  cbn [negb Z.eqb Pos.eqb].
  wp_step. eapply read_mem_wp; [apply (Hread 31 22 _ 0x0000CC66); [split; cbn; lia|done|reflexivity]|].  wp_step. split; [done|]. by exists f.
Qed.

(** ** A small surface *)

(** Eight by four pixels of 24 bits with a padded pitch, and one of 32 bits after it. *)
Definition small24 : graphics_surface := Surface 4096 8 4 32 24 GRAPHICS_PIXEL_FORMAT_RGB888.
Definition small32 : graphics_surface := Surface 4224 4 2 16 32 GRAPHICS_PIXEL_FORMAT_XRGB8888.
Definition small_gfx : gfx := Gfx (mem_block 4096 160) small24 true.

Lemma small24_ok : surface_ok small24.
Proof. split; cbv; auto; congruence. Qed.
Lemma small32_ok : surface_ok small32.
Proof. split; cbv; auto; congruence. Qed.
Lemma small24_mapped : surface_mapped small24 (gmem small_gfx).
Proof. eapply mapped_sub; [apply mem_block_mapped|cbn; lia|cbn; lia]. Qed.
Lemma small32_mapped : surface_mapped small32 (gmem small_gfx).
Proof. eapply mapped_sub; [apply mem_block_mapped|cbn; lia|cbn; lia]. Qed.

Lemma graphics_put_get_witness : ∃ g', graphics_put_pixel (Some small24) 3 2 0x123456 small_gfx = Some (tt, g') ∧
  graphics_get_pixel (Some small24) 3 2 g' = Some (0x123456, g').
Proof.
  destruct (graphics_put_get small24 3 2 0x123456 small_gfx small24_ok small24_mapped (mem_block_bytes _ _)) as (g' & E & G & _); [split; cbn; lia|].
  exists g'. exact (conj E G).
Defined.

Lemma graphics_fill_rect_equiv_witness : ∃ g', graphics_fill_rect (Some small24) 5 1 20 2 0xC0FFEE small_gfx = Some (tt, g') ∧
  fill_by_pixels small24 5 1 20 2 0xC0FFEE small_gfx = Some (tt, g').
Proof. apply (graphics_fill_rect_equiv small24 5 1 20 2 0xC0FFEE small_gfx small24_ok small24_mapped (mem_block_bytes _ _)); unfold is_u32; lia. Defined.

Lemma graphics_blit_rect_spec_witness : ∃ g', graphics_blit_rect (Some small24) (Some small32) 1 0 9 9 small_gfx = Some (tt, g') ∧
  pixel small24 (gmem g') 3 1 = Some (pixel_value small24 0).
Proof.
  destruct (graphics_blit_rect_spec small24 small32 1 0 9 9 small_gfx small24_ok small32_ok) as (g' & E & P & _); try (unfold is_u32; lia).
  - left. cbn. lia.
  - apply mem_block_bytes.
  - exact small24_mapped.
  - exact small32_mapped.
  - exists g'. split; [exact E|]. rewrite P by (split; cbn; lia). vm_compute. reflexivity.
Defined.

Lemma graphics_draw_string_spec_witness : ∃ g', graphics_draw_string (Some small24) 1 0 [76; 105; 0] 0xFFFFFF 0 small_gfx = Some (tt, g') ∧
  pixel small24 (gmem g') 1 3 = Some 0xFFFFFF.
Proof.
  destruct (graphics_draw_string_spec small24 1 0 [76; 105] [] 0xFFFFFF 0 small_gfx small24_ok small24_mapped) as (g' & E & P); try (cbn; lia).
  - repeat constructor; discriminate.
  - exists g'. split; [exact E|]. rewrite P by (split; cbn; lia). vm_compute. reflexivity.
Defined.

Lemma graphics_self_test_passes_witness :
  ∃ g', graphics_self_test 0x200000 (Gfx (mem_block 0x200000 (Z.to_nat (64 * 48 * 4))) small24 true) = Some (true, g').
Proof.
  destruct (graphics_self_test_passes (Gfx (mem_block 0x200000 (Z.to_nat (64 * 48 * 4))) small24 true) 0x200000) as (g' & E & _); [lia|lia| |exists g'; exact E].
  cbn [gmem]. eapply mapped_sub; [apply mem_block_mapped|lia|lia].
Defined.

(** ** What the code accepts or loses *)

(** A width whose product with the pixel size wraps passes the check of the pitch. *)
Example valid_accepts_wrapped_width : graphics_surface_is_valid (Some (Surface 4096 0x40000000 1 0 32 GRAPHICS_PIXEL_FORMAT_XRGB8888)) = true.
Proof. reflexivity. Qed.

(** Dark true-colour pixels are taken for palette indices: a blit between formats
    turns the pixel 0x000005 into magenta. *)
Example blit_garbles_dark_pixels :
  (a ← write_mem 1 (addr small24 0 0) 5 small_gfx;
   b ← graphics_get_pixel (Some small24) 0 0 a.2;
   c ← graphics_blit (Some small32) (Some small24) b.2;
   d ← graphics_get_pixel (Some small32) 0 0 c.2; Some (b.1, d.1)) = Some (5, 0xAA00AA).
Proof. vm_compute. reflexivity. Qed.

(** A width that makes [x + width] wrap is not clipped: the row runs off the surface
    to the end of the accessible memory. *)
Example fill_rect_unclipped : graphics_fill_rect (Some small32) 1 0 0xFFFFFFFF 1 7 small_gfx = None.
Proof.
  unfold graphics_fill_rect, for_, for_exit. cbn [if_valid graphics_surface_is_valid].
  change (if width small32 <? 1 +% 4294967295 then width small32 -% 1 else 4294967295) with 4294967295.
  replace (Z.to_nat (4294967295 - 0)) with (8 + Z.to_nat 4294967287)%nat by lia.
  generalize (Z.to_nat 4294967287). intros n. vm_compute. reflexivity.
Qed.
