(* ===== verification/Display.v ===== *)
(** * The terminal on the framebuffer

    The terminal of Vga.v is proved against the class [CanvasLaws]; here the
    functions of graphics.c on the primary surface are shown to keep these laws,
    so that what the terminal promises holds of the pixels in memory. *)

From Stdlib Require Import ZArith Lia Bool String.
From stdpp Require Import base numbers list gmap sets strings.
From S2P Require Import Prelude Memory Runtime Vga Graphics GraphicsPaint GraphicsBlit.

(** The primary surface is in accessible memory and has room for 53 by 24 cells. *)
Record screen_ok (g : gfx) : Prop := {
  sk_surface : surface_ok (primary_surface g);
  sk_mapped : surface_mapped (primary_surface g) (gmem g);
  sk_width : 318 ≤ width (primary_surface g) < 2 ^ 31;
  sk_height : 192 ≤ height (primary_surface g) < 2 ^ 31 }.

(** The pixels of the cell are those of the character's glyph on black. *)
Definition cell_pixels (g : gfx) (x y c fg : Z) : Prop :=
  ∀ col row, 0 ≤ col < 6 → 0 ≤ row < 8 →
    pixel (primary_surface g) (gmem g) (x * 6 + col) (y * 8 + row) =
      Some (pixel_value (primary_surface g) (if glyph_on c col row then fg else 0)).

(** The operations of the terminal, all on the primary surface. *)
#[export] Instance framebuffer : Canvas gfx := {|
  Vga.graphics_primary_surface_mut :=
    s ← Graphics.graphics_primary_surface_mut; mret (match s with Some _ => true | None => false end);
  Vga.graphics_draw_char x y c fg bg :=
    s ← Graphics.graphics_primary_surface_mut; Graphics.graphics_draw_char s x y c fg bg;
  Vga.graphics_clear color :=
    s ← Graphics.graphics_primary_surface_mut; Graphics.graphics_clear s color |}.

Lemma painted_primary s g g' f : painted s g g' f → primary_surface g' = primary_surface g ∧ primary_surface_ready g' = primary_surface_ready g.
Proof. intros [-> _]. by destruct g. Qed.

Lemma painted_screen_ok g g' f : painted (primary_surface g) g g' f → screen_ok g → screen_ok g'.
Proof.
  intros P [H1 H2 H3 H4]. destruct (painted_primary _ _ _ _ P) as [E _]. split; rewrite ?E; try done. by eapply painted_mapped.
Qed.

(** A glyph drawn at a cell covers this cell and no other. *)
Lemma glyph_in_cell x y c v b x' y' col row : 0 ≤ col < 6 → 0 ≤ row < 8 →
  glyph (x * 6) (y * 8) c v b (x' * 6 + col) (y' * 8 + row) =
    if bool_decide (x' = x ∧ y' = y) then Some (if glyph_on c col row then v else b) else None.
Proof.
  intros Hc Hr. unfold glyph. case_bool_decide as E; [|shapes].
  destruct E as [-> ->]. replace (x * 6 + col - x * 6) with col by lia. replace (y * 8 + row - y * 8) with row by lia. shapes.
Qed.

Lemma cell_on g x y col row : screen_ok g → 0 ≤ x < 53 → 0 ≤ y < 24 → 0 ≤ col < 6 → 0 ≤ row < 8 →
  on (primary_surface g) (x * 6 + col) (y * 8 + row).
Proof. intros [_ _ Hw Hh] Hx Hy Hc Hr. split; lia. Qed.

Lemma space_blank col row : 0 ≤ row < 8 → glyph_on 32 col row = false.
Proof.
  intros Hr. unfold glyph_on. replace (glyph_row 32 row) with 0; [rewrite Z.shiftr_0_l; apply andb_false_r|].
  unfold glyph_row. cbn. by destruct (7 <=? row).
Qed.

#[export, program] Instance framebuffer_laws : CanvasLaws gfx := {|
  canvas_ok g := primary_surface_ready g = true → screen_ok g;
  has_surface := primary_surface_ready;
  cell_shows := cell_pixels |}.
Next Obligation.
  intros g. cbn. unfold Graphics.graphics_primary_surface_mut. do 3 wp_step. by destruct (primary_surface_ready g).
Qed.
Next Obligation.
  intros x y c fg g Hok Hr Hx Hy Hfg. specialize (Hok Hr). cbn. unfold Graphics.graphics_primary_surface_mut. do 2 wp_step. rewrite Hr.
  eapply wp_mono; [apply (draw_char_wp _ (sk_surface g Hok)); [apply Hok|lia..]|]. intros [] g' P.
  destruct (painted_primary _ _ _ _ P) as [Es Er]. split_and!.
  - intros _. by eapply painted_screen_ok.
  - congruence.
  - intros col row Hc Hrow. rewrite Es. destruct P as [_ P]. rewrite (pt_pixel _ _ _ _ P) by (by apply cell_on).
    rewrite glyph_in_cell, bool_decide_eq_true_2 by done. by destruct (glyph_on c col row).
  - intros x' y' c' fg' Hx' Hy' Hne Hold col row Hc Hrow. rewrite Es. destruct P as [_ P]. rewrite (pt_pixel _ _ _ _ P) by (by apply cell_on).
    rewrite glyph_in_cell, bool_decide_eq_false_2 by (done || lia). by apply Hold.
Qed.
Next Obligation.
  intros g Hok Hr. specialize (Hok Hr). cbn. unfold Graphics.graphics_primary_surface_mut. do 2 wp_step. rewrite Hr.
  eapply wp_mono; [apply (clear_surface_wp _ (sk_surface g Hok)); apply Hok|]. intros [] g' P.
  destruct (painted_primary _ _ _ _ P) as [Es Er]. split_and!.
  - intros _. by eapply painted_screen_ok.
  - congruence.
  - intros x y fg Hx Hy col row Hc Hrow. rewrite Es, space_blank by done. destruct P as [_ P]. by rewrite (pt_pixel _ _ _ _ P) by (by apply cell_on).
Qed.

(** ** Properties *)

(** A terminal that shows the text [T] in the one colour it writes in: so it is after
    terminal_initialize and terminal_clear, and as long as the colour is not changed. *)
Definition shows_plain (t : term gfx) (T : text) : Prop := shows_in true (λ k, k = terminal_color t) t T.

Lemma initialize_shows_plain (t : term gfx) f g : grid_is (terminal_chars t) f → grid_is (terminal_colors t) g → screen_ok (surface t) → primary_surface_ready (surface t) = true →
  ∃ t', terminal_initialize t = Some (tt, t') ∧ shows_plain t' (Text [] []) ∧ terminal_color t' = 7.
Proof.
  intros Hc Hk Ho Hr. assert (Hcan : canvas_ok (surface t)) by (intros _; exact Ho).
  destruct (clear_wp true (λ k, k = 7) (set_color (vga_entry_color 7 0) (set_column 0 (set_row 0 t))) f g Hc Hk Hcan Hr eq_refl) as ([] & t' & E & Hs & Hcol).
  exists t'. split; [exact E|]. unfold shows_plain. by rewrite Hcol.
Qed.

(** C37. What the terminal shows is in the framebuffer. After terminal_writestring with any
    string, on a terminal that shows the text [T] in the colour it writes in (as after
    terminal_initialize) on a surface of any depth with room for it, every pixel of the 53
    by 24 cells is: the colour of the terminal where the glyph of the character visible in that cell has a
    dot, and black where it has none. The visible characters are those of the last 24 lines of
    [T] with the string typed after it. The terminal still shows them in its colour, so
    that the next string can follow. *)
Theorem terminal_text_in_pixels (t : term gfx) T str rest : shows_plain t T → Forall (λ c, c ≠ 0) str →
  ∃ t', terminal_writestring (str ++ 0 :: rest) t = Some (tt, t') ∧ shows_plain t' (foldl type_char T str) ∧ terminal_color t' = terminal_color t ∧
    ∀ x y col row, 0 ≤ x < 53 → 0 ≤ y < 24 → 0 ≤ col < 6 → 0 ≤ row < 8 →
      pixel (primary_surface (surface t')) (gmem (surface t')) (x * 6 + col) (y * 8 + row) =
        Some (pixel_value (primary_surface (surface t'))
          (if glyph_on (visible (foldl type_char T str) y x) col row then color_to_graphics (terminal_color t) else 0)).
Proof.
  intros Hs Hc. destruct (writestring_in true _ t T str rest Hs Hc) as (t' & E & Hs' & Hk). exists t'. split; [exact E|]. split; [unfold shows_plain; by rewrite Hk|]. split; [done|].
  destruct (sh_screen _ _ _ _ Hs') as (k & [_ _ _ _ Hsh] & Hi). intros x y col row Hx Hy Hcol Hrow. rewrite <- (Hi y x Hy Hx). by apply (Hsh eq_refl y x Hy Hx col row).
Qed.

(** ** The screen of mode 13h *)

Definition vga_surface : graphics_surface := Surface 0xA0000 320 200 320 8 GRAPHICS_PIXEL_FORMAT_INDEXED8.

Lemma vga_surface_screen m b : mapped m 0xA0000 64000 → screen_ok (Gfx m vga_surface b).
Proof.
  intros Hm. split.
  - split; cbv; auto; congruence.
  - exact Hm.
  - cbn; lia.
  - cbn; lia.
Qed.

(** Without boot information the primary surface is the 320 by 200 window of the
    VGA, whose memory the terminal needs. *)
Lemma graphics_initialize_vga g : mapped (gmem g) 0xA0000 64000 →
  wp (graphics_initialize None) (λ _ g', gmem g' = gmem g ∧ primary_surface_ready g' = true ∧ screen_ok g') g.
Proof. intros Hm. unfold graphics_initialize. do 3 wp_step. split_and!; [done|done|by apply vga_surface_screen]. Qed.

Definition vga_memory : mem := mem_block 0xA0000 (Z.to_nat 64000).
Definition vga_gfx : gfx := Gfx vga_memory vga_surface true.
Definition vga_term : term gfx := Term 0 0 7 (replicate 24 (replicate 53 32)) (replicate 24 (replicate 53 7)) vga_gfx.

Lemma vga_memory_lookup a : 0xA0000 ≤ a < 0xA0000 + 64000 → vga_memory !! a = Some 0.
Proof. intros Ha. unfold vga_memory. rewrite mem_block_lookup, decide_True; [done|]. rewrite Z2Nat.id by done. exact Ha. Qed.

Lemma vga_mapped : mapped vga_memory 0xA0000 64000.
Proof. intros a Ha. by rewrite vga_memory_lookup. Qed.

Lemma vga_screen_ok : screen_ok vga_gfx.
Proof. apply vga_surface_screen. exact vga_mapped. Qed.

Lemma vga_shows : shows_plain vga_term (Text [] []).
Proof.
  assert (Hv : ∀ y x, visible (Text [] []) y x = 32).
  { intros y x. unfold visible, line_at. cbn. destruct (_ =? _); unfold aread; destruct (0 <=? x); try done; by destruct (0 <=? _). }
  split; [|done|reflexivity|reflexivity|cbn; lia]. exists (λ _ _, 7). split; [|by intros y x _ _].
  split; [eapply grid_ext; [apply grid_replicate|intros; by rewrite Hv]|apply grid_replicate|intros _; exact vga_screen_ok|done|].
  intros _ y x Hy Hx col row Hc Hr. rewrite Hv, space_blank by done. change (surface vga_term) with vga_gfx.
  pose proof (cell_on vga_gfx x y col row vga_screen_ok Hx Hy Hc Hr) as Hon. destruct (addr_bounds _ (sk_surface _ vga_screen_ok) _ _ Hon) as [A1 A2].
  unfold pixel, vga_gfx in *. cbn [gmem primary_surface] in *. 
  change (pixel_size vga_surface) with 1%nat. change (bytes_per_pixel vga_surface) with 1 in A2. change (height vga_surface * pitch vga_surface) with 64000 in A2. change (pixels vga_surface) with 0xA0000 in A1, A2.
  cbn [load]. rewrite vga_memory_lookup by lia. reflexivity.
Qed.

(** The first dot of the M, in light grey. *)
Lemma terminal_text_in_pixels_witness : ∃ t', terminal_writestring (bytes_of "MyOS" ++ [0]) vga_term = Some (tt, t') ∧
  pixel (primary_surface (surface t')) (gmem (surface t')) 0 0 = Some (pixel_value (primary_surface (surface t')) 7).
Proof.
  destruct (terminal_text_in_pixels vga_term (Text [] []) (bytes_of "MyOS") [] vga_shows) as (t' & E & _ & _ & P); [repeat constructor; discriminate|].
  exists t'. refine (conj E _). exact (P 0 0 0 0 ltac:(lia) ltac:(lia) ltac:(lia) ltac:(lia)).
Defined.
