(* ===== verification/DiskCache.v ===== *)
(** * The sector cache of the file system, kernel/fs/diskfs/diskfs.c

    The raw sector access, the eight-slot write-back cache and its flush
    (lines 48-166), over a block device that may fail. The cache is
    transparent: it refines an array of sectors, and a successful flush makes
    the device agree with that array. *)

From Stdlib Require Import ZArith Lia Bool.
From stdpp Require Import base numbers list gmap.
From S2P Require Import Prelude.

Definition DISKFS_SECTOR_SIZE : Z := 512.
Definition DISKFS_TOTAL_SECTORS : Z := 4096.
Definition DISKFS_CACHE_SLOTS : Z := 8.

(** ** The block device *)

(** What kernel/drivers/storage/ata.c offers: both report success; a read that
    fails may have filled part of the buffer. *)
Class BlockDevice (D : Type) := {
  ata_read_sector : Z → list Z → M D (bool * list Z);
  ata_write_sector : Z → list Z → M D bool }.

(** The contract: a read changes no sector and a successful one returns the
    sector; a write touches its sector only and a successful one stores the
    buffer. A failed write may leave anything in its sector. Addresses have 28 bits.
    A device is [disk_ok] between the operations; one that is [working] does not fail
    and goes on working. The driver of ata.c keeps this contract, see Ata. *)
Class Disk (D : Type) `{BlockDevice D} := {
  sector_at : D → Z → list Z;
  disk_ok : D → Prop;
  working : D → Prop;
  read_law lba buf d : is_u32 lba → length buf = 512%nat → disk_ok d →
    wp (ata_read_sector lba buf) (λ r d', disk_ok d' ∧
      (∀ l, sector_at d' l = sector_at d l) ∧ length (snd r) = 512%nat ∧
      (fst r = true → snd r = sector_at d lba) ∧ (working d → fst r = true ∧ working d')) d;
  write_law lba buf d : is_u32 lba → length buf = 512%nat → disk_ok d →
    wp (ata_write_sector lba buf) (λ ok d', disk_ok d' ∧
      (∀ l, l mod 2 ^ 28 ≠ lba mod 2 ^ 28 → sector_at d' l = sector_at d l) ∧ (ok = true → sector_at d' lba = buf) ∧
      (working d → ok = true ∧ working d')) d }.

(** ** Byte copies *)

(** [for (i = 0; i < size; i++) out[i] = in[i]], from [dst + doff] and
    [src + soff]. *)
Fixpoint mem_copy_loop (n : nat) (dst : list Z) (doff : Z) (src : list Z) (soff : Z) : option (list Z) :=
  match n with
  | O => Some dst
  | S n' =>
      c ← aread src soff;
      dst' ← awrite dst doff c;
      mem_copy_loop n' dst' (doff + 1) src (soff + 1)
  end.
Definition mem_copy (dst : list Z) (doff : Z) (src : list Z) (soff size : Z) : option (list Z) :=
  mem_copy_loop (Z.to_nat size) dst doff src soff.

Definition mem_zero (size : Z) : list Z := replicate (Z.to_nat size) 0.

Lemma mem_copy_spec dst a src b n : (a + n ≤ length dst)%nat → (b + n ≤ length src)%nat →
  mem_copy dst (Z.of_nat a) src (Z.of_nat b) (Z.of_nat n) =
  Some (take a dst ++ take n (drop b src) ++ drop (a + n) dst).
Proof.
  unfold mem_copy. rewrite Nat2Z.id. revert dst a b. induction n as [|n IH]; intros dst a b Ha Hb; cbn [mem_copy_loop].
  - by rewrite Nat.add_0_r, take_0, app_nil_l, take_drop.
  - destruct (lookup_lt_is_Some_2 src b ltac:(lia)) as [c Hc].
    assert (aread src (Z.of_nat b) = Some c) as -> by (apply aread_Some; rewrite Nat2Z.id; split; [lia|done]).
    cbn [mbind option_bind]. rewrite awrite_eq, Nat2Z.id by lia. cbn [mbind option_bind].
    replace (Z.of_nat a + 1) with (Z.of_nat (S a)) by lia. replace (Z.of_nat b + 1) with (Z.of_nat (S b)) by lia.
    rewrite IH by (rewrite ?length_insert; lia). f_equal.
    rewrite (drop_S _ _ _ Hc). cbn [take app].
    rewrite (take_S_r _ _ c) by (apply list_lookup_insert_eq; lia).
    rewrite take_insert_ge, drop_insert_lt by lia. rewrite <- app_assoc. cbn. by rewrite <- Nat.add_succ_comm.
Qed.

(** A copy of a whole sector. *)
Lemma mem_copy_sector dst src : length dst = 512%nat → length src = 512%nat →
  mem_copy dst 0 src 0 DISKFS_SECTOR_SIZE = Some src.
Proof.
  intros Hd Hs. change (mem_copy dst 0 src 0 DISKFS_SECTOR_SIZE) with
    (mem_copy dst (Z.of_nat 0) src (Z.of_nat 0) (Z.of_nat 512)).
  rewrite mem_copy_spec by lia. rewrite drop_0, take_0. cbn [app].
  by rewrite take_ge, drop_ge, app_nil_r by lia.
Qed.

Section cache.
Context {D : Type} `{BlockDevice D}.

Record cache_entry := CacheEntry { valid : bool; dirty : bool; ce_sector : Z; data : list Z }.

(** [fs_start_lba], [cache], [cache_clock] and the device. *)
Record store := Store {
  fs_start_lba : Z; cache : list cache_entry; cache_clock : Z; device : D }.

Definition set_cache v s := Store (fs_start_lba s) v (cache_clock s) (device s).
Definition set_cache_clock v s := Store (fs_start_lba s) (cache s) v (device s).
Definition set_device v s := Store (fs_start_lba s) (cache s) (cache_clock s) v.
Definition set_dirty v e := CacheEntry (valid e) v (ce_sector e) (data e).
Definition set_data v e := CacheEntry (valid e) (dirty e) (ce_sector e) v.
Definition set_valid v e := CacheEntry v (dirty e) (ce_sector e) (data e).

Definition on_device {A} (m : M D A) : M store A := zoom device set_device m.

(** ** Operations *)

Definition raw_read_sector (relative_sector : Z) (buffer : list Z) : M store (bool * list Z) :=
  if DISKFS_TOTAL_SECTORS <=? relative_sector then mret (false, buffer)
  else lba ← gets fs_start_lba; on_device (ata_read_sector (lba +% relative_sector) buffer).

Definition raw_write_sector (relative_sector : Z) (buffer : list Z) : M store bool :=
  if DISKFS_TOTAL_SECTORS <=? relative_sector then mret false
  else lba ← gets fs_start_lba; on_device (ata_write_sector (lba +% relative_sector) buffer).

(** A pointer to a cache entry is its index. *)
Definition get_entry (i : Z) : M store cache_entry := c ← gets cache; lift (aread c i).
Definition put_entry (i : Z) (e : cache_entry) : M store unit :=
  c ← gets cache; c' ← lift (awrite c i e); modify (set_cache c').

Definition cache_writeback (entry : Z) : M store bool :=
  e ← get_entry entry;
  if negb (valid e) || negb (dirty e) then mret true
  else
    ok ← raw_write_sector (ce_sector e) (data e);
    if negb ok then mret false
    else _ ← put_entry entry (set_dirty false e); mret true.

(** [None] is the null pointer. *)
Definition cache_get (sector : Z) (for_write : bool) : M store (option Z) :=
  clock ← gets cache_clock;
  let victim := clock mod DISKFS_CACHE_SLOTS in
  _ ← modify (set_cache_clock (clock +% 1));
  hit ← for_exit 0 DISKFS_CACHE_SLOTS (λ i,
    e ← get_entry i;
    if valid e && (ce_sector e =? sector) then
      _ ← when for_write (put_entry i (set_dirty true e));
      mret (Some i)
    else mret None);
  match hit with
  | Some i => mret (Some i)
  | None =>
      ok ← cache_writeback victim;
      if negb ok then mret None
      else
        e ← get_entry victim;
        r ← raw_read_sector sector (data e);
        if negb (fst r) then
          _ ← put_entry victim (set_valid false (set_data (snd r) e)); mret None
        else
          _ ← put_entry victim (CacheEntry true for_write sector (snd r)); mret (Some victim)
  end.

(** The result is the return value and the buffer afterwards. *)
Definition read_sector (relative_sector : Z) (buffer : list Z) : M store (bool * list Z) :=
  entry ← cache_get relative_sector false;
  match entry with
  | None => mret (false, buffer)
  | Some i => e ← get_entry i; b ← lift (mem_copy buffer 0 (data e) 0 DISKFS_SECTOR_SIZE); mret (true, b)
  end.

Definition write_sector (relative_sector : Z) (buffer : list Z) : M store bool :=
  entry ← cache_get relative_sector true;
  match entry with
  | None => mret false
  | Some i =>
      e ← get_entry i;
      d ← lift (mem_copy (data e) 0 buffer 0 DISKFS_SECTOR_SIZE);
      _ ← put_entry i (set_data d e);
      mret true
  end.

Fixpoint flush_from (n : nat) (i : Z) (ok : bool) : M store bool :=
  match n with
  | O => mret ok
  | S n' => b ← cache_writeback i; flush_from n' (i + 1) (if (b : bool) then ok else false)
  end.
Definition diskfs_flush : M store bool := flush_from (Z.to_nat DISKFS_CACHE_SLOTS) 0 true.
End cache.
Arguments store D : clear implicits.

(** ** Refinement: an array of sectors *)

Section refinement.
Context {D : Type} `{Disk D}.
Implicit Types s : store D.

(** What the device holds for a sector of the file system. *)
Definition on_disk s (n : Z) : list Z := sector_at (device s) (u32 (fs_start_lba s + n)).
Definition in_range (n : Z) : Prop := 0 ≤ n < DISKFS_TOTAL_SECTORS.
Definition cached s (n : Z) : Prop := ∃ i e, cache s !! i = Some e ∧ valid e = true ∧ ce_sector e = n.

(** The cache and the device together represent the array [v]. *)
Record store_rep s (v : Z → list Z) : Prop := {
  sr_len : length (cache s) = 8%nat;
  sr_clock : 0 ≤ cache_clock s;
  sr_data : ∀ i e, cache s !! i = Some e → length (data e) = 512%nat;
  sr_valid : ∀ i e, cache s !! i = Some e → valid e = true →
    in_range (ce_sector e) ∧ data e = v (ce_sector e) ∧
    (dirty e = false → on_disk s (ce_sector e) = v (ce_sector e));
  sr_unique : ∀ i j e f, cache s !! i = Some e → cache s !! j = Some f →
    valid e = true → valid f = true → ce_sector e = ce_sector f → i = j;
  sr_disk : ∀ n, in_range n → ¬ cached s n → on_disk s n = v n;
  sr_device : disk_ok (device s) }.

(** Everything is on the device. *)
Definition synced s (v : Z → list Z) : Prop := ∀ n, in_range n → on_disk s n = v n.

Definition upd (v : Z → list Z) (n : Z) (b : list Z) : Z → list Z := λ m, if decide (m = n) then b else v m.

Lemma lba_inj a n m : in_range n → in_range m → u32 (a + n) mod 2 ^ 28 = u32 (a + m) mod 2 ^ 28 → n = m.
Proof.
  unfold in_range, DISKFS_TOTAL_SECTORS. intros Hn Hm E. unfold u32 in E.
  rewrite !(Z.mod_mod_divide _ (2 ^ 32) (2 ^ 28)) in E by by exists 16.
  pose proof (Z.div_mod (a + n) (2 ^ 28) ltac:(lia)) as D1. pose proof (Z.div_mod (a + m) (2 ^ 28) ltac:(lia)) as D2. lia.
Qed.

Lemma wp_get_entry s i e (Q : cache_entry → store D → Prop) : 0 ≤ i → cache s !! Z.to_nat i = Some e →
  Q e s → wp (get_entry i) Q s.
Proof. intros Hi He HQ. unfold get_entry. do 2 wp_step. eapply wp_lift; [by apply aread_Some|done]. Qed.

Lemma wp_put_entry s i e (Q : unit → store D → Prop) : 0 ≤ i < Z.of_nat (length (cache s)) →
  Q tt (set_cache (<[Z.to_nat i := e]> (cache s)) s) → wp (put_entry i e) Q s.
Proof. intros Hi HQ. unfold put_entry. do 3 wp_step. eapply wp_lift; [by apply awrite_eq|by wp_step]. Qed.

Lemma raw_read_wp s n buf : 0 ≤ n → length buf = 512%nat → disk_ok (device s) →
  wp (raw_read_sector n buf) (λ r s', ∃ d, s' = set_device d s ∧ disk_ok d ∧ (∀ m, on_disk s' m = on_disk s m) ∧
    length (snd r) = 512%nat ∧ (fst r = true → in_range n ∧ snd r = on_disk s n) ∧
    (working (device s) → working d ∧ (in_range n → fst r = true))) s.
Proof.
  intros Hn Hb Hok. unfold raw_read_sector. destruct (Z.leb_spec DISKFS_TOTAL_SECTORS n).
  - wp_step. exists (device s). split; [by destruct s|]. split_and!; try done. unfold in_range. split; [done|lia].
  - do 2 wp_step. unfold on_device. wp_step. eapply wp_mono; [apply read_law; [apply u32_range|done|done]|].
    intros r d (Hd & Hsame & Hl & Hr & Hw). exists d. split; [done|]. split; [done|]. split; [by intros; apply Hsame|].
    split; [done|]. split; [intros E; split; [unfold in_range; lia|by apply Hr]|].
    intros W. destruct (Hw W). split; [done|done].
Qed.

Lemma raw_write_wp s n buf : in_range n → length buf = 512%nat → disk_ok (device s) →
  wp (raw_write_sector n buf) (λ ok s', ∃ d, s' = set_device d s ∧ disk_ok d ∧
    (∀ m, in_range m → m ≠ n → on_disk s' m = on_disk s m) ∧ (ok = true → on_disk s' n = buf) ∧
    (working (device s) → ok = true ∧ working d)) s.
Proof.
  intros Hn Hb Hdev. unfold raw_write_sector. rewrite (proj2 (Z.leb_gt _ _)) by (apply Hn).
  do 2 wp_step. unfold on_device. wp_step. eapply wp_mono; [apply write_law; [apply u32_range|done|done]|].
  intros ok d (Hd & Hsame & Hok & Hw). exists d. split; [done|]. split; [done|]. split; [|done].
  intros m Hm Hne. apply Hsame. intros E. by apply lba_inj in E.
Qed.

(** Steps of the representation: the device alone, a slot alone. *)
Lemma rep_entry s v i e : store_rep s v → cache s !! i = Some e → valid e = true → dirty e = true →
  ∀ d, disk_ok d → (∀ m, in_range m → m ≠ ce_sector e → on_disk (set_device d s) m = on_disk s m) →
  store_rep (set_device d s) v.
Proof.
  intros R Hi Hv Hd d Hdev Hsame. destruct R as [L C Dt V U K O]. split; cbn; try done.
  - intros j f Hj Hf. destruct (V j f Hj Hf) as (Hr & E & Hc). split; [done|]. split; [done|].
    intros Hclean. rewrite Hsame; [by apply Hc|done|]. intros Es. assert (j = i) as -> by (eapply U; done). congruence.
  - intros n Hn Hnc. rewrite Hsame; [by apply K|done|]. intros ->. apply Hnc. by exists i, e.
Qed.

(** Replacing the slot [i] by an entry that stands for a sector no other slot
    holds, while the old content of the slot is safe on the device. *)
Lemma rep_replace s v v' i e e' : store_rep s v → cache s !! i = Some e → length (data e') = 512%nat →
  (valid e = true → valid e' = true ∧ ce_sector e' = ce_sector e ∨ on_disk s (ce_sector e) = v' (ce_sector e)) →
  (valid e' = true → in_range (ce_sector e') ∧ data e' = v' (ce_sector e') ∧
     (dirty e' = false → on_disk s (ce_sector e') = v' (ce_sector e'))) →
  (∀ m, in_range m → v' m = v m ∨ valid e' = true ∧ m = ce_sector e') →
  (valid e' = true → ∀ j f, cache s !! j = Some f → valid f = true → ce_sector f = ce_sector e' → j = i) →
  store_rep (set_cache (<[i := e']> (cache s)) s) v'.
Proof.
  intros [L C Dt V U K O] Hi Hl Hold Hnew Hv' Hfresh.
  assert (Hil : (i < length (cache s))%nat) by (by eapply lookup_lt_Some).
  assert (Hlk : ∀ j f, <[i := e']> (cache s) !! j = Some f → j = i ∧ f = e' ∨ j ≠ i ∧ cache s !! j = Some f).
  { intros j f. destruct (decide (j = i)) as [->|Hne].
    - rewrite list_lookup_insert_eq by done. intros [= <-]. auto.
    - rewrite list_lookup_insert_ne by done. auto. }
  split; cbn; try done.
  - by rewrite length_insert.
  - intros j f Hj. destruct (Hlk j f Hj) as [[-> ->]|[_ Hj']]; [done|by eapply Dt].
  - intros j f Hj Hf. destruct (Hlk j f Hj) as [[-> ->]|[Hne Hj']]; [by apply Hnew|].
    destruct (V j f Hj' Hf) as (Hr & E & Hc). destruct (Hv' (ce_sector f) Hr) as [->|[Hv E']]; [done|].
    exfalso. by apply Hne, (Hfresh Hv j f).
  - intros j1 j2 f1 f2 H1 H2 V1 V2 E. destruct (Hlk _ _ H1) as [[-> ->]|[N1 H1']], (Hlk _ _ H2) as [[-> ->]|[N2 H2']];
      [done| | |by eapply U].
    + symmetry. by eapply (Hfresh V1).
    + by eapply (Hfresh V2).
  - intros n Hn Hnc.
    assert (Hne : ¬ (valid e' = true ∧ n = ce_sector e')).
    { intros [Hv ->]. apply Hnc. exists i, e'. cbn. by rewrite list_lookup_insert_eq. }
    destruct (Hv' n Hn) as [Hvn|]; [|done].
    destruct (decide (valid e = true ∧ ce_sector e = n)) as [[Hve Hse]|Hno].
    + destruct (Hold Hve) as [[Hve' E]|Hd]; [exfalso; apply Hne; split; [done|congruence]|]. by rewrite <- Hse.
    + change (on_disk s n = v' n). rewrite Hvn. apply K; [done|]. intros (j & f & Hj & Hf & Es). apply Hnc.
      destruct (decide (j = i)) as [->|Hji]; [rewrite Hi in Hj; injection Hj as <-; tauto|].
      exists j, f. cbn. by rewrite list_lookup_insert_ne.
Qed.

(** What every operation keeps. *)
Definition same_base s s' : Prop :=
  fs_start_lba s' = fs_start_lba s ∧ (working (device s) → working (device s')).

Lemma writeback_wp s v i e : store_rep s v → 0 ≤ i → cache s !! Z.to_nat i = Some e →
  wp (cache_writeback i) (λ ok s', store_rep s' v ∧ same_base s s' ∧
    (working (device s) → ok = true) ∧
    (ok = false → cache s' = cache s) ∧
    (ok = true → ∃ e', cache s' = <[Z.to_nat i := e']> (cache s) ∧
       valid e' = valid e ∧ ce_sector e' = ce_sector e ∧ data e' = data e ∧
       (valid e' = true → dirty e' = false) ∧
       ∀ n, in_range n → ¬ (valid e = true ∧ dirty e = true ∧ n = ce_sector e) → on_disk s' n = on_disk s n)) s.
Proof.
  intros R Hi He. pose proof (sr_data _ _ R _ _ He) as Hl. unfold cache_writeback.
  assert (Hlt : 0 ≤ i < Z.of_nat (length (cache s))) by (apply lookup_lt_Some in He; lia).
  wp_step. eapply wp_get_entry; [done|exact He|].
  destruct (valid e) eqn:Hv; [destruct (dirty e) eqn:Hd|]; cbn [negb orb].
  - destruct (sr_valid _ _ R _ _ He Hv) as (Hr & Ed & _). wp_step. eapply wp_mono; [apply raw_write_wp; [done|done|apply R]|].
    intros ok s1 (d & -> & Hdev & Hsame & Hok & Hw).
    pose proof (rep_entry s v _ e R He Hv Hd d Hdev Hsame) as R1. destruct ok; cbn [negb].
    + wp_step. apply wp_put_entry; [done|]. wp_step. split_and!; [|split; [done|]|done|done|].
      * eapply (rep_replace _ v v _ e); try done; cbn.
        -- intros _. left. by split.
        -- intros _. split; [done|]. split; [done|]. intros _. rewrite <- Ed. by apply Hok.
        -- intros m _. by left.
        -- intros _ j f Hj Hf Es. eapply (sr_unique _ _ R1); done.
      * intros W. by apply Hw.
      * intros _. exists (set_dirty false e). cbn. split_and!; try done.
        intros n Hn Hno. apply Hsame; [done|]. intros ->. by apply Hno.
    + wp_step. split_and!; [done|split; [done|]| |done|done].
      * intros W. by apply Hw.
      * intros W. by destruct (Hw W).
  - wp_step. split_and!; try done. intros _. exists e. by rewrite list_insert_id.
  - wp_step. split_and!; try done. intros _. exists e. rewrite list_insert_id by done. split_and!; (done || congruence).
Qed.

(** The search of the slots. *)
Definition hit_at s (sector : Z) (i : Z) : Prop :=
  0 ≤ i < 8 ∧ ∃ e, cache s !! Z.to_nat i = Some e ∧ valid e = true ∧ ce_sector e = sector.

Lemma cache_search_wp s v sector fw : store_rep s v →
  wp (for_exit 0 DISKFS_CACHE_SLOTS (λ i,
    e ← get_entry i;
    if valid e && (ce_sector e =? sector) then
      _ ← when fw (put_entry i (set_dirty true e));
      mret (Some i)
    else mret None))
   (λ r s', store_rep s' v ∧ same_base s s' ∧
      match r with
      | Some i => hit_at s' sector i ∧ (fw = true → ∃ e, cache s' !! Z.to_nat i = Some e ∧ dirty e = true)
      | None => s' = s ∧ ¬ cached s sector
      end) s.
Proof.
  intros R. pose proof (sr_len _ _ R) as Hl. unfold DISKFS_CACHE_SLOTS.
  apply (wp_for_exit _ _ _ (λ i s', s' = s ∧ ∀ j e, 0 ≤ j < i → cache s !! Z.to_nat j = Some e →
                                     ¬ (valid e = true ∧ ce_sector e = sector))); [lia|split; [done|lia]| |].
  - intros i s' Hi [-> Hno]. destruct (lookup_lt_is_Some_2 (cache s) (Z.to_nat i) ltac:(lia)) as [e He].
    wp_step. eapply wp_get_entry; [lia|exact He|].
    destruct (valid e && (ce_sector e =? sector)) eqn:E.
    + bool_to_prop. wp_step. apply wp_when; intros Hfw.
      * apply wp_put_entry; [lia|]. wp_step. split_and!; [|done| |].
        -- eapply (rep_replace _ v v _ e); try done; cbn; [by eapply sr_data|intros _; by left| | |].
           ++ intros _. destruct (sr_valid _ _ R _ _ He) as (? & ? & ?); done.
           ++ intros m _. by left.
           ++ intros _ j f Hj Hf Es. eapply (sr_unique _ _ R); done.
        -- split; [lia|]. exists (set_dirty true e). cbn. rewrite list_lookup_insert_eq by lia. done.
        -- intros _. exists (set_dirty true e). cbn. rewrite list_lookup_insert_eq by lia. done.
      * wp_step. split_and!; [done|done| |congruence]. split; [done|]. by exists e.
    + wp_step. split; [done|]. intros j f Hj Hf. destruct (Z.eq_dec j i) as [->|Hne]; [|by apply (Hno j f); [lia|]].
      rewrite He in Hf. injection Hf as <-. bool_to_prop. destruct E; bool_to_prop; intros []; congruence.
  - intros s' [-> Hno]. split_and!; [done|done|done|]. intros (j & e & Hj & Hv & Es).
    apply (Hno (Z.of_nat j) e); [|by rewrite Nat2Z.id|done]. apply lookup_lt_Some in Hj. lia.
Qed.

Lemma cache_get_wp s v sector fw : store_rep s v → 0 ≤ sector →
  wp (cache_get sector fw) (λ r s', store_rep s' v ∧ same_base s s' ∧
    match r with
    | Some i => in_range sector ∧ hit_at s' sector i ∧ (fw = true → ∃ e, cache s' !! Z.to_nat i = Some e ∧ dirty e = true)
    | None => working (device s) → ¬ in_range sector
    end) s.
Proof.
  intros R Hs. unfold cache_get. do 4 wp_step. set (victim := cache_clock s mod DISKFS_CACHE_SLOTS).
  assert (Hvic : 0 ≤ victim < 8) by (apply Z.mod_pos_bound; done).
  set (s0 := set_cache_clock _ s).
  assert (R0 : store_rep s0 v).
  { destruct R as [L C Dt V U K O]. split; cbn; try done. pose proof (u32_range (cache_clock s + 1)) as H1. apply H1. }
  assert (B0 : same_base s s0) by done. clearbody s0.
  wp_step. eapply wp_mono; [by apply cache_search_wp|]. intros [i|] s1 (R1 & B1 & Hr).
  - wp_step. split; [done|]. split; [split; [etrans; [apply B1|apply B0]|intros W; by apply B1, B0]|].
    destruct Hr as [Hh Hd]. split; [|done]. destruct Hh as (_ & e & He & Hv & <-). by eapply (sr_valid _ _ R1).
  - destruct Hr as [-> Hnc]. destruct (lookup_lt_is_Some_2 (cache s0) (Z.to_nat victim)) as [e He];
      [rewrite (sr_len _ _ R0); lia|].
    wp_step. eapply wp_mono; [apply (writeback_wp _ v victim e); [done|lia|done]|].
    intros ok s2 (R2 & B2 & Hw2 & _ & Hok). destruct ok; cbn [negb].
    2:{ wp_step. split; [done|]. split; [split; [etrans; [apply B2|apply B0]|intros W; by apply B2, B0]|].
        intros W. apply B0, Hw2 in W. done. }
    destruct (Hok eq_refl) as (e2 & Ec & Ev & Es & Ed & Hclean & _).
    assert (He2 : cache s2 !! Z.to_nat victim = Some e2).
    { rewrite Ec. apply list_lookup_insert_eq. rewrite (sr_len _ _ R0). lia. }
    pose proof (sr_data _ _ R2 _ _ He2) as Hl2.
    assert (Hnc2 : ¬ cached s2 sector).
    { intros (j & f & Hj & Hf & Ef). apply Hnc. rewrite Ec in Hj. destruct (decide (j = Z.to_nat victim)) as [->|Hne].
      - rewrite list_lookup_insert_eq in Hj by (rewrite (sr_len _ _ R0); lia). injection Hj as <-.
        exists (Z.to_nat victim), e. split; [done|]. split; congruence.
      - rewrite list_lookup_insert_ne in Hj by done. by exists j, f. }
    wp_step. eapply wp_get_entry; [lia|exact He2|]. wp_step. eapply wp_mono; [apply raw_read_wp; [done|done|apply R2]|].
    intros [okr buf] s3 (d & -> & Hdev & Hsame & Hlb & Hrd & Hw3). cbn [fst snd] in *.
    assert (R3 : store_rep (set_device d s2) v).
    { destruct R2 as [L C Dt V U K O]. split; cbn; try done.
      - intros j f Hj Hf. rewrite Hsame. by eapply V.
      - intros n Hn Hn2. rewrite Hsame. by apply K. }
    assert (Hold : valid e2 = true → on_disk (set_device d s2) (ce_sector e2) = v (ce_sector e2)).
    { intros Hv2. rewrite Hsame. destruct (sr_valid _ _ R2 _ _ He2 Hv2) as (_ & _ & Hc). by apply Hc, Hclean. }
    assert (B3 : same_base s (set_device d s2)).
    { split; [etrans; [apply B2|apply B0]|]. intros W. by apply Hw3, B2, B0. }
    destruct okr; cbn [negb].
    + destruct (Hrd eq_refl) as [Hrange Ebuf]. wp_step. apply wp_put_entry; [cbn; rewrite (sr_len _ _ R2); lia|]. wp_step.
      split; [|split; [done|]].
      * eapply (rep_replace _ v v _ e2); try done; cbn; [intros Hv2; right; by apply Hold| | |].
        -- intros _. split; [done|]. assert (Ev2 : buf = v sector) by (rewrite Ebuf; by apply (sr_disk _ _ R2)).
           split; [done|]. intros _. rewrite Hsame. congruence.
        -- intros m _. by left.
        -- intros _ j f Hj Hf Ef. exfalso. apply Hnc2. by exists j, f.
      * split; [done|]. split.
        -- split; [done|]. eexists. cbn. rewrite list_lookup_insert_eq by (rewrite (sr_len _ _ R2); lia). done.
        -- intros ->. eexists. cbn. rewrite list_lookup_insert_eq by (rewrite (sr_len _ _ R2); lia). done.
    + wp_step. apply wp_put_entry; [cbn; rewrite (sr_len _ _ R2); lia|]. wp_step. split; [|split; [done|]].
      * eapply (rep_replace _ v v _ e2); try done; cbn; [intros Hv2; right; by apply Hold|]. intros m _. by left.
      * intros W Hrange. destruct Hw3 as [_ Hw3]; [by apply B2, B0|]. by specialize (Hw3 Hrange).
Qed.

Lemma read_sector_wp s v n buf : store_rep s v → 0 ≤ n → length buf = 512%nat →
  wp (read_sector n buf) (λ r s', store_rep s' v ∧ same_base s s' ∧ length (snd r) = 512%nat ∧
    (if (fst r : bool) then in_range n ∧ snd r = v n else snd r = buf ∧ (working (device s) → ¬ in_range n))) s.
Proof.
  intros R Hn Hb. unfold read_sector. wp_step. eapply wp_mono; [by apply cache_get_wp|].
  intros [i|] s1 (R1 & B1 & Hr).
  - destruct Hr as (Hrange & (Hi & e & He & Hv & Es) & _). wp_step. eapply wp_get_entry; [lia|exact He|].
    pose proof (sr_data _ _ R1 _ _ He) as Hl. destruct (sr_valid _ _ R1 _ _ He Hv) as (_ & Ed & _).
    wp_step. eapply wp_lift; [by apply mem_copy_sector|]. wp_step. cbn. split_and!; try done. congruence.
  - wp_step. done.
Qed.

Lemma write_sector_wp s v n buf : store_rep s v → 0 ≤ n → length buf = 512%nat →
  wp (write_sector n buf) (λ ok s', same_base s s' ∧
    (if (ok : bool) then in_range n ∧ store_rep s' (upd v n buf)
     else store_rep s' v ∧ (working (device s) → ¬ in_range n))) s.
Proof.
  intros R Hn Hb. unfold write_sector. wp_step. eapply wp_mono; [by apply cache_get_wp|].
  intros [i|] s1 (R1 & B1 & Hr); [|by wp_step].
  destruct Hr as (Hrange & (Hi & e & He & Hv & Es) & Hd). destruct (Hd eq_refl) as (e' & He' & Hdirty).
  rewrite He in He'. injection He' as <-. pose proof (sr_data _ _ R1 _ _ He) as Hl.
  wp_step. eapply wp_get_entry; [lia|exact He|].
  wp_step. eapply wp_lift; [by apply mem_copy_sector|].
  wp_step. apply wp_put_entry; [rewrite (sr_len _ _ R1); lia|]. wp_step. split; [done|]. split; [done|].
  eapply (rep_replace _ v _ _ e); try done; cbn.
  - intros _. left. by split.
  - intros _. rewrite Es. split; [done|]. split; [by unfold upd; rewrite decide_True|]. congruence.
  - intros m _. unfold upd. case_decide; [right; split; congruence|by left].
  - intros _ j f Hj Hf Ef. eapply (sr_unique _ _ R1); done.
Qed.

(** The slots before [i] are clean. *)
Definition clean_below s (i : Z) : Prop :=
  ∀ j e, 0 ≤ j < i → cache s !! Z.to_nat j = Some e → valid e = true → dirty e = false.

Lemma flush_from_wp k : ∀ s v i ok, store_rep s v → 0 ≤ i → i + Z.of_nat k = 8 → (ok = true → clean_below s i) →
  wp (flush_from k i ok) (λ r s', store_rep s' v ∧ same_base s s' ∧ (r = true → ok = true ∧ clean_below s' 8) ∧
    (working (device s) → r = ok)) s.
Proof.
  induction k as [|k IH]; intros s v i ok R Hi Hk Hok; cbn [flush_from].
  - wp_step. replace i with 8 in Hok by lia. split_and!; try done. intros ->. auto.
  - destruct (lookup_lt_is_Some_2 (cache s) (Z.to_nat i)) as [e He]; [rewrite (sr_len _ _ R); lia|].
    wp_step. eapply wp_mono; [by apply (writeback_wp s v i e)|].
    intros b s1 (R1 & B1 & Hw & Hkeep & Hclean).
    eapply wp_mono; [apply (IH s1 v (i + 1) (if b then ok else false)); [done|lia|lia|]|].
    { destruct b; [|done]. intros ->. destruct (Hclean eq_refl) as (e' & Ec & _ & _ & _ & Hd & _).
      intros j f Hj Hf Hv. rewrite Ec in Hf. destruct (decide (j = i)) as [->|Hne].
      - rewrite list_lookup_insert_eq in Hf by (rewrite (sr_len _ _ R); lia). injection Hf as <-. by apply Hd.
      - rewrite list_lookup_insert_ne in Hf by lia. by eapply (Hok eq_refl j f); [lia|..]. }
    intros r s2 (R2 & B2 & Hr & Hw2). split; [done|]. split; [|split].
    + split; [etrans; [apply B2|apply B1]|]. intros W. by apply B2, B1.
    + intros Er. destruct (Hr Er). by destruct b.
    + intros W. rewrite (Hw W) in *. apply Hw2. by apply B1.
Qed.

Lemma flush_wp s v : store_rep s v →
  wp diskfs_flush (λ ok s', store_rep s' v ∧ same_base s s' ∧ (ok = true → synced s' v) ∧
    (working (device s) → ok = true)) s.
Proof.
  intros R. eapply wp_mono; [apply (flush_from_wp 8 s v 0 true); [done|lia|lia|]|].
  { intros _ j e Hj. lia. }
  intros ok s1 (R1 & B1 & Hr & Hw). split_and!; try done. intros Eok n Hn. destruct (Hr Eok) as [_ Hc].
  destruct (decide (Exists (λ e, valid e = true ∧ ce_sector e = n) (cache s1))) as [Hex|Hno].
  - apply Exists_exists in Hex as (e & Hin & Hv & Es). apply list_elem_of_lookup in Hin as [j Hj].
    destruct (sr_valid _ _ R1 _ _ Hj Hv) as (_ & _ & Hd). rewrite <- Es. apply Hd.
    apply (Hc (Z.of_nat j) e); [|by rewrite Nat2Z.id|done].
    apply lookup_lt_Some in Hj. rewrite (sr_len _ _ R1) in Hj. lia.
  - apply (sr_disk _ _ R1); [done|]. intros (j & e & Hj & Hv & Es). apply Hno, Exists_exists.
    exists e. split; [|done]. apply list_elem_of_lookup. by exists j.
Qed.
End refinement.

(** ** Properties *)

Section properties.
Context {D : Type} `{Disk D}.

(** C13. The cache is transparent on reads: whatever it holds and whatever it has to
    evict, read_sector returns the sector of the array the file system sees or
    reports failure, changes nothing the file system can see, and on a working
    device fails only outside the 4096 sectors. *)
Theorem cache_read_refines (s : store D) v n buf : store_rep s v → 0 ≤ n → length buf = 512%nat →
  ∃ ok out s', read_sector n buf s = Some ((ok, out), s') ∧ store_rep s' v ∧
    (ok = true → in_range n ∧ out = v n) ∧ (ok = false → out = buf) ∧
    (working (device s) → in_range n → ok = true).
Proof.
  intros R Hn Hb. destruct (read_sector_wp s v n buf R Hn Hb) as ([ok out] & s' & E & R' & _ & _ & Hr).
  exists ok, out, s'. cbn in Hr. destruct ok; split_and!; try done; tauto.
Qed.

(** C14. A write through the cache updates exactly one sector of the array, or
    fails and updates none, also when the eviction it needs fails half-way. *)
Theorem cache_write_refines (s : store D) v n buf : store_rep s v → 0 ≤ n → length buf = 512%nat →
  ∃ ok s', write_sector n buf s = Some (ok, s') ∧
    store_rep s' (if (ok : bool) then upd v n buf else v) ∧
    (working (device s) → in_range n → ok = true).
Proof.
  intros R Hn Hb. destruct (write_sector_wp s v n buf R Hn Hb) as (ok & s' & E & _ & Hr).
  exists ok, s'. destruct ok; split_and!; try done; tauto.
Qed.

(** A flush that reports success has made everything durable: each of the
    4096 sectors of the device holds what the file system last wrote there. A
    flush that fails loses nothing the file system can see. *)
Theorem cache_flush_durable (s : store D) v : store_rep s v →
  ∃ ok s', diskfs_flush s = Some (ok, s') ∧ store_rep s' v ∧ (ok = true → synced s' v) ∧
    (working (device s) → ok = true).
Proof.
  intros R. destruct (flush_wp s v R) as (ok & s' & E & R' & _ & Hs & Hw). by exists ok, s'.
Qed.
End properties.

(** ** A concrete device *)

(** Sectors by address, zero where nothing was written; the sectors in [bad]
    cannot be written. *)
Record ramdisk := Ramdisk { rd_sectors : gmap Z (list Z); rd_bad : gset Z }.
Definition rd_at (d : ramdisk) (lba : Z) : list Z :=
  match rd_sectors d !! lba with
  | Some b => if bool_decide (length b = 512%nat) then b else replicate 512 0
  | None => replicate 512 0
  end.

#[export] Instance ramdisk_device : BlockDevice ramdisk := {|
  ata_read_sector lba buf := λ d, Some ((true, rd_at d lba), d);
  ata_write_sector lba buf := λ d,
    if bool_decide (lba ∈ rd_bad d) then Some (false, d)
    else Some (true, Ramdisk (<[lba := buf]> (rd_sectors d)) (rd_bad d)) |}.

#[export, program] Instance ramdisk_disk : Disk ramdisk := {|
  sector_at := rd_at; disk_ok _ := True; working d := rd_bad d = ∅ |}.
Next Obligation.
  intros lba buf d _ Hb _. eexists _, d. split; [reflexivity|]. split_and!; try done.
  cbn. unfold rd_at. destruct (rd_sectors d !! lba); [case_bool_decide|]; done.
Qed.
Next Obligation.
  intros lba buf d _ Hb _. unfold ata_write_sector, wp. cbn. case_bool_decide as E.
  - eexists _, d. split; [reflexivity|]. split_and!; try done. intros W. rewrite W in E. set_solver.
  - eexists _, _. split; [reflexivity|]. unfold rd_at. cbn. split_and!.
    + done.
    + intros l Hl. rewrite lookup_insert_ne; [done|congruence].
    + intros _. rewrite lookup_insert_eq. by rewrite bool_decide_eq_true_2.
    + done.
Qed.

Lemma ramdisk_ok (d : ramdisk) : disk_ok d.
Proof. exact I. Qed.

Definition empty_slot : cache_entry := CacheEntry false false 0 (replicate 512 0).
Definition fresh_store {D} (lba : Z) (d : D) : store D := Store lba (replicate 8 empty_slot) 0 d.

Lemma fresh_rep {D} `{Disk D} lba (d : D) : disk_ok d →
  store_rep (fresh_store lba d) (λ n, on_disk (fresh_store lba d) n).
Proof.
  intros Hd. assert (Hs : ∀ i e, replicate 8 empty_slot !! i = Some e → e = empty_slot)
    by (intros i e He; by apply lookup_replicate in He as []).
  split; cbn [cache cache_clock fresh_store]; try done.
  - intros i e He. by rewrite (Hs i e He).
  - intros i e He. by rewrite (Hs i e He).
  - intros i j e f He. by rewrite (Hs i e He).
Qed.

Definition demo_disk : ramdisk := Ramdisk ∅ ∅.
Definition demo_store : store ramdisk := fresh_store 2048 demo_disk.

Lemma cache_read_refines_witness : ∃ ok out s', read_sector 7 (replicate 512 1) demo_store = Some ((ok, out), s') ∧
  (working (device demo_store) → in_range 7 → ok = true).
Proof.
  destruct (cache_read_refines demo_store _ 7 (replicate 512 1) (fresh_rep 2048 demo_disk (ramdisk_ok demo_disk))) as (ok & out & s' & E & _ & _ & _ & W);
    [lia|reflexivity|]. exists ok, out, s'. exact (conj E W).
Defined.

Lemma cache_write_refines_witness : ∃ ok s', write_sector 7 (replicate 512 1) demo_store = Some (ok, s') ∧
  store_rep s' (if (ok : bool) then upd (on_disk demo_store) 7 (replicate 512 1) else on_disk demo_store).
Proof.
  destruct (cache_write_refines demo_store _ 7 (replicate 512 1) (fresh_rep 2048 demo_disk (ramdisk_ok demo_disk))) as (ok & s' & E & R & _);
    [lia|reflexivity|]. exists ok, s'. exact (conj E R).
Defined.

Lemma cache_flush_durable_witness : ∃ ok s', diskfs_flush demo_store = Some (ok, s') ∧
  (ok = true → synced s' (on_disk demo_store)).
Proof.
  destruct (cache_flush_durable demo_store _ (fresh_rep 2048 demo_disk (ramdisk_ok demo_disk))) as (ok & s' & E & _ & S & _).
  exists ok, s'. exact (conj E S).
Defined.
