(* ===== verification/Ata.v ===== *)
(** * The disk driver, kernel/drivers/storage/ata.c

    Programmed input and output to an ATA drive: the address goes to five registers, the
    command to a sixth, then the driver polls the status and moves 256 words. What it
    relies on of the drive is the class [AtaDrive]: the phases of a command, in the way
    the ATA documents describe them. The driver then keeps the contract [Disk] that the
    sector cache of the file system is built on. *)

From Stdlib Require Import ZArith Lia Bool.
From stdpp Require Import base numbers list gmap.
From S2P Require Import Prelude Ports DiskCache.

Definition ATA_DATA : Z := 0x1F0.
Definition ATA_SECTOR_COUNT : Z := 0x1F2.
Definition ATA_LBA_LOW : Z := 0x1F3.
Definition ATA_LBA_MID : Z := 0x1F4.
Definition ATA_LBA_HIGH : Z := 0x1F5.
Definition ATA_DRIVE : Z := 0x1F6.
Definition ATA_COMMAND : Z := 0x1F7.
Definition ATA_STATUS : Z := 0x1F7.

Definition ATA_CMD_READ_SECTORS : Z := 0x20.
Definition ATA_CMD_WRITE_SECTORS : Z := 0x30.
Definition ATA_CMD_CACHE_FLUSH : Z := 0xE7.
Definition ATA_STATUS_BSY : Z := 0x80.
Definition ATA_STATUS_DRQ : Z := 0x08.
Definition ATA_STATUS_ERR : Z := 0x01.

(** Words of 16 bits, as their two bytes, the low one first: this is how they lie in the
    buffers of bytes that the driver is called with. *)
Class WordIO (D : Type) := {
  inw : Z → M D (Z * Z);
  outw : Z → Z * Z → M D unit }.

(** ** The driver *)

Section driver.
Context {D : Type} `{PortIO D} `{WordIO D}.

Definition wait_for_drq : M D bool :=
  r ← for_exit 0 100000 (λ _,
    status ← inb ATA_STATUS;
    if negb (Z.land status ATA_STATUS_ERR =? 0) then mret (Some false)
    else if (Z.land status ATA_STATUS_BSY =? 0) && negb (Z.land status ATA_STATUS_DRQ =? 0) then mret (Some true)
    else mret None);
  mret (match r with Some b => b | None => false end).

(** The address, the number of sectors and the command. *)
Definition ata_select (lba command : Z) : M D unit :=
  _ ← outb ATA_DRIVE (u8 (Z.lor 0xE0 (Z.land (Z.shiftr lba 24) 0x0F)));
  _ ← outb ATA_SECTOR_COUNT 1;
  _ ← outb ATA_LBA_LOW (u8 (Z.land lba 0xFF));
  _ ← outb ATA_LBA_MID (u8 (Z.land (Z.shiftr lba 8) 0xFF));
  _ ← outb ATA_LBA_HIGH (u8 (Z.land (Z.shiftr lba 16) 0xFF));
  outb ATA_COMMAND command.

(** [out[word] = inw(ATA_DATA)] *)
Definition take_word (word : Z) (out : list Z) : M D (list Z) :=
  w ← inw ATA_DATA;
  out ← lift (awrite out (2 * word) (fst w));
  lift (awrite out (2 * word + 1) (snd w)).

Definition ata_read_sector (lba : Z) (buffer : list Z) : M D (bool * list Z) :=
  _ ← ata_select lba ATA_CMD_READ_SECTORS;
  ready ← wait_for_drq;
  if negb ready then mret (false, buffer)
  else
    r ← for_state (R := Empty_set) 0 256 (λ word out, out ← take_word word out; mret (inl out)) buffer;
    mret (match r with inl out => (true, out) | inr e => Empty_set_rect (λ _, (bool * list Z)%type) e end).

(** [outw(ATA_DATA, in[word])] *)
Definition give_word (buffer : list Z) (word : Z) : M D unit :=
  lo ← lift (aread buffer (2 * word)); hi ← lift (aread buffer (2 * word + 1)); outw ATA_DATA (lo, hi).

Definition wait_until_stored : M D bool :=
  r ← for_exit 0 100000 (λ _,
    status ← inb ATA_STATUS;
    if negb (Z.land status ATA_STATUS_ERR =? 0) then mret (Some false)
    else if Z.land status ATA_STATUS_BSY =? 0 then mret (Some true)
    else mret None);
  mret (match r with Some b => b | None => false end).

Definition ata_write_sector (lba : Z) (buffer : list Z) : M D bool :=
  _ ← ata_select lba ATA_CMD_WRITE_SECTORS;
  ready ← wait_for_drq;
  if negb ready then mret false
  else
    _ ← for_ 0 256 (give_word buffer);
    _ ← outb ATA_COMMAND ATA_CMD_CACHE_FLUSH;
    wait_until_stored.
End driver.

#[export] Instance ata_device {D} `{PortIO D} `{WordIO D} : BlockDevice D := {|
  DiskCache.ata_read_sector := ata_read_sector; DiskCache.ata_write_sector := ata_write_sector |}.

(** ** The drive *)

(** Where a command stands. [Sending] has the words that have not been taken yet,
    [Taking] those that have arrived; [Storing] is busy with the medium. *)
Inductive ata_phase :=
  | Ready
  | Reading (lba : Z) | Sending (words : list (Z * Z))
  | Writing (lba : Z) | Taking (lba : Z) (words : list (Z * Z)) | Storing (lba : Z) (words : list (Z * Z)).

Definition failed (status : Z) : Prop := Z.land status ATA_STATUS_ERR ≠ 0.
Definition busy (status : Z) : Prop := Z.land status ATA_STATUS_BSY ≠ 0.
Definition requests (status : Z) : Prop := Z.land status ATA_STATUS_DRQ ≠ 0.

(** The bytes of a list of words. *)
Definition bytes_of_words (ws : list (Z * Z)) : list Z := ws ≫= (λ w, [fst w; snd w]).

(** [stored d lba] is the sector at a 28-bit address, [patience d] bounds how often the
    status has to be read until the drive answers. A drive that is [healthy] reports no
    error. *)
Class AtaDrive (D : Type) `{PortIO D, WordIO D} := {
  register : D → Z → Z;
  phase : D → ata_phase;
  patience : D → Z;
  stored : D → Z → list Z;
  healthy : D → Prop;
  stored_length d l : length (stored d l) = 512%nat;
  register_law p v d : ATA_SECTOR_COUNT ≤ p ≤ ATA_DRIVE → is_u8 v → phase d = Ready →
    wp (outb p v) (λ _ d', ((∀ l, stored d' l = stored d l) ∧ (healthy d → healthy d')) ∧ phase d' = Ready ∧
      ∀ q, register d' q = if decide (q = p) then v else register d q) d;
  command_law c d : phase d = Ready → c = ATA_CMD_READ_SECTORS ∨ c = ATA_CMD_WRITE_SECTORS →
    register d ATA_SECTOR_COUNT = 1 → Z.land (register d ATA_DRIVE) 0xF0 = 0xE0 →
    let lba := register d ATA_LBA_LOW + 2 ^ 8 * register d ATA_LBA_MID + 2 ^ 16 * register d ATA_LBA_HIGH + 2 ^ 24 * Z.land (register d ATA_DRIVE) 0x0F in
    wp (outb ATA_COMMAND c) (λ _ d', ((∀ l, stored d' l = stored d l) ∧ (healthy d → healthy d')) ∧ 0 ≤ patience d' < 100000 ∧
      phase d' = if decide (c = ATA_CMD_READ_SECTORS) then Reading lba else Writing lba) d;
  reading_law lba d : phase d = Reading lba →
    wp (inb ATA_STATUS) (λ v d', ((∀ l, stored d' l = stored d l) ∧ (healthy d → healthy d')) ∧
      ((failed v ∧ phase d' = Ready ∧ ¬ healthy d) ∨
       (¬ failed v ∧ ¬ busy v ∧ requests v ∧ ∃ words, phase d' = Sending words ∧ bytes_of_words words = stored d lba) ∨
       (¬ failed v ∧ (busy v ∨ ¬ requests v) ∧ phase d' = Reading lba ∧ 0 ≤ patience d' < patience d))) d;
  sending_law w words d : phase d = Sending (w :: words) →
    wp (inw ATA_DATA) (λ v d', ((∀ l, stored d' l = stored d l) ∧ (healthy d → healthy d')) ∧ v = w ∧
      phase d' = if decide (words = []) then Ready else Sending words) d;
  writing_law lba d : phase d = Writing lba →
    wp (inb ATA_STATUS) (λ v d', ((∀ l, stored d' l = stored d l) ∧ (healthy d → healthy d')) ∧
      ((failed v ∧ phase d' = Ready ∧ ¬ healthy d) ∨
       (¬ failed v ∧ ¬ busy v ∧ requests v ∧ phase d' = Taking lba []) ∨
       (¬ failed v ∧ (busy v ∨ ¬ requests v) ∧ phase d' = Writing lba ∧ 0 ≤ patience d' < patience d))) d;
  taking_law lba words w d : phase d = Taking lba words → (length words < 256)%nat →
    wp (outw ATA_DATA w) (λ _ d', ((∀ l, l ≠ lba → stored d' l = stored d l) ∧ (healthy d → healthy d')) ∧
      phase d' = if decide (length words = 255%nat) then Storing lba (words ++ [w]) else Taking lba (words ++ [w])) d;
  storing_law lba words d : phase d = Storing lba words → length words = 256%nat →
    wp (inb ATA_STATUS) (λ v d', ((∀ l, l ≠ lba → stored d' l = stored d l) ∧ (healthy d → healthy d')) ∧
      ((failed v ∧ phase d' = Ready ∧ ¬ healthy d) ∨
       (¬ failed v ∧ ¬ busy v ∧ phase d' = Ready ∧ stored d' lba = bytes_of_words words) ∨
       (¬ failed v ∧ busy v ∧ phase d' = Storing lba words ∧ 0 ≤ patience d' < patience d))) d }.

(** The driver sends the flush command right after the last word, while the drive may be
    busy with the sector. The standard does not say what a busy drive does with a
    command, so this is not a law of [AtaDrive]: writing is proved for drives that go on
    storing the sector, whether they take the flush up or not. *)
Class AtaFlush (D : Type) `{AtaDrive D} := {
  flush_law lba words d : phase d = Storing lba words →
    wp (outb ATA_COMMAND ATA_CMD_CACHE_FLUSH) (λ _ d', ((∀ l, l ≠ lba → stored d' l = stored d l) ∧ (healthy d → healthy d')) ∧
      phase d' = Storing lba words ∧ 0 ≤ patience d' < 100000) d }.

(** ** The driver keeps the contract of a disk *)

(** The four bytes of an address, as the registers get them. *)
Lemma address_split lba : is_u32 lba →
  let drive := u8 (Z.lor 0xE0 (Z.land (Z.shiftr lba 24) 0x0F)) in
  is_u8 drive ∧ Z.land drive 0xF0 = 0xE0 ∧
  u8 (Z.land lba 0xFF) + 2 ^ 8 * u8 (Z.land (Z.shiftr lba 8) 0xFF) + 2 ^ 16 * u8 (Z.land (Z.shiftr lba 16) 0xFF) + 2 ^ 24 * Z.land drive 0x0F = lba mod 2 ^ 28.
Proof.
  intros Hl drive. assert (Hb : ∀ x, u8 (Z.land x 0xFF) = x mod 2 ^ 8) by (intros x; change 0xFF with (Z.ones 8); rewrite Z.land_ones by lia; apply Z.mod_mod; lia).
  rewrite !Hb, !Z.shiftr_div_pow2 by lia.
  assert (Hd : is_u8 drive ∧ Z.land drive 0xF0 = 0xE0 ∧ Z.land drive 0x0F = (lba / 2 ^ 24) mod 2 ^ 4).
  { unfold drive. rewrite Z.shiftr_div_pow2 by lia. change 0x0F with (Z.ones 4). rewrite !Z.land_ones by lia. pose proof (Z.mod_pos_bound (lba / 2 ^ 24) (2 ^ 4)) as Hk.
    set (k := (lba / 2 ^ 24) mod 2 ^ 4) in *. clearbody k. assert (In k (map Z.of_nat (seq 0 16))) as Hin by (apply in_map_iff; exists (Z.to_nat k); rewrite in_seq; lia).
    cbn in Hin. repeat (destruct Hin as [<-|Hin]; [vm_compute; intuition congruence|]). done. }
  destruct Hd as (? & ? & ->). split; [done|]. split; [done|]. unfold is_u32 in Hl. Z.div_mod_to_equations. lia.
Qed.

Lemma length_bytes_of_words ws : length (bytes_of_words ws) = (2 * length ws)%nat.
Proof. unfold bytes_of_words. induction ws as [|w ws IH]; [done|]. cbn. rewrite IH. lia. Qed.
Lemma bytes_of_words_app ws ws' : bytes_of_words (ws ++ ws') = bytes_of_words ws ++ bytes_of_words ws'.
Proof. apply bind_app. Qed.

(** The words of a buffer. *)
Definition word_of (buf : list Z) (k : nat) : Z * Z := (nth (2 * k) buf 0, nth (2 * k + 1) buf 0).
Lemma words_of_buffer buf n : length buf = (2 * n)%nat → bytes_of_words (word_of buf <$> seq 0 n) = buf.
Proof.
  revert buf. induction n as [|n IH]; intros buf Hl; [by destruct buf|]. destruct buf as [|a [|b buf]]; [done|cbn in Hl; lia|]. cbn in Hl.
  change (seq 0 (S n)) with (0%nat :: seq 1 n). cbn. f_equal. f_equal. rewrite <- seq_shift, <- list_fmap_compose. change (bytes_of_words ((word_of (a :: b :: buf) ∘ S) <$> seq 0 n) = buf).
  rewrite <- (IH buf) at 2 by lia. f_equal. apply list_fmap_ext. intros i k _. unfold word_of. cbn. replace (k + S (k + 0))%nat with (S (k + (k + 0))) by lia. done.
Qed.

Section contract.
Context {D : Type} `{AtaDrive D} `{!AtaFlush D}.
Implicit Types d : D.

Definition kept d d' : Prop := (∀ l, stored d' l = stored d l) ∧ (healthy d → healthy d').
Definition kept_but lba d d' : Prop := (∀ l, l ≠ lba → stored d' l = stored d l) ∧ (healthy d → healthy d').

Lemma kept_trans d1 d2 d3 : kept d1 d2 → kept d2 d3 → kept d1 d3.
Proof. intros [E1 ?] [E2 ?]. split; [intros l; by rewrite E2|auto]. Qed.
Lemma kept_but_trans lba d1 d2 d3 : kept_but lba d1 d2 → kept_but lba d2 d3 → kept_but lba d1 d3.
Proof. intros [E1 ?] [E2 ?]. split; [intros l Hl; by rewrite E2, E1|auto]. Qed.
Lemma kept_weaken lba d d' : kept d d' → kept_but lba d d'.
Proof. intros [? ?]. by split. Qed.

Lemma select_wp lba c d : is_u32 lba → phase d = Ready → c = ATA_CMD_READ_SECTORS ∨ c = ATA_CMD_WRITE_SECTORS →
  wp (ata_select lba c) (λ _ d', kept d d' ∧ 0 ≤ patience d' < 100000 ∧
    phase d' = if decide (c = ATA_CMD_READ_SECTORS) then Reading (lba mod 2 ^ 28) else Writing (lba mod 2 ^ 28)) d.
Proof.
  intros Hl Hp Hc. destruct (address_split lba Hl) as (Hu & Hmode & Ha). unfold ata_select.
  assert (Hr : ∀ p v d0, ATA_SECTOR_COUNT ≤ p ≤ ATA_DRIVE → is_u8 v → phase d0 = Ready → wp (outb p v) (λ _ d', kept d0 d' ∧ phase d' = Ready ∧
    ∀ q, register d' q = if decide (q = p) then v else register d0 q) d0) by (intros; by apply register_law).
  assert (Hports : ATA_SECTOR_COUNT ≤ ATA_DRIVE ≤ ATA_DRIVE ∧ ATA_SECTOR_COUNT ≤ ATA_SECTOR_COUNT ≤ ATA_DRIVE ∧ ATA_SECTOR_COUNT ≤ ATA_LBA_LOW ≤ ATA_DRIVE ∧
    ATA_SECTOR_COUNT ≤ ATA_LBA_MID ≤ ATA_DRIVE ∧ ATA_SECTOR_COUNT ≤ ATA_LBA_HIGH ≤ ATA_DRIVE) by done. destruct Hports as (P1 & P2 & P3 & P4 & P5).
  wp_step. eapply wp_mono; [by apply (Hr _ _ _ P1)|]. intros _ d1 (K1 & F1 & R1). wp_step. eapply wp_mono; [by apply (Hr _ _ _ P2)|]. intros _ d2 (K2 & F2 & R2).
  wp_step. eapply wp_mono; [apply (Hr _ _ _ P3); [apply u8_range|done]|]. intros _ d3 (K3 & F3 & R3). wp_step. eapply wp_mono; [apply (Hr _ _ _ P4); [apply u8_range|done]|]. intros _ d4 (K4 & F4 & R4).
  wp_step. eapply wp_mono; [apply (Hr _ _ _ P5); [apply u8_range|done]|]. intros _ d5 (K5 & F5 & R5).
  assert (E : register d5 ATA_SECTOR_COUNT = 1 ∧ register d5 ATA_DRIVE = u8 (Z.lor 0xE0 (Z.land (Z.shiftr lba 24) 0x0F)) ∧ register d5 ATA_LBA_LOW = u8 (Z.land lba 0xFF) ∧
    register d5 ATA_LBA_MID = u8 (Z.land (Z.shiftr lba 8) 0xFF) ∧ register d5 ATA_LBA_HIGH = u8 (Z.land (Z.shiftr lba 16) 0xFF)).
  { split_and!; rewrite R5, ?R4, ?R3, ?R2, ?R1; repeat (rewrite decide_False by done); rewrite ?decide_True by done; done. }
  destruct E as (E1 & E2 & E3 & E4 & E5). eapply wp_mono; [apply command_law; [done|done|done|by rewrite E2]|]. cbn zeta. rewrite E2, E3, E4, E5, Ha.
  intros _ d' (Hk & Hpt & Hph). split; [|done]. by repeat (eapply kept_trans; [eassumption|]).
Qed.

(** Polling: the status is read until the drive answers, which it does in time. *)
Lemma wait_for_drq_wp ph (ready : D → D → Prop) d :
  (∀ d0, phase d0 = ph → wp (inb ATA_STATUS) (λ v d', kept d0 d' ∧
    ((failed v ∧ phase d' = Ready ∧ ¬ healthy d0) ∨ (¬ failed v ∧ ¬ busy v ∧ requests v ∧ ready d0 d') ∨
     (¬ failed v ∧ (busy v ∨ ¬ requests v) ∧ phase d' = ph ∧ 0 ≤ patience d' < patience d0))) d0) →
  phase d = ph → 0 ≤ patience d < 100000 →
  wp wait_for_drq (λ b d', kept d d' ∧ if (b : bool) then ∃ d1, kept d d1 ∧ ready d1 d' else phase d' = Ready ∧ ¬ healthy d) d.
Proof.
  intros Hpoll Hp Ht. unfold wait_for_drq. wp_step.
  apply (wp_for_exit _ _ _ (λ i d0, kept d d0 ∧ phase d0 = ph ∧ 0 ≤ patience d0 < 100000 - i)); [lia|split; [by split|split; [done|lia]]| |].
  - intros i d0 Hi (Hk & Hp0 & Ht0). wp_step. eapply wp_mono; [by apply Hpoll|]. intros v d' (Hk' & Hv).
    assert (Hk2 : kept d d') by by eapply kept_trans. unfold failed, busy, requests in Hv. destruct (Z.eqb_spec (Z.land v ATA_STATUS_ERR) 0) as [E|E]; cbn [negb].
    + destruct (Z.eqb_spec (Z.land v ATA_STATUS_BSY) 0), (Z.eqb_spec (Z.land v ATA_STATUS_DRQ) 0); cbn [negb andb]; wp_step; try wp_step;
        destruct Hv as [Hv|[Hv|Hv]]; try tauto; try (split; [done|]; split; [tauto|lia]). split; [done|]. exists d0. tauto.
    + wp_step. wp_step. split; [done|]. destruct Hv as [(_ & ? & Hn)|[Hv|Hv]]; try tauto. split; [done|]. intros Hh. by apply Hn, Hk.
  - intros d0 (_ & _ & Ht0). lia.
Qed.

Lemma wait_until_stored_wp lba words d : phase d = Storing lba words → length words = 256%nat → 0 ≤ patience d < 100000 →
  wp wait_until_stored (λ b d', kept_but lba d d' ∧ phase d' = Ready ∧ if (b : bool) then stored d' lba = bytes_of_words words else ¬ healthy d) d.
Proof.
  intros Hp Hl Ht. unfold wait_until_stored. wp_step.
  apply (wp_for_exit _ _ _ (λ i d0, kept_but lba d d0 ∧ phase d0 = Storing lba words ∧ 0 ≤ patience d0 < 100000 - i)); [lia|split; [by split|split; [done|lia]]| |].
  - intros i d0 Hi (Hk & Hp0 & Ht0). wp_step. eapply wp_mono; [by apply (storing_law lba words)|]. intros v d' (Hk' & Hv).
    assert (Hk2 : kept_but lba d d') by by eapply kept_but_trans. unfold failed, busy in Hv. destruct (Z.eqb_spec (Z.land v ATA_STATUS_ERR) 0) as [E|E]; cbn [negb].
    + destruct (Z.eqb_spec (Z.land v ATA_STATUS_BSY) 0); wp_step; try wp_step; destruct Hv as [Hv|[Hv|Hv]]; try tauto; try (split; [done|]; split; [tauto|]; try tauto; lia).
    + wp_step. wp_step. split; [done|]. destruct Hv as [(_ & ? & Hn)|[Hv|Hv]]; try tauto. split; [done|]. intros Hh. by apply Hn, Hk.
  - intros d0 (_ & _ & Ht0). lia.
Qed.

(** The words taken so far are the start of the buffer. *)
Lemma take_words_wp words buffer d : phase d = Sending words → length words = 256%nat → length buffer = 512%nat →
  wp (for_state (R := Empty_set) 0 256 (λ word out, out ← take_word word out; mret (inl out)) buffer)
     (λ r d', kept d d' ∧ phase d' = Ready ∧ r = inl (bytes_of_words words)) d.
Proof.
  intros Hp Hw Hb.
  apply (wp_for_state _ _ _ (λ i out d0, kept d d0 ∧ out = bytes_of_words (take (Z.to_nat i) words) ++ drop (2 * Z.to_nat i) buffer ∧
    phase d0 = if decide (drop (Z.to_nat i) words = []) then Ready else Sending (drop (Z.to_nat i) words))); [lia| | |].
  - split; [by split|]. split; [done|]. rewrite drop_0. rewrite decide_False by by intros ->. done.
  - intros i out d0 Hi (Hk & -> & Hp0). destruct (drop (Z.to_nat i) words) as [|w rest] eqn:Ed.
    { apply (f_equal length) in Ed. rewrite length_drop in Ed. cbn in Ed. lia. }
    rewrite decide_False in Hp0 by done. unfold take_word. do 2 wp_step. eapply wp_mono; [by apply sending_law|]. intros v d' (Hk' & -> & Hp').
    assert (Hlen : length (bytes_of_words (take (Z.to_nat i) words)) = (2 * Z.to_nat i)%nat) by (rewrite length_bytes_of_words, length_take; lia).
    destruct (drop (2 * Z.to_nat i) buffer) as [|a [|b buf]] eqn:Eb; [apply (f_equal length) in Eb; rewrite length_drop in Eb; cbn in Eb; lia..|].
    assert (Eb' : drop (2 * Z.to_nat (i + 1)) buffer = buf).
    { replace (2 * Z.to_nat (i + 1))%nat with (2 * Z.to_nat i + 2)%nat by lia. by rewrite <- drop_drop, Eb. }
    wp_step. eapply wp_lift; [apply awrite_eq; rewrite length_app, Hlen; cbn; lia|]. eapply wp_lift; [apply awrite_eq; rewrite length_insert, length_app, Hlen; cbn; lia|]. wp_step.
    split; [by eapply kept_trans|]. assert (Et : take (Z.to_nat (i + 1)) words = take (Z.to_nat i) words ++ [w]).
    { replace (Z.to_nat (i + 1)) with (S (Z.to_nat i)) by lia. apply take_S_r. rewrite <- (Nat.add_0_r (Z.to_nat i)), <- lookup_drop, Ed. done. }
    split.
    + rewrite Et, bytes_of_words_app, Eb', <- app_assoc. cbn. replace (Z.to_nat (2 * i + 1)) with (length (bytes_of_words (take (Z.to_nat i) words)) + 1)%nat by lia.
      replace (Z.to_nat (2 * i)) with (length (bytes_of_words (take (Z.to_nat i) words)) + 0)%nat by lia. rewrite !insert_app_r. done.
    + assert (drop (Z.to_nat (i + 1)) words = rest) as ->; [|done]. replace (Z.to_nat (i + 1)) with (Z.to_nat i + 1)%nat by lia. by rewrite <- drop_drop, Ed.
  - intros out d0 (Hk & -> & Hp0). change (Z.to_nat 256) with 256%nat in *. rewrite !drop_ge, take_ge in * by lia. rewrite app_nil_r in *. done.
Qed.

Lemma give_words_wp lba buffer d : phase d = Taking lba [] → length buffer = 512%nat →
  wp (for_ 0 256 (give_word buffer)) (λ _ d', kept_but lba d d' ∧ phase d' = Storing lba (word_of buffer <$> seq 0 256)) d.
Proof.
  intros Hp Hb.
  apply (wp_for _ _ _ (λ i d0, kept_but lba d d0 ∧ phase d0 = if decide (i = 256) then Storing lba (word_of buffer <$> seq 0 256) else Taking lba (word_of buffer <$> seq 0 (Z.to_nat i)))); [lia|by split; [by split|]| |].
  - intros i d0 Hi (Hk & Hp0). rewrite decide_False in Hp0 by lia. unfold give_word.
    assert (Hn : ∀ k, 0 ≤ k < 512 → aread buffer k = Some (nth (Z.to_nat k) buffer 0)).
    { intros k Hkk. apply aread_Some. split; [lia|]. destruct (lookup_lt_is_Some_2 buffer (Z.to_nat k)) as [x E]; [lia|]. by rewrite E, (nth_lookup_Some _ _ 0 x). }
    wp_step. eapply wp_lift; [apply Hn; lia|]. wp_step. eapply wp_lift; [apply Hn; lia|]. eapply wp_mono; [apply taking_law; [exact Hp0|rewrite length_fmap, length_seq; lia]|].
    intros _ d' (Hk' & Hp'). split; [by eapply kept_but_trans|]. rewrite Hp'. rewrite length_fmap, length_seq.
    assert (E : (word_of buffer <$> seq 0 (Z.to_nat i)) ++ [(nth (Z.to_nat (2 * i)) buffer 0, nth (Z.to_nat (2 * i + 1)) buffer 0)] = word_of buffer <$> seq 0 (Z.to_nat (i + 1))).
    { replace (Z.to_nat (i + 1)) with (S (Z.to_nat i)) by lia. rewrite seq_S, fmap_app. cbn. unfold word_of. do 4 f_equal; f_equal; lia. }
    rewrite E. destruct (decide (i = 255)) as [->|Hne]; [rewrite !decide_True by lia; done|]. by rewrite !decide_False by lia.
  - intros d0 (Hk & Hp0). by split.
Qed.

Lemma ata_read_wp lba buf d : is_u32 lba → length buf = 512%nat → phase d = Ready →
  wp (ata_read_sector lba buf) (λ r d', phase d' = Ready ∧ kept d d' ∧ length (snd r) = 512%nat ∧
    (fst r = true → snd r = stored d (lba mod 2 ^ 28)) ∧ (healthy d → fst r = true)) d.
Proof.
  intros Hl Hb Hp. unfold ata_read_sector. wp_step. eapply wp_mono; [by apply select_wp; [..|by left]|]. intros _ d1 (K1 & T1 & P1).
  rewrite decide_True in P1 by done. set (a := lba mod 2 ^ 28) in *. wp_step.
  eapply wp_mono; [apply (wait_for_drq_wp (Reading a) (λ d0 d', ∃ words, phase d' = Sending words ∧ bytes_of_words words = stored d0 a)); [intros; by apply reading_law|done|done]|].
  intros [] d2 (K2 & Hr); cbn [negb].
  - destruct Hr as (d3 & [K3 _] & words & P2 & E). assert (Hw : length words = 256%nat).
    { pose proof (stored_length d3 a) as Hs. rewrite <- E, length_bytes_of_words in Hs. lia. }
    wp_step. eapply wp_mono; [by apply take_words_wp|]. intros r d4 (K4 & P4 & ->). wp_step. split; [done|]. split; [by eapply kept_trans, kept_trans|].
    cbn. split; [rewrite length_bytes_of_words; lia|]. split; [|done]. intros _. rewrite E, K3. apply K1.
  - destruct Hr as [P2 Hn]. wp_step. split; [done|]. split; [by eapply kept_trans|]. split; [done|]. split; [done|]. intros Hh. by apply K1 in Hh.
Qed.

Lemma ata_write_wp lba buf d : is_u32 lba → length buf = 512%nat → phase d = Ready →
  wp (ata_write_sector lba buf) (λ ok d', phase d' = Ready ∧ kept_but (lba mod 2 ^ 28) d d' ∧
    (ok = true → stored d' (lba mod 2 ^ 28) = buf) ∧ (healthy d → ok = true)) d.
Proof.
  intros Hl Hb Hp. unfold ata_write_sector. wp_step. eapply wp_mono; [by apply select_wp; [..|by right]|]. intros _ d1 (K1 & T1 & P1).
  rewrite decide_False in P1 by done. set (a := lba mod 2 ^ 28) in *. wp_step. apply (kept_weaken a) in K1 as K1'.
  eapply wp_mono; [apply (wait_for_drq_wp (Writing a) (λ _ d', phase d' = Taking a [])); [intros; by apply writing_law|done|done]|].
  intros [] d2 (K2 & Hr); cbn [negb]; apply (kept_weaken a) in K2.
  - destruct Hr as (_ & _ & P2). wp_step. eapply wp_mono; [by apply give_words_wp|]. intros _ d3 (K3 & P3). wp_step.
    eapply wp_mono; [by apply flush_law|]. intros _ d4 (K4 & P4 & T4). eapply wp_mono; [by apply (wait_until_stored_wp a (word_of buf <$> seq 0 256))|].
    intros b d5 (K5 & P5 & Hb5). assert (K : kept_but a d d4) by (eapply kept_but_trans; [done|]; eapply kept_but_trans; [done|]; by eapply kept_but_trans).
    split; [done|]. split; [by eapply kept_but_trans|]. destruct b; [|split; [done|]; intros Hh; by apply K in Hh].
    split; [|done]. intros _. rewrite Hb5. by apply words_of_buffer.
  - destruct Hr as [P2 Hn]. wp_step. split; [done|]. split; [by eapply kept_but_trans|]. split; [done|]. intros Hh. by apply K1 in Hh.
Qed.

#[export, program] Instance ata_disk : Disk D := {|
  sector_at d l := stored d (l mod 2 ^ 28); disk_ok d := phase d = Ready; working := healthy |}.
Next Obligation.
  intros lba buf d Hl Hb Hd. eapply wp_mono; [by apply ata_read_wp|]. intros r d' (Hp & [Hk Hh] & Hlen & Hr & Hw). split_and!; auto.
Qed.
Next Obligation.
  intros lba buf d Hl Hb Hd. eapply wp_mono; [by apply ata_write_wp|]. intros r d' (Hp & [Hk Hh] & Hr & Hw). split_and!; auto.
Qed.

End contract.

(** ** A concrete drive

    It is busy for [dr_slow] polls, at most 1000, after every command, and reports an error
    when it stores a sector of [dr_bad]. *)
Record drive := Drive {
  dr_regs : Z → Z; dr_phase : ata_phase; dr_polls : nat; dr_slow : nat; dr_sectors : gmap Z (list Z); dr_bad : gset Z }.
Definition set_dr_phase v d := Drive (dr_regs d) v (dr_polls d) (dr_slow d) (dr_sectors d) (dr_bad d).
Definition set_dr_polls v d := Drive (dr_regs d) (dr_phase d) v (dr_slow d) (dr_sectors d) (dr_bad d).
Definition dr_at (d : drive) (lba : Z) : list Z :=
  match dr_sectors d !! lba with
  | Some b => if bool_decide (length b = 512%nat) then b else replicate 512 0
  | None => replicate 512 0
  end.

Definition dr_store (lba : Z) (words : list (Z * Z)) (d : drive) : drive :=
  Drive (dr_regs d) Ready (dr_polls d) (dr_slow d) (<[lba := bytes_of_words words]> (dr_sectors d)) (dr_bad d).

(** Commands to a drive that is not ready are not taken up. *)
Definition dr_outb (p v : Z) (d : drive) : drive :=
  let lba := dr_regs d ATA_LBA_LOW + 2 ^ 8 * dr_regs d ATA_LBA_MID + 2 ^ 16 * dr_regs d ATA_LBA_HIGH + 2 ^ 24 * Z.land (dr_regs d ATA_DRIVE) 0x0F in
  let start ph := set_dr_polls (Nat.min (dr_slow d) 1000) (set_dr_phase ph d) in
  match dr_phase d with
  | Ready =>
      if p =? ATA_COMMAND then
        if v =? ATA_CMD_READ_SECTORS then start (Reading lba) else if v =? ATA_CMD_WRITE_SECTORS then start (Writing lba) else d
      else Drive (λ q, if decide (q = p) then v else dr_regs d q) Ready (dr_polls d) (dr_slow d) (dr_sectors d) (dr_bad d)
  | _ => set_dr_polls (Nat.min (dr_slow d) 1000) d
  end.

Definition dr_inb (p : Z) (d : drive) : Z * drive :=
  match dr_polls d with
  | S n => (ATA_STATUS_BSY, set_dr_polls n d)
  | O =>
      match dr_phase d with
      | Ready => (0, d)
      | Reading lba => (ATA_STATUS_DRQ, set_dr_phase (Sending (word_of (dr_at d lba) <$> seq 0 256)) d)
      | Writing lba => (ATA_STATUS_DRQ, set_dr_phase (Taking lba []) d)
      | Storing lba words => if bool_decide (lba ∈ dr_bad d) then (ATA_STATUS_ERR, set_dr_phase Ready d) else (0, dr_store lba words d)
      | _ => (ATA_STATUS_DRQ, d)
      end
  end.

#[export] Instance drive_ports : PortIO drive := {| inb p := λ d, Some (fst (dr_inb p d), snd (dr_inb p d)); outb p v := modify (dr_outb p v) |}.
#[export] Instance drive_words : WordIO drive := {|
  inw p := λ d, match dr_phase d with
    | Sending (w :: words) => Some (w, set_dr_phase (if decide (words = []) then Ready else Sending words) d)
    | _ => Some ((0, 0), d)
    end;
  outw p w := modify (λ d, match dr_phase d with
    | Taking lba words => set_dr_phase (if decide (length words = 255%nat) then Storing lba (words ++ [w]) else Taking lba (words ++ [w])) d
    | _ => d
    end) |}.

Lemma dr_at_length d l : length (dr_at d l) = 512%nat.
Proof. unfold dr_at. destruct (dr_sectors d !! l); [case_bool_decide|]; done. Qed.

#[export, program] Instance drive_ata : AtaDrive drive := {|
  register := dr_regs; phase := dr_phase; patience d := Z.of_nat (dr_polls d); stored := dr_at; healthy d := dr_bad d = ∅ |}.
Next Obligation. apply dr_at_length. Qed.
Next Obligation.
  intros p v d Hp Hv Hph. apply wp_modify. unfold dr_outb. rewrite Hph. destruct (Z.eqb_spec p ATA_COMMAND) as [->|]; [unfold ATA_DRIVE, ATA_COMMAND in Hp; lia|]. done.
Qed.
Next Obligation.
  intros c d Hph Hc Hn Hm lba. apply wp_modify. unfold dr_outb. rewrite Hph. fold lba. rewrite Z.eqb_refl. destruct Hc as [-> | ->]; cbn -[Nat.min]; (split; [done|]; split; [lia|done]).
Qed.
Next Obligation.
  intros lba d Hph. eexists _, _. split; [reflexivity|]. unfold dr_inb. destruct (dr_polls d) as [|n] eqn:E; [rewrite Hph|]; cbn [fst snd].
  - split; [done|]. right. left. split_and!; try done; [intros F; by apply F|intros F; by apply F|]. eexists. split; [reflexivity|]. apply (words_of_buffer _ 256), dr_at_length.
  - split; [done|]. right. right. split_and!; try done; [intros F; by apply F|by left|cbn; lia|cbn; lia].
Qed.
Next Obligation. intros w words d Hph. unfold inw. cbn. unfold wp. rewrite Hph. eexists _, _. split; [reflexivity|]. done. Qed.
Next Obligation.
  intros lba d Hph. eexists _, _. split; [reflexivity|]. unfold dr_inb. destruct (dr_polls d) as [|n] eqn:E; [rewrite Hph|]; cbn [fst snd].
  - split; [done|]. right. left. split_and!; try done; (intros F; by apply F).
  - split; [done|]. right. right. split_and!; try done; [intros F; by apply F|by left|cbn; lia|cbn; lia].
Qed.
Next Obligation. intros lba words w d Hph Hlen. apply wp_modify. rewrite Hph. done. Qed.
Next Obligation.
  intros lba words d Hph Hlen. eexists _, _. split; [reflexivity|]. unfold dr_inb. destruct (dr_polls d) as [|n] eqn:E; [rewrite Hph; case_bool_decide as Hb|]; cbn [fst snd].
  - split; [done|]. left. split_and!; try done. intros F. rewrite F in Hb. set_solver.
  - split; [split; [|done]; intros l Hl; unfold dr_at, dr_store; cbn; by rewrite lookup_insert_ne|]. right. left. split_and!; try done; [intros F; by apply F..|].
    unfold dr_at, dr_store. cbn [dr_sectors]. rewrite lookup_insert_eq, bool_decide_eq_true_2; [done|]. rewrite length_bytes_of_words. lia.
  - split; [done|]. right. right. split_and!; try done; [intros F; by apply F|cbn; lia|cbn; lia].
Qed.

#[export, program] Instance drive_flush : AtaFlush drive.
Next Obligation. intros lba words d Hph. change (dr_phase d = Storing lba words) in Hph. apply wp_modify. unfold dr_outb. rewrite Hph. cbn -[Nat.min]. split; [done|]. split; [done|]. lia. Qed.

Definition demo_drive : drive := Drive (λ _, 0) Ready 0 3 ∅ {[ 9 ]}.


(** A good sector is written and read back, a bad one reports its error. *)
Example drive_writes :
  fst <$> (w ← ata_write_sector 8 (replicate 512 7); r ← ata_read_sector 8 (replicate 512 0); b ← ata_write_sector 9 (replicate 512 7); mret (w, r, b)) demo_drive
  = Some (true, (true, replicate 512 7), false).
Proof. vm_compute. reflexivity. Qed.
