(* ===== verification/Diskfs.v ===== *)
(** * The file system, kernel/fs/diskfs/diskfs.c

    The translation of the file system above its sector cache: the on-disk
    structures, path lookup, allocation, the file operations, mounting,
    validation and fsck. The theorems are in the files that follow. *)

From Stdlib Require Import ZArith Lia Bool String.
From stdpp Require Import base numbers list strings.
From S2P Require Import Prelude Runtime DiskCache.

(** ** Constants *)

Definition DISKFS_MAGIC : Z := 0x3246594D.
Definition DISKFS_JOURNAL_MAGIC : Z := 0x324E524A.
Definition DISKFS_MAX_INODES : Z := 64.
Definition DISKFS_INODE_SIZE : Z := 64.
Definition DISKFS_BITMAP_BYTES : Z := 512.
Definition DISKFS_NAME_MAX : Z := 31.
Definition DISKFS_PATH_MAX : Z := 64.
Definition DISKFS_ROOT_INODE : Z := 0.
Definition DISKFS_TYPE_FILE : Z := 1.
Definition DISKFS_TYPE_DIR : Z := 2.
Definition DISKFS_READ_BUFFER_SIZE : Z := 16384.
Definition DISKFS_MAX_FILE_SIZE : Z := 1048576.

(** ** On-disk structures *)

Record diskfs_superblock := Superblock {
  magic : Z; total_sectors : Z; max_inodes : Z; inode_count : Z;
  bitmap_start : Z; bitmap_sectors : Z; inode_start : Z; inode_sectors : Z;
  data_start : Z; journal_state : Z }.

Record diskfs_inode := Inode {
  itype : Z; reserved0 : Z; iflags : Z; isize : Z;
  first_sector : Z; sector_count : Z; parent : Z;
  iname : list Z; ireserved : list Z }.

(** Little-endian fields of the packed structures. *)
Definition le16 (v : Z) : list Z := [v mod 256; v / 256 mod 256].
Definition le32 (v : Z) : list Z := [v mod 256; v / 256 mod 256; v / 65536 mod 256; v / 16777216 mod 256].
Definition byte_at (b : list Z) (i : nat) : Z := default 0 (b !! i).
Definition get16 (b : list Z) (i : nat) : Z := byte_at b i + 256 * byte_at b (i + 1).
Definition get32 (b : list Z) (i : nat) : Z :=
  byte_at b i + 256 * byte_at b (i + 1) + 65536 * byte_at b (i + 2) + 16777216 * byte_at b (i + 3).

Definition superblock_bytes (s : diskfs_superblock) : list Z :=
  le32 (magic s) ++ le32 (total_sectors s) ++ le32 (max_inodes s) ++ le32 (inode_count s) ++
  le32 (bitmap_start s) ++ le32 (bitmap_sectors s) ++ le32 (inode_start s) ++ le32 (inode_sectors s) ++
  le32 (data_start s) ++ le32 (journal_state s).
Definition superblock_of (b : list Z) : diskfs_superblock :=
  Superblock (get32 b 0) (get32 b 4) (get32 b 8) (get32 b 12) (get32 b 16) (get32 b 20)
             (get32 b 24) (get32 b 28) (get32 b 32) (get32 b 36).

Definition inode_bytes (n : diskfs_inode) : list Z :=
  [itype n; reserved0 n] ++ le16 (iflags n) ++ le32 (isize n) ++ le32 (first_sector n) ++
  le32 (sector_count n) ++ le32 (parent n) ++ iname n ++ ireserved n.
Definition inode_of (b : list Z) : diskfs_inode :=
  Inode (byte_at b 0) (byte_at b 1) (get16 b 2) (get32 b 4) (get32 b 8) (get32 b 12) (get32 b 16)
        (take 32 (drop 20 b)) (take 12 (drop 52 b)).

Definition zero_superblock : diskfs_superblock := Superblock 0 0 0 0 0 0 0 0 0 0.
Definition zero_inode : diskfs_inode := Inode 0 0 0 0 0 0 0 (replicate 32 0) (replicate 12 0).

Definition set_inode_count v s := Superblock (magic s) (total_sectors s) (max_inodes s) v (bitmap_start s)
  (bitmap_sectors s) (inode_start s) (inode_sectors s) (data_start s) (journal_state s).
Definition set_journal_state v s := Superblock (magic s) (total_sectors s) (max_inodes s) (inode_count s)
  (bitmap_start s) (bitmap_sectors s) (inode_start s) (inode_sectors s) (data_start s) v.

Definition set_isize v n := Inode (itype n) (reserved0 n) (iflags n) v (first_sector n) (sector_count n) (parent n) (iname n) (ireserved n).
Definition set_first_sector v n := Inode (itype n) (reserved0 n) (iflags n) (isize n) v (sector_count n) (parent n) (iname n) (ireserved n).
Definition set_sector_count v n := Inode (itype n) (reserved0 n) (iflags n) (isize n) (first_sector n) v (parent n) (iname n) (ireserved n).
Definition set_parent v n := Inode (itype n) (reserved0 n) (iflags n) (isize n) (first_sector n) (sector_count n) v (iname n) (ireserved n).
Definition set_iname v n := Inode (itype n) (reserved0 n) (iflags n) (isize n) (first_sector n) (sector_count n) (parent n) v (ireserved n).

Definition line (text : string) : string := text +:+ String (Ascii.ascii_of_nat 10) EmptyString.

(** ** Paths

    A path is the array behind the pointer, NUL included; a cursor is an index
    into it. The char arrays [part], [next] and [leaf] are represented by the
    string they hold. *)

Fixpoint skip_slashes (fuel : nat) (path : list Z) (p : Z) : option Z :=
  match fuel with
  | O => None
  | S fuel' => c ← aread path p; if c =? 47 then skip_slashes fuel' path (p + 1) else Some p
  end.

(** The second loop: [inr] is the early return when the name gets too long. *)
Fixpoint copy_part (fuel : nat) (path : list Z) (p : Z) (part : list Z) : option ((list Z * Z) + unit) :=
  match fuel with
  | O => None
  | S fuel' =>
      c ← aread path p;
      if (c =? 0) || (c =? 47) then Some (inl (part, p))
      else if DISKFS_NAME_MAX <=? Z.of_nat (length part) + 1 then Some (inr tt)
      else copy_part fuel' path (p + 1) (part ++ [c])
  end.

(** [None] for the return value false, with the cursor afterwards. *)
Definition path_part (path : list Z) (cursor : Z) : option (option (list Z) * Z) :=
  p ← skip_slashes (S (length path)) path cursor;
  c ← aread path p;
  if c =? 0 then Some (None, p)
  else
    r ← copy_part (S (length path)) path p [];
    match r with
    | inr _ => Some (None, cursor)
    | inl (part, p') => Some (if (0 <? Z.of_nat (length part)) then Some part else None, p')
    end.

(** The scan of [inode_name_valid] over the 32 bytes of a name. *)
Fixpoint name_scan (n : nat) (name : list Z) (i : Z) : option bool :=
  match n with
  | O => Some false
  | S n' => c ← aread name i; if c =? 0 then Some true else name_scan n' name (i + 1)
  end.
Definition inode_name_valid (name : list Z) : option bool :=
  c0 ← aread name 0; if c0 =? 0 then Some false else name_scan 32 name 0.

Section diskfs.
Context {D : Type} `{BlockDevice D}.

(** ** State: the statics of the file *)

Record fs := Fs {
  disk : store D;
  available : bool;
  superblock : diskfs_superblock;
  inodes : list diskfs_inode;
  bitmap : list Z;
  file_indices : list Z;
  file_names : list (list Z);
  visible_file_count : Z;
  file_buffer : list Z;
  serial_log : list string }.

Definition set_disk v s := Fs v (available s) (superblock s) (inodes s) (bitmap s) (file_indices s) (file_names s) (visible_file_count s) (file_buffer s) (serial_log s).
Definition set_available v s := Fs (disk s) v (superblock s) (inodes s) (bitmap s) (file_indices s) (file_names s) (visible_file_count s) (file_buffer s) (serial_log s).
Definition set_superblock v s := Fs (disk s) (available s) v (inodes s) (bitmap s) (file_indices s) (file_names s) (visible_file_count s) (file_buffer s) (serial_log s).
Definition set_inodes v s := Fs (disk s) (available s) (superblock s) v (bitmap s) (file_indices s) (file_names s) (visible_file_count s) (file_buffer s) (serial_log s).
Definition set_bitmap v s := Fs (disk s) (available s) (superblock s) (inodes s) v (file_indices s) (file_names s) (visible_file_count s) (file_buffer s) (serial_log s).
Definition set_files idx names n s := Fs (disk s) (available s) (superblock s) (inodes s) (bitmap s) idx names n (file_buffer s) (serial_log s).
Definition set_file_buffer v s := Fs (disk s) (available s) (superblock s) (inodes s) (bitmap s) (file_indices s) (file_names s) (visible_file_count s) v (serial_log s).
Definition log_serial t s := Fs (disk s) (available s) (superblock s) (inodes s) (bitmap s) (file_indices s) (file_names s) (visible_file_count s) (file_buffer s) (serial_log s ++ [t]).

Definition on_store {A} (m : M (store D) A) : M fs A := zoom disk set_disk m.

Definition get_inode (i : Z) : M fs diskfs_inode := l ← gets inodes; lift (aread l i).
Definition put_inode (i : Z) (n : diskfs_inode) : M fs unit :=
  l ← gets inodes; l' ← lift (awrite l i n); modify (set_inodes l').
Definition upd_inode (i : Z) (f : diskfs_inode → diskfs_inode) : M fs unit :=
  n ← get_inode i; put_inode i (f n).

(** [a() && b()]. *)
Definition and_then (a b : M fs bool) : M fs bool := x ← a; if (x : bool) then b else mret false.

(** ** The allocation bitmap *)

Definition bit_mask (sector : Z) : Z := u8 (Z.shiftl 1 (sector mod 8)).

Definition bitmap_get (sector : Z) : M fs bool :=
  b ← gets bitmap; w ← lift (aread b (sector / 8));
  mret (negb (Z.land w (bit_mask sector) =? 0)).

Definition bitmap_set (sector : Z) (used : bool) : M fs unit :=
  b ← gets bitmap; w ← lift (aread b (sector / 8));
  b' ← lift (awrite b (sector / 8)
    (if used then Z.lor w (bit_mask sector) else Z.land w (u8 (Z.lnot (Z.shiftl 1 (sector mod 8))))));
  modify (set_bitmap b').

(** ** Metadata writes *)

Definition write_bitmap : M fs bool :=
  sb ← gets superblock; b ← gets bitmap;
  and_then (on_store (write_sector (bitmap_start sb) b)) (on_store diskfs_flush).

Definition write_inode (index : Z) : M fs bool :=
  sb ← gets superblock;
  let per_sector := DISKFS_SECTOR_SIZE / DISKFS_INODE_SIZE in
  let sector_index := inode_start sb +% index / per_sector in
  let offset := (index mod per_sector) *% DISKFS_INODE_SIZE in
  r ← on_store (read_sector sector_index (mem_zero DISKFS_SECTOR_SIZE));
  if negb (fst r) then mret false
  else
    n ← get_inode index;
    sector ← lift (mem_copy (snd r) offset (inode_bytes n) 0 DISKFS_INODE_SIZE);
    and_then (on_store (write_sector sector_index sector)) (on_store diskfs_flush).

Definition write_superblock : M fs bool :=
  sb ← gets superblock;
  sector ← lift (mem_copy (mem_zero DISKFS_SECTOR_SIZE) 0 (superblock_bytes sb) 0 40);
  and_then (on_store (write_sector 0 sector)) (on_store diskfs_flush).

Definition write_journal (state : Z) : M fs bool :=
  sector ← lift (mem_copy (mem_zero DISKFS_SECTOR_SIZE) 0 (le32 DISKFS_JOURNAL_MAGIC) 0 4);
  sector ← lift (mem_copy sector 4 (le32 state) 0 4);
  _ ← modify (λ s, set_superblock (set_journal_state state (superblock s)) s);
  and_then (on_store (write_sector 1 sector)) write_superblock.

Definition begin_transaction : M fs bool := write_journal 1.
Definition commit_transaction : M fs bool := write_journal 0.

(** ** Lookup *)

Definition find_child (par : Z) (name : list Z) (type_or_zero : Z) : M fs Z :=
  sb ← gets superblock;
  r ← for_exit 0 (Z.min (inode_count sb) DISKFS_MAX_INODES) (λ i,
    n ← get_inode i;
    if negb (itype n =? 0) && (parent n =? par) && ((type_or_zero =? 0) || (itype n =? type_or_zero)) then
      d ← lift (kstrcmp (iname n) (name ++ [0]));
      mret (if d =? 0 then Some i else None)
    else mret None);
  mret (default (-1) r).

(** Each round takes at least one character of the path. *)
Fixpoint find_path_loop (fuel : nat) (path : list Z) (cursor current : Z) (saw_part : bool) : M fs Z :=
  match fuel with
  | O => stuck
  | S fuel' =>
      r ← lift (path_part path cursor);
      match fst r with
      | None => mret (if saw_part then current else DISKFS_ROOT_INODE)
      | Some part =>
          child ← find_child current part 0;
          if child <? 0 then mret (-1) else find_path_loop fuel' path (snd r) child true
      end
  end.
Definition find_path (path : list Z) : M fs Z :=
  find_path_loop (S (length path)) path 0 DISKFS_ROOT_INODE false.

Fixpoint ensure_loop (fuel : nat) (path : list Z) (cursor current : Z) (part : list Z) : M fs (Z * list Z) :=
  match fuel with
  | O => stuck
  | S fuel' =>
      r ← lift (path_part path cursor);
      match fst r with
      | None => mret (current, part)
      | Some next =>
          child ← find_child current part DISKFS_TYPE_DIR;
          if child <? 0 then mret (-1, []) else ensure_loop fuel' path (snd r) child next
      end
  end.
(** The parent directory and the leaf; the leaf is not set when the first is
    negative. *)
Definition ensure_parent_dir (path : list Z) : M fs (Z * list Z) :=
  r ← lift (path_part path 0);
  match fst r with
  | None => mret (-1, [])
  | Some part => ensure_loop (S (length path)) path (snd r) DISKFS_ROOT_INODE part
  end.

(** ** Allocation *)

Definition alloc_inode : M fs Z :=
  r ← for_exit 1 DISKFS_MAX_INODES (λ i,
    sb ← gets superblock;
    if inode_count sb <=? i then
      _ ← modify (λ s, set_superblock (set_inode_count (i + 1) (superblock s)) s); mret (Some i)
    else
      n ← get_inode i; mret (if itype n =? 0 then Some i else None));
  mret (default (-1) r).

(** [None] is the return value false. *)
Definition alloc_contiguous (sectors : Z) : M fs (option Z) :=
  sb ← gets superblock;
  r ← for_state (data_start sb) (total_sectors sb) (λ sector l,
    let '(run_start, run_len) := l in
    used ← bitmap_get sector;
    if negb used then
      let run_start := if run_len =? 0 then sector else run_start in
      let run_len := run_len +% 1 in
      if run_len =? sectors then
        _ ← for_ 0 sectors (λ i, bitmap_set (run_start +% i) true);
        mret (inr run_start)
      else mret (inl (run_start, run_len))
    else mret (inl (run_start, 0))) (data_start sb, 0);
  mret match r with inr first => Some first | inl _ => None end.

Definition free_extent (first sectors : Z) : M fs unit :=
  sb ← gets superblock;
  _ ← for_exit 0 sectors (λ i,
    if first +% i <? total_sectors sb then _ ← bitmap_set (first +% i) false; mret None
    else mret (Some tt));
  mret tt.

Definition sectors_for_size (size : Z) : Z :=
  let sectors := (size +% DISKFS_SECTOR_SIZE -% 1) / DISKFS_SECTOR_SIZE in
  if sectors =? 0 then 1 else sectors.

(** ** File data *)

Definition write_file_data (first : Z) (buffer : list Z) (size : Z) : M fs bool :=
  let sectors := sectors_for_size size in
  r ← for_exit 0 sectors (λ s,
    let offset := s *% DISKFS_SECTOR_SIZE in
    let chunk := if offset <? size then size -% offset else 0 in
    let chunk := if DISKFS_SECTOR_SIZE <? chunk then DISKFS_SECTOR_SIZE else chunk in
    sector ← lift (if 0 <? chunk then mem_copy (mem_zero DISKFS_SECTOR_SIZE) 0 buffer offset chunk
                   else Some (mem_zero DISKFS_SECTOR_SIZE));
    ok ← on_store (write_sector (first +% s) sector);
    mret (if (ok : bool) then None else Some tt));
  match r with Some _ => mret false | None => on_store diskfs_flush end.

(** ** The file list *)

(** [for (j = 0; src[j] != 0 && pos + 1 < DISKFS_PATH_MAX; j++) out[pos++] = src[j]];
    [out] is what has been written so far, so [pos] is its length. *)
Fixpoint append_name (fuel : nat) (src : list Z) (j : Z) (out : list Z) : option (list Z) :=
  match fuel with
  | O => None
  | S fuel' =>
      c ← aread src j;
      if negb (c =? 0) && (Z.of_nat (length out) + 1 <? DISKFS_PATH_MAX)
      then append_name fuel' src (j + 1) (out ++ [c]) else Some out
  end.

(** The path shown for the file [n]: its directory, one level up, and its name. *)
Definition display_path (n : diskfs_inode) : M fs (list Z) :=
  let out := [47] in
  dir ← (if negb (parent n =? DISKFS_ROOT_INODE)
         then p ← get_inode (parent n); mret (if itype p =? DISKFS_TYPE_DIR then Some (iname p) else None)
         else mret None);
  out ← (match dir with
         | Some d =>
             out ← lift (append_name (S (length d)) d 0 out);
             mret (if Z.of_nat (length out) + 1 <? DISKFS_PATH_MAX then out ++ [47] else out)
         | None => mret out
         end);
  out ← lift (append_name (S (length (iname n))) (iname n) 0 out);
  mret (out ++ [0]).

Definition rebuild_file_list : M fs unit :=
  _ ← modify (λ s, set_files (file_indices s) (file_names s) 0 s);
  sb ← gets superblock;
  for_ 0 (Z.min (inode_count sb) DISKFS_MAX_INODES) (λ i,
    n ← get_inode i;
    when (itype n =? DISKFS_TYPE_FILE)
      (k ← gets visible_file_count;
       idx ← gets file_indices; idx' ← lift (awrite idx k i);
       path ← display_path n;
       names ← gets file_names; names' ← lift (awrite names k path);
       modify (set_files idx' names' (k +% 1)))).

(** ** Validation and mounting *)

Definition diskfs_validate : M fs bool :=
  av ← gets available; sb ← gets superblock; root ← get_inode DISKFS_ROOT_INODE;
  if negb av || negb (magic sb =? DISKFS_MAGIC) || negb (total_sectors sb =? DISKFS_TOTAL_SECTORS)
     || (DISKFS_MAX_INODES <? inode_count sb) || negb (itype root =? DISKFS_TYPE_DIR)
  then mret false
  else
    r ← for_exit 0 (inode_count sb) (λ i,
      n ← get_inode i;
      if itype n =? 0 then mret None
      else
        named ← (if negb (i =? DISKFS_ROOT_INODE) then lift (inode_name_valid (iname n)) else mret true);
        if negb named then mret (Some tt)
        else if negb (i =? DISKFS_ROOT_INODE) && (inode_count sb <=? parent n) then mret (Some tt)
        else if itype n =? DISKFS_TYPE_FILE then
          if (first_sector n <? data_start sb)
             || (total_sectors sb <? first_sector n +% sector_count n)
             || negb (sector_count n =? sectors_for_size (isize n))
          then mret (Some tt) else mret None
        else mret None);
    mret (match r with Some _ => false | None => true end).

Definition empty_cache_slot : cache_entry := CacheEntry false false 0 (replicate 512 0).

(** The inodes of one sector of the inode table, lines 469-472. *)
Definition load_inodes (s : Z) (sector : list Z) : M fs unit :=
  let base := s *% (DISKFS_SECTOR_SIZE / DISKFS_INODE_SIZE) in
  for_ 0 (DISKFS_SECTOR_SIZE / DISKFS_INODE_SIZE) (λ i,
    when (base +% i <? DISKFS_MAX_INODES)
      (put_inode (base +% i) (inode_of (take 64 (drop (Z.to_nat (i * DISKFS_INODE_SIZE)) sector))))).

(** The reading part: true when it did not return early. *)
Definition load_metadata : M fs bool :=
  r ← on_store (raw_read_sector 0 (mem_zero DISKFS_SECTOR_SIZE));
  if negb (fst r) then mret false
  else
    _ ← modify (set_superblock (superblock_of (snd r)));
    sb ← gets superblock;
    if negb (magic sb =? DISKFS_MAGIC) || (DISKFS_MAX_INODES <? max_inodes sb)
       || negb (bitmap_sectors sb =? 1) || negb (total_sectors sb =? DISKFS_TOTAL_SECTORS)
    then mret false
    else
      b ← gets bitmap;
      rb ← on_store (raw_read_sector (bitmap_start sb) b);
      _ ← modify (set_bitmap (snd rb));
      if negb (fst rb) then mret false
      else
        l ← for_state 0 (inode_sectors sb) (λ s sector,
          ri ← on_store (raw_read_sector (inode_start sb +% s) sector);
          if negb (fst ri) then mret (inr tt)
          else _ ← load_inodes s (snd ri); mret (inl (snd ri))) (snd r);
        mret (match l with inl _ => true | inr _ => false end).

Definition diskfs_initialize (start_lba : Z) : M fs unit :=
  _ ← modify (λ s, set_disk (Store start_lba (cache (disk s)) (cache_clock (disk s)) (device (disk s))) s);
  _ ← modify (set_available false);
  _ ← modify (λ s, set_files (file_indices s) (file_names s) 0 s);
  _ ← modify (set_superblock zero_superblock);
  _ ← modify (set_inodes (replicate 64 zero_inode));
  _ ← modify (set_bitmap (replicate 512 0));
  _ ← modify (λ s, set_disk (set_cache (replicate 8 empty_cache_slot) (disk s)) s);
  loaded ← load_metadata;
  if negb loaded then mret tt
  else
    _ ← modify (set_available true);
    ok ← diskfs_validate;
    if negb ok then modify (set_available false)
    else
      sb ← gets superblock;
      _ ← when (negb (journal_state sb =? 0))
            (_ ← modify (log_serial (line "MyOS diskfs: recovered from dirty metadata journal marker."));
             _ ← write_journal 0; mret tt);
      _ ← rebuild_file_list;
      modify (log_serial (line "MyOS diskfs: mounted v2 directory filesystem.")).

(** ** Accessors *)

Definition diskfs_is_available : M fs bool := gets available.
Definition diskfs_file_count : M fs Z := gets visible_file_count.
Definition diskfs_file_name (index : Z) : M fs (list Z) :=
  n ← gets visible_file_count;
  if index <? n then names ← gets file_names; lift (aread names index) else mret [0].
Definition diskfs_file_size (index : Z) : M fs Z :=
  n ← gets visible_file_count;
  if n <=? index then mret 0
  else idx ← gets file_indices; i ← lift (aread idx index); nd ← get_inode i; mret (isize nd).
Definition diskfs_index_size (index : Z) : M fs Z :=
  sb ← gets superblock;
  if inode_count sb <=? index then mret 0
  else n ← get_inode index; mret (if itype n =? DISKFS_TYPE_FILE then isize n else 0).
Definition diskfs_max_file_size : Z := DISKFS_MAX_FILE_SIZE.

(** ** Finding and reading *)

(** Is [index] the inode of a file? *)
Definition is_file (index : Z) : M fs bool :=
  if index <? 0 then mret false
  else n ← get_inode index; mret (itype n =? DISKFS_TYPE_FILE).

(** "/" and the first 62 characters of the path. *)
Fixpoint full_path (fuel : nat) (path : list Z) (i : Z) (full : list Z) : option (list Z) :=
  match fuel with
  | O => None
  | S fuel' =>
      c ← aread path i;
      if negb (c =? 0) && (i + 2 <? DISKFS_PATH_MAX) then full_path fuel' path (i + 1) (full ++ [c])
      else Some (full ++ [0])
  end.

Definition diskfs_find_file (path : list Z) : M fs Z :=
  index ← find_path path;
  f ← is_file index;
  if (f : bool) then mret index
  else
    c0 ← lift (aread path 0);
    if negb (c0 =? 47) then
      full ← lift (full_path (S (length path)) path 0 [47]);
      index ← find_path full;
      f ← is_file index;
      mret (if (f : bool) then index else -1)
    else mret (-1).

(** The loop of diskfs_read_index over [first], the first sector of the file:
    the sector buffer, the output and [done] are its variables; each round
    copies at least one byte. The result is false where a read failed. *)
Fixpoint read_loop (fuel : nat) (first offset size : Z) (sector out : list Z) (done : Z) : M fs (bool * list Z * Z) :=
  match fuel with
  | O => stuck
  | S fuel' =>
      if done <? size then
        let absolute := offset +% done in
        let sector_index := absolute / DISKFS_SECTOR_SIZE in
        let sector_offset := absolute mod DISKFS_SECTOR_SIZE in
        let chunk := DISKFS_SECTOR_SIZE -% sector_offset in
        let chunk := if size -% done <? chunk then size -% done else chunk in
        r ← on_store (read_sector (first +% sector_index) sector);
        if negb (fst r) then mret (false, out, 0)
        else
          out' ← lift (mem_copy out done (snd r) sector_offset chunk);
          read_loop fuel' first offset size (snd r) out' (done +% chunk)
      else mret (true, out, done)
  end.

(** The return value, the buffer and [*bytes_read] afterwards. *)
Definition diskfs_read_index (index offset : Z) (buffer : list Z) (size : Z) : M fs (bool * list Z * Z) :=
  av ← gets available; sb ← gets superblock;
  if negb av || (inode_count sb <=? index) then mret (false, buffer, 0)
  else
    n ← get_inode index;
    if negb (itype n =? DISKFS_TYPE_FILE) then mret (false, buffer, 0)
    else if (isize n <=? offset) || (size =? 0) then mret (true, buffer, 0)
    else
      let remaining := isize n -% offset in
      let size := if remaining <? size then remaining else size in
      read_loop (S (Z.to_nat size)) (first_sector n) offset size (mem_zero DISKFS_SECTOR_SIZE) buffer 0.

(** ** Modifying operations *)

(** [for (i = 0; leaf[i] != 0 && i < DISKFS_NAME_MAX; i++) name[i] = leaf[i]]
    into a zeroed name: the leaf has at most 30 characters. *)
Definition name_of_leaf (leaf : list Z) : list Z :=
  let l := take 31 leaf in l ++ replicate (32 - length l) 0.

(** The extent of an existing file made to fit [sectors], lines 598-609; false
    when there is no room. *)
Definition resize (index : Z) (n : diskfs_inode) (sectors : Z) : M fs bool :=
  if sector_count n <? sectors then
    first ← alloc_contiguous sectors;
    match first with
    | None => mret false
    | Some first =>
        _ ← free_extent (first_sector n) (sector_count n);
        _ ← upd_inode index (set_first_sector first);
        _ ← upd_inode index (set_sector_count sectors);
        mret true
    end
  else if sectors <? sector_count n then
    _ ← free_extent (first_sector n +% sectors) (sector_count n -% sectors);
    _ ← upd_inode index (set_sector_count sectors);
    mret true
  else mret true.

(** The branch of diskfs_write_file for a file that exists, lines 597-613. *)
Definition rewrite_file (index : Z) (buffer : list Z) (size : Z) : M fs (option bool) :=
  n ← get_inode index;
  grown ← resize index n (sectors_for_size size);
  if negb grown then _ ← commit_transaction; mret (Some false)
  else
    _ ← upd_inode index (set_isize size);
    n ← get_inode index;
    ok ← and_then (write_file_data (first_sector n) buffer size) (and_then (write_inode index) write_bitmap);
    mret (if (ok : bool) then None else Some false).

(** The branch for a new file, lines 615-632. *)
Definition create_file (par : Z) (leaf : list Z) (buffer : list Z) (size : Z) : M fs (option bool) :=
  let sectors := sectors_for_size size in
  index ← alloc_inode;
  first ← (if index <? 0 then mret None else alloc_contiguous sectors);
  match first with
  | None => _ ← commit_transaction; mret (Some false)
  | Some first =>
      _ ← put_inode index (Inode DISKFS_TYPE_FILE 0 0 size first sectors par (name_of_leaf leaf) (replicate 12 0));
      ok ← and_then (write_file_data first buffer size)
             (and_then (write_inode index) (and_then write_superblock write_bitmap));
      mret (if (ok : bool) then None else Some false)
  end.

(** [Some b] from a branch is the return of [b]. *)
Definition diskfs_write_file (path buffer : list Z) (size : Z) : M fs bool :=
  av ← gets available;
  if negb av || (DISKFS_MAX_FILE_SIZE <? size) then mret false
  else
    r ← ensure_parent_dir path;
    let '(par, leaf) := r in
    named ← (if par <? 0 then mret false else lift (inode_name_valid (leaf ++ [0])));
    if negb named then mret false
    else
      existing ← find_child par leaf DISKFS_TYPE_FILE;
      begun ← begin_transaction;
      if negb begun then mret false
      else
        ret ← (if 0 <=? existing then rewrite_file existing buffer size else create_file par leaf buffer size);
        match ret with
        | Some b => mret b
        | None => _ ← rebuild_file_list; commit_transaction
        end.

Definition diskfs_delete_file (path : list Z) : M fs bool :=
  index ← diskfs_find_file path;
  begun ← (if index <? 0 then mret false else begin_transaction);
  if negb begun then mret false
  else
    n ← get_inode index;
    _ ← free_extent (first_sector n) (sector_count n);
    _ ← put_inode index zero_inode;
    ok ← and_then (write_inode index) write_bitmap;
    if negb ok then mret false
    else _ ← rebuild_file_list; commit_transaction.

Definition diskfs_rename_file (old_path new_path : list Z) : M fs bool :=
  index ← diskfs_find_file old_path;
  r ← ensure_parent_dir new_path;
  let '(par, leaf) := r in
  go ← (if (index <? 0) || (par <? 0) then mret false
        else
          named ← lift (inode_name_valid (leaf ++ [0]));
          if negb named then mret false
          else
            clash ← find_child par leaf 0;
            if 0 <=? clash then mret false else begin_transaction);
  if negb go then mret false
  else
    _ ← upd_inode index (set_parent par);
    _ ← upd_inode index (set_iname (name_of_leaf leaf));
    ok ← write_inode index;
    if negb ok then mret false
    else _ ← rebuild_file_list; commit_transaction.

Definition diskfs_truncate_file (path : list Z) (size : Z) : M fs bool :=
  if DISKFS_MAX_FILE_SIZE <? size then mret false
  else
    index ← diskfs_find_file path;
    if index <? 0 then
      if size =? 0 then diskfs_write_file path [0] 0 else mret false
    else
      n ← get_inode index;
      if size =? isize n then mret true
      else if size =? 0 then diskfs_write_file path [0] 0
      else if (DISKFS_READ_BUFFER_SIZE <? isize n) || (DISKFS_READ_BUFFER_SIZE <? size) then mret false
      else
        fb ← gets file_buffer;
        fb ← lift (mem_copy fb 0 (mem_zero size) 0 size);
        _ ← modify (set_file_buffer fb);
        r ← diskfs_read_index index 0 fb (isize n);
        _ ← modify (set_file_buffer (snd (fst r)));
        fb ← gets file_buffer;
        diskfs_write_file path fb size.

(** [None] for the null pointer; the data is left in [file_buffer]. *)
Definition diskfs_read_file (name : list Z) : M fs (option Z) :=
  index ← diskfs_find_file name;
  if index <? 0 then mret None
  else
    n ← get_inode index;
    if DISKFS_READ_BUFFER_SIZE <? isize n then mret None
    else
      fb ← gets file_buffer;
      r ← diskfs_read_index index 0 fb (isize n);
      let '(ok, out, bytes_read) := r in
      _ ← modify (set_file_buffer out);
      if negb ok then mret None
      else
        _ ← when (bytes_read <? DISKFS_READ_BUFFER_SIZE)
              (fb ← gets file_buffer; fb' ← lift (awrite fb bytes_read 0); modify (set_file_buffer fb'));
        mret (Some bytes_read).

(** ** fsck *)

(** The report is the string in the buffer of [report_size] bytes. *)
Definition append_report (report : list Z) (report_size : Z) (text : string) : list Z :=
  if report_size =? 0 then report
  else report ++ take (Z.to_nat (report_size - 1) - length report) (bytes_of text).

Definition seen_get (seen : list Z) (sector : Z) : option bool :=
  w ← aread seen (sector / 8); Some (negb (Z.land w (bit_mask sector) =? 0)).
Definition seen_set (seen : list Z) (sector : Z) : option (list Z) :=
  w ← aread seen (sector / 8); awrite seen (sector / 8) (Z.lor w (bit_mask sector)).

(** The sectors of one file, lines 764-771. *)
Definition fsck_extent (first count report_size : Z) (l : list Z * Z * list Z) : M fs (list Z * Z * list Z) :=
  r ← for_state (R := Empty_set) 0 count (λ s l,
    let '(seen, errors, report) := l in
    let sector := first +% s in
    dup ← lift (seen_get seen sector);
    seen' ← lift (seen_set seen sector);
    mret (inl (if (dup : bool) then (seen', errors +% 1, append_report report report_size (line "overlapping extent"))
               else (seen', errors, report)))) l;
  match r with inl l' => mret l' | inr e => match (e : Empty_set) with end end.

Definition fsck_inodes (report_size : Z) (l : list Z * Z * list Z) : M fs (list Z * Z * list Z) :=
  sb ← gets superblock;
  r ← for_state (R := Empty_set) 0 (inode_count sb) (λ i l,
    n ← get_inode i;
    if itype n =? DISKFS_TYPE_FILE then
      if (first_sector n <? data_start sb) || (total_sectors sb <? first_sector n +% sector_count n) then
        let '(seen, errors, report) := l in
        mret (inl (seen, errors +% 1, append_report report report_size (line "file extent out of bounds")))
      else l' ← fsck_extent (first_sector n) (sector_count n) report_size l; mret (inl l')
    else mret (inl l)) l;
  match r with inl l' => mret l' | inr e => match (e : Empty_set) with end end.

(** The number of errors and the report. *)
Definition diskfs_fsck (report_size : Z) : M fs (Z * list Z) :=
  av ← gets available;
  if negb av then mret (1, append_report [] report_size (line "diskfs unavailable"))
  else
    sb ← gets superblock;
    r ← for_state (R := Empty_set) 0 (data_start sb) (λ sector seen,
          seen' ← lift (seen_set seen sector); mret (inl seen')) (mem_zero DISKFS_BITMAP_BYTES);
    match r with
    | inr e => match (e : Empty_set) with end
    | inl seen =>
        l ← fsck_inodes report_size (seen, 0, []);
        let '(seen, errors, report) := l in
        mismatch ← for_exit 0 (total_sectors sb) (λ sector,
          expected ← lift (seen_get seen sector);
          used ← bitmap_get sector;
          mret (if eqb used expected then None else Some tt));
        let '(errors, report) :=
          match mismatch with
          | Some _ => (errors +% 1, append_report report report_size (line "bitmap mismatch"))
          | None => (errors, report)
          end in
        mret (errors, if errors =? 0 then append_report report report_size (line "diskfs fsck: clean") else report)
    end.
End diskfs.
Arguments fs D : clear implicits.
