(* ===== verification/DiskfsAlloc.v ===== *)
(** * Sector allocation of the file system

    What bitmap_get, bitmap_set, alloc_contiguous and free_extent of diskfs.c do
    to the set of used sectors: the allocation is first fit and complete. *)

From Stdlib Require Import ZArith Lia Bool String.
From stdpp Require Import base numbers list.
From S2P Require Import Prelude Bitmap Runtime DiskCache Diskfs.

Lemma bit_mask_shift sector : bit_mask sector = Z.shiftl 1 (sector mod 8).
Proof.
  unfold bit_mask. apply u8_small. pose proof (Z.mod_pos_bound sector 8 ltac:(lia)).
  pose proof (shiftl_1_range 8 (sector mod 8)) as Hr. unfold is_u8. lia.
Qed.

Section alloc.
Context {D : Type} `{BlockDevice D}.
Implicit Types s : fs D.

(** [q] lies in the extent of [n] sectors from [a]. *)
Definition in_extent (a n q : Z) : bool := (a <=? q) && (q <? a + n).

Lemma in_extent_spec a n q : in_extent a n q = true ↔ a ≤ q < a + n.
Proof. unfold in_extent. rewrite andb_true_iff, Z.leb_le, Z.ltb_lt. done. Qed.

Section one_bit.
Context s (f : Z → bool).
Hypothesis Hbm : bitmap_is 8 4096 (bitmap s) f.

Lemma bitmap_get_wp p (Q : bool → fs D → Prop) : 0 ≤ p < 4096 → Q (f p) s → wp (bitmap_get p) Q s.
Proof.
  intros Hp HQ. destruct (bitmap_word _ _ _ _ p Hbm Hp) as (_ & Hm & x & Hx & _ & Hf).
  unfold bitmap_get. do 3 wp_step. eapply wp_lift; [exact Hx|]. wp_step.
  by rewrite bit_mask_shift, testbit_land_shiftl, Hf by lia.
Qed.

Lemma bitmap_set_wp p b (Q : unit → fs D → Prop) : 0 ≤ p < 4096 →
  (∀ bm, bitmap_is 8 4096 bm (upd_bit f p b) → Q tt (set_bitmap bm s)) → wp (bitmap_set p b) Q s.
Proof.
  intros Hp HQ. destruct (bitmap_word _ _ _ _ p Hbm Hp) as (Hq & Hm & x & Hx & _ & _).
  unfold bitmap_set. do 3 wp_step. eapply wp_lift; [exact Hx|]. wp_step. eapply wp_lift; [by apply awrite_eq|].
  wp_step. apply HQ. destruct b.
  - rewrite bit_mask_shift. by apply bitmap_set_word.
  - by apply bitmap_clear_word.
Qed.
End one_bit.

Lemma bitmap_fill_wp s f (a n : Z) b (Q : unit → fs D → Prop) : bitmap_is 8 4096 (bitmap s) f →
  0 ≤ a → 0 ≤ n → a + n ≤ 4096 →
  (∀ bm, bitmap_is 8 4096 bm (λ q, if in_extent a n q then b else f q) → Q tt (set_bitmap bm s)) →
  wp (for_ 0 n (λ i, bitmap_set (a +% i) b)) Q s.
Proof.
  intros Hbm Ha Hn Han HQ.
  apply (wp_for _ _ _ (λ i s', ∃ bm, s' = set_bitmap bm s ∧
    bitmap_is 8 4096 bm (λ q, if in_extent a i q then b else f q))); [lia| | |].
  - exists (bitmap s). split; [by destruct s|]. eapply bitmap_ext; [exact Hbm|].
    intros q _. destruct (in_extent a 0 q) eqn:E; [|done]. apply in_extent_spec in E. lia.
  - intros i s' Hi (bm & -> & Hb). u32_simp. apply (bitmap_set_wp (set_bitmap bm s) _ Hb); [lia|].
    intros bm' Hb'. exists bm'. split; [done|]. eapply bitmap_ext; [exact Hb'|]. intros q _. unfold upd_bit, in_extent.
    destruct (Z.eqb_spec q (a + i)), (Z.leb_spec a q), (Z.ltb_spec q (a + i)), (Z.ltb_spec q (a + (i + 1))); try lia; done.
  - intros s' (bm & -> & Hb). by apply HQ.
Qed.

(** No run of [n] free sectors starts before [lim - n + 1]. *)
Definition no_run (f : Z → bool) (lo n lim : Z) : Prop :=
  ∀ a, lo ≤ a → a + n ≤ lim → ∃ q, a ≤ q < a + n ∧ f q = true.

Lemma alloc_contiguous_wp s f sectors (Q : option Z → fs D → Prop) :
  bitmap_is 8 4096 (bitmap s) f → total_sectors (superblock s) = 4096 →
  0 ≤ data_start (superblock s) ≤ 4096 → 1 ≤ sectors < 2 ^ 32 →
  (∀ first bm, data_start (superblock s) ≤ first → first + sectors ≤ 4096 →
     (∀ q, first ≤ q < first + sectors → f q = false) →
     no_run f (data_start (superblock s)) sectors (first + sectors - 1) →
     bitmap_is 8 4096 bm (λ q, f q || in_extent first sectors q) → Q (Some first) (set_bitmap bm s)) →
  (no_run f (data_start (superblock s)) sectors 4096 → Q None s) →
  wp (alloc_contiguous sectors) Q s.
Proof.
  intros Hbm Ht Hd Hs HQ1 HQ2. unfold alloc_contiguous. do 3 wp_step. rewrite Ht.
  set (lo := data_start (superblock s)) in *.
  apply (wp_for_state _ _ _ (λ i l s', s' = s ∧ 0 ≤ snd l < sectors ∧ snd l ≤ i - lo ∧
    (0 < snd l → fst l = i - snd l) ∧ (∀ q, i - snd l ≤ q < i → f q = false) ∧
    (i - snd l = lo ∨ f (i - snd l - 1) = true) ∧ no_run f lo sectors i)); [lia| | |].
  - cbn. split_and!; try lia; try done. intros a Ha1 Ha2. lia.
  - intros i [rs rl] s' Hi (-> & Hrl & Hrl2 & Hrs & Hfree & Hmax & Hno). cbn [fst snd] in *.
    wp_step. apply (bitmap_get_wp _ _ Hbm); [lia|]. destruct (f i) eqn:Efi; cbn [negb].
    + wp_step. cbn. split_and!; try lia; try done; [right; by replace (i + 1 - 0 - 1) with i by lia|].
      intros a Ha1 Ha2. destruct (Z.le_gt_cases (a + sectors) i); [by apply Hno|]. exists i. split; [lia|done].
    + set (rs' := if rl =? 0 then i else rs).
      assert (Ers : rs' = i - rl) by (unfold rs'; destruct (Z.eqb_spec rl 0); [lia|apply Hrs; lia]).
      u32_simp. destruct (Z.eqb_spec (rl + 1) sectors) as [Efull|Hnf].
      * wp_step. rewrite Ers. apply (bitmap_fill_wp s f); [done|lia|lia|lia|]. intros bm Hb. wp_step. wp_step.
        apply HQ1; [lia|lia| | |].
        -- intros q Hq. destruct (Z.eq_dec q i) as [->|]; [done|apply Hfree; lia].
        -- intros a Ha1 Ha2. apply Hno; lia.
        -- eapply bitmap_ext; [exact Hb|]. intros q _. cbn. destruct (in_extent _ _ q); [by rewrite orb_true_r|by rewrite orb_false_r].
      * wp_step. cbn. split_and!; try lia; try done.
        -- intros q Hq. destruct (Z.eq_dec q i) as [->|]; [done|apply Hfree; lia].
        -- by replace (i + 1 - (rl + 1)) with (i - rl) by lia.
        -- intros a Ha1 Ha2. destruct (Z.le_gt_cases (a + sectors) i); [by apply Hno|].
           destruct Hmax as [E|E]; [lia|]. exists (i - rl - 1). split; [lia|done].
  - intros [rs rl] s' (-> & _ & _ & _ & _ & _ & Hno). wp_step. by apply HQ2.
Qed.

Lemma free_extent_wp s f first sectors (Q : unit → fs D → Prop) :
  bitmap_is 8 4096 (bitmap s) f → total_sectors (superblock s) = 4096 →
  0 ≤ first → 0 ≤ sectors → first + sectors ≤ 4096 →
  (∀ bm, bitmap_is 8 4096 bm (λ q, f q && negb (in_extent first sectors q)) → Q tt (set_bitmap bm s)) →
  wp (free_extent first sectors) Q s.
Proof.
  intros Hbm Ht H1 H2 H3 HQ. unfold free_extent. do 3 wp_step. rewrite Ht.
  apply (wp_for_exit _ _ _ (λ i s', ∃ bm, s' = set_bitmap bm s ∧
    bitmap_is 8 4096 bm (λ q, f q && negb (in_extent first i q)))); [lia| | |].
  - exists (bitmap s). split; [by destruct s|]. eapply bitmap_ext; [exact Hbm|]. intros q _.
    destruct (in_extent first 0 q) eqn:E; [apply in_extent_spec in E; lia|]. by rewrite andb_true_r.
  - intros i s' Hi (bm & -> & Hb). u32_simp. rewrite (proj2 (Z.ltb_lt _ _)) by lia. wp_step.
    apply (bitmap_set_wp (set_bitmap bm s) _ Hb); [lia|]. intros bm' Hb'. wp_step. exists bm'. split; [done|].
    eapply bitmap_ext; [exact Hb'|]. intros q _. unfold upd_bit, in_extent.
    destruct (Z.eqb_spec q (first + i)), (Z.leb_spec first q), (Z.ltb_spec q (first + i)), (Z.ltb_spec q (first + (i + 1)));
      try lia; cbn; by rewrite ?andb_false_r, ?andb_true_r.
  - intros s' (bm & -> & Hb). wp_step. by apply HQ.
Qed.
End alloc.
