(* ===== verification/DiskfsInv.v ===== *)
(** * Lookup and the invariant of the file system

    The in-memory metadata is consistent: the used sectors of the bitmap are
    exactly the metadata area and the extents of the files, and extents do not
    overlap. Path lookup and find_child of diskfs.c as pure functions of it. *)

From Stdlib Require Import ZArith Lia Bool String.
From stdpp Require Import base numbers list.
From S2P Require Import Prelude Bitmap Runtime DiskCache Diskfs DiskfsAlloc.

(** ** Invariant *)

(** A C string of bytes. *)
Definition chars (l : list Z) : Prop := Forall (λ c, 0 < c < 256) l.

Definition name_ok (n : diskfs_inode) : Prop :=
  length (iname n) = 32%nat ∧ ∃ nm rest, iname n = nm ++ 0 :: rest ∧ chars nm.
Definition cname (n : diskfs_inode) : list Z := default [] (cstring (iname n)).

Record geometry (sb : diskfs_superblock) : Prop := {
  geo_total : total_sectors sb = 4096;
  geo_count : 1 ≤ inode_count sb ≤ 64;
  geo_bitmap : 2 ≤ bitmap_start sb < data_start sb;
  geo_inodes : 2 ≤ inode_start sb ∧ inode_start sb + 8 ≤ data_start sb;
  geo_apart : bitmap_start sb < inode_start sb ∨ inode_start sb + 8 ≤ bitmap_start sb;
  geo_data : data_start sb ≤ 4096 }.

Definition covers (n : diskfs_inode) (q : Z) : bool :=
  (itype n =? DISKFS_TYPE_FILE) && in_extent (first_sector n) (sector_count n) q.
Definition used (sb : diskfs_superblock) (ns : list diskfs_inode) (q : Z) : bool :=
  (q <? data_start sb) || existsb (λ n, covers n q) ns.

Record inode_ok (sb : diskfs_superblock) (n : diskfs_inode) : Prop := {
  io_name : name_ok n;
  io_reserved : length (ireserved n) = 12%nat;
  io_parent : 0 ≤ parent n < inode_count sb;
  io_extent : itype n = DISKFS_TYPE_FILE →
    data_start sb ≤ first_sector n ∧ first_sector n + sector_count n ≤ 4096 ∧
    sector_count n = sectors_for_size (isize n) ∧ 0 ≤ isize n ≤ DISKFS_MAX_FILE_SIZE }.

Record meta_inv (sb : diskfs_superblock) (ns : list diskfs_inode) (bm : list Z) : Prop := {
  me_geo : geometry sb;
  me_len : length ns = 64%nat;
  me_root : itype <$> ns !! 0%nat = Some DISKFS_TYPE_DIR;
  me_ok : ∀ i n, ns !! i = Some n → itype n ≠ 0 → inode_ok sb n ∧ Z.of_nat i < inode_count sb;
  me_disjoint : ∀ i j n m q, ns !! i = Some n → ns !! j = Some m → covers n q = true → covers m q = true → i = j;
  me_bits : bitmap_is 8 4096 bm (used sb ns) }.

(** No two entries of a directory have the same name. *)
Definition unique_names (ns : list diskfs_inode) : Prop :=
  ∀ i j n m, ns !! i = Some n → ns !! j = Some m → itype n ≠ 0 → itype m ≠ 0 →
    parent n = parent m → cname n = cname m → i = j.

Lemma sectors_for_size_range size : 0 ≤ size ≤ DISKFS_MAX_FILE_SIZE →
  sectors_for_size size = Z.max 1 ((size + 511) / 512) ∧ 1 ≤ sectors_for_size size ≤ 2048 ∧
  size ≤ 512 * sectors_for_size size.
Proof.
  unfold DISKFS_MAX_FILE_SIZE, sectors_for_size, DISKFS_SECTOR_SIZE. intros Hs.
  rewrite (u32_small (size + 512)), u32_small by (unfold is_u32; lia).
  replace (size + 512 - 1) with (size + 511) by lia.
  pose proof (Z.div_mod (size + 511) 512 ltac:(lia)) as Hd.
  pose proof (Z.mod_pos_bound (size + 511) 512 ltac:(lia)) as Hm.
  revert Hd Hm. generalize ((size + 511) / 512), ((size + 511) mod 512). intros x m Hd Hm.
  destruct (Z.eqb_spec x 0); split_and!; lia.
Qed.

Lemma covers_used sb ns i n q : ns !! i = Some n → covers n q = true → used sb ns q = true.
Proof.
  intros Hi Hc. unfold used. apply orb_true_iff. right. apply existsb_exists. exists n. split; [|done].
  apply list_elem_of_In, list_elem_of_lookup. by exists i.
Qed.

Lemma covers_range sb n q : inode_ok sb n → covers n q = true → data_start sb ≤ q < 4096.
Proof.
  intros Hok Hc. unfold covers in Hc. bool_to_prop. destruct (io_extent _ _ Hok) as (H1 & H2 & _); [done|].
  match goal with H : in_extent _ _ _ = true |- _ => apply in_extent_spec in H end. lia.
Qed.

Lemma used_insert sb ns i n n' q : ns !! i = Some n →
  (∀ j m, ns !! j = Some m → covers m q = true → covers n q = true → j = i) →
  (covers n q = true → (q <? data_start sb) = false) →
  used sb (<[i := n']> ns) q = used sb ns q && negb (covers n q) || covers n' q.
Proof.
  intros Hi Huniq Hlow.
  assert (Hex : ∀ l : list diskfs_inode, existsb (λ n, covers n q) l = true ↔ ∃ j m, l !! j = Some m ∧ covers m q = true).
  { intros l. rewrite existsb_exists. split.
    - intros (m & Hm & Hc). apply list_elem_of_In, list_elem_of_lookup in Hm as [j Hj]. by exists j, m.
    - intros (j & m & Hj & Hc). exists m. split; [|done]. apply list_elem_of_In, list_elem_of_lookup. by exists j. }
  assert (Hlt : (i < length ns)%nat) by (by eapply lookup_lt_Some).
  apply eq_true_iff_eq. unfold used. rewrite !orb_true_iff, andb_true_iff, orb_true_iff, negb_true_iff, !Hex. split.
  - intros [H1|(j & m & Hj & Hc)].
    + left. split; [by left|]. destruct (covers n q); [rewrite Hlow in H1 by done; done|done].
    + destruct (decide (j = i)) as [->|Hne].
      * rewrite list_lookup_insert_eq in Hj by done. injection Hj as <-. by right.
      * rewrite list_lookup_insert_ne in Hj by done. left. split; [right; by exists j, m|].
        destruct (covers n q) eqn:E; [|done]. exfalso. by apply Hne, (Huniq j m).
  - intros [[[H1|(j & m & Hj & Hc)] Hn]|Hc]; [by left| |].
    + right. exists j, m. split; [|done]. rewrite list_lookup_insert_ne; [done|]. intros ->. congruence.
    + right. exists i, n'. by rewrite list_lookup_insert_eq.
Qed.

(** The update every operation makes: one inode and the bits of its old and
    new extent. *)
Lemma meta_update sb ns bm bm' i n n' : meta_inv sb ns bm → ns !! i = Some n → itype n ≠ DISKFS_TYPE_DIR →
  (itype n' ≠ 0 → inode_ok sb n' ∧ Z.of_nat i < inode_count sb) →
  (∀ q, covers n' q = true → used sb ns q = false ∨ covers n q = true) →
  bitmap_is 8 4096 bm' (λ q, used sb ns q && negb (covers n q) || covers n' q) →
  meta_inv sb (<[i := n']> ns) bm'.
Proof.
  intros [G L Rt O Dj B] Hi Hnd Hok Hfree Hb.
  assert (Hlt : (i < length ns)%nat) by (by eapply lookup_lt_Some).
  assert (Hlk : ∀ j m, <[i := n']> ns !! j = Some m → j = i ∧ m = n' ∨ j ≠ i ∧ ns !! j = Some m).
  { intros j m. destruct (decide (j = i)) as [->|Hne].
    - rewrite list_lookup_insert_eq by done. intros [= <-]. auto.
    - rewrite list_lookup_insert_ne by done. auto. }
  assert (Hsep : ∀ j m q, j ≠ i → ns !! j = Some m → covers m q = true → covers n' q = true → False).
  { intros j m q Hne Hj Hm Hn'. destruct (Hfree q Hn') as [Hu|Hn].
    - by rewrite (covers_used sb ns j m q Hj Hm) in Hu.
    - by apply Hne, (Dj j i m n q). }
  split; [done|by rewrite length_insert| | | |].
  - destruct i as [|i]; [rewrite Hi in Rt; by injection Rt|by rewrite list_lookup_insert_ne].
  - intros j m Hj Ht. destruct (Hlk j m Hj) as [[-> ->]|[_ Hj']]; [by apply Hok|by apply O].
  - intros j k m1 m2 q Hj Hk C1 C2. destruct (Hlk _ _ Hj) as [[-> ->]|[N1 Hj']], (Hlk _ _ Hk) as [[-> ->]|[N2 Hk']];
      [done| | |by eapply Dj]; exfalso; eauto.
  - eapply bitmap_ext; [exact Hb|]. intros q Hq. symmetry. apply used_insert; [done| |].
    + intros j m Hj Hm Hn. by eapply (Dj j i m n q).
    + intros Hc. apply Z.ltb_ge.
      destruct (decide (itype n = 0)) as [E|E]; [unfold covers in Hc; by rewrite E in Hc|].
      destruct (O i n Hi E) as [Hok0 _]. pose proof (covers_range _ _ _ Hok0 Hc). lia.
Qed.

(** ** Names and children *)

Lemma cname_spec n : name_ok n → ∃ rest, iname n = cname n ++ 0 :: rest ∧ chars (cname n).
Proof.
  intros (_ & nm & rest & E & Hc). exists rest. unfold cname.
  assert (cstring (iname n) = Some nm) as ->.
  { apply cstring_spec. exists rest. split; [done|]. eapply Forall_impl; [exact Hc|]. cbn. lia. }
  done.
Qed.

Definition matches (par : Z) (name : list Z) (ty : Z) (n : diskfs_inode) : bool :=
  negb (itype n =? 0) && (parent n =? par) && ((ty =? 0) || (itype n =? ty)) && bool_decide (cname n = name).

(** The first inode of that name in the directory [par], -1 if none. *)
Definition child (ns : list diskfs_inode) (par : Z) (name : list Z) (ty : Z) : Z :=
  match list_find (λ n, matches par name ty n = true) ns with Some (i, _) => Z.of_nat i | None => -1 end.

Lemma child_range ns par name ty : -1 ≤ child ns par name ty < Z.of_nat (length ns) ∨ child ns par name ty = -1.
Proof.
  unfold child. destruct (list_find _ ns) as [[i n]|] eqn:E; [|by right].
  apply list_find_Some in E as (Hi & _). apply lookup_lt_Some in Hi. left. lia.
Qed.

Lemma child_Some ns par name ty i : child ns par name ty = Z.of_nat i →
  ∃ n, ns !! i = Some n ∧ matches par name ty n = true.
Proof.
  unfold child. destruct (list_find _ ns) as [[j n]|] eqn:E; [|lia]. intros H%Nat2Z.inj. subst j.
  apply list_find_Some in E as (Hi & Hm & _). by exists n.
Qed.

Lemma child_None ns par name ty : child ns par name ty < 0 → ∀ i n, ns !! i = Some n → matches par name ty n = false.
Proof.
  unfold child. destruct (list_find _ ns) as [[j n]|] eqn:E; [lia|]. intros _ i n Hi.
  apply list_find_None in E. rewrite Forall_lookup in E. specialize (E i n Hi). by apply not_true_is_false.
Qed.

(** Where names are unique, any matching inode is the child. *)
Lemma child_unique ns par name ty i n : unique_names ns → ns !! i = Some n → matches par name ty n = true →
  child ns par name ty = Z.of_nat i.
Proof.
  intros Hu Hi Hm. unfold child. destruct (list_find _ ns) as [[j m]|] eqn:E.
  - apply list_find_Some in E as (Hj & Hm' & _). f_equal. unfold matches in *. bool_to_prop.
    repeat match goal with H : bool_decide _ = true |- _ => apply bool_decide_eq_true in H end.
    eapply (Hu j i m n); congruence.
  - apply list_find_None in E. rewrite Forall_lookup in E. by specialize (E i n Hi).
Qed.

Lemma matches_spec par name n : matches par name 0 n = true ↔ itype n ≠ 0 ∧ parent n = par ∧ cname n = name.
Proof. unfold matches. cbn. rewrite andb_true_r, !andb_true_iff, negb_true_iff, Z.eqb_neq, Z.eqb_eq, bool_decide_eq_true. tauto. Qed.

Lemma matches_any par name ty n : matches par name ty n = true → matches par name 0 n = true.
Proof. unfold matches. intros H. bool_to_prop. repeat (apply andb_true_iff; split); try done. apply negb_true_iff. by apply Z.eqb_neq. by apply Z.eqb_eq. Qed.

Section lookup.
Context {D : Type} `{BlockDevice D}.
Implicit Types s : fs D.

Definition fs_meta s : Prop := meta_inv (superblock s) (inodes s) (bitmap s).

Lemma wp_get_inode s i n (Q : diskfs_inode → fs D → Prop) : inodes s !! i = Some n → Q n s →
  wp (get_inode (Z.of_nat i)) Q s.
Proof.
  intros Hi HQ. unfold get_inode. do 2 wp_step. eapply wp_lift; [|done]. apply aread_Some. rewrite Nat2Z.id. split; [lia|done].
Qed.

Lemma wp_put_inode s i n (Q : unit → fs D → Prop) : (i < length (inodes s))%nat →
  Q tt (set_inodes (<[i := n]> (inodes s)) s) → wp (put_inode (Z.of_nat i) n) Q s.
Proof.
  intros Hi HQ. unfold put_inode. do 3 wp_step. eapply wp_lift; [apply awrite_eq; lia|].
  rewrite Nat2Z.id. by wp_step.
Qed.

Lemma find_child_wp s par name ty (Q : Z → fs D → Prop) : fs_meta s → chars name →
  Q (child (inodes s) par name ty) s → wp (find_child par name ty) Q s.
Proof.
  intros Hm Hn HQ. pose proof (me_len _ _ _ Hm) as Hl. pose proof (geo_count _ (me_geo _ _ _ Hm)) as Hc.
  unfold find_child. do 3 wp_step. unfold DISKFS_MAX_INODES. rewrite Z.min_l by lia.
  apply (wp_for_exit _ _ _ (λ i s', s' = s ∧ ∀ j n, (j < Z.to_nat i)%nat → inodes s !! j = Some n →
    matches par name ty n = false)); [lia|split; [done|lia]| |].
  - intros i s' Hi [-> Hno]. destruct (lookup_lt_is_Some_2 (inodes s) (Z.to_nat i) ltac:(lia)) as [n Hnd].
    wp_step. rewrite <- (Z2Nat.id i) by lia. eapply wp_get_inode; [exact Hnd|]. rewrite Z2Nat.id by lia.
    assert (Hnext : matches par name ty n = false → ∀ j m, (j < Z.to_nat (i + 1))%nat → inodes s !! j = Some m →
      matches par name ty m = false).
    { intros Hf j m Hj Hjm. destruct (decide (j = Z.to_nat i)) as [->|Hne]; [congruence|]. apply (Hno j m); [lia|done]. }
    destruct (negb (itype n =? 0) && (parent n =? par) && ((ty =? 0) || (itype n =? ty))) eqn:Ec.
    + assert (Hlive : itype n ≠ 0) by (bool_to_prop; done).
      destruct (me_ok _ _ _ Hm _ _ Hnd Hlive) as [Hok _].
      destruct (cname_spec n (io_name _ _ Hok)) as (rest & Enm & Hch).
      destruct (kstrcmp_eq (cname n) name rest [] Hch Hn) as (d & Ed & Hd).
      wp_step. eapply wp_lift; [rewrite Enm; exact Ed|]. wp_step.
      assert (Em : matches par name ty n = (d =? 0)).
      { unfold matches. rewrite Ec. cbn. destruct (Z.eqb_spec d 0); [apply bool_decide_eq_true_2; tauto|apply bool_decide_eq_false_2; tauto]. }
      destruct (d =? 0).
      * wp_step. cbn. replace i with (child (inodes s) par name ty); [done|]. unfold child.
        assert (list_find (λ n, matches par name ty n = true) (inodes s) = Some (Z.to_nat i, n)) as ->.
        { apply list_find_Some. split_and!; [done|done|]. intros j m Hj Hlt. by rewrite (Hno j m). }
        lia.
      * split; [done|]. by apply Hnext.
    + wp_step. split; [done|]. apply Hnext. unfold matches. by rewrite Ec.
  - intros s' [-> Hno]. wp_step. cbn. replace (-1) with (child (inodes s) par name ty); [done|]. unfold child.
    assert (list_find (λ n, matches par name ty n = true) (inodes s) = None) as ->; [|done].
    apply list_find_None, Forall_lookup. intros j m Hj.
    destruct (decide (j < Z.to_nat (inode_count (superblock s)))%nat) as [Hlt|Hge]; [by rewrite (Hno j m)|].
    destruct (decide (itype m = 0)) as [E|E]; [by unfold matches; rewrite E|].
    destruct (me_ok _ _ _ Hm j m Hj E). lia.
Qed.
End lookup.
