(* ===== verification/DiskfsPath.v ===== *)
(** * Path resolution of the file system

    path_part, find_path and ensure_parent_dir of diskfs.c: they walk the same
    list of components, so a file written through a path is found through it. *)

From Stdlib Require Import ZArith Lia Bool String.
From stdpp Require Import base numbers list.
From S2P Require Import Prelude Bitmap Runtime DiskCache Diskfs DiskfsAlloc DiskfsInv.

(** [path] is an array that holds the string [s]. *)
Definition path_holds (s : list Z) (path : list Z) : Prop := chars s ∧ ∃ rest, path = s ++ 0 :: rest.

Definition part_ok (part : list Z) : Prop := chars part ∧ Forall (λ c, c ≠ 47) part ∧ (1 ≤ length part ≤ 30)%nat.

Lemma path_read s path i : path_holds s path → 0 ≤ i ≤ Z.of_nat (length s) →
  ∃ c, aread path i = Some c ∧ (i < Z.of_nat (length s) → 0 < c < 256) ∧ (i = Z.of_nat (length s) → c = 0).
Proof.
  intros [Hc [rest ->]] Hi. destruct (Z.eq_dec i (Z.of_nat (length s))) as [->|Hne].
  - exists 0. rewrite aread_app_end. split; [done|]. lia.
  - destruct (aread_is_Some s i) as [c Hr]; [lia|]. exists c. rewrite aread_app_l by lia. split; [done|]. split; [|lia].
    intros _. apply aread_Some in Hr as [_ Hr]. by apply (Forall_lookup_1 _ _ _ _ Hc Hr).
Qed.

Lemma skip_slashes_ok s path fuel : ∀ c, path_holds s path → 0 ≤ c ≤ Z.of_nat (length s) →
  (Z.to_nat (Z.of_nat (length s) - c) < fuel)%nat →
  ∃ p x, skip_slashes fuel path c = Some p ∧ c ≤ p ≤ Z.of_nat (length s) ∧ aread path p = Some x ∧ x ≠ 47.
Proof.
  induction fuel as [|fuel IH]; intros c Hp Hc Hf; [lia|]. cbn [skip_slashes].
  destruct (path_read s path c Hp Hc) as (x & Hx & H1 & H2). rewrite Hx. cbn.
  destruct (Z.eqb_spec x 47) as [->|Hne].
  - destruct (IH (c + 1) Hp) as (p & y & E & Hr & Hy & Hn); [lia|lia|]. exists p, y. split_and!; try done; lia.
  - exists c, x. split_and!; try done; lia.
Qed.

Lemma copy_part_ok s path fuel : ∀ p acc, path_holds s path → 0 ≤ p ≤ Z.of_nat (length s) →
  (Z.to_nat (Z.of_nat (length s) - p) < fuel)%nat → chars acc → Forall (λ c, c ≠ 47) acc → (length acc ≤ 30)%nat →
  ∃ r, copy_part fuel path p acc = Some r ∧
    match r with
    | inl (part, p') => p' = p + Z.of_nat (length part) - Z.of_nat (length acc) ∧ p ≤ p' ≤ Z.of_nat (length s) ∧
        chars part ∧ Forall (λ c, c ≠ 47) part ∧ (length acc ≤ length part ≤ 30)%nat ∧
        (∃ x, aread path p' = Some x ∧ (x = 0 ∨ x = 47))
    | inr _ => True
    end.
Proof.
  induction fuel as [|fuel IH]; intros p acc Hp Hr Hf Ha1 Ha2 Hl; [lia|]. cbn [copy_part].
  destruct (path_read s path p Hp Hr) as (x & Hx & H1 & H2). rewrite Hx. cbn [mbind option_bind].
  destruct (Z.eqb_spec x 0) as [E0|E0]; cbn [orb].
  { eexists. split; [done|]. cbn. split_and!; try done; try lia. exists x. auto. }
  destruct (Z.eqb_spec x 47) as [E47|E47].
  { eexists. split; [done|]. cbn. split_and!; try done; try lia. exists x. auto. }
  unfold DISKFS_NAME_MAX. destruct (Z.leb_spec 31 (Z.of_nat (length acc) + 1)); [by eexists|].
  assert (p < Z.of_nat (length s)) by (destruct (Z.eq_dec p (Z.of_nat (length s))); [tauto|lia]).
  destruct (IH (p + 1) (acc ++ [x])) as (r & E & Hrr); try done; try lia.
  - apply Forall_app. split; [done|]. constructor; [by apply H1|constructor].
  - apply Forall_app. split; [done|]. by constructor.
  - rewrite length_app. cbn. lia.
  - exists r. split; [done|]. destruct r as [[part p']|]; [|done]. rewrite length_app in Hrr. cbn [length] in Hrr.
    destruct Hrr as (? & ? & ? & ? & ? & ?). split_and!; try done; lia.
Qed.

Lemma path_part_ok s path c : path_holds s path → 0 ≤ c ≤ Z.of_nat (length s) →
  ∃ r c', path_part path c = Some (r, c') ∧ 0 ≤ c' ≤ Z.of_nat (length s) ∧
    match r with Some part => c < c' ∧ part_ok part | None => True end.
Proof.
  intros Hp Hc. assert (Hlen : (length s < S (length path))%nat).
  { destruct Hp as [_ [rest ->]]. rewrite length_app. cbn. lia. }
  unfold path_part. destruct (skip_slashes_ok s path (S (length path)) c Hp Hc ltac:(lia)) as (p & x & -> & Hr & Hx & Hx47).
  cbn [mbind option_bind]. rewrite Hx. cbn [mbind option_bind]. destruct (Z.eqb_spec x 0) as [E0|E0].
  { eexists _, _. split; [done|]. split; [lia|done]. }
  destruct (copy_part_ok s path (S (length path)) p [] Hp ltac:(lia) ltac:(lia)) as (r & -> & Hrr);
    [constructor|constructor|cbn; lia|]. cbn [mbind option_bind].
  destruct r as [[part p']|[]]; [|eexists _, _; split; [done|]; split; [lia|done]].
  destruct Hrr as (Ep & Hp' & Hch & Hns & Hl & y & Hy & Hy0). cbn [length] in *.
  assert (Hne : part ≠ []).
  { intros ->. cbn in Ep. replace p' with p in Hy by lia. rewrite Hx in Hy. injection Hy as <-. tauto. }
  destruct part as [|a part]; [done|]. cbn [length] in *.
  eexists _, _. split; [done|]. split; [lia|]. rewrite (proj2 (Z.ltb_lt _ _)) by lia. split; [lia|].
  split_and!; try done; cbn; lia.
Qed.

(** ** The components of a path *)

Fixpoint comps (fuel : nat) (path : list Z) (c : Z) : option (list (list Z)) :=
  match fuel with
  | O => None
  | S fuel' =>
      r ← path_part path c;
      match fst r with None => Some [] | Some part => l ← comps fuel' path (snd r); Some (part :: l) end
  end.

Lemma comps_ok s path fuel : ∀ c, path_holds s path → 0 ≤ c ≤ Z.of_nat (length s) →
  (Z.to_nat (Z.of_nat (length s) - c) < fuel)%nat → ∃ l, comps fuel path c = Some l ∧ Forall part_ok l.
Proof.
  induction fuel as [|fuel IH]; intros c Hp Hc Hf; [lia|]. cbn [comps].
  destruct (path_part_ok s path c Hp Hc) as (r & c' & -> & Hc' & Hr). cbn [mbind option_bind fst snd].
  destruct r as [part|]; [|exists []; split; [done|constructor]]. destruct Hr as [Hlt Hpart].
  destruct (IH c' Hp Hc' ltac:(lia)) as (l & -> & Hl). exists (part :: l). split; [done|by constructor].
Qed.

Lemma comps_mono fuel : ∀ fuel' path c l, comps fuel path c = Some l → (fuel ≤ fuel')%nat → comps fuel' path c = Some l.
Proof.
  induction fuel as [|fuel IH]; intros [|fuel'] path c l H Hle; try done; try lia. cbn [comps] in *.
  destruct (path_part path c) as [[r c']|]; [|done]. cbn in *. destruct r; [|done].
  destruct (comps fuel path c') as [l'|] eqn:E; [|done]. by rewrite (IH fuel' path c' l' E ltac:(lia)).
Qed.

Definition components (path : list Z) : option (list (list Z)) := comps (S (length path)) path 0.

Lemma components_ok s path : path_holds s path → ∃ l, components path = Some l ∧ Forall part_ok l.
Proof.
  intros Hp. assert (Hlen : (length s < S (length path))%nat).
  { destruct Hp as [_ [rest ->]]. rewrite length_app. cbn. lia. }
  apply (comps_ok s path (S (length path)) 0 Hp); lia.
Qed.

(** A slash in front of a path changes nothing: [p2] is [p1] with one byte before it. *)
Section slash.
Context (s p1 p2 : list Z).
Hypothesis Hp : path_holds s p1.
Hypothesis Hshift : ∀ i, 0 ≤ i ≤ Z.of_nat (length s) → aread p2 (i + 1) = aread p1 i.
Hypothesis Hslash : aread p2 0 = Some 47.
Hypothesis Hlen : (S (length s) < length p2)%nat.
Abbreviation L := (Z.of_nat (length s)).

Lemma len_p1 : (length s < length p1)%nat.
Proof. destruct Hp as [_ [rest ->]]. rewrite length_app. cbn. lia. Qed.

Lemma skip_shift f1 : ∀ f2 c, 0 ≤ c ≤ L → (Z.to_nat (L - c) < f1)%nat → (Z.to_nat (L - c) < f2)%nat →
  ∃ p, skip_slashes f1 p1 c = Some p ∧ skip_slashes f2 p2 (c + 1) = Some (p + 1) ∧ c ≤ p ≤ L.
Proof.
  induction f1 as [|f1 IH]; intros [|f2] c Hc H1 H2; try lia. cbn [skip_slashes]. rewrite Hshift by lia.
  destruct (path_read s p1 c Hp Hc) as (x & Hx & _ & H0). rewrite Hx. cbn [mbind option_bind]. destruct (Z.eqb_spec x 47) as [->|Hne]; [|exists c; split_and!; try done; lia].
  assert (c ≠ L) by (intros ?; specialize (H0 ltac:(lia)); lia). destruct (IH f2 (c + 1)) as (p & E1 & E2 & Hr); [lia|lia|lia|]. exists p. split_and!; try done; lia.
Qed.

Lemma copy_shift f1 : ∀ f2 c acc, 0 ≤ c ≤ L → (Z.to_nat (L - c) < f1)%nat → (Z.to_nat (L - c) < f2)%nat →
  ∃ r, copy_part f1 p1 c acc = Some r ∧ copy_part f2 p2 (c + 1) acc = Some (match r with inl (part, p) => inl (part, p + 1) | inr u => inr u end).
Proof.
  induction f1 as [|f1 IH]; intros [|f2] c acc Hc H1 H2; try lia. cbn [copy_part]. rewrite Hshift by lia.
  destruct (path_read s p1 c Hp Hc) as (x & Hx & _ & H0). rewrite Hx. cbn [mbind option_bind]. destruct (Z.eqb_spec x 0) as [->|Hne]; cbn [orb]; [by eexists|].
  destruct (x =? 47); [by eexists|]. destruct (_ <=? _); [by eexists|].
  assert (c ≠ L) by (intros ?; specialize (H0 ltac:(lia)); lia). apply IH; lia.
Qed.

Lemma path_part_shift c : 0 ≤ c ≤ L → ∃ r c', path_part p1 c = Some (r, c') ∧ path_part p2 (c + 1) = Some (r, c' + 1).
Proof.
  intros Hc. pose proof len_p1. unfold path_part. destruct (skip_shift (S (length p1)) (S (length p2)) c Hc) as (p & -> & -> & Hr); [lia|lia|]. cbn [mbind option_bind]. rewrite Hshift by lia.
  destruct (path_read s p1 p Hp ltac:(lia)) as (x & -> & _). cbn [mbind option_bind]. destruct (x =? 0); [by eexists _, _|].
  destruct (copy_shift (S (length p1)) (S (length p2)) p [] ltac:(lia)) as (r & -> & ->); [lia|lia|]. cbn [mbind option_bind]. destruct r as [[part p']|]; by eexists _, _.
Qed.

Lemma path_part_slash : ∃ r c', path_part p1 0 = Some (r, c') ∧ ∃ c2, path_part p2 0 = Some (r, c2) ∧ (r ≠ None → c2 = c' + 1).
Proof.
  pose proof len_p1. unfold path_part. destruct (skip_shift (S (length p1)) (length p2) 0 ltac:(lia)) as (p & -> & E2 & Hr); [lia|lia|]. cbn [skip_slashes]. rewrite Hslash. cbn [mbind option_bind Z.eqb Pos.eqb]. rewrite E2. cbn [mbind option_bind]. rewrite Hshift by lia.
  destruct (path_read s p1 p Hp ltac:(lia)) as (x & -> & _). cbn [mbind option_bind]. destruct (x =? 0); [eexists _, _; split; [done|]; by eexists|].
  destruct (copy_shift (S (length p1)) (S (length p2)) p [] ltac:(lia)) as (r & -> & ->); [lia|lia|]. cbn [mbind option_bind]. destruct r as [[part p']|]; (eexists _, _; split; [done|]; by eexists).
Qed.

Lemma comps_shift f1 : ∀ f2 c, 0 ≤ c ≤ L → (Z.to_nat (L - c) < f1)%nat → (Z.to_nat (L - c) < f2)%nat → comps f2 p2 (c + 1) = comps f1 p1 c.
Proof.
  induction f1 as [|f1 IH]; intros [|f2] c Hc H1 H2; try lia. cbn [comps]. destruct (path_part_shift c Hc) as (r & c' & E1 & ->). pose proof (path_part_ok s p1 c Hp Hc) as (r0 & c0 & E0 & Hc0 & Hr0).
  rewrite E1 in E0 |- *. injection E0 as <- <-. cbn [mbind option_bind fst snd]. destruct r as [part|]; [|done]. rewrite (IH f2 c'); [done|lia|lia|lia].
Qed.

Lemma components_slash : components p2 = components p1.
Proof.
  pose proof len_p1. unfold components. cbn [comps]. destruct path_part_slash as (r & c' & E1 & c2 & E2 & Hc2). pose proof (path_part_ok s p1 0 Hp ltac:(lia)) as (r0 & c0 & E0 & Hc0 & Hr0).
  rewrite E1 in E0. injection E0 as <- <-. rewrite E1, E2. cbn [mbind option_bind fst snd]. destruct r as [part|]; [|done]. rewrite Hc2 by done. rewrite (comps_shift (length p1)); [done|lia|lia|lia].
Qed.
End slash.

(** ** Walks *)

(** From the directory [cur] along the names [l]. *)
Fixpoint walk (ns : list diskfs_inode) (cur : Z) (l : list (list Z)) : Z :=
  match l with
  | [] => cur
  | p :: l => let c := child ns cur p 0 in if c <? 0 then -1 else walk ns c l
  end.

(** Through directories up to the last name. *)
Fixpoint walk_dirs (ns : list diskfs_inode) (cur : Z) (part : list Z) (l : list (list Z)) : Z * list Z :=
  match l with
  | [] => (cur, part)
  | next :: l => let c := child ns cur part DISKFS_TYPE_DIR in if c <? 0 then (-1, []) else walk_dirs ns c next l
  end.

(** With unique names both walks end at the same entry. *)
Lemma walk_agree ns l : ∀ cur part par leaf, unique_names ns → walk_dirs ns cur part l = (par, leaf) → 0 ≤ par →
  walk ns cur (part :: l) = child ns par leaf 0.
Proof.
  induction l as [|next l IH]; intros cur part par leaf Hu E Hpar.
  - cbn in E. injection E as <- <-. cbn. destruct (Z.ltb_spec (child ns cur part 0) 0); [|done].
    destruct (child_range ns cur part 0); lia.
  - cbn [walk_dirs] in E. destruct (Z.ltb_spec (child ns cur part DISKFS_TYPE_DIR) 0) as [|Hc]; [injection E as <- _; lia|].
    destruct (child_Some ns cur part DISKFS_TYPE_DIR (Z.to_nat (child ns cur part DISKFS_TYPE_DIR))) as (n & Hi & Hm); [lia|].
    assert (Hc0 : child ns cur part 0 = child ns cur part DISKFS_TYPE_DIR).
    { rewrite (child_unique ns cur part 0 _ n Hu Hi (matches_any _ _ _ _ Hm)). lia. }
    cbn [walk]. rewrite Hc0. destruct (Z.ltb_spec (child ns cur part DISKFS_TYPE_DIR) 0); [lia|]. by apply IH.
Qed.

Section walks.
Context {D : Type} `{BlockDevice D}.
Implicit Types s : fs D.

Lemma find_path_loop_wp s fuel : ∀ path c cur saw l (Q : Z → fs D → Prop), fs_meta s → comps fuel path c = Some l →
  Forall part_ok l → (saw = false → cur = 0) → Q (walk (inodes s) cur l) s →
  wp (find_path_loop fuel path c cur saw) Q s.
Proof.
  induction fuel as [|fuel IH]; intros path c cur saw l Q Hm Hc Hl Hsaw HQ; [done|]. cbn [find_path_loop comps] in *.
  destruct (path_part path c) as [[r c']|] eqn:Ep; [|done]. cbn [mbind option_bind fst snd] in Hc.
  wp_step. eapply wp_lift; [done|]. cbn [fst snd]. destruct r as [part|].
  - destruct (comps fuel path c') as [l'|] eqn:E; [|done]. injection Hc as <-. apply Forall_cons_1 in Hl as [Hp Hl].
    wp_step. apply find_child_wp; [done|apply Hp|]. cbn [walk] in HQ.
    destruct (child (inodes s) cur part 0 <? 0); [by wp_step|]. by eapply IH.
  - injection Hc as <-. wp_step. destruct saw; [done|]. rewrite Hsaw in HQ by done. done.
Qed.

Lemma find_path_wp s str path (Q : Z → fs D → Prop) : fs_meta s → path_holds str path →
  (∀ l, components path = Some l → Forall part_ok l → Q (walk (inodes s) 0 l) s) →
  wp (find_path path) Q s.
Proof.
  intros Hm Hp HQ. destruct (components_ok str path Hp) as (l & El & Hl).
  unfold find_path. eapply find_path_loop_wp; try done. by apply HQ.
Qed.

Lemma ensure_loop_wp s fuel : ∀ path c cur part l (Q : Z * list Z → fs D → Prop), fs_meta s →
  comps fuel path c = Some l → Forall part_ok (part :: l) → Q (walk_dirs (inodes s) cur part l) s →
  wp (ensure_loop fuel path c cur part) Q s.
Proof.
  induction fuel as [|fuel IH]; intros path c cur part l Q Hm Hc Hl HQ; [done|]. cbn [ensure_loop comps] in *.
  destruct (path_part path c) as [[r c']|] eqn:Ep; [|done]. cbn [mbind option_bind fst snd] in Hc.
  wp_step. eapply wp_lift; [done|]. cbn [fst snd]. destruct r as [next|].
  - destruct (comps fuel path c') as [l'|] eqn:E; [|done]. injection Hc as <-. apply Forall_cons_1 in Hl as [Hp Hl].
    wp_step. apply find_child_wp; [done|apply Hp|]. cbn [walk_dirs] in HQ.
    destruct (child (inodes s) cur part DISKFS_TYPE_DIR <? 0); [by wp_step|]. by eapply IH.
  - injection Hc as <-. by wp_step.
Qed.

(** The parent directory and the leaf of a path. *)
Definition parent_and_leaf (ns : list diskfs_inode) (l : list (list Z)) : Z * list Z :=
  match l with [] => (-1, []) | part :: l => walk_dirs ns 0 part l end.

Lemma ensure_parent_dir_wp s str path (Q : Z * list Z → fs D → Prop) : fs_meta s → path_holds str path →
  (∀ l, components path = Some l → Forall part_ok l → Q (parent_and_leaf (inodes s) l) s) →
  wp (ensure_parent_dir path) Q s.
Proof.
  intros Hm Hp HQ. destruct (components_ok str path Hp) as (l & El & Hl).
  specialize (HQ l El Hl). unfold ensure_parent_dir. unfold components in El. cbn [comps] in El.
  destruct (path_part path 0) as [[r c']|] eqn:Ep; [|done]. cbn [mbind option_bind fst snd] in El.
  wp_step. eapply wp_lift; [done|]. cbn [fst snd]. destruct r as [part|].
  - destruct (comps (length path) path c') as [l'|] eqn:E; [|done]. injection El as <-.
    eapply ensure_loop_wp; [done|by eapply comps_mono; [exact E|lia]|done|done].
  - injection El as <-. by wp_step.
Qed.
End walks.

(** The last component ends the walk. *)
Lemma walk_dirs_leaf ns l : ∀ cur part par leaf, Forall part_ok (part :: l) → walk_dirs ns cur part l = (par, leaf) → 0 ≤ par →
  part_ok leaf.
Proof.
  induction l as [|next l IH]; intros cur part par leaf Hl E Hpar; apply Forall_cons_1 in Hl as [Hp Hl]; cbn in E.
  - by injection E as _ <-.
  - destruct (child ns cur part DISKFS_TYPE_DIR <? 0); [injection E as <- _; lia|]. by eapply IH.
Qed.

Lemma walk_range ns l : ∀ cur, length ns = 64%nat → 0 ≤ cur < 64 → -1 ≤ walk ns cur l < 64.
Proof.
  induction l as [|p l IH]; intros cur Hl Hc; cbn [walk]; [lia|].
  destruct (Z.ltb_spec (child ns cur p 0) 0); [lia|]. apply IH; [done|].
  destruct (child_range ns cur p 0); lia.
Qed.
