(* ===== verification/DiskfsData.v ===== *)
(** * Sectors of the file system: metadata writes and file data

    What write_bitmap, write_inode, write_superblock, write_journal,
    write_file_data and diskfs_read_index of diskfs.c do to the array of
    sectors the cache represents. *)

From Stdlib Require Import ZArith Lia Bool String.
From stdpp Require Import base numbers list list_numbers.
From S2P Require Import Prelude Bitmap Runtime DiskCache Diskfs DiskfsAlloc DiskfsInv.

Section data.
Context {D : Type} `{Disk D}.
Implicit Types s : fs D.

(** [s'] is [s] with another cache and device, which represent [v']. *)
Definition stored s s' (v' : Z → list Z) : Prop :=
  ∃ st, s' = set_disk st s ∧ store_rep st v' ∧ (working (device (disk s)) → working (device st)).

Lemma stored_trans s1 s2 s3 v2 v3 : stored s1 s2 v2 → stored s2 s3 v3 → stored s1 s3 v3.
Proof. intros (st & -> & _ & W1) (st' & -> & R & W2). exists st'. split_and!; try done. intros W. by apply W2, W1. Qed.

Lemma stored_refl s v : store_rep (disk s) v → stored s s v.
Proof. intros R. exists (disk s). split_and!; try done. by destruct s. Qed.

Definition works s : Prop := working (device (disk s)).

Lemma stored_works s s' v : stored s s' v → works s → works s'.
Proof. intros (st & -> & _ & W). done. Qed.

(** One sector written and flushed. *)
Lemma write_through_wp s v n b : store_rep (disk s) v → in_range n → length b = 512%nat →
  wp (and_then (on_store (write_sector n b)) (on_store diskfs_flush)) (λ ok s', ∃ v', stored s s' v' ∧
    (∀ m, m ≠ n → v' m = v m) ∧ (ok = true → v' n = b ∧ synced (disk s') v') ∧ (works s → ok = true)) s.
Proof.
  intros R Hn Hb. unfold and_then, on_store. do 2 wp_step. eapply wp_mono; [apply write_sector_wp; [done|apply Hn|done]|].
  intros ok st [B Hr]. destruct ok.
  - destruct Hr as [_ R1]. wp_step. eapply wp_mono; [by apply flush_wp|].
    intros ok st2 (R2 & B2 & Hs & Hw). exists (upd v n b). split_and!.
    + exists st2. split_and!; try done. intros W. by apply B2, B.
    + intros m Hm. unfold upd. by rewrite decide_False.
    + intros E. split; [unfold upd; by rewrite decide_True|by apply Hs].
    + intros W. apply Hw. by apply B.
  - destruct Hr as [R1 Hw]. wp_step. exists v. split_and!; try done.
    + exists st. split_and!; try done. apply B.
    + intros W. by apply Hw in W.
Qed.

Lemma write_bitmap_wp s v : store_rep (disk s) v → fs_meta s →
  wp write_bitmap (λ ok s', ∃ v', stored s s' v' ∧ (∀ m, m ≠ bitmap_start (superblock s) → v' m = v m) ∧
    (ok = true → v' (bitmap_start (superblock s)) = bitmap s) ∧ (works s → ok = true)) s.
Proof.
  intros R Hm. destruct (me_bits _ _ _ Hm) as (_ & Hl & _). pose proof (me_geo _ _ _ Hm) as [].
  unfold write_bitmap. do 4 wp_step. eapply wp_mono; [apply write_through_wp; [done| |lia]|].
  { unfold in_range, DISKFS_TOTAL_SECTORS. lia. }
  intros ok s' (v' & S & Hm' & Ho & Hw). exists v'. split_and!; try done. intros E. by apply Ho.
Qed.

(** A buffer laid over the start of a zeroed sector. *)
Definition padded (b : list Z) : list Z := b ++ replicate (512 - length b) 0.

Lemma mem_copy_padded b n : Z.of_nat (length b) = n → n ≤ 512 →
  mem_copy (mem_zero DISKFS_SECTOR_SIZE) 0 b 0 n = Some (padded b).
Proof.
  intros <- Hn. change 0 with (Z.of_nat 0) at 1 2. change (mem_zero DISKFS_SECTOR_SIZE) with (replicate 512 0).
  rewrite mem_copy_spec by (rewrite ?length_replicate; lia).
  unfold padded. rewrite take_0, drop_0, take_ge by lia. cbn [app]. f_equal. f_equal.
  by rewrite drop_replicate.
Qed.

Lemma padded_length b : (length b ≤ 512)%nat → length (padded b) = 512%nat.
Proof. intros Hb. unfold padded. rewrite length_app, length_replicate. lia. Qed.

Lemma write_superblock_wp s v : store_rep (disk s) v →
  wp write_superblock (λ ok s', ∃ v', stored s s' v' ∧ (∀ m, m ≠ 0 → v' m = v m) ∧
    (ok = true → v' 0 = padded (superblock_bytes (superblock s))) ∧ (works s → ok = true)) s.
Proof.
  intros R. unfold write_superblock. do 3 wp_step. eapply wp_lift; [by apply mem_copy_padded|].
  eapply wp_mono; [apply write_through_wp; [done|done|by apply padded_length; cbn; lia]|].
  intros ok s' (v' & S & Hm' & Ho & Hw). exists v'. split_and!; try done. intros E. by apply Ho.
Qed.

Definition journal_bytes (state : Z) : list Z := le32 DISKFS_JOURNAL_MAGIC ++ le32 state.
Definition with_journal (state : Z) s : fs D := set_superblock (set_journal_state state (superblock s)) s.

Lemma write_journal_wp s v state : store_rep (disk s) v →
  wp (write_journal state) (λ ok s', ∃ v', stored (with_journal state s) s' v' ∧
    (∀ m, m ≠ 0 → m ≠ 1 → v' m = v m) ∧
    (ok = true → v' 0 = padded (superblock_bytes (set_journal_state state (superblock s))) ∧
                 v' 1 = padded (journal_bytes state)) ∧ (works s → ok = true)) s.
Proof.
  intros R. unfold write_journal. wp_step. eapply wp_lift; [by apply (mem_copy_padded (le32 DISKFS_JOURNAL_MAGIC))|].
  wp_step. eapply (wp_lift _ (padded (journal_bytes state))); [reflexivity|]. do 2 wp_step.
  unfold and_then, on_store. wp_step. wp_step.
  eapply wp_mono; [apply (write_sector_wp _ v); [done|lia|done]|]. intros ok st [B Hr].
  fold (with_journal state s). set (s1 := set_disk st (with_journal state s)).
  assert (S1 : ∀ v1, store_rep st v1 → stored (with_journal state s) s1 v1) by (intros v1 R1; exists st; split_and!; [done|done|apply B]).
  destruct ok; cbn.
  - destruct Hr as [_ R1]. eapply wp_mono; [by apply (write_superblock_wp s1)|].
    intros ok s2 (v2 & S2 & Hm2 & Ho2 & Hw2). exists v2. split_and!.
    + eapply stored_trans; [by apply S1|done].
    + intros m Hm0 Hm1. rewrite Hm2 by done. unfold upd. by rewrite decide_False.
    + intros E. split; [by apply Ho2|]. rewrite Hm2 by done. unfold upd. by rewrite decide_True.
    + intros W. apply Hw2. by apply B.
  - destruct Hr as [R1 Hw]. wp_step. exists v. split_and!; try done; [by apply S1|].
    intros W. exfalso. by apply (Hw W).
Qed.

(** The sector of the inode table that holds the inode [i]. *)
Definition inode_sector (sb : diskfs_superblock) (i : nat) : Z := inode_start sb + Z.of_nat i / 8.
(** [b] with the inode [n] at the place of [i]. *)
Definition with_inode (i : nat) (n : diskfs_inode) (b : list Z) : list Z :=
  take (64 * (i mod 8)) b ++ inode_bytes n ++ drop (64 * (i mod 8) + 64) b.

Lemma inode_bytes_length n : length (iname n) = 32%nat → length (ireserved n) = 12%nat → length (inode_bytes n) = 64%nat.
Proof. intros H1 H2. unfold inode_bytes. rewrite !length_app, H1, H2. done. Qed.

Lemma write_inode_wp s v i n : store_rep (disk s) v → fs_meta s → inodes s !! i = Some n →
  length (iname n) = 32%nat → length (ireserved n) = 12%nat →
  wp (write_inode (Z.of_nat i)) (λ ok s', ∃ v', stored s s' v' ∧
    (∀ m, m ≠ inode_sector (superblock s) i → v' m = v m) ∧
    (ok = true → v' (inode_sector (superblock s) i) = with_inode i n (v (inode_sector (superblock s) i))) ∧
    (works s → ok = true)) s.
Proof.
  intros R Hm Hi H1 H2. pose proof (me_geo _ _ _ Hm) as [_ _ _ Hgi _ Hgd]. pose proof (me_len _ _ _ Hm) as Hl.
  assert (Hi64 : (i < 64)%nat) by (rewrite <- Hl; by eapply lookup_lt_Some).
  unfold write_inode. do 2 wp_step. unfold DISKFS_INODE_SIZE, DISKFS_SECTOR_SIZE. change (512 / 64) with 8.
  assert (Hq : 0 ≤ Z.of_nat i / 8 < 8) by (split; [apply Z.div_pos; lia|apply Z.div_lt_upper_bound; lia]).
  pose proof (Z.mod_pos_bound (Z.of_nat i) 8 ltac:(lia)) as Hr8.
  rewrite (u32_small (inode_start (superblock s) + _)), (u32_small (_ * 64)) by (unfold is_u32; lia).
  fold (inode_sector (superblock s) i).
  assert (Hsec : in_range (inode_sector (superblock s) i)).
  { unfold in_range, inode_sector, DISKFS_TOTAL_SECTORS. lia. }
  wp_step. unfold on_store at 1. wp_step. eapply wp_mono; [apply (read_sector_wp _ v); [done|apply Hsec|done]|].
  intros [ok buf] st (R1 & B1 & Hlb & Hb). cbn [fst snd] in *. destruct ok; cbn [negb].
  - destruct Hb as [_ ->]. wp_step. eapply wp_get_inode; [exact Hi|].
    assert (Hoff : (i `mod` 8 < 8)%nat) by (apply Nat.mod_upper_bound; lia).
    wp_step. eapply (wp_lift _ (with_inode i n (v (inode_sector (superblock s) i)))).
    { replace (Z.of_nat i `mod` 8 * 64) with (Z.of_nat (64 * (i mod 8))) by (rewrite Nat2Z.inj_mul, Nat2Z.inj_mod; lia).
      change 0 with (Z.of_nat 0). change 64 with (Z.of_nat 64). pose proof (inode_bytes_length n H1 H2) as Hbl.
      rewrite mem_copy_spec by lia. rewrite drop_0, (take_ge (inode_bytes n)) by lia. done. }
    eapply wp_mono; [apply (write_through_wp (set_disk st s) v); [done|done|]|].
    { unfold with_inode. rewrite !length_app, length_take, length_drop, inode_bytes_length by done. lia. }
    intros ok s' (v' & S & Hm' & Ho & Hw). exists v'. split_and!; try done.
    + eapply (stored_trans s (set_disk st s)); [|done]. exists st. split_and!; try done. apply B1.
    + intros E. by apply Ho.
    + intros W. apply Hw. by apply B1.
  - wp_step. exists v. split_and!; try done.
    + exists st. split_and!; try done. apply B1.
    + intros W. destruct Hb as [_ Hb]. by apply Hb in W.
Qed.

(** ** File data *)

(** The bytes of a file: byte [j] is in the sector [j / 512] of its extent. *)
Definition file_byte (v : Z → list Z) (first j : Z) : Z :=
  default 0 (v (first + j / 512) !! Z.to_nat (j mod 512)).
Definition content (v : Z → list Z) (first size : Z) : list Z := file_byte v first <$> seqZ 0 size.

Lemma content_length v first size : 0 ≤ size → length (content v first size) = Z.to_nat size.
Proof. intros. unfold content. by rewrite length_fmap, length_seqZ. Qed.

Lemma content_lookup v first size j : 0 ≤ j < size →
  content v first size !! Z.to_nat j = Some (file_byte v first j).
Proof. intros Hj. unfold content. rewrite list_lookup_fmap, lookup_seqZ_lt by lia. cbn. do 2 f_equal. lia. Qed.

Lemma content_ext v v' first size n : 0 ≤ first → 0 ≤ size ≤ 512 * n → (∀ q, first ≤ q < first + n → v' q = v q) →
  content v' first size = content v first size.
Proof.
  intros Hf Hs Hq. apply list_fmap_ext. intros k j Hj. apply lookup_seqZ in Hj as [-> Hk]. unfold file_byte.
  assert (0 ≤ (0 + Z.of_nat k) / 512 < n) by (split; [apply Z.div_pos; lia|apply Z.div_lt_upper_bound; lia]).
  rewrite Hq by lia. done.
Qed.

(** The sector [k] of a file with the bytes of [buffer], zero-padded. *)
Definition data_sector (buffer : list Z) (size : Z) (k : Z) : list Z :=
  let chunk := Z.to_nat (Z.min 512 (Z.max 0 (size - 512 * k))) in
  padded (take chunk (drop (Z.to_nat (512 * k)) buffer)).

Lemma data_sector_lookup buffer size k r : 0 ≤ k → 0 ≤ r < 512 → 512 * k + r < size → size ≤ Z.of_nat (length buffer) →
  data_sector buffer size k !! Z.to_nat r = buffer !! Z.to_nat (512 * k + r).
Proof.
  intros Hk Hr Hlt Hb. unfold data_sector, padded. rewrite lookup_app_l by (rewrite length_take, length_drop; lia).
  rewrite lookup_take_lt, lookup_drop by lia. f_equal. lia.
Qed.

Lemma content_written v first buffer size : 0 ≤ size ≤ Z.of_nat (length buffer) →
  (∀ k, 0 ≤ k < sectors_for_size size → v (first + k) = data_sector buffer size k) →
  size ≤ 512 * sectors_for_size size →
  content v first size = take (Z.to_nat size) buffer.
Proof.
  intros Hs Hv Hc. apply list_eq_same_length with (n := Z.to_nat size).
  - rewrite length_take. lia.
  - apply content_length; lia.
  - intros i x y Hi Hx Hy. rewrite <- (Nat2Z.id i) in Hx. rewrite content_lookup in Hx by lia. injection Hx as <-.
    rewrite lookup_take_lt in Hy by lia. unfold file_byte. set (j := Z.of_nat i).
    assert (Hq : 0 ≤ j / 512 < sectors_for_size size) by (split; [apply Z.div_pos; lia|apply Z.div_lt_upper_bound; lia]).
    pose proof (Z.mod_pos_bound j 512 ltac:(lia)) as Hm. pose proof (Z.div_mod j 512 ltac:(lia)) as Hd.
    rewrite Hv, data_sector_lookup by lia. rewrite <- Hd. subst j. by rewrite Nat2Z.id, Hy.
Qed.

Lemma write_file_data_wp s v first buffer size : store_rep (disk s) v → 0 ≤ first →
  0 ≤ size ≤ DISKFS_MAX_FILE_SIZE → size ≤ Z.of_nat (length buffer) → first + sectors_for_size size ≤ 4096 →
  wp (write_file_data first buffer size) (λ ok s', ∃ v', stored s s' v' ∧
    (∀ m, ¬ (first ≤ m < first + sectors_for_size size) → v' m = v m) ∧
    (ok = true → ∀ k, 0 ≤ k < sectors_for_size size → v' (first + k) = data_sector buffer size k) ∧
    (works s → ok = true)) s.
Proof.
  intros R Hf Hs Hb Hr. destruct (sectors_for_size_range size Hs) as (_ & Hc & Hcap). unfold DISKFS_MAX_FILE_SIZE in *.
  unfold write_file_data. set (cnt := sectors_for_size size) in *. wp_step.
  apply (wp_for_exit _ _ _ (λ i s', ∃ v', stored s s' v' ∧
    (∀ m, ¬ (first ≤ m < first + i) → v' m = v m) ∧
    (∀ k, 0 ≤ k < i → v' (first + k) = data_sector buffer size k))); [lia| | |].
  - exists v. split_and!; [by apply stored_refl|done|lia].
  - intros i s' Hi (v1 & S1 & Hout & Hin). destruct S1 as (st & -> & R1 & W1).
    rewrite (u32_small (i * DISKFS_SECTOR_SIZE)) by (unfold is_u32, DISKFS_SECTOR_SIZE; lia).
    unfold DISKFS_SECTOR_SIZE. set (off := i * 512).
    set (chunk := if 512 <? _ then 512 else _).
    assert (Echunk : chunk = Z.min 512 (Z.max 0 (size - 512 * i))).
    { unfold chunk. destruct (Z.ltb_spec off size); rewrite ?u32_small by (unfold is_u32; lia);
        [destruct (Z.ltb_spec 512 (size - off))|destruct (Z.ltb_spec 512 0)]; lia. }
    wp_step. eapply (wp_lift _ (data_sector buffer size i)).
    { unfold data_sector. rewrite <- Echunk. destruct (Z.ltb_spec 0 chunk) as [Hpos|Hz].
      - assert (Hlt : (Z.to_nat (512 * i) + Z.to_nat chunk ≤ length buffer)%nat) by lia.
        change (mem_zero 512) with (replicate 512 0).
        replace off with (Z.of_nat (Z.to_nat (512 * i))) by lia. replace chunk with (Z.of_nat (Z.to_nat chunk)) at 1 by lia.
        change 0 with (Z.of_nat 0) at 2. rewrite mem_copy_spec by (rewrite ?length_replicate; lia).
        unfold padded. rewrite take_0, drop_replicate, length_take, length_drop. cbn [app]. do 3 f_equal. lia.
      - replace chunk with 0 by lia. done. }
    rewrite u32_small by (unfold is_u32; lia). unfold on_store. do 2 wp_step.
    eapply wp_mono; [apply (write_sector_wp _ v1); [done|lia|apply padded_length; rewrite length_take; lia]|].
    intros ok st2 [B2 Hok]. wp_step. destruct ok.
    + destruct Hok as [_ R2]. exists (upd v1 (first + i) (data_sector buffer size i)). split_and!.
      * exists st2. split_and!; try done. intros W. by apply B2, W1.
      * intros m Hm. unfold upd. rewrite decide_False by lia. apply Hout. lia.
      * intros k Hk. unfold upd. case_decide; [by assert (k = i) as -> by lia|]. apply Hin. lia.
    + destruct Hok as [R2 Hw]. wp_step. exists v1. split_and!; try done.
      * exists st2. split_and!; try done. intros W. by apply B2, W1.
      * intros m Hm. apply Hout. lia.
      * intros W. exfalso. apply (Hw (W1 W)). unfold in_range, DISKFS_TOTAL_SECTORS. lia.
  - intros s' (v1 & S1 & Hout & Hin). destruct S1 as (st & -> & R1 & W1). unfold on_store. wp_step.
    eapply wp_mono; [by apply flush_wp|]. intros ok st2 (R2 & B2 & _ & Hw). exists v1. split_and!; try done.
    + exists st2. split_and!; try done. intros W. by apply B2, W1.
    + intros W. by apply Hw, W1.
Qed.

(** A piece of one sector is the piece of the file. *)
Lemma sector_piece v first fsz abs chunk : 0 ≤ abs → 0 ≤ chunk → abs mod 512 + chunk ≤ 512 → abs + chunk ≤ fsz →
  length (v (first + abs / 512)) = 512%nat →
  take (Z.to_nat chunk) (drop (Z.to_nat (abs mod 512)) (v (first + abs / 512))) =
  take (Z.to_nat chunk) (drop (Z.to_nat abs) (content v first fsz)).
Proof.
  intros Ha Hc Hm Hf Hl. pose proof (Z.mod_pos_bound abs 512 ltac:(lia)) as Hb. pose proof (Z.div_mod abs 512 ltac:(lia)) as Hd.
  apply list_eq_same_length with (n := Z.to_nat chunk).
  - rewrite length_take, length_drop, content_length by lia. lia.
  - rewrite length_take, length_drop. lia.
  - intros i x y Hi Hx Hy. rewrite lookup_take_lt, lookup_drop in Hx, Hy by lia.
    replace (Z.to_nat abs + i)%nat with (Z.to_nat (abs + Z.of_nat i)) in Hy by lia.
    rewrite content_lookup in Hy by lia. injection Hy as <-. unfold file_byte.
    replace ((abs + Z.of_nat i) / 512) with (abs / 512) by (apply (Z.div_unique _ _ _ (abs mod 512 + Z.of_nat i)); lia).
    replace ((abs + Z.of_nat i) mod 512) with (abs mod 512 + Z.of_nat i) by (apply (Z.mod_unique _ _ (abs / 512)); lia).
    replace (Z.to_nat (abs mod 512 + Z.of_nat i)) with (Z.to_nat (abs mod 512) + i)%nat by lia. by rewrite Hx.
Qed.

Lemma read_loop_wp fuel first offset size fsz cnt out0 v : 0 ≤ first → first + cnt ≤ 4096 → fsz ≤ 512 * cnt →
  0 ≤ offset → 0 ≤ size → offset + size ≤ fsz → fsz ≤ DISKFS_MAX_FILE_SIZE → (Z.to_nat size ≤ length out0)%nat →
  ∀ slice, slice = take (Z.to_nat size) (drop (Z.to_nat offset) (content v first fsz)) →
  ∀ s sector out dn, store_rep (disk s) v → length sector = 512%nat → 0 ≤ dn ≤ size → (Z.to_nat (size - dn) < fuel)%nat →
  out = take (Z.to_nat dn) slice ++ drop (Z.to_nat dn) out0 →
  wp (read_loop fuel first offset size sector out dn) (λ r s', stored s s' v ∧
    length (snd (fst r)) = length out0 ∧
    (fst (fst r) = true → snd (fst r) = slice ++ drop (Z.to_nat size) out0 ∧ snd r = size) ∧
    (works s → fst (fst r) = true)) s.
Proof.
  unfold DISKFS_MAX_FILE_SIZE. intros Hf Hcnt Hcap Ho Hs Hos Hmax Hl0 slice Eslice.
  induction fuel as [|fuel IH]; intros s sector out dn R Hsec Hd Hfuel Hout; [lia|].
  cbn [read_loop].
  assert (Hsl : length slice = Z.to_nat size).
  { rewrite Eslice, length_take, length_drop, content_length by lia. lia. }
  assert (Hlo : length out = length out0).
  { rewrite Hout, length_app, length_take, length_drop. lia. }
  destruct (Z.ltb_spec dn size) as [Hlt|Hge].
  - rewrite (u32_small (offset + dn)), (u32_small (size - dn)) by (unfold is_u32; lia). set (abs := offset + dn).
    unfold DISKFS_SECTOR_SIZE. pose proof (Z.mod_pos_bound abs 512 ltac:(lia)) as Hm.
    rewrite (u32_small (512 - abs mod 512)) by (unfold is_u32; lia).
    set (chunk := if size - dn <? _ then _ else _).
    assert (Hch : 1 ≤ chunk ∧ chunk ≤ size - dn ∧ abs mod 512 + chunk ≤ 512).
    { unfold chunk. destruct (Z.ltb_spec (size - dn) (512 - abs mod 512)); lia. }
    assert (Hq : 0 ≤ abs / 512 < cnt) by (split; [apply Z.div_pos; lia|apply Z.div_lt_upper_bound; lia]).
    rewrite (u32_small (first + abs / 512)) by (unfold is_u32; lia).
    wp_step. unfold on_store at 1. wp_step. eapply wp_mono; [apply (read_sector_wp _ v); [done|lia|done]|].
    intros [ok buf] st (R1 & B1 & Hlb & Hb). cbn [fst snd] in *.
    assert (S1 : stored s (set_disk st s) v) by (exists st; split_and!; [done|done|apply B1]).
    destruct ok; cbn [negb].
    + destruct Hb as [_ ->]. wp_step.
      assert (Hcopy : mem_copy out dn (v (first + abs / 512)) (abs mod 512) chunk =
        Some (take (Z.to_nat (dn + chunk)) slice ++ drop (Z.to_nat (dn + chunk)) out0)).
      { replace dn with (Z.of_nat (Z.to_nat dn)) at 1 by lia.
        replace (abs mod 512) with (Z.of_nat (Z.to_nat (abs mod 512))) by lia.
        replace chunk with (Z.of_nat (Z.to_nat chunk)) at 1 by lia.
        rewrite mem_copy_spec by lia. rewrite (sector_piece v first fsz abs chunk) by lia. f_equal.
        rewrite Hout. rewrite take_app_length' by (rewrite length_take; lia).
        rewrite drop_app_ge by (rewrite length_take; lia). rewrite length_take, drop_drop.
        replace (Z.to_nat (dn + chunk)) with (Z.to_nat dn + Z.to_nat chunk)%nat by lia.
        rewrite <- (take_take_drop slice (Z.to_nat dn) (Z.to_nat chunk)), <- app_assoc. f_equal. f_equal.
        - rewrite Eslice. rewrite skipn_firstn_comm, take_take, drop_drop. f_equal; [lia|]. f_equal. lia.
        - f_equal. lia. }
      eapply wp_lift; [exact Hcopy|]. rewrite (u32_small (dn + chunk)) by (unfold is_u32; lia).
      eapply wp_mono; [apply (IH (set_disk st s) (v (first + abs / 512)) _ (dn + chunk)); try done; lia|].
      cbn beta. intros r s2 (S2 & Hl2 & Hr2 & W2). split_and!; try done.
      * by eapply stored_trans.
      * intros W. apply W2. by eapply stored_works.
    + wp_step. cbn. split_and!; try done. intros W. destruct Hb as [_ Hb]. exfalso. apply (Hb W). unfold in_range, DISKFS_TOTAL_SECTORS. lia.
  - wp_step. cbn. assert (dn = size) as -> by lia. split_and!; try done; [by apply stored_refl|].
    intros _. rewrite Hout. by rewrite (take_ge slice) by lia.
Qed.

(** diskfs_read_index on a file. *)
Lemma read_index_wp s v i n offset buffer size : store_rep (disk s) v → fs_meta s → available s = true →
  inodes s !! i = Some n → itype n = DISKFS_TYPE_FILE → is_u32 offset → is_u32 size → size ≤ Z.of_nat (length buffer) →
  let len := Z.max 0 (Z.min size (isize n - offset)) in
  wp (diskfs_read_index (Z.of_nat i) offset buffer size) (λ r s', stored s s' v ∧
    (fst (fst r) = true → snd r = len ∧
       snd (fst r) = take (Z.to_nat len) (drop (Z.to_nat offset) (content v (first_sector n) (isize n))) ++
                     drop (Z.to_nat len) buffer) ∧
    (works s → fst (fst r) = true) ∧ length (snd (fst r)) = length buffer) s.
Proof.
  intros R Hm Hav Hi Ht Ho Hs Hb len. destruct (me_ok _ _ _ Hm i n Hi) as [Hok Hic]; [by rewrite Ht|].
  destruct (io_extent _ _ Hok Ht) as (E1 & E2 & E3 & E4). pose proof (me_geo _ _ _ Hm) as G.
  destruct (sectors_for_size_range _ E4) as (_ & _ & Hcap). unfold is_u32 in *.
  unfold diskfs_read_index. do 4 wp_step. rewrite Hav. rewrite (proj2 (Z.leb_gt _ _)) by lia. cbn [negb orb].
  wp_step. eapply wp_get_inode; [exact Hi|]. rewrite Ht. cbn [negb Z.eqb DISKFS_TYPE_FILE Pos.eqb].
  destruct (Z.leb_spec (isize n) offset) as [Hle|Hlt]; cbn [orb].
  { wp_step. cbn. unfold len. rewrite Z.max_l by lia. split_and!; try done. by apply stored_refl. }
  destruct (Z.eqb_spec size 0) as [->|Hs0].
  { wp_step. cbn. unfold len. rewrite Z.max_l by lia. split_and!; try done. by apply stored_refl. }
  rewrite (u32_small (isize n - offset)) by (unfold is_u32, DISKFS_MAX_FILE_SIZE in *; lia).
  assert (Elen : (if isize n - offset <? size then isize n - offset else size) = len).
  { unfold len. destruct (Z.ltb_spec (isize n - offset) size); lia. }
  rewrite Elen. pose proof (geo_bitmap _ G).
  eapply wp_mono; [apply (read_loop_wp (S (Z.to_nat len)) (first_sector n) offset len (isize n) (sector_count n) buffer v);
    try done; try lia|].
  intros r s' (S' & Hl & Hr & W). split_and!; try done. intros E. by destruct (Hr E).
Qed.
End data.
