(* ===== verification/DiskfsOps.v ===== *)
(** * The operations of the file system keep it consistent

    Every operation of diskfs.c that modifies the file system is total on a
    consistent state, keeps it consistent on every path (failed writes
    included), and leaves all other files alone. *)

From Stdlib Require Import ZArith Lia Bool String.
From stdpp Require Import base numbers list list_numbers.
From S2P Require Import Prelude Bitmap Runtime DiskCache Diskfs DiskfsAlloc DiskfsInv DiskfsPath DiskfsData.

Section ops.
Context {D : Type} `{Disk D}.
Implicit Types s : fs D.

(** ** The invariant of the whole state *)

(** The list of names that diskfs_file_name answers from: strings of the size of a slot. *)
Definition listed (p : list Z) : Prop := ∃ str, p = str ++ [0] ∧ chars str ∧ (length str ≤ 63)%nat.
Definition names_ok (names : list (list Z)) (count : Z) : Prop :=
  length names = 64%nat ∧ 0 ≤ count ≤ 64 ∧ Forall listed (take (Z.to_nat count) names).

(** [v] is the array of sectors behind the cache. *)
Record fs_inv s (v : Z → list Z) : Prop := {
  fi_store : store_rep (disk s) v;
  fi_meta : fs_meta s;
  fi_indices : length (file_indices s) = 64%nat;
  fi_names : names_ok (file_names s) (visible_file_count s);
  fi_buffer : Z.of_nat (length (file_buffer s)) = 16384 }.

(** Only metadata sectors, the journal state and the file list differ. *)
Record meta_only s (v : Z → list Z) s' (v' : Z → list Z) : Prop := {
  mo_inodes : inodes s' = inodes s;
  mo_bitmap : bitmap s' = bitmap s;
  mo_super : superblock s' = set_journal_state (journal_state (superblock s')) (superblock s);
  mo_available : available s' = available s;
  mo_buffer : file_buffer s' = file_buffer s;
  mo_works : works s → works s';
  mo_data : ∀ q, data_start (superblock s) ≤ q → v' q = v q }.

Lemma journal_same sb : set_journal_state (journal_state sb) sb = sb.
Proof. by destruct sb. Qed.

Lemma meta_only_refl s v : meta_only s v s v.
Proof. split; try done. by rewrite journal_same. Qed.

Lemma mo_start s v s' v' : meta_only s v s' v' → data_start (superblock s') = data_start (superblock s).
Proof. intros M. rewrite (mo_super _ _ _ _ M). done. Qed.

Lemma meta_only_trans s1 v1 s2 v2 s3 v3 : meta_only s1 v1 s2 v2 → meta_only s2 v2 s3 v3 → meta_only s1 v1 s3 v3.
Proof.
  intros M1 M2. pose proof (mo_start _ _ _ _ M1) as Hst. destruct M1 as [I1 B1 S1 A1 F1 W1 D1], M2 as [I2 B2 S2 A2 F2 W2 D2].
  split; try congruence; try tauto.
  - rewrite S2 at 1. rewrite S1. done.
  - intros q Hq. rewrite D2, D1; [done|done|lia].
Qed.

Lemma meta_inv_journal sb ns bm st : meta_inv sb ns bm → meta_inv (set_journal_state st sb) ns bm.
Proof.
  intros [[G1 G2 G3 G4 G5 G6] L Rt O Dj B]. split; [by split|done|done| |done|done]. intros i n Hi Ht. destruct (O i n Hi Ht) as [[? ? ? ?] ?].
  split; [by split|done].
Qed.

Lemma meta_only_inv s v s' v' : fs_inv s v → meta_only s v s' v' → store_rep (disk s') v' →
  length (file_indices s') = 64%nat → names_ok (file_names s') (visible_file_count s') → fs_inv s' v'.
Proof.
  intros [R Me L1 L2 L3] [I B S A F W Dt] R' L1' L2'. split; try done; [|by rewrite F].
  unfold fs_meta. rewrite I, B, S. by apply meta_inv_journal.
Qed.

(** A step on the device that keeps the data area. *)
Lemma stored_meta_only s s' v v' : fs_inv s v → stored s s' v' → (∀ q, data_start (superblock s) ≤ q → v' q = v q) →
  fs_inv s' v' ∧ meta_only s v s' v'.
Proof.
  intros I (st & -> & R & W) Hq. assert (M : meta_only s v (set_disk st s) v').
  { split; try done. cbn. by rewrite journal_same. }
  split; [|done]. eapply meta_only_inv; [done|done|done|apply I|apply I].
Qed.

Lemma write_journal_ok s v st : fs_inv s v →
  wp (write_journal st) (λ ok s', ∃ v', fs_inv s' v' ∧ meta_only s v s' v' ∧
    superblock s' = set_journal_state st (superblock s) ∧ (works s → ok = true)) s.
Proof.
  intros I. eapply wp_mono; [apply write_journal_wp, I|].
  intros ok s' (v' & (st' & -> & R & W) & Hq & _ & Hw). exists v'.
  assert (M : meta_only s v (set_disk st' (with_journal st s)) v').
  { split; try done. cbn. intros q Hge. pose proof (geo_bitmap _ (me_geo _ _ _ (fi_meta _ _ I))). apply Hq; lia. }
  split_and!; try done. eapply meta_only_inv; [done|done|done|apply I|apply I].
Qed.

Lemma write_bitmap_ok s v : fs_inv s v →
  wp write_bitmap (λ ok s', ∃ v', fs_inv s' v' ∧ meta_only s v s' v' ∧ (works s → ok = true)) s.
Proof.
  intros I. pose proof (me_geo _ _ _ (fi_meta _ _ I)) as G. eapply wp_mono; [apply write_bitmap_wp; apply I|].
  intros ok s' (v' & S & Hq & _ & Hw). exists v'. destruct (stored_meta_only s s' v v' I S); [|done].
  intros q Hge. pose proof (geo_bitmap _ G). apply Hq. lia.
Qed.

Lemma write_superblock_ok s v : fs_inv s v →
  wp write_superblock (λ ok s', ∃ v', fs_inv s' v' ∧ meta_only s v s' v' ∧ (works s → ok = true)) s.
Proof.
  intros I. pose proof (me_geo _ _ _ (fi_meta _ _ I)) as G. eapply wp_mono; [apply write_superblock_wp; apply I|].
  intros ok s' (v' & S & Hq & _ & Hw). exists v'. destruct (stored_meta_only s s' v v' I S); [|done].
  intros q Hge. pose proof (geo_bitmap _ G). apply Hq. lia.
Qed.

Lemma write_inode_ok s v i n : fs_inv s v → inodes s !! i = Some n →
  length (iname n) = 32%nat → length (ireserved n) = 12%nat →
  wp (write_inode (Z.of_nat i)) (λ ok s', ∃ v', fs_inv s' v' ∧ meta_only s v s' v' ∧ (works s → ok = true)) s.
Proof.
  intros I Hi H1 H2. pose proof (me_geo _ _ _ (fi_meta _ _ I)) as G.
  eapply wp_mono; [eapply write_inode_wp; [apply I|apply I|exact Hi|done|done]|].
  intros ok s' (v' & S & Hq & _ & Hw). exists v'. destruct (stored_meta_only s s' v v' I S); [|done].
  intros q Hge. apply Hq. unfold inode_sector. destruct (geo_inodes _ G).
  assert (Hi64 : (i < 64)%nat) by (rewrite <- (me_len _ _ _ (fi_meta _ _ I)); by eapply lookup_lt_Some).
  assert (Z.of_nat i / 8 < 8) by (apply Z.div_lt_upper_bound; lia). lia.
Qed.

(** ** The file list *)

Lemma append_name_ok nm rest fuel : ∀ j out, chars nm → 0 ≤ j ≤ Z.of_nat (length nm) → chars out → (length out ≤ 63)%nat →
  (Z.to_nat (Z.of_nat (length nm) - j) < fuel)%nat → ∃ r, append_name fuel (nm ++ 0 :: rest) j out = Some r ∧ chars r ∧ (length r ≤ 63)%nat.
Proof.
  induction fuel as [|fuel IH]; intros j out Hc Hj Ho Hlen Hf; [lia|]. cbn [append_name].
  destruct (path_read nm (nm ++ 0 :: rest) j) as (c & -> & Hin & Hend); [split; [done|by exists rest]|done|]. cbn [mbind option_bind].
  destruct (Z.eqb_spec c 0) as [->|Hc0]; cbn [negb andb]; [by exists out|]. destruct (Z.ltb_spec (Z.of_nat (length out) + 1) DISKFS_PATH_MAX) as [Hlt|]; [|by exists out].
  unfold DISKFS_PATH_MAX in Hlt. assert (j ≠ Z.of_nat (length nm)) by tauto. apply IH; [done|lia| |rewrite length_app; cbn; lia|lia].
  apply Forall_app. split; [done|]. constructor; [apply Hin; lia|constructor].
Qed.

Lemma display_path_wp s n (Q : list Z → fs D → Prop) : fs_meta s → inode_ok (superblock s) n → (∀ p, listed p → Q p s) →
  wp (display_path n) Q s.
Proof.
  intros Hm Hok HQ. unfold display_path.
  assert (Happ : ∀ m out (Q : list Z → fs D → Prop), name_ok m → chars out → (length out ≤ 63)%nat → (∀ p, chars p → (length p ≤ 63)%nat → Q p s) →
    wp (lift (append_name (S (length (iname m))) (iname m) 0 out)) Q s).
  { intros m out Q' (Hl & nm & rest & E & Hc) Ho Hlo HQ'. destruct (append_name_ok nm rest (S (length (iname m))) 0 out Hc) as (r & Hr & Hrc & Hrl); [lia|done|done| |].
    - rewrite E, length_app. lia.
    - eapply wp_lift; [rewrite E in *; exact Hr|]. by apply HQ'. }
  wp_step.
  apply (wp_mono _ (λ d s', s' = s ∧ match d with Some nm => ∃ m, nm = iname m ∧ name_ok m | None => True end)).
  { destruct (Z.eqb_spec (parent n) DISKFS_ROOT_INODE) as [|Hne]; cbn [negb]; [by wp_step|].
    pose proof (io_parent _ _ Hok) as Hp. pose proof (geo_count _ (me_geo _ _ _ Hm)) as Hcnt.
    destruct (lookup_lt_is_Some_2 (inodes s) (Z.to_nat (parent n))) as [m Hmd]; [rewrite (me_len _ _ _ Hm); lia|].
    wp_step. rewrite <- (Z2Nat.id (parent n)) by lia. eapply wp_get_inode; [exact Hmd|]. wp_step. split; [done|].
    destruct (Z.eqb_spec (itype m) DISKFS_TYPE_DIR) as [E|]; [|done]. exists m. split; [done|].
    apply (me_ok _ _ _ Hm _ _ Hmd). by rewrite E. }
  assert (Hslash : chars [47]) by (constructor; [lia|constructor]).
  intros d s' [-> Hd]. wp_step. apply (wp_mono _ (λ out s', s' = s ∧ chars out ∧ (length out ≤ 63)%nat)).
  { destruct d as [nm|]; [|wp_step; split_and!; [done|done|cbn; lia]]. destruct Hd as (m & -> & Hnm). wp_step. apply Happ; [done|done|cbn; lia|].
    intros p Hp Hpl. wp_step. split; [done|]. destruct (Z.ltb_spec (Z.of_nat (length p) + 1) DISKFS_PATH_MAX) as [Hlt|]; [|done]. unfold DISKFS_PATH_MAX in Hlt.
    split; [by apply Forall_app|rewrite length_app; cbn; lia]. }
  intros out s' (-> & Ho & Hlo). wp_step. apply Happ; [apply Hok|done|done|]. intros p Hp Hpl. wp_step. apply HQ. by exists p.
Qed.

(** The indices below [i] that are files, in order. *)
Definition is_file_at (ns : list diskfs_inode) (j : Z) : bool :=
  match ns !! Z.to_nat j with Some n => itype n =? DISKFS_TYPE_FILE | None => false end.
Definition files_upto (ns : list diskfs_inode) (i : Z) : list Z :=
  filter (λ j, is_file_at ns j = true) (seqZ 0 i).

Lemma files_upto_S ns i n : 0 ≤ i → ns !! Z.to_nat i = Some n →
  files_upto ns (i + 1) = files_upto ns i ++ (if itype n =? DISKFS_TYPE_FILE then [i] else []).
Proof.
  intros Hi Hn. unfold files_upto. rewrite seqZ_app by lia. rewrite filter_app. f_equal. rewrite (seqZ_cons (0 + i)), seqZ_nil by lia.
  rewrite filter_cons, filter_nil. replace (0 + i) with i by lia. unfold is_file_at. rewrite Hn.
  destruct (itype n =? DISKFS_TYPE_FILE); [by rewrite decide_True|by rewrite decide_False].
Qed.

Lemma files_upto_length ns i : 0 ≤ i → (length (files_upto ns i) ≤ Z.to_nat i)%nat.
Proof. intros Hi. unfold files_upto. etrans; [apply length_filter|]. rewrite length_seqZ. lia. Qed.

Lemma rebuild_file_list_ok s v : fs_inv s v →
  wp rebuild_file_list (λ _ s', fs_inv s' v ∧ meta_only s v s' v ∧ disk s' = disk s ∧
    let fl := files_upto (inodes s) (inode_count (superblock s)) in
    visible_file_count s' = Z.of_nat (length fl) ∧ take (length fl) (file_indices s') = fl ∧
    superblock s' = superblock s) s.
Proof.
  intros I. pose proof (fi_meta _ _ I) as Hm. pose proof (geo_count _ (me_geo _ _ _ Hm)) as Hcnt.
  pose proof (me_len _ _ _ Hm) as Hlen. unfold rebuild_file_list. do 4 wp_step.
  unfold DISKFS_MAX_INODES. rewrite Z.min_l by (cbn; lia). cbn [superblock set_files].
  apply (wp_for _ _ _ (λ i s', ∃ idx names, s' = set_files idx names (Z.of_nat (length (files_upto (inodes s) i))) s ∧
    length idx = 64%nat ∧ names_ok names (Z.of_nat (length (files_upto (inodes s) i))) ∧
    take (length (files_upto (inodes s) i)) idx = files_upto (inodes s) i)); [lia| | |].
  - exists (file_indices s), (file_names s). split_and!; [done|apply I| |done]. destruct (fi_names _ _ I) as (L2 & _). split_and!; [done|change (0 ≤ 0); lia|change (0 ≤ 64); lia|constructor].
  - intros i s' Hi (idx & names & -> & L1 & L2 & Et). set (k := length (files_upto (inodes s) i)) in *.
    pose proof (files_upto_length (inodes s) i ltac:(lia)) as Hk. fold k in Hk.
    destruct (lookup_lt_is_Some_2 (inodes s) (Z.to_nat i)) as [n Hn]; [lia|].
    pose proof (files_upto_S (inodes s) i n ltac:(lia) Hn) as HS.
    wp_step. rewrite <- (Z2Nat.id i) by lia. eapply wp_get_inode; [exact Hn|]. rewrite Z2Nat.id by lia.
    apply wp_when; intros Ht.
    + rewrite Ht in HS. apply Z.eqb_eq in Ht. destruct (me_ok _ _ _ Hm _ _ Hn) as [Hok _]; [by rewrite Ht|].
      do 5 wp_step. eapply wp_lift; [apply awrite_eq; cbn; lia|]. wp_step. apply display_path_wp; [done|done|]. intros p Hp. destruct L2 as (L2 & _ & L3).
      do 3 wp_step. eapply wp_lift; [apply awrite_eq; cbn; lia|]. wp_step. rewrite HS, length_app. fold k. cbn [length].
      cbn [visible_file_count set_files file_indices file_names]. rewrite u32_small by (unfold is_u32; lia). rewrite Nat2Z.id.
      exists (<[k := i]> idx), (<[k := p]> names). split_and!.
      * replace (Z.of_nat (k + 1)) with (Z.of_nat k + 1) by lia. done.
      * by rewrite length_insert.
      * split; [by rewrite length_insert|]. split; [lia|]. rewrite Nat2Z.id in L3 |- *. replace (k + 1)%nat with (S k) by lia. rewrite (take_S_r _ _ p) by (apply list_lookup_insert_eq; lia).
        rewrite take_insert_ge by lia. apply Forall_app. split; [done|by constructor].
      * replace (k + 1)%nat with (S k) by lia. rewrite (take_S_r _ _ i) by (apply list_lookup_insert_eq; lia).
        by rewrite take_insert_ge, Et by lia.
    + rewrite Ht, app_nil_r in HS. rewrite HS. by exists idx, names.
  - intros s' (idx & names & -> & L1 & L2 & Et). assert (M : ∀ k, meta_only s v (set_files idx names k s) v).
    { intros k. split; try done. cbn. by rewrite journal_same. }
    split_and!; try done. eapply meta_only_inv; [done|apply M|apply I|done|done].
Qed.

(** ** Allocating an inode *)

Lemma meta_inv_count sb ns bm c : meta_inv sb ns bm → inode_count sb ≤ c ≤ 64 → meta_inv (set_inode_count c sb) ns bm.
Proof.
  intros [[G1 G2 G3 G4 G5 G6] L Rt O Dj B] Hc. split; [split; try done; cbn; lia|done|done| |done|done].
  intros i n Hi Ht. destruct (O i n Hi Ht) as [[? ? ? ?] ?]. split; [split; try done; cbn; lia|cbn; lia].
Qed.

(** Every inode but the root's is taken. *)
Definition inodes_full (ns : list diskfs_inode) : Prop := ∀ i n, (1 ≤ i)%nat → ns !! i = Some n → itype n ≠ 0.

Lemma alloc_inode_wp s (Q : Z → fs D → Prop) : fs_meta s →
  (∀ i n c, (1 ≤ i < 64)%nat → inodes s !! i = Some n → itype n = 0 → inode_count (superblock s) ≤ c ≤ 64 → Z.of_nat i < c →
     Q (Z.of_nat i) (set_superblock (set_inode_count c (superblock s)) s)) →
  (inodes_full (inodes s) → Q (-1) s) → wp alloc_inode Q s.
Proof.
  intros Hm HQ1 HQ2. pose proof (geo_count _ (me_geo _ _ _ Hm)) as Hcnt. pose proof (me_len _ _ _ Hm) as Hlen.
  unfold alloc_inode, DISKFS_MAX_INODES. wp_step.
  apply (wp_for_exit _ _ _ (λ i s', s' = s ∧ ∀ j n, (1 ≤ j < Z.to_nat i)%nat → inodes s !! j = Some n → itype n ≠ 0)); [lia|split; [done|lia]| |].
  - intros i s' Hi [-> Hno]. do 2 wp_step. destruct (lookup_lt_is_Some_2 (inodes s) (Z.to_nat i)) as [n Hn]; [lia|].
    destruct (Z.leb_spec (inode_count (superblock s)) i) as [Hge|Hlt].
    + do 3 wp_step. wp_step. cbn. rewrite <- (Z2Nat.id i) by lia. eapply (HQ1 (Z.to_nat i) n); try lia; [done|].
      destruct (decide (itype n = 0)) as [|E]; [done|]. destruct (me_ok _ _ _ Hm _ _ Hn E). lia.
    + wp_step. rewrite <- (Z2Nat.id i) by lia. eapply wp_get_inode; [exact Hn|]. wp_step.
      destruct (Z.eqb_spec (itype n) 0) as [E|E].
      2: { split; [done|]. intros j m Hj Hm'. destruct (decide (j = Z.to_nat i)) as [->|]; [congruence|]. apply (Hno j); [lia|done]. }
      wp_step. cbn.
      assert (HQ : Q (Z.of_nat (Z.to_nat i)) (set_superblock (set_inode_count (inode_count (superblock s)) (superblock s)) s))
        by (apply (HQ1 _ n); (done || lia)).
      replace (set_superblock _ s) with s in HQ; [done|]. by destruct s as [? ? []].
  - intros s' [-> Hno]. wp_step. apply HQ2. intros i n Hi Hn. apply (Hno i); [|done]. apply lookup_lt_Some in Hn. lia.
Qed.

(** ** Changes of one file *)

(** Everything but the inode [i] and its sectors is as before. *)
Record keeps (i : nat) s (v : Z → list Z) s' (v' : Z → list Z) : Prop := {
  kp_inodes : ∀ j, j ≠ i → inodes s' !! j = inodes s !! j;
  kp_available : available s' = available s;
  kp_start : data_start (superblock s') = data_start (superblock s);
  kp_buffer : file_buffer s' = file_buffer s;
  kp_works : works s → works s';
  kp_data : ∀ j m q, j ≠ i → inodes s !! j = Some m → covers m q = true → v' q = v q }.

Lemma keeps_trans i s1 v1 s2 v2 s3 v3 : keeps i s1 v1 s2 v2 → keeps i s2 v2 s3 v3 → keeps i s1 v1 s3 v3.
Proof.
  intros [I1 A1 S1 F1 W1 D1] [I2 A2 S2 F2 W2 D2]. split; try congruence; try tauto.
  - intros j Hj. by rewrite I2, I1.
  - intros j m q Hj Hm Hc. rewrite (D2 j m), (D1 j m); try done. by rewrite I1.
Qed.

Lemma covers_data s v i n q : fs_inv s v → inodes s !! i = Some n → covers n q = true → data_start (superblock s) ≤ q < 4096.
Proof.
  intros I Hi Hc. eapply covers_range; [|done]. apply (me_ok _ _ _ (fi_meta _ _ I) i n Hi).
  intros E. unfold covers in Hc. by rewrite E in Hc.
Qed.

Lemma meta_only_keeps i s v s' v' : fs_inv s v → meta_only s v s' v' → keeps i s v s' v'.
Proof.
  intros I M. pose proof (mo_start _ _ _ _ M) as Hst. destruct M as [In B S A F W Dt]. split; try done.
  - intros j _. by rewrite In.
  - intros j m q _ Hm Hc. apply Dt. by apply (covers_data s v j m q I Hm).
Qed.

Lemma wp_and_then s (a b : M (fs D) bool) (Q : bool → fs D → Prop) :
  wp a (λ ok s', if (ok : bool) then wp b Q s' else Q false s') s → wp (and_then a b) Q s.
Proof. intros Hw. unfold and_then. wp_step. eapply wp_mono; [exact Hw|]. intros [] s' Hq; [done|by wp_step]. Qed.

(** A metadata write: total, and on a working device successful. *)
Definition meta_write (a : M (fs D) bool) s v : Prop :=
  wp a (λ ok s', ∃ v', fs_inv s' v' ∧ meta_only s v s' v' ∧ (works s → ok = true)) s.

Lemma meta_write_then a b s v : meta_write a s v → (∀ s' v', fs_inv s' v' → meta_only s v s' v' → meta_write b s' v') →
  meta_write (and_then a b) s v.
Proof.
  intros Ha Hb. apply wp_and_then. eapply wp_mono; [exact Ha|]. intros ok s1 (v1 & I1 & M1 & W1). destruct ok.
  - eapply wp_mono; [by apply Hb|]. intros ok s2 (v2 & I2 & M2 & W2). exists v2. split_and!; try done.
    + by eapply meta_only_trans.
    + intros W. by apply W2, (mo_works _ _ _ _ M1).
  - exists v1. by split_and!.
Qed.

(** The data, then the metadata, of the file [i]. *)
Lemma save_file_wp s v i n buffer rest : fs_inv s v → inodes s !! i = Some n → itype n = DISKFS_TYPE_FILE →
  isize n ≤ Z.of_nat (length buffer) →
  (∀ s' v', fs_inv s' v' → inodes s' = inodes s → meta_write rest s' v') →
  wp (and_then (write_file_data (first_sector n) buffer (isize n)) (and_then (write_inode (Z.of_nat i)) rest))
     (λ ok s', ∃ v', fs_inv s' v' ∧ keeps i s v s' v' ∧ inodes s' = inodes s ∧
        superblock s' = set_journal_state (journal_state (superblock s')) (superblock s) ∧
        (ok = true → content v' (first_sector n) (isize n) = take (Z.to_nat (isize n)) buffer) ∧
        (works s → ok = true)) s.
Proof.
  intros I Hi Ht Hb Hrest. destruct (me_ok _ _ _ (fi_meta _ _ I) i n Hi) as [Hok _]; [by rewrite Ht|].
  destruct (io_extent _ _ Hok Ht) as (E1 & E2 & E3 & E4). destruct (io_name _ _ Hok) as [Hn32 _].
  pose proof (io_reserved _ _ Hok) as Hr12. pose proof (geo_bitmap _ (me_geo _ _ _ (fi_meta _ _ I))) as Hg.
  destruct (sectors_for_size_range _ E4) as (_ & Hc & Hcap).
  apply wp_and_then. eapply wp_mono; [apply (write_file_data_wp s v); [apply I|lia|done|done|lia]|].
  intros ok s1 (v1 & S1 & Hout & Hin & W1). rewrite <- E3 in *.
  assert (I1 : fs_inv s1 v1).
  { destruct S1 as (st & -> & R1 & _). destruct I as [_ M' L1 L2 L3]. by split. }
  assert (K1 : keeps i s v s1 v1).
  { destruct S1 as (st & -> & R1 & W). split; try done. intros j m q Hj Hm Hcov. apply Hout. intros Hq.
    apply Hj, (me_disjoint _ _ _ (fi_meta _ _ I) j i m n q Hm Hi Hcov). unfold covers. rewrite Ht. cbn. by apply in_extent_spec. }
  assert (In1 : inodes s1 = inodes s) by (by destruct S1 as (st & -> & _)).
  assert (Sb1 : superblock s1 = superblock s) by (by destruct S1 as (st & -> & _)).
  destruct ok; [|exists v1; split_and!; try done; by rewrite Sb1, journal_same].
  eapply wp_mono; [apply (meta_write_then _ _ s1 v1)|].
  - eapply write_inode_ok; [done|by rewrite In1|done|done].
  - intros s2 v2 I2 M2. apply Hrest; [done|]. by rewrite (mo_inodes _ _ _ _ M2).
  - intros ok s2 (v2 & I2 & M2 & W2). exists v2. split_and!; try done.
    + eapply keeps_trans; [exact K1|by apply meta_only_keeps].
    + by rewrite (mo_inodes _ _ _ _ M2).
    + by rewrite (mo_super _ _ _ _ M2), Sb1.
    + intros _. rewrite (content_ext v1 v2 _ _ (sector_count n)).
      * apply content_written; [lia| |lia]. rewrite <- E3. by apply Hin.
      * lia.
      * lia.
      * intros q Hq. apply (mo_data _ _ _ _ M2). rewrite Sb1. lia.
    + intros W. apply W2. by apply (kp_works _ _ _ _ _ K1).
Qed.

(** A consistent state with another inode [i] and the bitmap that fits it. *)
Lemma install_ok s v i n n' bm : fs_inv s v → inodes s !! i = Some n → itype n ≠ DISKFS_TYPE_DIR →
  (itype n' ≠ 0 → inode_ok (superblock s) n' ∧ Z.of_nat i < inode_count (superblock s)) →
  (∀ q, covers n' q = true → used (superblock s) (inodes s) q = false ∨ covers n q = true) →
  bitmap_is 8 4096 bm (λ q, used (superblock s) (inodes s) q && negb (covers n q) || covers n' q) →
  fs_inv (set_inodes (<[i := n']> (inodes s)) (set_bitmap bm s)) v ∧
  keeps i s v (set_inodes (<[i := n']> (inodes s)) (set_bitmap bm s)) v.
Proof.
  intros I Hi Hnd Hok Hfree Hb. split.
  - destruct I as [R M L1 L2 L3]. split; try done. unfold fs_meta. cbn. by eapply meta_update.
  - split; try done. intros j Hj. cbn. by rewrite list_lookup_insert_ne.
Qed.

Lemma wp_upd_inode s i f n (Q : unit → fs D → Prop) : inodes s !! i = Some n →
  Q tt (set_inodes (<[i := f n]> (inodes s)) s) → wp (upd_inode (Z.of_nat i) f) Q s.
Proof.
  intros Hi HQ. unfold upd_inode. wp_step. eapply wp_get_inode; [exact Hi|]. apply wp_put_inode; [by eapply lookup_lt_Some|done].
Qed.

(** [n] with another extent. *)
Definition moved_to (first sectors : Z) (n : diskfs_inode) : diskfs_inode :=
  set_sector_count sectors (set_first_sector first n).

Lemma resize_wp s v i n sectors : fs_inv s v → inodes s !! i = Some n → itype n = DISKFS_TYPE_FILE →
  1 ≤ sectors ≤ 2048 →
  wp (resize (Z.of_nat i) n sectors) (λ ok s',
    if (ok : bool) then ∃ bm first,
      s' = set_inodes (<[i := moved_to first sectors n]> (inodes s)) (set_bitmap bm s) ∧
      data_start (superblock s) ≤ first ∧ first + sectors ≤ 4096 ∧
      (∀ q, first ≤ q < first + sectors → used (superblock s) (inodes s) q = false ∨ covers n q = true) ∧
      bitmap_is 8 4096 bm (λ q, used (superblock s) (inodes s) q && negb (covers n q) || in_extent first sectors q)
    else s' = s ∧ no_run (used (superblock s) (inodes s)) (data_start (superblock s)) sectors 4096) s.
Proof.
  intros I Hi Ht Hs. pose proof (fi_meta _ _ I) as Hm. pose proof (me_geo _ _ _ Hm) as [G1 _ G3 _ _ G6].
  pose proof (me_bits _ _ _ Hm) as Hb. destruct (me_ok _ _ _ Hm i n Hi) as [Hok _]; [by rewrite Ht|].
  destruct (io_extent _ _ Hok Ht) as (E1 & E2 & E3 & E4). destruct (sectors_for_size_range _ E4) as (_ & Hc & _).
  assert (Hcov : ∀ q, covers n q = in_extent (first_sector n) (sector_count n) q) by (intros q; unfold covers; by rewrite Ht).
  assert (Hu : ∀ q, in_extent (first_sector n) (sector_count n) q = true → used (superblock s) (inodes s) q = true).
  { intros q Hq. eapply covers_used; [exact Hi|]. by rewrite Hcov. }
  unfold resize. destruct (Z.ltb_spec (sector_count n) sectors) as [Hgrow|Hle].
  - wp_step. apply (alloc_contiguous_wp s (used (superblock s) (inodes s))); [done|done|lia|lia| |].
    + intros first bm F1 F2 Hfree _ Hbm. wp_step. eapply (free_extent_wp (set_bitmap bm s)); [exact Hbm|done|lia|lia|lia|].
      intros bm2 Hbm2. wp_step. apply (wp_upd_inode (set_bitmap bm2 (set_bitmap bm s)) i _ n); [done|]. wp_step.
      eapply wp_upd_inode; [cbn; apply list_lookup_insert_eq; by eapply lookup_lt_Some|]. wp_step.
      exists bm2, first. cbn. split_and!; [|lia|lia|auto|].
      * unfold set_inodes. cbn. by rewrite list_insert_insert_eq.
      * eapply bitmap_ext; [exact Hbm2|]. intros q _. cbn. rewrite Hcov.
        destruct (in_extent first sectors q) eqn:En; [|by rewrite !orb_false_r].
        apply in_extent_spec in En. specialize (Hfree q En).
        destruct (in_extent (first_sector n) (sector_count n) q) eqn:Eo; [by rewrite (Hu q Eo) in Hfree|].
        by rewrite !orb_true_r.
    + intros Hno. wp_step. done.
  - destruct (Z.ltb_spec sectors (sector_count n)) as [Hlt|Hge].
    + wp_step. rewrite !u32_small by (unfold is_u32; lia). apply (free_extent_wp s _ _ _ _ Hb); [done|lia|lia|lia|].
      intros bm Hbm. wp_step. apply (wp_upd_inode (set_bitmap bm s) i _ n); [done|]. wp_step.
      exists bm, (first_sector n). split_and!; [|lia|lia| |].
      * unfold moved_to. by destruct n.
      * intros q Hq. right. rewrite Hcov. apply in_extent_spec. lia.
      * eapply bitmap_ext; [exact Hbm|]. intros q _. cbn. rewrite Hcov.
        destruct (in_extent (first_sector n) (sector_count n) q) eqn:Eo.
        -- rewrite (Hu q Eo). cbn. apply in_extent_spec in Eo. unfold in_extent.
           destruct (Z.leb_spec (first_sector n + sectors) q), (Z.leb_spec (first_sector n) q),
             (Z.ltb_spec q (first_sector n + sectors + (sector_count n - sectors))), (Z.ltb_spec q (first_sector n + sectors)); try lia; done.
        -- cbn. rewrite andb_true_r. destruct (used (superblock s) (inodes s) q); cbn; unfold in_extent in *;
           destruct (Z.leb_spec (first_sector n + sectors) q), (Z.leb_spec (first_sector n) q),
             (Z.ltb_spec q (first_sector n + sectors + (sector_count n - sectors))), (Z.ltb_spec q (first_sector n + sectors)),
             (Z.ltb_spec q (first_sector n + sector_count n)); cbn in *; try lia; done.
    + wp_step. assert (sectors = sector_count n) as -> by lia. exists (bitmap s), (first_sector n). split_and!; [|lia|lia| |].
      * replace (moved_to _ _ n) with n by (by destruct n). rewrite list_insert_id by done. by destruct s.
      * intros q Hq. right. rewrite Hcov. by apply in_extent_spec.
      * eapply bitmap_ext; [exact Hb|]. intros q _. cbn. rewrite Hcov.
        destruct (in_extent _ _ q) eqn:Eo; [by rewrite (Hu q Eo)|]. by rewrite andb_true_r, orb_false_r.
Qed.

(** There is no room for the sectors of a file of [size] bytes. *)
Definition disk_full s (size : Z) : Prop :=
  no_run (used (superblock s) (inodes s)) (data_start (superblock s)) (sectors_for_size size) 4096.

(** The inode of a file whose content was replaced. *)
Definition rewritten (first size : Z) (n : diskfs_inode) : diskfs_inode :=
  set_isize size (moved_to first (sectors_for_size size) n).

Definition super_same s s' : Prop := superblock s' = set_journal_state (journal_state (superblock s')) (superblock s).

Lemma rewrite_file_wp s v i n buffer size : fs_inv s v → inodes s !! i = Some n → itype n = DISKFS_TYPE_FILE →
  0 ≤ size ≤ DISKFS_MAX_FILE_SIZE → size ≤ Z.of_nat (length buffer) →
  wp (rewrite_file (Z.of_nat i) buffer size) (λ r s', ∃ v' first, fs_inv s' v' ∧ keeps i s v s' v' ∧ super_same s s' ∧
    r ≠ Some true ∧
    (inodes s' = inodes s ∧ r ≠ None ∨ inodes s' = <[i := rewritten first size n]> (inodes s)) ∧
    (r = None → content v' first size = take (Z.to_nat size) buffer) ∧
    (works s → r ≠ None → disk_full s size)) s.
Proof.
  intros I Hi Ht Hs Hb. destruct (sectors_for_size_range size Hs) as (_ & Hsec & _).
  destruct (me_ok _ _ _ (fi_meta _ _ I) i n Hi) as [Hok Hic]; [by rewrite Ht|].
  assert (Hlt : (i < length (inodes s))%nat) by (by eapply lookup_lt_Some).
  unfold rewrite_file. wp_step. eapply wp_get_inode; [exact Hi|]. wp_step.
  eapply wp_mono; [by apply (resize_wp s v)|]. intros [] s1; cbn [negb].
  - intros (bm & first & -> & F1 & F2 & Hfree & Hbm). wp_step.
    eapply wp_upd_inode; [cbn; by apply list_lookup_insert_eq|]. cbn [inodes set_inodes set_bitmap].
    rewrite list_insert_insert_eq. fold (rewritten first size n). set (n' := rewritten first size n).
    assert (Hcov : ∀ q, covers n' q = in_extent first (sectors_for_size size) q) by (intros q; unfold covers; cbn; by rewrite Ht).
    destruct (install_ok s v i n n' bm I Hi) as [I2 K2]; [by rewrite Ht|..].
    { intros _. split; [|done]. destruct Hok as [O1 O2 O3 _]. split; try done. }
    { intros q. rewrite Hcov, in_extent_spec. apply Hfree. }
    { eapply bitmap_ext; [exact Hbm|]. intros q _. cbn. by rewrite Hcov. }
    change (set_inodes (<[i := n']> (inodes s)) (set_inodes (<[i := moved_to first (sectors_for_size size) n]> (inodes s)) (set_bitmap bm s)))
      with (set_inodes (<[i := n']> (inodes s)) (set_bitmap bm s)).
    set (s2 := set_inodes _ (set_bitmap bm s)) in *.
    assert (Hi2 : inodes s2 !! i = Some n') by (by apply list_lookup_insert_eq).
    wp_step. eapply wp_get_inode; [exact Hi2|]. wp_step.
    eapply wp_mono; [apply (save_file_wp s2 v i n' buffer write_bitmap); [done|done|done|done|intros; by apply write_bitmap_ok]|].
    intros ok s3 (v3 & I3 & K3 & In3 & Sb3 & Hc3 & W3). wp_step. exists v3, first. split_and!; try done.
    + by eapply keeps_trans.
    + by destruct ok.
    + right. by rewrite In3.
    + intros E. apply Hc3. by destruct ok.
    + intros W Hne. rewrite W3 in Hne; [done|]. by apply K2.
  - intros [-> Hno]. wp_step. eapply wp_mono; [by apply write_journal_ok|]. intros ok s2 (v2 & I2 & M2 & Sb2 & _).
    wp_step. exists v2, 0. split_and!; try done.
    + by apply meta_only_keeps.
    + apply (mo_super _ _ _ _ M2).
    + left. split; [apply (mo_inodes _ _ _ _ M2)|done].
Qed.

(** The inode of a new file. *)
Definition new_inode (par size first : Z) (leaf : list Z) : diskfs_inode :=
  Inode DISKFS_TYPE_FILE 0 0 size first (sectors_for_size size) par (name_of_leaf leaf) (replicate 12 0).

Lemma name_of_leaf_ok leaf : part_ok leaf → ∃ rest, name_of_leaf leaf = leaf ++ 0 :: rest ∧ length (name_of_leaf leaf) = 32%nat.
Proof.
  intros (_ & _ & Hl). unfold name_of_leaf. rewrite take_ge by lia. exists (replicate (31 - length leaf) 0). split.
  - f_equal. replace (32 - length leaf)%nat with (S (31 - length leaf)) by lia. done.
  - rewrite length_app, length_replicate. lia.
Qed.

Lemma cname_of_leaf n leaf : part_ok leaf → iname n = name_of_leaf leaf → name_ok n ∧ cname n = leaf.
Proof.
  intros Hp E. destruct (name_of_leaf_ok leaf Hp) as (rest & En & Hl). destruct Hp as (Hc & _ & _).
  split; [split; [by rewrite E|exists leaf, rest; split; [congruence|done]]|].
  unfold cname. rewrite E, En. assert (cstring (leaf ++ 0 :: rest) = Some leaf) as ->; [|done].
  apply cstring_spec. exists rest. split; [done|]. eapply Forall_impl; [exact Hc|]. cbn. lia.
Qed.

Lemma fs_inv_count s v c : fs_inv s v → inode_count (superblock s) ≤ c ≤ 64 →
  fs_inv (set_superblock (set_inode_count c (superblock s)) s) v.
Proof. intros [R M L1 L2 L3] Hc. split; try done. by apply meta_inv_count. Qed.

Lemma create_file_wp s v par leaf buffer size : fs_inv s v → 0 ≤ par < inode_count (superblock s) → part_ok leaf →
  0 ≤ size ≤ DISKFS_MAX_FILE_SIZE → size ≤ Z.of_nat (length buffer) →
  wp (create_file par leaf buffer size) (λ r s', ∃ v' i first, fs_inv s' v' ∧ keeps i s v s' v' ∧
    inode_count (superblock s) ≤ inode_count (superblock s') ∧ r ≠ Some true ∧
    (inodes s' = inodes s ∧ r ≠ None ∨
     (∃ n, inodes s !! i = Some n ∧ itype n = 0) ∧ inodes s' = <[i := new_inode par size first leaf]> (inodes s)) ∧
    (r = None → content v' first size = take (Z.to_nat size) buffer) ∧
    (works s → r ≠ None → inodes_full (inodes s) ∨ disk_full s size) ∧
    ((∃ n, inodes s !! i = Some n ∧ itype n = 0) ∨ ∀ j, keeps j s v s' v')) s.
Proof.
  intros I Hpar Hleaf Hs Hb. destruct (sectors_for_size_range size Hs) as (_ & Hsec & _).
  pose proof (fi_meta _ _ I) as Hm. pose proof (me_geo _ _ _ Hm) as [G1 _ G3 _ _ G6].
  unfold create_file. wp_step. apply alloc_inode_wp; [done| |].
  - intros i n c Hi64 Hi Htn Hc Hic. pose proof (fs_inv_count s v c I Hc) as I1. set (s1 := set_superblock _ s) in *.
    rewrite (proj2 (Z.ltb_ge _ 0)) by lia.
    assert (Hlt : (i < length (inodes s))%nat) by (by eapply lookup_lt_Some).
    assert (Hcov0 : ∀ q, covers n q = false) by (intros q; unfold covers; by rewrite Htn).
    assert (K1 : keeps i s v s1 v) by done.
    wp_step. apply (alloc_contiguous_wp s1 (used (superblock s) (inodes s))); [apply Hm|done|cbn; lia|lia| |].
    + intros first bm F1 F2 Hfree _ Hbm. cbn in F1. wp_step.
      apply wp_put_inode; [done|]. fold (new_inode par size first leaf). set (n' := new_inode par size first leaf).
      destruct (cname_of_leaf n' leaf Hleaf eq_refl) as [Hnm Hcn].
      assert (Hcov : ∀ q, covers n' q = in_extent first (sectors_for_size size) q) by done.
      destruct (install_ok s1 v i n n' bm I1 Hi) as [I2 K2]; [by rewrite Htn|..].
      { intros _. split; [|done]. split; [done|done|cbn; lia|]. intros _. cbn. split_and!; try done; lia. }
      { intros q. rewrite Hcov, in_extent_spec. intros Hq. left. by apply Hfree. }
      { eapply bitmap_ext; [exact Hbm|]. intros q _. cbn beta. by rewrite Hcov, Hcov0, andb_true_r. }
      change (set_inodes (<[i := n']> (inodes (set_bitmap bm s1))) (set_bitmap bm s1)) with (set_inodes (<[i := n']> (inodes s1)) (set_bitmap bm s1)).
      set (s2 := set_inodes _ _) in *.
      assert (Hi2 : inodes s2 !! i = Some n') by (by apply list_lookup_insert_eq).
      wp_step. eapply wp_mono; [apply (save_file_wp s2 v i n' buffer (and_then write_superblock write_bitmap)); try done|].
      { intros s' v' I' _. apply meta_write_then; [by apply write_superblock_ok|]. intros. by apply write_bitmap_ok. }
      intros ok s3 (v3 & I3 & K3 & In3 & Sb3 & Hc3 & W3). wp_step. exists v3, i, first. split_and!; try done.
      * eapply keeps_trans; [exact K1|]. by eapply keeps_trans.
      * rewrite Sb3. cbn. lia.
      * by destruct ok.
      * right. split; [by exists n|]. by rewrite In3.
      * intros E. apply Hc3. by destruct ok.
      * intros W Hne. rewrite W3 in Hne; [done|]. by apply (kp_works _ _ _ _ _ K2).
      * left. by exists n.
    + intros Hno. wp_step. eapply wp_mono; [by apply write_journal_ok|]. intros ok s2 (v2 & I2 & M2 & Sb2 & _).
      wp_step. exists v2, i, 0. split_and!; try done.
      * eapply keeps_trans; [exact K1|]. by apply meta_only_keeps.
      * rewrite Sb2. cbn. lia.
      * left. split; [apply (mo_inodes _ _ _ _ M2)|done].
      * intros _ _. by right.
      * left. by exists n.
  - intros Hfull. cbn. do 2 wp_step. wp_step. eapply wp_mono; [by apply write_journal_ok|]. intros ok s2 (v2 & I2 & M2 & Sb2 & _).
    wp_step. exists v2, 0%nat, 0. split_and!; try done.
    + by apply meta_only_keeps.
    + by rewrite Sb2.
    + left. split; [apply (mo_inodes _ _ _ _ M2)|done].
    + intros _ _. by left.
    + right. intros j. by apply meta_only_keeps.
Qed.
End ops.
