(* ===== verification/DiskfsFiles.v ===== *)
(** * The file operations of the file system

    diskfs_find_file, diskfs_write_file, diskfs_delete_file, diskfs_rename_file,
    diskfs_truncate_file and diskfs_read_file of diskfs.c: what they do to the
    files, and that what is written is read back. *)

From Stdlib Require Import ZArith Lia Bool String.
From stdpp Require Import base numbers list list_numbers.
From S2P Require Import Prelude Bitmap Runtime DiskCache Diskfs DiskfsAlloc DiskfsInv DiskfsPath DiskfsData DiskfsOps.

(** ** Lookup after a change *)

Lemma child_ext ns ns' par name ty : length ns = length ns' →
  (∀ j n n', ns !! j = Some n → ns' !! j = Some n' → matches par name ty n = matches par name ty n') →
  child ns par name ty = child ns' par name ty.
Proof.
  intros Hl He. unfold child. destruct (list_find _ ns) as [[i n]|] eqn:E.
  - apply list_find_Some in E as (Hi & Hm & Hmin).
    destruct (lookup_lt_is_Some_2 ns' i) as [n' Hi']; [rewrite <- Hl; by eapply lookup_lt_Some|].
    assert (list_find (λ n, matches par name ty n = true) ns' = Some (i, n')) as ->; [|done].
    apply list_find_Some. split_and!; [done|by rewrite <- (He i n n')|]. intros j m Hj Hlt.
    destruct (lookup_lt_is_Some_2 ns j) as [m0 Hj0]; [rewrite Hl; by eapply lookup_lt_Some|].
    rewrite <- (He j m0 m) by done. by apply (Hmin j m0).
  - apply list_find_None in E. rewrite Forall_lookup in E.
    assert (list_find (λ n, matches par name ty n = true) ns' = None) as ->; [|done].
    apply list_find_None, Forall_lookup. intros j m Hj.
    destruct (lookup_lt_is_Some_2 ns j) as [m0 Hj0]; [rewrite Hl; by eapply lookup_lt_Some|].
    rewrite <- (He j m0 m) by done. by apply (E j m0).
Qed.

(** Directories are looked up as before when a file changes. *)
Lemma child_dir_insert ns i n n' par name : ns !! i = Some n → itype n ≠ DISKFS_TYPE_DIR → itype n' ≠ DISKFS_TYPE_DIR →
  child (<[i := n']> ns) par name DISKFS_TYPE_DIR = child ns par name DISKFS_TYPE_DIR.
Proof.
  intros Hi Hn Hn'. symmetry. apply child_ext; [by rewrite length_insert|]. intros j m m' Hm Hm'.
  destruct (decide (j = i)) as [->|Hne]; [|rewrite list_lookup_insert_ne in Hm' by done; congruence].
  rewrite list_lookup_insert_eq in Hm' by (by eapply lookup_lt_Some). injection Hm' as <-. rewrite Hi in Hm. injection Hm as <-.
  assert (Hz : ∀ x, itype x ≠ DISKFS_TYPE_DIR → matches par name DISKFS_TYPE_DIR x = false).
  { intros x Hx. unfold matches. rewrite (proj2 (Z.eqb_neq (itype x) DISKFS_TYPE_DIR)) by done. cbn. by rewrite andb_false_r. }
  by rewrite !Hz.
Qed.

Lemma walk_dirs_insert ns i n n' l : ns !! i = Some n → itype n ≠ DISKFS_TYPE_DIR → itype n' ≠ DISKFS_TYPE_DIR →
  ∀ cur part, walk_dirs (<[i := n']> ns) cur part l = walk_dirs ns cur part l.
Proof.
  intros Hi Hn Hn'. induction l as [|next l IH]; intros cur part; cbn [walk_dirs]; [done|].
  rewrite (child_dir_insert ns i n n') by done. by rewrite IH.
Qed.

(** The parent of a path is a live directory or the root. *)
Lemma walk_dirs_par sb ns bm l : ∀ cur part par leaf, meta_inv sb ns bm → 0 ≤ cur < inode_count sb →
  walk_dirs ns cur part l = (par, leaf) → 0 ≤ par → par < inode_count sb.
Proof.
  induction l as [|next l IH]; intros cur part par leaf Hm Hc E Hp; cbn in E; [injection E as <- _; lia|].
  destruct (Z.ltb_spec (child ns cur part DISKFS_TYPE_DIR) 0); [injection E as <- _; lia|].
  eapply IH; [done| |done|done]. split; [lia|].
  destruct (child_Some ns cur part DISKFS_TYPE_DIR (Z.to_nat (child ns cur part DISKFS_TYPE_DIR))) as (n & Hi & Hmt); [lia|].
  destruct (me_ok _ _ _ Hm _ n Hi) as [_ Hlt]; [|lia]. unfold matches in Hmt. bool_to_prop. done.
Qed.

(** An entry with the same place in the tree. *)
Definition same_entry (n n' : diskfs_inode) : Prop :=
  itype n' = itype n ∧ parent n' = parent n ∧ iname n' = iname n.

Lemma unique_same ns i n n' : unique_names ns → ns !! i = Some n → same_entry n n' → unique_names (<[i := n']> ns).
Proof.
  intros Hu Hi (E1 & E2 & E3). assert (Hlt : (i < length ns)%nat) by (by eapply lookup_lt_Some).
  assert (Hlk : ∀ j m, <[i := n']> ns !! j = Some m → ∃ m0, ns !! j = Some m0 ∧ itype m = itype m0 ∧ parent m = parent m0 ∧ cname m = cname m0).
  { intros j m Hj. destruct (decide (j = i)) as [->|Hne].
    - rewrite list_lookup_insert_eq in Hj by done. injection Hj as <-. exists n. unfold cname. by rewrite E1, E2, E3.
    - rewrite list_lookup_insert_ne in Hj by done. by exists m. }
  intros j k m1 m2 H1 H2 T1 T2 P C. destruct (Hlk j m1 H1) as (a & Ha & Ea1 & Ea2 & Ea3), (Hlk k m2 H2) as (b & Hb & Eb1 & Eb2 & Eb3).
  eapply (Hu j k a b); congruence.
Qed.

Lemma unique_new ns i n' : unique_names ns → (i < length ns)%nat →
  (∀ j m, j ≠ i → ns !! j = Some m → itype m ≠ 0 → parent m = parent n' → cname m = cname n' → False) →
  unique_names (<[i := n']> ns).
Proof.
  intros Hu Hlt Hno j k m1 m2 H1 H2 T1 T2 P C.
  destruct (decide (j = i)) as [->|Hj], (decide (k = i)) as [->|Hk]; [done| | |].
  - exfalso. rewrite list_lookup_insert_eq in H1 by done. injection H1 as <-. rewrite list_lookup_insert_ne in H2 by done.
    by apply (Hno k m2).
  - exfalso. rewrite list_lookup_insert_eq in H2 by done. injection H2 as <-. rewrite list_lookup_insert_ne in H1 by done.
    by apply (Hno j m1).
  - rewrite list_lookup_insert_ne in H1, H2 by done. by eapply (Hu j k m1 m2).
Qed.

Lemma unique_clear ns i n' : unique_names ns → itype n' = 0 → unique_names (<[i := n']> ns).
Proof.
  intros Hu T. assert (Hlk : ∀ j m, <[i := n']> ns !! j = Some m → itype m ≠ 0 → ns !! j = Some m).
  { intros j m Hj Hm. destruct (decide (j = i)) as [->|Hne]; [|by rewrite list_lookup_insert_ne in Hj].
    apply list_lookup_insert_Some in Hj as [(_ & <- & _)|[? _]]; [congruence|done]. }
  intros j k m1 m2 H1 H2 T1 T2. apply Hu; auto.
Qed.

Section files.
Context {D : Type} `{Disk D}.
Implicit Types s : fs D.

Lemma is_file_wp s r (Q : bool → fs D → Prop) : -1 ≤ r < 64 → length (inodes s) = 64%nat →
  Q (is_file_at (inodes s) r && (0 <=? r)) s → wp (is_file r) Q s.
Proof.
  intros Hr Hl HQ. unfold is_file. destruct (Z.ltb_spec r 0) as [Hneg|Hpos].
  - wp_step. rewrite (proj2 (Z.leb_gt 0 r)), andb_false_r in HQ by lia. done.
  - destruct (lookup_lt_is_Some_2 (inodes s) (Z.to_nat r)) as [n Hn]; [lia|]. rewrite (proj2 (Z.leb_le 0 r)), andb_true_r in HQ by lia.
    unfold is_file_at in HQ. rewrite Hn in HQ. wp_step. rewrite <- (Z2Nat.id r) by lia.
    eapply wp_get_inode; [exact Hn|]. by wp_step.
Qed.

Lemma full_path_ok str path fuel : ∀ j acc, path_holds str path → 0 ≤ j ≤ Z.of_nat (length str) → chars acc →
  (Z.to_nat (Z.of_nat (length str) - j) < fuel)%nat →
  ∃ str', full_path fuel path j acc = Some (str' ++ [0]) ∧ chars str'.
Proof.
  induction fuel as [|fuel IH]; intros j acc Hp Hj Ha Hf; [lia|]. cbn [full_path].
  destruct (path_read str path j Hp Hj) as (c & -> & H1 & H2). cbn [mbind option_bind].
  destruct (Z.eqb_spec c 0) as [->|Hc]; cbn [negb andb]; [by exists acc|].
  destruct (_ <? _); [|by exists acc].
  assert (j < Z.of_nat (length str)) by (destruct (Z.eq_dec j (Z.of_nat (length str))); [tauto|lia]).
  apply IH; [done|lia| |lia]. apply Forall_app. split; [done|]. constructor; [by apply H1|constructor].
Qed.

Lemma full_path_cut str path fuel : ∀ j, path_holds str path → 0 ≤ j ≤ 62 → j ≤ Z.of_nat (length str) →
  (Z.to_nat (Z.of_nat (length str) - j) < fuel)%nat → full_path fuel path j (47 :: take (Z.to_nat j) str) = Some (47 :: take 62 str ++ [0]).
Proof.
  induction fuel as [|fuel IH]; intros j Hp Hj Hl Hf; [lia|]. cbn [full_path].
  destruct (path_read str path j Hp ltac:(lia)) as (c & E & H1 & H2). rewrite E. cbn [mbind option_bind]. unfold DISKFS_PATH_MAX. destruct (Z.eq_dec j (Z.of_nat (length str))) as [->|].
  - rewrite H2 by done. cbn [Z.eqb negb andb]. rewrite !take_ge by lia. done.
  - rewrite (proj2 (Z.eqb_neq c 0)) by lia. cbn [negb andb]. destruct (Z.ltb_spec (j + 2) 64); [|by replace (Z.to_nat j) with 62%nat by lia].
    rewrite <- (IH (j + 1)); [|done|lia|lia|lia]. f_equal. replace (Z.to_nat (j + 1)) with (S (Z.to_nat j)) by lia.
    destruct Hp as [_ [rest ->]]. rewrite aread_app_l in E by lia. apply aread_Some in E as [_ E]. by rewrite (take_S_r _ _ c E).
Qed.
Lemma full_path_whole str path : path_holds str path → (length str ≤ 62)%nat → full_path (S (length path)) path 0 [47] = Some (47 :: str ++ [0]).
Proof.
  intros Hp Hl. pose proof (full_path_cut str path (S (length path)) 0 Hp ltac:(lia) ltac:(lia)) as E. change (take (Z.to_nat 0) str) with (@nil Z) in E. rewrite E; [by rewrite take_ge by lia|].
  destruct Hp as [_ [rest ->]]. rewrite length_app. cbn. lia.
Qed.

(** The components of a path depend on the string only, and not on a slash before it. *)
Lemma components_string str path : path_holds str path → components (47 :: str ++ [0]) = components path.
Proof.
  intros Hp. apply (components_slash str path); [done| |done|cbn; rewrite length_app; cbn; lia].
  intros i Hi. destruct Hp as [_ [rest ->]]. rewrite (app_comm_cons str [0] 47). destruct (decide (i = Z.of_nat (length str))) as [->|].
  - replace (Z.of_nat (length str) + 1) with (Z.of_nat (length (47 :: str))) by (cbn; lia). by rewrite !aread_app_end.
  - rewrite !aread_app_l by (cbn; lia). destruct (aread_is_Some str i) as [x Hx]; [lia|]. rewrite Hx. apply aread_Some in Hx as [? Hx]. apply aread_Some. split; [lia|]. by replace (Z.to_nat (i + 1)) with (S (Z.to_nat i)) by lia.
Qed.

(** diskfs_find_file looks at all of the path: it starts at the root, or is not so long
    that the copy with a slash in front of it is cut. *)
Definition whole_path (str path : list Z) : Prop := path !! 0%nat = Some 47 ∨ (length str ≤ 62)%nat.

(** diskfs_find_file changes nothing, and finds a file or nothing; for a path
    whose walk ends at a file it finds that file. *)
Lemma find_file_wp s str path : fs_meta s → path_holds str path →
  wp (diskfs_find_file path) (λ r s', s' = s ∧ -1 ≤ r < 64 ∧ (0 ≤ r → is_file_at (inodes s) r = true) ∧
    ∀ l, components path = Some l → let w := walk (inodes s) 0 l in
      (0 ≤ w ∧ is_file_at (inodes s) w = true → r = w) ∧
      (w < 0 ∨ is_file_at (inodes s) w = false → whole_path str path → r = -1)) s.
Proof.
  intros Hm Hp. pose proof (me_len _ _ _ Hm) as Hl. unfold diskfs_find_file. wp_step.
  eapply find_path_wp; [done|done|]. intros l El Hparts. pose proof (walk_range (inodes s) l 0 Hl ltac:(lia)) as Hw.
  wp_step. apply is_file_wp; [lia|done|]. set (w := walk (inodes s) 0 l) in *.
  destruct (is_file_at (inodes s) w && (0 <=? w)) eqn:E.
  - bool_to_prop. wp_step. split_and!; try done; try lia. intros l' El'. rewrite El in El'. injection El' as <-. split; [done|].
    intros [Hf|Hf]; fold w in Hf; [lia|congruence].
  - destruct (path_read str path 0 Hp ltac:(lia)) as (c & Hc & _). wp_step. eapply wp_lift; [exact Hc|].
    assert (Hno : ∀ r l', components path = Some l' → 0 ≤ walk (inodes s) 0 l' ∧ is_file_at (inodes s) (walk (inodes s) 0 l') = true → r = walk (inodes s) 0 l').
    { intros r l' El' [H1 H2]. rewrite El in El'. injection El' as <-. fold w in H1, H2. rewrite H2, (proj2 (Z.leb_le 0 w)) in E by lia. done. }
    destruct (Z.eqb_spec c 47) as [->|Hc47]; cbn [negb].
    + wp_step. split_and!; try done; try lia. intros l' El'. split; [by apply Hno|done].
    + assert (Hlen : (length str < S (length path))%nat) by (destruct Hp as [_ [rest ->]]; rewrite length_app; cbn; lia).
      destruct (full_path_ok str path (S (length path)) 0 [47] Hp) as (str' & Ef & Hch); [lia|by repeat constructor|lia|].
      wp_step. eapply wp_lift; [exact Ef|]. wp_step. eapply (find_path_wp s str'); [done|split; [done|by exists []]|].
      intros l2 El2 _. pose proof (walk_range (inodes s) l2 0 Hl ltac:(lia)) as Hw2. wp_step. apply is_file_wp; [lia|done|]. wp_step.
      assert (Hwhole : whole_path str path → l2 = l).
      { intros [H47|Hsh]; [apply aread_Some in Hc as [_ Hc]; change (Z.to_nat 0) with 0%nat in Hc; congruence|].
        rewrite (full_path_whole str path Hp Hsh) in Ef. injection Ef as Ef. rewrite <- Ef, (components_string str path Hp) in El2. congruence. }
      destruct (is_file_at (inodes s) (walk (inodes s) 0 l2) && (0 <=? walk (inodes s) 0 l2)) eqn:E2.
      * pose proof E2 as E2'. apply andb_true_iff in E2' as [E3 E4]. apply Z.leb_le in E4. split_and!; [done|lia|lia|done|]. intros l' El'. split; [by apply Hno|].
        intros _ Hwh. rewrite (Hwhole Hwh) in E2. fold w in E2. congruence.
      * split_and!; [done|lia|lia|lia|]. intros l' El'. split; [by apply Hno|done].
Qed.

(** The journal marks around a change, and the end of every change. *)
Lemma begin_ok s v : fs_inv s v →
  wp begin_transaction (λ ok s', ∃ v', fs_inv s' v' ∧ meta_only s v s' v' ∧
    superblock s' = set_journal_state 1 (superblock s) ∧ (works s → ok = true)) s.
Proof. exact (write_journal_ok s v 1). Qed.

Lemma finish_ok s v : fs_inv s v →
  wp (_ ← rebuild_file_list; commit_transaction) (λ ok s', ∃ v', fs_inv s' v' ∧ meta_only s v s' v' ∧
    (works s → ok = true)) s.
Proof.
  intros I. wp_step. eapply wp_mono; [exact (rebuild_file_list_ok s v I)|]. intros [] s1 (I1 & M1 & _).
  unfold commit_transaction. eapply wp_mono; [exact (write_journal_ok s1 v 0 I1)|]. intros ok s2 (v2 & I2 & M2 & _ & W).
  exists v2. split_and!; [done|by eapply meta_only_trans|]. intros Ws. by apply W, (mo_works _ _ _ _ M1).
Qed.

(** ** Writing *)

(** What a successful write did: the inode [i] is now a file of the directory
    and the name of the path, with the given content. *)
Record written (ns : list diskfs_inode) (par : Z) (leaf : list Z) (buffer : list Z) (size : Z) (i : nat) s' (v' : Z → list Z) : Prop := {
  wr_old : ∃ n n', ns !! i = Some n ∧ inodes s' = <[i := n']> ns ∧
    itype n' = DISKFS_TYPE_FILE ∧ parent n' = par ∧ cname n' = leaf ∧ isize n' = size ∧
    content v' (first_sector n') size = take (Z.to_nat size) buffer ∧
    (same_entry n n' ∨ itype n = 0 ∧ child ns par leaf DISKFS_TYPE_FILE < 0);
  wr_par : 0 ≤ par }.

Lemma name_valid_ok leaf : part_ok leaf → inode_name_valid (leaf ++ [0]) = Some true.
Proof.
  intros (Hc & _ & Hl). unfold inode_name_valid. destruct leaf as [|c leaf]; [cbn in Hl; lia|].
  assert (Hp : path_holds (c :: leaf) ((c :: leaf) ++ [0])) by (split; [done|by exists []]).
  assert (c ≠ 0) by (apply Forall_cons_1 in Hc as [? _]; lia).
  change (aread ((c :: leaf) ++ [0]) 0) with (Some c). cbn [mbind option_bind]. rewrite (proj2 (Z.eqb_neq c 0)) by done.
  assert (Hscan : ∀ k j, 0 ≤ j ≤ Z.of_nat (length (c :: leaf)) → (Z.to_nat (Z.of_nat (length (c :: leaf)) - j) < k)%nat →
    name_scan k ((c :: leaf) ++ [0]) j = Some true).
  { induction k as [|k IH]; intros j Hj Hk; [lia|]. cbn [name_scan].
    destruct (path_read _ _ j Hp Hj) as (x & -> & H1' & H2'). cbn [mbind option_bind].
    destruct (Z.eqb_spec x 0); [done|]. apply IH; destruct (Z.eq_dec j (Z.of_nat (length (c :: leaf)))); try tauto; lia. }
  apply Hscan; lia.
Qed.

(** The path names an entry in an existing directory. *)
Definition has_parent s (path : list Z) : Prop :=
  ∃ l par leaf, components path = Some l ∧ parent_and_leaf (inodes s) l = (par, leaf) ∧ 0 ≤ par.

(** The content of a file survives changes to the metadata. *)
Lemma written_meta ns par leaf buffer size i s v s' v' : fs_inv s v → meta_only s v s' v' →
  written ns par leaf buffer size i s v → written ns par leaf buffer size i s' v'.
Proof.
  intros I M [(n & n' & Hi & Hn' & T & P & C & Sz & Ct & Hor) Hpar]. split; [|done]. exists n, n'.
  split_and!; try done; [by rewrite (mo_inodes _ _ _ _ M)|].
  rewrite <- Ct. assert (Hi2 : inodes s !! i = Some n') by (rewrite Hn'; apply list_lookup_insert_eq; by eapply lookup_lt_Some).
  destruct (me_ok _ _ _ (fi_meta _ _ I) i n' Hi2) as [Hok _]; [by rewrite T|].
  destruct (io_extent _ _ Hok T) as (E1 & E2 & E3 & E4). destruct (sectors_for_size_range _ E4) as (_ & _ & Hcap).
  pose proof (geo_bitmap _ (me_geo _ _ _ (fi_meta _ _ I))).
  apply (content_ext _ _ _ _ (sector_count n')); [lia|lia|]. intros q Hq. apply (mo_data _ _ _ _ M). lia.
Qed.

Lemma child_file ns par leaf i : child ns par leaf DISKFS_TYPE_FILE = Z.of_nat i →
  ∃ n, ns !! i = Some n ∧ itype n = DISKFS_TYPE_FILE ∧ parent n = par ∧ cname n = leaf.
Proof.
  intros E. destruct (child_Some ns par leaf DISKFS_TYPE_FILE i E) as (n & Hi & Hmt). exists n. unfold matches in Hmt. bool_to_prop.
  repeat match goal with H : bool_decide _ = true |- _ => apply bool_decide_eq_true in H | H : _ ∨ _ |- _ => destruct H end; bool_to_prop; done.
Qed.

(** No room for the file: no sectors, or no inode. *)
Definition no_room s (size : Z) : Prop := disk_full s size ∨ inodes_full (inodes s).

(** Both ways of storing the data, inside the transaction. *)
Lemma store_file_wp s v par leaf buffer size : fs_inv s v → 0 ≤ par < inode_count (superblock s) → part_ok leaf →
  0 ≤ size ≤ DISKFS_MAX_FILE_SIZE → size ≤ Z.of_nat (length buffer) →
  let existing := child (inodes s) par leaf DISKFS_TYPE_FILE in
  wp (if 0 <=? existing then rewrite_file existing buffer size else create_file par leaf buffer size)
    (λ r s', ∃ v' i, fs_inv s' v' ∧ keeps i s v s' v' ∧ r ≠ Some true ∧
       (r = None → written (inodes s) par leaf buffer size i s' v') ∧ (works s → r ≠ None → no_room s size) ∧
       (existing = Z.of_nat i ∨ (∃ n, inodes s !! i = Some n ∧ itype n = 0) ∨ ∀ j, keeps j s v s' v')) s.
Proof.
  intros I Hpar Hleaf Hs Hb ex. destruct (Z.leb_spec 0 ex) as [Hex|Hex].
  - destruct (child_file (inodes s) par leaf (Z.to_nat ex)) as (n & Hi & T & P & C); [fold ex; lia|]. rewrite <- (Z2Nat.id ex) by lia.
    eapply wp_mono; [by apply (rewrite_file_wp s v (Z.to_nat ex) n)|].
    intros r s2 (v2 & first & I2 & K2 & _ & Hnt & Hin & Hct & Hfl). exists v2, (Z.to_nat ex). split_and!; try done.
    + intros ->. destruct Hin as [[_ ?]|Hin]; [done|]. split; [|lia]. exists n, (rewritten first size n).
      split_and!; try done; [by apply Hct|]. left. by split_and!.
    + intros W Hne. left. by apply Hfl.
    + left. lia.
  - eapply wp_mono; [by apply (create_file_wp s v par leaf)|].
    intros r s2 (v2 & i & first & I2 & K2 & _ & Hnt & Hin & Hct & Hfl & Htie). exists v2, i. split_and!; try done.
    + intros ->. destruct Hin as [[_ ?]|[(n & Hi & Htn) Hin]]; [done|]. split; [|lia].
      exists n, (new_inode par size first leaf). destruct (cname_of_leaf (new_inode par size first leaf) leaf Hleaf eq_refl) as [_ Hcn].
      split_and!; try done; [by apply Hct|]. right. by split.
    + intros W Hne. destruct (Hfl W Hne); [by right|by left].
    + by right.
Qed.

Lemma no_room_journal s s' size st : inodes s' = inodes s → superblock s' = set_journal_state st (superblock s) →
  no_room s' size → no_room s size.
Proof. intros Ei Es. unfold no_room, disk_full. by rewrite Ei, Es. Qed.

(** Where a path leads: a live parent directory and a usable leaf. *)
Lemma parent_leaf_ok s v l par leaf : fs_inv s v → Forall part_ok l → parent_and_leaf (inodes s) l = (par, leaf) → 0 ≤ par →
  part_ok leaf ∧ par < inode_count (superblock s).
Proof.
  intros I Hl E Hpar. pose proof (geo_count _ (me_geo _ _ _ (fi_meta _ _ I))).
  destruct l as [|part l']; [injection E as <- _; lia|]. cbn in E. split; [by eapply walk_dirs_leaf|].
  eapply walk_dirs_par; [apply I| |done|done]. lia.
Qed.

Lemma keeps_refl i s v : fs_inv s v → keeps i s v s v.
Proof. intros I. apply meta_only_keeps; [done|apply meta_only_refl]. Qed.

(** The file that has the place the path names: its directory and its name. *)
Definition at_path s (path : list Z) (j : nat) : Prop :=
  ∃ l par leaf m, components path = Some l ∧ parent_and_leaf (inodes s) l = (par, leaf) ∧ 0 ≤ par ∧
    inodes s !! j = Some m ∧ itype m = DISKFS_TYPE_FILE ∧ parent m = par ∧ cname m = leaf.
Definition free_inode s (j : nat) : Prop := ∃ m, inodes s !! j = Some m ∧ itype m = 0.

(** What diskfs_write_file did, or why it did nothing. *)
Definition write_post s (v : Z → list Z) (path buffer : list Z) (size : Z) (ok : bool) s' : Prop :=
  ∃ v' i, fs_inv s' v' ∧ keeps i s v s' v' ∧
    (ok = true → available s = true ∧ ∃ l par leaf, components path = Some l ∧ Forall part_ok l ∧
       parent_and_leaf (inodes s) l = (par, leaf) ∧ part_ok leaf ∧ written (inodes s) par leaf buffer size i s' v') ∧
    (works s → available s = true → has_parent s path → ok = true ∨ no_room s size) ∧
    (at_path s path i ∨ free_inode s i ∨ ∀ j, keeps j s v s' v').

Lemma write_file_wp s v str path buffer size : fs_inv s v → path_holds str path →
  0 ≤ size ≤ DISKFS_MAX_FILE_SIZE → size ≤ Z.of_nat (length buffer) →
  wp (diskfs_write_file path buffer size) (write_post s v path buffer size) s.
Proof.
  intros I Hp Hs Hb. unfold diskfs_write_file. do 2 wp_step. pose proof (λ i, keeps_refl i s v I) as K0.
  rewrite (proj2 (Z.ltb_ge DISKFS_MAX_FILE_SIZE size)) by lia. rewrite orb_false_r.
  destruct (available s) eqn:Hav; cbn [negb]; [|wp_step; exists v, 0%nat; split_and!; try done; [congruence|right; by right]].
  wp_step. eapply ensure_parent_dir_wp; [apply I|done|]. intros l El Hparts.
  destruct (parent_and_leaf (inodes s) l) as [par leaf] eqn:Epl.
  destruct (Z.ltb_spec par 0) as [Hneg|Hpar].
  { do 2 wp_step. cbn [negb]. wp_step. exists v, 0%nat. split_and!; try done; [|right; by right]. intros _ _ (l' & par' & leaf' & El' & Epl' & Hp').
    rewrite El in El'. injection El' as <-. rewrite Epl in Epl'. injection Epl' as <- _. lia. }
  destruct (parent_leaf_ok s v l par leaf I Hparts Epl Hpar) as [Hleaf Hparc].
  wp_step. eapply wp_lift; [by apply name_valid_ok|]. cbn [negb]. wp_step. apply find_child_wp; [apply I|apply Hleaf|].
  wp_step. eapply wp_mono; [exact (begin_ok s v I)|]. intros begun s1 (v1 & I1 & M1 & Sb1 & W1).
  pose proof (mo_inodes _ _ _ _ M1) as In1. assert (K1 : ∀ i, keeps i s v s1 v1) by (intros i; by apply meta_only_keeps).
  destruct begun; cbn [negb]; [|wp_step; exists v1, 0%nat; split_and!; try done; [intros W; by specialize (W1 W)|right; by right]].
  wp_step. rewrite <- In1. eapply wp_mono; [apply (store_file_wp s1 v1 par leaf buffer size); try done; rewrite Sb1; cbn; lia|].
  intros r s2 (v2 & i & I2 & K2 & Hnt & Hw & Hfl & Htie). pose proof (keeps_trans _ _ _ _ _ _ _ (K1 i) K2) as K.
  assert (Htied : at_path s path i ∨ free_inode s i ∨ ∀ j, keeps j s v s2 v2).
  { rewrite In1 in Htie. destruct Htie as [Hex|[Hfree|Hall]]; [left|right; by left|right; right; intros j; eapply keeps_trans; [apply K1|apply Hall]].
    destruct (child_file (inodes s) par leaf i Hex) as (m & Hm & Tm & Pm & Cm). by exists l, par, leaf, m. }
  destruct r as [b|].
  - wp_step. destruct b; [done|]. exists v2, i. split_and!; try done. intros W _ _. right.
    eapply no_room_journal; [exact In1|exact Sb1|]. by apply Hfl; [apply (mo_works _ _ _ _ M1)|].
  - eapply wp_mono; [exact (finish_ok s2 v2 I2)|]. intros ok s4 (v4 & I4 & M & W4).
    exists v4, i. split_and!; [done|eapply keeps_trans; [done|by apply meta_only_keeps]| | |].
    + intros _. split; [done|]. exists l, par, leaf. split_and!; try done. rewrite <- In1. by eapply written_meta, Hw.
    + intros W _ _. left. by apply W4, (kp_works _ _ _ _ _ K).
    + destruct Htied as [?|[?|Hall]]; [by left|right; by left|right; right]. intros j. eapply keeps_trans; [apply Hall|by apply meta_only_keeps].
Qed.

(** ** Reading back *)

(** Only files carry the name a path ends in. *)
Definition clash_free s (path : list Z) : Prop :=
  ∀ l par leaf, components path = Some l → parent_and_leaf (inodes s) l = (par, leaf) →
  ∀ j m, inodes s !! j = Some m → itype m ≠ 0 → parent m = par → cname m = leaf → itype m = DISKFS_TYPE_FILE.

(** The inode that was written had the place of the path, or was free and no file had it. *)
Lemma written_place s path l par leaf buffer size i s' v' : components path = Some l → parent_and_leaf (inodes s) l = (par, leaf) →
  written (inodes s) par leaf buffer size i s' v' → at_path s path i ∨ free_inode s i ∧ ∀ j, ¬ at_path s path j.
Proof.
  intros El Hpl [(n & n' & Hi & En & T & P & C & _ & _ & Hor) Hpar]. destruct Hor as [(S1 & S2 & S3)|[Hfree Hno]].
  - left. exists l, par, leaf, n. unfold cname in *. split_and!; try done; congruence.
  - right. split; [by exists n|]. intros j (l' & par' & leaf' & m & El' & Hpl' & _ & Hj & Tm & Pm & Cm). rewrite El in El'. injection El' as <-. rewrite Hpl in Hpl'. injection Hpl' as <- <-.
    pose proof (child_None _ _ _ _ Hno j m Hj) as Hm. unfold matches in Hm. rewrite Tm, Pm, Cm, Z.eqb_refl in Hm. cbn in Hm. by rewrite bool_decide_eq_true_2 in Hm.
Qed.

Lemma written_unique s par leaf buffer size i s' v' : unique_names (inodes s) →
  (∀ j m, inodes s !! j = Some m → itype m ≠ 0 → parent m = par → cname m = leaf → itype m = DISKFS_TYPE_FILE) →
  written (inodes s) par leaf buffer size i s' v' → unique_names (inodes s').
Proof.
  intros Hu Hcl [(n & n' & Hi & -> & T & P & C & _ & _ & [Hsame|[_ Hnone]]) _]; [by eapply unique_same|].
  apply unique_new; [done|by eapply lookup_lt_Some|]. intros j m _ Hj Ht Hp Hc. rewrite P in Hp. rewrite C in Hc.
  pose proof (child_None _ _ _ _ Hnone j m Hj) as Hm. unfold matches in Hm. rewrite (Hcl j m Hj Ht Hp Hc) in Hm.
  rewrite Hp, Z.eqb_refl in Hm. cbn in Hm. by rewrite bool_decide_eq_true_2 in Hm.
Qed.

(** A path leads to the file put at the place it names. *)
Lemma walk_installed ns i n n' l par leaf : unique_names (<[i := n']> ns) → ns !! i = Some n → itype n ≠ DISKFS_TYPE_DIR →
  itype n' = DISKFS_TYPE_FILE → parent n' = par → cname n' = leaf → parent_and_leaf ns l = (par, leaf) → 0 ≤ par →
  walk (<[i := n']> ns) 0 l = Z.of_nat i ∧ is_file_at (<[i := n']> ns) (Z.of_nat i) = true.
Proof.
  intros Hu Hi Hn T P C Hpl Hpar.
  assert (Hi' : <[i := n']> ns !! i = Some n') by (apply list_lookup_insert_eq; by eapply lookup_lt_Some).
  destruct l as [|part l]; [injection Hpl as <- _; lia|]. cbn [parent_and_leaf] in Hpl.
  rewrite <- (walk_dirs_insert ns i n n' l Hi Hn) in Hpl by (by rewrite T).
  rewrite (walk_agree _ l 0 part par leaf Hu Hpl Hpar). split.
  - apply (child_unique _ _ _ _ _ n'); [done|done|]. unfold matches. rewrite T, P, C, Z.eqb_refl. cbn. by apply bool_decide_eq_true_2.
  - unfold is_file_at. by rewrite Nat2Z.id, Hi', T.
Qed.

(** A path to an entry that is gone leads nowhere. *)
Lemma walk_gone ns i n n' l : ∀ cur, unique_names ns → unique_names (<[i := n']> ns) → ns !! i = Some n →
  matches (parent n) (cname n) 0 n' = false → l ≠ [] → walk ns cur l = Z.of_nat i → walk (<[i := n']> ns) cur l = -1.
Proof.
  assert (Hlow : ∀ par name, child (<[i := n']> ns) par name 0 < 0 → child (<[i := n']> ns) par name 0 = -1)
    by (intros par name ?; destruct (child_range (<[i := n']> ns) par name 0); lia).
  induction l as [|p l IH]; intros cur Hu Hu' Hi Hno Hne Hw; [done|]. cbn [walk] in *.
  destruct (Z.ltb_spec (child ns cur p 0) 0) as [|Hc]; [lia|]. set (c := child ns cur p 0) in *.
  destruct (child_Some ns cur p 0 (Z.to_nat c)) as (m & Hm & Hmt); [fold c; lia|].
  destruct (decide (Z.to_nat c = i)) as [Eci|Hci].
  - assert (child (<[i := n']> ns) cur p 0 < 0) as Hlt; [|by rewrite (proj2 (Z.ltb_lt _ _) Hlt)].
    rewrite Eci, Hi in Hm. injection Hm as <-. unfold child. destruct (list_find _ _) as [[j x]|] eqn:E; [|lia]. exfalso.
    apply list_find_Some in E as (Hj & Hx & _). apply matches_spec in Hmt as (? & ? & ?), Hx as (? & ? & ?).
    destruct (decide (j = i)) as [->|Hji].
    + rewrite list_lookup_insert_eq in Hj by (by eapply lookup_lt_Some). injection Hj as <-.
      apply not_true_iff_false in Hno. apply Hno, matches_spec. split_and!; congruence.
    + rewrite list_lookup_insert_ne in Hj by done. apply Hji, (Hu j i x n); congruence.
  - assert (child (<[i := n']> ns) cur p 0 = c) as ->.
    { rewrite <- (Z2Nat.id c) by lia. apply (child_unique _ _ _ _ _ m); [done| |done]. by rewrite list_lookup_insert_ne. }
    rewrite (proj2 (Z.ltb_ge c 0)) by lia. destruct (decide (l = [])) as [->|Hl]; [cbn in Hw; lia|]. by apply IH.
Qed.

Lemma written_walk s par leaf buffer size i s' v' l : unique_names (inodes s') → parent_and_leaf (inodes s) l = (par, leaf) →
  written (inodes s) par leaf buffer size i s' v' → walk (inodes s') 0 l = Z.of_nat i ∧ is_file_at (inodes s') (Z.of_nat i) = true.
Proof.
  intros Hu Hpl [(n & n' & Hi & En & T & P & C & _ & _ & Hor) Hpar]. rewrite En in *. eapply walk_installed; try done.
  destruct Hor as [(E & _)|[E _]]; [rewrite <- E, T; done|by rewrite E].
Qed.

(** Finding and reading the file just written. *)
Lemma write_then_read s v str path buffer size s' : fs_inv s v → unique_names (inodes s) → path_holds str path → clash_free s path →
  0 ≤ size ≤ DISKFS_MAX_FILE_SIZE → size ≤ Z.of_nat (length buffer) →
  diskfs_write_file path buffer size s = Some (true, s') →
  ∃ v' i, fs_inv s' v' ∧ unique_names (inodes s') ∧ keeps i s v s' v' ∧ diskfs_find_file path s' = Some (Z.of_nat i, s') ∧
    ∀ out, size ≤ Z.of_nat (length out) →
      wp (diskfs_read_index (Z.of_nat i) 0 out size) (λ r s'', fs_inv s'' v' ∧
        (fst (fst r) = true → snd r = size ∧ snd (fst r) = take (Z.to_nat size) buffer ++ drop (Z.to_nat size) out) ∧
        (works s' → fst (fst r) = true)) s'.
Proof.
  intros I Hu Hp Hcl Hs Hb Hrun. assert (Hsmax : is_u32 size) by (unfold is_u32, DISKFS_MAX_FILE_SIZE in *; lia).
  destruct (wp_run _ _ _ _ _ Hrun (write_file_wp s v str path buffer size I Hp Hs Hb)) as (v' & i & I' & K & Hok & _).
  destruct (Hok eq_refl) as (Hav & l & par & leaf & El & Hparts & Hpl & Hleaf & Hw).
  pose proof (written_unique s par leaf buffer size i s' v' Hu (Hcl l par leaf El Hpl) Hw) as Hu'.
  destruct (written_walk s par leaf buffer size i s' v' l Hu' Hpl Hw) as [Hwalk Hfile].
  exists v', i. split_and!; try done.
  - destruct (find_file_wp s' str path (fi_meta _ _ I') Hp) as (r & s2 & E & -> & _ & _ & Hfind).
    destruct (Hfind l El) as [Hf _]. rewrite E. rewrite Hf; [by rewrite Hwalk|]. rewrite Hwalk. split; [lia|done].
  - intros out Hout. destruct Hw as [(n & n' & Hi & En & T & P & C & Sz & Ct & _) _].
    assert (Hi' : inodes s' !! i = Some n') by (rewrite En; apply list_lookup_insert_eq; by eapply lookup_lt_Some).
    eapply wp_mono; [apply (read_index_wp s' v' i n' 0 out size); try done; [apply I'|apply I'|by rewrite (kp_available _ _ _ _ _ K)]|].
    intros r s2 (St & Hr & W & _). split_and!; try done.
    + destruct St as (st & -> & R & _). destruct I' as [_ M L1 L2 L3]. by split.
    + intros E. destruct (Hr E) as [En1 En2]. rewrite Sz in En1, En2. replace (Z.max 0 (Z.min size (size - 0))) with size in * by lia.
      split; [done|]. rewrite En2. rewrite Ct. change (Z.to_nat 0) with 0%nat. rewrite drop_0, take_take, Nat.min_id. done.
Qed.
End files.
