(* ===== verification/DiskfsChange.v ===== *)
(** * Deleting, renaming and truncating files

    diskfs_delete_file, diskfs_rename_file and diskfs_truncate_file of diskfs.c:
    each changes one file, keeps the file system consistent on every path, and
    succeeds on a working device. *)

From Stdlib Require Import ZArith Lia Bool String.
From stdpp Require Import base numbers list list_numbers.
From S2P Require Import Prelude Bitmap Runtime DiskCache Diskfs DiskfsAlloc DiskfsInv DiskfsPath DiskfsData DiskfsOps DiskfsFiles.

Section change.
Context {D : Type} `{Disk D}.
Implicit Types s : fs D.

(** The entry a path leads to is the file [i]. *)
Definition names_file s (path : list Z) (i : nat) : Prop :=
  ∃ l, components path = Some l ∧ walk (inodes s) 0 l = Z.of_nat i ∧ is_file_at (inodes s) (Z.of_nat i) = true.

Lemma is_file_at_Some ns i : is_file_at ns (Z.of_nat i) = true → ∃ n, ns !! i = Some n ∧ itype n = DISKFS_TYPE_FILE.
Proof. unfold is_file_at. rewrite Nat2Z.id. destruct (ns !! i) as [n|]; [|done]. intros E. exists n. by bool_to_prop. Qed.

(** What diskfs_find_file finds. *)
Lemma find_index_wp s v str path : fs_inv s v → path_holds str path →
  wp (diskfs_find_file path) (λ r s', s' = s ∧
    (r = -1 ∨ ∃ i n, r = Z.of_nat i ∧ inodes s !! i = Some n ∧ itype n = DISKFS_TYPE_FILE) ∧
    (∀ i, names_file s path i → r = Z.of_nat i) ∧
    (∀ i, whole_path str path → r = Z.of_nat i → names_file s path i)) s.
Proof.
  intros I Hp. eapply wp_mono; [exact (find_file_wp s str path (fi_meta _ _ I) Hp)|].
  intros r s' (-> & Hr & Hf & Hw). split_and!; [done| | |].
  - destruct (Z.ltb_spec r 0); [left; lia|right]. exists (Z.to_nat r).
    destruct (is_file_at_Some (inodes s) (Z.to_nat r)) as (n & Hn & Ht); [rewrite Z2Nat.id by lia; apply Hf; lia|].
    exists n. rewrite Z2Nat.id by lia. done.
  - intros i (l & El & Ew & Ef). destruct (Hw l El) as [Hyes _]. rewrite <- Ew. apply Hyes. rewrite Ew. split; [lia|done].
  - intros i H47 Er. destruct (components_ok str path Hp) as (l & El & _).
    destruct (Hw l El) as [Hyes Hno]. exists l. destruct (Z.ltb_spec (walk (inodes s) 0 l) 0); [specialize (Hno (or_introl H1) H47); lia|].
    destruct (is_file_at (inodes s) (walk (inodes s) 0 l)) eqn:Ef; [|specialize (Hno (or_intror eq_refl) H47); lia].
    rewrite <- Er, Hyes by done. done.
Qed.

(** The file that the string [str] names: the one its path leads to, or, for a relative path
    that leads to none, the one that its first 62 characters lead to. *)
Definition resolves s (str : list Z) (i : nat) : Prop :=
  names_file s (str ++ [0]) i ∨ (str !! 0%nat ≠ Some 47 ∧ (∀ j, ¬ names_file s (str ++ [0]) j) ∧ names_file s (47 :: take 62 str ++ [0]) i).

Lemma components_of str path : path_holds str path → components (str ++ [0]) = components path.
Proof. intros Hp. rewrite <- (components_string str path Hp). symmetry. apply components_string. split; [apply Hp|by exists []]. Qed.

Lemma walk_file s path l r : components path = Some l → (is_file_at (inodes s) (walk (inodes s) 0 l) && (0 <=? walk (inodes s) 0 l)) = true → r = walk (inodes s) 0 l →
  ∃ i n, r = Z.of_nat i ∧ names_file s path i ∧ inodes s !! i = Some n ∧ itype n = DISKFS_TYPE_FILE.
Proof.
  intros El E ->. bool_to_prop. exists (Z.to_nat (walk (inodes s) 0 l)). assert (Hf : is_file_at (inodes s) (Z.of_nat (Z.to_nat (walk (inodes s) 0 l))) = true) by (by rewrite Z2Nat.id by lia).
  destruct (is_file_at_Some _ _ Hf) as (n & Hn & T). exists n. split_and!; [lia|exists l; split_and!; [done|lia|done]|done|done].
Qed.
Lemma walk_no_file s path l : components path = Some l → (is_file_at (inodes s) (walk (inodes s) 0 l) && (0 <=? walk (inodes s) 0 l)) = false → ∀ j, ¬ names_file s path j.
Proof. intros El E j (l' & El' & Ew & Ef). rewrite El in El'. injection El' as <-. rewrite Ew, Ef, (proj2 (Z.leb_le 0 (Z.of_nat j))) in E by lia. done. Qed.

(** diskfs_find_file finds the file that its argument names, and only that. *)
Lemma find_resolves_wp s v str path : fs_inv s v → path_holds str path →
  wp (diskfs_find_file path) (λ r s', s' = s ∧
    (r = -1 ∧ (∀ i, ¬ resolves s str i) ∨ ∃ i n, r = Z.of_nat i ∧ resolves s str i ∧ inodes s !! i = Some n ∧ itype n = DISKFS_TYPE_FILE)) s.
Proof.
  intros I Hp. pose proof (fi_meta _ _ I) as Hm. pose proof (me_len _ _ _ Hm) as Hl. unfold diskfs_find_file. wp_step.
  eapply find_path_wp; [done|done|]. intros l El _. pose proof (walk_range (inodes s) l 0 Hl ltac:(lia)) as Hw. rewrite <- (components_of str path Hp) in El.
  wp_step. apply is_file_wp; [lia|done|]. destruct (_ && _) eqn:E.
  { wp_step. split; [done|right]. destruct (walk_file s _ l _ El E eq_refl) as (i & n & Hr & Hnf & Hn & T). exists i, n. split_and!; try done. by left. }
  pose proof (walk_no_file s _ l El E) as Hnone. destruct (path_read str path 0 Hp ltac:(lia)) as (c & Hc & _ & Hc0). wp_step. eapply wp_lift; [exact Hc|].
  assert (Hhead : str !! 0%nat = Some 47 ↔ c = 47).
  { destruct Hp as [_ [rest Ep]]. destruct str as [|x str]; [specialize (Hc0 eq_refl); split; [done|lia]|]. rewrite Ep in Hc. apply aread_Some in Hc as [_ Hc]. change (Some x = Some c) in Hc. injection Hc as ->. change (Some c = Some 47 ↔ c = 47). split; [by intros [= ->]|by intros ->]. }
  destruct (Z.eqb_spec c 47) as [E47|E47]; cbn [negb].
  { wp_step. split; [done|left]. split; [done|]. intros i [Hi|(Hne & _)]; [by apply (Hnone i)|tauto]. }
  assert (Ef : full_path (S (length path)) path 0 [47] = Some (47 :: take 62 str ++ [0])).
  { rewrite <- (full_path_cut str path (S (length path)) 0 Hp); [done|lia|lia|]. destruct Hp as [_ [rest ->]]. rewrite length_app. cbn. lia. }
  wp_step. eapply wp_lift; [exact Ef|]. wp_step. eapply (find_path_wp s (47 :: take 62 str)); [done|split; [|by exists []]|].
  { constructor; [lia|]. apply Forall_take, Hp. }
  intros l2 El2 _. pose proof (walk_range (inodes s) l2 0 Hl ltac:(lia)) as Hw2. wp_step. apply is_file_wp; [lia|done|]. wp_step. split; [done|]. destruct (is_file_at (inodes s) (walk (inodes s) 0 l2) && (0 <=? walk (inodes s) 0 l2)) eqn:E2.
  - right. destruct (walk_file s _ l2 _ El2 E2 eq_refl) as (i & n & Hr & Hnf & Hn & T). exists i, n. split_and!; try done. right. split; [tauto|done].
  - left. split; [done|]. intros i [Hi|(_ & _ & Hi)]; [by apply (Hnone i)|]. by apply (walk_no_file s _ l2 El2 E2 i).
Qed.

(** ** Reading a whole file *)

Lemma names_file_unique s path i j : names_file s path i → names_file s path j → i = j.
Proof. intros (l & El & Ew & _) (l' & El' & Ew' & _). rewrite El in El'. injection El' as <-. lia. Qed.
Lemma resolves_unique s str i j : resolves s str i → resolves s str j → i = j.
Proof.
  intros [Hi|(_ & Hno & Hi)] [Hj|(_ & Hno' & Hj)]; [by eapply names_file_unique|by destruct (Hno' i)|by destruct (Hno j)|by eapply names_file_unique].
Qed.

(** Another file buffer, and sectors that have moved between the cache and the device. *)
Lemma buffer_inv s v st b : fs_inv s v → store_rep st v → Z.of_nat (length b) = 16384 → fs_inv (set_file_buffer b (set_disk st s)) v.
Proof. intros [_ I2 I3 I4 _] R Hl. by split. Qed.

(** diskfs_read_index on a file, also where no file system is mounted, for every array of
    sectors that the cache stands for. *)
Lemma read_start_wp s i n buf : (∃ v, fs_inv s v) → inodes s !! i = Some n → itype n = DISKFS_TYPE_FILE → isize n ≤ Z.of_nat (length buf) → 
  wp (diskfs_read_index (Z.of_nat i) 0 buf (isize n)) (λ r s', ∃ st, s' = set_disk st s ∧ (works s → works s') ∧ (∀ v, fs_inv s v → store_rep st v) ∧
    length (snd (fst r)) = length buf ∧ (fst (fst r) = true → available s = true ∧ snd r = isize n ∧
      ∀ v, fs_inv s v → snd (fst r) = content v (first_sector n) (isize n) ++ drop (Z.to_nat (isize n)) buf) ∧ (works s → available s = true → fst (fst r) = true)) s.
Proof.
  intros [v I] Hi Ht Hb. destruct (me_ok _ _ _ (fi_meta _ _ I) i n Hi) as [Hok _]; [by rewrite Ht|]. destruct (io_extent _ _ Hok Ht) as (_ & _ & _ & Hsz).
  destruct (available s) eqn:Hav; [|unfold diskfs_read_index; do 4 wp_step; rewrite Hav; cbn [negb orb]; wp_step; exists (disk s); split_and!; try done; [by destruct s|by intros v' []]].
  assert (W : ∀ v', fs_inv s v' → wp (diskfs_read_index (Z.of_nat i) 0 buf (isize n)) (λ r s', stored s s' v' ∧ (fst (fst r) = true → snd r = isize n ∧
      snd (fst r) = content v' (first_sector n) (isize n) ++ drop (Z.to_nat (isize n)) buf) ∧ (works s → fst (fst r) = true) ∧ length (snd (fst r)) = length buf) s).
  { intros v' I'. eapply wp_mono; [apply (read_index_wp s v' i n 0 buf (isize n)); try done; try apply I'; unfold is_u32, DISKFS_MAX_FILE_SIZE in *; lia|].
    intros r s' (St & Hr & Hw & Hl). split_and!; try done. intros Et. destruct (Hr Et) as [E1 E2]. replace (Z.max 0 (Z.min (isize n) (isize n - 0))) with (isize n) in * by lia.
    split; [done|]. change (Z.to_nat 0) with 0%nat in E2. rewrite drop_0, take_ge in E2 by (rewrite content_length; lia). done. }
  destruct (W v I) as (r & s' & E & (st & -> & R & Wk) & Hr & Hw & Hl). exists r, (set_disk st s). split; [exact E|]. exists st.
  assert (Hall : ∀ v', fs_inv s v' → store_rep st v' ∧ (fst (fst r) = true → snd (fst r) = content v' (first_sector n) (isize n) ++ drop (Z.to_nat (isize n)) buf)).
  { intros v' I'. destruct (W v' I') as (r2 & s2 & E2 & (st2 & -> & R2 & _) & Hr2 & _). rewrite E in E2. injection E2 as <- Es. subst st2.
    split; [done|]. intros Et. by apply Hr2. }
  split_and!; try done; [intros v' I'; by apply Hall| |intros W1 _; by apply Hw]. intros Et. destruct (Hr Et) as [-> _]. split_and!; try done. intros v' I'. by apply Hall.
Qed.

(** diskfs_read_file, for every path: the whole file that the path names, with a terminator
    behind it when the buffer has room for one. *)
Lemma read_file_wp s str path : (∃ v, fs_inv s v) → path_holds str path →
  wp (diskfs_read_file path) (λ r s', ∃ st b, s' = set_file_buffer b (set_disk st s) ∧ (works s → works s') ∧ (∀ v, fs_inv s v → fs_inv s' v) ∧
    match r with
    | Some size => available s = true ∧ 0 ≤ size ≤ 16384 ∧ (size < 16384 → b !! Z.to_nat size = Some 0) ∧ ∃ i n, resolves s str i ∧ inodes s !! i = Some n ∧ itype n = DISKFS_TYPE_FILE ∧ isize n = size ∧
        ∀ v, fs_inv s v → take (Z.to_nat size) b = content v (first_sector n) size
    | None => works s → available s = true → ∀ i n, resolves s str i → inodes s !! i = Some n → 16384 < isize n
    end) s.
Proof.
  intros Hex Hp. pose proof Hex as [v I]. unfold diskfs_read_file. wp_step. eapply wp_mono; [exact (find_resolves_wp s v str path I Hp)|]. intros r s0 (-> & Hr).
  assert (Hsame : ∃ st b, s = set_file_buffer b (set_disk st s) ∧ (works s → works s) ∧ ∀ v, fs_inv s v → fs_inv s v) by (exists (disk s), (file_buffer s); by destruct s).
  destruct Hr as [[-> Hno]|(i & n & -> & Hres & Hi & Ht)].
  { change (-1 <? 0) with true. cbn match. wp_step. destruct Hsame as (st & b & E & H1' & H2'). exists st, b. split_and!; try done. intros _ _ i n Hres. by destruct (Hno i). }
  rewrite (proj2 (Z.ltb_ge (Z.of_nat i) 0)) by lia. wp_step. eapply wp_get_inode; [exact Hi|]. destruct (me_ok _ _ _ (fi_meta _ _ I) i n Hi) as [Hok _]; [by rewrite Ht|].
  destruct (io_extent _ _ Hok Ht) as (_ & _ & _ & Hsz). unfold DISKFS_READ_BUFFER_SIZE. pose proof (fi_buffer _ _ I) as Hfb. destruct (Z.ltb_spec 16384 (isize n)) as [Hbig|Hle].
  { wp_step. destruct Hsame as (st & b & E & H1' & H2'). exists st, b. split_and!; try done. intros _ _ j m Hj Hm. by rewrite <- (resolves_unique s str i j Hres Hj), Hi in Hm; injection Hm as <-. }
  do 3 wp_step. eapply wp_mono; [apply (read_start_wp s i n (file_buffer s) Hex Hi Ht); lia|]. intros [[ok out] got] s1 (st & -> & Hwk & Hst & Hlen & Hrd & Hlive). cbn [fst snd] in *.
  assert (Hinv : ∀ b, Z.of_nat (length b) = 16384 → ∀ v, fs_inv s v → fs_inv (set_file_buffer b (set_disk st s)) v) by (intros b Hb v' I'; apply buffer_inv; auto).
  do 2 wp_step. destruct ok; cbn [negb].
  - destruct (Hrd eq_refl) as (Hav & -> & Hout). wp_step. destruct (Z.ltb_spec (isize n) 16384) as [Hlt|Hge]; cbn [when].
    + do 3 wp_step. eapply wp_lift; [apply awrite_eq; cbn; lia|]. wp_step. wp_step. exists st, (<[Z.to_nat (isize n) := 0]> out). split_and!; try done; [apply (Hinv (<[Z.to_nat (isize n) := 0]> out)); rewrite length_insert; lia|lia|intros _; apply list_lookup_insert_eq; lia|].
      exists i, n. split_and!; try done. intros v' I'. rewrite take_insert_ge, (Hout v' I') by lia. apply take_app_length'. rewrite content_length; lia.
    + wp_step. wp_step. exists st, out. split_and!; try done; [apply Hinv; lia|lia|lia|]. exists i, n. split_and!; try done. intros v' I'. rewrite (Hout v' I'). apply take_app_length'. rewrite content_length; lia.
  - wp_step. exists st, out. split_and!; try done; [apply Hinv; lia|]. intros W Hav. by specialize (Hlive W Hav).
Qed.

(** ** Deleting *)

Lemma covers_zero q : covers zero_inode q = false.
Proof. done. Qed.

Lemma delete_file_wp s v str path : fs_inv s v → path_holds str path →
  wp (diskfs_delete_file path) (λ ok s', ∃ v' i, fs_inv s' v' ∧ keeps i s v s' v' ∧
    (ok = true → ∃ n, inodes s !! i = Some n ∧ itype n = DISKFS_TYPE_FILE ∧ inodes s' = <[i := zero_inode]> (inodes s)) ∧
    (∀ k, names_file s path k → ok = true → i = k) ∧ (whole_path str path → (ok = true → names_file s path i) ∧ (names_file s path i ∨ ∀ j, keeps j s v s' v')) ∧
    (works s → (∃ k, names_file s path k) → ok = true)) s.
Proof.
  intros I Hp. unfold diskfs_delete_file. wp_step. eapply wp_mono; [exact (find_index_wp s v str path I Hp)|].
  intros r s0 (-> & Hr & Hnm & Hab).
  destruct Hr as [->|(i & n & -> & Hi & Ht)].
  { change (-1 <? 0) with true. cbn match. do 2 wp_step. cbn [negb]. wp_step. exists v, 0%nat.
    pose proof (λ j, keeps_refl j s v I).
    split_and!; try done; [by split; [|right]|]. intros _ (k & Hk). specialize (Hnm k Hk). lia. }
  rewrite (proj2 (Z.ltb_ge (Z.of_nat i) 0)) by lia. wp_step. eapply wp_mono; [exact (begin_ok s v I)|].
  intros begun s1 (v1 & I1 & M1 & Sb1 & W1). pose proof (mo_inodes _ _ _ _ M1) as In1.
  assert (Kn : whole_path str path → names_file s path i) by (intros Hwh; by apply Hab).
  assert (K1 : keeps i s v s1 v1) by (by apply meta_only_keeps).
  destruct begun; cbn [negb]; [|wp_step; exists v1, i; split_and!; try done; [intros Hwh; split; [done|left; by apply Kn]|intros W _; by apply W1]].
  assert (Hi1 : inodes s1 !! i = Some n) by (by rewrite In1).
  pose proof (fi_meta _ _ I1) as Hm1. pose proof (geo_total _ (me_geo _ _ _ Hm1)) as Htot. pose proof (geo_bitmap _ (me_geo _ _ _ Hm1)) as Hgb.
  destruct (me_ok _ _ _ Hm1 i n Hi1) as [Hok Hic]; [by rewrite Ht|]. destruct (io_extent _ _ Hok Ht) as (E1 & E2 & E3 & E4).
  destruct (sectors_for_size_range _ E4) as (_ & Hc & _).
  wp_step. eapply wp_get_inode; [exact Hi1|]. wp_step.
  eapply (free_extent_wp s1); [exact (me_bits _ _ _ Hm1)|done|lia|lia|lia|]. intros bm Hbm. wp_step.
  apply wp_put_inode; [by eapply lookup_lt_Some|].
  destruct (install_ok s1 v1 i n zero_inode bm I1 Hi1) as [I2 K2]; [by rewrite Ht|done|done| |].
  { eapply bitmap_ext; [exact Hbm|]. intros q _. cbn beta. rewrite covers_zero, orb_false_r. unfold covers. by rewrite Ht. }
  change (set_inodes (<[i := zero_inode]> (inodes (set_bitmap bm s1))) (set_bitmap bm s1)) with (set_inodes (<[i := zero_inode]> (inodes s1)) (set_bitmap bm s1)).
  set (s2 := set_inodes _ _) in *. assert (Hi2 : inodes s2 !! i = Some zero_inode) by (apply list_lookup_insert_eq; by eapply lookup_lt_Some).
  wp_step. eapply wp_mono; [apply (meta_write_then _ _ s2 v1); [by eapply write_inode_ok|intros; by apply write_bitmap_ok]|].
  intros ok s3 (v3 & I3 & M3 & W3). assert (K3 : keeps i s v s3 v3).
  { eapply keeps_trans; [exact K1|]. eapply keeps_trans; [exact K2|]. by apply meta_only_keeps. }
  destruct ok; cbn [negb].
  - eapply wp_mono; [exact (finish_ok s3 v3 I3)|]. intros ok s4 (v4 & I4 & M4 & W4). exists v4, i. split_and!; try done.
    + eapply keeps_trans; [exact K3|by apply meta_only_keeps].
    + intros _. exists n. split_and!; try done. by rewrite (mo_inodes _ _ _ _ M4), (mo_inodes _ _ _ _ M3), <- In1.
    + intros k Hk _. specialize (Hnm k Hk). lia.
    + intros Hwh. split; [|left]; auto.
    + intros W _. by apply W4, (kp_works _ _ _ _ _ K3).
  - wp_step. exists v3, i. split_and!; try done; [intros Hwh; split; [done|left; by apply Kn]|]. intros W _. apply W3, (kp_works _ _ _ _ _ K2), (kp_works _ _ _ _ _ K1), W.
Qed.

(** ** Renaming *)

(** The inode of a renamed file: same content, another place. *)
Definition renamed (par : Z) (leaf : list Z) (n : diskfs_inode) : diskfs_inode :=
  set_iname (name_of_leaf leaf) (set_parent par n).

(** A name no entry of the directory has. *)
Definition fresh_name (ns : list diskfs_inode) (par : Z) (leaf : list Z) : Prop :=
  ∀ j m, ns !! j = Some m → itype m ≠ 0 → parent m = par → cname m = leaf → False.

Lemma fresh_child ns par leaf : child ns par leaf 0 < 0 ↔ fresh_name ns par leaf.
Proof.
  split.
  - intros Hc j m Hj Ht Hp Hn. pose proof (child_None _ _ _ _ Hc j m Hj) as Hm.
    apply not_true_iff_false in Hm. by apply Hm, matches_spec.
  - intros Hf. unfold child. destruct (list_find _ ns) as [[j m]|] eqn:E; [|lia]. exfalso.
    apply list_find_Some in E as (Hj & Hm & _). apply matches_spec in Hm as (? & ? & ?). by eapply (Hf j m).
Qed.

(** The new place of the file: free, or the operation does nothing. *)
Definition target s (path : list Z) (par : Z) (leaf : list Z) : Prop :=
  ∃ l, components path = Some l ∧ parent_and_leaf (inodes s) l = (par, leaf) ∧ 0 ≤ par ∧ fresh_name (inodes s) par leaf.

Lemma rename_move_wp s v i n par leaf : fs_inv s v → inodes s !! i = Some n → itype n = DISKFS_TYPE_FILE →
  0 ≤ par < inode_count (superblock s) → part_ok leaf →
  wp (_ ← upd_inode (Z.of_nat i) (set_parent par);
      _ ← upd_inode (Z.of_nat i) (set_iname (name_of_leaf leaf));
      ok ← write_inode (Z.of_nat i);
      if negb ok then mret false else _ ← rebuild_file_list; commit_transaction)
    (λ ok s', ∃ v', fs_inv s' v' ∧ keeps i s v s' v' ∧ (ok = true → inodes s' = <[i := renamed par leaf n]> (inodes s) ∧
       ∀ q, covers n q = true → v' q = v q) ∧
       (works s → ok = true)) s.
Proof.
  intros I Hi Ht Hpar Hleaf. assert (Hlt : (i < length (inodes s))%nat) by (by eapply lookup_lt_Some).
  destruct (me_ok _ _ _ (fi_meta _ _ I) i n Hi) as [[O1 O2 O3 O4] Hic]; [by rewrite Ht|].
  destruct (cname_of_leaf (renamed par leaf n) leaf Hleaf eq_refl) as [Hnm _].
  assert (Hcov : ∀ q, covers (renamed par leaf n) q = covers n q) by done.
  wp_step. eapply wp_upd_inode; [exact Hi|]. wp_step.
  eapply wp_upd_inode; [by apply list_lookup_insert_eq|]. cbn [inodes set_inodes]. rewrite list_insert_insert_eq.
  fold (renamed par leaf n). destruct (install_ok s v i n (renamed par leaf n) (bitmap s) I Hi) as [I2 K2]; [by rewrite Ht|..].
  { intros _. split; [|done]. split; try done. }
  { intros q. rewrite Hcov. by right. }
  { eapply bitmap_ext; [exact (me_bits _ _ _ (fi_meta _ _ I))|]. intros q _. cbn beta. rewrite Hcov.
    destruct (covers n q) eqn:Ec; [by rewrite orb_true_r, (covers_used _ _ i n q Hi Ec)|by rewrite andb_true_r, orb_false_r]. }
  set (s2 := set_inodes (<[i:=renamed par leaf n]> (inodes s)) (set_bitmap (bitmap s) s)) in *.
  match goal with |- wp _ _ ?x => change x with s2 end.
  assert (Hi2 : inodes s2 !! i = Some (renamed par leaf n)) by (by apply list_lookup_insert_eq).
  wp_step. eapply wp_mono; [eapply (write_inode_ok s2 v); [done|exact Hi2|apply Hnm|done]|].
  intros ok s3 (v3 & I3 & M3 & W3). assert (K3 : keeps i s v s3 v3) by (eapply keeps_trans; [exact K2|by apply meta_only_keeps]).
  destruct ok; cbn [negb]; [|wp_step; by exists v3].
  eapply wp_mono; [exact (finish_ok s3 v3 I3)|]. intros ok s4 (v4 & I4 & M4 & W4). exists v4. split_and!; try done.
  - eapply keeps_trans; [exact K3|by apply meta_only_keeps].
  - intros _. split; [by rewrite (mo_inodes _ _ _ _ M4), (mo_inodes _ _ _ _ M3)|]. intros q Hq.
    destruct (covers_data s v i n q I Hi Hq) as [Hge _].
    rewrite (mo_data _ _ _ _ M4), (mo_data _ _ _ _ M3); [done|done|]. by rewrite (mo_start _ _ _ _ M3).
  - intros W. by apply W4, (kp_works _ _ _ _ _ K3).
Qed.

Lemma rename_file_wp s v str path str' path' : fs_inv s v → path_holds str path → path_holds str' path' →
  wp (diskfs_rename_file path path') (λ ok s', ∃ v' i, fs_inv s' v' ∧ keeps i s v s' v' ∧
    (ok = true → ∃ n par leaf, inodes s !! i = Some n ∧ itype n = DISKFS_TYPE_FILE ∧ target s path' par leaf ∧ part_ok leaf ∧
       inodes s' = <[i := renamed par leaf n]> (inodes s) ∧ (∀ q, covers n q = true → v' q = v q)) ∧
    (∀ k, names_file s path k → ok = true → i = k) ∧ (whole_path str path → (ok = true → names_file s path i) ∧ (names_file s path i ∨ ∀ j, keeps j s v s' v')) ∧
    (works s → (∃ k, names_file s path k) → (∃ par leaf, target s path' par leaf) → ok = true)) s.
Proof.
  intros I Hp Hp'. pose proof (λ i, keeps_refl i s v I) as K0.
  unfold diskfs_rename_file. wp_step. eapply wp_mono; [exact (find_index_wp s v str path I Hp)|]. intros r s0 (-> & Hr & Hnm & Hab).
  wp_step. eapply ensure_parent_dir_wp; [apply I|done|]. intros l El Hparts.
  destruct (parent_and_leaf (inodes s) l) as [par leaf] eqn:Epl.
  assert (Htgt : ∀ par' leaf', target s path' par' leaf' → par' = par ∧ leaf' = leaf ∧ 0 ≤ par ∧ fresh_name (inodes s) par leaf).
  { intros par' leaf' (l' & El' & Epl' & H1' & H2'). rewrite El in El'. injection El' as <-. rewrite Epl in Epl'. by injection Epl' as <- <-. }
  destruct Hr as [->|(i & n & -> & Hi & Ht)].
  { change (-1 <? 0) with true. cbn [orb]. do 2 wp_step. cbn [negb]. wp_step. exists v, 0%nat.
    split_and!; try done; [by split; [|right]|]. intros _ (k & Hk). specialize (Hnm k Hk). lia. }
  rewrite (proj2 (Z.ltb_ge (Z.of_nat i) 0)) by lia. cbn [orb]. destruct (Z.ltb_spec par 0) as [Hneg|Hpar].
  { do 2 wp_step. cbn [negb]. wp_step. exists v, 0%nat. split_and!; try done; [by split; [|right]|].
    intros _ _ (par' & leaf' & Htg). apply Htgt in Htg. lia. }
  destruct (parent_leaf_ok s v l par leaf I Hparts Epl Hpar) as [Hleaf Hparc].
  do 2 wp_step. eapply wp_lift; [by apply name_valid_ok|]. cbn [negb]. wp_step. apply find_child_wp; [apply I|apply Hleaf|].
  destruct (Z.leb_spec 0 (child (inodes s) par leaf 0)) as [Hcl|Hcl].
  { wp_step. cbn [negb]. wp_step. exists v, 0%nat. split_and!; try done; [by split; [|right]|].
    intros _ _ (par' & leaf' & Htg). apply Htgt in Htg as (_ & _ & _ & Hf). apply fresh_child in Hf. lia. }
  apply fresh_child in Hcl. eapply wp_mono; [exact (begin_ok s v I)|].
  intros begun s1 (v1 & I1 & M1 & Sb1 & W1). pose proof (mo_inodes _ _ _ _ M1) as In1.
  assert (Kn : whole_path str path → names_file s path i) by (intros Hwh; by apply Hab).
  assert (K1 : keeps i s v s1 v1) by (by apply meta_only_keeps).
  destruct begun; cbn [negb]; [|wp_step; exists v1, i; split_and!; try done; [intros Hwh; split; [done|left; by apply Kn]|intros W _ _; by apply W1]].
  eapply wp_mono; [apply (rename_move_wp s1 v1 i n par leaf); [done|by rewrite In1|done| |done]|].
  { rewrite Sb1. cbn. lia. }
  intros ok s2 (v2 & I2 & K2 & Hi2 & W2). exists v2, i. split_and!; try done.
  - by eapply keeps_trans.
  - intros E. destruct (Hi2 E) as [Ei Hd]. exists n, par, leaf. split_and!; try done; [by exists l|by rewrite Ei, In1|].
    intros q Hq. rewrite Hd by done. apply (mo_data _ _ _ _ M1). by apply (covers_data s v i n q I Hi).
  - intros k Hk _. specialize (Hnm k Hk). lia.
  - intros Hwh. split; [|left]; auto.
  - intros W _ _. by apply W2, (kp_works _ _ _ _ _ K1).
Qed.

(** ** Other files *)

(** Every file but the inode [i] keeps its entry and its content. *)
Definition others_same (i : nat) s (v : Z → list Z) s' (v' : Z → list Z) : Prop :=
  ∀ j m, j ≠ i → inodes s !! j = Some m → inodes s' !! j = Some m ∧
    (itype m = DISKFS_TYPE_FILE → content v' (first_sector m) (isize m) = content v (first_sector m) (isize m)).

(** Every inode but those of [P] keeps its entry, and every file of them its content. *)
Definition rest_same (P : nat → Prop) s (v : Z → list Z) s' (v' : Z → list Z) : Prop :=
  ∀ j m, ¬ P j → inodes s !! j = Some m → inodes s' !! j = Some m ∧
    (itype m = DISKFS_TYPE_FILE → content v' (first_sector m) (isize m) = content v (first_sector m) (isize m)).

Lemma same_content s v j m v' : fs_inv s v → inodes s !! j = Some m → itype m = DISKFS_TYPE_FILE →
  (∀ q, covers m q = true → v' q = v q) → content v' (first_sector m) (isize m) = content v (first_sector m) (isize m).
Proof.
  intros I Hj T Hq. destruct (me_ok _ _ _ (fi_meta _ _ I) j m Hj) as [Hok _]; [by rewrite T|].
  destruct (io_extent _ _ Hok T) as (E1 & E2 & E3 & E4). destruct (sectors_for_size_range _ E4) as (_ & _ & Hcap).
  pose proof (geo_bitmap _ (me_geo _ _ _ (fi_meta _ _ I))).
  apply (content_ext _ _ _ _ (sector_count m)); [lia|lia|]. intros q Hqr. apply Hq. unfold covers. rewrite T. by apply in_extent_spec.
Qed.

Lemma keeps_others i s v s' v' : fs_inv s v → keeps i s v s' v' → others_same i s v s' v'.
Proof.
  intros I K j m Hj Hm. split; [by rewrite (kp_inodes _ _ _ _ _ K)|]. intros T. eapply same_content; [done|exact Hm|done|].
  intros q Hq. by apply (kp_data _ _ _ _ _ K j m).
Qed.

Lemma keeps_rest (P : nat → Prop) i s v s' v' : fs_inv s v → keeps i s v s' v' → P i ∨ (∀ j, keeps j s v s' v') → rest_same P s v s' v'.
Proof.
  intros I K [HP|Hall] j m Hj Hm; [apply (keeps_others i s v s' v' I K); [by intros ->|done]|]. apply (keeps_others (S j) s v s' v' I (Hall (S j))); [lia|done].
Qed.

(** ** Paths to what is gone *)

(** A file is not the root. *)
Lemma file_path_nonempty s v path i : fs_inv s v → names_file s path i → components path ≠ Some [].
Proof.
  intros I (l & -> & Ew & Ef) [= ->]. cbn in Ew. assert (i = 0%nat) as -> by lia.
  destruct (is_file_at_Some _ _ Ef) as (n & Hn & T). pose proof (me_root _ _ _ (fi_meta _ _ I)) as Hr.
  rewrite Hn in Hr. cbn in Hr. rewrite T in Hr. done.
Qed.

(** When the entry at the end of a path is replaced by one that does
    not have that name, the path is not found. *)
Lemma find_gone s v str path i n n' s' v' : fs_inv s v → fs_inv s' v' → unique_names (inodes s) → unique_names (inodes s') →
  path_holds str path → whole_path str path → names_file s path i → inodes s !! i = Some n →
  inodes s' = <[i := n']> (inodes s) → matches (parent n) (cname n) 0 n' = false →
  diskfs_find_file path s' = Some (-1, s').
Proof.
  intros I I' Hu Hu' Hp H47 Hnf Hi En Hm. pose proof (file_path_nonempty s v path i I Hnf) as Hne. destruct Hnf as (l & El & Ew & _).
  destruct (find_file_wp s' str path (fi_meta _ _ I') Hp) as (r & s2 & E & -> & _ & _ & Hw).
  destruct (Hw l El) as [_ Hno]. rewrite E, Hno; [done| |done]. rewrite En in *. left.
  rewrite (walk_gone (inodes s) i n n' l); try done. congruence.
Qed.

(** The path that leads to a file finds it. *)
Lemma find_named s v str path i : fs_inv s v → path_holds str path → names_file s path i →
  diskfs_find_file path s = Some (Z.of_nat i, s).
Proof.
  intros I Hp Hnf. destruct (find_index_wp s v str path I Hp) as (r & s' & E & -> & _ & Hn & _). by rewrite E, (Hn i Hnf).
Qed.

(** ** Truncating *)

(** With unique names the write goes to the file the lookup found. *)
Lemma written_same_file s par leaf buffer size l i n k s' v' : unique_names (inodes s) →
  parent_and_leaf (inodes s) l = (par, leaf) → walk (inodes s) 0 l = Z.of_nat i → inodes s !! i = Some n → itype n = DISKFS_TYPE_FILE →
  written (inodes s) par leaf buffer size k s' v' →
  k = i ∧ ∃ n', inodes s' = <[i := n']> (inodes s) ∧ same_entry n n' ∧ isize n' = size ∧
    content v' (first_sector n') size = take (Z.to_nat size) buffer.
Proof.
  intros Hu Hpl Hw Hi T [(m & n' & Hk & En & T' & P' & C' & Sz & Ct & Hor) Hpar].
  assert (Hn : parent n = par ∧ cname n = leaf).
  { destruct l as [|part l]; [injection Hpl as <- _; lia|]. rewrite (walk_agree _ l 0 part par leaf Hu Hpl Hpar) in Hw.
    destruct (child_Some _ _ _ _ _ Hw) as (x & Hx & Hm). rewrite Hi in Hx. injection Hx as <-. by apply matches_spec in Hm as (_ & ? & ?). }
  destruct Hn as [P C]. destruct Hor as [(S1 & S2 & S3)|[_ Hno]].
  - assert (k = i) as ->; [|rewrite Hi in Hk; injection Hk as <-; split; [done|]; exists n'; by split_and!].
    apply (Hu k i m n); [done|done|by rewrite <- S1, T'|by rewrite T|congruence|]. unfold cname in *. congruence.
  - pose proof (child_None _ _ _ _ Hno i n Hi) as Hm. unfold matches in Hm. rewrite T, P, C, Z.eqb_refl in Hm.
    cbn in Hm. by rewrite bool_decide_eq_true_2 in Hm.
Qed.

(** What a file of the content [c] becomes when it is cut or padded to [size]. *)
Definition truncated (size : Z) (c : list Z) : list Z := take (Z.to_nat size) (c ++ replicate (Z.to_nat size) 0).

Lemma truncated_buffer fb c size : (length c ≤ length fb)%nat → (Z.to_nat size ≤ length fb)%nat →
  take (Z.to_nat size) (c ++ drop (length c) (replicate (Z.to_nat size) 0 ++ drop (Z.to_nat size) fb)) = truncated size c.
Proof.
  intros H1 H2. unfold truncated. rewrite !take_app. f_equal. destruct (decide (length c ≤ Z.to_nat size)%nat).
  - rewrite drop_app_le by (rewrite length_replicate; lia). rewrite drop_replicate, take_app_le, !take_replicate by (rewrite length_replicate; lia).
    f_equal. lia.
  - replace (Z.to_nat size - length c)%nat with 0%nat by lia. done.
Qed.

(** Writing the file a path leads to. *)
Lemma rewrite_found_wp s v str path buffer size i n : fs_inv s v → unique_names (inodes s) → path_holds str path →
  names_file s path i → inodes s !! i = Some n → available s = true → works s → has_parent s path →
  0 ≤ size ≤ DISKFS_MAX_FILE_SIZE → size ≤ Z.of_nat (length buffer) →
  wp (diskfs_write_file path buffer size) (λ ok s', ∃ v', fs_inv s' v' ∧
    (ok = true → others_same i s v s' v' ∧ ∃ n', inodes s' = <[i := n']> (inodes s) ∧ same_entry n n' ∧ isize n' = size ∧
       content v' (first_sector n') size = take (Z.to_nat size) buffer) ∧
    (ok = true ∨ no_room s size)) s.
Proof.
  intros I Hu Hp (l & El & Ew & Ef) Hi Hav W Hpar Hs Hb. destruct (is_file_at_Some _ _ Ef) as (n0 & Hi0 & T).
  rewrite Hi in Hi0. injection Hi0 as <-.
  eapply wp_mono; [exact (write_file_wp s v str path buffer size I Hp Hs Hb)|].
  intros ok s' (v' & k & I' & K & Hok & Hlive & _). exists v'. split_and!; [done| |by apply Hlive].
  intros E. destruct (Hok E) as (_ & l' & par & leaf & El' & _ & Hpl & _ & Hw). rewrite El in El'. injection El' as <-.
  destruct (written_same_file s par leaf buffer size l i n k s' v' Hu Hpl Ew Hi T Hw) as [-> Hn']. split; [|done].
  by apply keeps_others.
Qed.

Lemma truncate_file_wp s v str path size i n : fs_inv s v → unique_names (inodes s) → path_holds str path →
  names_file s path i → inodes s !! i = Some n → available s = true → works s → has_parent s path →
  0 ≤ size ≤ 16384 → isize n ≤ 16384 →
  wp (diskfs_truncate_file path size) (λ ok s', ∃ v', fs_inv s' v' ∧
    (ok = true → others_same i s v s' v' ∧ ∃ n', inodes s' = <[i := n']> (inodes s) ∧ same_entry n n' ∧ isize n' = size ∧
       content v' (first_sector n') size = truncated size (content v (first_sector n) (isize n))) ∧
    (ok = true ∨ no_room s size)) s.
Proof.
  intros I Hu Hp Hnf Hi Hav W Hpar Hs Hsz. pose proof Hnf as (l & El & Ew & Ef).
  destruct (is_file_at_Some _ _ Ef) as (n0 & Hi0 & T). rewrite Hi in Hi0. injection Hi0 as <-.
  destruct (me_ok _ _ _ (fi_meta _ _ I) i n Hi) as [Hok _]; [by rewrite T|]. destruct (io_extent _ _ Hok T) as (_ & _ & _ & Hr).
  pose proof (fi_buffer _ _ I) as Hfb. pose proof (content_length v (first_sector n) (isize n) ltac:(lia)) as Hcl.
  unfold diskfs_truncate_file. rewrite (proj2 (Z.ltb_ge DISKFS_MAX_FILE_SIZE size)) by (unfold DISKFS_MAX_FILE_SIZE; lia).
  wp_step. eapply wp_mono; [exact (find_index_wp s v str path I Hp)|]. intros r s0 (-> & _ & Hnm & _). rewrite (Hnm i Hnf).
  rewrite (proj2 (Z.ltb_ge (Z.of_nat i) 0)) by lia. wp_step. eapply wp_get_inode; [exact Hi|].
  destruct (Z.eqb_spec size (isize n)) as [Esz|Hne].
  { wp_step. exists v. split_and!; [done| |by left]. intros _. split; [by apply keeps_others, keeps_refl|]. exists n.
    split_and!; try done; [by rewrite list_insert_id|]. unfold truncated. rewrite Esz, take_app_le, take_ge by lia. done. }
  destruct (Z.eqb_spec size 0) as [->|Hnz].
  { eapply wp_mono; [by apply (rewrite_found_wp s v str path [0] 0 i n)|]. intros ok s' (v' & I' & Ho & Hl). by exists v'. }
  unfold DISKFS_READ_BUFFER_SIZE. rewrite (proj2 (Z.ltb_ge 16384 (isize n))), (proj2 (Z.ltb_ge 16384 size)) by lia. cbn [orb].
  do 2 wp_step. set (fb := file_buffer s) in *.
  assert (Ec : mem_copy fb 0 (mem_zero size) 0 size = Some (replicate (Z.to_nat size) 0 ++ drop (Z.to_nat size) fb)).
  { pose proof (mem_copy_spec fb 0 (mem_zero size) 0 (Z.to_nat size)) as E. rewrite Z2Nat.id in E by lia. change (Z.of_nat 0) with 0 in E.
    rewrite E by (unfold mem_zero; rewrite ?length_replicate; lia). unfold mem_zero. rewrite take_0, drop_0, take_ge by (rewrite length_replicate; lia). done. }
  wp_step. eapply wp_lift; [exact Ec|]. set (fb1 := replicate _ 0 ++ _). assert (Hl1 : length fb1 = length fb).
  { unfold fb1. rewrite length_app, length_replicate, length_drop. lia. }
  do 2 wp_step. set (s1 := set_file_buffer fb1 s).
  assert (I1 : fs_inv s1 v) by (destruct I; split; try done; cbn; lia).
  wp_step. eapply wp_mono; [apply (read_index_wp s1 v i n 0 fb1 (isize n)); try done; try apply I1; try (unfold is_u32, DISKFS_MAX_FILE_SIZE in *; lia)|].
  intros [[ok out] rd] s2 ((st & -> & R2 & W2) & Hrd & Wok & Hlen). cbn [fst snd] in *.
  specialize (Hrd (Wok W)). destruct Hrd as [_ Hout]. replace (Z.max 0 (Z.min (isize n) (isize n - 0))) with (isize n) in Hout by lia.
  change (Z.to_nat 0) with 0%nat in Hout. rewrite drop_0, take_ge, <- Hcl in Hout by lia.
  do 4 wp_step. set (s3 := set_file_buffer out (set_disk st s1)).
  assert (I3 : fs_inv s3 v) by (destruct I; split; try done; cbn; lia).
  eapply wp_mono; [apply (rewrite_found_wp s3 v str path out size i n); try done; [by apply W2|unfold DISKFS_MAX_FILE_SIZE; lia|lia]|].
  intros ok' s' (v' & I' & Ho & Hl). exists v'. split_and!; try done. intros E. destruct (Ho E) as (Hoth & n' & En & Sm & Sz & Ct).
  split; [exact Hoth|]. exists n'. split_and!; try done. rewrite Ct, Hout. apply truncated_buffer; lia.
Qed.

(** diskfs_truncate_file on any path and any size: it returns and keeps the invariant. *)
Lemma truncate_any_wp s v str path size : fs_inv s v → path_holds str path → 0 ≤ size →
  wp (diskfs_truncate_file path size) (λ _ s', (∃ v', fs_inv s' v') ∧ available s' = available s ∧ (works s → works s')) s.
Proof.
  intros I Hp Hs. unfold diskfs_truncate_file. assert (Hsame : (∃ v', fs_inv s v') ∧ available s = available s ∧ (works s → works s)) by eauto. destruct (Z.ltb_spec DISKFS_MAX_FILE_SIZE size); [by wp_step|].
  assert (Hw : ∀ s1 buf n, (∃ v', fs_inv s1 v') → available s1 = available s → (works s → works s1) → 0 ≤ n ≤ DISKFS_MAX_FILE_SIZE → n ≤ Z.of_nat (length buf) →
    wp (diskfs_write_file path buf n) (λ _ s', (∃ v', fs_inv s' v') ∧ available s' = available s ∧ (works s → works s')) s1).
  { intros s1 buf n [v1 I1] A1 W1 Hn Hb. eapply wp_mono; [exact (write_file_wp s1 v1 str path buf n I1 Hp Hn Hb)|]. intros ok s' (v' & j & I' & K & _). split; [by eexists|]. split; [by rewrite (kp_available _ _ _ _ _ K)|]. intros W. by apply (kp_works _ _ _ _ _ K), W1. }
  assert (Hz : wp (diskfs_write_file path [0] 0) (λ _ s', (∃ v', fs_inv s' v') ∧ available s' = available s ∧ (works s → works s')) s) by (apply Hw; [by eexists|done|done|unfold DISKFS_MAX_FILE_SIZE; lia|cbn; lia]).
  wp_step. eapply wp_mono; [exact (find_index_wp s v str path I Hp)|]. intros r s0 (-> & Hr & _). destruct Hr as [->|(i & n & -> & Hi & Ht)].
  { change (-1 <? 0) with true. cbn match. destruct (size =? 0); [done|by wp_step]. }
  rewrite (proj2 (Z.ltb_ge (Z.of_nat i) 0)) by lia. wp_step. eapply wp_get_inode; [exact Hi|]. destruct (size =? isize n); [by wp_step|]. destruct (size =? 0); [done|].
  unfold DISKFS_READ_BUFFER_SIZE. destruct (Z.ltb_spec 16384 (isize n)); cbn [orb]; [by wp_step|]. destruct (Z.ltb_spec 16384 size); [by wp_step|].
  pose proof (fi_buffer _ _ I) as Hfb. do 2 wp_step.
  assert (exists fb1, mem_copy (file_buffer s) 0 (mem_zero size) 0 size = Some fb1 ∧ length fb1 = length (file_buffer s)) as (fb1 & Ec & Hl1).
  { pose proof (mem_copy_spec (file_buffer s) 0 (mem_zero size) 0 (Z.to_nat size)) as E. rewrite Z2Nat.id in E by lia. change (Z.of_nat 0) with 0 in E.
    rewrite E by (unfold mem_zero; rewrite ?length_replicate; lia). eexists. split; [reflexivity|]. unfold mem_zero. rewrite !length_app, !length_take, !length_drop, length_replicate. lia. }
  wp_step. eapply wp_lift; [exact Ec|]. do 2 wp_step. set (s1 := set_file_buffer fb1 s). assert (I1 : fs_inv s1 v) by (destruct I; split; try done; cbn; lia).
  wp_step. eapply wp_mono; [apply (read_start_wp s1 i n fb1); [by eexists|done|done|lia]|]. intros [[ok out] got] s2 (st & -> & Hwk & Hst & Hlen & _). cbn [fst snd] in *. do 4 wp_step.
  apply Hw; [exists v; apply (buffer_inv s1 v st out); [done|by apply Hst|lia]|done|done|lia|]. change (size ≤ Z.of_nat (length out)). lia.
Qed.
End change.
