(* ===== verification/DiskfsFsck.v ===== *)
(** * fsck decides consistency

    diskfs_fsck of diskfs.c finds no error exactly when the extents of the files
    lie in the data area, do not overlap, and are what the bitmap says is used;
    it changes nothing. *)

From Stdlib Require Import ZArith Lia Bool String.
From stdpp Require Import base numbers list list_numbers.
From S2P Require Import Prelude Bitmap Runtime DiskCache Diskfs DiskfsAlloc DiskfsInv.

Section fsck.
Context {D : Type} `{BlockDevice D}.
Implicit Types s : fs D.

(** ** What consistency is *)

(** The extent of [n] lies in the data area. *)
Definition in_bounds (sb : diskfs_superblock) (n : diskfs_inode) : bool :=
  (data_start sb <=? first_sector n) && (first_sector n + sector_count n <=? 4096).

(** The files among the first [k] inodes are in bounds and do not overlap. *)
Record extents_ok (sb : diskfs_superblock) (ns : list diskfs_inode) (k : nat) : Prop := {
  eo_bounds : ∀ j n, (j < k)%nat → ns !! j = Some n → itype n = DISKFS_TYPE_FILE → in_bounds sb n = true;
  eo_apart : ∀ i j n m q, (i < j < k)%nat → ns !! i = Some n → ns !! j = Some m → covers n q = true → covers m q = true → False }.

(** What fsck looks at: the extents, and the bitmap [b]. *)
Definition consistent (sb : diskfs_superblock) (ns : list diskfs_inode) (b : Z → bool) : Prop :=
  extents_ok sb ns (Z.to_nat (inode_count sb)) ∧
  ∀ q, 0 ≤ q < 4096 → b q = used sb (take (Z.to_nat (inode_count sb)) ns) q.

(** The sums of fsck do not wrap. *)
Definition no_wrap (n : diskfs_inode) : Prop :=
  0 ≤ first_sector n ∧ 0 ≤ sector_count n ∧ first_sector n + sector_count n < 2 ^ 32.

(** ** The seen map *)

(** The metadata area and the files in bounds among [ns]. *)
Definition seen_by (sb : diskfs_superblock) (ns : list diskfs_inode) (q : Z) : bool :=
  (q <? data_start sb) || existsb (λ n, in_bounds sb n && covers n q) ns.

Lemma seen_get_eq seen f p : bitmap_is 8 4096 seen f → 0 ≤ p < 4096 → seen_get seen p = Some (f p).
Proof.
  intros Hs Hp. destruct (bitmap_word _ _ _ _ p Hs Hp) as (_ & Hm & x & Hx & _ & Hf).
  unfold seen_get. rewrite Hx. cbn. by rewrite bit_mask_shift, testbit_land_shiftl, Hf by lia.
Qed.

Lemma seen_set_eq seen f p : bitmap_is 8 4096 seen f → 0 ≤ p < 4096 →
  ∃ seen', seen_set seen p = Some seen' ∧ bitmap_is 8 4096 seen' (upd_bit f p true).
Proof.
  intros Hs Hp. destruct (bitmap_word _ _ _ _ p Hs Hp) as (Hq & Hm & x & Hx & _ & _).
  eexists. split; [unfold seen_set; rewrite Hx; cbn; by apply awrite_eq|]. rewrite bit_mask_shift. by apply bitmap_set_word.
Qed.

Lemma seen_zero : bitmap_is 8 4096 (mem_zero DISKFS_BITMAP_BYTES) (λ _, false).
Proof.
  split; [lia|]. split; [done|]. split; [by apply Forall_replicate|]. intros p Hp. unfold bit_at.
  assert (0 ≤ p / 8 < 512) by (split; [apply Z.div_pos|apply Z.div_lt_upper_bound]; lia).
  assert (aread (mem_zero DISKFS_BITMAP_BYTES) (p / 8) = Some 0) as ->; [|cbn; by rewrite Z.bits_0].
  apply aread_Some. split; [lia|]. apply lookup_replicate_2. change (Z.to_nat DISKFS_BITMAP_BYTES) with (Z.to_nat 512). lia.
Qed.

(** The running totals: how many errors, and nothing reported without one. *)
Definition tally (errors : Z) (report : list Z) (clean : Prop) : Prop :=
  (errors = 0 ↔ clean) ∧ (errors = 0 → report = []).

(** One file: its sectors are marked, and each one already marked is an error. *)
Lemma fsck_extent_wp s f first count size seen errors report C (Q : list Z * Z * list Z → fs D → Prop) :
  bitmap_is 8 4096 seen f → 0 ≤ first → 0 ≤ count → first + count ≤ 4096 → 0 ≤ errors → errors + count < 2 ^ 32 →
  tally errors report C →
  (∀ seen' errors' report', bitmap_is 8 4096 seen' (λ q, f q || in_extent first count q) →
     0 ≤ errors' ≤ errors + count → tally errors' report' (C ∧ ∀ q, first ≤ q < first + count → f q = false) →
     Q (seen', errors', report') s) →
  wp (fsck_extent first count size (seen, errors, report)) Q s.
Proof.
  intros Hs H1 H2 H3 He Hw [HC Hr] HQ. unfold fsck_extent. wp_step.
  apply (wp_for_state _ _ _ (λ i l s', s' = s ∧ let '(seen', errors', report') := l in
    bitmap_is 8 4096 seen' (λ q, f q || in_extent first i q) ∧ 0 ≤ errors' ≤ errors + i ∧
    tally errors' report' (C ∧ ∀ q, first ≤ q < first + i → f q = false))); [lia| | |].
  - split_and!; try done; try lia.
    + eapply bitmap_ext; [exact Hs|]. intros q _. cbn beta. destruct (in_extent first 0 q) eqn:E; [apply in_extent_spec in E; lia|].
      by rewrite orb_false_r.
    + split; [|done]. rewrite HC. split; [|tauto]. intros Hc. split; [done|]. lia.
  - intros i [[seen' errors'] report'] s' Hi (-> & Hs' & He' & HC' & Hr'). u32_simp.
    wp_step. eapply wp_lift; [apply (seen_get_eq _ _ _ Hs'); lia|].
    destruct (seen_set_eq _ _ (first + i) Hs') as (seen2 & E2 & Hs2); [lia|]. wp_step. eapply wp_lift; [exact E2|].
    assert (Hfi : (f (first + i) || in_extent first i (first + i)) = f (first + i)).
    { destruct (in_extent first i (first + i)) eqn:E; [apply in_extent_spec in E; lia|]. by rewrite orb_false_r. }
    rewrite Hfi. wp_step. split; [done|].
    assert (Hs3 : bitmap_is 8 4096 seen2 (λ q, f q || in_extent first (i + 1) q)).
    { eapply bitmap_ext; [exact Hs2|]. intros q _. unfold upd_bit, in_extent.
      destruct (Z.eqb_spec q (first + i)), (Z.leb_spec first q), (Z.ltb_spec q (first + i)), (Z.ltb_spec q (first + (i + 1))); try lia;
        cbn; by rewrite ?orb_true_r, ?orb_false_r. }
    destruct (f (first + i)) eqn:Ef.
    + split_and!; try done; try lia. split; [|lia].
      split; [lia|]. intros [_ Hall]. rewrite Hall in Ef by lia. done.
    + split_and!; try done; try lia. split; [|done]. rewrite HC'. split; intros [Hc Hall]; (split; [done|]); intros q Hq.
      * destruct (Z.eq_dec q (first + i)) as [->|]; [done|apply Hall; lia].
      * apply Hall. lia.
  - intros [[seen' errors'] report'] s' (-> & Hs' & He' & HT). wp_step. by apply HQ.
Qed.

(** ** The inodes *)

Lemma seen_by_S sb ns k n q : ns !! k = Some n →
  seen_by sb (take (S k) ns) q = seen_by sb (take k ns) q || in_bounds sb n && covers n q.
Proof.
  intros Hn. unfold seen_by. rewrite (take_S_r _ _ n Hn), existsb_app. cbn. by rewrite orb_false_r, orb_assoc.
Qed.

Lemma extents_skip sb ns k n : ns !! k = Some n → itype n ≠ DISKFS_TYPE_FILE →
  extents_ok sb ns (S k) ↔ extents_ok sb ns k.
Proof.
  intros Hn Ht. split; intros [B A]; split.
  - intros j m Hj. apply B. lia.
  - intros i j m1 m2 q Hij. apply (A i j m1 m2 q). lia.
  - intros j m Hj Hm T. destruct (decide (j = k)) as [->|]; [congruence|]. apply (B j m); [lia|done|done].
  - intros i j m1 m2 q Hij Hm1 Hm2 C1 C2. destruct (decide (j = k)) as [->|]; [|apply (A i j m1 m2 q); [lia|done..]].
    rewrite Hn in Hm2. injection Hm2 as <-. unfold covers in C2. by rewrite (proj2 (Z.eqb_neq _ _) Ht) in C2.
Qed.

Lemma extents_bad sb ns k n : ns !! k = Some n → itype n = DISKFS_TYPE_FILE → in_bounds sb n = false → ¬ extents_ok sb ns (S k).
Proof. intros Hn Ht Hb [B _]. rewrite (B k n) in Hb by (done || lia). done. Qed.

Lemma seen_by_covers sb ns j n q : ns !! j = Some n → in_bounds sb n = true → covers n q = true → seen_by sb ns q = true.
Proof.
  intros Hj Hb Hc. unfold seen_by. apply orb_true_iff. right. apply existsb_exists. exists n. rewrite Hb, Hc. split; [|done].
  apply list_elem_of_In, list_elem_of_lookup. by exists j.
Qed.

Lemma extents_add sb ns k n : ns !! k = Some n → itype n = DISKFS_TYPE_FILE → in_bounds sb n = true →
  extents_ok sb ns (S k) ↔ extents_ok sb ns k ∧
    ∀ q, first_sector n ≤ q < first_sector n + sector_count n → seen_by sb (take k ns) q = false.
Proof.
  intros Hn Ht Hb. assert (Hcov : ∀ q, covers n q = true ↔ first_sector n ≤ q < first_sector n + sector_count n).
  { intros q. unfold covers. rewrite Ht. cbn. apply in_extent_spec. }
  split.
  - intros [B A]. split; [split|].
    + intros j m Hj. apply B. lia.
    + intros i j m1 m2 q Hij. apply (A i j m1 m2 q). lia.
    + intros q Hq. apply not_true_is_false. unfold seen_by. rewrite orb_true_iff, existsb_exists. intros [Hlt|(m & Hm & Hc)].
      * unfold in_bounds in Hb. bool_to_prop. lia.
      * apply list_elem_of_In, list_elem_of_lookup in Hm as [j Hj]. apply lookup_take_Some in Hj as [Hj Hjk].
        apply andb_true_iff in Hc as [_ Hc]. apply (A j k m n q); [lia|done|done|done|by apply Hcov].
  - intros [[B A] Hno]. split.
    + intros j m Hj Hm T. destruct (decide (j = k)) as [->|]; [congruence|]. apply (B j m); [lia|done|done].
    + intros i j m1 m2 q Hij Hm1 Hm2 C1 C2. destruct (decide (j = k)) as [->|]; [|apply (A i j m1 m2 q); [lia|done..]].
      rewrite Hn in Hm2. injection Hm2 as <-. specialize (Hno q (proj1 (Hcov q) C2)).
      rewrite (seen_by_covers sb (take k ns) i m1 q) in Hno; [done| |apply (B i m1)|done]; try (done || lia).
      * apply lookup_take_Some. split; [done|lia].
      * unfold covers in C1. by bool_to_prop.
Qed.

(** What fsck relies on: the array sizes and sums that do not wrap. *)
Record checkable s (b : Z → bool) : Prop := {
  ck_total : total_sectors (superblock s) = 4096;
  ck_count : 0 ≤ inode_count (superblock s) ≤ 64;
  ck_data : 0 ≤ data_start (superblock s) ≤ 4096;
  ck_len : length (inodes s) = 64%nat;
  ck_wrap : ∀ j n, inodes s !! j = Some n → itype n = DISKFS_TYPE_FILE → no_wrap n;
  ck_bits : bitmap_is 8 4096 (bitmap s) b }.

Lemma fsck_inodes_wp s b size seen (Q : list Z * Z * list Z → fs D → Prop) : checkable s b →
  let sb := superblock s in let k := Z.to_nat (inode_count sb) in
  bitmap_is 8 4096 seen (seen_by sb []) →
  (∀ seen' errors' report', bitmap_is 8 4096 seen' (seen_by sb (take k (inodes s))) → 0 ≤ errors' ≤ 4096 * 64 →
     tally errors' report' (extents_ok sb (inodes s) k) → Q (seen', errors', report') s) →
  wp (fsck_inodes size (seen, 0, [])) Q s.
Proof.
  intros [Ht Hc Hd Hl Hw _] sb k Hs HQ. unfold fsck_inodes. do 2 wp_step. fold sb in Ht, Hc, Hd |- *. wp_step.
  apply (wp_for_state _ _ _ (λ i l s', s' = s ∧ let '(seen', errors', report') := l in
    bitmap_is 8 4096 seen' (seen_by sb (take (Z.to_nat i) (inodes s))) ∧ 0 ≤ errors' ≤ 4096 * i ∧
    tally errors' report' (extents_ok sb (inodes s) (Z.to_nat i)))); [lia| | |].
  - split_and!; try done; try lia. split; [|done]. split; [|done]. intros _. split; lia.
  - intros i [[seen' errors'] report'] s' Hi (-> & Hs' & He' & HT).
    destruct (lookup_lt_is_Some_2 (inodes s) (Z.to_nat i)) as [n Hn]; [lia|].
    assert (Ei : Z.to_nat (i + 1) = S (Z.to_nat i)) by lia.
    wp_step. rewrite <- (Z2Nat.id i) by lia. eapply wp_get_inode; [exact Hn|]. rewrite Z2Nat.id by lia. rewrite Ei.
    destruct (Z.eqb_spec (itype n) DISKFS_TYPE_FILE) as [Hf|Hf].
    + destruct (Hw _ n Hn Hf) as (W1 & W2 & W3). rewrite (u32_small (first_sector n + sector_count n)) by (unfold is_u32; lia). rewrite Ht.
      assert (Eb : (first_sector n <? data_start sb) || (4096 <? first_sector n + sector_count n) = negb (in_bounds sb n)).
      { unfold in_bounds. by rewrite negb_andb, <- !Z.ltb_antisym. }
      rewrite Eb. destruct (in_bounds sb n) eqn:Hb; cbn [negb].
      * assert (data_start sb ≤ first_sector n ∧ first_sector n + sector_count n ≤ 4096) as [B1 B2]
          by (unfold in_bounds in Hb; bool_to_prop; lia).
        wp_step. eapply fsck_extent_wp; [exact Hs'|lia|lia|lia|lia|lia|exact HT|].
        intros seen2 errors2 report2 Hs2 He2 HT2. wp_step. split_and!; try done; try lia.
        -- eapply bitmap_ext; [exact Hs2|]. intros q _. cbn beta. rewrite (seen_by_S _ _ _ n q Hn), Hb. unfold covers. by rewrite Hf.
        -- unfold tally. by rewrite (extents_add sb (inodes s) (Z.to_nat i) n Hn Hf Hb).
      * wp_step. rewrite u32_small by (unfold is_u32; lia). split_and!; try done; try lia.
        -- eapply bitmap_ext; [exact Hs'|]. intros q _. rewrite (seen_by_S _ _ _ n q Hn), Hb. by rewrite orb_false_r.
        -- split; [|lia]. split; [lia|]. intros He. by destruct (extents_bad sb (inodes s) (Z.to_nat i) n Hn Hf Hb).
    + wp_step. split_and!; try done; try lia.
      * eapply bitmap_ext; [exact Hs'|]. intros q _. rewrite (seen_by_S _ _ _ n q Hn). unfold covers.
        by rewrite (proj2 (Z.eqb_neq _ _) Hf), andb_false_r, orb_false_r.
      * unfold tally. by rewrite (extents_skip sb (inodes s) (Z.to_nat i) n Hn Hf).
  - intros [[seen' errors'] report'] s' (-> & Hs' & He' & HT). wp_step. apply HQ; [done|lia|done].
Qed.

(** ** The whole check *)

Lemma seen_by_used sb ns k q : extents_ok sb ns k → seen_by sb (take k ns) q = used sb (take k ns) q.
Proof.
  intros [B _]. unfold seen_by, used. f_equal. apply eq_true_iff_eq. rewrite !existsb_exists.
  split; intros (n & Hn & Hc); exists n; (split; [done|]).
  - by apply andb_true_iff in Hc as [_ ?].
  - rewrite Hc, andb_true_r. apply list_elem_of_In, list_elem_of_lookup in Hn as [j Hj]. apply lookup_take_Some in Hj as [Hj Hlt].
    apply (B j n); [done|done|]. unfold covers in Hc. by bool_to_prop.
Qed.

Lemma fsck_wp s b size : checkable s b → available s = true →
  wp (diskfs_fsck size) (λ r s', s' = s ∧ (fst r = 0 ↔ consistent (superblock s) (inodes s) b) ∧
    (fst r = 0 → snd r = append_report [] size (line "diskfs fsck: clean"))) s.
Proof.
  intros Hck Hav. pose proof Hck as [Ht Hc Hd Hl Hw Hb]. unfold diskfs_fsck. do 2 wp_step. rewrite Hav. cbn [negb]. do 2 wp_step.
  set (sb := superblock s) in *. wp_step.
  apply (wp_for_state _ _ _ (λ i seen s', s' = s ∧ bitmap_is 8 4096 seen (λ q, (0 <=? q) && (q <? i)))); [lia| | |].
  { split; [done|]. eapply bitmap_ext; [exact seen_zero|]. intros q Hq. cbn beta. destruct (Z.leb_spec 0 q), (Z.ltb_spec q 0); try lia; done. }
  { intros i seen s' Hi [-> Hs]. destruct (seen_set_eq _ _ i Hs) as (seen2 & E2 & Hs2); [lia|]. wp_step. eapply wp_lift; [exact E2|].
    wp_step. split; [done|]. eapply bitmap_ext; [exact Hs2|]. intros q Hq. unfold upd_bit.
    destruct (Z.eqb_spec q i), (Z.leb_spec 0 q), (Z.ltb_spec q i), (Z.ltb_spec q (i + 1)); try lia; done. }
  intros seen s' [-> Hs]. wp_step. apply (fsck_inodes_wp s b); [done| |].
  { eapply bitmap_ext; [exact Hs|]. intros q Hq. unfold seen_by. cbn. rewrite orb_false_r. by rewrite (proj2 (Z.leb_le 0 q)) by lia. }
  intros seen2 errors report Hs2 He [HT Hr]. fold sb in Hs2, HT. set (k := Z.to_nat (inode_count sb)) in *. rewrite Ht. wp_step.
  apply (wp_for_exit _ _ _ (λ i s', s' = s ∧ ∀ q, 0 ≤ q < i → b q = seen_by sb (take k (inodes s)) q)); [lia|split; [done|lia]| |].
  - intros q s' Hq [-> Hall]. wp_step. eapply wp_lift; [by apply (seen_get_eq _ _ _ Hs2)|]. wp_step. apply (bitmap_get_wp s b Hb); [lia|].
    wp_step. destruct (eqb_spec (b q) (seen_by sb (take k (inodes s)) q)) as [E|E].
    + split; [done|]. intros q' Hq'. destruct (Z.eq_dec q' q) as [->|]; [done|apply Hall; lia].
    + wp_step. rewrite u32_small by (unfold is_u32; lia). cbn. split_and!; try done; [|lia]. split; [lia|].
      intros [Hx Hu]. destruct E. rewrite Hu by lia. fold k. symmetry. by apply seen_by_used.
  - intros s' [-> Hall]. wp_step. cbn. split_and!; try done.
    + rewrite HT. split; [|by intros [? _]]. intros Hx. split; [done|]. intros q Hq. rewrite Hall by done. by apply seen_by_used.
    + intros E. rewrite E. cbn. by rewrite (Hr E).
Qed.

(** ** The invariant of the operations is what fsck checks *)

Lemma meta_checkable s : fs_meta s → checkable s (used (superblock s) (inodes s)).
Proof.
  intros [G L _ O _ B]. split; try done; try apply G; try (pose proof (geo_count _ G); pose proof (geo_bitmap _ G); pose proof (geo_data _ G); lia).
  intros j n Hn T. destruct (O j n Hn) as [Hok _]; [by rewrite T|]. destruct (io_extent _ _ Hok T) as (E1 & E2 & E3 & E4).
  destruct (sectors_for_size_range _ E4) as (_ & ? & _). pose proof (geo_bitmap _ G). unfold no_wrap. lia.
Qed.

Lemma meta_consistent s : fs_meta s → consistent (superblock s) (inodes s) (used (superblock s) (inodes s)).
Proof.
  intros [G L _ O Dj _]. split; [split|].
  - intros j n _ Hn T. destruct (O j n Hn) as [Hok _]; [by rewrite T|]. destruct (io_extent _ _ Hok T) as (E1 & E2 & _).
    unfold in_bounds. apply andb_true_iff. split; apply Z.leb_le; lia.
  - intros i j n m q Hij Hn Hm C1 C2. assert (i = j) by (by eapply Dj). lia.
  - intros q _. unfold used. f_equal. apply eq_true_iff_eq. rewrite !existsb_exists.
    split; intros (n & Hin & Hc); exists n; (split; [|done]); apply list_elem_of_In; apply list_elem_of_In, list_elem_of_lookup in Hin as [j Hj];
      apply list_elem_of_lookup; exists j; [|by apply lookup_take_Some in Hj as [? _]].
    apply lookup_take_Some. split; [done|]. destruct (O j n Hj) as [_ ?]; [|lia]. unfold covers in Hc. by destruct (itype n).
Qed.
End fsck.
