(* ===== verification/DiskfsProps.v ===== *)
(** * Properties of the file system

    What the operations of kernel/fs/diskfs/diskfs.c promise to the kernel and
    the user programs, over any block device that keeps its contract, with a
    small formatted disk on which they are applied. *)

From Stdlib Require Import ZArith Lia Bool String.
From stdpp Require Import base numbers list list_numbers strings gmap.
From S2P Require Import Prelude Bitmap Runtime DiskCache Diskfs DiskfsAlloc DiskfsInv DiskfsPath DiskfsData DiskfsOps DiskfsFiles DiskfsChange DiskfsFsck.

(** ** Allocation *)

Section allocation.
Context {D : Type} `{BlockDevice D}.

(** alloc_contiguous is first fit and complete: where a run of that many
    free sectors exists in the data area it returns the lowest one and marks
    exactly its sectors as used; otherwise it fails and changes nothing. *)
Theorem alloc_contiguous_first_fit (s : fs D) f sectors : bitmap_is 8 4096 (bitmap s) f →
  total_sectors (superblock s) = 4096 → 0 ≤ data_start (superblock s) ≤ 4096 → 1 ≤ sectors < 2 ^ 32 →
  (∃ first bm, alloc_contiguous sectors s = Some (Some first, set_bitmap bm s) ∧
     data_start (superblock s) ≤ first ∧ first + sectors ≤ 4096 ∧
     (∀ q, first ≤ q < first + sectors → f q = false) ∧
     (∀ a, data_start (superblock s) ≤ a < first → ∃ q, a ≤ q < a + sectors ∧ f q = true) ∧
     bitmap_is 8 4096 bm (λ q, f q || in_extent first sectors q)) ∨
  (alloc_contiguous sectors s = Some (None, s) ∧
     ∀ a, data_start (superblock s) ≤ a → a + sectors ≤ 4096 → ∃ q, a ≤ q < a + sectors ∧ f q = true).
Proof.
  intros Hb Ht Hd Hs.
  destruct (alloc_contiguous_wp s f sectors (λ r s',
    match r with
    | Some first => ∃ bm, s' = set_bitmap bm s ∧ data_start (superblock s) ≤ first ∧ first + sectors ≤ 4096 ∧
        (∀ q, first ≤ q < first + sectors → f q = false) ∧
        no_run f (data_start (superblock s)) sectors (first + sectors - 1) ∧ bitmap_is 8 4096 bm (λ q, f q || in_extent first sectors q)
    | None => s' = s ∧ no_run f (data_start (superblock s)) sectors 4096
    end) Hb Ht Hd Hs) as ([first|] & s' & E & HQ).
  - intros first bm ? ? ? ? ?. by exists bm.
  - done.
  - destruct HQ as (bm & -> & H1 & H2 & Hf & Hno & Hbm). left. exists first, bm. split_and!; try done.
    intros a Ha. apply Hno; lia.
  - destruct HQ as [-> Hno]. right. split; [done|]. intros a H1 H2. by apply Hno.
Qed.
End allocation.

(** ** Files *)

Section properties.
Context {D : Type} `{Disk D}.
Implicit Types s : fs D.



(** C12. diskfs_delete_file removes the file its path leads to and nothing else. On a
    consistent file system in which no two entries of a directory have the same name,
    and for a path that starts with a slash or has at most 62 characters (of a longer
    relative path the code uses a part only): whatever it reports and whatever fails,
    the file system stays consistent and no inode changes but that of the file to which the path
    leads, so nothing changes when there is none. When it reports success there was such a file, the
    path is no longer found, the sectors of the file are free again and the names are
    still different. On a working device a file that is found is deleted. *)
Theorem diskfs_delete_file_spec s v str path : fs_inv s v → unique_names (inodes s) → path_holds str path →
  whole_path str path →
  ∃ ok s' v', diskfs_delete_file path s = Some (ok, s') ∧ fs_inv s' v' ∧ rest_same (names_file s path) s v s' v' ∧
    (ok = true → unique_names (inodes s') ∧ diskfs_find_file path s' = Some (-1, s') ∧
       ∃ i n, names_file s path i ∧ inodes s !! i = Some n ∧ inodes s' = <[i := zero_inode]> (inodes s) ∧
         ∀ q, covers n q = true → used (superblock s') (inodes s') q = false) ∧
    (works s → (∃ k, names_file s path k) → ok = true).
Proof.
  intros I Hu Hp Hwh. destruct (delete_file_wp s v str path I Hp) as (ok & s' & E & v' & i & I' & K & Hok & _ & Hn & Hl). destruct (Hn Hwh) as [Hnm Htie].
  exists ok, s', v'. split_and!; try done; [by apply (keeps_rest _ i)|]. intros Et. specialize (Hnm Et).
  destruct (Hok Et) as (n & Hi & T & En). assert (Hu' : unique_names (inodes s')) by (rewrite En; by apply unique_clear).
  split_and!; try done.
  - by eapply (find_gone s v str path i n zero_inode s' v').
  - exists i, n. split_and!; try done. intros q Hq. unfold used. rewrite (kp_start _ _ _ _ _ K), En.
    change (used (superblock s) (<[i := zero_inode]> (inodes s)) q = false).
    rewrite (used_insert _ _ i n zero_inode q Hi); [by rewrite Hq, andb_false_r|..].
    + intros j m Hj Hc _. by apply (me_disjoint _ _ _ (fi_meta _ _ I) j i m n q).
    + intros _. apply Z.ltb_ge. by apply (covers_data s v i n q I Hi).
Qed.

(** C20. diskfs_rename_file moves a file without touching its content. On a consistent
    file system in which no two entries of a directory have the same name, and for an
    old path that starts with a slash or has at most 62 characters (of a longer
    relative path the code uses a part only): whatever it reports and whatever fails,
    the file system stays consistent and no inode changes but that of the file to which the old path
    leads. When it reports success the old path is no longer found,
    the new one leads to the same inode with the same bytes, the names are still
    different, and nothing is overwritten, because an
    existing entry of the new name makes it fail. On a working device a file
    that is found moves to any free name of an existing directory. *)
Theorem diskfs_rename_file_spec s v str path str' path' : fs_inv s v → unique_names (inodes s) →
  path_holds str path → path_holds str' path' → whole_path str path →
  ∃ ok s' v', diskfs_rename_file path path' s = Some (ok, s') ∧ fs_inv s' v' ∧ rest_same (names_file s path) s v s' v' ∧
    (ok = true → unique_names (inodes s') ∧ diskfs_find_file path s' = Some (-1, s') ∧ (∃ par leaf, target s path' par leaf) ∧
       ∃ i n n', names_file s path i ∧ diskfs_find_file path' s' = Some (Z.of_nat i, s') ∧
         inodes s !! i = Some n ∧ inodes s' !! i = Some n' ∧ isize n' = isize n ∧
         content v' (first_sector n') (isize n') = content v (first_sector n) (isize n)) ∧
    (works s → (∃ k, names_file s path k) → (∃ par leaf, target s path' par leaf) → ok = true).
Proof.
  intros I Hu Hp Hp' Hwh.
  destruct (rename_file_wp s v str path str' path' I Hp Hp') as (ok & s' & E & v' & i & I' & K & Hok & _ & Hn & Hl). destruct (Hn Hwh) as [Hnm Htie].
  exists ok, s', v'. split_and!; try done; [by apply (keeps_rest _ i)|]. intros Et. specialize (Hnm Et).
  destruct (Hok Et) as (n & par & leaf & Hi & T & (l & El & Hpl & Hpar & Hfresh) & Hleaf & En & Hd).
  assert (Hlt : (i < length (inodes s))%nat) by (by eapply lookup_lt_Some).
  destruct (cname_of_leaf (renamed par leaf n) leaf Hleaf eq_refl) as [_ Hcn].
  assert (Hu' : unique_names (inodes s')).
  { rewrite En. apply unique_new; [done|done|]. intros j m _ Hj Tm Pm Cm. rewrite Hcn in Cm. by eapply Hfresh. }
  split_and!; try done.
  - eapply (find_gone s v str path i n (renamed par leaf n) s' v'); try done.
    apply not_true_iff_false. rewrite matches_spec. intros (_ & Pn & Cn). apply (Hfresh i n); [done|by rewrite T|done|]. congruence.
  - by exists par, leaf, l.
  - exists i, n, (renamed par leaf n). split_and!; try done; [|by rewrite En; apply list_lookup_insert_eq|exact (same_content s v i n v' I Hi T Hd)].
    eapply find_named; [done|exact Hp'|]. exists l. rewrite En.
    destruct (walk_installed (inodes s) i n (renamed par leaf n) l par leaf) as [Hwk Hf]; try done; [by rewrite <- En|by rewrite T].
Qed.

(** diskfs_truncate_file cuts the file or pads it with zeros: it keeps its
    inode and its name, has the new size, and its content is the old content cut
    at the new size or followed by zeros. Files of up to 16384 bytes, which is
    what the buffer of the kernel holds; only want of room makes it fail on a
    working device. *)
Theorem diskfs_truncate_file_spec s v str path size i n : fs_inv s v → unique_names (inodes s) → path_holds str path →
  names_file s path i → inodes s !! i = Some n → available s = true → works s → has_parent s path →
  0 ≤ size ≤ 16384 → isize n ≤ 16384 →
  ∃ ok s' v', diskfs_truncate_file path size s = Some (ok, s') ∧ fs_inv s' v' ∧
    (ok = true → others_same i s v s' v' ∧ ∃ n', inodes s' !! i = Some n' ∧ same_entry n n' ∧ isize n' = size ∧
       content v' (first_sector n') size = truncated size (content v (first_sector n) (isize n))) ∧
    (ok = true ∨ no_room s size).
Proof.
  intros I Hu Hp Hnf Hi Hav W Hpar Hs Hsz.
  destruct (truncate_file_wp s v str path size i n I Hu Hp Hnf Hi Hav W Hpar Hs Hsz) as (ok & s' & E & v' & I' & Ho & Hl).
  exists ok, s', v'. split_and!; try done. intros Et. destruct (Ho Et) as (Hoth & n' & En & Hrest). split; [done|].
  exists n'. split; [|done]. rewrite En. apply list_lookup_insert_eq. by eapply lookup_lt_Some.
Qed.

(** C21. diskfs_fsck decides consistency: whatever the inodes and the bitmap hold
    (as long as the sums of the extents fit in 32 bits) it returns, changes
    nothing, and counts zero errors exactly when every file lies in the data area,
    no two files share a sector, and the bitmap marks the metadata area and the
    files and nothing else; its report then says so. *)
Theorem diskfs_fsck_decides s b size : checkable s b → available s = true →
  ∃ errors report, diskfs_fsck size s = Some ((errors, report), s) ∧
    (errors = 0 ↔ consistent (superblock s) (inodes s) b) ∧
    (errors = 0 → report = append_report [] size (line "diskfs fsck: clean")).
Proof.
  intros Hc Hav. destruct (fsck_wp s b size Hc Hav) as ([errors report] & s' & E & -> & H1 & H2). by exists errors, report.
Qed.

(** C22. fsck finds nothing after the operations: whenever diskfs_write_file,
    diskfs_delete_file or diskfs_rename_file returns on a consistent file system
    that is mounted, successful or not, fsck of the result counts zero errors. *)
Theorem diskfs_operations_pass_fsck s v str path str' path' buffer size : fs_inv s v → available s = true →
  path_holds str path → path_holds str' path' → 0 ≤ size ≤ DISKFS_MAX_FILE_SIZE → size ≤ Z.of_nat (length buffer) →
  ∀ op ok s' rsize, op ∈ [diskfs_write_file path buffer size; diskfs_delete_file path; diskfs_rename_file path path'] →
  op s = Some (ok, s') → ∃ report, diskfs_fsck rsize s' = Some ((0, report), s').
Proof.
  intros I Hav Hp Hp' Hs Hb op ok s' rsize Hop E.
  assert (Hclean : ∀ v' i, fs_inv s' v' → keeps i s v s' v' → ∃ report, diskfs_fsck rsize s' = Some ((0, report), s')).
  { intros v' i I' K. pose proof (fi_meta _ _ I') as Hm.
    destruct (fsck_wp s' _ rsize (meta_checkable s' Hm)) as ([errors report] & s2 & Ef & -> & H1 & _); [by rewrite (kp_available _ _ _ _ _ K)|].
    exists report. cbn in H1. by rewrite Ef, (proj2 H1 (meta_consistent s' Hm)). }
  apply elem_of_cons in Hop as [->|Hop]; [|apply elem_of_cons in Hop as [->|Hop]; [|apply list_elem_of_singleton in Hop as ->]].
  - destruct (wp_run _ _ _ _ _ E (write_file_wp s v str path buffer size I Hp Hs Hb)) as (v' & i & I' & K & _). by eapply Hclean.
  - destruct (wp_run _ _ _ _ _ E (delete_file_wp s v str path I Hp)) as (v' & i & I' & K & _). by eapply Hclean.
  - destruct (wp_run _ _ _ _ _ E (rename_file_wp s v str path str' path' I Hp Hp')) as (v' & i & I' & K & _). by eapply Hclean.
Qed.
End properties.

(** ** A formatted disk

    The layout of tools/build/mkfs.py: superblock, journal, bitmap, eight
    sectors of inodes, data from sector 11; the root, a directory "docs" and the
    file "/note" of five bytes. *)

Definition demo_inode (ty par size first count : Z) (name : string) : diskfs_inode :=
  Inode ty 0 0 size first count par (name_of_leaf (bytes_of name)) (replicate 12 0).
Definition demo_super : diskfs_superblock := Superblock DISKFS_MAGIC 4096 64 3 2 1 3 8 11 0.
Definition demo_inodes : list diskfs_inode :=
  [demo_inode 2 0 0 0 0 ""; demo_inode 2 0 0 0 0 "docs"; demo_inode 1 0 5 11 1 "note"] ++ replicate 61 zero_inode.
Definition demo_bitmap : list Z := [255; 15] ++ replicate 510 0.
Definition demo_image : ramdisk := Ramdisk (list_to_map
  [(2048, padded (superblock_bytes demo_super)); (2050, demo_bitmap);
   (2051, padded (mjoin (inode_bytes <$> take 3 demo_inodes))); (2059, padded (bytes_of "hello"))]) ∅.
Definition demo_fs : fs ramdisk := Fs (fresh_store 2048 demo_image) true demo_super demo_inodes demo_bitmap
  (replicate 64 0) (replicate 64 []) 0 (mem_zero 16384) [].
Definition demo_sectors : Z → list Z := on_disk (fresh_store 2048 demo_image).
Definition demo_path (p : string) : list Z := bytes_of p ++ [0].

(** The bits of a bitmap by evaluation. *)
Lemma bitmap_is_check bm f : (Z.of_nat (length bm) =? 512) && forallb (λ x, (0 <=? x) && (x <? 256)) bm &&
  forallb (λ p, match bit_at 8 bm p with Some b => eqb b (f p) | None => false end) (seqZ 0 4096) = true → bitmap_is 8 4096 bm f.
Proof.
  intros E. apply andb_true_iff in E as [E E3]. apply andb_true_iff in E as [E1 E2]. apply Z.eqb_eq in E1.
  rewrite forallb_forall in E2, E3. split; [lia|]. split; [lia|]. split.
  - apply Forall_forall. intros x Hx. apply list_elem_of_In in Hx. specialize (E2 x Hx). bool_to_prop. change (2 ^ 8) with 256. lia.
  - intros p Hp. assert (Hin : In p (seqZ 0 4096)) by (apply list_elem_of_In, elem_of_seqZ; lia). specialize (E3 p Hin).
    destruct (bit_at 8 bm p); [|done]. f_equal. by apply eqb_prop.
Qed.

Lemma demo_live i n : demo_inodes !! i = Some n → itype n ≠ 0 →
  i = 0%nat ∧ n = demo_inode 2 0 0 0 0 "" ∨ i = 1%nat ∧ n = demo_inode 2 0 0 0 0 "docs" ∨ i = 2%nat ∧ n = demo_inode 1 0 5 11 1 "note".
Proof.
  intros Hi Ht. destruct i as [|[|[|i]]]; [injection Hi as <-; auto|injection Hi as <-; auto|injection Hi as <-; auto|].
  change (replicate 61 zero_inode !! i = Some n) in Hi. apply lookup_replicate in Hi as [-> _]. done.
Qed.

Lemma demo_name name : bool_decide (length (bytes_of name) ≤ 30)%nat && forallb (λ c, (0 <? c) && (c <? 256)) (bytes_of name) = true →
  ∀ ty par size first count, name_ok (demo_inode ty par size first count name) ∧ cname (demo_inode ty par size first count name) = bytes_of name.
Proof.
  intros E ty par size first count. apply andb_true_iff in E as [E1 E2]. apply bool_decide_eq_true in E1.
  assert (Hc : chars (bytes_of name)).
  { apply Forall_forall. intros x Hx. rewrite forallb_forall in E2. apply list_elem_of_In in Hx. specialize (E2 x Hx). bool_to_prop. lia. }
  assert (En : name_of_leaf (bytes_of name) = bytes_of name ++ 0 :: replicate (31 - length (bytes_of name)) 0).
  { unfold name_of_leaf. rewrite take_ge by lia. f_equal. by replace (32 - length (bytes_of name))%nat with (S (31 - length (bytes_of name))) by lia. }
  split.
  - split; [cbn [iname demo_inode]; rewrite En, length_app; cbn; rewrite length_replicate; lia|]. by eexists _, _.
  - unfold cname. cbn [iname demo_inode]. rewrite En.
    assert (cstring (bytes_of name ++ 0 :: replicate (31 - length (bytes_of name)) 0) = Some (bytes_of name)) as ->; [|done].
    apply cstring_spec. eexists. split; [done|]. eapply Forall_impl; [exact Hc|]. cbn. lia.
Qed.

Lemma demo_inv : fs_inv demo_fs demo_sectors.
Proof.
  split; [exact (fresh_rep 2048 demo_image (ramdisk_ok demo_image))| |reflexivity|by repeat constructor|reflexivity].
  split; [split; cbn; lia|reflexivity|reflexivity| | |].
  - intros i n Hi Ht. destruct (demo_live i n Hi Ht) as [[-> ->]|[[-> ->]|[-> ->]]]; (split; [|cbn; lia]);
      (split; [by apply demo_name|reflexivity|cbn; lia|]); intros T; try discriminate T. cbn. unfold DISKFS_MAX_FILE_SIZE. split_and!; try lia. reflexivity.
  - intros i j n m q Hi Hj C1 C2. assert (Hl : ∀ k x, demo_inodes !! k = Some x → covers x q = true → k = 2%nat).
    { intros k x Hk Hc. destruct (demo_live k x Hk) as [[-> ->]|[[-> ->]|[-> ->]]]; [|discriminate Hc|discriminate Hc|done].
      intros E. unfold covers in Hc. by rewrite E in Hc. }
    by rewrite (Hl i n Hi C1), (Hl j m Hj C2).
  - apply bitmap_is_check. vm_compute. reflexivity.
Qed.

Lemma demo_unique : unique_names demo_inodes.
Proof.
  intros i j n m Hi Hj T1 T2 _ Hc.
  destruct (demo_live i n Hi T1) as [[-> ->]|[[-> ->]|[-> ->]]], (demo_live j m Hj T2) as [[-> ->]|[[-> ->]|[-> ->]]]; (reflexivity || discriminate Hc).
Qed.

Lemma demo_path_holds p : forallb (λ c, (0 <? c) && (c <? 256)) (bytes_of p) = true → path_holds (bytes_of p) (demo_path p).
Proof.
  intros E. split; [|by exists []]. apply Forall_forall. intros x Hx. rewrite forallb_forall in E. apply list_elem_of_In in Hx.
  specialize (E x Hx). bool_to_prop. lia.
Qed.

Definition demo_used : Z → bool := used demo_super demo_inodes.

Lemma demo_room size : 1 ≤ sectors_for_size size ≤ 100 → ¬ no_room demo_fs size.
Proof.
  intros Hs [Hf|Hi]; [|apply (Hi 3%nat zero_inode); [lia|reflexivity|reflexivity]]. destruct (Hf 12) as (q & Hq & Hu); [cbn; lia|lia|].
  cbn [superblock inodes demo_fs] in Hu. unfold used in Hu. apply orb_true_iff in Hu as [Hlt|Hex]; [cbn in Hlt; bool_to_prop; lia|].
  apply existsb_exists in Hex as (n & Hn & Hc). apply list_elem_of_In, list_elem_of_lookup in Hn as [j Hj].
  destruct (demo_live j n Hj) as [[-> ->]|[[-> ->]|[-> ->]]]; [|discriminate Hc|discriminate Hc|].
  - intros E. unfold covers in Hc. by rewrite E in Hc.
  - unfold covers in Hc. cbn in Hc. apply in_extent_spec in Hc. cbn in Hc. lia.
Qed.

Lemma demo_has_parent : has_parent demo_fs (demo_path "/docs/a.txt").
Proof. exists [bytes_of "docs"; bytes_of "a.txt"], 1, (bytes_of "a.txt"). split; [vm_compute; reflexivity|]. split; [vm_compute; reflexivity|lia]. Qed.

Lemma demo_note : names_file demo_fs (demo_path "/note") 2.
Proof. exists [bytes_of "note"]. split; [vm_compute; reflexivity|]. split; vm_compute; reflexivity. Qed.

Lemma demo_clash_free : clash_free demo_fs (demo_path "/docs/a.txt").
Proof.
  intros l par leaf El Hpl j m Hj Ht Hp _. destruct (demo_has_parent) as (l' & par' & leaf' & El' & Hpl' & _).
  assert (components (demo_path "/docs/a.txt") = Some [bytes_of "docs"; bytes_of "a.txt"]) as E2 by (vm_compute; reflexivity).
  rewrite E2 in El. injection El as <-. vm_compute in Hpl. injection Hpl as <- _.
  destruct (demo_live j m Hj Ht) as [[-> ->]|[[-> ->]|[-> ->]]]; discriminate Hp.
Qed.

Lemma alloc_contiguous_witness :
  (∃ first bm, alloc_contiguous 4 demo_fs = Some (Some first, set_bitmap bm demo_fs) ∧ (∀ q, first ≤ q < first + 4 → demo_used q = false)) ∨
  alloc_contiguous 4 demo_fs = Some (None, demo_fs).
Proof.
  destruct (alloc_contiguous_first_fit demo_fs demo_used 4 (me_bits _ _ _ (fi_meta _ _ demo_inv))) as [(first & bm & E & _ & _ & Hf & _)|[E _]];
    [reflexivity|cbn; lia|lia|left; exists first, bm; exact (conj E Hf)|right; exact E].
Defined.



(** By a relative path. *)
Lemma demo_relative : names_file demo_fs (demo_path "note") 2.
Proof. exists [bytes_of "note"]. split; [vm_compute; reflexivity|]. split; vm_compute; reflexivity. Qed.

Lemma diskfs_delete_file_witness : ∃ s', diskfs_delete_file (demo_path "note") demo_fs = Some (true, s') ∧
  diskfs_find_file (demo_path "note") s' = Some (-1, s').
Proof.
  destruct (diskfs_delete_file_spec demo_fs demo_sectors (bytes_of "note") (demo_path "note") demo_inv demo_unique
    (demo_path_holds "note" eq_refl) (or_intror (Nat.lt_le_incl 4 62 ltac:(lia)))) as (ok & s' & v' & E & _ & _ & Hok & Hl).
  assert (ok = true) as -> by exact (Hl eq_refl (ex_intro _ 2%nat demo_relative)). destruct (Hok eq_refl) as (_ & Hf & _).
  exists s'. exact (conj E Hf).
Defined.

Lemma demo_target : target demo_fs (demo_path "/docs/new") 1 (bytes_of "new").
Proof.
  exists [bytes_of "docs"; bytes_of "new"]. split; [vm_compute; reflexivity|]. split; [vm_compute; reflexivity|]. split; [lia|].
  intros j m Hj Ht Hp _. destruct (demo_live j m Hj Ht) as [[-> ->]|[[-> ->]|[-> ->]]]; discriminate Hp.
Qed.

Lemma diskfs_rename_file_witness : ∃ s', diskfs_rename_file (demo_path "/note") (demo_path "/docs/new") demo_fs = Some (true, s') ∧
  diskfs_find_file (demo_path "/docs/new") s' = Some (2, s').
Proof.
  destruct (diskfs_rename_file_spec demo_fs demo_sectors (bytes_of "/note") (demo_path "/note") (bytes_of "/docs/new") (demo_path "/docs/new")
    demo_inv demo_unique (demo_path_holds "/note" eq_refl) (demo_path_holds "/docs/new" eq_refl) (or_introl eq_refl)) as (ok & s' & v' & E & _ & _ & Hok & Hl).
  assert (ok = true) as -> by exact (Hl eq_refl (ex_intro _ 2%nat demo_note) (ex_intro _ 1 (ex_intro _ _ demo_target))).
  destruct (Hok eq_refl) as (_ & _ & _ & i & _ & _ & (l & El & Ew & _) & Hf & _).
  assert (i = 2%nat) as ->.
  { destruct demo_note as (l' & El' & Ew' & _). rewrite El in El'. injection El' as <-. lia. }
  exists s'. exact (conj E Hf).
Defined.

Lemma diskfs_truncate_file_witness : ∃ s' v' n', diskfs_truncate_file (demo_path "/note") 3 demo_fs = Some (true, s') ∧
  inodes s' !! 2%nat = Some n' ∧ content v' (first_sector n') 3 = truncated 3 (content demo_sectors 11 5).
Proof.
  destruct (diskfs_truncate_file_spec demo_fs demo_sectors (bytes_of "/note") (demo_path "/note") 3 2 (demo_inode 1 0 5 11 1 "note")
    demo_inv demo_unique (demo_path_holds "/note" eq_refl) demo_note eq_refl eq_refl eq_refl) as (ok & s' & v' & E & _ & Hok & Hl).
  - exists [bytes_of "note"], 0, (bytes_of "note"). split; [vm_compute; reflexivity|]. split; [vm_compute; reflexivity|lia].
  - lia.
  - cbn. lia.
  - destruct Hl as [->|Hn]; [|destruct (demo_room 3); [vm_compute; split; discriminate|exact Hn]].
    destruct (Hok eq_refl) as (_ & n' & Hi & _ & _ & Hc). exists s', v', n'. exact (conj E (conj Hi Hc)).
Defined.

Lemma diskfs_fsck_witness : ∃ report, diskfs_fsck 64 demo_fs = Some ((0, report), demo_fs).
Proof.
  destruct (diskfs_fsck_decides demo_fs demo_used 64 (meta_checkable demo_fs (fi_meta _ _ demo_inv)) eq_refl) as (errors & report & E & Hd & _).
  exists report. rewrite (proj2 Hd (meta_consistent demo_fs (fi_meta _ _ demo_inv))) in E. exact E.
Defined.

Lemma diskfs_operations_fsck_witness : ∃ ok s' report, diskfs_delete_file (demo_path "/note") demo_fs = Some (ok, s') ∧
  diskfs_fsck 64 s' = Some ((0, report), s').
Proof.
  destruct (delete_file_wp demo_fs demo_sectors (bytes_of "/note") (demo_path "/note") demo_inv (demo_path_holds "/note" eq_refl)) as (ok & s' & E & _).
  destruct (diskfs_operations_pass_fsck demo_fs demo_sectors (bytes_of "/note") (demo_path "/note") (bytes_of "/note") (demo_path "/note") [0] 0
    demo_inv eq_refl (demo_path_holds "/note" eq_refl) (demo_path_holds "/note" eq_refl)) with (ok := ok) (s' := s') (rsize := 64)
    (op := diskfs_delete_file (D := ramdisk) (demo_path "/note")) as [report Er];
    [unfold DISKFS_MAX_FILE_SIZE; lia|cbn; lia|right; left|exact E|]. exists ok, s', report. exact (conj E Er).
Defined.

(** A component of 31 or more characters ends the path: the write goes to a file
    with the name of the directory, next to it. *)
Example long_component_written_elsewhere :
  (λ r : bool * fs ramdisk, (r.1, (λ n, (itype n, parent n, cname n)) <$> inodes r.2 !! 3%nat)) <$>
    diskfs_write_file (demo_path "/docs/aaaaaaaaaaaaaaaaaaaaaaaaaaaaaaa") (bytes_of "hello") 5 demo_fs
  = Some (true, Some (DISKFS_TYPE_FILE, 0, bytes_of "docs")).
Proof. vm_compute. reflexivity. Qed.

(** A file written to the path of a directory gets its name, and is not found. *)
Example directory_hides_file :
  (λ r : bool * fs ramdisk, (r.1, (λ n, (itype n, parent n, cname n)) <$> inodes r.2 !! 3%nat, fst <$> diskfs_find_file (demo_path "/docs") r.2)) <$>
    diskfs_write_file (demo_path "/docs") (bytes_of "hello") 5 demo_fs
  = Some (true, Some (DISKFS_TYPE_FILE, 0, bytes_of "docs"), Some (-1)).
Proof. vm_compute. reflexivity. Qed.
