(* ===== verification/Process.v ===== *)
(** * User processes: the process table and the file descriptors

    The part of kernel/core/usermode.c that keeps the table of processes: slots and
    process numbers, the descriptors of the running process, waiting and reaping.
    Files are reached through the class [FileSource], of which the file system is an
    instance (ProcessFiles). *)

From Stdlib Require Import ZArith Lia Bool String.
From stdpp Require Import base numbers list gmap sets.
From S2P Require Import Prelude.

Definition USER_PROCESS_NAME_SIZE : Z := 32.
Definition USER_PROCESS_COUNT : Z := 8.
Definition USER_PROCESS_FD_COUNT : Z := 8.

Inductive user_process_state := USER_PROCESS_UNUSED | USER_PROCESS_RUNNING | USER_PROCESS_EXITED.

#[export] Instance user_process_state_eq : EqDecision user_process_state.
Proof. solve_decision. Defined.

Record descriptor := Descriptor { fd_open : bool; fd_file_index : Z; fd_offset : Z }.

Record user_process := UserProcess {
  pid : Z; state : user_process_state; name : list Z; entry : Z; exit_code : Z; address_space : Z; fds : list descriptor }.

Definition set_pid v (p : user_process) := UserProcess v (state p) (name p) (entry p) (exit_code p) (address_space p) (fds p).
Definition set_state v (p : user_process) := UserProcess (pid p) v (name p) (entry p) (exit_code p) (address_space p) (fds p).
Definition set_name v (p : user_process) := UserProcess (pid p) (state p) v (entry p) (exit_code p) (address_space p) (fds p).
Definition set_entry v (p : user_process) := UserProcess (pid p) (state p) (name p) v (exit_code p) (address_space p) (fds p).
Definition set_exit_code v (p : user_process) := UserProcess (pid p) (state p) (name p) (entry p) v (address_space p) (fds p).
Definition set_address_space v (p : user_process) := UserProcess (pid p) (state p) (name p) (entry p) (exit_code p) v (fds p).
Definition set_fds v (p : user_process) := UserProcess (pid p) (state p) (name p) (entry p) (exit_code p) (address_space p) v.

Record procs := Procs { next_pid : Z; processes : list user_process; current_process_index : Z }.

Definition set_next_pid v s := Procs v (processes s) (current_process_index s).
Definition set_processes v s := Procs (next_pid s) v (current_process_index s).
Definition set_current_process_index v s := Procs (next_pid s) (processes s) v.

Definition get_process (i : Z) : M procs user_process := ps ← gets processes; lift (aread ps i).
Definition put_process (i : Z) (p : user_process) : M procs unit :=
  ps ← gets processes; ps' ← lift (awrite ps i p); modify (set_processes ps').
Definition upd_process (i : Z) (f : user_process → user_process) : M procs unit := p ← get_process i; put_process i (f p).

(** [for (; i + 1 < USER_PROCESS_NAME_SIZE && src[i] != 0; i++) dst[i] = src[i]; dst[i] = 0] *)
Fixpoint copy_name_loop (fuel : nat) (i : Z) (dst src : list Z) : option (list Z) :=
  match fuel with
  | O => None
  | S fuel' =>
      if i + 1 <? USER_PROCESS_NAME_SIZE then
        c ← aread src i;
        if c =? 0 then awrite dst i 0
        else dst' ← awrite dst i c; copy_name_loop fuel' (i + 1) dst' src
      else awrite dst i 0
  end.
Definition copy_process_name (dst src : list Z) : option (list Z) := copy_name_loop 32 0 dst src.

(** The index of the current process, [None] for the null pointer. *)
Definition current_process : M procs (option Z) :=
  i ← gets current_process_index;
  mret (if (i <? 0) || (USER_PROCESS_COUNT <=? i) then None else Some i).

Definition process_state_name (state : user_process_state) : string :=
  match state with
  | USER_PROCESS_RUNNING => "running"
  | USER_PROCESS_EXITED => "exited"
  | USER_PROCESS_UNUSED => "unused"
  end%string.

Definition closed : descriptor := Descriptor false 0 0.

(** The body shared by the two loops of allocate_process. *)
Definition claim_process (i : Z) (src : list Z) (entry : Z) : M procs unit :=
  n ← gets next_pid; _ ← modify (set_next_pid (n +% 1));
  p ← get_process i;
  nm ← lift (copy_process_name (name p) src);
  _ ← put_process i (UserProcess n USER_PROCESS_RUNNING nm entry 0 0 (fds p));
  _ ← for_ 0 USER_PROCESS_FD_COUNT (λ fd,
        p ← get_process i; fs ← lift (awrite (fds p) fd closed); put_process i (set_fds fs p));
  modify (set_current_process_index i).

(** The first slot in the state [st] is claimed. *)
Definition claim_first (st : user_process_state) (src : list Z) (entry : Z) : M procs (option Z) :=
  for_exit 0 USER_PROCESS_COUNT (λ i,
    p ← get_process i;
    if bool_decide (state p = st) then _ ← claim_process i src entry; mret (Some i) else mret None).

Definition allocate_process (src : list Z) (entry : Z) : M procs (option Z) :=
  r ← claim_first USER_PROCESS_UNUSED src entry;
  match r with Some i => mret (Some i) | None => claim_first USER_PROCESS_EXITED src entry end.

(** ** The visible processes *)

Definition is_used (p : user_process) : bool := negb (bool_decide (state p = USER_PROCESS_UNUSED)).

Definition user_process_count : M procs Z :=
  r ← for_state (R := Empty_set) 0 USER_PROCESS_COUNT (λ i count,
    p ← get_process i; mret (inl (if is_used p then count +% 1 else count))) 0;
  mret (match r with inl count => count | inr x => Empty_set_rect (λ _, Z) x end).

Definition process_by_visible_index (index : Z) : M procs (option user_process) :=
  r ← for_state 0 USER_PROCESS_COUNT (λ i visible,
    p ← get_process i;
    mret (if negb (is_used p) then inl visible else if visible =? index then inr p else inl (visible +% 1))) 0;
  match r with inl _ => mret None | inr p => mret (Some p) end.

Definition user_process_pid (index : Z) : M procs Z :=
  p ← process_by_visible_index index; mret (match p with None => 0 | Some p => pid p end).
Definition user_process_name (index : Z) : M procs (list Z) :=
  p ← process_by_visible_index index; mret (match p with None => [0] | Some p => name p end).
Definition user_process_state_name (index : Z) : M procs string :=
  p ← process_by_visible_index index; mret (match p with None => ""%string | Some p => process_state_name (state p) end).
Definition user_process_exit_code (index : Z) : M procs Z :=
  p ← process_by_visible_index index; mret (match p with None => 0 | Some p => exit_code p end).

Definition user_process_wait_pid (n : Z) : M procs Z :=
  r ← for_exit 0 USER_PROCESS_COUNT (λ i,
    p ← get_process i;
    mret (if is_used p && (pid p =? n)
          then Some (if bool_decide (state p = USER_PROCESS_EXITED) then exit_code p else -2)
          else None));
  mret (match r with Some x => x | None => -1 end).

Definition reaped (p : user_process) : option user_process :=
  nm ← awrite (name p) 0 0; Some (UserProcess 0 USER_PROCESS_UNUSED nm 0 0 0 (fds p)).

Definition user_process_reap_exited : M procs Z :=
  r ← for_state (R := Empty_set) 0 USER_PROCESS_COUNT (λ i count,
    p ← get_process i;
    if bool_decide (state p = USER_PROCESS_EXITED) then
      p' ← lift (reaped p); _ ← put_process i p'; mret (inl (count +% 1))
    else mret (inl count)) 0;
  mret (match r with inl count => count | inr x => Empty_set_rect (λ _, Z) x end).

Definition user_process_current_pid : M procs Z :=
  c ← current_process;
  match c with None => mret 0 | Some i => p ← get_process i; mret (pid p) end.

(** ** Descriptors *)

(** What the descriptors use of the file system. *)
Class FileSource (F : Type) := {
  file_find : list Z → M F Z;
  file_read_index : Z → Z → list Z → Z → M F (bool * list Z * Z) }.

Section descriptors.
Context {F : Type} `{FileSource F}.

Record system := System { sprocs : procs; sfiles : F }.
Definition set_sprocs v s := System v (sfiles s).
Definition set_sfiles v s := System (sprocs s) v.

Definition on_procs {A} (m : M procs A) : M system A := zoom sprocs set_sprocs m.
Definition on_files {A} (m : M F A) : M system A := zoom sfiles set_sfiles m.

Definition put_fd (i fd : Z) (d : descriptor) : M system unit :=
  p ← on_procs (get_process i); ds ← lift (awrite (fds p) fd d); on_procs (put_process i (set_fds ds p)).

Definition user_process_fd_open (path : list Z) : M system Z :=
  c ← on_procs current_process;
  match c with
  | None => mret (-1)
  | Some i =>
      file_index ← on_files (file_find path);
      if file_index <? 0 then mret (-2)
      else
        r ← for_exit 0 USER_PROCESS_FD_COUNT (λ fd,
          p ← on_procs (get_process i);
          d ← lift (aread (fds p) fd);
          if negb (fd_open d) then _ ← put_fd i fd (Descriptor true (u32 file_index) 0); mret (Some fd)
          else mret None);
        mret (match r with Some fd => fd | None => -3 end)
  end.

(** The buffer and the result, which is negative where no byte count is returned. *)
Definition user_process_fd_read (fd : Z) (buffer : list Z) (size : Z) : M system (list Z * Z) :=
  c ← on_procs current_process;
  match c with
  | None => mret (buffer, -1)
  | Some i =>
      if USER_PROCESS_FD_COUNT <=? fd then mret (buffer, -1)
      else
        p ← on_procs (get_process i);
        d ← lift (aread (fds p) fd);
        if negb (fd_open d) then mret (buffer, -1)
        else
          r ← on_files (file_read_index (fd_file_index d) (fd_offset d) buffer size);
          let '(ok, out, bytes_read) := r in
          if negb ok then mret (out, -2)
          else
            _ ← put_fd i fd (Descriptor true (fd_file_index d) (fd_offset d +% bytes_read));
            mret (out, i32 bytes_read)
  end.

Definition user_process_fd_close (fd : Z) : M system Z :=
  c ← on_procs current_process;
  match c with
  | None => mret (-1)
  | Some i =>
      if USER_PROCESS_FD_COUNT <=? fd then mret (-1)
      else
        p ← on_procs (get_process i);
        d ← lift (aread (fds p) fd);
        if negb (fd_open d) then mret (-1)
        else _ ← put_fd i fd (Descriptor false (fd_file_index d) (fd_offset d)); mret 0
  end.
End descriptors.
Arguments system F : clear implicits.

Definition user_process_close_all : M procs unit :=
  c ← current_process;
  match c with
  | None => mret tt
  | Some i =>
      for_ 0 USER_PROCESS_FD_COUNT (λ fd,
        p ← get_process i; d ← lift (aread (fds p) fd);
        ds ← lift (awrite (fds p) fd (Descriptor false (fd_file_index d) (fd_offset d)));
        put_process i (set_fds ds p))
  end.
