(* ===== verification/ProcessProps.v ===== *)
(** * The properties of the process table and the descriptors *)

From Stdlib Require Import ZArith Lia Bool String.
From stdpp Require Import base numbers list list_numbers gmap sets.
From S2P Require Import Prelude Runtime Process.

(** ** The invariant of the table *)

Record process_ok (p : user_process) : Prop := {
  po_name : length (name p) = 32%nat;
  po_fds : length (fds p) = 8%nat }.

(** Process numbers in use differ, and the next one is larger than all of them. *)
Record procs_ok (s : procs) : Prop := {
  pk_len : length (processes s) = 8%nat;
  pk_ok : Forall process_ok (processes s);
  pk_next : is_u32 (next_pid s) ∧ 0 < next_pid s;
  pk_current : -1 ≤ current_process_index s < 8;
  pk_pids : ∀ i p, processes s !! i = Some p → is_used p = true → 0 < pid p < next_pid s;
  pk_distinct : ∀ i j p q, processes s !! i = Some p → processes s !! j = Some q → is_used p = true → is_used q = true →
    pid p = pid q → i = j }.

Lemma get_process_wp s i p (Q : user_process → procs → Prop) : 0 ≤ i → processes s !! Z.to_nat i = Some p → Q p s → wp (get_process i) Q s.
Proof. intros Hi Hp HQ. unfold get_process. do 2 wp_step. eapply wp_lift; [by apply aread_Some|done]. Qed.

Lemma put_process_wp s i p (Q : unit → procs → Prop) : 0 ≤ i < Z.of_nat (length (processes s)) →
  Q tt (set_processes (<[Z.to_nat i := p]> (processes s)) s) → wp (put_process i p) Q s.
Proof. intros Hi HQ. unfold put_process. do 3 wp_step. eapply wp_lift; [by apply awrite_eq|]. by wp_step. Qed.

Lemma process_at s i : procs_ok s → 0 ≤ i < 8 → ∃ p, processes s !! Z.to_nat i = Some p ∧ process_ok p.
Proof.
  intros Hok Hi. destruct (lookup_lt_is_Some_2 (processes s) (Z.to_nat i)) as [p Hp]; [rewrite (pk_len _ Hok); lia|].
  exists p. split; [done|]. by eapply (Forall_lookup_1 _ _ _ _ (pk_ok _ Hok)).
Qed.

(** ** Names *)

(** The copy is the string, cut to 31 characters, and its terminator. *)
Lemma copy_name_loop_ok src str fuel : ∀ i dst, cstring src = Some str → length dst = 32%nat → (i ≤ length str)%nat → (i ≤ 31)%nat → (31 < i + fuel)%nat →
  take i dst = take i str →
  ∃ nm, copy_name_loop fuel (Z.of_nat i) dst src = Some nm ∧ length nm = 32%nat ∧ cstring nm = Some (take 31 str).
Proof.
  intros i dst Hc. apply cstring_spec in Hc as (rest & -> & Hnz). revert i dst. induction fuel as [|fuel IH]; intros i dst Hd Hi Hi31 Hf Ht; [lia|].
  assert (Hend : take 31 str = take i str → ∃ nm, awrite dst (Z.of_nat i) 0 = Some nm ∧ length nm = 32%nat ∧ cstring nm = Some (take 31 str)).
  { intros E. exists (<[i := 0]> dst). split_and!; [rewrite awrite_eq by lia; by rewrite Nat2Z.id|by rewrite length_insert|].
    apply cstring_spec. exists (drop (S i) dst). rewrite E. split; [|by apply Forall_take]. rewrite <-Ht. rewrite insert_take_drop by lia. done. }
  cbn [copy_name_loop]. unfold USER_PROCESS_NAME_SIZE. destruct (Z.ltb_spec (Z.of_nat i + 1) 32).
  - destruct (decide (i = length str)) as [->|Hne].
    + assert (aread (str ++ 0 :: rest) (Z.of_nat (length str)) = Some 0) as ->.
      { apply aread_Some. rewrite Nat2Z.id. split; [lia|]. by rewrite lookup_app_r, Nat.sub_diag by lia. }
      cbn. apply Hend. by rewrite !take_ge by lia.
    + destruct (lookup_lt_is_Some_2 str i) as [c Hch]; [lia|].
      assert (aread (str ++ 0 :: rest) (Z.of_nat i) = Some c) as ->.
      { apply aread_Some. rewrite Nat2Z.id. split; [lia|]. by apply lookup_app_l_Some. }
      cbn. rewrite (proj2 (Z.eqb_neq c 0)) by (by eapply (Forall_lookup_1 _ _ _ _ Hnz)). rewrite awrite_eq, Nat2Z.id by lia. cbn.
      replace (Z.of_nat i + 1) with (Z.of_nat (S i)) by lia. apply IH; [by rewrite length_insert|lia|lia|lia|].
      rewrite (take_S_r _ _ c) by (apply list_lookup_insert_eq; lia). rewrite take_insert_ge by lia. by rewrite (take_S_r _ _ _ Hch), Ht.
  - apply Hend. by replace i with 31%nat by lia.
Qed.

Lemma copy_process_name_ok dst src str : cstring src = Some str → length dst = 32%nat →
  ∃ nm, copy_process_name dst src = Some nm ∧ length nm = 32%nat ∧ cstring nm = Some (take 31 str).
Proof. intros Hc Hd. apply (copy_name_loop_ok src str 32 0 dst); try done; lia. Qed.

(** ** Allocation *)

(** The slot [i] as allocate_process leaves it. *)
Definition claimed (s s' : procs) (i : Z) (str : list Z) (e : Z) : Prop :=
  ∃ nm, cstring nm = Some (take 31 str) ∧ length nm = 32%nat ∧
    s' = Procs (next_pid s +% 1) (<[Z.to_nat i := UserProcess (next_pid s) USER_PROCESS_RUNNING nm e 0 0 (replicate 8 closed)]> (processes s)) i.

Lemma claim_process_wp s i src str e (Q : unit → procs → Prop) : procs_ok s → 0 ≤ i < 8 → cstring src = Some str →
  (∀ s', claimed s s' i str e → Q tt s') → wp (claim_process i src e) Q s.
Proof.
  intros Hok Hi Hc HQ. destruct (process_at s i Hok Hi) as (p & Hp & [Hn Hf]). pose proof (pk_len _ Hok) as Hl.
  destruct (copy_process_name_ok (name p) src str Hc Hn) as (nm & En & Hnl & Hnc).
  unfold claim_process. do 5 wp_step. eapply get_process_wp; [lia|exact Hp|]. wp_step. eapply wp_lift; [exact En|].
  wp_step. apply put_process_wp; [cbn; lia|]. set (q ds := UserProcess (next_pid s) USER_PROCESS_RUNNING nm e 0 0 ds). wp_step.
  apply (wp_for _ _ _ (λ k s', s' = set_processes (<[Z.to_nat i := q (replicate (Z.to_nat k) closed ++ drop (Z.to_nat k) (fds p))]> (processes s)) (set_next_pid (next_pid s +% 1) s))).
  - done.
  - done.
  - intros k s' Hk ->. unfold USER_PROCESS_FD_COUNT in Hk. wp_step.
    eapply get_process_wp; [lia|cbn; apply list_lookup_insert_eq; lia|]. cbn [fds q]. wp_step.
    eapply wp_lift; [apply awrite_eq; rewrite length_app, length_replicate, length_drop; lia|].
    apply put_process_wp; [cbn; rewrite length_insert; lia|]. cbn. rewrite list_insert_insert_eq. unfold set_processes. cbn. do 2 f_equal. unfold set_fds. cbn. f_equal.
    replace (Z.to_nat (k + 1)) with (S (Z.to_nat k)) by lia. rewrite replicate_S_end, <-app_assoc.
    destruct (lookup_lt_is_Some_2 (fds p) (Z.to_nat k)) as [x Hx]; [lia|]. rewrite (drop_S _ _ _ Hx).
    rewrite insert_app_r_alt by (rewrite length_replicate; lia). by rewrite length_replicate, Nat.sub_diag.
  - intros s' ->. wp_step. apply HQ. exists nm. split_and!; [done|done|]. unfold set_processes, set_next_pid, set_current_process_index, q. cbn.
    rewrite drop_ge, app_nil_r by (unfold USER_PROCESS_FD_COUNT; lia). done.
Qed.

Lemma claimed_ok s s' i str e : procs_ok s → 0 ≤ i < 8 → next_pid s + 1 < 4294967296 → claimed s s' i str e → procs_ok s'.
Proof.
  intros Hok Hi Hn (nm & _ & Hnl & ->). pose proof (pk_len _ Hok) as Hl. destruct (pk_next _ Hok) as [Hn1 Hn2]. u32_simp.
  assert (Hcase : ∀ (j : nat) x p, <[Z.to_nat i := x]> (processes s) !! j = Some p → (j = Z.to_nat i ∧ p = x) ∨ (j ≠ Z.to_nat i ∧ processes s !! j = Some p)).
  { intros j x p Hp. apply list_lookup_insert_Some in Hp as [(-> & <- & _)|[? ?]]; [by left|right; split; [done|done]]. }
  split; cbn.
  - by rewrite length_insert.
  - apply Forall_insert; [apply Hok|]. by split.
  - unfold is_u32 in *. lia.
  - lia.
  - intros j p [[-> ->]|[_ Hp]]%Hcase Hu; [cbn; lia|]. pose proof (pk_pids _ Hok j p Hp Hu). lia.
  - intros j k p q [[-> ->]|[Hj Hp]]%Hcase [[-> ->]|[Hk Hq]]%Hcase Hup Huq E; [done| | |].
    + pose proof (pk_pids _ Hok _ _ Hq Huq) as Hlt. cbn in E. lia.
    + pose proof (pk_pids _ Hok _ _ Hp Hup) as Hlt. cbn in E. lia.
    + by eapply (pk_distinct _ Hok).
Qed.

Lemma claim_first_wp s st src str e (Q : option Z → procs → Prop) : procs_ok s → cstring src = Some str →
  (Forall (λ p, state p ≠ st) (processes s) → Q None s) →
  (∀ i p s', 0 ≤ i < 8 → processes s !! Z.to_nat i = Some p → state p = st → Forall (λ p, state p ≠ st) (take (Z.to_nat i) (processes s)) → claimed s s' i str e → Q (Some i) s') →
  wp (claim_first st src e) Q s.
Proof.
  intros Hok Hc Hnone Hsome. unfold claim_first. pose proof (pk_len _ Hok) as Hl.
  apply (wp_for_exit _ _ _ (λ i s', s' = s ∧ Forall (λ p, state p ≠ st) (take (Z.to_nat i) (processes s)))); [done|split; [done|constructor]| |].
  - intros i s' Hi [-> Hbefore]. unfold USER_PROCESS_COUNT in Hi. destruct (process_at s i Hok Hi) as (p & Hp & _). wp_step. eapply get_process_wp; [lia|exact Hp|].
    case_bool_decide as E.
    + wp_step. apply (claim_process_wp s i src str e); [done|lia|done|]. intros s' Hcl. wp_step. by eapply Hsome.
    + wp_step. split; [done|]. replace (Z.to_nat (i + 1)) with (S (Z.to_nat i)) by lia. rewrite (take_S_r _ _ _ Hp). apply Forall_app; split; [done|by apply Forall_singleton].
  - intros s' [-> Hall]. apply Hnone. by rewrite take_ge in Hall by (unfold USER_PROCESS_COUNT; lia).
Qed.

Lemma allocate_process_wp s src str e (Q : option Z → procs → Prop) : procs_ok s → cstring src = Some str →
  (Forall (λ p, state p = USER_PROCESS_RUNNING) (processes s) → Q None s) →
  (∀ i p s', 0 ≤ i < 8 → processes s !! Z.to_nat i = Some p → state p ≠ USER_PROCESS_RUNNING → claimed s s' i str e → Q (Some i) s') →
  wp (allocate_process src e) Q s.
Proof.
  intros Hok Hc Hnone Hsome. unfold allocate_process. wp_step. apply (claim_first_wp s _ src str e); [done|done| |].
  - intros H1. apply (claim_first_wp s _ src str e); [done|done| |].
    + intros H2. apply Hnone. rewrite Forall_forall in H1, H2 |- *. intros p Hp. specialize (H1 p Hp). specialize (H2 p Hp). by destruct (state p).
    + intros i p s' Hi Hp Hst _ Hcl. eapply Hsome; [done|exact Hp|by rewrite Hst|done].
  - intros i p s' Hi Hp Hst _ Hcl. wp_step. eapply Hsome; [done|exact Hp|by rewrite Hst|done].
Qed.

(** ** The visible processes *)

Definition visible (s : procs) : list user_process := filter (λ p, is_used p = true) (processes s).
Definition visible_upto (s : procs) (i : Z) : list user_process := filter (λ p, is_used p = true) (take (Z.to_nat i) (processes s)).

Lemma visible_step s i p : 0 ≤ i → processes s !! Z.to_nat i = Some p →
  visible_upto s (i + 1) = if is_used p then visible_upto s i ++ [p] else visible_upto s i.
Proof.
  intros Hi Hp. unfold visible_upto. replace (Z.to_nat (i + 1)) with (S (Z.to_nat i)) by lia. rewrite (take_S_r _ _ _ Hp), filter_app, filter_cons.
  destruct (is_used p); [rewrite decide_True by done|rewrite decide_False by done]; [done|]. cbn. by rewrite app_nil_r.
Qed.

Lemma visible_all s : procs_ok s → visible_upto s 8 = visible s.
Proof. intros Hok. unfold visible_upto, visible. rewrite take_ge; [done|]. rewrite (pk_len _ Hok). done. Qed.

Lemma visible_upto_length s i : 0 ≤ i → Z.of_nat (length (visible_upto s i)) ≤ i.
Proof.
  intros Hi. unfold visible_upto. pose proof (length_filter (λ p, is_used p = true) (take (Z.to_nat i) (processes s))) as H1. rewrite length_take in H1. lia.
Qed.

Lemma visible_prefix s i k : 0 ≤ i → (k < length (visible_upto s i))%nat → visible s !! k = visible_upto s i !! k.
Proof.
  intros Hi Hk. unfold visible. rewrite <-(take_drop (Z.to_nat i) (processes s)), filter_app. by apply lookup_app_l.
Qed.

Lemma user_process_count_wp s : procs_ok s → user_process_count s = Some (Z.of_nat (length (visible s)), s).
Proof.
  intros Hok. assert (W : wp user_process_count (λ r s', r = Z.of_nat (length (visible s)) ∧ s' = s) s).
  { unfold user_process_count. wp_step. apply (wp_for_state _ _ _ (λ i n s', s' = s ∧ n = Z.of_nat (length (visible_upto s i)))); [done|done| |].
    - intros i n s' Hi [-> ->]. unfold USER_PROCESS_COUNT in Hi. destruct (process_at s i Hok Hi) as (p & Hp & _). wp_step. eapply get_process_wp; [lia|exact Hp|]. wp_step.
      split; [done|]. rewrite (visible_step s i p) by (done || lia). pose proof (visible_upto_length s i ltac:(lia)). destruct (is_used p); [|done]. rewrite length_app. cbn. u32_simp. lia.
    - intros n s' [-> ->]. wp_step. split; [|done]. by rewrite <-visible_all. }
  destruct W as (r & s' & E & -> & ->). exact E.
Qed.

Lemma by_visible_index_wp s k : procs_ok s → 0 ≤ k → process_by_visible_index k s = Some (visible s !! Z.to_nat k, s).
Proof.
  intros Hok Hk. assert (W : wp (process_by_visible_index k) (λ r s', r = visible s !! Z.to_nat k ∧ s' = s) s).
  { unfold process_by_visible_index. wp_step.
    apply (wp_for_state _ _ _ (λ i n s', s' = s ∧ n = Z.of_nat (length (visible_upto s i)) ∧ n ≤ k)); [done|split_and!; [done|done|exact Hk]| |].
    - intros i n s' Hi (-> & -> & Hle). unfold USER_PROCESS_COUNT in Hi. destruct (process_at s i Hok Hi) as (p & Hp & _). wp_step. eapply get_process_wp; [lia|exact Hp|]. wp_step.
      pose proof (visible_step s i p ltac:(lia) Hp) as Hst. pose proof (visible_upto_length s i ltac:(lia)). destruct (is_used p); cbn [negb]; [|split_and!; [done|by rewrite Hst|done]].
      destruct (Z.eqb_spec (Z.of_nat (length (visible_upto s i))) k) as [E|E].
      + wp_step. split; [|done]. rewrite (visible_prefix s (i + 1)) by (rewrite ?Hst, ?length_app; cbn; lia). rewrite Hst, lookup_app_r by lia.
        by replace (Z.to_nat k - length (visible_upto s i))%nat with 0%nat by lia.
      + split_and!; [done|rewrite Hst, length_app; cbn; u32_simp; lia|u32_simp; lia].
    - intros n s' (-> & -> & Hle). wp_step. split; [|done]. symmetry. apply lookup_ge_None. rewrite visible_all in Hle by done. lia. }
  destruct W as (r & s' & E & -> & ->). exact E.
Qed.

(** What waiting for [n] returns. *)
Definition waited (l : list user_process) (n : Z) : Z :=
  match list_find (λ p, pid p = n) l with
  | Some (_, p) => if bool_decide (state p = USER_PROCESS_EXITED) then exit_code p else -2
  | None => -1
  end.

Lemma wait_pid_wp s n : procs_ok s → user_process_wait_pid n s = Some (waited (visible s) n, s).
Proof.
  intros Hok. assert (W : wp (user_process_wait_pid n) (λ r s', r = waited (visible s) n ∧ s' = s) s).
  { unfold user_process_wait_pid. wp_step.
    apply (wp_for_exit _ _ _ (λ i s', s' = s ∧ Forall (λ p, pid p ≠ n) (visible_upto s i))); [done|split; [done|constructor]| |].
    - intros i s' Hi [-> Hno]. unfold USER_PROCESS_COUNT in Hi. destruct (process_at s i Hok Hi) as (p & Hp & _). wp_step. eapply get_process_wp; [lia|exact Hp|]. wp_step.
      pose proof (visible_step s i p ltac:(lia) Hp) as Hst. destruct (is_used p); cbn [andb]; [|by rewrite Hst].
      destruct (Z.eqb_spec (pid p) n) as [E|E].
      + wp_step. split; [|done]. unfold waited.
        assert (list_find (λ p, pid p = n) (visible s) = Some (length (visible_upto s i), p)) as ->; [|done].
        apply list_find_Some. split_and!; [|done|].
        * rewrite (visible_prefix s (i + 1)) by (rewrite ?Hst, ?length_app; cbn; lia). rewrite Hst, lookup_app_r, Nat.sub_diag by lia. done.
        * intros j q Hq Hj. rewrite (visible_prefix s i) in Hq by lia. by apply (Forall_lookup_1 _ _ _ _ Hno Hq).
      + split; [done|]. rewrite Hst. apply Forall_app; split; [done|by apply Forall_singleton].
    - intros s' [-> Hno]. wp_step. split; [|done]. unfold waited. rewrite visible_all in Hno by done. by rewrite (proj2 (list_find_None (λ p, pid p = n) _) Hno). }
  destruct W as (r & s' & E & -> & ->). exact E.
Qed.

(** ** Reaping *)

Definition reap (p : user_process) : user_process :=
  if bool_decide (state p = USER_PROCESS_EXITED) then UserProcess 0 USER_PROCESS_UNUSED (<[0%nat := 0]> (name p)) 0 0 0 (fds p) else p.

Definition exited (l : list user_process) : list user_process := filter (λ p, state p = USER_PROCESS_EXITED) l.

Lemma reap_exited_wp s : procs_ok s →
  user_process_reap_exited s = Some (Z.of_nat (length (exited (processes s))), set_processes (reap <$> processes s) s).
Proof.
  intros Hok. pose proof (pk_len _ Hok) as Hl. set (done_to i := (reap <$> take (Z.to_nat i) (processes s)) ++ drop (Z.to_nat i) (processes s)).
  assert (W : wp user_process_reap_exited (λ r s', r = Z.of_nat (length (exited (processes s))) ∧ s' = set_processes (reap <$> processes s) s) s).
  { unfold user_process_reap_exited. wp_step.
    apply (wp_for_state _ _ _ (λ i n s', s' = set_processes (done_to i) s ∧ n = Z.of_nat (length (exited (take (Z.to_nat i) (processes s)))))); [done|by destruct s| |].
    - intros i n s' Hi [-> ->]. unfold USER_PROCESS_COUNT in Hi. destruct (process_at s i Hok Hi) as (p & Hp & [Hn _]).
      assert (Hat : done_to i !! Z.to_nat i = Some p).
      { unfold done_to. rewrite lookup_app_r by (rewrite length_fmap, length_take; lia). rewrite length_fmap, length_take, lookup_drop. by replace (Z.to_nat i + _)%nat with (Z.to_nat i) by lia. }
      assert (Hnext : done_to (i + 1) = <[Z.to_nat i := reap p]> (done_to i)).
      { unfold done_to. replace (Z.to_nat (i + 1)) with (S (Z.to_nat i)) by lia. rewrite (take_S_r _ _ _ Hp), fmap_app, <-app_assoc.
        rewrite (drop_S _ _ _ Hp). rewrite insert_app_r_alt by (rewrite length_fmap, length_take; lia). rewrite length_fmap, length_take.
        by replace (Z.to_nat i - _)%nat with 0%nat by lia. }
      assert (Hlen : length (done_to i) = 8%nat) by (unfold done_to; rewrite length_app, length_fmap, length_take, length_drop; lia).
      wp_step. eapply get_process_wp; [lia|exact Hat|]. replace (Z.to_nat (i + 1)) with (S (Z.to_nat i)) by lia. rewrite (take_S_r _ _ _ Hp). unfold exited. rewrite filter_app, filter_cons, length_app.
      pose proof (length_filter (λ p, state p = USER_PROCESS_EXITED) (take (Z.to_nat i) (processes s))) as Hfl. rewrite length_take in Hfl.
      case_bool_decide as E.
      + wp_step. eapply wp_lift; [unfold reaped; rewrite awrite_eq by lia; reflexivity|]. wp_step. apply put_process_wp; [cbn; lia|]. wp_step.
        split; [unfold set_processes; cbn; rewrite Hnext; unfold reap; by rewrite bool_decide_eq_true_2|]. rewrite decide_True by done. cbn. u32_simp. lia.
      + wp_step. split; [rewrite Hnext; unfold reap; rewrite bool_decide_eq_false_2 by done; by rewrite list_insert_id|]. rewrite decide_False by done. cbn. lia.
    - intros n s' [-> ->]. wp_step. unfold done_to, USER_PROCESS_COUNT. rewrite !take_ge, drop_ge, app_nil_r by lia. done. }
  destruct W as (r & s' & E & -> & ->). exact E.
Qed.

Lemma reap_used p : is_used (reap p) = true → reap p = p ∧ is_used p = true ∧ state p ≠ USER_PROCESS_EXITED.
Proof. unfold reap. case_bool_decide; [done|]. done. Qed.

Lemma reap_ok s : procs_ok s → procs_ok (set_processes (reap <$> processes s) s).
Proof.
  intros Hok. assert (Hk : ∀ i p, (reap <$> processes s) !! i = Some p → is_used p = true → processes s !! i = Some p).
  { intros i p. rewrite list_lookup_fmap_Some. intros (q & -> & Hq) (E & _)%reap_used. by rewrite E. }
  split; cbn; [by rewrite length_fmap; apply Hok| |apply Hok|apply Hok| |].
  - apply Forall_fmap. eapply Forall_impl; [apply Hok|]. intros p [Hn Hf]. unfold compose, reap. case_bool_decide; [|done]. split; [cbn; by rewrite length_insert|done].
  - intros i p Hp Hu. by eapply (pk_pids _ Hok i), Hu; apply Hk.
  - intros i j p q Hp Hq Hup Huq. eapply (pk_distinct _ Hok); eauto.
Qed.

Lemma reap_visible s : visible (set_processes (reap <$> processes s) s) = filter (λ p, state p ≠ USER_PROCESS_EXITED) (visible s).
Proof.
  unfold visible. cbn. induction (processes s) as [|p l IH]; [done|]. rewrite fmap_cons, !filter_cons, IH.
  assert (Hu : is_used p = negb (bool_decide (state p = USER_PROCESS_UNUSED))) by done.
  destruct (decide (state p = USER_PROCESS_EXITED)) as [E|E].
  - assert (is_used (reap p) = false) as -> by (unfold reap; by rewrite bool_decide_eq_true_2). rewrite E in Hu. cbn in Hu. rewrite Hu.
    rewrite decide_False, decide_True, filter_cons, decide_False by (done || by intros []). done.
  - assert (reap p = p) as -> by (unfold reap; by rewrite bool_decide_eq_false_2). destruct (is_used p).
    + rewrite !decide_True, filter_cons, decide_True by done. done.
    + by rewrite !decide_False by done.
Qed.

(** ** Descriptors *)

(** The contract of the files: [file_holds f i c] says that the file with the index
    [i] has the content [c]. Searching finds files; reading a file changes none, and
    a read that succeeds, as all do on a working device, returns the bytes at the
    offset. *)
Class FileSourceLaws (F : Type) `{FileSource F} := {
  file_holds : F → Z → list Z → Prop;
  file_named : F → list Z → Z → Prop;
  files_working : F → Prop;
  file_find_law f path str : (∃ i c, file_holds f i c) → cstring path = Some str → Forall is_u8 str →
    wp (file_find path) (λ r f', f' = f ∧ (r = -1 ∧ (∀ k, ¬ file_named f str k) ∨ file_named f str r ∧ ∃ c, file_holds f r c)) f;
  file_size_law f i c : file_holds f i c → 0 ≤ i < 4294967296 ∧ Z.of_nat (length c) < 2147483648;
  file_read_law f i c offset buf size : file_holds f i c → is_u32 offset → is_u32 size → size ≤ Z.of_nat (length buf) →
    let n := Z.max 0 (Z.min size (Z.of_nat (length c) - offset)) in
    wp (file_read_index i offset buf size) (λ r f',
      (∀ j c', file_holds f j c' → file_holds f' j c') ∧ length (snd (fst r)) = length buf ∧
      (fst (fst r) = true → snd r = n ∧ snd (fst r) = take (Z.to_nat n) (drop (Z.to_nat offset) c) ++ drop (Z.to_nat n) buf) ∧
      (files_working f → fst (fst r) = true ∧ files_working f')) f }.

Lemma alter_at {A} (f : A → A) (l : list A) i x : l !! i = Some x → alter f i l = <[i := f x]> l.
Proof. revert i. induction l as [|y l IH]; intros [|i] Hx; cbn in *; [done..|by injection Hx as ->|by rewrite IH]. Qed.

Section descriptors.
Context {F : Type} `{FileSourceLaws F}.
Implicit Types s : system F.

(** The descriptor [fd] of the current process. *)
Definition descriptor_is s (fd : Z) (d : descriptor) : Prop :=
  ∃ i p, current_process_index (sprocs s) = i ∧ 0 ≤ i < 8 ∧ 0 ≤ fd < 8 ∧
    processes (sprocs s) !! Z.to_nat i = Some p ∧ fds p !! Z.to_nat fd = Some d.

(** The state after the descriptor has become [d]; only it differs. *)
Definition with_descriptor s (fd : Z) (d : descriptor) : procs :=
  let i := Z.to_nat (current_process_index (sprocs s)) in
  set_processes (alter (λ p, set_fds (<[Z.to_nat fd := d]> (fds p)) p) i (processes (sprocs s))) (sprocs s).

Lemma current_wp s fd d (Q : option Z → procs → Prop) : descriptor_is s fd d →
  Q (Some (current_process_index (sprocs s))) (sprocs s) → wp current_process Q (sprocs s).
Proof.
  intros (i & p & E & Hi & _) HQ. unfold current_process. do 3 wp_step. rewrite E in HQ |- *. unfold USER_PROCESS_COUNT.
  rewrite (proj2 (Z.ltb_ge i 0)), (proj2 (Z.leb_gt 8 i)) by lia. exact HQ.
Qed.

Lemma on_procs_wp {A} (m : M procs A) s (Q : A → system F → Prop) : wp m (λ a p, Q a (set_sprocs p s)) (sprocs s) → wp (on_procs m) Q s.
Proof. intros Hw. unfold on_procs. by apply wp_zoom. Qed.

Lemma set_sprocs_id s : set_sprocs (sprocs s) s = s.
Proof. by destruct s. Qed.

(** One read: the bytes at the offset, which moves on by their number. *)
Lemma fd_read_wp s fd k o c buf size (Q : list Z * Z → system F → Prop) : procs_ok (sprocs s) → descriptor_is s fd (Descriptor true k o) → file_holds (sfiles s) k c →
  is_u32 o → is_u32 size → size ≤ Z.of_nat (length buf) →
  (∀ out f', (∀ j c', file_holds (sfiles s) j c' → file_holds f' j c') → length out = length buf → ¬ files_working (sfiles s) → Q (out, -2) (set_sfiles f' s)) →
  (∀ out f', let n := Z.max 0 (Z.min size (Z.of_nat (length c) - o)) in
     (∀ j c', file_holds (sfiles s) j c' → file_holds f' j c') → out = take (Z.to_nat n) (drop (Z.to_nat o) c) ++ drop (Z.to_nat n) buf →
     (files_working (sfiles s) → files_working f') → Q (out, n) (System (with_descriptor s fd (Descriptor true k (o +% n))) f')) →
  wp (user_process_fd_read fd buf size) Q s.
Proof.
  intros Hok Hd Hf Ho Hsz Hbl HQ1 HQ2. pose proof Hd as (i & p & Ei & Hi & Hfd & Hp & Hds). pose proof (file_size_law _ _ _ Hf) as [Hk Hc]. pose proof (pk_len _ Hok) as Hl.
  assert (Hfl : length (fds p) = 8%nat) by (apply (Forall_lookup_1 _ _ _ _ (pk_ok _ Hok) Hp)).
  unfold user_process_fd_read. wp_step. apply on_procs_wp, (current_wp s fd _ _ Hd). rewrite Ei, set_sprocs_id. unfold USER_PROCESS_FD_COUNT. rewrite (proj2 (Z.leb_gt 8 fd)) by lia.
  wp_step. apply on_procs_wp. eapply get_process_wp; [lia|exact Hp|]. rewrite set_sprocs_id. wp_step. eapply wp_lift; [apply aread_Some; split; [lia|exact Hds]|]. cbn [fd_open negb fd_file_index fd_offset].
  wp_step. unfold on_files. apply wp_zoom. eapply wp_mono; [apply (file_read_law _ _ c); done|]. intros [[ok out] n] f' (Hkeep & Hlen & Hres & Hwk). cbn [fst snd] in *. destruct ok; cbn [negb].
  - destruct (Hres eq_refl) as [-> Hout]. set (n := Z.max 0 _) in *. assert (Hn : 0 ≤ n < 2147483648) by (unfold n, is_u32 in *; lia).
    wp_step. unfold put_fd. wp_step. apply on_procs_wp. cbn [sprocs set_sfiles]. eapply get_process_wp; [lia|exact Hp|]. cbn [sprocs set_sprocs set_sfiles]. wp_step.
    eapply wp_lift; [apply awrite_eq; lia|]. apply on_procs_wp. cbn [sprocs set_sprocs set_sfiles]. apply put_process_wp; [lia|]. wp_step.
    assert (Hi32 : i32 n = n) by (unfold i32; rewrite Z.mod_small by lia; lia). rewrite Hi32.
    unfold set_sprocs. cbn. replace (set_processes _ (sprocs s)) with (with_descriptor s fd (Descriptor true k (o +% n))); [apply HQ2; [done|done|apply Hwk]|].
    unfold with_descriptor. cbn. rewrite Ei. f_equal. by rewrite (alter_at _ _ _ p).
  - wp_step. apply HQ1; [done|done|]. intros Hw%Hwk. by destruct Hw.
Qed.

(** Reads into one buffer after the other, as a program does that reads a file. *)
Fixpoint read_all (fd : Z) (bufs : list (list Z)) : M (system F) (option (list Z)) :=
  match bufs with
  | [] => mret (Some [])
  | buf :: bufs =>
      r ← user_process_fd_read fd buf (Z.of_nat (length buf));
      if snd r <? 0 then mret None
      else rest ← read_all fd bufs; mret ((take (Z.to_nat (snd r)) (fst r) ++.) <$> rest)
  end.

Lemma with_descriptor_ok s fd d : procs_ok (sprocs s) → procs_ok (with_descriptor s fd d).
Proof.
  intros Hok. unfold with_descriptor. generalize (Z.to_nat (current_process_index (sprocs s))). intros i. set (f := λ p, _).
  assert (Hk : ∀ j p, alter f i (processes (sprocs s)) !! j = Some p → ∃ q, processes (sprocs s) !! j = Some q ∧ pid q = pid p ∧ is_used q = is_used p).
  { intros j p. destruct (decide (j = i)) as [->|Hne]; [rewrite list_lookup_alter_eq|rewrite list_lookup_alter_ne by done; by exists p].
    destruct (processes (sprocs s) !! i) as [q|]; [|done]. intros [= <-]. by exists q. }
  split; cbn; [by rewrite length_alter; apply Hok| |apply Hok|apply Hok| |].
  - apply Forall_alter; [apply Hok|]. intros p Hp _. destruct (Forall_lookup_1 _ _ _ _ (pk_ok _ Hok) Hp) as [Hn Hfd]. split; [done|]. cbn. by rewrite length_insert.
  - intros j p (q & Hq & E1 & E2)%Hk Hu. rewrite <-E1. apply (pk_pids _ Hok j q Hq). by rewrite E2.
  - intros j k p q (p' & Hp & E1 & E2)%Hk (q' & Hq & E3 & E4)%Hk Hup Huq E. eapply (pk_distinct _ Hok); [exact Hp|exact Hq|congruence..].
Qed.

Lemma with_descriptor_is s fd d d' f : procs_ok (sprocs s) → descriptor_is s fd d → descriptor_is (System (with_descriptor s fd d') f) fd d'.
Proof.
  intros Hok (i & p & Ei & Hi & Hfd & Hp & Hds). exists i, (set_fds (<[Z.to_nat fd := d']> (fds p)) p). unfold with_descriptor. cbn. split_and!; try (done || lia).
  - rewrite Ei, list_lookup_alter_eq, Hp. done.
  - cbn. apply list_lookup_insert_eq. by apply lookup_lt_Some in Hds.
Qed.

Lemma take_drop_split {A} (l : list A) a b : take a l ++ take b (drop a l) = take (a + b) l.
Proof. revert a. induction l as [|x l IH]; intros [|a]; cbn; rewrite ?take_nil; [done..|by rewrite IH]. Qed.

(** Reading a file through a descriptor into any sequence of buffers yields the
    bytes of the file from the descriptor's offset on, in order and without gap or
    repetition, up to the end of the file; every read succeeds on a working device. *)
Theorem fd_read_stream s fd k o c bufs : procs_ok (sprocs s) → descriptor_is s fd (Descriptor true k o) → file_holds (sfiles s) k c →
  0 ≤ o ≤ Z.of_nat (length c) → Forall (λ buf, Z.of_nat (length buf) < 4294967296) bufs →
  wp (read_all fd bufs) (λ r s',
    (files_working (sfiles s) → r ≠ None) ∧
    ∀ bytes, r = Some bytes →
      bytes = take (length (concat bufs)) (drop (Z.to_nat o) c) ∧
      descriptor_is s' fd (Descriptor true k (o + Z.of_nat (length bytes))) ∧ file_holds (sfiles s') k c) s.
Proof.
  revert s o. induction bufs as [|buf bufs IH]; intros s o Hok Hd Hf Ho Hb; cbn [read_all].
  - wp_step. split; [done|]. intros bytes [= <-]. cbn. rewrite take_0, Z.add_0_r. done.
  - apply Forall_cons in Hb as [Hb Hbs]. pose proof (file_size_law _ _ _ Hf) as [_ Hc]. wp_step.
    apply (fd_read_wp s fd k o c); [done|done|done|unfold is_u32; lia|unfold is_u32; lia|lia| |].
    { intros out f' _ _ Hnw. cbn [snd]. change (-2 <? 0) with true. cbv iota. wp_step. split; [intros Hw; by destruct Hnw|done]. }
    intros out f' n Hkeep -> Hwk. assert (Hn : 0 ≤ n ∧ o + n ≤ Z.of_nat (length c)) by (unfold n; lia). u32_simp.
    cbn [fst snd]. rewrite (proj2 (Z.ltb_ge n 0)) by lia. wp_step.
    eapply wp_mono; [apply (IH _ (o + n)); [by apply with_descriptor_ok|by eapply with_descriptor_is|by apply Hkeep|lia|done]|].
    intros r s' [Hw Hr]. wp_step. split; [intros Hw0; specialize (Hw (Hwk Hw0)); by destruct r|]. intros bytes Eb.
    destruct r as [rest|]; [|done]. injection Eb as <-. destruct (Hr rest eq_refl) as (-> & Hd' & Hf'). cbn [concat].
    assert (Htk : take (Z.to_nat n) (take (Z.to_nat n) (drop (Z.to_nat o) c) ++ drop (Z.to_nat n) buf) = take (Z.to_nat n) (drop (Z.to_nat o) c)).
    { rewrite take_app_le by (rewrite length_take, length_drop; lia). by rewrite take_take, Nat.min_id. }
    rewrite Htk. split_and!; [| |done].
    + replace (Z.to_nat (o + n)) with (Z.to_nat o + Z.to_nat n)%nat by lia. rewrite <-drop_drop, length_app.
      destruct (decide (Z.of_nat (length buf) ≤ Z.of_nat (length c) - o)) as [Hle|Hgt].
      * replace (Z.to_nat n) with (length buf) by (unfold n; lia). apply take_drop_split.
      * rewrite (take_ge (drop (Z.to_nat o) c) (length buf + _)) by (rewrite length_drop; lia). rewrite (drop_ge (drop _ _)) by (rewrite length_drop; unfold n; lia).
        rewrite take_nil, app_nil_r, take_ge; [done|]. rewrite length_drop. unfold n. lia.
    + rewrite length_app, length_take, length_drop. replace (o + Z.of_nat _) with (o + n + Z.of_nat (length (take (length (concat bufs)) (drop (Z.to_nat (o + n)) c)))); [exact Hd'|]. lia.
Qed.

Definition open_at s (fd : Z) : bool :=
  match processes (sprocs s) !! Z.to_nat (current_process_index (sprocs s)) with
  | Some p => match fds p !! Z.to_nat fd with Some d => fd_open d | None => false end
  | None => false
  end.

(** C36. user_process_fd_open, called with any string by a process on files that are in
    order: it answers -2 exactly when the string names no file, -3 exactly when it names
    one and all eight descriptors are open, and changes nothing then; otherwise it gives
    the lowest descriptor that is not open, now at the start of the file that the string
    names, and changes nothing else. *)
Theorem fd_open_spec s path str : procs_ok (sprocs s) → 0 ≤ current_process_index (sprocs s) → cstring path = Some str → Forall is_u8 str →
  (∃ k c, file_holds (sfiles s) k c) →
  wp (user_process_fd_open path) (λ r s',
    (r = -2 ∧ s' = s ∧ ∀ k, ¬ file_named (sfiles s) str k) ∨
    (∃ k c, file_named (sfiles s) str k ∧ file_holds (sfiles s) k c ∧
      ((r = -3 ∧ s' = s ∧ ∀ fd, 0 ≤ fd < 8 → open_at s fd = true) ∨
       (0 ≤ r < 8 ∧ open_at s r = false ∧ (∀ fd, 0 ≤ fd < r → open_at s fd = true) ∧
        s' = System (with_descriptor s r (Descriptor true k 0)) (sfiles s))))) s.
Proof.
  intros Hok Hcur Hstr Hch Hex. pose proof (pk_current _ Hok) as Hc8. pose proof (pk_len _ Hok) as Hl. set (i := current_process_index (sprocs s)) in *.
  destruct (process_at (sprocs s) i Hok ltac:(lia)) as (p & Hp & [_ Hfl]).
  assert (Hds : ∀ fd, 0 ≤ fd < 8 → ∃ d, fds p !! Z.to_nat fd = Some d ∧ open_at s fd = fd_open d).
  { intros fd Hfd. destruct (lookup_lt_is_Some_2 (fds p) (Z.to_nat fd)) as [d Hd]; [lia|]. exists d. split; [done|]. unfold open_at. fold i. by rewrite Hp, Hd. }
  unfold user_process_fd_open. wp_step. apply on_procs_wp. unfold current_process. do 3 wp_step. fold i. unfold USER_PROCESS_COUNT.
  rewrite (proj2 (Z.ltb_ge i 0)), (proj2 (Z.leb_gt 8 i)) by lia. cbn [orb]. rewrite set_sprocs_id.
  wp_step. unfold on_files. apply wp_zoom. eapply wp_mono; [by apply (file_find_law _ _ str)|]. intros r f (-> & Hr). replace (set_sfiles (sfiles s) s) with s by (by destruct s).
  destruct Hr as [[-> Hnone]|(Hnm & c & Hc)]; [change (-1 <? 0) with true; cbv iota; wp_step; by left|]. pose proof (file_size_law _ _ _ Hc) as [Hr _].
  rewrite (proj2 (Z.ltb_ge r 0)) by lia. wp_step.
  apply (wp_for_exit _ _ _ (λ j s', s' = s ∧ ∀ fd, 0 ≤ fd < j → open_at s fd = true)); [done|split; [done|intros; lia]| |].
  - intros j s' Hj [-> Hbefore]. unfold USER_PROCESS_FD_COUNT in Hj. destruct (Hds j Hj) as (d & Hd & Eo). wp_step. apply on_procs_wp. eapply get_process_wp; [lia|exact Hp|].
    rewrite set_sprocs_id. wp_step. eapply wp_lift; [apply aread_Some; split; [lia|exact Hd]|]. destruct (fd_open d); cbn [negb].
    + wp_step. split; [done|]. intros fd Hfd. destruct (decide (fd = j)) as [->|]; [done|apply Hbefore; lia].
    + wp_step. unfold put_fd. wp_step. apply on_procs_wp. eapply get_process_wp; [lia|exact Hp|]. rewrite set_sprocs_id. wp_step.
      eapply wp_lift; [apply awrite_eq; lia|]. apply on_procs_wp, put_process_wp; [lia|]. wp_step. wp_step. right. exists r, c. u32_simp. split_and!; [done|done|]. right. split_and!; [lia|lia|done|done|].
      unfold set_sprocs, with_descriptor. cbn. fold i. do 2 f_equal. by rewrite (alter_at _ _ _ p Hp).
  - intros s' [-> Hall]. wp_step. right. exists r, c. split_and!; [done|done|]. left. by split_and!.
Qed.
End descriptors.

(** ** The properties of the table *)

(** allocate_process takes an unused slot, or else that of a process that has
    exited; the new process runs, is current, has the name cut to 31 characters, no
    open descriptor, and a number that no process in the table has. It fails exactly
    when eight processes are running. *)
Theorem allocate_process_spec s src str e : procs_ok s → cstring src = Some str → next_pid s + 1 < 4294967296 →
  wp (allocate_process src e) (λ r s',
    match r with
    | None => s' = s ∧ Forall (λ p, state p = USER_PROCESS_RUNNING) (processes s)
    | Some i => procs_ok s' ∧ claimed s s' i str e ∧ (∀ p, p ∈ visible s → pid p ≠ next_pid s) ∧
        ∃ p, processes s !! Z.to_nat i = Some p ∧ state p ≠ USER_PROCESS_RUNNING
    end) s.
Proof.
  intros Hok Hc Hn. apply (allocate_process_wp s src str e); [done|done|done|]. intros i p s' Hi Hp Hst Hcl.
  split_and!; [by eapply claimed_ok|done| |by exists p]. intros q [Hu [j Hj]%list_elem_of_lookup]%list_elem_of_filter E.
  pose proof (pk_pids _ Hok j q Hj Hu). lia.
Qed.

(** The numbered listing of the shell agrees with the table: the count, and for
    every index the process found there, are those of the list of the processes in
    use; waiting for a process number finds its process, and reports its exit code,
    that it still runs, or that there is none. Reaping removes exactly the exited
    processes, and counts them. *)
Theorem process_listing s : procs_ok s →
  user_process_count s = Some (Z.of_nat (length (visible s)), s) ∧
  (∀ k, 0 ≤ k → user_process_pid k s = Some (match visible s !! Z.to_nat k with Some p => pid p | None => 0 end, s)) ∧
  (∀ n, user_process_wait_pid n s = Some (waited (visible s) n, s)) ∧
  ∃ s', user_process_reap_exited s = Some (Z.of_nat (length (exited (processes s))), s') ∧ procs_ok s' ∧
    visible s' = filter (λ p, state p ≠ USER_PROCESS_EXITED) (visible s).
Proof.
  intros Hok. split_and!.
  - by apply user_process_count_wp.
  - intros k Hk. unfold user_process_pid, mbind, M_bind. by rewrite by_visible_index_wp.
  - intros n. by apply wait_pid_wp.
  - eexists. split; [by apply reap_exited_wp|]. split; [by apply reap_ok|apply reap_visible].
Qed.

(** ** A table *)

Definition free_slot : user_process := UserProcess 0 USER_PROCESS_UNUSED (replicate 32 0) 0 0 0 (replicate 8 closed).
Definition boot_procs : procs := Procs 1 (replicate 8 free_slot) (-1).

Lemma boot_procs_ok : procs_ok boot_procs.
Proof.
  assert (Hu : ∀ i p, replicate 8 free_slot !! i = Some p → is_used p = true → False) by (intros i p [-> _]%lookup_replicate; done).
  split; cbn [processes next_pid current_process_index boot_procs]; [done|by apply Forall_replicate|done|lia| |].
  - intros i p Hp Hup. by destruct (Hu i p).
  - intros i j p q Hp _ Hup. by destruct (Hu i p).
Qed.

(** A process that runs, with the file 2 open, beside one that has exited. *)
Definition running_process : user_process :=
  UserProcess 1 USER_PROCESS_RUNNING (104 :: replicate 31 0) 0x400000 0 0x180000 (Descriptor true 2 0 :: replicate 7 closed).
Definition exited_process : user_process := UserProcess 2 USER_PROCESS_EXITED (105 :: replicate 31 0) 0x400000 42 0 (replicate 8 closed).
Definition demo_procs : procs := Procs 3 (running_process :: exited_process :: replicate 6 free_slot) 0.

Lemma demo_procs_at i p : processes demo_procs !! i = Some p → is_used p = true → (i = 0%nat ∧ p = running_process) ∨ (i = 1%nat ∧ p = exited_process).
Proof.
  destruct i as [|[|i]]; [intros [= <-]; auto|intros [= <-]; auto|]. intros Hp Hu. change (replicate 6 free_slot !! i = Some p) in Hp. apply lookup_replicate in Hp as [-> _]. done.
Qed.

Lemma demo_procs_ok : procs_ok demo_procs.
Proof.
  split; [done|repeat constructor|done|done| |].
  - intros i p Hp Hu. destruct (demo_procs_at i p Hp Hu) as [[-> ->]|[-> ->]]; cbn; lia.
  - intros i j p q Hp Hq Hu Hv E. destruct (demo_procs_at i p Hp Hu) as [[-> ->]|[-> ->]], (demo_procs_at j q Hq Hv) as [[-> ->]|[-> ->]]; done.
Qed.

Lemma allocate_process_spec_witness : ∃ s', allocate_process [104; 105; 0] 0x400000 boot_procs = Some (Some 0, s') ∧ procs_ok s'.
Proof.
  destruct (allocate_process_spec boot_procs [104; 105; 0] [104; 105] 0x400000 boot_procs_ok eq_refl ltac:(done)) as (r & s' & E & HQ).
  exists s'. assert (Er : r = Some 0) by (vm_compute in E; by injection E as <-). subst r. exact (conj E (proj1 HQ)).
Defined.

Lemma process_listing_witness : user_process_count demo_procs = Some (2, demo_procs) ∧ user_process_wait_pid 2 demo_procs = Some (42, demo_procs) ∧
  user_process_wait_pid 7 demo_procs = Some (-1, demo_procs).
Proof.
  destruct (process_listing demo_procs demo_procs_ok) as (H1 & _ & H3 & _). exact (conj H1 (conj (H3 2) (H3 7))).
Defined.
