(* ===== verification/ProcessFiles.v ===== *)
(** * The file system as the source of the descriptors' files

    diskfs.c keeps the contract that usermode.c relies on; with a process on the small
    disk of DiskfsProps, on which the statements about processes and descriptors are
    applied. *)

From Stdlib Require Import ZArith Lia Bool String.
From stdpp Require Import base numbers list list_numbers strings gmap.
From S2P Require Import Prelude Bitmap Runtime DiskCache Diskfs DiskfsAlloc DiskfsInv DiskfsPath DiskfsData DiskfsOps DiskfsFiles DiskfsChange DiskfsProps Process ProcessProps.

Section files.
Context {D : Type} `{Disk D}.
Implicit Types f : fs D.

#[export] Instance diskfs_source : FileSource (fs D) := {| file_find := diskfs_find_file; file_read_index := diskfs_read_index |}.

(** The inode [n] with the number [i] is a file with the content [c]. *)
Definition diskfs_holds f (i : Z) (c : list Z) : Prop :=
  ∃ v n, fs_inv f v ∧ available f = true ∧ 0 ≤ i ∧ inodes f !! Z.to_nat i = Some n ∧ itype n = DISKFS_TYPE_FILE ∧ c = content v (first_sector n) (isize n).

Lemma stored_inv f f' v v' : fs_inv f v → stored f f' v' → fs_inv f' v'.
Proof. intros [I1 I2 I3 I4 I5] (st & -> & R & _). by split. Qed.

Lemma diskfs_size f i c : diskfs_holds f i c → 0 ≤ i < 4294967296 ∧ Z.of_nat (length c) < 2147483648.
Proof.
  intros (v & n & I & _ & Hi & Hn & Ht & ->). pose proof (me_len _ _ _ (fi_meta _ _ I)) as Hl. pose proof (lookup_lt_Some _ _ _ Hn).
  destruct (me_ok _ _ _ (fi_meta _ _ I) _ n Hn) as [Hok _]; [by rewrite Ht|]. destruct (io_extent _ _ Hok Ht) as (_ & _ & _ & Hsz).
  unfold content. rewrite length_fmap, length_seqZ. unfold DISKFS_MAX_FILE_SIZE in Hsz. lia.
Qed.

(** The string names the file with the number [i]. *)
Definition diskfs_named f (str : list Z) (i : Z) : Prop := 0 ≤ i ∧ resolves f str (Z.to_nat i).

Lemma diskfs_find f path str : (∃ i c, diskfs_holds f i c) → cstring path = Some str → Forall is_u8 str →
  wp (diskfs_find_file path) (λ r f', f' = f ∧ (r = -1 ∧ (∀ k, ¬ diskfs_named f str k) ∨ diskfs_named f str r ∧ ∃ c, diskfs_holds f r c)) f.
Proof.
  intros (i0 & c0 & v & n0 & I & Hav & _) (rest & -> & Hnz)%cstring_spec Hch.
  assert (Hp : path_holds str (str ++ 0 :: rest)).
  { split; [|by exists rest]. pose proof (proj2 (Forall_and _ _) (conj Hnz Hch)) as Hb. eapply Forall_impl; [exact Hb|]. unfold is_u8. intros x [? ?]. lia. }
  eapply wp_mono; [apply (find_resolves_wp f v str); [exact I|exact Hp]|]. intros r f' (-> & Hr). split; [done|].
  destruct Hr as [[-> Hno]|(i & n & -> & Hres & Hn & Ht)]; [left|right].
  - split; [done|]. intros k [_ Hk]. by apply (Hno (Z.to_nat k)).
  - split; [split; [lia|by rewrite Nat2Z.id]|]. eexists. exists v, n. rewrite Nat2Z.id. split_and!; try done. lia.
Qed.

Lemma diskfs_read f i c offset buf size : diskfs_holds f i c → is_u32 offset → is_u32 size → size ≤ Z.of_nat (length buf) →
  let n := Z.max 0 (Z.min size (Z.of_nat (length c) - offset)) in
  wp (diskfs_read_index i offset buf size) (λ r f',
    (∀ j c', diskfs_holds f j c' → diskfs_holds f' j c') ∧ length (snd (fst r)) = length buf ∧
    (fst (fst r) = true → snd r = n ∧ snd (fst r) = take (Z.to_nat n) (drop (Z.to_nat offset) c) ++ drop (Z.to_nat n) buf) ∧
    (works f → fst (fst r) = true ∧ works f')) f.
Proof.
  intros (v & n & I & Hav & Hi & Hn & Ht & ->) Ho Hs Hb. cbn zeta.
  assert (W : ∀ v', fs_inv f v' → wp (diskfs_read_index i offset buf size) (λ r s', stored f s' v' ∧
     (fst (fst r) = true → let len := Z.max 0 (Z.min size (isize n - offset)) in snd r = len ∧
        snd (fst r) = take (Z.to_nat len) (drop (Z.to_nat offset) (content v' (first_sector n) (isize n))) ++ drop (Z.to_nat len) buf) ∧
     (works f → fst (fst r) = true) ∧ length (snd (fst r)) = length buf) f).
  { intros v' I'. pose proof (read_index_wp f v' (Z.to_nat i) n offset buf size (fi_store _ _ I') (fi_meta _ _ I') Hav Hn Ht Ho Hs Hb) as Hw. cbn zeta in Hw. rewrite Z2Nat.id in Hw by done. exact Hw. }
  assert (Hlen : 0 ≤ isize n).
  { destruct (me_ok _ _ _ (fi_meta _ _ I) _ n Hn) as [Hok _]; [by rewrite Ht|]. destruct (io_extent _ _ Hok Ht) as (_ & _ & _ & Hsz). lia. }
  destruct (W v I) as (r & f' & E & St & Hres & Hwk & Hl). exists r, f'. split; [exact E|]. split_and!.
  - intros j c' (v' & n' & I' & Hav' & Hj & Hn' & Ht' & ->). destruct (W v' I') as (r2 & f2 & E2 & St2 & _). rewrite E in E2. injection E2 as <- <-.
    exists v', n'. pose proof (stored_inv _ _ _ _ I' St2) as I2. destruct St2 as (st & -> & _). by split_and!.
  - exact Hl.
  - intros Hok. destruct (Hres Hok) as [E1 E2]. unfold content at 1. rewrite length_fmap, length_seqZ, Z2Nat.id by lia. split; [exact E1|].
    replace (Z.of_nat (length _)) with (isize n) by (unfold content; rewrite length_fmap, length_seqZ; lia). exact E2.
  - intros Hw. split; [by apply Hwk|by eapply stored_works].
Qed.

#[export, program] Instance diskfs_source_laws : FileSourceLaws (fs D) := {| file_holds := diskfs_holds; file_named := diskfs_named; files_working := works |}.
Next Obligation. intros. by eapply diskfs_find. Qed.
Next Obligation. intros. by eapply diskfs_size. Qed.
Next Obligation. intros. by apply diskfs_read. Qed.
End files.

(** ** A process on the small disk *)

Definition demo_system : system (fs ramdisk) := System demo_procs demo_fs.

Lemma demo_system_note : file_holds (sfiles demo_system) 2 (bytes_of "hello").
Proof. exists demo_sectors, (demo_inode 1 0 5 11 1 "note"). split; [exact demo_inv|]. split_and!; done. Qed.

Lemma demo_descriptor : descriptor_is demo_system 0 (Descriptor true 2 0).
Proof. exists 0, running_process. by split_and!. Qed.

Lemma fd_read_stream_witness : ∃ s', read_all 0 [[0; 0; 0]; [0; 0; 0]; [0; 0; 0]] demo_system = Some (Some (bytes_of "hello"), s') ∧
  descriptor_is s' 0 (Descriptor true 2 5).
Proof.
  destruct (fd_read_stream demo_system 0 2 0 (bytes_of "hello") [[0; 0; 0]; [0; 0; 0]; [0; 0; 0]] demo_procs_ok demo_descriptor demo_system_note
    ltac:(clear; vm_compute; split; discriminate) ltac:(clear; repeat constructor)) as (r & s' & E & Hw & HQ).
  destruct r as [bytes|]; [|exfalso; apply Hw; [vm_compute; reflexivity|reflexivity]].
  destruct (HQ bytes eq_refl) as (Eb & Hd & _). exists s'. rewrite Eb in E, Hd. exact (conj E Hd).
Defined.

Lemma demo_note_chars : Forall is_u8 (bytes_of "/note").
Proof. by apply (bool_decide_eq_true_1 _). Qed.

Lemma fd_open_spec_witness : ∃ s', user_process_fd_open (demo_path "/note") demo_system = Some (1, s') ∧ file_named (sfiles demo_system) (bytes_of "/note") 2.
Proof.
  destruct (fd_open_spec demo_system (demo_path "/note") (bytes_of "/note") demo_procs_ok ltac:(clear; vm_compute; discriminate) eq_refl
    demo_note_chars (ex_intro _ 2 (ex_intro _ _ demo_system_note))) as (r & s' & E & Hr).
  assert (Hn : file_named (sfiles demo_system) (bytes_of "/note") 2) by (split; [lia|left; exact demo_note]).
  destruct Hr as [(_ & _ & Hno)|_]; [exfalso; exact (Hno 2 Hn)|]. exists s'. refine (conj _ Hn). assert (r = 1) as <- by (vm_compute in E; by injection E as <-). exact E.
Defined.
