(* ===== verification/Usermode.v ===== *)
(** * Running programs: the loader and the execution of kernel/core/usermode.c

    The two executable formats, and the life of a process from its pages and its
    address space to its end. The jump to user mode is assembly and is a parameter:
    the computation [usermode_enter], which runs the program until it exits. *)

From Stdlib Require Import ZArith Lia Bool String.
From stdpp Require Import base numbers list gmap sets.
From S2P Require Import Prelude Memory Bitmap Pmm Paging Process.

Definition USER_PAGE_FLAGS : Z := 0x6.
Definition USER_PROGRAM_BASE : Z := 0x00400000.
Definition USER_IMAGE_PAGES : Z := 16.
Definition USER_STACK_BASE : Z := USER_PROGRAM_BASE + USER_IMAGE_PAGES * PAGE_SIZE.

(** ** Headers

    Fields of [struct user_exec_header] (16 bytes), [struct elf32_header] (52 bytes) and
    [struct elf32_program_header] (32 bytes) as little-endian numbers in the file. *)

Definition byte_at (file : list Z) (o : Z) : option Z := aread file o.
Definition half_at (file : list Z) (o : Z) : option Z :=
  a ← byte_at file o; b ← byte_at file (o + 1); Some (a + 256 * b).
Definition word_at (file : list Z) (o : Z) : option Z :=
  a ← half_at file o; b ← half_at file (o + 2); Some (a + 65536 * b).

Definition sizeof_user_exec_header : Z := 16.
Definition sizeof_elf32_header : Z := 52.
Definition sizeof_elf32_program_header : Z := 32.

(** What paging and the file system provide. diskfs_read_file returns its buffer with
    the size of the file. *)
Class FileLoader (F : Type) := { file_load : list Z → M F (option (list Z * Z)) }.

Section usermode.
Context {P F : Type} `{PageAllocator P, FileSource F, FileLoader F}.
Context (kernel_page_directory kernel_space : Z).

Record machine := Machine { mvm : vm P; msystem : system F; load_image : list Z }.
Definition set_mvm v s := Machine v (msystem s) (load_image s).
Definition set_msystem v s := Machine (mvm s) v (load_image s).
Definition set_load_image v s := Machine (mvm s) (msystem s) v.

Definition on_vm {A} (m : M (vm P) A) : M machine A := zoom mvm set_mvm m.
Definition on_system {A} (m : M (system F) A) : M machine A := zoom msystem set_msystem m.

(** A byte of a page through its kernel address. *)
Definition put_byte (a v : Z) : M (vm P) unit :=
  m ← gets vmem; m' ← lift (store 1 m a v); modify (set_vmem m').

Context (usermode_enter : Z → Z → M machine Z).

Definition free_image_pages (image_pages : list Z) (n : Z) : M (vm P) unit :=
  for_ 0 n (λ j, p ← lift (aread image_pages j); pmm_free_page p).

(** All pages of the image, or everything given back. *)
Definition alloc_image_pages (space stack_page : Z) : M (vm P) (list Z + Z) :=
  for_state 0 USER_IMAGE_PAGES (λ i image_pages,
    p ← pmm_alloc_page;
    image_pages ← lift (awrite image_pages i p);
    if p =? 0 then
      _ ← free_image_pages image_pages i;
      _ ← paging_destroy_address_space kernel_space space;
      _ ← pmm_free_page stack_page;
      mret (inr (-22))
    else mret (inl image_pages)) (replicate (Z.to_nat USER_IMAGE_PAGES) 0).

(** The pages mapped from USER_PROGRAM_BASE on, or everything given back. *)
Definition map_image_pages (space stack_page : Z) (image_pages : list Z) : M (vm P) (option Z) :=
  for_exit 0 USER_IMAGE_PAGES (λ i,
    p ← lift (aread image_pages i);
    ok ← paging_map_page_in_space kernel_space space (USER_PROGRAM_BASE + i * PAGE_SIZE) p USER_PAGE_FLAGS;
    if negb ok then
      _ ← for_ 0 i (λ j, paging_unmap_page_in_space space (USER_PROGRAM_BASE + j * PAGE_SIZE));
      _ ← free_image_pages image_pages USER_IMAGE_PAGES;
      _ ← paging_destroy_address_space kernel_space space;
      _ ← pmm_free_page stack_page;
      mret (Some (-23))
    else mret None).

(** The loop that unmaps and frees the pages, at three places. *)
Definition release_image_pages (space : Z) (image_pages : list Z) : M (vm P) unit :=
  for_ 0 USER_IMAGE_PAGES (λ i,
    _ ← paging_unmap_page_in_space space (USER_PROGRAM_BASE + i * PAGE_SIZE);
    p ← lift (aread image_pages i); pmm_free_page p).

(** Pages and stack cleared, the image copied. *)
Definition fill_image (stack_page : Z) (image_pages image : list Z) (image_offset image_size : Z) : M (vm P) unit :=
  _ ← for_ 0 USER_IMAGE_PAGES (λ page,
        p ← lift (aread image_pages page);
        for_ 0 PAGE_SIZE (λ i, put_byte (p + i) 0));
  _ ← for_ 0 PAGE_SIZE (λ i, put_byte (stack_page + i) 0);
  for_ 0 image_size (λ i,
    p ← lift (aread image_pages (i / PAGE_SIZE));
    v ← lift (aread image (image_offset + i));
    put_byte (p + i mod PAGE_SIZE) v).

(** The process, from its registration to the end of its program. *)
Definition run_process (space : Z) (process entry : Z) : M machine Z :=
  _ ← on_system (on_procs (upd_process process (set_address_space space)));
  _ ← on_vm (paging_switch_address_space space);
  exit_code ← usermode_enter entry (USER_STACK_BASE + PAGE_SIZE);
  k ← on_vm (paging_kernel_address_space kernel_space);
  _ ← on_vm (paging_switch_address_space k);
  _ ← on_system (on_procs (upd_process process (set_exit_code exit_code)));
  _ ← on_system (on_procs (upd_process process (set_state USER_PROCESS_EXITED)));
  _ ← on_system (on_procs user_process_close_all);
  mret exit_code.

Definition run_loaded_image (pname : list Z) (entry : Z) (image : list Z) (image_offset image_size : Z) : M machine Z :=
  if (entry <? USER_PROGRAM_BASE) || (USER_PROGRAM_BASE + USER_IMAGE_PAGES * PAGE_SIZE <=? entry) ||
     (USER_IMAGE_PAGES * PAGE_SIZE <? image_size)
  then mret (-21)
  else
    stack_page ← on_vm pmm_alloc_page;
    space ← on_vm (paging_create_address_space kernel_page_directory);
    if (stack_page =? 0) || (space =? 0) then
      _ ← when (negb (space =? 0)) (on_vm (paging_destroy_address_space kernel_space space));
      _ ← when (negb (stack_page =? 0)) (on_vm (pmm_free_page stack_page));
      mret (-22)
    else
      pages ← on_vm (alloc_image_pages space stack_page);
      match pages with
      | inr code => mret code
      | inl image_pages =>
          failed ← on_vm (map_image_pages space stack_page image_pages);
          match failed with
          | Some code => mret code
          | None =>
              ok ← on_vm (paging_map_page_in_space kernel_space space USER_STACK_BASE stack_page USER_PAGE_FLAGS);
              if negb ok then
                _ ← on_vm (release_image_pages space image_pages);
                _ ← on_vm (paging_destroy_address_space kernel_space space);
                _ ← on_vm (pmm_free_page stack_page);
                mret (-24)
              else
                _ ← on_vm (fill_image stack_page image_pages image image_offset image_size);
                process ← on_system (on_procs (allocate_process pname entry));
                match process with
                | None =>
                    _ ← on_vm (paging_unmap_page_in_space space USER_STACK_BASE);
                    _ ← on_vm (release_image_pages space image_pages);
                    _ ← on_vm (paging_destroy_address_space kernel_space space);
                    _ ← on_vm (pmm_free_page stack_page);
                    mret (-25)
                | Some process =>
                    exit_code ← run_process space process entry;
                    _ ← on_vm (paging_unmap_page_in_space space USER_STACK_BASE);
                    _ ← on_vm (pmm_free_page stack_page);
                    _ ← on_vm (release_image_pages space image_pages);
                    _ ← on_vm (paging_destroy_address_space kernel_space space);
                    _ ← on_system (on_procs (upd_process process (set_address_space 0)));
                    _ ← on_system (on_procs (modify (set_current_process_index (-1))));
                    mret exit_code
                end
          end
      end.

(** ** The formats *)

Definition run_mexe_program (pname file : list Z) (file_size : Z) : M machine Z :=
  if file_size <? sizeof_user_exec_header then mret (-10)
  else
    magic ← lift (word_at file 0); entry_offset ← lift (word_at file 4); image_size ← lift (word_at file 8);
    if negb (magic =? 0x4558454D) || (image_size <=? entry_offset) || (USER_IMAGE_PAGES * PAGE_SIZE <? image_size) then mret (-11)
    else if file_size <? sizeof_user_exec_header +% image_size then mret (-12)
    else run_loaded_image pname (USER_PROGRAM_BASE +% entry_offset) file sizeof_user_exec_header image_size.

(** The image buffer cleared. *)
Definition clear_load_image : M machine unit :=
  for_ 0 (USER_IMAGE_PAGES * PAGE_SIZE) (λ i, img ← gets load_image; img ← lift (awrite img i 0); modify (set_load_image img)).

(** The bytes of a segment. *)
Definition copy_segment (file : list Z) (destination offset filesz : Z) : M machine unit :=
  for_ 0 filesz (λ j,
    v ← lift (aread file (offset +% j));
    img ← gets load_image; img ← lift (awrite img (destination +% j) v); modify (set_load_image img)).

(** One program header; [inr] is the code of a refusal. *)
Definition load_segment (file : list Z) (file_size phoff i : Z) (loaded : bool) : M machine (bool + Z) :=
  let ph := phoff + i * sizeof_elf32_program_header in
  ty ← lift (word_at file ph);
  if negb (ty =? 1) then mret (inl loaded)
  else
    offset ← lift (word_at file (ph + 4)); vaddr ← lift (word_at file (ph + 8));
    filesz ← lift (word_at file (ph + 16)); memsz ← lift (word_at file (ph + 20));
    if (vaddr <? USER_PROGRAM_BASE) || (vaddr +% memsz <? vaddr) || (USER_PROGRAM_BASE + USER_IMAGE_PAGES * PAGE_SIZE <? vaddr +% memsz) then mret (inr (-34))
    else if (file_size <? offset +% filesz) || (memsz <? filesz) then mret (inr (-35))
    else
      _ ← copy_segment file (vaddr -% USER_PROGRAM_BASE) offset filesz;
      mret (inl true).

Definition run_elf_program (pname file : list Z) (file_size : Z) : M machine Z :=
  if file_size <? sizeof_elf32_header then mret (-30)
  else
    i0 ← lift (byte_at file 0); i1 ← lift (byte_at file 1); i2 ← lift (byte_at file 2); i3 ← lift (byte_at file 3);
    if negb (i0 =? 0x7F) || negb (i1 =? 69) || negb (i2 =? 76) || negb (i3 =? 70) then mret (-31)
    else
      i4 ← lift (byte_at file 4); i5 ← lift (byte_at file 5); ty ← lift (half_at file 16); machine_ ← lift (half_at file 18);
      version ← lift (word_at file 20); phentsize ← lift (half_at file 42);
      if negb (i4 =? 1) || negb (i5 =? 1) || negb (ty =? 2) || negb (machine_ =? 3) || negb (version =? 1) || negb (phentsize =? sizeof_elf32_program_header)
      then mret (-32)
      else
        phoff ← lift (word_at file 28); phnum ← lift (half_at file 44);
        if (phnum =? 0) || (file_size <? phoff +% (phnum *% sizeof_elf32_program_header)) then mret (-33)
        else
          entry ← lift (word_at file 24);
          if (entry <? USER_PROGRAM_BASE) || (USER_PROGRAM_BASE + USER_IMAGE_PAGES * PAGE_SIZE <=? entry) then mret (-37)
          else
            _ ← clear_load_image;
            r ← for_state 0 phnum (load_segment file file_size phoff) false;
            match r with
            | inr code => mret code
            | inl loaded =>
                if negb loaded then mret (-36)
                else
                  image ← gets load_image;
                  run_loaded_image pname entry image 0 (USER_IMAGE_PAGES * PAGE_SIZE)
            end.

Definition usermode_run_program (pname : list Z) : M machine Z :=
  r ← on_system (zoom sfiles set_sfiles (file_load pname));
  match r with
  | None => mret (-10)
  | Some (file, file_size) =>
      if file_size <? 4 then mret (-10)
      else
        i0 ← lift (byte_at file 0); i1 ← lift (byte_at file 1); i2 ← lift (byte_at file 2); i3 ← lift (byte_at file 3);
        if (i0 =? 0x7F) && (i1 =? 69) && (i2 =? 76) && (i3 =? 70) then run_elf_program pname file file_size
        else run_mexe_program pname file file_size
  end.

(** ** The built-in test program *)

Definition write_u32 (buffer offset value : Z) : M (vm P) unit :=
  _ ← put_byte (buffer + offset) (u8 (Z.land value 0xFF));
  _ ← put_byte (buffer + offset + 1) (u8 (Z.land (Z.shiftr value 8) 0xFF));
  _ ← put_byte (buffer + offset + 2) (u8 (Z.land (Z.shiftr value 16) 0xFF));
  put_byte (buffer + offset + 3) (u8 (Z.land (Z.shiftr value 24) 0xFF)).

Definition test_message : list Z :=
  (λ c, Z.of_nat (Ascii.nat_of_ascii c)) <$> String.list_ascii_of_string ("Hello from ring 3 user mode via int 0x80." ++ String (Ascii.ascii_of_nat 10) EmptyString)%string.

(** Two system calls, write and exit with the code 42, and a loop. *)
Definition write_test_program (code_page : Z) : M (vm P) unit :=
  let message_offset := 32 in
  _ ← for_ 0 (Z.of_nat (length test_message)) (λ i, c ← lift (aread test_message i); put_byte (code_page + message_offset + i) c);
  _ ← put_byte (code_page + 0) 0xB8; _ ← write_u32 code_page 1 1;
  _ ← put_byte (code_page + 5) 0xBB; _ ← write_u32 code_page 6 (code_page + message_offset);
  _ ← put_byte (code_page + 10) 0xB9; _ ← write_u32 code_page 11 (Z.of_nat (length test_message));
  _ ← put_byte (code_page + 15) 0xCD; _ ← put_byte (code_page + 16) 0x80;
  _ ← put_byte (code_page + 17) 0xB8; _ ← write_u32 code_page 18 2;
  _ ← put_byte (code_page + 22) 0xBB; _ ← write_u32 code_page 23 42;
  _ ← put_byte (code_page + 27) 0xCD; _ ← put_byte (code_page + 28) 0x80;
  _ ← put_byte (code_page + 29) 0xEB; put_byte (code_page + 30) 0xFE.

Definition usermode_run_test : M machine Z :=
  code_page ← on_vm pmm_alloc_page; stack_page ← on_vm pmm_alloc_page;
  if (code_page =? 0) || (stack_page =? 0) then mret (-1)
  else
    ok ← on_vm (paging_map_page kernel_space code_page code_page USER_PAGE_FLAGS);
    if negb ok then mret (-2)
    else
      ok ← on_vm (paging_map_page kernel_space stack_page stack_page USER_PAGE_FLAGS);
      if negb ok then mret (-3)
      else
        _ ← on_vm (for_ 0 PAGE_SIZE (λ i, _ ← put_byte (code_page + i) 0; put_byte (stack_page + i) 0));
        _ ← on_vm (write_test_program code_page);
        exit_code ← usermode_enter code_page (stack_page + PAGE_SIZE);
        _ ← on_vm (paging_map_page kernel_space code_page code_page 0x2);
        _ ← on_vm (paging_map_page kernel_space stack_page stack_page 0x2);
        _ ← on_vm (pmm_free_page code_page);
        _ ← on_vm (pmm_free_page stack_page);
        mret exit_code.
End usermode.
