(* ===== verification/UsermodeLoad.v ===== *)
(** * The formats of programs

    run_elf_program and run_mexe_program agree with reference readers of the two
    formats, written with exact numbers and without loops over bytes: a refusal code,
    or the entry point and the image to run. *)

From Stdlib Require Import ZArith Lia Bool String.
From stdpp Require Import base numbers list gmap sets.
From S2P Require Import Prelude Memory Bitmap Pmm Paging Process ProcessProps Usermode.

(** ** Reference readers *)

Definition le8 (file : list Z) (o : Z) : Z := nth (Z.to_nat o) file 0.
Definition le16 (file : list Z) (o : Z) : Z := le8 file o + 256 * le8 file (o + 1).
Definition le32 (file : list Z) (o : Z) : Z := le16 file o + 65536 * le16 file (o + 2).

(** The bytes [l] placed at [d] in the image. *)
Definition place (img : list Z) (d : Z) (l : list Z) : list Z :=
  take (Z.to_nat d) img ++ l ++ drop (Z.to_nat d + length l) img.

Record segment := Segment { sg_type : Z; sg_offset : Z; sg_vaddr : Z; sg_filesz : Z; sg_memsz : Z }.
Definition segment_at (file : list Z) (ph : Z) : segment :=
  Segment (le32 file ph) (le32 file (ph + 4)) (le32 file (ph + 8)) (le32 file (ph + 16)) (le32 file (ph + 20)).

Definition user_limit : Z := 0x410000.

Definition add_segment (file : list Z) (size : Z) (g : segment) (acc : bool * list Z) : bool * list Z + Z :=
  if negb (sg_type g =? 1) then inl acc
  else if negb ((USER_PROGRAM_BASE <=? sg_vaddr g) && (sg_vaddr g + sg_memsz g <=? user_limit)) then inr (-34)
  else if negb ((sg_offset g + sg_filesz g <=? size) && (sg_filesz g <=? sg_memsz g)) then inr (-35)
  else inl (true, place (snd acc) (sg_vaddr g - USER_PROGRAM_BASE) (take (Z.to_nat (sg_filesz g)) (drop (Z.to_nat (sg_offset g)) file))).

Fixpoint add_segments (file : list Z) (size ph : Z) (n : nat) (acc : bool * list Z) : bool * list Z + Z :=
  match n with
  | O => inl acc
  | S n => match add_segment file size (segment_at file ph) acc with
           | inl acc => add_segments file size (ph + 32) n acc
           | inr code => inr code
           end
  end.

Definition elf_magic (file : list Z) : bool := (le8 file 0 =? 0x7F) && (le8 file 1 =? 69) && (le8 file 2 =? 76) && (le8 file 3 =? 70).

(** Entry point and image of an ELF file, or the code of its refusal. *)
Definition elf_program (file : list Z) (size : Z) : Z * list Z + Z :=
  if size <? 52 then inr (-30)
  else if negb (elf_magic file) then inr (-31)
  else if negb ((le8 file 4 =? 1) && (le8 file 5 =? 1) && (le16 file 16 =? 2) && (le16 file 18 =? 3) && (le32 file 20 =? 1) && (le16 file 42 =? 32)) then inr (-32)
  else if (le16 file 44 =? 0) || (size <? le32 file 28 + le16 file 44 * 32) then inr (-33)
  else if negb ((USER_PROGRAM_BASE <=? le32 file 24) && (le32 file 24 <? user_limit)) then inr (-37)
  else match add_segments file size (le32 file 28) (Z.to_nat (le16 file 44)) (false, replicate (Z.to_nat 65536) 0) with
       | inr code => inr code
       | inl (loaded, img) => if loaded : bool then inl (le32 file 24, img) else inr (-36)
       end.

(** Entry point and image size of a file in the kernel's own format. *)
Definition mexe_program (file : list Z) (size : Z) : Z * Z + Z :=
  if size <? 16 then inr (-10)
  else if negb ((le32 file 0 =? 0x4558454D) && (le32 file 4 <? le32 file 8) && (le32 file 8 <=? 65536)) then inr (-11)
  else if size <? 16 + le32 file 8 then inr (-12)
  else inl (USER_PROGRAM_BASE + le32 file 4, le32 file 8).

(** ** Fields *)

Lemma byte_at_eq file o : 0 ≤ o < Z.of_nat (length file) → byte_at file o = Some (le8 file o).
Proof.
  intros Ho. unfold byte_at, le8. apply aread_Some. split; [lia|]. destruct (lookup_lt_is_Some_2 file (Z.to_nat o)) as [x Hx]; [lia|].
  rewrite Hx. f_equal. symmetry. by apply nth_lookup_Some.
Qed.

Lemma half_at_eq file o : 0 ≤ o → o + 2 ≤ Z.of_nat (length file) → half_at file o = Some (le16 file o).
Proof. intros H1 H2. unfold half_at. rewrite !byte_at_eq by lia. done. Qed.

Lemma word_at_eq file o : 0 ≤ o → o + 4 ≤ Z.of_nat (length file) → word_at file o = Some (le32 file o).
Proof. intros H1 H2. unfold word_at. rewrite !half_at_eq by lia. done. Qed.

Lemma le8_range file o : Forall is_u8 file → 0 ≤ le8 file o < 256.
Proof.
  intros Hf. unfold le8. destruct (file !! Z.to_nat o) as [x|] eqn:E.
  - rewrite (nth_lookup_Some _ _ _ _ E). apply (Forall_lookup_1 _ _ _ _ Hf E).
  - rewrite nth_overflow; [lia|]. by apply lookup_ge_None.
Qed.
Lemma le16_range file o : Forall is_u8 file → 0 ≤ le16 file o < 65536.
Proof. intros Hf. unfold le16. pose proof (le8_range file o Hf). pose proof (le8_range file (o + 1) Hf). lia. Qed.
Lemma le32_range file o : Forall is_u8 file → 0 ≤ le32 file o < 4294967296.
Proof. intros Hf. unfold le32. pose proof (le16_range file o Hf). pose proof (le16_range file (o + 2) Hf). lia. Qed.

(** A computation whose run is known can be skipped. *)
Lemma bind_run {S A B} (m : M S A) (f : A → M S B) s a s' : m s = Some (a, s') → (a ← m; f a) s = f a s'.
Proof. intros E. unfold mbind, M_bind. by rewrite E. Qed.
Lemma bind_lift {S A B} (o : option A) (f : A → M S B) s a : o = Some a → (a ← lift o; f a) s = f a s.
Proof. intros ->. done. Qed.

Lemma length_place img d l : 0 ≤ d → d + Z.of_nat (length l) ≤ Z.of_nat (length img) → length (place img d l) = length img.
Proof. intros H1 H2. unfold place. rewrite !length_app, length_take, length_drop. lia. Qed.

(** One more byte placed. *)
Lemma place_snoc img d l v : 0 ≤ d → d + Z.of_nat (length l) < Z.of_nat (length img) →
  <[Z.to_nat (d + Z.of_nat (length l)) := v]> (place img d l) = place img d (l ++ [v]).
Proof.
  intros H1 H2. unfold place. rewrite (insert_app_r_alt (take (Z.to_nat d) img)) by (rewrite length_take; lia). f_equal.
  rewrite length_take, Nat.min_l by lia. replace (Z.to_nat (d + Z.of_nat (length l)) - Z.to_nat d)%nat with (length l) by lia.
  rewrite insert_app_r_alt by lia. rewrite Nat.sub_diag, <-app_assoc, length_app. f_equal. cbn [length].
  destruct (lookup_lt_is_Some_2 img (Z.to_nat d + length l)) as [x Hx]; [lia|]. rewrite (drop_S _ _ _ Hx). cbn. do 2 f_equal. lia.
Qed.

Section loader.
Context {P F : Type} `{PageAllocator P, FileSource F, FileLoader F}.
Context (kernel_page_directory kernel_space : Z) (usermode_enter : Z → Z → M (machine (P := P) (F := F)) Z).
Implicit Types s : machine (P := P) (F := F).

Lemma set_load_image_id s : set_load_image (load_image s) s = s.
Proof. by destruct s. Qed.

Lemma clear_run s : length (load_image s) = Z.to_nat 65536 → clear_load_image s = Some (tt, set_load_image (replicate (Z.to_nat 65536) 0) s).
Proof.
  intros Hl. assert (W : wp clear_load_image (λ _ s', s' = set_load_image (replicate (Z.to_nat 65536) 0) s) s).
  { unfold clear_load_image. change (USER_IMAGE_PAGES * PAGE_SIZE) with 65536.
    apply (wp_for _ _ _ (λ i s', s' = set_load_image (replicate (Z.to_nat i) 0 ++ drop (Z.to_nat i) (load_image s)) s)); [lia|by destruct s| |].
    - intros i s' Hi ->. do 3 wp_step. cbn [load_image set_load_image].
      eapply wp_lift; [apply awrite_eq; rewrite length_app, length_replicate, length_drop; lia|]. wp_step. unfold set_load_image. cbn. f_equal.
      replace (Z.to_nat (i + 1)) with (S (Z.to_nat i)) by lia. rewrite replicate_S_end, <-app_assoc.
      destruct (lookup_lt_is_Some_2 (load_image s) (Z.to_nat i)) as [x Hx]; [lia|]. rewrite (drop_S _ _ _ Hx).
      rewrite insert_app_r_alt by (rewrite length_replicate; lia). by rewrite length_replicate, Nat.sub_diag.
    - intros s' ->. rewrite drop_ge, app_nil_r by lia. done. }
  destruct W as ([] & s' & E & ->). exact E.
Qed.

Lemma copy_segment_run s file d o n : length (load_image s) = Z.to_nat 65536 → 0 ≤ d → 0 ≤ n → d + n ≤ 65536 → 0 ≤ o → o + n ≤ Z.of_nat (length file) → Z.of_nat (length file) < 4294967296 →
  copy_segment file d o n s = Some (tt, set_load_image (place (load_image s) d (take (Z.to_nat n) (drop (Z.to_nat o) file))) s).
Proof.
  intros Hl Hd Hn Hdn Ho Hon Hf.
  assert (W : wp (copy_segment file d o n) (λ _ s', s' = set_load_image (place (load_image s) d (take (Z.to_nat n) (drop (Z.to_nat o) file))) s) s).
  { unfold copy_segment. apply (wp_for _ _ _ (λ i s', s' = set_load_image (place (load_image s) d (take (Z.to_nat i) (drop (Z.to_nat o) file))) s)); [lia| | |done].
    - unfold place. cbn. rewrite take_0. cbn. rewrite Nat.add_0_r, take_drop. by rewrite set_load_image_id.
    - intros i s' Hi ->. u32_simp. wp_step. destruct (aread_is_Some file (o + i)) as [v Hv]; [lia|]. eapply wp_lift; [exact Hv|].
      assert (Hlen : length (take (Z.to_nat i) (drop (Z.to_nat o) file)) = Z.to_nat i) by (rewrite length_take, length_drop; lia).
      do 3 wp_step. cbn [load_image set_load_image]. eapply wp_lift; [apply awrite_eq; rewrite length_place by lia; lia|]. wp_step. unfold set_load_image. cbn. f_equal.
      replace (d + i) with (d + Z.of_nat (length (take (Z.to_nat i) (drop (Z.to_nat o) file)))) by lia. rewrite place_snoc by lia. f_equal.
      replace (Z.to_nat (i + 1)) with (S (Z.to_nat i)) by lia. symmetry. apply take_S_r. apply aread_Some in Hv as [_ Hv]. rewrite lookup_drop. rewrite <-Hv. f_equal. lia. }
  destruct W as ([] & s' & E & ->). exact E.
Qed.

(** The headers of the file do not make [offset + filesz] wrap around. *)
Definition segment_plain (g : segment) : Prop := sg_type g = 1 → sg_offset g + sg_filesz g < 4294967296.

Lemma load_segment_run s file size phoff i loaded : Forall is_u8 file → size ≤ Z.of_nat (length file) < 4294967296 → length (load_image s) = Z.to_nat 65536 →
  0 ≤ phoff + i * 32 → phoff + i * 32 + 32 ≤ Z.of_nat (length file) → segment_plain (segment_at file (phoff + i * 32)) →
  load_segment file size phoff i loaded s = match add_segment file size (segment_at file (phoff + i * 32)) (loaded, load_image s) with
    | inl (l, img) => Some (inl l, set_load_image img s)
    | inr code => Some (inr code, s) end.
Proof.
  intros Hu Hsz Hl H0' H1' Hpl. unfold load_segment. change (i * sizeof_elf32_program_header) with (i * 32). set (ph := phoff + i * 32) in *.
  rewrite (bind_lift _ _ _ (le32 file ph)) by (apply word_at_eq; lia). unfold add_segment, segment_plain in *. cbn [segment_at sg_type sg_offset sg_vaddr sg_filesz sg_memsz] in *.
  destruct (le32 file ph =? 1) eqn:E1; cbn [negb]; [|by rewrite set_load_image_id]. apply Z.eqb_eq in E1. specialize (Hpl E1).
  rewrite (bind_lift _ _ _ (le32 file (ph + 4))), (bind_lift _ _ _ (le32 file (ph + 8))), (bind_lift _ _ _ (le32 file (ph + 16))), (bind_lift _ _ _ (le32 file (ph + 20))) by (apply word_at_eq; lia).
  pose proof (le32_range file (ph + 4) Hu) as R1. pose proof (le32_range file (ph + 8) Hu) as R2. pose proof (le32_range file (ph + 16) Hu) as R3. pose proof (le32_range file (ph + 20) Hu) as R4.
  set (offset := le32 file (ph + 4)) in *. set (vaddr := le32 file (ph + 8)) in *. set (filesz := le32 file (ph + 16)) in *. set (memsz := le32 file (ph + 20)) in *.
  change (USER_PROGRAM_BASE + USER_IMAGE_PAGES * PAGE_SIZE) with 4259840. unfold user_limit, USER_PROGRAM_BASE.
  assert (Ebad : (vaddr <? 4194304) || (vaddr +% memsz <? vaddr) || (4259840 <? vaddr +% memsz) = negb ((4194304 <=? vaddr) && (vaddr + memsz <=? 4259840))).
  { unfold u32. destruct (Z.leb_spec 4194304 vaddr); [|by rewrite (proj2 (Z.ltb_lt vaddr 4194304)) by lia]. rewrite (proj2 (Z.ltb_ge vaddr 4194304)) by lia. cbn [orb andb].
    destruct (decide (vaddr + memsz < 4294967296)) as [Hs|Hs].
    - rewrite Z.mod_small by lia. rewrite (proj2 (Z.ltb_ge (vaddr + memsz) vaddr)) by lia. cbn [orb]. by rewrite Z.ltb_antisym.
    - replace ((vaddr + memsz) mod 2 ^ 32) with (vaddr + memsz - 4294967296) by (change (2 ^ 32) with 4294967296; Z.to_euclidean_division_equations; lia).
      rewrite (proj2 (Z.ltb_lt (vaddr + memsz - 4294967296) vaddr)), (proj2 (Z.leb_gt (vaddr + memsz) 4259840)) by lia. done. }
  rewrite Ebad. destruct ((4194304 <=? vaddr) && (vaddr + memsz <=? 4259840)) eqn:E2; cbn [negb]; [|done]. bool_to_prop. u32_simp.
  assert (Ebad2 : (size <? offset + filesz) || (memsz <? filesz) = negb ((offset + filesz <=? size) && (filesz <=? memsz))) by (rewrite negb_andb, !Z.ltb_antisym; done).
  rewrite Ebad2. destruct ((offset + filesz <=? size) && (filesz <=? memsz)) eqn:E3; cbn [negb]; [|done]. bool_to_prop.
  rewrite (bind_run _ _ _ tt (set_load_image (place (load_image s) (vaddr - 4194304) (take (Z.to_nat filesz) (drop (Z.to_nat offset) file))) s)); [done|].
  apply copy_segment_run; lia.
Qed.

Lemma add_segment_length file size g acc acc' : 0 ≤ sg_filesz g → 0 ≤ sg_offset g → length (snd acc) = Z.to_nat 65536 → size ≤ Z.of_nat (length file) →
  add_segment file size g acc = inl acc' → length (snd acc') = Z.to_nat 65536.
Proof.
  intros Hf Ho Hl Hs. unfold add_segment, user_limit, USER_PROGRAM_BASE. destruct (negb (sg_type g =? 1)); [by intros [= <-]|].
  destruct (_ && _) eqn:E1; cbn [negb]; [|done]. destruct (_ && (_ <=? sg_memsz g)) eqn:E2; cbn [negb]; [|done]. intros [= <-]. bool_to_prop. cbn [snd].
  rewrite length_place; rewrite ?length_take, ?length_drop; lia.
Qed.

Lemma load_segments_run file size phoff n : ∀ s i loaded, Forall is_u8 file → size ≤ Z.of_nat (length file) < 4294967296 → length (load_image s) = Z.to_nat 65536 →
  0 ≤ phoff + i * 32 → phoff + i * 32 + 32 * Z.of_nat n ≤ Z.of_nat (length file) →
  (∀ j, i ≤ j < i + Z.of_nat n → segment_plain (segment_at file (phoff + j * 32))) →
  ∃ img, for_state_steps n i (load_segment file size phoff) loaded s = match add_segments file size (phoff + i * 32) n (loaded, load_image s) with
    | inl (l, img') => Some (inl l, set_load_image img' s)
    | inr code => Some (inr code, set_load_image img s) end.
Proof.
  induction n as [|n IH]; intros s i loaded Hu Hsz Hl H0' H1' Hpl.
  - exists []. cbn. by rewrite set_load_image_id.
  - cbn [for_state_steps add_segments]. pose proof (load_segment_run s file size phoff i loaded Hu Hsz Hl H0' ltac:(lia) (Hpl i ltac:(lia))) as Hrun.
    pose proof (add_segment_length file size (segment_at file (phoff + i * 32)) (loaded, load_image s)) as Hlen. cbn [segment_at sg_filesz sg_offset snd] in Hlen.
    destruct (add_segment file size _ _) as [[l img1]|code].
    + rewrite (bind_run _ _ _ _ _ Hrun). specialize (Hlen (l, img1) ltac:(apply le32_range; done) ltac:(apply le32_range; done) Hl ltac:(lia) eq_refl).
      destruct (IH (set_load_image img1 s) (i + 1) l Hu Hsz Hlen ltac:(lia) ltac:(lia)) as [img Himg]; [intros j Hj; apply Hpl; lia|].
      exists img. rewrite Himg. cbn [load_image set_load_image]. replace (phoff + (i + 1) * 32) with (phoff + i * 32 + 32) by lia. done.
    + exists (load_image s). rewrite (bind_run _ _ _ _ _ Hrun), set_load_image_id. done.
Qed.

(** The program headers of the file do not make its arithmetic wrap around. *)
Definition elf_plain (file : list Z) : Prop :=
  le32 file 28 + le16 file 44 * 32 < 4294967296 ∧
  ∀ j, 0 ≤ j < le16 file 44 → segment_plain (segment_at file (le32 file 28 + j * 32)).

(** C35. The ELF loader agrees with the reference reader on every file whose header
    offsets do not wrap around, whatever else it holds: it reads and writes inside
    the file and the image buffer only, refuses the same files with the same codes,
    and otherwise runs the image that the segments describe, zero elsewhere, from
    the entry point. *)
Theorem elf_loader_agrees s pname file size : Forall is_u8 file → 0 ≤ size ≤ Z.of_nat (length file) → Z.of_nat (length file) < 4294967296 →
  length (load_image s) = Z.to_nat 65536 → elf_plain file →
  ∃ img, run_elf_program kernel_page_directory kernel_space usermode_enter pname file size s =
    match elf_program file size with
    | inr code => Some (code, set_load_image img s)
    | inl (entry, image) => run_loaded_image kernel_page_directory kernel_space usermode_enter pname entry image 0 65536 (set_load_image image s)
    end.
Proof.
  intros Hu Hsz Hf Hl [Hph Hpl]. unfold run_elf_program, elf_program, sizeof_elf32_header, sizeof_elf32_program_header.
  destruct (size <? 52) eqn:E0; [exists (load_image s); by rewrite set_load_image_id|]. bool_to_prop.
  rewrite (bind_lift _ _ _ (le8 file 0)), (bind_lift _ _ _ (le8 file 1)), (bind_lift _ _ _ (le8 file 2)), (bind_lift _ _ _ (le8 file 3)) by (apply byte_at_eq; lia).
  rewrite <-!negb_andb. fold (elf_magic file). destruct (elf_magic file); cbn [negb]; [|exists (load_image s); by rewrite set_load_image_id].
  rewrite (bind_lift _ _ _ (le8 file 4)), (bind_lift _ _ _ (le8 file 5)) by (apply byte_at_eq; lia).
  rewrite (bind_lift _ _ _ (le16 file 16)), (bind_lift _ _ _ (le16 file 18)) by (apply half_at_eq; lia). rewrite (bind_lift _ _ _ (le32 file 20)) by (apply word_at_eq; lia).
  rewrite (bind_lift _ _ _ (le16 file 42)) by (apply half_at_eq; lia). rewrite <-!negb_andb.
  destruct (_ && (le16 file 42 =? 32)); cbn [negb]; [|exists (load_image s); by rewrite set_load_image_id].
  rewrite (bind_lift _ _ _ (le32 file 28)) by (apply word_at_eq; lia). rewrite (bind_lift _ _ _ (le16 file 44)) by (apply half_at_eq; lia).
  pose proof (le32_range file 28 Hu). pose proof (le16_range file 44 Hu). u32_simp.
  destruct (_ || _) eqn:E1; [exists (load_image s); by rewrite set_load_image_id|]. bool_to_prop.
  rewrite (bind_lift _ _ _ (le32 file 24)) by (apply word_at_eq; lia). change (USER_PROGRAM_BASE + USER_IMAGE_PAGES * PAGE_SIZE) with user_limit.
  replace ((le32 file 24 <? USER_PROGRAM_BASE) || (user_limit <=? le32 file 24)) with (negb ((USER_PROGRAM_BASE <=? le32 file 24) && (le32 file 24 <? user_limit)))
    by (by rewrite negb_andb, <-Z.ltb_antisym, <-Z.leb_antisym).
  destruct (_ && _); cbn [negb]; [|exists (load_image s); by rewrite set_load_image_id].
  rewrite (bind_run _ _ _ _ _ (clear_run s Hl)). set (s1 := set_load_image _ s).
  destruct (load_segments_run file size (le32 file 28) (Z.to_nat (le16 file 44)) s1 0 false Hu ltac:(lia)) as [img Himg]; [cbn; by rewrite length_replicate|lia|lia|intros j Hj; apply Hpl; lia|].
  replace (le32 file 28 + 0 * 32) with (le32 file 28) in Himg by lia.
  assert (Hfs : for_state 0 (le16 file 44) (load_segment file size (le32 file 28)) false s1 = for_state_steps (Z.to_nat (le16 file 44)) 0 (load_segment file size (le32 file 28)) false s1)
    by (unfold for_state; by rewrite Z.sub_0_r).
  rewrite <-Hfs in Himg. change (load_image s1) with (replicate (Z.to_nat 65536) 0) in Himg.
  destruct (add_segments _ _ _ _ _) as [[loaded img1]|code].
  - exists img1. rewrite (bind_run _ _ _ _ _ Himg). destruct loaded; cbn [negb]; done.
  - exists img. rewrite (bind_run _ _ _ _ _ Himg). done.
Qed.

(** The loader of the kernel's own format agrees with its reference reader. *)
Lemma mexe_loader_agrees s pname file size : Forall is_u8 file → 0 ≤ size ≤ Z.of_nat (length file) →
  run_mexe_program kernel_page_directory kernel_space usermode_enter pname file size s =
    match mexe_program file size with
    | inr code => Some (code, s)
    | inl (entry, image_size) => run_loaded_image kernel_page_directory kernel_space usermode_enter pname entry file 16 image_size s
    end.
Proof.
  intros Hu Hsz. unfold run_mexe_program, mexe_program, sizeof_user_exec_header. destruct (size <? 16) eqn:E0; [done|]. bool_to_prop.
  rewrite (bind_lift _ _ _ (le32 file 0)), (bind_lift _ _ _ (le32 file 4)), (bind_lift _ _ _ (le32 file 8)) by (apply word_at_eq; lia). change (USER_IMAGE_PAGES * PAGE_SIZE) with 65536.
  replace (negb (le32 file 0 =? 1163412813) || (le32 file 8 <=? le32 file 4) || (65536 <? le32 file 8)) with (negb ((le32 file 0 =? 1163412813) && (le32 file 4 <? le32 file 8) && (le32 file 8 <=? 65536)))
    by (by rewrite !negb_andb, <-Z.leb_antisym, <-Z.ltb_antisym).
  destruct (_ && _) eqn:E1; cbn [negb]; [|done]. bool_to_prop. pose proof (le32_range file 4 Hu). pose proof (le32_range file 8 Hu). unfold USER_PROGRAM_BASE. u32_simp. by destruct (size <? _).
Qed.
End loader.

(** ** A program of two bytes *)

(** ELF header, one program header and the code: a jump to itself at 0x400000. *)
Definition demo_elf : list Z :=
  [0x7F; 69; 76; 70; 1; 1; 1; 0; 0; 0; 0; 0; 0; 0; 0; 0; 2; 0; 3; 0; 1; 0; 0; 0; 0; 0; 0x40; 0; 52; 0; 0; 0; 0; 0; 0; 0; 0; 0; 0; 0; 52; 0; 32; 0; 1; 0; 0; 0; 0; 0; 0; 0] ++
  [1; 0; 0; 0; 84; 0; 0; 0; 0; 0; 0x40; 0; 0; 0; 0; 0; 2; 0; 0; 0; 4; 0; 0; 0; 5; 0; 0; 0; 0; 0x10; 0; 0] ++
  [0xEB; 0xFE].

Definition blank_image : list Z := replicate (Z.to_nat 65536) 0.
Definition demo_machine : machine (P := pmm) (F := unit) := Machine (Vm ∅ demo_pmm 0 0xE0000000 0x300000 0x11 0 ∅) (System demo_procs tt) blank_image.

Lemma demo_elf_bytes : Forall is_u8 demo_elf.
Proof. by apply (bool_decide_eq_true_1 _). Qed.

Lemma demo_elf_plain : elf_plain demo_elf.
Proof.
  split; [done|]. intros j Hj. change (le16 demo_elf 44) with 1 in Hj. assert (j = 0) as -> by lia. by intros _.
Qed.

Lemma elf_loader_agrees_witness :
  run_elf_program 0x100000 0x129000 (λ _ _, mret 7) [100; 0] demo_elf 86 demo_machine =
  run_loaded_image 0x100000 0x129000 (λ _ _, mret 7) [100; 0] 0x400000 (place blank_image 0 [0xEB; 0xFE]) 0 65536
    (set_load_image (place blank_image 0 [0xEB; 0xFE]) demo_machine).
Proof.
  destruct (elf_loader_agrees 0x100000 0x129000 (λ _ _, mret 7) demo_machine [100; 0] demo_elf 86 demo_elf_bytes ltac:(clear; done) ltac:(clear; done)
    (length_replicate _ _) demo_elf_plain) as [img E].
  rewrite E. reflexivity.
Defined.

(** The sum [offset + filesz] of a segment is taken modulo 2^32: a header that puts two
    bytes at the end of the address space passes the check, and the copy reads outside
    the file. *)
Example segment_check_wraps (m : machine (P := pmm) (F := unit)) :
  let header := [1; 0; 0; 0; 0xFF; 0xFF; 0xFF; 0xFF; 0; 0; 0x40; 0; 0; 0; 0; 0; 2; 0; 0; 0; 4; 0; 0; 0; 5; 0; 0; 0; 0; 0x10; 0; 0] in
  load_segment header 32 0 0 false m = None.
Proof. reflexivity. Qed.
