(* ===== verification/UsermodeSpace.v ===== *)
(** * The address space of a process

    The state of paging and of the page allocator while a process exists: its space
    with the structure [p], the directory [q] and the tables of its own, next to the
    pages [X] of its image and its stack. Every step that usermode.c takes between
    the creation and the destruction of the space keeps it. *)

From Stdlib Require Import ZArith Lia Bool.
From stdpp Require Import base numbers list gmap sets.
From S2P Require Import Prelude Memory Bitmap Pmm Paging PagingSpace PagingLife.

Section space.
Context {P : Type} `{PageAllocatorLaws P} (kernel_page_directory kernel_space : Z).
Implicit Types s : vm P.

(** The kernel before the process: its own space, the pages [U], of which [A] are in use. *)
Context (s0 : vm P) (U A : gset Z) (Dk Ok : Z → Z) (Fk : Z → Z → Z).
Context (Hk0 : vm_ok kernel_space s0 U A kernel_space kernel_page_directory Dk Ok Fk) (HD0 : is_present (Dk 0) = true)
  (Hroom : room_after s0 U A kernel_space kernel_page_directory Dk).

(** The pages of the space itself. *)
Definition keep (p q : Z) (O : Z → Z) : gset Z := {[p]} ∪ {[q]} ∪ owned_pages O 1023.

Definition busy (p q : Z) (O : Z → Z) (X : gset Z) : gset Z := A ∪ keep p q O ∪ X.

Record live s (p q : Z) (D O : Z → Z) (F : Z → Z → Z) (X : gset Z) : Prop := {
  lv_ok : vm_ok kernel_space s U (busy p q O X) (p * 4096) (q * 4096) D O F;
  lv_keep : keep p q O ⊆ U ∖ A;
  lv_pages : X ⊆ U ∖ A;
  lv_disjoint : disjoint (keep p q O) X;
  lv_shared : ∀ i, O i = 0 → D i = Dk i;
  lv_edge : O 0 = 0 ∧ O 1023 = 0;
  lv_spill : q = p + 1 ∨ ((p + 1 ∉ U) ∧ load 4 (vmem s) (p * 4096 + 4096) = Some 0);
  lv_kernel : ∀ a, in_space kernel_space kernel_page_directory Dk a → vmem s !! a = vmem s0 !! a;
  lv_mapped : ∀ a, is_Some (vmem s0 !! a) → is_Some (vmem s !! a) }.

Lemma page_of x a : x * 4096 ≤ a < x * 4096 + 4096 → a / 4096 = x.
Proof. intros. Z.to_euclidean_division_equations; lia. Qed.

Lemma in_page a : a / 4096 * 4096 ≤ a < a / 4096 * 4096 + 4096.
Proof. Z.to_euclidean_division_equations; lia. Qed.

Lemma kernel_busy a : in_space kernel_space kernel_page_directory Dk a → a / 4096 ∉ U ∖ A.
Proof. apply Hk0. Qed.

Lemma live_struct s p q D O F X : live s p q D O F X → p ∈ keep p q O ∧ q ∈ keep p q O ∧ p * 4096 ≠ kernel_space ∧ 0 < p ∧ 0 < q.
Proof.
  intros L. assert (Hp : p ∈ keep p q O) by (unfold keep; set_solver +). assert (Hq : q ∈ keep p q O) by (unfold keep; set_solver +). split_and!; try done.
  - intros E. apply (kernel_busy kernel_space); [left; lia|]. rewrite <-E, Z.div_mul by done. by apply (lv_keep _ _ _ _ _ _ _ L).
  - pose proof (sr_sp _ _ _ _ _ _ _ (vo_space _ _ _ _ _ _ _ _ _ (lv_ok _ _ _ _ _ _ _ L))). lia.
  - destruct (sr_page _ _ _ _ _ _ _ (vo_space _ _ _ _ _ _ _ _ _ (lv_ok _ _ _ _ _ _ _ L))). lia.
Qed.

Lemma owned_table s p q D O F X i : live s p q D O F X → 0 ≤ i < 1023 → O i ≠ 0 →
  is_present (D i) = true ∧ frame_of (D i) = O i ∧ O i = O i / 4096 * 4096 ∧ O i / 4096 ∈ keep p q O.
Proof.
  intros L Hi HO. pose proof (lv_ok _ _ _ _ _ _ _ L) as Hok. pose proof (vo_space _ _ _ _ _ _ _ _ _ Hok) as Hs. destruct (sr_own _ _ _ _ _ _ _ Hs i Hi HO) as [E1 E2].
  split_and!; [done|done| |].
  - assert (Hu : is_u32 (D i)) by (eapply dir_u32; [exact Hok|lia]). destruct (frame_of_range _ Hu) as (_ & Hal & _). rewrite E2 in Hal. Z.to_euclidean_division_equations; lia.
  - unfold keep. apply elem_of_union_r, elem_of_owned. by exists i.
Qed.

Lemma live_private s p q D O F X a : live s p q D O F X → in_private kernel_space (p * 4096) (q * 4096) D O a → a / 4096 ∈ keep p q O.
Proof.
  intros L Ha. destruct (live_struct _ _ _ _ _ _ _ L) as (Hp & Hq & Hne & _). destruct Ha as [Ha|[Ha|(i & Hi & Hpr & [E|HO] & Ha)]].
  - by rewrite (page_of p).
  - by rewrite (page_of q).
  - done.
  - destruct (owned_table _ _ _ _ _ _ _ i L Hi HO) as (_ & E & Eo & Hin). rewrite (page_of (O i / 4096)); [done|]. rewrite E, Eo in Ha. lia.
Qed.

(** A byte of the space belongs to the process or to a table of the kernel. *)
Lemma live_space s p q D O F X a : live s p q D O F X → in_space (p * 4096) (q * 4096) D a →
  a / 4096 ∈ keep p q O ∨ in_space kernel_space kernel_page_directory Dk a.
Proof.
  intros L. destruct (live_struct _ _ _ _ _ _ _ L) as (Hp & Hq & Hne & _). intros [Ha|[Ha|(i & Hi & Hpr & Ha)]].
  - left. by rewrite (page_of p).
  - left. by rewrite (page_of q).
  - destruct (decide (O i = 0)) as [E|HO].
    + right. right. right. exists i. by rewrite <-(lv_shared _ _ _ _ _ _ _ L i E).
    + left. destruct (decide (i = 1023)) as [->|]; [by destruct (lv_edge _ _ _ _ _ _ _ L)|].
      destruct (owned_table _ _ _ _ _ _ _ i L ltac:(lia) HO) as (_ & E & Eo & Hin). rewrite (page_of (O i / 4096)); [done|]. rewrite E, Eo in Ha. lia.
Qed.

(** The bytes of the image are in no page table. *)
Lemma live_image_outside s p q D O F X a : live s p q D O F X → a / 4096 ∈ X →
  ¬ in_space (p * 4096) (q * 4096) D a ∧ ¬ in_space kernel_space kernel_page_directory Dk a.
Proof.
  intros L Ha. assert (Hk : ¬ in_space kernel_space kernel_page_directory Dk a) by (intros Hin%kernel_busy; by apply Hin, (lv_pages _ _ _ _ _ _ _ L)).
  split; [|done]. intros [Hin|Hin]%(live_space _ _ _ _ _ _ _ _ L); [|done]. pose proof (lv_disjoint _ _ _ _ _ _ _ L) as Hd. set_solver + Hd Hin Ha.
Qed.

(** The kernel's own space is as it was. *)
Lemma kernel_kept s p q D O F X : live s p q D O F X → vm_ok kernel_space s U (busy p q O X) kernel_space kernel_page_directory Dk Ok Fk.
Proof.
  intros L. destruct (lv_ok _ _ _ _ _ _ _ L) as [V1 V2 V3 V4 V5]. split; try done.
  - eapply space_rep_same; [apply Hk0|apply L].
  - intros a Ha. pose proof (kernel_busy a Ha) as Hn. unfold busy. set_solver + Hn.
Qed.

(** ** Steps *)

Lemma live_same s s' p q D O F X : live s p q D O F X → vmem s' = vmem s → pager s' = pager s → live s' p q D O F X.
Proof. intros [[V1 V2 V3 V4 V5] L2 L3 L4 L5 L6 L7 L8 L9] Em Ep. split; rewrite ?Em; try done. split; rewrite ?Em, ?Ep; done. Qed.

(** Writing outside the page tables. *)
Lemma live_mem s s' p q D O F X : live s p q D O F X → pager s' = pager s → bytes_ok (vmem s') →
  (∀ a, is_Some (vmem s !! a) → is_Some (vmem s' !! a)) → (∀ a, a / 4096 ∉ X → vmem s' !! a = vmem s !! a) → live s' p q D O F X.
Proof.
  intros L Ep Hb Hm Hsame. assert (Hout := λ a, live_image_outside _ _ _ _ _ _ _ a L). destruct L as [[V1 V2 V3 V4 V5] L2 L3 L4 L5 L6 L7 L8 L9]. split; try done.
  - split; rewrite ?Ep; try done.
    + intros x Hx b Hb'. by apply Hm, (V3 x Hx).
    + eapply space_rep_same; [exact V4|]. intros a Ha. apply Hsame. intros Hin. by destruct (Hout a Hin).
  - destruct L7 as [?|[Hp Hl]]; [by left|right]. split; [done|]. rewrite <-Hl. apply load_ext. intros b Hb'. change (Z.of_nat 4) with 4 in Hb'. apply Hsame.
    rewrite (page_of (p + 1)) by lia. set_solver + Hp L3.
  - intros a Ha. rewrite Hsame; [by apply L8|]. intros Hin. by destruct (Hout a Hin).
  - intros a Ha. by apply Hm, L9.
Qed.

Lemma live_pager s pg p q D O F X X' : live s p q D O F X → pages_rep pg U (busy p q O X') → X' ⊆ U ∖ A → keep p q O ## X' →
  live (set_pager pg s) p q D O F X'.
Proof.
  intros L Hpg HX Hd. assert (Hin := λ a, live_space _ _ _ _ _ _ _ a L). destruct L as [[V1 V2 V3 V4 V5] L2 L3 L4 L5 L6 L7 L8 L9]. split; try done. split; try done.
  intros a Ha. destruct (Hin a Ha) as [Hk|Hk%kernel_busy]; unfold busy; set_solver + Hk.
Qed.

Lemma live_alloc s p q D O F X (Q : Z → vm P → Prop) : live s p q D O F X →
  (U ∖ busy p q O X = ∅ → Q 0 s) →
  (∀ x pg, x ∈ U ∖ busy p q O X → 0 < x → live (set_pager pg s) p q D O F (X ∪ {[x]}) → Q (x * 4096) (set_pager pg s)) →
  wp pmm_alloc_page Q s.
Proof.
  intros L Hnone HQ. apply (alloc_one_wp s U (busy p q O X)); [apply L|exact Hnone|]. intros x pg Hx Hx0 _ Hpg. apply HQ; [done|lia|].
  pose proof (lv_pages _ _ _ _ _ _ _ L) as HX. pose proof (lv_disjoint _ _ _ _ _ _ _ L) as Hd. eapply live_pager; [exact L| |unfold busy in Hx; set_solver + Hx HX|unfold busy in Hx; set_solver + Hx Hd].
  unfold busy in *. by replace (A ∪ keep p q O ∪ (X ∪ {[x]})) with (A ∪ keep p q O ∪ X ∪ {[x]}) by set_solver +.
Qed.

Lemma live_free s p q D O F X x (Q : unit → vm P → Prop) : live s p q D O F X → x ∈ X →
  (∀ pg, live (set_pager pg s) p q D O F (X ∖ {[x]}) → Q tt (set_pager pg s)) → wp (pmm_free_page (x * 4096)) Q s.
Proof.
  intros L Hx HQ. pose proof (lv_pages _ _ _ _ _ _ _ L) as HX. pose proof (lv_disjoint _ _ _ _ _ _ _ L) as Hd.
  apply (free_one_wp s U (busy p q O X)); [apply L|set_solver + HX Hx|]. intros pg Hpg. apply HQ.
  eapply live_pager; [exact L| |set_solver + HX|set_solver + Hd]. unfold busy in *.
  replace (A ∪ keep p q O ∪ X ∖ {[x]}) with ((A ∪ keep p q O ∪ X) ∖ {[x]}); [done|]. set_solver + HX Hd Hx.
Qed.

(** What mapping and unmapping leave: memory outside the pages of the space, and registers. *)
Record stepped s s' (p q : Z) (O' : Z → Z) : Prop := {
  sp_frame : ∀ a, a / 4096 ∉ keep p q O' → vmem s' !! a = vmem s !! a;
  sp_rest : current_space s' = current_space s ∧ cr3 s' = cr3 s }.

Lemma remapped_live s s' p q D O F X v e A' D' O' F' : live s p q D O F X → 0 < dir_index v < 1023 →
  remapped kernel_space s s' U (busy p q O X) (p * 4096) (q * 4096) D O F v e A' D' O' F' →
  live s' p q D' O' F' X ∧ stepped s s' p q O' ∧ O' (dir_index v) ≠ 0.
Proof.
  intros L Hv R. pose proof (rm_ok _ _ _ _ _ _ _ _ _ _ _ _ _ _ _ _ R) as Hok'. destruct (live_struct _ _ _ _ _ _ _ L) as (_ & _ & Hks & _).
  assert (HO1 : O' (dir_index v) ≠ 0) by (by destruct (rm_private _ _ _ _ _ _ _ _ _ _ _ _ _ _ _ _ R)).
  destruct L as [Hok L2 L3 L4 L5 [L6 L6'] L7 L8 L9].
  assert (Hcase : A' = busy p q O' X ∧ keep p q O' ⊆ U ∖ A ∧ keep p q O' ## X ∧ ∀ j, j ≠ dir_index v → O' j = O j).
  { destruct (rm_pages _ _ _ _ _ _ _ _ _ _ _ _ _ _ _ _ R) as [[-> EO]|(x & Hx & -> & HO & EO)].
    - assert (Ek : keep p q O' = keep p q O).
      { unfold keep. f_equal. apply set_eq. intros y. rewrite !elem_of_owned. by setoid_rewrite EO. }
      unfold busy. rewrite Ek. by split_and!.
    - assert (Ek : keep p q O' = keep p q O ∪ {[x]}).
      { unfold keep. rewrite <-(union_assoc_L _ _ {[x]}). f_equal. apply set_eq. intros y. rewrite elem_of_union, elem_of_singleton, !elem_of_owned. split.
        - intros (j & Hj & Hn & ->). rewrite EO in *. unfold upd in *. destruct (Z.eqb_spec j (dir_index v)) as [->|]; [right; by rewrite Z.div_mul|left; by exists j].
        - intros [(j & Hj & Hn & ->)| ->].
          + exists j. rewrite EO. unfold upd. rewrite (proj2 (Z.eqb_neq j (dir_index v))); [done|]. intros ->. done.
          + exists (dir_index v). rewrite EO in *. unfold upd in *. rewrite Z.eqb_refl in *. rewrite Z.div_mul by done. split_and!; (done || lia). }
      unfold busy in *. rewrite Ek. split_and!; [set_solver +|set_solver + L2 Hx|set_solver + L4 Hx|]. intros j Hj. rewrite EO. unfold upd. by rewrite (proj2 (Z.eqb_neq j _)). }
  destruct Hcase as (EA & Hk1 & Hk2 & HOj). subst A'.
  assert (Hpriv : ∀ a, in_private kernel_space (p * 4096) (q * 4096) D' O' a → a / 4096 ∈ keep p q O').
  { intros a [Ha|[Ha|(i & Hi & Hpr & [E|HO] & Ha)]]; [rewrite (page_of p) by done; unfold keep; set_solver +|rewrite (page_of q) by done; unfold keep; set_solver +|done|].
    destruct (sr_own _ _ _ _ _ _ _ (vo_space _ _ _ _ _ _ _ _ _ Hok') i Hi HO) as [_ E2]. assert (Hu : is_u32 (D' i)) by (eapply dir_u32; [exact Hok'|lia]).
    destruct (frame_of_range _ Hu) as (_ & Hal & _). rewrite E2 in Ha, Hal. unfold keep. apply elem_of_union_r, elem_of_owned. exists i. split_and!; [lia|lia|done|]. Z.to_euclidean_division_equations; lia. }
  assert (Hfr : ∀ a, a / 4096 ∉ keep p q O' → vmem s' !! a = vmem s !! a) by (intros a Ha; apply (rm_frame _ _ _ _ _ _ _ _ _ _ _ _ _ _ _ _ R); intros Hin; by apply Ha, Hpriv).
  split_and!; [|split; [exact Hfr|split; apply R]|done]. split; try done.
  - intros i Hi. assert (i ≠ dir_index v) by (intros ->; done). rewrite (rm_dir _ _ _ _ _ _ _ _ _ _ _ _ _ _ _ _ R) by done. apply L5. by rewrite <-HOj.
  - by rewrite !HOj by lia.
  - destruct L7 as [?|[Hp Hl]]; [by left|right]. split; [done|]. rewrite <-Hl. apply load_ext. intros b Hb'. change (Z.of_nat 4) with 4 in Hb'. apply Hfr.
    rewrite (page_of (p + 1)) by lia. set_solver + Hp Hk1.
  - intros a Ha. rewrite Hfr; [by apply L8|]. intros Hin. apply (kernel_busy a Ha). set_solver + Hk1 Hin.
  - intros a Ha. destruct (decide (a / 4096 ∈ keep p q O')) as [Hin|Hin]; [|rewrite Hfr by done; by apply L9].
    apply (vo_mapped _ _ _ _ _ _ _ _ _ Hok' (a / 4096)); [set_solver + Hin Hk1|]. apply in_page.
Qed.

Lemma live_map s p q D O F X v x flags (Q : bool → vm P → Prop) : live s p q D O F X → is_u32 v → 0 < dir_index v < 1023 → 0 ≤ x < 32768 → 0 ≤ flags < 4096 →
  (O (dir_index v) = 0 → U ∖ busy p q O X = ∅ → Q false s) →
  (∀ s' D' O' F', live s' p q D' O' F' X → stepped s s' p q O' → O' (dir_index v) ≠ 0 → user_kept flags (D' (dir_index v)) →
     (∀ j k, trans D' F' j k = if (j =? dir_index v) && (k =? table_index v) then Z.lor (x * 4096) (Z.lor 1 flags) else trans D F j k) →
     (∀ j, j ≠ dir_index v → O' j = O j) → Q true s') →
  wp (paging_map_page_in_space kernel_space (p * 4096) v (x * 4096) flags) Q s.
Proof.
  intros L Hv Hv1 Hx Hfl Hnone HQ. assert (Hx' : is_u32 (x * 4096)) by (unfold is_u32; lia).
  eapply map_page_wp; [apply L|done|lia|done|done|exact Hnone|]. intros s' A' D' O' F' R Hu.
  destruct (remapped_live _ _ _ _ _ _ _ _ _ _ _ _ _ _ L Hv1 R) as (L' & St & HO'). eapply HQ; try done.
  - intros j k. rewrite (rm_trans _ _ _ _ _ _ _ _ _ _ _ _ _ _ _ _ R). rewrite frame_aligned; [done|done|by apply Z.mod_mul].
  - intros j Hj. destruct (rm_pages _ _ _ _ _ _ _ _ _ _ _ _ _ _ _ _ R) as [[_ EO]|(y & _ & _ & _ & EO)]; [done|]. rewrite EO. unfold upd. by rewrite (proj2 (Z.eqb_neq _ _)).
Qed.

Lemma live_unmap s p q D O F X v (Q : unit → vm P → Prop) : live s p q D O F X → is_u32 v → 0 < dir_index v < 1023 → O (dir_index v) ≠ 0 →
  (∀ s' F', live s' p q D O F' X → stepped s s' p q O → Q tt s') →
  wp (paging_unmap_page_in_space (p * 4096) v) Q s.
Proof.
  intros L Hv Hv1 HO HQ. destruct (owned_table _ _ _ _ _ _ _ (dir_index v) L ltac:(lia) HO) as (Hpr & _).
  eapply (unmap_page_wp kernel_space); [apply L|done|lia|intros _; by right|congruence|]. intros s' F' R.
  destruct (remapped_live _ _ _ _ _ _ _ _ _ _ _ _ _ _ L Hv1 R) as (L' & St & _). by eapply HQ.
Qed.

(** ** The beginning and the end *)

(** The kernel without the process, with the pages [X] still in use. *)
Record plain s (X : gset Z) : Prop := {
  pl_ok : vm_ok kernel_space s U (A ∪ X) kernel_space kernel_page_directory Dk Ok Fk;
  pl_pages : X ⊆ U ∖ A;
  pl_kernel : ∀ a, in_space kernel_space kernel_page_directory Dk a → vmem s !! a = vmem s0 !! a;
  pl_mapped : ∀ a, is_Some (vmem s0 !! a) → is_Some (vmem s !! a) }.

Lemma plain_same s s' X : plain s X → vmem s' = vmem s → pager s' = pager s → plain s' X.
Proof. intros [[V1 V2 V3 V4 V5] P2 P3 P4] Em Ep. split; rewrite ?Em; try done. split; rewrite ?Em, ?Ep; done. Qed.

Lemma plain_free s X x (Q : unit → vm P → Prop) : plain s X → x ∈ X →
  (∀ pg, plain (set_pager pg s) (X ∖ {[x]}) → Q tt (set_pager pg s)) → wp (pmm_free_page (x * 4096)) Q s.
Proof.
  intros [[V1 V2 V3 V4 V5] HX P3 P4] Hx HQ. apply (free_one_wp s U (A ∪ X)); [done|set_solver + HX Hx|]. intros pg Hpg. apply HQ.
  replace ((A ∪ X) ∖ {[x]}) with (A ∪ X ∖ {[x]}) in Hpg by (set_solver + HX Hx). split; [|set_solver + HX|done|done]. split; try done.
  intros a Ha%kernel_busy. set_solver + Ha.
Qed.

Lemma live_created s s' X p q : plain s X → created kernel_page_directory kernel_space s s' U (A ∪ X) Dk Ok Fk p q → (q = p + 1 ∨ p + 1 ∉ U) →
  live s' p q Dk (λ _, 0) Fk X.
Proof.
  intros [Hok HX Hker Hmap] C Hnext. destruct (cr_fresh _ _ _ _ _ _ _ _ _ _ _ C) as (Hp & Hq & Hne).
  assert (Ek : keep p q (λ _, 0) = {[p]} ∪ {[q]}).
  { unfold keep. replace (owned_pages (λ _, 0) 1023) with (∅ : gset Z); [set_solver +|]. apply set_eq. intros x. rewrite elem_of_owned. split; [set_solver +|]. by intros (j & _ & Hj & _). }
  pose proof (cr_ok _ _ _ _ _ _ _ _ _ _ _ C) as Hok'. pose proof (cr_kernel _ _ _ _ _ _ _ _ _ _ _ C) as Hk'.
  split; rewrite ?Ek; [| |exact HX| |done|done| | |].
  - unfold busy. rewrite Ek. by replace (A ∪ ({[p]} ∪ {[q]}) ∪ X) with (A ∪ X ∪ {[p]} ∪ {[q]}) by (set_solver +).
  - set_solver + Hp Hq HX.
  - set_solver + Hp Hq.
  - destruct (Z.eq_dec q (p + 1)) as [->|Hq1]; [by left|]. right. split; [by destruct Hnext|]. rewrite (cr_spill _ _ _ _ _ _ _ _ _ _ _ C), (proj2 (Z.eqb_neq _ _)) by done. done.
  - intros a Ha. rewrite (cr_frame _ _ _ _ _ _ _ _ _ _ _ C); [by apply Hker| |]; intros Hr.
    + destruct (decide (a < p * 4096 + 4096)); [apply (kernel_busy a Ha); rewrite (page_of p) by lia; set_solver + Hp|].
      by apply (Hroom p ltac:(set_solver + Hp) a); [lia|].
    + apply (kernel_busy a Ha). rewrite (page_of q) by lia. set_solver + Hq.
  - intros a Ha. destruct (decide (a / 4096 ∈ U)) as [Hin|Hin]; [apply (vo_mapped _ _ _ _ _ _ _ _ _ Hok' _ Hin), in_page|].
    destruct (decide (p * 4096 + 4096 ≤ a < p * 4096 + 4100)) as [Hsp|Hsp]; [apply (load_mapped _ _ _ _ (cr_spill _ _ _ _ _ _ _ _ _ _ _ C)); lia|].
    rewrite (cr_frame _ _ _ _ _ _ _ _ _ _ _ C); [by apply Hmap| |]; intros Hr; apply Hin; [rewrite (page_of p) by lia|rewrite (page_of q) by lia]; set_solver + Hp Hq.
Qed.

Lemma live_destroy s p q D O F X (Q : unit → vm P → Prop) : live s p q D O F X → current_space s ≠ p * 4096 →
  (∀ s', plain s' X → current_space s' = current_space s → cr3 s' = cr3 s → Q tt s') → wp (paging_destroy_address_space kernel_space (p * 4096)) Q s.
Proof.
  intros L Hcur HQ. destruct (live_struct _ _ _ _ _ _ _ L) as (Hp & Hq & Hks & _). pose proof (kernel_kept _ _ _ _ _ _ _ L) as Hkk. pose proof (vo_space _ _ _ _ _ _ _ _ _ Hkk) as Hs.
  pose proof (lv_keep _ _ _ _ _ _ _ L) as Hkeep. pose proof (lv_disjoint _ _ _ _ _ _ _ L) as Hdis. pose proof (lv_pages _ _ _ _ _ _ _ L) as HX.
  eapply destroy_wp; [apply L| |done|apply Hs|apply Hs|apply (sr_page _ _ _ _ _ _ _ Hs)|].
  - split.
    + unfold busy. set_solver + Hp.
    + rewrite Z.div_mul by done. unfold busy. set_solver + Hq.
    + intros i Hi HO. destruct (owned_table _ _ _ _ _ _ _ i L Hi HO) as (_ & _ & _ & Hin). unfold busy. set_solver + Hin.
    + destruct (lv_spill _ _ _ _ _ _ _ L) as [E|[_ E]]; [|exists 0; by split; [|left]]. exists (Dk 0). split.
      * replace (p * 4096 + 4096) with (entry_at (q * 4096) 0) by (unfold entry_at; lia). rewrite <-(lv_shared _ _ _ _ _ _ _ L 0) by apply (lv_edge _ _ _ _ _ _ _ L).
        apply (sr_dir _ _ _ _ _ _ _ (vo_space _ _ _ _ _ _ _ _ _ (lv_ok _ _ _ _ _ _ _ L))). lia.
      * right. intros E0. rewrite is_present_testbit, <-(Z.mod_pow2_bits_low (Dk 0) 12 0) in HD0 by lia. change (2 ^ 12) with 4096 in HD0. by rewrite E0 in HD0.
  - intros s' Hpg Hc E1 E2 _. rewrite (proj2 (Z.eqb_neq _ _)) in E1, E2 by done. apply HQ; [|done|done]. rewrite Z.div_mul in Hpg by done.
    replace (busy p q O X ∖ owned_pages O 1023 ∖ {[q]} ∖ {[p]}) with (A ∪ X) in Hpg by (unfold busy, keep in *; set_solver + Hkeep Hdis HX).
    assert (Hout : ∀ b, p * 4096 + 4 ≤ b < p * 4096 + 4 + 4096 → ¬ in_space kernel_space kernel_page_directory Dk b).
    { intros b Hb. destruct (decide (b < (p + 1) * 4096)); [intros Hin%kernel_busy; apply Hin; rewrite (page_of p) by lia; set_solver + Hp Hkeep|apply (Hroom p); [set_solver + Hp Hkeep|lia]]. }
    assert (Hmap : ∀ a, is_Some (vmem s0 !! a) → is_Some (vmem s' !! a)) by (intros a Ha; by apply Hc, L).
    assert (Hker : ∀ a, in_space kernel_space kernel_page_directory Dk a → vmem s' !! a = vmem s0 !! a).
    { intros a Ha. rewrite (ch_same _ _ _ _ Hc); [by apply L|]. intros Hb. by apply (Hout a Hb). }
    split; try done. destruct Hkk as [V1 V2 V3 V4 V5]. split; try done.
    + by apply Hc.
    + intros x Hx. eapply changes_mapped; [exact Hc|by apply V3].
    + eapply space_rep_same; [apply Hk0|exact Hker].
    + intros a Ha%kernel_busy. set_solver + Ha.
Qed.
End space.
