(* ===== verification/UsermodeImage.v ===== *)
(** * The pages of a program

    The helpers of run_loaded_image: allocating the pages of the image, mapping them,
    filling them, and giving them back on every path. *)

From Stdlib Require Import ZArith Lia Bool.
From stdpp Require Import base numbers list list_numbers gmap sets.
From S2P Require Import Prelude Memory Bitmap Pmm Paging PagingSpace PagingLife Process Usermode UsermodeSpace.

(** ** Lists of pages *)

Definition frames (ps : list Z) : list Z := (λ x, x * 4096) <$> ps.
Definition pset (ps : list Z) : gset Z := list_to_set ps.

Lemma frames_at ps rest i : 0 ≤ i < Z.of_nat (length ps) → ∃ x, ps !! Z.to_nat i = Some x ∧ aread (frames ps ++ rest) i = Some (x * 4096).
Proof.
  intros Hi. destruct (lookup_lt_is_Some_2 ps (Z.to_nat i)) as [x Hx]; [lia|]. exists x. split; [done|]. apply aread_Some. split; [lia|].
  unfold frames. rewrite lookup_app_l by (rewrite length_fmap; lia). by rewrite list_lookup_fmap, Hx.
Qed.
Lemma frame_at ps i : 0 ≤ i < Z.of_nat (length ps) → ∃ x, ps !! Z.to_nat i = Some x ∧ aread (frames ps) i = Some (x * 4096).
Proof. intros Hi. rewrite <-(app_nil_r (frames ps)). by apply frames_at. Qed.

Lemma pset_step (X : gset Z) ps i x : ps !! i = Some x → X ∖ pset (take i ps) ∖ {[x]} = X ∖ pset (take (S i) ps).
Proof. intros Hx. unfold pset. rewrite (take_S_r _ _ _ Hx), list_to_set_app_L. cbn. set_solver +. Qed.

Lemma pset_fresh ps i x : NoDup ps → ps !! i = Some x → x ∉ pset (take i ps).
Proof.
  intros Hn Hx. unfold pset. rewrite elem_of_list_to_set, list_elem_of_lookup. intros (j & Hj). pose proof Hj as Hlt%lookup_lt_Some. rewrite length_take in Hlt.
  rewrite lookup_take_lt in Hj by lia. assert (j = i) by (by eapply (proj1 (NoDup_alt ps) Hn)). lia.
Qed.

Lemma pset_in ps i x : ps !! i = Some x → x ∈ pset ps.
Proof. intros Hx. unfold pset. apply elem_of_list_to_set. by eapply list_elem_of_lookup_2. Qed.

Lemma size_but_one (U A : gset Z) a : (size (U ∖ A) ≤ 1 + size (U ∖ (A ∪ {[a]})))%nat.
Proof.
  assert (Hsub : U ∖ A ⊆ {[a]} ∪ U ∖ (A ∪ {[a]})) by (intros x Hx; destruct (decide (x = a)); set_solver). apply subseteq_size in Hsub.
  pose proof (size_union_alt ({[a]} : gset Z) (U ∖ (A ∪ {[a]}))) as E. pose proof (subseteq_size (U ∖ (A ∪ {[a]}) ∖ {[a]}) (U ∖ (A ∪ {[a]})) ltac:(set_solver +)).
  rewrite size_singleton in E. lia.
Qed.

Section image.
Context {P : Type} `{PageAllocatorLaws P} (kernel_page_directory kernel_space : Z).
Context (s0 : vm P) (U A : gset Z) (Dk Ok : Z → Z) (Fk : Z → Z → Z).
Context (Hk0 : vm_ok kernel_space s0 U A kernel_space kernel_page_directory Dk Ok Fk) (HD0 : is_present (Dk 0) = true)
  (Hroom : room_after s0 U A kernel_space kernel_page_directory Dk).
Implicit Types s : vm P.

Local Abbreviation live := (live kernel_page_directory kernel_space s0 U A Dk).
Local Abbreviation plain := (plain kernel_page_directory kernel_space s0 U A Dk Ok Fk).

(** The registers of paging are as in [s]. *)
Definition same_regs s s' : Prop := current_space s' = current_space s ∧ cr3 s' = cr3 s.

Lemma free_image_wp s p q D O F X ps rest n (Q : unit → vm P → Prop) : live s p q D O F X → NoDup ps → pset ps ⊆ X → 0 ≤ n ≤ Z.of_nat (length ps) →
  (∀ s', live s' p q D O F (X ∖ pset (take (Z.to_nat n) ps)) → same_regs s s' → Q tt s') → wp (free_image_pages (frames ps ++ rest) n) Q s.
Proof.
  intros L Hnd Hsub Hn HQ. unfold free_image_pages.
  apply (wp_for _ _ _ (λ i s', live s' p q D O F (X ∖ pset (take (Z.to_nat i) ps)) ∧ same_regs s s')); [lia| | |intros s' [L' R]; by apply HQ].
  - change (pset (take (Z.to_nat 0) ps)) with (∅ : gset Z). by rewrite difference_empty_L.
  - intros i s1 Hi [L1 R1]. destruct (frames_at ps rest i ltac:(lia)) as (x & Hx & Ex). wp_step. eapply wp_lift; [exact Ex|].
    eapply (live_free kernel_page_directory); [exact Hk0|exact L1| |].
    + pose proof (pset_fresh _ _ _ Hnd Hx) as H1. pose proof (pset_in _ _ _ Hx) as H2. set_solver + H1 H2 Hsub.
    + intros pg L2. rewrite (pset_step _ _ _ _ Hx) in L2. replace (Z.to_nat (i + 1)) with (S (Z.to_nat i)) by lia. by split.
Qed.

(** The loop that unmaps and frees the pages. *)
Lemma release_image_wp s p q D O F X ps (Q : unit → vm P → Prop) : live s p q D O F X → NoDup ps → pset ps ⊆ X → length ps = 16%nat → O 1 ≠ 0 →
  (∀ s' F', live s' p q D O F' (X ∖ pset ps) → same_regs s s' → Q tt s') → wp (release_image_pages (p * 4096) (frames ps)) Q s.
Proof.
  intros L Hnd Hsub Hn HO HQ. unfold release_image_pages, USER_IMAGE_PAGES.
  apply (wp_for _ _ _ (λ i s', ∃ F', live s' p q D O F' (X ∖ pset (take (Z.to_nat i) ps)) ∧ same_regs s s')); [lia| | |].
  - exists F. change (pset (take (Z.to_nat 0) ps)) with (∅ : gset Z). by rewrite difference_empty_L.
  - intros i s1 Hi (F1 & L1 & R1). destruct (frame_at ps i ltac:(lia)) as (x & Hx & Ex). unfold USER_PROGRAM_BASE, PAGE_SIZE.
    assert (Ed : dir_index (4194304 + i * 4096) = 1) by (unfold dir_index; Z.to_euclidean_division_equations; lia).
    wp_step. eapply (live_unmap kernel_page_directory); [exact Hk0|exact L1|unfold is_u32; lia|lia|by rewrite Ed|]. intros s2 F2 L2 [_ R2]. wp_step. eapply wp_lift; [exact Ex|].
    eapply (live_free kernel_page_directory); [exact Hk0|exact L2| |].
    + pose proof (pset_fresh _ _ _ Hnd Hx) as H1. pose proof (pset_in _ _ _ Hx) as H2. set_solver + H1 H2 Hsub.
    + intros pg L3. rewrite (pset_step _ _ _ _ Hx) in L3. replace (Z.to_nat (i + 1)) with (S (Z.to_nat i)) by lia. exists F2. split; [done|].
      unfold same_regs in *. cbn. destruct R1, R2. split; congruence.
  - intros s' (F' & L' & R). rewrite take_ge in L' by lia. by eapply HQ.
Qed.

(** The way out of a failure: pages, space and stack are given back. *)
Lemma give_back_wp {B} (r : B) s p q D O F a ps rest n (Q : B → vm P → Prop) : live s p q D O F ({[a]} ∪ pset ps) → NoDup (a :: ps) → current_space s ≠ p * 4096 → n = Z.of_nat (length ps) →
  (∀ s', plain s' ∅ → same_regs s s' → Q r s') →
  wp (_ ← free_image_pages (frames ps ++ rest) n; _ ← paging_destroy_address_space kernel_space (p * 4096); _ ← pmm_free_page (a * 4096); mret r) Q s.
Proof.
  intros L [Ha Hnd]%NoDup_cons Hcur -> HQ. rewrite <-(elem_of_list_to_set (C := gset Z)) in Ha. fold (pset ps) in Ha.
  wp_step. eapply free_image_wp; [exact L|done|set_solver +|lia|]. intros s2 L2 [R1 R2]. rewrite take_ge in L2 by lia.
  replace (({[a]} ∪ pset ps) ∖ pset ps) with ({[a]} : gset Z) in L2 by (set_solver + Ha).
  wp_step. eapply (live_destroy kernel_page_directory); [exact Hk0|exact HD0|exact Hroom|exact L2|congruence|]. intros s3 Pl E1 E2.
  wp_step. eapply (plain_free kernel_page_directory); [exact Hk0|exact Pl|set_solver +|]. intros pg Pl'. wp_step. apply HQ.
  - by rewrite difference_diag_L in Pl'.
  - unfold same_regs. cbn. split; congruence.
Qed.

(** ** Allocation *)

Lemma keep_small p q O : (∀ i, O i = 0) → keep p q O = {[p]} ∪ {[q]}.
Proof.
  intros HO. unfold keep. replace (owned_pages O 1023) with (∅ : gset Z); [by rewrite union_empty_r_L|]. apply set_eq. intros x. rewrite elem_of_owned.
  split; [set_solver +|]. intros (j & _ & Hj & _). by destruct (Hj (HO j)).
Qed.

(** Out of pages with [n] pages of a program in use: fewer than 20 pages were free. *)
Lemma few_pages p q O X : (∀ i, O i = 0) → U ∖ busy A p q O X = ∅ → (size X ≤ 17)%nat → (size (U ∖ A) < 20)%nat.
Proof.
  intros HO E HX. unfold busy in E. rewrite keep_small in E by done. assert (Hsub : U ∖ A ⊆ {[p]} ∪ {[q]} ∪ X).
  { intros x Hx. destruct (decide (x ∈ {[p]} ∪ {[q]} ∪ X)) as [|Hn]; [done|]. exfalso. apply (not_elem_of_empty (C := gset Z) x). rewrite <-E. set_solver + Hx Hn. }
  apply subseteq_size in Hsub. pose proof (size_union_alt ({[p]} ∪ {[q]}) X) as E1. pose proof (size_union_alt ({[p]} : gset Z) {[q]}) as E2.
  pose proof (subseteq_size (X ∖ ({[p]} ∪ {[q]})) X ltac:(set_solver +)). pose proof (subseteq_size ({[q]} ∖ {[p]}) ({[q]} : gset Z) ltac:(set_solver +)).
  rewrite !size_singleton in *. lia.
Qed.

Lemma size_pset ps : (size (pset ps) ≤ length ps)%nat.
Proof.
  unfold pset. induction ps as [|x ps IH]; cbn; [by rewrite size_empty|]. rewrite size_union_alt, size_singleton.
  pose proof (subseteq_size (list_to_set ps ∖ {[x]}) (list_to_set ps : gset Z) ltac:(set_solver +)). lia.
Qed.

Lemma size_with_stack a ps : (length ps ≤ 16)%nat → (size ({[a]} ∪ pset ps) ≤ 17)%nat.
Proof.
  intros Hl. rewrite size_union_alt, size_singleton. pose proof (subseteq_size (pset ps ∖ {[a]}) (pset ps) ltac:(set_solver +)). pose proof (size_pset ps). lia.
Qed.

(** The pages of the image, or nothing left over. *)
Lemma alloc_image_wp s p q D O F a (Q : list Z + Z → vm P → Prop) : live s p q D O F {[a]} → (∀ i, O i = 0) → current_space s ≠ p * 4096 →
  (∀ s', plain s' ∅ → same_regs s s' → (size (U ∖ A) < 20)%nat → Q (inr (-22)) s') →
  (∀ s' ps, length ps = 16%nat → NoDup (a :: ps) → live s' p q D O F ({[a]} ∪ pset ps) → same_regs s s' → Q (inl (frames ps)) s') →
  wp (alloc_image_pages kernel_space (p * 4096) (a * 4096)) Q s.
Proof.
  intros L HO Hcur Hfail HQ. unfold alloc_image_pages.
  apply (wp_for_state _ _ _ (λ i l s', ∃ ps, length ps = Z.to_nat i ∧ NoDup (a :: ps) ∧ l = frames ps ++ replicate (16 - Z.to_nat i) 0 ∧ live s' p q D O F ({[a]} ∪ pset ps) ∧ same_regs s s')); [done| | |].
  - exists []. split_and!; [done|apply NoDup_singleton|done|unfold pset; cbn; by rewrite union_empty_r_L|done].
  - intros i l s1 Hi (ps & Hl & Hnd & -> & L1 & R1). unfold USER_IMAGE_PAGES in Hi. wp_step.
    assert (Hw : ∀ v, awrite (frames ps ++ replicate (16 - Z.to_nat i) 0) i v = Some (frames ps ++ v :: replicate (16 - Z.to_nat (i + 1)) 0)).
    { intros v. rewrite awrite_eq by (unfold frames; rewrite length_app, length_fmap, length_replicate; lia).
      f_equal. rewrite insert_app_r_alt by (unfold frames; rewrite length_fmap; lia). unfold frames. rewrite length_fmap, Hl, Nat.sub_diag.
      by replace (16 - Z.to_nat i)%nat with (S (16 - Z.to_nat (i + 1))) by lia. }
    eapply (live_alloc kernel_page_directory); [exact Hk0|exact L1| |].
    + intros E. wp_step. eapply wp_lift; [apply Hw|]. cbn [Z.eqb].
      eapply give_back_wp; [exact L1|exact Hnd|unfold same_regs in R1; destruct R1; congruence|lia|]. intros s2 Pl R2. apply Hfail; [exact Pl|unfold same_regs in *; destruct R1, R2; split; congruence|].
      eapply few_pages; [exact HO|exact E|]. apply size_with_stack. lia.
    + intros x pg Hx Hx0 L2. wp_step. eapply wp_lift; [apply Hw|]. rewrite (proj2 (Z.eqb_neq (x * 4096) 0)) by lia. wp_step. exists (ps ++ [x]). split_and!.
      * rewrite length_app. cbn. lia.
      * rewrite app_comm_cons. apply NoDup_app. split_and!; [done| |apply NoDup_singleton]. intros y Hy Hy'%list_elem_of_singleton. subst y.
        unfold busy in Hx. apply elem_of_difference in Hx as [_ Hx]. apply Hx. apply elem_of_union_r. apply elem_of_cons in Hy as [->|Hy]; [set_solver +|].
        apply elem_of_union_r. by apply elem_of_list_to_set.
      * unfold frames. rewrite fmap_app. cbn. by rewrite <-app_assoc.
      * replace ({[a]} ∪ pset (ps ++ [x])) with ({[a]} ∪ pset ps ∪ {[x]}); [done|]. unfold pset. rewrite list_to_set_app_L. cbn. set_solver +.
      * done.
  - intros l s' (ps & Hl & Hnd & -> & L' & R). cbn. rewrite app_nil_r. by apply HQ.
Qed.

(** ** Mapping *)

(** The first [n] pages of [ps] are mapped for user mode from USER_PROGRAM_BASE on. *)
Definition image_entry (ps : list Z) (k : Z) : Z := Z.lor (nth (Z.to_nat k) ps 0 * 4096) 7.
Definition image_mapped (ps : list Z) (n : Z) (D O : Z → Z) (F : Z → Z → Z) : Prop :=
  (0 < n → O 1 ≠ 0 ∧ Z.testbit (D 1) 2 = true) ∧ (n = 0 → ∀ j, O j = 0) ∧ (∀ j, j ≠ 1 → O j = 0) ∧
  ∀ j k, trans D F j k = if (j =? 1) && ((0 <=? k) && (k <? n)) then image_entry ps k else trans Dk Fk j k.

Lemma image_mapped_begin ps : image_mapped ps 0 Dk (λ _, 0) Fk.
Proof. split_and!; [lia|done|done|]. intros j k. destruct (Z.leb_spec 0 k), (Z.ltb_spec k 0); rewrite ?andb_false_r; try done; lia. Qed.

Lemma page_bound s p q D O F X x : live s p q D O F X → x ∈ X → 0 < x < 32768.
Proof.
  intros L Hx. destruct (pages_bounds _ _ _ (vo_pages _ _ _ _ _ _ _ _ _ (lv_ok _ _ _ _ _ _ _ _ _ _ _ _ _ L))) as [_ Hb]. apply Hb.
  pose proof (lv_pages _ _ _ _ _ _ _ _ _ _ _ _ _ L) as HX. set_solver + Hx HX.
Qed.

(** One more page; there is always room for it but for the first one, which needs a table. *)
Lemma map_next_wp s p q D O F X ps i x (Q : bool → vm P → Prop) : live s p q D O F X → image_mapped ps i D O F → 0 ≤ i < 1024 → ps !! Z.to_nat i = Some x → x ∈ X →
  ((∀ j, O j = 0) → U ∖ busy A p q O X = ∅ → i = 0 → Q false s) →
  (∀ s' D' O' F', live s' p q D' O' F' X → image_mapped ps (i + 1) D' O' F' → same_regs s s' → Q true s') →
  wp (paging_map_page_in_space kernel_space (p * 4096) (USER_PROGRAM_BASE + i * PAGE_SIZE) (x * 4096) USER_PAGE_FLAGS) Q s.
Proof.
  intros L (M1 & M2 & M3 & M4) Hi Hx HX Hnone HQ. pose proof (page_bound _ _ _ _ _ _ _ _ L HX). unfold USER_PROGRAM_BASE, PAGE_SIZE, USER_PAGE_FLAGS.
  assert (Ed : dir_index (4194304 + i * 4096) = 1) by (unfold dir_index; Z.to_euclidean_division_equations; lia).
  assert (Et : table_index (4194304 + i * 4096) = i) by (unfold table_index; Z.to_euclidean_division_equations; lia).
  eapply (live_map kernel_page_directory); [exact Hk0|exact L|unfold is_u32; lia|lia|lia|lia| |].
  - rewrite Ed. intros HO E. assert (i = 0) by (destruct (decide (i = 0)); [done|]; destruct (M1 ltac:(lia)); done). by apply Hnone; [apply M2| |].
  - rewrite Ed, Et. intros s' D' O' F' L' St HO' Hu T HOj. apply (HQ s' D' O' F'); [done| |by destruct St]. split_and!; [|lia| |].
    + intros _. split; [done|]. by apply Hu.
    + intros j Hj. rewrite HOj by done. by apply M3.
    + intros j k. rewrite T, M4. destruct (Z.eqb_spec j 1) as [->|]; cbn [andb]; [|done]. destruct (Z.eqb_spec k i) as [->|Hne].
      * rewrite (proj2 (Z.leb_le 0 i)), (proj2 (Z.ltb_lt i (i + 1))) by lia. cbn [andb]. unfold image_entry. by rewrite (nth_lookup_Some _ _ _ _ Hx).
      * by replace (k <? i + 1) with (k <? i) by (destruct (Z.ltb_spec k i), (Z.ltb_spec k (i + 1)); (done || lia)).
Qed.

Lemma map_image_wp s p q a ps (Q : option Z → vm P → Prop) : live s p q Dk (λ _, 0) Fk ({[a]} ∪ pset ps) → NoDup (a :: ps) → length ps = 16%nat → current_space s ≠ p * 4096 →
  (∀ s', plain s' ∅ → same_regs s s' → (size (U ∖ A) < 20)%nat → Q (Some (-23)) s') →
  (∀ s' D' O' F', live s' p q D' O' F' ({[a]} ∪ pset ps) → image_mapped (ps ++ [a]) 16 D' O' F' → same_regs s s' → Q None s') →
  wp (map_image_pages kernel_space (p * 4096) (a * 4096) (frames ps)) Q s.
Proof.
  intros L Hnd Hl Hcur Hfail HQ. unfold map_image_pages.
  apply (wp_for_exit _ _ _ (λ i s', ∃ D O F, live s' p q D O F ({[a]} ∪ pset ps) ∧ image_mapped (ps ++ [a]) i D O F ∧ same_regs s s')); [done| | |].
  - exists Dk, (λ _, 0), Fk. split_and!; [done|apply image_mapped_begin|done].
  - intros i s1 Hi (D & O & F & L1 & M & R1). unfold USER_IMAGE_PAGES in Hi. destruct (frame_at ps i ltac:(lia)) as (x & Hx & Ex). wp_step. eapply wp_lift; [exact Ex|]. wp_step.
    eapply (map_next_wp s1 p q D O F _ (ps ++ [a]) i x); [exact L1|exact M|lia|by apply lookup_app_l_Some|apply elem_of_union_r; by eapply pset_in| |].
    + intros HO E ->. cbn [negb]. wp_step. apply (wp_for _ _ _ (λ _ s', s' = s1)); [done|done|intros j s' Hj; lia|]. intros s' ->.
      rewrite <-(app_nil_r (frames ps)). eapply give_back_wp; [exact L1|exact Hnd|unfold same_regs in R1; destruct R1; congruence|unfold USER_IMAGE_PAGES; lia|]. intros s2 Pl R2.
      apply Hfail; [exact Pl|unfold same_regs in *; destruct R1, R2; split; congruence|]. eapply few_pages; [exact HO|exact E|]. apply size_with_stack. lia.
    + intros s2 D2 O2 F2 L2 M2 R2. cbn [negb]. wp_step. exists D2, O2, F2. split_and!; [done|done|]. unfold same_regs in *. destruct R1, R2. split; congruence.
  - intros s' (D & O & F & L' & M & R). by eapply HQ.
Qed.

(** ** Contents *)

(** Only bytes of the pages [X] have been written. *)
Record wrote s s' (X : gset Z) : Prop := {
  wr_only : only_mem s s';
  wr_bytes : bytes_ok (vmem s) → bytes_ok (vmem s');
  wr_mapped : ∀ a, is_Some (vmem s' !! a) ↔ is_Some (vmem s !! a);
  wr_frame : ∀ a, a / 4096 ∉ X → vmem s' !! a = vmem s !! a }.

Lemma wrote_refl s X : wrote s s X.
Proof. split; try done. apply only_mem_refl. Qed.

Lemma put_byte_wp s s1 X a v (Q : unit → vm P → Prop) : wrote s s1 X → is_Some (vmem s !! a) → a / 4096 ∈ X → is_u8 v →
  (∀ s2, wrote s s2 X → vmem s2 = <[a := v]> (vmem s1) → Q tt s2) → wp (put_byte a v) Q s1.
Proof.
  intros [W1 W2 W3 W4] Ha HX Hv HQ. apply W3 in Ha as [b Hb]. unfold put_byte. do 2 wp_step. cbn [store]. rewrite Hb. wp_step. eapply wp_lift; [done|]. wp_step.
  rewrite Z.mod_small by (unfold is_u8 in Hv; lia). apply HQ; [|done]. split; cbn [vmem set_vmem].
  - eapply only_mem_trans; [exact W1|done].
  - intros Hok c w. rewrite lookup_insert_Some. intros [[_ <-]|[_ Hc]]; [done|by eapply W2].
  - intros c. rewrite insert_is_Some, <-W3. split; [intros [<-|?]; [by rewrite Hb|done]|by right].
  - intros c Hc. rewrite lookup_insert_ne by (intros <-; done). by apply W4.
Qed.

Lemma live_wrote s s' p q D O F X : live s p q D O F X → wrote s s' X → live s' p q D O F X.
Proof.
  intros L [W1 W2 W3 W4]. eapply (live_mem kernel_page_directory); [exact Hk0|exact L|by rewrite W1|apply W2, L|intros a Ha; by apply W3|exact W4].
Qed.

(** The address of the byte [k] of the pages [ps]. *)
Definition cell (ps : list Z) (k : Z) : Z := nth (Z.to_nat (k / 4096)) ps 0 * 4096 + k mod 4096.

Lemma cell_page ps k : 0 ≤ k < 4096 * Z.of_nat (length ps) → ∃ x, ps !! Z.to_nat (k / 4096) = Some x ∧ cell ps k = x * 4096 + k mod 4096 ∧ cell ps k / 4096 = x.
Proof.
  intros Hk. destruct (lookup_lt_is_Some_2 ps (Z.to_nat (k / 4096))) as [x Hx]; [Z.to_euclidean_division_equations; lia|].
  exists x. unfold cell. rewrite (nth_lookup_Some _ _ _ _ Hx). split_and!; [done|done|]. apply page_of. pose proof (Z.mod_pos_bound k 4096 ltac:(lia)). lia.
Qed.

Lemma cell_inj ps k j : NoDup ps → 0 ≤ k < 4096 * Z.of_nat (length ps) → 0 ≤ j < 4096 * Z.of_nat (length ps) → cell ps k = cell ps j → k = j.
Proof.
  intros Hnd Hk Hj E. destruct (cell_page ps k Hk) as (x & Hx & Ex & Px), (cell_page ps j Hj) as (y & Hy & Ey & Py). rewrite <-E, Px in Py. subst y.
  pose proof (proj1 (NoDup_alt ps) Hnd _ _ _ Hx Hy). rewrite Ex, Ey in E. Z.to_euclidean_division_equations; lia.
Qed.

Lemma cell_at ps i j x : ps !! Z.to_nat i = Some x → 0 ≤ i → 0 ≤ j < 4096 → cell ps (i * 4096 + j) = x * 4096 + j.
Proof.
  intros Hx Hi Hj. unfold cell. replace ((i * 4096 + j) / 4096) with i by (Z.to_euclidean_division_equations; lia).
  rewrite (nth_lookup_Some _ _ _ _ Hx). f_equal. Z.to_euclidean_division_equations; lia.
Qed.

(** The byte [k] of the program's memory: its image, zero after it. *)
Definition program_byte (image : list Z) (offset size k : Z) : Z := if k <? size then nth (Z.to_nat (offset + k)) image 0 else 0.

(** The bytes below [n] are [f]. *)
Definition holds s (ps : list Z) (n : Z) (f : Z → Z) : Prop := ∀ k, 0 ≤ k < n → vmem s !! cell ps k = Some (f k).

Lemma holds_step s s' ps n k f : NoDup ps → n ≤ 4096 * Z.of_nat (length ps) → 0 ≤ k < 4096 * Z.of_nat (length ps) →
  vmem s' = <[cell ps k := f k]> (vmem s) → (∀ j, 0 ≤ j < n → j ≠ k → vmem s !! cell ps j = Some (f j)) → holds s' ps n f.
Proof.
  intros Hnd Hn Hk E Hj j Hj'. rewrite E. destruct (decide (j = k)) as [->|Hne]; [by rewrite lookup_insert_eq|].
  rewrite lookup_insert_ne; [by apply Hj|]. intros Ec. apply Hne. symmetry. by apply (cell_inj ps); try lia.
Qed.

(** Image and stack of a process, as one list. *)
Lemma pset_stack a ps : pset (ps ++ [a]) = {[a]} ∪ pset ps.
Proof. unfold pset. rewrite list_to_set_app_L. cbn. set_solver +. Qed.

Lemma cell_live s p q D O F ps k : live s p q D O F (pset ps) → 0 ≤ k < 4096 * Z.of_nat (length ps) → is_Some (vmem s !! cell ps k) ∧ cell ps k / 4096 ∈ pset ps.
Proof.
  intros L Hk. destruct (cell_page ps k Hk) as (x & Hx & _ & Px). pose proof (pset_in _ _ _ Hx) as Hin. rewrite Px. split; [|done].
  pose proof (lv_pages _ _ _ _ _ _ _ _ _ _ _ _ _ L) as HX. apply (vo_mapped _ _ _ _ _ _ _ _ _ (lv_ok _ _ _ _ _ _ _ _ _ _ _ _ _ L) x); [set_solver + Hin HX|]. rewrite <-Px. apply in_page.
Qed.

(** Writing the next byte of the pages. *)
Lemma put_cell_wp s s1 p q D O F ps n k f g v (Q : unit → vm P → Prop) : live s p q D O F (pset ps) → NoDup ps → wrote s s1 (pset ps) →
  n ≤ 4096 * Z.of_nat (length ps) → 0 ≤ k < 4096 * Z.of_nat (length ps) → is_u8 v → v = g k →
  (∀ j, 0 ≤ j < n → j ≠ k → vmem s1 !! cell ps j = Some (f j)) → (∀ j, 0 ≤ j < n → j ≠ k → f j = g j) →
  (∀ s2, wrote s s2 (pset ps) → holds s2 ps n g → Q tt s2) → wp (put_byte (cell ps k) v) Q s1.
Proof.
  intros L Hnd W Hn Hk Hv -> Hf Hfg HQ. destruct (cell_live _ _ _ _ _ _ _ _ L Hk) as [Hm Hx]. eapply put_byte_wp; [exact W|exact Hm|exact Hx|exact Hv|].
  intros s2 W2 E. apply HQ; [exact W2|]. apply (holds_step s1 s2 ps n k g); try done. intros j Hj Hne. rewrite <-Hfg by done. by apply Hf.
Qed.

Lemma zero_page_wp s s1 p q D O F ps i x (Q : unit → vm P → Prop) : live s p q D O F (pset ps) → NoDup ps → wrote s s1 (pset ps) → 0 ≤ i → ps !! Z.to_nat i = Some x →
  holds s1 ps (i * 4096) (λ _, 0) → (∀ s2, wrote s s2 (pset ps) → holds s2 ps ((i + 1) * 4096) (λ _, 0) → Q tt s2) →
  wp (for_ 0 PAGE_SIZE (λ j, put_byte (x * 4096 + j) 0)) Q s1.
Proof.
  intros L Hnd W Hi Hx Hh HQ. pose proof Hx as Hlt%lookup_lt_Some. unfold PAGE_SIZE.
  apply (wp_for _ _ _ (λ j s', wrote s s' (pset ps) ∧ holds s' ps (i * 4096 + j) (λ _, 0))); [lia|by rewrite Z.add_0_r| |].
  - intros j s' Hj [W' H']. rewrite <-(cell_at ps i j x Hx Hi Hj). eapply (put_cell_wp s s' _ _ _ _ _ ps (i * 4096 + (j + 1)) _ (λ _, 0) (λ _, 0)); [exact L|done|done|lia|lia|done|done| |done|].
    + intros k Hk Hne. apply H'. lia.
    + intros s2 W2 H2. by split.
  - intros s' [W' H']. apply HQ; [done|]. by replace ((i + 1) * 4096) with (i * 4096 + 4096) by lia.
Qed.

(** The pages hold the program, the stack is clear. *)
Lemma fill_image_wp s p q D O F a ps image offset size (Q : unit → vm P → Prop) : live s p q D O F ({[a]} ∪ pset ps) → NoDup (ps ++ [a]) → length ps = 16%nat →
  Forall is_u8 image → 0 ≤ offset → 0 ≤ size ≤ 65536 → offset + size ≤ Z.of_nat (length image) →
  (∀ s', live s' p q D O F ({[a]} ∪ pset ps) → same_regs s s' → holds s' (ps ++ [a]) 69632 (program_byte image offset size) → Q tt s') →
  wp (fill_image (a * 4096) (frames ps) image offset size) Q s.
Proof.
  intros L Hnd Hl Hb Ho Hsz Hlen HQ. rewrite <-pset_stack in *. set (pa := ps ++ [a]) in *.
  assert (Hpa : Z.of_nat (length pa) = 17) by (unfold pa; rewrite length_app, Hl; done).
  assert (Hat : ∀ i x, ps !! Z.to_nat i = Some x → pa !! Z.to_nat i = Some x) by (intros i x Hx; by apply lookup_app_l_Some).
  unfold fill_image. wp_step. apply (wp_for _ _ _ (λ i s', wrote s s' (pset pa) ∧ holds s' pa (i * 4096) (λ _, 0))); [done|split; [apply wrote_refl|intros k Hk; lia]| |].
  { intros i s1 Hi [W1 H1]. unfold USER_IMAGE_PAGES in Hi. destruct (frame_at ps i ltac:(lia)) as (x & Hx & Ex). wp_step. eapply wp_lift; [exact Ex|].
    eapply (zero_page_wp s s1 p q D O F pa i x); [exact L|done|done|lia|by apply Hat|done|]. intros s2 W2 H2. by split. }
  intros s1 [W1 H1]. wp_step. eapply (zero_page_wp s s1 p q D O F pa 16 a); [exact L|done|done|lia| |exact H1|].
  { unfold pa. rewrite lookup_app_r by lia. rewrite Hl. done. }
  intros s2 W2 H2. change ((16 + 1) * 4096) with 69632 in H2.
  apply (wp_for _ _ _ (λ i s', wrote s s' (pset pa) ∧ holds s' pa 69632 (program_byte image offset i))); [lia| | |].
  - split; [done|]. intros k Hk. rewrite H2 by done. unfold program_byte. by rewrite (proj2 (Z.ltb_ge k 0)) by lia.
  - intros i s3 Hi [W3 H3]. unfold PAGE_SIZE. destruct (frame_at ps (i / 4096)) as (x & Hx & Ex); [Z.to_euclidean_division_equations; lia|].
    destruct (aread_is_Some image (offset + i)) as [v Hv]; [lia|]. wp_step. eapply wp_lift; [exact Ex|]. wp_step. eapply wp_lift; [exact Hv|].
    apply aread_Some in Hv as [_ Hv]. rewrite <-(cell_at pa (i / 4096) (i mod 4096) x (Hat _ _ Hx)) by (Z.to_euclidean_division_equations; lia).
    replace (i / 4096 * 4096 + i mod 4096) with i by (Z.to_euclidean_division_equations; lia).
    eapply (put_cell_wp s s3 _ _ _ _ _ pa 69632 i (program_byte image offset i) (program_byte image offset (i + 1))); [exact L|done|done|lia|lia|by eapply (Forall_lookup_1 _ _ _ _ Hb)| | | |].
    + unfold program_byte. rewrite (proj2 (Z.ltb_lt i (i + 1))) by lia. by rewrite (nth_lookup_Some _ _ _ _ Hv).
    + intros j Hj _. by apply H3.
    + intros j Hj Hne. unfold program_byte. by replace (j <? i + 1) with (j <? i) by (destruct (Z.ltb_spec j i), (Z.ltb_spec j (i + 1)); (done || lia)).
    + intros s4 W4 H4. by split.
  - intros s3 [W3 H3]. apply HQ; [by eapply live_wrote|by rewrite (wr_only _ _ _ W3)|done].
Qed.
End image.
