(* ===== verification/UsermodeRun.v ===== *)
(** * Running a program

    run_loaded_image from the first page to the last: what the program finds when it
    starts, and that the kernel is as before when it has ended, whatever the program
    does in its own pages and wherever the loading fails. *)

From Stdlib Require Import ZArith Lia Bool.
From stdpp Require Import base numbers list list_numbers gmap sets.
From S2P Require Import Prelude Memory Bitmap Pmm Paging PagingSpace PagingLife Runtime Process ProcessProps Usermode UsermodeSpace UsermodeImage.

(** ** The process table *)

Lemma upd_process_wp s i p f (Q : unit → procs → Prop) : procs_ok s → 0 ≤ i < 8 → processes s !! Z.to_nat i = Some p →
  Q tt (set_processes (<[Z.to_nat i := f p]> (processes s)) s) → wp (upd_process i f) Q s.
Proof.
  intros Hok Hi Hp HQ. unfold upd_process. wp_step. eapply get_process_wp; [lia|exact Hp|]. apply put_process_wp; [rewrite (pk_len _ Hok); lia|done].
Qed.

(** A slot may change as long as its number stays with it. *)
Lemma procs_ok_slot s i p p' : procs_ok s → processes s !! i = Some p → process_ok p' → pid p' = pid p → is_used p' = is_used p →
  procs_ok (set_processes (<[i := p']> (processes s)) s).
Proof.
  intros Hok Hp Hp' Epid Eu. assert (Hcase : ∀ j q, <[i := p']> (processes s) !! j = Some q → ∃ q', processes s !! j = Some q' ∧ pid q = pid q' ∧ is_used q = is_used q').
  { intros j q Hq. apply list_lookup_insert_Some in Hq as [(<- & <- & _)|[_ Hq]]; eauto. }
  split; cbn; [by rewrite length_insert; apply Hok|by apply Forall_insert; [apply Hok|]|apply Hok|apply Hok| |].
  - intros j q (q' & Hq & E1 & E2)%Hcase Hu. rewrite E1. apply (pk_pids _ Hok j q' Hq). by rewrite <-E2.
  - intros j k q r (q' & Hq & E1 & E2)%Hcase (r' & Hr & E3 & E4)%Hcase Hu1 Hu2 E. eapply (pk_distinct _ Hok); [exact Hq|exact Hr|congruence..].
Qed.

Lemma procs_ok_current s i : procs_ok s → -1 ≤ i < 8 → procs_ok (set_current_process_index i s).
Proof. intros [P1 P2 P3 P4 P5 P6] Hi. by split. Qed.

Definition close (d : descriptor) : descriptor := Descriptor false (fd_file_index d) (fd_offset d).

Lemma close_all_wp s i p (Q : unit → procs → Prop) : procs_ok s → 0 ≤ i < 8 → current_process_index s = i → processes s !! Z.to_nat i = Some p →
  Q tt (set_processes (<[Z.to_nat i := set_fds (close <$> fds p) p]> (processes s)) s) → wp user_process_close_all Q s.
Proof.
  intros Hok Hi Ei Hp HQ. pose proof (pk_len _ Hok) as Hl. destruct (Forall_lookup_1 _ _ _ _ (pk_ok _ Hok) Hp) as [_ Hf].
  unfold user_process_close_all, current_process. do 4 wp_step. rewrite Ei. unfold USER_PROCESS_COUNT. rewrite (proj2 (Z.ltb_ge i 0)), (proj2 (Z.leb_gt 8 i)) by lia. cbn [orb].
  apply (wp_for _ _ _ (λ k s', s' = set_processes (<[Z.to_nat i := set_fds ((close <$> take (Z.to_nat k) (fds p)) ++ drop (Z.to_nat k) (fds p)) p]> (processes s)) s)); [done| | |].
  - cbn. unfold set_fds. replace (UserProcess _ _ _ _ _ _ _) with p by (by destruct p). rewrite list_insert_id by done. by destruct s.
  - intros k s' Hk ->. unfold USER_PROCESS_FD_COUNT in Hk. wp_step. eapply get_process_wp; [lia|cbn; apply list_lookup_insert_eq; lia|]. cbn [fds set_fds].
    destruct (lookup_lt_is_Some_2 (fds p) (Z.to_nat k)) as [d Hd]; [lia|]. assert (Ht : length (close <$> take (Z.to_nat k) (fds p)) = Z.to_nat k) by (rewrite length_fmap, length_take; lia).
    wp_step. eapply wp_lift; [apply aread_Some; split; [lia|]; rewrite lookup_app_r, Ht, Nat.sub_diag, lookup_drop by lia; rewrite Nat.add_0_r; exact Hd|].
    wp_step. eapply wp_lift; [apply awrite_eq; rewrite length_app, Ht, length_drop; lia|]. apply put_process_wp; [cbn; rewrite length_insert; lia|].
    cbn. rewrite list_insert_insert_eq. unfold set_processes. cbn. do 2 f_equal. unfold set_fds. cbn. f_equal. rewrite insert_app_r_alt by lia. rewrite Ht, Nat.sub_diag, (drop_S _ _ _ Hd). cbn.
    replace (Z.to_nat (k + 1)) with (S (Z.to_nat k)) by lia. rewrite (take_S_r _ _ _ Hd), fmap_app, <-app_assoc. done.
  - intros s' ->. unfold USER_PROCESS_FD_COUNT. rewrite take_ge, drop_ge, app_nil_r by lia. exact HQ.
Qed.

(** ** User mode *)

(** The byte that an access to [v] in user mode reaches: present and user-accessible on
    both levels of the tables. *)
Definition user_access (m : mem) (cr3 v : Z) : option Z :=
  pde ← load 4 m (entry_at cr3 (dir_index v));
  if is_present pde && Z.testbit pde 2 then
    pte ← load 4 m (entry_at (frame_of pde) (table_index v));
    if is_present pte && Z.testbit pte 2 then Some (frame_of pte + v mod 4096) else None
  else None.

Section run.
Context {P Files : Type} `{PageAllocatorLaws P}.
Context (kernel_page_directory kernel_space : Z) (usermode_enter : Z → Z → M (machine (P := P) (F := Files)) Z).
Implicit Types (m : machine (P := P) (F := Files)) (s : vm P).

(** What a program finds when it starts at [e]: at its addresses its image, zero
    elsewhere, and a clear stack; nothing else is accessible to it, and no byte twice.
    Its process is registered and current, and no translation is cached. *)
Record started m (str image : list Z) (e offset size : Z) : Prop := {
  st_memory : ∀ v, USER_PROGRAM_BASE ≤ v < USER_STACK_BASE + PAGE_SIZE →
    ∃ a, user_access (vmem (mvm m)) (cr3 (mvm m)) v = Some a ∧ vmem (mvm m) !! a = Some (program_byte image offset size (v - USER_PROGRAM_BASE));
  st_confined : ∀ v, is_u32 v → ¬ (USER_PROGRAM_BASE ≤ v < USER_STACK_BASE + PAGE_SIZE) → user_access (vmem (mvm m)) (cr3 (mvm m)) v = None;
  st_once : ∀ v w a, is_u32 v → is_u32 w → user_access (vmem (mvm m)) (cr3 (mvm m)) v = Some a → user_access (vmem (mvm m)) (cr3 (mvm m)) w = Some a → v = w;
  st_tlb : tlb (mvm m) = ∅;
  st_process : let ps := sprocs (msystem m) in procs_ok ps ∧ 0 ≤ current_process_index ps ∧ ∃ p, processes ps !! Z.to_nat (current_process_index ps) = Some p ∧
    state p = USER_PROCESS_RUNNING ∧ entry p = e ∧ address_space p = current_space (mvm m) ∧ cstring (name p) = Some (take 31 str) ∧ fds p = replicate 8 closed }.

(** What the execution of a program in user mode may do: change the bytes that are
    accessible to it and, by system calls, its descriptors and the files. *)
Record stopped m m' : Prop := {
  sd_pages : pager (mvm m') = pager (mvm m);
  sd_space : current_space (mvm m') = current_space (mvm m) ∧ cr3 (mvm m') = cr3 (mvm m);
  sd_bytes : bytes_ok (vmem (mvm m)) → bytes_ok (vmem (mvm m'));
  sd_mapped : ∀ a, is_Some (vmem (mvm m) !! a) → is_Some (vmem (mvm m') !! a);
  sd_frame : ∀ a, (∀ v, is_u32 v → user_access (vmem (mvm m)) (cr3 (mvm m)) v ≠ Some a) → vmem (mvm m') !! a = vmem (mvm m) !! a;
  sd_procs : procs_ok (sprocs (msystem m)) → procs_ok (sprocs (msystem m'));
  sd_current : current_process_index (sprocs (msystem m')) = current_process_index (sprocs (msystem m));
  sd_process : ∀ p, processes (sprocs (msystem m)) !! Z.to_nat (current_process_index (sprocs (msystem m))) = Some p →
    ∃ p', processes (sprocs (msystem m')) !! Z.to_nat (current_process_index (sprocs (msystem m))) = Some p' ∧ pid p' = pid p ∧ state p' = state p;
  sd_image : load_image m' = load_image m }.

(** The kernel between two programs. *)
Record ready m (U A : gset Z) (D O : Z → Z) (F : Z → Z → Z) : Prop := {
  rd_vm : vm_ok kernel_space (mvm m) U A kernel_space kernel_page_directory D O F;
  rd_room : room_after (mvm m) U A kernel_space kernel_page_directory D;
  rd_first : is_present (D 0) = true;
  rd_kernel : ∀ i k, 0 ≤ i < 1024 → 0 ≤ k < 1024 → Z.testbit (trans D F i k) 2 = false;
  rd_gap : ∀ p, p ∈ U ∖ A → p + 1 ∉ A;
  rd_space : current_space (mvm m) = kernel_space ∧ cr3 (mvm m) = kernel_page_directory;
  rd_procs : procs_ok (sprocs (msystem m));
  rd_image : length (load_image m) = Z.to_nat 65536 }.

Section one.
Context (s0 : vm P) (U A : gset Z) (Dk Ok : Z → Z) (Fk : Z → Z → Z).
Context (Hk0 : vm_ok kernel_space s0 U A kernel_space kernel_page_directory Dk Ok Fk) (HD0 : is_present (Dk 0) = true)
  (Hroom : room_after s0 U A kernel_space kernel_page_directory Dk) (Hker : ∀ i k, 0 ≤ i < 1024 → 0 ≤ k < 1024 → Z.testbit (trans Dk Fk i k) 2 = false).

Local Abbreviation live := (live kernel_page_directory kernel_space s0 U A Dk).
Local Abbreviation plain := (plain kernel_page_directory kernel_space s0 U A Dk Ok Fk).
Local Abbreviation image_mapped := (image_mapped Dk Fk).

Lemma image_entry_bits ps k : 0 ≤ nth (Z.to_nat k) ps 0 < 32768 →
  is_present (image_entry ps k) = true ∧ Z.testbit (image_entry ps k) 2 = true ∧ frame_of (image_entry ps k) = nth (Z.to_nat k) ps 0 * 4096.
Proof.
  intros Hx. unfold image_entry. split_and!.
  - by rewrite present_lor, orb_true_r.
  - by rewrite Z.lor_spec, orb_true_r.
  - assert (Hu : is_u32 (nth (Z.to_nat k) ps 0 * 4096)) by (unfold is_u32; lia). rewrite frame_lor by (done || lia). apply frame_aligned; [done|by apply Z.mod_mul].
Qed.

(** Exactly the pages of the program are accessible. *)
Lemma user_access_live s p q D O F pa v : live s p q D O F (pset pa) → image_mapped pa 17 D O F → length pa = 17%nat → is_u32 v →
  user_access (vmem s) (q * 4096) v = if (4194304 <=? v) && (v <? 4263936) then Some (cell pa (v - 4194304)) else None.
Proof.
  clear usermode_enter. intros L (M1 & _ & _ & M4) Hl Hv. pose proof (lv_ok _ _ _ _ _ _ _ _ _ _ _ _ _ L) as Hok. pose proof (vo_space _ _ _ _ _ _ _ _ _ Hok) as Hs. destruct (index_eq _ Hv) as (_ & _ & Hi & Hk).
  destruct (M1 ltac:(lia)) as [HO Hu]. unfold user_access. rewrite (sr_dir _ _ _ _ _ _ _ Hs _ Hi). cbn [mbind option_bind].
  set (i := dir_index v) in *. set (k := table_index v) in *. specialize (M4 i k).
  assert (Hin : (4194304 <=? v) && (v <? 4263936) = (i =? 1) && ((0 <=? k) && (k <? 17))).
  { apply eq_bool_prop_intro. rewrite !andb_True, !Is_true_true, !Z.leb_le, !Z.ltb_lt, Z.eqb_eq. unfold i, k, dir_index, table_index in *. unfold is_u32 in Hv. Z.to_euclidean_division_equations; lia. }
  rewrite Hin. destruct ((i =? 1) && ((0 <=? k) && (k <? 17))) eqn:E.
  - clear Hin. bool_to_prop. assert (i = 1) as Ei by lia. rewrite Ei in *.
    destruct (owned_table _ _ _ _ _ _ _ _ _ _ _ _ _ 1 L ltac:(lia) HO) as (Hpr & _). rewrite Hpr, Hu. cbn [andb].
    destruct (sr_tables _ _ _ _ _ _ _ Hs 1 ltac:(lia) Hpr) as [_ Ht]. rewrite (Ht _ Hk). cbn [mbind option_bind]. unfold trans in M4. rewrite Hpr in M4. rewrite M4.
    destruct (lookup_lt_is_Some_2 pa (Z.to_nat k)) as [x Hx]; [lia|]. pose proof (page_bound _ _ _ _ _ _ _ _ _ _ _ _ _ _ L (pset_in _ _ _ Hx)) as Hb.
    destruct (image_entry_bits pa k) as (B1 & B2 & B3); [rewrite (nth_lookup_Some _ _ _ _ Hx); lia|]. rewrite B1, B2, B3. cbn [andb]. f_equal. unfold cell. f_equal.
    + do 2 f_equal. unfold i, k, dir_index, table_index in *. Z.to_euclidean_division_equations; lia.
    + Z.to_euclidean_division_equations; lia.
  - destruct (is_present (D i)) eqn:Hpr; cbn [andb]; [|done]. destruct (Z.testbit (D i) 2); [|done]. destruct (sr_tables _ _ _ _ _ _ _ Hs i Hi Hpr) as [_ Ht]. rewrite (Ht _ Hk). cbn [mbind option_bind].
    unfold trans in M4. rewrite Hpr in M4. rewrite M4. specialize (Hker i k Hi Hk). unfold trans in Hker. by rewrite Hker, andb_false_r.
Qed.

Lemma on_vm_wp {B} (c : M (vm P) B) m (Q : B → machine (P := P) (F := Files) → Prop) : wp c (λ b s, Q b (set_mvm s m)) (mvm m) → wp (on_vm c) Q m.
Proof. apply wp_zoom. Qed.
Lemma on_table_wp {B} (c : M procs B) m (Q : B → machine (P := P) (F := Files) → Prop) :
  wp c (λ b t, Q b (set_msystem (set_sprocs t (msystem m)) m)) (sprocs (msystem m)) → wp (on_system (on_procs c)) Q m.
Proof. intros Hw. apply wp_zoom, on_procs_wp, Hw. Qed.

(** The process [i] after its program has ended with [code]. *)
Definition ended (t : procs) (i code : Z) : Prop :=
  procs_ok t ∧ current_process_index t = i ∧ ∃ p, processes t !! Z.to_nat i = Some p ∧ state p = USER_PROCESS_EXITED ∧ exit_code p = code ∧
    Forall (λ d, fd_open d = false) (fds p).

Lemma started_live m str image e offset size p q D O F pa i nm n rest : live (mvm m) p q D O F (pset pa) → image_mapped pa 17 D O F → length pa = 17%nat → NoDup pa →
  holds (mvm m) pa 69632 (program_byte image offset size) → current_space (mvm m) = p * 4096 → cr3 (mvm m) = q * 4096 → tlb (mvm m) = ∅ →
  procs_ok (sprocs (msystem m)) → 0 ≤ i < 8 → current_process_index (sprocs (msystem m)) = i → cstring nm = Some (take 31 str) →
  processes (sprocs (msystem m)) = <[Z.to_nat i := UserProcess n USER_PROCESS_RUNNING nm e 0 (p * 4096) (replicate 8 closed)]> rest → length rest = 8%nat →
  started m str image e offset size.
Proof.
  intros L M Hl Hnd Hh Hc Hd Ht Hok Hi Ei Hnm Ep Hr. assert (Hacc := λ v, user_access_live _ _ _ _ _ _ _ v L M Hl).
  split; unfold USER_STACK_BASE, USER_PROGRAM_BASE, USER_IMAGE_PAGES, PAGE_SIZE; rewrite ?Hd.
  - change (4194304 + 16 * 4096 + 4096) with 4263936. intros v Hv. exists (cell pa (v - 4194304)). assert (Hv' : is_u32 v) by (unfold is_u32; lia). rewrite Hacc, (proj2 (Z.leb_le 4194304 v)), (proj2 (Z.ltb_lt v 4263936)) by (done || lia). split; [done|]. apply Hh. lia.
  - change (4194304 + 16 * 4096 + 4096) with 4263936. intros v Hv Hn. rewrite Hacc by done. destruct (Z.leb_spec 4194304 v), (Z.ltb_spec v 4263936); cbn [andb]; try done. lia.
  - intros v w a Hv Hw. rewrite !Hacc by done. destruct (Z.leb_spec 4194304 v), (Z.ltb_spec v 4263936), (Z.leb_spec 4194304 w), (Z.ltb_spec w 4263936); cbn [andb]; try done.
    intros [= E1] [= E2]. rewrite <-E2 in E1. apply cell_inj in E1; [lia|done|lia|lia].
  - done.
  - cbn zeta. split_and!; [done|lia|]. eexists. rewrite Ei, Ep. split; [apply list_lookup_insert_eq; lia|]. by rewrite Hc.
Qed.

(** The program runs and ends; what is left is its process, with its code, and the kernel's space. *)
Lemma run_process_wp m p q D O F pa i str e image offset size (C : Z → Prop) t0 (Q : Z → machine → Prop) :
  (∀ m, started m str image e offset size → wp (usermode_enter e (USER_STACK_BASE + PAGE_SIZE)) (λ code m', stopped m m' ∧ C code) m) →
  live (mvm m) p q D O F (pset pa) → image_mapped pa 17 D O F → length pa = 17%nat → NoDup pa → holds (mvm m) pa 69632 (program_byte image offset size) →
  procs_ok t0 → next_pid t0 + 1 < 4294967296 → 0 ≤ i < 8 → claimed t0 (sprocs (msystem m)) i str e →
  (∀ code m', live (mvm m') p q D O F (pset pa) → current_space (mvm m') = kernel_space → cr3 (mvm m') = kernel_page_directory →
     ended (sprocs (msystem m')) i code → C code → load_image m' = load_image m → Q code m') →
  wp (run_process kernel_space usermode_enter (p * 4096) i e) Q m.
Proof.
  intros Henter L M Hl Hnd Hh Hok0 Hpid Hi Hcl HQ. pose proof (claimed_ok _ _ _ _ _ Hok0 Hi Hpid Hcl) as Hok. destruct Hcl as (nm & Hnm & Hnml & Et).
  pose proof (pk_len _ Hok0) as Hlen. unfold run_process. wp_step. apply on_table_wp. eapply upd_process_wp; [exact Hok|exact Hi|rewrite Et; cbn; apply list_lookup_insert_eq; lia|].
  set (t1 := set_processes _ _).
  assert (Hok1 : procs_ok t1).
  { eapply procs_ok_slot; [exact Hok|rewrite Et; cbn; apply list_lookup_insert_eq; lia|by split|done|done]. }
  wp_step. apply on_vm_wp. cbn [mvm set_msystem]. pose proof (vo_space _ _ _ _ _ _ _ _ _ (lv_ok _ _ _ _ _ _ _ _ _ _ _ _ _ L)) as Hs.
  eapply switch_wp; [apply Hs|apply Hs|apply (sr_page _ _ _ _ _ _ _ Hs)|]. set (m1 := set_mvm _ _).
  assert (L1 : live (mvm m1) p q D O F (pset pa)) by (eapply (live_same kernel_page_directory); [exact L|done|done]).
  assert (St : started m1 str image e offset size).
  { eapply (started_live m1 str image e offset size p q D O F pa i nm (next_pid t0) (processes t0)); try done.
    - subst m1 t1. cbn. rewrite Et. done.
    - subst m1 t1. cbn. rewrite Et. cbn. by rewrite list_insert_insert_eq. }
  wp_step. eapply wp_mono; [by apply Henter|]. intros code m2 [[S1 S2 S3 S4 S5 S6 S7 S8 S9] HC].
  assert (L2 : live (mvm m2) p q D O F (pset pa)).
  { eapply (live_mem kernel_page_directory); [exact Hk0|exact L1|done|apply S3, L1|exact S4|]. intros a Ha. apply S5. intros v Hv. change (cr3 (mvm m1)) with (q * 4096).
    rewrite (user_access_live _ _ _ _ _ _ _ _ L1 M Hl Hv). destruct (_ && _) eqn:E; [|done]. intros [= <-]. bool_to_prop. apply Ha.
    eapply (cell_live _ _ _ _ _ _ _ _ _ _ _ _ _ _ L1). lia. }
  pose proof (vo_space _ _ _ _ _ _ _ _ _ (kernel_kept _ _ _ _ _ _ _ _ Hk0 _ _ _ _ _ _ _ L2)) as Hks.
  unfold paging_kernel_address_space. wp_step. apply on_vm_wp. wp_step. wp_step. apply on_vm_wp. cbn [mvm set_mvm].
  eapply switch_wp; [apply Hks|apply Hks|apply (sr_page _ _ _ _ _ _ _ Hks)|].
  assert (Ei : current_process_index (sprocs (msystem m1)) = i) by (subst m1 t1; cbn; by rewrite Et).
  rewrite Ei in S7, S8. destruct (S8 (UserProcess (next_pid t0) USER_PROCESS_RUNNING nm e 0 (p * 4096) (replicate 8 closed))) as (p2 & Hp2 & Epid & Est).
  { subst m1 t1. cbn. rewrite Et. cbn. rewrite list_insert_insert_eq. apply list_lookup_insert_eq. lia. }
  set (t2 := sprocs (msystem m2)) in *. assert (Hok2 : procs_ok t2) by (by apply S6). destruct (Forall_lookup_1 _ _ _ _ (pk_ok _ Hok2) Hp2) as [Pn Pf]. pose proof (lookup_lt_Some _ _ _ Hp2) as Hlt.
  wp_step. apply on_table_wp. cbn [msystem set_mvm set_msystem]. fold t2. eapply upd_process_wp; [exact Hok2|exact Hi|exact Hp2|].
  set (p3 := set_exit_code code p2). assert (Hok3 : procs_ok (set_processes (<[Z.to_nat i := p3]> (processes t2)) t2)) by (eapply procs_ok_slot; [exact Hok2|exact Hp2|by split|done|done]).
  wp_step. apply on_table_wp. cbn [msystem set_mvm set_msystem sprocs set_sprocs]. eapply upd_process_wp; [exact Hok3|exact Hi|cbn; by apply list_lookup_insert_eq|]. cbn [processes set_processes].
  set (p4 := set_state USER_PROCESS_EXITED p3). rewrite list_insert_insert_eq.
  assert (Hok4 : procs_ok (set_processes (<[Z.to_nat i := p4]> (processes t2)) t2)).
  { eapply procs_ok_slot; [exact Hok2|exact Hp2|by split|done|]. unfold is_used. cbn. by rewrite Est. }
  wp_step. apply on_table_wp. cbn [msystem set_mvm set_msystem sprocs set_sprocs]. eapply close_all_wp; [exact Hok4|exact Hi|exact S7|cbn; by apply list_lookup_insert_eq|].
  wp_step. cbn [processes set_processes]. rewrite list_insert_insert_eq. apply HQ; [|done|done| |done|done].
  - eapply (live_same kernel_page_directory); [exact L2|done|done].
  - cbn. split_and!; [|exact S7|].
    + eapply (procs_ok_slot t2); [exact Hok2|exact Hp2|split; cbn; [done|by rewrite length_fmap]|done|]. unfold is_used. cbn. by rewrite Est.
    + eexists. split; [cbn; by apply list_lookup_insert_eq|]. split_and!; [done|done|]. cbn. apply Forall_fmap, Forall_true. done.
Qed.

Lemma stack_index : dir_index USER_STACK_BASE = 1 ∧ is_u32 USER_STACK_BASE.
Proof. done. Qed.

Lemma drop_stack a ps : a ∉ ps → pset (ps ++ [a]) ∖ {[a]} = pset ps ∧ pset ps ∖ pset ps = (∅ : gset Z) ∧ pset (ps ++ [a]) ∖ pset ps = {[a]}.
Proof.
  intros Ha. rewrite pset_stack. rewrite <-(elem_of_list_to_set (C := gset Z)) in Ha. fold (pset ps) in Ha. split_and!; [set_solver + Ha|by rewrite difference_diag_L|set_solver + Ha].
Qed.

(** The end of a program: its pages, its stack and its space are given back. *)
Lemma end_program_wp {B} m p q D O F a ps (k : M machine B) (Q : B → machine → Prop) : live (mvm m) p q D O F (pset (ps ++ [a])) → NoDup (ps ++ [a]) → length ps = 16%nat → O 1 ≠ 0 →
  current_space (mvm m) ≠ p * 4096 → (∀ s', plain s' ∅ → same_regs (mvm m) s' → wp k Q (set_mvm s' m)) →
  wp (_ ← on_vm (paging_unmap_page_in_space (p * 4096) USER_STACK_BASE); _ ← on_vm (pmm_free_page (a * 4096));
      _ ← on_vm (release_image_pages (p * 4096) (frames ps)); _ ← on_vm (paging_destroy_address_space kernel_space (p * 4096)); k) Q m.
Proof.
  intros L (Hnd & Ha & _)%NoDup_app Hl HO Hcur Hk. assert (Ha' : a ∉ ps) by (intros Hin; apply (Ha a Hin); set_solver +). destruct stack_index as [Ed Eu]. destruct (drop_stack a ps Ha') as (E1 & E2 & _).
  wp_step. apply on_vm_wp. eapply (live_unmap kernel_page_directory); [exact Hk0|exact L|done|by rewrite Ed|by rewrite Ed|]. intros s1 F1 L1 [_ [R1 R1']].
  wp_step. apply on_vm_wp. cbn [mvm set_mvm]. eapply (live_free kernel_page_directory); [exact Hk0|exact L1|rewrite pset_stack; set_solver +|]. intros pg L2. rewrite E1 in L2.
  wp_step. apply on_vm_wp. cbn [mvm set_mvm]. eapply release_image_wp; [exact Hk0|exact L2|done|done|done|done|]. intros s3 F3 L3 [R3 R3']. rewrite E2 in L3.
  wp_step. apply on_vm_wp. cbn [mvm set_mvm]. cbn [current_space cr3 set_pager] in *. eapply (live_destroy kernel_page_directory); [exact Hk0|exact HD0|exact Hroom|exact L3|congruence|]. intros s4 Pl R4 R4'.
  apply (Hk s4 Pl). split; congruence.
Qed.

(** The same without a process: the stack is given back last. *)
Lemma refuse_wp {B} m p q D O F a ps (k : M machine B) (Q : B → machine → Prop) : live (mvm m) p q D O F (pset (ps ++ [a])) → NoDup (ps ++ [a]) → length ps = 16%nat → O 1 ≠ 0 →
  current_space (mvm m) ≠ p * 4096 → (∀ s', plain s' ∅ → same_regs (mvm m) s' → wp k Q (set_mvm s' m)) →
  wp (_ ← on_vm (paging_unmap_page_in_space (p * 4096) USER_STACK_BASE); _ ← on_vm (release_image_pages (p * 4096) (frames ps));
      _ ← on_vm (paging_destroy_address_space kernel_space (p * 4096)); _ ← on_vm (pmm_free_page (a * 4096)); k) Q m.
Proof.
  intros L (Hnd & Ha & _)%NoDup_app Hl HO Hcur Hk. assert (Ha' : a ∉ ps) by (intros Hin; apply (Ha a Hin); set_solver +). destruct stack_index as [Ed Eu]. destruct (drop_stack a ps Ha') as (_ & _ & E3).
  wp_step. apply on_vm_wp. eapply (live_unmap kernel_page_directory); [exact Hk0|exact L|done|by rewrite Ed|by rewrite Ed|]. intros s1 F1 L1 [_ [R1 R1']].
  wp_step. apply on_vm_wp. cbn [mvm set_mvm]. eapply release_image_wp; [exact Hk0|exact L1|done|rewrite pset_stack; set_solver +|done|done|]. intros s3 F3 L3 [R3 R3']. rewrite E3 in L3.
  wp_step. apply on_vm_wp. cbn [mvm set_mvm]. eapply (live_destroy kernel_page_directory); [exact Hk0|exact HD0|exact Hroom|exact L3|congruence|]. intros s4 Pl R4 R4'.
  wp_step. apply on_vm_wp. cbn [mvm set_mvm]. eapply (plain_free kernel_page_directory); [exact Hk0|exact Pl|set_solver +|]. intros pg Pl'. rewrite difference_diag_L in Pl'.
  apply (Hk _ Pl'). unfold same_regs. cbn [current_space cr3 set_pager]. split; congruence.
Qed.

(** The stack and the space; [X] is what is in use when one of them is missing. *)
Lemma begin_program_wp {B} m (k : Z → Z → M machine B) (Q : B → machine → Prop) : mvm m = s0 → (∀ p, p ∈ U ∖ A → p + 1 ∉ A) →
  (∀ s' st X, plain s' X → same_regs s0 s' → (st = 0 ∧ X = ∅ ∨ ∃ a, 0 < a ∧ st = a * 4096 ∧ X = {[a]}) → (size (U ∖ A) < 20)%nat → wp (k st 0) Q (set_mvm s' m)) →
  (∀ s' a p q, live s' p q Dk (λ _, 0) Fk {[a]} → same_regs s0 s' → 0 < a → wp (k (a * 4096) (p * 4096)) Q (set_mvm s' m)) →
  wp (st ← on_vm pmm_alloc_page; sp ← on_vm (paging_create_address_space kernel_page_directory); k st sp) Q m.
Proof.
  intros Em Hgap Hfail HQ. wp_step. apply on_vm_wp. rewrite Em. apply (alloc_one_wp s0 U A); [apply Hk0| |].
  - intros E. wp_step. apply on_vm_wp. cbn [mvm set_mvm]. eapply create_wp; [exact Hk0|exact Hroom| |].
    + intros s' Hsz Hok' (Es & Hker' & Hmap). apply (Hfail s' 0 ∅); [|rewrite Es; done|by left|lia]. split; [by rewrite union_empty_r_L|set_solver +|done|done].
    + intros s' p q C. exfalso. destruct (cr_fresh _ _ _ _ _ _ _ _ _ _ _ C) as (Hp & _). set_solver + E Hp.
  - intros a pg Ha Ha0 Hmin Hpg. wp_step. apply on_vm_wp. cbn [mvm set_mvm].
    assert (Pl : plain (set_pager pg s0) {[a]}) by (split; [eapply (vm_ok_pager kernel_space s0); [exact Hk0|done|set_solver +]|set_solver + Ha|done|done]).
    eapply create_wp; [apply Pl|intros p Hp b Hb; apply (Hroom p); [set_solver + Hp|done]| |].
    + intros s' Hsz Hok' (Es & Hker' & Hmap). apply (Hfail s' (a * 4096) {[a]}); [|rewrite Es; done|right; exists a; split_and!; [lia|done|done]|].
      * split; [done|set_solver + Ha|exact Hker'|exact Hmap].
      * pose proof (size_but_one U A a). lia.
    + intros s' p q C. destruct (cr_fresh _ _ _ _ _ _ _ _ _ _ _ C) as (Hp & Hq & Hne). pose proof (cr_first _ _ _ _ _ _ _ _ _ _ _ C) as Hfirst.
      apply HQ with q; [|rewrite (cr_rest _ _ _ _ _ _ _ _ _ _ _ C); done|lia]. eapply live_created; [exact Hk0|exact Hroom|exact Pl|exact C|].
      destruct (decide (p + 1 ∈ U)) as [Hin|]; [left|by right]. assert (Hpa : a ≤ p) by (apply Hmin; set_solver + Hp).
      assert (Hn : p + 1 ∉ A) by (apply Hgap; set_solver + Hp). assert (Hx : p + 1 ∈ U ∖ (A ∪ {[a]})) by (assert (Hpa' : p + 1 ≠ a) by lia; set_solver + Hin Hn Hpa').
      destruct (Hfirst _ Hx) as [_ Hle]. destruct (Hfirst _ Hq) as [Hle' _]. specialize (Hle ltac:(lia)). lia.
Qed.
End one.

(** ** The whole run *)

Lemma ready_again m m' U A D O F : ready m U A D O F → plain kernel_page_directory kernel_space (mvm m) U A D O F (mvm m') ∅ →
  current_space (mvm m') = kernel_space → cr3 (mvm m') = kernel_page_directory → procs_ok (sprocs (msystem m')) → load_image m' = load_image m → ready m' U A D O F.
Proof.
  intros [R1 R2 R3 R4 R5 R6 R7 R8] [Hok _ _ Hmap] Hc Hd Hp Hi. rewrite union_empty_r_L in Hok. split; try done; [|by rewrite Hi].
  intros p Hx b Hb. destruct (R2 p Hx b Hb) as [H1 H2]. split; [by apply Hmap|done].
Qed.

(** How a run ends. *)
Definition outcome m m' (U A : gset Z) (e size : Z) (C : Z → Prop) (r : Z) : Prop :=
  (r = -21 ∧ ¬ (USER_PROGRAM_BASE ≤ e < USER_STACK_BASE ∧ size ≤ 65536) ∧ m' = m) ∨
  ((r = -22 ∨ r = -23) ∧ (base.size (U ∖ A) < 20)%nat ∧ msystem m' = msystem m) ∨
  (r = -25 ∧ Forall (λ p, state p = USER_PROCESS_RUNNING) (processes (sprocs (msystem m))) ∧ msystem m' = msystem m) ∨
  (C r ∧ current_process_index (sprocs (msystem m')) = -1 ∧ ∃ i p, processes (sprocs (msystem m')) !! i = Some p ∧
     state p = USER_PROCESS_EXITED ∧ exit_code p = r ∧ address_space p = 0 ∧ Forall (λ d, fd_open d = false) (fds p)).

Lemma run_loaded_image_wp m U A D O F pname str e image offset size (C : Z → Prop) : ready m U A D O F → cstring pname = Some str → next_pid (sprocs (msystem m)) + 1 < 4294967296 →
  Forall is_u8 image → 0 ≤ offset → 0 ≤ size → offset + size ≤ Z.of_nat (length image) →
  (∀ m, started m str image e offset size → wp (usermode_enter e (USER_STACK_BASE + PAGE_SIZE)) (λ code m', stopped m m' ∧ C code) m) →
  wp (run_loaded_image kernel_page_directory kernel_space usermode_enter pname e image offset size) (λ r m', ready m' U A D O F ∧ outcome m m' U A e size C r) m.
Proof.
  intros R Hname Hpid Hb Ho Hsz Hlen Henter. destruct (rd_space _ _ _ _ _ _ R) as [Ec Ed]. pose proof (rd_procs _ _ _ _ _ _ R) as Hprocs.
  pose proof (rd_vm _ _ _ _ _ _ R) as Hk0. pose proof (rd_first _ _ _ _ _ _ R) as HD0. pose proof (rd_room _ _ _ _ _ _ R) as Hroom. pose proof (rd_kernel _ _ _ _ _ _ R) as Hker.
  assert (Hpl : ∀ s' r, plain kernel_page_directory kernel_space (mvm m) U A D O F s' ∅ → same_regs (mvm m) s' → outcome m (set_mvm s' m) U A e size C r →
    ready (set_mvm s' m) U A D O F ∧ outcome m (set_mvm s' m) U A e size C r).
  { intros s' r Pl [R1 R2] Hout. split; [|done]. apply (ready_again m); [done|done|cbn; congruence|cbn; congruence|done|done]. }
  unfold run_loaded_image. change (USER_PROGRAM_BASE + USER_IMAGE_PAGES * PAGE_SIZE) with USER_STACK_BASE. change (USER_IMAGE_PAGES * PAGE_SIZE) with 65536.
  destruct (_ || (65536 <? size)) eqn:Eg.
  { wp_step. split; [done|]. left. split_and!; [done| |done]. bool_to_prop. lia. }
  bool_to_prop. eapply (begin_program_wp (mvm m) U A D O F Hk0 Hroom m _ _ eq_refl (rd_gap _ _ _ _ _ _ R)).
  - intros s' st X Pl Rg Hst Hfew. cbn [Z.eqb negb when]. rewrite orb_true_r. wp_step. wp_step. destruct Hst as [[-> ->]|(a & Ha & -> & ->)].
    + cbn [Z.eqb negb when]. do 3 wp_step. apply Hpl; [done|done|]. right. left. split_and!; [by left|done|done].
    + rewrite (proj2 (Z.eqb_neq (a * 4096) 0)) by lia. cbn [negb when]. wp_step. apply on_vm_wp. cbn [mvm set_mvm].
      eapply (plain_free kernel_page_directory); [exact Hk0|exact Pl|set_solver +|]. intros pg Pl'. rewrite difference_diag_L in Pl'. wp_step.
      apply Hpl; [done|exact Rg|]. right. left. split_and!; [by left|done|done].
  - intros s1 a p q L1 [R1 R1'] Ha. destruct (live_struct kernel_page_directory kernel_space (mvm m) U A D O F Hk0 _ _ _ _ _ _ _ L1) as (_ & _ & Hne & Hp0 & _).
    rewrite (proj2 (Z.eqb_neq (a * 4096) 0)), (proj2 (Z.eqb_neq (p * 4096) 0)) by lia. cbn [orb]. wp_step. apply on_vm_wp. cbn [mvm set_mvm].
    eapply alloc_image_wp; [exact Hk0|exact HD0|exact Hroom|exact L1|done|congruence| |].
    { intros s2 Pl [R2 R2'] Hfew. wp_step. apply Hpl; [done|split; congruence|]. right. left. split_and!; [by left|done|done]. }
    intros s2 ps Hl Hnd L2 [R2 R2']. wp_step. apply on_vm_wp. cbn [mvm set_mvm].
    eapply map_image_wp; [exact Hk0|exact HD0|exact Hroom|exact L2|done|done|congruence| |].
    { intros s3 Pl [R3 R3'] Hfew. wp_step. apply Hpl; [done|split; congruence|]. right. left. split_and!; [by right|done|done]. }
    intros s3 D3 O3 F3 L3 M3 [R3 R3']. wp_step. apply on_vm_wp. cbn [mvm set_mvm]. change USER_STACK_BASE with (USER_PROGRAM_BASE + 16 * PAGE_SIZE) at 1.
    eapply (map_next_wp kernel_page_directory); [exact Hk0|exact L3|exact M3|lia| |set_solver +|done|].
    { by rewrite lookup_app_r, Hl by lia. }
    intros s4 D4 O4 F4 L4 M4 [R4 R4']. cbn [negb]. change (16 + 1) with 17 in M4. destruct (proj1 M4 ltac:(lia)) as [HO4 _].
    assert (Hnd' : NoDup (ps ++ [a])) by (by rewrite <-Permutation_cons_append). assert (Hl17 : length (ps ++ [a]) = 17%nat) by (rewrite length_app, Hl; done).
    wp_step. apply on_vm_wp. cbn [mvm set_mvm]. eapply fill_image_wp; [exact Hk0|exact L4|done|done|done|done|lia|done|]. intros s5 L5 [R5 R5'] H5. rewrite <-pset_stack in L5.
    wp_step. apply on_table_wp. cbn [msystem set_mvm]. apply (allocate_process_wp _ pname str); [done|done| |].
    + intros Hall. rewrite set_sprocs_id. eapply (refuse_wp (mvm m) U A D O F Hk0 HD0 Hroom); [exact L5|done|done|done|cbn; congruence|].
      intros s6 Pl [R6 R6']. wp_step. cbn in R6, R6'. apply Hpl; [done|split; congruence|]. right. right. left. split_and!; done.
    + intros i p0 t1 Hi Hp0' Hst Hcl. wp_step.
      eapply (run_process_wp (mvm m) U A D O F Hk0 Hker _ p q D4 O4 F4 (ps ++ [a]) i str e image offset size C); try done.
      intros code m2 L6 Ec2 Ed2 (Hok2 & Ei2 & p2 & Hp2 & Est & Eex & Hfd) HC Eim.
      eapply (end_program_wp (mvm m) U A D O F Hk0 HD0 Hroom); [exact L6|done|done|done|congruence|]. intros s7 Pl [R7 R7'].
      pose proof (lookup_lt_Some _ _ _ Hp2) as Hlt. destruct (Forall_lookup_1 _ _ _ _ (pk_ok _ Hok2) Hp2) as [Pn Pf].
      wp_step. apply on_table_wp. cbn [msystem set_mvm]. eapply upd_process_wp; [exact Hok2|exact Hi|exact Hp2|].
      wp_step. apply on_table_wp. wp_step. wp_step. split.
      * apply (ready_again m); [exact R|exact Pl|cbn; congruence|cbn; congruence| |cbn; by rewrite Eim]. cbn. apply procs_ok_current; [|lia]. eapply procs_ok_slot; [exact Hok2|exact Hp2|by split|done|done].
      * right. right. right. split_and!; [done|done|]. exists (Z.to_nat i), (set_address_space 0 p2). cbn. split_and!; try done. by apply list_lookup_insert_eq.
Qed.

(** C3. Running a program leaves the kernel as it was, from every state that is [ready]
    for it: the page allocator, the kernel's address space and the process table are
    in order, the kernel's space is the current one, its first table is present, it
    gives no page to user mode, and no free page is directly followed by an allocated
    page or by a page of the kernel's structure, directory and tables. The last
    condition is needed, since the structure of an address space has 4100 bytes and
    lies in one page of 4096: in a state with such a gap, creating the space clears a
    word of another owner. From a ready state, with fewer than 2^32 processes started
    so far, and at whatever step the loading fails, every page that was taken is given
    back, the kernel's address space is the current one again with the same
    translations, and the state is ready again, so that the next program can be run.
    A program with an entry point and a size in range starts, with its image in place
    and nothing else accessible ([started] is what the program may rely on), unless
    fewer than 20 pages are free or every process is running. What is assumed of the
    program ([stopped]) is that it ends, that memory changes only where its pages are
    accessible to it, which excludes a system call with a buffer in the kernel, and
    that its system calls keep the process table in order; its process is then an
    exited one with the program's exit code and no open file. *)
Theorem run_loaded_image_spec m U A D O F pname str e image offset size (C : Z → Prop) : ready m U A D O F → cstring pname = Some str → next_pid (sprocs (msystem m)) + 1 < 4294967296 →
  Forall is_u8 image → 0 ≤ offset → 0 ≤ size → offset + size ≤ Z.of_nat (length image) →
  (∀ m, started m str image e offset size → wp (usermode_enter e (USER_STACK_BASE + PAGE_SIZE)) (λ code m', stopped m m' ∧ C code) m) →
  ∃ r m', run_loaded_image kernel_page_directory kernel_space usermode_enter pname e image offset size m = Some (r, m') ∧
    ready m' U A D O F ∧ outcome m m' U A e size C r.
Proof.
  intros R Hname Hpid Hb Ho Hsz Hlen Henter. apply (run_loaded_image_wp m U A D O F pname str e image offset size C); done.
Qed.
End run.
