(* ===== verification/UsermodeDemo.v ===== *)
(** * A program on the small machine

    The machine of PagingProps after initialization, with an empty process table, on
    which run_loaded_image_spec is applied to a program of two bytes. *)

From Stdlib Require Import ZArith Lia Bool.
From stdpp Require Import base numbers list list_numbers gmap sets.
From S2P Require Import Prelude Memory Bitmap Pmm Paging PagingSpace PagingLife PagingInit PagingProps Runtime Process ProcessProps Usermode UsermodeLoad UsermodeSpace UsermodeImage UsermodeRun.

Definition demo_enter (e stack : Z) : M (machine (P := pmm) (F := unit)) Z := mret 7.

Lemma demo_enter_stops m : wp (demo_enter 0x400000 (USER_STACK_BASE + PAGE_SIZE)) (λ code m', stopped m m' ∧ code = 7) m.
Proof. apply wp_ret. split; [|done]. split; try done. intros p Hp. by exists p. Qed.

Lemma self_entry_kernel n : Z.testbit (self_entry n) 2 = false.
Proof.
  unfold self_entry, PAGE_PRESENT, PAGE_WRITABLE. rewrite !Z.lor_spec. change (Z.testbit 1 2) with false. change (Z.testbit 2 2) with false. rewrite !orb_false_r.
  change 4096 with (2 ^ 12). by apply Z.mul_pow2_bits_low.
Qed.

(** A machine that has been initialized. *)
Definition demo_start (m : machine (P := pmm) (F := unit)) : Prop := ∃ s, demo_ready s ∧ m = Machine s (System boot_procs tt) blank_image.

Lemma demo_usable_size : (20 ≤ size demo_usable)%nat.
Proof.
  assert (Hsub : block 0x180 20 ⊆ demo_usable) by (intros x Hx%elem_of_block; apply demo_usable_range; lia).
  apply subseteq_size in Hsub. unfold block in Hsub. rewrite size_list_to_set in Hsub by apply NoDup_seqZ. rewrite length_seqZ in Hsub. lia.
Qed.

Lemma run_loaded_image_spec_witness : ∃ m m', demo_start m ∧
  run_loaded_image 0x100000 0x129000 demo_enter [104; 105; 0] 0x400000 [0xEB; 0xFE] 0 2 m = Some (7, m') ∧ pmm_rep (pager (mvm m')) demo_usable ∅.
Proof.
  destruct demo_kernel as (s & D & O & F & Hr & Hok & Hroom & Hp0 & T & _ & Ec & E3 & _). set (m := Machine s (System boot_procs tt) blank_image).
  assert (R : ready 0x100000 0x129000 m demo_usable ∅ D O F).
  { split; [exact Hok|exact Hroom|exact Hp0| |set_solver +|exact (conj Ec E3)|exact boot_procs_ok|apply length_replicate].
    intros i k Hi Hk. destruct (T i k Hi Hk) as [->| ->]; [done|apply self_entry_kernel]. }
  destruct (run_loaded_image_spec 0x100000 0x129000 demo_enter m demo_usable ∅ D O F [104; 105; 0] [104; 105] 0x400000 [0xEB; 0xFE] 0 2 (λ code, code = 7) R eq_refl ltac:(clear; done)
    ltac:(clear; repeat constructor; done) ltac:(clear; done) ltac:(clear; done) ltac:(clear; done) (λ m _, demo_enter_stops m)) as (r & m' & E & R' & Hout).
  exists m, m'. split; [exact (ex_intro _ s (conj Hr eq_refl))|]. split; [|exact (vo_pages _ _ _ _ _ _ _ _ _ (rd_vm _ _ _ _ _ _ _ _ R'))].
  destruct Hout as [(_ & Hn & _)|[(_ & Hn & _)|[(_ & Hn & _)|(-> & _)]]]; [| | |exact E]; exfalso.
  - apply Hn. clear. split; [split|]; by vm_compute.
  - rewrite difference_empty_L in Hn. pose proof demo_usable_size. lia.
  - discriminate (Forall_lookup_1 _ _ 0%nat free_slot Hn eq_refl).
Defined.

(** ** A machine with a program in place *)

(** What run_loaded_image does before it enters user mode, when nothing fails. *)
Definition demo_prepare : M (machine (P := pmm) (F := unit)) unit :=
  stack_page ← on_vm pmm_alloc_page;
  space ← on_vm (paging_create_address_space 0x100000);
  pages ← on_vm (alloc_image_pages 0x129000 space stack_page);
  match pages with
  | inr _ => stuck
  | inl image_pages =>
      _ ← on_vm (map_image_pages 0x129000 space stack_page image_pages);
      _ ← on_vm (paging_map_page_in_space 0x129000 space USER_STACK_BASE stack_page USER_PAGE_FLAGS);
      _ ← on_vm (fill_image stack_page image_pages [0xEB; 0xFE] 0 2);
      on_vm (paging_switch_address_space space)
  end.

(** The pages [pa] of a program are mapped in the current space. *)
Record demo_running (s : vm pmm) (A : gset Z) (p q : Z) (D O : Z → Z) (F : Z → Z → Z) (pa : list Z) : Prop := {
  dr_vm : vm_ok 0x129000 s demo_usable A (current_space s) (cr3 s) D O F;
  dr_pages : length pa = 17%nat ∧ NoDup pa;
  dr_access : ∀ v, is_u32 v → user_access (vmem s) (cr3 s) v = if (4194304 <=? v) && (v <? 4263936) then Some (cell pa (v - 4194304)) else None;
  dr_outside : ∀ k, 0 ≤ k < 69632 → ¬ in_space (current_space s) (cr3 s) D (cell pa k) ∧ is_Some (vmem s !! cell pa k) ∧ 0 < cell pa k }.

Lemma demo_program : ∃ s A p q D O F pa, demo_running s A p q D O F pa.
Proof.
  destruct demo_kernel as (s & D & O & F & Hr & Hok & Hroom & Hp0 & T & _ & Ec & E3 & _). set (m := Machine s (System boot_procs tt) blank_image : machine (P := pmm) (F := unit)).
  assert (Hker : ∀ i k, 0 ≤ i < 1024 → 0 ≤ k < 1024 → Z.testbit (trans D F i k) 2 = false) by (intros i k Hi Hk; destruct (T i k Hi Hk) as [->| ->]; [done|apply self_entry_kernel]).
  assert (Hmany : ¬ (size (demo_usable ∖ ∅) < 20)%nat) by (rewrite difference_empty_L; pose proof demo_usable_size; lia).
  enough (W : wp demo_prepare (λ _ m', ∃ A p q D O F pa, demo_running (mvm m') A p q D O F pa) m).
  { destruct W as (_ & m' & _ & A & p & q & D' & O' & F' & pa & R). by exists (mvm m'), A, p, q, D', O', F', pa. }
  unfold demo_prepare. eapply (begin_program_wp 0x100000 0x129000 s demo_usable ∅ D O F Hok Hroom m); [reflexivity|set_solver +|intros s' st X _ _ _ Hfew; destruct (Hmany Hfew)|]. intros s1 a p q L1 [R1 R1'] Ha.
  destruct (live_struct 0x100000 0x129000 s demo_usable ∅ D O F Hok _ _ _ _ _ _ _ L1) as (_ & _ & Hne & _).
  wp_step. apply on_vm_wp. eapply alloc_image_wp; [exact Hok|exact Hp0|exact Hroom|exact L1|exact (λ _, eq_refl)|cbn; congruence|intros s' _ _ Hfew; destruct (Hmany Hfew)|]. intros s2 ps Hl Hnd L2 [R2 R2'].
  wp_step. apply on_vm_wp. eapply map_image_wp; [exact Hok|exact Hp0|exact Hroom|exact L2|exact Hnd|exact Hl|cbn in *; congruence|intros s' _ _ Hfew; destruct (Hmany Hfew)|]. intros s3 D3 O3 F3 L3 M3 [R3 R3'].
  wp_step. apply on_vm_wp. change USER_STACK_BASE with (USER_PROGRAM_BASE + 16 * PAGE_SIZE).
  eapply (map_next_wp 0x100000); [exact Hok|exact L3|exact M3|lia|rewrite lookup_app_r, Hl by lia; reflexivity|set_solver +|intros _ _ E; discriminate E|]. intros s4 D4 O4 F4 L4 M4 _. change (16 + 1) with 17 in M4.
  assert (Hnd' : NoDup (ps ++ [a])) by (rewrite <-Permutation_cons_append; exact Hnd). assert (Hl17 : length (ps ++ [a]) = 17%nat) by (rewrite length_app, Hl; reflexivity).
  wp_step. apply on_vm_wp. eapply fill_image_wp; [exact Hok|exact L4|exact Hnd'|exact Hl|clear; repeat constructor; done|clear; done|clear; done|clear; done|]. intros s5 L5 _ _. rewrite <-pset_stack in L5.
  apply on_vm_wp. pose proof (vo_space _ _ _ _ _ _ _ _ _ (lv_ok _ _ _ _ _ _ _ _ _ _ _ _ _ L5)) as Hs. eapply switch_wp; [apply Hs|apply Hs|apply (sr_page _ _ _ _ _ _ _ Hs)|].
  set (s6 := set_tlb _ _). assert (L6 : live 0x100000 0x129000 s demo_usable ∅ D s6 p q D4 O4 F4 (pset (ps ++ [a]))) by (eapply (live_same 0x100000); [exact L5|reflexivity|reflexivity]).
  exists (busy ∅ p q O4 (pset (ps ++ [a]))), p, q, D4, O4, F4, (ps ++ [a]). split; [exact (lv_ok _ _ _ _ _ _ _ _ _ _ _ _ _ L6)|exact (conj Hl17 Hnd')| |].
  - intros v Hv. eapply (user_access_live 0x100000 0x129000); [exact Hker|exact L6|exact M4|exact Hl17|exact Hv].
  - intros k Hk. destruct (cell_live 0x100000 0x129000 s demo_usable ∅ D _ _ _ _ _ _ _ k L6) as [Hsome Hin]; [lia|]. split; [|split; [exact Hsome|]].
    + eapply (live_image_outside 0x100000); [exact Hok|exact L6|exact Hin].
    + pose proof (page_bound _ _ _ _ _ _ _ _ _ _ _ _ _ _ L6 Hin). pose proof (in_page (cell (ps ++ [a]) k)). lia.
Qed.
