(* ===== verification/Syscall.v ===== *)
(** * System calls, kernel/core/syscall.c

    The handler of the software interrupt 0x80, over the components it calls. A user
    pointer is followed as the processor does it, through the page tables at CR3; an
    access to a page that is not present would be a fault of the kernel and is stuck. *)

From Stdlib Require Import ZArith Lia Bool.
From stdpp Require Import base numbers list gmap sets.
From S2P Require Import Prelude Memory Pmm Paging PagingSpace PagingProps Ports Runtime Serial Vga Scheduler Timer Process Usermode.

Definition MYOS_SYSCALL_WRITE : Z := 1.
Definition MYOS_SYSCALL_EXIT : Z := 2.
Definition MYOS_SYSCALL_YIELD : Z := 3.
Definition MYOS_SYSCALL_UPTIME : Z := 4.
Definition MYOS_SYSCALL_OPEN : Z := 5.
Definition MYOS_SYSCALL_READ : Z := 6.
Definition MYOS_SYSCALL_CLOSE : Z := 7.
Definition MYOS_SYSCALL_GETPID : Z := 8.
Definition MYOS_SYSCALL_WAITPID : Z := 9.
Definition MYOS_SYSCALL_WRITEFILE : Z := 10.
Definition MYOS_SYSCALL_GUI_OPEN : Z := 11.

(** What the handler uses of the file system beyond the descriptors, and of the desktop. *)
Class FileWriter (F : Type) := { file_write : list Z → list Z → Z → M F bool }.
Class Gui (G : Type) := { gui_open_application : Z → M G Z }.

Definition set_eax v (f : interrupt_frame) : interrupt_frame :=
  InterruptFrame (f_gs f) (f_fs f) (f_es f) (f_ds f) (f_edi f) (f_esi f) (f_ebp f) (f_esp f) (f_ebx f) (f_edx f) (f_ecx f) v
    (f_int_no f) (f_err_code f) (f_eip f) (f_cs f) (f_eflags f) (f_useresp f) (f_userss f).
Definition set_return eip cs eflags (f : interrupt_frame) : interrupt_frame :=
  InterruptFrame (f_gs f) (f_fs f) (f_es f) (f_ds f) (f_edi f) (f_esi f) (f_ebp f) (f_esp f) (f_ebx f) (f_edx f) (f_ecx f) (f_eax f)
    (f_int_no f) (f_err_code f) eip cs eflags (f_useresp f) (f_userss f).

Section syscall.
Context {P F T S G : Type} `{PageAllocator P, FileSource F, FileWriter F, Canvas T, PortIO S, Gui G}.

(** The address of the assembly that ends a program. *)
Context (usermode_return_from_exit : Z).

Record kernel := Kernel {
  kvm : vm P; ksystem : system F; kterminal : term T; kserial : S; ktimer : timer; kgui : G;
  syscall_yield_count : Z; usermode_exit_code : Z }.

Definition set_kvm v k := Kernel v (ksystem k) (kterminal k) (kserial k) (ktimer k) (kgui k) (syscall_yield_count k) (usermode_exit_code k).
Definition set_ksystem v k := Kernel (kvm k) v (kterminal k) (kserial k) (ktimer k) (kgui k) (syscall_yield_count k) (usermode_exit_code k).
Definition set_kterminal v k := Kernel (kvm k) (ksystem k) v (kserial k) (ktimer k) (kgui k) (syscall_yield_count k) (usermode_exit_code k).
Definition set_kserial v k := Kernel (kvm k) (ksystem k) (kterminal k) v (ktimer k) (kgui k) (syscall_yield_count k) (usermode_exit_code k).
Definition set_ktimer v k := Kernel (kvm k) (ksystem k) (kterminal k) (kserial k) v (kgui k) (syscall_yield_count k) (usermode_exit_code k).
Definition set_kgui v k := Kernel (kvm k) (ksystem k) (kterminal k) (kserial k) (ktimer k) v (syscall_yield_count k) (usermode_exit_code k).
Definition set_syscall_yield_count v k := Kernel (kvm k) (ksystem k) (kterminal k) (kserial k) (ktimer k) (kgui k) v (usermode_exit_code k).
Definition set_usermode_exit_code v k := Kernel (kvm k) (ksystem k) (kterminal k) (kserial k) (ktimer k) (kgui k) (syscall_yield_count k) v.

Definition in_vm {A} (m : M (vm P) A) : M kernel A := zoom kvm set_kvm m.
Definition in_system {A} (m : M (system F) A) : M kernel A := zoom ksystem set_ksystem m.
Definition in_terminal {A} (m : M (term T) A) : M kernel A := zoom kterminal set_kterminal m.
Definition in_serial {A} (m : M S A) : M kernel A := zoom kserial set_kserial m.
Definition in_timer {A} (m : M timer A) : M kernel A := zoom ktimer set_ktimer m.
Definition in_gui {A} (m : M G A) : M kernel A := zoom kgui set_kgui m.

(** ** User memory *)

(** The physical address behind a virtual one, for the kernel. *)
Definition virtual (a : Z) : M (vm P) Z :=
  s ← gets id; e ← lift (mmu_walk (vmem s) (cr3 s) a); mret (frame_of e + a mod 4096).

Definition get_virtual (a : Z) : M (vm P) Z := p ← virtual a; m ← gets vmem; lift (load 1 m p).
Definition put_virtual (a v : Z) : M (vm P) unit := p ← virtual a; put_byte p v.

(** The [n] bytes that a pointer points to, and writing them back. *)
Fixpoint get_bytes (n : nat) (a : Z) : M (vm P) (list Z) :=
  match n with
  | O => mret []
  | Datatypes.S n' => v ← get_virtual a; l ← get_bytes n' (a +% 1); mret (v :: l)
  end.
Fixpoint put_bytes (a : Z) (l : list Z) : M (vm P) unit :=
  match l with
  | [] => mret tt
  | v :: l' => _ ← put_virtual a v; put_bytes (a +% 1) l'
  end.

Definition user_buffer_is_valid (ptr size : Z) : M (vm P) bool :=
  if (ptr =? 0) || (size =? 0) || (4096 <? size) then mret false
  else if ptr +% size <? ptr then mret false
  else
    first ← paging_get_physical ptr;
    if first =? 0 then mret false
    else last ← paging_get_physical (ptr +% size -% 1); mret (negb (last =? 0)).

Definition copy_from_user (dst : list Z) (src size : Z) : M (vm P) (list Z) :=
  r ← for_state (R := Empty_set) 0 size (λ i dst, v ← get_virtual (src +% i); dst ← lift (awrite dst i v); mret (inl dst)) dst;
  mret (match r with inl dst => dst | inr x => Empty_set_rect (λ _, list Z) x end).

(** ** The handler *)

Definition syscall_write (data : list Z) (size : Z) : M kernel unit :=
  _ ← in_terminal (terminal_write data size);
  for_ 0 size (λ i, c ← lift (aread data i); in_serial (serial_write_char c)).

(** [name] is the local array of 32 characters with whatever it holds. *)
Definition user_name (name : list Z) (ptr size : Z) : M kernel (list Z) :=
  name ← in_vm (copy_from_user name ptr size); lift (awrite name size 0).

Definition syscall_handle (name : list Z) (frame : interrupt_frame) : M kernel interrupt_frame :=
  if f_eax frame =? MYOS_SYSCALL_WRITE then
    ok ← in_vm (user_buffer_is_valid (f_ebx frame) (f_ecx frame));
    if (ok : bool) then
      data ← in_vm (get_bytes (Z.to_nat (f_ecx frame)) (f_ebx frame));
      _ ← syscall_write data (f_ecx frame);
      mret (set_eax (f_ecx frame) frame)
    else mret (set_eax (u32 (-1)) frame)
  else if f_eax frame =? MYOS_SYSCALL_EXIT then
    _ ← modify (set_usermode_exit_code (f_ebx frame));
    mret (set_return usermode_return_from_exit 0x08 0x202 frame)
  else if f_eax frame =? MYOS_SYSCALL_YIELD then
    _ ← modify (λ k, set_syscall_yield_count (syscall_yield_count k +% 1) k);
    _ ← in_timer (on_sched scheduler_request_reschedule);
    mret (set_eax 0 frame)
  else if f_eax frame =? MYOS_SYSCALL_UPTIME then
    n ← in_timer timer_uptime_seconds; mret (set_eax n frame)
  else if f_eax frame =? MYOS_SYSCALL_OPEN then
    ok ← in_vm (user_buffer_is_valid (f_ebx frame) (f_ecx frame));
    if negb ok || (f_ecx frame =? 0) || (32 <=? f_ecx frame) then mret (set_eax (u32 (-1)) frame)
    else
      name ← user_name name (f_ebx frame) (f_ecx frame);
      r ← in_system (user_process_fd_open name);
      mret (set_eax (u32 r) frame)
  else if f_eax frame =? MYOS_SYSCALL_READ then
    let fd := f_ebx frame in
    let size := f_edx frame in
    ok ← in_vm (user_buffer_is_valid (f_ecx frame) size);
    if negb ok then mret (set_eax (u32 (-1)) frame)
    else
      buffer ← in_vm (get_bytes (Z.to_nat size) (f_ecx frame));
      r ← in_system (user_process_fd_read fd buffer size);
      _ ← in_vm (put_bytes (f_ecx frame) (fst r));
      mret (set_eax (u32 (snd r)) frame)
  else if f_eax frame =? MYOS_SYSCALL_CLOSE then
    r ← in_system (user_process_fd_close (f_ebx frame)); mret (set_eax (u32 r) frame)
  else if f_eax frame =? MYOS_SYSCALL_GETPID then
    r ← in_system (on_procs user_process_current_pid); mret (set_eax r frame)
  else if f_eax frame =? MYOS_SYSCALL_WAITPID then
    r ← in_system (on_procs (user_process_wait_pid (f_ebx frame))); mret (set_eax (u32 r) frame)
  else if f_eax frame =? MYOS_SYSCALL_WRITEFILE then
    ok ← in_vm (user_buffer_is_valid (f_ebx frame) (f_ecx frame));
    refused ← (if negb ok || (f_ecx frame =? 0) || (32 <=? f_ecx frame) then mret true
               else ok ← in_vm (user_buffer_is_valid (f_edx frame) (f_esi frame)); mret (negb ok));
    if (refused : bool) then mret (set_eax (u32 (-1)) frame)
    else
      name ← user_name name (f_ebx frame) (f_ecx frame);
      data ← in_vm (get_bytes (Z.to_nat (f_esi frame)) (f_edx frame));
      ok ← in_system (on_files (file_write name data (f_esi frame)));
      mret (set_eax (if (ok : bool) then 0 else u32 (-2)) frame)
  else if f_eax frame =? MYOS_SYSCALL_GUI_OPEN then
    r ← in_gui (gui_open_application (f_ebx frame)); mret (set_eax (u32 r) frame)
  else mret (set_eax (u32 (-255)) frame).
End syscall.
