(* ===== verification/SyscallProps.v ===== *)
(** * The properties of the system calls *)

From Stdlib Require Import ZArith Lia Bool.
From stdpp Require Import base numbers list list_numbers gmap sets.
From S2P Require Import Prelude Memory Bitmap Pmm Paging PagingSpace PagingLife PagingProps Ports Runtime Serial Vga Scheduler Timer Process ProcessProps Usermode UsermodeSpace UsermodeImage UsermodeRun Syscall.

(** ** User memory *)

Section memory.
Context {P : Type} `{PageAllocatorLaws P} (kernel_space : Z).
Implicit Types s : vm P.

(** The current address space is the one the processor uses. *)
Definition running s (U A : gset Z) (D O : Z → Z) (F : Z → Z → Z) : Prop := vm_ok kernel_space s U A (current_space s) (cr3 s) D O F.

(** The frames that the addresses of a buffer translate to exist. *)
Definition backed s (ptr size : Z) : Prop :=
  ∀ v e, ptr ≤ v < ptr + size → mmu_walk (vmem s) (cr3 s) v = Some e → is_Some (vmem s !! (frame_of e + v mod 4096)).

(** The byte at a virtual address. *)
Definition byte_of s (v : Z) : option Z := e ← mmu_walk (vmem s) (cr3 s) v; vmem s !! (frame_of e + v mod 4096).

Definition good_buffer s (D : Z → Z) (F : Z → Z → Z) (ptr size : Z) : Prop :=
  ptr ≠ 0 ∧ 0 < size ≤ 4096 ∧ ptr + size < 4294967296 ∧
  physical (trans D F (dir_index ptr) (table_index ptr)) ptr ≠ 0 ∧ physical (trans D F (dir_index (ptr + size - 1)) (table_index (ptr + size - 1))) (ptr + size - 1) ≠ 0.

Lemma buffer_valid_wp s U A D O F ptr size (Q : bool → vm P → Prop) : running s U A D O F → is_u32 ptr → is_u32 size →
  (good_buffer s D F ptr size → Q true s) → (¬ good_buffer s D F ptr size → Q false s) → wp (user_buffer_is_valid ptr size) Q s.
Proof.
  intros Hok Hp Hs HQ1 HQ2. unfold user_buffer_is_valid, good_buffer in *. unfold is_u32 in Hp, Hs.
  destruct (Z.eqb_spec ptr 0) as [->|Hp0]; cbn [orb]; [wp_step; apply HQ2; tauto|]. destruct (Z.eqb_spec size 0) as [->|Hs0]; cbn [orb]; [wp_step; apply HQ2; lia|].
  destruct (Z.ltb_spec 4096 size); [wp_step; apply HQ2; lia|].
  destruct (decide (ptr + size < 4294967296)) as [Hlt|Hge].
  2: { assert (E : ptr +% size = ptr + size - 4294967296) by (unfold u32; change (2 ^ 32) with 4294967296; Z.to_euclidean_division_equations; lia).
       rewrite E, (proj2 (Z.ltb_lt _ _)) by lia. wp_step. apply HQ2. lia. }
  u32_simp. rewrite (proj2 (Z.ltb_ge (ptr + size) ptr)) by lia.
  assert (Hg : ∀ v, is_u32 v → paging_get_physical v s = Some (physical (trans D F (dir_index v) (table_index v)) v, s)).
  { intros v Hv. unfold paging_get_physical, gets, mbind, M_bind. cbn beta iota. by apply (get_physical_run kernel_space s U A (current_space s) (cr3 s) D O F). }
  wp_step. eexists _, s. split; [by apply Hg|]. cbn beta. destruct (Z.eqb_spec (physical (trans D F (dir_index ptr) (table_index ptr)) ptr) 0) as [E|E]; [wp_step; apply HQ2; tauto|].
  wp_step. eexists _, s. split; [apply Hg; unfold is_u32; lia|]. cbn beta. wp_step. destruct (Z.eqb_spec (physical (trans D F (dir_index (ptr + size - 1)) (table_index (ptr + size - 1))) (ptr + size - 1)) 0) as [E'|E']; cbn [negb]; [apply HQ2; tauto|apply HQ1].
  split_and!; (done || lia).
Qed.

(** Every byte of a valid buffer is present: it spans two pages at most. *)
Lemma good_buffer_present s U A D O F ptr size v : running s U A D O F → good_buffer s D F ptr size → 0 ≤ ptr → ptr ≤ v < ptr + size →
  ∃ e, mmu_walk (vmem s) (cr3 s) v = Some e.
Proof.
  intros Hok (_ & Hs & Hlt & Hf & Hl) Hp0 Hv. assert (Hu : is_u32 v) by (unfold is_u32; lia). rewrite (mmu_walk_eq kernel_space s U A _ _ D O F v Hok Hu). cbn zeta.
  assert (Hpage : v / 4096 = ptr / 4096 ∨ v / 4096 = (ptr + size - 1) / 4096) by (Z.to_euclidean_division_equations; lia).
  assert (Hcase : is_present (trans D F (dir_index v) (table_index v)) = true).
  { unfold physical in Hf, Hl. destruct Hpage as [E|E]; apply same_page in E as [E1 E2]; try (unfold is_u32; lia); rewrite E1, E2.
    - by destruct (is_present (trans D F (dir_index ptr) (table_index ptr))).
    - by destruct (is_present (trans D F (dir_index (ptr + size - 1)) (table_index (ptr + size - 1)))). }
  rewrite Hcase. eauto.
Qed.

Lemma get_virtual_wp s v e (Q : Z → vm P → Prop) : mmu_walk (vmem s) (cr3 s) v = Some e → is_Some (vmem s !! (frame_of e + v mod 4096)) →
  (∀ b, byte_of s v = Some b → Q b s) → wp (get_virtual v) Q s.
Proof.
  intros He [b Hb] HQ. unfold get_virtual, virtual. do 4 wp_step. cbn [id]. eapply wp_lift; [exact He|]. do 3 wp_step. eapply wp_lift; [cbn [load]; rewrite Hb; reflexivity|].
  replace (b + 256 * 0) with b by lia. apply HQ. unfold byte_of. rewrite He. exact Hb.
Qed.

Lemma get_bytes_wp s n : ∀ ptr (Q : list Z → vm P → Prop), 0 ≤ ptr → ptr + Z.of_nat n < 4294967296 →
  (∀ v, ptr ≤ v < ptr + Z.of_nat n → ∃ e, mmu_walk (vmem s) (cr3 s) v = Some e) → backed s ptr (Z.of_nat n) →
  (∀ l, length l = n → (∀ i, (i < n)%nat → byte_of s (ptr + Z.of_nat i) = l !! i) → Q l s) → wp (get_bytes n ptr) Q s.
Proof.
  induction n as [|n IH]; intros ptr Q Hp Hlt Hw Hb HQ; cbn [get_bytes].
  - wp_step. apply HQ; [done|]. intros i Hi. lia.
  - destruct (Hw ptr ltac:(lia)) as [e He]. wp_step. eapply get_virtual_wp; [exact He|by apply Hb; [lia|]|]. intros b Eb. u32_simp. wp_step. apply IH; [lia|lia| | |].
    + intros v Hv. apply Hw. lia.
    + intros v e' Hv. apply Hb. lia.
    + intros l Hl Hbytes. wp_step. apply HQ; [cbn; by rewrite Hl|]. intros [|i] Hi; [by rewrite Z.add_0_r|]. cbn [lookup list_lookup]. rewrite <-Hbytes by lia. replace (ptr + Z.of_nat (S i)) with (ptr + 1 + Z.of_nat i) by lia. done.
Qed.

Lemma byte_u8 s U A D O F v b : running s U A D O F → byte_of s v = Some b → is_u8 b.
Proof. intros Hok Hb. unfold byte_of in Hb. destruct (mmu_walk _ _ v) as [e|]; [|done]. cbn in Hb. exact (vo_bytes _ _ _ _ _ _ _ _ _ Hok _ _ Hb). Qed.

(** user_buffer_is_valid looks at two addresses only, but that is enough: when it
    accepts a buffer of a program, every byte of it is present, and the kernel reads the
    buffer without a fault; it changes nothing. It refuses exactly the null pointer,
    sizes of 0 and of more than a page, buffers that reach the end of the address space,
    and those whose first or last byte has no physical address. *)
Theorem user_buffer_is_valid_sound s U A D O F ptr size : running s U A D O F → is_u32 ptr → is_u32 size → backed s ptr size →
  ∃ b, user_buffer_is_valid ptr size s = Some (b, s) ∧ (b = true ↔ good_buffer s D F ptr size) ∧
    (b = true → ∃ l, get_bytes (Z.to_nat size) ptr s = Some (l, s) ∧ Z.of_nat (length l) = size ∧ Forall is_u8 l ∧
       ∀ i, (i < length l)%nat → byte_of s (ptr + Z.of_nat i) = l !! i).
Proof.
  intros Hok Hp Hs Hb. assert (W : wp (user_buffer_is_valid ptr size) (λ b s', s' = s ∧ (b = true ↔ good_buffer s D F ptr size)) s).
  { eapply buffer_valid_wp; [exact Hok|done|done| |]; intros Hg; split; try done. }
  destruct W as (b & s' & E & -> & Hiff). exists b. split_and!; [exact E|exact Hiff|]. intros Hg%Hiff. pose proof Hg as (_ & Hs1 & Hlt & _). unfold is_u32 in Hp.
  assert (W : wp (get_bytes (Z.to_nat size) ptr) (λ l s', s' = s ∧ Z.of_nat (length l) = size ∧ Forall is_u8 l ∧ ∀ i, (i < length l)%nat → byte_of s (ptr + Z.of_nat i) = l !! i) s).
  { apply get_bytes_wp; rewrite ?Z2Nat.id by lia; [lia|lia|intros v Hv; eapply good_buffer_present; [exact Hok|exact Hg|lia|done]|done|].
    intros l Hl Hbytes. split_and!; [done|lia| |intros i Hi; apply Hbytes; lia]. apply Forall_lookup. intros i x Hx. pose proof (lookup_lt_Some _ _ _ Hx).
    rewrite <-Hbytes in Hx by lia. by eapply byte_u8. }
  destruct W as (l & s' & E' & -> & Hrest). eauto.
Qed.

(** ** Writing to user memory *)

Lemma user_access_eq s U A D O F v : running s U A D O F → is_u32 v → user_access (vmem s) (cr3 s) v =
  if is_present (D (dir_index v)) && Z.testbit (D (dir_index v)) 2 && (is_present (F (dir_index v) (table_index v)) && Z.testbit (F (dir_index v) (table_index v)) 2)
  then Some (frame_of (F (dir_index v) (table_index v)) + v mod 4096) else None.
Proof.
  intros Hok Hv. pose proof (vo_space _ _ _ _ _ _ _ _ _ Hok) as Hs. destruct (index_eq _ Hv) as (_ & _ & Hi & Hk). unfold user_access. rewrite (sr_dir _ _ _ _ _ _ _ Hs _ Hi). cbn [mbind option_bind].
  destruct (is_present (D (dir_index v))) eqn:Hp; cbn [andb]; [|done]. destruct (Z.testbit (D (dir_index v)) 2); cbn [andb]; [|done].
  destruct (sr_tables _ _ _ _ _ _ _ Hs _ Hi Hp) as [_ Ht]. rewrite (Ht _ Hk). cbn [mbind option_bind]. by destruct (is_present _ && _).
Qed.

Lemma user_access_walk s v a : user_access (vmem s) (cr3 s) v = Some a → ∃ e, mmu_walk (vmem s) (cr3 s) v = Some e ∧ a = frame_of e + v mod 4096.
Proof.
  unfold user_access, mmu_walk. destruct (load 4 _ _) as [pde|]; [|done]. cbn [mbind option_bind]. destruct (is_present pde); cbn [andb]; [|done]. destruct (Z.testbit pde 2); [|done].
  destruct (load 4 _ _) as [pte|]; [|done]. cbn [mbind option_bind]. destruct (is_present pte); cbn [andb]; [|done]. destruct (Z.testbit pte 2); [|done]. intros [= <-]. eauto.
Qed.

Lemma user_access_physical s U A D O F v a : running s U A D O F → is_u32 v → user_access (vmem s) (cr3 s) v = Some a → physical (trans D F (dir_index v) (table_index v)) v = a.
Proof.
  intros Hok Hv (e & He & ->)%user_access_walk. rewrite (mmu_walk_eq kernel_space s U A _ _ D O F v Hok Hv) in He. cbn zeta in He. unfold physical.
  destruct (is_present (trans D F (dir_index v) (table_index v))); [|done]. by injection He as <-.
Qed.

Lemma byte_of_user s v a : user_access (vmem s) (cr3 s) v = Some a → byte_of s v = vmem s !! a.
Proof. intros (e & He & ->)%user_access_walk. unfold byte_of. by rewrite He. Qed.

(** What writing outside the page tables keeps. *)
Record written s s' (U A : gset Z) (D O : Z → Z) (F : Z → Z → Z) : Prop := {
  wt_running : running s' U A D O F;
  wt_only : only_mem s s';
  wt_mapped : ∀ a, is_Some (vmem s !! a) → is_Some (vmem s' !! a) }.

Lemma written_access s s' U A D O F v : running s U A D O F → written s s' U A D O F → is_u32 v → user_access (vmem s') (cr3 s') v = user_access (vmem s) (cr3 s) v.
Proof. intros Hok [W1 W2 W3] Hv. by rewrite (user_access_eq _ _ _ _ _ _ _ W1 Hv), (user_access_eq _ _ _ _ _ _ _ Hok Hv). Qed.

Lemma put_virtual_wp s U A D O F v a b (Q : unit → vm P → Prop) : running s U A D O F → is_u32 v → user_access (vmem s) (cr3 s) v = Some a →
  ¬ in_space (current_space s) (cr3 s) D a → is_Some (vmem s !! a) →
  (∀ s', written s s' U A D O F → vmem s' = <[a := b mod 256]> (vmem s) → Q tt s') → wp (put_virtual v b) Q s.
Proof.
  intros Hok Hv Ha Hout [x Hx] HQ. destruct (user_access_walk _ _ _ Ha) as (e & He & Ea). unfold put_virtual, virtual. do 4 wp_step. cbn [id]. eapply wp_lift; [exact He|]. wp_step.
  rewrite <-Ea. unfold put_byte. do 2 wp_step. cbn [store]. rewrite Hx. wp_step. eapply wp_lift; [done|]. wp_step. apply HQ; [|done].
  assert (Hm : ∀ c, is_Some (vmem s !! c) → is_Some (<[a := b mod 256]> (vmem s) !! c)) by (intros c Hc; apply insert_is_Some; by right).
  destruct Hok as [V1 V2 V3 V4 V5]. split; [|done|exact Hm]. split; try done.
  - intros c w. cbn [vmem set_vmem]. rewrite lookup_insert_Some. intros [[_ <-]|[_ Hc]]; [|by eapply V2]. unfold is_u8. pose proof (Z.mod_pos_bound b 256 ltac:(lia)). lia.
  - intros y Hy c Hc. by apply Hm, (V3 y Hy).
  - eapply space_rep_same; [exact V4|]. intros c Hc. cbn [vmem set_vmem]. apply lookup_insert_ne. intros ->. done.
Qed.

(** The bytes of the buffer are user-accessible, exist and are in no page table. *)
Definition user_buffer s (D : Z → Z) (ptr size : Z) : Prop :=
  ∀ v, ptr ≤ v < ptr + size → ∃ a, user_access (vmem s) (cr3 s) v = Some a ∧ ¬ in_space (current_space s) (cr3 s) D a ∧ is_Some (vmem s !! a).

Lemma user_buffer_backed s D ptr size : user_buffer s D ptr size → backed s ptr size.
Proof.
  intros Hub v e Hv He. destruct (Hub v Hv) as (a & Ha & _ & Hsome). destruct (user_access_walk _ _ _ Ha) as (e' & He' & ->). rewrite He in He'. by injection He' as <-.
Qed.

Lemma put_bytes_wp U A D O F l : ∀ s ptr (Q : unit → vm P → Prop), running s U A D O F → 0 ≤ ptr → ptr + Z.of_nat (length l) < 4294967296 → user_buffer s D ptr (Z.of_nat (length l)) →
  (∀ s', written s s' U A D O F → (∀ x, (∀ v, ptr ≤ v < ptr + Z.of_nat (length l) → user_access (vmem s) (cr3 s) v ≠ Some x) → vmem s' !! x = vmem s !! x) →
     ((∀ v w x, ptr ≤ v < ptr + Z.of_nat (length l) → ptr ≤ w < ptr + Z.of_nat (length l) → user_access (vmem s) (cr3 s) v = Some x → user_access (vmem s) (cr3 s) w = Some x → v = w) →
        ∀ i b, l !! i = Some b → byte_of s' (ptr + Z.of_nat i) = Some (b mod 256)) → Q tt s') →
  wp (put_bytes ptr l) Q s.
Proof.
  induction l as [|b l IH]; intros s ptr Q Hok Hp Hlt Hub HQ; cbn [put_bytes length] in *.
  - wp_step. apply HQ; [|done|done]. split; [done|apply only_mem_refl|done].
  - destruct (Hub ptr ltac:(lia)) as (a & Ha & Hout & Hsome). assert (Hpu : is_u32 ptr) by (unfold is_u32; lia).
    wp_step. eapply put_virtual_wp; [exact Hok|done|exact Ha|done|done|]. intros s1 W1 E1. u32_simp.
    assert (Hacc : ∀ v, is_u32 v → user_access (vmem s1) (cr3 s1) v = user_access (vmem s) (cr3 s) v) by (intros v Hv; by eapply written_access).
    assert (Ec : current_space s1 = current_space s ∧ cr3 s1 = cr3 s) by (by rewrite (wt_only _ _ _ _ _ _ _ W1)). destruct Ec as [Ec Ecr].
    apply IH; [apply W1|lia|lia| |].
    { intros v Hv. destruct (Hub v ltac:(lia)) as (a' & Ha' & Hout' & Hs'). exists a'. rewrite Hacc by (unfold is_u32; lia). rewrite Ec, Ecr. split_and!; [done|done|by apply W1]. }
    intros s2 W2 Hfr Hbytes. apply HQ.
    + split; [apply W2|eapply only_mem_trans; [apply W1|apply W2]|intros c Hc; by apply W2, W1].
    + intros x Hx. rewrite Hfr.
      * rewrite E1. apply lookup_insert_ne. intros ->. apply (Hx ptr); [lia|done].
      * intros v Hv. rewrite Hacc by (unfold is_u32; lia). apply Hx. lia.
    + intros Hinj [|i] c Hc.
      * injection Hc as <-. rewrite Z.add_0_r. assert (Ha2 : user_access (vmem s2) (cr3 s2) ptr = Some a) by (rewrite (written_access s1 s2 U A D O F ptr), Hacc; [done|done|apply W1|done|done]).
        rewrite (byte_of_user _ _ _ Ha2), Hfr, E1; [by apply lookup_insert_eq|]. intros v Hv Hva. rewrite Hacc in Hva by (unfold is_u32; lia). assert (ptr = v) by (eapply Hinj; [lia|lia|exact Ha|exact Hva]). lia.
      * replace (ptr + Z.of_nat (S i)) with (ptr + 1 + Z.of_nat i) by lia. apply Hbytes; [|done]. intros v w x Hv Hw. rewrite !Hacc by (unfold is_u32; lia). intros Hv' Hw'. eapply Hinj; [lia|lia|exact Hv'|exact Hw'].
Qed.
End memory.

(** ** The calls *)

Section calls.
Context {P Files T S G : Type} `{PageAllocatorLaws P, FileSource Files, FileWriter Files, CanvasLaws T, Uart S, Gui G}.
Context (kernel_space usermode_return_from_exit : Z).
Implicit Types k : kernel (P := P) (F := Files) (T := T) (S := S) (G := G).
Local Abbreviation syscall_handle := (syscall_handle (P := P) (F := Files) (T := T) (S := S) (G := G) usermode_return_from_exit).

Lemma in_vm_wp {B} (c : M (vm P) B) k (Q : B → kernel → Prop) : wp c (λ b s, Q b (set_kvm s k)) (kvm k) → wp (in_vm c) Q k.
Proof. apply wp_zoom. Qed.
Lemma in_system_wp {B} (c : M (system Files) B) k (Q : B → kernel → Prop) : wp c (λ b s, Q b (set_ksystem s k)) (ksystem k) → wp (in_system c) Q k.
Proof. apply wp_zoom. Qed.
Lemma set_kvm_id k : set_kvm (kvm k) k = k.
Proof. by destruct k. Qed.

(** A valid buffer read by the kernel. *)
Lemma read_buffer_wp k U A D O F ptr size (Q : list Z → kernel → Prop) : running kernel_space (kvm k) U A D O F → 0 ≤ ptr → good_buffer (kvm k) D F ptr size → backed (kvm k) ptr size →
  (∀ l, Z.of_nat (length l) = size → Forall is_u8 l → (∀ i, (i < length l)%nat → byte_of (kvm k) (ptr + Z.of_nat i) = l !! i) → Q l k) →
  wp (in_vm (get_bytes (Z.to_nat size) ptr)) Q k.
Proof.
  intros Hok Hp Hg Hb HQ. pose proof Hg as (_ & Hs & Hlt & _). apply in_vm_wp. apply get_bytes_wp; rewrite ?Z2Nat.id by lia; [lia|lia| |done|].
  - intros v Hv. eapply good_buffer_present; [exact Hok|exact Hg|lia|done].
  - intros l Hl Hbytes. rewrite set_kvm_id. apply HQ; [lia| |intros i Hi; apply Hbytes; lia]. apply Forall_lookup. intros i x Hx. pose proof (lookup_lt_Some _ _ _ Hx). rewrite <-Hbytes in Hx by lia. by eapply byte_u8.
Qed.
End calls.

Section read.
Context {P Files T S G : Type} `{PageAllocatorLaws P, FileSourceLaws Files, FileWriter Files, Canvas T, PortIO S, Gui G}.
Context (kernel_space usermode_return_from_exit : Z).
Implicit Types k : kernel (P := P) (F := Files) (T := T) (S := S) (G := G).

(** The system call READ delivers the file: on a descriptor at the offset [o] of a
    file with the content [c] and a buffer of the program, it returns the number of bytes
    that are left, at most the size asked for, the buffer then holds those bytes of the
    file and is otherwise as before, and the descriptor has moved on by that number. *)
Theorem syscall_read_spec k frame name U A D O F i o c : running kernel_space (kvm k) U A D O F → procs_ok (sprocs (ksystem k)) →
  f_eax frame = MYOS_SYSCALL_READ → is_u32 (f_ecx frame) → is_u32 (f_edx frame) →
  good_buffer (kvm k) D F (f_ecx frame) (f_edx frame) → user_buffer (kvm k) D (f_ecx frame) (f_edx frame) →
  (∀ v w x, is_u32 v → is_u32 w → user_access (vmem (kvm k)) (cr3 (kvm k)) v = Some x → user_access (vmem (kvm k)) (cr3 (kvm k)) w = Some x → v = w) →
  descriptor_is (ksystem k) (f_ebx frame) (Descriptor true i o) → is_u32 o → file_holds (sfiles (ksystem k)) i c → files_working (sfiles (ksystem k)) → Forall is_u8 c →
  let n := Z.max 0 (Z.min (f_edx frame) (Z.of_nat (length c) - o)) in
  ∃ k', syscall_handle usermode_return_from_exit name frame k = Some (set_eax n frame, k') ∧
    (∀ j, 0 ≤ j < n → byte_of (kvm k') (f_ecx frame + j) = c !! Z.to_nat (o + j)) ∧
    (∀ j, n ≤ j < f_edx frame → byte_of (kvm k') (f_ecx frame + j) = byte_of (kvm k) (f_ecx frame + j)) ∧
    descriptor_is (ksystem k') (f_ebx frame) (Descriptor true i (o +% n)) ∧ running kernel_space (kvm k') U A D O F.
Proof.
  intros Hok Hprocs Ecall Hp Hs Hg Hub Hinj Hd Ho Hf Hw Hc n. set (ptr := f_ecx frame) in *. set (size := f_edx frame) in *. pose proof Hg as (_ & Hs1 & Hlt & _). unfold is_u32 in Hp.
  assert (Hn : 0 ≤ n ≤ size ∧ (n = 0 ∨ n ≤ Z.of_nat (length c) - o)) by (unfold n; lia). pose proof Ho as Ho'. unfold is_u32 in Ho'.
  pose proof (user_buffer_backed _ _ _ _ Hub) as Hback.
  enough (W : wp (syscall_handle usermode_return_from_exit name frame) (λ fr k', fr = set_eax n frame ∧ (∀ j, 0 ≤ j < n → byte_of (kvm k') (ptr + j) = c !! Z.to_nat (o + j)) ∧
    (∀ j, n ≤ j < size → byte_of (kvm k') (ptr + j) = byte_of (kvm k) (ptr + j)) ∧ descriptor_is (ksystem k') (f_ebx frame) (Descriptor true i (o +% n)) ∧ running kernel_space (kvm k') U A D O F) k).
  { destruct W as (fr & k' & E & -> & W). eauto. }
  unfold syscall_handle. rewrite Ecall. cbn [Z.eqb Pos.eqb]. change (MYOS_SYSCALL_READ =? MYOS_SYSCALL_WRITE) with false. change (MYOS_SYSCALL_READ =? MYOS_SYSCALL_EXIT) with false.
  change (MYOS_SYSCALL_READ =? MYOS_SYSCALL_YIELD) with false. change (MYOS_SYSCALL_READ =? MYOS_SYSCALL_UPTIME) with false. change (MYOS_SYSCALL_READ =? MYOS_SYSCALL_OPEN) with false.
  change (MYOS_SYSCALL_READ =? MYOS_SYSCALL_READ) with true. cbv iota. fold ptr size.
  wp_step. apply in_vm_wp. eapply buffer_valid_wp; [exact Hok|done|done| |done]. intros _. rewrite set_kvm_id. cbn [negb]. wp_step. eapply read_buffer_wp; [exact Hok|lia|exact Hg|done|]. intros l Hl Hlu Hbytes.
  wp_step. apply in_system_wp. eapply fd_read_wp; [exact Hprocs|exact Hd|exact Hf|done|done|lia|by intros out f' _ _ ?|]. intros out f' n' _ Eout _. fold n in n'. subst n'.
  assert (Elen : length out = length l) by (rewrite Eout, length_app, length_take, !length_drop; lia).
  wp_step. apply in_vm_wp. cbn [kvm set_ksystem fst]. eapply put_bytes_wp; [exact Hok|lia|rewrite Elen; lia|rewrite Elen, Hl; done|]. intros s' W _ Hput. wp_step.
  assert (Hout : ∀ j b, 0 ≤ j → out !! Z.to_nat j = Some b → byte_of s' (ptr + j) = Some (b mod 256)).
  { intros j b Hj Hb. rewrite <-(Z2Nat.id j) by done. apply Hput; [|done]. rewrite Elen, Hl. intros v w x Hv Hw' . apply Hinj; unfold is_u32; lia. }
  assert (Etake : length (take (Z.to_nat n) (drop (Z.to_nat o) c)) = Z.to_nat n) by (rewrite length_take, length_drop; lia). split_and!.
  - cbn [snd]. unfold u32. rewrite Z.mod_small; [done|]. change (2 ^ 32) with 4294967296. unfold is_u32 in Hs. lia.
  - intros j Hj. cbn [kvm set_kvm]. destruct (lookup_lt_is_Some_2 c (Z.to_nat (o + j))) as [b Hb]; [lia|]. rewrite (Hout j b); [|lia|].
    + rewrite Hb. f_equal. apply Z.mod_small. apply (Forall_lookup_1 _ _ _ _ Hc Hb).
    + rewrite Eout, lookup_app_l by lia. rewrite lookup_take_lt, lookup_drop by lia. rewrite <-Hb. f_equal. lia.
  - intros j Hj. cbn [kvm set_kvm]. destruct (lookup_lt_is_Some_2 l (Z.to_nat j)) as [b Hb]; [lia|]. rewrite (Hout j b); [|lia|].
    + rewrite <-(Z2Nat.id j) at 1 by lia. rewrite Hbytes, Hb by lia. f_equal. apply Z.mod_small. apply (Forall_lookup_1 _ _ _ _ Hlu Hb).
    + rewrite Eout, lookup_app_r by lia. rewrite Etake, lookup_drop. rewrite <-Hb. f_equal. lia.
  - cbn [ksystem set_kvm set_ksystem]. by eapply with_descriptor_is.
  - apply W.
Qed.
End read.
