(* ===== verification/SyscallSafe.v ===== *)
(** * System calls are safe

    Whatever a program puts in its registers, the handler returns, and the process
    table, the descriptors, the file system, the terminal and the page tables stay
    consistent. *)

From Stdlib Require Import ZArith Lia Bool.
From stdpp Require Import base numbers list list_numbers gmap sets.
From S2P Require Import Prelude Memory Bitmap Pmm Paging PagingSpace PagingLife PagingProps Ports Runtime Serial Vga Scheduler Timer Process ProcessProps Usermode UsermodeSpace UsermodeImage UsermodeRun Syscall SyscallProps.

(** The file system keeps an invariant of its own whatever the handler passes to it. *)
Class FilesSafe (F : Type) `{FileSource F, FileWriter F} := {
  files_ok : F → Prop;
  find_safe f path str : files_ok f → cstring path = Some str → Forall is_u8 str → wp (file_find path) (λ r f', files_ok f' ∧ -2147483648 ≤ r < 2147483648) f;
  read_safe f i offset buf size : files_ok f → is_u32 i → is_u32 offset → is_u32 size → size ≤ Z.of_nat (length buf) →
    wp (file_read_index i offset buf size) (λ r f', files_ok f' ∧ length (snd (fst r)) = length buf) f;
  write_safe f path str buf size : files_ok f → cstring path = Some str → Forall is_u8 str → 0 ≤ size ≤ 4096 → size ≤ Z.of_nat (length buf) →
    wp (file_write path buf size) (λ _ f', files_ok f') f }.

(** The desktop opens an application or refuses, and returns. *)
Class GuiSafe (G : Type) `{Gui G} := { gui_safe g id : wp (gui_open_application id) (λ r _, -2147483648 ≤ r < 2147483648) g }.

Section descriptors.
Context {F : Type} `{FilesSafe F}.
Implicit Types s : system F.

(** The numbers in the descriptors are words. *)
Definition descriptor_ok (d : descriptor) : Prop := is_u32 (fd_file_index d) ∧ is_u32 (fd_offset d).

Record system_ok s : Prop := {
  so_procs : procs_ok (sprocs s);
  so_fds : Forall (λ p, Forall descriptor_ok (fds p)) (processes (sprocs s));
  so_files : files_ok (sfiles s) }.

Lemma with_descriptor_fds s fd d : Forall (λ p, Forall descriptor_ok (fds p)) (processes (sprocs s)) → descriptor_ok d →
  Forall (λ p, Forall descriptor_ok (fds p)) (processes (with_descriptor s fd d)).
Proof. intros Hf Hd. unfold with_descriptor. cbn. apply Forall_alter; [done|]. intros p Hp Hx. cbn. by apply Forall_insert. Qed.

Lemma put_fd_wp s fd d (Q : unit → system F → Prop) : system_ok s → 0 ≤ current_process_index (sprocs s) → 0 ≤ fd < 8 → descriptor_ok d →
  (∀ s', system_ok s' → sfiles s' = sfiles s → current_process_index (sprocs s') = current_process_index (sprocs s) → Q tt s') →
  wp (put_fd (current_process_index (sprocs s)) fd d) Q s.
Proof.
  intros [Hok Hfd Hfl] Hcur Hr Hd HQ. pose proof (pk_current _ Hok). pose proof (pk_len _ Hok). set (i := current_process_index (sprocs s)) in *.
  destruct (process_at (sprocs s) i Hok ltac:(lia)) as (p & Hp & [_ Hl]). unfold put_fd. wp_step. apply on_procs_wp. eapply get_process_wp; [lia|exact Hp|]. rewrite set_sprocs_id.
  wp_step. eapply wp_lift; [apply awrite_eq; lia|]. apply on_procs_wp, put_process_wp; [lia|].
  replace (set_processes _ (sprocs s)) with (with_descriptor s fd d) by (unfold with_descriptor; fold i; by rewrite (alter_at _ _ _ p Hp)).
  apply HQ; [|done|done]. split; [by apply with_descriptor_ok|by apply with_descriptor_fds|done].
Qed.

(** The current process, where there is one. *)
Lemma current_process_wp s (Q : option Z → system F → Prop) : system_ok s → (current_process_index (sprocs s) = -1 → Q None s) →
  (∀ p, 0 ≤ current_process_index (sprocs s) < 8 → processes (sprocs s) !! Z.to_nat (current_process_index (sprocs s)) = Some p → process_ok p → Forall descriptor_ok (fds p) →
     Q (Some (current_process_index (sprocs s))) s) → wp (on_procs current_process) Q s.
Proof.
  intros [Hok Hfd Hfl] H1' H2'. pose proof (pk_current _ Hok). apply on_procs_wp. unfold current_process. do 3 wp_step. rewrite set_sprocs_id. unfold USER_PROCESS_COUNT.
  destruct (Z.ltb_spec (current_process_index (sprocs s)) 0); cbn [orb]; [apply H1'; lia|]. rewrite (proj2 (Z.leb_gt 8 _)) by lia.
  destruct (process_at (sprocs s) (current_process_index (sprocs s)) Hok ltac:(lia)) as (p & Hp & Hpo). eapply H2'; [lia|exact Hp|exact Hpo|]. exact (Forall_lookup_1 _ _ _ _ Hfd Hp).
Qed.

Lemma get_descriptor_wp {B} s fd (k : descriptor → M (system F) B) (Q : B → system F → Prop) : system_ok s → 0 ≤ current_process_index (sprocs s) → 0 ≤ fd < 8 →
  (∀ d, descriptor_ok d → wp (k d) Q s) → wp (p ← on_procs (get_process (current_process_index (sprocs s))); d ← lift (aread (fds p) fd); k d) Q s.
Proof.
  intros [Hok Hfd Hfl] Hcur Hr HQ. pose proof (pk_current _ Hok). destruct (process_at (sprocs s) (current_process_index (sprocs s)) Hok ltac:(lia)) as (p & Hp & [_ Hl]).
  wp_step. apply on_procs_wp. eapply get_process_wp; [lia|exact Hp|]. rewrite set_sprocs_id. destruct (lookup_lt_is_Some_2 (fds p) (Z.to_nat fd)) as [d Hd]; [lia|].
  wp_step. eapply wp_lift; [apply aread_Some; split; [lia|exact Hd]|]. apply HQ. exact (Forall_lookup_1 _ _ _ _ (Forall_lookup_1 _ _ _ _ Hfd Hp) Hd).
Qed.

Lemma fd_open_safe s path str : system_ok s → cstring path = Some str → Forall is_u8 str → wp (user_process_fd_open path) (λ _ s', system_ok s') s.
Proof.
  intros Hok Hstr Hch. unfold user_process_fd_open. wp_step. apply current_process_wp; [done|intros _; by wp_step|]. intros p Hcur _ _ _. set (i := current_process_index (sprocs s)) in *.
  wp_step. unfold on_files. apply wp_zoom. eapply wp_mono; [apply (find_safe _ _ str); [apply Hok|done|done]|]. intros r f [Hf Hr].
  assert (Hok1 : system_ok (set_sfiles f s)) by (destruct Hok; by split). destruct (Z.ltb_spec r 0); [by wp_step|]. wp_step.
  apply (wp_for_exit _ _ _ (λ _ s', system_ok s' ∧ current_process_index (sprocs s') = i)); [done|done| |intros s' [Hs' _]; by wp_step].
  intros fd s1 Hfd [Hs1 Ei]. unfold USER_PROCESS_FD_COUNT in Hfd. rewrite <-Ei. apply get_descriptor_wp; [done|lia|lia|]. intros d Hd. destruct (fd_open d); cbn [negb]; [by wp_step|].
  wp_step. apply put_fd_wp; [done|lia|lia| |].
  - split; cbn; [|done]. unfold u32, is_u32. apply Z.mod_pos_bound. done.
  - intros s2 Hs2 _ _. wp_step. by wp_step.
Qed.

Lemma fd_read_safe s fd buf size : system_ok s → is_u32 fd → is_u32 size → size ≤ Z.of_nat (length buf) →
  wp (user_process_fd_read fd buf size) (λ r s', system_ok s' ∧ length (fst r) = length buf) s.
Proof.
  intros Hok Hfd Hs Hl. unfold is_u32 in Hfd. unfold user_process_fd_read. wp_step. apply current_process_wp; [done|intros _; by wp_step|]. intros p Hcur _ _ _. unfold USER_PROCESS_FD_COUNT.
  destruct (Z.leb_spec 8 fd); [by wp_step|]. apply get_descriptor_wp; [done|lia|lia|]. intros d [Hd1 Hd2]. destruct (fd_open d); cbn [negb]; [|by wp_step].
  wp_step. unfold on_files. apply wp_zoom. eapply wp_mono; [apply read_safe; [apply Hok|done|done|done|done]|]. intros [[ok out] n] f [Hf Hlen]. cbn [fst snd] in *.
  assert (Hok1 : system_ok (set_sfiles f s)) by (destruct Hok; by split). destruct ok; cbn [negb]; [|by wp_step].
  wp_step. apply (put_fd_wp (set_sfiles f s)); [done|cbn; lia|lia| |].
  - split; cbn; [done|]. unfold u32, is_u32. apply Z.mod_pos_bound. done.
  - intros s2 Hs2 _ _. by wp_step.
Qed.

Lemma fd_close_safe s fd : system_ok s → is_u32 fd → wp (user_process_fd_close fd) (λ _ s', system_ok s') s.
Proof.
  intros Hok Hfd. unfold is_u32 in Hfd. unfold user_process_fd_close. wp_step. apply current_process_wp; [done|intros _; by wp_step|]. intros p Hcur _ _ _. unfold USER_PROCESS_FD_COUNT.
  destruct (Z.leb_spec 8 fd); [by wp_step|]. apply get_descriptor_wp; [done|lia|lia|]. intros d [Hd1 Hd2]. destruct (fd_open d); cbn [negb]; [|by wp_step].
  wp_step. apply put_fd_wp; [done|lia|lia|by split|]. intros s2 Hs2 _ _. by wp_step.
Qed.

Lemma current_pid_safe s : system_ok s → wp (on_procs user_process_current_pid) (λ _ s', s' = s) s.
Proof.
  intros Hok. pose proof (so_procs _ Hok) as Hp. pose proof (pk_current _ Hp). apply on_procs_wp. unfold user_process_current_pid, current_process. do 4 wp_step. unfold USER_PROCESS_COUNT.
  destruct (Z.ltb_spec (current_process_index (sprocs s)) 0); cbn [orb]; [wp_step; by rewrite set_sprocs_id|]. rewrite (proj2 (Z.leb_gt 8 _)) by lia.
  destruct (process_at (sprocs s) (current_process_index (sprocs s)) Hp ltac:(lia)) as (p & Hp' & _). wp_step. eapply get_process_wp; [lia|exact Hp'|]. wp_step. by rewrite set_sprocs_id.
Qed.
End descriptors.

(** An array with a terminator holds a string, cut at the first zero. *)
Lemma cstring_cut l rest : Forall is_u8 l → ∃ str, cstring (l ++ 0 :: rest) = Some str ∧ Forall is_u8 str.
Proof.
  induction 1 as [|c l Hc Hl (str & E & Hs)]; cbn; [by exists []|]. destruct (c =? 0); [by exists []|]. rewrite E. cbn. exists (c :: str). split; [done|]. by constructor.
Qed.

Section safe.
Context {P Files T S G : Type} `{PageAllocatorLaws P, FilesSafe Files, CanvasLaws T, Uart S, GuiSafe G}.
Context (kernel_space usermode_return_from_exit : Z).
Implicit Types k : kernel (P := P) (F := Files) (T := T) (S := S) (G := G).

Record kernel_ok k (U A : gset Z) (D O : Z → Z) (F : Z → Z → Z) : Prop := {
  ko_vm : running kernel_space (kvm k) U A D O F;
  ko_system : system_ok (ksystem k);
  ko_terminal : ∃ lit X, shows lit (kterminal k) X;
  ko_timer : timer_inv (ktimer k) }.

(** What is left to be assumed of the frame: registers are words, and of a buffer that
    passes the test of the kernel ([good_buffer]: its ends are mapped) that memory lies behind it, and, for READ, into which
    the kernel writes, that the program could write it itself. *)
Record frame_ok k (D : Z → Z) (F : Z → Z → Z) (frame : interrupt_frame) : Prop := {
  fo_words : is_u32 (f_ebx frame) ∧ is_u32 (f_ecx frame) ∧ is_u32 (f_edx frame) ∧ is_u32 (f_esi frame);
  fo_text : f_eax frame = MYOS_SYSCALL_WRITE ∨ f_eax frame = MYOS_SYSCALL_OPEN ∨ f_eax frame = MYOS_SYSCALL_WRITEFILE →
    good_buffer (kvm k) D F (f_ebx frame) (f_ecx frame) → backed (kvm k) (f_ebx frame) (f_ecx frame);
  fo_data : f_eax frame = MYOS_SYSCALL_WRITEFILE → good_buffer (kvm k) D F (f_edx frame) (f_esi frame) → backed (kvm k) (f_edx frame) (f_esi frame);
  fo_read : f_eax frame = MYOS_SYSCALL_READ → good_buffer (kvm k) D F (f_ecx frame) (f_edx frame) → user_buffer (kvm k) D (f_ecx frame) (f_edx frame) }.

(** Only EAX changes, but for EXIT, which makes the program return to the kernel. *)
Definition frame_result (frame frame' : interrupt_frame) : Prop :=
  (∃ v, frame' = set_eax v frame) ∨ (f_eax frame = MYOS_SYSCALL_EXIT ∧ frame' = set_return usermode_return_from_exit 0x08 0x202 frame).

Lemma result_eax frame v : frame_result frame (set_eax v frame).
Proof. left. by exists v. Qed.

(** The name that a program passes: any bytes, ended by the terminator that is put after them. *)
Lemma copy_from_user_wp s U A D O F dst src size (Q : list Z → vm P → Prop) : running kernel_space s U A D O F → 0 ≤ src → good_buffer s D F src size → backed s src size →
  size < Z.of_nat (length dst) → (∀ l, length l = length dst → Forall is_u8 (take (Z.to_nat size) l) → Q l s) → wp (copy_from_user dst src size) Q s.
Proof.
  intros Hok Hp Hg Hb Hl HQ. pose proof Hg as (_ & Hs & Hlt & _). unfold copy_from_user. wp_step.
  apply (wp_for_state _ _ _ (λ i l s', s' = s ∧ length l = length dst ∧ Forall is_u8 (take (Z.to_nat i) l))); [lia|done| |].
  - intros i l s' Hi (-> & El & Hu). u32_simp. destruct (good_buffer_present kernel_space s U A D O F src size (src + i) Hok Hg Hp ltac:(lia)) as [e He].
    wp_step. eapply get_virtual_wp; [exact He|by apply Hb; [lia|]|]. intros b Hb'. wp_step. eapply wp_lift; [apply awrite_eq; lia|]. wp_step. split_and!; [done|by rewrite length_insert|].
    replace (Z.to_nat (i + 1)) with (Datatypes.S (Z.to_nat i)) by lia. rewrite (take_S_r _ _ b) by (apply list_lookup_insert_eq; lia). rewrite take_insert_ge by lia.
    apply Forall_app. split; [done|]. apply Forall_singleton. by eapply byte_u8.
  - intros l s' (-> & El & Hu). wp_step. by apply HQ.
Qed.

Lemma user_name_wp k U A D O F name ptr size (Q : list Z → kernel → Prop) : running kernel_space (kvm k) U A D O F → 0 ≤ ptr → good_buffer (kvm k) D F ptr size → backed (kvm k) ptr size →
  size < 32 → length name = 32%nat → (∀ path str, cstring path = Some str → Forall is_u8 str → Q path k) → wp (user_name name ptr size) Q k.
Proof.
  intros Hok Hp Hg Hb Hs Hl HQ. pose proof Hg as (_ & Hs1 & _). unfold user_name. wp_step. apply in_vm_wp. eapply copy_from_user_wp; [exact Hok|lia|exact Hg|done|lia|]. intros l El Hu. rewrite set_kvm_id.
  eapply wp_lift; [apply awrite_eq; lia|]. rewrite insert_take_drop by lia. destruct (cstring_cut _ (drop (Datatypes.S (Z.to_nat size)) l) Hu) as (str & E & Hstr). by eapply HQ.
Qed.

(** The check of a buffer, with the kernel as it was. *)
Lemma check_buffer_wp k U A D O F ptr size (Q : bool → kernel → Prop) : running kernel_space (kvm k) U A D O F → is_u32 ptr → is_u32 size →
  (good_buffer (kvm k) D F ptr size → Q true k) → Q false k → wp (in_vm (user_buffer_is_valid ptr size)) Q k.
Proof. intros Hok Hp Hs HQ1 HQ2. apply in_vm_wp. eapply buffer_valid_wp; [exact Hok|done|done| |]; rewrite set_kvm_id; auto. Qed.

Lemma syscall_write_wp k U A D O F data (Q : unit → kernel → Prop) : kernel_ok k U A D O F →
  (∀ k', kernel_ok k' U A D O F → line (kserial k') = line (kserial k) ++ (u8 <$> data) → Q tt k') → wp (syscall_write data (Z.of_nat (length data))) Q k.
Proof.
  intros [Hv Hs (lit & X & Ht) Htm] HQ. unfold syscall_write. wp_step. unfold in_terminal. wp_step. rewrite <-(app_nil_r data) at 1. eapply wp_mono; [apply (terminal_write_wp lit (λ _, True)); exact Ht|]. intros [] t' [Ht' _].
  apply (wp_for _ _ _ (λ i k', kernel_ok k' U A D O F ∧ line (kserial k') = line (kserial k) ++ (u8 <$> take (Z.to_nat i) data))); [lia| | |].
  - split; [split; [done|done|by exists lit, (foldl type_char X data)|done]|]. by rewrite app_nil_r.
  - intros i k1 Hi [Hk1 E1]. destruct (aread_is_Some data i) as [c Hc]; [lia|]. wp_step. eapply wp_lift; [exact Hc|]. unfold in_serial. wp_step. apply serial_write_char_wp. intros d' E'. split; [by destruct Hk1|].
    apply aread_Some in Hc as [_ Hc]. cbn [kserial set_kserial]. replace (Z.to_nat (i + 1)) with (Datatypes.S (Z.to_nat i)) by lia. by rewrite E', E1, (take_S_r _ _ _ Hc), fmap_app, <-app_assoc.
  - intros k' [Hk' E']. apply HQ; [done|]. by rewrite Nat2Z.id, firstn_all in E'.
Qed.

Lemma syscall_handle_wp k frame name U A D O F : kernel_ok k U A D O F → frame_ok k D F frame → length name = 32%nat →
  wp (syscall_handle usermode_return_from_exit name frame) (λ frame' k', kernel_ok k' U A D O F ∧ frame_result frame frame') k.
Proof.
  intros Hk Hfr Hn.
  pose proof Hk as [Hv Hs Ht Htm]. destruct Hfr as [(Wb & Wc & Wd & Ws) B1 B3 Hread]. unfold is_u32 in Wb, Wc, Wd. pose proof (result_eax frame) as Hres.
  unfold syscall_handle. destruct (Z.eqb_spec (f_eax frame) MYOS_SYSCALL_WRITE) as [E1|_].
  { wp_step. eapply check_buffer_wp; [exact Hv|done|done| |by wp_step]. intros Hg. wp_step. eapply read_buffer_wp; [exact Hv|lia|exact Hg|by apply B1; [left|]|]. intros l Hl Hu _.
    wp_step. rewrite <-Hl at 1. eapply syscall_write_wp; [exact Hk|]. intros k' Hk' _. by wp_step. }
  destruct (Z.eqb_spec (f_eax frame) MYOS_SYSCALL_EXIT) as [E2|_].
  { wp_step. wp_step. wp_step. split; [by destruct Hk|]. by right. }
  destruct (f_eax frame =? MYOS_SYSCALL_YIELD).
  { wp_step. wp_step. wp_step. unfold in_timer, on_sched, scheduler_request_reschedule. do 3 wp_step. wp_step. split; [|done]. split; [done|done|done|]. destruct Htm as [Hi Hq]. split; [by destruct Hi|done]. }
  destruct (f_eax frame =? MYOS_SYSCALL_UPTIME).
  { wp_step. unfold in_timer, timer_uptime_seconds. do 3 wp_step. unfold timer_ticks. destruct (configured_frequency (ktimer k) =? 0); wp_steps; (split; [by destruct Hk|done]). }
  destruct (Z.eqb_spec (f_eax frame) MYOS_SYSCALL_OPEN) as [E5|_].
  { wp_step. eapply check_buffer_wp; [exact Hv|done|done| |cbn [negb orb]; by wp_step]. intros Hg. cbn [negb orb]. destruct (_ || _) eqn:E; [by wp_step|]. bool_to_prop.
    wp_step. eapply user_name_wp; [exact Hv|lia|exact Hg|by apply B1; [right; left|]|lia|done|]. intros path str Hp Hu. wp_step. apply in_system_wp. eapply wp_mono; [by eapply fd_open_safe|]. intros r s' Hs'. wp_step. by split. }
  destruct (Z.eqb_spec (f_eax frame) MYOS_SYSCALL_READ) as [E6|_].
  { wp_step. eapply check_buffer_wp; [exact Hv|done|done| |cbn [negb]; by wp_step]. intros Hg. cbn [negb]. pose proof Hg as (_ & Hs1 & Hlt & _).
    wp_step. eapply read_buffer_wp; [exact Hv|lia|exact Hg|eapply user_buffer_backed; by apply Hread|]. intros l Hl Hu _. wp_step. apply in_system_wp. eapply wp_mono; [apply fd_read_safe; [done|done|done|lia]|]. intros r s' [Hs' Hlen].
    wp_step. apply in_vm_wp. cbn [kvm set_ksystem]. eapply put_bytes_wp; [exact Hv|lia|rewrite Hlen; lia|rewrite Hlen, Hl; by apply Hread|]. intros s2 W _ _. wp_step. split; [|done]. split; [apply W|done|done|done]. }
  destruct (f_eax frame =? MYOS_SYSCALL_CLOSE).
  { wp_step. apply in_system_wp. eapply wp_mono; [by apply fd_close_safe|]. intros r s' Hs'. wp_step. by split. }
  destruct (f_eax frame =? MYOS_SYSCALL_GETPID).
  { wp_step. apply in_system_wp. eapply wp_mono; [by apply current_pid_safe|]. intros r s' ->. wp_step. split; [by destruct Hk|done]. }
  destruct (f_eax frame =? MYOS_SYSCALL_WAITPID).
  { wp_step. apply in_system_wp, on_procs_wp. eexists _, _. split; [apply wait_pid_wp, Hs|]. cbn beta. rewrite set_sprocs_id. wp_step. split; [by destruct Hk|done]. }
  destruct (Z.eqb_spec (f_eax frame) MYOS_SYSCALL_WRITEFILE) as [E10|_].
  { wp_step. eapply check_buffer_wp; [exact Hv|done|done| |wp_step; cbn [negb orb]; wp_step; by wp_step]. intros Hg. wp_step. cbn [negb orb]. destruct (_ || _) eqn:E; [wp_step; by wp_step|]. bool_to_prop.
    wp_step. eapply check_buffer_wp; [exact Hv|done|done| |wp_step; cbn [negb]; by wp_step]. intros Hg2. wp_step. cbn [negb]. pose proof Hg2 as (_ & Hs2 & _).
    wp_step. eapply user_name_wp; [exact Hv|lia|exact Hg|by apply B1; [right; right|]|lia|done|]. intros path str Hp Hu. wp_step. eapply read_buffer_wp; [exact Hv|lia|exact Hg2|by apply B3|]. intros l Hl Hlu _.
    wp_step. apply in_system_wp. unfold on_files. apply wp_zoom. eapply wp_mono; [eapply write_safe; [apply Hs|exact Hp|exact Hu|lia|lia]|]. intros ok f' Hf'. wp_step. split; [|done]. split; [done|destruct Hs; by split|done|done]. }
  destruct (f_eax frame =? MYOS_SYSCALL_GUI_OPEN).
  { wp_step. unfold in_gui. wp_step. eapply wp_mono; [apply gui_safe|]. intros r g' _. wp_step. split; [by destruct Hk|done]. }
  wp_step. by split.
Qed.

(** C4. A system call is safe: for a kernel in order and whatever the registers hold (an
    unknown number, a null or unmapped pointer, a size that wraps around, a bad
    descriptor, a name without an end), the handler returns (it never faults on a
    pointer and never loops), it changes the register EAX only, but for EXIT, and the
    page tables, the process table, the descriptors, the file system and the terminal
    are consistent again. One case is excluded, because the code does not exclude it:
    the test of a buffer asks only whether its ends are mapped, so a buffer that passes
    it must have memory behind it (WRITE, OPEN, WRITEFILE) or be writable for the
    program itself (READ); with a pointer into the kernel READ would overwrite the
    kernel ([kernel_pointer_accepted]). A buffer that does not pass needs nothing. *)
Theorem syscall_handle_safe k frame name U A D O F : kernel_ok k U A D O F → frame_ok k D F frame → length name = 32%nat →
  ∃ frame' k', syscall_handle usermode_return_from_exit name frame k = Some (frame', k') ∧ kernel_ok k' U A D O F ∧ frame_result frame frame'.
Proof. apply syscall_handle_wp. Qed.
End safe.
