(* ===== verification/SyscallDemo.v ===== *)
(** * The file system behind the system calls, and a program that calls

    diskfs.c keeps its invariant under everything that syscall.c asks of it; with a
    machine on which the statements about the system calls are applied: a program in
    place, the small disk, an empty terminal. *)

From Stdlib Require Import ZArith Lia Bool String.
From stdpp Require Import base numbers list list_numbers strings gmap sets.
From S2P Require Import Prelude Memory Bitmap Pmm Paging PagingSpace PagingLife PagingInit PagingProps Ports Runtime Serial Vga Scheduler Timer DiskCache Diskfs DiskfsAlloc DiskfsInv DiskfsPath DiskfsData DiskfsOps DiskfsFiles DiskfsChange DiskfsProps Process ProcessProps ProcessFiles Usermode UsermodeSpace UsermodeImage UsermodeRun UsermodeDemo Syscall SyscallProps SyscallSafe.

Section files.
Context {D : Type} `{Disk D}.
Implicit Types f : fs D.

#[export] Instance diskfs_writer : FileWriter (fs D) := {| file_write := diskfs_write_file |}.

Lemma cstring_path path str : cstring path = Some str → Forall is_u8 str → path_holds str path.
Proof.
  intros (rest & -> & Hnz)%cstring_spec Hch. split; [|by exists rest]. pose proof (proj2 (Forall_and _ _) (conj Hnz Hch)) as Hb. eapply Forall_impl; [exact Hb|]. unfold is_u8. intros x [? ?]. lia.
Qed.

Definition diskfs_ok f : Prop := ∃ v, fs_inv f v.

(** Reading is safe for any index and offset. *)
Lemma diskfs_read_safe f i offset buf size : diskfs_ok f → is_u32 i → is_u32 offset → is_u32 size → size ≤ Z.of_nat (length buf) →
  wp (diskfs_read_index i offset buf size) (λ r f', diskfs_ok f' ∧ length (snd (fst r)) = length buf) f.
Proof.
  intros [v I] Hi Ho Hs Hb. pose proof (me_len _ _ _ (fi_meta _ _ I)) as Hl. pose proof (geo_count _ (me_geo _ _ _ (fi_meta _ _ I))) as Hc. unfold is_u32 in Hi.
  destruct (available f) eqn:Hav.
  2: { unfold diskfs_read_index. do 4 wp_step. rewrite Hav. cbn [negb orb]. wp_step. split; [by exists v|done]. }
  destruct (decide (inode_count (superblock f) ≤ i)) as [Hge|Hlt].
  { unfold diskfs_read_index. do 4 wp_step. rewrite Hav, (proj2 (Z.leb_le _ _)) by lia. cbn [negb orb]. wp_step. split; [by exists v|done]. }
  destruct (lookup_lt_is_Some_2 (inodes f) (Z.to_nat i)) as [n Hn]; [lia|]. destruct (decide (itype n = DISKFS_TYPE_FILE)) as [Ht|Ht].
  - pose proof (read_index_wp f v (Z.to_nat i) n offset buf size (fi_store _ _ I) (fi_meta _ _ I) Hav Hn Ht Ho Hs Hb) as W. cbn zeta in W. rewrite Z2Nat.id in W by lia.
    eapply wp_mono; [exact W|]. intros r f' (St & _ & _ & Hlen). split; [|done]. exists v. by eapply stored_inv.
  - unfold diskfs_read_index. do 4 wp_step. rewrite Hav, (proj2 (Z.leb_gt _ _)) by lia. cbn [negb orb]. unfold get_inode. do 3 wp_step. eapply wp_lift; [apply aread_Some; split; [lia|exact Hn]|].
    rewrite (proj2 (Z.eqb_neq _ _)) by done. cbn [negb]. wp_step. split; [by exists v|done].
Qed.

#[export, program] Instance diskfs_safe : FilesSafe (fs D) := {| files_ok := diskfs_ok |}.
Next Obligation.
  intros f path str [v I] Hc Hu. pose proof (me_len _ _ _ (fi_meta _ _ I)) as Hl. eapply wp_mono; [apply (find_index_wp f v str); [exact I|by apply cstring_path]|].
  intros r f' (-> & Hr & _). split; [by exists v|]. destruct Hr as [->|(i & n & -> & Hn & _)]; [lia|]. apply lookup_lt_Some in Hn. lia.
Qed.
Next Obligation. intros. by apply diskfs_read_safe. Qed.
Next Obligation.
  intros f path str buf size [v I] Hc Hu Hs Hb. eapply wp_mono; [apply (write_file_wp f v str); [exact I|by apply cstring_path|unfold DISKFS_MAX_FILE_SIZE; lia|lia]|].
  intros ok f' (v' & i & I' & _). by exists v'.
Qed.
End files.

(** ** A machine *)

#[export] Instance no_desktop : Gui unit := {| gui_open_application _ := mret (-1) |}.
#[export, program] Instance no_desktop_safe : GuiSafe unit.
Next Obligation. intros g id. by apply wp_ret. Qed.

Lemma demo_timer_inv : timer_inv demo_timer.
Proof. exact (proj1 (reachable_timer_inv _ _ _ _ _ demo_timer_reachable)). Qed.

Definition demo_syscall (s : vm pmm) : kernel (P := pmm) (F := fs ramdisk) (T := cells) (S := uart) (G := unit) :=
  Kernel s demo_system blank_term (UartState [] false) demo_timer tt 0 0.

(** read(0, 0x400000, 3), with the registers EBX, EDX, ECX and EAX in the order of the frame. *)
Definition demo_read : interrupt_frame := InterruptFrame 0x23 0x23 0x23 0x23 0 0 0 0 0 3 0x400000 6 128 0 0x400010 0x1B 0x202 0x411000 0x23.

Lemma demo_buffer s A p q D O F pa n : demo_running s A p q D O F pa → 0 < n ≤ 4096 → good_buffer s D F 0x400000 n ∧ user_buffer s D 0x400000 n.
Proof.
  intros [Hv _ Ha Ho] Hn. assert (Hacc : ∀ v, 0x400000 ≤ v < 0x400000 + n → user_access (vmem s) (cr3 s) v = Some (cell pa (v - 4194304))).
  { intros v Hv'. assert (Hu : is_u32 v) by (unfold is_u32; lia). rewrite (Ha v Hu), (proj2 (Z.leb_le 4194304 v)), (proj2 (Z.ltb_lt v 4263936)) by lia. done. }
  split.
  - unfold good_buffer. rewrite (user_access_physical 0x129000 s _ _ D O F 0x400000 _ Hv ltac:(unfold is_u32; lia) (Hacc 0x400000 ltac:(lia))),
      (user_access_physical 0x129000 s _ _ D O F (0x400000 + n - 1) _ Hv ltac:(unfold is_u32; lia) (Hacc (0x400000 + n - 1) ltac:(lia))).
    destruct (Ho (0x400000 - 4194304) ltac:(lia)) as (_ & _ & H1). destruct (Ho (0x400000 + n - 1 - 4194304) ltac:(lia)) as (_ & _ & H2). split_and!; lia.
  - intros v Hv'. exists (cell pa (v - 4194304)). destruct (Ho (v - 4194304) ltac:(lia)) as (H1 & H2 & _). split_and!; [by apply Hacc|done|done].
Qed.

Lemma demo_once s A p q D O F pa v w x : demo_running s A p q D O F pa → is_u32 v → is_u32 w → user_access (vmem s) (cr3 s) v = Some x → user_access (vmem s) (cr3 s) w = Some x → v = w.
Proof.
  intros [_ [Hl Hnd] Ha _] Hv Hw. rewrite !Ha by done. destruct (Z.leb_spec 4194304 v), (Z.ltb_spec v 4263936), (Z.leb_spec 4194304 w), (Z.ltb_spec w 4263936); cbn [andb]; try done.
  intros [= E1] [= E2]. rewrite <-E2 in E1. apply cell_inj in E1; [lia|done|rewrite Hl; lia|rewrite Hl; lia].
Qed.

Lemma user_buffer_is_valid_witness : ∃ s A p q D O F pa l, demo_running s A p q D O F pa ∧
  user_buffer_is_valid 0x400000 3 s = Some (true, s) ∧ get_bytes 3 0x400000 s = Some (l, s).
Proof.
  destruct demo_program as (s & A & p & q & D & O & F & pa & R). destruct (demo_buffer _ _ _ _ _ _ _ _ 3 R ltac:(clear; done)) as [Hg Hu].
  destruct (user_buffer_is_valid_sound 0x129000 s demo_usable A D O F 0x400000 3 (dr_vm _ _ _ _ _ _ _ _ R) ltac:(clear; done) ltac:(clear; done) (user_buffer_backed _ _ _ _ Hu))
    as (b & E & Hb & Hl). pose proof (proj2 Hb Hg) as Eb. rewrite Eb in E. destruct (Hl Eb) as (l & El & _). exists s, A, p, q, D, O, F, pa, l. exact (conj R (conj E El)).
Defined.

Lemma syscall_read_spec_witness : ∃ s k', syscall_handle 0x100 (replicate 32 0) demo_read (demo_syscall s) = Some (set_eax 3 demo_read, k') ∧
  byte_of (kvm k') 0x400000 = Some 104 ∧ byte_of (kvm k') 0x400001 = Some 101 ∧ byte_of (kvm k') 0x400002 = Some 108.
Proof.
  destruct demo_program as (s & A & p & q & D & O & F & pa & R). destruct (demo_buffer _ _ _ _ _ _ _ _ 3 R ltac:(clear; done)) as [Hg Hu]. exists s.
  destruct (syscall_read_spec 0x129000 0x100 (demo_syscall s) demo_read (replicate 32 0) demo_usable A D O F 2 0 (bytes_of "hello") (dr_vm _ _ _ _ _ _ _ _ R) demo_procs_ok eq_refl
    ltac:(clear; done) ltac:(clear; done) Hg Hu (λ v w x, demo_once _ _ _ _ _ _ _ _ v w x R) demo_descriptor ltac:(clear; done) demo_system_note ltac:(clear; vm_compute; reflexivity)
    ltac:(clear; repeat constructor; done)) as (k' & E & Hb & _).
  exists k'. refine (conj E _). exact (conj (Hb 0 ltac:(clear; vm_compute; done)) (conj (Hb 1 ltac:(clear; vm_compute; done)) (Hb 2 ltac:(clear; vm_compute; done)))).
Defined.

Lemma demo_system_ok : system_ok demo_system.
Proof.
  split; [exact demo_procs_ok| |by exists demo_sectors; apply demo_inv]. repeat constructor; done.
Qed.

Lemma syscall_handle_safe_witness : ∃ s A D O F frame' k', syscall_handle 0x100 (replicate 32 0) demo_read (demo_syscall s) = Some (frame', k') ∧
  kernel_ok 0x129000 k' demo_usable A D O F.
Proof.
  destruct demo_program as (s & A & p & q & D & O & F & pa & R). destruct (demo_buffer _ _ _ _ _ _ _ _ 3 R ltac:(clear; done)) as [Hg Hu].
  destruct (syscall_handle_safe 0x129000 0x100 (demo_syscall s) demo_read (replicate 32 0) demo_usable A D O F) as (frame' & k' & E & Hk & _).
  - split; [exact (dr_vm _ _ _ _ _ _ _ _ R)|exact demo_system_ok|exact (ex_intro _ true (ex_intro _ _ blank_shows))|exact demo_timer_inv].
  - split; [clear; done|intros [H1|[H1|H1]]; discriminate H1|intros H1; discriminate H1|intros _ _; exact Hu].
  - reflexivity.
  - exists s, A, D, O, F, frame', k'. exact (conj E Hk).
Defined.

(** The check does not ask whether the program itself may access the buffer: a page of
    the kernel is accepted, and READ would write there, WRITE print it. *)
Lemma kernel_pointer_accepted : ∃ s, demo_ready s ∧ user_buffer_is_valid 0x1000 16 s = Some (true, s) ∧ user_access (vmem s) (cr3 s) 0x1000 = None.
Proof.
  destruct demo_kernel as (s & D & O & F & Hr & Hok & _ & _ & _ & T & Ec & E3 & _). exists s. split; [exact Hr|].
  assert (Hrun : running 0x129000 s demo_usable ∅ D O F) by (unfold running; rewrite Ec, E3; exact Hok). split.
  - assert (W : wp (user_buffer_is_valid 0x1000 16) (λ b s', b = true ∧ s' = s) s).
    { eapply buffer_valid_wp; [exact Hrun|clear; done|clear; done|intros _; split; reflexivity|]. intros Hn. exfalso. apply Hn. unfold good_buffer.
      change (dir_index 4096) with 0. change (table_index 4096) with 1. change (dir_index (4096 + 16 - 1)) with 0. change (table_index (4096 + 16 - 1)) with 1. rewrite T. clear. by vm_compute. }
    destruct W as (b & s' & E & -> & ->). exact E.
  - rewrite (user_access_eq 0x129000 s demo_usable ∅ D O F 0x1000 Hrun ltac:(clear; done)). change (dir_index 4096) with 0. change (table_index 4096) with 1.
    unfold trans in T. destruct (is_present (D 0)) eqn:Hp; [|discriminate T]. rewrite T. change (Z.testbit (self_entry 1) 2) with false. by rewrite !andb_false_r.
Qed.
