(* ===== verification/Gdt.v ===== *)
(** * Segmentation, arch/x86/gdt.c

    The descriptor table with flat segments for the kernel and for programs, and the task
    state segment whose stack the processor takes when a program is interrupted. *)

From Stdlib Require Import ZArith Lia Bool.
From stdpp Require Import base numbers list.
From S2P Require Import Prelude.

Definition KERNEL_CODE_SELECTOR : Z := 0x08.
Definition KERNEL_DATA_SELECTOR : Z := 0x10.
Definition USER_CODE_SELECTOR : Z := 0x1B.
Definition USER_DATA_SELECTOR : Z := 0x23.
Definition TSS_SELECTOR : Z := 0x28.
Definition GDT_ENTRIES : Z := 6.
Definition TSS_STACK_SIZE : Z := 4096.

Record gdt_entry := GdtEntry { limit_low : Z; gdt_base_low : Z; base_middle : Z; access : Z; granularity : Z; gdt_base_high : Z }.

(** The fields of struct tss_entry that are not always zero. *)
Record tss_entry := TssEntry {
  esp0 : Z; ss0 : Z; tss_cs : Z; tss_ss : Z; tss_ds : Z; tss_es : Z; tss_fs : Z; tss_gs : Z; iomap_base : Z }.
Definition sizeof_tss : Z := 104.

(** The static variables; [gdtr] and [task_register] are what gdt_flush and tss_flush load
    into the processor. *)
Record segments := Segments {
  gdt : list gdt_entry; gdt_limit : Z; gdt_base : Z; tss : tss_entry; gdtr : option (Z * Z); task_register : option Z }.
Definition set_gdt v s := Segments v (gdt_limit s) (gdt_base s) (tss s) (gdtr s) (task_register s).
Definition set_gdt_descriptor limit base s := Segments (gdt s) limit base (tss s) (gdtr s) (task_register s).
Definition set_tss v s := Segments (gdt s) (gdt_limit s) (gdt_base s) v (gdtr s) (task_register s).
Definition set_esp0 v t := TssEntry v (ss0 t) (tss_cs t) (tss_ss t) (tss_ds t) (tss_es t) (tss_fs t) (tss_gs t) (iomap_base t).

Definition gdt_gate (base limit acc gran : Z) : gdt_entry :=
  GdtEntry (Z.land limit 0xFFFF) (Z.land base 0xFFFF) (Z.land (Z.shiftr base 16) 0xFF) acc
    (Z.lor (Z.land (Z.shiftr limit 16) 0x0F) (Z.land gran 0xF0)) (Z.land (Z.shiftr base 24) 0xFF).

Definition gdt_set_gate (index base limit acc gran : Z) : M segments unit :=
  t ← gets gdt; t ← lift (awrite t index (gdt_gate base limit acc gran)); modify (set_gdt t).

(** [tss_stack] is the address of the array. *)
Definition tss_initialize (tss_stack : Z) : M segments unit :=
  modify (set_tss (TssEntry (tss_stack +% TSS_STACK_SIZE) KERNEL_DATA_SELECTOR USER_CODE_SELECTOR USER_DATA_SELECTOR USER_DATA_SELECTOR USER_DATA_SELECTOR
    USER_DATA_SELECTOR USER_DATA_SELECTOR sizeof_tss)).

Definition tss_set_kernel_stack (stack : Z) : M segments unit := modify (λ s, set_tss (set_esp0 stack (tss s)) s).

(** [table] and [tss_address] are the addresses of gdt and tss. *)
Definition gdt_initialize (table tss_address tss_stack : Z) : M segments unit :=
  _ ← modify (set_gdt_descriptor (8 * GDT_ENTRIES - 1) table);
  _ ← gdt_set_gate 0 0 0 0 0;
  _ ← gdt_set_gate 1 0 0xFFFFF 0x9A 0xCF;
  _ ← gdt_set_gate 2 0 0xFFFFF 0x92 0xCF;
  _ ← gdt_set_gate 3 0 0xFFFFF 0xFA 0xCF;
  _ ← gdt_set_gate 4 0 0xFFFFF 0xF2 0xCF;
  _ ← tss_initialize tss_stack;
  _ ← gdt_set_gate 5 tss_address (sizeof_tss - 1) 0x89 0x40;
  modify (λ s, Segments (gdt s) (gdt_limit s) (gdt_base s) (tss s) (Some (gdt_limit s, gdt_base s)) (Some TSS_SELECTOR)).

(** ** What the processor reads from a descriptor *)

Definition segment_base (e : gdt_entry) : Z := gdt_base_low e + 2 ^ 16 * base_middle e + 2 ^ 24 * gdt_base_high e.
(** The last offset: limits are counted in pages when the granularity bit is set. *)
Definition segment_last (e : gdt_entry) : Z :=
  let l := limit_low e + 2 ^ 16 * Z.land (granularity e) 0x0F in
  if Z.testbit (granularity e) 7 then 4096 * l + 4095 else l.
Definition segment_present (e : gdt_entry) : bool := Z.testbit (access e) 7.
Definition segment_ring (e : gdt_entry) : Z := Z.land (Z.shiftr (access e) 5) 3.
Definition segment_code (e : gdt_entry) : bool := Z.testbit (access e) 4 && Z.testbit (access e) 3.
Definition segment_data (e : gdt_entry) : bool := Z.testbit (access e) 4 && negb (Z.testbit (access e) 3) && Z.testbit (access e) 1.
Definition segment_tss (e : gdt_entry) : bool := Z.land (access e) 0x1F =? 9.

(** The descriptor of a selector, and the privilege level it asks for. *)
Definition selected (t : list gdt_entry) (selector : Z) : option gdt_entry := t !! Z.to_nat (Z.shiftr selector 3).
Definition asked_ring (selector : Z) : Z := Z.land selector 3.

Lemma gate_base base limit acc gran : is_u32 base → segment_base (gdt_gate base limit acc gran) = base.
Proof.
  intros Hb. unfold segment_base, gdt_gate. cbn [gdt_base_low base_middle gdt_base_high]. change 0xFFFF with (Z.ones 16). change 0xFF with (Z.ones 8).
  rewrite !Z.land_ones, !Z.shiftr_div_pow2 by lia. unfold is_u32 in Hb. Z.div_mod_to_equations. lia.
Qed.

(** Segmentation is flat: after gdt_initialize the selectors that the kernel and its
    programs use name present segments of the kind and the privilege level they are used
    with, all of the 4 GiB from 0; the task register names the task state segment, at its
    address, whose stack is the end of the kernel's own stack for interrupts. *)
Theorem gdt_initialize_flat table tss_address tss_stack s : length (gdt s) = 6%nat → is_u32 tss_address → 0 ≤ tss_stack < 2 ^ 32 - 4096 →
  ∃ s', gdt_initialize table tss_address tss_stack s = Some (tt, s') ∧ gdtr s' = Some (47, table) ∧ task_register s' = Some TSS_SELECTOR ∧
    (∀ sel, sel ∈ [KERNEL_CODE_SELECTOR; KERNEL_DATA_SELECTOR; USER_CODE_SELECTOR; USER_DATA_SELECTOR] → ∃ e, selected (gdt s') sel = Some e ∧
       segment_present e = true ∧ segment_base e = 0 ∧ segment_last e = 2 ^ 32 - 1 ∧ segment_ring e = asked_ring sel ∧
       segment_code e = bool_decide (sel ∈ [KERNEL_CODE_SELECTOR; USER_CODE_SELECTOR]) ∧ segment_data e = bool_decide (sel ∈ [KERNEL_DATA_SELECTOR; USER_DATA_SELECTOR])) ∧
    (∃ e, selected (gdt s') TSS_SELECTOR = Some e ∧ segment_present e = true ∧ segment_tss e = true ∧ segment_base e = tss_address ∧ segment_last e = sizeof_tss - 1) ∧
    ss0 (tss s') = KERNEL_DATA_SELECTOR ∧ esp0 (tss s') = tss_stack + TSS_STACK_SIZE.
Proof.
  intros Hl Ht Hst. destruct (gdt s) as [|e0 [|e1 [|e2 [|e3 [|e4 [|e5 [|e6 l]]]]]]] eqn:Eg; try done. destruct s as [g lim b t r tr]. cbn in Eg. subst g.
  eexists. split; [reflexivity|]. cbn [gdtr task_register tss gdt ss0 esp0]. split; [done|]. split; [done|]. split; [|split; [|split; [done|]]].
  - intros sel Hsel. repeat (apply elem_of_cons in Hsel as [->|Hsel]; [eexists; split; [reflexivity|]; by vm_compute|]). by apply not_elem_of_nil in Hsel.
  - eexists. split; [reflexivity|]. split; [done|]. split; [done|]. split; [by apply gate_base|done].
  - apply u32_small. unfold is_u32, TSS_STACK_SIZE. lia.
Qed.

Definition demo_segments : segments := Segments (replicate 6 (GdtEntry 0 0 0 0 0 0)) 0 0 (TssEntry 0 0 0 0 0 0 0 0 0) None None.
Lemma gdt_initialize_flat_witness : ∃ s', gdt_initialize 0x120000 0x120100 0x121000 demo_segments = Some (tt, s') ∧ esp0 (tss s') = 0x122000.
Proof.
  destruct (gdt_initialize_flat 0x120000 0x120100 0x121000 demo_segments) as (s' & E & _ & _ & _ & _ & _ & Hs); [reflexivity|done|done|]. exists s'. exact (conj E Hs).
Defined.
