(* ===== verification/Idt.v ===== *)
(** * Interrupts, arch/x86/interrupts/idt.c

    The interrupt descriptor table, the two interrupt controllers, and the dispatcher that
    every interrupt and exception goes through: system calls, keyboard, mouse, timer, the
    other lines of the controllers, and exceptions, which stop the machine. *)

From Stdlib Require Import ZArith Lia Bool String.
From stdpp Require Import base numbers list gmap.
From S2P Require Import Prelude Memory Pmm Paging Keyboard Mouse Runtime Serial Vga Scheduler Timer Process Usermode Syscall Ports.

Definition IDT_ENTRIES : Z := 256.
Definition IDT_KERNEL_CODE_SELECTOR : Z := 0x08.
Definition IDT_INTERRUPT_GATE : Z := 0x8E.
Definition PIC1_DATA : Z := 0x21.
Definition PIC2_DATA : Z := 0xA1.

(** ** The descriptor table *)

Record idt_entry := IdtEntry { base_low : Z; selector : Z; always_zero : Z; flags : Z; base_high : Z }.

(** The static variables, and what idt_load puts into the processor. *)
Record idt_state (D : Type) := Idt {
  idt : list idt_entry; idt_limit : Z; idt_base : Z; idtr : option (Z * Z); pics : D }.
Arguments Idt {D}. Arguments idt {D}. Arguments idt_limit {D}. Arguments idt_base {D}. Arguments idtr {D}. Arguments pics {D}.

Section idt.
Context {D : Type} `{PortIO D}.
Definition set_idt v (s : idt_state D) : idt_state D := Idt v (idt_limit s) (idt_base s) (idtr s) (pics s).
Definition set_pics v (s : idt_state D) : idt_state D := Idt (idt s) (idt_limit s) (idt_base s) (idtr s) v.
Definition on_pics {A} (m : M D A) : M (idt_state D) A := zoom pics set_pics m.

Definition idt_set_gate (index base selector flags : Z) : M (idt_state D) unit :=
  t ← gets idt;
  t ← lift (awrite t index (IdtEntry (Z.land base 0xFFFF) selector 0 flags (Z.land (Z.shiftr base 16) 0xFFFF)));
  modify (set_idt t).

(** ** The interrupt controllers *)

Definition pic_remap : M D unit :=
  master_mask ← inb PIC1_DATA;
  slave_mask ← inb PIC2_DATA;
  _ ← outb PIC1_COMMAND 0x11;
  _ ← outb PIC2_COMMAND 0x11;
  _ ← outb PIC1_DATA 0x20;
  _ ← outb PIC2_DATA 0x28;
  _ ← outb PIC1_DATA 0x04;
  _ ← outb PIC2_DATA 0x02;
  _ ← outb PIC1_DATA 0x01;
  _ ← outb PIC2_DATA 0x01;
  _ ← outb PIC1_DATA master_mask;
  outb PIC2_DATA slave_mask.

Definition irq_port (irq_line : Z) : Z := if irq_line <? 8 then PIC1_DATA else PIC2_DATA.
Definition irq_bit (irq_line : Z) : Z := if irq_line <? 8 then irq_line else u8 (irq_line - 8).

Definition irq_set_mask (irq_line : Z) : M D unit :=
  v ← inb (irq_port irq_line);
  outb (irq_port irq_line) (u8 (Z.lor v (Z.shiftl 1 (irq_bit irq_line)))).

Definition irq_clear_mask (irq_line : Z) : M D unit :=
  v ← inb (irq_port irq_line);
  outb (irq_port irq_line) (u8 (Z.land v (Z.lnot (Z.shiftl 1 (irq_bit irq_line))))).

(** [isr i] is the address of the assembly stub of the vector [i]; [table] the address of
    the array idt. *)
Definition idt_initialize (isr : Z → Z) (table : Z) : M (idt_state D) unit :=
  _ ← for_ 0 IDT_ENTRIES (λ i, idt_set_gate (u8 i) 0 IDT_KERNEL_CODE_SELECTOR 0);
  _ ← for_ 0 48 (λ i, idt_set_gate i (isr i) IDT_KERNEL_CODE_SELECTOR IDT_INTERRUPT_GATE);
  _ ← idt_set_gate 128 (isr 128) IDT_KERNEL_CODE_SELECTOR 0xEE;
  _ ← on_pics pic_remap;
  _ ← on_pics (for_ 0 16 irq_set_mask);
  _ ← on_pics (irq_clear_mask 0);
  _ ← on_pics (irq_clear_mask 1);
  _ ← on_pics (irq_clear_mask 2);
  _ ← on_pics (irq_clear_mask 12);
  let limit := 8 * IDT_ENTRIES - 1 in
  modify (λ s, Idt (idt s) limit table (Some (limit, table)) (pics s)).
End idt.

(** ** The dispatcher *)

Definition exception_names : list string :=
  ["Divide Error"; "Debug"; "Non-maskable Interrupt"; "Breakpoint"; "Overflow"; "Bound Range Exceeded"; "Invalid Opcode"; "Device Not Available";
   "Double Fault"; "Coprocessor Segment Overrun"; "Invalid TSS"; "Segment Not Present"; "Stack-Segment Fault"; "General Protection Fault"; "Page Fault"; "Reserved";
   "x87 Floating-Point Exception"; "Alignment Check"; "Machine Check"; "SIMD Floating-Point Exception"; "Virtualization Exception"; "Control Protection Exception"; "Reserved"; "Reserved";
   "Reserved"; "Reserved"; "Reserved"; "Reserved"; "Hypervisor Injection Exception"; "VMM Communication Exception"; "Security Exception"; "Reserved"]%string.

(** Where the dispatcher ends: with the frame to be resumed (the address of the saved frame,
    and the contents of the frame it was called with), or in the loop that stops the
    machine. *)
Inductive dispatched := Resume (frame_address : Z) (frame : interrupt_frame) | Halted.

Section dispatch.
Context {P F T S G D : Type} `{PageAllocator P, FileSource F, FileWriter F, Canvas T, PortIO S, Gui G, PortIO D}.
Context (usermode_return_from_exit : Z).
Abbreviation K := (kernel (P := P) (F := F) (T := T) (S := S) (G := G)).

(** The kernel behind the system calls, the two input drivers and their controller. *)
Record interrupts := Interrupts {
  ikernel : K; ikeys : kbd; imouse : mouse; iports : D }.
Definition set_ikernel v i := Interrupts v (ikeys i) (imouse i) (iports i).
Definition set_ikeys v i := Interrupts (ikernel i) (fst v) (imouse i) (snd v).
Definition set_imouse v i := Interrupts (ikernel i) (ikeys i) (fst v) (snd v).
Definition in_kernel {A} (m : M K A) : M interrupts A := zoom ikernel set_ikernel m.
Definition in_keys {A} (m : M (kbd * D) A) : M interrupts A := zoom (λ i, (ikeys i, iports i)) set_ikeys m.
Definition in_mouse {A} (m : M (mouse * D) A) : M interrupts A := zoom (λ i, (imouse i, iports i)) set_imouse m.

Definition diagnostics_write (text : list Z) : M K unit :=
  _ ← in_terminal (Vga.terminal_writestring text);
  in_serial (Serial.serial_writestring text).

Definition diagnostics_write_hex (name : list Z) (value : Z) : M K unit :=
  hex ← lift (u32_to_hex value (replicate 11 0));
  _ ← diagnostics_write name;
  _ ← diagnostics_write (snd hex);
  diagnostics_write [10; 0].

(** [cr2] is the address of the last page fault. *)
Definition print_exception_diagnostics (cr2 : Z) (frame : interrupt_frame) : M K unit :=
  name ← lift (if f_int_no frame <? 32 then aread exception_names (f_int_no frame) else Some "Unknown"%string);
  _ ← in_terminal (terminal_set_color (vga_entry_color 12 0));
  _ ← diagnostics_write (10 :: c_line "KERNEL PANIC: CPU exception");
  _ ← diagnostics_write (c_str "Exception: ");
  _ ← diagnostics_write (c_str name);
  _ ← diagnostics_write [10; 0];
  _ ← diagnostics_write_hex (c_str "INT=") (f_int_no frame);
  _ ← diagnostics_write_hex (c_str "ERR=") (f_err_code frame);
  _ ← diagnostics_write_hex (c_str "EIP=") (f_eip frame);
  _ ← diagnostics_write_hex (c_str "CS=") (f_cs frame);
  _ ← diagnostics_write_hex (c_str "EFLAGS=") (f_eflags frame);
  _ ← when (f_int_no frame =? 14) (diagnostics_write_hex (c_str "CR2=") cr2);
  _ ← diagnostics_write_hex (c_str "EAX=") (f_eax frame);
  _ ← diagnostics_write_hex (c_str "EBX=") (f_ebx frame);
  _ ← diagnostics_write_hex (c_str "ECX=") (f_ecx frame);
  _ ← diagnostics_write_hex (c_str "EDX=") (f_edx frame);
  _ ← diagnostics_write_hex (c_str "ESI=") (f_esi frame);
  _ ← diagnostics_write_hex (c_str "EDI=") (f_edi frame);
  _ ← diagnostics_write_hex (c_str "EBP=") (f_ebp frame);
  _ ← diagnostics_write_hex (c_str "ESP=") (f_esp frame);
  diagnostics_write (c_line "System halted.").

Definition interrupt_dispatch (cr2 : Z) (name : list Z) (frame_address : Z) (frame : interrupt_frame) : M interrupts dispatched :=
  let n := f_int_no frame in
  if n =? 128 then
    frame ← in_kernel (syscall_handle usermode_return_from_exit name frame);
    mret (Resume frame_address frame)
  else if n =? 33 then
    _ ← in_keys keyboard_handle_interrupt;
    _ ← in_kernel (in_timer (pic_send_eoi n));
    mret (Resume frame_address frame)
  else if n =? 44 then
    _ ← in_mouse mouse_handle_interrupt;
    _ ← in_kernel (in_timer (pic_send_eoi n));
    mret (Resume frame_address frame)
  else if n =? 32 then
    next ← in_kernel (in_timer (timer_irq frame_address));
    mret (Resume next frame)
  else if (32 <=? n) && (n <=? 47) then
    _ ← in_kernel (in_timer (pic_send_eoi n));
    mret (Resume frame_address frame)
  else
    _ ← in_kernel (print_exception_diagnostics cr2 frame);
    mret Halted.
End dispatch.
