(* ===== verification/IdtProps.v ===== *)
(** * Interrupts: properties

    idt_initialize routes every vector that the assembly has a stub for, and sets the
    controllers up for exactly the lines the kernel serves; interrupt_dispatch keeps the
    kernel in order on every interrupt and acknowledges each exactly once. *)

From Stdlib Require Import ZArith Lia Bool String.
From stdpp Require Import base numbers list gmap.
From S2P Require Import DiskCache Diskfs DiskfsProps ProcessFiles Prelude Memory Bitmap Pmm Paging PagingSpace PagingProps Keyboard Mouse Runtime Serial Vga Scheduler Timer Process ProcessProps Usermode UsermodeRun UsermodeDemo Syscall SyscallSafe SyscallDemo Ports Idt.

(** ** The controllers

    The 8259A: a command 0x11 starts the initialization, the next three bytes at the data
    port are the first vector, the wiring and the mode; otherwise the data port holds the
    mask. The master is the first of the pair. *)
Inductive pic_step := PicNormal | PicVector | PicWiring | PicMode.
Record pic_chip := PicChip { pc_step : pic_step; pc_vector : Z; pc_mask : Z }.
Definition pic_data (v : Z) (c : pic_chip) : pic_chip :=
  match pc_step c with
  | PicNormal => PicChip PicNormal (pc_vector c) v
  | PicVector => PicChip PicWiring (Z.land v 0xF8) (pc_mask c)
  | PicWiring => PicChip PicMode (pc_vector c) (pc_mask c)
  | PicMode => PicChip PicNormal (pc_vector c) (pc_mask c)
  end.
Definition pic_start (c : pic_chip) : pic_chip := PicChip PicVector (pc_vector c) 0.

Class Pic8259 (D : Type) `{PortIO D} := {
  chips : D → pic_chip * pic_chip;
  master_start_law d : wp (outb PIC1_COMMAND 0x11) (λ _ d', chips d' = (pic_start (fst (chips d)), snd (chips d))) d;
  slave_start_law d : wp (outb PIC2_COMMAND 0x11) (λ _ d', chips d' = (fst (chips d), pic_start (snd (chips d)))) d;
  master_data_law v d : is_u8 v → wp (outb PIC1_DATA v) (λ _ d', chips d' = (pic_data v (fst (chips d)), snd (chips d))) d;
  slave_data_law v d : is_u8 v → wp (outb PIC2_DATA v) (λ _ d', chips d' = (fst (chips d), pic_data v (snd (chips d)))) d;
  master_read_law d : pc_step (fst (chips d)) = PicNormal → wp (inb PIC1_DATA) (λ v d', is_u8 v ∧ v = pc_mask (fst (chips d)) ∧ chips d' = chips d) d;
  slave_read_law d : pc_step (snd (chips d)) = PicNormal → wp (inb PIC2_DATA) (λ v d', is_u8 v ∧ v = pc_mask (snd (chips d)) ∧ chips d' = chips d) d }.

(** Where a line of the controllers is delivered, and whether it is let through. *)
Definition irq_vector (c : pic_chip * pic_chip) (line : Z) : Z :=
  if line <? 8 then pc_vector (fst c) + line else pc_vector (snd c) + (line - 8).
Definition irq_enabled (c : pic_chip * pic_chip) (line : Z) : bool :=
  negb (if line <? 8 then Z.testbit (pc_mask (fst c)) line else Z.testbit (pc_mask (snd c)) (line - 8)).

(** What the processor reads from a gate. *)
Definition gate_target (e : idt_entry) : Z := base_low e + 65536 * base_high e.
Definition gate_present (e : idt_entry) : bool := Z.testbit (flags e) 7.
Definition gate_ring (e : idt_entry) : Z := Z.land (Z.shiftr (flags e) 5) 3.
Definition gate_type (e : idt_entry) : Z := Z.land (flags e) 0x1F.

Lemma u8_set_mask v k : is_u8 v → 0 ≤ k < 8 → is_u8 (u8 (Z.lor v (Z.shiftl 1 k))) ∧ ∀ j, 0 ≤ j < 8 → Z.testbit (u8 (Z.lor v (Z.shiftl 1 k))) j = Z.testbit v j || (j =? k).
Proof.
  intros Hv Hk. split; [apply u8_range|]. intros j Hj. unfold u8. rewrite Z.mod_pow2_bits_low, Z.lor_spec by lia. f_equal.
  rewrite Z.shiftl_1_l, Z.pow2_bits_eqb by lia. apply Z.eqb_sym.
Qed.

Lemma all_bits_set v : is_u8 v → (∀ j, 0 ≤ j < 8 → Z.testbit v j = true) → v = 255.
Proof.
  intros Hv Hb. apply Z.bits_inj'. intros j Hj. change 255 with (Z.ones 8). destruct (Z.lt_ge_cases j 8).
  - rewrite Hb, Z.ones_spec_low by lia. done.
  - rewrite Z.ones_spec_high by lia. apply (testbit_high 8); [done|lia].
Qed.

Lemma land_split base : is_u32 base → Z.land base 0xFFFF + 65536 * Z.land (Z.shiftr base 16) 0xFFFF = base.
Proof.
  intros Hb. change 0xFFFF with (Z.ones 16). rewrite !Z.land_ones, Z.shiftr_div_pow2 by lia. unfold is_u32 in Hb.
  rewrite (Z.mod_small (base / 2 ^ 16)) by (split; [apply Z.div_pos|apply Z.div_lt_upper_bound]; lia). pose proof (Z.div_mod base (2 ^ 16)). lia.
Qed.

Section initialize.
Context {D : Type} `{Pic8259 D}.
Implicit Types s : idt_state D.

Definition gate (base flags : Z) : idt_entry := IdtEntry (Z.land base 0xFFFF) IDT_KERNEL_CODE_SELECTOR 0 flags (Z.land (Z.shiftr base 16) 0xFFFF).

Lemma set_gate_wp s i base fl (Q : unit → idt_state D → Prop) : 0 ≤ i < Z.of_nat (length (idt s)) →
  Q tt (set_idt (<[Z.to_nat i := gate base fl]> (idt s)) s) → wp (idt_set_gate i base IDT_KERNEL_CODE_SELECTOR fl) Q s.
Proof. intros Hi HQ. unfold idt_set_gate. do 2 wp_step. wp_step. eapply wp_lift; [by apply awrite_eq|]. by wp_step. Qed.

(** A loop over the gates from 0. *)
Lemma set_gates_wp s n (f : Z → idt_entry) (g : Z → M (idt_state D) unit) (Q : unit → idt_state D → Prop) : 0 ≤ n ≤ 256 → length (idt s) = 256%nat →
  (∀ i s0 (Q0 : unit → idt_state D → Prop), 0 ≤ i < n → length (idt s0) = 256%nat → Q0 tt (set_idt (<[Z.to_nat i := f i]> (idt s0)) s0) → wp (g i) Q0 s0) →
  (∀ t, length t = 256%nat → (∀ i, 0 ≤ i < 256 → t !! Z.to_nat i = if i <? n then Some (f i) else idt s !! Z.to_nat i) → Q tt (set_idt t s)) →
  wp (for_ 0 n g) Q s.
Proof.
  intros Hn Hl Hg HQ.
  apply (wp_for _ _ _ (λ k s', ∃ t, s' = set_idt t s ∧ length t = 256%nat ∧ ∀ i, 0 ≤ i < 256 → t !! Z.to_nat i = if i <? k then Some (f i) else idt s !! Z.to_nat i)); [lia| | |].
  - exists (idt s). split; [by destruct s|]. split; [done|]. intros i Hi. by rewrite (proj2 (Z.ltb_ge i 0)) by lia.
  - intros k s' Hk (t & -> & Ht & Hlk). apply Hg; [done|done|]. exists (<[Z.to_nat k := f k]> t). split; [done|]. split; [by rewrite length_insert|].
    intros i Hi. destruct (decide (i = k)) as [->|Hne].
    + rewrite list_lookup_insert_eq by lia. by rewrite (proj2 (Z.ltb_lt k (k + 1))) by lia.
    + rewrite list_lookup_insert_ne by lia. rewrite Hlk by done. destruct (Z.ltb_spec i k), (Z.ltb_spec i (k + 1)); (done || lia).
  - intros s' (t & -> & Ht & Hlk). by apply HQ.
Qed.

Lemma remap_wp d : pc_step (fst (chips d)) = PicNormal → pc_step (snd (chips d)) = PicNormal →
  wp pic_remap (λ _ d', ∃ a b, chips d' = (PicChip PicNormal 0x20 a, PicChip PicNormal 0x28 b) ∧ is_u8 a ∧ is_u8 b) d.
Proof.
  intros Hm Hs. unfold pic_remap. wp_step. eapply wp_mono; [by apply master_read_law|]. intros a d1 (Ha & _ & E1). wp_step. eapply wp_mono; [apply slave_read_law; by rewrite E1|]. intros b d2 (Hb & _ & E2).
  wp_step. eapply wp_mono; [apply master_start_law|]. intros [] d3 E3. wp_step. eapply wp_mono; [apply slave_start_law|]. intros [] d4 E4.
  wp_step. eapply wp_mono; [by apply master_data_law|]. intros [] d5 E5. wp_step. eapply wp_mono; [by apply slave_data_law|]. intros [] d6 E6.
  wp_step. eapply wp_mono; [by apply master_data_law|]. intros [] d7 E7. wp_step. eapply wp_mono; [by apply slave_data_law|]. intros [] d8 E8.
  wp_step. eapply wp_mono; [by apply master_data_law|]. intros [] d9 E9. wp_step. eapply wp_mono; [by apply slave_data_law|]. intros [] d10 E10.
  wp_step. eapply wp_mono; [by apply master_data_law|]. intros [] d11 E11. eapply wp_mono; [by apply slave_data_law|]. intros [] d12 E12.
  exists a, b. split; [|done]. rewrite E12, E11, E10, E9, E8, E7, E6, E5, E4, E3. done.
Qed.

(** Both masks are bytes, and the lines below [n] are masked. *)
Definition masked_below (n : Z) d : Prop := ∃ a b, chips d = (PicChip PicNormal 0x20 a, PicChip PicNormal 0x28 b) ∧ is_u8 a ∧ is_u8 b ∧
  ∀ k, 0 ≤ k < 8 → (k < n → Z.testbit a k = true) ∧ (k + 8 < n → Z.testbit b k = true).

Lemma set_mask_wp k d : 0 ≤ k < 16 → masked_below k d → wp (irq_set_mask k) (λ _ d', masked_below (k + 1) d') d.
Proof.
  intros Hk (a & b & E & Ha & Hb & Hbits). unfold irq_set_mask, irq_port, irq_bit. destruct (Z.ltb_spec k 8); wp_step.
  - eapply wp_mono; [apply master_read_law; by rewrite E|]. intros v d1 (_ & -> & E1). rewrite E. cbn [fst pc_mask]. destruct (u8_set_mask a k Ha ltac:(lia)) as [Hu Hset].
    eapply wp_mono; [by apply master_data_law|]. intros [] d2 E2. exists (u8 (Z.lor a (Z.shiftl 1 k))), b. rewrite E2, E1, E. split_and!; [done|done|done|].
    intros j Hj. rewrite Hset by done. split; [|lia]. intros Hjk. destruct (Z.eqb_spec j k); [by rewrite orb_true_r|]. rewrite orb_false_r. apply Hbits; lia.
  - assert (Ek : u8 (k - 8) = k - 8) by (apply Z.mod_small; lia). rewrite Ek. eapply wp_mono; [apply slave_read_law; by rewrite E|]. intros v d1 (_ & -> & E1). rewrite E. cbn [snd pc_mask]. destruct (u8_set_mask b (k - 8) Hb ltac:(lia)) as [Hu Hset].
    eapply wp_mono; [by apply slave_data_law|]. intros [] d2 E2. exists a, (u8 (Z.lor b (Z.shiftl 1 (k - 8)))). rewrite E2, E1, E. split_and!; [done|done|done|].
    intros j Hj. rewrite Hset by done. split; [intros _; apply Hbits; lia|]. intros Hjk. destruct (Z.eqb_spec j (k - 8)); [by rewrite orb_true_r|]. rewrite orb_false_r. apply Hbits; lia.
Qed.

Lemma clear_mask_wp k d a b : 0 ≤ k < 16 → chips d = (PicChip PicNormal 0x20 a, PicChip PicNormal 0x28 b) →
  wp (irq_clear_mask k) (λ _ d', chips d' = if k <? 8 then (PicChip PicNormal 0x20 (u8 (Z.land a (Z.lnot (Z.shiftl 1 k)))), PicChip PicNormal 0x28 b)
    else (PicChip PicNormal 0x20 a, PicChip PicNormal 0x28 (u8 (Z.land b (Z.lnot (Z.shiftl 1 (u8 (k - 8)))))))) d.
Proof.
  intros Hk E. unfold irq_clear_mask, irq_port, irq_bit. destruct (Z.ltb_spec k 8); wp_step.
  - eapply wp_mono; [apply master_read_law; by rewrite E|]. intros v d1 (_ & -> & E1). eapply wp_mono; [apply master_data_law, u8_range|]. intros [] d2 ->. by rewrite E1, E.
  - eapply wp_mono; [apply slave_read_law; by rewrite E|]. intros v d1 (_ & -> & E1). eapply wp_mono; [apply slave_data_law, u8_range|]. intros [] d2 ->. by rewrite E1, E.
Qed.

Lemma masks_wp d : masked_below 0 d →
  wp (_ ← for_ 0 16 irq_set_mask; _ ← irq_clear_mask 0; _ ← irq_clear_mask 1; _ ← irq_clear_mask 2; irq_clear_mask 12)
     (λ _ d', chips d' = (PicChip PicNormal 0x20 0xF8, PicChip PicNormal 0x28 0xEF)) d.
Proof.
  intros Hd. wp_step. apply (wp_for _ _ _ masked_below); [lia|done|intros i d0 Hi; by apply set_mask_wp|]. intros d1 (a & b & E & Ha & Hb & Hbits).
  assert (a = 255) as -> by (apply all_bits_set; [done|]; intros j Hj; apply Hbits; lia). assert (b = 255) as -> by (apply all_bits_set; [done|]; intros j Hj; apply Hbits; lia).
  wp_step. eapply wp_mono; [apply (clear_mask_wp 0 _ _ _ ltac:(lia) E)|]. cbn. intros [] d2 E2. wp_step. eapply wp_mono; [apply (clear_mask_wp 1 _ _ _ ltac:(lia) E2)|]. cbn. intros [] d3 E3.
  wp_step. eapply wp_mono; [apply (clear_mask_wp 2 _ _ _ ltac:(lia) E3)|]. cbn. intros [] d4 E4. eapply wp_mono; [apply (clear_mask_wp 12 _ _ _ ltac:(lia) E4)|]. cbn. intros [] d5 E5. done.
Qed.

(** Interrupts are set up: the processor gets the table of 256 gates; each of the vectors 0
    to 47 leads to its own stub, with interrupts disabled and not callable by programs,
    128 to the stub of the system calls, callable by programs, and no other vector is
    present. The controllers deliver the line n at the vector 32 + n, and let through
    exactly the timer, the keyboard, the cascade and the mouse. *)
Theorem idt_initialize_routes (isr : Z → Z) table s : length (idt s) = 256%nat → (∀ i, is_u32 (isr i)) →
  pc_step (fst (chips (pics s))) = PicNormal → pc_step (snd (chips (pics s))) = PicNormal →
  ∃ s', idt_initialize isr table s = Some (tt, s') ∧ idtr s' = Some (2047, table) ∧
    (∀ n, 0 ≤ n < 256 → ∃ e, idt s' !! Z.to_nat n = Some e ∧ gate_present e = (n <? 48) || (n =? 128) ∧
       (gate_present e = true → gate_target e = isr n ∧ selector e = 8 ∧ gate_type e = 14 ∧ gate_ring e = if n =? 128 then 3 else 0)) ∧
    (∀ line, 0 ≤ line < 16 → irq_vector (chips (pics s')) line = 32 + line ∧ irq_enabled (chips (pics s')) line = bool_decide (line ∈ [0; 1; 2; 12])).
Proof.
  intros Hl Hisr Hm Hs.
  assert (W : wp (idt_initialize isr table) (λ _ s', idtr s' = Some (2047, table) ∧ chips (pics s') = (PicChip PicNormal 0x20 0xF8, PicChip PicNormal 0x28 0xEF) ∧
    ∀ n, 0 ≤ n < 256 → idt s' !! Z.to_nat n = Some (if n =? 128 then gate (isr n) 0xEE else if n <? 48 then gate (isr n) IDT_INTERRUPT_GATE else gate 0 0)) s).
  { unfold idt_initialize, IDT_ENTRIES. wp_step. apply (set_gates_wp s 256 (λ _, gate 0 0)); [lia|done| |].
    { intros i s0 Q0 Hi Hl0 HQ. unfold u8. rewrite (Z.mod_small i) by lia. apply set_gate_wp; [lia|done]. }
    intros t1 Hl1 Ht1. wp_step. apply (set_gates_wp _ 48 (λ i, gate (isr i) IDT_INTERRUPT_GATE)); [lia|done| |]; [intros; apply set_gate_wp; [lia|done]|].
    intros t2 Hl2 Ht2. wp_step. apply set_gate_wp; [cbn; lia|]. cbn [idt set_idt pics] in *. unfold on_pics. wp_step. wp_step. cbn [pics set_idt]. eapply wp_mono; [by apply remap_wp|].
    intros [] d1 (a & b & E1 & Ha & Hb). assert (Hmb : masked_below 0 d1) by (exists a, b; split_and!; [done|done|done|]; intros; split; lia).
    destruct (masks_wp d1 Hmb) as ([] & d6 & Er & E6). unfold mbind, M_bind in Er. repeat match type of Er with match ?m with _ => _ end = _ => destruct m as [[[] ?]|] eqn:?; [|done] end.
    do 5 (wp_step; wp_step; cbn [pics set_pics]; eexists _, _; split; [eassumption|]; cbn beta). wp_step. cbn [idtr pics idt set_pics set_idt]. split; [done|]. split; [done|].
    intros n Hn. destruct (decide (n = 128)) as [->|Hne]; [by rewrite list_lookup_insert_eq by lia|]. rewrite list_lookup_insert_ne by lia. rewrite Ht2 by done.
    rewrite (proj2 (Z.eqb_neq n 128)) by done. destruct (n <? 48); [done|]. rewrite Ht1 by done. by rewrite (proj2 (Z.ltb_lt n 256)) by lia. }
  destruct W as ([] & s' & E & Hr & Hc & Hg). exists s'. split; [done|]. split; [done|]. split.
  - intros n Hn. eexists. split; [by apply Hg|]. destruct (Z.eqb_spec n 128) as [->|Hne]; [split; [done|]; intros _; split; [by apply land_split|done]|]. rewrite orb_false_r.
    destruct (n <? 48); [|done]. split; [done|]. intros _. split; [by apply land_split|done].
  - intros line Hline. rewrite Hc. assert (In line (map Z.of_nat (seq 0 16))) as Hin by (apply in_map_iff; exists (Z.to_nat line); rewrite in_seq; lia).
    cbn in Hin. repeat (destruct Hin as [<-|Hin]; [by vm_compute|]). done.
Qed.
End initialize.

(** ** The report of an exception *)

Definition hex_line (name : string) (v : Z) : list Z := bytes_of name ++ hex_text v ++ [10].
Definition exception_name (n : Z) : string := if n <? 32 then nth (Z.to_nat n) exception_names ""%string else "Unknown"%string.
Definition report (cr2 : Z) (f : interrupt_frame) : list Z :=
  (10 :: bytes_of "KERNEL PANIC: CPU exception" ++ [10]) ++ bytes_of "Exception: " ++ bytes_of (exception_name (f_int_no f)) ++ [10] ++
  hex_line "INT=" (f_int_no f) ++ hex_line "ERR=" (f_err_code f) ++ hex_line "EIP=" (f_eip f) ++ hex_line "CS=" (f_cs f) ++ hex_line "EFLAGS=" (f_eflags f) ++
  (if f_int_no f =? 14 then hex_line "CR2=" cr2 else []) ++
  hex_line "EAX=" (f_eax f) ++ hex_line "EBX=" (f_ebx f) ++ hex_line "ECX=" (f_ecx f) ++ hex_line "EDX=" (f_edx f) ++
  hex_line "ESI=" (f_esi f) ++ hex_line "EDI=" (f_edi f) ++ hex_line "EBP=" (f_ebp f) ++ hex_line "ESP=" (f_esp f) ++ bytes_of "System halted." ++ [10].

Section dispatch.
Context {P Files T S G D : Type} `{PageAllocatorLaws P, FilesSafe Files, CanvasLaws T, Uart S, GuiSafe G, TotalPorts D}.
Context (kernel_space usermode_return_from_exit : Z) (U A : gset Z) (Dir Own : Z → Z) (Frames : Z → Z → Z).
Abbreviation K := (kernel (P := P) (F := Files) (T := T) (S := S) (G := G)).
Abbreviation I := (interrupts (P := P) (F := Files) (T := T) (S := S) (G := G) (D := D)).
Abbreviation ok k := (kernel_ok kernel_space k U A Dir Own Frames).

(** Computations that print [text] on the terminal and the serial line. *)
Definition says (m : M K unit) (text : list Z) : Prop :=
  ∀ k, ok k → wp m (λ _ k', ok k' ∧ ktimer k' = ktimer k ∧ line (kserial k') = line (kserial k) ++ crlf text) k.

Lemma says_bind m n t1 t2 : says m t1 → says n t2 → says (_ ← m; n) (t1 ++ t2).
Proof.
  intros Hm Hn k Hk. wp_step. eapply wp_mono; [by apply Hm|]. intros [] k1 (Hk1 & E1 & L1). eapply wp_mono; [by apply Hn|]. intros [] k2 (Hk2 & E2 & L2).
  split; [done|]. split; [congruence|]. rewrite L2, L1, <- app_assoc. f_equal. unfold crlf. by rewrite bind_app.
Qed.

Lemma says_write str rest : Forall (λ c, c ≠ 0) str → says (diagnostics_write (str ++ 0 :: rest)) str.
Proof.
  intros Hs k [Hv Hsy (lit & X & Ht) Htm]. unfold diagnostics_write. wp_step. unfold in_terminal, in_serial. wp_step.
  destruct (writestring_run lit (kterminal k) X str rest Ht Hs) as (t' & E & Ht'). eexists _, _. split; [exact E|]. cbn beta. wp_step. cbn [kserial set_kterminal].
  destruct (serial_writestring_sends (kserial k) (str ++ 0 :: rest) str) as (d' & E' & L); [apply cstring_spec; by exists rest|]. eexists _, _. split; [exact E'|]. cbn.
  split; [|done]. split; [done|done|by eexists _, _|done].
Qed.
Lemma says_text (s : string) : plain s = true → says (diagnostics_write (c_str s)) (bytes_of s).
Proof. intros Hp. apply says_write. eapply Forall_impl; [by apply bytes_plain|]. intros c Hc. cbn in Hc. lia. Qed.
Lemma says_line (s : string) : plain s = true → says (diagnostics_write (c_line s)) (bytes_of s ++ [10]).
Proof.
  intros Hp. unfold c_line. replace (bytes_of s ++ [10; 0]) with ((bytes_of s ++ [10]) ++ 0 :: []) by by rewrite <- app_assoc. apply says_write.
  apply Forall_app. split; [|by apply Forall_singleton]. eapply Forall_impl; [by apply bytes_plain|]. intros c Hc. cbn in Hc. lia.
Qed.
Lemma says_hex (s : string) v : plain s = true → says (diagnostics_write_hex (c_str s) v) (hex_line s v).
Proof.
  intros Hp k Hk. unfold diagnostics_write_hex. wp_step. eapply wp_lift; [apply u32_to_hex_text|]. cbn [snd]. revert k Hk.
  change (says (_ ← diagnostics_write (c_str s); _ ← diagnostics_write (hex_text v ++ [0]); diagnostics_write [10; 0]) (hex_line s v)).
  apply says_bind; [by apply says_text|]. apply says_bind; [|apply (says_write [10]); by apply Forall_singleton].
  apply says_write. unfold hex_text. do 2 (constructor; [done|]). apply Forall_fmap, Forall_forall. intros i _. cbn. apply hex_digit_at, nibble_range.
Qed.

Lemma says_when (b : bool) m text : says m text → says (when b m) (if b then text else []).
Proof. intros Hm. destruct b; [done|]. intros k Hk. apply wp_ret. by rewrite app_nil_r. Qed.

Lemma exception_name_at n : is_u32 n → (if n <? 32 then aread exception_names n else Some "Unknown"%string) = Some (exception_name n) ∧ plain (exception_name n) = true.
Proof.
  intros Hn. unfold exception_name. destruct (Z.ltb_spec n 32); [|done]. unfold is_u32 in Hn. assert (In n (map Z.of_nat (seq 0 32))) as Hin by (apply in_map_iff; exists (Z.to_nat n); rewrite in_seq; lia).
  cbn in Hin. repeat (destruct Hin as [<-|Hin]; [by vm_compute|]). done.
Qed.

Lemma says_report cr2 frame : is_u32 (f_int_no frame) → says (print_exception_diagnostics cr2 frame) (report cr2 frame).
Proof.
  intros Hn k Hk. destruct (exception_name_at _ Hn) as [En Hp]. unfold print_exception_diagnostics. wp_step. rewrite En. apply (wp_lift _ (exception_name (f_int_no frame))); [done|].
  unfold in_terminal at 1, terminal_set_color. wp_step. wp_step. wp_step.
  set (k1 := set_kterminal _ k). assert (Hk1 : ok k1) by (destruct Hk as [Hv Hs (lit & X & [Hsc ? ? ? ?]) Htm]; split; [done|done| |done]; exists lit, X; split; [by apply (screen_in_moved lit _ (kterminal k))|done..]).
  change (ktimer k) with (ktimer k1). change (kserial k) with (kserial k1). clearbody k1. clear k Hk. revert k1 Hk1.
  unfold report. apply says_bind; [apply (says_write (10 :: bytes_of "KERNEL PANIC: CPU exception" ++ [10]) []); by repeat constructor|].
  apply says_bind; [by apply says_text|]. apply says_bind; [by apply says_text|]. apply says_bind; [apply (says_write [10] []); by apply Forall_singleton|].
  do 5 (apply says_bind; [by apply says_hex|]). apply says_bind; [by apply says_when, says_hex|]. do 8 (apply says_bind; [by apply says_hex|]). by apply says_line.
Qed.

(** ** Interrupts keep the kernel in order *)

Record interrupts_ok (i : I) : Prop := {
  io_kernel : ok (ikernel i);
  io_keys : ∃ a, kbd_rel (ikeys i) a;
  io_mouse : mouse_inv (imouse i) }.

(** What the controllers are told. *)
Definition acknowledged (n : Z) : list output := (if 40 <=? n then [Outb PIC2_COMMAND PIC_EOI] else []) ++ [Outb PIC1_COMMAND PIC_EOI].

Lemma eoi_wp n (i : I) (Q : unit → I → Prop) : 32 ≤ n → interrupts_ok i →
  (∀ i', interrupts_ok i' → ikeys i' = ikeys i → imouse i' = imouse i → kserial (ikernel i') = kserial (ikernel i) → ticks (ktimer (ikernel i')) = ticks (ktimer (ikernel i)) →
     outputs (ktimer (ikernel i')) = outputs (ktimer (ikernel i)) ++ acknowledged n → Q tt i') → wp (in_kernel (in_timer (pic_send_eoi n))) Q i.
Proof.
  intros Hn [[Hv Hs Ht [Hsi Hq]] Hkb Hms] HQ. unfold in_kernel, in_timer, pic_send_eoi, Timer.outb. do 3 wp_step. rewrite (proj2 (Z.leb_le 32 n)) by lia. unfold acknowledged in HQ.
  destruct (40 <=? n); cbn [when]; repeat wp_step; (apply HQ; [split; cbn; try done; split; cbn; try done; split; done|done..| ]); cbn; by rewrite <- ?app_assoc.
Qed.

Lemma keyboard_irq_wp (i : I) (Q : unit → I → Prop) : interrupts_ok i →
  (∀ sc i', is_u8 sc → interrupts_ok i' → (∀ a, kbd_rel (ikeys i) a → kbd_rel (ikeys i') (spec_scancode sc a)) → ikernel i' = ikernel i → Q tt i') → wp (in_keys keyboard_handle_interrupt) Q i.
Proof.
  intros [Hk (a & Ha) Hm] HQ. unfold in_keys, keyboard_handle_interrupt. do 2 wp_step. wp_step. eapply wp_mono; [apply inb_total|]. intros sc d Hsc. cbn [fst snd]. wp_step.
  destruct (scancode_wp (ikeys i) a sc Ha) as ([] & k' & E & Hk'). cbn [fst]. eexists _, _. split; [exact E|]. cbn. apply (HQ sc); [done|split; cbn; [done|by eexists|done]| |done].
  intros a' Ha'. cbn. destruct (scancode_wp (ikeys i) a' sc Ha') as ([] & k2 & E2 & Hk2). rewrite E in E2. by injection E2 as <-.
Qed.

Lemma mouse_irq_wp (i : I) (Q : unit → I → Prop) : interrupts_ok i → wheel_room (imouse i) 1 →
  (∀ b i', is_u8 b → interrupts_ok i' → imouse i' = mouse_step (imouse i) b → ikernel i' = ikernel i → Q tt i') → wp (in_mouse mouse_handle_interrupt) Q i.
Proof.
  intros [Hk Ha Hm] Hr HQ. unfold in_mouse, mouse_handle_interrupt, Mouse.on_device, Mouse.on_mouse. do 2 wp_step. wp_step. eapply wp_mono; [apply inb_total|]. intros b d Hb. cbn [fst snd]. wp_step.
  eapply wp_mono; [by apply handle_byte_wp|]. cbn. intros [] m' ->. apply (HQ b); [done|split; cbn; [done|done|by apply mouse_step_inv]|done|done].
Qed.

Lemma timer_irq_dispatch_wp (i : I) a (Q : Z → I → Prop) : interrupts_ok i → a ≠ 0 →
  (∀ r i', interrupts_ok i' → ticks (ktimer (ikernel i')) = ticks (ktimer (ikernel i)) +% 1 →
     outputs (ktimer (ikernel i')) = outputs (ktimer (ikernel i)) ++ acknowledged 32 → Q r i') → wp (in_kernel (in_timer (timer_irq a))) Q i.
Proof.
  intros [[Hv Hs Ht Htm] Hkb Hms] Ha HQ. unfold in_kernel, in_timer. do 2 wp_step. apply tick_irq_wp; [done|done|]. intros r t' Ht' Et _ Eo _. by apply HQ; [split; cbn; [split|..]|..].
Qed.

(** What the dispatcher has done when it returns [r]. *)
Definition handled (cr2 a : Z) (frame : interrupt_frame) (i : I) (r : dispatched) (i' : I) : Prop :=
  match r with
  | Resume a' frame' =>
      (f_int_no frame = 128 ∨ 32 ≤ f_int_no frame < 48) ∧ (f_int_no frame ≠ 32 → a' = a) ∧ (f_int_no frame ≠ 128 → frame' = frame) ∧
      (f_int_no frame = 128 → frame_result usermode_return_from_exit frame frame') ∧
      (f_int_no frame ≠ 128 → outputs (ktimer (ikernel i')) = outputs (ktimer (ikernel i)) ++ acknowledged (f_int_no frame)) ∧
      (f_int_no frame = 33 → ∃ sc, is_u8 sc ∧ ∀ k, kbd_rel (ikeys i) k → kbd_rel (ikeys i') (spec_scancode sc k)) ∧
      (f_int_no frame = 44 → ∃ b, is_u8 b ∧ imouse i' = mouse_step (imouse i) b) ∧
      (f_int_no frame = 32 → ticks (ktimer (ikernel i')) = ticks (ktimer (ikernel i)) +% 1)
  | Halted => f_int_no frame ≠ 128 ∧ (f_int_no frame < 32 ∨ 48 ≤ f_int_no frame) ∧
      line (kserial (ikernel i')) = line (kserial (ikernel i)) ++ crlf (report cr2 frame)
  end.

(** C16. Every interrupt is handled: for a kernel, a keyboard and a mouse in order and
    whatever the vector, the dispatcher returns or stops the
    machine, the kernel, the keyboard and the mouse stay in order, and: a line of the
    controllers is acknowledged exactly once at each controller it came through; a scan
    code and a byte of the mouse are decoded as their drivers specify; a timer interrupt
    counts one tick; only the timer may resume another frame than the interrupted one,
    only a system call may change the frame, and then its EAX or, for EXIT, where it
    returns; an exception stops the machine after its
    report, with the registers of the frame, has gone out on the serial line. Two things
    are assumed: of a system call what [frame_ok] says (a buffer that passes the test of
    the kernel has memory behind it, and one that is read into is writable for the
    program: the test does not ask for it), and of a mouse interrupt that the counter of
    the wheel, a signed 32-bit number that is reset when it is read, is not within 8 of
    its limits. *)
Theorem interrupt_dispatch_spec i cr2 name a frame : interrupts_ok i → is_u32 (f_int_no frame) → a ≠ 0 → length name = 32%nat →
  (f_int_no frame = 128 → frame_ok (ikernel i) Dir Frames frame) → (f_int_no frame = 44 → wheel_room (imouse i) 1) →
  ∃ r i', interrupt_dispatch usermode_return_from_exit cr2 name a frame i = Some (r, i') ∧ interrupts_ok i' ∧ handled cr2 a frame i r i'.
Proof.
  intros Hi Hn Ha Hname Hsys Hmouse. set (n := f_int_no frame) in *.
  change (wp (interrupt_dispatch usermode_return_from_exit cr2 name a frame) (λ r i', interrupts_ok i' ∧ handled cr2 a frame i r i') i).
  unfold interrupt_dispatch, handled. fold n. destruct (Z.eqb_spec n 128) as [E|N128].
  { wp_step. unfold in_kernel. wp_step. destruct Hi as [Hk Hkb Hm]. eapply wp_mono; [apply (syscall_handle_wp kernel_space); [exact Hk|by apply Hsys|done]|]. intros f' k' [Hk' Hfr]. wp_step. split; [by split|]. split_and!; (by left) || lia || done. }
  destruct (Z.eqb_spec n 33) as [E|N33].
  { wp_step. apply keyboard_irq_wp; [done|]. intros sc i1 Hsc Hi1 Hk1 E1. wp_step. apply eoi_wp; [lia|done|]. intros i2 Hi2 Ek _ _ _ Eo. wp_step. rewrite E1 in Eo. split; [done|]. split_and!; try lia; try done. intros _. exists sc. by rewrite Ek. }
  destruct (Z.eqb_spec n 44) as [E|N44].
  { wp_step. apply mouse_irq_wp; [done|by apply Hmouse|]. intros b i1 Hb Hi1 Hm1 E1. wp_step. apply eoi_wp; [lia|done|]. intros i2 Hi2 _ Em _ _ Eo. wp_step. rewrite E1 in Eo. split; [done|]. split_and!; try lia; try done. intros _. exists b. by rewrite Em. }
  destruct (Z.eqb_spec n 32) as [E|N32].
  { wp_step. apply timer_irq_dispatch_wp; [done|done|]. intros r i1 Hi1 Et Eo. wp_step. split; [done|]. rewrite E. split_and!; try lia; done. }
  destruct (Z.leb_spec 32 n), (Z.leb_spec n 47); cbn [andb].
  { wp_step. apply eoi_wp; [lia|done|]. intros i1 Hi1 _ _ _ _ Eo. wp_step. split; [done|]. split_and!; try lia; done. }
  all: wp_step; unfold in_kernel; wp_step; destruct Hi as [Hk Hkb Hm]; eapply wp_mono; [by apply says_report|]; intros [] k' (Hk' & _ & L); wp_step; split; [by split|]; split_and!; try done; lia.
Qed.
End dispatch.

(** ** Concrete controllers *)

Record two_pics := TwoPics { tp_master : pic_chip; tp_slave : pic_chip }.
#[export] Instance two_pics_ports : PortIO two_pics := {|
  inb p := λ d, Some (u8 (if p =? PIC1_DATA then pc_mask (tp_master d) else pc_mask (tp_slave d)), d);
  outb p v := modify (λ d,
    if p =? PIC1_COMMAND then TwoPics (pic_start (tp_master d)) (tp_slave d)
    else if p =? PIC2_COMMAND then TwoPics (tp_master d) (pic_start (tp_slave d))
    else if p =? PIC1_DATA then TwoPics (pic_data v (tp_master d)) (tp_slave d)
    else TwoPics (tp_master d) (pic_data v (tp_slave d))) |}.
(** The mask is a byte. *)
Definition byte_mask (c : pic_chip) : pic_chip := PicChip (pc_step c) (pc_vector c) (u8 (pc_mask c)).
Lemma byte_mask_data v c : is_u8 v → byte_mask (pic_data v c) = pic_data v (byte_mask c).
Proof. intros Hv. unfold byte_mask, pic_data. destruct (pc_step c); cbn; try done. unfold u8. by rewrite (Z.mod_small v) by apply Hv. Qed.
#[export, program] Instance two_pics_laws : Pic8259 two_pics := {| chips d := (byte_mask (tp_master d), byte_mask (tp_slave d)) |}.
Next Obligation. intros d. by apply wp_modify. Qed.
Next Obligation. intros d. by apply wp_modify. Qed.
Next Obligation. intros v d Hv. apply wp_modify. cbn. by rewrite byte_mask_data. Qed.
Next Obligation. intros v d Hv. apply wp_modify. cbn. by rewrite byte_mask_data. Qed.
Next Obligation. intros d _. eexists _, _. split; [reflexivity|]. split; [apply u8_range|done]. Qed.
Next Obligation. intros d _. eexists _, _. split; [reflexivity|]. split; [apply u8_range|done]. Qed.

Definition demo_idt : idt_state two_pics := Idt (replicate 256 (IdtEntry 0 0 0 0 0)) 0 0 None (TwoPics (PicChip PicNormal 8 0) (PicChip PicNormal 0x70 0)).
Definition demo_isr (i : Z) : Z := u32 (0x100000 + 16 * i).

Lemma idt_initialize_routes_witness : ∃ s', idt_initialize demo_isr 0x200000 demo_idt = Some (tt, s') ∧ irq_vector (chips (pics s')) 12 = 44.
Proof.
  destruct (idt_initialize_routes demo_isr 0x200000 demo_idt) as (s' & E & _ & _ & Hirq); [reflexivity|intros i; apply u32_range|reflexivity|reflexivity|].
  exists s'. split; [exact E|]. exact (proj1 (Hirq 12 ltac:(lia))).
Defined.

(** ** A kernel that is interrupted *)

Definition demo_interrupts (s : vm pmm) : interrupts (P := pmm) (T := cells) (S := uart) (G := unit) (D := pc) :=
  Interrupts (demo_syscall s) kbd_zero mouse_zero (Pc [0x1E] [] []).
(** An interrupt of any vector in the program that reads from a file, with the scan code
    of the key A at the port. *)
Definition demo_vector (n : Z) : interrupt_frame := InterruptFrame 0x23 0x23 0x23 0x23 0 0 0 0 0 3 0x400000 6 n 0 0x400010 0x1B 0x202 0x411000 0x23.

Lemma interrupt_dispatch_spec_witness : ∃ s, ∀ n, is_u32 n → ∃ r i', interrupt_dispatch 0x100 0 (replicate 32 0) 0x300000 (demo_vector n) (demo_interrupts s) = Some (r, i') ∧
  handled 0x100 0 0x300000 (demo_vector n) (demo_interrupts s) r i'.
Proof.
  destruct demo_program as (s & A & p & q & D & O & F & pa & R). destruct (demo_buffer _ _ _ _ _ _ _ _ 3 R ltac:(clear; done)) as [Hg Hu]. exists s. intros n Hn.
  destruct (interrupt_dispatch_spec 0x129000 0x100 demo_usable A D O F (demo_interrupts s) 0 (replicate 32 0) 0x300000 (demo_vector n)) as (r & i' & E & _ & Hh).
  - split; [|exists akbd_zero; exact kbd_rel_zero|exact mouse_zero_inv]. split; [exact (dr_vm _ _ _ _ _ _ _ _ R)|exact demo_system_ok|exact (ex_intro _ true (ex_intro _ _ blank_shows))|exact demo_timer_inv].
  - exact Hn.
  - clear. done.
  - reflexivity.
  - intros _. split; [clear; done|intros [H1|[H1|H1]]; discriminate H1|intros H1; discriminate H1|intros _ _; exact Hu].
  - intros _. clear. unfold wheel_room. cbn. lia.
  - exists r, i'. exact (conj E Hh).
Defined.
