(* ===== verification/Windows.v ===== *)
(** * Windows and the window manager, kernel/gui/core/gui_types.hpp and kernel/gui/wm

    Rectangles, windows and the screen they live on; where a click in a window falls,
    and dragging and resizing. A function that may overflow a signed integer is partial. *)

From Stdlib Require Import ZArith Lia Bool.
From stdpp Require Import base numbers list.
From S2P Require Import Prelude.

(** ** Data *)

Definition FALLBACK_W : Z := 320.
Definition FALLBACK_H : Z := 200.
Definition TITLEBAR_H : Z := 18.
Definition WINDOW_MIN_W : Z := 168.
Definition WINDOW_MIN_H : Z := 82.

Inductive WindowMode := Normal | Minimized | Maximized.
#[export] Instance WindowMode_eq_dec : EqDecision WindowMode.
Proof. solve_decision. Defined.

Record Rect := MkRect { rx : Z; ry : Z; rw : Z; rh : Z }.
#[export] Instance Rect_eq_dec : EqDecision Rect.
Proof. solve_decision. Defined.

Record Metrics := MkMetrics { m_width : Z; m_height : Z; taskbar_h : Z }.

Record Window := MkWindow {
  wx : Z; wy : Z; ww : Z; wh : Z;
  restore_x : Z; restore_y : Z; restore_w : Z; restore_h : Z;
  wopen : bool; wfocused : bool; wmode : WindowMode; wz : Z }.
#[export] Instance Window_eq_dec : EqDecision Window.
Proof. solve_decision. Defined.

(** Assignments to fields of a window. *)
Definition set_x v w := MkWindow v (wy w) (ww w) (wh w) (restore_x w) (restore_y w) (restore_w w) (restore_h w) (wopen w) (wfocused w) (wmode w) (wz w).
Definition set_y v w := MkWindow (wx w) v (ww w) (wh w) (restore_x w) (restore_y w) (restore_w w) (restore_h w) (wopen w) (wfocused w) (wmode w) (wz w).
Definition set_w v w := MkWindow (wx w) (wy w) v (wh w) (restore_x w) (restore_y w) (restore_w w) (restore_h w) (wopen w) (wfocused w) (wmode w) (wz w).
Definition set_h v w := MkWindow (wx w) (wy w) (ww w) v (restore_x w) (restore_y w) (restore_w w) (restore_h w) (wopen w) (wfocused w) (wmode w) (wz w).
Definition set_restore (r : Rect) w := MkWindow (wx w) (wy w) (ww w) (wh w) (rx r) (ry r) (rw r) (rh r) (wopen w) (wfocused w) (wmode w) (wz w).
Definition set_open v w := MkWindow (wx w) (wy w) (ww w) (wh w) (restore_x w) (restore_y w) (restore_w w) (restore_h w) v (wfocused w) (wmode w) (wz w).
Definition set_focused v w := MkWindow (wx w) (wy w) (ww w) (wh w) (restore_x w) (restore_y w) (restore_w w) (restore_h w) (wopen w) v (wmode w) (wz w).
Definition set_mode v w := MkWindow (wx w) (wy w) (ww w) (wh w) (restore_x w) (restore_y w) (restore_w w) (restore_h w) (wopen w) (wfocused w) v (wz w).
Definition set_z v w := MkWindow (wx w) (wy w) (ww w) (wh w) (restore_x w) (restore_y w) (restore_w w) (restore_h w) (wopen w) (wfocused w) (wmode w) v.

Definition rect_empty (r : Rect) : bool := (rw r <=? 0) || (rh r <=? 0).

(** The sums are evaluated only where the comparison before them holds. *)
Definition contains (r : Rect) (px py : Z) : option bool :=
  if px <? rx r then Some false
  else right ← checked (rx r + rw r);
  if right <=? px then Some false
  else if py <? ry r then Some false
  else bottom ← checked (ry r + rh r); Some (py <? bottom).

Definition win_rect (w : Window) : Rect := MkRect (wx w) (wy w) (ww w) (wh w).
Definition restore_rect (w : Window) : Rect := MkRect (restore_x w) (restore_y w) (restore_w w) (restore_h w).
Definition visible (w : Window) : bool := wopen w && negb (bool_decide (wmode w = Minimized)).

Definition min_i32 (a b : Z) : Z := if a <? b then a else b.
Definition max_i32 (a b : Z) : Z := if b <? a then a else b.

(** [(int32_t) (metrics.height - metrics.taskbar_h)] *)
Definition desktop_h (m : Metrics) : Z := i32 (m_height m -% taskbar_h m).

(** ** The window manager *)

Inductive WindowArea := AreaNone | AreaClient | AreaTitlebar | AreaMinimize | AreaMaximize | AreaClose | AreaResize.
#[export] Instance WindowArea_eq_dec : EqDecision WindowArea.
Proof. solve_decision. Defined.

Record WindowManager := Wm { dragging : bool; resizing : bool; drag_offset_x : Z; drag_offset_y : Z }.

(** A rectangle [w] by [h] whose corner is [dx] left of the right edge of the window. *)
Definition from_right (w : Window) (dx dy cw ch : Z) : option Rect :=
  right ← checked (wx w + ww w); x ← checked (right - dx);
  y ← checked (wy w + dy); Some (MkRect x y cw ch).

Definition hit_window (w : Window) (x y : Z) : option WindowArea :=
  if negb (visible w) then Some AreaNone
  else inside ← contains (win_rect w) x y;
  if negb inside then Some AreaNone
  else close ← from_right w 18 4 13 11; b ← contains close x y;
  if b : bool then Some AreaClose
  else maximize ← from_right w 33 4 13 11; b ← contains maximize x y;
  if b : bool then Some AreaMaximize
  else minimize ← from_right w 48 4 13 11; b ← contains minimize x y;
  if b : bool then Some AreaMinimize
  else
    right ← checked (wx w + ww w); cx ← checked (right - 10);
    bottom ← checked (wy w + wh w); cy ← checked (bottom - 10);
    b ← contains (MkRect cx cy 10 10) x y;
  if (b : bool) && negb (bool_decide (wmode w = Maximized)) then Some AreaResize
  else b ← contains (MkRect (wx w) (wy w) (ww w) (TITLEBAR_H + 2)) x y;
  if (b : bool) && negb (bool_decide (wmode w = Maximized)) then Some AreaTitlebar
  else Some AreaClient.

Definition begin_drag (w : Window) (x y : Z) : option WindowManager :=
  dx ← checked (x - wx w); dy ← checked (y - wy w); Some (Wm true false dx dy).
Definition begin_resize (s : WindowManager) : WindowManager := Wm false true (drag_offset_x s) (drag_offset_y s).
Definition end_pointer_action (s : WindowManager) : WindowManager := Wm false false (drag_offset_x s) (drag_offset_y s).

(** The result is the rectangle before and the window after; [nx] and [ny] are the
    successive values of window.x and window.y, [nw] and [nh] those of window.w and
    window.h. *)
Definition update_drag (s : WindowManager) (w : Window) (x y : Z) (m : Metrics) : option (Rect * Window) :=
  let before := win_rect w in
  let dw := i32 (m_width m) in
  let dh := desktop_h m in
  nx ← checked (x - drag_offset_x s);
  ny ← checked (y - drag_offset_y s);
  let nx := if nx <? 0 then 0 else nx in
  let ny := if ny <? 0 then 0 else ny in
  right ← checked (nx + ww w);
  nx ← (if dw <? right then checked (dw - ww w) else Some nx);
  bottom ← checked (ny + wh w);
  ny ← (if dh <? bottom then checked (dh - wh w) else Some ny);
  Some (before, set_y ny (set_x nx w)).

Definition update_resize (w : Window) (x y : Z) (m : Metrics) : option (Rect * Window) :=
  let before := win_rect w in
  let dw := i32 (m_width m) in
  let dh := desktop_h m in
  nw ← checked (x - wx w); nw ← checked (nw + 1);
  nh ← checked (y - wy w); nh ← checked (nh + 1);
  let nw := if nw <? WINDOW_MIN_W then WINDOW_MIN_W else nw in
  let nh := if nh <? WINDOW_MIN_H then WINDOW_MIN_H else nh in
  right ← checked (wx w + nw);
  nw ← (if dw <? right then checked (dw - wx w) else Some nw);
  bottom ← checked (wy w + nh);
  nh ← (if dh <? bottom then checked (dh - wy w) else Some nh);
  Some (before, set_h nh (set_w nw w)).

(** ** What the applications do with their windows *)

Definition save_geometry (w : Window) : Window := set_restore (win_rect w) w.

(** focus() of the three applications. *)
Definition focus_window (z : Z) (w : Window) : Window :=
  if negb (wopen w) then w else set_z z (set_focused true w).

(** The assignments of close() and minimize(). *)
Definition close_window (w : Window) : Window := set_mode Normal (set_focused false (set_open false w)).
Definition minimize_window (w : Window) : Window := set_focused false (set_mode Minimized w).

(** toggle_maximize(), without the call of focus(). *)
Definition toggle_window (m : Metrics) (w : Window) : Window :=
  if bool_decide (wmode w = Maximized) then
    let w := set_mode Normal w in
    let w := set_x (restore_x w) w in
    let w := set_y (restore_y w) w in
    let w := set_w (restore_w w) w in
    set_h (restore_h w) w
  else
    let w := set_mode Maximized (save_geometry w) in
    let w := set_y 4 (set_x 2 w) in
    let w := set_w (i32 (m_width m -% 4)) w in
    set_h (i32 (m_height m -% taskbar_h m -% 6)) w.

(** The window of an application after initialize(), whose default_geometry() gave [w]. *)
Definition reset_window (w : Window) : Window :=
  set_z 0 (set_mode Normal (set_focused false (set_open false (save_geometry w)))).

(** ** Invariants

    The screens the desktop is made for, and a rectangle of at least the minimal
    size (168 by 82) that fits on the desktop, with its upper left corner on it. *)

Record metrics_ok (m : Metrics) : Prop := {
  mo_w : 320 ≤ m_width m ≤ 16384;
  mo_h : 200 ≤ m_height m ≤ 16384;
  mo_t : 18 ≤ taskbar_h m ≤ 30;
  mo_t30 : taskbar_h m ≤ 22 ∨ 480 ≤ m_height m }.

Record placed (m : Metrics) (r : Rect) : Prop := {
  pl_x : 0 ≤ rx r ≤ m_width m - 168;
  pl_y : 0 ≤ ry r ≤ m_height m - taskbar_h m - 82;
  pl_w : 168 ≤ rw r ≤ m_width m;
  pl_h : 82 ≤ rh r ≤ m_height m - taskbar_h m }.

Record window_ok (m : Metrics) (w : Window) : Prop := {
  wo_rect : placed m (win_rect w);
  wo_restore : placed m (restore_rect w);
  wo_focus : wfocused w = true → wopen w = true;
  wo_z : is_u32 (wz w) }.

(** Wholly on the desktop, above the task bar. *)
Definition on_desktop (m : Metrics) (r : Rect) : Prop :=
  0 ≤ rx r ∧ rx r + rw r ≤ m_width m ∧ 0 ≤ ry r ∧ ry r + rh r ≤ m_height m - taskbar_h m.
Definition on_screen (m : Metrics) (x y : Z) : Prop := 0 ≤ x < m_width m ∧ 0 ≤ y < m_height m.
Definition in_rect (r : Rect) (x y : Z) : Prop := rx r ≤ x < rx r + rw r ∧ ry r ≤ y < ry r + rh r.
#[export] Instance in_rect_dec r x y : Decision (in_rect r x y) := _.

(** The partial function returns something with [P]. *)
Definition returns {A} (o : option A) (P : A → Prop) : Prop := ∃ a, o = Some a ∧ P a.

(** ** Lemmas *)

Lemma checked_ok z : is_i32 z → checked z = Some z.
Proof. intros H. unfold checked. by rewrite bool_decide_eq_true_2. Qed.

Lemma i32_small z : is_i32 z → i32 z = z.
Proof. unfold is_i32, i32. intros H. rewrite Z.mod_small; lia. Qed.

(** Evaluates the checked sums and the conversions whose range is known. *)
Ltac i32_simp :=
  repeat match goal with
         | |- context [checked ?e] => rewrite (checked_ok e) by (unfold is_i32; lia); cbn [mbind option_bind]
         | |- context [u32 ?e] => rewrite (u32_small e) by (unfold is_u32; lia)
         | |- context [i32 ?e] => rewrite (i32_small e) by (unfold is_i32; lia)
         end.

(** Takes the branch of the tests that cannot hold. *)
Ltac ltb_false :=
  repeat match goal with |- context [?a <? ?b] => rewrite (proj2 (Z.ltb_ge a b)) by lia; cbn end.

Lemma half z : 2 * (z / 2) ≤ z < 2 * (z / 2) + 2.
Proof. pose proof (Z.div_mod z 2 ltac:(done)). pose proof (Z.mod_pos_bound z 2 ltac:(done)). lia. Qed.

Lemma contains_ok r x y : is_i32 (rx r + rw r) → is_i32 (ry r + rh r) →
  contains r x y = Some (bool_decide (in_rect r x y)).
Proof.
  intros H1 H2. unfold contains, in_rect. rewrite !checked_ok by done. cbn.
  destruct (Z.ltb_spec x (rx r)); [f_equal; symmetry; apply bool_decide_eq_false_2; lia|].
  destruct (Z.leb_spec (rx r + rw r) x); [f_equal; symmetry; apply bool_decide_eq_false_2; lia|].
  destruct (Z.ltb_spec y (ry r)); [f_equal; symmetry; apply bool_decide_eq_false_2; lia|].
  f_equal. destruct (Z.ltb_spec y (ry r + rh r)); symmetry; [apply bool_decide_eq_true_2|apply bool_decide_eq_false_2]; lia.
Qed.

Ltac contains_simp :=
  repeat (i32_simp; rewrite contains_ok by (cbn; unfold is_i32; lia); cbn [mbind option_bind]).

Lemma desktop_h_ok m : metrics_ok m → desktop_h m = m_height m - taskbar_h m.
Proof. intros []. unfold desktop_h. by i32_simp. Qed.

(** The parts of a window, the first that contains the point counting. *)
Definition area (w : Window) (x y : Z) : WindowArea :=
  if negb (visible w) || negb (bool_decide (in_rect (win_rect w) x y)) then AreaNone
  else if bool_decide (in_rect (MkRect (wx w + ww w - 18) (wy w + 4) 13 11) x y) then AreaClose
  else if bool_decide (in_rect (MkRect (wx w + ww w - 33) (wy w + 4) 13 11) x y) then AreaMaximize
  else if bool_decide (in_rect (MkRect (wx w + ww w - 48) (wy w + 4) 13 11) x y) then AreaMinimize
  else if bool_decide (in_rect (MkRect (wx w + ww w - 10) (wy w + wh w - 10) 10 10) x y) && negb (bool_decide (wmode w = Maximized)) then AreaResize
  else if bool_decide (in_rect (MkRect (wx w) (wy w) (ww w) 20) x y) && negb (bool_decide (wmode w = Maximized)) then AreaTitlebar
  else AreaClient.

Lemma hit_window_ok m w x y : metrics_ok m → window_ok m w → hit_window w x y = Some (area w x y).
Proof.
  intros [] [[? ? ? ?] _ _ _]. cbn in *. unfold hit_window, area, from_right, TITLEBAR_H.
  destruct (visible w); [|done]. cbn [negb orb].
  contains_simp.
  destruct (bool_decide (in_rect (win_rect w) x y)); [|done]. cbn [negb]. contains_simp.
  do 3 (case_bool_decide; [done|contains_simp]). destruct (_ && _); [done|]. contains_simp. by destruct (_ && _).
Qed.

(** Only a visible window is hit, and only inside. *)
Lemma area_inside w x y : area w x y ≠ AreaNone ↔ visible w = true ∧ in_rect (win_rect w) x y.
Proof.
  unfold area. destruct (visible w); cbn [negb orb]; [|split; [done|by intros [? _]]].
  case_bool_decide as E; cbn [negb]; [|split; [done|tauto]]. split; [done|]. intros _. repeat case_match; done.
Qed.

Definition wm_ok (s : WindowManager) : Prop := -16384 ≤ drag_offset_x s ≤ 16384 ∧ -16384 ≤ drag_offset_y s ≤ 16384.

Lemma begin_drag_ok m w x y : metrics_ok m → window_ok m w → on_screen m x y →
  ∃ s, begin_drag w x y = Some s ∧ s = Wm true false (x - wx w) (y - wy w) ∧ wm_ok s.
Proof.
  intros [] [[? ? ? ?] _ _ _] [? ?]. cbn in *. unfold begin_drag. i32_simp. eexists. split; [done|]. split; [done|].
  unfold wm_ok. cbn. lia.
Qed.

Definition moved (x y : Z) (w : Window) : Window := set_y y (set_x x w).
Definition resized (a b : Z) (w : Window) : Window := set_h b (set_w a w).

(** ** Running partial functions *)

Lemma returns_ret {A} (a : A) (P : A → Prop) : P a → returns (Some a) P.
Proof. by exists a. Qed.
Lemma returns_eq {A} (o : option A) a : returns o (λ x, x = a) → o = Some a.
Proof. by intros (x & -> & ->). Qed.
Lemma returns_bind {A B} (o : option A) (f : A → option B) P : returns o (λ a, returns (f a) P) → returns (o ≫= f) P.
Proof. intros (a & -> & b & E & HP). by exists b. Qed.
Lemma returns_checked z (P : Z → Prop) : is_i32 z → P z → returns (checked z) P.
Proof. intros Hz HP. rewrite checked_ok by done. by exists z. Qed.

Lemma if_max a b : (if a <? b then b else a) = Z.max a b.
Proof. destruct (Z.ltb_spec a b); lia. Qed.
Lemma if_min a b : (if b <? a then b else a) = Z.min a b.
Proof. destruct (Z.ltb_spec b a); lia. Qed.
(** A sum that is cut off at [d]. *)
Lemma returns_cut a b d (P : Z → Prop) : is_i32 (d - b) → P (Z.min a (d - b)) → returns (if d <? a + b then checked (d - b) else Some a) P.
Proof.
  intros Hd HP. destruct (Z.ltb_spec d (a + b)).
  - apply returns_checked; [done|]. by rewrite Z.min_r in HP by lia.
  - apply returns_ret. by rewrite Z.min_l in HP by lia.
Qed.

Lemma returns_cut' a b d (P : Z → Prop) : is_i32 (d - b) → P (Z.min a (d - b)) → returns (if d <? b + a then checked (d - b) else Some a) P.
Proof. rewrite (Z.add_comm b). apply returns_cut. Qed.

(** One step of a partial function on numbers. *)
Ltac ret_step :=
  rewrite ?if_max, ?if_min;
  lazymatch goal with
  | |- returns (_ ≫= _) _ => apply returns_bind
  | |- returns (checked _) _ => apply returns_checked; [unfold is_i32; lia|]
  | |- returns (if _ <? _ + _ then checked _ else _) _ => first [apply returns_cut | apply returns_cut']; [unfold is_i32; lia|]
  | |- returns (Some _) _ => apply returns_ret
  end; cbv beta zeta.

Lemma update_drag_ok m s w x y : metrics_ok m → window_ok m w → wm_ok s → on_screen m x y →
  update_drag s w x y m = Some (win_rect w,
    moved (Z.min (Z.max 0 (x - drag_offset_x s)) (m_width m - ww w))
          (Z.min (Z.max 0 (y - drag_offset_y s)) (m_height m - taskbar_h m - wh w)) w).
Proof.
  intros Hm [[? ? ? ?] _ _ _] [? ?] [? ?]. unfold update_drag. rewrite (desktop_h_ok m Hm). destruct Hm. cbn in * |-. cbv zeta. rewrite (i32_small (m_width m)) by (unfold is_i32; lia).
  apply returns_eq. repeat ret_step. by rewrite !(Z.max_comm _ 0).
Qed.

Lemma update_resize_ok m w x y : metrics_ok m → window_ok m w → on_screen m x y →
  update_resize w x y m = Some (win_rect w,
    resized (Z.min (Z.max WINDOW_MIN_W (x - wx w + 1)) (m_width m - wx w))
            (Z.min (Z.max WINDOW_MIN_H (y - wy w + 1)) (m_height m - taskbar_h m - wy w)) w).
Proof.
  intros Hm [[? ? ? ?] _ _ _] [? ?]. unfold update_resize, WINDOW_MIN_W, WINDOW_MIN_H. rewrite (desktop_h_ok m Hm). destruct Hm. cbn in * |-. cbv zeta. rewrite (i32_small (m_width m)) by (unfold is_i32; lia).
  apply returns_eq. repeat ret_step. by rewrite !(Z.max_comm _ 168), !(Z.max_comm _ 82).
Qed.

(** The operations keep windows where they can be reached. *)
Create HintDb windows discriminated.
Section keep.
Context (m : Metrics) (Hm : metrics_ok m).

Lemma moved_ok w x y : window_ok m w → 0 ≤ x ≤ m_width m - 168 → 0 ≤ y ≤ m_height m - taskbar_h m - 82 → window_ok m (moved x y w).
Proof. intros [[] [] ? ?] ? ?. split; [split; cbn in *; lia|split; cbn in *; lia|done|done]. Qed.
Lemma resized_ok w a b : window_ok m w → 168 ≤ a ≤ m_width m → 82 ≤ b ≤ m_height m - taskbar_h m → window_ok m (resized a b w).
Proof. intros [[] [] ? ?] ? ?. split; [split; cbn in *; lia|split; cbn in *; lia|done|done]. Qed.

Lemma focus_ok z w : window_ok m w → is_u32 z → window_ok m (focus_window z w).
Proof.
  intros Hw ?. unfold focus_window. destruct (wopen w) eqn:E; [|done]. destruct Hw. by split.
Qed.
Lemma close_ok w : window_ok m w → window_ok m (close_window w).
Proof. by intros []. Qed.
Lemma minimize_ok w : window_ok m w → window_ok m (minimize_window w).
Proof. by intros []. Qed.
Lemma unfocus_ok w : window_ok m w → window_ok m (set_focused false w).
Proof. by intros []. Qed.

Lemma toggle_ok w : window_ok m w → window_ok m (toggle_window m w).
Proof.
  intros [Hr Hs Hf Hz]. unfold toggle_window. case_bool_decide; cbn; [by split|]. split; [|done..]. destruct Hm.
  split; cbn; i32_simp; lia.
Qed.
End keep.
#[export] Hint Resolve focus_ok close_ok minimize_ok unfocus_ok toggle_ok : windows.

(** Maximizing and restoring gives the window its old place back. *)
Lemma toggle_twice m w : wmode w ≠ Maximized → win_rect (toggle_window m (toggle_window m w)) = win_rect w.
Proof. intros H. unfold toggle_window. rewrite (bool_decide_eq_false_2 _ H). cbn. done. Qed.

(** ** Properties *)

(** C26. Dragging and resizing: from any press on the title bar and any later position of
    the pointer, the dragged window keeps its size, lies wholly on the desktop and has
    moved by exactly the way of the pointer when the desktop has room; a resized window
    keeps its corner, is on the desktop, never smaller than the minimum, and reaches the
    pointer when that is large enough. No sum overflows. *)
Theorem window_drag_resize m w x0 y0 x y : metrics_ok m → window_ok m w → on_screen m x0 y0 → on_screen m x y →
  ∃ s w1 w2, begin_drag w x0 y0 = Some s ∧ update_drag s w x y m = Some (win_rect w, w1) ∧ update_resize w x y m = Some (win_rect w, w2) ∧
    (window_ok m w1 ∧ on_desktop m (win_rect w1) ∧ ww w1 = ww w ∧ wh w1 = wh w ∧
     (on_desktop m (MkRect (wx w + x - x0) (wy w + y - y0) (ww w) (wh w)) → wx w1 = wx w + x - x0 ∧ wy w1 = wy w + y - y0)) ∧
    (window_ok m w2 ∧ on_desktop m (win_rect w2) ∧ wx w2 = wx w ∧ wy w2 = wy w ∧
     (wx w + WINDOW_MIN_W ≤ x + 1 → wx w2 + ww w2 = x + 1) ∧ (wy w + WINDOW_MIN_H ≤ y + 1 ≤ m_height m - taskbar_h m → wy w2 + wh w2 = y + 1)).
Proof.
  intros Hm Hw H0 Hx. destruct (begin_drag_ok m w x0 y0 Hm Hw H0) as (s & E & -> & Hs). eexists _, _, _. split; [exact E|]. split; [by apply update_drag_ok|]. split; [by apply update_resize_ok|].
  cbn [drag_offset_x drag_offset_y]. pose proof Hm as [? ? ? ?]. pose proof Hw as [[? ? ? ?] _ _ _]. destruct H0, Hx. unfold WINDOW_MIN_W, WINDOW_MIN_H, on_desktop. cbn in *. split.
  - split; [apply moved_ok; [done|lia|lia]|]. cbn. lia.
  - split; [apply resized_ok; [done|lia|lia]|]. cbn. lia.
Qed.

(** ** A window *)

Definition demo_metrics : Metrics := MkMetrics 1024 768 30.
Definition demo_window : Window := MkWindow 100 60 430 300 100 60 430 300 true true Normal 3.

Lemma demo_metrics_ok : metrics_ok demo_metrics.
Proof. split; cbn; lia. Qed.
Lemma demo_window_ok : window_ok demo_metrics demo_window.
Proof. split; [split; cbn; lia|split; cbn; lia|done|done]. Qed.

Lemma window_drag_resize_witness : ∃ s w1 w2, begin_drag demo_window 200 65 = Some s ∧ update_drag s demo_window 0 700 demo_metrics = Some (win_rect demo_window, w1) ∧
  update_resize demo_window 0 700 demo_metrics = Some (win_rect demo_window, w2) ∧ wx w1 = 0 ∧ wy w1 = 438 ∧ ww w2 = 168 ∧ wh w2 = 641.
Proof.
  destruct (window_drag_resize demo_metrics demo_window 200 65 0 700 demo_metrics_ok demo_window_ok) as (s & w1 & w2 & E & E1 & E2 & _); [done|done|].
  exists s, w1, w2. split; [exact E|]. split; [exact E1|]. split; [exact E2|]. vm_compute in E. injection E as <-. vm_compute in E1, E2. injection E1 as <-. injection E2 as <-. done.
Defined.
