(* ===== verification/GuiKernel.v ===== *)
(** * What the desktop uses of the kernel

    The C functions that the C++ code calls, as a class of operations, and what it
    relies on: they return, they keep the kernel in order, and a file that was written
    is read back. The laws about files are proved of diskfs.c at the end; a small
    instance of all of them is in GuiDemo. *)

From Stdlib Require Import ZArith Lia Bool String.
From stdpp Require Import base numbers list list_numbers.
From S2P Require Import Prelude Bitmap Keyboard Input Rtc Runtime DiskCache Diskfs DiskfsAlloc DiskfsInv DiskfsPath DiskfsData DiskfsOps DiskfsFiles DiskfsChange DiskfsFsck.

(** [None] is the null pointer of diskfs_read_file; otherwise the bytes behind the
    pointer and the size. The list of k_diskfs_fsck is the report; [None] of the clock and
    of the input queue is their answer false. k_power_shutdown and k_power_restart are
    what power_shutdown and power_restart do before their last loop, in which the
    processor is halted for ever: the program does nothing after them, whereas the model
    goes on, so that what it says about the time after them is not about the program. *)
Class GuiKernel (K : Type) := {
  k_serial_writestring : list Z → M K unit;
  k_timer_ticks : M K Z;
  k_timer_uptime_seconds : M K Z;
  k_pmm_free_pages : M K Z;
  k_heap_free_bytes : M K Z;
  k_scheduler_switch_count : M K Z;
  k_user_process_count : M K Z;
  k_pci_device_count : M K Z;
  k_diskfs_file_count : M K Z;
  k_diskfs_file_name : Z → M K (list Z);
  k_diskfs_read_file : list Z → M K (option (list Z * Z));
  k_diskfs_write_file : list Z → list Z → Z → M K bool;
  k_diskfs_delete_file : list Z → M K bool;
  k_diskfs_rename_file : list Z → list Z → M K bool;
  k_diskfs_truncate_file : list Z → Z → M K bool;
  k_diskfs_fsck : Z → M K (Z * list Z);
  k_mouse_x : M K Z;
  k_mouse_y : M K Z;
  k_power_shutdown : M K unit;
  k_power_restart : M K unit;
  k_rtc_read_datetime : M K (option rtc_datetime);
  k_input_poll_event : M K (option gui_event) }.

(** A C string of bytes in a buffer. *)
Definition text_in (buf str : list Z) : Prop := cstring buf = Some str ∧ Forall is_u8 str.
(** The strings that the desktop passes around are short. *)
Definition is_text (buf : list Z) : Prop := ∃ str, text_in buf str ∧ Z.of_nat (length str) < 65536.

(** [file_has k path c]: the file of the name [path] holds [c]. [path_plain k path]: the
    name clashes with no other one. [files_work k]: the disk does not fail. [room_for k path
    n]: there is a directory for the file and room for [n] bytes. *)
Class GuiFiles (K : Type) := {
  kernel_ok : K → Prop;
  files_work : K → Prop;
  path_plain : K → list Z → Prop;
  room_for : K → list Z → Z → Prop;
  file_has : K → list Z → list Z → Prop }.

(** The kernel goes on in order. *)
Definition goes_on {K} `{GuiFiles K} (k k' : K) : Prop := kernel_ok k' ∧ (files_work k → files_work k').
Definition same_files {K} `{GuiFiles K} (k k' : K) : Prop := ∀ p c, file_has k p c → file_has k' p c.

(** An operation that returns something with [R] and changes no file. *)
Definition quiet {K A} `{GuiFiles K} (m : M K A) (R : A → Prop) : Prop :=
  ∀ k, kernel_ok k → wp m (λ a k', (goes_on k k' ∧ same_files k k') ∧ R a) k.
(** One that may change files. *)
Definition total {K A} `{GuiFiles K} (m : M K A) (R : A → Prop) : Prop :=
  ∀ k, kernel_ok k → wp m (λ a k', goes_on k k' ∧ R a) k.

(** The devices and the counters. The last two laws say that the two ways to end reach
    their last loop, where the machine stays: the writes to the ports are accepted and
    the keyboard controller takes the command. *)
Class GuiDeviceLaws (K : Type) `{GuiKernel K, GuiFiles K} := {
  serial_quiet data : is_text data → quiet (k_serial_writestring data) (λ _, True);
  ticks_quiet : quiet k_timer_ticks is_u32;
  uptime_quiet : quiet k_timer_uptime_seconds is_u32;
  pages_quiet : quiet k_pmm_free_pages is_u32;
  heap_quiet : quiet k_heap_free_bytes is_u32;
  switches_quiet : quiet k_scheduler_switch_count is_u32;
  processes_quiet : quiet k_user_process_count is_u32;
  pci_quiet : quiet k_pci_device_count is_u32;
  mouse_x_quiet : quiet k_mouse_x (λ x, 0 ≤ x ≤ 16384);
  mouse_y_quiet : quiet k_mouse_y (λ y, 0 ≤ y ≤ 16384);
  shutdown_reaches_halt : quiet k_power_shutdown (λ _, True);
  restart_reaches_halt : quiet k_power_restart (λ _, True);
  datetime_quiet : quiet k_rtc_read_datetime (λ r, ∀ d, r = Some d →
    is_u8 (hour d) ∧ is_u8 (minute d) ∧ is_u8 (day d) ∧ is_u8 (month d) ∧ 0 ≤ year d < 65536) }.

(** The files. *)
Class GuiFileLaws (K : Type) `{GuiKernel K, GuiFiles K} := {
  file_count_quiet : quiet k_diskfs_file_count (λ n, 0 ≤ n ≤ 4096);
  file_name_quiet i : is_u32 i → quiet (k_diskfs_file_name i) is_text;
  fsck_quiet n : 0 < n ≤ 4096 → quiet (k_diskfs_fsck n) (λ r, is_u32 (fst r) ∧ is_text (snd r));
  read_file_law path str k : text_in path str → kernel_ok k → wp (k_diskfs_read_file path) (λ r k',
    (goes_on k k' ∧ same_files k k') ∧
    match r with
    | Some (data, size) => 0 ≤ size ≤ Z.of_nat (length data) ∧ Z.of_nat (length data) ≤ 16384 ∧ Forall is_u8 data ∧
        (size < 16384 → data !! Z.to_nat size = Some 0) ∧ ∀ c, file_has k str c → take (Z.to_nat size) data = c
    | None => files_work k → ∀ c, file_has k str c → 16384 < Z.of_nat (length c)
    end) k;
  write_file_law path str buf size k : text_in path str → 0 ≤ size ≤ 4096 → size ≤ Z.of_nat (length buf) → Forall is_u8 buf → kernel_ok k →
    wp (k_diskfs_write_file path buf size) (λ ok k', goes_on k k' ∧
      (ok = true → path_plain k str → file_has k' str (take (Z.to_nat size) buf)) ∧ (files_work k → room_for k str size → ok = true)) k;
  delete_total path : is_text path → total (k_diskfs_delete_file path) (λ _, True);
  rename_total old new : is_text old → is_text new → total (k_diskfs_rename_file old new) (λ _, True);
  truncate_total path size : is_text path → is_u32 size → total (k_diskfs_truncate_file path size) (λ _, True) }.

Class GuiKernelLaws (K : Type) `{GuiKernel K, GuiFiles K} := {
  kernel_devices :: GuiDeviceLaws K;
  kernel_files :: GuiFileLaws K }.

(** ** Texts *)

Lemma text_in_app str rest : Forall (λ c, 0 < c < 256) str → text_in (str ++ 0 :: rest) str.
Proof.
  intros H. split; [|eapply Forall_impl; [exact H|]; unfold is_u8; lia]. apply cstring_spec. exists rest. split; [done|].
  eapply Forall_impl; [exact H|]. cbn. lia.
Qed.

Lemma text_in_inv buf str : text_in buf str → ∃ rest, buf = str ++ 0 :: rest ∧ Forall (λ c, 0 < c < 256) str.
Proof.
  intros [(rest & -> & Hnz)%cstring_spec Hu]. exists rest. split; [done|].
  eapply Forall_impl; [exact (proj2 (Forall_and _ _) (conj Hnz Hu))|]. unfold is_u8. intros x [? ?]. lia.
Qed.

Lemma aread_text str rest i : Forall (λ c, 0 < c < 256) str → 0 ≤ i ≤ Z.of_nat (length str) →
  ∃ c, aread (str ++ 0 :: rest) i = Some c ∧ (c = 0 ↔ i = Z.of_nat (length str)) ∧ (i < Z.of_nat (length str) → str !! Z.to_nat i = Some c).
Proof.
  intros Hs Hi. destruct (decide (i = Z.of_nat (length str))) as [->|Hne].
  - exists 0. split; [apply aread_app_end|]. split; [done|lia].
  - destruct (lookup_lt_is_Some_2 str (Z.to_nat i)) as [c Hc]; [lia|]. exists c. rewrite aread_app_l by lia. split; [apply aread_Some; split; [lia|done]|].
    split; [|done]. eapply Forall_lookup_1 in Hc; [|exact Hs]. cbn in Hc. lia.
Qed.

(** Literals are texts. *)
Lemma c_str_text s : plain s = true → is_text (c_str s).
Proof. intros H. exists (bytes_of s). split; [by apply text_in_app, bytes_plain|]. unfold plain in H. bool_to_prop. lia. Qed.
Lemma c_line_text s : plain s = true → is_text (c_line s).
Proof.
  intros H. exists (bytes_of s ++ [10]). unfold c_line. replace (bytes_of s ++ [10; 0]) with ((bytes_of s ++ [10]) ++ [0]) by by rewrite <- app_assoc. split.
  - apply text_in_app, Forall_app. split; [by apply bytes_plain|]. repeat constructor; lia.
  - rewrite length_app. cbn. unfold plain in H. bool_to_prop. lia.
Qed.
Lemma char_text c : 0 < c < 256 → is_text [c; 0].
Proof. intros Hc. exists [c]. split; [|done]. apply (text_in_app [c] []). by apply Forall_singleton. Qed.

Section quiet.
Context {K : Type} `{GuiFiles K}.

Lemma goes_on_refl k : kernel_ok k → goes_on k k.
Proof. by split. Qed.
Lemma goes_on_trans k1 k2 k3 : goes_on k1 k2 → goes_on k2 k3 → goes_on k1 k3.
Proof. intros [? ?] [? ?]. split; auto. Qed.
Lemma same_files_trans k1 k2 k3 : same_files k1 k2 → same_files k2 k3 → same_files k1 k3.
Proof. unfold same_files. auto. Qed.
End quiet.

(** ** The file system below the desktop

    The files are those of diskfs.c, on any block device that keeps its contract, and the
    rest of the kernel is any that keeps the laws of the devices: the laws about files
    hold. The bytes of a file are seen through a pointer to unsigned char. *)

Section diskfs.
Context {D : Type} `{Disk D} {K : Type} `{GuiKernel K, GuiFiles K, !GuiDeviceLaws K}.
Implicit Types (f : fs D) (k : fs D * K).

Definition on_files {A} (m : M (fs D) A) : M (fs D * K) A := zoom fst (λ f k, (f, snd k)) m.
Definition on_rest {A} (m : M K A) : M (fs D * K) A := zoom snd (λ r k, (fst k, r)) m.

#[export] Instance disk_kernel : GuiKernel (fs D * K) := {|
  k_serial_writestring text := on_rest (k_serial_writestring text);
  k_timer_ticks := on_rest k_timer_ticks;
  k_timer_uptime_seconds := on_rest k_timer_uptime_seconds;
  k_pmm_free_pages := on_rest k_pmm_free_pages;
  k_heap_free_bytes := on_rest k_heap_free_bytes;
  k_scheduler_switch_count := on_rest k_scheduler_switch_count;
  k_user_process_count := on_rest k_user_process_count;
  k_pci_device_count := on_rest k_pci_device_count;
  k_diskfs_file_count := on_files diskfs_file_count;
  k_diskfs_file_name i := on_files (diskfs_file_name i);
  k_diskfs_read_file path := on_files (r ← diskfs_read_file path; b ← gets file_buffer; mret (size ← r; Some (u8 <$> b, size)));
  k_diskfs_write_file path buf size := on_files (diskfs_write_file path buf size);
  k_diskfs_delete_file path := on_files (diskfs_delete_file path);
  k_diskfs_rename_file old new := on_files (diskfs_rename_file old new);
  k_diskfs_truncate_file path size := on_files (diskfs_truncate_file path size);
  k_diskfs_fsck n := on_files (r ← diskfs_fsck n; mret (fst r, snd r ++ [0]));
  k_mouse_x := on_rest k_mouse_x;
  k_mouse_y := on_rest k_mouse_y;
  k_power_shutdown := on_rest k_power_shutdown;
  k_power_restart := on_rest k_power_restart;
  k_rtc_read_datetime := on_rest k_rtc_read_datetime;
  k_input_poll_event := on_rest k_input_poll_event |}.

(** The file that [str] names holds [c]; no two entries of a directory have the same name. *)
Definition disk_has f (str c : list Z) : Prop := ∃ v i n, fs_inv f v ∧ available f = true ∧ unique_names (inodes f) ∧ resolves f str i ∧
  inodes f !! i = Some n ∧ itype n = DISKFS_TYPE_FILE ∧ c = u8 <$> content v (first_sector n) (isize n).
#[export] Instance disk_kernel_files : GuiFiles (fs D * K) := {|
  kernel_ok k := (∃ v, fs_inv (fst k) v) ∧ kernel_ok (snd k);
  files_work k := works (fst k) ∧ available (fst k) = true;
  path_plain k str := unique_names (inodes (fst k)) ∧ clash_free (fst k) (str ++ [0]);
  room_for k str size := has_parent (fst k) (str ++ [0]) ∧ ¬ no_room (fst k) size;
  file_has k := disk_has (fst k) |}.

Lemma rest_quiet {A} (m : M K A) R : quiet m R → quiet (on_rest m) R.
Proof. intros Hm k [Hf Hk]. apply wp_zoom. eapply wp_mono; [by apply Hm|]. intros a r [[[Hr _] _] Ha]. split; [|done]. split; [by split|by intros p c]. Qed.

(** An operation on the files that keeps the file system in order. *)
Lemma files_total {A} (m : M (fs D) A) R : (∀ f v, fs_inv f v → wp m (λ a f', ((∃ v', fs_inv f' v') ∧ available f' = available f ∧ (works f → works f')) ∧ R a) f) → total (on_files m) R.
Proof.
  intros Hm k [[v I] Hk]. apply wp_zoom. eapply wp_mono; [by apply (Hm _ v)|]. intros a f' [(I' & Ha & Hw) HR]. split; [|done]. split; [by split|]. intros [W Av]. split; [auto|]. cbn. congruence.
Qed.
(** One that changes nothing. *)
Lemma files_quiet {A} (m : M (fs D) A) (R : A → Prop) : (∀ f v, fs_inv f v → wp m (λ a f', f' = f ∧ R a) f) → quiet (on_files m) R.
Proof.
  intros Hm k [[v I] Hk]. apply wp_zoom. eapply wp_mono; [by apply (Hm _ v)|]. intros a f' [-> HR]. split; [|done]. split; [by split; [split; [by exists v|]|]|by intros p c].
Qed.

Lemma text_path path str : text_in path str → path_holds str path.
Proof. intros (rest & -> & Hs)%text_in_inv. split; [done|by exists rest]. Qed.
Lemma listed_text p : listed p → is_text p.
Proof. intros (str & -> & Hc & Hl). exists str. split; [by apply text_in_app|lia]. Qed.

Lemma disk_file_count : quiet (on_files diskfs_file_count) (λ n, 0 ≤ n ≤ 4096).
Proof. apply files_quiet. intros f v I. apply wp_gets. destruct (fi_names _ _ I) as (_ & ? & _). split; [done|lia]. Qed.

Lemma disk_file_name i : is_u32 i → quiet (on_files (diskfs_file_name i)) is_text.
Proof.
  intros Hi. apply files_quiet. intros f v I. destruct (fi_names _ _ I) as (Hl & Hn & Hs). unfold diskfs_file_name. do 2 wp_step. unfold is_u32 in Hi. destruct (Z.ltb_spec i (visible_file_count f)).
  - do 2 wp_step. destruct (lookup_lt_is_Some_2 (file_names f) (Z.to_nat i)) as [p Hp]; [lia|]. eapply wp_lift; [apply aread_Some; split; [lia|exact Hp]|]. split; [done|].
    apply listed_text. apply (Forall_lookup_1 _ _ (Z.to_nat i) _ Hs). rewrite lookup_take_lt by lia. exact Hp.
  - wp_step. split; [done|]. exists []. split; [by apply (text_in_app [])|done].
Qed.

Lemma disk_fsck n : 0 < n ≤ 4096 → quiet (on_files (r ← diskfs_fsck n; mret (fst r, snd r ++ [0]))) (λ r, is_u32 (fst r) ∧ is_text (snd r)).
Proof.
  intros Hn. apply files_quiet. intros f v I. wp_step.
  assert (Ht : ∀ s, plain s = true → is_text (append_report [] n s ++ [0])).
  { intros s Hs. exists (append_report [] n s). unfold append_report. rewrite (proj2 (Z.eqb_neq n 0)) by lia. cbn [app]. split; [by apply text_in_app, Forall_take, bytes_plain|]. rewrite length_take. lia. }
  destruct (available f) eqn:Hav.
  - eapply wp_mono; [apply (fsck_wp f _ n (meta_checkable f (fi_meta _ _ I)) Hav)|]. intros [e report] f' (-> & He & Hr). cbn [fst snd] in *. assert (e = 0) as -> by (by apply He, meta_consistent, (fi_meta _ _ I)).
    wp_step. split; [done|]. rewrite (Hr eq_refl). split; [done|by apply Ht].
  - unfold diskfs_fsck. do 2 wp_step. rewrite Hav. cbn [negb]. do 2 wp_step. split; [done|]. split; [done|by apply Ht].
Qed.

Lemma u8_id c : is_u8 c → u8 c = c.
Proof. intros Hc. unfold is_u8 in Hc. apply Z.mod_small. lia. Qed.
Lemma u8_bytes l : Forall is_u8 l → u8 <$> l = l.
Proof. induction 1 as [|c l Hc _ IH]; [done|]. cbn. by rewrite IH, u8_id. Qed.
Lemma u8_is_u8 l : Forall is_u8 (u8 <$> l).
Proof. apply Forall_fmap, Forall_true. intros c. unfold compose, is_u8, u8. change 256 with (2 ^ 8). apply Z.mod_pos_bound. lia. Qed.

Lemma disk_read_law path str k : text_in path str → kernel_ok k → wp (k_diskfs_read_file path) (λ r k',
  (goes_on k k' ∧ same_files k k') ∧
  match r with
  | Some (data, size) => 0 ≤ size ≤ Z.of_nat (length data) ∧ Z.of_nat (length data) ≤ 16384 ∧ Forall is_u8 data ∧
      (size < 16384 → data !! Z.to_nat size = Some 0) ∧ ∀ c, file_has k str c → take (Z.to_nat size) data = c
  | None => files_work k → ∀ c, file_has k str c → 16384 < Z.of_nat (length c)
  end) k.
Proof.
  intros Ht [Hex Hk]. cbn [k_diskfs_read_file disk_kernel]. apply wp_zoom. wp_step. eapply wp_mono; [apply (read_file_wp (fst k) str path Hex), text_path, Ht|].
  intros r f' (st & b & -> & Hw & Hinv & Hr). do 3 wp_step. destruct k as [f k]. cbn [fst snd] in *. split; [split|].
  - destruct Hex as [v I]. split; [split; [exists v; by apply Hinv|done]|]. intros [W Av]. by split; [apply Hw|].
  - intros p c (v & i & n & I & Hrest). exists v, i, n. split; [by apply Hinv|exact Hrest].
  - destruct r as [size|]; cbn [mbind option_bind].
    + destruct Hr as (_ & Hs & Hend & i & n & Hres & Hi & T & Esz & Hc). destruct Hex as [v I]. pose proof (fi_buffer _ _ (Hinv v I)) as Hb. cbn in Hb. rewrite length_fmap. change (file_buffer (set_file_buffer b (set_disk st f))) with b. split_and!; [lia|lia|lia|apply u8_is_u8| |].
      * intros Hlt. rewrite list_lookup_fmap. cbn. by rewrite (Hend Hlt).
      * intros c Hh. change (disk_has f str c) in Hh. destruct Hh as (v' & j & m & I' & _ & _ & Hres' & Hj & _ & ->). rewrite <- (resolves_unique f str i j Hres Hres'), Hi in Hj. injection Hj as <-. cbn. by rewrite <- fmap_take, (Hc v' I'), Esz.
    + intros [W Av] c Hh. change (disk_has f str c) in Hh. destruct Hh as (v' & j & m & I' & _ & _ & Hres' & Hj & T & ->). specialize (Hr W Av j m Hres' Hj). rewrite length_fmap, content_length; lia.
Qed.

Lemma disk_write_law path str buf size k : text_in path str → 0 ≤ size ≤ 4096 → size ≤ Z.of_nat (length buf) → Forall is_u8 buf → kernel_ok k →
  wp (k_diskfs_write_file path buf size) (λ ok k', goes_on k k' ∧ (ok = true → path_plain k str → file_has k' str (take (Z.to_nat size) buf)) ∧
    (files_work k → room_for k str size → ok = true)) k.
Proof.
  intros Ht Hs Hb Hu [[v I] Hk]. pose proof (text_path _ _ Ht) as Hp. destruct k as [f k]. cbn [fst snd] in *. apply wp_zoom.
  eapply wp_mono; [apply (write_file_wp f v str path buf size I Hp); [unfold DISKFS_MAX_FILE_SIZE; lia|done]|]. intros ok f' (v' & i & I' & Kp & Hok & Hlive & _).
  split; [split; [split; [by exists v'|done]|]|split].
  - intros [W Av]. split; [by apply (kp_works _ _ _ _ _ Kp)|]. cbn. by rewrite (kp_available _ _ _ _ _ Kp).
  - intros -> [Hun Hcl]. cbn in Hun, Hcl. destruct (Hok eq_refl) as (Hav & l & par & leaf & El & _ & Hpl & _ & Hwr). pose proof (components_of str path Hp) as Ec. unfold clash_free in Hcl. rewrite Ec in Hcl.
    pose proof (written_unique f par leaf buf size i f' v' Hun (Hcl l par leaf El Hpl) Hwr) as Hu'. destruct (written_walk f par leaf buf size i f' v' l Hu' Hpl Hwr) as [Hwalk Hfile].
    destruct Hwr as [(n & n' & Hi & En & T & _ & _ & Sz & Ct & _) _]. exists v', i, n'. cbn. split_and!; try done; [by rewrite (kp_available _ _ _ _ _ Kp)| | |].
    + left. exists l. rewrite Ec. split_and!; done.
    + rewrite En. apply list_lookup_insert_eq. by eapply lookup_lt_Some.
    + rewrite Sz, Ct. symmetry. by apply u8_bytes, Forall_take.
  - intros [W Av] [Hpar Hroom]. cbn in W, Av, Hpar, Hroom. unfold has_parent in Hpar. rewrite (components_of str path Hp) in Hpar. by destruct (Hlive W Av Hpar).
Qed.

#[export] Instance disk_file_laws : GuiFileLaws (fs D * K).
Proof.
  split.
  - exact disk_file_count.
  - exact disk_file_name.
  - exact disk_fsck.
  - exact disk_read_law.
  - exact disk_write_law.
  - intros path (str & Ht & _). apply files_total. intros f v I. eapply wp_mono; [apply (delete_file_wp f v str path I), text_path, Ht|]. intros ok f' (v' & i & I' & K' & _).
    split; [|done]. split_and!; [by exists v'|apply (kp_available _ _ _ _ _ K')|apply (kp_works _ _ _ _ _ K')].
  - intros old new (str & Ht & _) (str' & Ht' & _). apply files_total. intros f v I. eapply wp_mono; [apply (rename_file_wp f v str old str' new I); by apply text_path|]. intros ok f' (v' & i & I' & K' & _).
    split; [|done]. split_and!; [by exists v'|apply (kp_available _ _ _ _ _ K')|apply (kp_works _ _ _ _ _ K')].
  - intros path size (str & Ht & _) Hs. apply files_total. intros f v I. eapply wp_mono; [apply (truncate_any_wp f v str path size I); [by apply text_path|apply Hs]|]. by intros ok f'.
Qed.

#[export] Instance disk_device_laws : GuiDeviceLaws (fs D * K).
Proof.
  split; try (intros; apply rest_quiet).
  - by apply serial_quiet.
  - apply ticks_quiet.
  - apply uptime_quiet.
  - apply pages_quiet.
  - apply heap_quiet.
  - apply switches_quiet.
  - apply processes_quiet.
  - apply pci_quiet.
  - apply mouse_x_quiet.
  - apply mouse_y_quiet.
  - apply shutdown_reaches_halt.
  - apply restart_reaches_halt.
  - apply datetime_quiet.
Qed.
#[export] Instance disk_kernel_laws : GuiKernelLaws (fs D * K).
Proof. split; exact _. Qed.
End diskfs.
