(* ===== verification/Notepad.v ===== *)
(** * The text editor of the desktop, kernel/gui/apps/notepad.cpp

    The editor keeps its text in an array with a cursor. It behaves as a pair of
    strings, before and after the cursor; what it saves it reads back. *)

From Stdlib Require Import ZArith Lia Bool String.
From stdpp Require Import base numbers list list_numbers.
From S2P Require Import DiskCache Diskfs DiskfsInv DiskfsPath DiskfsData DiskfsOps DiskfsFiles Prelude Keyboard Runtime Windows GuiKernel.

Definition BUFFER_SIZE : Z := 2048.

Record notepad := MkNotepad {
  np_window : Window; np_path : list Z; np_buffer : list Z; np_length : Z; np_cursor : Z;
  np_dirty : bool; np_saved : bool }.

Definition set_np_window v n := MkNotepad v (np_path n) (np_buffer n) (np_length n) (np_cursor n) (np_dirty n) (np_saved n).
Definition set_np_path v n := MkNotepad (np_window n) v (np_buffer n) (np_length n) (np_cursor n) (np_dirty n) (np_saved n).
Definition set_np_buffer v n := MkNotepad (np_window n) (np_path n) v (np_length n) (np_cursor n) (np_dirty n) (np_saved n).
Definition set_np_length v n := MkNotepad (np_window n) (np_path n) (np_buffer n) v (np_cursor n) (np_dirty n) (np_saved n).
Definition set_np_cursor v n := MkNotepad (np_window n) (np_path n) (np_buffer n) (np_length n) v (np_dirty n) (np_saved n).
Definition set_np_dirty v n := MkNotepad (np_window n) (np_path n) (np_buffer n) (np_length n) (np_cursor n) v (np_saved n).
Definition set_np_saved v n := MkNotepad (np_window n) (np_path n) (np_buffer n) (np_length n) (np_cursor n) (np_dirty n) v.

(** ** The window *)

(** [w] and [h] are the successive values of window_.w and window_.h. *)
Definition notepad_geometry (m : Metrics) (win : Window) : option Window :=
  let w := if 640 <=? m_width m then 430 else 248 in
  let h := if 480 <=? m_height m then 300 else 160 in
  mw ← checked (i32 (m_width m) - 10);
  let w := if mw <? w then mw else w in
  mh ← checked (i32 (m_height m) - i32 (taskbar_h m)); mh ← checked (mh - 10);
  let h := if mh <? h then mh else h in
  let w := if w <? WINDOW_MIN_W then WINDOW_MIN_W else w in
  let h := if h <? WINDOW_MIN_H then WINDOW_MIN_H else h in
  x ← checked (i32 ((m_width m -% u32 w) / 2) + 28);
  let y := if 260 <? m_height m then 72 else 24 in
  Some (set_y y (set_x x (set_h h (set_w w win)))).

Definition on_window (f : Window → Window) : M notepad unit := modify (λ n, set_np_window (f (np_window n)) n).

Definition default_geometry (m : Metrics) : M notepad unit :=
  w ← gets np_window; w ← lift (notepad_geometry m w); modify (set_np_window w).

(** [array[i] = v] *)
Definition put_path (i v : Z) : M notepad unit := a ← gets np_path; a ← lift (awrite a i v); modify (set_np_path a).
Definition put_buffer (i v : Z) : M notepad unit := a ← gets np_buffer; a ← lift (awrite a i v); modify (set_np_buffer a).
Definition get_buffer (i : Z) : M notepad Z := a ← gets np_buffer; lift (aread a i).

Definition no_text : M notepad unit :=
  _ ← put_buffer 0 0;
  _ ← modify (set_np_length 0); _ ← modify (set_np_cursor 0);
  _ ← modify (set_np_dirty false); modify (set_np_saved false).

Definition notepad_initialize (m : Metrics) : M notepad unit :=
  _ ← default_geometry m;
  _ ← on_window reset_window;
  _ ← put_path 0 0;
  no_text.

Definition set_path (path : list Z) : M notepad unit :=
  r ← for_exit 0 31 (λ i, c ← lift (aread path i); if c =? 0 then mret (Some i) else _ ← put_path i c; mret None);
  put_path (match r with Some i => i | None => 31 end) 0.

Definition notepad_close : M notepad unit := on_window close_window.
Definition notepad_minimize : M notepad unit := on_window minimize_window.
Definition notepad_focus (z : Z) : M notepad unit := on_window (focus_window z).
Definition notepad_toggle_maximize (m : Metrics) (z : Z) : M notepad unit := _ ← on_window (toggle_window m); notepad_focus z.

(** ** The text *)

(** The loop counts down from the end of the text to the cursor. *)
Definition insert_char (c : Z) : M notepad unit :=
  len ← gets np_length; cur ← gets np_cursor;
  if BUFFER_SIZE <=? len then mret tt
  else
    _ ← for_ 0 (len - cur) (λ k, let i := len - k in v ← get_buffer (i - 1); put_buffer i v);
    _ ← put_buffer cur c;
    _ ← modify (set_np_cursor (cur +% 1));
    _ ← modify (set_np_length (len +% 1));
    len ← gets np_length;
    _ ← put_buffer len 0;
    modify (set_np_dirty true).

Definition backspace : M notepad unit :=
  len ← gets np_length; cur ← gets np_cursor;
  if cur =? 0 then mret tt
  else
    _ ← for_ (cur -% 1) len (λ i, v ← get_buffer (i + 1); put_buffer i v);
    _ ← modify (set_np_cursor (cur -% 1));
    _ ← modify (set_np_length (len -% 1));
    modify (set_np_dirty true).

Section notepad.
Context {K : Type} `{GuiKernel K}.

(** The application and the kernel under it. *)
Record notepad_on := NotepadOn { np_app : notepad; np_world : K }.
Definition set_np_app v s := NotepadOn v (np_world s).
Definition set_np_world v s := NotepadOn (np_app s) v.
Definition in_app {A} (m : M notepad A) : M notepad_on A := zoom np_app set_np_app m.
Definition in_os {A} (m : M K A) : M notepad_on A := zoom np_world set_np_world m.

Definition notepad_open_file (path : list Z) (m : Metrics) (z : Z) : M notepad_on bool :=
  r ← in_os (k_diskfs_read_file path);
  match r with
  | None => mret false
  | Some (data, size) =>
      if BUFFER_SIZE <? size then mret false
      else
        _ ← in_app (set_path path);
        _ ← in_app (_ ← for_ 0 size (λ i, c ← lift (aread data i); put_buffer i c); put_buffer size 0);
        _ ← in_app (modify (set_np_length (u32 size)));
        _ ← in_app (modify (set_np_cursor (u32 size)));
        _ ← in_app (modify (set_np_dirty false));
        _ ← in_app (modify (set_np_saved false));
        w ← in_app (gets np_window);
        _ ← in_app (when (negb (wopen w)) (_ ← default_geometry m; on_window save_geometry));
        _ ← in_app (_ ← on_window (set_open true); _ ← on_window (set_mode Normal); notepad_focus z);
        _ ← in_os (k_serial_writestring (c_line "MyOS GUI: Notepad opened file."));
        mret true
  end.

Definition notepad_open_window (m : Metrics) (z : Z) : M notepad_on unit :=
  w ← in_app (gets np_window);
  _ ← in_app (when (negb (wopen w))
        (_ ← (_ ← default_geometry m; on_window save_geometry);
         _ ← set_path (c_str "untitled.txt");
         no_text));
  _ ← in_app (_ ← on_window (set_open true); _ ← on_window (set_mode Normal); notepad_focus z);
  in_os (k_serial_writestring (c_line "MyOS GUI: Notepad opened.")).

Definition notepad_save : M notepad_on unit :=
  n ← in_app (gets id);
  ok ← in_os (k_diskfs_write_file (np_path n) (np_buffer n) (np_length n));
  _ ← in_app (modify (set_np_saved ok));
  if (ok : bool) then
    _ ← in_app (modify (set_np_dirty false));
    in_os (k_serial_writestring (c_line "MyOS GUI: Notepad saved file."))
  else in_os (k_serial_writestring (c_line "MyOS GUI: Notepad save failed.")).

Definition notepad_handle_key (key : Z) : M notepad_on unit :=
  w ← in_app (gets np_window);
  if negb (wopen w) || bool_decide (wmode w = Minimized) || negb (wfocused w) then mret tt
  else if key =? GUI_KEY_CTRL_S then notepad_save
  else if key =? 8 then in_app backspace
  else if key =? 10 then in_app (insert_char 10)
  else if (32 <=? key) && (key <=? 126) then in_app (insert_char key)
  else mret tt.
End notepad.
Arguments notepad_on K : clear implicits.

(** ** The geometry of the window *)

Lemma notepad_geometry_ok m w : metrics_ok m → ∃ w', notepad_geometry m w = Some w' ∧ placed m (win_rect w') ∧
  restore_rect w' = restore_rect w ∧ wopen w' = wopen w ∧ wfocused w' = wfocused w ∧ wmode w' = wmode w ∧ wz w' = wz w.
Proof.
  intros [].
  change (returns (notepad_geometry m w) (λ w', placed m (win_rect w') ∧
    restore_rect w' = restore_rect w ∧ wopen w' = wopen w ∧ wfocused w' = wfocused w ∧ wmode w' = wmode w ∧ wz w' = wz w)).
  unfold notepad_geometry, WINDOW_MIN_W, WINDOW_MIN_H. cbv zeta. rewrite !i32_small by (unfold is_i32; lia).
  set (w0 := if 640 <=? m_width m then 430 else 248). assert (Hw0 : 248 ≤ w0 ≤ 430 ∧ w0 ≤ m_width m - 70) by (unfold w0; destruct (Z.leb_spec 640 (m_width m)); lia).
  set (h0 := if 480 <=? m_height m then 300 else 160). assert (Hh0 : 160 ≤ h0 ≤ 300 ∧ h0 ≤ m_height m - taskbar_h m - 18) by (unfold h0; destruct (Z.leb_spec 480 (m_height m)); lia).
  do 6 ret_step. rewrite !Z.min_l, !Z.max_l by lia. pose proof (half (m_width m - w0)). u32_simp. rewrite i32_small by (unfold is_i32; lia). repeat ret_step.
  split; [|done]. split; cbn; try lia. destruct (Z.ltb_spec 260 (m_height m)); lia.
Qed.

(** The window of an application that has just been given its default place. *)
Lemma default_geometry_wp m n : metrics_ok m → window_ok m (np_window n) →
  wp (default_geometry m) (λ _ n', ∃ w, n' = set_np_window w n ∧ window_ok m w ∧ wopen w = wopen (np_window n) ∧ wmode w = wmode (np_window n)) n.
Proof.
  intros Hm Hw. unfold default_geometry. do 2 wp_step. destruct (notepad_geometry_ok m (np_window n) Hm) as (w & E & Hp & Er & Eo & Ef & Em & Ez).
  wp_step. eapply wp_lift; [exact E|]. wp_step. exists w. split; [done|]. split; [|done]. destruct Hw. split; [done|by rewrite Er| |by rewrite Ez].
  rewrite Ef, Eo. done.
Qed.

Lemma save_geometry_ok m w : window_ok m w → window_ok m (save_geometry w).
Proof. by intros []. Qed.

(** ** The text as two strings *)

(** The text [l ++ r] with the cursor between its parts. *)
Record np_text (n : notepad) (l r : list Z) : Prop := {
  nt_buffer : ∃ rest, np_buffer n = l ++ r ++ 0 :: rest;
  nt_size : length (np_buffer n) = 2049%nat;
  nt_bytes : Forall is_u8 (np_buffer n);
  nt_cursor : np_cursor n = Z.of_nat (length l);
  nt_length : np_length n = Z.of_nat (length l + length r) }.

Lemma nt_bound n l r : np_text n l r → (length l + length r ≤ 2048)%nat.
Proof. intros [[rest Eb] Es _ _ _]. rewrite Eb, !length_app in Es. cbn in Es. lia. Qed.

Lemma put_buffer_wp i v n (Q : unit → notepad → Prop) : 0 ≤ i < Z.of_nat (length (np_buffer n)) →
  Q tt (set_np_buffer (<[Z.to_nat i := v]> (np_buffer n)) n) → wp (put_buffer i v) Q n.
Proof. intros Hi HQ. unfold put_buffer. do 3 wp_step. eapply wp_lift; [by apply awrite_eq|]. by wp_step. Qed.

Lemma get_buffer_wp i v n (Q : Z → notepad → Prop) : aread (np_buffer n) i = Some v → Q v n → wp (get_buffer i) Q n.
Proof. intros Hi HQ. unfold get_buffer. do 2 wp_step. by eapply wp_lift. Qed.

(** A loop that only moves bytes of the buffer. *)
Definition rebuffered (n n' : notepad) : Prop := n' = set_np_buffer (np_buffer n') n.
Lemma rebuffered_put n n' b : rebuffered n n' → rebuffered n (set_np_buffer b n').
Proof. intros ->. by destruct n. Qed.

(** The bytes from [lo] to [hi] have moved up by one. *)
Definition moved_up (b b' : list Z) (lo hi : Z) : Prop :=
  ∀ j, b' !! j = if (lo <? Z.of_nat j) && (Z.of_nat j <=? hi) then b !! (j - 1)%nat else b !! j.
Definition moved_down (b b' : list Z) (lo hi : Z) : Prop :=
  ∀ j, b' !! j = if (lo <=? Z.of_nat j) && (Z.of_nat j <? hi) then b !! (j + 1)%nat else b !! j.

Lemma move_up_wp len cur n : 0 ≤ cur ≤ len → len < Z.of_nat (length (np_buffer n)) → Forall is_u8 (np_buffer n) →
  wp (for_ 0 (len - cur) (λ k, let i := len - k in v ← get_buffer (i - 1); put_buffer i v))
    (λ _ n', rebuffered n n' ∧ length (np_buffer n') = length (np_buffer n) ∧ Forall is_u8 (np_buffer n') ∧ moved_up (np_buffer n) (np_buffer n') cur len) n.
Proof.
  intros Hc Hl Hu. eapply (wp_for _ _ _ (λ k n', rebuffered n n' ∧ length (np_buffer n') = length (np_buffer n) ∧ Forall is_u8 (np_buffer n') ∧
    moved_up (np_buffer n) (np_buffer n') (len - k) len)); [lia| | |].
  - split_and!; [by destruct n|done|done|]. intros j. rewrite Z.sub_0_r. destruct (Z.ltb_spec len (Z.of_nat j)), (Z.leb_spec (Z.of_nat j) len); cbn; done || lia.
  - intros k n' Hk (Hr & Hlen & Hu' & Hm). cbn zeta. apply wp_bind. destruct (aread_is_Some (np_buffer n') (len - k - 1)) as [v Hv]; [lia|].
    eapply get_buffer_wp; [exact Hv|]. apply put_buffer_wp; [lia|]. cbn. split_and!; [by apply rebuffered_put|by rewrite length_insert| |].
    + apply Forall_insert; [done|]. apply aread_Some in Hv as [_ Hv]. by eapply Forall_lookup_1 in Hv.
    + intros j. rewrite aread_nat in Hv by lia. destruct (decide (j = Z.to_nat (len - k))) as [->|Hne].
      * rewrite list_lookup_insert_eq by lia. rewrite (proj2 (Z.ltb_lt _ _)), (proj2 (Z.leb_le _ _)) by lia. cbn.
        rewrite Hm, (proj2 (Z.ltb_ge _ _)) in Hv by lia. cbn in Hv. rewrite <- Hv. f_equal. lia.
      * rewrite list_lookup_insert_ne, Hm by done. destruct (Z.ltb_spec (len - k) (Z.of_nat j)), (Z.ltb_spec (len - (k + 1)) (Z.of_nat j)), (Z.leb_spec (Z.of_nat j) len); cbn; done || lia.
  - intros n'. replace (len - (len - cur)) with cur by lia. done.
Qed.

Lemma move_down_wp len cur n : 0 < cur ≤ len → len < Z.of_nat (length (np_buffer n)) → Forall is_u8 (np_buffer n) →
  wp (for_ (cur - 1) len (λ i, v ← get_buffer (i + 1); put_buffer i v))
    (λ _ n', rebuffered n n' ∧ length (np_buffer n') = length (np_buffer n) ∧ Forall is_u8 (np_buffer n') ∧ moved_down (np_buffer n) (np_buffer n') (cur - 1) len) n.
Proof.
  intros Hc Hl Hu. eapply (wp_for _ _ _ (λ k n', rebuffered n n' ∧ length (np_buffer n') = length (np_buffer n) ∧ Forall is_u8 (np_buffer n') ∧
    moved_down (np_buffer n) (np_buffer n') (cur - 1) k)); [lia| | |done].
  - split_and!; [by destruct n|done|done|]. intros j. destruct (Z.leb_spec (cur - 1) (Z.of_nat j)), (Z.ltb_spec (Z.of_nat j) (cur - 1)); cbn; done || lia.
  - intros k n' Hk (Hr & Hlen & Hu' & Hm). apply wp_bind. destruct (aread_is_Some (np_buffer n') (k + 1)) as [v Hv]; [lia|].
    eapply get_buffer_wp; [exact Hv|]. apply put_buffer_wp; [lia|]. cbn. split_and!; [by apply rebuffered_put|by rewrite length_insert| |].
    + apply Forall_insert; [done|]. apply aread_Some in Hv as [_ Hv]. by eapply Forall_lookup_1 in Hv.
    + intros j. rewrite aread_nat in Hv by lia. destruct (decide (j = Z.to_nat k)) as [->|Hne].
      * rewrite list_lookup_insert_eq by lia. rewrite (proj2 (Z.leb_le _ _)), (proj2 (Z.ltb_lt _ _)) by lia. cbn.
        rewrite Hm, (proj2 (Z.ltb_ge _ k)), andb_false_r in Hv by lia. rewrite <- Hv. f_equal. lia.
      * rewrite list_lookup_insert_ne, Hm by done. destruct (Z.leb_spec (cur - 1) (Z.of_nat j)), (Z.ltb_spec (Z.of_nat j) k), (Z.ltb_spec (Z.of_nat j) (k + 1)); cbn; done || lia.
Qed.

(** What the moves mean for the text. *)
Lemma insert_text l r rest c b : moved_up (l ++ r ++ 0 :: rest) b (Z.of_nat (length l)) (Z.of_nat (length l + length r)) →
  length b = length (l ++ r ++ 0 :: rest) → rest ≠ [] →
  <[(length l + length r + 1)%nat := 0]> (<[length l := c]> b) = (l ++ [c]) ++ r ++ 0 :: tail rest.
Proof.
  intros Hm Hlen Hne. destruct rest as [|x rest]; [done|]. rewrite !length_app in Hlen. cbn in Hlen. apply list_eq. intros j.
  rewrite <- app_assoc. cbn [app tail]. destruct (decide (j = length l + length r + 1)%nat) as [->|H1].
  { rewrite list_lookup_insert_eq by (rewrite length_insert; lia). rewrite lookup_app_r, lookup_cons_ne_0, lookup_app_r by lia.
    by replace (pred (length l + length r + 1 - length l) - length r)%nat with 0%nat by lia. }
  rewrite list_lookup_insert_ne by done. destruct (decide (j = length l)) as [->|H2].
  { rewrite list_lookup_insert_eq, lookup_app_r, Nat.sub_diag by lia. done. }
  rewrite list_lookup_insert_ne, Hm by done. destruct (decide (j < length l)%nat) as [H3|H3].
  { rewrite (proj2 (Z.ltb_ge _ _)) by lia. cbn. by rewrite !lookup_app_l by lia. }
  rewrite (proj2 (Z.ltb_lt _ _)) by lia. cbn. rewrite (lookup_app_r l (c :: _)), lookup_cons_ne_0 by lia.
  destruct (Z.leb_spec (Z.of_nat j) (Z.of_nat (length l + length r))).
  - rewrite lookup_app_r by lia. replace (pred (j - length l)) with (j - 1 - length l)%nat by lia. by rewrite !lookup_app_l by lia.
  - rewrite (lookup_app_r l) by lia. rewrite !lookup_app_r by lia. rewrite !lookup_cons_ne_0 by lia. cbn. f_equal. lia.
Qed.

Lemma erase_text l x r rest b : moved_down ((l ++ [x]) ++ r ++ 0 :: rest) b (Z.of_nat (length l)) (Z.of_nat (length l + 1 + length r)) →
  length b = length ((l ++ [x]) ++ r ++ 0 :: rest) → b = l ++ r ++ 0 :: 0 :: rest.
Proof.
  intros Hm Hlen. rewrite !length_app in Hlen. cbn in Hlen. apply list_eq. intros j. rewrite Hm, <- app_assoc. cbn [app].
  destruct (decide (j < length l)%nat) as [H3|H3].
  { rewrite (proj2 (Z.leb_gt _ _)) by lia. cbn. by rewrite !lookup_app_l by lia. }
  rewrite (proj2 (Z.leb_le _ _)) by lia. cbn. destruct (Z.ltb_spec (Z.of_nat j) (Z.of_nat (length l + 1 + length r))).
  - rewrite !(lookup_app_r l), lookup_cons_ne_0 by lia. replace (pred (j + 1 - length l)) with (j - length l)%nat by lia.
    destruct (decide (j - length l < length r)%nat); [by rewrite !lookup_app_l by lia|].
    rewrite !lookup_app_r by lia. by replace (j - length l - length r)%nat with 0%nat by lia.
  - rewrite !(lookup_app_r l), lookup_cons_ne_0 by lia. rewrite !lookup_app_r, (lookup_cons_ne_0 (0 :: rest)) by lia. f_equal. lia.
Qed.

Definition same_rest (n n' : notepad) : Prop := np_window n' = np_window n ∧ np_path n' = np_path n ∧ np_saved n' = np_saved n.
Lemma rebuffered_rest n n' : rebuffered n n' → same_rest n n' ∧ np_length n' = np_length n ∧ np_cursor n' = np_cursor n ∧ np_dirty n' = np_dirty n.
Proof. intros ->. done. Qed.

Lemma insert_char_wp c n l r : np_text n l r → is_u8 c → wp (insert_char c) (λ _ n',
  if (length l + length r <? 2048)%nat then np_text n' (l ++ [c]) r ∧ same_rest n n' ∧ np_dirty n' = true else n' = n) n.
Proof.
  intros Hn Hc. pose proof (nt_bound _ _ _ Hn) as Hb. pose proof Hn as [[rest Eb] Es Eu Ec El]. unfold insert_char, BUFFER_SIZE. do 4 wp_step. rewrite Ec, El.
  destruct (Z.leb_spec 2048 (Z.of_nat (length l + length r))); [wp_step; by rewrite (proj2 (Nat.ltb_ge _ _)) by lia|].
  rewrite (proj2 (Nat.ltb_lt _ _)) by lia. apply wp_bind. eapply wp_mono; [apply move_up_wp; [lia|lia|done]|]. intros _ n1 (Hr & Hl1 & Hu1 & Hm).
  destruct (rebuffered_rest _ _ Hr) as (Hs & _ & _ & _). apply wp_bind, put_buffer_wp; [lia|]. do 5 wp_step. wp_step. cbn. u32_simp. apply wp_bind, put_buffer_wp; [cbn; rewrite length_insert; lia|].
  wp_step. cbn. split; [|done]. rewrite Eb in Hm, Hl1, Es. split; cbn.
  - exists (tail rest). rewrite Nat2Z.id. replace (Z.to_nat _) with (length l + length r + 1)%nat by lia. apply insert_text; [done|done|].
    intros ->. rewrite !length_app in Es. cbn in Es. lia.
  - rewrite !length_insert. congruence.
  - by repeat apply Forall_insert.
  - rewrite length_app. cbn. lia.
  - rewrite length_app. cbn. lia.
Qed.

Lemma backspace_wp n l r : np_text n l r → wp backspace (λ _ n',
  match l with [] => n' = n | _ => np_text n' (removelast l) r ∧ same_rest n n' ∧ np_dirty n' = true end) n.
Proof.
  intros Hn. pose proof (nt_bound _ _ _ Hn) as Hb. pose proof Hn as [[rest Eb] Es Eu Ec El]. unfold backspace. do 4 wp_step. rewrite Ec, El.
  destruct l as [|x0 l0 _] using rev_ind; [by apply wp_ret|]. rewrite length_app in *. cbn [length] in *.
  rewrite (proj2 (Z.eqb_neq _ _)) by lia. u32_simp. apply wp_bind. eapply wp_mono; [apply move_down_wp; [lia|lia|done]|]. intros _ n1 (Hr & Hl1 & Hu1 & Hm).
  destruct (rebuffered_rest _ _ Hr) as (Hs & _ & _ & _). do 5 wp_step. u32_simp. rewrite removelast_last.
  assert (∀ A (e : A) (P Q : Prop), Q → match l0 ++ [x0] with [] => P | _ => Q end) as Hmatch by (intros A e P Q HQ; by destruct l0).
  apply (Hmatch unit tt). split; [|done]. rewrite Eb in Hm, Hl1, Es. split; cbn; [|congruence|done|lia|lia].
  exists (0 :: rest). apply (erase_text l0 x0); [|by rewrite Hl1].
  replace (Z.of_nat (length l0 + 1) - 1) with (Z.of_nat (length l0)) in Hm by lia. done.
Qed.

(** ** The path *)

Lemma put_path_wp i v n (Q : unit → notepad → Prop) : 0 ≤ i < Z.of_nat (length (np_path n)) →
  Q tt (set_np_path (<[Z.to_nat i := v]> (np_path n)) n) → wp (put_path i v) Q n.
Proof. intros Hi HQ. unfold put_path. do 3 wp_step. eapply wp_lift; [by apply awrite_eq|]. by wp_step. Qed.

(** The first 31 characters of the path are kept. *)
Lemma set_path_wp path str n : text_in path str → length (np_path n) = 32%nat →
  wp (set_path path) (λ _ n', ∃ p, n' = set_np_path p n ∧ text_in p (take 31 str) ∧ length p = 32%nat) n.
Proof.
  intros Ht Hl. destruct (text_in_inv _ _ Ht) as (rest & -> & Hs). unfold set_path. apply wp_bind.
  set (filled := λ i, take (Z.to_nat i) str ++ drop (Z.to_nat i) (np_path n)).
  assert (Hf : ∀ i, 0 ≤ i ≤ Z.of_nat (length str) → i ≤ 32 → length (filled i) = 32%nat).
  { intros i ? ?. unfold filled. rewrite length_app, length_take, length_drop. lia. }
  assert (Hend : ∀ i, 0 ≤ i ≤ Z.of_nat (length str) → i < 32 → i = Z.of_nat (length str) ∨ i = 31 →
    wp (put_path i 0) (λ _ n', ∃ p, n' = set_np_path p n ∧ text_in p (take 31 str) ∧ length p = 32%nat) (set_np_path (filled i) n)).
  { intros i Hi1 Hi2 Hi3. apply put_path_wp; [cbn; rewrite Hf; lia|]. eexists. split; [done|]. cbn. unfold filled. rewrite filled_end by lia. split.
    - replace (take 31 str) with (take (Z.to_nat i) str); [apply text_in_app; by apply Forall_take|]. destruct Hi3 as [->| ->]; [|done].
      rewrite Nat2Z.id, !take_ge by lia. done.
    - rewrite length_app, length_take. cbn. rewrite length_drop. lia. }
  eapply (wp_for_exit _ _ _ (λ i n', i ≤ Z.of_nat (length str) ∧ n' = set_np_path (filled i) n)); [lia| | |].
  - split; [lia|]. by destruct n.
  - intros i n' Hi [Hle ->]. destruct (aread_text str rest i Hs ltac:(lia)) as (c & Ec & Hz & Hlt). wp_step. eapply wp_lift; [exact Ec|]. wp_step; bool_to_prop.
    + wp_step. apply Hend; [lia|lia|]. left. tauto.
    + wp_step. apply put_path_wp; [cbn; rewrite Hf; lia|]. wp_step. assert (Hne : i ≠ Z.of_nat (length str)) by tauto. split; [lia|]. cbn. unfold filled.
      rewrite (filled_insert str _ _ c) by (apply Hlt || lia; lia). by replace (Z.to_nat (i + 1)) with (S (Z.to_nat i)) by lia.
  - intros n' [Hle ->]. apply Hend; [lia|lia|]. by right.
Qed.

(** ** The application *)

Record np_ok (m : Metrics) (n : notepad) (l r : list Z) : Prop := {
  no_window : window_ok m (np_window n);
  no_body : np_text n l r;
  no_path : ∃ str, text_in (np_path n) str;
  no_path_size : length (np_path n) = 32%nat }.

Lemma no_text_wp n : length (np_buffer n) = 2049%nat → Forall is_u8 (np_buffer n) →
  wp no_text (λ _ n', np_text n' [] [] ∧ np_window n' = np_window n ∧ np_path n' = np_path n) n.
Proof.
  intros Hl Hu. unfold no_text. apply wp_bind, put_buffer_wp; [lia|]. wp_steps. cbn. split; [|done]. split; cbn; [|by rewrite length_insert|by apply Forall_insert|done|done].
  destruct (np_buffer n) as [|x rest]; [done|]. by exists rest.
Qed.

Lemma np_text_rest n n' l r : np_text n l r → np_buffer n' = np_buffer n → np_cursor n' = np_cursor n → np_length n' = np_length n → np_text n' l r.
Proof. intros [] Eb Ec El. split; rewrite ?Eb, ?Ec, ?El; done. Qed.

(** What the keys mean for the text. *)
Definition printable (key : Z) : bool := (key =? 10) || (32 <=? key) && (key <=? 126).
Definition edit (key : Z) (t : list Z * list Z) : list Z * list Z :=
  if key =? 8 then (removelast (fst t), snd t)
  else if printable key && (length (fst t) + length (snd t) <? 2048)%nat then (fst t ++ [key], snd t)
  else t.
Definition takes_keys (w : Window) : bool := wopen w && negb (bool_decide (wmode w = Minimized)) && wfocused w.

Lemma removelast_last {A} (l : list A) x : removelast (l ++ [x]) = l.
Proof. apply removelast_last. Qed.

Ltac go := first [wp_step | apply wp_zoom; cbn beta].

Section properties.
Context {K : Type} `{GuiKernelLaws K}.
Implicit Types s : notepad_on K.

Lemma serial_wp data s (Q : unit → notepad_on K → Prop) : is_text data → kernel_ok (np_world s) →
  (∀ k, goes_on (np_world s) k → same_files (np_world s) k → Q tt (set_np_world k s)) → wp (in_os (k_serial_writestring data)) Q s.
Proof. intros Ht Hk HQ. apply wp_zoom. eapply wp_mono; [by apply serial_quiet|]. intros [] k [[? ?] _]. by apply HQ. Qed.

Lemma save_wp m s l r : np_ok m (np_app s) l r → kernel_ok (np_world s) → wp notepad_save (λ _ s',
  np_ok m (np_app s') l r ∧ goes_on (np_world s) (np_world s') ∧
  np_app s' = set_np_dirty (np_dirty (np_app s) && negb (np_saved (np_app s'))) (set_np_saved (np_saved (np_app s')) (np_app s)) ∧
  (np_saved (np_app s') = true → ∀ str, text_in (np_path (np_app s)) str → path_plain (np_world s) str → file_has (np_world s') str (l ++ r)) ∧
  (files_work (np_world s) → ∀ str, text_in (np_path (np_app s)) str → room_for (np_world s) str (Z.of_nat (length (l ++ r))) → np_saved (np_app s') = true)) s.
Proof.
  destruct s as [n k]. cbn. intros [Hw Ht [str Hp] Hps] Hk. pose proof (nt_bound _ _ _ Ht) as Hb. pose proof Ht as [[rest Eb] Es Eu Ec El]. unfold notepad_save.
  do 3 go. unfold id. go. apply wp_zoom. cbn. eapply wp_mono; [apply (write_file_law _ str); [done|rewrite El; lia|rewrite El, Es; lia|done|done]|].
  intros ok k1 (Hg & Hw1 & Hlive). do 3 go. assert (Htx : ∀ d v, np_ok m (set_np_dirty d (set_np_saved v n)) l r).
  { intros d v. split; cbn; [done|by eapply np_text_rest|by exists str|done]. }
  assert (Etk : take (Z.to_nat (np_length n)) (np_buffer n) = l ++ r).
  { rewrite El, Eb, Nat2Z.id, app_assoc, take_app_length' by (rewrite length_app; lia). done. }
  destruct ok; [do 3 go|]; (eapply serial_wp; [by apply c_line_text|by destruct Hg|]); intros k2 Hg2 Hs2; cbn; rewrite ?andb_false_r, ?andb_true_r.
  - split; [apply Htx|]. split; [by eapply goes_on_trans|].
    split; [done|]. split; [|done]. intros _ str' Hp' Hpl. assert (str' = str) as -> by (destruct Hp as [E _], Hp' as [E' _]; congruence).
    apply Hs2. rewrite <- Etk. by apply Hw1.
  - split; [destruct n; exact (Htx _ false)|]. split; [by eapply goes_on_trans|]. split; [by destruct n|]. split; [done|]. intros Hf str' Hp' Hr.
    assert (str' = str) as -> by (destruct Hp as [E _], Hp' as [E' _]; congruence). apply Hlive; [done|]. rewrite El. by rewrite length_app in Hr.
Qed.

(** Keys that edit. *)
Lemma edit_wp m key s l r : np_ok m (np_app s) l r → is_u8 key → takes_keys (np_window (np_app s)) = true → key ≠ GUI_KEY_CTRL_S →
  wp (notepad_handle_key key) (λ _ s', np_world s' = np_world s ∧ np_ok m (np_app s') (fst (edit key (l, r))) (snd (edit key (l, r))) ∧
    same_rest (np_app s) (np_app s') ∧ np_dirty (np_app s') = np_dirty (np_app s) || negb (bool_decide (edit key (l, r) = (l, r)))) s.
Proof.
  destruct s as [n k]. cbn. intros [Hw Ht Hp Hps] Hk Htk Hne. unfold notepad_handle_key. do 3 go. cbn. change (set_np_app n (NotepadOn n k)) with (NotepadOn n k). unfold takes_keys in Htk. bool_to_prop. destruct (wopen _) eqn:?; [|done].
  case_bool_decide; [done|]. destruct (wfocused _) eqn:?; [|done]. cbn [negb orb]. rewrite (proj2 (Z.eqb_neq key GUI_KEY_CTRL_S)) by done.
  assert (Hkeep : ∀ n', np_text n' (fst (edit key (l, r))) (snd (edit key (l, r))) → same_rest n n' → np_ok m n' (fst (edit key (l, r))) (snd (edit key (l, r)))).
  { intros n' Ht' (E1 & E2 & _). split; rewrite ?E1, ?E2; done. }
  assert (Hnop : edit key (l, r) = (l, r) → k = k ∧ np_ok m n (fst (edit key (l, r))) (snd (edit key (l, r))) ∧
    same_rest n n ∧ np_dirty n = np_dirty n || negb (bool_decide (edit key (l, r) = (l, r)))).
  { intros ->. split_and!; try done. by rewrite bool_decide_eq_true_2, orb_false_r by done. }
  destruct (Z.eqb_spec key 8) as [->|H8].
  { apply wp_zoom. eapply wp_mono; [by eapply backspace_wp|]. intros [] n' Hn. destruct l as [|x l0 _] using rev_ind.
    - cbn in Hn. subst n'. by apply Hnop.
    - assert (Hn' : np_text n' l0 r ∧ same_rest n n' ∧ np_dirty n' = true) by (revert Hn; rewrite removelast_last; by destruct l0).
      unfold edit in *. cbn [fst snd Z.eqb Pos.eqb] in *. rewrite removelast_last in *. destruct Hn' as (H1' & H2' & H3'). split; [done|]. split; [by apply Hkeep|]. split; [done|]. cbn.
      rewrite H3', bool_decide_eq_false_2; [by rewrite orb_true_r|]. intros [= E]. apply (f_equal length) in E. rewrite length_app in E. cbn in E. lia. }
  assert (Hins : printable key = true → wp (in_app (insert_char key)) (λ _ s', np_world s' = k ∧ np_ok m (np_app s') (fst (edit key (l, r))) (snd (edit key (l, r))) ∧
    same_rest n (np_app s') ∧ np_dirty (np_app s') = np_dirty n || negb (bool_decide (edit key (l, r) = (l, r)))) (NotepadOn n k)).
  { intros Hpr. apply wp_zoom. eapply wp_mono; [by apply insert_char_wp|]. intros [] n' Hn. unfold edit in *. cbn [fst snd] in *. rewrite (proj2 (Z.eqb_neq key 8)), Hpr in * by done. cbn [andb] in *.
    destruct (_ <? 2048)%nat; [|subst n'; by apply Hnop]. destruct Hn as (H1' & H2' & H3'). split; [done|]. split; [by apply Hkeep|]. split; [done|]. cbn.
    rewrite H3', bool_decide_eq_false_2; [by rewrite orb_true_r|]. intros [= E]. apply (f_equal length) in E. rewrite length_app in E. cbn in E. lia. }
  destruct (Z.eqb_spec key 10) as [->|H10]; [by apply Hins|].
  destruct ((32 <=? key) && (key <=? 126)) eqn:Hpr.
  - apply Hins. unfold printable. by rewrite Hpr, orb_true_r.
  - go. apply Hnop. unfold edit, printable. by rewrite (proj2 (Z.eqb_neq key 8)), (proj2 (Z.eqb_neq key 10)), Hpr by done.
Qed.

(** An opened window: in front, with the keyboard. *)
Definition opened (z : Z) (w : Window) : Prop := wopen w = true ∧ wfocused w = true ∧ wmode w = Normal ∧ wz w = z.

Lemma bring_up_wp m z n (Q : unit → notepad → Prop) : window_ok m (np_window n) → is_u32 z →
  (∀ w, window_ok m w → opened z w → Q tt (set_np_window w n)) →
  wp (_ ← on_window (set_open true); _ ← on_window (set_mode Normal); notepad_focus z) Q n.
Proof.
  intros [Hr Hs Hf Hz] Hu HQ. unfold notepad_focus, on_window. wp_steps. cbn.
  apply (HQ (focus_window z (set_mode Normal (set_open true (np_window n))))); [by split|done].
Qed.

(** The copy of a file into the buffer. *)
Lemma load_text_wp n data size : 0 ≤ size ≤ 2048 → size ≤ Z.of_nat (length data) → Forall is_u8 data → length (np_buffer n) = 2049%nat → Forall is_u8 (np_buffer n) →
  wp (_ ← for_ 0 size (λ i, c ← lift (aread data i); put_buffer i c); put_buffer size 0) (λ _ n', ∃ b rest, n' = set_np_buffer b n ∧
    b = take (Z.to_nat size) data ++ 0 :: rest ∧ length b = 2049%nat ∧ Forall is_u8 b) n.
Proof.
  intros Hs Hd Hu Hl Hb. apply wp_bind.
  eapply (wp_for _ _ _ (λ i n', n' = set_np_buffer (take (Z.to_nat i) data ++ drop (Z.to_nat i) (np_buffer n)) n)); [lia|by destruct n| |].
  - intros i n' Hi ->. destruct (aread_is_Some data i) as [c Hc]; [lia|]. go. eapply wp_lift; [exact Hc|]. apply aread_Some in Hc as [_ Hc].
    apply put_buffer_wp; [cbn; rewrite length_app, length_take, length_drop; lia|]. cbn. rewrite (filled_insert data _ _ c) by (done || lia).
    by replace (Z.to_nat (i + 1)) with (S (Z.to_nat i)) by lia.
  - intros n' ->. apply put_buffer_wp; [cbn; rewrite length_app, length_take, length_drop; lia|]. cbn. rewrite filled_end by lia. eexists _, _. split; [done|]. split; [done|].
    split; [rewrite length_app, length_take; cbn; rewrite length_drop; lia|]. apply Forall_app. split; [by apply Forall_take|]. constructor; [done|]. by apply Forall_drop.
Qed.

(** A window that was closed gets its default place. *)
Lemma place_wp m n (Q : unit → notepad → Prop) : metrics_ok m → window_ok m (np_window n) → (∀ w, window_ok m w → Q tt (set_np_window w n)) →
  wp (_ ← default_geometry m; on_window save_geometry) Q n.
Proof.
  intros Hm Hw HQ. go. eapply wp_mono; [by apply default_geometry_wp|]. intros _ n' (w & -> & Hw' & _). unfold on_window. go. cbn.
  apply (HQ (save_geometry w)). by apply save_geometry_ok.
Qed.

Lemma open_file_wp m z path str s l r : metrics_ok m → is_u32 z → np_ok m (np_app s) l r → kernel_ok (np_world s) → text_in path str →
  wp (notepad_open_file path m z) (λ ok s', goes_on (np_world s) (np_world s') ∧ same_files (np_world s) (np_world s') ∧
    if ok then ∃ c, np_ok m (np_app s') c [] ∧ opened z (np_window (np_app s')) ∧ text_in (np_path (np_app s')) (take 31 str) ∧
      np_dirty (np_app s') = false ∧ ∀ c', file_has (np_world s) str c' → c' = c
    else np_app s' = np_app s ∧ (files_work (np_world s) → ∀ c, file_has (np_world s) str c → (2048 < length c)%nat)) s.
Proof.
  destruct s as [n k]. cbn. intros Hm Hz [Hw Ht Hp Hps] Hk Hpath. destruct Ht as [_ Es Eu _ _]. unfold notepad_open_file, BUFFER_SIZE. go. apply wp_zoom. cbn.
  eapply wp_mono; [by eapply read_file_law|]. intros [[data size]|] k1 [[Hg Hs] Hr].
  2: { go. cbn. split_and!; [done|done|done|]. intros Hf c Hc. specialize (Hr Hf c Hc). lia. }
  destruct Hr as (Hsz & Hdl & Hdu & _ & Hc). destruct (Z.ltb_spec 2048 size) as [Hbig|Hle].
  { go. cbn. split_and!; [done|done|done|]. intros _ c Hc'. rewrite <- (Hc c Hc'), length_take. lia. }
  go. apply wp_zoom. eapply wp_mono; [by eapply set_path_wp|]. intros _ n1 (p & -> & Hp' & Hpl). cbn.
  go. apply wp_zoom. eapply wp_mono; [apply load_text_wp; (done || lia)|]. intros _ n2 (b & rest & -> & Eb & Hbl & Hbu). cbn.
  do 15 go. cbn. go. apply wp_zoom. u32_simp. cbn.
  set (n3 := MkNotepad (np_window n) p b size size false false). match goal with |- wp _ _ ?st => change st with n3 end. assert (Ht3 : np_text n3 (take (Z.to_nat size) data) []).
  { assert (length (take (Z.to_nat size) data) = Z.to_nat size) as El by (rewrite length_take; lia).
    split; cbn [np_buffer np_cursor np_length n3]; [by exists rest|done|done|rewrite El; lia|rewrite El; cbn; lia]. }
  apply (wp_mono _ (λ _ n', ∃ w, n' = set_np_window w n3 ∧ window_ok m w)).
  { apply wp_when; intros _; [|by exists (np_window n)]. eapply place_wp; [done|done|]. intros w Hw'. by exists w. }
  intros _ n4 (w & -> & Hw'). go. apply wp_zoom. eapply bring_up_wp; [exact Hw'|done|]. intros w' Hw'' Hop. go. eapply serial_wp; [by apply c_line_text|by destruct Hg|].
  intros k2 Hg2 Hs2. go. cbn. split; [by eapply goes_on_trans|]. split; [by eapply same_files_trans|]. exists (take (Z.to_nat size) data).
  split_and!; try done. - split; cbn; [done|by eapply np_text_rest|by exists (take 31 str)|done]. - intros c' Hc'. symmetry. by apply Hc.
Qed.

Lemma open_window_wp m z s l r : metrics_ok m → is_u32 z → np_ok m (np_app s) l r → kernel_ok (np_world s) →
  wp (notepad_open_window m z) (λ _ s', goes_on (np_world s) (np_world s') ∧ same_files (np_world s) (np_world s') ∧
    opened z (np_window (np_app s')) ∧ if wopen (np_window (np_app s)) then np_ok m (np_app s') l r else np_ok m (np_app s') [] []) s.
Proof.
  destruct s as [n k]. cbn. intros Hm Hz Ho Hk. pose proof Ho as [Hw Ht Hp Hps]. unfold notepad_open_window. do 3 go. go. apply wp_zoom. cbn.
  apply (wp_mono _ (λ _ n', if wopen (np_window n) then np_ok m n' l r else np_ok m n' [] [])).
  { apply wp_when; [|by destruct (wopen _)]. destruct (wopen _); [done|]. intros _. go. eapply place_wp; [done|done|]. intros w Hw'. go.
    eapply wp_mono; [eapply (set_path_wp _ (bytes_of "untitled.txt")); [apply text_in_app, bytes_plain; reflexivity|done]|].
    intros _ n1 (p & -> & Hp' & Hpl). destruct Ht as [_ Es Eu _ _]. eapply wp_mono; [by apply no_text_wp|]. intros _ n2 (Ht2 & Ew & Ep). cbn in Ew, Ep.
    split; [by rewrite Ew|done|rewrite Ep; eexists; exact Hp'|by rewrite Ep]. }
  intros _ n1 Hn. assert (window_ok m (np_window n1)) by (destruct (wopen _); by destruct Hn). go. apply wp_zoom. eapply bring_up_wp; [done|done|]. intros w Hw' Hop.
  eapply serial_wp; [by apply c_line_text|done|]. intros k2 Hg2 Hs2. cbn. split_and!; [done|done|done|].
  destruct (wopen _); destruct Hn as [? Hn ? ?]; (split; cbn; [done|by eapply np_text_rest|done|done]).
Qed.

Lemma handle_key_wp m key s l r : np_ok m (np_app s) l r → kernel_ok (np_world s) → is_u8 key →
  wp (notepad_handle_key key) (λ _ s', goes_on (np_world s) (np_world s') ∧ np_window (np_app s') = np_window (np_app s) ∧ np_path (np_app s') = np_path (np_app s) ∧
    if negb (takes_keys (np_window (np_app s))) then s' = s
    else if key =? GUI_KEY_CTRL_S then np_ok m (np_app s') l r ∧ np_dirty (np_app s') = np_dirty (np_app s) && negb (np_saved (np_app s')) ∧
      (np_saved (np_app s') = true → ∀ str, text_in (np_path (np_app s)) str → path_plain (np_world s) str → file_has (np_world s') str (l ++ r)) ∧
      (files_work (np_world s) → ∀ str, text_in (np_path (np_app s)) str → room_for (np_world s) str (Z.of_nat (length (l ++ r))) → np_saved (np_app s') = true)
    else np_world s' = np_world s ∧ np_ok m (np_app s') (fst (edit key (l, r))) (snd (edit key (l, r))) ∧
      np_dirty (np_app s') = np_dirty (np_app s) || negb (bool_decide (edit key (l, r) = (l, r)))) s.
Proof.
  intros Ho Hk Hu. destruct (takes_keys (np_window (np_app s))) eqn:Ht; cbn [negb]; [destruct (Z.eqb_spec key GUI_KEY_CTRL_S) as [->|Hne]|].
  - unfold notepad_handle_key. do 3 go. unfold takes_keys in Ht. destruct (wopen _); [|done]. case_bool_decide; [done|]. destruct (wfocused _); [|done]. cbn [negb orb]. rewrite Z.eqb_refl.
    destruct s as [n k]. eapply wp_mono; [by eapply save_wp|]. cbn. intros _ s' (Ho' & Hg & E & Hf & Hlive). split_and!; [done|by rewrite E|by rewrite E|done|exact (f_equal np_dirty E)|done|done].
  - eapply wp_mono; [by eapply edit_wp|]. cbn. intros _ s' (Ew & Ho' & (E1 & E2 & _) & Ed). rewrite Ew. split_and!; try done.
  - destruct s as [n k]. unfold notepad_handle_key. do 3 go. unfold takes_keys in Ht. cbn in *.
    assert (negb (wopen (np_window n)) || bool_decide (wmode (np_window n) = Minimized) || negb (wfocused (np_window n)) = true) as ->
      by (destruct (wopen _), (bool_decide _), (wfocused _); done). go. split_and!; try done.
Qed.

(** A sequence of keys. *)
Fixpoint handle_keys (keys : list Z) : M (notepad_on K) unit :=
  match keys with [] => mret tt | key :: keys => _ ← notepad_handle_key key; handle_keys keys end.

Lemma handle_keys_wp m keys s l r : np_ok m (np_app s) l r → kernel_ok (np_world s) → takes_keys (np_window (np_app s)) = true →
  Forall (λ key, is_u8 key ∧ key ≠ GUI_KEY_CTRL_S) keys →
  let t := foldl (flip edit) (l, r) keys in
  wp (handle_keys keys) (λ _ s', np_world s' = np_world s ∧ np_ok m (np_app s') (fst t) (snd t) ∧ np_window (np_app s') = np_window (np_app s) ∧ np_path (np_app s') = np_path (np_app s)) s.
Proof.
  intros Ho Hk Ht Hks. revert s l r Ho Hk Ht. induction Hks as [|key keys [Hu Hne] _ IH]; intros s l r Ho Hk Ht; cbn; [by go|].
  go. eapply wp_mono; [by eapply edit_wp|]. intros _ s1 (Ew & Ho1 & (E1 & E2 & _) & _). change (flip edit (l, r) key) with (edit key (l, r)). destruct (edit key (l, r)) as [l1 r1] eqn:Ee.
  eapply wp_mono; [apply (IH s1 l1 r1); [exact Ho1|by rewrite Ew|by rewrite E1]|]. cbn. intros _ s2 (Ew2 & Ho2 & Ew3 & Ep2). split_and!; [congruence|exact Ho2|congruence|congruence].
Qed.

(** C9. The editor refines a pair of strings: every key, in every state of the window,
    does to the array, the cursor and the length what [edit] does to the text before and
    after the cursor (a printable character is inserted while there is room, backspace
    erases the character before the cursor), Ctrl+S writes the text to the file of the
    window, and the window is marked as modified exactly when the text was changed
    and not saved. No access leaves the arrays. *)
Theorem notepad_refines_editor m key s l r : np_ok m (np_app s) l r → kernel_ok (np_world s) → is_u8 key →
  ∃ s', notepad_handle_key key s = Some (tt, s') ∧ kernel_ok (np_world s') ∧
    if negb (takes_keys (np_window (np_app s))) then s' = s
    else if key =? GUI_KEY_CTRL_S then np_ok m (np_app s') l r ∧ np_dirty (np_app s') = np_dirty (np_app s) && negb (np_saved (np_app s')) ∧
      (np_saved (np_app s') = true → ∀ str, text_in (np_path (np_app s)) str → path_plain (np_world s) str → file_has (np_world s') str (l ++ r))
    else np_world s' = np_world s ∧ np_ok m (np_app s') (fst (edit key (l, r))) (snd (edit key (l, r))) ∧
      np_dirty (np_app s') = np_dirty (np_app s) || negb (bool_decide (edit key (l, r) = (l, r))).
Proof.
  intros Ho Hk Hu. destruct (handle_key_wp m key s l r Ho Hk Hu) as ([] & s' & E & [Hg _] & _ & _ & Hp). exists s'. split_and!; try done.
  destruct (negb _); [done|]. destruct (key =? _); [|done]. by destruct Hp as (? & ? & ? & _).
Qed.

(** Keys that edit, Ctrl+S, and opening the file again. *)
Lemma save_reopen m keys s l r str path z : np_ok m (np_app s) l r → kernel_ok (np_world s) → metrics_ok m → is_u32 z →
  takes_keys (np_window (np_app s)) = true → Forall (λ key, is_u8 key ∧ key ≠ GUI_KEY_CTRL_S) keys →
  text_in (np_path (np_app s)) str → text_in path str → path_plain (np_world s) str →
  let t := foldl (flip edit) (l, r) keys in
  ∃ s1 s2, handle_keys keys s = Some (tt, s1) ∧ notepad_handle_key GUI_KEY_CTRL_S s1 = Some (tt, s2) ∧
    (files_work (np_world s) → files_work (np_world s2) ∧ (room_for (np_world s) str (Z.of_nat (length (fst t ++ snd t))) → np_saved (np_app s2) = true)) ∧
    (np_saved (np_app s2) = true → ∃ ok s3, notepad_open_file path m z s2 = Some (ok, s3) ∧
      (ok = true → np_ok m (np_app s3) (fst t ++ snd t) [] ∧ np_dirty (np_app s3) = false) ∧ (files_work (np_world s2) → ok = true)).
Proof.
  intros Ho Hk Hm Hz Ht Hks Hs Hp Hpl t. destruct (handle_keys_wp m keys s l r Ho Hk Ht Hks) as ([] & s1 & E1 & Ew & Ho1 & Ewin & Epath). fold t in Ho1.
  assert (Hk1 : kernel_ok (np_world s1)) by by rewrite Ew. destruct (handle_key_wp m GUI_KEY_CTRL_S s1 _ _ Ho1 Hk1 ltac:(done)) as ([] & s2 & E2 & [Hk2 Hwk2] & _ & _ & Hsv).
  rewrite Ewin, Ht in Hsv. cbn [negb Z.eqb Pos.eqb GUI_KEY_CTRL_S] in Hsv. destruct Hsv as (Ho2 & _ & Hf & Hlive). rewrite Epath, Ew in *. exists s1, s2. split; [done|]. split; [done|]. split; [by eauto|]. intros Hsaved.
  assert (Hhas : file_has (np_world s2) str (fst t ++ snd t)) by by apply (Hf Hsaved).
  destruct (open_file_wp m z path str s2 _ _ Hm Hz Ho2 Hk2 Hp) as (ok & s3 & E3 & _ & _ & Hok). exists ok, s3. split; [done|]. destruct ok.
  - destruct Hok as (c & Hc & _ & _ & Hd & Hu). by rewrite (Hu _ Hhas).
  - split; [done|]. intros Hwk. destruct Hok as [_ Hbig]. specialize (Hbig Hwk _ Hhas). rewrite length_app in Hbig. pose proof (nt_bound _ _ _ (no_body _ _ _ _ Ho2)). lia.
Qed.
End properties.

(** C23. What is typed, saved and opened again is what was typed, with the files on the disk
    of diskfs.c: after any keys that edit and Ctrl+S, and when the window then says that
    it is saved, opening the file of the same name, if it succeeds, gives the text that the keys made,
    with the cursor at its end. On a mounted file system and a device that works opening
    it does succeed, and saving does too when the directory of the file exists and there
    is room for the text. The file system is consistent, no two entries of a directory
    have the same name, and the last name of the path is not that of a directory (a file
    saved under such a name is not found again); of the rest of the kernel only the
    serial line is used. *)
Theorem notepad_save_reopen {D} `{Disk D} {K} `{GuiKernel K, GuiFiles K, !GuiDeviceLaws K} m keys (s : notepad_on (fs D * K)) v l r str path z :
  let f := fst (np_world s) in
  np_ok m (np_app s) l r → fs_inv f v → unique_names (inodes f) → clash_free f (str ++ [0]) → kernel_ok (snd (np_world s)) → metrics_ok m → is_u32 z →
  takes_keys (np_window (np_app s)) = true → Forall (λ key, is_u8 key ∧ key ≠ GUI_KEY_CTRL_S) keys →
  text_in (np_path (np_app s)) str → text_in path str →
  let t := foldl (flip edit) (l, r) keys in
  ∃ s1 s2, handle_keys keys s = Some (tt, s1) ∧ notepad_handle_key GUI_KEY_CTRL_S s1 = Some (tt, s2) ∧
    (works f → available f = true → has_parent f (str ++ [0]) → ¬ no_room f (Z.of_nat (length (fst t ++ snd t))) → np_saved (np_app s2) = true) ∧
    (np_saved (np_app s2) = true → ∃ ok s3, notepad_open_file path m z s2 = Some (ok, s3) ∧
      (ok = true → np_ok m (np_app s3) (fst t ++ snd t) [] ∧ np_dirty (np_app s3) = false) ∧ (works f → available f = true → ok = true)).
Proof.
  intros f Ho I Hu Hcl Hk Hm Hz Ht Hks Hs Hp t.
  assert (Hks' : kernel_ok (np_world s)) by (split; [by exists v|done]).
  destruct (save_reopen m keys s l r str path z Ho Hks' Hm Hz Ht Hks Hs Hp (conj Hu Hcl)) as (s1 & s2 & E1 & E2 & Hw & Hsv). exists s1, s2. split_and!; [done|done| |].
  - intros W Av Hpar Hroom. by apply (proj2 (Hw (conj W Av))).
  - intros Hsaved. destruct (Hsv Hsaved) as (ok & s3 & E3 & Hok & Hlive). exists ok, s3. split_and!; [done|done|]. intros W Av. by apply Hlive, (Hw (conj W Av)).
Qed.
