(* ===== verification/Terminal.v ===== *)
(** * The terminal window of the desktop, kernel/gui/apps/terminal.cpp

    The text of the terminal, 96 lines of 160 columns that scroll; the command line and
    the last eight commands. What the commands do is in TerminalApp. *)

From Stdlib Require Import ZArith Lia Bool String.
From stdpp Require Import base numbers list list_numbers.
From S2P Require Import Prelude Runtime Windows GuiKernel.

Definition COLS : Z := 160.
Definition HISTORY_ROWS : Z := 96.
Definition COMMAND_SIZE : Z := 96.
Definition COMMAND_HISTORY : Z := 8.

Record terminal := MkTerminal {
  t_window : Window; t_lines : list (list Z); t_line_count : Z; t_col : Z; t_scroll : Z;
  t_command : list Z; t_command_len : Z; t_history : list (list Z); t_history_count : Z; t_history_index : Z }.

Definition set_t_window v t := MkTerminal v (t_lines t) (t_line_count t) (t_col t) (t_scroll t) (t_command t) (t_command_len t) (t_history t) (t_history_count t) (t_history_index t).
Definition set_t_lines v t := MkTerminal (t_window t) v (t_line_count t) (t_col t) (t_scroll t) (t_command t) (t_command_len t) (t_history t) (t_history_count t) (t_history_index t).
Definition set_t_line_count v t := MkTerminal (t_window t) (t_lines t) v (t_col t) (t_scroll t) (t_command t) (t_command_len t) (t_history t) (t_history_count t) (t_history_index t).
Definition set_t_col v t := MkTerminal (t_window t) (t_lines t) (t_line_count t) v (t_scroll t) (t_command t) (t_command_len t) (t_history t) (t_history_count t) (t_history_index t).
Definition set_t_scroll v t := MkTerminal (t_window t) (t_lines t) (t_line_count t) (t_col t) v (t_command t) (t_command_len t) (t_history t) (t_history_count t) (t_history_index t).
Definition set_t_command v t := MkTerminal (t_window t) (t_lines t) (t_line_count t) (t_col t) (t_scroll t) v (t_command_len t) (t_history t) (t_history_count t) (t_history_index t).
Definition set_t_command_len v t := MkTerminal (t_window t) (t_lines t) (t_line_count t) (t_col t) (t_scroll t) (t_command t) v (t_history t) (t_history_count t) (t_history_index t).
Definition set_t_history v t := MkTerminal (t_window t) (t_lines t) (t_line_count t) (t_col t) (t_scroll t) (t_command t) (t_command_len t) v (t_history_count t) (t_history_index t).
Definition set_t_history_count v t := MkTerminal (t_window t) (t_lines t) (t_line_count t) (t_col t) (t_scroll t) (t_command t) (t_command_len t) (t_history t) v (t_history_index t).
Definition set_t_history_index v t := MkTerminal (t_window t) (t_lines t) (t_line_count t) (t_col t) (t_scroll t) (t_command t) (t_command_len t) (t_history t) (t_history_count t) v.

(** ** The text *)

Definition text_cols (w : Window) : Z :=
  if ww w <=? 18 then 1
  else
    let cols := u32 (ww w - 16) / 6 in
    let cols := if COLS <? cols then COLS else cols in
    if cols =? 0 then 1 else cols.

Definition visible_rows (w : Window) : Z :=
  if wh w <? TITLEBAR_H + 18 then 1
  else let rows := u32 (wh w - TITLEBAR_H - 12) / 8 in if rows =? 0 then 1 else rows.

(** [lines_[y][x] = c] and the value of [lines_[y][x]]. *)
Definition put_cell (y x c : Z) : M terminal unit :=
  a ← gets t_lines; row ← lift (aread a y); row ← lift (awrite row x c); a ← lift (awrite a y row); modify (set_t_lines a).
Definition get_cell (y x : Z) : M terminal Z := a ← gets t_lines; row ← lift (aread a y); lift (aread row x).

Definition blank_line (y : Z) : M terminal unit := for_ 0 COLS (λ x, put_cell y x 32).

Definition clear_buffer : M terminal unit :=
  _ ← for_ 0 HISTORY_ROWS (λ y, _ ← blank_line y; put_cell y COLS 0);
  _ ← modify (set_t_line_count 1); _ ← modify (set_t_col 0); modify (set_t_scroll 0).

Definition newline : M terminal unit :=
  _ ← modify (set_t_col 0);
  n ← gets t_line_count;
  if n <? HISTORY_ROWS then
    _ ← modify (set_t_line_count (n +% 1));
    n ← gets t_line_count;
    blank_line (n -% 1)
  else
    _ ← for_ 1 HISTORY_ROWS (λ y, for_ 0 COLS (λ x, c ← get_cell y x; put_cell (y - 1) x c));
    blank_line (HISTORY_ROWS - 1).

(** One character of write(). *)
Definition write_char (c : Z) : M terminal unit :=
  n ← gets t_line_count;
  let row := n -% 1 in
  if c =? 10 then newline
  else if c =? 8 then
    col ← gets t_col;
    when (0 <? col) (_ ← modify (set_t_col (col -% 1)); put_cell row (col -% 1) 32)
  else if (c <? 32) || (126 <? c) then mret tt
  else
    w ← gets t_window;
    let cols := text_cols w in
    col ← gets t_col;
    _ ← when (cols <=? col) newline;
    n ← gets t_line_count;
    col ← gets t_col;
    _ ← put_cell (n -% 1) col c;
    _ ← modify (set_t_col (col +% 1));
    when (cols <=? col +% 1) newline.

(** The loop over the characters of the string; the fuel is the length of the array. *)
Fixpoint write_loop (fuel : nat) (text : list Z) (i : Z) : M terminal unit :=
  match fuel with
  | O => stuck
  | S fuel' =>
      c ← lift (aread text i);
      if c =? 0 then mret tt else _ ← write_char c; write_loop fuel' text (i +% 1)
  end.

Definition write (text : list Z) : M terminal unit :=
  n ← gets t_line_count;
  _ ← when (n =? 0) (modify (set_t_line_count 1));
  _ ← write_loop (S (length text)) text 0;
  modify (set_t_scroll 0).

Definition scroll (delta : Z) : M terminal unit :=
  if 0 <? delta then
    s ← gets t_scroll; n ← gets t_line_count;
    if s +% u32 delta <? n then modify (set_t_scroll (s +% u32 delta))
    else modify (set_t_scroll (if 0 <? n then n -% 1 else 0))
  else if delta <? 0 then
    d ← lift (checked (- delta));
    let amount := u32 d in
    s ← gets t_scroll;
    modify (set_t_scroll (if s <? amount then 0 else s -% amount))
  else mret tt.

(** ** Commands *)

Definition put_history (slot i c : Z) : M terminal unit :=
  a ← gets t_history; row ← lift (aread a slot); row ← lift (awrite row i c); a ← lift (awrite a slot row); modify (set_t_history a).
Definition get_history (slot i : Z) : M terminal Z := a ← gets t_history; row ← lift (aread a slot); lift (aread row i).
Definition put_command (i c : Z) : M terminal unit := a ← gets t_command; a ← lift (awrite a i c); modify (set_t_command a).

Definition push_history (line : list Z) : M terminal unit :=
  c ← lift (aread line 0);
  if c =? 0 then mret tt
  else
    n ← gets t_history_count;
    let slot := n mod COMMAND_HISTORY in
    r ← for_exit 0 (COMMAND_SIZE - 1) (λ i, c ← lift (aread line i); if c =? 0 then mret (Some i) else _ ← put_history slot i c; mret None);
    _ ← put_history slot (match r with Some i => i | None => COMMAND_SIZE - 1 end) 0;
    _ ← modify (set_t_history_count (n +% 1));
    modify (set_t_history_index (-1)).

(** The command line is erased; the fuel is its size. *)
Fixpoint erase_command (fuel : nat) : M terminal unit :=
  match fuel with
  | O => stuck
  | S fuel' =>
      n ← gets t_command_len;
      if 0 <? n then _ ← modify (set_t_command_len (n -% 1)); _ ← write [8; 0]; erase_command fuel' else mret tt
  end.

(** The command of the slot is typed again. *)
Fixpoint retype (fuel : nat) (slot i : Z) : M terminal unit :=
  match fuel with
  | O => stuck
  | S fuel' =>
      c ← get_history slot i;
      if c =? 0 then mret tt
      else
        n ← gets t_command_len;
        if n +% 1 <? COMMAND_SIZE then
          _ ← put_command n c;
          _ ← modify (set_t_command_len (n +% 1));
          _ ← write [c; 0];
          retype fuel' slot (i +% 1)
        else mret tt
  end.

Definition recall_history (delta : Z) : M terminal unit :=
  n ← gets t_history_count;
  if n =? 0 then mret tt
  else
    i ← gets t_history_index;
    max ← lift (checked (i32 (if n <? COMMAND_HISTORY then n else COMMAND_HISTORY) - 1));
    i ← (if i <? 0 then mret max else lift (checked (i + delta)));
    let i := if i <? 0 then 0 else i in
    let i := if max <? i then max else i in
    _ ← modify (set_t_history_index i);
    _ ← erase_command (Z.to_nat COMMAND_SIZE + 1);
    d ← lift (checked (max - i));
    let slot := (n -% 1 -% u32 d) mod COMMAND_HISTORY in
    _ ← modify (set_t_command_len 0);
    retype (Z.to_nat COMMAND_SIZE + 1) slot 0.

(** ** The window *)

(** [w] and [h] are the successive values of window_.w and window_.h. *)
Definition terminal_geometry (m : Metrics) (win : Window) : option Window :=
  let w := if 96 <? m_width m then i32 (m_width m -% 96) else 244 in
  let h := if 140 <? m_height m then i32 (m_height m -% taskbar_h m -% 74) else 134 in
  let w := if 640 <? w then 640 else w in
  let h := if 360 <? h then 360 else h in
  let w := if w <? WINDOW_MIN_W then WINDOW_MIN_W else w in
  let h := if h <? 134 then 134 else h in
  w ← (if m_width m -% 8 <? u32 w then checked (i32 (m_width m) - 8) else Some w);
  let h := if m_height m -% taskbar_h m -% 8 <? u32 h then i32 (m_height m -% taskbar_h m -% 8) else h in
  let x := i32 ((m_width m -% u32 w) / 2) in
  let y := if 260 <? m_height m then 42 else 26 in
  Some (set_y y (set_x x (set_h h (set_w w win)))).

Definition term_window (f : Window → Window) : M terminal unit := modify (λ t, set_t_window (f (t_window t)) t).
Definition term_geometry (m : Metrics) : M terminal unit :=
  w ← gets t_window; w ← lift (terminal_geometry m w); modify (set_t_window w).

Definition terminal_initialize (m : Metrics) : M terminal unit :=
  _ ← term_geometry m;
  _ ← term_window reset_window;
  _ ← modify (set_t_command_len 0); _ ← modify (set_t_history_count 0); _ ← modify (set_t_history_index (-1));
  clear_buffer.

Definition terminal_focus (z : Z) : M terminal unit := term_window (focus_window z).

(** open_window() on a window that is closed, up to the message on the serial line. *)
Definition terminal_open (m : Metrics) (z : Z) : M terminal unit :=
  _ ← term_window (set_open true); _ ← term_window (set_focused true); _ ← term_window (set_mode Normal);
  _ ← term_geometry m;
  _ ← term_window save_geometry;
  _ ← term_window (set_z z);
  _ ← modify (set_t_command_len 0); _ ← modify (set_t_history_index (-1));
  _ ← clear_buffer;
  _ ← write (c_line "MyOS GUI terminal");
  _ ← write (c_line "Commands are framebuffer-rendered.");
  _ ← write (c_line "Drag title, resize corner, use _ M X.");
  write (c_str "myos> ").

Definition terminal_hit (t : terminal) (x y : Z) : option bool :=
  if negb (visible (t_window t)) then Some false else contains (win_rect (t_window t)) x y.

(** ** The array of lines

    Every line is 160 characters and a terminator that nothing overwrites. *)

Definition blanks : list Z := replicate 160 32.
Definition lines_of (rows : list (list Z)) : list (list Z) := (λ r, r ++ [0]) <$> rows.
Definition rows_ok (rows : list (list Z)) : Prop := Forall (λ r, length r = 160%nat ∧ Forall is_u8 r) rows.

Lemma blanks_ok : length blanks = 160%nat ∧ Forall is_u8 blanks.
Proof. split; [done|]. apply Forall_replicate. done. Qed.

Lemma rows_ok_insert rows y r : rows_ok rows → length r = 160%nat → Forall is_u8 r → rows_ok (<[y := r]> rows).
Proof. intros Hr Hl Hu. by apply Forall_insert. Qed.

Lemma put_glyph_wp y x c rows r t (Q : unit → terminal → Prop) : t_lines t = lines_of rows → rows !! Z.to_nat y = Some r → 0 ≤ y → 0 ≤ x < Z.of_nat (length r) →
  Q tt (set_t_lines (lines_of (<[Z.to_nat y := <[Z.to_nat x := c]> r]> rows)) t) → wp (put_cell y x c) Q t.
Proof.
  intros El Er Hy Hx HQ. pose proof (lookup_lt_Some _ _ _ Er). unfold put_cell. do 2 wp_step. rewrite El. wp_step. eapply wp_lift.
  { apply aread_Some. split; [done|]. unfold lines_of. by rewrite list_lookup_fmap, Er. }
  wp_step. eapply wp_lift; [apply awrite_eq; rewrite length_app; cbn; lia|]. wp_step. eapply wp_lift; [apply awrite_eq; unfold lines_of; rewrite length_fmap; lia|].
  wp_step. unfold lines_of in *. rewrite insert_app_l by lia. rewrite <- (list_fmap_insert (λ r, r ++ [0])). done.
Qed.

Lemma get_cell_wp y x c rows r t (Q : Z → terminal → Prop) : t_lines t = lines_of rows → rows !! Z.to_nat y = Some r → 0 ≤ y → 0 ≤ x → r !! Z.to_nat x = Some c →
  Q c t → wp (get_cell y x) Q t.
Proof.
  intros El Er Hy Hx Ec HQ. unfold get_cell. do 2 wp_step. rewrite El. wp_step. eapply wp_lift.
  { apply aread_Some. split; [done|]. unfold lines_of. by rewrite list_lookup_fmap, Er. }
  eapply wp_lift; [|exact HQ]. apply aread_Some. split; [done|]. by apply lookup_app_l_Some.
Qed.

(** A loop over the columns of the line [y] fills it from [new]. *)
Lemma fill_line_wp y rows r new (body : Z → M terminal unit) t (Q : unit → terminal → Prop) : t_lines t = lines_of rows → rows !! Z.to_nat y = Some r → 0 ≤ y →
  length r = 160%nat → length new = 160%nat →
  (∀ x c rows' t' (Q : unit → terminal → Prop), 0 ≤ x < 160 → new !! Z.to_nat x = Some c → t' = set_t_lines (lines_of rows') t →
     rows' = <[Z.to_nat y := take (Z.to_nat x) new ++ drop (Z.to_nat x) r]> rows →
     Q tt (set_t_lines (lines_of (<[Z.to_nat y := <[Z.to_nat x := c]> (take (Z.to_nat x) new ++ drop (Z.to_nat x) r)]> rows')) t') → wp (body x) Q t') →
  Q tt (set_t_lines (lines_of (<[Z.to_nat y := new]> rows)) t) → wp (for_ 0 COLS body) Q t.
Proof.
  intros El Er Hy Hr Hn Hbody HQ. pose proof (lookup_lt_Some _ _ _ Er).
  apply (wp_for _ _ _ (λ x t', t' = set_t_lines (lines_of (<[Z.to_nat y := take (Z.to_nat x) new ++ drop (Z.to_nat x) r]> rows)) t)); [done| | |].
  - cbn. rewrite list_insert_id by done. rewrite <- El. by destruct t.
  - intros x t' Hx Et. change COLS with 160 in Hx. destruct (lookup_lt_is_Some_2 new (Z.to_nat x)) as [c Hc]; [lia|]. eapply (Hbody x c); [done|done|exact Et|done|].
    rewrite Et. cbn. rewrite list_insert_insert_eq. rewrite (filled_insert new r _ c) by (done || lia). by replace (Z.to_nat (x + 1)) with (S (Z.to_nat x)) by lia.
  - intros t' ->. change (Z.to_nat COLS) with 160%nat. rewrite take_ge, drop_ge, app_nil_r by lia. done.
Qed.

Lemma blank_line_wp y rows r t (Q : unit → terminal → Prop) : t_lines t = lines_of rows → rows !! Z.to_nat y = Some r → 0 ≤ y → length r = 160%nat →
  Q tt (set_t_lines (lines_of (<[Z.to_nat y := blanks]> rows)) t) → wp (blank_line y) Q t.
Proof.
  intros El Er Hy Hr HQ. pose proof (lookup_lt_Some _ _ _ Er). eapply fill_line_wp; [exact El|exact Er|done|done|exact (proj1 blanks_ok)| |exact HQ].
  intros x c rows' t' Q' Hx Hc -> -> HQ'. apply lookup_replicate in Hc as [-> _]. eapply put_glyph_wp; [done|by rewrite list_lookup_insert_eq|done| |exact HQ'].
  rewrite length_app, length_take, length_drop. unfold blanks. rewrite length_replicate. lia.
Qed.

(** The lines move up by one. *)
Lemma scroll_lines_wp rows t (Q : unit → terminal → Prop) : t_lines t = lines_of rows → length rows = 96%nat → rows_ok rows →
  Q tt (set_t_lines (lines_of (take 95 (tail rows) ++ drop 95 rows)) t) →
  wp (for_ 1 HISTORY_ROWS (λ y, for_ 0 COLS (λ x, c ← get_cell y x; put_cell (y - 1) x c))) Q t.
Proof.
  intros El Hl Hok HQ. assert (Htl : length (tail rows) = 95%nat) by (destruct rows; [done|]; cbn in *; lia).
  set (up := λ k : nat, take k (tail rows) ++ drop k rows).
  assert (Hup : ∀ k, (k ≤ 95)%nat → length (up k) = 96%nat) by (intros k Hk; unfold up; rewrite length_app, length_take, length_drop; lia).
  apply (wp_for _ _ _ (λ y t', t' = set_t_lines (lines_of (up (Z.to_nat (y - 1)))) t)); [done| | |].
  - change (t = set_t_lines (lines_of rows) t). rewrite <- El. by destruct t.
  - intros y t' Hy ->. change HISTORY_ROWS with 96 in Hy. set (k := Z.to_nat (y - 1)). assert (Hk : (k < 95)%nat) by lia.
    destruct (lookup_lt_is_Some_2 rows k ltac:(lia)) as [r0 Hr0]. destruct (lookup_lt_is_Some_2 rows (S k) ltac:(lia)) as [r1 Hr1].
    pose proof (Forall_lookup_1 _ _ _ _ Hok Hr0) as [Hl0 _]. pose proof (Forall_lookup_1 _ _ _ _ Hok Hr1) as [Hl1 _].
    assert (E0 : up k !! k = Some r0) by (unfold up; rewrite lookup_app_r, lookup_drop, length_take by (rewrite length_take; lia); rewrite Nat.min_l, Nat.sub_diag, Nat.add_0_r by lia; done).
    assert (E1 : up k !! S k = Some r1) by (unfold up; rewrite lookup_app_r, lookup_drop, length_take by (rewrite length_take; lia); rewrite Nat.min_l by lia; by replace (k + (S k - k))%nat with (S k) by lia).
    assert (Et : tail rows !! k = Some r1) by (destruct rows; [done|exact Hr1]).
    eapply (fill_line_wp (y - 1) (up k) r0 r1); [done|exact E0|lia|done|done| |].
    + intros x c rows' t' Q' Hx Hc -> -> HQ'. wp_step. eapply get_cell_wp; [done| |lia|lia|exact Hc|].
      * fold k. rewrite list_lookup_insert_ne by lia. replace (Z.to_nat y) with (S k) by lia. exact E1.
      * eapply put_glyph_wp; [done|fold k; rewrite list_lookup_insert_eq by (rewrite Hup; lia); done|lia| |exact HQ'].
        rewrite length_app, length_take, length_drop. lia.
    + cbn. fold k. replace (Z.to_nat (y + 1 - 1)) with (S k) by lia. unfold up at 1. rewrite (filled_insert (tail rows) rows k r1) by (done || lia). done.
  - intros t' ->. exact HQ.
Qed.

(** The effect of newline() on the lines. *)
Definition next_line (rows : list (list Z)) (n : Z) : list (list Z) * Z :=
  if n <? 96 then (<[Z.to_nat n := blanks]> rows, n + 1) else (tail rows ++ [blanks], n).

Lemma newline_wp rows t (Q : unit → terminal → Prop) : t_lines t = lines_of rows → length rows = 96%nat → rows_ok rows → 1 ≤ t_line_count t ≤ 96 →
  Q tt (set_t_col 0 (set_t_line_count (snd (next_line rows (t_line_count t))) (set_t_lines (lines_of (fst (next_line rows (t_line_count t)))) t))) →
  wp newline Q t.
Proof.
  intros El Hl Hok Hn HQ. unfold newline. do 4 wp_step. cbn. unfold next_line in HQ. unfold HISTORY_ROWS at 1. destruct (Z.ltb_spec (t_line_count t) 96).
  - do 4 wp_step. cbn. u32_simp. destruct (lookup_lt_is_Some_2 rows (Z.to_nat (t_line_count t + 1 - 1)) ltac:(lia)) as [r Hr].
    pose proof (Forall_lookup_1 _ _ _ _ Hok Hr) as [Hlr _]. eapply blank_line_wp; [exact El|exact Hr|lia|done|]. cbn in *.
    replace (t_line_count t + 1 - 1) with (t_line_count t) by lia. exact HQ.
  - wp_step. eapply scroll_lines_wp; [exact El|done|done|]. assert (Htl : length (tail rows) = 95%nat) by (destruct rows; [done|]; cbn in *; lia).
    destruct (lookup_lt_is_Some_2 rows 95 ltac:(lia)) as [r Hr]. pose proof (Forall_lookup_1 _ _ _ _ Hok Hr) as [Hlr _].
    rewrite take_ge, (drop_S rows r 95 Hr), (drop_ge rows) by lia. eapply blank_line_wp; [done|apply list_lookup_middle; by rewrite Htl|done|done|]. cbn in *.
    change (Z.to_nat (HISTORY_ROWS - 1)) with 95%nat. rewrite insert_app_r_alt, Htl by lia. cbn. exact HQ.
Qed.

(** ** The terminal as an unbounded sheet

    The finished lines, the line that is being written, and its column. *)

Record sheet := Sheet { past : list (list Z); cur : list Z; column : Z }.

Definition sheet_newline (s : sheet) : sheet := Sheet (past s ++ [cur s]) blanks 0.
Definition sheet_put (cols c : Z) (s : sheet) : sheet :=
  if c =? 10 then sheet_newline s
  else if c =? 8 then
    if 0 <? column s then Sheet (past s) (<[Z.to_nat (column s - 1) := 32]> (cur s)) (column s - 1) else s
  else if (c <? 32) || (126 <? c) then s
  else
    let s := if cols <=? column s then sheet_newline s else s in
    let s := Sheet (past s) (<[Z.to_nat (column s) := c]> (cur s)) (column s + 1) in
    if cols <=? column s then sheet_newline s else s.
Definition sheet_write (cols : Z) (str : list Z) (s : sheet) : sheet := foldl (λ s c, sheet_put cols c s) s str.

(** The last 95 finished lines are kept. *)
Definition kept (past : list (list Z)) : list (list Z) := drop (length past - 95) past.

Arguments kept : simpl never.
Arguments blanks : simpl never.

Record shows (t : terminal) (s : sheet) : Prop := {
  sh_lines : ∃ junk, t_lines t = lines_of (kept (past s) ++ cur s :: junk) ∧ rows_ok (kept (past s) ++ cur s :: junk) ∧ length (kept (past s) ++ cur s :: junk) = 96%nat;
  sh_count : t_line_count t = Z.of_nat (length (kept (past s))) + 1;
  sh_col : t_col t = column s;
  sh_column : 0 ≤ column s ≤ 160 }.

(** Nothing but the text has changed. *)
Definition only_text (t t' : terminal) : Prop :=
  t' = set_t_lines (t_lines t') (set_t_line_count (t_line_count t') (set_t_col (t_col t') (set_t_scroll (t_scroll t') t))).
Lemma only_text_refl t : only_text t t.
Proof. by destruct t. Qed.
Lemma only_text_trans t1 t2 t3 : only_text t1 t2 → only_text t2 t3 → only_text t1 t3.
Proof. intros -> ->. done. Qed.
Lemma only_text_window t t' : only_text t t' → t_window t' = t_window t.
Proof. by intros ->. Qed.

Lemma text_cols_range w : is_i32 (ww w) → 1 ≤ text_cols w ≤ 160.
Proof.
  unfold is_i32, text_cols, COLS. intros H. destruct (Z.leb_spec (ww w) 18); [lia|]. u32_simp. pose proof (Z.div_pos (ww w - 16) 6).
  case_match; bool_to_prop; case_match; bool_to_prop; lia.
Qed.

Lemma kept_length past : length (kept past) = Nat.min 95 (length past).
Proof. unfold kept. rewrite length_drop. lia. Qed.

Lemma kept_snoc past c : kept (past ++ [c]) = if (length past <? 95)%nat then kept past ++ [c] else tail (kept past) ++ [c].
Proof.
  unfold kept. rewrite length_app. cbn [length]. destruct (Nat.ltb_spec (length past) 95).
  - by rewrite (proj2 (Nat.sub_0_le (length past + 1) 95)), (proj2 (Nat.sub_0_le (length past) 95)) by lia.
  - rewrite drop_app_le by lia. f_equal. replace (length past + 1 - 95)%nat with (length past - 95 + 1)%nat by lia.
    rewrite <- drop_drop. by destruct (drop (length past - 95) past).
Qed.

(** The line written to is the last one. *)
Lemma shows_cur t s junk : shows t s → length (kept (past s) ++ cur s :: junk) = 96%nat → (kept (past s) ++ cur s :: junk) !! Z.to_nat (t_line_count t - 1) = Some (cur s) ∧
  1 ≤ t_line_count t ≤ 96.
Proof.
  intros Hs Hl. rewrite (sh_count _ _ Hs). replace (Z.to_nat _) with (length (kept (past s))) by lia. split; [by apply list_lookup_middle|].
  rewrite length_app in Hl. cbn in Hl. lia.
Qed.

Lemma newline_shows t s : shows t s → wp newline (λ _ t', shows t' (sheet_newline s) ∧ only_text t t') t.
Proof.
  intros Hs. destruct (sh_lines _ _ Hs) as (junk & El & Hok & Hl). destruct (shows_cur _ _ _ Hs Hl) as [_ Hn].
  eapply newline_wp; [exact El|done|done|done|]. split; [|by destruct t]. pose proof (kept_length (past s)) as Hk. pose proof (sh_count _ _ Hs) as Hc.
  rewrite length_app in Hl. cbn in Hl. unfold next_line. destruct (Z.ltb_spec (t_line_count t) 96).
  - assert (Hp : (length (past s) < 95)%nat) by lia. destruct junk as [|j junk]; [cbn in *; lia|]. split; cbn; [|rewrite kept_snoc, (proj2 (Nat.ltb_lt _ _)), length_app by lia; cbn; lia|done|done].
    exists junk. rewrite kept_snoc, (proj2 (Nat.ltb_lt _ _)) by lia.
    assert (<[Z.to_nat (t_line_count t) := blanks]> (kept (past s) ++ cur s :: j :: junk) = (kept (past s) ++ [cur s]) ++ blanks :: junk) as E.
    { rewrite insert_app_r_alt by lia. replace (Z.to_nat (t_line_count t) - length (kept (past s)))%nat with 1%nat by lia. cbn. by rewrite <- app_assoc. }
    rewrite <- E. split; [done|]. split; [by apply rows_ok_insert; [|apply blanks_ok..]|]. rewrite length_insert, length_app. cbn in *. lia.
  - assert (Hp : (95 ≤ length (past s))%nat) by lia. destruct junk as [|j junk]; [|cbn in *; lia]. split; cbn; [|rewrite kept_snoc, (proj2 (Nat.ltb_ge _ _)), length_app by lia; destruct (kept (past s)); cbn in *; lia|done|done].
    exists []. rewrite kept_snoc, (proj2 (Nat.ltb_ge _ _)) by lia. destruct (kept (past s)) as [|k0 ks]; [cbn in *; lia|]. cbn [tail app].
    split; [done|]. apply Forall_cons_1 in Hok as [_ Hok]. split; [|rewrite !length_app in *; cbn in *; lia]. apply Forall_app. split; [done|]. constructor; [apply blanks_ok|done].
Qed.

(** A character stored in the current line. *)
Lemma put_shows t s x c (Q : unit → terminal → Prop) : shows t s → 0 ≤ x < 160 → is_u8 c →
  (∀ t', shows t' (Sheet (past s) (<[Z.to_nat x := c]> (cur s)) (column s)) → only_text t t' → Q tt t') → wp (put_cell (t_line_count t - 1) x c) Q t.
Proof.
  intros Hs Hx Hc HQ. destruct (sh_lines _ _ Hs) as (junk & El & Hok & Hl). destruct (shows_cur _ _ _ Hs Hl) as [Er Hn]. pose proof (Forall_lookup_1 _ _ _ _ Hok Er) as [Hlc Huc].
  eapply put_glyph_wp; [exact El|exact Er|lia|lia|]. apply HQ; [|by destruct t]. pose proof (sh_count _ _ Hs) as Hct.
  assert (<[Z.to_nat (t_line_count t - 1) := <[Z.to_nat x := c]> (cur s)]> (kept (past s) ++ cur s :: junk) = kept (past s) ++ <[Z.to_nat x := c]> (cur s) :: junk) as E.
  { rewrite insert_app_r_alt by lia. by replace (Z.to_nat (t_line_count t - 1) - length (kept (past s)))%nat with 0%nat by lia. }
  split; cbn; [|by destruct Hs..]. exists junk. rewrite <- E. split; [done|]. split; [|by rewrite length_insert].
  apply rows_ok_insert; [done|by rewrite length_insert|by apply Forall_insert].
Qed.

Lemma shows_col t s c : shows t s → 0 ≤ c ≤ 160 → shows (set_t_col c t) (Sheet (past s) (cur s) c).
Proof. intros [? ? ? ?] ?. by split. Qed.

Lemma write_char_wp c t s : shows t s → is_u8 c → is_i32 (ww (t_window t)) →
  wp (write_char c) (λ _ t', shows t' (sheet_put (text_cols (t_window t)) c s) ∧ only_text t t') t.
Proof.
  intros Hs Hc Hw. pose proof (text_cols_range _ Hw) as Hcols. destruct (sh_lines _ _ Hs) as (junk & El & Hok & Hl). destruct (shows_cur _ _ _ Hs Hl) as [_ Hn].
  pose proof (sh_col _ _ Hs) as Ecol. pose proof (sh_column _ _ Hs) as Hcol. unfold write_char, sheet_put. do 2 wp_step. u32_simp.
  destruct (c =? 10); [by apply newline_shows|]. destruct (c =? 8).
  { do 2 wp_step. rewrite Ecol. destruct (0 <? column s) eqn:E0; cbn [when]; [|wp_step; split; [done|apply only_text_refl]]. apply Z.ltb_lt in E0. u32_simp. do 2 wp_step.
    assert (Hs' : shows (set_t_col (column s - 1) t) (Sheet (past s) (cur s) (column s - 1))) by (apply shows_col; [done|lia]).
    change (t_line_count t) with (t_line_count (set_t_col (column s - 1) t)). eapply put_shows; [exact Hs'|lia|done|]. intros t' Hs'' Ho. split; [exact Hs''|].
    eapply only_text_trans; [|exact Ho]. by destruct t. }
  destruct ((c <? 32) || (126 <? c)); [wp_step; split; [done|apply only_text_refl]|].
  do 4 wp_step. rewrite Ecol. set (cols := text_cols (t_window t)) in *. wp_step.
  apply (wp_mono _ (λ _ t', shows t' (if cols <=? column s then sheet_newline s else s) ∧ only_text t t')).
  { apply wp_when; intros ->; [by apply newline_shows|]. split; [done|apply only_text_refl]. }
  intros _ t1 [Hs1 Ho1]. set (s1 := if cols <=? column s then sheet_newline s else s) in *. destruct (sh_lines _ _ Hs1) as (junk1 & _ & _ & Hl1).
  destruct (shows_cur _ _ _ Hs1 Hl1) as [_ Hn1]. pose proof (sh_col _ _ Hs1) as Ecol1. pose proof (sh_column _ _ Hs1) as Hcol1.
  assert (Hlt : column s1 < cols) by (unfold s1; destruct (Z.leb_spec cols (column s)); cbn; lia).
  do 4 wp_step. rewrite Ecol1. u32_simp. wp_step. eapply put_shows; [exact Hs1|lia|done|]. intros t2 Hs2 Ho2. do 2 wp_step. cbn.
  pose proof (only_text_trans _ _ _ Ho1 Ho2) as Ho12. set (s2 := Sheet (past s1) (<[Z.to_nat (column s1) := c]> (cur s1)) (column s1 + 1)).
  assert (Hs3 : shows (set_t_col (column s1 + 1) t2) s2) by (apply (shows_col t2 _ (column s1 + 1)) in Hs2; [exact Hs2|lia]).
  assert (Ho3 : only_text t (set_t_col (column s1 + 1) t2)) by (rewrite Ho12; by destruct t).
  apply wp_when; intros E; cbn [column s2]; rewrite E; [|done]. eapply wp_mono; [by apply newline_shows|]. intros _ t3 [Hs4 Ho4]. split; [done|]. by eapply only_text_trans.
Qed.

Lemma write_loop_wp str rest t s fuel k : shows t s → is_i32 (ww (t_window t)) → Forall (λ c, 0 < c < 256) str → (k ≤ length str)%nat → (length str - k < fuel)%nat →
  Z.of_nat (length str) < 4294967295 →
  wp (write_loop fuel (str ++ 0 :: rest) (Z.of_nat k)) (λ _ t', shows t' (sheet_write (text_cols (t_window t)) (drop k str) s) ∧ only_text t t') t.
Proof.
  intros Hs Hw Hstr Hk Hf Hlen. revert t s k Hs Hw Hk Hf. induction fuel as [|fuel IH]; intros t s k Hs Hw Hk Hf; [lia|]. cbn [write_loop].
  destruct (aread_text str rest (Z.of_nat k) Hstr ltac:(lia)) as (c & Ec & Hz & Hc). wp_step. eapply wp_lift; [exact Ec|]. destruct (Z.eqb_spec c 0) as [E|Hne].
  - wp_step. assert (k = length str) as -> by lia. rewrite drop_ge by done. split; [done|apply only_text_refl].
  - assert (Hlt : (k < length str)%nat) by lia. specialize (Hc ltac:(lia)). rewrite Nat2Z.id in Hc. pose proof (Forall_lookup_1 _ _ _ _ Hstr Hc) as Hr. cbn in Hr.
    wp_step. eapply wp_mono; [apply write_char_wp; [done|unfold is_u8; lia|done]|]. intros _ t1 [Hs1 Ho1]. u32_simp. replace (Z.of_nat k + 1) with (Z.of_nat (S k)) by lia.
    rewrite (drop_S str c k Hc). cbn. rewrite <- (only_text_window _ _ Ho1) in *. eapply wp_mono; [apply (IH t1 (sheet_put (text_cols (t_window t1)) c s) (S k)); [exact Hs1|done|lia|lia]|].
    intros _ t2 [Hs2 Ho2]. split; [exact Hs2|by eapply only_text_trans].
Qed.

Lemma write_text_wp text str t s : shows t s → text_in text str → is_i32 (ww (t_window t)) → Z.of_nat (length str) < 4294967295 →
  wp (write text) (λ _ t', shows t' (sheet_write (text_cols (t_window t)) str s) ∧ only_text t t' ∧ t_scroll t' = 0) t.
Proof.
  intros Hs Ht Hw Hlen. destruct (text_in_inv _ _ Ht) as (rest & -> & Hstr). destruct (sh_lines _ _ Hs) as (junk & _ & _ & Hl). destruct (shows_cur _ _ _ Hs Hl) as [_ Hn].
  unfold write. do 2 wp_step. rewrite (proj2 (Z.eqb_neq _ _)) by lia. cbn [when]. do 3 wp_step. eapply wp_mono.
  { apply (write_loop_wp str rest t s _ 0); [done|done|done|lia|rewrite length_app; cbn; lia|done]. }
  intros _ t1 [Hs1 Ho1]. wp_step. split; [by destruct Hs1|]. split; [|done]. rewrite Ho1. by destruct t.
Qed.

(** ** Scrolling, clearing, the window *)

Lemma scroll_view_wp delta t : 1 ≤ t_line_count t ≤ 96 → 0 ≤ t_scroll t < t_line_count t → -1 ≤ delta ≤ 1 →
  wp (scroll delta) (λ _ t', t' = set_t_scroll (Z.max 0 (Z.min (t_scroll t + delta) (t_line_count t - 1))) t) t.
Proof.
  intros Hn Hs Hd. unfold scroll. destruct (Z.ltb_spec 0 delta).
  - assert (delta = 1) as -> by lia. do 4 wp_step. u32_simp. destruct (Z.ltb_spec (t_scroll t + 1) (t_line_count t)); wp_step; f_equal; [lia|].
    rewrite (proj2 (Z.ltb_lt _ _)) by lia. lia.
  - destruct (Z.ltb_spec delta 0).
    + assert (delta = -1) as -> by lia. wp_step. eapply wp_lift; [reflexivity|]. cbn. do 3 wp_step. f_equal. change (u32 (- (-1))) with 1. destruct (Z.ltb_spec (t_scroll t) 1); [lia|]. u32_simp. lia.
    + assert (delta = 0) as -> by lia. wp_step. rewrite Z.min_l, Z.max_r by lia. rewrite Z.add_0_r. by destruct t.
Qed.

(** An empty sheet. *)
Definition empty_sheet : sheet := Sheet [] blanks 0.

Lemma clear_buffer_wp t : length (t_lines t) = 96%nat → Forall (λ r, length r = 161%nat) (t_lines t) →
  wp clear_buffer (λ _ t', shows t' empty_sheet ∧ only_text t t' ∧ t_scroll t' = 0) t.
Proof.
  intros Hl Hr. unfold clear_buffer. wp_step.
  eapply (wp_for _ _ _ (λ y t', t' = set_t_lines (replicate (Z.to_nat y) (blanks ++ [0]) ++ drop (Z.to_nat y) (t_lines t)) t)); [done|by destruct t| |].
  - intros y t' Hy ->. change HISTORY_ROWS with 96 in Hy. destruct (lookup_lt_is_Some_2 (t_lines t) (Z.to_nat y) ltac:(lia)) as [r0 Hr0]. pose proof (Forall_lookup_1 _ _ _ _ Hr Hr0) as Hlr. cbn in Hlr.
    set (k := Z.to_nat y) in *. rewrite (drop_S _ _ _ Hr0). set (pre := replicate k (blanks ++ [0])). set (post := drop (S k) (t_lines t)). assert (Hpre : length pre = k) by apply length_replicate.
    assert (Hput : ∀ r x c t0 (Q : unit → terminal → Prop), 0 ≤ x < Z.of_nat (length r) → t0 = set_t_lines (pre ++ r :: post) t →
      Q tt (set_t_lines (pre ++ <[Z.to_nat x := c]> r :: post) t) → wp (put_cell y x c) Q t0).
    { intros r x c t0 Q Hx -> HQ. unfold put_cell. do 3 wp_step. cbn. eapply wp_lift; [apply aread_Some; split; [lia|]; fold k; by apply list_lookup_middle|].
      wp_step. eapply wp_lift; [by apply awrite_eq|]. wp_step. eapply wp_lift; [apply awrite_eq; rewrite length_app; cbn; lia|]. wp_step. fold k. rewrite insert_app_r_alt, Hpre, Nat.sub_diag by lia. exact HQ. }
    wp_step. eapply (wp_for _ _ _ (λ x t', t' = set_t_lines (pre ++ (take (Z.to_nat x) blanks ++ drop (Z.to_nat x) r0) :: post) t)); [done|done| |].
    + intros x t' Hx Et. change COLS with 160 in Hx. eapply Hput; [|exact Et|]; [rewrite length_app, length_take, length_drop; change (length blanks) with 160%nat; lia|].
      rewrite (filled_insert blanks r0 _ 32); [by replace (Z.to_nat (x + 1)) with (S (Z.to_nat x)) by lia|apply lookup_replicate; split; [done|lia]|lia].
    + intros t' Et. change (Z.to_nat COLS) with 160%nat in Et. rewrite take_ge in Et by (change (length blanks) with 160%nat; lia). eapply Hput; [|exact Et|]; [rewrite length_app, length_drop; change (length blanks) with 160%nat; change COLS with 160; lia|].
      replace (Z.to_nat (y + 1)) with (S k) by lia. rewrite replicate_S_end, <- app_assoc. cbn. repeat f_equal. change (Z.to_nat COLS) with (length blanks + 0)%nat. rewrite insert_app_r.
      destruct (drop 160 r0) as [|e [|? ?]] eqn:Ed; apply (f_equal length) in Ed; rewrite length_drop in Ed; cbn in Ed; try lia. done.
  - intros t' ->. change (Z.to_nat HISTORY_ROWS) with 96%nat. rewrite drop_ge, app_nil_r by lia. wp_steps. split; [|by destruct t]. split; cbn; [|done|done|done].
    exists (replicate 95 blanks). change (kept [] ++ blanks :: replicate 95 blanks) with (replicate 96 blanks). split; [by unfold lines_of; rewrite fmap_replicate|].
    split; [apply Forall_replicate, blanks_ok|by rewrite length_replicate].
Qed.

Lemma terminal_geometry_ok m w : metrics_ok m → ∃ w', terminal_geometry m w = Some w' ∧ placed m (win_rect w') ∧
  restore_rect w' = restore_rect w ∧ wopen w' = wopen w ∧ wfocused w' = wfocused w ∧ wmode w' = wmode w ∧ wz w' = wz w.
Proof.
  intros []. change (returns (terminal_geometry m w) (λ w', placed m (win_rect w') ∧
    restore_rect w' = restore_rect w ∧ wopen w' = wopen w ∧ wfocused w' = wfocused w ∧ wmode w' = wmode w ∧ wz w' = wz w)).
  unfold terminal_geometry, WINDOW_MIN_W. cbv zeta. rewrite (proj2 (Z.ltb_lt 96 (m_width m))), (proj2 (Z.ltb_lt 140 (m_height m))) by lia.
  rewrite (u32_small (m_width m - 96)), (u32_small (m_height m - taskbar_h m)) by (unfold is_u32; lia). rewrite (u32_small (m_height m - taskbar_h m - 74)), (u32_small (m_height m - taskbar_h m - 8)) by (unfold is_u32; lia).
  rewrite (i32_small (m_width m - 96)), (i32_small (m_height m - taskbar_h m - 74)), (i32_small (m_height m - taskbar_h m - 8)) by (unfold is_i32; lia). rewrite !if_min, !if_max. set (w0 := Z.max (Z.min (m_width m - 96) 640) 168). set (h0 := Z.max (Z.min (m_height m - taskbar_h m - 74) 360) 134).
  assert (Hw0 : 168 ≤ w0 ≤ 640 ∧ w0 ≤ m_width m - 96) by (unfold w0; lia). assert (Hh0 : 134 ≤ h0 ≤ 360 ∧ h0 ≤ m_height m - taskbar_h m - 28) by (unfold h0; lia). clearbody w0 h0.
  rewrite (u32_small (m_width m - 8)), (u32_small w0), (u32_small h0) by (unfold is_u32; lia). ltb_false. pose proof (half (m_width m - w0)).
  apply returns_ret. u32_simp. rewrite i32_small by (unfold is_i32; lia). split; [|done]. split; cbn; try lia. destruct (Z.ltb_spec 260 (m_height m)); lia.
Qed.

(** ** The commands remembered *)

(** The strings [hs], oldest first, in the slots of the ring. *)
Record remembers (t : terminal) (hs : list (list Z)) : Prop := {
  re_size : length (t_history t) = 8%nat ∧ Forall (λ r, length r = 96%nat) (t_history t);
  re_count : is_u32 (t_history_count t) ∧ Z.of_nat (length hs) = Z.min 8 (t_history_count t);
  re_slot i str : hs !! i = Some str → (length str ≤ 95)%nat ∧
    ∃ row, t_history t !! Z.to_nat ((t_history_count t - Z.of_nat (length hs) + Z.of_nat i) mod 8) = Some row ∧ text_in row str }.

Definition text_ok (t : terminal) : Prop := (∃ s, shows t s) ∧ 0 ≤ t_scroll t < t_line_count t.

(** The command line; its last place is always a terminator. *)
Record command_ok (t : terminal) : Prop := {
  co_size : length (t_command t) = 96%nat;
  co_bytes : Forall is_u8 (t_command t);
  co_end : t_command t !! 95%nat = Some 0;
  co_len : 0 ≤ t_command_len t ≤ 95 }.

Record term_ok (m : Metrics) (t : terminal) (hs : list (list Z)) : Prop := {
  te_window : window_ok m (t_window t);
  te_text : text_ok t;
  te_command : command_ok t;
  te_history : remembers t hs;
  te_index : -1 ≤ t_history_index t ≤ 7 }.

Lemma window_i32 m w : metrics_ok m → window_ok m w → is_i32 (ww w).
Proof. intros [] [[] _ _ _]. cbn in *. unfold is_i32. lia. Qed.

Lemma shows_count t s : shows t s → 1 ≤ t_line_count t ≤ 96.
Proof. intros Hs. destruct (sh_lines _ _ Hs) as (junk & _ & _ & Hl). by destruct (shows_cur _ _ _ Hs Hl). Qed.

(** Writing changes the text and nothing else. *)
Lemma write_ok text t (Q : unit → terminal → Prop) : text_ok t → is_text text → is_i32 (ww (t_window t)) →
  (∀ t', text_ok t' → only_text t t' → t_scroll t' = 0 → Q tt t') → wp (write text) Q t.
Proof.
  intros [[s Hs] _] (str & Ht & Hlen) Hw HQ. eapply wp_mono; [eapply write_text_wp; [exact Hs|exact Ht|done|lia]|].
  intros [] t' (Hs' & Ho & Hz). apply HQ; [|done|done]. split; [by eexists|]. rewrite Hz. pose proof (shows_count _ _ Hs'). lia.
Qed.

Lemma only_text_remembers t t' hs : only_text t t' → remembers t hs → remembers t' hs.
Proof. intros -> [? ? ?]. by split. Qed.

Lemma term_ok_text m t t' hs : term_ok m t hs → text_ok t' → only_text t t' → term_ok m t' hs.
Proof. intros [? ? [] Hr ?] Ht Ho. pose proof (only_text_remembers _ _ _ Ho Hr). split; [by rewrite Ho|done|rewrite Ho; by split|done|by rewrite Ho]. Qed.

Lemma mod8_range a : (Z.to_nat (a mod 8) < 8)%nat.
Proof. pose proof (Z.mod_pos_bound a 8). lia. Qed.

Lemma put_history_wp slot i c row t (Q : unit → terminal → Prop) : 0 ≤ slot → t_history t !! Z.to_nat slot = Some row → 0 ≤ i < Z.of_nat (length row) →
  Q tt (set_t_history (<[Z.to_nat slot := <[Z.to_nat i := c]> row]> (t_history t)) t) → wp (put_history slot i c) Q t.
Proof.
  intros Hs Er Hi HQ. pose proof (lookup_lt_Some _ _ _ Er). unfold put_history. do 3 wp_step. eapply wp_lift; [by apply aread_Some|]. wp_step. eapply wp_lift; [by apply awrite_eq|].
  wp_step. eapply wp_lift; [apply awrite_eq; lia|]. by wp_step.
Qed.

(** The copy of a command into a slot. *)
Lemma copy_command_wp line str slot row t (Q : unit → terminal → Prop) : text_in line str → 0 ≤ slot → t_history t !! Z.to_nat slot = Some row → length row = 96%nat →
  (∀ row', text_in row' (take 95 str) → length row' = 96%nat → Q tt (set_t_history (<[Z.to_nat slot := row']> (t_history t)) t)) →
  wp (r ← for_exit 0 (COMMAND_SIZE - 1) (λ i, c ← lift (aread line i); if c =? 0 then mret (Some i) else _ ← put_history slot i c; mret None);
      put_history slot (match r with Some i => i | None => COMMAND_SIZE - 1 end) 0) Q t.
Proof.
  intros Ht Hslot Er Hl HQ. destruct (text_in_inv _ _ Ht) as (rest & -> & Hs). pose proof (lookup_lt_Some _ _ _ Er) as Hsl. apply wp_bind. change (COMMAND_SIZE - 1) with 95.
  set (row_at := λ i, take (Z.to_nat i) str ++ drop (Z.to_nat i) row). set (at_ := λ i, set_t_history (<[Z.to_nat slot := row_at i]> (t_history t)) t).
  assert (Hrl : ∀ i, 0 ≤ i ≤ Z.of_nat (length str) → i ≤ 96 → length (row_at i) = 96%nat) by (intros i ? ?; unfold row_at; rewrite length_app, length_take, length_drop; lia).
  assert (Her : ∀ i, t_history (at_ i) !! Z.to_nat slot = Some (row_at i)) by (intros i; cbn; by rewrite list_lookup_insert_eq).
  assert (Hend : ∀ i, 0 ≤ i ≤ Z.of_nat (length str) → i < 96 → i = Z.of_nat (length str) ∨ i = 95 → wp (put_history slot i 0) Q (at_ i)).
  { intros i Hi1 Hi2 Hi3. eapply put_history_wp; [done|apply Her|rewrite Hrl; lia|]. unfold at_. cbn. rewrite list_insert_insert_eq. apply HQ; unfold row_at; rewrite filled_end by lia.
    - replace (take 95 str) with (take (Z.to_nat i) str); [apply text_in_app; by apply Forall_take|]. destruct Hi3 as [->| ->]; [|done]. rewrite Nat2Z.id, !take_ge by lia. done.
    - rewrite length_app, length_take. cbn. rewrite length_drop. lia. }
  eapply (wp_for_exit _ _ _ (λ i t', i ≤ Z.of_nat (length str) ∧ t' = at_ i)); [lia| | |].
  - split; [lia|]. unfold at_, row_at. cbn. rewrite list_insert_id by done. by destruct t.
  - intros i t' Hi [Hle ->]. destruct (aread_text str rest i Hs ltac:(lia)) as (c & Ec & Hz & Hlt). wp_step. eapply wp_lift; [exact Ec|]. wp_step; bool_to_prop.
    + wp_step. apply Hend; [lia|lia|]. left. tauto.
    + wp_step. eapply put_history_wp; [done|apply Her|rewrite Hrl; lia|]. wp_step. assert (Hne : i ≠ Z.of_nat (length str)) by tauto. split; [lia|]. unfold at_, row_at. cbn.
      rewrite list_insert_insert_eq, (filled_insert str _ _ c) by (apply Hlt || lia; lia). by replace (Z.to_nat (i + 1)) with (S (Z.to_nat i)) by lia.
  - intros t' [Hle ->]. apply Hend; [lia|lia|]. by right.
Qed.

(** Remembering one more command, of which the eight newest are kept. *)
Definition remember (str : list Z) (hs : list (list Z)) : list (list Z) :=
  (if (length hs <? 8)%nat then hs else tail hs) ++ [take 95 str].

Arguments remember : simpl never.

Lemma push_history_wp line str t hs (Q : unit → terminal → Prop) : text_in line str → remembers t hs →
  (str = [] → Q tt t) →
  (str ≠ [] → ∀ h hs', remembers (set_t_history_count (t_history_count t +% 1) (set_t_history h t)) hs' → (t_history_count t < 4294967295 → hs' = remember str hs) →
     Q tt (set_t_history_index (-1) (set_t_history_count (t_history_count t +% 1) (set_t_history h t)))) →
  wp (push_history line) Q t.
Proof.
  intros Ht [[Hs Hr] [Hcu Hc] Hslot] HQ0 HQ. destruct (text_in_inv _ _ Ht) as (rest & El & Hch). unfold push_history.
  destruct (aread_text str rest 0 Hch ltac:(lia)) as (c & Ec & Hz & _). rewrite <- El in Ec. wp_step. eapply wp_lift; [exact Ec|]. wp_step; bool_to_prop.
  { wp_step. apply HQ0. destruct str; [done|]. cbn in Hz. lia. }
  assert (Hne : str ≠ []) by (intros ->; cbn in Hz; lia). do 2 wp_step. set (n := t_history_count t) in *.
  destruct (lookup_lt_is_Some_2 (t_history t) (Z.to_nat (n mod 8))) as [row Hrow]; [rewrite Hs; apply mod8_range|]. pose proof (Forall_lookup_1 _ _ _ _ Hr Hrow) as Hlr. cbn in Hlr.
  change COMMAND_HISTORY with 8. unfold is_u32 in *.
  assert (W : wp (r ← for_exit 0 (COMMAND_SIZE - 1) (λ i, c ← lift (aread line i); if c =? 0 then mret (Some i) else _ ← put_history (n mod 8) i c; mret None);
      put_history (n mod 8) (match r with Some i => i | None => COMMAND_SIZE - 1 end) 0)
    (λ _ t', ∃ row', t' = set_t_history (<[Z.to_nat (n mod 8) := row']> (t_history t)) t ∧ text_in row' (take 95 str) ∧ length row' = 96%nat) t).
  { eapply copy_command_wp; [exact Ht|apply Z.mod_pos_bound; lia|exact Hrow|exact Hlr|]. intros row' H1 H2. by exists row'. }
  destruct W as ([] & t1 & E & row' & -> & Htr & Hlr'). unfold mbind, M_bind in E. match type of E with match ?x with _ => _ end = _ => destruct x as [[i0 t0]|] eqn:E0; [|done] end.
  wp_step. eexists _, _. split; [exact E0|]. wp_step. eexists _, _. split; [exact E|]. wp_steps. cbn. clear E E0 i0 t0.
  destruct (decide (n = 4294967295)) as [En|Hnm].
  { apply (HQ Hne _ []); [|lia]. rewrite En. split; cbn; [split; [by rewrite length_insert|by apply Forall_insert]|done|done]. }
  u32_simp. apply (HQ Hne _ (remember str hs)); [|done].
  split; cbn.
  - split; [by rewrite length_insert|]. by apply Forall_insert.
  - fold n. unfold remember. rewrite length_app. cbn [length]. split; [unfold is_u32; lia|]. destruct (Nat.ltb_spec (length hs) 8); [lia|]. destruct hs; cbn in *; lia.
  - intros i s Hi. fold n. unfold remember in *. set (hs1 := if (length hs <? 8)%nat then hs else tail hs) in *.
    assert (Hl1 : Z.of_nat (length hs1) = Z.min 7 n) by (unfold hs1; destruct (Nat.ltb_spec (length hs) 8); [lia|destruct hs; cbn in *; lia]).
    rewrite length_app. cbn [length]. destruct (decide (i < length hs1)%nat) as [Hi1|Hi1].
    + rewrite lookup_app_l in Hi by done. assert (Hold : ∃ j, hs !! j = Some s ∧ Z.of_nat j - Z.of_nat (length hs) = Z.of_nat i - Z.of_nat (length hs1)).
      { unfold hs1 in *. destruct (Nat.ltb_spec (length hs) 8); [by exists i|]. destruct hs as [|h0 hs']; [done|]. exists (S i). split; [exact Hi|]. cbn in *. lia. }
      destruct Hold as (j & Hj & Hd). destruct (Hslot j s Hj) as [Hsl (r & Hr' & Htr')]. split; [done|]. exists r. split; [|done].
      replace (n + 1 - Z.of_nat (length hs1 + 1) + Z.of_nat i) with (n - Z.of_nat (length hs) + Z.of_nat j) by lia. rewrite list_lookup_insert_ne; [done|].
      intros E. apply Z2Nat.inj in E; [|apply Z.mod_pos_bound; lia..]. apply lookup_lt_Some in Hj.
      pose proof (Z.div_mod n 8). pose proof (Z.div_mod (n - Z.of_nat (length hs) + Z.of_nat j) 8). lia.
    + pose proof (lookup_lt_Some _ _ _ Hi) as Hlt'. rewrite length_app in Hlt'. cbn in Hlt'. assert (i = length hs1) as -> by lia.
      rewrite lookup_app_r, Nat.sub_diag in Hi by lia. injection Hi as <-. split; [rewrite length_take; lia|]. exists row'. split; [|done].
      replace (n + 1 - Z.of_nat (length hs1 + 1) + Z.of_nat (length hs1)) with n by lia. apply list_lookup_insert_eq. rewrite Hs. apply mod8_range.
Qed.

(** Nothing but the text and the command line has changed. *)
Definition only_command (t t' : terminal) : Prop := only_text (set_t_command (t_command t') (set_t_command_len (t_command_len t') t)) t'.
Lemma only_command_refl t : only_command t t.
Proof. by destruct t. Qed.
Lemma only_command_trans t1 t2 t3 : only_command t1 t2 → only_command t2 t3 → only_command t1 t3.
Proof. unfold only_command, only_text. intros -> ->. done. Qed.
Lemma only_command_remembers t t' hs : only_command t t' → remembers t hs → remembers t' hs.
Proof. intros Ho [? ? ?]. rewrite Ho. by split. Qed.

Lemma erase_command_wp fuel t : text_ok t → is_i32 (ww (t_window t)) → 0 ≤ t_command_len t ≤ 95 → t_command_len t < Z.of_nat fuel →
  wp (erase_command fuel) (λ _ t', text_ok t' ∧ only_text (set_t_command_len 0 t) t') t.
Proof.
  revert t. induction fuel as [|fuel IH]; intros t Ht Hw Hl Hf; [lia|]. cbn [erase_command]. do 2 wp_step. destruct (Z.ltb_spec 0 (t_command_len t)).
  - u32_simp. do 3 wp_step. eapply write_ok; [destruct Ht as [[s Hs] ?]; split; [exists s; by destruct Hs|done]|apply char_text; lia|done|].
    intros t1 Ht1 Ho _. eapply wp_mono; [apply IH; [done|by rewrite Ho|rewrite Ho; cbn; lia|rewrite Ho; cbn; lia]|].
    intros _ t2 [Ht2 Ho2]. split; [done|]. eapply only_text_trans; [|exact Ho2]. rewrite Ho. by destruct t.
  - wp_step. split; [done|]. replace 0 with (t_command_len t) by lia. by destruct t.
Qed.

Lemma put_command_wp i c t (Q : unit → terminal → Prop) : 0 ≤ i < Z.of_nat (length (t_command t)) →
  Q tt (set_t_command (<[Z.to_nat i := c]> (t_command t)) t) → wp (put_command i c) Q t.
Proof. intros Hi HQ. unfold put_command. do 3 wp_step. eapply wp_lift; [by apply awrite_eq|]. by wp_step. Qed.

(** One more character of the command line, shown on the screen. *)
Lemma type_char_wp c t (Q : unit → terminal → Prop) : text_ok t → is_i32 (ww (t_window t)) → command_ok t → t_command_len t < 95 → 0 < c < 256 →
  (∀ t', text_ok t' → only_command t t' → command_ok t' → t_command_len t' = t_command_len t + 1 →
     take (Z.to_nat (t_command_len t + 1)) (t_command t') = take (Z.to_nat (t_command_len t)) (t_command t) ++ [c] → Q tt t') →
  wp (_ ← put_command (t_command_len t) c; _ ← modify (set_t_command_len (t_command_len t +% 1)); write [c; 0]) Q t.
Proof.
  intros Ht Hw [Hs Hu He Hl] Hlt Hc HQ. wp_step. apply put_command_wp; [lia|]. do 2 wp_step. u32_simp.
  eapply write_ok; [destruct Ht as [[s Hsh] ?]; split; [exists s; by destruct Hsh|done]|by apply char_text|done|].
  intros t' Ht' Ho _. apply HQ; [done|unfold only_command; rewrite Ho; by destruct t| |by rewrite Ho|].
  - rewrite Ho. split; cbn; [by rewrite length_insert|by apply Forall_insert; [|unfold is_u8; lia]|rewrite list_lookup_insert_ne by lia; done|lia].
  - rewrite Ho. cbn. replace (Z.to_nat (t_command_len t + 1)) with (S (Z.to_nat (t_command_len t))) by lia.
    rewrite (take_S_r _ _ c) by (apply list_lookup_insert_eq; lia). by rewrite take_insert_ge.
Qed.

Lemma retype_wp slot row str fuel t k : text_in row str → (length str ≤ 95)%nat → 0 ≤ slot → t_history t !! Z.to_nat slot = Some row →
  text_ok t → is_i32 (ww (t_window t)) → command_ok t → t_command_len t = Z.of_nat k → take k (t_command t) = take k str → (k ≤ length str)%nat → (length str - k < fuel)%nat →
  wp (retype fuel slot (Z.of_nat k)) (λ _ t', text_ok t' ∧ only_command t t' ∧ command_ok t' ∧ t_command_len t' = Z.of_nat (length str) ∧ take (length str) (t_command t') = str) t.
Proof.
  intros Hrow Hlen Hslot. destruct (text_in_inv _ _ Hrow) as (rest & Er & Hch). revert t k. induction fuel as [|fuel IH]; intros t k Eh Ht Hw Hc El Etk Hk Hf; [lia|]. cbn [retype].
  destruct (aread_text str rest (Z.of_nat k) Hch ltac:(lia)) as (c & Ec & Hz & Hlt). rewrite <- Er in Ec. wp_step. unfold get_history. do 3 wp_step. eapply wp_lift; [by apply aread_Some|]. eapply wp_lift; [exact Ec|].
  destruct (Z.eqb_spec c 0) as [E|Hne].
  { wp_step. assert (k = length str) as -> by lia. rewrite (take_ge str) in Etk by lia. split_and!; [done|apply only_command_refl|done|done|done]. }
  assert (Hkl : (k < length str)%nat) by lia. specialize (Hlt ltac:(lia)). rewrite Nat2Z.id in Hlt. pose proof (Forall_lookup_1 _ _ _ _ Hch Hlt) as Hc'. cbn in Hc'.
  do 2 wp_step. rewrite El. u32_simp. rewrite (proj2 (Z.ltb_lt _ COMMAND_SIZE)) by (change COMMAND_SIZE with 96; lia).
  assert (W := type_char_wp c t (λ _ t', wp (retype fuel slot (Z.of_nat k + 1)) (λ _ t', text_ok t' ∧ only_command t t' ∧ command_ok t' ∧ t_command_len t' = Z.of_nat (length str) ∧ take (length str) (t_command t') = str) t') Ht Hw Hc ltac:(lia) Hc').
  rewrite El in W. u32_simp. destruct W as ([] & t1 & E & HQ).
  - intros t1 Ht1 Ho1 Hc1 El1 Etk1. replace (Z.of_nat k + 1) with (Z.of_nat (S k)) in * by lia. rewrite !Nat2Z.id in Etk1. eapply wp_mono; [apply (IH t1 (S k)); try done; [by rewrite Ho1|by rewrite Ho1| |lia]|].
    + rewrite Etk1, Etk. symmetry. by apply take_S_r.
    + intros _ t2 (? & Ho2 & ? & ? & ?). split_and!; try done. by eapply only_command_trans.
  - unfold mbind, M_bind in E. revert E. destruct (put_command _ _ _) as [[[] t2]|] eqn:E2; [|done]. intros E. wp_step. eexists _, _. split; [exact E2|].
    change (modify (set_t_command_len (Z.of_nat k + 1)) t2) with (Some (tt, set_t_command_len (Z.of_nat k + 1) t2)) in E. do 2 wp_step. wp_step. eexists _, _. split; [exact E|]. exact HQ.
Qed.

(** The index that the arrow keys lead to. *)
Definition recall_index (hs : list (list Z)) (i delta : Z) : Z :=
  let max := Z.of_nat (length hs) - 1 in
  if i <? 0 then max else Z.max 0 (Z.min (i + delta) max).

Lemma recall_history_wp delta m t hs : metrics_ok m → term_ok m t hs → -1 ≤ delta ≤ 1 → wp (recall_history delta) (λ _ t',
  if bool_decide (hs = []) then t' = t
  else ∃ str, hs !! Z.to_nat (recall_index hs (t_history_index t) delta) = Some str ∧ term_ok m t' hs ∧
    t_window t' = t_window t ∧ t_history_count t' = t_history_count t ∧ t_history_index t' = recall_index hs (t_history_index t) delta ∧
    t_command_len t' = Z.of_nat (length str) ∧ take (length str) (t_command t') = str) t.
Proof.
  intros Hm Hok Hd. pose proof Hok as [Hw Ht Hc Hr Hi]. pose proof (window_i32 _ _ Hm Hw) as Hw32. pose proof Hr as [[Hs1 Hs2] [Hcu Hcount] Hslot]. unfold recall_history. do 2 wp_step.
  unfold is_u32 in Hcu. destruct (Z.eqb_spec (t_history_count t) 0) as [E|Hne].
  { wp_step. rewrite bool_decide_eq_true_2; [done|]. destruct hs; [done|]. cbn in Hcount. lia. }
  assert (Hnn : hs ≠ []) by (intros ->; cbn in Hcount; lia). rewrite bool_decide_eq_false_2 by done. set (n := t_history_count t) in *. set (max := Z.of_nat (length hs) - 1).
  do 3 wp_step. assert (checked (i32 (if n <? COMMAND_HISTORY then n else COMMAND_HISTORY) - 1) = Some max) as ->.
  { change COMMAND_HISTORY with 8. destruct (Z.ltb_spec n 8); i32_simp; f_equal; unfold max; lia. }
  eapply wp_lift; [done|]. wp_step. set (i := recall_index hs (t_history_index t) delta).
  apply (wp_mono _ (λ v t', t' = t ∧ (let v := if v <? 0 then 0 else v in if max <? v then max else v) = i)).
  { unfold i, recall_index. fold max. destruct (Z.ltb_spec (t_history_index t) 0).
    - wp_step. split; [done|]. rewrite (proj2 (Z.ltb_ge max 0)) by (unfold max; lia). cbn. by rewrite Z.ltb_irrefl.
    - apply wp_checked; [unfold is_i32; lia|]. split; [done|]. cbn. destruct (Z.ltb_spec (t_history_index t + delta) 0); case_match; bool_to_prop; unfold max in *; lia. }
  intros v t0 [-> Ev]. cbn zeta in Ev |- *. rewrite Ev. assert (Hir : 0 ≤ i ≤ max) by (unfold i, recall_index, max in *; destruct (_ <? 0); lia).
  destruct (lookup_lt_is_Some_2 hs (Z.to_nat i)) as [str Hstr]; [unfold max in *; lia|]. destruct (Hslot _ _ Hstr) as [Hsl (row & Hrow & Htr)].
  do 3 wp_step. eapply wp_mono; [apply erase_command_wp; [destruct Ht as [[s Hs] ?]; split; [exists s; by destruct Hs|done]|done|by destruct Hc|destruct Hc; change (Z.to_nat COMMAND_SIZE + 1)%nat with 97%nat; cbn; lia]|].
  intros _ t1 [Ht1 Ho1]. wp_step. apply wp_checked; [unfold is_i32, max in *; lia|]. do 2 wp_step. u32_simp. change COMMAND_HISTORY with 8.
  eapply wp_mono.
  { apply (retype_wp _ row str _ _ 0); [exact Htr|done|apply Z.mod_pos_bound; lia| |destruct Ht1 as [[s Hs] ?]; split; [exists s; by destruct Hs|done]|by rewrite Ho1| |done|done|lia|change (Z.to_nat COMMAND_SIZE) with 96%nat; lia].
    - rewrite Ho1. cbn. rewrite <- Hrow. do 2 f_equal. rewrite Z2Nat.id by lia. unfold max in *. f_equal. u32_simp. lia.
    - rewrite Ho1. destruct Hc. split; cbn; try done. }
  intros _ t2 (Ht2 & Ho2 & Hc2 & El & Etk). exists str. split; [done|]. rewrite Ho1 in Ho2. assert (Hrm : remembers t2 hs) by (rewrite Ho2; by split). rewrite Ho2 in *. split_and!; try done.
  split; try done. cbn. unfold max in *. lia.
Qed.

(** ** Properties *)

Lemma push_history_ok m line t hs : term_ok m t hs → is_text line → wp (push_history line) (λ _ t',
  (∃ hs', term_ok m t' hs') ∧ t_window t' = t_window t ∧ t_command t' = t_command t ∧ t_command_len t' = t_command_len t) t.
Proof.
  intros Hok (str & Ht & _). pose proof Hok as [Hw Htx Hcm Hr Hi]. eapply push_history_wp; [exact Ht|exact Hr|split; [by exists hs|done]|]. intros _ h hs' Hr' _. split; [|done]. exists hs'.
  split; cbn; try done; [|by destruct Hcm|by destruct Hr']. destruct Htx as [[s Hs] ?]. split; [exists s; by destruct Hs|done].
Qed.

(** Pressing the up arrow [n] times. *)
Fixpoint recalls (n : nat) : M terminal unit :=
  match n with O => mret tt | S n => _ ← recalls n; recall_history (-1) end.

Lemma recalls_wp m n t hs : metrics_ok m → term_ok m t hs → t_history_index t = -1 → hs ≠ [] →
  wp (recalls (S n)) (λ _ t', term_ok m t' hs ∧ t_window t' = t_window t ∧ t_history_index t' = Z.max 0 (Z.of_nat (length hs) - 1 - Z.of_nat n) ∧
    ∃ str, hs !! (length hs - 1 - n)%nat = Some str ∧ t_command_len t' = Z.of_nat (length str) ∧ take (length str) (t_command t') = str) t.
Proof.
  intros Hm Hok Hi Hne. assert (Hl : (0 < length hs)%nat) by (destruct hs; cbn; [done|lia]). cbn [recalls]. induction n as [|n IH].
  - cbn [recalls]. wp_step. wp_step. eapply wp_mono; [by eapply recall_history_wp|]. intros [] t' H. cbn beta in H. rewrite bool_decide_eq_false_2 in H by done. destruct H as (str & Hs & Hok' & Ew & _ & Ei & El & Et).
    rewrite Hi in Hs, Ei. unfold recall_index in *. cbn in Hs, Ei. split_and!; [done|done|lia|]. exists str. split; [|done]. rewrite <- Hs. f_equal. lia.
  - cbn [recalls]. wp_step. eapply wp_mono; [exact IH|]. intros _ t1 (Hok1 & Ew1 & Ei1 & _). eapply wp_mono; [by eapply recall_history_wp|]. intros [] t' H. cbn beta in H. rewrite bool_decide_eq_false_2 in H by done.
    destruct H as (str & Hs & Hok' & Ew & _ & Ei & El & Et). rewrite Ei1 in Hs, Ei. unfold recall_index in *. rewrite (proj2 (Z.ltb_ge _ 0)) in * by lia.
    split_and!; [done|congruence|lia|]. exists str. split; [|done]. rewrite <- Hs. f_equal. lia.
Qed.

(** C24. What is written to the terminal is what it shows: on every text, with wrapping
    at the width of the window, newlines and backspaces, the array of 96 lines holds
    the last lines of the unbounded sheet on which the same text is written; the
    command line and the history are untouched and the view is at the bottom. *)
Theorem terminal_write_spec m t hs s text str : metrics_ok m → term_ok m t hs → shows t s → text_in text str → Z.of_nat (length str) < 4294967295 →
  ∃ t', write text t = Some (tt, t') ∧ shows t' (sheet_write (text_cols (t_window t)) str s) ∧ term_ok m t' hs ∧
    t_scroll t' = 0 ∧ t_command t' = t_command t ∧ t_command_len t' = t_command_len t ∧ t_window t' = t_window t.
Proof.
  intros Hm Hok Hs Ht Hl. destruct (write_text_wp text str t s Hs Ht (window_i32 _ _ Hm (te_window _ _ _ Hok)) Hl) as ([] & t' & E & Hs' & Ho & Hz). exists t'.
  pose proof (shows_count _ _ Hs'). split_and!; [done|done| |done|by rewrite Ho|by rewrite Ho|by rewrite Ho]. eapply term_ok_text; [exact Hok| |exact Ho]. split; [by eexists|lia].
Qed.

(** C25. The command history: after a command has been entered, pressing the up arrow
    once brings it back to the command line, and pressing it [n] times more brings back
    the [n]-th command before it, of which the eight newest are kept; going on stays at
    the oldest. *)
Theorem terminal_history_recall m t hs line str n : metrics_ok m → term_ok m t hs → text_in line str → str ≠ [] → (length str ≤ 95)%nat →
  t_history_count t < 4294967295 →
  ∃ t1 t2 old, push_history line t = Some (tt, t1) ∧ recalls (S n) t1 = Some (tt, t2) ∧
    remember str hs !! (length (remember str hs) - 1 - n)%nat = Some old ∧ (n = 0%nat → old = str) ∧
    t_command_len t2 = Z.of_nat (length old) ∧ take (length old) (t_command t2) = old ∧ term_ok m t2 (remember str hs).
Proof.
  intros Hm Hok Ht Hne Hl Hc. pose proof Hok as [Hw Htx Hcm Hr Hi].
  assert (W : wp (push_history line) (λ _ t', term_ok m t' (remember str hs) ∧ t_history_index t' = -1) t).
  { eapply push_history_wp; [exact Ht|exact Hr|done|]. intros _ h hs' Hr' E'. rewrite (E' Hc) in Hr'. split; [|done]. split; cbn; try done; [|by destruct Hcm|by destruct Hr'].
    destruct Htx as [[s Hs] ?]. split; [exists s; by destruct Hs|done]. }
  destruct W as ([] & t1 & E1 & Hok1 & Ei). assert (Hrn : remember str hs ≠ []) by (unfold remember; by destruct (if _ : bool then hs else _)).
  destruct (recalls_wp m n t1 _ Hm Hok1 Ei Hrn) as ([] & t2 & E2 & Hok2 & _ & _ & old & Eo & El & Et). exists t1, t2, old. split_and!; try done.
  intros ->. unfold remember in Eo. rewrite length_app in Eo. cbn [length] in Eo. rewrite Nat.sub_0_r, Nat.add_sub, lookup_app_r, Nat.sub_diag in Eo by lia. injection Eo as <-. by rewrite take_ge.
Qed.
