(* ===== verification/UtilityApps.v ===== *)
(** * The utility windows, kernel/gui/apps/utility_apps.cpp

    The file explorer, the system monitor and the about window: one class with a kind.
    Where they open, which file a click in the explorer means, and the names by which
    files are recognized. *)

From Stdlib Require Import ZArith Lia Bool String.
From stdpp Require Import base numbers list list_numbers.
From S2P Require Import Prelude Runtime Windows GuiKernel.

Inductive UtilityKind := KindFiles | KindMonitor | KindAbout.
#[export] Instance UtilityKind_eq_dec : EqDecision UtilityKind.
Proof. solve_decision. Defined.

Record utility := MkUtility { u_kind : UtilityKind; u_window : Window }.
Definition set_u_kind v u := MkUtility v (u_window u).
Definition set_u_window v u := MkUtility (u_kind u) v.

Definition title (u : utility) : list Z :=
  match u_kind u with KindFiles => c_str "FILE EXPLORER" | KindMonitor => c_str "SYSTEM MONITOR" | KindAbout => c_str "ABOUT MYOS" end.

(** [w], [h], [x] and [y] are the successive values of the fields of window_. *)
Definition kind_offset (kind : UtilityKind) : Z := match kind with KindFiles => -36 | KindMonitor => 16 | KindAbout => 56 end.
Definition utility_geometry (kind : UtilityKind) (m : Metrics) (win : Window) : option Window :=
  let w := if 640 <=? m_width m then 360 else 230 in
  let h := if 480 <=? m_height m then 260 else 150 in
  mw ← checked (i32 (m_width m) - 12);
  let w := if mw <? w then mw else w in
  mh ← checked (i32 (m_height m) - i32 (taskbar_h m)); mh ← checked (mh - 12);
  let h := if mh <? h then mh else h in
  let w := if w <? WINDOW_MIN_W then WINDOW_MIN_W else w in
  let h := if h <? WINDOW_MIN_H then WINDOW_MIN_H else h in
  let offset := kind_offset kind in
  x ← checked (i32 ((m_width m -% u32 w) / 2) + offset);
  let y := if 260 <? m_height m then 58 + Z.quot offset 4 else 30 in
  let x := if x <? 4 then 4 else x in
  let y := if y <? 4 then 4 else y in
  Some (set_y y (set_x x (set_h h (set_w w win)))).

Definition u_on_window (f : Window → Window) : M utility unit := modify (λ u, set_u_window (f (u_window u)) u).
Definition u_default_geometry (m : Metrics) : M utility unit :=
  u ← gets id; w ← lift (utility_geometry (u_kind u) m (u_window u)); modify (set_u_window w).

Definition utility_initialize (kind : UtilityKind) (m : Metrics) : M utility unit :=
  _ ← modify (set_u_kind kind); _ ← u_default_geometry m; u_on_window reset_window.

Definition utility_focus (z : Z) : M utility unit := u_on_window (focus_window z).
Definition utility_open_window (m : Metrics) (z : Z) : M utility unit :=
  w ← gets u_window;
  _ ← when (negb (wopen w))
        (_ ← u_on_window (set_open true); _ ← u_on_window (set_mode Normal);
         _ ← u_default_geometry m; u_on_window save_geometry);
  utility_focus z.
Definition utility_close : M utility unit := u_on_window close_window.
Definition utility_minimize : M utility unit := u_on_window minimize_window.
Definition utility_toggle_maximize (m : Metrics) (z : Z) : M utility unit := _ ← u_on_window (toggle_window m); utility_focus z.

(** ** Names of files *)

(** has_suffix of utility_apps.cpp and file_name_has_suffix of gui.cpp. *)
Definition has_suffix (name suffix : list Z) : option bool :=
  name_len ← kstrlen name;
  suffix_len ← kstrlen suffix;
  if name_len <? suffix_len then Some false
  else
    let start := name_len -% suffix_len in
    r ← for_exit 0 suffix_len (λ i, a ← lift (aread name (start +% i)); b ← lift (aread suffix i);
          mret (if a =? b then None else Some tt)) tt;
    Some (match fst r with Some _ => false | None => true end).

Definition file_icon_label (name : list Z) : option (list Z) :=
  elf ← has_suffix name (c_str ".elf");
  if elf : bool then Some (c_str "ELF")
  else mx ← has_suffix name (c_str ".mx");
  if mx : bool then Some (c_str "MX")
  else img ← has_suffix name (c_str ".myimg");
  if img : bool then Some (c_str "MYIMG")
  else txt ← has_suffix name (c_str ".txt");
  if txt : bool then Some (c_str "TXT")
  else motd ← has_suffix name (c_str "/motd");
  if motd : bool then Some (c_str "TXT") else Some (c_str "FILE").

(** ** The explorer *)

(** The loop over the rows. *)
Definition row_at (w : Window) (count x y : Z) : option Z :=
  row_x ← checked (wx w + 10);
  row_y ← checked (wy w + TITLEBAR_H); row_y ← checked (row_y + 26);
  row_w ← checked (ww w - 28);
  r ← for_exit 0 count (λ i, d ← lift (checked (i32 i * 12)); top ← lift (checked (row_y + d));
        b ← lift (contains (MkRect row_x top row_w 11) x y); mret (if (b : bool) then Some i else None)) tt;
  Some (match fst r with Some i => i | None => -1 end).

Definition file_index_at {K} `{GuiKernel K} (u : utility) (x y : Z) : M K Z :=
  if negb (bool_decide (u_kind u = KindFiles)) || negb (visible (u_window u)) then mret (-1)
  else count ← k_diskfs_file_count; lift (row_at (u_window u) count x y).

(** ** Lemmas *)

Lemma utility_geometry_ok kind m w : metrics_ok m → ∃ w', utility_geometry kind m w = Some w' ∧ placed m (win_rect w') ∧
  restore_rect w' = restore_rect w ∧ wopen w' = wopen w ∧ wfocused w' = wfocused w ∧ wmode w' = wmode w ∧ wz w' = wz w.
Proof.
  intros []. change (returns (utility_geometry kind m w) (λ w', placed m (win_rect w') ∧
    restore_rect w' = restore_rect w ∧ wopen w' = wopen w ∧ wfocused w' = wfocused w ∧ wmode w' = wmode w ∧ wz w' = wz w)).
  unfold utility_geometry, WINDOW_MIN_W, WINDOW_MIN_H. cbv zeta. rewrite !i32_small by (unfold is_i32; lia).
  set (w0 := if 640 <=? m_width m then 360 else 230). assert (Hw0 : 230 ≤ w0 ≤ 360 ∧ w0 ≤ m_width m - 90) by (unfold w0; destruct (Z.leb_spec 640 (m_width m)); lia).
  set (h0 := if 480 <=? m_height m then 260 else 150). assert (Hh0 : 150 ≤ h0 ≤ 260 ∧ h0 ≤ m_height m - taskbar_h m - 28) by (unfold h0; destruct (Z.leb_spec 480 (m_height m)); lia).
  assert (Ho : -36 ≤ kind_offset kind ≤ 56) by (destruct kind; cbn; lia).
  set (y0 := if 260 <? m_height m then 58 + kind_offset kind ÷ 4 else 30). assert (Hy0 : 30 ≤ y0 ≤ 72) by (unfold y0; destruct (260 <? m_height m), kind; vm_compute; split; congruence). clearbody w0 h0 y0.
  do 6 ret_step. rewrite ?if_max, ?if_min, !Z.min_l, (Z.max_l w0), (Z.max_l h0) by lia. pose proof (half (m_width m - w0)). u32_simp. rewrite i32_small by (unfold is_i32; lia). repeat ret_step.
  split; [|done]. split; cbn; lia.
Qed.

(** The window of a utility that is opened. *)
Lemma utility_open_wp m z u : metrics_ok m → window_ok m (u_window u) → is_u32 z → wp (utility_open_window m z) (λ _ u', u_kind u' = u_kind u ∧ window_ok m (u_window u') ∧
  wopen (u_window u') = true ∧ wfocused (u_window u') = true ∧ wz (u_window u') = z ∧ wmode (u_window u') = if wopen (u_window u) then wmode (u_window u) else Normal) u.
Proof.
  intros Hm Hw Hz. unfold utility_open_window, utility_focus, u_on_window. do 3 wp_step.
  apply (wp_mono _ (λ _ u', u_kind u' = u_kind u ∧ window_ok m (u_window u') ∧ wopen (u_window u') = true ∧ wmode (u_window u') = if wopen (u_window u) then wmode (u_window u) else Normal)).
  - apply wp_when; destruct (wopen (u_window u)) eqn:Eo; try done. intros _. do 5 wp_step. unfold u_default_geometry. do 2 wp_step. cbn.
    destruct (utility_geometry_ok (u_kind u) m (set_mode Normal (set_open true (u_window u))) Hm) as (w & E & Hp & Er & Eo' & Ef & Em & Ez). wp_step. eapply wp_lift; [exact E|]. do 2 wp_step. cbn.
    split; [done|]. split; [|done]. destruct Hw. split; cbn; [done|done|by rewrite Eo'|by rewrite Ez].
  - intros _ u1 (Ek & Hw1 & Eo & Em). wp_step. cbn. split; [done|]. split; [by apply focus_ok|]. unfold focus_window. rewrite Eo. cbn. done.
Qed.

Lemma kstrlen_text buf str : text_in buf str → kstrlen buf = Some (Z.of_nat (length str)).
Proof. intros [(rest & -> & Hnz)%cstring_spec _]. by apply kstrlen_ok. Qed.

Lemma text_read buf str i : text_in buf str → 0 ≤ i < Z.of_nat (length str) → aread buf i = str !! Z.to_nat i.
Proof. intros (rest & -> & _)%text_in_inv Hi. rewrite aread_app_l by done. apply aread_nat; lia. Qed.

(** The comparison is that of the last characters. *)
Lemma has_suffix_spec name n suffix s : text_in name n → text_in suffix s → Z.of_nat (length n) < 4294967296 →
  ∃ b, has_suffix name suffix = Some b ∧ (b = true ↔ s `suffix_of` n).
Proof.
  intros Hn Hs Hl. unfold has_suffix. rewrite (kstrlen_text _ _ Hn), (kstrlen_text _ _ Hs). cbn.
  destruct (Z.ltb_spec (Z.of_nat (length n)) (Z.of_nat (length s))) as [Hlt|Hge].
  { exists false. split; [done|]. split; [done|]. intros [k ->]. rewrite length_app in Hlt. lia. }
  u32_simp. set (d := Z.of_nat (length n) - Z.of_nat (length s)).
  match goal with |- context [for_exit 0 _ ?f] => assert (W : wp (for_exit 0 (Z.of_nat (length s)) f) (λ r _, r = None ↔ drop (Z.to_nat d) n = s) tt) end.
  { eapply (wp_for_exit _ _ _ (λ i _, take (Z.to_nat i) (drop (Z.to_nat d) n) = take (Z.to_nat i) s)); [lia|done| |].
    - intros i [] Hi Hp. u32_simp. destruct (lookup_lt_is_Some_2 s (Z.to_nat i) ltac:(lia)) as [b Hb]. destruct (lookup_lt_is_Some_2 n (Z.to_nat (d + i)) ltac:(unfold d; lia)) as [a Ha].
      assert (Ha' : drop (Z.to_nat d) n !! Z.to_nat i = Some a) by (rewrite lookup_drop, <- Ha; f_equal; unfold d in *; lia).
      wp_step. eapply wp_lift; [rewrite (text_read _ n) by (done || (unfold d; lia)); exact Ha|]. wp_step. eapply wp_lift; [rewrite (text_read _ s) by (done || lia); exact Hb|]. wp_step.
      destruct (Z.eqb_spec a b) as [->|Hab].
      + replace (Z.to_nat (i + 1)) with (S (Z.to_nat i)) by lia. rewrite (take_S_r _ _ b Ha'), (take_S_r _ _ b Hb), Hp. done.
      + split; [done|]. intros E. rewrite E in Ha'. congruence.
    - intros [] Hp. split; [|done]. intros _. rewrite Nat2Z.id in Hp. rewrite (take_ge s) in Hp by done. etransitivity; [|exact Hp]. symmetry. apply take_ge. rewrite length_drop. unfold d. lia. }
  destruct W as (r & [] & E & Hr). rewrite E. cbn. exists (match r with Some _ => false | None => true end). split; [done|]. transitivity (r = None); [by destruct r|]. rewrite Hr. split.
  - intros E'. exists (take (Z.to_nat d) n). etransitivity; [symmetry; apply (take_drop (Z.to_nat d))|]. by rewrite E'.
  - intros [k ->]. unfold d. rewrite length_app. replace (Z.to_nat _) with (length k) by lia. by rewrite drop_app_length.
Qed.

(** A row of the explorer is hit where it is drawn. *)
Definition in_row (w : Window) (i x y : Z) : Prop := in_rect (MkRect (wx w + 10) (wy w + 44 + i * 12) (ww w - 28) 11) x y.

Lemma row_at_ok m w count x y : metrics_ok m → window_ok m w → 0 ≤ count ≤ 4096 →
  ∃ i, row_at w count x y = Some i ∧ (0 ≤ i < count ∧ in_row w i x y ∨ i = -1 ∧ ∀ j, 0 ≤ j < count → ¬ in_row w j x y).
Proof.
  intros [] [[? ? ? ?] _ _ _] Hc. cbn in *. unfold row_at, TITLEBAR_H. i32_simp.
  match goal with |- context [for_exit 0 _ ?f] => assert (W : wp (for_exit 0 count f) (λ r _, match r with Some i => 0 ≤ i < count ∧ in_row w i x y | None => ∀ j, 0 ≤ j < count → ¬ in_row w j x y end) tt) end.
  { eapply (wp_for_exit _ _ _ (λ i _, ∀ j, 0 ≤ j < i → ¬ in_row w j x y)); [lia|intros; lia| |done].
    intros i [] Hi Hp. i32_simp. do 3 (wp_step; i32_simp; eapply wp_lift; [first [apply contains_ok; cbn; unfold is_i32; lia|reflexivity]|]). wp_step.
    replace (wy w + 18 + 26 + i * 12) with (wy w + 44 + i * 12) by lia. fold (in_row w i x y). case_bool_decide; [done|].
    intros j Hj. destruct (decide (j = i)) as [->|]; [done|]. apply Hp. lia. }
  destruct W as (r & [] & E & Hr). rewrite E. cbn. eexists. split; [done|]. destruct r; [by left|by right].
Qed.
