(* ===== verification/Assets.v ===== *)
(** * Images, kernel/assets/assets.c

    The wallpaper and the cursors, and drawing them: the wallpaper covers a surface, a
    cursor changes only pixels in the rectangle of its image around the pointer. *)

From Stdlib Require Import ZArith Lia Bool.
From stdpp Require Import base numbers list gmap sets.
From S2P Require Import Prelude Windows Memory Graphics GraphicsPaint GraphicsBlit.

Definition MYIMG_RGB565 : Z := 1.
Definition MYIMG_ARGB32 : Z := 2.

(** [bm_pixels] is the address of the image, 0 where there is none. *)
Record asset_bitmap := AssetBitmap {
  bm_width : Z; bm_height : Z; bm_format : Z; bm_hotspot_x : Z; bm_hotspot_y : Z; bm_payload_size : Z; bm_pixels : Z }.
Record assets := Assets { wallpaper : asset_bitmap; cursor : asset_bitmap; text_cursor : asset_bitmap }.

Definition rgb565_to_rgb888 (value : Z) : Z :=
  let r := Z.land (Z.shiftr value 11) 0x1F in
  let g := Z.land (Z.shiftr value 5) 0x3F in
  let b := Z.land value 0x1F in
  let r := Z.lor (u32 (Z.shiftl r 3)) (Z.shiftr r 2) in
  let g := Z.lor (u32 (Z.shiftl g 2)) (Z.shiftr g 4) in
  let b := Z.lor (u32 (Z.shiftl b 3)) (Z.shiftr b 2) in
  Z.lor (Z.lor (u32 (Z.shiftl r 16)) (u32 (Z.shiftl g 8))) b.

Definition surface_color_to_rgb888 (s : graphics_surface) (color : Z) : Z :=
  if bits_per_pixel s =? 16 then rgb565_to_rgb888 (u16 color)
  else if (bits_per_pixel s =? 24) || (bits_per_pixel s =? 32) then Z.land color 0x00FFFFFF
  else color.

Definition blend_rgb (dst src alpha : Z) : Z :=
  let sr := Z.land (Z.shiftr src 16) 0xFF in
  let sg := Z.land (Z.shiftr src 8) 0xFF in
  let sb := Z.land src 0xFF in
  let dr := Z.land (Z.shiftr dst 16) 0xFF in
  let dg := Z.land (Z.shiftr dst 8) 0xFF in
  let db := Z.land dst 0xFF in
  let inv := 255 -% alpha in
  Z.lor (Z.lor (u32 (Z.shiftl ((sr *% alpha +% dr *% inv) / 255) 16)) (u32 (Z.shiftl ((sg *% alpha +% dg *% inv) / 255) 8)))
    ((sb *% alpha +% db *% inv) / 255).

(** The bitmap that [text_mode && text_cursor.pixels != 0 ? &text_cursor : &cursor] points to. *)
Definition active_cursor (a : assets) (text_mode : bool) : asset_bitmap :=
  if text_mode && negb (bm_pixels (text_cursor a) =? 0) then text_cursor a else cursor a.

Definition assets_draw_wallpaper (a : assets) (surface : option graphics_surface) : M gfx bool :=
  match surface with
  | Some s =>
      let wp := wallpaper a in
      if negb (graphics_surface_is_valid surface) || (bm_pixels wp =? 0) || negb (bm_format wp =? MYIMG_RGB565) then mret false
      else
        let scale_x := (width s +% bm_width wp -% 1) / bm_width wp in
        let scale_y := (height s +% bm_height wp -% 1) / bm_height wp in
        let scale := if scale_y <? scale_x then scale_x else scale_y in
        let drawn_w := bm_width wp *% scale in
        let drawn_h := bm_height wp *% scale in
        let crop_x := if width s <? drawn_w then (drawn_w -% width s) / 2 else 0 in
        let crop_y := if height s <? drawn_h then (drawn_h -% height s) / 2 else 0 in
        _ ← for_ 0 (height s) (λ y,
              let sy := (y +% crop_y) / scale in
              let sy := if bm_height wp <=? sy then bm_height wp - 1 else sy in
              for_ 0 (width s) (λ x,
                let sx := (x +% crop_x) / scale in
                let sx := if bm_width wp <=? sx then bm_width wp - 1 else sx in
                v ← read_mem 2 (bm_pixels wp +% (sy *% bm_width wp +% sx) *% 2);
                graphics_put_pixel surface x y (rgb565_to_rgb888 v)));
        mret true
  | None => mret false
  end.

(** One pixel of the cursor at (px, py). *)
Definition draw_cursor_pixel (surface : option graphics_surface) (s : graphics_surface) (px py argb : Z) : M gfx unit :=
  let alpha := Z.shiftr argb 24 in
  if alpha =? 0 then mret tt
  else
    let color := Z.land argb 0x00FFFFFF in
    color ← (if alpha <? 255 then
               d ← graphics_get_pixel surface (u32 px) (u32 py);
               mret (blend_rgb (surface_color_to_rgb888 s d) color alpha)
             else mret color);
    graphics_put_pixel surface (u32 px) (u32 py) color.

Definition assets_draw_cursor (a : assets) (surface : option graphics_surface) (x y : Z) (text_mode : bool) : M gfx bool :=
  let active := active_cursor a text_mode in
  match surface with
  | Some s =>
      if negb (graphics_surface_is_valid surface) || (bm_pixels active =? 0) || negb (bm_format active =? MYIMG_ARGB32) then mret false
      else
        left ← lift (checked (x - bm_hotspot_x active));
        top ← lift (checked (y - bm_hotspot_y active));
        _ ← for_ 0 (bm_height active) (λ row, for_ 0 (bm_width active) (λ col,
              px ← lift (checked (left + i32 col));
              py ← lift (checked (top + i32 row));
              if (px <? 0) || (py <? 0) || (i32 (width s) <=? px) || (i32 (height s) <=? py) then mret tt
              else
                argb ← read_mem 4 (bm_pixels active +% (row *% bm_width active +% col) *% 4);
                draw_cursor_pixel surface s px py argb));
        mret true
  | None => mret false
  end.

Definition assets_cursor_width (a : assets) (text_mode : bool) : Z :=
  let active := active_cursor a text_mode in if negb (bm_pixels active =? 0) then bm_width active else 0.
Definition assets_cursor_height (a : assets) (text_mode : bool) : Z :=
  let active := active_cursor a text_mode in if negb (bm_pixels active =? 0) then bm_height active else 0.

(** ** Images in memory *)

(** An image as load_myimg accepts it: a known format, a payload of that size, loaded at
    an address where it fits. *)
Definition pixel_bytes (b : asset_bitmap) : Z := if bm_format b =? MYIMG_RGB565 then 2 else 4.
Record bitmap_ok (b : asset_bitmap) (m : mem) : Prop := {
  bo_width : 0 < bm_width b < 65536;
  bo_height : 0 < bm_height b < 65536;
  bo_hotspot : 0 ≤ bm_hotspot_x b < 65536 ∧ 0 ≤ bm_hotspot_y b < 65536;
  bo_pixels : 0 < bm_pixels b ∧ bm_pixels b + bm_width b * bm_height b * pixel_bytes b ≤ 2 ^ 32;
  bo_mapped : mapped m (bm_pixels b) (bm_width b * bm_height b * pixel_bytes b) }.
Definition loaded (b : asset_bitmap) (m : mem) : Prop := bm_pixels b = 0 ∨ bitmap_ok b m.
Record assets_ok (a : assets) (m : mem) : Prop := {
  ao_wallpaper : loaded (wallpaper a) m; ao_cursor : loaded (cursor a) m; ao_text : loaded (text_cursor a) m }.

(** Memory that is mapped stays mapped. *)
Definition keeps_mapped (m m' : mem) : Prop := ∀ a, is_Some (m' !! a) ↔ is_Some (m !! a).
Lemma loaded_mono b m m' : loaded b m → keeps_mapped m m' → loaded b m'.
Proof. intros [?|[]] Hk; [by left|]. right. split; try done. intros a Ha. by apply Hk, bo_mapped0. Qed.
Lemma assets_ok_mono a m m' : assets_ok a m → keeps_mapped m m' → assets_ok a m'.
Proof. intros [] Hk. split; by eapply loaded_mono. Qed.
Lemma painted_keeps s g g' f : painted s g g' f → keeps_mapped (gmem g) (gmem g').
Proof. intros [_ P]. exact (pt_mapped _ _ _ _ P). Qed.

Lemma active_loaded a m text_mode : assets_ok a m → loaded (active_cursor a text_mode) m.
Proof. intros []. unfold active_cursor. by destruct (_ && _). Qed.

(** Pixel [(x, y)] of an image is in its memory. *)
Lemma bitmap_pixel b m x y : bitmap_ok b m → 0 ≤ x < bm_width b → 0 ≤ y < bm_height b →
  bm_pixels b +% (y *% bm_width b +% x) *% pixel_bytes b = bm_pixels b + (y * bm_width b + x) * pixel_bytes b ∧
  mapped m (bm_pixels b + (y * bm_width b + x) * pixel_bytes b) (pixel_bytes b).
Proof.
  intros [Hw Hh _ [Hp He] Hm] Hx Hy. assert (Hb : pixel_bytes b = 2 ∨ pixel_bytes b = 4) by (unfold pixel_bytes; destruct (_ =? _); auto).
  assert (H1 : 0 ≤ y * bm_width b + x ∧ y * bm_width b + x + 1 ≤ bm_width b * bm_height b) by nia.
  assert (H2 : (y * bm_width b + x + 1) * pixel_bytes b ≤ bm_width b * bm_height b * pixel_bytes b) by nia.
  assert (H3 : 0 ≤ (y * bm_width b + x) * pixel_bytes b) by nia.
  assert (H4 : 0 ≤ y * bm_width b) by nia. assert (H5 : y * bm_width b + x ≤ (y * bm_width b + x) * pixel_bytes b) by nia.
  rewrite (u32_small (y * bm_width b)) by (unfold is_u32; lia). rewrite (u32_small (y * bm_width b + x)) by (unfold is_u32; lia).
  rewrite (u32_small (_ * pixel_bytes b)) by (unfold is_u32; lia). rewrite u32_small by (unfold is_u32; lia). split; [done|].
  eapply mapped_sub; [exact Hm|lia|lia].
Qed.

(** ** Drawing *)

(** What was drawn lies in a region. *)
#[export] Instance on_dec s x y : Decision (on s x y) := _.
Definition draws_in (s : graphics_surface) (g g' : gfx) (R : Z → Z → Prop) : Prop :=
  ∃ f, painted s g g' f ∧ ∀ x y, f x y ≠ None → R x y.
Lemma draws_in_refl s g R : draws_in s g g R.
Proof. exists nothing. split; [apply painted_nothing|done]. Qed.
Lemma draws_in_trans s g1 g2 g3 R : draws_in s g1 g2 R → draws_in s g2 g3 R → draws_in s g1 g3 R.
Proof.
  intros (f & P & Hf) (h & P' & Hh). exists (over h f). split; [by eapply painted_over|]. intros x y. unfold over. specialize (Hf x y). specialize (Hh x y). by destruct (h x y); auto.
Qed.
Lemma draws_in_mono s g g' (R R' : Z → Z → Prop) : draws_in s g g' R → (∀ x y, R x y → R' x y) → draws_in s g g' R'.
Proof. intros (f & P & Hf) HR. exists f. split; [done|]. auto. Qed.
Lemma draws_in_painted s g g' f (R : Z → Z → Prop) : painted s g g' f → (∀ x y, f x y ≠ None → R x y) → draws_in s g g' R.
Proof. intros. by exists f. Qed.

(** Only pixels of the surface are drawn. *)
Lemma draws_in_on s g g' R : draws_in s g g' R → draws_in s g g' (λ x y, R x y ∧ on s x y).
Proof.
  intros (f & P & Hf). exists (λ x y, if bool_decide (on s x y) then f x y else None). split; [eapply painted_ext; [exact P|]; intros x y Hon; by rewrite bool_decide_eq_true_2|].
  intros x y. case_bool_decide; [|done]. auto.
Qed.

(** A surface that can be drawn on. *)
Record drawable (s : graphics_surface) (g : gfx) : Prop := {
  dr_ok : surface_ok s; dr_mapped : surface_mapped s (gmem g); dr_bytes : bytes_ok (gmem g) }.
Lemma drawable_after s s' g g' R : draws_in s g g' R → drawable s' g → drawable s' g'.
Proof. intros (f & P & _) []. split; [done|by eapply painted_mapped|by eapply painted_bytes]. Qed.
Lemma draws_keeps s g g' R : draws_in s g g' R → keeps_mapped (gmem g) (gmem g').
Proof. intros (f & P & _). by eapply painted_keeps. Qed.

(** A loop of drawing operations. *)
Lemma for_draws s (R : Z → Z → Prop) (J : gfx → Prop) lo hi body g : lo ≤ hi → J g →
  (∀ i g1, lo ≤ i < hi → J g1 → wp (body i) (λ _ g2, draws_in s g1 g2 R ∧ J g2) g1) →
  wp (for_ lo hi body) (λ _ g', draws_in s g g' R ∧ J g') g.
Proof.
  intros Hle HJ Hb. apply (wp_for _ _ _ (λ _ g', draws_in s g g' R ∧ J g')); [done|split; [apply draws_in_refl|done]| |done].
  intros i g1 Hi [D HJ1]. eapply wp_mono; [by apply Hb|]. intros _ g2 [D2 HJ2]. split; [by eapply draws_in_trans|done].
Qed.

Lemma put_pixel_draws s x y color g (R : Z → Z → Prop) : drawable s g → 0 ≤ x → 0 ≤ y → R x y →
  wp (graphics_put_pixel (Some s) x y color) (λ _ g', draws_in s g g' R) g.
Proof.
  intros [Hok Hm Hb] Hx Hy HR. eapply wp_mono; [by apply put_pixel_wp|]. intros [] g' P. exists (dot x y (pixel_value s color)). split; [done|].
  intros x' y'. unfold dot. destruct (Z.eqb_spec x' x) as [->|], (Z.eqb_spec y' y) as [->|]; cbn; done.
Qed.

(** The rectangle of a cursor with its hot spot at [(x, y)]. *)
Definition cursor_area (b : asset_bitmap) (x y px py : Z) : Prop :=
  x - bm_hotspot_x b ≤ px < x - bm_hotspot_x b + bm_width b ∧ y - bm_hotspot_y b ≤ py < y - bm_hotspot_y b + bm_height b.

Lemma cursor_pixel_draws s px py argb g (R : Z → Z → Prop) : drawable s g → on s px py → is_u32 argb → R px py →
  wp (draw_cursor_pixel (Some s) s px py argb) (λ _ g', draws_in s g g' R) g.
Proof.
  intros D Hon Ha HR. pose proof (surface_extent s (dr_ok _ _ D)) as He. assert (Hx : is_u32 px ∧ is_u32 py) by (destruct Hon; unfold is_u32; lia). unfold draw_cursor_pixel. cbv zeta.
  destruct (_ =? 0); [wp_step; apply draws_in_refl|]. rewrite !u32_small by tauto. wp_step.
  destruct (pixel_is_Some s (dr_ok _ _ D) (gmem g) px py (dr_mapped _ _ D) Hon) as [v Hv].
  assert (Hput : ∀ color, wp (graphics_put_pixel (Some s) px py color) (λ _ g', draws_in s g g' R) g) by (intros color; destruct Hon; apply put_pixel_draws; [done|lia|lia|done]).
  destruct (_ <? 255); [|wp_step; apply Hput]. wp_step. eapply (get_pixel_wp s (dr_ok _ _ D)); [apply D|done|exact Hv|]. wp_step. apply Hput.
Qed.

Lemma draw_cursor_draws a s x y text_mode g : drawable s g → assets_ok a (gmem g) → width s ≤ 2147483647 → height s ≤ 2147483647 → 0 ≤ x ≤ 16384 → 0 ≤ y ≤ 16384 →
  wp (assets_draw_cursor a (Some s) x y text_mode) (λ _ g', draws_in s g g' (cursor_area (active_cursor a text_mode) x y)) g.
Proof.
  intros D Ha Hw Hh Hx Hy. unfold assets_draw_cursor. cbv zeta. set (b := active_cursor a text_mode) in *.
  destruct (_ || _ || _) eqn:E; [wp_step; apply draws_in_refl|]. bool_to_prop. destruct (active_loaded a (gmem g) text_mode Ha) as [?|Hb]; [done|]. fold b in Hb.
  assert (Ef : pixel_bytes b = 4) by (unfold pixel_bytes; replace (bm_format b) with MYIMG_ARGB32; done). pose proof Hb as [Hbw Hbh [Hhx Hhy] _ _].
  pose proof (surface_extent s (dr_ok _ _ D)) as He. do 2 (wp_step; apply wp_checked; [unfold is_i32; lia|]). wp_step.
  eapply wp_mono; [apply (for_draws s (cursor_area b x y) (λ g', drawable s g' ∧ bitmap_ok b (gmem g'))); [lia|done|]|intros _ g' [D' _]; wp_step; exact D'].
  intros row g1 Hrow [D1 Hb1]. apply (for_draws s (cursor_area b x y) (λ g', drawable s g' ∧ bitmap_ok b (gmem g'))); [lia|done|].
  clear g1 D1 Hb1. intros col g1 Hcol [D1 Hb1]. rewrite !(i32_small col), !(i32_small row) by (unfold is_i32; lia).
  do 2 (wp_step; apply wp_checked; [unfold is_i32; lia|]). rewrite (i32_small (width s)), (i32_small (height s)) by (unfold is_i32; lia).
  destruct (_ || _ || _ || _) eqn:Eo; [wp_step; split; [apply draws_in_refl|done]|]. bool_to_prop. wp_step.
  destruct (bitmap_pixel b (gmem g1) col row Hb1 Hcol Hrow) as [Ead Hmp]. rewrite Ef in Ead, Hmp. rewrite Ead. destruct (load_is_Some 4 (gmem g1) _ Hmp) as [v Hv].
  eapply read_mem_wp; [exact Hv|]. eapply wp_mono; [apply (cursor_pixel_draws s _ _ v g1 (cursor_area b x y)); [done|split; lia| |unfold cursor_area; lia]|].
  - pose proof (load_range 4 (gmem g1) _ _ (dr_bytes _ _ D1) Hv) as Hr. exact Hr.
  - intros [] g2 D2. split; [done|]. split; [by eapply drawable_after|]. destruct (loaded_mono b (gmem g1) (gmem g2)) as [E0|]; [by right|by eapply draws_keeps| |done]. lia.
Qed.

Lemma draw_wallpaper_draws a s g : drawable s g → assets_ok a (gmem g) →
  wp (assets_draw_wallpaper a (Some s)) (λ _ g', draws_in s g g' (λ _ _, True)) g.
Proof.
  intros D Ha. unfold assets_draw_wallpaper. cbv zeta. set (b := wallpaper a) in *. destruct (_ || _ || _) eqn:E; [wp_step; apply draws_in_refl|]. bool_to_prop.
  destruct (ao_wallpaper _ _ Ha) as [?|Hb]; [done|]. fold b in Hb. assert (Ef : pixel_bytes b = 2) by (unfold pixel_bytes; replace (bm_format b) with MYIMG_RGB565; done).
  pose proof Hb as [Hbw Hbh _ _ _]. pose proof (surface_extent s (dr_ok _ _ D)) as He. wp_step. set (scale := if _ / bm_height b <? _ / bm_width b then _ else _).
  set (crop_x := if width s <? _ then _ else _). set (crop_y := if height s <? _ then _ else _).
  assert (Hc : ∀ n k i, 0 < n → 0 ≤ (if n <=? u32 i / k then n - 1 else u32 i / k) < n ∨ k < 0).
  { intros n k i Hn. destruct (decide (k < 0)); [by right|left]. pose proof (u32_range i) as Hu. unfold is_u32 in Hu. destruct (Z.leb_spec n (u32 i / k)); [lia|].
    split; [|lia]. destruct (decide (k = 0)) as [->|]; [rewrite Z.div_0_r; lia|]. apply Z.div_pos; lia. }
  assert (Hs : ¬ scale < 0).
  { unfold scale. assert (∀ i n, 0 < n → 0 ≤ u32 i / n) as Hd by (intros i n Hn; pose proof (u32_range i) as Hu; unfold is_u32 in Hu; apply Z.div_pos; lia).
    pose proof (Hd (width s +% bm_width b - 1) (bm_width b) ltac:(lia)). pose proof (Hd (height s +% bm_height b - 1) (bm_height b) ltac:(lia)). destruct (_ <? _); lia. }
  eapply wp_mono; [apply (for_draws s (λ _ _, True) (λ g', drawable s g' ∧ bitmap_ok b (gmem g'))); [lia|done|]|intros _ g' [D' _]; wp_step; exact D'].
  intros y g1 Hy [D1 Hb1]. apply (for_draws s (λ _ _, True) (λ g', drawable s g' ∧ bitmap_ok b (gmem g'))); [lia|done|]. clear g1 D1 Hb1. intros x g1 Hx [D1 Hb1].
  destruct (Hc (bm_height b) scale (y + crop_y) ltac:(lia)) as [Hsy|]; [|done]. destruct (Hc (bm_width b) scale (x + crop_x) ltac:(lia)) as [Hsx|]; [|done].
  destruct (bitmap_pixel b (gmem g1) _ _ Hb1 Hsx Hsy) as [Ead Hmp]. rewrite Ef in Ead, Hmp. wp_step. rewrite Ead. destruct (load_is_Some 2 (gmem g1) _ Hmp) as [v Hv].
  eapply read_mem_wp; [exact Hv|]. eapply wp_mono; [apply (put_pixel_draws s x y _ g1 (λ _ _, True)); [done|lia|lia|done]|].
  intros [] g2 D2. split; [done|]. split; [by eapply drawable_after|]. destruct (loaded_mono b (gmem g1) (gmem g2)) as [E0|]; [by right|by eapply draws_keeps| |done]. lia.
Qed.
