(* ===== verification/GuiState.v ===== *)
(** * The desktop, kernel/gui/core/gui.cpp: its state, windows and dirty regions

    The object g_gui, with the kernel below it. Opening, closing, focusing and
    maximizing applications, what the pointer points to, and which part of the screen
    has to be painted again. The events are in Gui, drawing in GuiDraw. *)

From Stdlib Require Import ZArith Lia Bool String.
From stdpp Require Import base numbers list.
From S2P Require Import Prelude Runtime Windows GuiKernel Notepad Terminal UtilityApps Memory Graphics Assets.

Definition ICON_X : Z := 10.
Definition ICON_Y : Z := 30.
Definition ICON_W : Z := 96.
Definition ICON_H : Z := 46.
Definition START_BUTTON_W : Z := 58.
Definition TASK_BUTTON_X : Z := 70.
Definition TASK_BUTTON_W : Z := 92.
Definition CLICK_SLOP : Z := 6.
Definition DOUBLE_CLICK_TICKS : Z := 80.

Inductive HitTarget :=
  | HitNone | HitDesktop | HitDesktopIcon | HitStartButton | HitStartTerminal | HitStartShutdown | HitStartRestart | HitTaskButton
  | HitWindowClient | HitWindowTitlebar | HitWindowMinimize | HitWindowMaximize | HitWindowClose | HitWindowResize.
#[export] Instance HitTarget_eq_dec : EqDecision HitTarget.
Proof. solve_decision. Defined.

Inductive AppId := AppNone | AppTerminal | AppFiles | AppMonitor | AppAbout | AppNotepad.
#[export] Instance AppId_eq_dec : EqDecision AppId.
Proof. solve_decision. Defined.

Record HitResult := MkHit { hit_target : HitTarget; hit_app : AppId }.
#[export] Instance HitResult_eq_dec : EqDecision HitResult.
Proof. solve_decision. Defined.

(** ** State

    The members of GuiSystem, in groups. *)

Record apps := Apps {
  terminal_ : terminal; files_ : utility; monitor_ : utility; about_ : utility; notepad_ : notepad }.
Definition set_terminal_ v a := Apps v (files_ a) (monitor_ a) (about_ a) (notepad_ a).
Definition set_files_ v a := Apps (terminal_ a) v (monitor_ a) (about_ a) (notepad_ a).
Definition set_monitor_ v a := Apps (terminal_ a) (files_ a) v (about_ a) (notepad_ a).
Definition set_about_ v a := Apps (terminal_ a) (files_ a) (monitor_ a) v (notepad_ a).
Definition set_notepad_ v a := Apps (terminal_ a) (files_ a) (monitor_ a) (about_ a) v.

Record pointer := Pointer {
  press_x : Z; press_y : Z; press_hit : HitResult; icon_tick : Z; icon_x : Z; icon_y : Z; files_index : Z; files_tick : Z }.
Definition set_press_x v p := Pointer v (press_y p) (press_hit p) (icon_tick p) (icon_x p) (icon_y p) (files_index p) (files_tick p).
Definition set_press_y v p := Pointer (press_x p) v (press_hit p) (icon_tick p) (icon_x p) (icon_y p) (files_index p) (files_tick p).
Definition set_press_hit v p := Pointer (press_x p) (press_y p) v (icon_tick p) (icon_x p) (icon_y p) (files_index p) (files_tick p).
Definition set_icon_tick v p := Pointer (press_x p) (press_y p) (press_hit p) v (icon_x p) (icon_y p) (files_index p) (files_tick p).
Definition set_icon_x v p := Pointer (press_x p) (press_y p) (press_hit p) (icon_tick p) v (icon_y p) (files_index p) (files_tick p).
Definition set_icon_y v p := Pointer (press_x p) (press_y p) (press_hit p) (icon_tick p) (icon_x p) v (files_index p) (files_tick p).
Definition set_files_index v p := Pointer (press_x p) (press_y p) (press_hit p) (icon_tick p) (icon_x p) (icon_y p) v (files_tick p).
Definition set_files_tick v p := Pointer (press_x p) (press_y p) (press_hit p) (icon_tick p) (icon_x p) (icon_y p) (files_index p) v.

Record paint := Paint {
  dirty : bool; full_repaint : bool; dirty_rect : Rect }.
Definition set_dirty v p := Paint v (full_repaint p) (dirty_rect p).
Definition set_full_repaint v p := Paint (dirty p) v (dirty_rect p).
Definition set_dirty_rect v p := Paint (dirty p) (full_repaint p) v.

Record overlay := Overlay {
  ov_saved : bool; ov_text_mode : bool; ov_rect : Rect; ov_background : list Z }.
Definition set_ov_saved v o := Overlay v (ov_text_mode o) (ov_rect o) (ov_background o).
Definition set_ov_text_mode v o := Overlay (ov_saved o) v (ov_rect o) (ov_background o).
Definition set_ov_rect v o := Overlay (ov_saved o) (ov_text_mode o) v (ov_background o).
Definition set_ov_background v o := Overlay (ov_saved o) (ov_text_mode o) (ov_rect o) v.

Section gui.
Context {K : Type} `{GuiKernel K}.

Record gui := Gui {
  metrics : Metrics; backbuffer : graphics_surface; wm : WindowManager; g_apps : apps; g_pointer : pointer; g_paint : paint; g_overlay : overlay; start_menu_open : bool; z_counter : Z; input_events : Z; cursor_text_until : Z; g_assets : assets; g_gfx : gfx; kern : K }.
Definition set_metrics v g := Gui v (backbuffer g) (wm g) (g_apps g) (g_pointer g) (g_paint g) (g_overlay g) (start_menu_open g) (z_counter g) (input_events g) (cursor_text_until g) (g_assets g) (g_gfx g) (kern g).
Definition set_backbuffer v g := Gui (metrics g) v (wm g) (g_apps g) (g_pointer g) (g_paint g) (g_overlay g) (start_menu_open g) (z_counter g) (input_events g) (cursor_text_until g) (g_assets g) (g_gfx g) (kern g).
Definition set_wm v g := Gui (metrics g) (backbuffer g) v (g_apps g) (g_pointer g) (g_paint g) (g_overlay g) (start_menu_open g) (z_counter g) (input_events g) (cursor_text_until g) (g_assets g) (g_gfx g) (kern g).
Definition set_g_apps v g := Gui (metrics g) (backbuffer g) (wm g) v (g_pointer g) (g_paint g) (g_overlay g) (start_menu_open g) (z_counter g) (input_events g) (cursor_text_until g) (g_assets g) (g_gfx g) (kern g).
Definition set_g_pointer v g := Gui (metrics g) (backbuffer g) (wm g) (g_apps g) v (g_paint g) (g_overlay g) (start_menu_open g) (z_counter g) (input_events g) (cursor_text_until g) (g_assets g) (g_gfx g) (kern g).
Definition set_g_paint v g := Gui (metrics g) (backbuffer g) (wm g) (g_apps g) (g_pointer g) v (g_overlay g) (start_menu_open g) (z_counter g) (input_events g) (cursor_text_until g) (g_assets g) (g_gfx g) (kern g).
Definition set_g_overlay v g := Gui (metrics g) (backbuffer g) (wm g) (g_apps g) (g_pointer g) (g_paint g) v (start_menu_open g) (z_counter g) (input_events g) (cursor_text_until g) (g_assets g) (g_gfx g) (kern g).
Definition set_start_menu_open v g := Gui (metrics g) (backbuffer g) (wm g) (g_apps g) (g_pointer g) (g_paint g) (g_overlay g) v (z_counter g) (input_events g) (cursor_text_until g) (g_assets g) (g_gfx g) (kern g).
Definition set_z_counter v g := Gui (metrics g) (backbuffer g) (wm g) (g_apps g) (g_pointer g) (g_paint g) (g_overlay g) (start_menu_open g) v (input_events g) (cursor_text_until g) (g_assets g) (g_gfx g) (kern g).
Definition set_input_events v g := Gui (metrics g) (backbuffer g) (wm g) (g_apps g) (g_pointer g) (g_paint g) (g_overlay g) (start_menu_open g) (z_counter g) v (cursor_text_until g) (g_assets g) (g_gfx g) (kern g).
Definition set_cursor_text_until v g := Gui (metrics g) (backbuffer g) (wm g) (g_apps g) (g_pointer g) (g_paint g) (g_overlay g) (start_menu_open g) (z_counter g) (input_events g) v (g_assets g) (g_gfx g) (kern g).
Definition set_g_assets v g := Gui (metrics g) (backbuffer g) (wm g) (g_apps g) (g_pointer g) (g_paint g) (g_overlay g) (start_menu_open g) (z_counter g) (input_events g) (cursor_text_until g) v (g_gfx g) (kern g).
Definition set_g_gfx v g := Gui (metrics g) (backbuffer g) (wm g) (g_apps g) (g_pointer g) (g_paint g) (g_overlay g) (start_menu_open g) (z_counter g) (input_events g) (cursor_text_until g) (g_assets g) v (kern g).
Definition set_kern v g := Gui (metrics g) (backbuffer g) (wm g) (g_apps g) (g_pointer g) (g_paint g) (g_overlay g) (start_menu_open g) (z_counter g) (input_events g) (cursor_text_until g) (g_assets g) (g_gfx g) v.

(** Operations of the parts. *)
Definition on_kernel {A} (m : M K A) : M gui A := zoom kern set_kern m.
Definition on_gfx {A} (m : M gfx A) : M gui A := zoom g_gfx set_g_gfx m.
Definition on_terminal {A} (m : M terminal A) : M gui A := zoom (λ g, terminal_ (g_apps g)) (λ t g, set_g_apps (set_terminal_ t (g_apps g)) g) m.
Definition on_files {A} (m : M utility A) : M gui A := zoom (λ g, files_ (g_apps g)) (λ t g, set_g_apps (set_files_ t (g_apps g)) g) m.
Definition on_monitor {A} (m : M utility A) : M gui A := zoom (λ g, monitor_ (g_apps g)) (λ t g, set_g_apps (set_monitor_ t (g_apps g)) g) m.
Definition on_about {A} (m : M utility A) : M gui A := zoom (λ g, about_ (g_apps g)) (λ t g, set_g_apps (set_about_ t (g_apps g)) g) m.
Definition on_notepad {A} (m : M notepad A) : M gui A := zoom (λ g, notepad_ (g_apps g)) (λ t g, set_g_apps (set_notepad_ t (g_apps g)) g) m.
(** The editor with the kernel below it. *)
Definition on_notepad_os {A} (m : M (notepad_on K) A) : M gui A :=
  zoom (λ g, NotepadOn (notepad_ (g_apps g)) (kern g)) (λ s g, set_kern (np_world s) (set_g_apps (set_notepad_ (np_app s) (g_apps g)) g)) m.
Definition on_pointer (f : pointer → pointer) : M gui unit := modify (λ g, set_g_pointer (f (g_pointer g)) g).
Definition serial (text : list Z) : M gui unit := on_kernel (k_serial_writestring text).

(** [++z_counter_] *)
Definition next_z : M gui Z := _ ← modify (λ g, set_z_counter (z_counter g +% 1) g); gets z_counter.

(** ** What has to be painted *)

Definition mark_dirty : M gui unit := modify (λ g, set_g_paint (set_full_repaint true (set_dirty true (g_paint g))) g).

(** The part of a rectangle on the screen: first the left and upper edge, then the others. *)
Definition clip_start (x w : Z) : option (Z * Z) := if x <? 0 then w ← checked (w + x); Some (0, w) else Some (x, w).
Definition clip_end (x w limit : Z) : option Z := right ← checked (x + w); if limit <? right then checked (limit - x) else Some w.

Definition clip (m : Metrics) (r : Rect) : option (option Rect) :=
  '(x, w) ← clip_start (rx r) (rw r);
  '(y, h) ← clip_start (ry r) (rh r);
  if (i32 (m_width m) <=? x) || (i32 (m_height m) <=? y) then Some None
  else
    w ← clip_end x w (i32 (m_width m));
    h ← clip_end y h (i32 (m_height m));
    Some (Some (MkRect x y w h)).

Definition join (a b : Rect) : option Rect :=
  let x1 := min_i32 (rx a) (rx b) in
  let y1 := min_i32 (ry a) (ry b) in
  ar ← checked (rx a + rw a); br ← checked (rx b + rw b);
  ab ← checked (ry a + rh a); bb ← checked (ry b + rh b);
  w ← checked (max_i32 ar br - x1);
  h ← checked (max_i32 ab bb - y1);
  Some (MkRect x1 y1 w h).

Definition invalidate_rect (r : Rect) : M gui unit :=
  if rect_empty r then mret tt
  else
    m ← gets metrics;
    c ← lift (clip m r);
    match c with
    | None => mret tt
    | Some r =>
        if rect_empty r then mret tt
        else
          p ← gets g_paint;
          d ← (if negb (dirty p) || full_repaint p || rect_empty (dirty_rect p) then mret r else lift (join (dirty_rect p) r));
          modify (λ g, set_g_paint (set_dirty true (set_dirty_rect d (g_paint g))) g)
    end.

Definition invalidate_window (w : Window) : M gui unit := invalidate_rect (win_rect w).

(** ** What the pointer points to *)

Definition target_from_window_area (area : WindowArea) : HitTarget :=
  match area with
  | AreaClose => HitWindowClose | AreaMaximize => HitWindowMaximize | AreaMinimize => HitWindowMinimize
  | AreaResize => HitWindowResize | AreaTitlebar => HitWindowTitlebar | AreaClient => HitWindowClient | AreaNone => HitNone
  end.

Definition start_menu_rect (m : Metrics) : option Rect :=
  let menu_h := if 480 <=? m_height m then 150 else 108 in
  let menu_w := if 640 <=? m_width m then 184 else 126 in
  y ← checked (i32 (m_height m) - i32 (taskbar_h m)); y ← checked (y - menu_h); y ← checked (y - 2);
  Some (MkRect 4 y menu_w menu_h).

(** The windows in the order of the array windows[]. *)
Definition windows (a : apps) : list (Window * AppId) :=
  [(t_window (terminal_ a), AppTerminal); (u_window (files_ a), AppFiles); (u_window (monitor_ a), AppMonitor);
   (u_window (about_ a), AppAbout); (np_window (notepad_ a), AppNotepad)].

(** The loop over the windows, with best, best_area and best_app. *)
Fixpoint best_window (ws : list (Window * AppId)) (x y best : Z) (area : WindowArea) (app : AppId) : option (WindowArea * AppId) :=
  match ws with
  | [] => Some (area, app)
  | (w, a) :: ws =>
      here ← hit_window w x y;
      if negb (bool_decide (here = AreaNone)) && (best <? i32 (wz w)) then best_window ws x y (i32 (wz w)) here a
      else best_window ws x y best area app
  end.

(** The first rectangle of a list that contains the point. *)
Fixpoint first_hit (l : list (Rect * HitResult)) (x y : Z) : option (option HitResult) :=
  match l with
  | [] => Some None
  | (r, hit) :: l => b ← contains r x y; if b : bool then Some (Some hit) else first_hit l x y
  end.

Definition task_button (m : Metrics) (x w : Z) : option Rect :=
  y ← checked (i32 (m_height m) - i32 (taskbar_h m)); y ← checked (y + 4);
  h ← checked (i32 (taskbar_h m) - 8); Some (MkRect x y w h).

(** The buttons that are there. *)
Definition task_buttons (m : Metrics) (a : apps) : option (list (Rect * HitResult)) :=
  start ← task_button m 4 START_BUTTON_W;
  t ← task_button m TASK_BUTTON_X TASK_BUTTON_W;
  f ← task_button m (TASK_BUTTON_X + TASK_BUTTON_W + 6) TASK_BUTTON_W;
  o ← task_button m (TASK_BUTTON_X + (TASK_BUTTON_W + 6) * 2) TASK_BUTTON_W;
  Some ((start, MkHit HitStartButton AppNone) ::
        (if wopen (t_window (terminal_ a)) then [(t, MkHit HitTaskButton AppTerminal)] else []) ++
        (if wopen (u_window (files_ a)) then [(f, MkHit HitTaskButton AppFiles)] else []) ++
        (if wopen (u_window (monitor_ a)) then [(o, MkHit HitTaskButton AppMonitor)] else [])).

Definition menu_item (menu : Rect) (dy : Z) : option Rect :=
  x ← checked (rx menu + 28); y ← checked (ry menu + dy); w ← checked (rw menu - 32); Some (MkRect x y w 18).
Definition menu_items (m : Metrics) : option (list (Rect * HitResult)) :=
  menu ← start_menu_rect m;
  i1 ← menu_item menu 8; i2 ← menu_item menu 24; i3 ← menu_item menu 40; i4 ← menu_item menu 56; i5 ← menu_item menu 84; i6 ← menu_item menu 100;
  Some [(i1, MkHit HitStartTerminal AppTerminal); (i2, MkHit HitStartTerminal AppFiles); (i3, MkHit HitStartTerminal AppMonitor);
        (i4, MkHit HitStartTerminal AppAbout); (i5, MkHit HitStartShutdown AppNone); (i6, MkHit HitStartRestart AppNone)].

Definition icons : list (Rect * HitResult) :=
  [(MkRect ICON_X ICON_Y ICON_W ICON_H, MkHit HitDesktopIcon AppTerminal); (MkRect ICON_X (ICON_Y + 56) ICON_W ICON_H, MkHit HitDesktopIcon AppFiles);
   (MkRect ICON_X (ICON_Y + 112) ICON_W ICON_H, MkHit HitDesktopIcon AppMonitor); (MkRect ICON_X (ICON_Y + 168) ICON_W ICON_H, MkHit HitDesktopIcon AppAbout)].

(** Windows first, then the task bar, the menu when it is open, and the icons. *)
Definition hit_test_on (m : Metrics) (a : apps) (menu_open : bool) (x y : Z) : option HitResult :=
  best ← best_window (windows a) x y (-1) AreaNone AppNone;
  if negb (bool_decide (snd best = AppNone)) then Some (MkHit (target_from_window_area (fst best)) (snd best))
  else
    buttons ← task_buttons m a;
    items ← (if menu_open then menu_items m else Some []);
    r ← first_hit (buttons ++ items ++ icons) x y;
    Some (match r with Some hit => hit | None => MkHit HitDesktop AppNone end).

Definition hit_test (x y : Z) : M gui HitResult :=
  g ← gets id; lift (hit_test_on (metrics g) (g_apps g) (start_menu_open g) x y).

Definition click_matches_press (p : pointer) (x y : Z) : option bool :=
  l ← checked (press_x p - CLICK_SLOP); r ← checked (press_x p + CLICK_SLOP);
  t ← checked (press_y p - CLICK_SLOP); b ← checked (press_y p + CLICK_SLOP);
  Some ((l <=? x) && (x <=? r) && (t <=? y) && (y <=? b)).
End gui.
Arguments gui K : clear implicits.
