(* ===== verification/AssetsLoad.v ===== *)
(** * The loader of the images: load_myimg and assets_initialize of kernel/assets/assets.c

    An image file is a header of 20 bytes and a payload, which is read into memory of the
    heap. The heap and the file system are parameters. *)

From Stdlib Require Import ZArith Lia Bool String.
From stdpp Require Import base numbers list.
From S2P Require Import Prelude Runtime Windows GuiKernel Notepad Terminal UtilityApps Memory Graphics GraphicsPaint Assets GuiState.

Definition MYIMG_MAGIC : Z := 0x4D49594D.

(** The fields of struct myimg_header in the bytes of the file; [HEADER_SIZE] is its size. *)
Definition HEADER_SIZE : Z := 20.
Definition u16_at (b : list Z) (o : Z) : option Z := x ← aread b o; y ← aread b (o + 1); Some (x + 256 * y).
Definition u32_at (b : list Z) (o : Z) : option Z := x ← u16_at b o; y ← u16_at b (o + 2); Some (x + 65536 * y).
Record myimg_header := MyimgHeader { h_magic : Z; h_width : Z; h_height : Z; h_format : Z; h_hotspot_x : Z; h_hotspot_y : Z; h_reserved : Z; h_payload_size : Z }.
Definition header_of (b : list Z) : option myimg_header :=
  magic ← u32_at b 0; w ← u16_at b 4; h ← u16_at b 6; format ← u16_at b 8; hx ← u16_at b 10; hy ← u16_at b 12; res ← u16_at b 14; payload ← u32_at b 16;
  Some (MyimgHeader magic w h format hx hy res payload).

(** What the loader calls of the file system. The buffer is passed and returned, with the
    answer and the number of bytes that were read. *)
Class AssetFiles (K : Type) := {
  k_diskfs_find_file : list Z → M K Z;
  k_diskfs_read_index : Z → Z → list Z → Z → M K (bool * list Z * Z);
  k_diskfs_index_size : Z → M K Z }.

(** The bytes of a block of memory, as the buffer that a function below fills. *)
Definition fetch_block (a : Z) (n : Z) : M gfx (list Z) :=
  m ← gets gmem; lift (mapM (λ i, m !! (a + i)) (seqZ 0 n)).
Definition store_block (a : Z) (data : list Z) : M gfx unit :=
  for_ 0 (Z.of_nat (length data)) (λ i, v ← lift (aread data i); write_mem 1 (a + i) v).

Section load.
Context {K : Type} `{AssetFiles K}.
Abbreviation G := (gui K).
Context (kmalloc : Z → M G Z) (kfree : Z → M G unit).

Definition expected_size (h : myimg_header) : Z :=
  if h_format h =? MYIMG_RGB565 then h_width h *% h_height h *% 2
  else if h_format h =? MYIMG_ARGB32 then h_width h *% h_height h *% 4 else 0.

Definition header_valid (ok : bool) (bytes : Z) (h : myimg_header) : bool :=
  ok && (bytes =? HEADER_SIZE) && (h_magic h =? MYIMG_MAGIC) && negb (h_width h =? 0) && negb (h_height h =? 0) && negb (h_payload_size h =? 0).

(** [out] stores the bitmap. The header on the stack starts with arbitrary bytes [stack]. *)
Definition load_myimg (stack path : list Z) (out : asset_bitmap → assets → assets) : M G bool :=
  index ← on_kernel (k_diskfs_find_file path);
  if index <? 0 then mret false
  else
    '(ok, buf, bytes) ← on_kernel (k_diskfs_read_index (u32 index) 0 stack HEADER_SIZE);
    h ← lift (header_of buf);
    if negb (header_valid ok bytes h) then mret false
    else
      let expected := expected_size h in
      if (expected =? 0) || negb (expected =? h_payload_size h) then mret false
      else
        size ← on_kernel (k_diskfs_index_size (u32 index));
        if size <? HEADER_SIZE +% h_payload_size h then mret false
        else
          pixels ← kmalloc (h_payload_size h);
          if pixels =? 0 then mret false
          else
            old ← on_gfx (fetch_block pixels (h_payload_size h));
            '(ok, buf, bytes) ← on_kernel (k_diskfs_read_index (u32 index) HEADER_SIZE old (h_payload_size h));
            _ ← on_gfx (store_block pixels buf);
            if negb ok || negb (bytes =? h_payload_size h) then _ ← kfree pixels; mret false
            else
              _ ← modify (λ g, set_g_assets (out (AssetBitmap (h_width h) (h_height h) (h_format h) (h_hotspot_x h) (h_hotspot_y h) (h_payload_size h) pixels) (g_assets g)) g);
              mret true.

Definition set_wallpaper (b : asset_bitmap) (a : assets) : assets := Assets b (cursor a) (text_cursor a).
Definition set_cursor (b : asset_bitmap) (a : assets) : assets := Assets (wallpaper a) b (text_cursor a).
Definition set_text_cursor (b : asset_bitmap) (a : assets) : assets := Assets (wallpaper a) (cursor a) b.

Definition assets_initialize (stack : list Z) : M G unit :=
  _ ← load_myimg stack (c_str "/assets/wallpaper.myimg") set_wallpaper;
  _ ← load_myimg stack (c_str "/assets/cursor_pointer.myimg") set_cursor;
  _ ← load_myimg stack (c_str "/assets/cursor_text.myimg") set_text_cursor;
  mret tt.
End load.

(** ** Properties *)

(** Memory that was mapped stays mapped; the heap may add to it. *)
Definition grows (m1 m2 : mem) : Prop := bytes_ok m2 ∧ ∀ a, is_Some (m1 !! a) → is_Some (m2 !! a).
Lemma grows_refl m : bytes_ok m → grows m m.
Proof. by split. Qed.
Lemma grows_trans m1 m2 m3 : grows m1 m2 → grows m2 m3 → grows m1 m3.
Proof. intros [_ H1] [? H2]. split; auto. Qed.
Lemma loaded_grows b m1 m2 : loaded b m1 → grows m1 m2 → loaded b m2.
Proof. intros [?|[]] [_ Hk]; [by left|]. right. split; try done. intros a Ha. by apply Hk, bo_mapped. Qed.
Lemma assets_grow a m1 m2 : assets_ok a m1 → grows m1 m2 → assets_ok a m2.
Proof. intros [] Hg. split; by eapply loaded_grows. Qed.

Lemma fetch_block_wp a n g (Q : list Z → gfx → Prop) : mapped (gmem g) a n → 0 ≤ n → bytes_ok (gmem g) →
  (∀ data, Z.of_nat (length data) = n → Forall is_u8 data → Q data g) → wp (fetch_block a n) Q g.
Proof.
  intros Hm Hn Hb HQ. unfold fetch_block. do 2 wp_step. destruct (mapM (λ i, gmem g !! (a + i)) (seqZ 0 n)) as [data|] eqn:E.
  - eapply wp_lift; [done|]. apply mapM_Some in E as E'. apply HQ.
    + apply length_mapM in E. rewrite length_seqZ in E. lia.
    + apply Forall_forall. intros v Hv. apply list_elem_of_lookup_1 in Hv as [i Hi]. destruct (Forall2_lookup_r _ _ _ _ _ E' Hi) as (x & _ & Hx). by eapply Hb.
  - exfalso. apply mapM_None, Exists_exists in E as (i & Hi & Hne). apply elem_of_seqZ in Hi. destruct (Hm (a + i)) as [v Hv]; [lia|]. by rewrite Hv in Hne.
Qed.

Lemma store_block_wp a data g : mapped (gmem g) a (Z.of_nat (length data)) → bytes_ok (gmem g) →
  wp (store_block a data) (λ _ g', ∃ mm, g' = set_gmem mm g ∧ grows (gmem g) mm) g.
Proof.
  intros Hm Hb. unfold store_block. apply (wp_for _ _ _ (λ _ g', ∃ mm, g' = set_gmem mm g ∧ grows (gmem g) mm)); [lia|exists (gmem g); split; [by destruct g|by apply grows_refl]| |done].
  intros i g1 Hi (mm & -> & Hg). destruct (lookup_lt_is_Some_2 data (Z.to_nat i)) as [v Hv]; [lia|]. wp_step. eapply wp_lift; [apply aread_Some; split; [lia|exact Hv]|].
  apply write_mem_wp; [intros b Hb'; apply Hg, Hm; cbn in Hb'; lia|]. intros m' E. exists m'. split; [done|]. eapply grows_trans; [exact Hg|]. split; [by eapply store_bytes_ok, E; apply Hg|].
  intros b. apply (ch_mapped _ _ _ _ (store_changes _ _ _ _ _ E)).
Qed.

Section laws.
Context {K : Type} `{AssetFiles K, GuiFiles K}.
Abbreviation G := (gui K).
Implicit Types g : G.

Lemma header_of_some b : length b = 20%nat → ∃ h, header_of b = Some h.
Proof. intros Hl. do 20 (destruct b as [|? b]; [discriminate Hl|]). destruct b; [|discriminate Hl]. eexists. reflexivity. Qed.
Lemma u16_at_range b o v : Forall is_u8 b → u16_at b o = Some v → 0 ≤ v < 65536.
Proof.
  intros Hb E. unfold u16_at in E. destruct (aread b o) as [x|] eqn:Ex; [|done]. cbn in E. destruct (aread b (o + 1)) as [y|] eqn:Ey; [|done]. injection E as <-.
  apply aread_Some in Ex as [_ Ex], Ey as [_ Ey]. apply (Forall_lookup_1 _ _ _ _ Hb) in Ex, Ey. unfold is_u8 in *. lia.
Qed.

(** The image of a header does not wrap around. *)
Definition header_fits (b : list Z) : Prop := ∀ h, header_of b = Some h → h_width h * h_height h * 4 < 2 ^ 32.

Record loader_laws (kmalloc : Z → M G Z) (kfree : Z → M G unit) (stack : list Z) : Prop := {
  ll_stack : length stack = 20%nat ∧ Forall is_u8 stack;
  ll_kmalloc n g : 0 ≤ n < 2 ^ 32 → bytes_ok (gmem (g_gfx g)) → wp (kmalloc n) (λ a g', ∃ mm, g' = set_g_gfx (set_gmem mm (g_gfx g)) g ∧ grows (gmem (g_gfx g)) mm ∧
    (a = 0 ∨ (0 < a ∧ a + n ≤ 2 ^ 32 ∧ mapped mm a n))) g;
  ll_kfree a g : bytes_ok (gmem (g_gfx g)) → wp (kfree a) (λ _ g', ∃ mm, g' = set_g_gfx (set_gmem mm (g_gfx g)) g ∧ grows (gmem (g_gfx g)) mm) g;
  ll_find path : is_text path → quiet (k_diskfs_find_file path) is_i32;
  ll_read i o buf : is_u32 i → Forall is_u8 buf → quiet (k_diskfs_read_index i o buf (Z.of_nat (length buf))) (λ r, length (snd (fst r)) = length buf ∧ Forall is_u8 (snd (fst r)));
  ll_header i : is_u32 i → quiet (k_diskfs_read_index i 0 stack HEADER_SIZE) (λ r, header_fits (snd (fst r)));
  ll_size i : is_u32 i → quiet (k_diskfs_index_size i) is_u32 }.

(** What the loader may change. *)
Definition loads g g' : Prop := ∃ k a mm, g' = set_kern k (set_g_assets a (set_g_gfx (set_gmem mm (g_gfx g)) g)) ∧ kernel_ok k ∧ grows (gmem (g_gfx g)) mm ∧ assets_ok a mm.
Lemma loads_refl g : kernel_ok (kern g) → bytes_ok (gmem (g_gfx g)) → assets_ok (g_assets g) (gmem (g_gfx g)) → loads g g.
Proof. intros Hk Hb Ha. exists (kern g), (g_assets g), (gmem (g_gfx g)). split; [by destruct g as [? ? ? ? ? ? ? ? ? ? ? ? [] ?]|]. split; [done|]. split; [by apply grows_refl|done]. Qed.
Lemma loads_trans g1 g2 g3 : loads g1 g2 → loads g2 g3 → loads g1 g3.
Proof. intros (k2 & a2 & m2 & -> & Hk2 & Hg2 & Ha2) (k3 & a3 & m3 & -> & Hk3 & Hg3 & Ha3). exists k3, a3, m3. split; [by destruct g1|]. split; [done|]. split; [by eapply grows_trans|done]. Qed.
Lemma loads_next g g' : loads g g' → kernel_ok (kern g') ∧ bytes_ok (gmem (g_gfx g')) ∧ assets_ok (g_assets g') (gmem (g_gfx g')).
Proof. intros (k & a & mm & -> & Hk & [Hb _] & Ha). done. Qed.

(** A call of the file system. *)
Lemma load_kernel {A} (op : M K A) R g0 g (Q : A → G → Prop) : quiet op R → loads g0 g → (∀ a g', loads g0 g' → gmem (g_gfx g') = gmem (g_gfx g) → R a → Q a g') → wp (on_kernel op) Q g.
Proof.
  intros Hq Hl HQ. destruct (loads_next _ _ Hl) as (Hk & Hb & Ha). apply wp_zoom. destruct (Hq _ Hk) as (a & k & E & [[Hk' _] _] & HR). exists a, k. split; [done|]. apply HQ; [|done|done].
  eapply loads_trans; [exact Hl|]. exists k, (g_assets g), (gmem (g_gfx g)). split; [by destruct g as [? ? ? ? ? ? ? ? ? ? ? ? [] ?]|]. split; [done|]. split; [by apply grows_refl|done].
Qed.
(** A change of the memory. *)
Lemma loads_memory g0 g mm : loads g0 g → grows (gmem (g_gfx g)) mm → loads g0 (set_g_gfx (set_gmem mm (g_gfx g)) g).
Proof.
  intros Hl Hg. destruct (loads_next _ _ Hl) as (Hk & Hb & Ha). eapply loads_trans; [exact Hl|]. exists (kern g), (g_assets g), mm. split; [by destruct g|]. split; [done|]. split; [done|by eapply assets_grow].
Qed.

Context (kmalloc : Z → M G Z) (kfree : Z → M G unit) (stack : list Z).
Hypothesis L : loader_laws kmalloc kfree stack.

(** A header that is accepted describes an image that fits into its payload. *)
Lemma header_bitmap b h ok bytes mm pixels : Forall is_u8 b → header_of b = Some h → header_fits b → header_valid ok bytes h = true → expected_size h ≠ 0 → expected_size h = h_payload_size h →
  0 < pixels → pixels + h_payload_size h ≤ 2 ^ 32 → mapped mm pixels (h_payload_size h) → bitmap_ok (AssetBitmap (h_width h) (h_height h) (h_format h) (h_hotspot_x h) (h_hotspot_y h) (h_payload_size h) pixels) mm.
Proof.
  intros Hb E Hfit Hv Hne Hex Hp Hend Hm. specialize (Hfit h E). unfold header_valid in Hv. bool_to_prop. unfold header_of in E.
  repeat match type of E with (?o ≫= _) = Some _ => let x := fresh "x" in let Hx := fresh "Hx" in destruct o as [x|] eqn:Hx; cbn [mbind option_bind] in E; [|done] end. injection E as <-. cbn in *.
  pose proof (u16_at_range _ _ _ Hb Hx0). pose proof (u16_at_range _ _ _ Hb Hx1). pose proof (u16_at_range _ _ _ Hb Hx3). pose proof (u16_at_range _ _ _ Hb Hx4).
  assert (Hsz : x0 * x1 * pixel_bytes (AssetBitmap x0 x1 x2 x3 x4 x6 pixels) = x6).
  { unfold pixel_bytes. cbn. unfold expected_size in *. cbn in *. assert (0 ≤ x0 * x1) by nia. rewrite (u32_small (x0 * x1)) in * by (unfold is_u32; lia). destruct (x2 =? MYIMG_RGB565); [rewrite u32_small in * by (unfold is_u32; lia); lia|].
    destruct (x2 =? MYIMG_ARGB32); [|done]. rewrite u32_small in * by (unfold is_u32; lia). lia. }
  split; cbn [bm_width bm_height bm_hotspot_x bm_hotspot_y bm_pixels]; [lia|lia|lia|rewrite Hsz; lia|by rewrite Hsz].
Qed.

Lemma load_myimg_wp path out g : is_text path → (∀ b a mm, loaded b mm → assets_ok a mm → assets_ok (out b a) mm) → kernel_ok (kern g) → bytes_ok (gmem (g_gfx g)) → assets_ok (g_assets g) (gmem (g_gfx g)) →
  wp (load_myimg kmalloc kfree stack path out) (λ _ g', loads g g') g.
Proof.
  intros Hp Hout Hk Hb Ha. pose proof (loads_refl g Hk Hb Ha) as Hl0. unfold load_myimg. wp_step. eapply load_kernel; [by apply (ll_find _ _ _ L)|exact Hl0|]. intros index g1 Hl1 _ Hi.
  destruct (index <? 0); [by wp_step|]. wp_step. pose proof (ll_stack _ _ _ L) as [Hsl Hsb]. assert (Hiu : is_u32 (u32 index)) by apply u32_range.
  assert (Hhd : quiet (k_diskfs_read_index (u32 index) 0 stack HEADER_SIZE) (λ r, (length (snd (fst r)) = 20%nat ∧ Forall is_u8 (snd (fst r))) ∧ header_fits (snd (fst r)))).
  { intros k Hk'. eapply wp_mono; [apply wp_and; [by apply (ll_header _ _ _ L)|pose proof (ll_read _ _ _ L (u32 index) 0 stack Hiu Hsb k Hk') as Hrd; rewrite Hsl in Hrd; exact Hrd]|]. intros r k' [[? ?] [_ ?]]. done. }
  eapply load_kernel; [exact Hhd|exact Hl1|]. intros [[ok buf] bytes] g2 Hl2 _ [[Hbl Hbu] Hfit]. cbn in Hbl, Hbu, Hfit. destruct (header_of_some buf Hbl) as [h Eh]. wp_step. eapply wp_lift; [exact Eh|].
  destruct (negb (header_valid ok bytes h)) eqn:Ev; [by wp_step|]. cbv zeta. destruct (_ || _) eqn:Ex; [by wp_step|]. apply negb_false_iff in Ev. bool_to_prop. wp_step. eapply load_kernel; [by apply (ll_size _ _ _ L)|exact Hl2|]. intros size g3 Hl3 _ _.
  destruct (_ <? _); [by wp_step|]. destruct (loads_next _ _ Hl3) as (_ & Hb3 & _).
  assert (Hn : 0 ≤ h_payload_size h < 2 ^ 32) by (rewrite <- H2; unfold expected_size; repeat case_match; try apply u32_range; lia).
  wp_step. eapply wp_mono; [by apply (ll_kmalloc _ _ _ L)|]. intros pixels g4 (mm4 & -> & Hg4 & Hpx). pose proof (loads_memory _ _ _ Hl3 Hg4) as Hl4. destruct (Z.eqb_spec pixels 0); [by wp_step|]. destruct Hpx as [?|(Hp0 & Hpe & Hpm)]; [done|].
  wp_step. unfold on_gfx at 1. wp_step. apply fetch_block_wp; [exact Hpm|lia|apply Hg4|]. intros old Hol Hou. assert (Hset : ∀ g, set_g_gfx (g_gfx g) g = g) by (intros []; done). cbn beta. rewrite Hset.
  wp_step. eapply load_kernel; [rewrite <- Hol; by apply (ll_read _ _ _ L)|exact Hl4|]. intros [[ok5 buf5] bytes5] g5 Hl5 Em5 [Hl5' Hu5]. cbn in Em5, Hl5', Hu5. destruct (loads_next _ _ Hl5) as (_ & Hb5 & _).
  wp_step. unfold on_gfx at 1. wp_step. eapply wp_mono; [apply store_block_wp; [rewrite Em5, Hl5', Hol; exact Hpm|done]|]. intros [] gf6 (mm6 & -> & Hg6). cbn beta. pose proof (loads_memory _ _ _ Hl5 Hg6) as Hl6.
  destruct (_ || _).
  - wp_step. destruct (loads_next _ _ Hl6) as (_ & Hb6 & _). eapply wp_mono; [by apply (ll_kfree _ _ _ L)|]. intros [] g7 (mm7 & -> & Hg7). wp_step. by apply loads_memory.
  - do 2 wp_step. wp_step. eapply loads_trans; [exact Hl6|]. destruct (loads_next _ _ Hl6) as (Hk6 & Hb6 & Ha6). match goal with |- loads _ (set_g_assets ?x ?st) => exists (kern st), x, (gmem (g_gfx st)) end. split; [by destruct g5 as [? ? ? ? ? ? ? ? ? ? ? ? [] ?]|]. split; [done|]. split; [by apply grows_refl|].
    apply Hout; [|done]. right. eapply (header_bitmap buf); [done|done|done|done|done|done|lia|lia|]. intros a Ha'. apply Hg6. rewrite Em5. by apply Hpm.
Qed.

(** Whatever is in the files, the images that are loaded lie in memory, with the size that
    their headers say. *)
Lemma assets_initialize_wp g : kernel_ok (kern g) → bytes_ok (gmem (g_gfx g)) → assets_ok (g_assets g) (gmem (g_gfx g)) → wp (assets_initialize kmalloc kfree stack) (λ _ g', loads g g') g.
Proof.
  intros Hk Hb Ha. unfold assets_initialize. wp_step. eapply wp_mono; [apply load_myimg_wp; [by apply c_str_text|by intros ? ? ? ? []|done|done|done]|]. intros ok1 g1 Hl1. destruct (loads_next _ _ Hl1) as (? & ? & ?).
  wp_step. eapply wp_mono; [apply load_myimg_wp; [by apply c_str_text|by intros ? ? ? ? []|done|done|done]|]. intros ok2 g2 Hl2. destruct (loads_next _ _ Hl2) as (? & ? & ?).
  wp_step. eapply wp_mono; [apply load_myimg_wp; [by apply c_str_text|by intros ? ? ? ? []|done|done|done]|]. intros ok3 g3 Hl3. wp_step. exact (loads_trans _ _ _ Hl1 (loads_trans _ _ _ Hl2 Hl3)).
Qed.
End laws.
