(* ===== verification/GuiApps.v ===== *)
(** * The desktop, kernel/gui/core/gui.cpp and terminal.cpp: applications

    Opening, focusing, minimizing, maximizing and closing the applications, and the
    commands of the terminal. Running a user program is a parameter: while it runs, the
    program opens applications through a system call. *)

From Stdlib Require Import ZArith Lia Bool String.
From stdpp Require Import base numbers list.
From S2P Require Import Prelude Keyboard Runtime Windows GuiKernel Notepad Terminal UtilityApps Memory Graphics Assets GuiState.


Definition MYOS_GUI_APP_TERMINAL : Z := 1.
Definition MYOS_GUI_APP_FILES : Z := 2.
Definition MYOS_GUI_APP_MONITOR : Z := 3.
Definition MYOS_GUI_APP_ABOUT : Z := 4.
Definition MYOS_GUI_APP_NOTEPAD : Z := 5.

Section apps.
Context {K : Type} `{GuiKernel K}.
Abbreviation G := (gui K).

(** ** The window of the terminal *)

Definition terminal_open_window (m : Metrics) (z : Z) : M G unit :=
  w ← on_terminal (gets t_window);
  if negb (wopen w) then
    _ ← on_terminal (terminal_open m z);
    serial (c_line "MyOS GUI: Terminal opened.")
  else
    _ ← when (bool_decide (wmode w = Minimized)) (on_terminal (term_window (set_mode Normal)));
    on_terminal (terminal_focus z).

Definition terminal_minimize : M G unit :=
  _ ← on_terminal (term_window minimize_window); serial (c_line "MyOS GUI: Terminal minimized.").

Definition terminal_toggle_maximize (m : Metrics) (z : Z) : M G unit :=
  w ← on_terminal (gets t_window);
  _ ← on_terminal (term_window (toggle_window m));
  _ ← serial (if bool_decide (wmode w = Maximized) then c_line "MyOS GUI: Terminal restored." else c_line "MyOS GUI: Terminal maximized.");
  on_terminal (terminal_focus z).

Definition terminal_close : M G unit :=
  _ ← on_terminal (term_window close_window);
  _ ← on_terminal (modify (set_t_command_len 0));
  serial (c_line "MyOS GUI: Terminal closed.").

(** ** Applications *)

Definition unfocus_all : M G unit :=
  _ ← on_terminal (term_window (set_focused false));
  _ ← on_files (u_on_window (set_focused false));
  _ ← on_monitor (u_on_window (set_focused false));
  _ ← on_about (u_on_window (set_focused false));
  on_notepad (on_window (set_focused false)).

Definition focus_app (app : AppId) : M G unit :=
  _ ← unfocus_all;
  match app with
  | AppTerminal => z ← next_z; on_terminal (terminal_focus z)
  | AppFiles => z ← next_z; on_files (utility_focus z)
  | AppMonitor => z ← next_z; on_monitor (utility_focus z)
  | AppAbout => z ← next_z; on_about (utility_focus z)
  | AppNotepad => z ← next_z; on_notepad (notepad_focus z)
  | AppNone => mret tt
  end.

Definition open_app (app : AppId) : M G unit :=
  m ← gets metrics;
  _ ← match app with
      | AppTerminal => z ← next_z; terminal_open_window m z
      | AppNotepad => z ← next_z; on_notepad_os (notepad_open_window m z)
      | AppFiles => z ← next_z; on_files (utility_open_window m z)
      | AppMonitor => z ← next_z; on_monitor (utility_open_window m z)
      | AppAbout => z ← next_z; on_about (utility_open_window m z)
      | AppNone => mret tt
      end;
  _ ← focus_app app;
  _ ← modify (set_start_menu_open false);
  mark_dirty.

Definition open_user_app (app_id : Z) : M G Z :=
  if app_id =? MYOS_GUI_APP_TERMINAL then _ ← open_app AppTerminal; mret 0
  else if app_id =? MYOS_GUI_APP_FILES then _ ← open_app AppFiles; mret 0
  else if app_id =? MYOS_GUI_APP_MONITOR then _ ← open_app AppMonitor; mret 0
  else if app_id =? MYOS_GUI_APP_ABOUT then _ ← open_app AppAbout; mret 0
  else if app_id =? MYOS_GUI_APP_NOTEPAD then _ ← open_app AppNotepad; mret 0
  else mret (-1).

Definition minimize_app (app : AppId) : M G unit :=
  _ ← match app with
      | AppTerminal => terminal_minimize
      | AppFiles => on_files utility_minimize
      | AppMonitor => on_monitor utility_minimize
      | AppAbout => on_about utility_minimize
      | AppNotepad => on_notepad notepad_minimize
      | AppNone => mret tt
      end;
  mark_dirty.

Definition end_pointer : M G unit := modify (λ g, set_wm (end_pointer_action (wm g)) g).

Definition close_app (app : AppId) : M G unit :=
  _ ← match app with
      | AppTerminal => terminal_close
      | AppFiles => on_files utility_close
      | AppMonitor => on_monitor utility_close
      | AppAbout => on_about utility_close
      | AppNotepad => on_notepad notepad_close
      | AppNone => mret tt
      end;
  _ ← end_pointer;
  mark_dirty.

Definition toggle_maximize_app (app : AppId) : M G unit :=
  m ← gets metrics;
  _ ← match app with
      | AppTerminal => z ← next_z; terminal_toggle_maximize m z
      | AppFiles => z ← next_z; on_files (utility_toggle_maximize m z)
      | AppMonitor => z ← next_z; on_monitor (utility_toggle_maximize m z)
      | AppAbout => z ← next_z; on_about (utility_toggle_maximize m z)
      | AppNotepad => z ← next_z; on_notepad (notepad_toggle_maximize m z)
      | AppNone => mret tt
      end;
  _ ← focus_app app;
  mark_dirty.

Definition gui_terminal_write (text : list Z) : M G unit := _ ← on_terminal (write text); mark_dirty.

(** ** The commands of the terminal *)

Section commands.
Context (usermode_run_program : list Z → M G Z).

Definition print (text : list Z) : M G unit := _ ← on_terminal (write text); serial text.

(** [number] is the local array of 12 characters. *)
Definition print_u32 (prefix : list Z) (value : Z) : M G unit :=
  _ ← print prefix;
  r ← lift (u32_to_dec value 12 (replicate 12 0));
  _ ← print (snd r);
  print [10; 0].

Definition prompt : M G unit := print (c_str "myos> ").

Definition run_program (path : list Z) (m : Metrics) (z : Z) : M G unit :=
  _ ← terminal_open_window m z;
  _ ← print (c_str "Loading user program: ");
  _ ← print path;
  _ ← print [10; 0];
  code ← usermode_run_program path;
  _ ← print_u32 (c_str "Program exited with code ") (u32 code);
  prompt.

(** [line[0] == p0 && line[1] == p1 && ...] *)
Fixpoint starts_with (line : list Z) (i : Z) (pattern : list Z) : option bool :=
  match pattern with
  | [] => Some true
  | p :: pattern => c ← aread line i; if c =? p then starts_with line (i + 1) pattern else Some false
  end.

(** [kstrcmp(line, word) == 0] *)
Definition is_command (line : list Z) (word : string) : option bool := d ← kstrcmp line (c_str word); Some (d =? 0).

(** [while (args[len] != 0 && args[len] != ' ' && len + 1 < 32) path[len] = args[len], len++;]
    The result is the string in [path] and [len]; the fuel is the size of the array. *)
Fixpoint first_word (fuel : nat) (args : list Z) (len : Z) : option (list Z * Z) :=
  match fuel with
  | O => None
  | S fuel' =>
      c ← aread args len;
      if (c =? 0) || (c =? 32) || (32 <=? len + 1) then Some ([0], len)
      else '(path, n) ← first_word fuel' args (len + 1); Some (c :: path, n)
  end.

(** The decimal number at the start of a string, modulo the width of an integer. *)
Fixpoint number_at (fuel : nat) (text : list Z) (i size : Z) : option Z :=
  match fuel with
  | O => None
  | S fuel' =>
      c ← aread text i;
      if (48 <=? c) && (c <=? 57) then number_at fuel' text (i + 1) (size *% 10 +% (c - 48)) else Some size
  end.

Definition command_ls : M G unit :=
  _ ← print (c_line "diskfs:");
  _ ← iterate 4098 (λ i,
        n ← on_kernel k_diskfs_file_count;
        if i <? n then
          name ← on_kernel (k_diskfs_file_name i);
          _ ← print name; _ ← print [10; 0]; mret (inl (i +% 1))
        else mret (inr tt)) 0;
  prompt.

Definition command_cat (path : list Z) : M G unit :=
  r ← on_kernel (k_diskfs_read_file path);
  _ ← match r with
      | None => print (c_line "File not found.")
      | Some (data, size) =>
          _ ← for_ 0 size (λ i, c ← lift (aread data i); print [c; 0]);
          if size =? 0 then print [10; 0]
          else c ← lift (aread data (size -% 1)); when (negb (c =? 10)) (print [10; 0])
      end;
  prompt.

Definition command_write (args : list Z) : M G unit :=
  '(path, len) ← lift (first_word 33 args 0);
  c ← lift (aread args len);
  ok ← (if (len =? 0) || negb (c =? 32) then mret false
        else
          let text := drop (Z.to_nat (len + 1)) args in
          size ← lift (kstrlen text);
          on_kernel (k_diskfs_write_file path text (u32 size)));
  _ ← print (if (ok : bool) then c_line "Write passed." else c_line "Write failed.");
  prompt.

Definition command_delete (path : list Z) : M G unit :=
  ok ← on_kernel (k_diskfs_delete_file path);
  _ ← print (if (ok : bool) then c_line "Delete passed." else c_line "Delete failed.");
  prompt.

Definition command_rename (args : list Z) : M G unit :=
  '(path, len) ← lift (first_word 33 args 0);
  c ← lift (aread args len);
  ok ← (if (0 <? len) && (c =? 32) then on_kernel (k_diskfs_rename_file path (drop (Z.to_nat (len + 1)) args)) else mret false);
  _ ← print (if (ok : bool) then c_line "Rename passed." else c_line "Rename failed.");
  prompt.

(** The number is read also where there is no second argument. *)
Definition command_truncate (args : list Z) : M G unit :=
  '(path, len) ← lift (first_word 33 args 0);
  size ← lift (number_at (S (length args)) args (len + 1) 0);
  c ← lift (aread args len);
  ok ← (if (0 <? len) && (c =? 32) then on_kernel (k_diskfs_truncate_file path size) else mret false);
  _ ← print (if (ok : bool) then c_line "Truncate passed." else c_line "Truncate failed.");
  prompt.

Definition command_fsck : M G unit :=
  r ← on_kernel (k_diskfs_fsck 96);
  _ ← print (snd r);
  _ ← print_u32 (c_str "fsck errors=") (fst r);
  prompt.

Definition command_number (label : string) (m : M K Z) : M G unit := n ← on_kernel m; _ ← print_u32 (c_str label) n; prompt.

(** A test of the command line and what is done when it holds. *)
Definition case {A} (test : option bool) (yes no : M G A) : M G A := b ← lift test; if (b : bool) then yes else no.

Definition execute_command (line : list Z) : M G unit :=
  c ← lift (aread line 0);
  if c =? 0 then prompt
  else
    _ ← on_terminal (push_history line);
    case (is_command line "help")
      (_ ← print (c_line "Commands: help clear about ticks uptime ls cat write delete rename truncate fsck pci run procs tasks mem"); prompt)
    (case (is_command line "clear") (_ ← on_terminal clear_buffer; prompt)
    (case (is_command line "about")
      (_ ← print (c_line "MyOS GUI double-buffered desktop."); _ ← print (c_line "Window manager: drag focus min max resize."); prompt)
    (case (is_command line "ticks") (command_number "Timer ticks=" k_timer_ticks)
    (case (is_command line "uptime") (command_number "Uptime seconds=" k_timer_uptime_seconds)
    (case (is_command line "mem")
      (n ← on_kernel k_pmm_free_pages; _ ← print_u32 (c_str "PMM free pages=") n; command_number "Heap free bytes=" k_heap_free_bytes)
    (case (is_command line "tasks") (command_number "Scheduler switches=" k_scheduler_switch_count)
    (case (is_command line "procs") (command_number "User processes=" k_user_process_count)
    (case (is_command line "ls") command_ls
    (case (starts_with line 0 (bytes_of "cat ")) (command_cat (drop 4 line))
    (case (starts_with line 0 (bytes_of "write ")) (command_write (drop 6 line))
    (case (starts_with line 0 (bytes_of "delete ")) (command_delete (drop 7 line))
    (case (starts_with line 0 (bytes_of "rename ")) (command_rename (drop 7 line))
    (case (starts_with line 0 (bytes_of "truncate ")) (command_truncate (drop 9 line))
    (case (is_command line "fsck") command_fsck
    (case (is_command line "pci") (command_number "PCI devices=" k_pci_device_count)
    (case (starts_with line 0 (bytes_of "run "))
      (w ← on_terminal (gets t_window); run_program (drop 4 line) (MkMetrics 0 0 0) (wz w))
      (_ ← print (c_line "Unknown command. Type help."); prompt))))))))))))))))).

Definition terminal_handle_key (key : Z) (m : Metrics) (z : Z) : M G unit :=
  t ← on_terminal (gets id);
  if key =? GUI_KEY_F1 then terminal_open_window m z
  else if key =? GUI_KEY_PAGE_UP then when (t_scroll t +% 1 <? t_line_count t) (on_terminal (modify (set_t_scroll (t_scroll t +% 1))))
  else if key =? GUI_KEY_PAGE_DOWN then when (0 <? t_scroll t) (on_terminal (modify (set_t_scroll (t_scroll t -% 1))))
  else if key =? GUI_KEY_ARROW_UP then on_terminal (recall_history (-1))
  else if key =? GUI_KEY_ARROW_DOWN then on_terminal (recall_history 1)
  else if negb (wopen (t_window t)) || bool_decide (wmode (t_window t) = Minimized) then mret tt
  else
    _ ← on_terminal (terminal_focus z);
    if key =? 10 then
      _ ← on_terminal (put_command (t_command_len t) 0);
      _ ← on_terminal (write [10; 0]);
      _ ← serial (c_line "MyOS GUI terminal: command entered.");
      t ← on_terminal (gets id);
      _ ← execute_command (t_command t);
      on_terminal (modify (set_t_command_len 0))
    else if key =? 8 then
      when (0 <? t_command_len t)
        (_ ← on_terminal (modify (set_t_command_len (t_command_len t -% 1))); on_terminal (write [8; 0]))
    else
      when ((32 <=? key) && (key <=? 126) && (t_command_len t +% 1 <? COMMAND_SIZE))
        (on_terminal (_ ← put_command (t_command_len t) key; _ ← modify (set_t_command_len (t_command_len t +% 1)); write [key; 0])).
End commands.
End apps.
