(* ===== verification/GuiOverlay.v ===== *)
(** * The mouse cursor over the screen, kernel/gui/core/gui.cpp

    Before the cursor is drawn the pixels around it are saved, and they are put back
    before anything else is drawn or the cursor moves: a cursor leaves no trace. *)

From Stdlib Require Import ZArith Lia Bool String.
From stdpp Require Import base numbers list gmap.
From S2P Require Import Prelude Windows GuiKernel Notepad Terminal UtilityApps Memory Graphics GraphicsPaint GraphicsBlit GraphicsProps Assets GuiState.

Definition CURSOR_OVERLAY_MARGIN : Z := 16.
Definition CURSOR_OVERLAY_MAX_W : Z := 64.
Definition CURSOR_OVERLAY_MAX_H : Z := 64.

(** The copy loops: [row_start] is [pixels + (y + row) * pitch + x * bytes_per_pixel]. *)
Definition row_bytes (s : graphics_surface) (r : Rect) : Z := u32 (rw r) *% bytes_per_pixel s.
Definition row_start (s : graphics_surface) (r : Rect) (row : Z) : Z :=
  pixels s +% (u32 (ry r) +% row) *% pitch s +% u32 (rx r) *% bytes_per_pixel s.

Definition restore_pixels (s : graphics_surface) (r : Rect) (background : list Z) : M gfx unit :=
  for_ 0 (rh r) (λ row, for_ 0 (row_bytes s r) (λ i,
    v ← lift (aread background (row *% row_bytes s r + i)); write_mem 1 (row_start s r row +% i) v)).

Definition save_pixels (s : graphics_surface) (r : Rect) (background : list Z) : M gfx (list Z) :=
  b ← for_state (R := Empty_set) 0 (rh r) (λ row b,
        for_state (R := Empty_set) 0 (row_bytes s r) (λ i b,
          v ← read_mem 1 (row_start s r row +% i); b ← lift (awrite b (row *% row_bytes s r + i) v); mret (inl b)) b) background;
  mret (match b with inl b => b | inr e => Empty_set_rect (λ _, list Z) e end).

Section overlay.
Context {K : Type} `{GuiKernel K}.
Abbreviation G := (gui K).

Definition cursor_text_mode : M G bool :=
  until ← gets cursor_text_until; now ← on_kernel k_timer_ticks; mret (0 <? i32 (until -% now)).

Definition cursor_width : M G Z :=
  t ← cursor_text_mode; a ← gets g_assets;
  let w := i32 (assets_cursor_width a t) in mret (if 0 <? w then w else 24).
Definition cursor_height : M G Z :=
  t ← cursor_text_mode; a ← gets g_assets;
  let h := i32 (assets_cursor_height a t) in mret (if 0 <? h then h else 24).

(** The rectangle around a cursor of [w] by [h] at [(x, y)], cut off at the screen and at
    the size of the buffer. *)
Definition overlay_rect (m : Metrics) (x y w h : Z) : option Rect :=
  x0 ← checked (x - CURSOR_OVERLAY_MARGIN); y0 ← checked (y - CURSOR_OVERLAY_MARGIN);
  w0 ← checked (w + CURSOR_OVERLAY_MARGIN * 2); h0 ← checked (h + CURSOR_OVERLAY_MARGIN * 2);
  r ← clip m (MkRect x0 y0 w0 h0);
  Some (match r with
        | None => MkRect 0 0 0 0
        | Some r => MkRect (rx r) (ry r) (if CURSOR_OVERLAY_MAX_W <? rw r then CURSOR_OVERLAY_MAX_W else rw r)
                      (if CURSOR_OVERLAY_MAX_H <? rh r then CURSOR_OVERLAY_MAX_H else rh r)
        end).

Definition cursor_overlay_rect_at (x y : Z) : M G Rect :=
  w ← cursor_width; h ← cursor_height; m ← gets metrics; lift (overlay_rect m x y w h).

Definition restore_cursor_overlay (screen : option graphics_surface) : M G unit :=
  o ← gets g_overlay;
  match screen with
  | Some s =>
      if negb (ov_saved o) || rect_empty (ov_rect o) then mret tt
      else
        _ ← on_gfx (restore_pixels s (ov_rect o) (ov_background o));
        modify (λ g, set_g_overlay (set_ov_saved false (g_overlay g)) g)
  | None => mret tt
  end.

Definition redraw_cursor_overlay (screen : option graphics_surface) (force : bool) : M G unit :=
  match screen with
  | None => mret tt
  | Some s =>
      text_mode ← cursor_text_mode;
      x ← on_kernel k_mouse_x; y ← on_kernel k_mouse_y;
      next ← cursor_overlay_rect_at x y;
      o ← gets g_overlay;
      if negb force && ov_saved o && eqb (ov_text_mode o) text_mode && bool_decide (ov_rect o = next) then mret tt
      else
        _ ← restore_cursor_overlay screen;
        if rect_empty next then mret tt
        else
          o ← gets g_overlay;
          b ← on_gfx (save_pixels s next (ov_background o));
          _ ← modify (λ g, set_g_overlay (Overlay true text_mode next b) g);
          x ← on_kernel k_mouse_x; y ← on_kernel k_mouse_y;
          a ← gets g_assets;
          _ ← on_gfx (assets_draw_cursor a screen x y text_mode);
          mret tt
  end.
End overlay.

(** ** Saving and restoring *)

(** A rectangle of the surface that the buffer can hold. *)
Record saveable (s : graphics_surface) (r : Rect) : Prop := {
  sv_x : 0 ≤ rx r; sv_y : 0 ≤ ry r;
  sv_w : 0 < rw r ≤ 64; sv_h : 0 < rh r ≤ 64;
  sv_right : rx r + rw r ≤ width s; sv_bottom : ry r + rh r ≤ height s }.

Section pixels.
Context (s : graphics_surface) (r : Rect).
Hypothesis Hok : surface_ok s.
Hypothesis Hr : saveable s r.

(** The address of the byte [i] of the row [row], and its place in the buffer. *)
Definition at_row (row i : Z) : Z := addr s (rx r) (ry r + row) + i.
Definition place (row i : Z) : nat := Z.to_nat (row * (rw r * bytes_per_pixel s) + i).

Lemma row_facts row : 0 ≤ row < rh r → on s (rx r) (ry r + row) ∧ pixels s ≤ addr s (rx r) (ry r + row) ∧
  addr s (rx r) (ry r + row) + rw r * bytes_per_pixel s ≤ pixels s + (ry r + row) * pitch s + pitch s ∧
  pixels s + (ry r + row) * pitch s + pitch s ≤ pixels s + height s * pitch s ∧ pixels s + height s * pitch s ≤ 2 ^ 32 ∧
  0 < rw r * bytes_per_pixel s ≤ 256.
Proof.
  intros Hrow. destruct Hr. pose proof (bpp_cases s Hok) as [_ Hb]. assert (Hon : on s (rx r) (ry r + row)) by (split; lia).
  pose proof (on_row s Hok _ _ Hon) as H1. pose proof Hok as [_ ? ? ? Hp He]. split; [done|]. unfold addr.
  assert (0 ≤ rx r * bytes_per_pixel s) by nia. assert ((rx r + rw r) * bytes_per_pixel s ≤ width s * bytes_per_pixel s) by nia.
  split_and!; nia.
Qed.

Lemma row_bytes_eq : row_bytes s r = rw r * bytes_per_pixel s.
Proof. unfold row_bytes. pose proof (row_facts 0) as H. destruct Hr. destruct H as (_ & _ & _ & _ & _ & H); [lia|]. rewrite (u32_small (rw r)) by (unfold is_u32; lia). apply u32_small. unfold is_u32. lia. Qed.

Lemma row_start_eq row : 0 ≤ row < rh r → row_start s r row = addr s (rx r) (ry r + row).
Proof.
  intros Hrow. destruct (row_facts row Hrow) as (Hon & _). pose proof (surface_extent s Hok). destruct Hr, Hon. unfold row_start.
  rewrite (u32_small (ry r)), (u32_small (rx r)) by (unfold is_u32; lia). rewrite (u32_small (ry r + row)) by (unfold is_u32; lia).
  apply (pixel_address_eq s Hok). by split.
Qed.

Lemma at_row_small row i : 0 ≤ row < rh r → 0 ≤ i < rw r * bytes_per_pixel s → row_start s r row +% i = at_row row i ∧ row *% row_bytes s r + i = row * (rw r * bytes_per_pixel s) + i.
Proof.
  intros Hrow Hi. rewrite row_start_eq, row_bytes_eq by done. destruct (row_facts row Hrow) as (_ & H1 & H2 & H3 & H4 & H5). destruct Hok, Hr. unfold at_row. split.
  - apply u32_small. unfold is_u32. lia.
  - f_equal. apply u32_small. unfold is_u32. nia.
Qed.

(** Different bytes of the rectangle are at different addresses and places. *)
Lemma at_row_inj row i row' i' : 0 ≤ row < rh r → 0 ≤ i < rw r * bytes_per_pixel s → 0 ≤ row' < rh r → 0 ≤ i' < rw r * bytes_per_pixel s →
  at_row row i = at_row row' i' → row = row' ∧ i = i'.
Proof.
  intros H1 H2 H3 H4 E. destruct (row_facts row H1) as (_ & _ & H5 & _). destruct (row_facts row' H3) as (_ & _ & H6 & _). unfold at_row, addr in *.
  pose proof (bpp_cases s Hok) as [_ Hb]. destruct Hr. assert (0 ≤ rx r * bytes_per_pixel s) by nia.
  assert (row = row') as ->; [|lia]. destruct (Z.lt_trichotomy row row') as [Hlt|[?|Hlt]]; [|done|].
  - assert ((ry r + row) * pitch s + pitch s ≤ (ry r + row') * pitch s) by (destruct Hok; nia). lia.
  - assert ((ry r + row') * pitch s + pitch s ≤ (ry r + row) * pitch s) by (destruct Hok; nia). lia.
Qed.

Lemma place_small row i : 0 ≤ row < rh r → 0 ≤ i < rw r * bytes_per_pixel s → 0 ≤ row * (rw r * bytes_per_pixel s) + i < 16384.
Proof. intros Hrow Hi. destruct (row_facts row Hrow) as (_ & _ & _ & _ & _ & H5). destruct Hr. nia. Qed.

Lemma place_inj row i row' i' : 0 ≤ row < rh r → 0 ≤ i < rw r * bytes_per_pixel s → 0 ≤ row' < rh r → 0 ≤ i' < rw r * bytes_per_pixel s →
  place row i = place row' i' → row = row' ∧ i = i'.
Proof.
  intros H1 H2 H3 H4 E. apply Z2Nat.inj in E; [|apply place_small; done..]. set (n := rw r * bytes_per_pixel s) in *.
  assert (row = row') as ->; [|lia]. destruct (Z.lt_trichotomy row row') as [Hlt|[?|Hlt]]; [|done|]; nia.
Qed.

(** Positions before the byte [i] of the row [row], in the order of the loops. *)
Definition before (row i row' i' : Z) : Prop := row' < row ∨ row' = row ∧ i' < i.
Definition inside (row i : Z) : Prop := 0 ≤ row < rh r ∧ 0 ≤ i < rw r * bytes_per_pixel s.

Definition saved_upto (m : mem) (b : list Z) (row i : Z) : Prop :=
  Z.of_nat (length b) = 16384 ∧ Forall is_u8 b ∧ ∀ row' i', inside row' i' → before row i row' i' → b !! place row' i' = m !! at_row row' i'.

Lemma at_row_mapped m row i : surface_mapped s m → inside row i → is_Some (m !! at_row row i).
Proof.
  intros Hm [Hrow Hi]. destruct (row_facts row Hrow) as (_ & H1 & H2 & H3 & _). apply Hm. unfold at_row. pose proof Hok as [_ ? ? ? ? ?]. lia.
Qed.

Lemma save_pixels_wp b g : drawable s g → Z.of_nat (length b) = 16384 → Forall is_u8 b →
  wp (save_pixels s r b) (λ b' g', g' = g ∧ saved_upto (gmem g) b' (rh r) 0) g.
Proof.
  intros [_ Hm Hb] Hl Hu. pose proof Hr as [_ _ Hw Hh _ _]. unfold save_pixels. wp_step.
  eapply (wp_for_state _ _ _ (λ row b' g', g' = g ∧ saved_upto (gmem g) b' row 0)); [lia| | |].
  - split; [done|]. split; [done|]. split; [done|]. intros row' i' [? ?] [?|?]; lia.
  - intros row b1 g1 Hrow [-> H1]. rewrite row_bytes_eq. destruct (row_facts row Hrow) as (_ & _ & _ & _ & _ & Hn).
    eapply (wp_for_state _ _ _ (λ i b' g', g' = g ∧ saved_upto (gmem g) b' row i)); [lia|done| |].
    + intros i b2 g2 Hi [-> (Hl2 & Hu2 & H2)]. destruct (at_row_small row i Hrow Hi) as [-> E2]. rewrite row_bytes_eq in E2. rewrite E2.
      destruct (at_row_mapped (gmem g) row i Hm (conj Hrow Hi)) as [v Hv]. pose proof (Hb _ _ Hv) as Hvu. unfold is_u8 in Hvu.
      wp_step. eapply (read_mem_wp 1 _ v); [cbn; rewrite Hv; cbn; f_equal; lia|]. pose proof (place_small row i Hrow Hi) as Hp. wp_step. eapply wp_lift; [apply awrite_eq; lia|]. wp_step.
      split; [done|]. split; [by rewrite length_insert|]. split; [by apply Forall_insert|]. intros row' i' Hin Hbe. fold (place row i). destruct (decide (row' = row ∧ i' = i)) as [[-> ->]|Hne].
      * rewrite list_lookup_insert_eq by (unfold place; lia). done.
      * rewrite list_lookup_insert_ne; [apply H2; [done|destruct Hbe as [?|[-> ?]]; [by left|right; split; [done|]; lia]]|].
        destruct Hin. intros E. apply place_inj in E; [|done..]. naive_solver.
    + intros b2 g2 [-> (Hl2 & Hu2 & H2)]. split; [done|]. split; [done|]. split; [done|]. intros row' i' Hin Hbe. apply H2; [done|]. destruct Hin, Hbe as [?|?]; [|lia].
      destruct (decide (row' = row)); [right; split; [done|lia]|left; lia].
  - intros b1 g1 H1. by wp_step.
Qed.

(** After a part has been put back: the bytes before are those of the buffer, the rest of
    the memory is untouched. *)
Definition restored_upto (b : list Z) (m m' : mem) (row i : Z) : Prop :=
  (∀ row' i', inside row' i' → before row i row' i' → m' !! at_row row' i' = b !! place row' i') ∧
  (∀ a, (∀ row' i', inside row' i' → before row i row' i' → a ≠ at_row row' i') → m' !! a = m !! a).

Lemma restore_pixels_wp b g : surface_mapped s (gmem g) → Z.of_nat (length b) = 16384 → Forall is_u8 b →
  wp (restore_pixels s r b) (λ _ g', ∃ m', g' = set_gmem m' g ∧ restored_upto b (gmem g) m' (rh r) 0 ∧ keeps_mapped (gmem g) m') g.
Proof.
  intros Hm Hl Hu. pose proof Hr as [_ _ Hw Hh _ _]. unfold restore_pixels.
  eapply (wp_for _ _ _ (λ row g', ∃ m', g' = set_gmem m' g ∧ restored_upto b (gmem g) m' row 0 ∧ keeps_mapped (gmem g) m')); [lia| | |done].
  - exists (gmem g). split; [by destruct g|]. split; [|done]. split; [intros row' i' [? ?] [?|?]; lia|done].
  - intros row g1 Hrow (m1 & -> & H1 & K1). rewrite row_bytes_eq. destruct (row_facts row Hrow) as (_ & _ & _ & _ & _ & Hn).
    eapply (wp_for _ _ _ (λ i g', ∃ m', g' = set_gmem m' g ∧ restored_upto b (gmem g) m' row i ∧ keeps_mapped (gmem g) m')); [lia|by exists m1| |].
    + intros i g2 Hi (m2 & -> & [H2 H3] & K2). destruct (at_row_small row i Hrow Hi) as [Ea Ep]. rewrite row_bytes_eq in Ep. rewrite Ea, Ep. pose proof (place_small row i Hrow Hi) as Hp.
      destruct (lookup_lt_is_Some_2 b (place row i)) as [v Hv]; [unfold place; lia|]. pose proof (Forall_lookup_1 _ _ _ _ Hu Hv) as Hvu. unfold is_u8 in Hvu. wp_step. eapply wp_lift; [apply aread_Some; split; [lia|exact Hv]|].
      assert (Hma : is_Some (m2 !! at_row row i)) by (apply K2, at_row_mapped; [done|by split]).
      apply write_mem_wp; [intros a Ha; cbn; by replace a with (at_row row i) by (cbn in Ha; lia)|]. intros m3 E3. cbn in E3. destruct Hma as [old Ho]. rewrite Ho in E3. cbn in E3. injection E3 as <-.
      rewrite Z.mod_small by lia. exists (<[at_row row i := v]> m2). split; [done|]. split; [split|].
      * intros row' i' Hin Hbe. destruct (decide (row' = row ∧ i' = i)) as [[-> ->]|Hne]; [rewrite lookup_insert_eq; congruence|].
        rewrite lookup_insert_ne; [apply H2; [done|destruct Hbe as [?|[-> ?]]; [by left|right; split; [done|]; lia]]|]. destruct Hin. intros E. apply at_row_inj in E; [|done..]. naive_solver.
      * intros a Ha. rewrite lookup_insert_ne; [apply H3; intros row' i' Hin Hbe; apply Ha; [done|]; destruct Hbe as [?|[-> ?]]; [by left|right; split; [done|]; lia]|].
        intros <-. apply (Ha row i); [by split|right; split; [done|lia]|done].
      * intros a. rewrite insert_is_Some, (K2 a). split; [|by right]. intros [<-|?]; [apply K2; by exists old|done].
    + intros g2 (m2 & -> & [H2 H3] & K2). exists m2. split; [done|]. split; [|done]. split.
      * intros row' i' Hin Hbe. apply H2; [done|]. destruct Hin, Hbe as [?|?]; [|lia]. destruct (decide (row' = row)); [right; split; [done|lia]|left; lia].
      * intros a Ha. apply H3. intros row' i' Hin Hbe. apply Ha; [done|]. destruct Hbe as [?|[-> ?]]; left; lia.
Qed.

(** The bytes of the rows are the bytes of the pixels. *)
Lemma at_row_pixel row i : inside row i → on s (rx r + i / bytes_per_pixel s) (ry r + row) ∧ in_rect r (rx r + i / bytes_per_pixel s) (ry r + row) ∧
  addr s (rx r + i / bytes_per_pixel s) (ry r + row) ≤ at_row row i < addr s (rx r + i / bytes_per_pixel s) (ry r + row) + bytes_per_pixel s.
Proof.
  intros [Hrow Hi]. pose proof Hr as [? ? ? ? ? ?]. pose proof (bpp_cases s Hok) as [_ Hbp]. set (b := bytes_per_pixel s) in *. assert (Hb : 0 < b) by lia.
  pose proof (Z.div_mod i b ltac:(lia)) as Hd. pose proof (Z.mod_pos_bound i b Hb) as Hmd. assert (0 ≤ i / b) by (apply Z.div_pos; lia). assert (i / b < rw r) by (apply Z.div_lt_upper_bound; lia).
  unfold on, in_rect, at_row, addr. fold b. split; [lia|]. split; [lia|]. nia.
Qed.

Lemma pixel_at_row x y a : in_rect r x y → addr s x y ≤ a < addr s x y + bytes_per_pixel s →
  inside (y - ry r) ((x - rx r) * bytes_per_pixel s + (a - addr s x y)) ∧ a = at_row (y - ry r) ((x - rx r) * bytes_per_pixel s + (a - addr s x y)).
Proof.
  intros [Hx Hy] Ha. pose proof (bpp_cases s Hok) as [_ Hbp]. set (b := bytes_per_pixel s) in *. unfold inside, at_row, addr in *. fold b in Ha |- *. replace (ry r + (y - ry r)) with y by lia. split; [|nia].
  split; [lia|]. assert ((x - rx r + 1) * b ≤ rw r * b) by nia. nia.
Qed.

(** What was drawn inside the rectangle after saving is gone after restoring. *)
Lemma save_draw_restore b g g1 : drawable s g → saved_upto (gmem g) b (rh r) 0 → draws_in s g g1 (in_rect r) →
  wp (restore_pixels s r b) (λ _ g2, g2 = set_gmem (gmem g) g1) g1.
Proof.
  intros [_ Hm Hb] (Hl & Hu & Hs) (f & [Eg P] & Hf). eapply wp_mono; [apply restore_pixels_wp; [by eapply paints_surface_mapped|done|done]|].
  intros _ g2 (m2 & -> & [H1 H2] & _). f_equal. apply map_eq. intros a. pose proof Hr as [? ? ? ? ? ?]. pose proof (pt_bytes _ _ _ _ P Hb) as Hb1.
  assert (Hmiss : (∀ x y, on s x y → in_rect r x y → ¬ (addr s x y ≤ a < addr s x y + bytes_per_pixel s)) → m2 !! a = gmem g1 !! a).
  { intros Hn. apply H2. intros row i Hin _ ->. destruct (at_row_pixel row i Hin) as (Hon & Hir & Hb2). by apply (Hn _ _ Hon Hir). }
  destruct (pixel_or_not s a Hok) as [(x & y & Hon & Ha)|Hnone].
  - destruct (decide (in_rect r x y)) as [Hir|Hir].
    + destruct (pixel_at_row x y a Hir Ha) as (Hin & ->). rewrite H1; [by apply Hs; [|left; destruct Hin; lia]|done|left; destruct Hin; lia].
    + rewrite Hmiss.
      * assert (f x y = None) as Ef by (destruct (f x y) eqn:E; [exfalso; apply Hir, Hf; by rewrite E|done]). pose proof (pt_pixel _ _ _ _ P x y Hon) as Hpx. rewrite Ef in Hpx.
        destruct (pixel_is_Some s Hok (gmem g) x y Hm Hon) as [v Hv]. rewrite Hv in Hpx. unfold pixel in *. symmetry. eapply load_inj; [exact Hb|exact Hb1|exact Hv|exact Hpx|]. rewrite (pixel_size_eq s Hok). lia.
      * intros x' y' Hon' Hir' Ha'. destruct (decide (x' = x ∧ y' = y)) as [[-> ->]|Hne]; [done|]. pose proof (addr_disjoint s Hok x y x' y' Hon Hon' ltac:(lia)). lia.
  - rewrite Hmiss by naive_solver. by apply P.
Qed.
End pixels.

(** ** The rectangle *)

Lemma clip_start_ok x w : is_i32 (w + x) → clip_start x w = Some (Z.max 0 x, w + Z.min 0 x).
Proof.
  intros H. unfold clip_start. destruct (Z.ltb_spec x 0).
  - rewrite checked_ok by done. cbn. by rewrite Z.max_l, Z.min_r by lia.
  - by rewrite Z.max_r, Z.min_l, Z.add_0_r by lia.
Qed.
Lemma clip_end_ok x w limit : is_i32 (x + w) → is_i32 (limit - x) → clip_end x w limit = Some (Z.min w (limit - x)).
Proof.
  intros H1 H2. unfold clip_end. rewrite (checked_ok (x + w)), (checked_ok (limit - x)) by done. cbn. destruct (Z.ltb_spec limit (x + w)).
  - by rewrite Z.min_r by lia.
  - by rewrite Z.min_l by lia.
Qed.

(** The part of a rectangle on the screen. *)
Definition cut (m : Metrics) (r : Rect) : Rect :=
  MkRect (Z.max 0 (rx r)) (Z.max 0 (ry r)) (Z.min (rw r + Z.min 0 (rx r)) (m_width m - Z.max 0 (rx r))) (Z.min (rh r + Z.min 0 (ry r)) (m_height m - Z.max 0 (ry r))).

Lemma clip_ok m r : metrics_ok m → -100000 ≤ rx r ≤ 100000 → -100000 ≤ ry r ≤ 100000 → -100000 ≤ rw r ≤ 100000 → -100000 ≤ rh r ≤ 100000 →
  clip m r = Some (if (m_width m <=? Z.max 0 (rx r)) || (m_height m <=? Z.max 0 (ry r)) then None else Some (cut m r)).
Proof.
  intros [] Hx Hy Hw Hh. unfold clip. rewrite !clip_start_ok by (unfold is_i32; lia). cbn [mbind option_bind]. rewrite !(i32_small (m_width m)), !(i32_small (m_height m)) by (unfold is_i32; lia).
  destruct (_ || _); [done|]. rewrite !clip_end_ok by (unfold is_i32; lia). done.
Qed.

Lemma cut_in m r x y : on_screen m x y → in_rect (cut m r) x y ↔ in_rect r x y.
Proof. intros [? ?]. unfold in_rect, cut. cbn. lia. Qed.

(** Where the overlay is: on the screen, not too large, and around the pointer. *)
Lemma overlay_rect_ok m x y w h : metrics_ok m → 0 ≤ x ≤ 16384 → 0 ≤ y ≤ 16384 → 0 < w < 65536 → 0 < h < 65536 →
  ∃ r, overlay_rect m x y w h = Some r ∧ (r = MkRect 0 0 0 0 ∨
    (0 ≤ rx r ∧ 0 ≤ ry r ∧ 0 < rw r ≤ 64 ∧ 0 < rh r ≤ 64 ∧ rx r + rw r ≤ m_width m ∧ ry r + rh r ≤ m_height m)) ∧
    ∀ px py, on_screen m px py → x - 16 ≤ px < x + 17 → y - 16 ≤ py < y + 17 → in_rect r px py.
Proof.
  intros Hm Hx Hy Hw Hh. unfold overlay_rect, CURSOR_OVERLAY_MARGIN, CURSOR_OVERLAY_MAX_W, CURSOR_OVERLAY_MAX_H. rewrite !checked_ok by (unfold is_i32; lia). cbn [mbind option_bind].
  rewrite clip_ok by (done || (cbn; lia)). cbn [mbind option_bind]. pose proof Hm as []. destruct (_ || _) eqn:E.
  - eexists. split; [done|]. split; [by left|]. cbn in E. intros px py [? ?] ? ?. exfalso. bool_to_prop. destruct E; bool_to_prop; lia.
  - eexists. split; [done|]. cbn in *. bool_to_prop. rewrite !if_min. split; [right; lia|]. intros px py [? ?] ? ?. unfold in_rect. cbn. lia.
Qed.

(** A cursor that fits into the saved rectangle, whichever of the two the width of the
    rectangle was computed for. *)
Definition small_cursor (b : asset_bitmap) : Prop :=
  bm_hotspot_x b ≤ 16 ∧ bm_width b ≤ bm_hotspot_x b + 17 ∧ bm_hotspot_y b ≤ 16 ∧ bm_height b ≤ bm_hotspot_y b + 17.

(** ** The display of the desktop *)

Record overlay_ok (m : Metrics) (o : overlay) : Prop := {
  oo_rect : ov_saved o = true → 0 ≤ rx (ov_rect o) ∧ 0 ≤ ry (ov_rect o) ∧ 0 < rw (ov_rect o) ≤ 64 ∧ 0 < rh (ov_rect o) ≤ 64 ∧
    rx (ov_rect o) + rw (ov_rect o) ≤ m_width m ∧ ry (ov_rect o) + rh (ov_rect o) ≤ m_height m;
  oo_size : Z.of_nat (length (ov_background o)) = 16384;
  oo_bytes : Forall is_u8 (ov_background o) }.

Record screen_of (m : Metrics) (s : graphics_surface) (gf : gfx) : Prop := {
  sc_draw : drawable s gf; sc_width : width s = m_width m; sc_height : height s = m_height m }.

Lemma saveable_of m s o gf : screen_of m s gf → overlay_ok m o → ov_saved o = true → saveable s (ov_rect o).
Proof. intros [_ Ew Eh] Ho Es. destruct (oo_rect _ _ Ho Es) as (? & ? & ? & ? & ? & ?). split; rewrite ?Ew, ?Eh; done. Qed.

Lemma rect_nonempty r : 0 < rw r → 0 < rh r → rect_empty r = false.
Proof. intros. unfold rect_empty. apply orb_false_iff. split; apply Z.leb_gt; lia. Qed.

Lemma restored_screen m s r b gf m' : screen_of m s gf → saveable s r → Z.of_nat (length b) = 16384 → Forall is_u8 b →
  restored_upto s r b (gmem gf) m' (rh r) 0 → keeps_mapped (gmem gf) m' → screen_of m s (set_gmem m' gf) ∧ bytes_ok m'.
Proof.
  intros [[Hok Hm Hb] Ew Eh] Hr Hl Hu [R1 R2] Hk. assert (Hb' : bytes_ok m').
  { intros a v Hv. destruct (pixel_or_not s a Hok) as [(x & y & Hon & Ha)|Hn].
    - destruct (decide (in_rect r x y)) as [Hir|Hir].
      + destruct (pixel_at_row s r Hok x y a Hir Ha) as (Hin & Ea). rewrite Ea, R1 in Hv; [by eapply Forall_lookup_1|done|left; destruct Hin; lia].
      + apply (Hb a). rewrite <- Hv. symmetry. apply R2. intros row i Hin _ ->. destruct (at_row_pixel s r Hok Hr row i Hin) as (Hon' & Hir' & Ha').
        destruct (decide (rx r + i / bytes_per_pixel s = x ∧ ry r + row = y)) as [[E1 E2]|Hne]; [by rewrite E1, E2 in Hir'|]. pose proof (addr_disjoint s Hok _ _ _ _ Hon Hon' ltac:(lia)). lia.
    - apply (Hb a). rewrite <- Hv. symmetry. apply R2. intros row i Hin _ ->. destruct (at_row_pixel s r Hok Hr row i Hin) as (Hon' & _ & Ha'). by apply (Hn _ _ Hon'). }
  split; [|done]. split; [|done|done]. split; [done| |done]. intros a Ha. by apply Hk, Hm.
Qed.

Section gui_overlay.
Context {K : Type} `{GuiKernelLaws K}.
Abbreviation G := (gui K).
Implicit Types g : G.

(** The graphics memory after the saved pixels have been put back. *)
Definition wiped (s : graphics_surface) (o : overlay) (gf gf' : gfx) : Prop :=
  if ov_saved o then restore_pixels s (ov_rect o) (ov_background o) gf = Some (tt, gf') else gf' = gf.

Lemma restore_overlay_wp m s g : screen_of m s (g_gfx g) → overlay_ok m (g_overlay g) →
  wp (restore_cursor_overlay (Some s)) (λ _ g', ∃ gf, g' = set_g_overlay (set_ov_saved false (g_overlay g)) (set_g_gfx gf g) ∧ wiped s (g_overlay g) (g_gfx g) gf ∧
    screen_of m s gf ∧ keeps_mapped (gmem (g_gfx g)) (gmem gf) ∧ gf = set_gmem (gmem gf) (g_gfx g)) g.
Proof.
  intros Hs Ho. unfold restore_cursor_overlay, wiped. do 2 wp_step. destruct (ov_saved (g_overlay g)) eqn:Es; cbn [negb orb].
  - pose proof (saveable_of _ _ _ _ Hs Ho Es) as Hr. rewrite rect_nonempty by apply Hr. wp_step. unfold on_gfx. wp_step.
    destruct (restore_pixels_wp s (ov_rect (g_overlay g)) (dr_ok _ _ (sc_draw _ _ _ Hs)) Hr (ov_background (g_overlay g)) (g_gfx g) (dr_mapped _ _ (sc_draw _ _ _ Hs)) (oo_size _ _ Ho) (oo_bytes _ _ Ho))
      as ([] & gf & E & m' & -> & Hrs & Hk). eexists _, _. split; [exact E|]. wp_step. eexists. split; [done|]. split; [exact E|].
    destruct (restored_screen _ _ _ _ _ _ Hs Hr (oo_size _ _ Ho) (oo_bytes _ _ Ho) Hrs Hk) as [? _]. by destruct (g_gfx g).
  - wp_step. exists (g_gfx g). split_and!; try done; [|by destruct (g_gfx g)]. destruct g as [? ? ? ? ? ? [] ? ? ? ? ? ? ?]. cbn in *. by subst.
Qed.

(** The mouse does not move: [at_] is its position, which the operations of the kernel
    that redraw_cursor_overlay calls report and keep. *)
Record still (at_ : K → Z * Z) : Prop := {
  st_x k : kernel_ok k → wp k_mouse_x (λ x k', x = fst (at_ k) ∧ at_ k' = at_ k) k;
  st_y k : kernel_ok k → wp k_mouse_y (λ y k', y = snd (at_ k) ∧ at_ k' = at_ k) k;
  st_ticks k : kernel_ok k → wp k_timer_ticks (λ _ k', at_ k' = at_ k) k }.

(** The kernel after calls that change no file. *)
Definition calls (k k' : K) : Prop := goes_on k k' ∧ same_files k k'.
Lemma calls_refl k : kernel_ok k → calls k k.
Proof. intros Hk. split; [by apply goes_on_refl|by intros p c]. Qed.
Lemma calls_trans k1 k2 k3 : calls k1 k2 → calls k2 k3 → calls k1 k3.
Proof. intros [? ?] [? ?]. split; [by eapply goes_on_trans|by eapply same_files_trans]. Qed.
Lemma calls_ok k k' : calls k k' → kernel_ok k'.
Proof. by intros [[? _] _]. Qed.

(** An operation of the kernel, with what it keeps when the mouse is still. *)
Lemma kernel_call {A} (op : M K A) R (E : (K → Z * Z) → A → K → Prop) g (Q : A → G → Prop) : quiet op R → (∀ at_ k, still at_ → kernel_ok k → wp op (λ a k', E at_ a k ∧ at_ k' = at_ k) k) → kernel_ok (kern g) →
  (∀ a k, calls (kern g) k → R a → (∀ at_, still at_ → E at_ a (kern g) ∧ at_ k = at_ (kern g)) → Q a (set_kern k g)) → wp (on_kernel op) Q g.
Proof.
  intros Hq He Hk HQ. apply wp_zoom. destruct (Hq _ Hk) as (a & k & Eq & Hc & HR). exists a, k. split; [done|]. apply HQ; [done|done|]. intros at_ Hst.
  destruct (He at_ _ Hst Hk) as (a' & k' & Eq' & HE). rewrite Eq in Eq'. by injection Eq' as <- <-.
Qed.

Lemma mouse_x_call g (Q : Z → G → Prop) : kernel_ok (kern g) →
  (∀ x k, calls (kern g) k → 0 ≤ x ≤ 16384 → (∀ at_, still at_ → x = fst (at_ (kern g)) ∧ at_ k = at_ (kern g)) → Q x (set_kern k g)) → wp (on_kernel k_mouse_x) Q g.
Proof. intros Hk HQ. eapply (kernel_call _ _ (λ at_ x k, x = fst (at_ k))); [apply mouse_x_quiet| |done|done]. intros at_ k Hst Hk'. by apply st_x. Qed.
Lemma mouse_y_call g (Q : Z → G → Prop) : kernel_ok (kern g) →
  (∀ y k, calls (kern g) k → 0 ≤ y ≤ 16384 → (∀ at_, still at_ → y = snd (at_ (kern g)) ∧ at_ k = at_ (kern g)) → Q y (set_kern k g)) → wp (on_kernel k_mouse_y) Q g.
Proof. intros Hk HQ. eapply (kernel_call _ _ (λ at_ y k, y = snd (at_ k))); [apply mouse_y_quiet| |done|done]. intros at_ k Hst Hk'. by apply st_y. Qed.

Lemma text_mode_call g (Q : bool → G → Prop) : kernel_ok (kern g) →
  (∀ b k, calls (kern g) k → (∀ at_, still at_ → at_ k = at_ (kern g)) → Q b (set_kern k g)) → wp cursor_text_mode Q g.
Proof.
  intros Hk HQ. unfold cursor_text_mode. do 3 wp_step. eapply (kernel_call _ _ (λ _ _ _, True)); [apply ticks_quiet| |done|].
  - intros at_ k Hst Hk'. eapply wp_mono; [by apply (st_ticks _ Hst)|]. done.
  - intros t k Hc _ Hs. wp_step. apply HQ; [done|]. intros at_ Hst. by apply Hs.
Qed.

Lemma cursor_size b m : loaded b m → 0 < (let w := i32 (if negb (bm_pixels b =? 0) then bm_width b else 0) in if 0 <? w then w else 24) < 65536 ∧
  0 < (let h := i32 (if negb (bm_pixels b =? 0) then bm_height b else 0) in if 0 <? h then h else 24) < 65536.
Proof.
  intros [->|[Hw Hh _ [Hp _] _]]; [done|]. rewrite (proj2 (Z.eqb_neq (bm_pixels b) 0)) by lia. cbn [negb]. rewrite !i32_small by (unfold is_i32; lia). cbn zeta.
  by rewrite !(proj2 (Z.ltb_lt 0 _)) by lia.
Qed.

Lemma overlay_rect_call m x y g (Q : Rect → G → Prop) : metrics g = m → metrics_ok m → kernel_ok (kern g) → assets_ok (g_assets g) (gmem (g_gfx g)) → 0 ≤ x ≤ 16384 → 0 ≤ y ≤ 16384 →
  (∀ r k, calls (kern g) k → (∀ at_, still at_ → at_ k = at_ (kern g)) → (r = MkRect 0 0 0 0 ∨
    (0 ≤ rx r ∧ 0 ≤ ry r ∧ 0 < rw r ≤ 64 ∧ 0 < rh r ≤ 64 ∧ rx r + rw r ≤ m_width m ∧ ry r + rh r ≤ m_height m)) →
    (∀ px py, on_screen m px py → x - 16 ≤ px < x + 17 → y - 16 ≤ py < y + 17 → in_rect r px py) → Q r (set_kern k g)) → wp (cursor_overlay_rect_at x y) Q g.
Proof.
  intros Em Hm Hk Ha Hx Hy HQ. unfold cursor_overlay_rect_at, cursor_width, cursor_height. do 2 wp_step. apply text_mode_call; [done|]. intros t1 k1 Hc1 Hs1. do 3 wp_step. cbn.
  do 2 wp_step. apply text_mode_call; [by eapply calls_ok|]. intros t2 k2 Hc2 Hs2. do 3 wp_step. do 2 wp_step. cbn in *.
  pose proof (proj1 (cursor_size _ _ (active_loaded _ _ t1 Ha))) as Hw. pose proof (proj2 (cursor_size _ _ (active_loaded _ _ t2 Ha))) as Hh. cbv zeta in Hw, Hh.
  unfold assets_cursor_width, assets_cursor_height. rewrite Em. destruct (overlay_rect_ok m x y _ _ Hm Hx Hy Hw Hh) as (r & E & Hr & Hin). eapply wp_lift; [exact E|].
  apply (HQ r k2); [by eapply calls_trans| |done|done]. intros at_ Hst. rewrite (Hs2 at_ Hst). by apply Hs1.
Qed.

Lemma wiped_unique s o gf gf1 gf2 : wiped s o gf gf1 → wiped s o gf gf2 → gf1 = gf2.
Proof. unfold wiped. destruct (ov_saved o); congruence. Qed.

(** What is drawn lies in the rectangle that was saved. *)
Lemma cursor_in_rect m s a t x y r gf gf' : screen_of m s gf → small_cursor (cursor a) → small_cursor (text_cursor a) →
  (∀ px py, on_screen m px py → x - 16 ≤ px < x + 17 → y - 16 ≤ py < y + 17 → in_rect r px py) →
  draws_in s gf gf' (cursor_area (active_cursor a t) x y) → draws_in s gf gf' (in_rect r).
Proof.
  intros [_ Ew Eh] Hc Ht Hin D. eapply draws_in_mono; [by apply draws_in_on|]. intros px py [[Hx Hy] [Hox Hoy]]. rewrite Ew in Hox. rewrite Eh in Hoy.
  assert (small_cursor (active_cursor a t)) as (? & ? & ? & ?) by (unfold active_cursor; by destruct (_ && _)). apply Hin; [by split|lia|lia].
Qed.

Lemma draw_after m s gf gf' R : screen_of m s gf → draws_in s gf gf' R → screen_of m s gf' ∧ keeps_mapped (gmem gf) (gmem gf') ∧ gf' = set_gmem (gmem gf') gf.
Proof. intros [] D. split; [split; [by eapply drawable_after|done|done]|]. split; [by eapply draws_keeps|]. by destruct D as (f & [E _] & _). Qed.

Definition redrawn (m : Metrics) (s : graphics_surface) (g : G) (k : K) (o : overlay) (gf : gfx) : Prop :=
  calls (kern g) k ∧ screen_of m s gf ∧ overlay_ok m o ∧ keeps_mapped (gmem (g_gfx g)) (gmem gf) ∧ gf = set_gmem (gmem gf) (g_gfx g) ∧
  (∀ at_, still at_ → small_cursor (cursor (g_assets g)) → small_cursor (text_cursor (g_assets g)) → ∀ gf0, wiped s (g_overlay g) (g_gfx g) gf0 → wiped s o gf gf0).

Lemma redraw_wp m s force g : metrics g = m → metrics_ok m → kernel_ok (kern g) → assets_ok (g_assets g) (gmem (g_gfx g)) → screen_of m s (g_gfx g) → overlay_ok m (g_overlay g) →
  wp (redraw_cursor_overlay (Some s) force) (λ _ g', ∃ k o gf, g' = set_kern k (set_g_overlay o (set_g_gfx gf g)) ∧ redrawn m s g k o gf) g.
Proof.
  intros Em Hm Hk Ha Hs Ho. unfold redraw_cursor_overlay. wp_step. apply text_mode_call; [done|]. intros tm k1 Hc1 Hs1. wp_step. apply mouse_x_call; [by eapply calls_ok|]. intros x k2 Hc2 Hx Hs2.
  wp_step. apply mouse_y_call; [by eapply calls_ok|]. intros y k3 Hc3 Hy Hs3. wp_step. apply (overlay_rect_call m); [done|done|by eapply calls_ok|done|done|done|]. intros r k4 Hc4 Hs4 Hr Hin.
  cbn in *. pose proof (calls_trans _ _ _ (calls_trans _ _ _ Hc1 Hc2) (calls_trans _ _ _ Hc3 Hc4)) as Hc. do 2 wp_step.
  destruct (_ && _ && _ && _).
  { wp_step. exists k4, (g_overlay g), (g_gfx g). split; [by destruct g|]. split_and!; try done. by destruct (g_gfx g). }
  wp_step. match goal with |- wp _ _ ?st => eapply wp_mono; [apply (restore_overlay_wp m s st); [exact Hs|exact Ho]|] end. cbn. intros _ g1 (gf1 & -> & Hwp & Hs1' & Hk1 & Eg1).
  destruct (rect_empty r) eqn:Er.
  { wp_step. exists k4, (set_ov_saved false (g_overlay g)), gf1. split; [by destruct g|]. split_and!; try done; [destruct Ho; by split|]. intros at_ _ _ _ gf0 Hw0. unfold wiped at 1. cbn. by eapply wiped_unique. }
  destruct Hr as [->|Hr]; [done|]. assert (Hsv : saveable s r) by (destruct Hs as [_ Ew Eh]; split; rewrite ?Ew, ?Eh; tauto).
  do 2 wp_step. wp_step. unfold on_gfx. wp_step. cbn. eapply wp_mono; [apply (save_pixels_wp s r (dr_ok _ _ (sc_draw _ _ _ Hs)) Hsv); [apply Hs1'|apply Ho|apply Ho]|].
  intros b gf2 [-> Hsave]. do 2 wp_step. wp_step. apply mouse_x_call; [by eapply calls_ok|]. cbn. intros x' k5 Hc5 Hx' Hs5. wp_step. apply mouse_y_call; [by eapply calls_ok|]. cbn. intros y' k6 Hc6 Hy' Hs6.
  do 3 wp_step. wp_step. cbn. pose proof Hm as [HmW HmH _ _]. pose proof Hs1' as [D1 Ew1 Eh1]. eapply wp_mono.
  { apply (draw_cursor_draws (g_assets g) s x' y' tm gf1); [done|by eapply assets_ok_mono|lia|lia|done|done]. }
  intros drawn gf2 D2. cbn beta in D2. wp_step. destruct (draw_after _ _ _ _ _ Hs1' D2) as (Hs2' & Hk2 & Eg2). exists k6, (Overlay true tm r b), gf2. split; [by destruct g|].
  destruct Hsave as (Hsl & Hsu & Hsv'). split_and!; [by eapply calls_trans, calls_trans|done| | | |].
  - split; cbn; [intros _; tauto|done|done].
  - intros a. rewrite (Hk2 a). apply Hk1.
  - rewrite Eg2, Eg1. by destruct (g_gfx g).
  - intros at_ Hst Hc0 Ht0 gf0 Hw0. rewrite (wiped_unique _ _ _ _ _ Hw0 Hwp). unfold wiped. cbn.
    assert (x' = x ∧ y' = y) as [-> ->].
    { destruct (Hs2 at_ Hst) as [-> E2], (Hs3 at_ Hst) as [-> E3], (Hs5 at_ Hst) as [-> E5], (Hs6 at_ Hst) as [-> _]. rewrite E5, (Hs4 at_ Hst), E3, E2. done. }
    destruct (save_draw_restore s r (dr_ok _ _ D1) Hsv b gf1 gf2 D1) as ([] & gf3 & E & ->); [by split|by eapply cursor_in_rect|]. rewrite E. repeat f_equal. rewrite Eg2. by destruct gf1.
Qed.

(** C28. As long as the mouse does not move during the call, the mouse cursor leaves no
    trace: whatever has been saved before, and whether the cursor is drawn again or
    not, putting the pixels back after redraw_cursor_overlay gives the same graphics
    memory, byte for byte, as putting them back before. The condition ([still]) is
    needed because the code reads the position of the mouse twice, once for the
    rectangle it saves and once for the place where it draws, so that a movement
    between the two leaves pixels behind. The surface has the size of the desktop and
    can be drawn on, the cursors have at most the size that the saved rectangle has
    room for ([small_cursor]), and the position is any, also at the edges of the
    screen. *)
Theorem cursor_leaves_no_trace m s force g at_ : metrics g = m → metrics_ok m → kernel_ok (kern g) → assets_ok (g_assets g) (gmem (g_gfx g)) →
  screen_of m s (g_gfx g) → overlay_ok m (g_overlay g) → still at_ → small_cursor (cursor (g_assets g)) → small_cursor (text_cursor (g_assets g)) →
  ∃ g0 g1 g2, restore_cursor_overlay (Some s) g = Some (tt, g0) ∧ redraw_cursor_overlay (Some s) force g = Some (tt, g1) ∧
    restore_cursor_overlay (Some s) g1 = Some (tt, g2) ∧ g_gfx g2 = g_gfx g0.
Proof.
  intros Em Hm Hk Ha Hs Ho Hst Hc Ht. destruct (restore_overlay_wp m s g Hs Ho) as ([] & g0 & E0 & gf0 & -> & Hw0 & _).
  destruct (redraw_wp m s force g Em Hm Hk Ha Hs Ho) as ([] & g1 & E1 & k & o & gf & -> & _ & Hs1 & Ho1 & _ & _ & Htr).
  match type of E1 with _ = Some (_, ?st) => destruct (restore_overlay_wp m s st Hs1 Ho1) as ([] & g2 & E2 & gf2 & -> & Hw2 & _) end. cbn in Hw2.
  eexists _, _, _. split; [exact E0|]. split; [exact E1|]. split; [exact E2|]. cbn. eapply wiped_unique; [exact Hw2|]. by apply (Htr at_).
Qed.
End gui_overlay.
