(* ===== verification/GuiDraw.v ===== *)
(** * The desktop, drawing: kernel/gui/desktop/desktop.cpp and the draw functions of the applications

    Everything is drawn into the back buffer; GuiSystem::draw calls the parts in a fixed
    order. The state of the applications is only read. *)

From Stdlib Require Import ZArith Lia Bool String.
From stdpp Require Import base numbers list.
From S2P Require Import Prelude Keyboard Input Rtc Runtime Windows GuiKernel Notepad Terminal UtilityApps Memory Graphics Assets GuiState.

Definition COLOR_DESKTOP_BOTTOM : Z := 0x00163440.
Definition COLOR_TASKBAR : Z := 0x00202A33.
Definition COLOR_TASKBAR_HILITE : Z := 0x00344550.
Definition COLOR_ACCENT : Z := 0x000078D4.
Definition COLOR_ACCENT_DARK : Z := 0x00005296.
Definition COLOR_WINDOW : Z := 0x00EEF3F8.
Definition COLOR_WINDOW_BORDER : Z := 0x004A5D6E.
Definition COLOR_TERMINAL_BG : Z := 0x00071116.
Definition COLOR_TERMINAL_FG : Z := 0x0058D77A.
Definition COLOR_TEXT_DARK : Z := 0x0016212B.
Definition COLOR_WHITE : Z := 0x00FFFFFF.

(** Signed sums, each of which may overflow. *)
Definition plus (a : option Z) (b : Z) : option Z := a ≫= λ a, checked (a + b).
Infix "+!" := plus (at level 50, left associativity).

Section draw.
Context {K : Type} `{GuiKernel K}.
Abbreviation G := (gui K).

(** The operations of graphics.c on the back buffer; coordinates become unsigned. *)
Definition fill (x y w h : option Z) (color : Z) : M G unit :=
  x ← lift x; y ← lift y; w ← lift w; h ← lift h;
  b ← gets backbuffer; on_gfx (graphics_fill_rect (Some b) (u32 x) (u32 y) (u32 w) (u32 h) color).
Definition frame (x y w h : option Z) (color : Z) : M G unit :=
  x ← lift x; y ← lift y; w ← lift w; h ← lift h;
  b ← gets backbuffer; on_gfx (graphics_draw_rect (Some b) (u32 x) (u32 y) (u32 w) (u32 h) color).
Definition text (x y : option Z) (t : list Z) (fg bg : Z) : M G unit :=
  x ← lift x; y ← lift y; b ← gets backbuffer; on_gfx (graphics_draw_string (Some b) (u32 x) (u32 y) t fg bg).
Definition char_at (x y c fg bg : Z) : M G unit :=
  b ← gets backbuffer; on_gfx (graphics_draw_char (Some b) x y c fg bg).

(** ** desktop.cpp *)

Definition draw_wallpaper : M G unit :=
  a ← gets g_assets; b ← gets backbuffer; m ← gets metrics;
  ok ← on_gfx (assets_draw_wallpaper a (Some b));
  when (negb ok) (fill (Some 0) (Some 0) (Some (m_width m)) (Some (m_height m)) COLOR_DESKTOP_BOTTOM).

Definition label_width (label_len : Z) : option Z :=
  w ← checked (i32 label_len * 6); w ← checked (w + 4);
  let w := if w <? 46 then 46 else w in
  Some (if ICON_W - 2 <? w then ICON_W - 2 else w).

Definition draw_icon (x y : Z) (label glyph : list Z) : M G unit :=
  label_len ← lift (kstrlen label);
  label_w ← lift (label_width label_len);
  icon_x ← lift (checked (x + Z.quot (ICON_W - 30) 2));
  label_x ← lift (checked (x + Z.quot (ICON_W - label_w) 2));
  _ ← fill (Some icon_x) (Some y) (Some 30) (Some 24) COLOR_WINDOW;
  _ ← frame (Some icon_x) (Some y) (Some 30) (Some 24) 15;
  _ ← fill (Some icon_x +! 3) (Some y +! 4) (Some 24) (Some 16) COLOR_TERMINAL_BG;
  _ ← text (Some icon_x +! 8) (Some y +! 8) glyph COLOR_TERMINAL_FG COLOR_TERMINAL_BG;
  _ ← fill (Some label_x) (Some y +! 30) (Some label_w) (Some 11) COLOR_ACCENT_DARK;
  text (Some label_x +! 2) (Some y +! 32) label 15 COLOR_ACCENT_DARK.

Definition draw_start_menu (start_menu_open : bool) : M G unit :=
  when start_menu_open (
    m ← gets metrics;
    menu ← lift (start_menu_rect m);
    let item dy label := text (Some (rx menu) +! 28) (Some (ry menu) +! dy) (c_str label) COLOR_TEXT_DARK COLOR_WINDOW in
    _ ← fill (Some (rx menu)) (Some (ry menu)) (Some (rw menu)) (Some (rh menu)) COLOR_WINDOW;
    _ ← frame (Some (rx menu)) (Some (ry menu)) (Some (rw menu)) (Some (rh menu)) COLOR_WINDOW_BORDER;
    _ ← fill (Some (rx menu) +! 1) (Some (ry menu) +! 1) (Some 22) (Some (rh menu) +! -2) COLOR_ACCENT_DARK;
    _ ← item 12 "TERMINAL"%string;
    _ ← item 28 "FILES"%string;
    _ ← item 44 "MONITOR"%string;
    _ ← item 60 "ABOUT"%string;
    _ ← fill (Some (rx menu) +! 26) (Some (ry menu) +! 78) (Some (rw menu) +! -32) (Some 1) COLOR_WINDOW_BORDER;
    _ ← item 88 "SHUTDOWN"%string;
    item 104 "RESTART"%string).

(** [metrics.height - metrics.taskbar_h + dy], which is unsigned. *)
Definition bar_y (m : Metrics) (dy : Z) : option Z := Some (m_height m -% taskbar_h m +% dy).
Definition bar_h (m : Metrics) (d : Z) : option Z := Some (taskbar_h m -% d).

Definition draw_task_button (x : Z) (label : list Z) (minimized : bool) : M G unit :=
  m ← gets metrics;
  let color := if minimized then 0x00434B54 else COLOR_ACCENT in
  _ ← fill (Some x) (bar_y m 4) (Some TASK_BUTTON_W) (bar_h m 8) color;
  _ ← frame (Some x) (bar_y m 4) (Some TASK_BUTTON_W) (bar_h m 8) 15;
  text (Some x +! 8) (bar_y m 7) label 15 color.

(** [(char) ('0' + d)] *)
Definition digit_char (d : Z) : Z := u8 (48 + d).
Definition clock_text (hours minutes day month year : Z) : list Z :=
  [digit_char (hours / 10); digit_char (hours mod 10); 58; digit_char (minutes / 10); digit_char (minutes mod 10); 32;
   digit_char (day / 10); digit_char (day mod 10); 47; digit_char (month / 10); digit_char (month mod 10); 47;
   digit_char ((year / 1000) mod 10); digit_char ((year / 100) mod 10); digit_char ((year / 10) mod 10); digit_char (year mod 10); 0].

Definition draw_clock : M G unit :=
  m ← gets metrics;
  rtc ← on_kernel k_rtc_read_datetime;
  seconds ← on_kernel k_timer_uptime_seconds;
  let clock := match rtc with
    | Some now => clock_text (hour now) (minute now) (day now) (month now) (year now)
    | None => clock_text ((seconds / 3600) mod 24) ((seconds / 60) mod 60) 25 5 2026
    end in
  let clock_x := if 108 <? m_width m then m_width m -% 104 else 216 in
  text (Some clock_x) (bar_y m 7) clock 15 COLOR_TASKBAR.

Definition draw_taskbar (start_menu_open terminal_open terminal_minimized files_open files_minimized monitor_open monitor_minimized : bool) : M G unit :=
  m ← gets metrics;
  let accent := if start_menu_open then COLOR_ACCENT else COLOR_ACCENT_DARK in
  _ ← fill (Some 0) (bar_y m 0) (Some (m_width m)) (bar_h m 0) COLOR_TASKBAR;
  _ ← fill (Some 0) (bar_y m 0) (Some (m_width m)) (Some 1) COLOR_TASKBAR_HILITE;
  _ ← fill (Some 4) (bar_y m 4) (Some START_BUTTON_W) (bar_h m 8) accent;
  _ ← frame (Some 4) (bar_y m 4) (Some START_BUTTON_W) (bar_h m 8) 15;
  _ ← text (Some 11) (bar_y m 7) (c_str "START") 15 accent;
  _ ← when terminal_open (draw_task_button TASK_BUTTON_X (c_str "TERMINAL") terminal_minimized);
  _ ← when files_open (draw_task_button (TASK_BUTTON_X + TASK_BUTTON_W + 6) (c_str "FILES") files_minimized);
  _ ← when monitor_open (draw_task_button (TASK_BUTTON_X + (TASK_BUTTON_W + 6) * 2) (c_str "MONITOR") monitor_minimized);
  draw_clock.

Definition desktop_draw (start_menu_open terminal_open terminal_minimized files_open files_minimized monitor_open monitor_minimized : bool) : M G unit :=
  _ ← draw_wallpaper;
  _ ← draw_icon ICON_X ICON_Y (c_str "TERMINAL") (c_str ">_");
  _ ← draw_icon ICON_X (ICON_Y + 56) (c_str "FILE EXPLORER") (c_str "[]");
  _ ← draw_icon ICON_X (ICON_Y + 112) (c_str "SYSTEM MONITOR") (c_str "##");
  _ ← draw_icon ICON_X (ICON_Y + 168) (c_str "ABOUT") (c_str "i");
  _ ← draw_start_menu start_menu_open;
  draw_taskbar start_menu_open terminal_open terminal_minimized files_open files_minimized monitor_open monitor_minimized.

(** ** Windows *)

(** The frame, the title bar and its three buttons: the same lines in utility_apps.cpp and
    notepad.cpp. *)
Definition draw_window (w : Window) (title : list Z) : M G unit :=
  let title_color := if wfocused w then COLOR_ACCENT else 0x00505E6A in
  let border := if wfocused w then COLOR_ACCENT else COLOR_WINDOW_BORDER in
  let x d := Some (wx w) +! d in let y d := Some (wy w) +! d in let right d := Some (wx w) +! ww w +! d in
  _ ← fill (Some (wx w)) (Some (wy w)) (Some (ww w)) (Some (wh w)) COLOR_WINDOW;
  _ ← frame (Some (wx w)) (Some (wy w)) (Some (ww w)) (Some (wh w)) border;
  _ ← fill (x 1) (y 1) (Some (ww w) +! -2) (Some TITLEBAR_H) title_color;
  _ ← text (x 7) (y 6) title 15 title_color;
  _ ← fill (right (-48)) (y 4) (Some 13) (Some 11) 0x006D7781;
  _ ← text (right (-44)) (y 6) (c_str "_") 15 0x006D7781;
  _ ← fill (right (-33)) (y 4) (Some 13) (Some 11) 0x006D7781;
  _ ← text (right (-30)) (y 6) (c_str "M") 15 0x006D7781;
  _ ← fill (right (-18)) (y 4) (Some 13) (Some 11) 0x00B84A4A;
  text (right (-14)) (y 6) (c_str "X") 15 0x00B84A4A.

(** ** utility_apps.cpp *)

Definition utility_chrome (u : utility) : M G unit :=
  let w := u_window u in
  _ ← draw_window w (title u);
  fill (Some (wx w) +! 6) (Some (wy w) +! TITLEBAR_H +! 5) (Some (ww w) +! -12) (Some (wh w) +! - TITLEBAR_H +! -12) COLOR_WHITE.

Definition draw_u32 (x y : option Z) (label : string) (value : Z) : M G unit :=
  r ← lift (u32_to_dec value 16 (replicate 16 0));
  _ ← text x y (c_str label) COLOR_TEXT_DARK COLOR_WHITE;
  text (x ≫= λ x, checked (x + 108)) y (snd r) COLOR_ACCENT_DARK COLOR_WHITE.

(** One row of the explorer. *)
Definition draw_file_row (w : Window) (x i y : Z) : M G unit :=
  name ← on_kernel (k_diskfs_file_name i);
  let bg := if i mod 2 =? 0 then 0x00EEF3F8 else COLOR_WHITE in
  _ ← fill (Some x +! -4) (Some y +! -2) (Some (ww w) +! -28) (Some 11) bg;
  label ← lift (file_icon_label name);
  _ ← text (Some x) (Some y) label COLOR_ACCENT_DARK bg;
  text (Some x +! 38) (Some y) name COLOR_TEXT_DARK bg.

Definition draw_files (w : Window) : M G unit :=
  x ← lift (Some (wx w) +! 14);
  y ← lift (Some (wy w) +! TITLEBAR_H +! 14);
  _ ← text (Some x) (Some y) (c_str "DISKFS FILES") COLOR_ACCENT_DARK COLOR_WHITE;
  y ← lift (checked (y + 14));
  count ← on_kernel k_diskfs_file_count;
  _ ← for_state (R := unit) 0 count (λ i y,
        limit ← lift (Some (wy w) +! wh w +! -12);
        if limit <=? y then mret (inr tt)
        else _ ← draw_file_row w x i y; y ← lift (checked (y + 12)); mret (inl y)) y;
  mret tt.

Definition draw_monitor (w : Window) : M G unit :=
  x ← lift (Some (wx w) +! 14);
  y ← lift (Some (wy w) +! TITLEBAR_H +! 16);
  n ← on_kernel k_timer_uptime_seconds; _ ← draw_u32 (Some x) (Some y) "UPTIME" n;
  n ← on_kernel k_timer_ticks; _ ← draw_u32 (Some x) (Some y +! 14) "TICKS" n;
  n ← on_kernel k_pmm_free_pages; _ ← draw_u32 (Some x) (Some y +! 28) "FREE PAGES" n;
  n ← on_kernel k_heap_free_bytes; _ ← draw_u32 (Some x) (Some y +! 42) "HEAP FREE" n;
  n ← on_kernel k_scheduler_switch_count; _ ← draw_u32 (Some x) (Some y +! 56) "SWITCHES" n;
  n ← on_kernel k_user_process_count; _ ← draw_u32 (Some x) (Some y +! 70) "PROCESSES" n;
  r ← on_kernel (k_diskfs_fsck 48); draw_u32 (Some x) (Some y +! 84) "FSCK ERR" (fst r).

Definition draw_about (w : Window) : M G unit :=
  x ← lift (Some (wx w) +! 14);
  y ← lift (Some (wy w) +! TITLEBAR_H +! 16);
  _ ← text (Some x) (Some y) (c_str "MYOS DESKTOP") COLOR_ACCENT_DARK COLOR_WHITE;
  _ ← text (Some x) (Some y +! 16) (c_str "FREESTANDING C++ GUI") COLOR_TEXT_DARK COLOR_WHITE;
  _ ← text (Some x) (Some y +! 28) (c_str "WINDOW MANAGER + APPS") COLOR_TEXT_DARK COLOR_WHITE;
  text (Some x) (Some y +! 40) (c_str "DISKFS, MONITOR, TERMINAL") COLOR_TEXT_DARK COLOR_WHITE.

Definition utility_draw (u : utility) : M G unit :=
  when (visible (u_window u)) (
    _ ← utility_chrome u;
    match u_kind u with
    | KindFiles => draw_files (u_window u)
    | KindMonitor => draw_monitor (u_window u)
    | KindAbout => draw_about (u_window u)
    end).

(** ** notepad.cpp *)

Definition notepad_chrome (w : Window) : M G unit :=
  _ ← draw_window w (c_str "NOTEPAD");
  _ ← fill (Some (wx w) +! 6) (Some (wy w) +! TITLEBAR_H +! 5) (Some (ww w) +! -12) (Some (wh w) +! - TITLEBAR_H +! -22) COLOR_WHITE;
  fill (Some (wx w) +! 6) (Some (wy w) +! wh w +! -15) (Some (ww w) +! -12) (Some 10) 0x00EEF3F8.

(** One character of the text at [(x, y)], and where the next one goes. *)
Definition draw_text_char (w : Window) (c base_x x y : Z) : M G (Z * Z) :=
  if c =? 10 then y ← lift (checked (y + 8)); mret (base_x, y)
  else
    _ ← char_at (u32 x) (u32 y) c COLOR_TEXT_DARK COLOR_WHITE;
    x ← lift (checked (x + 6));
    next ← lift (Some x +! 6); limit ← lift (Some (wx w) +! ww w +! -12);
    if limit <? next then y ← lift (checked (y + 8)); mret (base_x, y) else mret (x, y).

Definition draw_text (n : notepad) : M G unit :=
  let w := np_window n in
  x ← lift (Some (wx w) +! 10);
  y ← lift (Some (wy w) +! TITLEBAR_H +! 10);
  max_y ← lift (Some (wy w) +! wh w +! -20);
  _ ← for_state (R := unit) 0 (np_length n) (λ i '(px, py),
        if max_y <=? py then mret (inr tt)
        else c ← lift (aread (np_buffer n) i); at_ ← draw_text_char w c x px py; mret (inl at_)) (x, y);
  let status := if np_dirty n then c_str "MODIFIED  CTRL+S SAVE" else if np_saved n then c_str "SAVED" else c_str "CTRL+S SAVE" in
  _ ← text (Some (wx w) +! 10) (Some (wy w) +! wh w +! -13) (np_path n) COLOR_ACCENT_DARK 0x00EEF3F8;
  text (Some (wx w) +! ww w +! -126) (Some (wy w) +! wh w +! -13) status COLOR_TEXT_DARK 0x00EEF3F8.

Definition notepad_draw (n : notepad) : M G unit :=
  when (visible (np_window n)) (_ ← notepad_chrome (np_window n); draw_text n).

(** ** terminal.cpp: here the coordinates are unsigned throughout *)

Definition terminal_chrome (win : Window) : M G unit :=
  let x := u32 (wx win) in let y := u32 (wy win) in let w := u32 (ww win) in let h := u32 (wh win) in
  let title_color := if wfocused win then COLOR_ACCENT else 0x00505E6A in
  let border := if wfocused win then COLOR_ACCENT else COLOR_WINDOW_BORDER in
  _ ← fill (Some x) (Some y) (Some w) (Some h) COLOR_WINDOW;
  _ ← frame (Some x) (Some y) (Some w) (Some h) border;
  _ ← fill (Some (x +% 1)) (Some (y +% 1)) (Some (w -% 2)) (Some TITLEBAR_H) title_color;
  _ ← text (Some (x +% 7)) (Some (y +% 6)) (c_str "MYOS TERMINAL") 15 title_color;
  _ ← fill (Some (x +% w -% 48)) (Some (y +% 4)) (Some 13) (Some 11) 0x006D7781;
  _ ← text (Some (x +% w -% 44)) (Some (y +% 6)) (c_str "_") 15 0x006D7781;
  _ ← fill (Some (x +% w -% 33)) (Some (y +% 4)) (Some 13) (Some 11) 0x006D7781;
  _ ← text (Some (x +% w -% 30)) (Some (y +% 6)) (c_str "M") 15 0x006D7781;
  _ ← fill (Some (x +% w -% 18)) (Some (y +% 4)) (Some 13) (Some 11) 0x00B84A4A;
  _ ← text (Some (x +% w -% 14)) (Some (y +% 6)) (c_str "X") 15 0x00B84A4A;
  fill (Some (x +% 4)) (Some (y +% TITLEBAR_H +% 3)) (Some (w -% 8)) (Some (h -% TITLEBAR_H -% 8)) COLOR_TERMINAL_BG.

(** The lines of the buffer from [start] on. *)
Definition draw_lines (t : terminal) (rows cols start : Z) : M G unit :=
  let x := u32 (wx (t_window t)) in let y := u32 (wy (t_window t)) in
  _ ← for_exit (R := unit) 0 rows (λ row,
        let line := start +% row in
        if t_line_count t <=? line then mret (Some tt)
        else
          _ ← for_ 0 cols (λ col,
                l ← lift (aread (t_lines t) line); c ← lift (aread l col);
                char_at (x +% 8 +% col *% 6) (y +% TITLEBAR_H +% 6 +% row *% 8) c COLOR_TERMINAL_FG COLOR_TERMINAL_BG);
          mret None);
  mret tt.

Definition draw_text_cursor (t : terminal) (rows cols : Z) : M G unit :=
  let x := u32 (wx (t_window t)) in let y := u32 (wy (t_window t)) in
  when (wfocused (t_window t)) (
    now ← on_kernel k_timer_ticks;
    when (((now / 40) mod 2 =? 0) && (t_scroll t =? 0)) (
      let cursor_row := if t_line_count t <? rows then t_line_count t -% 1 else rows -% 1 in
      let cursor_col := if t_col t <? cols then t_col t else cols -% 1 in
      fill (Some (x +% 8 +% cursor_col *% 6)) (Some (y +% TITLEBAR_H +% 6 +% cursor_row *% 8 +% 7)) (Some 5) (Some 1) COLOR_TERMINAL_FG)).

Definition terminal_draw (t : terminal) : M G unit :=
  let win := t_window t in
  let x := u32 (wx win) in let y := u32 (wy win) in let w := u32 (ww win) in let h := u32 (wh win) in
  when (visible win) (
    _ ← terminal_chrome win;
    let rows := visible_rows win in
    let cols := text_cols win in
    let max_start := if rows <? t_line_count t then t_line_count t -% rows else 0 in
    let start := if t_scroll t <? max_start then max_start -% t_scroll t else 0 in
    _ ← draw_lines t rows cols start;
    _ ← draw_text_cursor t rows cols;
    _ ← fill (Some (x +% w -% 8)) (Some (y +% h -% 8)) (Some 7) (Some 7) 0x00898F98;
    text (Some (x +% w -% 8)) (Some (y +% h -% 9)) (c_str "/") COLOR_TEXT_DARK 0x00898F98).

(** ** gui.cpp *)

Definition minimized (w : Window) : bool := bool_decide (wmode w = Minimized).

Definition draw : M G unit :=
  open ← gets start_menu_open;
  a ← gets g_apps;
  let t := t_window (terminal_ a) in let f := u_window (files_ a) in let o := u_window (monitor_ a) in
  _ ← desktop_draw open (wopen t) (minimized t) (wopen f) (minimized f) (wopen o) (minimized o);
  _ ← utility_draw (about_ a);
  _ ← notepad_draw (notepad_ a);
  _ ← utility_draw (monitor_ a);
  _ ← utility_draw (files_ a);
  terminal_draw (terminal_ a).
End draw.
