(* ===== verification/GuiSafe.v ===== *)
(** * The desktop keeps its invariant: the parts

    The invariant [desk_ok] of the desktop, a judgement for operations that return and
    keep it, and the rules by which the operations of windows, applications and terminal
    commands are shown to do so. *)

From Stdlib Require Import ZArith Lia Bool String.
From stdpp Require Import base numbers list.
From S2P Require Import Prelude Keyboard Input Runtime Windows GuiKernel Notepad Terminal UtilityApps Memory Graphics GraphicsPaint GraphicsBlit Assets GuiState GuiApps GuiOverlay.

(** ** The invariant *)

(** What of the windows decides about focus: open, focused and mode. *)
Definition look : Type := bool * bool * WindowMode.
Definition look_of (w : Window) : look := (wopen w, wfocused w, wmode w).
Definition is_open (l : look) : bool := fst (fst l).
Definition is_focused (l : look) : bool := snd (fst l).
Definition shown (l : look) : bool := is_open l && negb (bool_decide (snd l = Minimized)).
Record looks := Looks { lk_terminal : look; lk_files : look; lk_monitor : look; lk_about : look; lk_notepad : look }.
Definition app_look (l : looks) (app : AppId) : look :=
  match app with
  | AppTerminal => lk_terminal l | AppFiles => lk_files l | AppMonitor => lk_monitor l | AppAbout => lk_about l | AppNotepad => lk_notepad l
  | AppNone => (false, false, Normal)
  end.
Definition apps_looks (a : apps) : looks :=
  Looks (look_of (t_window (terminal_ a))) (look_of (u_window (files_ a))) (look_of (u_window (monitor_ a))) (look_of (u_window (about_ a))) (look_of (np_window (notepad_ a))).

(** At most one window has the keyboard. *)
Definition owned_by (app : AppId) (l : looks) : Prop := ∀ a, is_focused (app_look l a) = true → a = app.
Definition single (l : looks) : Prop := ∃ app, owned_by app l.

Record apps_ok (m : Metrics) (a : apps) : Prop := {
  ak_terminal : ∃ hs, term_ok m (terminal_ a) hs;
  ak_files : window_ok m (u_window (files_ a));
  ak_monitor : window_ok m (u_window (monitor_ a));
  ak_about : window_ok m (u_window (about_ a));
  ak_notepad : ∃ l r, np_ok m (notepad_ a) l r }.

(** The last press and the last click on a shortcut were on the screen. *)
Record pointer_ok (p : pointer) : Prop := {
  po_x : 0 ≤ press_x p ≤ 16384; po_y : 0 ≤ press_y p ≤ 16384;
  po_icon_x : -1000 ≤ icon_x p ≤ 16384; po_icon_y : -1000 ≤ icon_y p ≤ 16384 }.

(** What has to be painted again is on the screen. *)
Definition dirty_ok (m : Metrics) (r : Rect) : Prop :=
  0 ≤ rx r ∧ 0 ≤ ry r ∧ 0 ≤ rw r ∧ 0 ≤ rh r ∧ rx r + rw r ≤ m_width m ∧ ry r + rh r ≤ m_height m.

(** The screen, the back buffer and the images are in memory. Without memory of its own
    the back buffer is the screen. *)
Record display_ok (m : Metrics) (a : assets) (o : overlay) (back : graphics_surface) (gf : gfx) : Prop := {
  di_ready : primary_surface_ready gf = true;
  di_screen : screen_of m (primary_surface gf) gf;
  di_back : screen_of m back gf;
  di_apart : back = primary_surface gf ∨ disjoint_surfaces (primary_surface gf) back;
  di_assets : assets_ok a (gmem gf);
  di_overlay : overlay_ok m o }.

Lemma screen_mapped m s gf gf' : screen_of m s gf → keeps_mapped (gmem gf) (gmem gf') → bytes_ok (gmem gf') → screen_of m s gf'.
Proof. intros [[] ? ?] Hk Hb. split; [|done|done]. split; [done| |done]. intros a Ha. by apply Hk, dr_mapped. Qed.
(** The graphics memory changes, but not what is mapped. *)
Lemma display_after m a o o' back gf gf' : display_ok m a o back gf → keeps_mapped (gmem gf) (gmem gf') → bytes_ok (gmem gf') → gf' = set_gmem (gmem gf') gf → overlay_ok m o' → display_ok m a o' back gf'.
Proof.
  intros [Hr Hs Hb Hd Ha _] Hk Hby E Ho. assert (Ep : primary_surface gf' = primary_surface gf) by by rewrite E.
  split; [by rewrite E|rewrite Ep; by eapply screen_mapped|by eapply screen_mapped|by rewrite Ep|by eapply assets_ok_mono|done].
Qed.

Section safe.
Context {K : Type} `{GuiKernelLaws K} (m : Metrics) (Hm : metrics_ok m).
Abbreviation G := (gui K).
Implicit Types g : G.

Record desk_ok (g : G) : Prop := {
  dk_metrics : metrics g = m;
  dk_apps : apps_ok m (g_apps g);
  dk_kernel : kernel_ok (kern g);
  dk_wm : wm_ok (wm g);
  dk_z : is_u32 (z_counter g);
  dk_pointer : pointer_ok (g_pointer g);
  dk_dirty : dirty_ok m (dirty_rect (g_paint g));
  dk_display : display_ok m (g_assets g) (g_overlay g) (backbuffer g) (g_gfx g) }.

Abbreviation lk g := (apps_looks (g_apps g)).

(** [triple P op R Q]: from a desktop in order whose windows look like [P], [op] returns
    a value with [R] and leaves the desktop in order, with windows that look like [Q]. *)
Definition triple {A} (P : looks → Prop) (op : M G A) (R : A → Prop) (Q : looks → Prop) : Prop :=
  ∀ g, desk_ok g → P (lk g) → wp op (λ a g', desk_ok g' ∧ R a ∧ Q (lk g')) g.
Definition keeps {A} (op : M G A) (R : A → Prop) : Prop := ∀ P, triple P op R P.
Definition any {A} (a : A) : Prop := True.

Lemma triple_mono {A} P P' (op : M G A) (R R' : A → Prop) Q Q' : triple P op R Q →
  (∀ l, P' l → P l) → (∀ a, R a → R' a) → (∀ l, Q l → Q' l) → triple P' op R' Q'.
Proof. intros Ht HP HR HQ g Hg Hl. eapply wp_mono; [apply Ht; auto|]. intros a g' (? & ? & ?). auto. Qed.
Lemma triple_ret {A} P (a : A) (R : A → Prop) : R a → triple P (mret a) R P.
Proof. intros HR g Hg Hl. by apply wp_ret. Qed.
Lemma keeps_ret {A} (a : A) (R : A → Prop) : R a → keeps (mret a) R.
Proof. intros HR P. by apply triple_ret. Qed.
Lemma triple_bind {A B} P (op : M G A) (f : A → M G B) R1 Q1 R Q : triple P op R1 Q1 → (∀ a, R1 a → triple Q1 (f a) R Q) → triple P (op ≫= f) R Q.
Proof. intros Hop Hf g Hg Hl. apply wp_bind. eapply wp_mono; [by apply Hop|]. intros a g' (? & ? & ?). by apply Hf. Qed.
Lemma keeps_bind {A B} (op : M G A) (f : A → M G B) R1 R : keeps op R1 → (∀ a, R1 a → keeps (f a) R) → keeps (op ≫= f) R.
Proof. intros Hop Hf P. eapply triple_bind; [apply Hop|]. intros a Ha. by apply Hf. Qed.
Lemma triple_keeps {A B} P (op : M G A) (f : A → M G B) R1 R Q : keeps op R1 → (∀ a, R1 a → triple P (f a) R Q) → triple P (op ≫= f) R Q.
Proof. intros Hop Hf. eapply triple_bind; [apply Hop|done]. Qed.
Lemma keeps_mono {A} (op : M G A) (R R' : A → Prop) : keeps op R → (∀ a, R a → R' a) → keeps op R'.
Proof. intros Hk HR P. eapply triple_mono; [apply Hk|done|done|done]. Qed.
Lemma keeps_when b (op : M G unit) : (b = true → keeps op any) → keeps (when b op) any.
Proof. intros Hk. destruct b; [by apply Hk|by apply keeps_ret]. Qed.
Lemma triple_when P b (op : M G unit) : (b = true → triple P op any P) → triple P (when b op) any P.
Proof. intros Hk. destruct b; [by apply Hk|by apply triple_ret]. Qed.
Lemma keeps_lift {A} (o : option A) (R : A → Prop) : returns o R → keeps (lift o) R.
Proof. intros (a & -> & Ha) P g Hg Hl. eapply wp_lift; done. Qed.

(** ** Fields of the desktop *)

Lemma keeps_gets {A} (f : G → A) (R : A → Prop) : (∀ g, desk_ok g → R (f g)) → keeps (gets f) R.
Proof. intros Hf P g Hg Hl. apply wp_gets. auto. Qed.
(** A change of other parts than the applications. *)
Lemma keeps_modify (f : G → G) : (∀ g, g_apps (f g) = g_apps g) → (∀ g, desk_ok g → desk_ok (f g)) → keeps (modify f) any.
Proof. intros Ha Hf P g Hg Hl. apply wp_modify. rewrite Ha. split_and!; [by apply Hf|done|done]. Qed.

Lemma metrics_keeps : keeps (gets metrics) (λ x, x = m).
Proof. apply keeps_gets. by intros g []. Qed.
Lemma pointer_keeps : keeps (gets g_pointer) pointer_ok.
Proof. apply keeps_gets. by intros g []. Qed.
Lemma wm_keeps : keeps (gets wm) wm_ok.
Proof. apply keeps_gets. by intros g []. Qed.
Lemma next_z_keeps : keeps next_z is_u32.
Proof.
  apply (keeps_bind _ _ any).
  - apply keeps_modify; [done|]. intros g []. split; try done. apply u32_range.
  - intros _ _. apply keeps_gets. by intros g [].
Qed.
Lemma mark_dirty_keeps : keeps mark_dirty any.
Proof. apply keeps_modify; [done|]. intros g []. by split. Qed.
Lemma menu_keeps v : keeps (modify (set_start_menu_open v)) any.
Proof. apply keeps_modify; [done|]. intros g []. by split. Qed.
Lemma menu_keeps_f f : keeps (modify (λ g, set_start_menu_open (f (start_menu_open g)) g)) any.
Proof. apply keeps_modify; [done|]. intros g []. by split. Qed.
Lemma end_pointer_keeps : keeps end_pointer any.
Proof. apply keeps_modify; [done|]. intros g [? ? ? Hw ? ? ? ?]. by split. Qed.
Lemma wm_modify_keeps f : (∀ s, wm_ok s → wm_ok (f s)) → keeps (modify (λ g, set_wm (f (wm g)) g)) any.
Proof. intros Hf. apply keeps_modify; [done|]. intros g []. split; try done. cbn. auto. Qed.
Lemma on_pointer_keeps f : (∀ p, pointer_ok p → pointer_ok (f p)) → keeps (on_pointer f) any.
Proof. intros Hf. apply keeps_modify; [done|]. intros g []. split; try done. cbn. auto. Qed.

(** ** The kernel *)

Lemma kernel_keeps {A} (op : M K A) R : total op R → keeps (on_kernel op) R.
Proof.
  intros Ht P g Hg Hl. apply wp_zoom. destruct (Ht _ (dk_kernel _ Hg)) as (a & k & E & [Hk _] & Ha). exists a, k. split; [done|]. split; [|done]. destruct Hg. by split.
Qed.
Lemma quiet_total {A} (op : M K A) R : quiet op R → total op R.
Proof. intros Hq k Hk. eapply wp_mono; [by apply Hq|]. intros a k' [[? ?] ?]. done. Qed.
Lemma serial_keeps text : is_text text → keeps (serial text) any.
Proof. intros Ht. eapply keeps_mono; [by apply kernel_keeps, quiet_total, serial_quiet|done]. Qed.

(** ** The applications *)

Definition set_look_terminal v l := Looks v (lk_files l) (lk_monitor l) (lk_about l) (lk_notepad l).
Definition set_look (app : AppId) (v : look) (l : looks) : looks :=
  match app with
  | AppTerminal => Looks v (lk_files l) (lk_monitor l) (lk_about l) (lk_notepad l)
  | AppFiles => Looks (lk_terminal l) v (lk_monitor l) (lk_about l) (lk_notepad l)
  | AppMonitor => Looks (lk_terminal l) (lk_files l) v (lk_about l) (lk_notepad l)
  | AppAbout => Looks (lk_terminal l) (lk_files l) (lk_monitor l) v (lk_notepad l)
  | AppNotepad => Looks (lk_terminal l) (lk_files l) (lk_monitor l) (lk_about l) v
  | AppNone => l
  end.

(** Reading an application. *)
Lemma read_terminal {A} (f : terminal → A) (Q : A → G → Prop) g : Q (f (terminal_ (g_apps g))) g → wp (on_terminal (gets f)) Q g.
Proof. intros HQ. apply wp_zoom, wp_gets. by destruct g as [? ? ? [] ? ? ? ? ? ? ? ? ? ?]. Qed.
Lemma read_notepad {A} (f : notepad → A) (Q : A → G → Prop) g : Q (f (notepad_ (g_apps g))) g → wp (on_notepad (gets f)) Q g.
Proof. intros HQ. apply wp_zoom, wp_gets. by destruct g as [? ? ? [] ? ? ? ? ? ? ? ? ? ?]. Qed.
Lemma read_files {A} (f : utility → A) (Q : A → G → Prop) g : Q (f (files_ (g_apps g))) g → wp (on_files (gets f)) Q g.
Proof. intros HQ. apply wp_zoom, wp_gets. by destruct g as [? ? ? [] ? ? ? ? ? ? ? ? ? ?]. Qed.

(** An operation of the terminal that keeps it in order, with what it does to the look
    of its window. *)
Lemma terminal_at {A} (op : M terminal A) (f : look → look) (R : A → Prop) (Q : looks → Prop) g : desk_ok g →
  wp op (λ a t', (∃ hs', term_ok m t' hs') ∧ look_of (t_window t') = f (look_of (t_window (terminal_ (g_apps g)))) ∧ R a) (terminal_ (g_apps g)) →
  Q (set_look AppTerminal (f (lk_terminal (lk g))) (lk g)) → wp (on_terminal op) (λ a g', desk_ok g' ∧ R a ∧ Q (lk g')) g.
Proof.
  intros [Em [Ht ? ? ? ?] ? ? ? ? ? ?] (a & t & E & Ht' & El & Ha) HQ. apply wp_zoom. exists a, t. split; [done|].
  split; [by split|]. split; [done|]. unfold apps_looks. cbn. rewrite El. exact HQ.
Qed.
Lemma terminal_triple {A} (op : M terminal A) (f : look → look) (R : A → Prop) P (Q : looks → Prop) :
  (∀ t hs, term_ok m t hs → wp op (λ a t', (∃ hs', term_ok m t' hs') ∧ look_of (t_window t') = f (look_of (t_window t)) ∧ R a) t) →
  (∀ l, P l → Q (set_look AppTerminal (f (lk_terminal l)) l)) → triple P (on_terminal op) R Q.
Proof. intros Ho HQ g Hg Hl. destruct (ak_terminal _ _ (dk_apps _ Hg)) as [hs Ht]. eapply terminal_at; [done|by eapply Ho|by apply HQ]. Qed.
Lemma terminal_keeps {A} (op : M terminal A) (R : A → Prop) :
  (∀ t hs, term_ok m t hs → wp op (λ a t', (∃ hs', term_ok m t' hs') ∧ t_window t' = t_window t ∧ R a) t) → keeps (on_terminal op) R.
Proof.
  intros Ho P. eapply (terminal_triple _ id); [|by intros []]. intros t hs Ht. eapply wp_mono; [by eapply Ho|]. intros a t' (? & -> & ?). done.
Qed.

(** The window of an application is changed by a function that keeps windows in order. *)
Definition on_app_window (app : AppId) (f : Window → Window) : M G unit :=
  match app with
  | AppTerminal => on_terminal (term_window f) | AppFiles => on_files (u_on_window f) | AppMonitor => on_monitor (u_on_window f)
  | AppAbout => on_about (u_on_window f) | AppNotepad => on_notepad (on_window f) | AppNone => mret tt
  end.
Lemma term_ok_window t hs w : term_ok m t hs → window_ok m w → term_ok m (set_t_window w t) hs.
Proof.
  intros [? [[s Hs] ?] [] [] ?] Hw. split; cbn; try done. split; [|done]. exists s. by destruct Hs.
Qed.
Lemma np_ok_window n l r w : np_ok m n l r → window_ok m w → np_ok m (set_np_window w n) l r.
Proof. intros [? [] ? ?] Hw. by split. Qed.

Lemma window_triple app (f : Window → Window) (h : look → look) P (Q : looks → Prop) :
  (∀ w, window_ok m w → window_ok m (f w) ∧ look_of (f w) = h (look_of w)) →
  (∀ l, P l → Q (set_look app (h (app_look l app)) l)) → triple P (on_app_window app f) any Q.
Proof.
  intros Hf HQ g [Em [[hs Ht] Hfi Hmo Hab (l & r & Hnp)] ? ? ? ? ? ?] Hl. destruct app; cbn [on_app_window].
  { apply wp_ret. split; [split; try done; split; eauto|]. split; [done|]. by apply HQ in Hl. }
  all: apply wp_zoom, wp_modify; cbn.
  1: destruct (Hf _ (te_window _ _ _ Ht)) as [Hw Ew]. 2: destruct (Hf _ Hfi) as [Hw Ew]. 3: destruct (Hf _ Hmo) as [Hw Ew]. 4: destruct (Hf _ Hab) as [Hw Ew]. 5: destruct (Hf _ (no_window _ _ _ _ Hnp)) as [Hw Ew].
  all: split; [split; try done; split; cbn; eauto using term_ok_window, np_ok_window|]; split; [done|]; unfold apps_looks; cbn; rewrite Ew; by apply HQ in Hl.
Qed.
Lemma window_keeps app f : (∀ w, window_ok m w → window_ok m (f w) ∧ look_of (f w) = look_of w) → keeps (on_app_window app f) any.
Proof. intros Hf P. eapply (window_triple _ _ id); [done|]. intros []. by destruct app. Qed.
End safe.
