(* ===== verification/GuiSafeApps.v ===== *)
(** * The desktop keeps its invariant: applications

    Focusing, opening, minimizing, maximizing and closing applications, and what a user
    program may do to the desktop while it runs. *)

From Stdlib Require Import ZArith Lia Bool String.
From stdpp Require Import base numbers list.
From S2P Require Import Prelude Keyboard Input Runtime Windows GuiKernel Notepad Terminal UtilityApps Memory Graphics GraphicsPaint Assets GuiState GuiApps GuiOverlay GuiSafe.

(** ** What the operations do to the look of a window *)

Definition blur (l : look) : look := (is_open l, false, snd l).
Definition sharpen (l : look) : look := (is_open l, is_open l || is_focused l, snd l).
Definition blurred (l : looks) : looks := Looks (blur (lk_terminal l)) (blur (lk_files l)) (blur (lk_monitor l)) (blur (lk_about l)) (blur (lk_notepad l)).
Definition focused_on (app : AppId) (l : looks) : looks := set_look app (sharpen (app_look (blurred l) app)) (blurred l).

Lemma focus_look z w : look_of (focus_window z w) = sharpen (look_of w).
Proof. unfold focus_window, look_of, sharpen, is_open, is_focused. destruct (wopen w) eqn:E; cbn; by rewrite E. Qed.
Lemma unfocus_look w : look_of (set_focused false w) = blur (look_of w).
Proof. done. Qed.
Lemma close_look w : look_of (close_window w) = (false, false, Normal).
Proof. done. Qed.
Lemma minimize_look w : look_of (minimize_window w) = (wopen w, false, Minimized).
Proof. done. Qed.

Lemma focused_on_owner app l : owned_by app (focused_on app l).
Proof. intros a. by destruct app, a. Qed.
Lemma focused_on_shown app l a : shown (app_look (focused_on app l) a) = shown (app_look l a).
Proof. by destruct app, a. Qed.
Lemma shown_blur l : shown (blur l) = shown l.
Proof. done. Qed.
Lemma shown_sharpen l : shown (sharpen l) = shown l.
Proof. done. Qed.

(** Windows that lose the keyboard or are closed. *)
Lemma owned_by_set app l a v : (is_focused v = true → is_focused (app_look l a) = true) → owned_by app l → owned_by app (set_look a v l).
Proof. intros Hv Ho b Hb. apply Ho. revert Hb. destruct a, b; cbn; auto. Qed.

Section apps.
Context {K : Type} `{GuiKernelLaws K} (m : Metrics) (Hm : metrics_ok m).
Abbreviation G := (gui K).
Implicit Types g : G.
Abbreviation lk g := (apps_looks (g_apps g)).
Abbreviation triple := (triple m).
Abbreviation keeps := (keeps m).

(** ** Focus *)

Lemma unfocus_all_triple P (Q : looks → Prop) : (∀ l, P l → Q (blurred l)) → triple P unfocus_all any Q.
Proof.
  intros HQ. assert (Hw : ∀ w, window_ok m w → window_ok m (set_focused false w) ∧ look_of (set_focused false w) = blur (look_of w)) by (split; [by apply unfocus_ok|done]).
  eapply (triple_bind _ _ _ _ _ (λ l, ∃ l0, P l0 ∧ l = set_look AppTerminal (blur (lk_terminal l0)) l0)); [apply (window_triple m AppTerminal _ blur); eauto|intros _ _].
  eapply (triple_bind _ _ _ _ _ (λ l, ∃ l0, P l0 ∧ l = set_look AppFiles (blur (lk_files l0)) (set_look AppTerminal (blur (lk_terminal l0)) l0))); [apply (window_triple m AppFiles _ blur); [done|]; intros l (l0 & HP & ->); eauto|intros _ _].
  eapply (triple_bind _ _ _ _ _ (λ l, ∃ l0, P l0 ∧ l = Looks (blur (lk_terminal l0)) (blur (lk_files l0)) (blur (lk_monitor l0)) (lk_about l0) (lk_notepad l0))); [apply (window_triple m AppMonitor _ blur); [done|]; intros l (l0 & HP & ->); eauto|intros _ _].
  eapply (triple_bind _ _ _ _ _ (λ l, ∃ l0, P l0 ∧ l = Looks (blur (lk_terminal l0)) (blur (lk_files l0)) (blur (lk_monitor l0)) (blur (lk_about l0)) (lk_notepad l0))); [apply (window_triple m AppAbout _ blur); [done|]; intros l (l0 & HP & ->); eauto|intros _ _].
  apply (window_triple m AppNotepad _ blur); [done|]. intros l (l0 & HP & ->). by apply HQ in HP.
Qed.

Lemma focus_window_triple app z P (Q : looks → Prop) : is_u32 z → (∀ l, P l → Q (set_look app (sharpen (app_look l app)) l)) → triple P (on_app_window app (focus_window z)) any Q.
Proof. intros Hz. apply window_triple. intros w Hw. split; [by apply focus_ok|apply focus_look]. Qed.

Lemma focus_app_triple app P (Q : looks → Prop) : (∀ l, P l → Q (focused_on app l)) → triple P (focus_app app) any Q.
Proof.
  intros HQ. eapply (triple_bind _ _ _ _ _ (λ l, ∃ l0, P l0 ∧ l = blurred l0)); [apply unfocus_all_triple; eauto|]. intros _ _.
  assert (Hf : ∀ a z, is_u32 z → a = app → triple (λ l, ∃ l0, P l0 ∧ l = blurred l0) (on_app_window a (focus_window z)) any Q).
  { intros a z Hz ->. apply focus_window_triple; [done|]. intros l (l0 & HP & ->). by apply HQ. }
  destruct app; [|eapply triple_keeps; [apply next_z_keeps|]; intros z Hz; match goal with Hf : ∀ a z, _ → a = ?app → _ |- _ => by apply (Hf app z Hz) end..].
  eapply triple_mono; [by apply (triple_ret m (λ l, ∃ l0, P l0 ∧ l = blurred l0) tt any)|done|done|]. intros l (l0 & HP & ->). by apply HQ in HP.
Qed.

(** ** Opening *)

Lemma keeps_then {A B} P (op : M G A) (f : A → M G B) R1 R (Q : looks → Prop) : triple P op R1 Q → (∀ a, R1 a → keeps (f a) R) → triple P (op ≫= f) R Q.
Proof. intros Ho Hf. eapply triple_bind; [exact Ho|]. intros a Ha. by apply Hf. Qed.

(** The three lines and the prompt of a new window. *)
Lemma write_term m' text t hs (Q : unit → terminal → Prop) : metrics_ok m' → term_ok m' t hs → is_text text →
  (∀ t', term_ok m' t' hs → t_window t' = t_window t → Q tt t') → wp (write text) Q t.
Proof.
  intros Hm' Ht Htx HQ. eapply write_ok; [apply Ht|done|by eapply window_i32, Ht|]. intros t' Hok Ho _. apply HQ; [by eapply term_ok_text|by rewrite Ho].
Qed.
Lemma term_text_parts t : text_ok t → length (t_lines t) = 96%nat ∧ Forall (λ r, length r = 161%nat) (t_lines t).
Proof.
  intros [[s Hs] _]. destruct (sh_lines _ _ Hs) as (junk & El & Hr & Hlen). rewrite El. unfold lines_of. rewrite length_fmap. split; [done|].
  apply Forall_fmap. eapply Forall_impl; [exact Hr|]. cbn. intros r [E _]. rewrite length_app, E. done.
Qed.

Lemma clear_buffer_ok t hs : term_ok m t hs → wp clear_buffer (λ _ t', term_ok m t' hs ∧ t_window t' = t_window t) t.
Proof.
  intros Ht. pose proof Ht as [? Htx ? Hr ?]. destruct (term_text_parts _ Htx). eapply wp_mono; [by apply clear_buffer_wp|]. intros [] t' (Hs & Ho & Hz).
  split; [|by apply only_text_window]. eapply term_ok_text; [exact Ht| |exact Ho]. split; [by eexists|]. rewrite Hz. pose proof (shows_count _ _ Hs). lia.
Qed.

(** A terminal that is opened anew. *)
Lemma terminal_open_ok z t hs : is_u32 z → term_ok m t hs → wp (terminal_open m z) (λ _ t', (∃ hs', term_ok m t' hs') ∧ look_of (t_window t') = (true, true, Normal) ∧ any tt) t.
Proof.
  intros Hz Ht. unfold terminal_open, term_window, term_geometry. do 6 wp_step. cbn.
  destruct (terminal_geometry_ok m (set_mode Normal (set_focused true (set_open true (t_window t)))) Hm) as (w & E & Hp & Er & Eo & Ef & Emd & Ez). do 3 wp_step. cbn. wp_step. eapply wp_lift; [exact E|]. do 9 wp_step.
  match goal with |- wp _ _ ?t0 => set (t1 := t0) end.
  assert (Hok : term_ok m t1 hs).
  { pose proof Ht as [Hw [[s Hs] ?] Hc [] ?]. split; cbn; [|split; [exists s; by destruct Hs|done]|by destruct Hc|by split|done].
    split; cbn; [done|done|by rewrite Eo|done]. }
  assert (El : look_of (t_window t1) = (true, true, Normal)) by (unfold look_of; cbn; by rewrite Eo, Ef, Emd). clearbody t1. wp_step.
  eapply wp_mono; [by apply clear_buffer_ok|]. intros [] t2 [Hok2 E2]. cbn beta.
  do 3 (wp_step; eapply write_term; [done|eassumption|by apply c_line_text|]; intros ? ? ?).
  eapply write_term; [done|eassumption|by apply c_str_text|]. intros t6 Hok6 E6. split; [by exists hs|]. split; [congruence|done].
Qed.

Definition unhidden (l : look) : look := (true, true, if bool_decide (snd l = Minimized) then Normal else snd l).
Definition raised (l : look) : look := if is_open l then unhidden l else (true, true, Normal).

Lemma terminal_open_window_triple z P (Q : looks → Prop) : is_u32 z → (∀ l, P l → Q (set_look AppTerminal (raised (lk_terminal l)) l)) → triple P (terminal_open_window m z) any Q.
Proof.
  intros Hz HQ g Hg Hl. unfold terminal_open_window. wp_step. apply read_terminal. destruct (wopen _) eqn:Eo; cbn [negb].
  - pose proof (HQ _ Hl) as HQ'. unfold raised, unhidden, is_open in HQ'. cbn [lk_terminal apps_looks look_of fst snd] in HQ'. rewrite Eo in HQ'.
    refine (triple_bind m (λ l, l = lk g) (when _ _) _ any (λ l, l = set_look AppTerminal (wopen (t_window (terminal_ (g_apps g))), wfocused (t_window (terminal_ (g_apps g))), if bool_decide (wmode (t_window (terminal_ (g_apps g))) = Minimized) then Normal else wmode (t_window (terminal_ (g_apps g)))) (lk g)) any Q _ _ g Hg eq_refl).
    + destruct (bool_decide _) eqn:Em; cbn [when].
      * eapply (window_triple m AppTerminal _ (λ l, (is_open l, is_focused l, Normal))); [|by intros l ->]. intros w []. by split.
      * eapply triple_mono; [by apply (triple_ret m (λ l, l = lk g) tt any)|done|done|]. intros l ->. reflexivity.
    + intros _ _. apply (focus_window_triple AppTerminal); [done|]. intros l ->. unfold sharpen, is_open, is_focused. cbn. rewrite Eo. exact HQ'.
  - refine (triple_bind m (λ l, l = lk g) (on_terminal (terminal_open m z)) _ any Q any Q _ _ g Hg eq_refl).
    + eapply (terminal_triple m _ (λ _, (true, true, Normal))); [intros t hs Ht; by eapply terminal_open_ok|]. intros l ->. apply HQ in Hl. unfold raised, is_open in Hl. cbn in Hl. rewrite Eo in Hl. exact Hl.
    + intros _ _. apply serial_keeps, c_line_text. reflexivity.
Qed.

(** A utility window that is opened stays minimized when it was. *)
Definition popped (l : look) : look := (true, true, if is_open l then snd l else Normal).
Lemma utility_open_triple app z P (Q : looks → Prop) : is_u32 z → (∀ l, P l → Q (set_look app (popped (app_look l app)) l)) →
  match app with
  | AppFiles => triple P (on_files (utility_open_window m z)) any Q
  | AppMonitor => triple P (on_monitor (utility_open_window m z)) any Q
  | AppAbout => triple P (on_about (utility_open_window m z)) any Q
  | _ => True
  end.
Proof.
  intros Hz HQ. destruct app; try done; intros g [Em [? Hf Hmo Ha ?] ? ? ? ? ? ?] Hl; apply wp_zoom; (eapply wp_mono; [apply utility_open_wp; done|]);
    cbn; intros [] u' (Ek & Hw & Eo & Ef & Ez & Emd); (split; [split; try done; by split|]); split; try done; apply HQ in Hl; unfold apps_looks, set_look; cbn.
  all: match type of Ek with _ = u_kind ?u => assert (El : look_of (u_window u') = popped (look_of (u_window u))) by (unfold popped, look_of, is_open; cbn; by rewrite Eo, Ef, Emd) end.
  all: rewrite El; exact Hl.
Qed.

Lemma notepad_open_triple z P (Q : looks → Prop) : is_u32 z → (∀ l, P l → Q (set_look AppNotepad (true, true, Normal) l)) → triple P (on_notepad_os (notepad_open_window m z)) any Q.
Proof.
  intros Hz HQ g [Em [? ? ? ? (l & r & Hn)] Hk ? ? ? ? ?] Hl. apply wp_zoom. eapply wp_mono; [apply (open_window_wp m z (NotepadOn _ _) l r); done|]. cbn.
  intros [] s' ([Hk' _] & _ & (Eo & Ef & Emd & _) & Hn'). assert (∃ l r, np_ok m (np_app s') l r) by (revert Hn'; case_match; eauto).
  split; [split; try done; by split|]. split; [done|]. assert (El : look_of (np_window (np_app s')) = (true, true, Normal)) by (unfold look_of; by rewrite Eo, Ef, Emd). unfold apps_looks. cbn. rewrite El. by apply HQ in Hl.
Qed.

Definition opens (app : AppId) (l l' : looks) : Prop := owned_by app l' ∧ (shown (lk_terminal l) = true → shown (lk_terminal l') = true).
Lemma open_app_triple app P : triple P (open_app app) any (λ l', ∃ l, P l ∧ opens app l l').
Proof.
  unfold open_app. eapply triple_keeps; [apply metrics_keeps|]. intros m' ->.
  eapply (triple_bind m _ _ _ any (λ l', ∃ l, P l ∧ (shown (lk_terminal l) = true → shown (lk_terminal l') = true))).
  - destruct app; [eapply triple_mono; [by apply (triple_ret m P tt any)|done|done|eauto]| | | | |]; (eapply triple_keeps; [apply next_z_keeps|]; intros z Hz).
    + apply terminal_open_window_triple; [done|]. intros l HP. exists l. split; [done|]. intros Hs. cbn. by destruct (lk_terminal l) as [[[] ?] []].
    + apply (utility_open_triple AppFiles); [done|]. intros l HP. by exists l.
    + apply (utility_open_triple AppMonitor); [done|]. intros l HP. by exists l.
    + apply (utility_open_triple AppAbout); [done|]. intros l HP. by exists l.
    + apply notepad_open_triple; [done|]. intros l HP. by exists l.
  - intros _ _. eapply keeps_then.
    + apply focus_app_triple. intros l (l0 & HP & Hs). exists l0. split; [exact HP|]. split; [apply focused_on_owner|]. intros Hs'. change (shown (app_look (focused_on app l) AppTerminal) = true). rewrite focused_on_shown. by apply Hs.
    + intros _ _. eapply keeps_bind; [apply menu_keeps|]. intros _ _. apply mark_dirty_keeps.
Qed.

(** ** Minimizing, maximizing, closing *)

(** A window that loses the keyboard, or gets it where it had it. *)
Lemma drop_single app (h : look → look) l : (∀ v, is_focused (h v) = true → is_focused v = true) → single l → single (set_look app (h (app_look l app)) l).
Proof. intros Hh [o Ho]. exists o. apply owned_by_set; [apply Hh|done]. Qed.

Lemma minimize_app_triple app : triple single (minimize_app app) any single.
Proof.
  eapply (keeps_then _ _ _ any); [|intros _ _; apply mark_dirty_keeps].
  assert (Hw : ∀ a, triple single (on_app_window a minimize_window) any single).
  { intros a. apply (window_triple m a _ (λ l, (is_open l, false, Minimized))); [by intros w []|]. intros l. by apply (drop_single a (λ l, (is_open l, false, Minimized))). }
  destruct app; [by apply triple_ret| |by apply (Hw AppFiles)|by apply (Hw AppMonitor)|by apply (Hw AppAbout)|by apply (Hw AppNotepad)].
  eapply keeps_then; [apply (Hw AppTerminal)|]. intros _ _. by apply serial_keeps, c_line_text.
Qed.

Lemma command_len_keeps n : 0 ≤ n ≤ 95 → keeps (on_terminal (modify (set_t_command_len n))) any.
Proof.
  intros Hn. apply terminal_keeps. intros t hs [? [[s Hs] ?] [] [] ?]. apply wp_modify. split; [|done]. exists hs. split; try done. split; [|done]. exists s. by destruct Hs.
Qed.

Lemma close_app_triple app : triple single (close_app app) any single.
Proof.
  eapply (keeps_then _ _ _ any); [|intros _ _; eapply keeps_bind; [apply end_pointer_keeps|intros _ _; apply mark_dirty_keeps]].
  assert (Hw : ∀ a, triple single (on_app_window a close_window) any single).
  { intros a. apply (window_triple m a _ (λ l, (false, false, Normal))); [by intros w []|]. intros l. by apply (drop_single a (λ l, (false, false, Normal))). }
  destruct app; [by apply triple_ret| |by apply (Hw AppFiles)|by apply (Hw AppMonitor)|by apply (Hw AppAbout)|by apply (Hw AppNotepad)].
  eapply keeps_then; [apply (Hw AppTerminal)|]. intros _ _. eapply keeps_bind; [by apply command_len_keeps|]. intros _ _. by apply serial_keeps, c_line_text.
Qed.

Lemma toggle_maximize_app_triple app : triple single (toggle_maximize_app app) any single.
Proof.
  set (T := λ _ : looks, True). apply (triple_mono m T single _ any any single single); [|done..]. eapply triple_keeps; [apply metrics_keeps|]. intros m' ->.
  assert (Hw : ∀ a z, is_u32 z → triple T (_ ← on_app_window a (toggle_window m); on_app_window a (focus_window z)) any T).
  { intros a z Hz. eapply (triple_bind _ _ _ _ any T).
    - apply (window_triple m a _ (λ l, (is_open l, is_focused l, if bool_decide (snd l = Maximized) then Normal else Maximized))); [|done].
      intros w Hw. split; [by apply toggle_ok|]. unfold look_of, is_open, is_focused, toggle_window. cbn. by case_bool_decide.
    - intros _ _. by apply focus_window_triple. }
  eapply (triple_bind _ _ _ _ any T).
  - destruct app; [by apply triple_ret| | | | |]; (eapply triple_keeps; [apply next_z_keeps|]; intros z Hz).
    + intros g Hg _. unfold terminal_toggle_maximize. wp_step. apply read_terminal. refine (triple_bind m T _ _ any T any T _ _ g Hg I).
      * apply (window_triple m AppTerminal _ (λ l, (is_open l, is_focused l, if bool_decide (snd l = Maximized) then Normal else Maximized))); [|done].
        intros w Hw'. split; [by apply toggle_ok|]. unfold look_of, is_open, is_focused, toggle_window. cbn. by case_bool_decide.
      * intros _ _. eapply triple_keeps; [apply serial_keeps; case_bool_decide; by apply c_line_text|]. intros _ _. by apply (focus_window_triple AppTerminal).
    + apply (Hw AppFiles z Hz).
    + apply (Hw AppMonitor z Hz).
    + apply (Hw AppAbout z Hz).
    + apply (Hw AppNotepad z Hz).
  - intros _ _. eapply keeps_then; [|intros _ _; apply mark_dirty_keeps]. apply focus_app_triple. intros l _. exists app. apply focused_on_owner.
Qed.

(** ** What a program does *)

(** A program reads and writes files, prints on the screen and opens applications. *)
Inductive program_effect : G → G → Prop :=
  | effect_none g : program_effect g g
  | effect_kernel g k g' : goes_on (kern g) k → program_effect (set_kern k g) g' → program_effect g g'
  | effect_print g gf g' : draws_in (primary_surface (g_gfx g)) (g_gfx g) gf (λ _ _, True) → program_effect (set_g_gfx gf g) g' → program_effect g g'
  | effect_open g app_id r g1 g' : open_user_app app_id g = Some (r, g1) → program_effect g1 g' → program_effect g g'.

Lemma open_user_app_triple P app_id : (∀ app l l', P l → opens app l l' → P l') → triple P (open_user_app app_id) (λ r, r = 0 ∨ r = -1) P.
Proof.
  intros HP. assert (Ho : ∀ app, triple P (_ ← open_app app; mret 0) (λ r, r = 0 ∨ r = -1) P).
  { intros app. eapply keeps_then; [|intros _ _; apply keeps_ret; by left]. eapply triple_mono; [apply open_app_triple|done|done|]. intros l' (l & Hl & Hop). by eapply HP. }
  unfold open_user_app. do 5 (destruct (_ =? _); [apply Ho|]). apply triple_ret. by right.
Qed.

Lemma display_draw a o back gf gf' : display_ok m a o back gf → draws_in (primary_surface gf) gf gf' (λ _ _, True) → display_ok m a o back gf'.
Proof.
  intros Hd D. destruct (draw_after m _ _ _ _ (di_screen _ _ _ _ _ Hd) D) as (Hs' & Hk & E). eapply display_after; [exact Hd|done|apply Hs'|done|apply Hd].
Qed.

Lemma effect_keeps P g g' : (∀ app l l', P l → opens app l l' → P l') → program_effect g g' → desk_ok m g → P (lk g) → desk_ok m g' ∧ P (lk g').
Proof.
  intros HP He. induction He as [g|g k g' [Hk _] He IH|g gf g' D He IH|g app_id r g1 g' E He IH]; intros Hg Hl; [done|apply IH..].
  - destruct Hg. by split.
  - done.
  - destruct Hg. split; try done. by eapply display_draw.
  - done.
  - destruct (open_user_app_triple P app_id HP g Hg Hl) as (r' & g2 & E' & Hg2 & _). rewrite E in E'. by injection E' as _ <-.
  - destruct (open_user_app_triple P app_id HP g Hg Hl) as (r' & g2 & E' & _ & _ & Hl2). rewrite E in E'. by injection E' as _ <-.
Qed.

(** Programs end, with an exit code. *)
Definition programs_end (usermode_run_program : list Z → M G Z) : Prop :=
  ∀ path g, is_text path → desk_ok m g → wp (usermode_run_program path) (λ r g', is_i32 r ∧ program_effect g g') g.

Lemma run_triple usermode_run_program path P : programs_end usermode_run_program → is_text path → (∀ app l l', P l → opens app l l' → P l') →
  triple P (usermode_run_program path) is_i32 P.
Proof.
  intros Hr Hp HP g Hg Hl. eapply wp_mono; [by apply Hr|]. intros r g' [Hi He]. destruct (effect_keeps P g g' HP He Hg Hl). done.
Qed.
End apps.
