(* ===== verification/GuiSafeCommands.v ===== *)
(** * The desktop keeps its invariant: the commands of the terminal

    Every command line that the terminal can hold is executed within the bounds of its
    arrays, whatever the user typed. *)

From Stdlib Require Import ZArith Lia Bool String.
From stdpp Require Import base numbers list.
From S2P Require Import Prelude Keyboard Input Runtime Windows GuiKernel Notepad Terminal UtilityApps Memory Graphics GraphicsPaint Assets GuiState GuiApps GuiOverlay GuiSafe GuiSafeApps.

(** ** Texts *)

Lemma byte_text c : is_u8 c → is_text [c; 0].
Proof.
  intros Hc. destruct (decide (c = 0)) as [->|]; [|apply char_text; unfold is_u8 in *; lia]. exists []. split; [|done]. by apply (text_in_app [] [0]).
Qed.

Lemma drop_text buf str n : text_in buf str → (n ≤ length str)%nat → text_in (drop n buf) (drop n str).
Proof.
  intros (rest & -> & Hs)%text_in_inv Hn. rewrite drop_app_le by done. apply text_in_app. by apply Forall_drop.
Qed.
Lemma drop_is_text buf str n : text_in buf str → Z.of_nat (length str) < 65536 → (n ≤ length str)%nat → is_text (drop n buf).
Proof. intros Ht Hl Hn. exists (drop n str). split; [by apply drop_text|]. rewrite length_drop. lia. Qed.

Lemma dec_text v n : is_u32 v → (11 ≤ n)%nat → ∃ out, u32_to_dec v (Z.of_nat n) (replicate n 0) = Some (tt, out) ∧ is_text out.
Proof.
  intros Hv Hn. destruct (decide (v = 0)) as [->|].
  - destruct n as [|[|n]]; [lia|lia|]. exists (48 :: 0 :: replicate n 0). split; [|exists [48]; split; [apply (text_in_app [48]); repeat constructor; lia|done]].
    unfold u32_to_dec. rewrite (proj2 (Z.eqb_neq (Z.of_nat (S (S n))) 0)) by lia. rewrite Z.eqb_refl. unfold store_char, mbind, M_bind, gets, modify, lift. rewrite awrite_eq by (rewrite length_replicate; lia). cbn [mbind option_bind].
    rewrite (proj2 (Z.ltb_lt 1 (Z.of_nat (S (S n))))) by lia. cbn [when]. unfold mbind, M_bind, gets, modify, lift. rewrite awrite_eq by (rewrite length_insert, length_replicate; lia). reflexivity.
  - destruct (u32_to_dec_digits v (replicate n 0) (Z.of_nat n)) as (ds & rest & E & Hd & _ & Hl); [unfold is_u32 in Hv; lia|rewrite length_replicate; lia|]. eexists. split; [exact E|]. exists (Runtime.glyph <$> ds).
    split; [|rewrite length_fmap; lia]. apply text_in_app, Forall_fmap. eapply Forall_impl; [exact Hd|]. intros d [? ?]. unfold Runtime.glyph. cbn. lia.
Qed.

Lemma kstrcmp_texts a sa b sb : text_in a sa → text_in b sb → ∃ d, kstrcmp a b = Some d ∧ (d = 0 ↔ sa = sb).
Proof.
  intros (ra & -> & Ha)%text_in_inv (rb & -> & Hb)%text_in_inv. destruct (kstrcmp_wf sa sb ra rb Ha Hb) as (d & E & Hd). exists d. split; [done|].
  rewrite <- lex_eq, <- Hd. by rewrite Z.compare_eq_iff.
Qed.

Lemma starts_with_ok line str pat : text_in line str → Forall (λ c, c ≠ 0) pat → ∀ i, 0 ≤ i ≤ Z.of_nat (length str) →
  returns (starts_with line i pat) (λ b, b = true → i + Z.of_nat (length pat) ≤ Z.of_nat (length str)).
Proof.
  intros (rest & -> & Hs)%text_in_inv Hp. induction pat as [|p pat IH]; intros i Hi; cbn [starts_with]; [apply returns_ret; cbn; lia|].
  apply Forall_cons_1 in Hp as [Hp0 Hp]. destruct (aread_text str rest i Hs Hi) as (c & E & Hc & _). rewrite E. cbn. destruct (Z.eqb_spec c p) as [->|]; [|by apply returns_ret].
  assert (i ≠ Z.of_nat (length str)) by tauto. destruct (IH Hp (i + 1) ltac:(lia)) as (b & -> & Hb). apply returns_ret. intros Et. specialize (Hb Et). cbn. lia.
Qed.

(** The first word of a command: at most 31 characters of it. *)
Lemma first_word_ok args str fuel len : text_in args str → 0 ≤ len ≤ 31 → len ≤ Z.of_nat (length str) → 31 - len < Z.of_nat fuel →
  returns (first_word fuel args len) (λ r, ∃ w, fst r = w ++ [0] ∧ Forall (λ c, 0 < c < 256) w ∧ Z.of_nat (length w) ≤ 31 - len ∧ len ≤ snd r ≤ 31 ∧ snd r ≤ Z.of_nat (length str)).
Proof.
  intros (rest & -> & Hs)%text_in_inv. revert len. induction fuel as [|fuel IH]; intros len Hl Hs' Hf; [lia|]. cbn [first_word].
  destruct (aread_text str rest len Hs ltac:(lia)) as (c & E & Hc & Hlk). rewrite E. cbn [mbind option_bind]. destruct (_ || _) eqn:Eo.
  - apply returns_ret. exists []. cbn. split_and!; [done|constructor|lia|lia|lia|lia].
  - bool_to_prop. assert (len ≠ Z.of_nat (length str)) by tauto. destruct (IH (len + 1) ltac:(lia) ltac:(lia) ltac:(lia)) as ([path n] & E2 & w & Ew & Hw & Hwl & Hn1 & Hn2). cbn in Ew, Hn1, Hn2. subst path.
    rewrite E2. cbn. apply returns_ret. exists (c :: w). cbn. specialize (Hlk ltac:(lia)). pose proof (Forall_lookup_1 _ _ _ _ Hs Hlk) as Hc'. split_and!; [done|by constructor|lia|lia|lia|lia].
Qed.

Lemma number_at_ok text fuel i size : 0 ≤ i < Z.of_nat (length text) → last text = Some 0 → Z.of_nat (length text) - i ≤ Z.of_nat fuel → is_u32 size →
  returns (number_at fuel text i size) is_u32.
Proof.
  intros Hi Hlast. revert i size Hi. induction fuel as [|fuel IH]; intros i size Hi Hf Hs; [lia|]. cbn [number_at].
  destruct (lookup_lt_is_Some_2 text (Z.to_nat i)) as [c Hc]; [lia|]. rewrite (proj2 (aread_Some text i c)) by (split; [lia|done]). cbn.
  destruct (_ && _) eqn:Ed; [|by apply returns_ret]. destruct (decide (i + 1 = Z.of_nat (length text))) as [Ee|].
  - rewrite last_lookup in Hlast. replace (Nat.pred (length text)) with (Z.to_nat i) in Hlast by lia. assert (c = 0) as -> by congruence. done.
  - apply IH; [lia|lia|apply u32_range].
Qed.

Section commands.
Context {K : Type} `{GuiKernelLaws K} (m : Metrics) (Hm : metrics_ok m).
Abbreviation G := (gui K).
Implicit Types g : G.
Abbreviation triple := (triple m).
Abbreviation keeps := (keeps m).
Abbreviation any := GuiSafe.any.

Lemma write_keeps text : is_text text → keeps (on_terminal (write text)) any.
Proof.
  intros Ht. apply terminal_keeps. intros t hs Hok. eapply (write_term m); [exact Hm|exact Hok|done|]. intros t' Hok' Ew. split; [by exists hs|done].
Qed.
Lemma print_keeps text : is_text text → keeps (print text) any.
Proof. intros Ht. eapply keeps_bind; [by apply write_keeps|]. intros _ _. by apply serial_keeps. Qed.
Lemma print_u32_keeps prefix v : is_text prefix → is_u32 v → keeps (print_u32 prefix v) any.
Proof.
  intros Hp Hv. eapply keeps_bind; [by apply print_keeps|]. intros _ _. destruct (dec_text v 12 Hv ltac:(lia)) as (out & E & Ho). change (Z.of_nat 12) with 12 in E.
  eapply keeps_bind; [apply keeps_lift; rewrite E; eapply (returns_ret _ (λ r, r = (tt, out))); done|]. intros ? ->.
  eapply keeps_bind; [by apply print_keeps|]. intros _ _. by apply print_keeps, byte_text.
Qed.
Lemma prompt_keeps : keeps prompt any.
Proof. by apply print_keeps, c_str_text. Qed.
Lemma then_prompt (op : M G unit) : keeps op any → keeps (_ ← op; prompt) any.
Proof. intros Ho. eapply keeps_bind; [exact Ho|]. intros _ _. apply prompt_keeps. Qed.
Lemma result_keeps b yes no : is_text yes → is_text no → keeps (_ ← print (if (b : bool) then yes else no); prompt) any.
Proof. intros. apply then_prompt, print_keeps. by destruct b. Qed.

Lemma quiet_keeps {A} (op : M K A) R : quiet op R → keeps (on_kernel op) R.
Proof. intros Hq. by apply kernel_keeps, quiet_total. Qed.

Lemma number_keeps label op : plain label = true → quiet op is_u32 → keeps (command_number label op) any.
Proof. intros Hl Hq. eapply keeps_bind; [by apply quiet_keeps|]. intros n Hn. apply then_prompt, print_u32_keeps; [by apply c_str_text|done]. Qed.

(** ** Files *)

Lemma ls_keeps : keeps command_ls any.
Proof.
  eapply keeps_bind; [by apply print_keeps, c_line_text|]. intros _ _. apply then_prompt. intros P g Hg Hl.
  apply (wp_iterate _ _ (λ i g, (0 ≤ i ≤ 4096) ∧ desk_ok m g ∧ P (apps_looks (g_apps g))) (λ i, Z.to_nat (4097 - i))); [vm_compute; lia|split; [lia|done]|].
  clear g Hg Hl. intros i g (Hi & Hg & Hl).
  refine (wp_mono _ _ _ _ (triple_keeps m P _ _ _ (λ r, match r with inl j => j = i + 1 ∧ i < 4096 | inr _ => True end) P (quiet_keeps _ _ file_count_quiet) _ g Hg Hl) _).
  - intros n Hn. destruct (Z.ltb_spec i n); [|by apply triple_ret]. assert (Hs : i +% 1 = i + 1) by (apply u32_small; unfold is_u32; lia). rewrite Hs.
    eapply triple_keeps; [apply quiet_keeps, file_name_quiet; unfold is_u32; lia|]. intros name Hname.
    do 2 (eapply triple_keeps; [apply print_keeps; first [done|by apply byte_text]|]; intros _ _). apply triple_ret. lia.
  - intros [j|[]] g' (Hg' & Hj & Hl'); [|done]. destruct Hj as [-> ?]. split; [split; [lia|done]|lia].
Qed.

Lemma keeps_for lo hi body : lo ≤ hi → (∀ i, lo ≤ i < hi → keeps (body i) any) → keeps (for_ lo hi body) any.
Proof.
  intros Hle Hb P g Hg Hl. apply (wp_for _ _ _ (λ _ g, desk_ok m g ∧ P (apps_looks (g_apps g)))); [done|done| |by intros g' []].
  intros i g1 Hi [Hg1 Hl1]. eapply wp_mono; [by apply (Hb i Hi P)|]. by intros [] g2 (? & _ & ?).
Qed.

Lemma read_total path : is_text path → total (k_diskfs_read_file path) (λ r, match r with Some (data, size) => 0 ≤ size ≤ Z.of_nat (length data) ∧ Z.of_nat (length data) ≤ 16384 ∧ Forall is_u8 data | None => True end).
Proof.
  intros (str & Ht & _) k Hk. eapply wp_mono; [by apply (read_file_law path str)|]. intros [[data size]|] k' [[Hgo _] Hr]; [|done]. destruct Hr as (? & ? & ? & _). done.
Qed.
Lemma write_total path buf size : is_text path → 0 ≤ size ≤ 4096 → size ≤ Z.of_nat (length buf) → Forall is_u8 buf → total (k_diskfs_write_file path buf size) any.
Proof. intros (str & Ht & _) Hs Hb Hu k Hk. eapply wp_mono; [by apply (write_file_law path str)|]. by intros ok k' [? _]. Qed.

Lemma cat_keeps path : is_text path → keeps (command_cat path) any.
Proof.
  intros Hp. eapply keeps_bind; [by apply kernel_keeps, read_total|]. intros r Hr. apply then_prompt. destruct r as [[data size]|]; [|by apply print_keeps, c_line_text]. destruct Hr as (Hs & Hd & Hu).
  assert (Hrd : ∀ i, 0 ≤ i < size → returns (aread data i) is_u8).
  { intros i Hi. destruct (lookup_lt_is_Some_2 data (Z.to_nat i)) as [c Hc]; [lia|]. exists c. split; [apply aread_Some; split; [lia|done]|by eapply Forall_lookup_1]. }
  eapply keeps_bind.
  - apply keeps_for; [lia|]. intros i Hi. eapply keeps_bind; [by apply keeps_lift, Hrd|]. intros c Hc. by apply print_keeps, byte_text.
  - intros _ _. destruct (Z.eqb_spec size 0); [by apply print_keeps, byte_text|]. rewrite u32_small by (unfold is_u32; lia). eapply keeps_bind; [apply keeps_lift, Hrd; lia|].
    intros c _. apply keeps_when. intros _. by apply print_keeps, byte_text.
Qed.

(** A command line: a string in an array of bytes whose last one is a terminator. *)
Record line_ok (line str : list Z) : Prop := {
  li_text : text_in line str; li_len : Z.of_nat (length str) ≤ 95; li_bytes : Forall is_u8 line; li_last : last line = Some 0; li_size : Z.of_nat (length line) ≤ 96 }.

Lemma line_drop line str n : line_ok line str → (n ≤ length str)%nat → line_ok (drop n line) (drop n str).
Proof.
  intros [Ht Hl Hb He Hs] Hn. split; [by apply drop_text|rewrite length_drop; lia|by apply Forall_drop| |rewrite length_drop; lia].
  rewrite last_lookup in *. rewrite lookup_drop, length_drop, <- He. f_equal. destruct (text_in_inv _ _ Ht) as (rest & -> & _). rewrite length_app. cbn. lia.
Qed.
Lemma line_text line str : line_ok line str → is_text line.
Proof. intros []. exists str. split; [done|lia]. Qed.
Lemma word_text w : Forall (λ c, 0 < c < 256) w → Z.of_nat (length w) ≤ 31 → is_text (w ++ [0]).
Proof. intros Hw Hl. exists w. split; [by apply text_in_app|lia]. Qed.

(** The first word and the character after it. *)
Lemma word_keeps {B} args str (f : list Z → Z → Z → M G B) (R : B → Prop) : line_ok args str →
  (∀ path len c, is_text path → 0 ≤ len ≤ 31 → len ≤ Z.of_nat (length str) → (c ≠ 0 → len < Z.of_nat (length str)) → keeps (f path len c) R) →
  keeps ('(path, len) ← lift (first_word 33 args 0); c ← lift (aread args len); f path len c) R.
Proof.
  intros Ha Hf. pose proof Ha as [Ht _ _ _ _]. eapply keeps_bind; [apply keeps_lift, (first_word_ok args str); [done|lia|lia|lia]|]. intros [path len] (w & Ew & Hw & Hwl & Hl1 & Hl2). cbn in *. subst path.
  destruct (text_in_inv _ _ Ht) as (rest & -> & Hs). destruct (aread_text str rest len Hs ltac:(lia)) as (c & E & Hc & _).
  eapply keeps_bind; [apply keeps_lift; rewrite E; eapply (returns_ret _ (λ x, x = c)); done|]. intros ? ->. apply Hf; [apply word_text; [done|lia]|lia|lia|]. intros Hne. assert (len ≠ Z.of_nat (length str)) by tauto. lia.
Qed.

Lemma write_command_keeps args str : line_ok args str → keeps (command_write args) any.
Proof.
  intros Ha. apply (word_keeps args str (λ path len c, ok ← (if (len =? 0) || negb (c =? 32) then mret false else
    size ← lift (kstrlen (drop (Z.to_nat (len + 1)) args)); on_kernel (k_diskfs_write_file path (drop (Z.to_nat (len + 1)) args) (u32 size))); _ ← print (if (ok : bool) then c_line "Write passed." else c_line "Write failed."); prompt)); [done|].
  intros path len c Hp Hl Hl2 Hc. apply (keeps_bind m _ _ any); [|intros ok _; apply result_keeps; by apply c_line_text].
  destruct (_ || _) eqn:E; [by apply keeps_ret|]. bool_to_prop. specialize (Hc ltac:(lia)). destruct (line_drop args str (Z.to_nat (len + 1)) Ha ltac:(lia)) as [Ht Hlt Hb _ Hsz].
  eapply (keeps_bind m _ _ (λ n, n = Z.of_nat (length (drop (Z.to_nat (len + 1)) str)))); [apply keeps_lift; rewrite (kstrlen_text _ _ Ht); by apply returns_ret|]. intros ? ->.
  rewrite u32_small by (unfold is_u32; lia). apply kernel_keeps, write_total; [done|lia| |done]. destruct (text_in_inv _ _ Ht) as (rest & E' & _). rewrite E', length_app. lia.
Qed.

Lemma delete_keeps path : is_text path → keeps (command_delete path) any.
Proof. intros Hp. eapply keeps_bind; [by apply kernel_keeps, delete_total|]. intros ok _. apply result_keeps; by apply c_line_text. Qed.

Lemma rename_keeps args str : line_ok args str → keeps (command_rename args) any.
Proof.
  intros Ha. apply (word_keeps args str (λ path len c, ok ← (if (0 <? len) && (c =? 32) then on_kernel (k_diskfs_rename_file path (drop (Z.to_nat (len + 1)) args)) else mret false);
    _ ← print (if (ok : bool) then c_line "Rename passed." else c_line "Rename failed."); prompt)); [done|].
  intros path len c Hp Hl Hl2 Hc. apply (keeps_bind m _ _ any); [|intros ok _; apply result_keeps; by apply c_line_text].
  destruct (_ && _) eqn:E; [|by apply keeps_ret]. bool_to_prop. specialize (Hc ltac:(lia)).
  eapply keeps_mono; [apply kernel_keeps, rename_total; [done|eapply line_text, (line_drop _ _ _ Ha); lia]|done].
Qed.

Lemma truncate_keeps args str : line_ok args str → 32 < Z.of_nat (length args) → keeps (command_truncate args) any.
Proof.
  intros Ha Hlen. pose proof Ha as [Ht _ _ He _]. unfold command_truncate.
  eapply keeps_bind; [apply keeps_lift, (first_word_ok args str); [done|lia|lia|lia]|]. intros [path len] (w & Ew & Hw & Hwl & Hl1 & Hl2). cbn in Ew, Hl1, Hl2. subst path.
  eapply keeps_bind; [apply keeps_lift, number_at_ok; [lia|done|lia|done]|]. intros size Hs.
  destruct (text_in_inv _ _ Ht) as (rest & Ea & Hs'). destruct (aread_text str rest len Hs' ltac:(lia)) as (c & E & Hc & _).
  eapply (keeps_bind m _ _ (λ x, x = c)); [apply keeps_lift; rewrite Ea, E; by apply returns_ret|]. intros ? ->.
  apply (keeps_bind m _ _ any); [|intros ok _; apply result_keeps; by apply c_line_text].
  destruct (_ && _); [|by apply keeps_ret]. eapply keeps_mono; [apply kernel_keeps, truncate_total; [apply word_text; [done|lia]|done]|done].
Qed.

Lemma fsck_keeps : keeps command_fsck any.
Proof.
  eapply keeps_bind; [by apply quiet_keeps, fsck_quiet|]. intros [n report] [Hn Hr]. eapply keeps_bind; [by apply print_keeps|]. intros _ _. apply then_prompt, print_u32_keeps; [by apply c_str_text|done].
Qed.

(** ** Running programs *)

Context (usermode_run_program : list Z → M G Z) (Hrun : programs_end m usermode_run_program).

Lemma run_program_triple path m' z P (Q : looks → Prop) : is_text path → triple P (terminal_open_window m' z) any Q → (∀ app l l', Q l → opens app l l' → Q l') →
  triple P (run_program usermode_run_program path m' z) any Q.
Proof.
  intros Hp Ho HQ. eapply triple_bind; [exact Ho|]. intros _ _. do 3 (eapply triple_keeps; [apply print_keeps; first [done|by apply c_str_text|by apply byte_text]|]; intros _ _).
  eapply triple_bind; [by apply run_triple|]. intros code Hc. eapply keeps_bind; [apply print_u32_keeps; [by apply c_str_text|apply u32_range]|]. intros _ _. apply prompt_keeps.
Qed.

(** Between the key that ends a command and the end of the command: the terminal is on
    the screen, and the editor does not have the keyboard unless it is the only one. *)
Definition typing (l : looks) : Prop := shown (lk_terminal l) = true ∧ is_focused (lk_notepad l) = false.
Definition typed (l : looks) : Prop := shown (lk_terminal l) = true ∧ (single l ∨ is_focused (lk_notepad l) = false).
Lemma typing_typed l : typing l → typed l.
Proof. intros []. split; auto. Qed.
Lemma typed_opens app l l' : typed l → opens app l l' → typed l'.
Proof. intros [Hs _] [Ho Hs']. split; [auto|]. left. by exists app. Qed.

(** open_window() on a terminal that is on the screen only gives it the keyboard. *)
Lemma focus_typing m' z : is_u32 z → triple typing (terminal_open_window m' z) any typing.
Proof.
  intros Hz g Hg Hl. pose proof Hl as [Hs Hn]. unfold terminal_open_window. wp_step. apply read_terminal. apply andb_true_iff in Hs as [Eo Em]. unfold is_open in Eo. cbn in Eo, Em. rewrite Eo. cbn [negb].
  wp_step. apply negb_true_iff in Em. rewrite Em. cbn [when]. wp_step. apply (focus_window_triple m AppTerminal z typing typing); [done| |exact Hg|exact Hl]. intros l [? ?]. by split.
Qed.

Lemma case_triple {A} test (yes no : M G A) (R : A → Prop) P Q (T : Prop) : returns test (λ b, b = true → T) → (T → triple P yes R Q) → triple P no R Q → triple P (case test yes no) R Q.
Proof. intros Ht Hy Hn. eapply triple_keeps; [apply keeps_lift; exact Ht|]. intros [] Hb; [by apply Hy, Hb|done]. Qed.

Lemma is_command_ok line str word : text_in line str → plain word = true → returns (is_command line word) (λ b, b = true → True).
Proof.
  intros Ht Hw. destruct (kstrcmp_texts line str (c_str word) (bytes_of word) Ht) as (d & E & _); [by apply text_in_app, bytes_plain|]. unfold is_command. rewrite E. by apply returns_ret.
Qed.

Lemma push_history_keeps line : is_text line → keeps (on_terminal (push_history line)) any.
Proof.
  intros Ht. apply terminal_keeps. intros t hs Hok. eapply wp_mono; [by eapply push_history_ok|]. intros [] t' (? & ? & _). done.
Qed.
Lemma clear_keeps : keeps (on_terminal clear_buffer) any.
Proof. apply terminal_keeps. intros t hs Hok. eapply wp_mono; [by eapply clear_buffer_ok|]. intros [] t' [? ?]. split; [by exists hs|done]. Qed.
Lemma terminal_window_keeps : keeps (on_terminal (gets t_window)) (window_ok m).
Proof. apply terminal_keeps. intros t hs Hok. apply wp_gets. split; [by exists hs|]. split; [done|apply Hok]. Qed.

Lemma keeps_typed (op : M G unit) : keeps op any → triple typing op any typed.
Proof. intros Hk. eapply triple_mono; [apply Hk|done|done|apply typing_typed]. Qed.
Lemma literal_keeps s : plain s = true → keeps (print (c_line s)) any.
Proof. intros Hs. by apply print_keeps, c_line_text. Qed.

(** A case of execute_command for a word, and one for a word with arguments. *)
Lemma word_case line str word (yes no : M G unit) : line_ok line str → plain word = true → keeps yes any → triple typing no any typed →
  triple typing (case (is_command line word) yes no) any typed.
Proof. intros [Ht _ _ _ _] Hw Hy Hn. eapply case_triple; [by eapply is_command_ok|intros _; by apply keeps_typed|done]. Qed.
Lemma prefix_case line str word n (yes no : M G unit) : line_ok line str → plain word = true → length (bytes_of word) = n →
  (line_ok (drop n line) (drop n str) → triple typing yes any typed) → triple typing no any typed → triple typing (case (starts_with line 0 (bytes_of word)) yes no) any typed.
Proof.
  intros Hl Hw En Hy Hn. eapply case_triple; [apply (starts_with_ok line str); [apply Hl| |lia]| |done].
  - eapply Forall_impl; [by apply bytes_plain|]. cbn. lia.
  - intros Hlen. apply Hy, line_drop; [done|lia].
Qed.

Lemma execute_command_triple line str : line_ok line str → length line = 96%nat → triple typing (execute_command usermode_run_program line) any typed.
Proof.
  intros Hl Hlen. pose proof (line_text _ _ Hl) as Htext. unfold execute_command.
  eapply (triple_keeps m _ _ _ any); [apply keeps_lift; destruct line as [|c line]; [done|]; by apply returns_ret|]. intros c _. destruct (c =? 0); [apply keeps_typed, prompt_keeps|].
  eapply triple_keeps; [by apply push_history_keeps|]. intros _ _.
  eapply word_case; [exact Hl|done|by apply then_prompt, literal_keeps|].
  eapply word_case; [exact Hl|done|apply then_prompt, clear_keeps|].
  eapply word_case; [exact Hl|done|eapply keeps_bind; [by apply literal_keeps|intros _ _]; by apply then_prompt, literal_keeps|].
  eapply word_case; [exact Hl|done|apply number_keeps; [done|apply ticks_quiet]|].
  eapply word_case; [exact Hl|done|apply number_keeps; [done|apply uptime_quiet]|].
  eapply word_case; [exact Hl|done| |].
  { eapply keeps_bind; [apply quiet_keeps, pages_quiet|]. intros n Hn. eapply keeps_bind; [apply print_u32_keeps; [by apply c_str_text|done]|]. intros _ _. apply number_keeps; [done|apply heap_quiet]. }
  eapply word_case; [exact Hl|done|apply number_keeps; [done|apply switches_quiet]|].
  eapply word_case; [exact Hl|done|apply number_keeps; [done|apply processes_quiet]|].
  eapply word_case; [exact Hl|done|apply ls_keeps|].
  eapply prefix_case; [exact Hl|done|reflexivity|intros Ha; by eapply keeps_typed, cat_keeps, line_text|].
  eapply prefix_case; [exact Hl|done|reflexivity|intros Ha; by eapply keeps_typed, write_command_keeps|].
  eapply prefix_case; [exact Hl|done|reflexivity|intros Ha; by eapply keeps_typed, delete_keeps, line_text|].
  eapply prefix_case; [exact Hl|done|reflexivity|intros Ha; by eapply keeps_typed, rename_keeps|].
  eapply prefix_case; [exact Hl|done|reflexivity|intros Ha; eapply keeps_typed, truncate_keeps; [exact Ha|]; rewrite length_drop, Hlen; done|].
  eapply word_case; [exact Hl|done|apply fsck_keeps|].
  eapply word_case; [exact Hl|done|apply number_keeps; [done|apply pci_quiet]|].
  eapply prefix_case; [exact Hl|done|reflexivity| |by apply keeps_typed, then_prompt, literal_keeps].
  intros Ha. eapply triple_keeps; [apply terminal_window_keeps|]. intros w [_ _ _ Hz]. eapply run_program_triple; [by eapply line_text| |apply typed_opens].
  eapply triple_mono; [by apply focus_typing|done|done|apply typing_typed].
Qed.

(** ** Keys *)

(** An array of bytes that ends with a terminator holds a string. *)
Lemma array_line line : length line = 96%nat → Forall is_u8 line → line !! 95%nat = Some 0 → ∃ str, line_ok line str.
Proof.
  intros Hl Hb He. assert (∃ str rest, line = str ++ 0 :: rest ∧ Forall (λ c, c ≠ 0) str) as (str & rest & E & Hs).
  { assert (Hin : 0 ∈ line) by by eapply list_elem_of_lookup_2. clear -Hin. induction line as [|c line IH]; [by apply not_elem_of_nil in Hin|].
    destruct (decide (c = 0)) as [->|]; [by exists [], line|]. destruct IH as (str & rest & -> & Hs); [by apply elem_of_cons in Hin as [?|?]|]. exists (c :: str), rest. split; [done|by constructor]. }
  exists str. split; [split; [apply cstring_spec; eauto|rewrite E in Hb; by apply Forall_app in Hb as [? _]]| |done|by rewrite last_lookup, Hl|lia].
  apply (f_equal length) in E. rewrite length_app in E. cbn in E. lia.
Qed.

Lemma term_ok_command t hs c : term_ok m t hs → length c = 96%nat → Forall is_u8 c → c !! 95%nat = Some 0 → term_ok m (set_t_command c t) hs.
Proof. intros [? [[s Hs] ?] [] [] ?] ? ? ?. split; try done. split; [|done]. exists s. by destruct Hs. Qed.

Lemma put_command_keeps i c : 0 ≤ i ≤ 95 → is_u8 c → (i = 95 → c = 0) → keeps (on_terminal (put_command i c)) any.
Proof.
  intros Hi Hc H95. apply terminal_keeps. intros t hs Hok. pose proof (te_command _ _ _ Hok) as [Hs Hb He _]. apply put_command_wp; [lia|]. split; [|done]. exists hs.
  apply term_ok_command; [done|by rewrite length_insert|by apply Forall_insert|]. destruct (decide (i = 95)) as [->|]; [rewrite (H95 eq_refl), list_lookup_insert_eq by (cbn; lia); done|]. by rewrite list_lookup_insert_ne by lia.
Qed.

Lemma type_keeps i c : 0 ≤ i < 95 → 0 < c < 256 → keeps (on_terminal (_ ← put_command i c; _ ← modify (set_t_command_len (i + 1)); write [c; 0])) any.
Proof.
  intros Hi Hc. apply terminal_keeps. intros t hs Hok. pose proof (te_command _ _ _ Hok) as [Hs Hb He _]. wp_step. apply put_command_wp; [lia|]. do 2 wp_step.
  eapply (write_term m); [done| |by apply char_text|].
  - assert (Hok2 : term_ok m (set_t_command (<[Z.to_nat i:=c]> (t_command t)) t) hs).
    { apply term_ok_command; [done|by rewrite length_insert|apply Forall_insert; [done|unfold is_u8; lia]|]. by rewrite list_lookup_insert_ne by lia. }
    destruct Hok2 as [? [[s Hsh] ?] [] [] ?]. split; try done; [split; [exists s; by destruct Hsh|done]|]. split; try done. cbn. lia.
  - intros t' Hok' Ew. split; [by exists hs|done].
Qed.

Lemma recall_keeps delta : -1 ≤ delta ≤ 1 → keeps (on_terminal (recall_history delta)) any.
Proof.
  intros Hd. apply terminal_keeps. intros t hs Hok. eapply wp_mono; [by eapply recall_history_wp|]. intros [] t'. case_bool_decide; [intros ->; split; [by exists hs|done]|].
  intros (str & _ & Hok' & Ew & _). split; [by exists hs|done].
Qed.

Lemma term_ok_scroll t hs n : term_ok m t hs → 0 ≤ n < t_line_count t → term_ok m (set_t_scroll n t) hs.
Proof. intros [? [[s Hs] ?] [] [] ?] Hn. split; try done. split; [|done]. exists s. by destruct Hs. Qed.

Lemma scroll_at n P g : desk_ok m g → P (apps_looks (g_apps g)) → 0 ≤ n < t_line_count (terminal_ (g_apps g)) →
  wp (on_terminal (modify (set_t_scroll n))) (λ _ g', desk_ok m g' ∧ any tt ∧ P (apps_looks (g_apps g'))) g.
Proof.
  intros Hg Hl Hn. destruct (ak_terminal _ _ (dk_apps _ _ Hg)) as [hs Ht]. eapply wp_mono; [eapply (terminal_at m _ id any P); [exact Hg| |by destruct (apps_looks _)]|done].
  apply wp_modify. split; [|done]. exists hs. by apply term_ok_scroll.
Qed.

(** The terminal has no other window with the keyboard beside it, apart from those that
    handle_key takes it from. *)
Definition watched (l : looks) : Prop := single l ∧ is_focused (lk_notepad l) = false.

Lemma enter_triple i : 0 ≤ i ≤ 95 → triple typing
  (_ ← on_terminal (put_command i 0);
   _ ← on_terminal (write [10; 0]);
   _ ← serial (c_line "MyOS GUI terminal: command entered.");
   t ← on_terminal (gets id);
   _ ← execute_command usermode_run_program (t_command t);
   on_terminal (modify (set_t_command_len 0))) any typed.
Proof.
  intros Hi. eapply triple_keeps; [by apply put_command_keeps|]. intros _ _. eapply triple_keeps; [by apply write_keeps, byte_text|]. intros _ _. eapply triple_keeps; [by apply serial_keeps, c_line_text|]. intros _ _.
  eapply (triple_keeps m _ _ _ command_ok); [apply terminal_keeps; intros t hs Hok; apply wp_gets; split; [by exists hs|]; split; [done|apply Hok]|]. intros t [Hs Hb He _].
  destruct (array_line _ Hs Hb He) as [str Hline]. eapply keeps_then; [by eapply execute_command_triple|]. intros _ _. by apply command_len_keeps.
Qed.

Lemma terminal_handle_key_triple key z : is_u8 key → key ≠ GUI_KEY_F1 → is_u32 z → triple watched (terminal_handle_key usermode_run_program key m z) any (λ l, single l ∨ typed l).
Proof.
  intros Hk Hf1 Hz g Hg Hl. unfold terminal_handle_key. wp_step. apply read_terminal. cbn [id]. unfold id. set (t := terminal_ (g_apps g)).
  destruct (ak_terminal _ _ (dk_apps _ _ Hg)) as [hs Ht]. fold t in Ht. pose proof Ht as [_ [[s Hs] Hsc] [Hcs Hcb Hce Hcl] _ _]. pose proof (shows_count _ _ Hs) as Hlc.
  assert (Hstay : ∀ l, watched l → single l ∨ typed l) by (intros l []; by left).
  assert (Hdone : desk_ok m g ∧ any tt ∧ (single (apps_looks (g_apps g)) ∨ typed (apps_looks (g_apps g)))) by (split; [done|]; split; [done|]; by apply Hstay).
  rewrite (proj2 (Z.eqb_neq key GUI_KEY_F1) Hf1).
  destruct (key =? GUI_KEY_PAGE_UP). { u32_simp. apply wp_when; [|intros _; exact Hdone]. intros E. bool_to_prop. apply (scroll_at _ (λ l, single l ∨ typed l)); [done|by apply Hstay|fold t; lia]. }
  destruct (key =? GUI_KEY_PAGE_DOWN). { apply wp_when; [|intros _; exact Hdone]. intros E. bool_to_prop. u32_simp. apply (scroll_at _ (λ l, single l ∨ typed l)); [done|by apply Hstay|fold t; lia]. }
  destruct (key =? GUI_KEY_ARROW_UP). { apply (recall_keeps (-1) ltac:(lia) (λ l, single l ∨ typed l)); [done|by apply Hstay]. }
  destruct (key =? GUI_KEY_ARROW_DOWN). { apply (recall_keeps 1 ltac:(lia) (λ l, single l ∨ typed l)); [done|by apply Hstay]. }
  destruct (_ || _) eqn:Evis; [wp_step; exact Hdone|].
  assert (Hsh : shown (lk_terminal (apps_looks (g_apps g))) = true) by (unfold shown, is_open; cbn; fold t; by destruct (wopen (t_window t)), (bool_decide _)).
  refine (wp_mono _ _ _ _ (triple_bind m (λ l, watched l ∧ shown (lk_terminal l) = true) (on_terminal (terminal_focus z)) _ any typing any typed _ _ g Hg (conj Hl Hsh)) _).
  - apply (focus_window_triple m AppTerminal); [done|]. intros l [[_ ?] ?]. by split.
  - intros _ _. destruct (key =? 10); [by apply enter_triple|]. destruct (key =? 8).
    + apply keeps_typed, keeps_when. intros E. bool_to_prop. u32_simp. eapply keeps_bind; [apply command_len_keeps; lia|]. intros _ _. by apply write_keeps, byte_text.
    + apply keeps_typed, keeps_when. intros E. unfold COMMAND_SIZE in E. bool_to_prop. rewrite u32_small in * by (unfold is_u32; lia). apply type_keeps; lia.
  - intros [] g' (? & _ & ?). split; [done|]. split; [done|by right].
Qed.
End commands.
