(* ===== verification/Gui.v ===== *)
(** * The desktop, kernel/gui/core/gui.cpp: events

    What a key, a button of the mouse, its motion, its wheel and the clock do: launching
    programs, opening files from the explorer, clicks and double clicks, dragging and
    resizing windows. *)

From Stdlib Require Import ZArith Lia Bool String.
From stdpp Require Import base numbers list.
From S2P Require Import Prelude Keyboard Input Runtime Windows GuiKernel Notepad Terminal UtilityApps Memory Graphics Assets GuiState GuiApps GuiOverlay.

Section events.
Context {K : Type} `{GuiKernel K}.
Abbreviation G := (gui K).
Context (usermode_run_program : list Z → M G Z).

(** ** Programs *)

Definition app_path (app : AppId) : option (list Z) :=
  match app with
  | AppTerminal => Some (c_str "/apps/terminal.elf")
  | AppFiles => Some (c_str "/apps/file-explorer.elf")
  | AppMonitor => Some (c_str "/apps/system-monitor.elf")
  | AppAbout => Some (c_str "/apps/about.elf")
  | AppNotepad => Some (c_str "/apps/notepad.elf")
  | AppNone => None
  end.

Definition launch_app_elf (app : AppId) : M G bool :=
  match app_path app with
  | None => mret false
  | Some path => r ← usermode_run_program path; mret (r =? 0)
  end.

(** ** Files of the explorer *)

Definition file_name_looks_text (name : list Z) : option bool :=
  len ← kstrlen name;
  txt ← (if 4 <=? len then starts_with name (len - 4) (bytes_of ".txt") else Some false);
  if txt : bool then Some true
  else if 5 <=? len then starts_with name (len - 5) (bytes_of "/motd") else Some false.

Definition file_name_looks_executable (name : list Z) : option bool :=
  elf ← has_suffix name (c_str ".elf"); if elf : bool then Some true else has_suffix name (c_str ".mx").

Definition open_file_in_notepad (file_index : Z) : M G bool :=
  count ← on_kernel k_diskfs_file_count;
  if count <=? file_index then mret false
  else
    name ← on_kernel (k_diskfs_file_name file_index);
    m ← gets metrics;
    z ← next_z;
    ok ← on_notepad_os (notepad_open_file name m z);
    _ ← when ok (_ ← focus_app AppNotepad; mark_dirty);
    mret ok.

(** At most 4096 files; the count is asked for again in every round. *)
Definition open_first_text_file_in_notepad : M G bool :=
  iterate 4098 (λ i,
    n ← on_kernel k_diskfs_file_count;
    if i <? n then
      name ← on_kernel (k_diskfs_file_name i);
      text ← lift (file_name_looks_text name);
      if text : bool then ok ← open_file_in_notepad i; mret (inr ok) else mret (inl (i +% 1))
    else mret (inr false)) 0.

(** [has_suffix(path, s1) || has_suffix(path, s2) || ...] *)
Fixpoint has_any_suffix (path : list Z) (suffixes : list string) : option bool :=
  match suffixes with
  | [] => Some false
  | s :: suffixes => b ← has_suffix path (c_str s); if b : bool then Some true else has_any_suffix path suffixes
  end.
Definition gui_programs : list string :=
  ["/terminal.elf"; "/notepad.elf"; "/file-explorer.elf"; "/system-monitor.elf"; "/about.elf"]%string.

Definition launch_gui_program_if_supported (path : list Z) : M G bool :=
  supported ← lift (has_any_suffix path gui_programs);
  if supported : bool then r ← usermode_run_program path; mret (r =? 0) else mret false.

(** [path] is a pointer to an entry of the table of names of diskfs.c. The program that is
    launched first can write files, by which the table is made anew, so the entry is read
    again before it is run; no system call makes the table shorter. *)
Definition run_file_from_explorer (file_index : Z) : M G bool :=
  count ← on_kernel k_diskfs_file_count;
  if count <=? file_index then mret false
  else
    path ← on_kernel (k_diskfs_file_name file_index);
    text ← lift (file_name_looks_text path);
    if text : bool then open_file_in_notepad file_index
    else
      exe ← lift (file_name_looks_executable path);
      if exe : bool then
        launched ← launch_gui_program_if_supported path;
        if launched : bool then mret true
        else
          path ← on_kernel (k_diskfs_file_name file_index);
          m ← gets metrics;
          z ← next_z;
          _ ← terminal_open_window m z;
          _ ← focus_app AppTerminal;
          z ← next_z;
          _ ← run_program usermode_run_program path m z;
          _ ← mark_dirty;
          mret true
      else mret false.

(** A second click on the same row within DOUBLE_CLICK_TICKS opens the file. *)
Definition maybe_open_file_from_explorer (x y : Z) : M G unit :=
  u ← on_files (gets id);
  index ← on_kernel (file_index_at u x y);
  if index <? 0 then mret tt
  else
    now ← on_kernel k_timer_ticks;
    p ← gets g_pointer;
    if (now -% files_tick p <=? DOUBLE_CLICK_TICKS) && (files_index p =? index) then
      _ ← run_file_from_explorer index;
      on_pointer (λ p, set_files_tick 0 (set_files_index (-1) p))
    else
      _ ← on_pointer (λ p, set_files_tick now (set_files_index index p));
      mark_dirty.

(** ** The mouse *)

Definition window_for_app (a : apps) (app : AppId) : option Window :=
  match app with
  | AppTerminal => Some (t_window (terminal_ a))
  | AppFiles => Some (u_window (files_ a))
  | AppMonitor => Some (u_window (monitor_ a))
  | AppAbout => Some (u_window (about_ a))
  | AppNotepad => Some (np_window (notepad_ a))
  | AppNone => None
  end.
(** Writing through the pointer that window_for_app returns. *)
Definition write_window (app : AppId) (w : Window) : M G unit :=
  match app with
  | AppTerminal => on_terminal (term_window (λ _, w))
  | AppFiles => on_files (u_on_window (λ _, w))
  | AppMonitor => on_monitor (u_on_window (λ _, w))
  | AppAbout => on_about (u_on_window (λ _, w))
  | AppNotepad => on_notepad (on_window (λ _, w))
  | AppNone => mret tt
  end.

Definition press_at (x y : Z) : M G HitResult :=
  _ ← on_pointer (λ p, set_press_y y (set_press_x x p));
  hit ← hit_test x y;
  _ ← on_pointer (set_press_hit hit);
  mret hit.

Definition handle_left_press (x y : Z) : M G unit :=
  hit ← press_at x y;
  a ← gets g_apps;
  match window_for_app a (hit_app hit) with
  | None => mret tt
  | Some _ =>
      _ ← when (negb (bool_decide (hit_target hit = HitNone)))
            (_ ← focus_app (hit_app hit); _ ← modify (set_start_menu_open false); mark_dirty);
      a ← gets g_apps;
      match hit_target hit, window_for_app a (hit_app hit) with
      | HitWindowResize, Some _ => modify (λ g, set_wm (begin_resize (wm g)) g)
      | HitWindowTitlebar, Some w => s ← lift (begin_drag w x y); modify (set_wm s)
      | _, _ => mret tt
      end
  end.

(** A second click on a shortcut, soon and close to the first. *)
Definition close_in_space (p : pointer) (x y : Z) : option bool :=
  if icon_x p <? 0 then Some false
  else
    l ← checked (icon_x p - 4); r ← checked (icon_x p + 4); t ← checked (icon_y p - 4); b ← checked (icon_y p + 4);
    Some ((l <=? x) && (x <=? r) && (t <=? y) && (y <=? b)).

Definition click_icon (app : AppId) (x y : Z) : M G unit :=
  now ← on_kernel k_timer_ticks;
  p ← gets g_pointer;
  near ← lift (close_in_space p x y);
  _ ← (if (now -% icon_tick p <=? DOUBLE_CLICK_TICKS) && near then
         _ ← launch_app_elf app;
         on_pointer (λ p, set_icon_y (-1000) (set_icon_x (-1000) (set_icon_tick 0 p)))
       else
         _ ← on_pointer (λ p, set_icon_y y (set_icon_x x (set_icon_tick now p)));
         serial (c_line "MyOS GUI: desktop shortcut selected."));
  mark_dirty.

(** A click: the button went down and up on the same target. *)
Definition click (hit : HitResult) (x y : Z) : M G unit :=
  match hit_target hit with
  | HitWindowClose => close_app (hit_app hit)
  | HitWindowMaximize => toggle_maximize_app (hit_app hit)
  | HitWindowMinimize => minimize_app (hit_app hit)
  | HitWindowClient => when (bool_decide (hit_app hit = AppFiles)) (maybe_open_file_from_explorer x y)
  | HitStartButton =>
      _ ← modify (λ g, set_start_menu_open (negb (start_menu_open g)) g);
      _ ← mark_dirty;
      open ← gets start_menu_open;
      serial (if open : bool then c_line "MyOS GUI: Start menu opened." else c_line "MyOS GUI: Start menu closed.")
  | HitTaskButton => open_app (hit_app hit)
  | HitStartTerminal => _ ← launch_app_elf (hit_app hit); mark_dirty
  | HitStartShutdown => on_kernel k_power_shutdown
  | HitStartRestart => on_kernel k_power_restart
  | HitDesktopIcon => click_icon (hit_app hit) x y
  | HitDesktop => _ ← unfocus_all; _ ← modify (set_start_menu_open false); mark_dirty
  | _ => mret tt
  end.

Definition handle_left_release (x y : Z) : M G unit :=
  p ← gets g_pointer;
  _ ← when (bool_decide (hit_target (press_hit p) = HitNone)) (_ ← press_at x y; mret tt);
  hit ← hit_test x y;
  _ ← end_pointer;
  p ← gets g_pointer;
  matches ← lift (click_matches_press p x y);
  if negb matches || negb (bool_decide (hit_target hit = hit_target (press_hit p))) || negb (bool_decide (hit_app hit = hit_app (press_hit p)))
  then on_pointer (set_press_hit (MkHit HitNone AppNone))
  else click hit x y.

(** update_drag or update_resize of the pressed window, and both places of the window. *)
Definition move_window (app : AppId) (update : Window → option (Rect * Window)) : M G unit :=
  a ← gets g_apps;
  match window_for_app a app with
  | None => mret tt
  | Some w =>
      '(before, w) ← lift (update w);
      _ ← write_window app w;
      _ ← invalidate_rect before;
      invalidate_window w
  end.

Definition handle_mouse_drag (x y : Z) : M G unit :=
  p ← gets g_pointer;
  let app := hit_app (press_hit p) in
  m ← gets metrics;
  s ← gets wm;
  _ ← when (dragging s) (move_window app (λ w, update_drag s w x y m));
  s ← gets wm;
  when (resizing s) (move_window app (λ w, update_resize w x y m)).

(** ** Events *)

Definition handle_key (key : Z) : M G unit :=
  _ ← when (((32 <=? key) && (key <=? 126)) || (key =? 8) || (key =? 10))
        (now ← on_kernel k_timer_ticks; modify (set_cursor_text_until (now +% 80)));
  if key =? GUI_KEY_F1 then _ ← launch_app_elf AppTerminal; mark_dirty
  else if key =? GUI_KEY_F2 then _ ← launch_app_elf AppFiles; mark_dirty
  else if key =? GUI_KEY_F3 then _ ← launch_app_elf AppMonitor; mark_dirty
  else if key =? GUI_KEY_F4 then _ ← launch_app_elf AppAbout; mark_dirty
  else if key =? GUI_KEY_F5 then _ ← launch_app_elf AppFiles; _ ← open_first_text_file_in_notepad; mret tt
  else
    n ← on_notepad (gets np_window);
    if wopen n && wfocused n then _ ← on_notepad_os (notepad_handle_key key); mark_dirty
    else
      m ← gets metrics;
      z ← next_z;
      _ ← terminal_handle_key usermode_run_program key m z;
      t ← on_terminal (gets t_window);
      _ ← when (visible t)
            (_ ← on_files (u_on_window (set_focused false));
             _ ← on_monitor (u_on_window (set_focused false));
             on_about (u_on_window (set_focused false)));
      mark_dirty.

Definition handle_scroll (wheel_delta : Z) : M G unit :=
  t ← on_terminal (gets t_window);
  _ ← when (wopen t && wfocused t) (on_terminal (scroll (if 0 <? wheel_delta then -1 else 1)));
  mark_dirty.

Definition count_event : M G unit := modify (λ g, set_input_events (input_events g +% 1) g).

Definition handle_event (event : gui_event) : M G unit :=
  match ev_type event with
  | GUI_EVENT_KEY => _ ← count_event; when (ev_pressed event) (handle_key (ev_key event))
  | GUI_EVENT_MOUSE_SCROLL => _ ← count_event; handle_scroll (ev_wheel_delta event)
  | GUI_EVENT_MOUSE_BUTTON =>
      _ ← count_event;
      if ev_pressed event then handle_left_press (ev_x event) (ev_y event) else handle_left_release (ev_x event) (ev_y event)
  | GUI_EVENT_MOUSE_MOVE =>
      _ ← count_event;
      _ ← when (ev_pressed event) (handle_mouse_drag (ev_x event) (ev_y event));
      screen ← on_gfx graphics_primary_surface_mut;
      redraw_cursor_overlay screen false
  | GUI_EVENT_TIMER_TICK => mark_dirty
  | GUI_EVENT_NONE => mret tt
  end.
End events.
