(* ===== verification/GuiProps.v ===== *)
(** * The desktop: properties

    The desktop handles every event and stays in order; where a click goes. *)

From Stdlib Require Import ZArith Lia Bool String.
From stdpp Require Import base numbers list.
From S2P Require Import Prelude Keyboard Input Runtime Windows GuiKernel Notepad Terminal UtilityApps Memory Graphics GraphicsPaint Assets GuiState GuiApps GuiOverlay Gui GuiSafe GuiSafeApps GuiSafeCommands.

(** ** What the pointer points to *)

Lemma first_hit_ok l x y : Forall (λ p, is_i32 (rx p.1 + rw p.1) ∧ is_i32 (ry p.1 + rh p.1)) l → returns (first_hit l x y) (λ r,
  match r with Some h => ∃ i r, l !! i = Some (r, h) ∧ in_rect r x y ∧ ∀ j p, (j < i)%nat → l !! j = Some p → ¬ in_rect p.1 x y | None => ∀ p, p ∈ l → ¬ in_rect p.1 x y end).
Proof.
  induction 1 as [|[r h] l [Hw Hh] Hl IH]; [by apply returns_ret; intros p Hp%not_elem_of_nil|]. cbn in *. rewrite contains_ok by done. cbn. case_bool_decide as Hin.
  - apply returns_ret. exists 0%nat, r. split; [done|]. split; [done|]. lia.
  - destruct IH as ([h'|] & -> & IH); apply returns_ret.
    + destruct IH as (i & r' & Hi & Hin' & Hb). exists (S i), r'. split; [done|]. split; [done|]. intros [|j] p Hj Hp; [by injection Hp as <-|]. apply (Hb j); [lia|done].
    + intros p [->|Hp]%elem_of_cons; [done|by apply IH].
Qed.

(** The window that is hit: one with the largest z under the pointer. *)
Definition covers (w : Window) (x y : Z) : Prop := visible w = true ∧ in_rect (win_rect w) x y.

Lemma best_window_ok m ws x y : metrics_ok m → Forall (λ p, window_ok m p.1 ∧ wz p.1 < 2147483648 ∧ p.2 ≠ AppNone) ws →
  ∀ best area0 app0, -1 ≤ best → (app0 = AppNone ↔ best = -1) → returns (best_window ws x y best area0 app0) (λ r,
    (r = (area0, app0) ∧ ∀ p, p ∈ ws → covers p.1 x y → wz p.1 ≤ best) ∨
    (∃ w, (w, snd r) ∈ ws ∧ fst r = area w x y ∧ covers w x y ∧ best < wz w ∧ ∀ p, p ∈ ws → covers p.1 x y → wz p.1 ≤ wz w)).
Proof.
  intros Hm Hws. induction Hws as [|[w a] ws [Hw [Hz Ha]] Hws IH]; intros best area0 app0 Hb Happ.
  { apply returns_ret. left. split; [done|]. by intros p Hp%not_elem_of_nil. }
  cbn in Hw, Hz, Ha. cbn [best_window]. rewrite (hit_window_ok m w x y Hm Hw). cbn [mbind option_bind]. pose proof (wo_z _ _ Hw) as Hz0. unfold is_u32 in Hz0. rewrite (i32_small (wz w)) by (unfold is_i32; lia).
  destruct (_ && _) eqn:E.
  - apply andb_true_iff in E as [E1%negb_true_iff%bool_decide_eq_false_1 E2%Z.ltb_lt]. apply area_inside in E1. destruct (IH (wz w) (area w x y) a ltac:(lia)) as (r & -> & Hr); [split; [done|lia]|].
    apply returns_ret. right. destruct Hr as [[-> Hmax]|(w' & Hin & Ea & Hc & Hlt & Hmax)].
    + exists w. split; [by left|]. split; [done|]. split; [done|]. split; [done|]. intros p [->|Hp]%elem_of_cons Hcp; [cbn; lia|by apply Hmax].
    + exists w'. split; [by right|]. split; [done|]. split; [done|]. split; [lia|]. intros p [->|Hp]%elem_of_cons Hcp; [cbn; lia|by apply Hmax].
  - destruct (IH best area0 app0 Hb Happ) as (r & -> & Hr). apply returns_ret.
    assert (Hno : covers w x y → wz w ≤ best).
    { intros Hc. apply area_inside in Hc. rewrite bool_decide_eq_false_2 in E by done. cbn in E. apply Z.ltb_ge in E. lia. }
    destruct Hr as [[-> Hmax]|(w' & Hin & Ea & Hc & Hlt & Hmax)]; [left|right].
    + split; [done|]. intros p [->|Hp]%elem_of_cons Hcp; [by apply Hno|by apply Hmax].
    + exists w'. split; [by right|]. split; [done|]. split; [done|]. split; [done|]. intros p [->|Hp]%elem_of_cons Hcp; [|by apply Hmax]. cbn in *. specialize (Hno Hcp). lia.
Qed.

Lemma best_window_returns m ws x y : metrics_ok m → Forall (λ p, window_ok m p.1) ws → ∀ best area0 app0, returns (best_window ws x y best area0 app0) any.
Proof.
  intros Hm Hws. induction Hws as [|[w a] ws Hw Hws IH]; intros best area0 app0; [by apply returns_ret|]. cbn [best_window]. rewrite (hit_window_ok m w x y Hm Hw). cbn [mbind option_bind]. destruct (_ && _); apply IH.
Qed.

Lemma windows_ok m a : apps_ok m a → Forall (λ p, window_ok m p.1) (windows a).
Proof. intros [[hs Ht] ? ? ? (l & r & Hn)]. unfold windows. repeat apply Forall_cons_2; cbn; [apply Ht|done|done|done|apply Hn|by apply Forall_nil_2]. Qed.

(** The rectangles of the task bar, the menu and the icons. *)
Definition small_rects (l : list (Rect * HitResult)) : Prop := Forall (λ p, is_i32 (rx p.1 + rw p.1) ∧ is_i32 (ry p.1 + rh p.1)) l.

Ltac rects := repeat (apply Forall_cons_2; [cbn; unfold is_i32; lia|]); apply Forall_nil_2.
Lemma task_button_ok m x w : metrics_ok m → task_button m x w = Some (MkRect x (m_height m - taskbar_h m + 4) w (taskbar_h m - 8)).
Proof. intros []. unfold task_button. i32_simp. done. Qed.
Lemma task_buttons_ok m a : metrics_ok m → returns (task_buttons m a) small_rects.
Proof.
  intros Hm. unfold task_buttons. rewrite !task_button_ok by done. cbn [mbind option_bind]. apply returns_ret. destruct Hm.
  unfold small_rects, START_BUTTON_W, TASK_BUTTON_X, TASK_BUTTON_W. repeat case_match; cbn [app]; rects.
Qed.
Lemma start_menu_ok m : metrics_ok m → ∃ y w h, start_menu_rect m = Some (MkRect 4 y w h) ∧ 0 ≤ y ≤ 16384 ∧ 126 ≤ w ≤ 184 ∧ 108 ≤ h ≤ 150 ∧ y + h + 2 = m_height m - taskbar_h m.
Proof.
  intros []. unfold start_menu_rect. set (h := if 480 <=? m_height m then 150 else 108). set (w := if 640 <=? m_width m then 184 else 126).
  assert (108 ≤ h ≤ 150 ∧ h + 2 ≤ m_height m - taskbar_h m) by (unfold h; destruct (Z.leb_spec 480 (m_height m)); lia). assert (126 ≤ w ≤ 184) by (unfold w; destruct (Z.leb_spec 640 (m_width m)); lia).
  clearbody h w. cbv zeta. rewrite !i32_small by (unfold is_i32; lia). rewrite (checked_ok (m_height m - taskbar_h m)) by (unfold is_i32; lia). cbn [mbind option_bind].
  rewrite checked_ok by (unfold is_i32; lia). cbn [mbind option_bind]. rewrite checked_ok by (unfold is_i32; lia). cbn [mbind option_bind]. eexists _, _, _. split; [done|]. lia.
Qed.
Lemma menu_item_ok y w h dy : 0 ≤ y ≤ 16384 → 126 ≤ w ≤ 184 → 0 ≤ dy ≤ 100 → menu_item (MkRect 4 y w h) dy = Some (MkRect 32 (y + dy) (w - 32) 18).
Proof. intros. unfold menu_item. cbn. rewrite (checked_ok (y + dy)) by (unfold is_i32; lia). cbn. rewrite checked_ok by (unfold is_i32; lia). done. Qed.
Lemma menu_items_ok m : metrics_ok m → returns (menu_items m) small_rects.
Proof.
  intros Hm. unfold menu_items. destruct (start_menu_ok m Hm) as (y & w & h & -> & Hy & Hw & Hh & _). cbn [mbind option_bind]. rewrite !menu_item_ok by lia. cbn [mbind option_bind]. apply returns_ret.
  unfold small_rects. rects.
Qed.
Lemma icons_ok : small_rects icons.
Proof. unfold small_rects, icons, ICON_X, ICON_Y, ICON_W, ICON_H. rects. Qed.

Lemma menu_or_none m (b : bool) : metrics_ok m → returns (if b then menu_items m else Some []) small_rects.
Proof. intros Hm. destruct b; [by apply menu_items_ok|by apply returns_ret; constructor]. Qed.

Lemma hit_test_returns m a menu x y : metrics_ok m → apps_ok m a → returns (hit_test_on m a menu x y) any.
Proof.
  intros Hm Ha. unfold hit_test_on. destruct (best_window_returns m (windows a) x y Hm (windows_ok _ _ Ha) (-1) AreaNone AppNone) as (best & -> & _). cbn [mbind option_bind].
  destruct (negb _); [by apply returns_ret|]. destruct (task_buttons_ok m a Hm) as (bs & -> & Hbs). cbn [mbind option_bind]. destruct (menu_or_none m menu Hm) as (items & -> & Hit). cbn [mbind option_bind].
  destruct (first_hit_ok (bs ++ items ++ icons) x y) as (r & -> & _); [apply Forall_app; split; [done|]; apply Forall_app; split; [done|apply icons_ok]|]. by apply returns_ret.
Qed.

(** C27. A click goes to the topmost window: hit_test answers with a visible window under
    the pointer of the largest z, and the part of it that is there; where no window is,
    with the first button of the task bar, item of the open menu or shortcut that
    contains the point, in this order, and otherwise with the desktop. No coordinate
    overflows. *)
Theorem hit_test_topmost m a menu x y : metrics_ok m → apps_ok m a → Forall (λ p, wz p.1 < 2147483648) (windows a) →
  ∃ h, hit_test_on m a menu x y = Some h ∧
    ((∃ w, (w, hit_app h) ∈ windows a ∧ covers w x y ∧ hit_target h = target_from_window_area (area w x y) ∧ ∀ p, p ∈ windows a → covers p.1 x y → wz p.1 ≤ wz w) ∨
     ((∀ p, p ∈ windows a → ¬ covers p.1 x y) ∧ ∃ buttons items, task_buttons m a = Some buttons ∧ (if menu then menu_items m else Some []) = Some items ∧
       let places := buttons ++ items ++ icons in
       ((∃ i r, places !! i = Some (r, h) ∧ in_rect r x y ∧ ∀ j p, (j < i)%nat → places !! j = Some p → ¬ in_rect p.1 x y) ∨
        (h = MkHit HitDesktop AppNone ∧ ∀ p, p ∈ places → ¬ in_rect p.1 x y)))).
Proof.
  intros Hm Ha Hz. unfold hit_test_on. pose proof (windows_ok _ _ Ha) as Hw.
  assert (Hws : Forall (λ p, window_ok m p.1 ∧ wz p.1 < 2147483648 ∧ p.2 ≠ AppNone) (windows a)).
  { apply Forall_forall. intros p Hp. rewrite Forall_forall in Hw, Hz. split; [by apply Hw|]. split; [by apply Hz|]. unfold windows in Hp. repeat (apply elem_of_cons in Hp as [->|Hp]; [done|]). by apply not_elem_of_nil in Hp. }
  destruct (best_window_ok m (windows a) x y Hm Hws (-1) AreaNone AppNone) as ([ar app0] & -> & Hr); [lia|done|]. cbn [mbind option_bind fst snd].
  destruct Hr as [[E Hnone]|(w & Hin & Ear & Hc & Hlt & Hmax)].
  - injection E as -> ->. cbn. destruct (task_buttons_ok m a Hm) as (bs & -> & Hbs). destruct (menu_or_none m menu Hm) as (items & -> & Hit). cbn [mbind option_bind].
    destruct (first_hit_ok (bs ++ items ++ icons) x y) as (r & -> & Hr); [apply Forall_app; split; [done|]; apply Forall_app; split; [done|apply icons_ok]|]. cbn [mbind option_bind]. eexists. split; [done|]. right.
    split; [intros p Hp Hcp; specialize (Hnone p Hp Hcp); rewrite Forall_forall in Hw; destruct (wo_z _ _ (Hw p Hp)); lia|]. exists bs, items. split; [done|]. split; [done|]. cbn zeta. destruct r; [by left|by right].
  - cbn [fst snd] in *. subst ar. rewrite Forall_forall in Hws. destruct (Hws _ Hin) as (_ & _ & Hne). cbn in Hne. rewrite bool_decide_eq_false_2 by done. cbn [negb]. eexists. split; [done|]. left. exists w. done.
Qed.

(** ** Events *)

Section events.
Context {K : Type} `{GuiKernelLaws K} (m : Metrics) (Hm : metrics_ok m).
Abbreviation G := (gui K).
Implicit Types g : G.
Abbreviation triple := (triple m).
Abbreviation keeps := (keeps m).
Abbreviation any := GuiSafe.any.
Context (usermode_run_program : list Z → M G Z) (Hrun : programs_end m usermode_run_program).

Lemma single_opens app l l' : single l → opens app l l' → single l'.
Proof. intros _ [Ho _]. by exists app. Qed.

Lemma launch_triple app : triple single (launch_app_elf usermode_run_program app) any single.
Proof.
  unfold launch_app_elf. destruct (app_path app) as [path|] eqn:E; [|by apply triple_ret]. assert (is_text path) by (destruct app; try done; injection E as <-; by apply c_str_text).
  eapply keeps_then; [apply run_triple; [exact Hm|exact Hrun|done|apply single_opens]|]. intros r _. by apply keeps_ret.
Qed.
Lemma launch_then_dirty app : triple single (_ ← launch_app_elf usermode_run_program app; mark_dirty) any single.
Proof. eapply keeps_then; [apply launch_triple|]. intros _ _. apply mark_dirty_keeps. Qed.

(** ** Files *)

Lemma suffix_returns name s : is_text name → plain s = true → returns (has_suffix name (c_str s)) any.
Proof.
  intros (n & Hn & Hl) Hs. destruct (has_suffix_spec name n (c_str s) (bytes_of s) Hn) as (b & E & _); [by apply text_in_app, bytes_plain|lia|]. exists b. done.
Qed.
Lemma bytes_nonzero s : plain s = true → Forall (λ c, c ≠ 0) (bytes_of s).
Proof. intros Hs. eapply Forall_impl; [by apply bytes_plain|]. cbn. lia. Qed.
Lemma looks_text_returns name : is_text name → returns (file_name_looks_text name) any.
Proof.
  intros (n & Hn & Hl). unfold file_name_looks_text. rewrite (kstrlen_text _ _ Hn). cbn [mbind option_bind].
  assert (Hw : ∀ s k, plain s = true → returns (if k <=? Z.of_nat (length n) then starts_with name (Z.of_nat (length n) - k) (bytes_of s) else Some false) any ∨ k < 0).
  { intros s k Hs. destruct (decide (k < 0)); [by right|left]. destruct (Z.leb_spec k (Z.of_nat (length n))); [|by apply returns_ret].
    destruct (starts_with_ok name n (bytes_of s) Hn (bytes_nonzero s Hs) (Z.of_nat (length n) - k)) as (b & E & _); [lia|]. by exists b. }
  destruct (Hw ".txt"%string 4 eq_refl) as [(b & -> & _)|]; [|lia]. cbn [mbind option_bind]. destruct b; [by apply returns_ret|]. destruct (Hw "/motd"%string 5 eq_refl) as [|]; [done|lia].
Qed.
Lemma looks_executable_returns name : is_text name → returns (file_name_looks_executable name) any.
Proof.
  intros Hn. unfold file_name_looks_executable. destruct (suffix_returns name ".elf" Hn eq_refl) as (b & -> & _). cbn. destruct b; [by apply returns_ret|by apply suffix_returns].
Qed.
Lemma any_suffix_returns name l : is_text name → forallb plain l = true → returns (has_any_suffix name l) any.
Proof.
  intros Hn. induction l as [|s l IH]; intros Hl; [by apply returns_ret|]. cbn in Hl. apply andb_true_iff in Hl as [Hs Hl]. cbn [has_any_suffix]. destruct (suffix_returns name s Hn Hs) as (b & -> & _). cbn. destruct b; [by apply returns_ret|by apply IH].
Qed.

Lemma count_keeps : keeps (on_kernel k_diskfs_file_count) (λ n, 0 ≤ n ≤ 4096).
Proof. apply quiet_keeps, file_count_quiet. Qed.
Lemma name_keeps i : is_u32 i → keeps (on_kernel (k_diskfs_file_name i)) is_text.
Proof. intros Hi. by apply quiet_keeps, file_name_quiet. Qed.

Lemma open_file_triple i : is_u32 i → triple single (open_file_in_notepad i) any single.
Proof.
  intros Hi. unfold open_file_in_notepad. eapply triple_keeps; [apply count_keeps|]. intros n _. destruct (n <=? i); [by apply triple_ret|].
  eapply triple_keeps; [by apply name_keeps|]. intros name (str & Hstr & _). eapply triple_keeps; [apply metrics_keeps|]. intros m' ->. eapply triple_keeps; [apply next_z_keeps|]. intros z Hz.
  intros g Hg Hl. wp_step. pose proof Hg as [Em [? ? ? ? (l & r & Hn)] Hk ? ? ? ? ?]. apply wp_zoom. eapply wp_mono; [apply (open_file_wp m z name str (NotepadOn (notepad_ (g_apps g)) (kern g)) l r); [exact Hm|done|exact Hn|exact Hk|done]|].
  intros ok s' ([Hk' _] & _ & Hok). cbn [np_app np_world] in Hok. match goal with |- wp _ _ ?g2 => set (g1 := g2) end.
  assert (Hg1 : desk_ok m g1). { split; try done. split; try done. cbn. destruct ok; [destruct Hok as (c & ? & _); by exists c, []|destruct Hok as [-> _]; by exists l, r]. }
  destruct ok; cbn [when].
  - refine (triple_bind m (λ _, True) _ _ any single any single _ _ g1 Hg1 I).
    + eapply (triple_bind m _ _ _ any single); [apply focus_app_triple; intros l0 _; exists AppNotepad; apply focused_on_owner|]. intros _ _. apply mark_dirty_keeps.
    + intros _ _. by apply triple_ret.
  - wp_steps. split; [done|]. split; [done|]. destruct Hok as [En _]. unfold g1, apps_looks. cbn. by rewrite En.
Qed.

Lemma open_first_triple : triple single open_first_text_file_in_notepad any single.
Proof.
  intros g Hg Hl. apply (wp_iterate _ _ (λ i g, (0 ≤ i ≤ 4096) ∧ desk_ok m g ∧ single (apps_looks (g_apps g))) (λ i, Z.to_nat (4097 - i))); [vm_compute; lia|split; [lia|done]|].
  clear g Hg Hl. intros i g (Hi & Hg & Hl). assert (Hu : is_u32 i) by (unfold is_u32; lia).
  refine (wp_mono _ _ _ _ (triple_keeps m single _ _ _ (λ r, match r with inl j => j = i + 1 ∧ i < 4096 | inr _ => True end) single count_keeps _ g Hg Hl) _).
  - intros n Hn. destruct (Z.ltb_spec i n); [|by apply triple_ret]. rewrite (u32_small (i + 1)) by (unfold is_u32; lia).
    eapply triple_keeps; [by apply name_keeps|]. intros name Hname. eapply triple_keeps; [by apply keeps_lift, looks_text_returns|]. intros [] _; [|apply triple_ret; lia].
    eapply keeps_then; [by apply open_file_triple|]. intros ok _. by apply keeps_ret.
  - intros [j|b] g' (Hg' & Hj & Hl'); [|done]. destruct Hj as [-> ?]. split; [split; [lia|done]|lia].
Qed.

Lemma run_file_triple i : is_u32 i → triple single (run_file_from_explorer usermode_run_program i) any single.
Proof.
  intros Hi. unfold run_file_from_explorer. eapply triple_keeps; [apply count_keeps|]. intros n _. destruct (n <=? i); [by apply triple_ret|]. eapply triple_keeps; [by apply name_keeps|]. intros path Hp.
  eapply triple_keeps; [by apply keeps_lift, looks_text_returns|]. intros [] _; [by apply open_file_triple|]. eapply triple_keeps; [by apply keeps_lift, looks_executable_returns|]. intros [] _; [|by apply triple_ret].
  eapply (triple_bind m _ _ _ any single).
  - eapply triple_keeps; [apply keeps_lift, any_suffix_returns; [done|reflexivity]|]. intros [] _; [|by apply triple_ret]. eapply keeps_then; [apply run_triple; [exact Hm|exact Hrun|done|apply single_opens]|]. intros r _. by apply keeps_ret.
  - intros [] _; [by apply triple_ret|]. eapply triple_keeps; [by apply name_keeps|]. intros path' Hp'. eapply triple_keeps; [apply metrics_keeps|]. intros m' ->. eapply triple_keeps; [apply next_z_keeps|]. intros z Hz.
    eapply (triple_bind m _ _ _ any (λ _, True)); [by apply terminal_open_window_triple|]. intros _ _.
    eapply (triple_bind m _ _ _ any (owned_by AppTerminal)); [apply focus_app_triple; intros l _; apply focused_on_owner|]. intros _ _. eapply triple_keeps; [apply next_z_keeps|]. intros z' Hz'.
    eapply keeps_then; [apply run_program_triple; [exact Hm|exact Hrun|done| |apply single_opens]|].
    + apply terminal_open_window_triple; [done|done|]. intros l Ho. exists AppTerminal. intros a Ha. destruct (decide (a = AppTerminal)); [done|]. apply Ho. by destruct a.
    + intros _ _. eapply keeps_bind; [apply mark_dirty_keeps|]. intros _ _. by apply keeps_ret.
Qed.

Lemma row_keeps u x y : window_ok m (u_window u) → keeps (on_kernel (file_index_at u x y)) (λ i, -1 ≤ i < 4096).
Proof.
  intros Hw. apply kernel_keeps. intros k Hk. unfold file_index_at. destruct (_ || _); [wp_step; split; [by apply goes_on_refl|lia]|]. wp_step. eapply wp_mono; [by apply file_count_quiet|].
  intros n k' [[Hgo _] Hn]. destruct (row_at_ok m (u_window u) n x y Hm Hw Hn) as (i & E & Hi). eapply wp_lift; [exact E|]. split; [done|]. lia.
Qed.

Lemma explorer_click_triple x y : triple single (maybe_open_file_from_explorer usermode_run_program x y) any single.
Proof.
  unfold maybe_open_file_from_explorer. eapply (triple_keeps m _ _ _ (λ u, window_ok m (u_window u))).
  { intros P g Hg Hl. apply read_files. split; [done|]. split; [apply (ak_files _ _ (dk_apps _ _ Hg))|done]. }
  intros u Hu. eapply triple_keeps; [by apply row_keeps|]. intros i Hi. cbn in Hi. destruct (Z.ltb_spec i 0); [by apply triple_ret|].
  eapply triple_keeps; [apply quiet_keeps, ticks_quiet|]. intros now _. eapply triple_keeps; [apply pointer_keeps|]. intros p _. destruct (_ && _).
  - eapply keeps_then; [apply run_file_triple; unfold is_u32; lia|]. intros _ _. apply on_pointer_keeps. by intros q [].
  - eapply triple_keeps; [apply on_pointer_keeps; by intros q []|]. intros _ _. apply mark_dirty_keeps.
Qed.

(** ** The mouse *)

Lemma press_keeps x y : on_screen m x y → keeps (press_at x y) any.
Proof.
  intros [Hx Hy]. pose proof Hm as [? ? _ _]. eapply keeps_bind; [apply on_pointer_keeps; intros p []; split; cbn; lia|]. intros _ _.
  eapply (keeps_bind m _ _ any); [|intros hit _; eapply keeps_bind; [apply on_pointer_keeps; by intros p []|intros _ _; by apply keeps_ret]].
  intros P g Hg Hl. unfold hit_test. wp_step. apply wp_gets. unfold id. destruct (hit_test_returns m (g_apps g) (start_menu_open g) x y Hm (dk_apps _ _ Hg)) as (h & E & _).
  rewrite (dk_metrics _ _ Hg). eapply wp_lift; [exact E|]. done.
Qed.
Lemma hit_keeps x y : keeps (hit_test x y) any.
Proof.
  intros P g Hg Hl. unfold hit_test. wp_step. apply wp_gets. unfold id. destruct (hit_test_returns m (g_apps g) (start_menu_open g) x y Hm (dk_apps _ _ Hg)) as (h & E & _).
  rewrite (dk_metrics _ _ Hg). eapply wp_lift; [exact E|]. done.
Qed.

Lemma window_of_app a app w : apps_ok m a → window_for_app a app = Some w → window_ok m w.
Proof. intros [[hs Ht] ? ? ? (l & r & Hn)] E. destruct app; try done; injection E as <-; try done; [apply Ht|apply Hn]. Qed.
Lemma window_look a app w : window_for_app a app = Some w → look_of w = app_look (apps_looks a) app.
Proof. destruct app; [done|..]; by injection 1 as <-. Qed.

Lemma press_triple x y : on_screen m x y → triple single (handle_left_press x y) any single.
Proof.
  intros Hxy. eapply triple_keeps; [by apply press_keeps|]. intros hit _. eapply (triple_keeps m _ _ _ any); [by apply keeps_gets|]. intros a0 _. destruct (window_for_app a0 _) as [_|]; [|by apply triple_ret].
  eapply (triple_bind m _ _ _ any single).
  { apply triple_when. intros _. eapply keeps_then; [apply focus_app_triple; intros l _; eexists; apply focused_on_owner|]. intros _ _. eapply keeps_bind; [apply menu_keeps|]. intros _ _. apply mark_dirty_keeps. }
  intros _ _. eapply (triple_keeps m _ _ _ (apps_ok m)); [apply keeps_gets; by intros g []|]. intros a Ha. destruct (window_for_app a (hit_app hit)) as [w|] eqn:Ew; [|destruct (hit_target hit); by apply triple_ret].
  pose proof (window_of_app _ _ _ Ha Ew) as Hw. destruct (hit_target hit); try by apply triple_ret.
  - destruct (begin_drag_ok m w x y Hm Hw Hxy) as (s & E & _ & Hs). eapply (triple_keeps m _ _ _ (λ s', s' = s)); [apply keeps_lift; rewrite E; by apply returns_ret|]. intros ? ->. by apply (wm_modify_keeps m (λ _, s)).
  - apply wm_modify_keeps. by intros s [].
Qed.

Lemma matches_keeps p x y : pointer_ok p → returns (click_matches_press p x y) any.
Proof. intros []. unfold click_matches_press, CLICK_SLOP. do 8 ret_step. by apply returns_ret. Qed.
Lemma near_keeps p x y : pointer_ok p → returns (close_in_space p x y) any.
Proof. intros []. unfold close_in_space. destruct (_ <? 0); [by apply returns_ret|]. do 8 ret_step. by apply returns_ret. Qed.

Lemma icon_triple app x y : on_screen m x y → triple single (click_icon usermode_run_program app x y) any single.
Proof.
  intros [Hx Hy]. pose proof Hm as [? ? _ _]. unfold click_icon. eapply triple_keeps; [apply quiet_keeps, ticks_quiet|]. intros now _. eapply triple_keeps; [apply pointer_keeps|]. intros p Hp.
  eapply triple_keeps; [by apply keeps_lift, near_keeps|]. intros near _. eapply (keeps_then m _ _ _ any); [|intros _ _; apply mark_dirty_keeps]. destruct (_ && _).
  - eapply keeps_then; [apply launch_triple|]. intros _ _. apply on_pointer_keeps. intros q []. split; cbn; lia.
  - eapply triple_keeps; [apply on_pointer_keeps; intros q []; split; cbn; lia|]. intros _ _. by apply serial_keeps, c_line_text.
Qed.

Lemma click_triple hit x y : on_screen m x y → triple single (click usermode_run_program hit x y) any single.
Proof.
  intros Hxy. unfold click. destruct (hit_target hit); try by apply triple_ret.
  - eapply (triple_bind m _ _ _ any single); [apply unfocus_all_triple; intros l _; exists AppNone; intros a; by destruct a|]. intros _ _. eapply keeps_bind; [apply menu_keeps|]. intros _ _. apply mark_dirty_keeps.
  - by apply icon_triple.
  - eapply triple_keeps; [apply (menu_keeps_f m negb)|]. intros _ _. eapply triple_keeps; [apply mark_dirty_keeps|]. intros _ _. eapply (triple_keeps m _ _ _ any); [by apply keeps_gets|]. intros [] _; by apply serial_keeps, c_line_text.
  - apply launch_then_dirty.
  - apply (kernel_keeps m _ _ (quiet_total _ _ shutdown_reaches_halt)).
  - apply (kernel_keeps m _ _ (quiet_total _ _ restart_reaches_halt)).
  - eapply triple_mono; [by apply open_app_triple|intros l E; exact E|done|]. intros l' (l & _ & Ho & _). by exists (hit_app hit).
  - apply triple_when. intros _. apply explorer_click_triple.
  - apply minimize_app_triple.
  - by apply toggle_maximize_app_triple.
  - apply close_app_triple.
Qed.

Lemma release_triple x y : on_screen m x y → triple single (handle_left_release usermode_run_program x y) any single.
Proof.
  intros Hxy. eapply triple_keeps; [apply pointer_keeps|]. intros p _. eapply (triple_keeps m _ _ _ any).
  { apply keeps_when. intros _. eapply keeps_bind; [by apply press_keeps|]. intros _ _. by apply keeps_ret. }
  intros _ _. eapply triple_keeps; [apply hit_keeps|]. intros hit _. eapply triple_keeps; [apply end_pointer_keeps|]. intros _ _. eapply triple_keeps; [apply pointer_keeps|]. intros q Hq.
  eapply triple_keeps; [by apply keeps_lift, matches_keeps|]. intros b _. destruct (_ || _ || _); [apply on_pointer_keeps; by intros r []|by apply click_triple].
Qed.

(** ** Dragging and resizing *)

Lemma join_ok a b : dirty_ok m a → dirty_ok m b → returns (join a b) (dirty_ok m).
Proof.
  intros (? & ? & ? & ? & ? & ?) (? & ? & ? & ? & ? & ?). destruct Hm. unfold join, min_i32, max_i32. cbv zeta. do 8 ret_step.
  unfold dirty_ok. destruct (Z.ltb_spec (rx a) (rx b)), (Z.ltb_spec (ry a) (ry b)), (Z.ltb_spec (rx b + rw b) (rx a + rw a)), (Z.ltb_spec (ry b + rh b) (ry a + rh a));
    repeat (apply returns_bind, returns_checked; [unfold is_i32; lia|]); apply returns_ret; cbn; lia.
Qed.

Lemma invalidate_keeps r : -16384 ≤ rx r ≤ 16384 → -16384 ≤ ry r ≤ 16384 → 0 ≤ rw r ≤ 16384 → 0 ≤ rh r ≤ 16384 → keeps (invalidate_rect r) any.
Proof.
  intros Hx Hy Hw Hh. unfold invalidate_rect. destruct (rect_empty r); [by apply keeps_ret|]. eapply keeps_bind; [apply metrics_keeps|]. intros m' ->.
  eapply (keeps_bind m _ _ (λ c, match c with Some c => rect_empty c = false → dirty_ok m c | None => True end)).
  { apply keeps_lift. rewrite clip_ok by (done || lia). apply returns_ret. destruct (_ || _) eqn:E; [done|]. bool_to_prop. unfold rect_empty, dirty_ok, cut. cbn. intros Ee. bool_to_prop. destruct Hm. lia. }
  intros [c|] Hc; [|by apply keeps_ret]. destruct (rect_empty c); [by apply keeps_ret|]. specialize (Hc eq_refl).
  eapply (keeps_bind m _ _ (λ p, dirty_ok m (dirty_rect p))); [apply keeps_gets; by intros g []|]. intros p Hp.
  eapply (keeps_bind m _ _ (dirty_ok m)); [destruct (_ || _); [by apply keeps_ret|by apply keeps_lift, join_ok]|]. intros d Hd.
  apply keeps_modify; [done|]. intros g []. by split.
Qed.
Lemma window_rect_keeps w : window_ok m w → keeps (invalidate_rect (win_rect w)) any.
Proof. intros [[] _ _ _]. destruct Hm. cbn in *. apply invalidate_keeps; cbn; lia. Qed.

Lemma move_window_keeps app update : (∀ w, window_ok m w → ∃ w', update w = Some (win_rect w, w') ∧ window_ok m w' ∧ look_of w' = look_of w) → keeps (move_window app update) any.
Proof.
  intros Hu P g Hg Hl. unfold move_window. wp_step. apply wp_gets. destruct (window_for_app (g_apps g) app) as [w|] eqn:Ew; [|by wp_step].
  pose proof (window_of_app _ _ _ (dk_apps _ _ Hg) Ew) as Hw. pose proof (window_look _ _ _ Ew) as El. destruct (Hu w Hw) as (w' & Eu & Hw' & El').
  wp_step. eapply wp_lift; [exact Eu|]. refine (triple_bind m (λ l, P l ∧ look_of w = app_look l app) (write_window app w') _ any P any P _ _ g Hg (conj Hl El)).
  - apply (window_triple m app (λ _, w') (λ _, look_of w')); [done|]. intros l [HP E]. rewrite El', E. by destruct app, l.
  - intros _ _. eapply keeps_bind; [by apply window_rect_keeps|]. intros _ _. by apply window_rect_keeps.
Qed.

Lemma drag_keeps x y : on_screen m x y → keeps (handle_mouse_drag x y) any.
Proof.
  intros Hxy. eapply (keeps_bind m _ _ any); [by apply keeps_gets|]. intros p _. cbv zeta. eapply keeps_bind; [apply metrics_keeps|]. intros m' ->. eapply keeps_bind; [apply wm_keeps|]. intros s Hs.
  pose proof Hxy as [? ?]. pose proof Hm as [? ? ? ?].
  eapply (keeps_bind m _ _ any).
  - apply keeps_when. intros _. apply move_window_keeps. intros w Hw. rewrite (update_drag_ok m s w x y Hm Hw Hs Hxy). eexists. split; [done|]. pose proof Hw as [[] _ _ _]. cbn in *. split; [apply moved_ok; [done|lia|lia]|done].
  - intros _ _. eapply (keeps_bind m _ _ any); [by apply keeps_gets|]. intros s' _. apply keeps_when. intros _. apply move_window_keeps. intros w Hw. rewrite (update_resize_ok m w x y Hm Hw Hxy).
    eexists. split; [done|]. pose proof Hw as [[] _ _ _]. unfold WINDOW_MIN_W, WINDOW_MIN_H. cbn in *. split; [apply resized_ok; [done|lia|lia]|done].
Qed.

(** ** Keys and the wheel *)

Lemma text_cursor_keeps now : keeps (modify (set_cursor_text_until (now +% 80)) : M G unit) any.
Proof. apply keeps_modify; [done|]. intros g []. by split. Qed.

Lemma scroll_keeps delta : -1 ≤ delta ≤ 1 → keeps (on_terminal (scroll delta)) any.
Proof.
  intros Hd. apply terminal_keeps. intros t hs Hok. pose proof (te_text _ _ _ Hok) as [[s Hs] Hsc]. pose proof (shows_count _ _ Hs) as Hlc. eapply wp_mono; [by apply scroll_view_wp|].
  cbn. intros [] t' ->. split; [|done]. exists hs. apply term_ok_scroll; [done|lia].
Qed.

Lemma notepad_key_keeps key : is_u8 key → keeps (on_notepad_os (notepad_handle_key key)) any.
Proof.
  intros Hk P g Hg Hl. pose proof Hg as [Em [? ? ? ? (l & r & Hn)] Hko ? ? ? ? ?]. apply wp_zoom. eapply wp_mono; [apply (handle_key_wp m key (NotepadOn (notepad_ (g_apps g)) (kern g)) l r); [exact Hn|exact Hko|done]|].
  intros [] s' ([Hk' _] & Ew & _ & Hok). cbn [np_app np_world] in *. assert (∃ l r, np_ok m (np_app s') l r).
  { destruct (negb _); [subst s'; by exists l, r|]. destruct (_ =? _); destruct Hok as [? ?]; [by exists l, r|]. naive_solver. }
  split; [split; try done; by split|]. split; [done|]. unfold apps_looks. cbn. by rewrite Ew.
Qed.

(** Taking the keyboard from the utility windows leaves it with one window at most. *)
Lemma calm_triple : triple (λ l, (single l ∨ typed l) ∧ shown (lk_terminal l) = true)
  (_ ← on_files (u_on_window (set_focused false)); _ ← on_monitor (u_on_window (set_focused false)); on_about (u_on_window (set_focused false))) any single.
Proof.
  assert (Hw : ∀ w, window_ok m w → window_ok m (set_focused false w) ∧ look_of (set_focused false w) = blur (look_of w)) by (split; [by apply unfocus_ok|done]).
  set (P := λ l : looks, single l ∨ typed l).
  eapply (triple_bind m _ _ _ any (λ l, P l ∧ is_focused (lk_files l) = false)); [apply (window_triple m AppFiles _ blur); [done|]|intros _ _].
  { intros l [[Hs|[Hsh [Hs|Hn]]] _]; (split; [|done]); [left; by apply (drop_single AppFiles blur)|left; by apply (drop_single AppFiles blur)|right; split; [done|by right]]. }
  eapply (triple_bind m _ _ _ any (λ l, P l ∧ is_focused (lk_files l) = false ∧ is_focused (lk_monitor l) = false)); [apply (window_triple m AppMonitor _ blur); [done|]|intros _ _].
  { intros l [[Hs|[Hsh [Hs|Hn]]] Hf]; (split; [|done]); [left; by apply (drop_single AppMonitor blur)|left; by apply (drop_single AppMonitor blur)|right; split; [done|by right]]. }
  apply (window_triple m AppAbout _ blur); [done|]. intros l [[Hs|[Hsh [Hs|Hn]]] [Hf Hmo]]; [by apply (drop_single AppAbout blur)|by apply (drop_single AppAbout blur)|].
  exists AppTerminal. intros a Ha. destruct a; cbn in *; congruence.
Qed.

Lemma key_triple key : is_u8 key → triple single (handle_key usermode_run_program key) any single.
Proof.
  intros Hk. unfold handle_key. eapply (triple_keeps m _ _ _ any).
  { apply keeps_when. intros _. eapply keeps_bind; [apply quiet_keeps, ticks_quiet|]. intros now _. apply text_cursor_keeps. }
  intros _ _. destruct (Z.eqb_spec key GUI_KEY_F1) as [|Hf1]; [apply launch_then_dirty|]. do 3 (destruct (key =? _); [apply launch_then_dirty|]).
  destruct (key =? GUI_KEY_F5). { eapply triple_bind; [apply launch_triple|]. intros _ _. eapply keeps_then; [apply open_first_triple|]. intros _ _. by apply keeps_ret. }
  intros g Hg Hl. wp_step. apply read_notepad. destruct (_ && _) eqn:En.
  { refine (triple_keeps m single _ _ any any single (notepad_key_keeps key Hk) _ g Hg Hl). intros _ _. apply mark_dirty_keeps. }
  assert (Hn : is_focused (lk_notepad (apps_looks (g_apps g))) = false).
  { destruct (ak_notepad _ _ (dk_apps _ _ Hg)) as (l & r & [Hw _ _ _]). unfold is_focused. cbn. destruct (wfocused _) eqn:Ef; [|done]. by rewrite (wo_focus _ _ Hw Ef) in En. }
  refine (triple_keeps m watched _ _ _ any single (metrics_keeps m) _ g Hg (conj Hl Hn)). intros m' ->. eapply triple_keeps; [apply next_z_keeps|]. intros z Hz.
  eapply triple_bind; [by apply terminal_handle_key_triple|]. intros _ _. clear g Hg Hl En Hn. intros g Hg Hl. wp_step. apply read_terminal.
  refine (triple_bind m (λ l, l = apps_looks (g_apps g)) _ _ any single any single _ _ g Hg eq_refl); [|intros _ _; apply mark_dirty_keeps].
  destruct (visible _) eqn:Ev; cbn [when].
  - eapply triple_mono; [apply calm_triple| |done|done]. intros l ->. done.
  - eapply triple_mono; [by apply (triple_ret m (λ l, l = apps_looks (g_apps g)) tt any)|done|done|]. intros l ->. destruct Hl as [|[Hs _]]; [done|]. unfold shown, is_open, visible in *. cbn in *. congruence.
Qed.

Lemma wheel_keeps d : keeps (handle_scroll d) any.
Proof.
  eapply keeps_bind; [apply terminal_window_keeps|]. intros w _. eapply (keeps_bind m _ _ any); [|intros _ _; apply mark_dirty_keeps]. apply keeps_when. intros _. apply scroll_keeps. destruct (_ <? _); lia.
Qed.

Lemma redraw_keeps force : keeps (screen ← on_gfx graphics_primary_surface_mut; redraw_cursor_overlay screen force) any.
Proof.
  intros P g Hg Hl. pose proof Hg as [Em Ha Hk Hw Hz Hp Hd Hdi]. pose proof Hdi as [Hr Hs _ _ Has Ho]. unfold graphics_primary_surface_mut, on_gfx. do 3 wp_step. rewrite Hr.
  assert (set_g_gfx (g_gfx g) g = g) as -> by by destruct g.
  eapply wp_mono; [apply (redraw_wp m); done|]. intros [] g' (k & o & gf & -> & Hc & Hs' & Ho' & Hkm & Eg & _). cbn. split; [|done]. split; try done; [by eapply calls_ok|]. cbn.
  eapply display_after; [exact Hdi|done|apply Hs'|done|done].
Qed.

(** ** The invariant *)

Definition gui_ok (g : G) : Prop := desk_ok m g ∧ single (apps_looks (g_apps g)).
(** Events as the input layer makes them: the pointer is on the screen. *)
Definition event_ok (e : gui_event) : Prop := on_screen m (ev_x e) (ev_y e) ∧ is_u8 (ev_key e).

Lemma count_event_keeps : keeps count_event any.
Proof. apply keeps_modify; [done|]. intros g []. by split. Qed.

Lemma handle_event_triple e : event_ok e → triple single (handle_event usermode_run_program e) any single.
Proof.
  intros [Hxy Hk]. unfold handle_event. destruct (ev_type e); [by apply triple_ret| | | | |apply mark_dirty_keeps]; (eapply triple_keeps; [apply count_event_keeps|]; intros _ _).
  - apply triple_when. intros _. by apply key_triple.
  - eapply (triple_keeps m _ _ _ any); [apply keeps_when; intros _; by apply drag_keeps|]. intros _ _. apply redraw_keeps.
  - destruct (ev_pressed e); [by apply press_triple|by apply release_triple].
  - apply wheel_keeps.
Qed.

Fixpoint handle_events (es : list gui_event) : M G unit :=
  match es with [] => mret tt | e :: es => _ ← handle_event usermode_run_program e; handle_events es end.

Lemma handle_events_triple es : Forall event_ok es → triple single (handle_events es) any single.
Proof. induction 1 as [|e es He Hes IH]; [by apply triple_ret|]. cbn [handle_events]. eapply triple_bind; [by apply handle_event_triple|]. by intros _ _. Qed.

(** C5. The desktop stays in order: from a desktop in order, every sequence of events on
    the screen is handled without an access outside an array or an overflow, whatever is
    typed, clicked and dragged, and leaves it in order. In order means that every window
    is placed where it can be reached and is at least of the minimal size, at most one
    window has the keyboard and it is an open one, the text, command line and history
    of the terminal and the buffer of the editor are well formed, the region to be
    painted lies on the screen, and the pixels saved under the cursor can be restored.
    Assumed are the laws of the kernel functions that the desktop calls ([GuiKernelLaws]:
    they return values of their C types and keep the kernel in order, which is proved of
    diskfs.c for the functions on files), and of the programs that are started that they
    end and do to the desktop only what system calls do ([programs_end]): change files and
    counters, print on the screen, open an application. A program that runs for ever, or
    has the kernel overwritten through a pointer that user_buffer_is_valid accepts, is
    excluded. A click on shutdown or restart is the last event the program handles; what
    the statement says about events after it is not about the program. *)
Theorem gui_stays_in_order es g : gui_ok g → Forall event_ok es →
  ∃ g', handle_events es g = Some (tt, g') ∧ gui_ok g'.
Proof.
  intros [Hg Hl] Hes. destruct (handle_events_triple es Hes g Hg Hl) as ([] & g' & E & Hg' & _ & Hl'). exists g'. split; [done|]. by split.
Qed.
End events.
