(* ===== verification/GuiDrawSafe.v ===== *)
(** * Drawing stays on the back buffer

    Every draw function of the desktop returns, and all it changes is the pixels of the
    back buffer: no coordinate overflows, no string is read past its end, and neither the
    applications nor the files change. *)

From Stdlib Require Import ZArith Lia Bool String.
From stdpp Require Import base numbers list.
From S2P Require Import Prelude Keyboard Input Rtc Runtime Windows GuiKernel Notepad Terminal UtilityApps Memory Graphics GraphicsPaint Assets GuiState GuiApps GuiOverlay GuiSafe GuiSafeApps GuiSafeCommands Gui GuiProps GuiDraw.

(** A coordinate or a length near the screen. *)
Definition near (o : option Z) : Prop := ∃ z, o = Some z ∧ 0 ≤ z ≤ 1000000.
Lemma plus_some a b : is_i32 (a + b) → Some a +! b = Some (a + b).
Proof. intros. unfold plus. cbn. by apply checked_ok. Qed.

Section safe.
Context {K : Type} `{GuiKernelLaws K} (m : Metrics) (Hm : metrics_ok m).
Abbreviation G := (gui K).
Implicit Types g : G.

(** What drawing needs. *)
Record canvas (g : G) : Prop := {
  cv_metrics : metrics g = m;
  cv_kernel : kernel_ok (kern g);
  cv_screen : screen_of m (backbuffer g) (g_gfx g);
  cv_assets : assets_ok (g_assets g) (gmem (g_gfx g)) }.

(** What drawing may change. *)
Definition drawn (g g' : G) : Prop :=
  ∃ k gf, g' = set_kern k (set_g_gfx gf g) ∧ calls (kern g) k ∧ draws_in (backbuffer g) (g_gfx g) gf (λ _ _, True).

Lemma drawn_refl g : kernel_ok (kern g) → drawn g g.
Proof. intros Hk. exists (kern g), (g_gfx g). split; [by destruct g|]. split; [by apply calls_refl|apply draws_in_refl]. Qed.
Lemma drawn_trans g1 g2 g3 : drawn g1 g2 → drawn g2 g3 → drawn g1 g3.
Proof.
  intros (k2 & gf2 & -> & Hc2 & D2) (k3 & gf3 & -> & Hc3 & D3). exists k3, gf3. split; [by destruct g1|]. split; [by eapply calls_trans|]. by eapply draws_in_trans.
Qed.
Lemma canvas_after g g' : canvas g → drawn g g' → canvas g'.
Proof.
  intros [? ? Hs Ha] (k & gf & -> & Hc & D). destruct (draw_after _ _ _ _ _ Hs D) as (? & Hk & _). split; cbn; [done|by eapply calls_ok|done|by eapply assets_ok_mono].
Qed.

(** An operation that only draws and returns something with [R]. *)
Definition draws {A} (op : M G A) (R : A → Prop) : Prop := ∀ g, canvas g → wp op (λ a g', drawn g g' ∧ R a) g.
Abbreviation anything := (λ _, True).

Lemma draws_ret {A} (a : A) (R : A → Prop) : R a → draws (mret a) R.
Proof. intros HR g Hg. apply wp_ret. split; [by apply drawn_refl, Hg|done]. Qed.
Lemma draws_bind {A B} (op : M G A) (f : A → M G B) R1 R : draws op R1 → (∀ a, R1 a → draws (f a) R) → draws (op ≫= f) R.
Proof.
  intros Ho Hf g Hg. apply wp_bind. eapply wp_mono; [by apply Ho|]. intros a g1 [D1 Ha]. eapply wp_mono; [by apply Hf, (canvas_after g)|]. intros b g2 [D2 Hb]. split; [by eapply drawn_trans|done].
Qed.
Lemma draws_then {B} (op : M G unit) (f : unit → M G B) R : draws op anything → (draws (f tt) R) → draws (op ≫= f) R.
Proof. intros Ho Hf. eapply draws_bind; [exact Ho|]. by intros [] _. Qed.
Lemma draws_when b (op : M G unit) : (b = true → draws op anything) → draws (when b op) anything.
Proof. intros Ho. destruct b; [by apply Ho|by apply draws_ret]. Qed.
Lemma draws_gets {A} (f : G → A) R : (∀ g, canvas g → R (f g)) → draws (gets f) R.
Proof. intros Hf g Hg. apply wp_gets. split; [by apply drawn_refl, Hg|by apply Hf]. Qed.
Lemma draws_metrics : draws (gets metrics) (λ x, x = m).
Proof. apply draws_gets. by intros g []. Qed.
Lemma draws_lift {A} (o : option A) (R : A → Prop) : returns o R → draws (lift o) R.
Proof. intros (a & -> & Ha) g Hg. eapply wp_lift; [done|]. split; [by apply drawn_refl, Hg|done]. Qed.
Lemma draws_kernel {A} (op : M K A) R : quiet op R → draws (on_kernel op) R.
Proof.
  intros Hq g Hg. apply wp_zoom. destruct (Hq _ (cv_kernel _ Hg)) as (a & k & E & Hc & Ha). exists a, k. split; [done|]. split; [|done].
  exists k, (g_gfx g). split; [by destruct g|]. split; [done|apply draws_in_refl].
Qed.
Lemma draws_for (body : Z → M G unit) n : 0 ≤ n → (∀ i, 0 ≤ i < n → draws (body i) anything) → draws (for_ 0 n body) anything.
Proof.
  intros Hn Hb g Hg. apply (wp_for _ _ _ (λ _ g', drawn g g')); [done|by apply drawn_refl, Hg| |done].
  intros i g1 Hi D1. eapply wp_mono; [by apply Hb, (canvas_after g)|]. intros _ g2 [D2 _]. by eapply drawn_trans.
Qed.
Lemma draws_for_state {L} (body : Z → L → M G (L + unit)) (I : Z → L → Prop) n l : 0 ≤ n → I 0 l →
  (∀ i l, 0 ≤ i < n → I i l → draws (body i l) (λ r, match r with inl l => I (i + 1) l | inr _ => True end)) → draws (for_state 0 n body l) anything.
Proof.
  intros Hn Hl Hb g Hg. apply (wp_for_state _ _ _ (λ i l g', drawn g g' ∧ I i l)); [done|split; [by apply drawn_refl, Hg|done]| |by intros ? ? [? _]].
  intros i l1 g1 Hi [D1 Hl1]. eapply wp_mono; [by apply Hb, (canvas_after g)|]. intros [l2|[]] g2 [D2 Hl2]; [|split; [by eapply drawn_trans|done]]. split; [by eapply drawn_trans|done].
Qed.
Lemma draws_for_exit (body : Z → M G (option unit)) n : 0 ≤ n → (∀ i, 0 ≤ i < n → draws (body i) anything) → draws (for_exit 0 n body) anything.
Proof.
  intros Hn Hb g Hg. apply (wp_for_exit _ _ _ (λ _ g', drawn g g')); [done|by apply drawn_refl, Hg| |done].
  intros i g1 Hi D1. eapply wp_mono; [by apply Hb, (canvas_after g)|]. intros [[]|] g2 [D2 _]; [|by eapply drawn_trans]. split; [by eapply drawn_trans|done].
Qed.

(** ** Shapes *)

(** An operation of graphics.c on the back buffer. *)
Lemma draws_gfx {A} (op : graphics_surface → M gfx A) :
  (∀ s gf, screen_of m s gf → wp (op s) (λ _ gf', draws_in s gf gf' (λ _ _, True)) gf) → draws (b ← gets backbuffer; on_gfx (op b)) anything.
Proof.
  intros Ho g Hg. do 2 wp_step. apply wp_zoom. destruct (Ho _ _ (cv_screen _ Hg)) as (a & gf & E & D). exists a, gf. split; [exact E|]. split; [|done].
  exists (kern g), gf. split; [by destruct g|]. split; [by apply calls_refl, Hg|done].
Qed.
Lemma paints_all s gf gf' f : painted s gf gf' f → draws_in s gf gf' (λ _ _, True).
Proof. intros P. by eapply draws_in_painted. Qed.

Lemma fill_draws x y w h color : near x → near y → near w → near h → draws (fill x y w h color) anything.
Proof.
  intros (x0 & -> & Hx) (y0 & -> & Hy) (w0 & -> & Hw) (h0 & -> & Hh). apply (draws_gfx (λ b, graphics_fill_rect (Some b) (u32 x0) (u32 y0) (u32 w0) (u32 h0) color)). intros s gf [[] _ _].
  eapply wp_mono; [apply fill_rect_wp; [done|done|rewrite ?u32_small by (unfold is_u32; lia); lia..]|]. intros [] gf' P. by eapply paints_all.
Qed.
Lemma frame_draws x y w h color : near x → near y → near w → near h → draws (frame x y w h color) anything.
Proof.
  intros (x0 & -> & Hx) (y0 & -> & Hy) (w0 & -> & Hw) (h0 & -> & Hh). apply (draws_gfx (λ b, graphics_draw_rect (Some b) (u32 x0) (u32 y0) (u32 w0) (u32 h0) color)). intros s gf [[] _ _].
  eapply wp_mono; [apply draw_rect_wp; [done|done|rewrite ?u32_small by (unfold is_u32; lia); lia..]|]. intros [] gf' P. by eapply paints_all.
Qed.
Lemma char_draws x y c fg bg : 0 ≤ x ≤ 1000000 → 0 ≤ y ≤ 1000000 → draws (char_at x y c fg bg) anything.
Proof.
  intros Hx Hy. apply (draws_gfx (λ b, graphics_draw_char (Some b) x y c fg bg)). intros s gf [[] _ _].
  eapply wp_mono; [apply draw_char_wp; [done|done|lia..]|]. intros [] gf' P. by eapply paints_all.
Qed.
Lemma text_draws x y t fg bg : near x → near y → is_text t → draws (text x y t fg bg) anything.
Proof.
  intros (x0 & -> & Hx) (y0 & -> & Hy) (str & (rest & -> & Hstr)%text_in_inv & Hl). apply (draws_gfx (λ b, graphics_draw_string (Some b) (u32 x0) (u32 y0) (str ++ 0 :: rest) fg bg)). intros s gf [[] _ _].
  rewrite !u32_small by (unfold is_u32; lia). unfold graphics_draw_string.
  eapply wp_mono; [apply (draw_string_wp s dr_ok y0 [] str rest); [done|lia|lia|lia|lia|cbn; lia|eapply Forall_impl; [exact Hstr|cbn; lia]|rewrite length_app; cbn; lia]|]. intros [] gf' P. by eapply paints_all.
Qed.
(** ** desktop.cpp *)

Ltac coords := unfold TITLEBAR_H in *; repeat (rewrite plus_some by (unfold is_i32; lia)); eexists; split; [reflexivity|lia].
Ltac lit := by apply c_str_text.
Ltac paint :=
  lazymatch goal with
  | |- draws (_ ≫= _) _ => first [apply draws_then; paint | idtac]
  | |- draws (fill _ _ _ _ _) _ => apply fill_draws; coords
  | |- draws (frame _ _ _ _ _) _ => apply frame_draws; coords
  | |- draws (text _ _ _ _ _) _ => apply text_draws; [coords|coords|try lit]
  | |- _ => idtac
  end.

Lemma wallpaper_draws : draws draw_wallpaper anything.
Proof.
  intros g Hg. unfold draw_wallpaper. do 6 wp_step. wp_step. unfold on_gfx at 1. wp_step. eapply wp_mono; [apply draw_wallpaper_draws; [apply Hg|apply Hg]|]. intros ok gf D. cbn beta in D.
  assert (Hd : drawn g (set_g_gfx gf g)) by (exists (kern g), gf; split; [by destruct g|]; split; [by apply calls_refl, Hg|done]).
  destruct ok; cbn [negb when]; [by wp_step|]. eapply wp_mono; [apply fill_draws; [| | | |by eapply canvas_after]|].
  1-4: rewrite ?(cv_metrics _ Hg); destruct Hm; coords.
  intros _ g2 [D2 _]. split; [by eapply drawn_trans|done].
Qed.

Lemma icon_draws x y label glyph : 0 ≤ x ≤ 1000 → 0 ≤ y ≤ 1000 → is_text label → is_text glyph → draws (draw_icon x y label glyph) anything.
Proof.
  intros Hx Hy Hl Hg. pose proof Hl as (str & Ht & Hlen). unfold draw_icon. eapply (draws_bind _ _ (λ n, n = Z.of_nat (length str))); [apply draws_lift; rewrite (kstrlen_text _ _ Ht); by apply returns_ret|]. intros ? ->.
  eapply (draws_bind _ _ (λ w, 46 ≤ w ≤ 94)).
  { apply draws_lift. unfold label_width. rewrite i32_small by (unfold is_i32; lia). rewrite checked_ok by (unfold is_i32; lia). cbn [mbind option_bind]. rewrite checked_ok by (unfold is_i32; lia). cbn [mbind option_bind]. apply returns_ret. unfold ICON_W.
    destruct (Z.ltb_spec (Z.of_nat (length str) * 6 + 4) 46); cbn; repeat case_match; bool_to_prop; lia. }
  intros w Hw. unfold ICON_W. assert (Hq : 0 ≤ Z.quot (96 - w) 2 ≤ 50) by (rewrite Z.quot_div_nonneg by lia; split; [apply Z.div_pos; lia|apply Z.div_le_upper_bound; lia]).
  change (Z.quot (96 - 30) 2) with 33. set (q := Z.quot (96 - w) 2) in *. clearbody q.
  eapply (draws_bind _ _ (λ v, v = x + 33)); [apply draws_lift; rewrite checked_ok by (unfold is_i32; lia); by apply returns_ret|]. intros ? ->.
  eapply (draws_bind _ _ (λ v, v = x + q)); [apply draws_lift; rewrite checked_ok by (unfold is_i32; lia); by apply returns_ret|]. intros ? ->.
  paint; done.
Qed.

Lemma start_menu_draws b : draws (draw_start_menu b) anything.
Proof.
  apply draws_when. intros _. eapply draws_bind; [apply draws_metrics|]. intros ? ->. destruct (start_menu_ok m Hm) as (y & w & h & E & Hy & Hw & Hh & _).
  eapply (draws_bind _ _ (λ r, r = MkRect 4 y w h)); [apply draws_lift; rewrite E; by apply returns_ret|]. intros ? ->. cbn [rx ry rw rh]. cbv zeta. paint.
Qed.

Lemma bar_y_near dy : 0 ≤ dy ≤ 8 → near (bar_y m dy).
Proof. intros ?. destruct Hm. unfold bar_y. rewrite (u32_small (m_height m - taskbar_h m)) by (unfold is_u32; lia). rewrite u32_small by (unfold is_u32; lia). eexists. split; [reflexivity|lia]. Qed.
Lemma bar_h_near d : 0 ≤ d ≤ 8 → near (bar_h m d).
Proof. intros ?. destruct Hm. unfold bar_h. rewrite u32_small by (unfold is_u32; lia). eexists. split; [reflexivity|lia]. Qed.
Ltac bar_solve := first [apply bar_y_near; lia | apply bar_h_near; lia | unfold START_BUTTON_W, TASK_BUTTON_W; coords].

Lemma task_button_draws x label b : 0 ≤ x ≤ 1000 → is_text label → draws (draw_task_button x label b) anything.
Proof.
  intros Hx Hl. eapply draws_bind; [apply draws_metrics|]. intros ? ->. cbv zeta. apply draws_then; [apply fill_draws; bar_solve|]. apply draws_then; [apply frame_draws; bar_solve|].
  apply text_draws; [bar_solve|bar_solve|done].
Qed.

(** The clock is a string of sixteen characters, whatever the clock chip says. *)
Lemma digit_range d : 0 ≤ d ≤ 207 → 0 < digit_char d < 256.
Proof. intros ?. unfold digit_char, u8. rewrite Z.mod_small by lia. lia. Qed.
Lemma clock_is_text hours minutes day month year : is_u8 hours → is_u8 minutes → is_u8 day → is_u8 month → 0 ≤ year < 65536 → is_text (clock_text hours minutes day month year).
Proof.
  intros H1' H2' H3' H4' H5'. unfold is_u8 in *. assert (Hd : ∀ v, 0 ≤ v < 256 → 0 ≤ v / 10 ≤ 207) by (intros v ?; split; [apply Z.div_pos; lia|apply Z.div_le_upper_bound; lia]).
  assert (Hq : ∀ v, 0 ≤ v mod 10 ≤ 207) by (intros v; pose proof (Z.mod_pos_bound v 10); lia).
  eexists (take 16 (clock_text hours minutes day month year)). split; [|cbn; lia]. apply (text_in_app (take 16 (clock_text hours minutes day month year)) []). cbn.
  repeat (apply Forall_cons_2; [first [lia | apply digit_range, Hd; done | apply digit_range, Hq]|]). apply Forall_nil_2.
Qed.
Lemma clock_draws : draws draw_clock anything.
Proof.
  eapply draws_bind; [apply draws_metrics|]. intros ? ->. eapply draws_bind; [apply draws_kernel, datetime_quiet|]. intros rtc Hrtc. eapply draws_bind; [apply draws_kernel, uptime_quiet|]. intros n Hn. cbv zeta.
  apply text_draws.
  - destruct Hm. destruct (Z.ltb_spec 108 (m_width m)); [|lia]. rewrite u32_small by (unfold is_u32; lia). coords.
  - bar_solve.
  - destruct rtc as [d|]; [destruct (Hrtc d eq_refl) as (? & ? & ? & ? & ?); by apply clock_is_text|].
    pose proof (Z.mod_pos_bound (n / 3600) 24 ltac:(lia)). pose proof (Z.mod_pos_bound (n / 60) 60 ltac:(lia)). apply clock_is_text; unfold is_u8; lia.
Qed.

Lemma taskbar_draws b t1 t2 f1 f2 o1 o2 : draws (draw_taskbar b t1 t2 f1 f2 o1 o2) anything.
Proof.
  eapply draws_bind; [apply draws_metrics|]. intros ? ->. cbv zeta. destruct Hm as [? ? ? ?]. do 3 (apply draws_then; [apply fill_draws; bar_solve|]). apply draws_then; [apply frame_draws; bar_solve|].
  apply draws_then; [apply text_draws; [bar_solve|bar_solve|lit]|]. do 3 (apply draws_then; [apply draws_when; intros _; apply task_button_draws; [unfold TASK_BUTTON_X, TASK_BUTTON_W; lia|lit]|]). apply clock_draws.
Qed.

Lemma desktop_draws b t1 t2 f1 f2 o1 o2 : draws (desktop_draw b t1 t2 f1 f2 o1 o2) anything.
Proof.
  apply draws_then; [apply wallpaper_draws|]. do 4 (apply draws_then; [apply icon_draws; [unfold ICON_X; lia|unfold ICON_Y; lia|lit|lit]|]). apply draws_then; [apply start_menu_draws|apply taskbar_draws].
Qed.

(** ** Windows *)

Record spot (w : Window) : Prop := {
  sp_x : 0 ≤ wx w ≤ 16384; sp_y : 0 ≤ wy w ≤ 16384; sp_w : 168 ≤ ww w ≤ 16384; sp_h : 82 ≤ wh w ≤ 16384 }.
Lemma window_spot w : window_ok m w → spot w.
Proof. intros [[? ? ? ?] _ _ _]. cbn in *. destruct Hm. split; lia. Qed.

Lemma window_draws w t : spot w → is_text t → draws (draw_window w t) anything.
Proof. intros [] Ht. unfold draw_window. cbv zeta. paint. done. Qed.

Lemma title_text u : is_text (title u).
Proof. unfold title. destruct (u_kind u); lit. Qed.
Lemma utility_chrome_draws u : spot (u_window u) → draws (utility_chrome u) anything.
Proof. intros Hs. apply draws_then; [apply window_draws; [done|apply title_text]|]. destruct Hs. paint. Qed.

Lemma u32_draws x y label v : 0 ≤ x ≤ 100000 → near y → plain label = true → is_u32 v → draws (draw_u32 (Some x) y label v) anything.
Proof.
  intros Hx Hy Hl Hv. destruct (dec_text v 16 Hv ltac:(lia)) as (out & E & Ho). change (Z.of_nat 16) with 16 in E. unfold draw_u32. eapply (draws_bind _ _ (λ r, r = (tt, out))); [apply draws_lift; rewrite E; by apply returns_ret|]. intros ? ->. cbn [snd].
  apply draws_then; [apply text_draws; [coords|done|by apply c_str_text]|]. apply text_draws; [|done|done]. cbn. rewrite checked_ok by (unfold is_i32; lia). eexists. split; [done|lia].
Qed.

Lemma icon_label_text name : is_text name → returns (file_icon_label name) is_text.
Proof.
  intros Hn. assert (Hs : ∀ s P (f : bool → option (list Z)), plain s = true → (∀ b, returns (f b) P) → returns (has_suffix name (c_str s) ≫= f) P).
  { intros s P f Hp Hf. destruct (suffix_returns name s Hn Hp) as (b & E & _). apply returns_bind. exists b. split; [done|apply Hf]. }
  unfold file_icon_label. do 5 (apply Hs; [done|]; intros [|]; [apply returns_ret; lit|]). apply returns_ret. lit.
Qed.

Lemma file_row_draws w x i y : spot w → 14 ≤ x ≤ 20000 → 10 ≤ y ≤ 100000 → is_u32 i → draws (draw_file_row w x i y) anything.
Proof.
  intros [] Hx Hy Hi. unfold draw_file_row. eapply draws_bind; [by apply draws_kernel, file_name_quiet|]. intros name Hn. cbv zeta. apply draws_then; [apply fill_draws; coords|].
  eapply draws_bind; [by apply draws_lift, icon_label_text|]. intros label Hl. paint; done.
Qed.

(** A value that is computed and then used. *)
Lemma draws_coord {A B} (o : option A) z (f : A → M G B) R : o = Some z → draws (f z) R → draws (lift o ≫= f) R.
Proof. intros -> Hf. eapply (draws_bind _ _ (λ v, v = z)); [apply draws_lift; by apply returns_ret|]. by intros ? ->. Qed.
Ltac coord := eapply draws_coord; [unfold TITLEBAR_H; repeat (rewrite plus_some by (unfold is_i32; lia)); (reflexivity || (apply checked_ok; unfold is_i32; lia))|].

Lemma files_draws w : spot w → draws (draw_files w) anything.
Proof.
  intros Hs. pose proof Hs as []. unfold draw_files. do 2 coord. apply draws_then; [paint|]. coord. eapply draws_bind; [apply draws_kernel, file_count_quiet|]. intros n Hn. cbn beta in Hn.
  eapply draws_bind; [|intros ? _; by apply draws_ret]. apply (draws_for_state _ (λ _ y, 10 ≤ y ≤ 90000)); [lia|lia|].
  intros i y Hi Hy. coord. destruct (Z.leb_spec (wy w + wh w + -12) y); [by apply draws_ret|]. apply draws_then; [apply file_row_draws; [done|lia|lia|unfold is_u32; lia]|]. coord. apply draws_ret. lia.
Qed.

Ltac monitor_row L := eapply draws_bind; [apply draws_kernel, L|]; intros ? ?; apply draws_then; [apply u32_draws; [lia|coords|done|done]|].
Lemma monitor_draws w : spot w → draws (draw_monitor w) anything.
Proof.
  intros []. unfold draw_monitor. do 2 coord. monitor_row uptime_quiet. monitor_row ticks_quiet. monitor_row pages_quiet. monitor_row heap_quiet. monitor_row switches_quiet. monitor_row processes_quiet.
  eapply draws_bind; [apply draws_kernel, fsck_quiet; lia|]. intros r [Hr _]. apply u32_draws; [lia|coords|done|done].
Qed.
Lemma about_draws w : spot w → draws (draw_about w) anything.
Proof. intros []. unfold draw_about. do 2 coord. paint. Qed.

Lemma utility_draws u : window_ok m (u_window u) → draws (utility_draw u) anything.
Proof.
  intros Hw%window_spot. apply draws_when. intros _. apply draws_then; [by apply utility_chrome_draws|]. destruct (u_kind u); [by apply files_draws|by apply monitor_draws|by apply about_draws].
Qed.

(** ** notepad.cpp *)

Lemma notepad_chrome_draws w : spot w → draws (notepad_chrome w) anything.
Proof. intros Hs. apply draws_then; [apply window_draws; [done|lit]|]. destruct Hs. paint. Qed.

(** The place of the next character stays near the window: each of at most 2048 characters
    moves it by at most one line. *)
Definition text_spot (w : Window) (n : Z) (p : Z * Z) : Prop := wx w + 10 ≤ fst p ≤ wx w + ww w ∧ 0 ≤ snd p ≤ 40000 + 8 * n.
Lemma text_char_draws w c n px py : spot w → 0 ≤ n ≤ 2048 → text_spot w n (px, py) → draws (draw_text_char w c (wx w + 10) px py) (text_spot w (n + 1)).
Proof.
  intros [] Hn [Hx Hy]. cbn [fst snd] in *. unfold draw_text_char. destruct (c =? 10).
  - coord. apply draws_ret. split; cbn; lia.
  - apply draws_then; [apply char_draws; rewrite u32_small by (unfold is_u32; lia); lia|]. do 3 coord. destruct (Z.ltb_spec (wx w + ww w + -12) (px + 6 + 6)); [coord; apply draws_ret; split; cbn; lia|]. apply draws_ret. split; cbn; lia.
Qed.
Lemma draw_text_draws n l r : np_ok m n l r → draws (draw_text n) anything.
Proof.
  intros [Hw Hb [str Hp] Hps]. apply window_spot in Hw as Hs. pose proof Hs as []. pose proof (nt_bound _ _ _ Hb) as Hlen. destruct Hb as [[rest Eb] Es _ _ El].
  assert (Hpath : is_text (np_path n)). { exists str. split; [done|]. apply text_in_inv in Hp as (rs & E & _). rewrite E, length_app in Hps. cbn in Hps. lia. }
  unfold draw_text. cbv zeta. do 3 coord. apply (draws_bind _ _ (λ _, True)).
  - apply (draws_for_state _ (text_spot (np_window n))); [lia|split; cbn; lia|]. intros i [px py] Hi Ht. destruct (_ <=? py); [by apply draws_ret|].
    destruct (lookup_lt_is_Some_2 (np_buffer n) (Z.to_nat i)) as [c Hc]; [lia|]. eapply draws_coord; [apply aread_Some; split; [lia|exact Hc]|]. eapply draws_bind; [apply (text_char_draws _ c i); [done|lia|done]|]. intros p Hp'. by apply draws_ret.
  - intros _ _. apply draws_then; [apply text_draws; [coords|coords|done]|]. apply text_draws; [coords|coords|]. destruct (np_dirty n); [lit|]. destruct (np_saved n); lit.
Qed.
Lemma notepad_draws n l r : np_ok m n l r → draws (notepad_draw n) anything.
Proof. intros Hn. apply draws_when. intros _. apply draws_then; [apply notepad_chrome_draws, window_spot, Hn|by eapply draw_text_draws]. Qed.

(** ** terminal.cpp *)

Ltac ucoords := unfold TITLEBAR_H in *; rewrite ?u32_small by (unfold is_u32; rewrite ?u32_small by (unfold is_u32; lia); lia); eexists; split; [reflexivity|lia].
Lemma terminal_chrome_draws w : spot w → draws (terminal_chrome w) anything.
Proof.
  intros []. unfold terminal_chrome, TITLEBAR_H. cbv zeta. rewrite !(u32_small (wx w)), !(u32_small (wy w)), !(u32_small (ww w)), !(u32_small (wh w)) by (unfold is_u32; lia).
  rewrite !(u32_small (wx w + ww w)) by (unfold is_u32; lia). rewrite !(u32_small (wx w + _)), !(u32_small (wy w + _)) by (unfold is_u32; lia).
  repeat first [apply draws_then; [first [apply fill_draws | apply frame_draws | apply text_draws]; first [lit|ucoords]|]|apply fill_draws; ucoords].
Qed.

Lemma visible_rows_range w : spot w → 1 ≤ visible_rows w ≤ 2048.
Proof.
  intros []. unfold visible_rows, TITLEBAR_H. destruct (Z.ltb_spec (wh w) (18 + 18)); [lia|]. cbv zeta. rewrite u32_small by (unfold is_u32; lia).
  assert (1 ≤ (wh w - 18 - 12) / 8 ≤ 2047) by (split; [apply Z.div_le_lower_bound; lia|apply Z.div_le_upper_bound; lia]). destruct (_ =? 0); lia.
Qed.

Lemma cell_read t i c : text_ok t → 0 ≤ i < t_line_count t → 0 ≤ c < 160 → ∃ row v, aread (t_lines t) i = Some row ∧ aread row c = Some v.
Proof.
  intros [[s Hs] _] Hi Hc. pose proof (shows_count _ _ Hs) as Hn. destruct Hs as [(junk & El & Hr & Hlen) _ _ _]. rewrite El. unfold lines_of.
  destruct (lookup_lt_is_Some_2 (kept (past s) ++ cur s :: junk) (Z.to_nat i)) as [row Hrow]; [lia|]. pose proof (Forall_lookup_1 _ _ _ _ Hr Hrow) as [Hl _].
  destruct (lookup_lt_is_Some_2 row (Z.to_nat c)) as [v Hv]; [lia|]. exists (row ++ [0]), v. split; apply aread_Some; (split; [lia|]).
  - by rewrite list_lookup_fmap, Hrow.
  - by apply lookup_app_l_Some.
Qed.

Lemma lines_draws t rows cols start : spot (t_window t) → text_ok t → 0 ≤ rows ≤ 2048 → 0 ≤ cols ≤ 160 → 0 ≤ start ≤ 96 → draws (draw_lines t rows cols start) anything.
Proof.
  intros [] Ht Hr Hc Hst. unfold draw_lines. cbv zeta. eapply draws_bind; [|intros ? _; by apply draws_ret]. apply draws_for_exit; [lia|]. intros row Hrow. rewrite (u32_small (start + row)) by (unfold is_u32; lia).
  destruct (Z.leb_spec (t_line_count t) (start + row)); [by apply draws_ret|]. apply draws_then; [|by apply draws_ret]. apply draws_for; [lia|]. intros col Hcol.
  destruct (cell_read t (start + row) col Ht) as (l & v & E1 & E2); [lia|lia|]. eapply draws_coord; [exact E1|]. eapply draws_coord; [exact E2|].
  rewrite !(u32_small (wx _)), !(u32_small (wy _)), !(u32_small (_ * _)) by (unfold is_u32; lia). unfold TITLEBAR_H.
  rewrite (u32_small (wx _ + 8)), (u32_small (wy _ + 18)) by (unfold is_u32; lia). rewrite (u32_small (wy _ + 18 + 6)) by (unfold is_u32; lia). rewrite !u32_small by (unfold is_u32; lia). apply char_draws; lia.
Qed.

Lemma text_cursor_draws t rows cols : spot (t_window t) → text_ok t → 1 ≤ rows ≤ 2048 → 1 ≤ cols ≤ 160 → draws (draw_text_cursor t rows cols) anything.
Proof.
  intros [] [[s Hs] _] Hr Hc. pose proof (shows_count _ _ Hs) as Hn. pose proof (sh_column _ _ Hs) as Hcol. rewrite <- (sh_col _ _ Hs) in Hcol. unfold draw_text_cursor. cbv zeta.
  apply draws_when. intros _. eapply draws_bind; [apply draws_kernel, ticks_quiet|]. intros now _. apply draws_when. intros _. rewrite !(u32_small (_ - 1)) by (unfold is_u32; lia).
  set (crow := if t_line_count t <? rows then _ else _). set (ccol := if t_col t <? cols then _ else _).
  assert (0 ≤ crow ≤ 2048) by (unfold crow; destruct (_ <? _); lia). assert (0 ≤ ccol ≤ 160) by (unfold ccol; destruct (Z.ltb_spec (t_col t) cols); lia). clearbody crow ccol.
  rewrite !(u32_small (wx _)), !(u32_small (wy _)), !(u32_small (_ * _)) by (unfold is_u32; lia). unfold TITLEBAR_H.
  rewrite (u32_small (wx _ + 8)), (u32_small (wy _ + 18)) by (unfold is_u32; lia). rewrite (u32_small (wy _ + 18 + 6)) by (unfold is_u32; lia). rewrite (u32_small (wy _ + 18 + 6 + _)) by (unfold is_u32; lia). rewrite !u32_small by (unfold is_u32; lia).
  apply fill_draws; (eexists; split; [reflexivity|lia]).
Qed.

Lemma terminal_draws t hs : term_ok m t hs → draws (terminal_draw t) anything.
Proof.
  intros [Hw Ht _ _ _]. apply window_spot in Hw as Hs. pose proof Hs as []. unfold terminal_draw. cbv zeta. apply draws_when. intros _. apply draws_then; [by apply terminal_chrome_draws|].
  pose proof (visible_rows_range _ Hs) as Hrows. pose proof (text_cols_range (t_window t) ltac:(unfold is_i32; lia)) as Hcols. pose proof Ht as [[s Hsh] Hsc]. pose proof (shows_count _ _ Hsh) as Hn.
  apply draws_then; [apply lines_draws; [done|done|lia|lia|]|].
  { set (v := visible_rows (t_window t)) in *. assert (He : (if v <? t_line_count t then t_line_count t -% v else 0) = Z.max 0 (t_line_count t - v)) by (destruct (Z.ltb_spec v (t_line_count t)); [rewrite u32_small by (unfold is_u32; lia)|]; lia).
    rewrite He. destruct (Z.ltb_spec (t_scroll t) (Z.max 0 (t_line_count t - v))); [|lia]. rewrite u32_small by (unfold is_u32; lia). lia. }
  apply draws_then; [apply text_cursor_draws; [done|done|lia|lia]|].
  rewrite !(u32_small (wx _)), !(u32_small (wy _)), !(u32_small (ww _)), !(u32_small (wh _)) by (unfold is_u32; lia). rewrite !(u32_small (wx _ + _)), !(u32_small (wy _ + _)) by (unfold is_u32; lia).
  apply draws_then; [apply fill_draws; ucoords|apply text_draws; [ucoords|ucoords|lit]].
Qed.

(** ** gui.cpp *)

Lemma draw_draws g : canvas g → apps_ok m (g_apps g) → wp draw (λ _ g', drawn g g') g.
Proof.
  intros Hg [[hs Ht] Hf Ho Ha (l & r & Hn)]. unfold draw. do 4 wp_step. cbv zeta.
  assert (Hall : draws (_ ← desktop_draw (start_menu_open g) (wopen (t_window (terminal_ (g_apps g)))) (minimized (t_window (terminal_ (g_apps g)))) (wopen (u_window (files_ (g_apps g)))) (minimized (u_window (files_ (g_apps g))))
      (wopen (u_window (monitor_ (g_apps g)))) (minimized (u_window (monitor_ (g_apps g))));
    _ ← utility_draw (about_ (g_apps g)); _ ← notepad_draw (notepad_ (g_apps g)); _ ← utility_draw (monitor_ (g_apps g)); _ ← utility_draw (files_ (g_apps g)); terminal_draw (terminal_ (g_apps g))) anything).
  { apply draws_then; [apply desktop_draws|]. apply draws_then; [by apply utility_draws|]. apply draws_then; [by eapply notepad_draws|]. do 2 (apply draws_then; [by apply utility_draws|]). by eapply terminal_draws. }
  eapply wp_mono; [by apply Hall|]. by intros _ g' [? _].
Qed.
End safe.
