(* ===== verification/GuiRun.v ===== *)
(** * The desktop runs: flush_dirty, initialize and run of kernel/gui/core/gui.cpp

    A round of the loop handles the events that are waiting, draws what has changed into
    the back buffer and copies it to the screen. *)

From Stdlib Require Import ZArith Lia Bool String.
From stdpp Require Import base numbers list.
From S2P Require Import Prelude Keyboard Input Runtime Windows GuiKernel Notepad Terminal UtilityApps Memory Graphics Assets GuiState AssetsLoad GuiApps GuiOverlay GuiDraw Gui.

Section run.
Context {K : Type} `{GuiKernel K, AssetFiles K}.
Abbreviation G := (gui K).

(** ** Painting *)

Definition copy_to_screen (screen : option graphics_surface) : M G unit :=
  p ← gets g_paint; b ← gets backbuffer;
  if full_repaint p || rect_empty (dirty_rect p) then on_gfx (graphics_blit screen (Some b))
  else
    let r := dirty_rect p in
    on_gfx (graphics_blit_rect screen (Some b) (u32 (rx r)) (u32 (ry r)) (u32 (rw r)) (u32 (rh r))).

Definition painted_clean : M G unit := modify (set_g_paint (Paint false false (MkRect 0 0 0 0))).

Definition flush_dirty : M G unit :=
  screen ← on_gfx graphics_primary_surface_mut;
  match screen with
  | None => mret tt
  | Some _ =>
      p ← gets g_paint;
      if dirty p then
        _ ← restore_cursor_overlay screen;
        _ ← draw;
        _ ← copy_to_screen screen;
        _ ← painted_clean;
        redraw_cursor_overlay screen true
      else redraw_cursor_overlay screen false
  end.

(** ** The loop

    [usermode_run_program] as in Gui. *)
Context (usermode_run_program : list Z → M G Z).

(** The inner loop: [event] is the local variable, which keeps the event read last. An
    event is read before the count is tested. At most 65 events are read. *)
Definition drain_events (handle : gui_event → M G unit) (event : gui_event) : M G gui_event :=
  iterate 66 (λ '(drained, event),
    r ← on_kernel k_input_poll_event;
    match r with
    | None => mret (inr event)
    | Some event =>
        if drained <? 64 then _ ← handle event; mret (inl (drained + 1, event))
        else mret (inr event)
    end) (0, event).

(** [event.type = GUI_EVENT_TIMER_TICK; event.ticks = ticks] *)
Definition tick_event (e : gui_event) (ticks : Z) : gui_event :=
  GuiEvent GUI_EVENT_TIMER_TICK (ev_x e) (ev_y e) (ev_dx e) (ev_dy e) (ev_wheel_delta e) (ev_key e) (ev_keycode e) (ev_modifiers e) (ev_pressed e) ticks.

(** The locals that live across rounds: last_second and last_input_report. [event] is what
    the uninitialized variable of the round holds. *)
Definition run_round (event : gui_event) '((last_second, last_input_report) : Z * Z) : M G (Z * Z) :=
  event ← drain_events (handle_event usermode_run_program) event;
  second ← on_kernel k_timer_uptime_seconds;
  last_second ← (if second =? last_second then mret last_second
                 else ticks ← on_kernel k_timer_ticks; _ ← handle_event usermode_run_program (tick_event event ticks); mret second);
  tick ← on_kernel k_timer_ticks;
  last_input_report ← (if 100 <=? tick -% last_input_report then
                         n ← gets input_events;
                         _ ← when (0 <? n) (serial (c_line "MyOS GUI: input batch processed."));
                         _ ← modify (set_input_events 0); mret tick
                       else mret last_input_report);
  _ ← flush_dirty;
  mret (last_second, last_input_report).

(** The rounds up to one that starts with each of the events; the machine halts between
    two of them until the next interrupt. *)
Fixpoint run_rounds (events : list gui_event) (st : Z * Z) : M G (Z * Z) :=
  match events with [] => mret st | e :: events => st ← run_round e st; run_rounds events st end.

Definition run (events : list gui_event) : M G (Z * Z) :=
  second ← on_kernel k_timer_uptime_seconds;
  ticks ← on_kernel k_timer_ticks;
  run_rounds events (second, ticks).

(** ** Initialization

    The heap and the mouse and input drivers are parameters; [stack] is what the loader of
    the images finds in its local variable. *)
Context (kmalloc : Z → M G Z) (kfree : Z → M G unit) (mouse_set_bounds : Z → Z → M K unit) (input_initialize : M K unit) (stack : list Z).

Definition initialize_screen : M G unit :=
  screen ← on_gfx graphics_primary_surface_mut;
  match screen with
  | None => mret tt
  | Some s =>
      _ ← modify (set_metrics (MkMetrics (width s) (height s) (if 480 <=? height s then 30 else 22)));
      pixels ← kmalloc (pitch s *% height s);
      _ ← (if pixels =? 0 then modify (set_backbuffer s)
           else modify (set_backbuffer (Surface pixels (width s) (height s) (pitch s) (bits_per_pixel s) (format s))));
      m ← gets metrics;
      on_kernel (mouse_set_bounds (i32 (m_width m)) (i32 (m_height m)))
  end.

Definition initialize_apps : M G unit :=
  m ← gets metrics;
  _ ← on_terminal (terminal_initialize m);
  _ ← on_files (utility_initialize KindFiles m);
  _ ← on_monitor (utility_initialize KindMonitor m);
  _ ← on_about (utility_initialize KindAbout m);
  on_notepad (notepad_initialize m).

Definition initialize : M G unit :=
  _ ← initialize_screen;
  _ ← initialize_apps;
  _ ← modify (set_start_menu_open false);
  _ ← end_pointer;
  _ ← on_pointer (set_press_hit (MkHit HitNone AppNone));
  _ ← modify (set_g_paint (Paint true true (MkRect 0 0 0 0)));
  _ ← on_pointer (set_icon_tick 0); _ ← on_pointer (set_icon_x (-1000)); _ ← on_pointer (set_icon_y (-1000));
  _ ← on_pointer (set_files_index (-1)); _ ← on_pointer (set_files_tick 0);
  _ ← modify (set_input_events 0);
  _ ← assets_initialize kmalloc kfree stack;
  _ ← modify (set_cursor_text_until 0);
  _ ← modify (λ g, set_g_overlay (Overlay false false (MkRect 0 0 0 0) (ov_background (g_overlay g))) g);
  _ ← serial (c_line "MyOS GUI: desktop initialized with no open apps.");
  _ ← serial (c_line "MyOS GUI: double buffering enabled.");
  m ← gets metrics;
  _ ← when ((FALLBACK_W <? m_width m) || (FALLBACK_H <? m_height m)) (serial (c_line "MyOS graphics: VBE linear framebuffer enabled."));
  _ ← on_kernel input_initialize;
  flush_dirty.
End run.
