(* ===== verification/GuiRunProps.v ===== *)
(** * The desktop runs: properties

    Painting copies what was drawn to the screen, initialize() puts the desktop in order,
    and the rounds of run() keep it so. *)

From Stdlib Require Import ZArith Lia Bool String.
From stdpp Require Import base numbers list.
From S2P Require Import Prelude Keyboard Input Runtime Windows GuiKernel Notepad Terminal UtilityApps Memory Graphics GraphicsPaint GraphicsBlit Assets GuiState AssetsLoad GuiApps GuiOverlay GuiSafe GuiSafeApps GuiSafeCommands Gui GuiProps GuiDraw GuiDrawSafe GuiRun.

Lemma disjoint_sym d s : disjoint_surfaces d s → disjoint_surfaces s d.
Proof. unfold disjoint_surfaces. tauto. Qed.

Section painting.
Context {K : Type} `{GuiKernelLaws K} (m : Metrics) (Hm : metrics_ok m).
Abbreviation G := (gui K).
Implicit Types g : G.

(** The part of the screen that flush_dirty paints. *)
Definition repainted (p : paint) (x y : Z) : Prop := full_repaint p = true ∨ rect_empty (dirty_rect p) = true ∨ in_rect (dirty_rect p) x y.
#[export] Instance repainted_dec p x y : Decision (repainted p x y) := _.

(** The screen after a copy of that part of the back buffer. *)
Definition shown_on (p : paint) (s b : graphics_surface) (gf gf' : gfx) : Prop :=
  (disjoint_surfaces s b → same_format s b = true → painted s gf gf' (λ x y, if bool_decide (repainted p x y) then pixel b (gmem gf) x y else None)).

Lemma copy_wp s g : screen_of m s (g_gfx g) → screen_of m (backbuffer g) (g_gfx g) → backbuffer g = s ∨ disjoint_surfaces s (backbuffer g) → dirty_ok m (dirty_rect (g_paint g)) →
  wp (copy_to_screen (Some s)) (λ _ g', ∃ gf, g' = set_g_gfx gf g ∧ draws_in s (g_gfx g) gf (λ _ _, True) ∧ shown_on (g_paint g) s (backbuffer g) (g_gfx g) gf) g.
Proof.
  intros [[Hs Ms Hb] Ew Eh] [[Hbk Mb _] Ew' Eh'] Hap (? & ? & ? & ? & ? & ?). pose proof Hm as []. unfold copy_to_screen. do 4 wp_step. set (b := backbuffer g) in *. set (p := g_paint g) in *.
  assert (Hon : ∀ x y, on s x y → on b x y) by (intros x y [? ?]; split; lia).
  rewrite !u32_small by (unfold is_u32; lia).
  assert (Hop : wp (if full_repaint p || rect_empty (dirty_rect p) then graphics_blit (Some s) (Some b) else graphics_blit_rect (Some s) (Some b) (rx (dirty_rect p)) (ry (dirty_rect p)) (rw (dirty_rect p)) (rh (dirty_rect p)))
    (λ _ gf, draws_in s (g_gfx g) gf (λ _ _, True) ∧ shown_on p s b (g_gfx g) gf) (g_gfx g)).
  { destruct Hap as [E|Hdj].
    - assert (Hself : ∀ gf, gf = g_gfx g → draws_in s (g_gfx g) gf (λ _ _, True) ∧ shown_on p s b (g_gfx g) gf).
      { intros gf ->. split; [apply draws_in_refl|]. intros Hdj. exfalso. rewrite E in Hdj. destruct (surface_extent s Hs), (bpp_cases s Hs) as [_ Hbp], Hs. destruct Hdj; nia. }
      destruct (_ || _).
      + eapply wp_mono; [rewrite E; apply blit_self_wp; [done|done|done|lia]|]. intros [] gf. apply Hself.
      + eapply wp_mono; [rewrite E; apply blit_rect_self_wp; [done|done|done|lia..]|]. intros [] gf. apply Hself.
    - assert (Hdone : ∀ gf f, painted s (g_gfx g) gf f → (same_format s b = true → ∀ x y, on s x y → f x y = if bool_decide (repainted p x y) then pixel b (gmem (g_gfx g)) x y else None) →
        draws_in s (g_gfx g) gf (λ _ _, True) ∧ shown_on p s b (g_gfx g) gf).
      { intros gf f P Hf. split; [by eapply draws_in_painted|]. intros _ Hsf. eapply painted_ext; [exact P|]. by apply Hf. }
      assert (Hid : ∀ x y, same_format s b = true → converted s b <$> pixel b (gmem (g_gfx g)) x y = pixel b (gmem (g_gfx g)) x y) by (intros x y Hsf; unfold converted; rewrite Hsf; by destruct (pixel _ _ _ _)).
      destruct (full_repaint p || rect_empty (dirty_rect p)) eqn:Ep.
      + eapply wp_mono; [by apply blit_wp|]. intros [] gf P. eapply Hdone; [exact P|]. intros Hsf x y Ho. cbn beta. rewrite bool_decide_eq_true_2 by auto. rewrite Hid by done. rewrite bool_decide_eq_true_2; [done|].
        apply orb_true_iff in Ep as [|]; [by left|by right; left].
      + eapply wp_mono; [apply blit_rect_wp; (done || lia)|]. intros [] gf P. eapply Hdone; [exact P|]. intros Hsf x y Ho. cbn beta. rewrite bool_decide_eq_true_2 by auto. unfold image. rewrite Hid by done. apply orb_false_iff in Ep as [Ef Er].
        assert (Hr : repainted p x y ↔ in_rect (dirty_rect p) x y) by (unfold repainted; rewrite Ef, Er; naive_solver).
        rewrite (bool_decide_ext _ _ Hr). unfold in_rect. case_bool_decide as Hin; shapes. }
  destruct Hop as ([] & gf & E & D & Hsh). destruct (_ || _); apply wp_zoom; exists tt, gf; (split; [exact E|]; exists gf; done).
Qed.

Lemma desk_canvas g : desk_ok m g → canvas m g.
Proof. intros [? ? ? ? ? ? ? []]. by split. Qed.

(** What flush_dirty does to a dirty desktop: the cursor is taken away, the desktop is
    drawn, the part is copied, and the cursor is put over it. *)
Definition flushed (g g' : G) : Prop :=
  ∃ gf0 k1 gf1 gf2 k o gf, let s := primary_surface (g_gfx g) in
    g' = set_kern k (set_g_overlay o (set_g_paint (Paint false false (MkRect 0 0 0 0)) (set_g_gfx gf g))) ∧
    wiped s (g_overlay g) (g_gfx g) gf0 ∧ draws_in (backbuffer g) gf0 gf1 (λ _ _, True) ∧ draws_in s gf1 gf2 (λ _ _, True) ∧ shown_on (g_paint g) s (backbuffer g) gf1 gf2 ∧
    calls (kern g) k1 ∧ redrawn m s (set_kern k1 (set_g_overlay (set_ov_saved false (g_overlay g)) (set_g_gfx gf2 g))) k o gf ∧
    keeps_mapped (gmem (g_gfx g)) (gmem gf) ∧ gf = set_gmem (gmem gf) (g_gfx g).

Lemma flush_dirty_wp g : desk_ok m g → dirty (g_paint g) = true → wp flush_dirty (λ _ g', flushed g g') g.
Proof.
  intros Hg Ed. pose proof Hg as [Em Ha Hk _ _ _ Hdr Hdi]. pose proof Hdi as [Hr Hs Hb Hap Has Ho]. unfold flush_dirty, graphics_primary_surface_mut. unfold on_gfx at 1. do 3 wp_step. rewrite Hr.
  assert (set_g_gfx (g_gfx g) g = g) as -> by by destruct g. do 2 wp_step. rewrite Ed. wp_step. set (s := primary_surface (g_gfx g)) in *.
  eapply wp_mono; [by apply (restore_overlay_wp m s)|]. intros [] g0 (gf0 & -> & Hw0 & Hs0 & Hk0 & E0). wp_step.
  assert (Hcv : canvas m (set_g_overlay (set_ov_saved false (g_overlay g)) (set_g_gfx gf0 g))) by (split; cbn; [done|done|by eapply screen_mapped; [exact Hb|done|apply Hs0]|by eapply assets_ok_mono]).
  eapply wp_mono; [by apply (draw_draws m Hm)|]. intros [] g1 Hd1. pose proof (canvas_after m _ _ Hcv Hd1) as Hcv1. destruct Hd1 as (k1 & gf1 & -> & Hc1 & D1). cbn in Hc1, D1.
  destruct (draw_after m _ _ _ _ (cv_screen _ _ Hcv) D1) as (_ & Hk1 & E1). cbn in Hk1, E1. pose proof (screen_mapped m s gf0 gf1 Hs0 Hk1 (dr_bytes _ _ (sc_draw _ _ _ (cv_screen _ _ Hcv1)))) as Hs1.
  wp_step. eapply wp_mono; [apply (copy_wp s); [exact Hs1|apply Hcv1| |done]|].
  { cbn. by destruct Hap as [->|?]; [left|right]. }
  cbn. intros [] g2 (gf2 & -> & D2 & Hsh). destruct (draw_after m _ _ _ _ Hs1 D2) as (Hs2 & Hk2 & E2). wp_step. unfold painted_clean. wp_step.
  assert (Hk02 : keeps_mapped (gmem (g_gfx g)) (gmem gf2)) by (intros a; rewrite (Hk2 a), (Hk1 a); apply Hk0).
  match goal with |- wp _ _ ?st => eapply wp_mono; [apply (redraw_wp m s true st); [done|done|by eapply calls_ok|by eapply assets_ok_mono|exact Hs2|]|] end.
  { destruct Ho. by split. }
  intros [] g3 (k & o & gf & -> & Hrd). pose proof Hrd as (_ & _ & _ & Hk3 & E3 & _). cbn in Hk3, E3. exists gf0, k1, gf1, gf2, k, o, gf. cbv zeta. split; [by destruct g|]. split_and!; try done.
  - intros a. rewrite (Hk3 a). apply Hk02.
  - rewrite E3, E2, E1, E0. by destruct (g_gfx g).
Qed.

Lemma outside_pixels d s gf gf' R x y : surface_ok d → surface_ok s → disjoint_surfaces d s → draws_in d gf gf' R → on s x y → pixel s (gmem gf') x y = pixel s (gmem gf) x y.
Proof. intros Hd Hs Hds (f & P & _) Hon. exact (source_pixel d s Hd Hs Hds gf gf' f x y P Hon). Qed.

(** C17. Painting shows what was drawn: after flush_dirty on a dirty desktop that is in
    order, and without the mouse cursor, every pixel of the screen in the dirty region
    (of the whole screen after a full repaint) is that of the back buffer, every other
    pixel is as it was before, and nothing is left to be painted. The back buffer is
    one of its own, disjoint from the screen and of the same format (without one the
    desktop is drawn directly on the screen, and there is nothing to compare); the
    mouse does not move while flush_dirty runs ([still]), since the code reads its
    position twice; and the two cursors have at most the size that the saved rectangle
    has room for ([small_cursor]), as the images of the program have. *)
Theorem flush_shows_backbuffer at_ g : desk_ok m g → dirty (g_paint g) = true → still at_ → small_cursor (cursor (g_assets g)) → small_cursor (text_cursor (g_assets g)) →
  disjoint_surfaces (primary_surface (g_gfx g)) (backbuffer g) → same_format (primary_surface (g_gfx g)) (backbuffer g) = true →
  let s := primary_surface (g_gfx g) in
  ∃ g0 g1 g2, restore_cursor_overlay (Some s) g = Some (tt, g0) ∧ flush_dirty g = Some (tt, g1) ∧ dirty (g_paint g1) = false ∧
    restore_cursor_overlay (Some s) g1 = Some (tt, g2) ∧ ∀ x y, on_screen m x y →
      pixel s (gmem (g_gfx g2)) x y = if bool_decide (repainted (g_paint g) x y) then pixel (backbuffer g) (gmem (g_gfx g2)) x y else pixel s (gmem (g_gfx g0)) x y.
Proof.
  intros Hg Ed Hst Hc Ht Hdj Hsf. pose proof (dk_display _ _ Hg) as [_ Hs Hb _ Has Ho]. cbv zeta. set (s := primary_surface (g_gfx g)) in *.
  destruct (restore_overlay_wp m s g Hs Ho) as ([] & g0 & E0 & gf0' & -> & Hw0' & _).
  destruct (flush_dirty_wp g Hg Ed) as ([] & g1 & E1 & gf0 & k1 & gf1 & gf2 & k & o & gf & -> & Hw0 & D1 & D2 & Hsh & _ & (_ & Hs3 & Ho3 & _ & _ & Htr) & _). fold s in Hw0, D2, Hsh, Hs3, Htr.
  rewrite (wiped_unique _ _ _ _ _ Hw0' Hw0) in *. match type of E1 with _ = Some (_, ?st) => destruct (restore_overlay_wp m s st Hs3 Ho3) as ([] & g2 & E2 & gf3 & -> & Hw3 & _) end. cbn in Hw3.
  assert (gf3 = gf2) as -> by (eapply wiped_unique; [exact Hw3|]; by apply (Htr at_)).
  eexists _, _, _. split; [exact E0|]. split; [exact E1|]. split; [done|]. split; [exact E2|]. cbn. intros x y [Hx Hy].
  pose proof (dr_ok _ _ (sc_draw _ _ _ Hs)) as Hok. pose proof (dr_ok _ _ (sc_draw _ _ _ Hb)) as Hokb. destruct Hs as [_ Ew Eh], Hb as [Hdrw Ew' Eh']. assert (Hon : on s x y) by (split; lia). assert (Honb : on (backbuffer g) x y) by (split; lia).
  specialize (Hsh Hdj Hsf). rewrite (outside_pixels s (backbuffer g) gf1 gf2 _ x y Hok Hokb Hdj D2 Honb). destruct Hsh as [_ P]. rewrite (pt_pixel _ _ _ _ P x y Hon).
  case_bool_decide; [|by apply (outside_pixels (backbuffer g) s gf0 gf1 _ x y Hokb Hok (disjoint_sym _ _ Hdj) D1 Hon)].
  destruct (pixel_is_Some (backbuffer g) Hokb (gmem gf1) x y) as [v Hv]; [|done|by rewrite Hv].
  destruct D1 as (f & P1 & _). eapply painted_mapped; [exact P1|]. intros a Ha. destruct (restore_overlay_wp m s g) as (? & ? & E' & gf' & -> & Hw' & _ & Hk' & _); [by apply (di_screen _ _ _ _ _ (dk_display _ _ Hg))|done|].
  rewrite <- (wiped_unique _ _ _ _ _ Hw0 Hw') in Hk'. by apply Hk', (dr_mapped _ _ Hdrw).
Qed.
End painting.

(** ** The loop *)

Section rounds.
Context {K : Type} `{GuiKernelLaws K} (m : Metrics) (Hm : metrics_ok m).
Abbreviation G := (gui K).
Implicit Types g : G.
Abbreviation triple := (triple m).
Abbreviation keeps := (keeps m).
Abbreviation any := GuiSafe.any.

(** An operation that keeps the desktop in order, and the rest of a computation. *)
Lemma triple_step {A B} P (op : M G A) R P' (f : A → M G B) (Q : B → G → Prop) g : triple P op R P' →
  (∀ a g', R a → desk_ok m g' → P' (apps_looks (g_apps g')) → wp (f a) Q g') → desk_ok m g → P (apps_looks (g_apps g)) → wp (op ≫= f) Q g.
Proof. intros Hop Hf Hg Hl. wp_step. eapply wp_mono; [by apply Hop|]. intros a g' (? & ? & ?). by apply Hf. Qed.

(** Painting leaves nothing to be painted. *)
Lemma flush_clean P g : desk_ok m g → P (apps_looks (g_apps g)) → wp flush_dirty (λ _ g', desk_ok m g' ∧ P (apps_looks (g_apps g')) ∧ g_apps g' = g_apps g ∧ dirty (g_paint g') = false) g.
Proof.
  intros Hg Hl. destruct (dirty (g_paint g)) eqn:Ed.
  - eapply wp_mono; [by apply (flush_dirty_wp m Hm)|]. intros [] g' (gf0 & k1 & gf1 & gf2 & k & o & gf & -> & _ & _ & _ & _ & Hc1 & (Hc & Hs & Ho & _ & _ & _) & Hk & E). cbn in Hc. split; [|done].
    destruct Hg. split; try done; cbn; [eapply calls_ok, calls_trans; [exact Hc1|exact Hc]|unfold dirty_ok; cbn; destruct Hm; lia|]. by eapply display_after; [..|apply Hs|exact E|].
  - pose proof Hg as [Em Ha Hk Hw Hz Hp Hd Hdi]. pose proof Hdi as [Hr Hs _ _ Has Ho]. unfold flush_dirty, graphics_primary_surface_mut. unfold on_gfx at 1. do 3 wp_step. rewrite Hr.
    assert (set_g_gfx (g_gfx g) g = g) as -> by by destruct g. do 2 wp_step. rewrite Ed. eapply wp_mono; [by apply (redraw_wp m)|]. intros [] g' (k & o & gf & -> & Hc & Hs' & Ho' & Hkm & Eg & _). cbn. split; [|done].
    split; try done; [by eapply calls_ok|]. cbn. eapply display_after; [exact Hdi|done|apply Hs'|done|done].
Qed.
Lemma flush_keeps : keeps flush_dirty any.
Proof. intros P g Hg Hl. eapply wp_mono; [by apply (flush_clean P)|]. by intros [] g' (? & ? & _). Qed.

(** What the input layer promises: events on the screen. *)
Definition poll_ok : Prop := quiet (K := K) k_input_poll_event (λ r, ∀ e, r = Some e → event_ok m e).

Section loop.
Context (usermode_run_program : list Z → M G Z) (Hrun : programs_end m usermode_run_program) (Hpoll : poll_ok).

(** [served n g es lost g']: from [g], the events [es] that k_input_poll_event delivers one
    after the other, at most [n] of them, are handled by handle_event in this order, up
    to [g']; [lost] is an event that was taken from the queue after [n] others, and is
    not handled. *)
Inductive served : nat → G → list gui_event → option gui_event → G → Prop :=
| served_empty n g g' : on_kernel k_input_poll_event g = Some (None, g') → served n g [] None g'
| served_lost g e g' : on_kernel k_input_poll_event g = Some (Some e, g') → served 0 g [] (Some e) g'
| served_event n g e g1 g2 es lost g' : on_kernel k_input_poll_event g = Some (Some e, g1) → handle_event usermode_run_program e g1 = Some (tt, g2) →
    served n g2 es lost g' → served (S n) g (e :: es) lost g'.

Lemma drain_served n e g : (n ≤ 64)%nat → desk_ok m g → single (apps_looks (g_apps g)) →
  wp (iterate (S (S n)) (λ '(drained, event), r ← on_kernel k_input_poll_event;
    match r with None => mret (inr event) | Some event => if drained <? 64 then _ ← handle_event usermode_run_program event; mret (inl (drained + 1, event)) else mret (inr event) end) (64 - Z.of_nat n, e))
    (λ _ g', desk_ok m g' ∧ single (apps_looks (g_apps g')) ∧ ∃ es lost, served n g es lost g' ∧ Forall (event_ok m) es) g.
Proof.
  revert e g. induction n as [|n IH]; intros e g Hn Hg Hl; cbn [iterate]; do 2 wp_step;
    (destruct (kernel_keeps m _ _ (quiet_total _ _ Hpoll) single g Hg Hl) as (r & g1 & E & Hg1 & Hr & Hl1); exists r, g1; split; [exact E|]); (destruct r as [e1|]; [|do 2 wp_step; split; [done|]; split; [done|]; exists [], None; split; [by constructor|constructor]]).
  - destruct (Z.ltb_spec (64 - Z.of_nat 0) 64); [lia|]. do 2 wp_step. split; [done|]. split; [done|]. exists [], (Some e1). split; [by constructor|constructor].
  - destruct (Z.ltb_spec (64 - Z.of_nat (S n)) 64); [|lia]. wp_step. destruct (handle_event_triple m Hm usermode_run_program Hrun e1 (Hr _ eq_refl) g1 Hg1 Hl1) as ([] & g2 & E2 & Hg2 & _ & Hl2).
    exists tt, g2. split; [exact E2|]. wp_step. replace (64 - Z.of_nat (S n) + 1) with (64 - Z.of_nat n) by lia. eapply wp_mono; [apply IH; [lia|done|done]|]. intros last g3 (Hg3 & Hl3 & es & lost & Hs & Hes).
    split; [done|]. split; [done|]. exists (e1 :: es), lost. split; [by eapply served_event|]. constructor; [by apply Hr|done].
Qed.

Lemma tick_event_triple e t : triple single (handle_event usermode_run_program (tick_event e t)) any single.
Proof. apply mark_dirty_keeps. Qed.

Lemma round_wp e st g : desk_ok m g → single (apps_looks (g_apps g)) →
  wp (run_round usermode_run_program e st) (λ _ g', (desk_ok m g' ∧ single (apps_looks (g_apps g')) ∧ dirty (g_paint g') = false) ∧ ∃ es lost g1, served 64 g es lost g1 ∧ Forall (event_ok m) es) g.
Proof.
  intros Hg Hl. destruct st as [second0 report0]. unfold run_round. wp_step. eapply wp_mono; [exact (drain_served 64 e g (le_n 64) Hg Hl)|]. intros e1 g1 (Hg1 & Hl1 & es & lost & Hs & Hes).
  apply (wp_mono _ (λ _ g', desk_ok m g' ∧ single (apps_looks (g_apps g')) ∧ dirty (g_paint g') = false)); [|intros r g' Hr; split; [done|]; by exists es, lost, g1].
  clear Hs Hes Hg Hl g. revert g1 Hg1 Hl1. assert (Hend : ∀ r g, desk_ok m g → single (apps_looks (g_apps g)) → wp (_ ← flush_dirty; mret r) (λ _ g', desk_ok m g' ∧ single (apps_looks (g_apps g')) ∧ dirty (g_paint g') = false) (A := Z * Z) g).
  { intros r g Hg Hl. wp_step. eapply wp_mono; [by apply (flush_clean single)|]. intros [] g' (? & ? & _ & ?). by wp_step. }
  intros g. apply (triple_step single _ is_u32 single); [apply kernel_keeps, quiet_total, uptime_quiet|]. clear g. intros second g _. apply (triple_step single _ any single).
  { destruct (second =? second0); [by apply triple_ret|]. eapply triple_keeps; [apply kernel_keeps, quiet_total, ticks_quiet|]. intros t _. eapply triple_bind; [apply tick_event_triple|]. intros _ _. by apply triple_ret. }
  clear g. intros second1 g _. apply (triple_step single _ is_u32 single); [apply kernel_keeps, quiet_total, ticks_quiet|]. clear g. intros tick g _. apply (triple_step single _ any single).
  { destruct (100 <=? _); [|by apply triple_ret]. eapply (triple_keeps m _ _ _ any); [by apply keeps_gets|]. intros n _. eapply (triple_keeps m _ _ _ any); [apply keeps_when; intros _; by apply serial_keeps, c_line_text|]. intros _ _.
    eapply (triple_keeps m _ _ _ any); [|intros _ _; by apply triple_ret]. apply keeps_modify; [done|]. intros g' []. by split. }
  clear g. intros report g _. apply Hend.
Qed.

Lemma rounds_wp es st g : desk_ok m g → single (apps_looks (g_apps g)) → dirty (g_paint g) = false →
  wp (run_rounds usermode_run_program es st) (λ _ g', desk_ok m g' ∧ single (apps_looks (g_apps g')) ∧ dirty (g_paint g') = false) g.
Proof.
  revert st g. induction es as [|e es IH]; intros st g Hg Hl Hd; cbn [run_rounds]; [by wp_step|]. wp_step. eapply wp_mono; [by apply round_wp|]. intros st' g' [(Hg' & Hl' & Hd') _]. by apply IH.
Qed.

Lemma ask_wp {A} (op : M K Z) R (f : Z → M G A) (Q : A → G → Prop) g : quiet op R → desk_ok m g → (∀ n k, desk_ok m (set_kern k g) → wp (f n) Q (set_kern k g)) → wp (on_kernel op ≫= f) Q g.
Proof.
  intros Hop Hg Hf. wp_step. apply wp_zoom. eapply wp_mono; [apply Hop, Hg|]. intros n k [[[Hk _] _] _]. apply Hf. destruct Hg. by split.
Qed.
Lemma run_wp es g : desk_ok m g → single (apps_looks (g_apps g)) → dirty (g_paint g) = false →
  wp (run usermode_run_program es) (λ _ g', desk_ok m g' ∧ single (apps_looks (g_apps g')) ∧ dirty (g_paint g') = false) g.
Proof.
  intros Hg Hl Hd. unfold run. apply (ask_wp _ _ _ _ _ uptime_quiet Hg). intros second k1 Hg1. apply (ask_wp _ _ _ _ _ ticks_quiet Hg1). intros ticks k2 Hg2. by apply rounds_wp.
Qed.

End loop.
End rounds.

(** ** Initialization *)

(** The arrays of the applications have their sizes; the command line ends with a zero. *)
Record arrays_ok (a : apps) : Prop := {
  ar_lines : length (t_lines (terminal_ a)) = 96%nat ∧ Forall (λ r, length r = 161%nat) (t_lines (terminal_ a));
  ar_command : length (t_command (terminal_ a)) = 96%nat ∧ Forall is_u8 (t_command (terminal_ a)) ∧ t_command (terminal_ a) !! 95%nat = Some 0;
  ar_history : length (t_history (terminal_ a)) = 8%nat ∧ Forall (λ r, length r = 96%nat) (t_history (terminal_ a));
  ar_path : length (np_path (notepad_ a)) = 32%nat;
  ar_buffer : length (np_buffer (notepad_ a)) = 2049%nat ∧ Forall is_u8 (np_buffer (notepad_ a)) }.

Definition shut (w : Window) : Prop := wopen w = false ∧ wfocused w = false.
Lemma reset_ok m w : placed m (win_rect w) → window_ok m (reset_window w) ∧ shut (reset_window w).
Proof. intros Hp. split; [|done]. by split. Qed.

Section initialize.
Context (m : Metrics) (Hm : metrics_ok m).

Lemma terminal_initialize_wp a : arrays_ok a → wp (terminal_initialize m) (λ _ t', term_ok m t' [] ∧ shut (t_window t')) (terminal_ a).
Proof.
  intros [[Hl Hr] (Hc1 & Hc2 & Hc3) Hh _ _]. set (t := terminal_ a) in *. unfold terminal_initialize, term_geometry, term_window. destruct (terminal_geometry_ok m (t_window t) Hm) as (w & E & Hp & _).
  do 4 wp_step. eapply wp_lift; [exact E|]. repeat wp_step. eapply wp_mono; [by apply clear_buffer_wp|]. intros [] t' (Hs & Ho & Hz). destruct (reset_ok m w Hp) as [Hw Hsh].
  rewrite Ho. cbn. split; [|done]. split; cbn; [done| | | |lia].
  - rewrite Ho in Hs, Hz. split; [by exists empty_sheet|]. cbn in *. rewrite Hz. rewrite (sh_count _ _ Hs : t_line_count t' = _). cbn. lia.
  - split; cbn; [done|done|done|lia].
  - split; cbn; [done|done|]. intros i str Hi. by rewrite lookup_nil in Hi.
Qed.
Lemma utility_initialize_wp kind u : wp (utility_initialize kind m) (λ _ u', window_ok m (u_window u') ∧ shut (u_window u')) u.
Proof.
  unfold utility_initialize, u_default_geometry, u_on_window. do 4 wp_step. destruct (utility_geometry_ok kind m (u_window u) Hm) as (w & E & Hp & _). repeat wp_step. by apply reset_ok.
Qed.
Lemma notepad_initialize_wp a : arrays_ok a → wp (notepad_initialize m) (λ _ n', np_ok m n' [] [] ∧ shut (np_window n')) (notepad_ a).
Proof.
  intros [_ _ _ Hp [Hb Hu]]. set (n := notepad_ a) in *. unfold notepad_initialize, default_geometry, on_window. destruct (notepad_geometry_ok m (np_window n) Hm) as (w & E & Hpl & _).
  do 4 wp_step. eapply wp_lift; [exact E|]. do 3 wp_step. apply wp_bind, put_path_wp; [cbn; lia|]. eapply wp_mono; [by apply no_text_wp|]. intros [] n' (Ht & Ew & Ep). cbn in Ew, Ep. destruct (reset_ok m w Hpl) as [Hw Hs].
  rewrite Ew. split; [|done]. split; [by rewrite Ew|done| |by rewrite Ep, length_insert]. exists []. rewrite Ep. destruct (np_path n) as [|c rest]; [done|]. by apply (text_in_app []).
Qed.
End initialize.

Section boot.
Context {K : Type} `{GuiKernelLaws K} {HA : AssetFiles K}.
Abbreviation G := (gui K).
Implicit Types g : G.

Lemma screen_grows m s gf mm : screen_of m s gf → grows (gmem gf) mm → screen_of m s (set_gmem mm gf).
Proof. intros [[] ? ?] [Hb Hk]. split; [|done|done]. split; [done| |done]. intros a Ha. by apply Hk, dr_mapped. Qed.

(** What initialize() relies on, for the screen [s]: kmalloc answers 0 or a block of memory
    apart from the screen, and the files of the images do not lie about their size. *)
Record boots (s : graphics_surface) (kmalloc : Z → M G Z) (kfree : Z → M G unit) (mouse_set_bounds : Z → Z → M K unit) (input_initialize : M K unit) (stack : list Z) : Prop := {
  bs_kmalloc n g : 0 ≤ n < 2 ^ 32 → primary_surface (g_gfx g) = s → bytes_ok (gmem (g_gfx g)) → wp (kmalloc n) (λ a g', ∃ mm, g' = set_g_gfx (set_gmem mm (g_gfx g)) g ∧ grows (gmem (g_gfx g)) mm ∧
    (a = 0 ∨ (0 < a ∧ a + n ≤ 2 ^ 32 ∧ mapped mm a n ∧ (a + n ≤ pixels s ∨ pixels s + height s * pitch s ≤ a)))) g;
  bs_mouse x y : total (mouse_set_bounds x y) (λ _, True);
  bs_input : total input_initialize (λ _, True);
  bs_loader : loader_laws kmalloc kfree stack }.

(** The object as the compiler initializes it, on a machine whose screen the desktop is
    made for. *)
Definition screen_metrics (s : graphics_surface) : Metrics := MkMetrics (width s) (height s) (if 480 <=? height s then 30 else 22).
Record cold (g : G) : Prop := {
  cd_kernel : kernel_ok (kern g);
  cd_arrays : arrays_ok (g_apps g);
  cd_wm : wm_ok (wm g);
  cd_z : is_u32 (z_counter g);
  cd_press : 0 ≤ press_x (g_pointer g) ≤ 16384 ∧ 0 ≤ press_y (g_pointer g) ≤ 16384;
  cd_saved : Z.of_nat (length (ov_background (g_overlay g))) = 16384 ∧ Forall is_u8 (ov_background (g_overlay g));
  cd_assets : assets_ok (g_assets g) (gmem (g_gfx g));
  cd_ready : primary_surface_ready (g_gfx g) = true;
  cd_screen : drawable (primary_surface (g_gfx g)) (g_gfx g);
  cd_width : 320 ≤ width (primary_surface (g_gfx g)) ≤ 16384;
  cd_height : 200 ≤ height (primary_surface (g_gfx g)) ≤ 16384 }.

Lemma screen_metrics_ok g : cold g → metrics_ok (screen_metrics (primary_surface (g_gfx g))).
Proof. intros []. unfold screen_metrics. destruct (Z.leb_spec 480 (height (primary_surface (g_gfx g)))); split; cbn; lia. Qed.

Lemma initialize_apps_wp m g : metrics g = m → metrics_ok m → arrays_ok (g_apps g) → wp initialize_apps (λ _ g', ∃ a, g' = set_g_apps a g ∧ apps_ok m a ∧ Forall (λ p, shut p.1) (windows a)) g.
Proof.
  intros Em Hm Ha. unfold initialize_apps. do 2 wp_step. rewrite Em.
  apply wp_bind, wp_zoom. eapply wp_mono; [by apply terminal_initialize_wp|]. intros [] t [Ht Hts]. cbn.
  apply wp_bind, wp_zoom. eapply wp_mono; [by apply utility_initialize_wp|]. intros [] f [Hf Hfs]. cbn.
  apply wp_bind, wp_zoom. eapply wp_mono; [by apply utility_initialize_wp|]. intros [] o [Ho Hos]. cbn.
  apply wp_bind, wp_zoom. eapply wp_mono; [by apply utility_initialize_wp|]. intros [] b [Hb Hbs]. cbn.
  apply wp_zoom. cbn. eapply wp_mono; [by apply notepad_initialize_wp|]. intros [] n [Hn Hns]. cbn.
  exists (Apps t f o b n). split; [by destruct g|]. split; [split; cbn; eauto|]. unfold windows. rewrite !Forall_cons, Forall_nil. cbn. by split_and!.
Qed.

Section start.
Context (kmalloc : Z → M G Z) (kfree : Z → M G unit) (mouse_set_bounds : Z → Z → M K unit) (input_initialize : M K unit) (stack : list Z).

(** The back buffer that the screen gets. *)
Lemma initialize_screen_wp g : let s := primary_surface (g_gfx g) in let m := screen_metrics s in cold g → boots s kmalloc kfree mouse_set_bounds input_initialize stack →
  wp (initialize_screen kmalloc mouse_set_bounds) (λ _ g', ∃ k b mm, g' = set_kern k (set_backbuffer b (set_g_gfx (set_gmem mm (g_gfx g)) (set_metrics m g))) ∧ kernel_ok k ∧ grows (gmem (g_gfx g)) mm ∧
    screen_of m s (set_gmem mm (g_gfx g)) ∧ screen_of m b (set_gmem mm (g_gfx g)) ∧ (b = s ∨ disjoint_surfaces s b)) g.
Proof.
  intros s m Hg Hb. pose proof Hg as []. unfold initialize_screen, graphics_primary_surface_mut. apply wp_bind, wp_zoom, wp_gets. rewrite cd_ready0. assert (set_g_gfx (g_gfx g) g = g) as -> by by destruct g. fold s. fold (screen_metrics s). fold m.
  assert (Hs : screen_of m s (g_gfx g)) by by split. pose proof (dr_ok _ _ cd_screen0) as Hok. fold s in Hok. pose proof Hok as [_ ? ? ? Hpi He].
  assert (Esz : pitch s *% height s = height s * pitch s) by (rewrite Z.mul_comm; apply u32_small; destruct (bpp_cases s Hok) as [_ Hbp]; unfold is_u32; nia). rewrite Esz.
  do 2 wp_step. wp_step. eapply wp_mono; [apply (bs_kmalloc _ _ _ _ _ _ Hb); cbn; [destruct (bpp_cases s Hok) as [_ Hbp]; nia|done|apply cd_screen0]|]. cbn. intros a g1 (mm & -> & Hgr & Ha). cbn.
  pose proof (screen_grows m s _ mm Hs Hgr) as Hs1. set (b := if a =? 0 then s else Surface a (width s) (height s) (pitch s) (bits_per_pixel s) (format s)).
  assert (Hback : screen_of m b (set_gmem mm (g_gfx g)) ∧ (b = s ∨ disjoint_surfaces s b)).
  { unfold b. destruct (Z.eqb_spec a 0); [split; [done|by left]|]. destruct Ha as [|(Ha & Hae & Hmp & Hd)]; [done|]. split; [|right; unfold disjoint_surfaces; cbn; tauto].
    split; [|done|done]. split; [destruct Hok; split; cbn; done|exact Hmp|apply Hgr]. }
  wp_step. apply (wp_mono _ (λ _ g', g' = set_backbuffer b (set_g_gfx (set_gmem mm (g_gfx g)) (set_metrics m g)))); [unfold b; destruct (a =? 0); by wp_step|]. intros [] g1 ->. do 2 wp_step.
  apply wp_zoom. eapply wp_mono; [by apply (bs_mouse _ _ _ _ _ _ Hb)|]. intros [] k [[Hk _] _]. cbn. exists k, b, mm. split; [by destruct g|]. done.
Qed.

Lemma shut_single a : Forall (λ p, shut p.1) (windows a) → single (apps_looks a).
Proof. unfold windows, shut. rewrite !Forall_cons. cbn. intros ([? ?] & [? ?] & [? ?] & [? ?] & [? ?] & _). exists AppNone. intros app. unfold is_focused. destruct app; cbn; congruence. Qed.

Lemma shut_looks a a' : Forall (λ p, shut p.1) (windows a) → apps_looks a' = apps_looks a → Forall (λ p, shut p.1) (windows a').
Proof.
  unfold windows, shut. rewrite !Forall_cons. cbn. intros ([? ?] & [? ?] & [? ?] & [? ?] & [? ?] & _). unfold apps_looks, look_of. intros [=]. split_and!; try constructor; congruence.
Qed.

(** From the compiled-in state to a desktop in order. *)
Lemma gui_initialize_wp g : let m := screen_metrics (primary_surface (g_gfx g)) in cold g → boots (primary_surface (g_gfx g)) kmalloc kfree mouse_set_bounds input_initialize stack →
  wp (initialize kmalloc kfree mouse_set_bounds input_initialize stack) (λ _ g', gui_ok m g' ∧ Forall (λ p, shut p.1) (windows (g_apps g')) ∧ dirty (g_paint g') = false) g.
Proof.
  intros m Hg Hb. pose proof (screen_metrics_ok g Hg) as Hm. fold m in Hm. pose proof Hg as []. unfold initialize. wp_step. eapply wp_mono; [by apply initialize_screen_wp|].
  intros [] g1 (k & b & mm & -> & Hk & Hgr & Hs & Hback & Hap). fold m in Hs, Hback |- *. wp_step. eapply wp_mono; [by apply (initialize_apps_wp m)|]. intros [] g2 (a & -> & Ha & Hsh). cbn.
  unfold end_pointer, on_pointer. do 20 wp_step. wp_step. eapply wp_mono; [apply (assets_initialize_wp _ _ _ (bs_loader _ _ _ _ _ _ Hb)); [done|apply Hgr|by eapply assets_grow]|]. intros [] g3 (k3 & as3 & mm3 & -> & Hk3 & Hgr3 & Has). cbn in Hgr3 |- *.
  do 4 wp_step.
  match goal with |- wp _ _ ?st => assert (Hok : desk_ok m st) end.
  { split; cbn; [done|done|done|by destruct cd_wm0|done|split; cbn; lia|unfold dirty_ok; cbn; destruct Hm; lia|].
    assert (Hgr' : ∀ t, screen_of m t (set_gmem mm (g_gfx g)) → screen_of m t (set_gmem mm3 (g_gfx g))) by (intros t Ht; by apply (screen_grows m t _ mm3) in Ht).
    split; cbn; [done|by apply Hgr'|by apply Hgr'|done|done|]. split; cbn; [done|apply cd_saved0|apply cd_saved0]. }
  revert Hok. match goal with |- desk_ok m ?st → _ => assert (Hlk : apps_looks (g_apps st) = apps_looks a) by done; generalize st, Hlk end. clear Hlk. intros g4 Hl4 Hg4.
  assert (Hstep : ∀ {A B} (op : M G A) R (f : A → M G B) (Q : B → G → Prop) g, keeps m op R → (∀ x g', R x → desk_ok m g' → apps_looks (g_apps g') = apps_looks a → wp (f x) Q g') →
    desk_ok m g → apps_looks (g_apps g) = apps_looks a → wp (op ≫= f) Q g) by (intros A B op R f Q g' Hop Hf; exact (triple_step m (λ l, l = apps_looks a) op R _ f Q g' (Hop _) Hf)).
  revert g4 Hg4 Hl4. do 2 (intros g4; apply (Hstep _ _ _ GuiSafe.any); [by apply serial_keeps, c_line_text|]; clear g4; intros _ g4 _; revert g4).
  intros g4. eapply Hstep; [apply metrics_keeps|]. clear g4. intros ? g4 ->. apply (Hstep _ _ _ GuiSafe.any); [apply keeps_when; intros _; by apply serial_keeps, c_line_text|]. clear g4. intros _ g4 _.
  eapply Hstep; [apply kernel_keeps, (bs_input _ _ _ _ _ _ Hb)|]. clear g4. intros _ g4 _ Hg4 Hl4. eapply wp_mono; [apply (flush_clean m Hm (λ l, l = apps_looks a)); done|].
  intros [] g5 (Hg5 & El & _ & Hd). split_and!; [split; [done|rewrite El; by apply shut_single]| |done]. by apply (shut_looks a).
Qed.

End start.

End boot.
