(* ===== verification/GuiDemo.v ===== *)
(** * A desktop that runs

    A small kernel below the desktop: files in a map, a clock that stands still, a mouse
    at a fixed place. With it the statements about the desktop are applied to concrete
    states of 320 by 200 pixels. *)

From Stdlib Require Import ZArith Lia Bool String.
From stdpp Require Import base numbers list gmap.
From S2P Require Import DiskCache Diskfs DiskfsInv DiskfsPath DiskfsData DiskfsOps DiskfsFiles DiskfsProps Prelude Keyboard Input Rtc Runtime Windows GuiKernel Notepad Terminal UtilityApps Memory Graphics GraphicsPaint GraphicsBlit Display Assets GuiState AssetsLoad GuiApps GuiOverlay GuiSafe GuiSafeApps GuiSafeCommands Gui GuiProps GuiDraw GuiDrawSafe GuiRun GuiRunProps.

Definition small_metrics : Metrics := MkMetrics 320 200 22.
Lemma small_metrics_ok : metrics_ok small_metrics.
Proof. split; cbn; lia. Qed.

(** ** The kernel *)

Record small_kernel := SmallKernel { sk_files : gmap (list Z) (list Z); sk_serial : list Z; sk_ticks : Z; sk_mouse : Z * Z; sk_queue : list gui_event }.
Definition set_sk_files v k := SmallKernel v (sk_serial k) (sk_ticks k) (sk_mouse k) (sk_queue k).
Definition set_sk_serial v k := SmallKernel (sk_files k) v (sk_ticks k) (sk_mouse k) (sk_queue k).
Definition set_sk_queue v k := SmallKernel (sk_files k) (sk_serial k) (sk_ticks k) (sk_mouse k) v.

Definition sk_names (k : small_kernel) : list (list Z) := fst <$> map_to_list (sk_files k).
Definition sk_string (path : list Z) : M small_kernel (list Z) := lift (cstring path).

#[export] Instance small_kernel_ops : GuiKernel small_kernel := {|
  k_serial_writestring text := str ← sk_string text; modify (λ k, set_sk_serial (sk_serial k ++ str) k);
  k_timer_ticks := gets sk_ticks;
  k_timer_uptime_seconds := k ← gets id; mret (sk_ticks k / 100);
  k_pmm_free_pages := mret 1000;
  k_heap_free_bytes := mret 65536;
  k_scheduler_switch_count := mret 7;
  k_user_process_count := mret 0;
  k_pci_device_count := mret 3;
  k_diskfs_file_count := gets (λ k, Z.of_nat (length (sk_names k)));
  k_diskfs_file_name i := gets (λ k, default [] (sk_names k !! Z.to_nat i) ++ [0]);
  k_diskfs_read_file path := str ← sk_string path; gets (λ k, c ← sk_files k !! str; Some (c ++ [0], Z.of_nat (length c)));
  k_diskfs_write_file path buf size := str ← sk_string path; fs ← gets sk_files;
    if (Z.of_nat (length str) <? 65536) && (Z.of_nat (stdpp.base.size (<[str := take (Z.to_nat size) buf]> fs)) <=? 4096)
    then _ ← modify (set_sk_files (<[str := take (Z.to_nat size) buf]> fs)); mret true else mret false;
  k_diskfs_delete_file path := str ← sk_string path; fs ← gets sk_files; _ ← modify (set_sk_files (delete str fs)); mret (bool_decide (is_Some (fs !! str)));
  k_diskfs_rename_file old new := a ← sk_string old; b ← sk_string new; fs ← gets sk_files;
    match fs !! a with
    | Some c => if bool_decide (fs !! b = None) then _ ← modify (set_sk_files (<[b := c]> (delete a fs))); mret true else mret false
    | None => mret false
    end;
  k_diskfs_truncate_file path size := str ← sk_string path; fs ← gets sk_files;
    match fs !! str with
    | Some c => if size <? 16384 then _ ← modify (set_sk_files (<[str := take (Z.to_nat size) (c ++ replicate (Z.to_nat size) 0)]> fs)); mret true else mret false
    | None => mret false
    end;
  k_diskfs_fsck _ := mret (0, c_line "clean");
  k_mouse_x := gets (λ k, fst (sk_mouse k));
  k_mouse_y := gets (λ k, snd (sk_mouse k));
  k_power_shutdown := mret tt;
  k_power_restart := mret tt;
  k_rtc_read_datetime := mret None;
  k_input_poll_event := q ← gets sk_queue; match q with [] => mret None | e :: q => _ ← modify (set_sk_queue q); mret (Some e) end |}.

(** A file as the kernel keeps it. *)
Definition file_ok (p c : list Z) : Prop := Forall (λ x, 0 < x < 256) p ∧ Z.of_nat (length p) < 65536 ∧ Forall is_u8 c ∧ Z.of_nat (length c) < 16384.
Record small_ok (k : small_kernel) : Prop := {
  so_files : map_Forall file_ok (sk_files k);
  so_count : Z.of_nat (size (sk_files k)) ≤ 4096;
  so_ticks : is_u32 (sk_ticks k);
  so_mouse : 0 ≤ fst (sk_mouse k) ≤ 16384 ∧ 0 ≤ snd (sk_mouse k) ≤ 16384;
  so_queue : Forall (event_ok small_metrics) (sk_queue k) }.

#[export] Instance small_kernel_files : GuiFiles small_kernel := {|
  kernel_ok := small_ok; files_work _ := True; path_plain _ _ := True;
  room_for k p _ := Z.of_nat (length p) < 65536 ∧ Z.of_nat (size (sk_files k)) < 4096; file_has k p c := sk_files k !! p = Some c |}.

Lemma small_same {A} (a : A) (R : A → Prop) (k : small_kernel) : kernel_ok k → R a → (goes_on k k ∧ same_files k k) ∧ R a.
Proof. intros Hk Ha. split; [|done]. split; [by apply goes_on_refl|by intros p c]. Qed.
Lemma small_files_ok k fs : small_ok k → map_Forall file_ok fs → Z.of_nat (size fs) ≤ 4096 → goes_on k (set_sk_files fs k).
Proof. intros [] ? ?. split; [by split|done]. Qed.
Lemma sk_string_wp path str (Q : list Z → small_kernel → Prop) k : text_in path str → Q str k → wp (sk_string path) Q k.
Proof. intros [E _] HQ. by eapply wp_lift. Qed.
Lemma names_text k i : small_ok k → is_text (default [] (sk_names k !! i) ++ [0]).
Proof.
  intros Hk. unfold sk_names. rewrite list_lookup_fmap. destruct (map_to_list (sk_files k) !! i) as [[p c]|] eqn:E; cbn.
  - apply list_elem_of_lookup_2, elem_of_map_to_list, (so_files _ Hk) in E as (? & ? & _). exists p. split; [by apply text_in_app|done].
  - exists []. split; [|done]. by apply (text_in_app []).
Qed.
Lemma text_is_name path str : text_in path str → Forall (λ x, 0 < x < 256) str.
Proof. by intros (rest & _ & Hs)%text_in_inv. Qed.

#[export, program] Instance small_device_laws : GuiDeviceLaws small_kernel.
Next Obligation. intros data (str & Ht & _) k Hk. cbn. wp_step. eapply sk_string_wp; [exact Ht|]. wp_step. split; [|done]. split; [|by intros p c Hc]. destruct Hk. split; [by split|done]. Qed.
Next Obligation. intros k Hk. apply wp_gets, small_same; [done|apply Hk]. Qed.
Next Obligation. intros k Hk. cbn. do 3 wp_step. apply small_same; [done|]. unfold id. destruct (so_ticks _ Hk). split; [apply Z.div_pos; lia|apply Z.div_lt_upper_bound; unfold id; lia]. Qed.
Next Obligation. intros k Hk. by apply wp_ret, small_same. Qed.
Next Obligation. intros k Hk. by apply wp_ret, small_same. Qed.
Next Obligation. intros k Hk. by apply wp_ret, small_same. Qed.
Next Obligation. intros k Hk. by apply wp_ret, small_same. Qed.
Next Obligation. intros k Hk. by apply wp_ret, small_same. Qed.
Next Obligation. intros k Hk. apply wp_gets, small_same; [done|apply Hk]. Qed.
Next Obligation. intros k Hk. apply wp_gets, small_same; [done|apply Hk]. Qed.
Next Obligation. intros k Hk. apply wp_ret. by apply (small_same tt (λ _, True)). Qed.
Next Obligation. intros k Hk. apply wp_ret. by apply (small_same tt (λ _, True)). Qed.
Next Obligation. intros k Hk. apply wp_ret. split; [by apply (small_same tt (λ _, True))|done]. Qed.
#[export, program] Instance small_file_laws : GuiFileLaws small_kernel.
Next Obligation. intros k Hk. apply wp_gets, small_same; [done|]. unfold sk_names. rewrite length_fmap, length_map_to_list. pose proof (so_count _ Hk). lia. Qed.
Next Obligation. intros i Hi k Hk. apply wp_gets, small_same; [done|by apply names_text]. Qed.
Next Obligation. intros n Hn k Hk. apply wp_ret, small_same; [done|]. split; [done|by apply c_line_text]. Qed.
Next Obligation.
  intros path str k Ht Hk. cbn. wp_step. eapply sk_string_wp; [exact Ht|]. wp_step. apply (small_same _ (λ r, match r with Some (data, size) => _ | None => _ end)); [done|].
  destruct (sk_files k !! str) as [c|] eqn:E; cbn; [|by intros _ c Hc]. destruct (so_files _ Hk str c E) as (_ & _ & Hu & Hl). rewrite length_app. cbn. split_and!; [lia|lia|lia|apply Forall_app; split; [done|by repeat constructor]|intros _; rewrite Nat2Z.id, lookup_app_r, Nat.sub_diag by lia; done|].
  intros c' Hc'. injection Hc' as ->. rewrite Nat2Z.id. by apply take_app_length.
Qed.
Next Obligation.
  intros path str buf size k Ht Hs Hb Hu Hk. cbn. wp_step. eapply sk_string_wp; [exact Ht|]. do 2 wp_step. pose proof (map_size_insert str (take (Z.to_nat size) buf) (sk_files k)) as Hins. destruct (_ && _) eqn:E.
  2: { wp_step. split; [by apply goes_on_refl|]. split; [done|]. intros _ [Hl Hn]. cbn in Hn. destruct (sk_files k !! str); cbn in Hins; bool_to_prop; lia. }
  bool_to_prop. do 3 wp_step. split; [|split; [intros _ _; apply lookup_insert_eq|done]]. clear Hins. apply small_files_ok; [done| |lia]. apply map_Forall_insert_2; [|apply Hk]. split; [by eapply text_is_name|]. split; [lia|]. split; [by apply Forall_take|].
  rewrite length_take. lia.
Qed.
Next Obligation.
  intros path (str & Ht & Hl) k Hk. cbn. wp_step. eapply sk_string_wp; [exact Ht|]. do 5 wp_step. split; [|done]. apply small_files_ok; [done|by apply map_Forall_delete, Hk|]. pose proof (so_count _ Hk). rewrite map_size_delete. case_match; cbn; lia.
Qed.
Next Obligation.
  intros old new (a & Ha & _) (b & Hb & Hbl) k Hk. cbn. wp_step. eapply sk_string_wp; [exact Ha|]. wp_step. eapply sk_string_wp; [exact Hb|]. do 2 wp_step.
  destruct (sk_files k !! a) as [c|] eqn:E; [|wp_step; split; [by apply goes_on_refl|done]]. case_bool_decide as Eb; [|wp_step; split; [by apply goes_on_refl|done]]. do 3 wp_step. split; [|done].
  destruct (so_files _ Hk a c E) as (_ & _ & Hu & Hl). pose proof (so_count _ Hk). assert (0 < size (sk_files k))%nat by (apply map_size_non_empty_iff in Eb || (destruct (decide (sk_files k = ∅)) as [E0|E0]; [by rewrite E0 in E|apply map_size_non_empty_iff in E0; lia])).
  apply small_files_ok; [done|apply map_Forall_insert_2; [|by apply map_Forall_delete, Hk]; split; [by eapply text_is_name|done]|].
  rewrite map_size_insert_None by (by rewrite lookup_delete_None; right). rewrite map_size_delete_Some by done. lia.
Qed.
Next Obligation.
  intros path sz (str & Ht & _) Hsz k Hk. cbn. wp_step. eapply sk_string_wp; [exact Ht|]. do 2 wp_step. destruct (sk_files k !! str) as [c|] eqn:E; [|wp_step; split; [by apply goes_on_refl|done]].
  destruct (Z.ltb_spec sz 16384); [|wp_step; split; [by apply goes_on_refl|done]]. do 3 wp_step. split; [|done]. destruct (so_files _ Hk str c E) as (? & ? & Hu & Hl). unfold is_u32 in Hsz.
  apply small_files_ok; [done|apply map_Forall_insert_2; [|apply Hk]|pose proof (so_count _ Hk); by rewrite map_size_insert, E].
  split; [done|]. split; [done|]. split; [apply Forall_take, Forall_app; split; [done|by apply Forall_replicate]|]. rewrite length_take. lia.
Qed.
#[export] Instance small_kernel_laws : GuiKernelLaws small_kernel.
Proof. split; exact _. Qed.

(** ** A desktop *)


Definition fresh_terminal (w : Window) : terminal :=
  MkTerminal w (replicate 96 (blanks ++ [0])) 1 0 0 (replicate 96 0) 0 (replicate 8 (replicate 96 0)) 0 (-1).
Lemma fresh_shows w : shows (fresh_terminal w) empty_sheet.
Proof.
  split; cbn; [|done|done|done]. exists (replicate 95 blanks). change (kept [] ++ blanks :: replicate 95 blanks) with (replicate 96 blanks).
  split; [by unfold lines_of; rewrite fmap_replicate|]. split; [apply Forall_replicate, blanks_ok|by rewrite length_replicate].
Qed.
Lemma fresh_terminal_ok w : window_ok small_metrics w → term_ok small_metrics (fresh_terminal w) [].
Proof.
  intros Hw. split; cbn; [done|split; [eexists; apply fresh_shows|cbn; lia]| | |lia].
  - split; cbn; [done|by repeat constructor|done|lia].
  - split; cbn; [split; [done|by repeat constructor]|done|done].
Qed.

Definition fresh_notepad (w : Window) : notepad := MkNotepad w (bytes_of "/note.txt" ++ replicate 23 0) (replicate (Z.to_nat 2049) 0) 0 0 false false.
Lemma fresh_notepad_ok w : window_ok small_metrics w → np_ok small_metrics (fresh_notepad w) [] [].
Proof.
  intros Hw. split; [done| |exists (bytes_of "/note.txt"); apply (text_in_app _ (replicate 22 0)); by apply bytes_plain|done].
  split; cbn [np_buffer np_cursor np_length fresh_notepad]; [|by rewrite length_replicate|by apply Forall_replicate|done|done]. exists (replicate (Z.to_nat 2048) 0). reflexivity.
Qed.

Definition terminal_window : Window := MkWindow 10 10 200 120 10 10 200 120 true true Normal 3.
Definition files_window : Window := MkWindow 60 40 230 120 60 40 230 120 true false Normal 2.
Definition closed_window : Window := MkWindow 40 30 230 120 40 30 230 120 false false Normal 0.
Definition editor_window : Window := MkWindow 40 30 230 120 40 30 230 120 true true Normal 5.
Lemma small_window x y w h f o md z : placed small_metrics (MkRect x y w h) → (f = true → o = true) → is_u32 z → window_ok small_metrics (MkWindow x y w h x y w h o f md z).
Proof. by split. Qed.
Ltac window_solve := apply small_window; [split; cbn; lia|done|done].

Definition demo_apps : apps := Apps (fresh_terminal terminal_window) (MkUtility KindFiles files_window) (MkUtility KindMonitor closed_window) (MkUtility KindAbout closed_window) (fresh_notepad closed_window).
Lemma demo_apps_ok : apps_ok small_metrics demo_apps.
Proof. split; cbn; [eexists; apply fresh_terminal_ok; window_solve|window_solve|window_solve|window_solve|eexists _, _; apply fresh_notepad_ok; window_solve]. Qed.

Definition demo_kernel : small_kernel := SmallKernel {[ bytes_of "/motd" := bytes_of "welcome" ]} [] 500 (100, 60) [].
Lemma demo_kernel_ok : small_ok demo_kernel.
Proof.
  split; [|unfold demo_kernel; cbn [sk_files]; by rewrite map_size_singleton|done|done|by apply Forall_nil_2]. apply map_Forall_singleton. split; [by apply bytes_plain|]. split; [done|]. split; [by eapply Forall_impl; [by apply bytes_plain|unfold is_u8; intros; lia]|done].
Qed.

(** The screen of mode 13h, and a cursor of 12 by 16 pixels behind it. *)
Definition demo_cursor : asset_bitmap := AssetBitmap 12 16 MYIMG_ARGB32 1 1 768 0x200000.
Definition no_bitmap : asset_bitmap := AssetBitmap 0 0 0 0 0 0 0.
Definition demo_assets : assets := Assets no_bitmap demo_cursor no_bitmap.
Definition demo_memory : mem := vga_memory ∪ mem_block 0x200000 (Z.to_nat 768).
Definition demo_gfx : gfx := Gfx demo_memory vga_surface true.

Lemma demo_memory_vga a : 0xA0000 ≤ a < 0xA0000 + 64000 → is_Some (demo_memory !! a).
Proof. intros Ha. unfold demo_memory. rewrite lookup_union. rewrite (vga_memory_lookup a Ha). by destruct (mem_block _ _ !! a). Qed.
Lemma demo_memory_image a : 0x200000 ≤ a < 0x200000 + 768 → is_Some (demo_memory !! a).
Proof.
  intros Ha. unfold demo_memory. rewrite lookup_union, (mem_block_lookup 0x200000), decide_True by (rewrite Z2Nat.id; lia). by destruct (vga_memory !! a).
Qed.
Lemma bytes_union m1 m2 : bytes_ok m1 → bytes_ok m2 → bytes_ok (m1 ∪ m2).
Proof. intros Hb1 Hb2 a b. rewrite lookup_union_Some_raw. intros [E|[_ E]]; [exact (Hb1 a b E)|exact (Hb2 a b E)]. Qed.
Lemma demo_memory_bytes : bytes_ok demo_memory.
Proof. apply bytes_union; apply mem_block_bytes. Qed.
Lemma demo_screen : screen_of small_metrics vga_surface demo_gfx.
Proof.
  split; [|done|done]. split; [split; cbv; auto; congruence|intros a Ha; apply demo_memory_vga; exact Ha|apply demo_memory_bytes].
Qed.
Lemma demo_assets_ok : assets_ok demo_assets demo_memory.
Proof.
  split; [by left|right|by left]. split; cbn; [lia|lia|lia|split; [lia|]; vm_compute; congruence|]. intros a Ha. apply demo_memory_image. exact Ha.
Qed.

Definition demo_gui : gui small_kernel :=
  @Gui small_kernel small_metrics vga_surface (Wm false false 0 0) demo_apps (Pointer 0 0 (MkHit HitNone AppNone) 0 (-1000) (-1000) (-1) 0)
    (Paint true true (MkRect 0 0 0 0)) (Overlay false false (MkRect 0 0 0 0) (replicate (Z.to_nat 16384) 0)) false 5 0 0 demo_assets demo_gfx demo_kernel.

(** The same desktop with a back buffer of its own. *)
Definition back_surface : graphics_surface := Surface 0x300000 320 200 320 8 GRAPHICS_PIXEL_FORMAT_INDEXED8.
Definition back_memory : mem := mem_block 0x300000 (Z.to_nat 64000) ∪ demo_memory.
Definition back_gfx : gfx := Gfx back_memory vga_surface true.
Definition back_gui : gui small_kernel := set_backbuffer back_surface (set_g_gfx back_gfx demo_gui).

Lemma demo_gui_ok : gui_ok small_metrics demo_gui.
Proof.
  split; [|exists AppTerminal; intros a; by destruct a]. split; cbn; [done|apply demo_apps_ok|apply demo_kernel_ok|split; cbn; lia|done|split; cbn; lia|unfold dirty_ok; cbn; lia|].
  split; cbn; [done|apply demo_screen|apply demo_screen|by left|apply demo_assets_ok|]. split; cbn; [done|by rewrite length_replicate, Z2Nat.id|by apply Forall_replicate].
Qed.

Lemma union_l (m1 m2 : mem) a : is_Some (m1 !! a) → is_Some ((m1 ∪ m2) !! a).
Proof. rewrite lookup_union. intros [v ->]. by destruct (m2 !! a). Qed.
Lemma union_r (m1 m2 : mem) a : is_Some (m2 !! a) → is_Some ((m1 ∪ m2) !! a).
Proof. rewrite lookup_union. intros [v ->]. by destruct (m1 !! a). Qed.
Lemma block_mapped base n a : base ≤ a < base + n → is_Some (mem_block base (Z.to_nat n) !! a).
Proof. intros Ha. rewrite mem_block_lookup, decide_True by (rewrite Z2Nat.id; lia). done. Qed.
Lemma back_memory_bytes : bytes_ok back_memory.
Proof. apply bytes_union; [apply mem_block_bytes|apply demo_memory_bytes]. Qed.
Lemma back_memory_demo a : is_Some (demo_memory !! a) → is_Some (back_memory !! a).
Proof. apply union_r. Qed.
Lemma back_memory_back a : 0x300000 ≤ a < 0x300000 + 64000 → is_Some (back_memory !! a).
Proof. intros Ha. by apply union_l, block_mapped. Qed.
Lemma other_display {K} `{GuiKernelLaws K} m (g : gui K) b gf : desk_ok m g → display_ok m (g_assets g) (g_overlay g) b gf → desk_ok m (set_backbuffer b (set_g_gfx gf g)).
Proof. intros [] Hd. by split. Qed.
Lemma screen_in m s m0 p0 b0 mm p b : screen_of m s (Gfx m0 p0 b0) → (∀ a, is_Some (m0 !! a) → is_Some (mm !! a)) → bytes_ok mm → screen_of m s (Gfx mm p b).
Proof. intros [[? Hmp ?] ? ?] Hk Hb. split; [|done|done]. split; [done| |done]. intros a Ha. by apply Hk, Hmp. Qed.
Lemma loaded_in b (m1 m2 : mem) : loaded b m1 → (∀ a, is_Some (m1 !! a) → is_Some (m2 !! a)) → loaded b m2.
Proof. intros [?|[]] Hk; [by left|]. right. split; try done. intros a Ha. by apply Hk, bo_mapped. Qed.
Lemma back_screen : screen_of small_metrics back_surface back_gfx.
Proof. split; [|reflexivity|reflexivity]. split; [split; cbv; auto; congruence|intros a Ha; apply back_memory_back; exact Ha|apply back_memory_bytes]. Qed.
Lemma back_apart : disjoint_surfaces vga_surface back_surface.
Proof. left. vm_compute. congruence. Qed.
Lemma back_gui_ok : desk_ok small_metrics back_gui.
Proof.
  apply other_display; [exact (proj1 demo_gui_ok)|]. split; [reflexivity| |exact back_screen|right; exact back_apart| |exact (di_overlay _ _ _ _ _ (dk_display _ _ (proj1 demo_gui_ok)))].
  - exact (screen_in _ _ demo_memory _ _ back_memory _ _ demo_screen back_memory_demo back_memory_bytes).
  - destruct demo_assets_ok as [Hw Hc Ht]. split; [exact (loaded_in _ _ _ Hw back_memory_demo)|exact (loaded_in _ _ _ Hc back_memory_demo)|exact (loaded_in _ _ _ Ht back_memory_demo)].
Qed.

(** ** The statements applied *)

(** A program that opens the file explorer and exits with 0. *)
Definition demo_program (path : list Z) : M (gui small_kernel) Z := open_user_app MYOS_GUI_APP_FILES.
Lemma demo_program_ends : programs_end small_metrics demo_program.
Proof.
  intros path g _ Hg. destruct (open_user_app_triple small_metrics small_metrics_ok (λ _, True) MYOS_GUI_APP_FILES (λ _ _ _ _ _, I) g Hg I) as (r & g' & E & _ & Hr & _).
  exists r, g'. split; [exact E|]. split; [unfold is_i32; destruct Hr; lia|]. eapply effect_open; [exact E|apply effect_none].
Qed.

(** The enter key, a press on the title bar of the terminal, a drag, and a key that
    launches a program. *)
Definition event (ty : gui_event_type) (x y key : Z) : gui_event := GuiEvent ty x y 0 0 0 key 0 0 true 500.
Definition demo_events : list gui_event :=
  [event GUI_EVENT_KEY 0 0 108; event GUI_EVENT_KEY 0 0 115; event GUI_EVENT_KEY 0 0 10; event GUI_EVENT_MOUSE_BUTTON 40 15 0; event GUI_EVENT_MOUSE_MOVE 60 25 0; event GUI_EVENT_KEY 0 0 GUI_KEY_F2].

Lemma gui_stays_in_order_witness : ∃ g', handle_events demo_program demo_events demo_gui = Some (tt, g') ∧ gui_ok small_metrics g'.
Proof.
  apply (gui_stays_in_order small_metrics small_metrics_ok demo_program demo_program_ends demo_events demo_gui demo_gui_ok).
  repeat (apply Forall_cons_2; [split; [split; cbn; lia|split; vm_compute; congruence]|]). by apply Forall_nil_2.
Defined.

(** The terminal lies over the explorer at (80, 60), the client area of both. *)
Lemma hit_test_topmost_witness : hit_test_on small_metrics demo_apps false 80 60 = Some (MkHit HitWindowClient AppTerminal) ∧
  ∃ h, hit_test_on small_metrics demo_apps false 80 60 = Some h.
Proof.
  split; [vm_compute; reflexivity|]. destruct (hit_test_topmost small_metrics demo_apps false 80 60 small_metrics_ok demo_apps_ok) as (h & E & _); [repeat (apply Forall_cons_2; [cbn; lia|]); apply Forall_nil_2|].
  exists h. exact E.
Defined.

Lemma mouse_still : still (λ k : small_kernel, sk_mouse k).
Proof. split; intros k Hk; by apply wp_gets. Qed.

Lemma cursor_leaves_no_trace_witness : ∃ g0 g1 g2, restore_cursor_overlay (Some vga_surface) demo_gui = Some (tt, g0) ∧
  redraw_cursor_overlay (Some vga_surface) false demo_gui = Some (tt, g1) ∧ restore_cursor_overlay (Some vga_surface) g1 = Some (tt, g2) ∧ g_gfx g2 = g_gfx g0.
Proof.
  apply (cursor_leaves_no_trace small_metrics vga_surface false demo_gui (λ k, sk_mouse k)).
  - reflexivity.
  - exact small_metrics_ok.
  - exact demo_kernel_ok.
  - exact demo_assets_ok.
  - exact demo_screen.
  - exact (di_overlay _ _ _ _ _ (dk_display _ _ (proj1 demo_gui_ok))).
  - exact mouse_still.
  - split; cbn; lia.
  - split; cbn; lia.
Defined.

Lemma terminal_write_spec_witness : ∃ t', write (c_line "ls") (fresh_terminal terminal_window) = Some (tt, t') ∧
  shows t' (sheet_write (text_cols terminal_window) (bytes_of "ls" ++ [10]) empty_sheet).
Proof.
  destruct (terminal_write_spec small_metrics (fresh_terminal terminal_window) [] empty_sheet (c_line "ls") (bytes_of "ls" ++ [10])) as (t' & E & Hs & _).
  - exact small_metrics_ok.
  - apply fresh_terminal_ok. window_solve.
  - apply fresh_shows.
  - split; [reflexivity|]. repeat constructor; cbn; lia.
  - cbn. lia.
  - exists t'. exact (conj E Hs).
Defined.

Lemma terminal_history_recall_witness : ∃ t1 t2, push_history (c_str "help") (fresh_terminal terminal_window) = Some (tt, t1) ∧ recalls 1 t1 = Some (tt, t2) ∧ take 4 (t_command t2) = bytes_of "help".
Proof.
  destruct (terminal_history_recall small_metrics (fresh_terminal terminal_window) [] (c_str "help") (bytes_of "help") 0) as (t1 & t2 & old & E1 & E2 & _ & Eo & _ & Et & _).
  - exact small_metrics_ok.
  - apply fresh_terminal_ok. window_solve.
  - split; [reflexivity|]. repeat constructor; cbn; lia.
  - discriminate.
  - cbn. lia.
  - cbn. lia.
  - rewrite (Eo eq_refl) in Et. exists t1, t2. exact (conj E1 (conj E2 Et)).
Defined.

Definition demo_editor : notepad_on small_kernel := NotepadOn (fresh_notepad editor_window) demo_kernel.
Lemma demo_editor_ok : np_ok small_metrics (np_app demo_editor) [] [].
Proof. apply fresh_notepad_ok. window_solve. Qed.

Lemma demo_editor_kernel : kernel_ok (np_world demo_editor).
Proof. exact demo_kernel_ok. Qed.

Lemma notepad_refines_editor_witness : ∃ s', notepad_handle_key 65 demo_editor = Some (tt, s') ∧ np_ok small_metrics (np_app s') [65] [] ∧ np_dirty (np_app s') = true.
Proof.
  destruct (notepad_refines_editor small_metrics 65 demo_editor [] [] demo_editor_ok demo_editor_kernel ltac:(split; cbn; lia)) as (s' & E & _ & _ & Hn & Hd).
  exists s'. exact (conj E (conj Hn Hd)).
Defined.

(** The editor over the formatted disk of DiskfsProps. *)
Definition disk_editor : notepad_on (fs ramdisk * small_kernel) := NotepadOn (fresh_notepad editor_window) (demo_fs, demo_kernel).
Lemma disk_editor_free : clash_free demo_fs (bytes_of "/note.txt" ++ [0]).
Proof.
  intros l par leaf El Hpl j x Hj Ht _ Hc. vm_compute in El. injection El as <-. vm_compute in Hpl. injection Hpl as <- <-.
  destruct (demo_live j x Hj Ht) as [[-> ->]|[[-> ->]|[-> ->]]]; discriminate Hc.
Qed.
Lemma disk_editor_parent : has_parent demo_fs (bytes_of "/note.txt" ++ [0]).
Proof. exists [bytes_of "note.txt"], 0, (bytes_of "note.txt"). split; [vm_compute; reflexivity|]. split; [vm_compute; reflexivity|lia]. Qed.

Lemma notepad_save_reopen_witness : ∃ s1 s2 s3, handle_keys [72; 105] disk_editor = Some (tt, s1) ∧ notepad_handle_key GUI_KEY_CTRL_S s1 = Some (tt, s2) ∧
  notepad_open_file (c_str "/note.txt") small_metrics 6 s2 = Some (true, s3) ∧ np_ok small_metrics (np_app s3) [72; 105] [].
Proof.
  destruct (notepad_save_reopen small_metrics [72; 105] disk_editor demo_sectors [] [] (bytes_of "/note.txt") (c_str "/note.txt") 6 demo_editor_ok demo_inv demo_unique disk_editor_free demo_editor_kernel small_metrics_ok)
    as (s1 & s2 & E1 & E2 & Hlive & Hs).
  - split; cbn; lia.
  - reflexivity.
  - repeat (apply Forall_cons_2; [split; [split; cbn; lia|discriminate]|]). apply Forall_nil_2.
  - split; [reflexivity|]. repeat constructor; cbn; lia.
  - split; [reflexivity|]. repeat constructor; cbn; lia.
  - destruct (Hs (Hlive eq_refl eq_refl disk_editor_parent (demo_room 2 ltac:(vm_compute; split; discriminate)))) as (ok & s3 & E3 & Hok & Hwk).
    assert (ok = true) as Eok by exact (Hwk eq_refl eq_refl). exists s1, s2, s3. rewrite Eok in E3. exact (conj E1 (conj E2 (conj E3 (proj1 (Hok Eok))))).
Defined.

(** ** Painting and the loop *)

Lemma flush_shows_backbuffer_witness : ∃ g0 g1 g2, restore_cursor_overlay (Some vga_surface) back_gui = Some (tt, g0) ∧ flush_dirty back_gui = Some (tt, g1) ∧
  restore_cursor_overlay (Some vga_surface) g1 = Some (tt, g2) ∧ pixel vga_surface (gmem (g_gfx g2)) 5 7 = pixel back_surface (gmem (g_gfx g2)) 5 7.
Proof.
  destruct (flush_shows_backbuffer small_metrics small_metrics_ok (λ k, sk_mouse k) back_gui) as (g0 & g1 & g2 & E0 & E1 & _ & E2 & Hp).
  - exact back_gui_ok.
  - reflexivity.
  - exact mouse_still.
  - split; cbn; lia.
  - split; cbn; lia.
  - exact back_apart.
  - reflexivity.
  - exists g0, g1, g2. refine (conj E0 (conj E1 (conj E2 _))). specialize (Hp 5 7 ltac:(split; cbn; lia)). rewrite bool_decide_eq_true_2 in Hp by by left. exact Hp.
Defined.

(** Booting on the screen of mode 13h with a heap at 0x300000, one image of a cursor of one
    pixel, and a mouse and an input queue that need no preparation. *)
Definition demo_kmalloc (n : Z) : M (gui small_kernel) Z :=
  _ ← modify (λ g, set_g_gfx (set_gmem (mem_block 0x300000 (Z.to_nat n) ∪ gmem (g_gfx g)) (g_gfx g)) g); mret (if n <=? 0x100000 then 0x300000 else 0).
Definition demo_image : list Z := [0x4D; 0x59; 0x49; 0x4D; 1; 0; 1; 0; 2; 0; 0; 0; 0; 0; 0; 0; 4; 0; 0; 0; 255; 255; 255; 255].
#[export] Instance demo_files : AssetFiles small_kernel := {|
  k_diskfs_find_file path := str ← sk_string path; mret (if bool_decide (str = bytes_of "/assets/cursor_pointer.myimg") then 0 else -1);
  k_diskfs_read_index i o buf size := let d := take (length buf) (drop (Z.to_nat o) demo_image) in mret (true, d ++ drop (length d) buf, Z.of_nat (length d));
  k_diskfs_index_size i := mret 24 |}.
Definition demo_stack : list Z := replicate 20 7.
Definition cold_gui : gui small_kernel := set_g_assets (Assets no_bitmap no_bitmap no_bitmap) (set_g_gfx vga_gfx demo_gui).

Lemma demo_kmalloc_wp n g : 0 ≤ n < 2 ^ 32 → bytes_ok (gmem (g_gfx g)) → wp (demo_kmalloc n) (λ a g', ∃ mm, g' = set_g_gfx (set_gmem mm (g_gfx g)) g ∧ grows (gmem (g_gfx g)) mm ∧
  (a = 0 ∨ (a = 0x300000 ∧ n ≤ 0x100000 ∧ mapped mm a n))) g.
Proof.
  intros Hn Hb. unfold demo_kmalloc. do 3 wp_step. eexists. split; [reflexivity|]. split.
  - split; [apply bytes_union; [apply mem_block_bytes|done]|]. intros a. apply union_r.
  - destruct (Z.leb_spec n 0x100000); [right|by left]. split; [done|]. split; [done|]. intros a Ha. by apply union_l, block_mapped.
Qed.
Lemma demo_read i o buf : Forall is_u8 buf → quiet (k_diskfs_read_index i o buf (Z.of_nat (length buf))) (λ r, length (snd (fst r)) = length buf ∧ Forall is_u8 (snd (fst r))).
Proof.
  intros Hb k Hk. apply wp_ret. split; [by apply (small_same tt (λ _, True))|]. cbn [fst snd]. split.
  - rewrite length_app, length_drop, length_take. lia.
  - apply Forall_app. split; [apply Forall_take, Forall_drop; by repeat constructor|by apply Forall_drop].
Qed.
Lemma demo_loader : loader_laws demo_kmalloc (λ _, mret tt) demo_stack.
Proof.
  split.
  - split; [reflexivity|by apply Forall_replicate].
  - intros n g Hn Hb. eapply wp_mono; [by apply demo_kmalloc_wp|]. intros a g' (mm & -> & Hg & Ha). exists mm. split; [done|]. split; [done|]. destruct Ha as [?|(-> & ? & ?)]; [by left|right]. split; [lia|]. split; [lia|done].
  - intros a g Hb. apply wp_ret. exists (gmem (g_gfx g)). split; [by destruct g as [? ? ? ? ? ? ? ? ? ? ? ? [] ?]|by apply grows_refl].
  - intros path (str & Ht & _) k Hk. cbn. wp_step. eapply sk_string_wp; [exact Ht|]. wp_step. split; [by apply (small_same tt (λ _, True))|]. case_bool_decide; unfold is_i32; lia.
  - intros i o buf _ Hb. by apply demo_read.
  - intros i _ k Hk. apply wp_ret. split; [by apply (small_same tt (λ _, True))|]. intros h Eh. vm_compute in Eh. injection Eh as <-. reflexivity.
  - intros i _ k Hk. apply wp_ret. split; [by apply (small_same tt (λ _, True))|done].
Qed.
Lemma demo_boots : boots vga_surface demo_kmalloc (λ _, mret tt) (λ _ _, mret tt) (mret tt) demo_stack.
Proof.
  split.
  - intros n g Hn _ Hb. eapply wp_mono; [by apply demo_kmalloc_wp|]. intros a g' (mm & -> & Hg & Ha). exists mm. split; [done|]. split; [done|]. destruct Ha as [?|(-> & ? & ?)]; [by left|right]. split; [lia|]. split; [lia|]. split; [done|]. right. cbn. lia.
  - intros x y k Hk. apply wp_ret. split; [by apply goes_on_refl|done].
  - intros k Hk. apply wp_ret. split; [by apply goes_on_refl|done].
  - exact demo_loader.
Qed.
Lemma demo_arrays : arrays_ok demo_apps.
Proof.
  split.
  - split; [reflexivity|by apply Forall_replicate].
  - split; [reflexivity|]. split; [by apply Forall_replicate|reflexivity].
  - split; [reflexivity|by apply Forall_replicate].
  - reflexivity.
  - split; [apply length_replicate|by apply Forall_replicate].
Qed.
Lemma vga_drawable : drawable vga_surface vga_gfx.
Proof. split; [split; cbv; auto; congruence| |apply mem_block_bytes]. intros a Ha. exists 0. exact (vga_memory_lookup a Ha). Qed.
Lemma other_gfx {K} `{GuiKernelLaws K} m (g : gui K) gf : desk_ok m g → arrays_ok (g_apps g) → primary_surface_ready gf = true → drawable (primary_surface gf) gf →
  320 ≤ width (primary_surface gf) ≤ 16384 → 200 ≤ height (primary_surface gf) ≤ 16384 → cold (set_g_assets (Assets no_bitmap no_bitmap no_bitmap) (set_g_gfx gf g)).
Proof. intros [? ? ? ? ? [] ? [_ _ _ _ _ []]] Ha Hr Hd Hw Hh. split; try done. split; by left. Qed.
Lemma demo_cold : cold cold_gui.
Proof. apply (other_gfx small_metrics); [exact (proj1 demo_gui_ok)|exact demo_arrays|reflexivity|exact vga_drawable|cbn; lia|cbn; lia]. Qed.
Lemma small_poll : poll_ok (K := small_kernel) small_metrics.
Proof.
  intros k Hk. cbn. do 2 wp_step. destruct (sk_queue k) as [|e q] eqn:Eq.
  - wp_step. split; [by apply (small_same tt (λ _, True))|done].
  - do 3 wp_step. pose proof (so_queue _ Hk) as Hq. rewrite Eq in Hq. apply Forall_cons in Hq as [He Hq]. split; [|by intros ? [= <-]]. destruct Hk. split; [split; [by split|done]|by intros p c Hc].
Qed.


(** 66 keys are waiting. *)
Definition busy_gui : gui small_kernel := set_kern (set_sk_queue ((λ i, event GUI_EVENT_KEY 0 0 (Z.of_nat i)) <$> seq 1 66) demo_kernel) demo_gui.
Lemma busy_gui_ok : gui_ok small_metrics busy_gui.
Proof.
  destruct demo_gui_ok as [[D1 D2 _ D4 D5 D6 D7 D8] Hl]. split; [|exact Hl]. split; [exact D1|exact D2| |exact D4|exact D5|exact D6|exact D7|exact D8]. destruct demo_kernel_ok as [O1 O2 O3 O4 _]. split; [exact O1|exact O2|exact O3|exact O4|].
  cbn [sk_queue set_sk_queue kern set_kern busy_gui]. apply Forall_fmap, Forall_forall. intros i Hi. apply elem_of_seq in Hi. split; cbn; [unfold on_screen; cbn; lia|unfold is_u8; lia].
Qed.

