(* ===== verification/Shell.v ===== *)
(** * The shell, kernel/shell/shell.c, and the built-in files, kernel/fs/initrd.c

    The shell has no state of its own: it reads lines from the keyboard, prints on the
    terminal and the serial line, and calls the other components, which are the classes
    [GuiKernel] and [ShellKernel]. *)

From Stdlib Require Import ZArith Lia Bool String.
From stdpp Require Import base numbers list.
From S2P Require Import Prelude Runtime Vga GuiKernel GuiApps.

(** ** initrd.c *)

Record initrd_file := InitrdFile { if_name : list Z; if_data : list Z; if_size : Z }.
Definition hello_txt : list Z := bytes_of "Hello from MyOS initrd." ++ [10] ++ bytes_of "This is a tiny read-only filesystem baked into the kernel." ++ [10; 0].
Definition system_txt : list Z := c_line "MyOS subsystems: E820 PMM, heap, PIT timer, keyboard, shell, ATA PIO, initrd.".
Definition files : list initrd_file :=
  [InitrdFile (c_str "hello.txt") hello_txt (Z.of_nat (length hello_txt) - 1); InitrdFile (c_str "system.txt") system_txt (Z.of_nat (length system_txt) - 1)].
Definition initrd_file_count : Z := 2.
Definition initrd_file_name (index : Z) : option (list Z) :=
  if initrd_file_count <=? index then Some (c_str "") else f ← aread files index; Some (if_name f).
(** The data and the size, or [None] for the null pointer. *)
Definition initrd_read_file (name : list Z) : option (option (list Z * Z)) :=
  r ← for_exit 0 initrd_file_count (λ i, f ← lift (aread files i); d ← lift (kstrcmp name (if_name f)); mret (if d =? 0 then Some (if_data f, if_size f) else None)) tt;
  Some (fst r).

(** ** What the shell calls *)

(** Functions without arguments that return a number. *)
Inductive number :=
  | pmm_e820_entries | pmm_managed_start | pmm_managed_end | pmm_total_pages | pmm_used_pages | pmm_free_pages
  | heap_total_bytes | heap_used_bytes | heap_free_bytes | heap_double_free_count | heap_invalid_free_count
  | scheduler_current_task | scheduler_switch_count | scheduler_task_count | user_process_count | pci_device_count
  | timer_ticks | timer_frequency | timer_uptime_seconds | cr0 | cr2 | cr3.
(** Functions of an index that return a number. *)
Inductive field := user_process_pid | user_process_exit_code | pci_device_vendor | pci_device_id | pci_device_class | pci_device_subclass.
(** Functions of an index that return a string. *)
Inductive label := scheduler_task_name | scheduler_task_state | user_process_name | user_process_state.
Inductive flag := paging_is_enabled | diskfs_is_available | graphics_primary_available | graphics_self_test.

Class ShellKernel (K : Type) := {
  sh_number : number → M K Z;
  sh_field : field → Z → M K Z;
  sh_label : label → Z → M K (list Z);
  sh_flag : flag → M K bool;
  sh_terminal_writestring : list Z → M K unit;
  sh_terminal_write : list Z → Z → M K unit;
  sh_terminal_putchar : Z → M K unit;
  sh_terminal_set_color : Z → M K unit;
  sh_terminal_clear : M K unit;
  sh_serial_write_char : Z → M K unit;
  sh_keyboard_read_char : M K Z;
  sh_scheduler_yield : M K unit;
  sh_user_process_wait_pid : Z → M K Z;
  sh_user_process_reap_exited : M K Z;
  sh_kmalloc : Z → M K Z;
  sh_kmalloc_aligned : Z → Z → M K Z;
  sh_kfree : Z → M K unit;
  sh_load : nat → Z → M K Z;
  sh_store : nat → Z → Z → M K unit;
  sh_ata_read_sector : Z → Z → M K bool;
  sh_pmm_alloc_page : M K Z;
  sh_pmm_free_page : Z → M K unit;
  sh_paging_map_page : Z → Z → Z → M K bool;
  sh_paging_get_physical : Z → M K Z;
  sh_paging_unmap_page : Z → M K unit;
  sh_usermode_run_test : M K Z;
  sh_usermode_run_program : list Z → M K Z;
  sh_inb : Z → M K Z;
  sh_outb : Z → Z → M K unit }.

Definition SHELL_LINE_SIZE : Z := 80.

Section shell.
Context {K : Type} `{GuiKernel K, ShellKernel K}.

Definition shell_write (text : list Z) : M K unit := _ ← sh_terminal_writestring text; k_serial_writestring text.
Abbreviation say s := (shell_write (c_str s)).
Abbreviation line s := (shell_write (c_line s)).
Abbreviation newline := (shell_write [10; 0]).

Definition shell_prompt : M K unit :=
  _ ← sh_terminal_set_color (vga_entry_color 11 0);
  _ ← say "myos> ";
  sh_terminal_set_color (vga_entry_color 7 0).

(** ** Reading a line

    One key; the result is the array and length after it, or the finished line. *)
Definition shell_key (buffer_size c : Z) '((buffer, length) : list Z * Z) : M K (list Z * Z + list Z) :=
  if c =? 10 then
    _ ← newline; buffer ← lift (awrite buffer length 0); mret (inr buffer)
  else if c =? 8 then
    if 0 <? length then
      _ ← sh_terminal_putchar 8; _ ← sh_serial_write_char 8; _ ← sh_serial_write_char 32; _ ← sh_serial_write_char 8;
      mret (inl (buffer, length -% 1))
    else mret (inl (buffer, length))
  else if (i8 c <? 32) || (126 <? i8 c) then mret (inl (buffer, length))
  else if length +% 1 <? buffer_size then
    buffer ← lift (awrite buffer length c);
    _ ← sh_terminal_putchar c; _ ← sh_serial_write_char c;
    mret (inl (buffer, length +% 1))
  else mret (inl (buffer, length)).

(** The loop ends with the enter key; [fuel] bounds the keys before it. *)
Definition shell_readline (fuel : nat) (buffer : list Z) (buffer_size : Z) : M K (list Z) :=
  iterate fuel (λ st, c ← sh_keyboard_read_char; shell_key buffer_size c st) (buffer, 0).

(** ** Printing *)

Definition shell_hex (value : Z) : M K unit := r ← lift (u32_to_hex value (replicate 11 0)); shell_write (snd r).
Definition shell_dec (size value : Z) : M K unit := r ← lift (u32_to_dec value size (replicate (Z.to_nat size) 0)); shell_write (snd r).
Definition shell_print_hex_line (name : string) (value : Z) : M K unit := _ ← say name; _ ← shell_hex value; newline.
Definition shell_print_u32_line (name : string) (value : Z) : M K unit := _ ← say name; _ ← shell_dec 11 value; newline.
Definition shell_print_size_line (name : string) (value : Z) : M K unit := _ ← say name; _ ← shell_dec 21 (u32 value); newline.

(** [for (i = 0; i < count(); i++) body(i)], where the count is asked again every time. *)
Definition each (count : M K Z) (body : Z → M K unit) : M K unit :=
  iterate 4098 (λ i, n ← count; if i <? n then _ ← body i; mret (inl (i +% 1)) else mret (inr tt)) 0.

(** ** Commands *)

Definition shell_command_mem : M K unit :=
  p ← sh_flag paging_is_enabled;
  _ ← (if p : bool then line "Paging: enabled" else line "Paging: disabled");
  n ← sh_number pmm_e820_entries; _ ← shell_print_u32_line "E820 entries=" n;
  n ← sh_number pmm_managed_start; _ ← shell_print_hex_line "PMM start=" n;
  n ← sh_number pmm_managed_end; _ ← shell_print_hex_line "PMM end=" n;
  n ← sh_number pmm_total_pages; _ ← shell_print_u32_line "PMM total pages=" n;
  n ← sh_number pmm_used_pages; _ ← shell_print_u32_line "PMM used pages=" n;
  n ← sh_number pmm_free_pages; _ ← shell_print_u32_line "PMM free pages=" n;
  n ← sh_number heap_total_bytes; _ ← shell_print_size_line "Heap total bytes=" n;
  n ← sh_number heap_used_bytes; _ ← shell_print_size_line "Heap used bytes=" n;
  n ← sh_number heap_free_bytes; shell_print_size_line "Heap free bytes=" n.

Definition shell_command_tasks : M K unit :=
  n ← sh_number scheduler_current_task; _ ← shell_print_u32_line "Current task=" n;
  n ← sh_number scheduler_switch_count; _ ← shell_print_u32_line "Context switches=" n;
  each (sh_number scheduler_task_count) (λ i,
    _ ← say "Task "; _ ← shell_dec 11 i; _ ← say ": ";
    name ← sh_label scheduler_task_name i; _ ← shell_write name; _ ← say " ";
    state ← sh_label scheduler_task_state i; _ ← shell_write state; newline).

Definition shell_command_procs : M K unit :=
  n ← sh_number user_process_count; _ ← shell_print_u32_line "User processes=" n;
  each (sh_number user_process_count) (λ i,
    _ ← say "PID "; pid ← sh_field user_process_pid i; _ ← shell_dec 12 pid; _ ← say ": ";
    name ← sh_label user_process_name i; _ ← shell_write name; _ ← say " ";
    state ← sh_label user_process_state i; _ ← shell_write state; _ ← say " exit=";
    code ← sh_field user_process_exit_code i; _ ← shell_dec 12 (u32 code); newline).

Definition shell_command_wait (pid_text : list Z) : M K unit :=
  pid ← lift (parse_u32 pid_text);
  status ← sh_user_process_wait_pid pid;
  if status =? -1 then line "Process not found."
  else if status =? -2 then line "Process still running."
  else _ ← say "Process exit code "; _ ← shell_dec 12 (u32 status); line ".".

Definition shell_command_reap : M K unit := n ← sh_user_process_reap_exited; shell_print_u32_line "Reaped processes=" n.

Definition shell_command_disk : M K unit :=
  sector ← sh_kmalloc 512;
  if sector =? 0 then line "Disk test failed: allocation failed."
  else
    ok ← sh_ata_read_sector 0 sector;
    if negb ok then _ ← line "Disk test failed: ATA read error."; sh_kfree sector
    else
      a ← sh_load 1 (sector +% 510);
      found ← (if a =? 0x55 then b ← sh_load 1 (sector +% 511); mret (b =? 0xAA) else mret false);
      _ ← (if found : bool then line "Disk test passed: boot signature 0xAA55 found." else line "Disk test read sector 0, but boot signature was not found.");
      sh_kfree sector.

Definition shell_command_ls : M K unit :=
  ok ← sh_flag diskfs_is_available;
  if ok : bool then
    _ ← line "diskfs:";
    each k_diskfs_file_count (λ i, name ← k_diskfs_file_name i; _ ← shell_write name; newline)
  else
    _ ← line "initrd fallback:";
    each (mret initrd_file_count) (λ i, name ← lift (initrd_file_name i); _ ← shell_write name; newline).

Definition shell_command_cat (name : list Z) : M K unit :=
  ok ← sh_flag diskfs_is_available;
  r ← (if ok : bool then k_diskfs_read_file name else mret None);
  r ← match r with Some _ => mret r | None => lift (initrd_read_file name) end;
  match r with
  | None => line "File not found."
  | Some (data, size) =>
      _ ← sh_terminal_write data size;
      _ ← k_serial_writestring data;
      nl ← (if size =? 0 then mret true else c ← lift (aread data (size -% 1)); mret (negb (c =? 10)));
      when nl newline
  end.

(** The path before the first space, and the rest after it. *)
Definition shell_command_write (args : list Z) : M K unit :=
  '(path, len) ← lift (first_word 33 args 0);
  c ← lift (aread args len);
  if (len =? 0) || negb (c =? 32) then line "Usage: write <path> <text>"
  else
    let text := drop (Z.to_nat (len + 1)) args in
    size ← lift (kstrlen text);
    ok ← (if size =? 0 then mret false else k_diskfs_write_file path text (u32 size));
    if negb ok then line "Write failed." else line "Write passed.".

Definition shell_command_delete (path : list Z) : M K unit :=
  ok ← k_diskfs_delete_file path;
  if ok : bool then line "Delete passed." else line "Delete failed.".

Definition shell_command_rename (args : list Z) : M K unit :=
  '(old_path, len) ← lift (first_word 33 args 0);
  c ← lift (aread args len);
  if (len =? 0) || negb (c =? 32) then line "Usage: rename <old> <new>"
  else
    ok ← k_diskfs_rename_file old_path (drop (Z.to_nat (len + 1)) args);
    if ok : bool then line "Rename passed." else line "Rename failed.".

Definition shell_command_truncate (args : list Z) : M K unit :=
  '(path, len) ← lift (first_word 33 args 0);
  c ← lift (aread args len);
  if (len =? 0) || negb (c =? 32) then line "Usage: truncate <path> <size>"
  else
    size ← lift (parse_u32 (drop (Z.to_nat (len + 1)) args));
    ok ← k_diskfs_truncate_file path size;
    if ok : bool then line "Truncate passed." else line "Truncate failed.".

Definition shell_command_fsck : M K unit :=
  r ← k_diskfs_fsck 160; _ ← shell_write (snd r); shell_print_u32_line "fsck errors=" (fst r).

Definition shell_command_pci : M K unit :=
  n ← sh_number pci_device_count; _ ← shell_print_u32_line "PCI devices=" n;
  each (sh_number pci_device_count) (λ i,
    _ ← say "PCI "; _ ← shell_dec 11 i; _ ← say ": vendor=";
    v ← sh_field pci_device_vendor i; _ ← shell_hex v; _ ← say " device=";
    d ← sh_field pci_device_id i; _ ← shell_hex d; _ ← say " class=";
    c ← sh_field pci_device_class i; s ← sh_field pci_device_subclass i; _ ← shell_hex (Z.lor (u32 (Z.shiftl c 8)) s); newline).

Definition shell_command_regs : M K unit :=
  a ← sh_number cr0; b ← sh_number cr2; c ← sh_number cr3;
  _ ← shell_print_hex_line "CR0=" a; _ ← shell_print_hex_line "CR2=" b; shell_print_hex_line "CR3=" c.

(** The loop waits until the controller takes a byte; [polls] bounds it. *)
Definition shell_command_reboot (polls : nat) : M K unit :=
  _ ← line "Rebooting...";
  _ ← iterate polls (λ _, s ← sh_inb 0x64; mret (if negb (Z.land s 0x02 =? 0) then inl tt else inr tt)) tt;
  sh_outb 0x64 0xFE.

Definition shell_command_ticks : M K unit :=
  n ← sh_number timer_ticks; _ ← shell_print_u32_line "Timer ticks=" n;
  n ← sh_number timer_frequency; shell_print_u32_line "Timer hz=" n.
Definition shell_command_uptime : M K unit := n ← sh_number timer_uptime_seconds; shell_print_u32_line "Uptime seconds=" n.

Definition shell_command_gfx : M K unit :=
  a ← sh_flag graphics_primary_available;
  _ ← (if a : bool then line "Graphics primary framebuffer: available" else line "Graphics primary framebuffer: not configured");
  t ← sh_flag graphics_self_test;
  if t : bool then line "Graphics primitive self-test passed." else line "Graphics primitive self-test failed.".

Definition heap_report : M K unit :=
  n ← sh_number heap_used_bytes; _ ← shell_print_size_line "Heap used bytes=" n;
  n ← sh_number heap_invalid_free_count; _ ← shell_print_u32_line "Heap invalid frees=" n;
  n ← sh_number heap_double_free_count; shell_print_u32_line "Heap double frees=" n.

Definition shell_command_heaptest : M K unit :=
  small ← sh_kmalloc 64; large ← sh_kmalloc 6000; aligned ← sh_kmalloc_aligned 128 4096;
  double_frees_before ← sh_number heap_double_free_count;
  if (small =? 0) || (large =? 0) || (aligned =? 0) then
    _ ← line "Heap test failed: allocation returned null.";
    _ ← sh_kfree small; _ ← sh_kfree large; sh_kfree aligned
  else
    _ ← for_ 0 64 (λ i, sh_store 1 (small +% i) (65 + i mod 26));
    _ ← for_ 0 6000 (λ i, sh_store 1 (large +% i) (Z.land i 0xFF));
    a ← sh_load 1 small;
    bad ← (if negb (a =? 65) then mret true
           else b ← sh_load 1 (small +% 25);
                if negb (b =? 90) then mret true
                else c ← sh_load 1 (large +% 4096); mret (negb (c =? 0) || negb (Z.land aligned 0xFFF =? 0)));
    _ ← (if bad : bool then line "Heap test failed: memory verification mismatch." else line "Heap test passed.");
    _ ← sh_kfree small; _ ← sh_kfree small; _ ← sh_kfree large; _ ← sh_kfree aligned;
    after ← sh_number heap_double_free_count;
    _ ← when (double_frees_before <? after) (line "Heap hardening detected double free.");
    heap_report.

Definition shell_command_pagingtest : M K unit :=
  let virtual_address := 0x40000000 in
  page ← sh_pmm_alloc_page;
  if page =? 0 then line "Paging test failed: PMM allocation failed."
  else
    ok ← sh_paging_map_page virtual_address page 0x2;
    if negb ok then _ ← sh_pmm_free_page page; line "Paging test failed: map_page failed."
    else
      _ ← sh_store 4 virtual_address 0xBEEFCAFE;
      v ← sh_load 4 virtual_address;
      passed ← (if v =? 0xBEEFCAFE then p ← sh_paging_get_physical virtual_address; mret (p =? page) else mret false);
      _ ← (if passed : bool then line "Paging test passed." else line "Paging test failed: verification mismatch.");
      _ ← sh_paging_unmap_page virtual_address;
      sh_pmm_free_page page.

Definition shell_command_usertest : M K unit :=
  _ ← line "Launching ring 3 user test...";
  code ← sh_usermode_run_test;
  _ ← say "User mode returned exit code "; _ ← shell_dec 12 (u32 code); line ".".

Definition shell_command_run (name : list Z) : M K unit :=
  _ ← say "Loading user program from diskfs: "; _ ← shell_write name; _ ← newline;
  code ← sh_usermode_run_program name;
  _ ← say "Program exited with code "; _ ← shell_dec 12 (u32 code); line ".".

(** ** Execution

    The commands that are whole lines and those that start with a word. reboot and fault do
    not come back. *)
Inductive outcome := Returns | Restarts | Faults (address value : Z).

(** [if (kstrcmp(line, word) == 0) { .. return; }] and [if (line[0] == .. ) { .. return; }] *)
Definition on_word (l : list Z) (word : string) (command : M K outcome) (rest : M K outcome) : M K outcome :=
  b ← lift (is_command l word); if b : bool then command else rest.
Definition on_prefix (l : list Z) (prefix : string) (command : list Z → M K unit) (rest : M K outcome) : M K outcome :=
  b ← lift (starts_with l 0 (bytes_of prefix));
  if b : bool then _ ← command (drop (length (bytes_of prefix)) l); mret Returns else rest.
Definition done_ (m : M K unit) : M K outcome := _ ← m; mret Returns.

Definition help_text : string := "Commands: help clear about mem regs ticks uptime heaptest pagingtest usertest run spawn gfx tasks procs wait reap yield disk ls cat write delete rename truncate fsck pci reboot fault".

Definition shell_execute (polls : nat) (l : list Z) : M K outcome :=
  c ← lift (aread l 0);
  if c =? 0 then mret Returns
  else
  on_word l "help" (done_ (line help_text)) (
  on_word l "clear" (done_ sh_terminal_clear) (
  on_word l "about" (done_ (_ ← line "MyOS: 32-bit x86 educational kernel."; line "Features: IDT, IRQ keyboard, paging, shell, diagnostics.")) (
  on_word l "mem" (done_ shell_command_mem) (
  on_word l "regs" (done_ shell_command_regs) (
  on_word l "ticks" (done_ shell_command_ticks) (
  on_word l "uptime" (done_ shell_command_uptime) (
  on_word l "heaptest" (done_ shell_command_heaptest) (
  on_word l "pagingtest" (done_ shell_command_pagingtest) (
  on_word l "usertest" (done_ shell_command_usertest) (
  on_prefix l "run " shell_command_run (
  on_prefix l "spawn " shell_command_run (
  on_word l "gfx" (done_ shell_command_gfx) (
  on_word l "tasks" (done_ shell_command_tasks) (
  on_word l "procs" (done_ shell_command_procs) (
  on_prefix l "wait " shell_command_wait (
  on_word l "reap" (done_ shell_command_reap) (
  on_word l "yield" (done_ (_ ← sh_scheduler_yield; shell_command_tasks)) (
  on_word l "disk" (done_ shell_command_disk) (
  on_word l "ls" (done_ shell_command_ls) (
  on_prefix l "cat " shell_command_cat (
  on_prefix l "write " shell_command_write (
  on_prefix l "delete " shell_command_delete (
  on_prefix l "rename " shell_command_rename (
  on_prefix l "truncate " shell_command_truncate (
  on_word l "fsck" (done_ shell_command_fsck) (
  on_word l "pci" (done_ shell_command_pci) (
  on_word l "reboot" (_ ← shell_command_reboot polls; mret Restarts) (
  on_word l "fault" (_ ← line "Triggering page fault..."; mret (Faults 0xDEADBEEF 0x12345678)) (
  done_ (line "Unknown command. Type 'help'.")))))))))))))))))))))))))))))).

(** One round of the loop of shell_run: [buffer] is the array line. *)
Definition shell_round (keys polls : nat) (buffer : list Z) : M K (outcome * list Z) :=
  _ ← shell_prompt;
  buffer ← shell_readline keys buffer SHELL_LINE_SIZE;
  r ← shell_execute polls buffer;
  mret (r, buffer).

(** Rounds until a command does not come back, at most [rounds] of them. *)
Fixpoint shell_rounds (rounds keys polls : nat) (buffer : list Z) : M K outcome :=
  match rounds with
  | O => mret Returns
  | S rounds => '(r, buffer) ← shell_round keys polls buffer; match r with Returns => shell_rounds rounds keys polls buffer | _ => mret r end
  end.
Definition shell_run (rounds keys polls : nat) (buffer : list Z) : M K outcome :=
  _ ← line "MyOS shell ready. Type 'help'."; shell_rounds rounds keys polls buffer.
End shell.
