(* ===== verification/ShellProps.v ===== *)
(** * The shell: properties

    Reading a line is editing a string, and executing it is what the line asks for, told
    by a table of words and by strings; over the laws of what the shell calls it does not
    get stuck. At the end a shell over a small kernel. *)

From Stdlib Require Import ZArith Lia Bool String.
From stdpp Require Import base numbers list gmap.
From S2P Require Import Prelude Keyboard Input Runtime Vga Windows GuiKernel UtilityApps GuiApps GuiSafe GuiSafeCommands GuiDemo Shell.

(** ** What the shell relies on *)

(** [may_access k a n]: the kernel may read and write the [n] bytes at [a]. *)
Class ShellBlocks (K : Type) := { may_access : K → Z → Z → Prop }.

Section laws.
Context {K : Type} `{GuiFiles K, ShellBlocks K}.
(** An operation that keeps the kernel, the files and the blocks, and returns something
    with [R]. *)
Definition calm {A} (m : M K A) (R : A → Prop) : Prop :=
  ∀ k, kernel_ok k → wp m (λ a k', (goes_on k k' ∧ same_files k k' ∧ ∀ b n, may_access k b n → may_access k' b n) ∧ R a) k.
End laws.
Abbreviation anything := (λ _, True).

(** Counts that the shell loops over. *)
Definition is_count (q : number) : Prop := q = scheduler_task_count ∨ q = user_process_count ∨ q = pci_device_count.

Class ShellLaws (K : Type) `{GuiKernelLaws K, ShellKernel K, ShellBlocks K} := {
  number_calm q : calm (sh_number q) is_u32;
  count_calm q : is_count q → calm (sh_number q) (λ n, 0 ≤ n ≤ 4096);
  field_calm q i : is_u32 i → calm (sh_field q i) is_u32;
  label_calm q i : is_u32 i → calm (sh_label q i) is_text;
  flag_calm q : calm (sh_flag q) anything;
  writestring_calm t : is_text t → calm (sh_terminal_writestring t) anything;
  serial_calm t : is_text t → calm (k_serial_writestring t) anything;
  terminal_write_calm data size : 0 ≤ size ≤ Z.of_nat (length data) → calm (sh_terminal_write data size) anything;
  putchar_calm c : calm (sh_terminal_putchar c) anything;
  color_calm c : calm (sh_terminal_set_color c) anything;
  clear_calm : calm sh_terminal_clear anything;
  serial_char_calm c : calm (sh_serial_write_char c) anything;
  yield_calm : calm sh_scheduler_yield anything;
  wait_calm pid : is_u32 pid → calm (sh_user_process_wait_pid pid) anything;
  reap_calm : calm sh_user_process_reap_exited is_u32;
  kmalloc_law n k : kernel_ok k → wp (sh_kmalloc n) (λ a k', goes_on k k' ∧ (∀ b l, may_access k b l → may_access k' b l) ∧ (a = 0 ∨ (0 < a ∧ a + n ≤ 2 ^ 32 ∧ may_access k' a n))) k;
  kmalloc_aligned_law n al k : kernel_ok k → wp (sh_kmalloc_aligned n al) (λ a k', goes_on k k' ∧ (∀ b l, may_access k b l → may_access k' b l)) k;
  kfree_total a : total (sh_kfree a) anything;
  load_law n a b l k : kernel_ok k → may_access k b l → b ≤ a → a + Z.of_nat n ≤ b + l → wp (sh_load n a) (λ _ k', goes_on k k' ∧ ∀ b l, may_access k b l → may_access k' b l) k;
  store_law n a v b l k : kernel_ok k → may_access k b l → b ≤ a → a + Z.of_nat n ≤ b + l → wp (sh_store n a v) (λ _ k', goes_on k k' ∧ ∀ b l, may_access k b l → may_access k' b l) k;
  ata_law a k : kernel_ok k → may_access k a 512 → wp (sh_ata_read_sector 0 a) (λ _ k', goes_on k k' ∧ ∀ b l, may_access k b l → may_access k' b l) k;
  page_total : total sh_pmm_alloc_page anything;
  free_page_total a : total (sh_pmm_free_page a) anything;
  map_law v p f k : kernel_ok k → wp (sh_paging_map_page v p f) (λ ok k', goes_on k k' ∧ (ok = true → may_access k' v 4096)) k;
  physical_total v : total (sh_paging_get_physical v) anything;
  unmap_total v : total (sh_paging_unmap_page v) anything;
  test_total : total sh_usermode_run_test anything;
  run_total name : is_text name → total (sh_usermode_run_program name) anything;
  outb_total port v : total (sh_outb port v) anything }.

(** No file has exactly 16384 bytes, the size of the buffer: diskfs_read_file has then no
    room for a terminator, and cat sends the bytes behind the file to the serial line. *)
Definition short_files {K} `{GuiKernel K, GuiFiles K} : Prop :=
  ∀ path k, is_text path → kernel_ok k → wp (k_diskfs_read_file path) (λ r _, ∀ data size, r = Some (data, size) → size < 16384) k.

(** ** Judgement: an operation that returns and keeps the kernel in order *)

Section safe.
Context {K : Type} `{ShellLaws K}.
Implicit Types k : K.

Definition runs {A} (m : M K A) (R : A → Prop) : Prop := ∀ k, kernel_ok k → wp m (λ a k', kernel_ok k' ∧ R a) k.
Lemma runs_ret {A} (a : A) (R : A → Prop) : R a → runs (mret a) R.
Proof. intros Ha k Hk. by apply wp_ret. Qed.
Lemma runs_bind {A B} (m : M K A) (f : A → M K B) R1 R : runs m R1 → (∀ a, R1 a → runs (f a) R) → runs (m ≫= f) R.
Proof. intros Hm Hf k Hk. apply wp_bind. eapply wp_mono; [by apply Hm|]. intros a k' [Hk' Ha]. by apply Hf. Qed.
Lemma runs_then {B} (m : M K unit) (f : unit → M K B) R : runs m anything → runs (f tt) R → runs (m ≫= f) R.
Proof. intros Hm Hf. eapply runs_bind; [exact Hm|]. by intros [] _. Qed.
Lemma runs_mono {A} (m : M K A) (R R' : A → Prop) : runs m R → (∀ a, R a → R' a) → runs m R'.
Proof. intros Hm HR k Hk. eapply wp_mono; [by apply Hm|]. intros a k' [? ?]. auto. Qed.
Lemma runs_lift {A} (o : option A) (R : A → Prop) : returns o R → runs (lift o) R.
Proof. intros (a & -> & Ha) k Hk. by eapply wp_lift. Qed.
Lemma runs_if {A} (b : bool) (m1 m2 : M K A) R : runs m1 R → runs m2 R → runs (if b then m1 else m2) R.
Proof. by destruct b. Qed.
Lemma runs_when b (m : M K unit) : runs m anything → runs (when b m) anything.
Proof. intros Hm. destruct b; [done|by apply runs_ret]. Qed.
Lemma calm_runs {A} (m : M K A) R : calm m R → runs m R.
Proof. intros Hm k Hk. eapply wp_mono; [by apply Hm|]. intros a k' [([? _] & _ & _) Ha]. done. Qed.
Lemma quiet_runs {A} (m : M K A) R : quiet m R → runs m R.
Proof. intros Hm k Hk. eapply wp_mono; [by apply Hm|]. intros a k' [[[? _] _] Ha]. done. Qed.
Lemma total_runs {A} (m : M K A) R : total m R → runs m R.
Proof. intros Hm k Hk. eapply wp_mono; [by apply Hm|]. intros a k' [[? _] Ha]. done. Qed.

(** ** Printing *)

Lemma shell_write_calm t : is_text t → calm (shell_write t) anything.
Proof.
  intros Ht k Hk. unfold shell_write. wp_step. eapply wp_mono; [by apply writestring_calm|]. intros [] k1 [([Hk1 Hw1] & Hs1 & Hb1) _]. eapply wp_mono; [by apply serial_calm|]. intros [] k2 [([Hk2 Hw2] & Hs2 & Hb2) _].
  split; [|done]. split; [split; auto|]. split; [unfold same_files in *; auto|auto].
Qed.
Lemma shell_write_runs t : is_text t → runs (shell_write t) anything.
Proof. intros Ht. by apply calm_runs, shell_write_calm. Qed.
Lemma say_runs s : plain s = true → runs (shell_write (c_str s)) anything.
Proof. intros Hs. by apply shell_write_runs, c_str_text. Qed.
Lemma line_runs s : plain s = true → runs (shell_write (c_line s)) anything.
Proof. intros Hs. by apply shell_write_runs, c_line_text. Qed.
Lemma newline_runs : runs (shell_write [10; 0]) anything.
Proof. by apply shell_write_runs, (char_text 10). Qed.
Lemma shell_hex_runs v : runs (shell_hex v) anything.
Proof.
  unfold shell_hex. rewrite u32_to_hex_text. eapply (runs_bind _ _ (λ r, r = (tt, hex_text v ++ [0]))); [by apply runs_lift, returns_ret|]. intros ? ->.
  apply shell_write_runs. exists (hex_text v). split; [apply text_in_app, hex_text_bytes|done].
Qed.
Lemma shell_dec_runs size v : 11 ≤ size → is_u32 v → runs (shell_dec size v) anything.
Proof.
  intros Hs Hv. unfold shell_dec. destruct (dec_text v (Z.to_nat size) Hv ltac:(lia)) as (out & E & Ho). rewrite Z2Nat.id in E by lia. rewrite E.
  eapply (runs_bind _ _ (λ r, r = (tt, out))); [by apply runs_lift, returns_ret|]. intros ? ->. by apply shell_write_runs.
Qed.
Lemma hex_line_runs s v : plain s = true → runs (shell_print_hex_line s v) anything.
Proof. intros Hs. apply runs_then; [by apply say_runs|]. apply runs_then; [apply shell_hex_runs|apply newline_runs]. Qed.
Lemma u32_line_runs s v : plain s = true → is_u32 v → runs (shell_print_u32_line s v) anything.
Proof. intros Hs Hv. apply runs_then; [by apply say_runs|]. apply runs_then; [by apply shell_dec_runs|apply newline_runs]. Qed.
Lemma size_line_runs s v : plain s = true → runs (shell_print_size_line s v) anything.
Proof. intros Hs. apply runs_then; [by apply say_runs|]. apply runs_then; [apply shell_dec_runs; [lia|apply u32_range]|apply newline_runs]. Qed.

Lemma number_runs q : runs (sh_number q) is_u32.
Proof. apply calm_runs, number_calm. Qed.
Lemma flag_runs q : runs (sh_flag q) anything.
Proof. apply calm_runs, flag_calm. Qed.

(** A loop over at most 4096 things ends within its fuel, also when their number changes
    under way. *)
Lemma each_runs count body : runs count (λ n, 0 ≤ n ≤ 4096) → (∀ i, is_u32 i → runs (body i) anything) → runs (each count body) anything.
Proof.
  intros Hc Hb k Hk. apply (wp_iterate _ _ (λ i k, (0 ≤ i ≤ 4096) ∧ kernel_ok k) (λ i, Z.to_nat (4097 - i))); [vm_compute; lia|split; [lia|done]|].
  clear k Hk. intros i k [Hi Hk].
  eapply wp_mono; [apply (runs_bind _ _ _ (λ r, match r with inl j => j = i + 1 ∧ i < 4096 | inr _ => True end) Hc)|]; [|exact Hk|].
  - intros n Hn. destruct (Z.ltb_spec i n); [|by apply runs_ret]. apply runs_then; [apply Hb; unfold is_u32; lia|]. apply runs_ret. split; [|lia]. apply u32_small. unfold is_u32. lia.
  - intros [j|[]] k' [Hk' Hj]; [|done]. destruct Hj as [-> ?]. split; [split; [lia|done]|lia].
Qed.
End safe.

(** Printing, and asking the kernel for something. *)
Create HintDb shell.
#[export] Hint Resolve say_runs line_runs newline_runs hex_line_runs u32_line_runs size_line_runs shell_hex_runs shell_dec_runs shell_write_runs u32_range : shell.
#[export] Hint Extern 1 (plain _ = true) => reflexivity : shell.
#[export] Hint Extern 1 (11 ≤ _) => lia : shell.
Ltac prints := first [apply runs_then; [solve [eauto with shell]|] | solve [eauto with shell]].
Ltac asks := eapply runs_bind; [first [apply number_runs|apply flag_runs|apply calm_runs, field_calm; done|apply calm_runs, label_calm; done]|intros ? ?].
Ltac shows := repeat first [prints|asks|apply runs_if].

Section commands.
Context {K : Type} `{ShellLaws K}.

Lemma mem_runs : runs shell_command_mem anything.
Proof. unfold shell_command_mem. asks. apply runs_then; [shows|]. shows. Qed.
Lemma tasks_runs : runs shell_command_tasks anything.
Proof. unfold shell_command_tasks. shows. apply each_runs; [apply calm_runs, count_calm; unfold is_count; auto|]. intros i Hi. shows. Qed.
Lemma procs_runs : runs shell_command_procs anything.
Proof. unfold shell_command_procs. shows. apply each_runs; [apply calm_runs, count_calm; unfold is_count; auto|]. intros i Hi. shows. Qed.
Lemma pci_runs : runs shell_command_pci anything.
Proof. unfold shell_command_pci. shows. apply each_runs; [apply calm_runs, count_calm; unfold is_count; auto|]. intros i Hi. shows. Qed.
Lemma regs_runs : runs shell_command_regs anything.
Proof. unfold shell_command_regs. shows. Qed.
Lemma ticks_runs : runs shell_command_ticks anything.
Proof. unfold shell_command_ticks. shows. Qed.
Lemma uptime_runs : runs shell_command_uptime anything.
Proof. unfold shell_command_uptime. shows. Qed.
Lemma gfx_runs : runs shell_command_gfx anything.
Proof. unfold shell_command_gfx. asks. apply runs_then; [shows|]. shows. Qed.
Lemma heap_report_runs : runs heap_report anything.
Proof. unfold heap_report. shows. Qed.
Lemma reap_runs : runs shell_command_reap anything.
Proof. unfold shell_command_reap. eapply runs_bind; [apply calm_runs, reap_calm|]. intros n Hn. shows. Qed.
Lemma fsck_runs : runs shell_command_fsck anything.
Proof. unfold shell_command_fsck. eapply runs_bind; [by apply quiet_runs, fsck_quiet|]. intros [n report] [Hn Hr]. shows. Qed.
Lemma delete_runs path : is_text path → runs (shell_command_delete path) anything.
Proof. intros Hp. unfold shell_command_delete. eapply runs_bind; [by apply total_runs, delete_total|]. intros ok _. shows. Qed.
Lemma usertest_runs : runs shell_command_usertest anything.
Proof. unfold shell_command_usertest. shows. eapply runs_bind; [apply total_runs, test_total|]. intros code _. shows. Qed.
Lemma run_runs name : is_text name → runs (shell_command_run name) anything.
Proof. intros Hn. unfold shell_command_run. shows. eapply runs_bind; [by apply total_runs, run_total|]. intros code _. shows. Qed.

(** ** Commands on files *)

Lemma parse_u32_ok buf str : text_in buf str → returns (parse_u32 buf) is_u32.
Proof.
  intros (rest & -> & Hs)%text_in_inv. unfold parse_u32.
  assert (Hloop : ∀ fuel i v, 0 ≤ i ≤ Z.of_nat (length str) → Z.of_nat (length str) - i < Z.of_nat fuel → is_u32 v → returns (parse_u32_loop fuel (str ++ 0 :: rest) i v) is_u32).
  { induction fuel as [|fuel IH]; intros i v Hi Hf Hv; [lia|]. cbn [parse_u32_loop]. destruct (aread_text str rest i Hs Hi) as (c & E & Hc & _). rewrite E. cbn [mbind option_bind].
    destruct (_ && _) eqn:Ed; [|by apply returns_ret]. bool_to_prop. assert (i ≠ Z.of_nat (length str)) by (intros ?; assert (c = 0) by tauto; lia). apply IH; [lia|lia|apply u32_range]. }
  apply Hloop; [lia|rewrite length_app; cbn; lia|done].
Qed.
Lemma wait_runs text str : text_in text str → runs (shell_command_wait text) anything.
Proof.
  intros Ht. unfold shell_command_wait. eapply runs_bind; [by eapply runs_lift, parse_u32_ok|]. intros pid Hp. eapply runs_bind; [by apply calm_runs, wait_calm|]. intros status _. shows.
Qed.

(** A command line: a string in an array of bytes. *)
Record typed_line (l str : list Z) : Prop := { tl_text : text_in l str; tl_len : Z.of_nat (length str) ≤ 79; tl_bytes : Forall is_u8 l }.
Lemma typed_drop l str n : typed_line l str → (n ≤ length str)%nat → typed_line (drop n l) (drop n str).
Proof. intros [Ht Hl Hb] Hn. split; [by apply drop_text|rewrite length_drop; lia|by apply Forall_drop]. Qed.
Lemma typed_is_text l str : typed_line l str → is_text l.
Proof. intros []. exists str. split; [done|lia]. Qed.

(** The first word and the character after it. *)
Lemma word_runs {B} args str (f : list Z → Z → Z → M K B) (R : B → Prop) : typed_line args str →
  (∀ path len c, is_text path → 0 ≤ len → (c ≠ 0 → typed_line (drop (Z.to_nat (len + 1)) args) (drop (Z.to_nat (len + 1)) str)) → runs (f path len c) R) →
  runs ('(path, len) ← lift (first_word 33 args 0); c ← lift (aread args len); f path len c) R.
Proof.
  intros Ha Hf. pose proof Ha as [Ht _ _]. eapply runs_bind; [apply runs_lift, (first_word_ok args str); [done|lia|lia|lia]|]. intros [path len] (w & Ew & Hw & Hwl & Hl1 & Hl2). cbn [fst snd] in *. subst path.
  destruct (text_in_inv _ _ Ht) as (rest & Ea & Hs). destruct (aread_text str rest len Hs ltac:(lia)) as (c & E & Hc & _).
  eapply (runs_bind _ _ (λ x, x = c)); [apply runs_lift; rewrite Ea, E; by apply returns_ret|]. intros ? ->. apply Hf; [apply word_text; [done|lia]|lia|]. intros Hne. assert (len ≠ Z.of_nat (length str)) by tauto. apply typed_drop; [done|lia].
Qed.

Lemma write_runs args str : typed_line args str → runs (shell_command_write args) anything.
Proof.
  intros Ha. eapply (word_runs args str); [done|]. intros path len c Hp Hl Hd. destruct (_ || _) eqn:E; [shows|]. bool_to_prop. destruct (Hd ltac:(lia)) as [Ht Hlen Hb].
  eapply (runs_bind _ _ (λ n, n = Z.of_nat (length (drop (Z.to_nat (len + 1)) str)))); [apply runs_lift; rewrite (kstrlen_text _ _ Ht); by apply returns_ret|]. intros ? ->.
  apply (runs_bind _ _ anything); [|intros ok _; shows]. apply runs_if; [by apply runs_ret|]. rewrite u32_small by (unfold is_u32; lia). apply total_runs, write_total; [done|lia| |done].
  destruct (text_in_inv _ _ Ht) as (rest & E' & _). rewrite E', length_app. lia.
Qed.
Lemma rename_runs args str : typed_line args str → runs (shell_command_rename args) anything.
Proof.
  intros Ha. eapply (word_runs args str); [done|]. intros path len c Hp Hl Hd. destruct (_ || _) eqn:E; [shows|]. bool_to_prop. specialize (Hd ltac:(lia)).
  eapply runs_bind; [apply total_runs, rename_total; [done|by eapply typed_is_text]|]. intros ok _. shows.
Qed.
Lemma truncate_runs args str : typed_line args str → runs (shell_command_truncate args) anything.
Proof.
  intros Ha. eapply (word_runs args str); [done|]. intros path len c Hp Hl Hd. destruct (_ || _) eqn:E; [shows|]. bool_to_prop. specialize (Hd ltac:(lia)).
  eapply runs_bind; [eapply runs_lift, parse_u32_ok, Hd|]. intros size Hs. eapply runs_bind; [by apply total_runs, truncate_total|]. intros ok _. shows.
Qed.

(** ** The built-in files *)

Lemma initrd_name_text i : 0 ≤ i → returns (initrd_file_name i) is_text.
Proof.
  intros Hi. unfold initrd_file_name. destruct (Z.leb_spec initrd_file_count i); [by apply returns_ret, c_str_text|]. unfold initrd_file_count in *. assert (i = 0 ∨ i = 1) as [-> | ->] by lia; by apply returns_ret, c_str_text.
Qed.
Lemma builtin_texts : is_text hello_txt ∧ is_text system_txt.
Proof.
  split; [|by apply c_line_text].
  exists ((bytes_of "Hello from MyOS initrd." ++ [10]) ++ bytes_of "This is a tiny read-only filesystem baked into the kernel." ++ [10]). split; [|vm_compute; reflexivity].
  match goal with |- text_in hello_txt ?str => change hello_txt with (str ++ [0]) end. apply text_in_app.
  repeat (apply Forall_app; split); try (by apply bytes_plain); by repeat constructor.
Qed.
(** A file that cat can print: [size] bytes of an array with a terminator. *)
Definition printable (r : option (list Z * Z)) : Prop := ∀ data size, r = Some (data, size) → is_text data ∧ 0 ≤ size ≤ Z.of_nat (length data) ∧ size < 2 ^ 32.
Lemma initrd_read_printable name str : text_in name str → returns (initrd_read_file name) printable.
Proof.
  intros Hn. destruct builtin_texts as [Hh Hs].
  destruct (kstrcmp_texts name str (c_str "hello.txt") (bytes_of "hello.txt") Hn) as (d1 & E1 & _); [by apply text_in_app, bytes_plain|].
  destruct (kstrcmp_texts name str (c_str "system.txt") (bytes_of "system.txt") Hn) as (d2 & E2 & _); [by apply text_in_app, bytes_plain|].
  assert (initrd_read_file name = Some (if d1 =? 0 then Some (hello_txt, Z.of_nat (length hello_txt) - 1) else if d2 =? 0 then Some (system_txt, Z.of_nat (length system_txt) - 1) else None)) as ->.
  { unfold initrd_read_file, for_exit. change (Z.to_nat (initrd_file_count - 0)) with 2%nat. cbn [for_steps]. unfold mbind, M_bind, lift.
    change (aread files 0) with (Some (InitrdFile (c_str "hello.txt") hello_txt (Z.of_nat (length hello_txt) - 1))). change (aread files (0 + 1)) with (Some (InitrdFile (c_str "system.txt") system_txt (Z.of_nat (length system_txt) - 1))).
    cbn [mbind option_bind if_name if_data if_size]. rewrite E1, E2. cbn -[hello_txt system_txt Z.eqb Z.of_nat length]. by destruct (d1 =? 0), (d2 =? 0). }
  apply returns_ret. destruct (d1 =? 0); [intros data size [= <- <-]; split; [done|by vm_compute]|]. destruct (d2 =? 0); [|done]. intros data size [= <- <-]. split; [done|by vm_compute].
Qed.

Lemma ls_runs : runs shell_command_ls anything.
Proof.
  unfold shell_command_ls. asks. apply runs_if; prints.
  - apply each_runs; [apply quiet_runs, file_count_quiet|]. intros i Hi. eapply runs_bind; [by apply quiet_runs, file_name_quiet|]. intros name Hn. shows.
  - apply each_runs; [by apply runs_ret|]. intros i Hi. eapply runs_bind; [apply runs_lift, initrd_name_text; unfold is_u32 in Hi; lia|]. intros name Hn. shows.
Qed.

(** A byte 0 in an array of bytes ends a string. *)
Lemma zero_ends data i : Forall is_u8 data → Z.of_nat (length data) ≤ 16384 → data !! i = Some 0 → is_text data.
Proof.
  intros Hu Hl Hi. assert (∃ str rest, data = str ++ 0 :: rest ∧ Forall (λ x, 0 < x < 256) str) as (str & rest & -> & Hs).
  { clear Hl. revert i Hi. induction Hu as [|x data Hx _ IH]; intros i Hi; [done|]. destruct (decide (x = 0)) as [->|]; [by exists [], data|]. destruct i as [|i]; [by injection Hi|].
    destruct (IH i Hi) as (str & rest & -> & Hs). exists (x :: str), rest. split; [done|]. constructor; [unfold is_u8 in Hx; lia|done]. }
  exists str. split; [by apply text_in_app|]. rewrite length_app in Hl. lia.
Qed.
Lemma disk_read_runs path : short_files (K := K) → is_text path → runs (k_diskfs_read_file path) printable.
Proof.
  intros Hsh Hp k Hk. pose proof Hp as (str & Ht & _). eapply wp_mono; [apply wp_and; [by apply (read_file_law path str)|by apply Hsh]|]. intros r k' [[[[Hk' _] _] Hr] He]. split; [done|]. intros data size ->. destruct Hr as (Hs & Hd & Hu & Hend & _).
  split; [by eapply zero_ends, Hend, He|lia].
Qed.
Lemma cat_runs name : short_files (K := K) → is_text name → runs (shell_command_cat name) anything.
Proof.
  intros Hsh. intros Hn. pose proof Hn as (str & Ht & _). unfold shell_command_cat. asks. eapply (runs_bind _ _ printable); [apply runs_if; [by apply disk_read_runs|by apply runs_ret]|].
  intros r Hr. eapply (runs_bind _ _ printable); [destruct r; [by apply runs_ret|by eapply runs_lift, initrd_read_printable]|]. clear r Hr. intros [[data size]|] Hr; [|shows]. destruct (Hr data size eq_refl) as (Hd & Hs & Hm).
  apply runs_then; [by apply calm_runs, terminal_write_calm|]. apply runs_then; [by apply calm_runs, serial_calm|].
  apply (runs_bind _ _ anything); [|intros nl _; apply runs_when; shows]. destruct (Z.eqb_spec size 0); [by apply runs_ret|]. rewrite u32_small by (unfold is_u32; lia).
  destruct (lookup_lt_is_Some_2 data (Z.to_nat (size - 1))) as [c Hc]; [lia|]. rewrite (proj2 (aread_Some data (size - 1) c)) by (split; [lia|done]).
  eapply (runs_bind _ _ anything); [by apply runs_lift, returns_ret|]. intros ? _. by apply runs_ret.
Qed.

(** ** Commands on memory *)

(** An operation on the blocks [bs]: pairs of an address and a size. *)
Definition within {A} (bs : list (Z * Z)) (m : M K A) (R : A → Prop) : Prop :=
  ∀ k, kernel_ok k → Forall (λ b, may_access k b.1 b.2) bs → wp m (λ a k', (kernel_ok k' ∧ Forall (λ b, may_access k' b.1 b.2) bs) ∧ R a) k.
Lemma within_bind {A B} bs (m : M K A) (f : A → M K B) R1 R : within bs m R1 → (∀ a, R1 a → within bs (f a) R) → within bs (m ≫= f) R.
Proof. intros Hm Hf k Hk Hb. apply wp_bind. eapply wp_mono; [by apply Hm|]. intros a k' [[Hk' Hb'] Ha]. by apply Hf. Qed.
Lemma within_ret {A} bs (a : A) (R : A → Prop) : R a → within bs (mret a) R.
Proof. intros Ha k Hk Hb. by apply wp_ret. Qed.
Lemma within_calm {A} bs (m : M K A) R : calm m R → within bs m R.
Proof.
  intros Hm k Hk Hb. eapply wp_mono; [by apply Hm|]. intros a k' [([Hk' _] & _ & Hb') Ha]. split; [split; [done|]|done]. eapply Forall_impl; [exact Hb|]. auto.
Qed.
Lemma within_reach {A} bs (m : M K A) R : (∀ k, kernel_ok k → Forall (λ b, may_access k b.1 b.2) bs → wp m (λ a k', (goes_on k k' ∧ ∀ b n, may_access k b n → may_access k' b n) ∧ R a) k) → within bs m R.
Proof.
  intros Hm k Hk Hb. eapply wp_mono; [by apply Hm|]. intros a k' [[[Hk' _] Hb'] Ha]. split; [split; [done|]|done]. eapply Forall_impl; [exact Hb|]. auto.
Qed.
Lemma within_line bs s : plain s = true → within bs (shell_write (c_line s)) anything.
Proof. intros Hs. by apply within_calm, shell_write_calm, c_line_text. Qed.
Lemma within_load bs b l n a : (b, l) ∈ bs → b ≤ a → a + Z.of_nat n ≤ b + l → within bs (sh_load n a) anything.
Proof.
  intros Hin Hb Hl. apply within_reach. intros k Hk Hbs. rewrite Forall_forall in Hbs. eapply wp_mono; [apply (load_law n a b l); [done|apply (Hbs _ Hin)|done|done]|]. by intros v k' [? ?].
Qed.
Lemma within_store bs b l n a v : (b, l) ∈ bs → b ≤ a → a + Z.of_nat n ≤ b + l → within bs (sh_store n a v) anything.
Proof.
  intros Hin Hb Hl. apply within_reach. intros k Hk Hbs. rewrite Forall_forall in Hbs. eapply wp_mono; [apply (store_law n a v b l); [done|apply (Hbs _ Hin)|done|done]|]. by intros [] k' [? ?].
Qed.
Lemma within_for bs lo hi body : lo ≤ hi → (∀ i, lo ≤ i < hi → within bs (body i) anything) → within bs (for_ lo hi body) anything.
Proof.
  intros Hle Hb k Hk Hbs. apply (wp_for _ _ _ (λ _ k, kernel_ok k ∧ Forall (λ b, may_access k b.1 b.2) bs)); [done|done| |by intros k' []].
  intros i k1 Hi [Hk1 Hb1]. eapply wp_mono; [by apply (Hb i Hi)|]. by intros [] k2 [? _].
Qed.
(** An operation that may use the blocks and give them back. *)
Definition with_blocks {A} (bs : list (Z * Z)) (m : M K A) (R : A → Prop) : Prop :=
  ∀ k, kernel_ok k → Forall (λ b, may_access k b.1 b.2) bs → wp m (λ a k', kernel_ok k' ∧ R a) k.
Lemma blocks_at {A} bs (m : M K A) R k : with_blocks bs m R → kernel_ok k → Forall (λ b, may_access k b.1 b.2) bs → wp m (λ a k', kernel_ok k' ∧ R a) k.
Proof. auto. Qed.
Lemma runs_at {A} (m : M K A) R k : runs m R → kernel_ok k → wp m (λ a k', kernel_ok k' ∧ R a) k.
Proof. auto. Qed.
Lemma blocks_runs {A} bs (m : M K A) R : runs m R → with_blocks bs m R.
Proof. intros Hm k Hk _. by apply Hm. Qed.
Lemma blocks_bind {A B} bs (m : M K A) (f : A → M K B) R1 R : within bs m R1 → (∀ a, R1 a → with_blocks bs (f a) R) → with_blocks bs (m ≫= f) R.
Proof. intros Hm Hf k Hk Hb. apply wp_bind. eapply wp_mono; [by apply Hm|]. intros a k' [[Hk' Hb'] Ha]. by apply Hf. Qed.
Lemma blocks_alloc {A} bs n (f : Z → M K A) R :
  with_blocks bs (f 0) R → (∀ a, 0 < a → a + n ≤ 2 ^ 32 → with_blocks ((a, n) :: bs) (f a) R) → with_blocks bs (a ← sh_kmalloc n; f a) R.
Proof.
  intros H0' H1' k Hk Hb. apply wp_bind. eapply wp_mono; [by apply kmalloc_law|]. intros a k' ([Hk' _] & Hb' & Ha). assert (Hbs : Forall (λ b, may_access k' b.1 b.2) bs) by (eapply Forall_impl; [exact Hb|]; auto).
  destruct Ha as [-> |(Hp & Hm & Ha)]; [by apply H0'|]. apply (H1' a Hp Hm k' Hk'). by constructor.
Qed.
Lemma kfree_runs a : runs (sh_kfree a) anything.
Proof. apply total_runs, kfree_total. Qed.

Lemma disk_runs : runs shell_command_disk anything.
Proof.
  intros k Hk. apply (blocks_alloc []); [apply blocks_runs; cbn [Z.eqb]; shows| |done|constructor]. intros a Hp Hm. rewrite (proj2 (Z.eqb_neq a 0)) by lia. rewrite !u32_small by (unfold is_u32; lia).
  eapply (blocks_bind _ _ _ anything).
  { apply within_reach. intros k' Hk' Hb. apply Forall_cons_1 in Hb as [Hb _]. eapply wp_mono; [by apply ata_law|]. by intros ok k2 ?. }
  intros ok _. destruct ok; cbn [negb]; [|apply blocks_runs; prints; apply kfree_runs].
  eapply blocks_bind; [apply (within_load _ a 512); [constructor|lia|lia]|]. intros x _. eapply (blocks_bind _ _ _ anything).
  { destruct (x =? 0x55); [|by apply within_ret]. eapply within_bind; [apply (within_load _ a 512); [constructor|lia|lia]|]. intros y _. by apply within_ret. }
  intros found _. apply blocks_runs. apply runs_then; [destruct found; shows|apply kfree_runs].
Qed.

Lemma pagingtest_runs : runs shell_command_pagingtest anything.
Proof.
  unfold shell_command_pagingtest. eapply runs_bind; [apply total_runs, page_total|]. intros page _. apply runs_if; [shows|].
  intros k Hk. apply wp_bind. eapply wp_mono; [by apply map_law|]. intros ok k' [[Hk' _] Hm]. destruct ok; cbn [negb]; [|apply runs_at; [apply runs_then; [apply total_runs, free_page_total|shows]|done]].
  apply (blocks_at [(0x40000000, 4096)]); [|done|apply Forall_singleton, (Hm eq_refl)].
  eapply blocks_bind; [apply (within_store _ 0x40000000 4096); [constructor|lia|lia]|]. intros _ _. eapply blocks_bind; [apply (within_load _ 0x40000000 4096); [constructor|lia|lia]|]. intros v _. apply blocks_runs.
  apply (runs_bind _ _ anything); [destruct (_ =? _); [eapply runs_bind; [apply total_runs, physical_total|]; intros p _; by apply runs_ret|by apply runs_ret]|]. intros passed _.
  apply runs_then; [destruct passed; shows|]. apply runs_then; [apply total_runs, unmap_total|apply total_runs, free_page_total].
Qed.

(** The accesses of the heap test lie in its blocks. *)
Lemma heaptest_runs : runs shell_command_heaptest anything.
Proof.
  intros k Hk. refine (blocks_at [] _ _ k _ Hk _); [|constructor]. unfold shell_command_heaptest.
  assert (Hfail : ∀ small large aligned, runs (_ ← shell_write (c_line "Heap test failed: allocation returned null."); _ ← sh_kfree small; _ ← sh_kfree large; sh_kfree aligned) anything).
  { intros. prints. do 2 (apply runs_then; [apply kfree_runs|]). apply kfree_runs. }
  assert (Hal : ∀ bs, within bs (sh_kmalloc_aligned 128 4096) anything).
  { intros bs. apply within_reach. intros k1 Hk1 _. eapply wp_mono; [by apply kmalloc_aligned_law|]. by intros a k2 [? ?]. }
  apply blocks_alloc.
  - apply blocks_alloc; [|intros large _ _]; (eapply blocks_bind; [apply Hal|]; intros aligned _; eapply blocks_bind; [apply within_calm, number_calm|]; intros n _; apply blocks_runs; cbn [Z.eqb orb]; apply Hfail).
  - intros small Hs1 Hs2. apply blocks_alloc; [|intros large Hl1 Hl2]; (eapply blocks_bind; [apply Hal|]; intros aligned _; eapply blocks_bind; [apply within_calm, number_calm|]; intros before _).
    { apply blocks_runs. rewrite orb_true_r. apply Hfail. }
    destruct (_ || _); [apply blocks_runs, Hfail|].
    eapply blocks_bind; [apply within_for; [lia|]; intros i Hi; rewrite u32_small by (unfold is_u32; lia); apply (within_store _ small 64); [repeat constructor|lia|lia]|]. intros _ _.
    eapply blocks_bind; [apply within_for; [lia|]; intros i Hi; rewrite u32_small by (unfold is_u32; lia); apply (within_store _ large 6000); [repeat constructor|lia|lia]|]. intros _ _.
    rewrite !u32_small by (unfold is_u32; lia).
    eapply blocks_bind; [apply (within_load _ small 64); [repeat constructor|lia|lia]|]. intros a _. eapply (blocks_bind _ _ _ anything).
    { destruct (negb _); [by apply within_ret|]. eapply within_bind; [apply (within_load _ small 64); [repeat constructor|lia|lia]|]. intros b _. destruct (negb _); [by apply within_ret|].
      eapply within_bind; [apply (within_load _ large 6000); [repeat constructor|lia|lia]|]. intros c _. by apply within_ret. }
    intros bad _. apply blocks_runs. apply runs_then; [destruct bad; shows|]. do 4 (apply runs_then; [apply kfree_runs|]). asks. apply runs_then; [apply runs_when; shows|apply heap_report_runs].
Qed.

(** ** Executing a line *)

(** What a line does to the loop of the shell. *)
Definition outcome_of (str : list Z) : outcome :=
  if decide (str = bytes_of "reboot") then Restarts else if decide (str = bytes_of "fault") then Faults 0xDEADBEEF 0x12345678 else Returns.

Lemma starts_with_prefix l str pat : text_in l str → Forall (λ c, c ≠ 0) pat → ∀ i, 0 ≤ i ≤ Z.of_nat (length str) →
  returns (starts_with l i pat) (λ b, b = true → ∃ tail, drop (Z.to_nat i) str = pat ++ tail).
Proof.
  intros (rest & -> & Hs)%text_in_inv Hp. induction pat as [|p pat IH]; intros i Hi; cbn [starts_with]; [apply returns_ret; by eexists|].
  apply Forall_cons_1 in Hp as [Hp0 Hp]. destruct (aread_text str rest i Hs Hi) as (c & E & Hc & Hlk). rewrite E. cbn [mbind option_bind]. destruct (Z.eqb_spec c p) as [->|]; [|by apply returns_ret].
  assert (i ≠ Z.of_nat (length str)) by tauto. destruct (IH Hp (i + 1) ltac:(lia)) as (b & -> & Hb). apply returns_ret. intros Et. destruct (Hb Et) as [tail Ht]. exists tail.
  rewrite (drop_S _ p (Z.to_nat i)) by (apply Hlk; lia). rewrite <- app_comm_cons, <- Ht. do 2 f_equal. lia.
Qed.

Lemma on_word_runs l str word command rest : typed_line l str → plain word = true → (str = bytes_of word → runs command (λ r, r = outcome_of str)) → (str ≠ bytes_of word → runs rest (λ r, r = outcome_of str)) →
  runs (on_word l word command rest) (λ r, r = outcome_of str).
Proof.
  intros [Ht _ _] Hw Hy Hn. unfold on_word, is_command. destruct (kstrcmp_texts l str (c_str word) (bytes_of word) Ht) as (d & E & Hd); [by apply text_in_app, bytes_plain|]. rewrite E.
  eapply (runs_bind _ _ (λ b, b = (d =? 0))); [by apply runs_lift, returns_ret|]. intros ? ->. destruct (Z.eqb_spec d 0); [apply Hy; tauto|apply Hn; tauto].
Qed.
Lemma word_done_runs l str word m rest : typed_line l str → plain word = true → outcome_of (bytes_of word) = Returns → runs m anything → (str ≠ bytes_of word → runs rest (λ r, r = outcome_of str)) →
  runs (on_word l word (done_ m) rest) (λ r, r = outcome_of str).
Proof. intros Hl Hw Ho Hm Hr. apply on_word_runs; [done|done| |done]. intros ->. rewrite Ho. apply runs_then; [done|by apply runs_ret]. Qed.
(** The first two letters of a prefix tell its lines from those that do not come back. *)
Lemma on_prefix_runs l str prefix command rest : typed_line l str → plain prefix = true → (∀ tail, outcome_of (bytes_of prefix ++ tail) = Returns) →
  (∀ arg, typed_line arg (drop (length (bytes_of prefix)) str) → runs (command arg) anything) → runs rest (λ r, r = outcome_of str) → runs (on_prefix l prefix command rest) (λ r, r = outcome_of str).
Proof.
  intros Hl Hw Ho Hy Hn. unfold on_prefix. eapply runs_bind; [apply runs_lift, (starts_with_prefix l str); [apply Hl| |lia]|].
  - eapply Forall_impl; [by apply bytes_plain|]. cbn. lia.
  - intros [] Hb; [|done]. destruct (Hb eq_refl) as [tail Et]. cbn in Et. rewrite drop_0 in Et.
    apply runs_then; [apply Hy, typed_drop; [done|rewrite Et, length_app; lia]|]. apply runs_ret. by rewrite Et, Ho.
Qed.

Lemma reboot_runs polls : (0 < polls)%nat → runs (sh_inb 0x64) (λ s, Z.land s 0x02 = 0) → runs (shell_command_reboot polls) anything.
Proof.
  intros Hp Hr. unfold shell_command_reboot. prints. apply (runs_bind _ _ anything); [|intros _ _; apply total_runs, outb_total]. destruct polls as [|polls]; [lia|]. cbn [iterate].
  eapply (runs_bind _ _ (λ r, r = inr tt)); [|intros ? ->; by apply runs_ret]. eapply runs_bind; [exact Hr|]. intros s Hs. apply runs_ret. by rewrite Hs.
Qed.

Ltac word_ L := apply word_done_runs; [exact L|reflexivity|reflexivity|first [solve [eauto with shell_commands]|solve [shows]]|intros ?].
Ltac prefix_ L := apply on_prefix_runs; [exact L|reflexivity|intros ?; unfold outcome_of; rewrite !decide_False by discriminate; reflexivity|intros arg Harg; eauto using typed_is_text with shell_commands|].
Create HintDb shell_commands.
Hint Resolve mem_runs regs_runs ticks_runs uptime_runs heaptest_runs pagingtest_runs usertest_runs run_runs gfx_runs tasks_runs procs_runs reap_runs disk_runs ls_runs cat_runs write_runs delete_runs rename_runs truncate_runs fsck_runs pci_runs : shell_commands.
Hint Extern 1 (runs (shell_command_wait _) _) => eapply wait_runs, tl_text : shell_commands.
Hint Extern 1 (runs sh_terminal_clear _) => apply calm_runs, clear_calm : shell_commands.

Lemma shell_execute_runs polls l str : short_files (K := K) → typed_line l str → (0 < polls)%nat → runs (sh_inb 0x64) (λ s, Z.land s 0x02 = 0) → runs (shell_execute polls l) (λ r, r = outcome_of str).
Proof.
  intros Hsh Hl Hp Hr. unfold shell_execute. pose proof Hl as [Ht _ _]. destruct (text_in_inv _ _ Ht) as (rest & E & Hs). destruct (aread_text str rest 0 Hs ltac:(lia)) as (c & Ec & Hc & _).
  eapply (runs_bind _ _ (λ x, x = c)); [apply runs_lift; rewrite E, Ec; by apply returns_ret|]. intros ? ->. destruct (Z.eqb_spec c 0) as [->|].
  { destruct str; [by apply runs_ret|]. exfalso. assert (0 = Z.of_nat (length (z :: str))) by tauto. done. }
  clear E Ec Hc. do 2 word_ Hl. word_ Hl. do 4 word_ Hl. do 3 word_ Hl. do 2 prefix_ Hl. do 3 word_ Hl. prefix_ Hl. word_ Hl.
  apply word_done_runs; [exact Hl|reflexivity|reflexivity|apply runs_then; [apply calm_runs, yield_calm|apply tasks_runs]|intros ?]. do 2 word_ Hl. do 5 prefix_ Hl. do 2 word_ Hl.
  apply on_word_runs; [done|reflexivity| |intros Hb]; [intros ->; apply runs_then; [by apply reboot_runs|by apply runs_ret]|].
  apply on_word_runs; [done|reflexivity| |intros Hf]; [intros ->; prints; by apply runs_ret|].
  apply runs_then; [shows|]. apply runs_ret. unfold outcome_of. by rewrite !decide_False.
Qed.
End commands.

(** ** What a line asks for

    The language of the shell, told without the code: a request for every line, and what
    is done for a request, on the arguments as strings. *)

Inductive request :=
  | Nothing | Help | Clear | About | Mem | Regs | Ticks | Uptime | HeapTest | PagingTest | UserTest | Run | Gfx | Tasks | Procs | Wait | Reap | Yield | Disk | Ls
  | Cat | Write | Delete | Rename | Truncate | Fsck | Pci | Reboot | Fault | Unknown.

(** Requests without arguments, and those with an argument behind a space. *)
Record entry := Entry { word : string; asks_for : request }.
Definition words : list entry :=
  [Entry "about" About; Entry "clear" Clear; Entry "disk" Disk; Entry "fault" Fault; Entry "fsck" Fsck; Entry "gfx" Gfx; Entry "heaptest" HeapTest; Entry "help" Help; Entry "ls" Ls; Entry "mem" Mem;
   Entry "pagingtest" PagingTest; Entry "pci" Pci; Entry "procs" Procs; Entry "reap" Reap; Entry "reboot" Reboot; Entry "regs" Regs; Entry "tasks" Tasks; Entry "ticks" Ticks; Entry "uptime" Uptime;
   Entry "usertest" UserTest; Entry "yield" Yield].
Definition verbs : list entry :=
  [Entry "cat " Cat; Entry "delete " Delete; Entry "rename " Rename; Entry "run " Run; Entry "spawn " Run; Entry "truncate " Truncate; Entry "wait " Wait; Entry "write " Write].

Fixpoint begins (pattern str : list Z) : bool :=
  match pattern, str with [], _ => true | p :: pattern, c :: str => (c =? p) && begins pattern str | _ :: _, [] => false end.
Fixpoint find_word (table : list entry) (str : list Z) : option request :=
  match table with [] => None | Entry w r :: table => if bool_decide (str = bytes_of w) then Some r else find_word table str end.
Fixpoint find_verb (table : list entry) (str : list Z) : option (request * nat) :=
  match table with [] => None | Entry v r :: table => if begins (bytes_of v) str then Some (r, length (bytes_of v)) else find_verb table str end.

(** The request of a line and where its argument starts. *)
Definition request_of (str : list Z) : request * nat :=
  if bool_decide (str = []) then (Nothing, 0%nat)
  else match find_word words str with Some r => (r, 0%nat) | None => default (Unknown, 0%nat) (find_verb verbs str) end.

(** The longest start of a string whose characters have a property. *)
Fixpoint leading (p : Z → bool) (str : list Z) : list Z := match str with c :: str => if p c then c :: leading p str else [] | [] => [] end.
Definition not_space (c : Z) : bool := negb (c =? 32).
Definition is_digit (c : Z) : bool := (48 <=? c) && (c <=? 57).
(** A first word of 1 to 31 characters and the text behind the space that follows it. *)
Definition two_words (str : list Z) : option (list Z * list Z) :=
  let w := leading not_space str in
  if (0 <? Z.of_nat (length w)) && (Z.of_nat (length w) <=? 31) && (Z.of_nat (length w) <? Z.of_nat (length str)) then Some (w, drop (S (length w)) str) else None.
(** The number that the digits at the start of a string give, modulo 2^32. *)
Definition decimal (str : list Z) : Z := u32 (foldl (λ v c, v * 10 + (c - 48)) 0 (leading is_digit str)).

Section requests.
Context {K : Type} `{GuiKernel K, ShellKernel K}.
Abbreviation say s := (shell_write (c_str s)).
Abbreviation tell s := (shell_write (c_line s)).

(** Two words and what is done with them: [arg] is the array that holds [str], and the
    function gets the first word and the array and the string of the rest. *)
Definition with_words (usage : string) (arg str : list Z) (f : list Z → list Z → list Z → M K unit) : M K unit :=
  match two_words str with None => tell usage | Some (w, rest) => f (w ++ [0]) (drop (S (length w)) arg) rest end.
Definition report (what : string) (m : M K bool) : M K unit :=
  ok ← m; tell (what ++ (if ok : bool then " passed." else " failed."))%string.

(** What is done for a request, with the array [arg] that holds the string [str]. *)
Definition perform (polls : nat) (r : request) (arg str : list Z) : M K outcome :=
  match r with
  | Nothing => mret Returns
  | Help => done_ (tell help_text)
  | Clear => done_ sh_terminal_clear
  | About => done_ (_ ← tell "MyOS: 32-bit x86 educational kernel."; tell "Features: IDT, IRQ keyboard, paging, shell, diagnostics.")
  | Mem => done_ shell_command_mem
  | Regs => done_ shell_command_regs
  | Ticks => done_ shell_command_ticks
  | Uptime => done_ shell_command_uptime
  | HeapTest => done_ shell_command_heaptest
  | PagingTest => done_ shell_command_pagingtest
  | UserTest => done_ shell_command_usertest
  | Run => done_ (shell_command_run arg)
  | Gfx => done_ shell_command_gfx
  | Tasks => done_ shell_command_tasks
  | Procs => done_ shell_command_procs
  | Wait => done_ (
      status ← sh_user_process_wait_pid (decimal str);
      if status =? -1 then tell "Process not found."
      else if status =? -2 then tell "Process still running."
      else _ ← say "Process exit code "; _ ← shell_dec 12 (u32 status); tell ".")
  | Reap => done_ shell_command_reap
  | Yield => done_ (_ ← sh_scheduler_yield; shell_command_tasks)
  | Disk => done_ shell_command_disk
  | Ls => done_ shell_command_ls
  | Cat => done_ (shell_command_cat arg)
  | Write => done_ (with_words "Usage: write <path> <text>" arg str (λ path buffer text,
      report "Write" (if bool_decide (text = []) then mret false else k_diskfs_write_file path buffer (Z.of_nat (length text)))))
  | Delete => done_ (report "Delete" (k_diskfs_delete_file arg))
  | Rename => done_ (with_words "Usage: rename <old> <new>" arg str (λ old buffer _, report "Rename" (k_diskfs_rename_file old buffer)))
  | Truncate => done_ (with_words "Usage: truncate <path> <size>" arg str (λ path _ number, report "Truncate" (k_diskfs_truncate_file path (decimal number))))
  | Fsck => done_ shell_command_fsck
  | Pci => done_ shell_command_pci
  | Reboot => _ ← shell_command_reboot polls; mret Restarts
  | Fault => _ ← tell "Triggering page fault..."; mret (Faults 0xDEADBEEF 0x12345678)
  | Unknown => done_ (tell "Unknown command. Type 'help'.")
  end.

(** Computations that do the same from every state. *)
Lemma lift_then {A B} (o : option A) a (f : A → M K B) k : o = Some a → (lift o ≫= f) k = f a k.
Proof. by intros ->. Qed.
Lemma bind_same {A B} (m m' : M K A) (f f' : A → M K B) : (∀ k, m k = m' k) → (∀ a k, f a k = f' a k) → ∀ k, (m ≫= f) k = (m' ≫= f') k.
Proof. intros Hm Hf k. unfold mbind, M_bind. rewrite Hm. by destruct (m' k) as [[a k']|]. Qed.
Lemma done_same (m m' : M K unit) k : (∀ k, m k = m' k) → done_ m k = done_ m' k.
Proof. intros Hm. by apply bind_same. Qed.

Lemma on_word_same l str word (c rest : M K outcome) k : text_in l str → plain word = true → on_word l word c rest k = if bool_decide (str = bytes_of word) then c k else rest k.
Proof.
  intros Ht Hw. destruct (kstrcmp_texts l str (c_str word) (bytes_of word) Ht) as (d & E & Hd); [by apply text_in_app, bytes_plain|].
  unfold on_word, is_command. rewrite E. rewrite (lift_then _ (d =? 0)) by done. destruct (Z.eqb_spec d 0); case_bool_decide; tauto.
Qed.

Lemma starts_with_begins l str pat i : text_in l str → Forall (λ c, c ≠ 0) pat → 0 ≤ i ≤ Z.of_nat (length str) → starts_with l i pat = Some (begins pat (drop (Z.to_nat i) str)).
Proof.
  intros (rest & -> & Hs)%text_in_inv Hp. revert i. induction Hp as [|p pat Hp0 _ IH]; intros i Hi; cbn [starts_with begins]; [done|].
  destruct (aread_text str rest i Hs Hi) as (c & -> & Hc & Hlk). cbn [mbind option_bind]. destruct (decide (i = Z.of_nat (length str))) as [Ei|Hne].
  - rewrite (drop_ge str) by lia. assert (c = 0) as -> by tauto. by destruct (Z.eqb_spec 0 p).
  - rewrite (drop_S _ c (Z.to_nat i)) by (apply Hlk; lia). destruct (c =? p); cbn [andb]; [|done]. rewrite IH by lia. do 3 f_equal. lia.
Qed.
Lemma on_prefix_same l str verb c (rest : M K outcome) k : text_in l str → plain verb = true →
  on_prefix l verb c rest k = if begins (bytes_of verb) str then done_ (c (drop (length (bytes_of verb)) l)) k else rest k.
Proof.
  intros Ht Hw. unfold on_prefix. rewrite (lift_then _ (begins (bytes_of verb) str)); [by destruct (begins _ _)|]. rewrite (starts_with_begins l str) by (done || lia || (eapply Forall_impl; [by apply bytes_plain|]; cbn; lia)). by rewrite drop_0.
Qed.
Lemma begins_app pat str : begins pat str = true → ∃ tail, str = pat ++ tail.
Proof.
  revert str. induction pat as [|p pat IH]; intros str E; [by exists str|]. destruct str as [|c str]; [done|]. cbn in E. apply andb_true_iff in E as [Ec E]. apply Z.eqb_eq in Ec as ->.
  destruct (IH str E) as [tail ->]. by exists tail.
Qed.

(** *** Arguments *)

Lemma leading_bound p str : (length (leading p str) ≤ length str)%nat.
Proof. induction str as [|c str IH]; cbn; [lia|]. destruct (p c); cbn; lia. Qed.

(** first_word takes the first word, cut at 31 characters; the character behind it is a
    space exactly when it was not cut and is not the whole string. *)
Lemma first_word_same args str : text_in args str →
  let w := leading not_space str in let n := Nat.min 31 (length w) in
  first_word 33 args 0 = Some (take 31 w ++ [0], Z.of_nat n) ∧ ∃ c, aread args (Z.of_nat n) = Some c ∧ (c = 32 ↔ (length w ≤ 31)%nat ∧ (length w < length str)%nat).
Proof.
  intros (rest & -> & Hs)%text_in_inv. cbn zeta.
  assert (Hgen : ∀ k pre tail fuel, str = pre ++ tail → (k + length pre = 31)%nat → (k < fuel)%nat →
    first_word fuel (str ++ 0 :: rest) (Z.of_nat (length pre)) = Some (take k (leading not_space tail) ++ [0], Z.of_nat (length pre + Nat.min k (length (leading not_space tail)))) ∧
    ∃ c, aread (str ++ 0 :: rest) (Z.of_nat (length pre + Nat.min k (length (leading not_space tail)))) = Some c ∧
      (c = 32 ↔ (length (leading not_space tail) ≤ k)%nat ∧ (length (leading not_space tail) < length tail)%nat)).
  { intros k. induction k as [|k IH]; intros pre tail fuel Es Hk Hf; (destruct fuel as [|fuel]; [lia|]); cbn [first_word].
    all: destruct (aread_text str rest (Z.of_nat (length pre)) Hs) as (c & E & Hc & Hlk); [rewrite Es, length_app; lia|]; rewrite E; cbn [mbind option_bind].
    all: destruct tail as [|x tail].
    - rewrite app_nil_r in Es. assert (c = 0) as -> by (apply Hc; by rewrite Es). cbn. rewrite Nat.add_0_r. split; [done|]. exists 0. split; [done|]. split; [done|]. lia.
    - assert (c = x) as ->. { specialize (Hlk ltac:(rewrite Es, length_app; cbn; lia)). rewrite Nat2Z.id, Es, list_lookup_middle in Hlk by done. by injection Hlk. }
      rewrite (proj2 (Z.leb_le 32 _)) by lia. rewrite orb_true_r. cbn [take app]. rewrite Nat.add_0_r. split; [done|]. exists x. split; [done|]. cbn [leading]. replace (not_space x) with (negb (x =? 32)) by done. destruct (Z.eqb_spec x 32); cbn; lia.
    - rewrite app_nil_r in Es. assert (c = 0) as -> by (apply Hc; by rewrite Es). cbn. rewrite Nat.add_0_r. split; [done|]. exists 0. split; [done|]. split; [done|]. lia.
    - assert (c = x) as ->. { specialize (Hlk ltac:(rewrite Es, length_app; cbn; lia)). rewrite Nat2Z.id, Es, list_lookup_middle in Hlk by done. by injection Hlk. }
      assert (x ≠ 0). { rewrite Es in Hs. apply Forall_app in Hs as [_ Hs]. apply Forall_cons_1 in Hs as [? _]. lia. }
      rewrite (proj2 (Z.eqb_neq x 0)) by done. rewrite (proj2 (Z.leb_gt 32 _)) by lia. cbn [leading]. replace (not_space x) with (negb (x =? 32)) by done. destruct (Z.eqb_spec x 32) as [->|Hx]; cbn [negb orb].
      + cbn. rewrite Nat.add_0_r. split; [done|]. exists 32. split; [done|]. split; [lia|done].
      + destruct (IH (pre ++ [x]) tail fuel) as [E1 (c & E2 & Hc2)]; [by rewrite <- app_assoc|rewrite length_app; cbn; lia|lia|]. rewrite length_app in E1, E2. cbn [length] in E1, E2.
        replace (Z.of_nat (length pre) + 1) with (Z.of_nat (length pre + 1)) by lia. rewrite E1. cbn [mbind option_bind length take app Nat.min]. replace (length pre + S (Nat.min k (length (leading not_space tail))))%nat with (length pre + 1 + Nat.min k (length (leading not_space tail)))%nat by lia.
        split; [done|]. exists c. split; [done|]. rewrite Hc2. lia. }
  destruct (Hgen 31%nat [] str 33%nat eq_refl eq_refl ltac:(lia)) as [E1 (c & E2 & Hc)]. cbn [length Nat.add] in E1, E2. change (Z.of_nat 0) with 0 in E1. split; [exact E1|]. by exists c.
Qed.

Lemma with_words_same {arg str} (usage : string) (body : list Z → Z → M K unit) f k : typed_line arg str →
  (∀ w rest, two_words str = Some (w, rest) → typed_line (drop (S (length w)) arg) rest → ∀ k, body (w ++ [0]) (Z.of_nat (length w)) k = f (w ++ [0]) (drop (S (length w)) arg) rest k) →
  ('(path, len) ← lift (first_word 33 arg 0); c ← lift (aread arg len); if (len =? 0) || negb (c =? 32) then tell usage else body path len) k = with_words usage arg str f k.
Proof.
  intros Ha Hf. destruct (first_word_same arg str (tl_text _ _ Ha)) as [E1 (c & E2 & Hc)]. unfold with_words. set (w := leading _ str) in *. rewrite (lift_then _ _ _ _ E1), (lift_then _ _ _ _ E2).
  assert (Ew : two_words str = if (0 <? Z.of_nat (length w)) && (Z.of_nat (length w) <=? 31) && (Z.of_nat (length w) <? Z.of_nat (length str)) then Some (w, drop (S (length w)) str) else None) by done.
  destruct (Z.ltb_spec 0 (Z.of_nat (length w))); cbn [andb] in Ew; [|rewrite Ew, (proj2 (Z.eqb_eq _ 0)) by lia; done].
  rewrite (proj2 (Z.eqb_neq _ 0)) by lia. cbn [orb]. destruct (Z.leb_spec (Z.of_nat (length w)) 31); cbn [andb] in Ew; [|rewrite Ew, (proj2 (Z.eqb_neq c 32)) by (intros ?; assert (length w ≤ 31)%nat by tauto; lia); done].
  destruct (Z.ltb_spec (Z.of_nat (length w)) (Z.of_nat (length str))); [|rewrite Ew, (proj2 (Z.eqb_neq c 32)) by (intros ?; assert (length w < length str)%nat by tauto; lia); done].
  rewrite Ew, (proj2 (Z.eqb_eq c 32)) by (apply Hc; lia). cbn [negb]. rewrite take_ge, Nat.min_r by lia. apply Hf; [done|]. apply typed_drop; [done|lia].
Qed.

Lemma parse_u32_same buf str : text_in buf str → parse_u32 buf = Some (decimal str).
Proof.
  intros (rest & -> & Hs)%text_in_inv. unfold parse_u32, decimal.
  assert (Hgen : ∀ tail pre fuel v, str = pre ++ tail → (length tail < fuel)%nat → is_u32 v → ∀ v', u32 v' = v →
    parse_u32_loop fuel (str ++ 0 :: rest) (Z.of_nat (length pre)) v = Some (u32 (foldl (λ v c, v * 10 + (c - 48)) v' (leading is_digit tail)))).
  { intros tail. induction tail as [|x tail IH]; intros pre fuel v Es Hf Hv v' Ev; (destruct fuel as [|fuel]; [cbn in Hf; lia|]); cbn [parse_u32_loop].
    - rewrite app_nil_r in Es. subst str. rewrite aread_app_end. cbn. by rewrite Ev.
    - assert (E : aread (str ++ 0 :: rest) (Z.of_nat (length pre)) = Some x) by (apply aread_Some; split; [lia|]; rewrite Nat2Z.id, Es, <- app_assoc; by apply list_lookup_middle).
      rewrite E. cbn [mbind option_bind leading]. replace (is_digit x) with ((48 <=? x) && (x <=? 57)) by done. destruct (_ && _) eqn:Ed; [|cbn; by rewrite Ev]. cbn [foldl]. replace (Z.of_nat (length pre) + 1) with (Z.of_nat (length (pre ++ [x]))) by (rewrite length_app; cbn; lia).
      apply IH; [by rewrite <- app_assoc|cbn in Hf; lia|apply u32_range|]. rewrite <- Ev. unfold u32. change (2 ^ 32) with 4294967296. Z.to_euclidean_division_equations. lia. }
  apply (Hgen str [] _ 0); [done|rewrite length_app; cbn; lia|done|done].
Qed.

Lemma report_same what (m : M K bool) k : (ok ← m; if ok : bool then tell (what ++ " passed.")%string else tell (what ++ " failed.")%string) k = report what m k.
Proof. apply bind_same; [done|]. by intros []. Qed.

Lemma wait_same polls arg str k : typed_line arg str → done_ (shell_command_wait arg) k = perform polls Wait arg str k.
Proof. intros Ha. apply done_same. clear k. intros k. unfold shell_command_wait. by rewrite (lift_then _ _ _ _ (parse_u32_same arg str (tl_text _ _ Ha))). Qed.
Lemma write_same polls arg str k : typed_line arg str → done_ (shell_command_write arg) k = perform polls Write arg str k.
Proof.
  intros Ha. apply done_same. clear k. intros k. apply with_words_same; [done|]. intros w rest _ Hr k'. cbn beta zeta. replace (Z.to_nat (Z.of_nat (length w) + 1)) with (S (length w)) by lia.
  rewrite (lift_then _ _ _ _ (kstrlen_text _ _ (tl_text _ _ Hr))). pose proof (tl_len _ _ Hr) as Hl. rewrite u32_small by (unfold is_u32; lia). apply bind_same; [|by intros []].
  intros k2. destruct rest as [|c rest]; [done|]. rewrite (proj2 (Z.eqb_neq _ 0)) by (cbn; lia). by rewrite bool_decide_eq_false_2.
Qed.
Lemma rename_same polls arg str k : typed_line arg str → done_ (shell_command_rename arg) k = perform polls Rename arg str k.
Proof.
  intros Ha. apply done_same. clear k. intros k. apply with_words_same; [done|]. intros w rest _ Hr k'. cbn beta. replace (Z.to_nat (Z.of_nat (length w) + 1)) with (S (length w)) by lia. exact (report_same "Rename" _ _).
Qed.
Lemma truncate_same polls arg str k : typed_line arg str → done_ (shell_command_truncate arg) k = perform polls Truncate arg str k.
Proof.
  intros Ha. apply done_same. clear k. intros k. apply with_words_same; [done|]. intros w rest _ Hr k'. cbn beta. replace (Z.to_nat (Z.of_nat (length w) + 1)) with (S (length w)) by lia.
  rewrite (lift_then _ _ _ _ (parse_u32_same _ _ (tl_text _ _ Hr))). exact (report_same "Truncate" _ _).
Qed.
Lemma delete_same polls arg str k : typed_line arg str → done_ (shell_command_delete arg) k = perform polls Delete arg str k.
Proof. intros _. apply done_same. clear k. intros k. exact (report_same "Delete" _ _). Qed.

Lemma run_same polls arg str k : typed_line arg str → done_ (shell_command_run arg) k = perform polls Run arg str k.
Proof. done. Qed.
Lemma cat_same polls arg str k : typed_line arg str → done_ (shell_command_cat arg) k = perform polls Cat arg str k.
Proof. done. Qed.

Ltac verb_ r n L := match goal with Hl : typed_line ?l ?str, Hv : begins _ ?str = true |- _ => let tail := fresh "tail" in destruct (begins_app _ _ Hv) as [tail ->];
  match goal with |- context [request_of ?x] => let E := fresh in assert (E : request_of x = (r, n)) by reflexivity; rewrite E; clear E; cbn [fst snd]; apply L; apply (typed_drop _ _ _ Hl); rewrite length_app; cbn; lia end end.
Ltac next_ := match goal with
  | |- (if bool_decide (?str = bytes_of ?w) then _ else _) = _ => let E := fresh "Hw" in destruct (decide (str = bytes_of w)) as [E|E];
      [rewrite bool_decide_eq_true_2 by exact E; subst str; reflexivity|rewrite bool_decide_eq_false_2 by exact E]
  | |- (if begins ?v ?str then _ else _) = _ => let E := fresh "Hv" in destruct (begins v str) eqn:E
  end.

(** shell_execute does what the line asks for. *)
Lemma shell_execute_same polls l str k : typed_line l str →
  shell_execute polls l k = perform polls (fst (request_of str)) (drop (snd (request_of str)) l) (drop (snd (request_of str)) str) k.
Proof.
  intros Hl. pose proof Hl as [Ht _ _]. unfold shell_execute. destruct (text_in_inv _ _ Ht) as (rest & E & Hs). destruct (aread_text str rest 0 Hs ltac:(lia)) as (c & Ec & Hc & _).
  rewrite E in *. rewrite (lift_then _ _ _ _ Ec), <- E in *. destruct (Z.eqb_spec c 0) as [->|Hc0].
  { destruct str; [done|]. exfalso. assert (0 = Z.of_nat (length (z :: str))) by tauto. done. }
  assert (Hne : str ≠ []) by (intros ->; tauto). clear E Ec Hc Hs.
  repeat first [rewrite (on_word_same l str) by done|rewrite (on_prefix_same l str) by done].
  do 10 next_. next_; [verb_ Run 4%nat run_same|]. next_; [verb_ Run 6%nat run_same|]. do 3 next_. next_; [verb_ Wait 5%nat wait_same|]. do 4 next_. next_; [verb_ Cat 4%nat cat_same|].
  next_; [verb_ Write 6%nat write_same|]. next_; [verb_ Delete 7%nat delete_same|]. next_; [verb_ Rename 7%nat rename_same|]. next_; [verb_ Truncate 9%nat truncate_same|]. do 4 next_.
  assert (Er : request_of str = (Unknown, 0%nat)); [|by rewrite Er].
  unfold request_of, words, verbs. cbn [find_word find_verb]. rewrite !bool_decide_eq_false_2 by done. repeat match goal with Hv : begins _ _ = false |- _ => rewrite Hv; clear Hv end. done.
Qed.
End requests.

(** ** Reading a line *)

(** [pending k keys]: the characters that keyboard_read_char will return, in this order. *)
Class ShellKeys (K : Type) := { pending : K → list Z → Prop }.
(** What the shell prints while a line is typed does not change them. *)
Definition echoes {K} `{GuiFiles K, ShellKeys K} (m : M K unit) : Prop :=
  ∀ keys k, kernel_ok k → pending k keys → wp m (λ _ k', kernel_ok k' ∧ pending k' keys) k.
Class ShellKeysLaws (K : Type) `{GuiKernel K, GuiFiles K, ShellKernel K, ShellKeys K} := {
  read_char_law c keys k : kernel_ok k → pending k (c :: keys) → wp sh_keyboard_read_char (λ c' k', c' = c ∧ kernel_ok k' ∧ pending k' keys) k;
  putchar_echoes c : echoes (sh_terminal_putchar c);
  serial_char_echoes c : echoes (sh_serial_write_char c);
  writestring_echoes t : is_text t → echoes (sh_terminal_writestring t);
  serial_echoes t : is_text t → echoes (k_serial_writestring t);
  color_echoes c : echoes (sh_terminal_set_color c) }.

(** The text of a line after one more key: the backspace key removes the last character,
    one that can be printed is added while there is room for it and the terminator, and
    the other keys do nothing. *)
Definition edit_key (size : Z) (text : list Z) (c : Z) : list Z :=
  if c =? 8 then removelast text
  else if (32 <=? c) && (c <=? 126) && (Z.of_nat (length text) + 1 <? size) then text ++ [c] else text.
Definition edited (size : Z) (keys : list Z) : list Z := foldl (edit_key size) [] keys.

(** The array and the length of shell_readline hold a text. *)
Record holds (size : Z) (st : list Z * Z) (text : list Z) : Prop := {
  ho_len : st.2 = Z.of_nat (length text); ho_room : Z.of_nat (length text) < size; ho_buf : ∃ rest, st.1 = text ++ rest;
  ho_size : Z.of_nat (length st.1) = size; ho_bytes : Forall is_u8 st.1; ho_text : Forall (λ c, 0 < c < 256) text }.

Lemma holds_add size buffer text c : holds size (buffer, Z.of_nat (length text)) text → 32 ≤ c ≤ 126 → Z.of_nat (length text) + 1 < size →
  ∃ buffer', awrite buffer (Z.of_nat (length text)) c = Some buffer' ∧ holds size (buffer', Z.of_nat (length text) + 1) (text ++ [c]).
Proof.
  intros [_ Hr [rest Hb] Hs Hu Ht] Hc Hlt. cbn in *. subst buffer. destruct rest as [|r rest]; [rewrite app_nil_r in Hs; lia|]. rewrite awrite_eq by (rewrite length_app; cbn; lia). eexists. split; [reflexivity|].
  rewrite Nat2Z.id, insert_app_r_alt by lia. rewrite Nat.sub_diag. cbn [insert list_insert]. rewrite length_app in Hs. cbn in Hs. apply Forall_app in Hu as [Hu1 Hu2]. apply Forall_cons_1 in Hu2 as [_ Hu2].
  split; cbn.
  - rewrite length_app. cbn. lia.
  - rewrite length_app. cbn. lia.
  - exists rest. by rewrite <- app_assoc.
  - rewrite length_app. cbn. lia.
  - apply Forall_app. split; [done|]. constructor; [unfold is_u8; lia|done].
  - apply Forall_app. split; [done|]. constructor; [lia|constructor].
Qed.

Lemma holds_back size buffer text : holds size (buffer, Z.of_nat (length text)) text → holds size (buffer, Z.of_nat (length (removelast text))) (removelast text).
Proof.
  intros [_ Hr [rest Hb] Hs Hu Ht]. cbn in *. destruct text as [|x text _] using rev_ind; [split; cbn; eauto|]. rewrite removelast_app by done. cbn. rewrite app_nil_r. rewrite length_app in Hr. cbn in Hr.
  apply Forall_app in Ht as [Ht _]. split; cbn; [done|lia| |done|done|done]. exists (x :: rest). by rewrite Hb, <- app_assoc.
Qed.

(** The end of the line. *)
Lemma holds_end size buffer text : holds size (buffer, Z.of_nat (length text)) text →
  ∃ buffer', awrite buffer (Z.of_nat (length text)) 0 = Some buffer' ∧ text_in buffer' text ∧ Forall is_u8 buffer' ∧ Z.of_nat (length buffer') = size.
Proof.
  intros [_ Hr [rest Hb] Hs Hu Ht]. cbn in *. subst buffer. destruct rest as [|r rest]; [rewrite app_nil_r in Hs; lia|]. rewrite awrite_eq by (rewrite length_app; cbn; lia). eexists. split; [reflexivity|].
  rewrite Nat2Z.id, insert_app_r_alt by lia. rewrite Nat.sub_diag. cbn [insert list_insert]. rewrite length_app in *. cbn in *. apply Forall_app in Hu as [Hu1 Hu2]. apply Forall_cons_1 in Hu2 as [_ Hu2].
  split; [by apply text_in_app|]. split; [apply Forall_app; split; [done|]; constructor; done|]. lia.
Qed.

Section reading.
Context {K : Type} `{ShellKeysLaws K}.

Lemma echoes_bind (m1 m2 : M K unit) : echoes m1 → echoes m2 → echoes (_ ← m1; m2).
Proof. intros H1' H2' keys k Hk Hp. apply wp_bind. eapply wp_mono; [by apply H1'|]. intros [] k' [Hk' Hp']. by apply H2'. Qed.
Lemma write_echoes t : is_text t → echoes (shell_write t).
Proof. intros Ht. apply echoes_bind; [by apply writestring_echoes|by apply serial_echoes]. Qed.
Lemma prompt_echoes : echoes shell_prompt.
Proof. apply echoes_bind; [apply color_echoes|]. apply echoes_bind; [by apply write_echoes, c_str_text|apply color_echoes]. Qed.
(** After an echo the rest of a computation. *)
Lemma echo_then {B} (m : M K unit) (f : unit → M K B) keys Q k : echoes m → kernel_ok k → pending k keys → (∀ k', kernel_ok k' → pending k' keys → wp (f tt) Q k') → wp (m ≫= f) Q k.
Proof. intros Hm Hk Hp Hf. apply wp_bind. eapply wp_mono; [by apply (Hm keys)|]. intros [] k' [? ?]. by apply Hf. Qed.

Definition is_key (c : Z) : Prop := is_u8 c ∧ c ≠ 10.
Lemma is_key_i8 c : is_key c → ((i8 c <? 32) || (126 <? i8 c)) = negb ((32 <=? c) && (c <=? 126)).
Proof.
  intros [[? ?] _]. unfold i8. change (2 ^ 8) with 256. change (2 ^ 7) with 128. assert ((c + 128) mod 256 - 128 = c ∨ 128 ≤ c ∧ (c + 128) mod 256 - 128 < 32) as [-> | [? ?]].
  { destruct (Z.ltb_spec c 128); [left; rewrite Z.mod_small; lia|right]. replace (c + 128) with (c - 128 + 1 * 256) by lia. rewrite Z_mod_plus_full, Z.mod_small; lia. }
  - destruct (c <? 32) eqn:?, (126 <? c) eqn:?, (32 <=? c) eqn:?, (c <=? 126) eqn:?; bool_to_prop; try done; lia.
  - rewrite (proj2 (Z.ltb_lt _ 32)) by done. rewrite (proj2 (Z.leb_gt c 126)) by lia. by rewrite andb_false_r.
Qed.

(** One key. *)
Lemma shell_key_edits size c buffer text keys k : holds size (buffer, Z.of_nat (length text)) text → size < 2 ^ 32 → is_key c → kernel_ok k → pending k keys →
  wp (shell_key size c (buffer, Z.of_nat (length text))) (λ r k', (kernel_ok k' ∧ pending k' keys) ∧ ∃ st, r = inl st ∧ holds size st (edit_key size text c)) k.
Proof.
  intros Hh Hsz Hc Hk Hp. pose proof (ho_room _ _ _ Hh) as Hr. unfold shell_key, edit_key. rewrite (proj2 (Z.eqb_neq c 10)) by apply Hc. destruct (Z.eqb_spec c 8) as [->|].
  - pose proof (holds_back _ _ _ Hh) as Hb. destruct (Z.ltb_spec 0 (Z.of_nat (length text))).
    + do 4 (eapply echo_then; [first [apply putchar_echoes|apply serial_char_echoes]|done|done|]; clear dependent k; intros k Hk Hp). apply wp_ret. split; [done|]. eexists. split; [reflexivity|].
      rewrite u32_small by (unfold is_u32; lia). destruct text as [|x text _] using rev_ind; [done|]. rewrite removelast_last in Hb |- *. rewrite length_app. cbn [length]. replace (_ - 1) with (Z.of_nat (length text)) by lia. done.
    + apply wp_ret. split; [done|]. eexists. split; [reflexivity|]. by destruct text.
  - rewrite is_key_i8 by done. destruct (_ && _) eqn:Ec; cbn [negb andb]; [|apply wp_ret; split; [done|]; by eexists]. bool_to_prop.
    rewrite u32_small by (unfold is_u32; lia). destruct (Z.ltb_spec (Z.of_nat (length text) + 1) size); [|apply wp_ret; split; [done|]; by eexists].
    destruct (holds_add size buffer text c Hh ltac:(lia) ltac:(lia)) as (buffer' & E & Hh'). apply wp_bind. eapply wp_lift; [exact E|].
    do 2 (eapply echo_then; [first [apply putchar_echoes|apply serial_char_echoes]|done|done|]; clear dependent k; intros k Hk Hp). apply wp_ret. split; [done|]. by eexists.
Qed.

Lemma readline_from fuel size keys later buffer text k : holds size (buffer, Z.of_nat (length text)) text → size < 2 ^ 32 → Forall is_key keys → (length keys < fuel)%nat → kernel_ok k → pending k (keys ++ 10 :: later) →
  wp (iterate fuel (λ st, c ← sh_keyboard_read_char; shell_key size c st) (buffer, Z.of_nat (length text)))
    (λ buffer' k', (kernel_ok k' ∧ pending k' later) ∧ (∃ st, holds size st (foldl (edit_key size) text keys)) ∧ text_in buffer' (foldl (edit_key size) text keys) ∧ Forall is_u8 buffer' ∧ Z.of_nat (length buffer') = size) k.
Proof.
  intros Hh Hsz Hkeys. revert fuel buffer text k Hh. induction Hkeys as [|c keys Hc _ IH]; intros fuel buffer text k Hh Hf Hk Hp; (destruct fuel as [|fuel]; [cbn in Hf; lia|]); cbn [iterate]; apply wp_bind, wp_bind.
  - eapply wp_mono; [by apply (read_char_law 10 later)|]. intros c k1 (-> & Hk1 & Hp1). unfold shell_key. rewrite Z.eqb_refl. destruct (holds_end _ _ _ Hh) as (buffer' & E & Ht & Hu & Hl).
    eapply echo_then; [by apply write_echoes, (char_text 10)|done|exact Hp1|]. intros k2 Hk2 Hp2. apply wp_bind. eapply wp_lift; [exact E|]. apply wp_ret, wp_ret. split; [done|]. split; [by eexists|done].
  - eapply wp_mono; [by apply (read_char_law c (keys ++ 10 :: later))|]. intros c' k1 (-> & Hk1 & Hp1). eapply wp_mono; [by apply shell_key_edits|]. intros r k2 ([Hk2 Hp2] & [buffer2 n] & -> & Hh2).
    pose proof (ho_len _ _ _ Hh2) as En. cbn in En. subst n. cbn [foldl]. apply IH; [done|cbn in Hf; lia|done|done].
Qed.

Lemma holds_start size buffer : Z.of_nat (length buffer) = size → 0 < size → Forall is_u8 buffer → holds size (buffer, Z.of_nat (length (A := Z) [])) [].
Proof. intros Hl Hs Hu. split; cbn; [done|lia|by exists buffer|done|done|constructor]. Qed.

(** C8. shell_readline is an editor of one line: for every sequence of keys before the enter
    key it returns, the array then holds, with its terminator inside the array, the text that the keys
    give one after the other, and the keys after it are still to be read. *)
Theorem shell_readline_edits fuel size keys later buffer k : Z.of_nat (length buffer) = size → 0 < size < 2 ^ 32 → Forall is_u8 buffer → Forall is_key keys → (length keys < fuel)%nat → kernel_ok k → pending k (keys ++ 10 :: later) →
  wp (shell_readline fuel buffer size) (λ buffer' k', kernel_ok k' ∧ pending k' later ∧ Z.of_nat (length buffer') = size ∧
    cstring buffer' = Some (edited size keys) ∧ Z.of_nat (length (edited size keys)) < size) k.
Proof.
  intros Hl Hs Hu Hkeys Hf Hk Hp. eapply wp_mono; [apply (readline_from fuel size keys later buffer []); [apply holds_start; [done|lia|done]|lia|done|done|done|done]|].
  intros buffer' k' ([Hk' Hp'] & [st Hh] & [Ht _] & _ & Hl'). split_and!; try done. apply Hh.
Qed.

(** A round up to the execution of the line. *)
Lemma round_reads fuel polls keys later buffer k : length buffer = 80%nat → Forall is_u8 buffer → Forall is_key keys → (length keys < fuel)%nat → kernel_ok k → pending k (keys ++ 10 :: later) →
  ∃ buffer' k2, (kernel_ok k2 ∧ pending k2 later) ∧ length buffer' = 80%nat ∧ typed_line buffer' (edited SHELL_LINE_SIZE keys) ∧
    shell_round fuel polls buffer k = (r ← shell_execute polls buffer'; mret (r, buffer')) k2.
Proof.
  intros Hl Hu Hkeys Hf Hk Hp. destruct (prompt_echoes _ k Hk Hp) as ([] & k1 & E1 & Hk1 & Hp1).
  destruct (readline_from fuel 80 keys later buffer [] k1) as (buffer' & k2 & E2 & Hk2 & [st Hh] & Ht & Hu' & Hl'); [apply holds_start; [lia|lia|done]|lia|done|done|done|done|].
  exists buffer', k2. split; [done|]. split; [lia|]. split; [split; [done|pose proof (ho_room _ _ _ Hh); unfold edited, SHELL_LINE_SIZE; lia|done]|].
  unfold shell_round. unfold mbind at 1, M_bind at 1. rewrite E1. unfold mbind at 1, M_bind at 1. unfold shell_readline, SHELL_LINE_SIZE. change (Z.of_nat (length (A := Z) [])) with 0 in E2. by rewrite E2.
Qed.

(** C7. One round of the shell does what was typed. For every sequence of keys before the
    enter key, the line that the keys give is read, and the round then is, from every
    state and also where a called function does not return, exactly what the line asks for:
    the request that [request_of] gives for the line, by a table of the words and of the
    verbs with an argument, with the argument behind the space. The arguments are told
    as strings ([perform]): write, rename and truncate take a first word of 1 to 31
    characters and what is behind the space, and say how they are used otherwise;
    truncate and wait take the decimal number at the start of the argument modulo 2^32.
    Assumed of the rest of the kernel is only what happens while the line is read: the
    keyboard delivers the characters in order, and printing them returns and changes
    neither the order of the kernel nor the characters that wait ([ShellKeysLaws]). *)
Theorem shell_round_obeys fuel polls keys later buffer k : length buffer = 80%nat → Forall is_u8 buffer → Forall is_key keys → (length keys < fuel)%nat → kernel_ok k → pending k (keys ++ 10 :: later) →
  let str := edited SHELL_LINE_SIZE keys in let r := request_of str in
  ∃ buffer' k2, kernel_ok k2 ∧ pending k2 later ∧ length buffer' = 80%nat ∧ Forall is_u8 buffer' ∧ cstring buffer' = Some str ∧
    shell_round fuel polls buffer k = (o ← perform polls (fst r) (drop (snd r) buffer') (drop (snd r) str); mret (o, buffer')) k2.
Proof.
  intros Hl Hu Hkeys Hf Hk Hp str r. destruct (round_reads fuel polls keys later buffer k Hl Hu Hkeys Hf Hk Hp) as (buffer' & k2 & [Hk2 Hp2] & Hl2 & Hty & E). exists buffer', k2.
  split_and!; try done; [apply Hty|apply Hty|]. rewrite E. unfold mbind, M_bind. by rewrite (shell_execute_same polls buffer' str k2 Hty).
Qed.
End reading.

(** Where every called function returns and keeps the kernel in order ([ShellLaws]), the
    programs that are run end, no file has exactly the size of the read buffer and the
    keyboard controller takes the reset command, a round returns whatever the line says,
    and only the lines reboot and fault leave the loop. *)
Lemma shell_round_returns {K} `{ShellLaws K} `{!ShellKeys K, !ShellKeysLaws K} fuel polls keys later buffer (k : K) : short_files (K := K) → length buffer = 80%nat → Forall is_u8 buffer → Forall is_key keys →
  (length keys < fuel)%nat → kernel_ok k → pending k (keys ++ 10 :: later) → (0 < polls)%nat → runs (sh_inb 0x64) (λ s, Z.land s 0x02 = 0) →
  wp (shell_round fuel polls buffer) (λ r k', kernel_ok k' ∧ r.1 = outcome_of (edited SHELL_LINE_SIZE keys) ∧ length r.2 = 80%nat) k.
Proof.
  intros Hsh Hl Hu Hkeys Hf Hk Hp Hpolls Hr. destruct (round_reads fuel polls keys later buffer k Hl Hu Hkeys Hf Hk Hp) as (buffer' & k2 & [Hk2 _] & Hl2 & Hty & E).
  destruct (shell_execute_runs polls buffer' _ Hsh Hty Hpolls Hr k2 Hk2) as (r & k3 & E3 & Hk3 & ->). eexists _, k3. split; [rewrite E; unfold mbind, M_bind; by rewrite E3|]. done.
Qed.

(** ** A shell that runs

    The small kernel of GuiDemo with the operations of the shell: the keys are those of
    its event queue, the terminal prints on the serial line only, and memory between two
    addresses can be accessed but keeps nothing. *)

(** An access to the [n] bytes at [a], and its answer. *)
Definition small_block (a n : Z) : bool := (0x1000 <=? a) && (a + n <=? 0x50000000).
Definition small_access {A} (a n : Z) (v : A) : M small_kernel A := if small_block a n then mret v else stuck.

#[export] Instance small_shell : ShellKernel small_kernel := {|
  sh_number q := mret (match q with user_process_count => 1 | pci_device_count => 3 | _ => 7 end);
  sh_field _ _ := mret 1;
  sh_label _ _ := mret (c_str "ready");
  sh_flag _ := mret true;
  sh_terminal_writestring text := _ ← sk_string text; mret tt;
  sh_terminal_write _ _ := mret tt;
  sh_terminal_putchar _ := mret tt;
  sh_terminal_set_color _ := mret tt;
  sh_terminal_clear := mret tt;
  sh_serial_write_char c := modify (λ k, set_sk_serial (sk_serial k ++ [c]) k);
  sh_keyboard_read_char := q ← gets sk_queue; match q with [] => stuck | e :: q => _ ← modify (set_sk_queue q); mret (ev_key e) end;
  sh_scheduler_yield := mret tt;
  sh_user_process_wait_pid _ := mret (-1);
  sh_user_process_reap_exited := mret 0;
  sh_kmalloc n := mret (if n <=? 0x10000 then 0x1000 else 0);
  sh_kmalloc_aligned _ _ := mret 0x2000;
  sh_kfree _ := mret tt;
  sh_load n a := small_access a (Z.of_nat n) 0x55;
  sh_store n a _ := small_access a (Z.of_nat n) tt;
  sh_ata_read_sector _ a := small_access a 512 true;
  sh_pmm_alloc_page := mret 0x3000;
  sh_pmm_free_page _ := mret tt;
  sh_paging_map_page v _ _ := mret (small_block v 4096);
  sh_paging_get_physical _ := mret 0x3000;
  sh_paging_unmap_page _ := mret tt;
  sh_usermode_run_test := mret 42;
  sh_usermode_run_program _ := mret 0;
  sh_inb _ := mret 0x1C;
  sh_outb _ _ := mret tt |}.
#[export] Instance small_blocks : ShellBlocks small_kernel := {| may_access _ b n := 0x1000 ≤ b ∧ b + n ≤ 0x50000000 |}.
#[export] Instance small_keys : ShellKeys small_kernel := {| pending k keys := ev_key <$> sk_queue k = keys |}.

Lemma small_ret_calm {A} (a : A) (R : A → Prop) : R a → calm (mret a : M small_kernel A) R.
Proof. intros Ha k Hk. apply wp_ret. split; [|done]. split_and!; [by apply goes_on_refl|by intros p c|done]. Qed.
Lemma small_ret_total {A} (a : A) (R : A → Prop) : R a → total (mret a : M small_kernel A) R.
Proof. intros Ha k Hk. apply wp_ret. split; [by apply goes_on_refl|done]. Qed.
Lemma small_quiet_calm {A} (m : M small_kernel A) R : quiet m R → calm m R.
Proof. intros Hm k Hk. eapply wp_mono; [by apply Hm|]. intros a k' [[? ?] ?]. split; [|done]. split_and!; auto. Qed.
Lemma small_string_calm t : is_text t → calm (_ ← sk_string t; mret tt) anything.
Proof. intros (str & Ht & _) k Hk. apply wp_bind. eapply sk_string_wp; [exact Ht|]. by apply (small_ret_calm tt). Qed.
Lemma small_access_wp {A} a n (v : A) (Q : A → small_kernel → Prop) k : 0x1000 ≤ a → a + n ≤ 0x50000000 → Q v k → wp (small_access a n v) Q k.
Proof. intros Ha Hn HQ. unfold small_access, small_block. rewrite (proj2 (Z.leb_le _ _) Ha), (proj2 (Z.leb_le _ _) Hn). by apply wp_ret. Qed.
Lemma small_serial_ok k s : small_ok k → small_ok (set_sk_serial s k).
Proof. intros []. by split. Qed.

#[export, program] Instance small_shell_laws : ShellLaws small_kernel.
Next Obligation. intros q. apply small_ret_calm. by destruct q. Qed.
Next Obligation. intros q Hq. apply small_ret_calm. destruct Hq as [-> |[-> | ->]]; lia. Qed.
Next Obligation. intros q i Hi. by apply small_ret_calm. Qed.
Next Obligation. intros q i Hi. by apply small_ret_calm, c_str_text. Qed.
Next Obligation. intros q. by apply small_ret_calm. Qed.
Next Obligation. intros t Ht. by apply small_string_calm. Qed.
Next Obligation. intros t Ht. by apply small_quiet_calm, serial_quiet. Qed.
Next Obligation. intros. by apply small_ret_calm. Qed.
Next Obligation. intros. by apply small_ret_calm. Qed.
Next Obligation. intros. by apply small_ret_calm. Qed.
Next Obligation. intros. by apply small_ret_calm. Qed.
Next Obligation. intros c k Hk. apply wp_modify. split; [|done]. split_and!; [split; [by apply small_serial_ok|done]|by intros p x Hp|done]. Qed.
Next Obligation. by apply small_ret_calm. Qed.
Next Obligation. intros pid Hp. by apply small_ret_calm. Qed.
Next Obligation. by apply small_ret_calm. Qed.
Next Obligation. intros n k Hk. apply wp_ret. split; [by apply goes_on_refl|]. split; [done|]. cbn. destruct (Z.leb_spec n 0x10000); [right|by left]. lia. Qed.
Next Obligation. intros n al k Hk. apply wp_ret. split; [by apply goes_on_refl|done]. Qed.
Next Obligation. intros. by apply small_ret_total. Qed.
Next Obligation. intros n a b l k Hk [Hb Hl] Ha Hn. apply small_access_wp; [lia|lia|]. split; [by apply goes_on_refl|done]. Qed.
Next Obligation. intros n a v b l k Hk [Hb Hl] Ha Hn. apply small_access_wp; [lia|lia|]. split; [by apply goes_on_refl|done]. Qed.
Next Obligation. intros a k Hk [Hb Hl]. apply small_access_wp; [lia|lia|]. split; [by apply goes_on_refl|done]. Qed.
Next Obligation. by apply small_ret_total. Qed.
Next Obligation. intros. by apply small_ret_total. Qed.
Next Obligation. intros v p f k Hk. apply wp_ret. split; [by apply goes_on_refl|]. unfold small_block. intros ?. bool_to_prop. cbn. lia. Qed.
Next Obligation. intros. by apply small_ret_total. Qed.
Next Obligation. intros. by apply small_ret_total. Qed.
Next Obligation. by apply small_ret_total. Qed.
Next Obligation. intros. by apply small_ret_total. Qed.
Next Obligation. intros. by apply small_ret_total. Qed.

#[export, program] Instance small_keys_laws : ShellKeysLaws small_kernel.
Next Obligation.
  intros c keys k Hk Hp. cbn in *. destruct (sk_queue k) as [|e q] eqn:E; [done|]. cbn in Hp. injection Hp as Hc Hq. apply wp_bind, wp_gets. rewrite E. apply wp_bind, wp_modify, wp_ret. split; [done|]. split; [|done].
  destruct Hk as [? ? ? ? Hev]. rewrite E in Hev. apply Forall_cons_1 in Hev as [_ Hev]. by split.
Qed.
Next Obligation. intros c keys k Hk Hp. by apply wp_ret. Qed.
Next Obligation. intros c keys k Hk Hp. apply wp_modify. split; [by apply small_serial_ok|done]. Qed.
Next Obligation. intros t (str & Ht & _) keys k Hk Hp. apply wp_bind. eapply sk_string_wp; [exact Ht|]. by apply wp_ret. Qed.
Next Obligation. intros t (str & Ht & _) keys k Hk Hp. apply wp_bind. eapply sk_string_wp; [exact Ht|]. apply wp_modify. split; [by apply small_serial_ok|done]. Qed.
Next Obligation. intros c keys k Hk Hp. by apply wp_ret. Qed.

(** A user who mistypes a command and corrects it. *)
Definition demo_keys : list Z := bytes_of "catt" ++ [8; 27] ++ bytes_of " hello.txt".
Definition typing_kernel : small_kernel := set_sk_queue (event GUI_EVENT_KEY 0 0 <$> demo_keys ++ [10; 120]) demo_kernel.
Lemma typing_kernel_ok : small_ok typing_kernel.
Proof.
  destruct demo_kernel_ok as [? ? ? ? _]. split; [done|done|done|done|]. unfold typing_kernel. cbn [sk_queue set_sk_queue]. apply Forall_fmap. eapply (Forall_impl is_u8); [by repeat constructor|]. intros c Hc. split; [cbn; unfold on_screen; cbn; lia|done].
Qed.
Lemma typing_pending : pending typing_kernel (demo_keys ++ [10; 120]).
Proof. reflexivity. Qed.
Lemma demo_keys_ok : Forall is_key demo_keys.
Proof. by repeat constructor. Qed.
Lemma demo_buffer_ok : Forall is_u8 (replicate 80 170).
Proof. by apply Forall_replicate. Qed.

Lemma shell_readline_edits_witness : ∃ buffer k', shell_readline 17 (replicate 80 170) 80 typing_kernel = Some (buffer, k') ∧
  cstring buffer = Some (bytes_of "cat hello.txt") ∧ pending k' [120].
Proof.
  destruct (shell_readline_edits 17 80 demo_keys [120] (replicate 80 170) typing_kernel eq_refl ltac:(lia) demo_buffer_ok demo_keys_ok ltac:(vm_compute; lia) typing_kernel_ok typing_pending) as (buffer & k' & E & _ & Hp & _ & Ht & _).
  exists buffer, k'. split; [exact E|]. split; [|exact Hp]. rewrite Ht. vm_compute. reflexivity.
Defined.

Lemma shell_round_obeys_witness : ∃ buffer' k2, pending k2 [120] ∧ cstring buffer' = Some (bytes_of "cat hello.txt") ∧
  shell_round 17 1 (replicate 80 170) typing_kernel = (o ← perform 1 Cat (drop 4 buffer') (bytes_of "hello.txt"); mret (o, buffer')) k2.
Proof.
  destruct (shell_round_obeys 17 1 demo_keys [120] (replicate 80 170) typing_kernel eq_refl demo_buffer_ok demo_keys_ok ltac:(vm_compute; lia) typing_kernel_ok typing_pending) as (buffer' & k2 & _ & Hp & _ & _ & Ht & E).
  exists buffer', k2. refine (conj Hp (conj _ E)). rewrite Ht. vm_compute. reflexivity.
Defined.
